(* ===== verification/_CoqProject ===== *)
-Q . S2P
Prelude.v
MachineInt.v
StableSort.v
OrdMap.v
RustStr.v
Protocol.v
Timeout.v
Bms.v
Powertrain.v
Gateway.v
Dashboard.v
OtaSlot.v
Plant.v
Ecu.v
Firmware.v
Validate.v
Json.v
TraceHash.v
Runner.v
Invariants.v
Determinism.v
Summary.v
Lane.v
OtaLane.v
ChargingLane.v
DiagnosticsLane.v
TelematicsLane.v
TopologyLane.v
TomlZooLane.v
SimfarmLane.v
DebugGym.v
Corpus.v
HarnessArgs.v
Harness.v
Main.v
FrontEnd.v
Build.v
CBase.v
CProtocol.v
CFirmware.v
CTables.v
CMonitors.v
COtaSlot.v
CCharging.v
CFrames.v
CTask.v
CDashboard.v
CDashboardEcu.v
CBmsEcu.v
CPowertrainEcu.v
CGatewayEcu.v
CCoordinator.v
CDiagTool.v
CTelematics.v
CGatewayFaults.v
CDiagnostics.v
CGatewayRuns.v
CGatewayOta.v
CGatewayLoss.v
CVehicle.v
CSeeds.v
Testing.v
TestState.v
TestPlant.v
TestFrontEnd.v
TestHarness.v
TestLanes.v
TestReports.v
