(* ===== verification/Prelude.v ===== *)
(** * microcar: the verification library

    microcar is a simulated car: ECU firmware runs inside a discrete-event simulator (the
    [costar] crates, which are not part of the repository), a plant computes speed and battery,
    and a harness runs scenarios through the [microcar] binary and judges their traces. This
    library models the Rust code of the repository, and the C code that the Rust code mirrors or
    talks to, and states what they guarantee.

    ** The parts and how they interact

    - The ECU logic ([state_tests/src/]) mirrors the C firmware: the wire protocol, the
      battery management, the powertrain, the gateway, the dashboard and the OTA slots. BMS
      limits feed the powertrain's torque controller; heartbeats feed the gateway's monitor
      and the powertrain's watchdog.
    - The plant ([plant/src/]) is stepped by the simulator, applies queued driver inputs
      and publishes two CAN frames per tick.
    - The C firmware ([common/], [firmware/]) is what runs inside the simulator: the protocol
      and OTA libraries, the fixed tables of the gateway and the dashboard, the charging
      state machine, and the programs of seven ECUs. The plant publishes to the BMS and the
      dashboard; the BMS sends limits to the powertrain and faults to the gateway; the gateway
      sends the vehicle mode to the powertrain and answers the diagnostics tool; the telematics
      unit sends records over Ethernet. A coordinator boots the program the Rust adapter
      selects.
    - The front end ([src/main.rs]) loads a scenario, has it validated
      ([src/validate.rs]), selects each machine's firmware ([src/lib.rs]), runs the
      world and reports by exit code.
    - The harness ([dogfood/src/]) runs the front end as a child process, normalizes and
      hashes traces, checks invariants and repeats, and has nine lanes that each judge the
      scenarios of a directory; [dogfood/src/bin/harness.rs] dispatches to them.

    ** The files

    Shared: [Prelude] (build profiles and the [outcome] monad of computations that can panic,
    Rust's [Result], loops, counting, process effects, tactics), [MachineInt] (fixed-width
    integers, casts, checked and saturating arithmetic), [StableSort] ([sort_by_key]),
    [OrdMap] ([BTreeMap] and [BTreeSet] as sorted lists over a class of ordered keys),
    [RustStr] (the string functions of the standard library on bytes).

    ECU logic: [Protocol] (protocol.rs), [Timeout] (the interface of timeout supervisors and
    its abstract specification), [Bms] (bms.rs), [Powertrain] (powertrain.rs; the watchdog is
    an instance of the interface), [Gateway] (gateway.rs; modules [GatewayState],
    [HeartbeatMonitor], [FaultManager]), [Dashboard] (dashboard.rs), [OtaSlot] (ota_slot.rs).

    Plant: [Plant] (vehicle.rs, battery.rs, sensors.rs, model.rs).

    Front end: [Ecu] (lib.rs), [Firmware] (the trait of lib.rs as a class, with its two
    implementations as instances), [Validate] (validate.rs), [Main] (main.rs), and [FrontEnd],
    the front end as the child process that the harness's [Runner] observes. [Build] is the
    build script (build.rs), which selects the C sources.

    Harness: [Json] (json.rs), [TraceHash] (trace_hash.rs), [Runner] (runner.rs), [Invariants]
    (invariants.rs; the trait is a record), [Determinism] (determinism.rs), [Summary]
    (summary.rs), [Lane] (the driver that ota.rs, charging.rs and diagnostics.rs repeat, over
    the class [TraceLane] of lanes that read expectations), [OtaLane], [ChargingLane],
    [DiagnosticsLane] (its instances), [TelematicsLane] (telematics.rs), [TopologyLane]
    (topology.rs), [TomlZooLane] (toml_zoo.rs), [SimfarmLane] (simfarm.rs), [DebugGym]
    (debug_gym.rs), [Corpus] (debug_gym_corpus.rs), [HarnessArgs] and [Harness] (harness.rs).

    C: [CBase] (arrays, loops with early return, packed structures, the relation between a
    fixed table with a fill count and a growable list), [CProtocol] (common/src/microcar_protocol.c
    and the decisions of microcar_safety.h), [CFirmware] (the battery, powertrain and mode
    modules of the ECUs), [CTables] (fault_manager.c), [CMonitors] (heartbeat_monitor.c,
    dashboard_state.c, warning_display.c), [COtaSlot] (microcar_ota_slot.c), [CCharging]
    (microcar_charging.c), [CDashboard] (microcar_dashboard.c).

    C programs: [CTask] (the monad of tasks, which trace and send, with rules for what a task
    keeps), [CFrames] (the receive loop, the heartbeat and the big-endian words that the
    programs repeat), [CDashboardEcu], [CBmsEcu], [CPowertrainEcu], [CGatewayEcu]
    [CDiagTool], [CTelematics] (firmware/*_ecu/src/main.c; the last holds the telematics unit and
    the update tool), [CCoordinator] (firmware/microcar_coordinator.c). Over them:
    [CGatewayFaults] (the gateway's fault table as a set), [CDiagnostics] (the tool and the
    gateway in conversation), [CGatewayRuns] (the gateway's invariant and runs), [CGatewayOta]
    (its update script against the OTA lane), [CGatewayLoss] (losing the BMS), [CVehicle]
    (plant, BMS, gateway and powertrain together), [CSeeds] (seeded bugs against the corpus).

    Unit tests: [Testing] (a test is a computation that passes when it returns), [TestState],
    [TestPlant], [TestFrontEnd], [TestHarness], [TestLanes] and [TestReports] (the test modules
    of the crates, one definition per test function, evaluated by the kernel).

    A struct is a record, an enum an inductive type; a method with [&mut self] returns the new
    record. Module and definition names are those of the code where they can be.

    ** What the theorems show

    - Safety of the ECU logic: torque under brake, fault, LIMP and BMS limits; the watchdog and
      the heartbeat monitor against the abstract supervisor, over all event sequences; the
      vehicle mode read from the history of calls, FAULT being left by a reboot only; the fault
      manager's counters and the dashboard's warnings as refinements of sets; the OTA model's
      invariant over calls, resets and recoveries, the order of calls an activation needs, and
      error detection by the record's CRC.
    - The plant: inputs in order, whenever they are queued before their time, ticks in closed
      form with their bounds and overflows, frames from which the state is decoded.
    - The front end: validation accepts exactly the scenarios that obey its rules and reports
      the kind of the first broken one, firmware selection agrees with it, exit codes, where
      stepping with a deadline ends; the harness concludes from a run of the front end what the
      front end did.
    - The harness: the JSON text reads back, what the trace hash depends on, what a run's status
      means, each check and lane passes exactly when its runs show what it asks, the command
      line's grammar, and the exit codes of the subcommands.
    - The C firmware: it never leaves an array and agrees with its Rust mirror, by simulations
      (tables, against the Rust mirror with the table's capacity, which is the mirror itself as
      long as the table has room), bisimulation (OTA) and equality of decisions, or differs
      from it, and from the documented temperature thresholds, exactly where a theorem says; codecs; charging sessions; the renderer draws exactly the picture of its
      state.
    - The ECUs, over every history of frames and turns: they leave no array; an overheated
      battery limits and then stops the motor, through the BMS alone and through the gateway's
      FAULT; what the dashboard shows of a plant tick; the gateway's invariant and the mode its
      turns end in; exactly when a check reports the loss of the BMS; that the powertrain's watchdog does not
      reach the motor command and that a plain gateway never enters DRIVE; the diagnostics
      service against its specification, from the tool's request to what the tool traces.
    - The harness on the firmware: that the OTA lane passes the five scenarios that load and
      run an update, what the telematics lane asks of the devices of the telematics unit, and
      that two seeded bugs show in every run of the buggy firmware and in none of the repaired
      one.

    ** Bounds, fuel and parameters

    - A definition whose arithmetic can leave its type takes the build [profile]: [Debug]
      panics, [Release] wraps. Machine integers are values of [Z] with their type named where
      it matters; [usize] has 64 bits.
    - [Json]'s reader takes the length of the text as fuel, [Main.step_run] a number of steps;
      the theorems say which fuel is enough; printing a number takes the logarithm of it. All
      other recursions are structural.
    - The simulator is the record [Main.simulator] of the operations [main] calls; files,
      directories and processes are the fields of [Harness.env]; a child process is what its
      polls observe ([Runner.child]). Nothing is assumed of them but what a theorem names: for
      termination a variant of the steps, for the deadline that a step moves the clock to the
      event it executes. Witnesses instantiate them.
    - Strings are lists of bytes. White space, case and trimming follow the standard library;
      a claim that is only meant for ASCII text says so.

    ** Not modelled

    - The simulator crates (not in the repository) and what only runs on them: FreeRTOS and the
      scheduler (the body of a loop is a definition, the order of bodies is the order of events
      of a theorem, and a body runs to its end; a semaphore that is not obtained in time is an
      argument of the body), the feature branch of [main] that boots the Zephyr world, and the
      integration tests under tests/.
    - The tasks of the ECUs that only trace, the path of a program whose context cannot be
      allocated, and the demos, which talk to the simulator's services.
    - The [cc] crate the build script configures, the benches and the examples; one plant test
      that reads the simulator's bus back.
    - The eight scenarios of dogfood/ota that inject frames from a machine they do not declare:
      they do not load.
    - The memory a program asks for: an allocation that fails, and in particular the panic of
      [Vec::with_capacity] for the largest numbers of repetitions [--repeats] accepts.
    - The placeholder mirrors state_tests/src/charging.rs and telematics.rs, which are empty.
    - [BatteryModel::temp_c], an [f32] getter; [force_temperature] is modelled on the whole
      degrees it is given.
    - The threads that drain a child's pipes, real time (a poll says whether the deadline has
      passed; adding a timeout to the clock can panic for the largest ones), and the relative
      order of the two output streams. *)

From Stdlib Require Export Ascii String ZArith Lia Bool.
From stdpp Require Export base tactics option list list_numbers relations.
From stdpp Require Export strings gmap sorting.

Open Scope Z_scope.
Declare Scope mc_scope.
Delimit Scope mc_scope with mc.

(** ** Build profiles and panics

    Cargo's [dev] profile checks integer arithmetic and panics on overflow, the
    [release] profile wraps.  Definitions whose arithmetic can leave its type
    take the profile as an argument and run in the [outcome] monad. *)

Inductive profile : Set := Debug | Release.

Inductive outcome (A : Type) : Type :=
  | Ret (a : A)
  | Panic.
Arguments Ret {A} a.
Arguments Panic {A}.

Definition obind {A B : Type} (m : outcome A) (k : A -> outcome B) : outcome B :=
  match m with
  | Ret a => k a
  | Panic => Panic
  end.

Definition omap_ret {A B : Type} (f : A -> B) (m : outcome A) : outcome B :=
  obind m (fun a => Ret (f a)).

Notation "'let!' x ':=' m 'in' k" := (obind m (fun x => k))
  (at level 10, x pattern, m at level 100, k at level 200) : mc_scope.
Open Scope mc_scope.

Definition is_ret {A : Type} (m : outcome A) : bool :=
  match m with Ret _ => true | Panic => false end.

Lemma obind_Ret {A B : Type} (m : outcome A) (k : A -> outcome B) (b : B) :
  obind m k = Ret b <-> exists a, m = Ret a /\ k a = Ret b.
Proof.
  destruct m; simpl; split.
  - eauto.
  - by intros (? & [= ->] & ?).
  - done.
  - by intros (? & ? & ?).
Qed.

Lemma omap_ret_Ret {A B : Type} (f : A -> B) (m : outcome A) (b : B) :
  omap_ret f m = Ret b <-> exists a, m = Ret a /\ b = f a.
Proof. unfold omap_ret. rewrite obind_Ret. split; intros (a & -> & ?); exists a; split; congruence. Qed.

Lemma obind_assoc {A B C : Type} (m : outcome A) (k : A -> outcome B) (h : B -> outcome C) :
  obind (obind m k) h = obind m (fun a => obind (k a) h).
Proof. by destruct m. Qed.

(** A fallible left fold: a Rust [for] loop that mutates one accumulator and
    may panic in its body. *)
Fixpoint ofold {A S : Type} (f : S -> A -> outcome S) (s : S) (l : list A) : outcome S :=
  match l with
  | [] => Ret s
  | a :: l => let! s' := f s a in ofold f s' l
  end.

Lemma ofold_app {A S : Type} (f : S -> A -> outcome S) s l1 l2 :
  ofold f s (l1 ++ l2) = let! s' := ofold f s l1 in ofold f s' l2.
Proof.
  revert s; induction l1 as [|a l1 IH]; intros s; simpl; [done|].
  destruct (f s a); simpl; [apply IH|done].
Qed.

(** A loop whose body never panics does not. *)
Lemma ofold_total {A S : Type} (f : S -> A -> outcome S) l :
  (forall s a, exists s', f s a = Ret s') -> forall s, exists s', ofold f s l = Ret s'.
Proof.
  intros Hf. induction l as [|a l IH]; intros s; simpl; [eauto|].
  destruct (Hf s a) as [s' ->]. apply IH.
Qed.

(** [Option::is_none] and [Option::is_some] *)
Definition is_none {A : Type} (o : option A) : bool := match o with None => true | Some _ => false end.
Definition is_some {A : Type} (o : option A) : bool := negb (is_none o).

(** ** Rust's [Result] *)

Inductive result (A E : Type) : Type :=
  | ROk (a : A)
  | RErr (e : E).
Arguments ROk {A E} a.
Arguments RErr {A E} e.

Definition rbind {A B E : Type} (m : result A E) (k : A -> result B E) : result B E :=
  match m with
  | ROk a => k a
  | RErr e => RErr e
  end.

Notation "'try!' x ':=' m 'in' k" := (rbind m (fun x => k))
  (at level 10, x pattern, m at level 100, k at level 200) : mc_scope.

(** A fallible loop: the first error ends it. *)
Fixpoint rfold {A S E : Type} (f : S -> A -> result S E) (s : S) (l : list A) : result S E :=
  match l with
  | [] => ROk s
  | a :: l => try! s' := f s a in rfold f s' l
  end.

Lemma rbind_ROk {A B E : Type} (m : result A E) (k : A -> result B E) (b : B) :
  rbind m k = ROk b <-> exists a, m = ROk a /\ k a = ROk b.
Proof.
  destruct m; simpl; split.
  - eauto.
  - by intros (? & [= ->] & ?).
  - done.
  - by intros (? & ? & ?).
Qed.

Lemma rfold_app {A S E : Type} (f : S -> A -> result S E) s l1 l2 :
  rfold f s (l1 ++ l2) = try! s' := rfold f s l1 in rfold f s' l2.
Proof.
  revert s; induction l1 as [|a l1 IH]; intros s; simpl; [done|].
  destruct (f s a); simpl; [apply IH|done].
Qed.

(** An invariant carried by every successful iteration holds of the result. *)
Lemma rfold_invariant {A S E : Type} (f : S -> A -> result S E) (I : S -> Prop) l :
  (forall s a s', a ∈ l -> I s -> f s a = ROk s' -> I s') ->
  forall s s', I s -> rfold f s l = ROk s' -> I s'.
Proof.
  induction l as [|a l IH]; intros Hf s s' HI Hr; simpl in Hr; [congruence|].
  apply rbind_ROk in Hr as (s1 & H1 & H2).
  eapply IH; [| |exact H2].
  - intros; eapply Hf; eauto. by right.
  - eapply Hf; eauto. by left.
Qed.

(** A loop that only checks. *)
Lemma rfold_check {A E : Type} (f : unit -> A -> result unit E) l :
  rfold f tt l = ROk tt <-> forall a, a ∈ l -> f tt a = ROk tt.
Proof.
  induction l as [|a l IH]; simpl.
  - split; [|done]. intros _ a Ha. by apply not_elem_of_nil in Ha.
  - rewrite rbind_ROk. split.
    + intros ([] & Ha & Hl) b [->|Hb]%elem_of_cons; [done|]. by apply IH.
    + intros H. exists tt. split; [apply H; by left|]. apply IH. intros b Hb. apply H. by right.
Qed.

(** Two nested loops are one loop over the concatenation. *)
Lemma rfold_concat {A S E : Type} (f : S -> A -> result S E) ls s :
  rfold (rfold f) s ls = rfold f s (concat ls).
Proof.
  revert s; induction ls as [|l ls IH]; intros s; simpl; [done|].
  rewrite rfold_app. destruct (rfold f s l); simpl; [apply IH|done].
Qed.

(** ** Processes

    What a process leaves behind: what it printed on its two streams, by line or by call, the
    file it wrote with its content, and its exit code. *)
Record effects : Type := {
  out : list string;
  err : list string;
  wrote : option (string * string);
  code : Z
}.

Definition SUCCESS : Z := 0.
Definition FAILURE : Z := 1.
Definition exit_of (ok : bool) : Z := if ok then SUCCESS else FAILURE.

(** ** Loops that stop at the first match

    [for x in &mut v { if p(x) { f(x); return } }]: [None] when no element
    matches, so the caller continues after the loop. *)
Fixpoint update_first {A : Type} (p : A -> bool) (f : A -> A) (l : list A) : option (list A) :=
  match l with
  | [] => None
  | a :: l => if p a then Some (f a :: l) else (a ::.) <$> update_first p f l
  end.

Lemma update_first_None {A : Type} (p : A -> bool) f l :
  update_first p f l = None <-> forall a, a ∈ l -> p a = false.
Proof.
  induction l as [|a l IH]; simpl.
  - split; [|done]. intros _ a Ha. by apply not_elem_of_nil in Ha.
  - destruct (p a) eqn:Hp; simpl.
    + split; [done|]. intros H. specialize (H a ltac:(by left)). congruence.
    + rewrite fmap_None, IH. split.
      * intros H b [->|Hb]%elem_of_cons; auto.
      * intros H b Hb. apply H. by right.
Qed.

Lemma update_first_Some {A : Type} (p : A -> bool) f l l' :
  update_first p f l = Some l' ->
  exists l1 a l2, l = l1 ++ a :: l2 /\ l' = l1 ++ f a :: l2 /\ p a = true /\
                  forall b, b ∈ l1 -> p b = false.
Proof.
  revert l'; induction l as [|a l IH]; intros l' H; simpl in H; [done|].
  destruct (p a) eqn:Hp.
  - injection H as <-. exists [], a, l. repeat split; auto.
    intros b Hb. by apply not_elem_of_nil in Hb.
  - apply fmap_Some in H as (l0 & H & ->).
    destruct (IH _ H) as (l1 & b & l2 & -> & -> & Hb & Hl1).
    exists (a :: l1), b, l2. repeat split; auto.
    intros c [->|Hc]%elem_of_cons; auto.
Qed.

Lemma update_first_length {A : Type} (p : A -> bool) f l l' :
  update_first p f l = Some l' -> length l' = length l.
Proof.
  intros (l1 & a & l2 & -> & -> & _)%update_first_Some. by rewrite !length_app.
Qed.

Lemma update_first_map {A B : Type} (p : A -> bool) f (g : A -> B) l l' :
  (forall a, g (f a) = g a) -> update_first p f l = Some l' -> map g l' = map g l.
Proof.
  intros Hg (l1 & a & l2 & -> & -> & _)%update_first_Some.
  rewrite !map_app; simpl. by rewrite Hg.
Qed.

(** One turn of a loop, with the body abstract so that no conversion unfolds it. *)
Lemma fold_left_cons {A S : Type} (f : S -> A -> S) a l s :
  fold_left f (a :: l) s = fold_left f l (f s a).
Proof. reflexivity. Qed.

(** ** Counting *)

(** [v.iter().filter(p).count()] *)
Definition countb {A : Type} (p : A -> bool) (l : list A) : Z :=
  Z.of_nat (length (List.filter p l)).

Lemma countb_nil {A : Type} (p : A -> bool) : countb p [] = 0.
Proof. done. Qed.

Lemma countb_cons {A : Type} (p : A -> bool) a l :
  countb p (a :: l) = (if p a then 1 else 0) + countb p l.
Proof. unfold countb; simpl. destruct (p a); simpl; lia. Qed.

Lemma countb_app {A : Type} (p : A -> bool) l1 l2 :
  countb p (l1 ++ l2) = countb p l1 + countb p l2.
Proof. unfold countb. rewrite List.filter_app, length_app. lia. Qed.

Lemma countb_nonneg {A : Type} (p : A -> bool) l : 0 <= countb p l.
Proof. unfold countb. lia. Qed.

Lemma countb_le_length {A : Type} (p : A -> bool) l : countb p l <= Z.of_nat (length l).
Proof. induction l as [|a l IH]; [done|]. rewrite countb_cons; simpl. destruct (p a); lia. Qed.

Lemma countb_pos {A : Type} (p : A -> bool) l : 0 < countb p l <-> exists a, a ∈ l /\ p a = true.
Proof.
  induction l as [|a l IH].
  - rewrite countb_nil. split; [lia|]. intros (a & Ha & _). by apply not_elem_of_nil in Ha.
  - rewrite countb_cons. pose proof (countb_nonneg p l).
    setoid_rewrite elem_of_cons. destruct (p a) eqn:Hp.
    + split; [|lia]. intros _. exists a. auto.
    + rewrite Z.add_0_l, IH. split; intros (b & Hb & Hpb); exists b; [auto|].
      destruct Hb as [->|Hb]; [congruence|auto].
Qed.

(** ** Boolean quantifiers over lists ([Iterator::all] and [Iterator::any]) *)

Lemma forallb_elem {A : Type} (p : A -> bool) l :
  forallb p l = true <-> forall a, a ∈ l -> p a = true.
Proof. rewrite List.forallb_forall. by setoid_rewrite list_elem_of_In. Qed.

Lemma existsb_elem {A : Type} (p : A -> bool) l :
  existsb p l = true <-> exists a, a ∈ l /\ p a = true.
Proof. rewrite List.existsb_exists. by setoid_rewrite list_elem_of_In. Qed.

(** ** Automation *)

Create HintDb mc discriminated.
#[export] Hint Resolve countb_nonneg countb_le_length : mc.
Create Rewrite HintDb mc.
#[export] Hint Rewrite @countb_nil @countb_cons @countb_app : mc.

(** Turn boolean comparisons and connectives in the context into propositions. *)
Ltac bool_prop :=
  repeat match goal with
  | H : (_ && _) = true |- _ => apply andb_true_iff in H; destruct H
  | H : (_ || _) = false |- _ => apply orb_false_iff in H; destruct H
  | H : negb _ = true |- _ => apply negb_true_iff in H
  | H : negb _ = false |- _ => apply negb_false_iff in H
  | H : (_ <? _) = true |- _ => apply Z.ltb_lt in H
  | H : (_ <? _) = false |- _ => apply Z.ltb_ge in H
  | H : (_ <=? _) = true |- _ => apply Z.leb_le in H
  | H : (_ <=? _) = false |- _ => apply Z.leb_gt in H
  | H : (_ =? _) = true |- _ => apply Z.eqb_eq in H
  | H : (_ =? _) = false |- _ => apply Z.eqb_neq in H
  | H : bool_decide _ = true |- _ => apply bool_decide_eq_true in H
  | H : bool_decide _ = false |- _ => apply bool_decide_eq_false in H
  end.

(** Split every [if] and [match] on the goal, keeping the equations. *)
Ltac split_cases :=
  repeat (case_match; simplify_eq/=).

(** Invert a chain of [let!] or [try!] bindings in the context. *)
Ltac inv_bind :=
  repeat match goal with
  | H : obind _ _ = Ret _ |- _ => apply obind_Ret in H; destruct H as (? & ? & ?)
  | H : omap_ret _ _ = Ret _ |- _ => apply omap_ret_Ret in H; destruct H as (? & ? & ?)
  | H : rbind _ _ = ROk _ |- _ => apply rbind_ROk in H; destruct H as (? & ? & ?)
  end.

(** Evaluate the comparisons of closed enumeration values. *)
Ltac eval_decide :=
  repeat match goal with
  | |- context [@bool_decide ?P ?d] =>
      let v := eval vm_compute in (@bool_decide P d) in
      first [constr_eq v true | constr_eq v false]; change (@bool_decide P d) with v
  | H : context [@bool_decide ?P ?d] |- _ =>
      let v := eval vm_compute in (@bool_decide P d) in
      first [constr_eq v true | constr_eq v false]; change (@bool_decide P d) with v in H
  end.
