(* ===== verification/MachineInt.v ===== *)
(** * Machine integers

    Rust's fixed-width integers as [Z] with the type carried beside the
    operation: ranges, wrap-around, [as] casts, checked arithmetic under a
    build profile and saturating arithmetic. *)

From S2P Require Import Prelude.

Inductive ity : Set := I8 | U8 | I16 | U16 | I32 | U32 | I64 | U64 | U128 | USize.

(** The 64-bit targets the harness runs on: [usize] is 64 bits wide. *)
Definition bits (t : ity) : Z :=
  match t with
  | I8 | U8 => 8 | I16 | U16 => 16 | I32 | U32 => 32
  | I64 | U64 | USize => 64 | U128 => 128
  end.

Definition signed (t : ity) : bool :=
  match t with I8 | I16 | I32 | I64 => true | _ => false end.

Definition modulus (t : ity) : Z := 2 ^ bits t.
Definition imin (t : ity) : Z := if signed t then - 2 ^ (bits t - 1) else 0.
Definition imax (t : ity) : Z := if signed t then 2 ^ (bits t - 1) - 1 else 2 ^ bits t - 1.

(** A value of type [t]. *)
Definition fits (t : ity) (z : Z) : Prop := imin t <= z <= imax t.
Definition fitsb (t : ity) (z : Z) : bool := (imin t <=? z) && (z <=? imax t).

(** [z as t] (truncation and sign reinterpretation). *)
Definition cast (t : ity) (z : Z) : Z :=
  let m := z mod modulus t in
  if signed t && (imax t <? m) then m - modulus t else m.

(** [+], [-] and [*] on a [t]: the exact result [z] when it fits; otherwise a
    panic with overflow checks and the wrapped value without. *)
Definition arith (p : profile) (t : ity) (z : Z) : outcome Z :=
  if fitsb t z then Ret z
  else match p with Debug => Panic | Release => Ret (cast t z) end.

(** The [saturating_*] operations and the float-to-int [as] cast. *)
Definition saturate (t : ity) (z : Z) : Z := Z.max (imin t) (Z.min (imax t) z).

(** Evaluate the bounds of a concrete type everywhere. *)
Ltac int_const f :=
  repeat match goal with
  | |- context [f ?t] =>
      is_constructor t; let v := eval vm_compute in (f t) in change (f t) with v
  | H : context [f ?t] |- _ =>
      is_constructor t; let v := eval vm_compute in (f t) in change (f t) with v in H
  end.

Ltac int_unfold :=
  unfold fits, fitsb, saturate in *;
  int_const imin; int_const imax; int_const modulus; int_const signed; cbn [andb] in *.

Tactic Notation "int_lia" := int_unfold; lia.

Lemma fitsb_spec t z : fitsb t z = true <-> fits t z.
Proof. unfold fitsb, fits. rewrite andb_true_iff, !Z.leb_le. lia. Qed.

Lemma modulus_pos t : 0 < modulus t.
Proof. by destruct t. Qed.

Lemma cast_fits t z : fits t (cast t z).
Proof.
  unfold cast. pose proof (Z.mod_pos_bound z (modulus t) (modulus_pos t)) as Hb.
  destruct t; int_unfold; try case_match; bool_prop; lia.
Qed.

Lemma cast_id t z : fits t z -> cast t z = z.
Proof.
  intros Hz. unfold cast.
  destruct (Z.leb_spec 0 z) as [H0|H0].
  - rewrite (Z.mod_small z) by (destruct t; int_lia).
    destruct t; int_unfold; try done; case_match; bool_prop; lia.
  - assert (z mod modulus t = z + modulus t) as ->.
    { symmetry. apply (Z.mod_unique _ _ (-1)); destruct t; int_lia. }
    destruct t; int_unfold; try lia; case_match; bool_prop; lia.
Qed.

(** A cast changes a value by a multiple of the modulus only. *)
Lemma cast_mod t z : cast t z mod modulus t = z mod modulus t.
Proof.
  unfold cast. pose proof (modulus_pos t). case_match.
  - rewrite Zminus_mod, Z_mod_same_full, Z.sub_0_r, !Z.mod_mod by lia. done.
  - by rewrite Z.mod_mod by lia.
Qed.

Lemma cast_unsigned t z : signed t = false -> cast t z = z mod modulus t.
Proof. intros H. unfold cast. by rewrite H. Qed.

Lemma arith_Ret p t z : fits t z -> arith p t z = Ret z.
Proof. intros H%fitsb_spec. unfold arith. by rewrite H. Qed.

Lemma arith_overflow p t z :
  ~ fits t z -> arith p t z = match p with Debug => Panic | Release => Ret (cast t z) end.
Proof.
  intros H. unfold arith. destruct (fitsb t z) eqn:E; [|done].
  by apply fitsb_spec in E.
Qed.

Lemma arith_fits p t z z' : arith p t z = Ret z' -> fits t z'.
Proof.
  unfold arith. destruct (fitsb t z) eqn:E; intros H; simplify_eq.
  - by apply fitsb_spec.
  - destruct p; simplify_eq. apply cast_fits.
Qed.

(** Without overflow checks an operation never panics. *)
Lemma arith_release t z : arith Release t z = Ret (cast t z).
Proof.
  unfold arith. destruct (fitsb t z) eqn:E; [|done].
  by rewrite cast_id by (by apply fitsb_spec).
Qed.

Lemma saturate_fits t z : fits t (saturate t z).
Proof. destruct t; int_unfold; lia. Qed.

Lemma saturate_id t z : fits t z -> saturate t z = z.
Proof. int_lia. Qed.

#[export] Hint Resolve cast_fits saturate_fits : mc.

Example cast_u8_i8 : cast I8 200 = -56. Proof. reflexivity. Qed.
Example cast_i32_u16 : cast U16 (-1) = 65535. Proof. reflexivity. Qed.

Lemma lxor_bound n a b : 0 <= n -> 0 <= a < 2 ^ n -> 0 <= b < 2 ^ n -> 0 <= Z.lxor a b < 2 ^ n.
Proof.
  intros Hn Ha Hb.
  replace (Z.lxor a b) with (Z.lxor a b mod 2 ^ n); [apply Z.mod_pos_bound, Z.pow_pos_nonneg; lia|].
  rewrite <- (Z.mod_small a (2 ^ n)) at 2 by done. rewrite <- (Z.mod_small b (2 ^ n)) at 2 by done.
  rewrite <- !Z.land_ones by done. apply Z.bits_inj'. intros i Hi.
  rewrite !Z.land_spec, !Z.lxor_spec, !Z.land_spec.
  by destruct (Z.testbit a i), (Z.testbit b i), (Z.testbit (Z.ones n) i).
Qed.
