(* ===== verification/StableSort.v ===== *)
(** * Stable sorting by an integer key

    [slice::sort_by_key], which is stable: elements of equal keys keep their order. *)

From S2P Require Import Prelude.

Section Sort.
Context {A : Type} (key : A -> Z).

(** Stable insertion: after the elements of an equal or smaller key. *)
Fixpoint insert_by (x : A) (l : list A) : list A :=
  match l with
  | [] => [x]
  | y :: l' => if key x <? key y then x :: l else y :: insert_by x l'
  end.

Definition sort_by_key (l : list A) : list A := fold_left (fun acc x => insert_by x acc) l [].

Definition by_key (i j : A) : Prop := key i <= key j.

(** The elements of one key. *)
Definition with_key (t : Z) (l : list A) : list A := List.filter (fun i => key i =? t) l.

Lemma insert_by_perm x l : Permutation (insert_by x l) (x :: l).
Proof.
  induction l as [|y l IH]; simpl; [done|]. case_match; [done|].
  rewrite IH. apply perm_swap.
Qed.

Lemma insert_by_sorted x l :
  StronglySorted by_key l -> StronglySorted by_key (insert_by x l).
Proof.
  induction 1 as [|y l Hl IH Hy]; simpl; [repeat constructor|].
  case_match eqn:E; bool_prop.
  - constructor; [by constructor|]. constructor; [unfold by_key; lia|].
    eapply Forall_impl; [exact Hy|]. unfold by_key. intros; lia.
  - constructor; [done|]. rewrite insert_by_perm. constructor; [unfold by_key; lia|done].
Qed.

(** Inserting keeps the order of the elements of each key. *)
Lemma insert_by_stable x l t :
  StronglySorted by_key l ->
  with_key t (insert_by x l) = with_key t (l ++ [x]).
Proof.
  unfold with_key. induction 1 as [|y l Hl IH Hy]; [done|].
  cbn [insert_by]. case_match eqn:E; bool_prop.
  - assert (key x = t -> List.filter (fun i => key i =? t) (y :: l) = []) as Hnone.
    { intros <-. apply Forall_cons_2 with (x := y) in Hy; [|unfold by_key; lia].
      clear -Hy E. induction Hy as [|z l' Hz Hl' IH']; [done|]. simpl. unfold by_key in Hz.
      rewrite (proj2 (Z.eqb_neq _ _)) by lia. done. }
    change (x :: y :: l) with ([x] ++ (y :: l)).
    rewrite !List.filter_app. destruct (Z.eqb_spec (key x) t) as [Ht|Ht].
    + by rewrite (Hnone Ht), app_nil_r.
    + apply Z.eqb_neq in Ht. cbn [List.filter]. by rewrite Ht, app_nil_r.
  - simpl in *. rewrite IH. done.
Qed.

Lemma with_key_app t l1 l2 : with_key t (l1 ++ l2) = with_key t l1 ++ with_key t l2.
Proof. apply List.filter_app. Qed.

Lemma sort_by_key_acc l acc :
  StronglySorted by_key acc ->
  let s := fold_left (fun acc x => insert_by x acc) l acc in
  StronglySorted by_key s /\ Permutation s (acc ++ l) /\
  forall t, with_key t s = with_key t (acc ++ l).
Proof.
  revert acc. induction l as [|x l IH]; intros acc Ha; cbn zeta; [by rewrite app_nil_r|].
  rewrite fold_left_cons.
  destruct (IH _ (insert_by_sorted x acc Ha)) as (Hs & Hp & Hst).
  split_and!; [done| |].
  - rewrite Hp, insert_by_perm. simpl. by rewrite Permutation_middle.
  - intros t. rewrite Hst, with_key_app, insert_by_stable by done.
    by rewrite <- with_key_app, <- app_assoc.
Qed.

Lemma sort_by_key_spec l :
  StronglySorted by_key (sort_by_key l) /\
  Permutation (sort_by_key l) l /\
  forall t, with_key t (sort_by_key l) = with_key t l.
Proof. apply (sort_by_key_acc l []). constructor. Qed.

Lemma stable_sort_unique (l1 l2 : list A) :
  StronglySorted by_key l1 -> StronglySorted by_key l2 ->
  (forall t, with_key t l1 = with_key t l2) -> l1 = l2.
Proof.
  unfold with_key. intros H1. revert l2. induction H1 as [|x l1 H1 IH Hx]; intros l2 H2 Hst.
  - destruct l2 as [|y l2]; [done|]. specialize (Hst (key y)).
    simpl in Hst. by rewrite Z.eqb_refl in Hst.
  - pose proof (Hst (key x)) as Hxx. simpl in Hxx. rewrite Z.eqb_refl in Hxx.
    destruct H2 as [|y l2 H2 Hy]; [done|].
    assert (x = y) as ->.
    { simpl in Hxx. destruct (Z.eqb_spec (key y) (key x)); [congruence|].
      exfalso. pose proof (Hst (key y)) as Hyy. simpl in Hyy. rewrite Z.eqb_refl in Hyy.
      assert (x ∈ l2) as Hx2.
      { apply list_elem_of_In. eapply proj1, filter_In. rewrite <- Hxx. by left. }
      assert (y ∈ l1) as Hy1.
      { destruct (Z.eqb_spec (key x) (key y)); [congruence|].
        apply list_elem_of_In. eapply proj1, filter_In. rewrite Hyy. by left. }
      rewrite Forall_forall in Hx, Hy. specialize (Hx y Hy1). specialize (Hy x Hx2).
      unfold by_key in *. lia. }
    f_equal. apply IH; [done|]. intros t. specialize (Hst t). simpl in Hst.
    case_match; congruence.
Qed.

Lemma sort_snoc l x :
  sort_by_key (sort_by_key l ++ [x]) = sort_by_key (l ++ [x]).
Proof.
  destruct (sort_by_key_spec l) as (_ & _ & H1).
  destruct (sort_by_key_spec (sort_by_key l ++ [x])) as (Hs2 & _ & H2).
  destruct (sort_by_key_spec (l ++ [x])) as (Hs3 & _ & H3).
  apply stable_sort_unique; [done..|].
  intros t. by rewrite H2, H3, !with_key_app, H1.
Qed.

End Sort.

Arguments sort_by_key : simpl never.
