(* ===== verification/OrdMap.v ===== *)
(** * Ordered maps and sets

    [BTreeMap] and [BTreeSet] as the sorted lists their iterators yield, over any key type
    with a total order. *)

From S2P Require Import Prelude.

Class Ordered (K : Type) : Type := {
  ltb : K -> K -> bool;
  ltb_irrefl : forall a, ltb a a = false;
  ltb_trans : forall a b c, ltb a b = true -> ltb b c = true -> ltb a c = true;
  ltb_total : forall a b, ltb a b = false -> ltb b a = false -> a = b
}.

#[export] Instance Z_ordered : Ordered Z :=
  {| ltb := Z.ltb; ltb_irrefl := Z.ltb_irrefl;
     ltb_trans := fun a b c H1 H2 =>
       proj2 (Z.ltb_lt a c) (Z.lt_trans _ _ _ (proj1 (Z.ltb_lt a b) H1) (proj1 (Z.ltb_lt b c) H2));
     ltb_total := fun a b H1 H2 => Z.le_antisymm _ _ (proj1 (Z.ltb_ge b a) H2) (proj1 (Z.ltb_ge a b) H1) |}.

(** Pairs in lexicographic order. *)
Definition pair_ltb {A B : Type} `{Ordered A, Ordered B} (x y : A * B) : bool :=
  ltb x.1 y.1 || (negb (ltb y.1 x.1) && ltb x.2 y.2).

Lemma pair_ltb_irrefl {A B : Type} `{Ordered A, Ordered B} (x : A * B) : pair_ltb x x = false.
Proof. unfold pair_ltb. by rewrite !ltb_irrefl, andb_false_r. Qed.

Lemma ltb_asym {K : Type} `{Ordered K} a b : ltb a b = true -> ltb b a = false.
Proof.
  intros Hab. destruct (ltb b a) eqn:Hba; [|done].
  pose proof (ltb_trans a b a Hab Hba) as E. by rewrite ltb_irrefl in E.
Qed.

Lemma pair_ltb_trans {A B : Type} `{Ordered A, Ordered B} (x y z : A * B) :
  pair_ltb x y = true -> pair_ltb y z = true -> pair_ltb x z = true.
Proof.
  unfold pair_ltb. rewrite !orb_true_iff, !andb_true_iff, !negb_true_iff.
  intros [H1|[H1 H1']] [H2|[H2 H2']].
  - left. by eapply ltb_trans.
  - left. destruct (ltb y.1 z.1) eqn:E; [by eapply ltb_trans|]. by rewrite <- (ltb_total _ _ E H2).
  - left. destruct (ltb x.1 y.1) eqn:E; [by eapply ltb_trans|]. by rewrite (ltb_total _ _ E H1).
  - destruct (ltb x.1 y.1) eqn:E1.
    { left. destruct (ltb y.1 z.1) eqn:E; [by eapply ltb_trans|]. by rewrite <- (ltb_total _ _ E H2). }
    rewrite (ltb_total _ _ E1 H1). destruct (ltb y.1 z.1) eqn:E2; [by left|]. right.
    split; [done|]. by eapply ltb_trans.
Qed.

Lemma pair_ltb_total {A B : Type} `{Ordered A, Ordered B} (x y : A * B) :
  pair_ltb x y = false -> pair_ltb y x = false -> x = y.
Proof.
  unfold pair_ltb. destruct x as [x1 x2], y as [y1 y2]. cbn.
  intros [H1 H2]%orb_false_iff [H3 H4]%orb_false_iff.
  rewrite (ltb_total _ _ H1 H3) in *. rewrite ltb_irrefl in *. cbn in *. f_equal. by apply ltb_total.
Qed.

#[export] Instance pair_ordered {A B : Type} `{Ordered A, Ordered B} : Ordered (A * B) :=
  {| ltb := pair_ltb; ltb_irrefl := pair_ltb_irrefl; ltb_trans := pair_ltb_trans;
     ltb_total := pair_ltb_total |}.

Section OrdMap.
Context {K V : Type} `{Ordered K}.

Definition keqb (a b : K) : bool := negb (ltb a b) && negb (ltb b a).

Lemma keqb_spec a b : keqb a b = true <-> a = b.
Proof.
  unfold keqb. rewrite andb_true_iff, !negb_true_iff. split.
  - intros []. by apply ltb_total.
  - intros ->. by rewrite ltb_irrefl.
Qed.

Lemma keqb_refl a : keqb a a = true.
Proof. by apply keqb_spec. Qed.

Lemma keqb_ltb a b : ltb a b = true -> keqb a b = false.
Proof. intros E. unfold keqb. by rewrite E. Qed.

(** ** Maps *)

(** [f] of the old value, if any: [insert], and [entry(k).or_insert(d)] with an update. *)
Fixpoint entry (f : option V -> V) (k : K) (m : list (K * V)) : list (K * V) :=
  match m with
  | [] => [(k, f None)]
  | (k', v) :: m' =>
      if keqb k k' then (k', f (Some v)) :: m'
      else if ltb k k' then (k, f None) :: m
      else (k', v) :: entry f k m'
  end.

(** [get] *)
Fixpoint get (k : K) (m : list (K * V)) : option V :=
  match m with
  | [] => None
  | (k', v) :: m => if keqb k k' then Some v else get k m
  end.

Definition map_sorted (m : list (K * V)) : Prop :=
  StronglySorted (fun a b => ltb a.1 b.1 = true) m.

Lemma get_absent k m : Forall (fun e => ltb k e.1 = true) m -> get k m = None.
Proof.
  intros Hall. induction Hall as [|[k' v] m Hlt Hall IH]; [done|]. cbn [get].
  cbn in Hlt. by rewrite (keqb_ltb _ _ Hlt).
Qed.

Lemma entry_above f k k' m :
  ltb k' k = true -> Forall (fun e => ltb k' e.1 = true) m ->
  Forall (fun e => ltb k' e.1 = true) (entry f k m).
Proof.
  intros Hk Hall. induction Hall as [|[k1 v] m H1 Hall IH]; cbn [entry]; [by repeat constructor|].
  destruct (keqb k k1); [by constructor|]. destruct (ltb k k1); by repeat constructor.
Qed.

Lemma entry_sorted f k m : map_sorted m -> map_sorted (entry f k m).
Proof.
  unfold map_sorted. induction 1 as [|[k1 v] m Ho IH Hall]; cbn [entry]; [by repeat constructor|].
  destruct (keqb k k1) eqn:E1; [by constructor|]. destruct (ltb k k1) eqn:E2.
  - constructor; [by constructor|]. constructor; [done|].
    eapply Forall_impl; [exact Hall|]. intros e He. by eapply ltb_trans.
  - constructor; [done|]. apply entry_above; [|done]. cbn.
    destruct (ltb k1 k) eqn:E3; [done|]. unfold keqb in E1. by rewrite E2, E3 in E1.
Qed.

Lemma get_entry f k m k' :
  map_sorted m -> get k' (entry f k m) = if keqb k' k then Some (f (get k m)) else get k' m.
Proof.
  unfold map_sorted. induction 1 as [|[k1 v] m Ho IH Hall]; cbn [entry get]; [done|].
  destruct (keqb k k1) eqn:E1.
  - apply keqb_spec in E1 as ->. cbn [get]. by destruct (keqb k' k1).
  - destruct (ltb k k1) eqn:E2; cbn [get].
    + assert (get k m = None) as ->; [|done]. apply get_absent.
      eapply Forall_impl; [exact Hall|]. intros e He. by eapply ltb_trans.
    + rewrite IH. destruct (keqb k' k1) eqn:E3; [|done].
      apply keqb_spec in E3 as ->. destruct (keqb k1 k) eqn:E4; [|done].
      apply keqb_spec in E4 as ->. by rewrite keqb_refl in E1.
Qed.

(** ** Sets *)

Fixpoint set_insert (x : K) (s : list K) : list K :=
  match s with
  | [] => [x]
  | y :: s' => if keqb x y then s else if ltb x y then x :: s else y :: set_insert x s'
  end.

(** [iter().collect()] *)
Definition set_of (l : list K) : list K := fold_left (fun s x => set_insert x s) l [].
Definition set_mem (x : K) (s : list K) : bool := existsb (keqb x) s.

Definition set_sorted (s : list K) : Prop := StronglySorted (fun a b => ltb a b = true) s.

Lemma set_insert_elem x y s : y ∈ set_insert x s <-> y = x \/ y ∈ s.
Proof.
  induction s as [|z s IH]; cbn [set_insert]; [by rewrite list_elem_of_singleton, elem_of_nil; tauto|].
  destruct (keqb x z) eqn:E.
  - apply keqb_spec in E as ->. rewrite elem_of_cons. tauto.
  - destruct (ltb x z); rewrite !elem_of_cons, ?IH; tauto.
Qed.

Lemma set_insert_sorted x s : set_sorted s -> set_sorted (set_insert x s).
Proof.
  unfold set_sorted. induction 1 as [|z s Ho IH Hall]; cbn [set_insert]; [by repeat constructor|].
  destruct (keqb x z) eqn:E1; [by constructor|]. destruct (ltb x z) eqn:E2.
  - constructor; [by constructor|]. constructor; [done|].
    eapply Forall_impl; [exact Hall|]. intros y Hy. by eapply ltb_trans.
  - constructor; [done|]. apply Forall_forall. intros y [->|Hy]%set_insert_elem.
    + destruct (ltb z x) eqn:E3; [done|]. unfold keqb in E1. by rewrite E2, E3 in E1.
    + by apply (proj1 (Forall_forall _ _) Hall).
Qed.

Lemma set_of_spec l : set_sorted (set_of l) /\ forall x, x ∈ set_of l <-> x ∈ l.
Proof.
  unfold set_of. assert (forall s, set_sorted s ->
    set_sorted (fold_left (fun s x => set_insert x s) l s) /\
    forall x, x ∈ fold_left (fun s x => set_insert x s) l s <-> x ∈ s \/ x ∈ l) as Hg.
  { induction l as [|y l IH]; intros s Hs; cbn [fold_left].
    - split; [done|]. intros x. rewrite elem_of_nil. tauto.
    - destruct (IH _ (set_insert_sorted y s Hs)) as [H1 H2]. split; [done|]. intros x.
      rewrite H2, set_insert_elem, elem_of_cons. tauto. }
  destruct (Hg [] ltac:(constructor)) as [H1 H2]. split; [done|]. intros x. rewrite H2, elem_of_nil. tauto.
Qed.

(** Sorted lists are equal as soon as they have the same members. *)
Lemma set_sorted_ext s t : set_sorted s -> set_sorted t -> (forall x, x ∈ s <-> x ∈ t) -> s = t.
Proof.
  unfold set_sorted. intros Hs. revert t; induction Hs as [|x s Hs IH Hall]; intros t Ht He.
  { destruct t as [|y t]; [done|]. exfalso. apply (not_elem_of_nil y), He. by left. }
  destruct Ht as [|y t Ht Hall']; [exfalso; apply (not_elem_of_nil x), He; by left|].
  rewrite Forall_forall in Hall, Hall'.
  assert (x = y) as ->.
  { pose proof (proj1 (He x) ltac:(by left)) as [->|Hx]%elem_of_cons; [done|].
    pose proof (proj2 (He y) ltac:(by left)) as [->|Hy]%elem_of_cons; [done|].
    apply Hall' in Hx. apply Hall in Hy. by rewrite (ltb_asym _ _ Hx) in Hy. }
  f_equal. apply IH; [done|]. intros z. specialize (He z). rewrite !elem_of_cons in He.
  assert (z = y -> z ∉ s /\ z ∉ t) as Hz.
  { intros ->. split; intros Hin; [apply Hall in Hin|apply Hall' in Hin]; by rewrite ltb_irrefl in Hin. }
  tauto.
Qed.

Lemma set_mem_spec x s : set_mem x s = true <-> x ∈ s.
Proof.
  unfold set_mem. rewrite existsb_elem. split; [|intros Hx; exists x; by rewrite keqb_refl].
  by intros (y & Hy & ->%keqb_spec).
Qed.

(** The keys of a map are a set. *)
Lemma keys_sorted m : map_sorted m -> set_sorted (map fst m).
Proof.
  unfold map_sorted, set_sorted. induction 1 as [|[k v] m Ho IH Hall]; cbn [map]; [constructor|].
  constructor; [done|]. apply Forall_forall. intros x (e & <- & He)%list_elem_of_In%in_map_iff.
  apply list_elem_of_In in He. by apply (proj1 (Forall_forall _ _) Hall).
Qed.

Lemma get_elem k v m : map_sorted m -> get k m = Some v <-> (k, v) ∈ m.
Proof.
  unfold map_sorted. induction 1 as [|[k1 v1] m Ho IH Hall]; cbn [get]; [by rewrite elem_of_nil|].
  rewrite elem_of_cons. destruct (keqb k k1) eqn:E.
  - apply keqb_spec in E as ->. split; [intros [= ->]; by left|]. intros [[= ->]|Hin]; [done|].
    apply (proj1 (Forall_forall _ _) Hall) in Hin. cbn in Hin. by rewrite ltb_irrefl in Hin.
  - rewrite IH. split; [by right|]. intros [[= -> ->]|Hin]; [by rewrite keqb_refl in E|done].
Qed.
End OrdMap.
