(* ===== verification/RustStr.v ===== *)
(** * Rust strings

    A [str] is the [string] of its UTF-8 bytes.  The operations are those of
    [core::str] the program uses.  [White_Space] characters are recognised by
    their UTF-8 encodings: UTF-8 is self-synchronising, so stepping over other
    characters byte by byte visits every character boundary.  Integer parsing and
    printing follow [FromStr], [from_str_radix] and [Display]. *)

From S2P Require Import Prelude MachineInt.

Open Scope string_scope.
Open Scope list_scope.
Open Scope Z_scope.

Definition byte (c : ascii) : Z := Z.of_nat (nat_of_ascii c).
Definition chr (b : Z) : ascii := ascii_of_nat (Z.to_nat b).

(** The double quote, the backslash and the line feed as one-byte strings. *)
Definition dquote : ascii := chr 34.
Definition backslash : ascii := chr 92.
Definition newline : ascii := chr 10.
Definition quote_str : string := String dquote "".
Definition newline_str : string := String newline "".

Lemma byte_range c : 0 <= byte c < 256.
Proof. unfold byte. pose proof (nat_ascii_bounded c). lia. Qed.

Lemma byte_chr b : 0 <= b < 256 -> byte (chr b) = b.
Proof. intros H. unfold byte, chr. rewrite nat_ascii_embedding by lia. lia. Qed.

Lemma byte_inj c d : byte c = byte d -> c = d.
Proof.
  unfold byte. intros H%Nat2Z.inj.
  by rewrite <- (ascii_nat_embedding c), <- (ascii_nat_embedding d), H.
Qed.

(** ** Concatenation *)

Lemma str_nil_app s : "" +:+ s = s.
Proof. done. Qed.
Lemma str_cons_app c s t : String c s +:+ t = String c (s +:+ t).
Proof. done. Qed.
Lemma str_app_nil s : s +:+ "" = s.
Proof. induction s as [|c s IH]; [done|]. by rewrite str_cons_app, IH. Qed.
Lemma str_app_assoc s t u : (s +:+ t) +:+ u = s +:+ (t +:+ u).
Proof. induction s as [|c s IH]; [done|]. by rewrite !str_cons_app, IH. Qed.
Lemma str_app_length s t : String.length (s +:+ t) = (String.length s + String.length t)%nat.
Proof. induction s as [|c s IH]; [done|]. rewrite str_cons_app. simpl. by rewrite IH. Qed.
Lemma str_app_eq_nil s t : s +:+ t = "" <-> s = "" /\ t = "".
Proof. destruct s; [rewrite str_nil_app; tauto|]. rewrite str_cons_app. split; [done|by intros []]. Qed.

Create Rewrite HintDb str.
#[export] Hint Rewrite str_nil_app str_cons_app str_app_nil str_app_assoc : str.

(** [slice::join] *)
Fixpoint join (sep : string) (l : list string) : string :=
  match l with
  | [] => ""
  | [s] => s
  | s :: l => s +:+ sep +:+ join sep l
  end.

Fixpoint str_rev_app (s acc : string) : string :=
  match s with
  | "" => acc
  | String c s => str_rev_app s (String c acc)
  end.
Definition str_rev (s : string) : string := str_rev_app s "".

(** ** Searching *)

Fixpoint strip_prefix (p s : string) : option string :=
  match p, s with
  | "", _ => Some s
  | String a p', String b s' => if Ascii.eqb a b then strip_prefix p' s' else None
  | String _ _, "" => None
  end.

Definition starts_with (p s : string) : bool :=
  match strip_prefix p s with Some _ => true | None => false end.

Definition strip_suffix (p s : string) : option string :=
  str_rev <$> strip_prefix (str_rev p) (str_rev s).

Definition ends_with (p s : string) : bool :=
  match strip_suffix p s with Some _ => true | None => false end.

(** [s.split_once(pat)]: the text before and after the first occurrence. *)
Fixpoint split_once (pat s : string) : option (string * string) :=
  match strip_prefix pat s with
  | Some rest => Some ("", rest)
  | None =>
      match s with
      | "" => None
      | String c s' =>
          match split_once pat s' with
          | Some (a, b) => Some (String c a, b)
          | None => None
          end
      end
  end.

Definition contains (pat s : string) : bool :=
  match split_once pat s with Some _ => true | None => false end.

(** [s.split(c)] for a one-byte separator. *)
Fixpoint split_char (c : ascii) (s : string) : list string :=
  match s with
  | "" => [""]
  | String d s' =>
      if Ascii.eqb c d then "" :: split_char c s'
      else match split_char c s' with
           | w :: ws => String d w :: ws
           | [] => [String d ""]
           end
  end.

(** [s.splitn(n, c)] *)
Fixpoint splitn (n : nat) (c : ascii) (s : string) : list string :=
  match n with
  | O => []
  | S O => [s]
  | S n' =>
      match split_once (String c "") s with
      | Some (a, b) => a :: splitn n' c b
      | None => [s]
      end
  end.

(** [s.lines()]: a final empty line is dropped, and a carriage return goes with
    the line feed that follows it. *)
Fixpoint lines_of (parts : list string) : list string :=
  match parts with
  | [] => []
  | [""] => []
  | [l] => [l]
  | l :: rest => default l (strip_suffix (String (chr 13) "") l) :: lines_of rest
  end.
Definition lines (s : string) : list string := lines_of (split_char newline s).

(** ** White space *)

(** Length in bytes of the [White_Space] character [s] starts with; 0 if none. *)
Definition ws_len (s : string) : nat :=
  match s with
  | "" => 0%nat
  | String c1 r =>
      let b1 := byte c1 in
      if ((9 <=? b1) && (b1 <=? 13)) || (b1 =? 32) then 1%nat
      else match r with
      | "" => 0%nat
      | String c2 r' =>
          let b2 := byte c2 in
          if (b1 =? 0xC2) && ((b2 =? 0x85) || (b2 =? 0xA0)) then 2%nat
          else match r' with
          | "" => 0%nat
          | String c3 _ =>
              let b3 := byte c3 in
              if ((b1 =? 0xE1) && (b2 =? 0x9A) && (b3 =? 0x80))
                 || ((b1 =? 0xE2) && (b2 =? 0x80)
                     && (((0x80 <=? b3) && (b3 <=? 0x8A)) || (b3 =? 0xA8) || (b3 =? 0xA9)
                         || (b3 =? 0xAF)))
                 || ((b1 =? 0xE2) && (b2 =? 0x81) && (b3 =? 0x9F))
                 || ((b1 =? 0xE3) && (b2 =? 0x80) && (b3 =? 0x80))
              then 3%nat else 0%nat
          end
      end
  end.

(** [skip] bytes of a white-space character are still to be passed over. *)
Fixpoint trim_start_go (skip : nat) (s : string) : string :=
  match s with
  | "" => ""
  | String c r =>
      match skip with
      | S k => trim_start_go k r
      | O => match ws_len s with O => s | S k => trim_start_go k r end
      end
  end.
Definition trim_start (s : string) : string := trim_start_go 0 s.

(** The word [s] starts with, and the later words. *)
Fixpoint split_ws (skip : nat) (s : string) : string * list string :=
  match s with
  | "" => ("", [])
  | String c r =>
      match skip with
      | S k => split_ws k r
      | O =>
          match ws_len s with
          | O => let '(w, ws) := split_ws 0 r in (String c w, ws)
          | S k =>
              let '(w, ws) := split_ws k r in
              ("", match w with "" => ws | _ => w :: ws end)
          end
      end
  end.

Definition split_whitespace (s : string) : list string :=
  let '(w, ws) := split_ws 0 s in match w with "" => ws | _ => w :: ws end.

Fixpoint trim_end (s : string) : string :=
  match trim_start s with
  | "" => ""
  | _ => match s with "" => "" | String c r => String c (trim_end r) end
  end.
Definition trim (s : string) : string := trim_end (trim_start s).

(** ** Integers *)

Definition digit_val (radix : Z) (c : ascii) : option Z :=
  let b := byte c in
  let d := if (48 <=? b) && (b <=? 57) then b - 48
           else if (97 <=? b) && (b <=? 122) then b - 87
           else if (65 <=? b) && (b <=? 90) then b - 55
           else 36 in
  if d <? radix then Some d else None.

Definition is_ascii_hexdigit (c : ascii) : bool :=
  match digit_val 16 c with Some _ => true | None => false end.

Definition is_ascii_digit (c : ascii) : bool :=
  match digit_val 10 c with Some _ => true | None => false end.

(** The digits of [s] after [acc]; [None] on an invalid digit or when a prefix
    leaves the range of [t] ([sign] is 1 or -1). *)
Fixpoint parse_digits (t : ity) (radix sign acc : Z) (s : string) : option Z :=
  match s with
  | "" => Some acc
  | String c s' =>
      match digit_val radix c with
      | None => None
      | Some d =>
          let acc' := acc * radix + sign * d in
          if fitsb t acc' then parse_digits t radix sign acc' s' else None
      end
  end.

(** [<t>::from_str_radix(s, radix).ok()] *)
Definition from_str_radix (t : ity) (radix : Z) (s : string) : option Z :=
  match s with
  | "" | "+" | "-" => None
  | String "+" s' => parse_digits t radix 1 0 s'
  | String "-" s' =>
      if signed t then parse_digits t radix (-1) 0 s' else parse_digits t radix 1 0 s
  | _ => parse_digits t radix 1 0 s
  end.

(** [s.parse::<t>().ok()] *)
Definition parse_int (t : ity) (s : string) : option Z := from_str_radix t 10 s.

Definition digit_char (d : Z) : ascii := chr (if d <? 10 then 48 + d else 87 + d).

Fixpoint digits_go (fuel : nat) (radix n : Z) (acc : string) : string :=
  match fuel with
  | O => acc
  | S fuel' =>
      let acc' := String (digit_char (n mod radix)) acc in
      if n <? radix then acc' else digits_go fuel' radix (n / radix) acc'
  end.

(** A number has at most [log2 n + 1] digits in any radix. *)
Definition fmt_radix (radix n : Z) : string :=
  digits_go (S (Z.to_nat (Z.log2 n))) radix n "".

(** [format!("{}", z)] *)
Definition fmt_int (z : Z) : string :=
  if z <? 0 then String "-" (fmt_radix 10 (- z)) else fmt_radix 10 z.

Fixpoint str_repeat (n : nat) (c : ascii) : string :=
  match n with O => "" | S n' => String c (str_repeat n' c) end.

Definition pad_left (width : nat) (c : ascii) (s : string) : string :=
  str_repeat (width - String.length s) c +:+ s.

(** [format!("{n:0<w>x}")] and [format!("{n:#0<w>x}")], where [w] counts the [0x]. *)
Definition fmt_hex (width : nat) (n : Z) : string := pad_left width "0" (fmt_radix 16 n).
Definition fmt_hex_alt (width : nat) (n : Z) : string := "0x" +:+ fmt_hex (width - 2) n.

Definition fmt_bool (b : bool) : string := if b then "true" else "false".

(** [{:?}] of options, vectors and sets of values printed by [f]. *)
Definition fmt_debug_option {A : Type} (f : A -> string) (o : option A) : string :=
  match o with Some a => "Some(" +:+ f a +:+ ")" | None => "None" end.
Definition fmt_debug_list {A : Type} (f : A -> string) (l : list A) : string :=
  "[" +:+ join ", " (map f l) +:+ "]".
Definition fmt_debug_set {A : Type} (f : A -> string) (l : list A) : string :=
  "{" +:+ join ", " (map f l) +:+ "}".

(** [{:?}] of a string. Characters outside ASCII are taken to be printable. *)
Definition debug_char (c : ascii) : string :=
  if byte c =? 0 then String backslash "0"
  else if byte c =? 9 then String backslash "t"
  else if byte c =? 10 then String backslash "n"
  else if byte c =? 13 then String backslash "r"
  else if byte c =? 34 then String backslash quote_str
  else if byte c =? 92 then String backslash (String backslash "")
  else if (byte c <? 32) || (byte c =? 127) then String backslash ("u{" +:+ fmt_radix 16 (byte c) +:+ "}")
  else String c "".
Fixpoint debug_chars (s : string) : string :=
  match s with "" => "" | String c s' => debug_char c +:+ debug_chars s' end.
Definition fmt_debug_str (s : string) : string := quote_str +:+ debug_chars s +:+ quote_str.

(** ** UTF-8 encoding of [b as char] for a byte [b] *)
Definition push_byte_as_char (b : Z) : string :=
  if b <? 128 then String (chr b) ""
  else String (chr (Z.lor 0xC0 (Z.shiftr b 6))) (String (chr (Z.lor 0x80 (Z.land b 0x3F))) "").

Definition is_ascii_byte (c : ascii) : bool := byte c <? 128.
Fixpoint is_ascii (s : string) : bool :=
  match s with "" => true | String c s' => is_ascii_byte c && is_ascii s' end.

(** ** Facts *)

Lemma strip_prefix_Some p s r : strip_prefix p s = Some r <-> s = p +:+ r.
Proof.
  revert s; induction p as [|a p IH]; intros s; simpl.
  - rewrite str_nil_app. naive_solver.
  - destruct s as [|b s]; [by split|]. rewrite str_cons_app.
    destruct (Ascii.eqb_spec a b) as [->|Hne].
    + rewrite IH. split; congruence.
    + split; congruence.
Qed.

Lemma starts_with_spec p s : starts_with p s = true <-> exists r, s = p +:+ r.
Proof.
  unfold starts_with. destruct (strip_prefix p s) as [r|] eqn:E.
  - apply strip_prefix_Some in E. naive_solver.
  - split; [done|]. intros [r H%strip_prefix_Some]. congruence.
Qed.

Lemma starts_with_app p r : starts_with p (p +:+ r) = true.
Proof. apply starts_with_spec. by exists r. Qed.

Lemma starts_with_trans p q s :
  starts_with p q = true -> starts_with q s = true -> starts_with p s = true.
Proof.
  rewrite !starts_with_spec. intros [a ->] [b ->]. exists (a +:+ b). apply str_app_assoc.
Qed.

Lemma split_once_Some pat s a b : split_once pat s = Some (a, b) -> s = a +:+ pat +:+ b.
Proof.
  revert a b; induction s as [|c s IH]; intros a b H; simpl in H.
  - case_match eqn:E; simplify_eq. apply strip_prefix_Some in E. by rewrite str_nil_app.
  - case_match eqn:E; simplify_eq.
    + by apply strip_prefix_Some in E.
    + case_match; [|done]. case_match; simplify_eq. rewrite str_cons_app. f_equal. by apply IH.
Qed.

Lemma contains_spec pat s : contains pat s = true <-> exists a b, s = a +:+ pat +:+ b.
Proof.
  unfold contains. split.
  - destruct (split_once pat s) as [[a b]|] eqn:E; [|done]. exists a, b. by apply split_once_Some.
  - intros (a & b & ->). induction a as [|c a IH].
    + rewrite str_nil_app.
      assert (strip_prefix pat (pat +:+ b) = Some b) as E by by apply strip_prefix_Some.
      destruct (pat +:+ b); simpl in *; rewrite E; done.
    + rewrite str_cons_app. simpl. destruct (strip_prefix pat _); [done|].
      destruct (split_once pat _) as [[]|]; done.
Qed.

Lemma contains_trans p q s : contains p q = true -> contains q s = true -> contains p s = true.
Proof.
  rewrite !contains_spec. intros (a & b & ->) (c & d & ->).
  exists (c +:+ a), (b +:+ d). by rewrite !str_app_assoc.
Qed.

Lemma digit_val_char radix d :
  2 <= radix <= 16 -> 0 <= d < radix -> digit_val radix (digit_char d) = Some d.
Proof.
  intros Hr Hd. unfold digit_char, digit_val.
  destruct (Z.ltb_spec d 10); rewrite byte_chr by lia.
  - destruct (Z.leb_spec 48 (48 + d)), (Z.leb_spec (48 + d) 57); try lia; simpl.
    destruct (Z.ltb_spec (48 + d - 48) radix); [f_equal; lia|lia].
  - destruct (Z.leb_spec 48 (87 + d)), (Z.leb_spec (87 + d) 57),
      (Z.leb_spec 97 (87 + d)), (Z.leb_spec (87 + d) 122); try lia; simpl.
    destruct (Z.ltb_spec (87 + d - 87) radix); [f_equal; lia|lia].
Qed.

Lemma parse_digits_go t radix fuel n acc :
  2 <= radix <= 16 -> imin t <= 0 -> 0 <= n <= imax t -> n < radix ^ Z.of_nat fuel ->
  (0 < fuel)%nat ->
  parse_digits t radix 1 0 (digits_go fuel radix n acc) = parse_digits t radix 1 n acc.
Proof.
  intros Hr Ht. revert n acc; induction fuel as [|fuel IH]; intros n acc Hn Hf H0; [lia|].
  assert (fitsb t n = true) as Hfit by (apply fitsb_spec; unfold fits; lia).
  pose proof (Z.mod_pos_bound n radix ltac:(lia)).
  simpl. destruct (Z.ltb_spec n radix) as [Hlt|Hge].
  - simpl. rewrite digit_val_char by lia. rewrite (Z.mod_small n) by lia.
    replace (0 * radix + 1 * n) with n by lia. by rewrite Hfit.
  - pose proof (Z.div_le_upper_bound n radix n ltac:(lia) ltac:(nia)).
    pose proof (Z.div_pos n radix ltac:(lia) ltac:(lia)).
    rewrite IH; [|lia| |].
    + simpl. rewrite digit_val_char by lia.
      replace (n / radix * radix + 1 * (n mod radix)) with n
        by (rewrite (Z.div_mod n radix) at 1; lia).
      by rewrite Hfit.
    + apply Z.div_lt_upper_bound; [lia|].
      rewrite Nat2Z.inj_succ, Z.pow_succ_r in Hf by lia. done.
    + destruct fuel; [|lia]. simpl in Hf. rewrite Z.pow_1_r in Hf. lia.
Qed.

Lemma parse_digits_fmt t radix n :
  2 <= radix <= 16 -> imin t <= 0 -> 0 <= n <= imax t ->
  parse_digits t radix 1 0 (fmt_radix radix n) = Some n.
Proof.
  intros Hr Ht Hn. unfold fmt_radix. rewrite parse_digits_go; [done|done|done|done| |lia].
  destruct (decide (n = 0)) as [->|]; [apply Z.pow_pos_nonneg; lia|].
  pose proof (Z.log2_spec n ltac:(lia)) as [_ H].
  pose proof (Z.log2_nonneg n).
  rewrite Nat2Z.inj_succ, Z2Nat.id by lia.
  eapply Z.lt_le_trans; [exact H|]. apply Z.pow_le_mono_l. lia.
Qed.

(** The first character of a printed number is a digit, so never a sign. *)
Lemma digits_go_head fuel radix n acc :
  2 <= radix <= 16 -> (0 < fuel)%nat ->
  exists d s, digits_go fuel radix n acc = String (digit_char d) s /\ 0 <= d < radix.
Proof.
  intros Hr. revert n acc; induction fuel as [|fuel IH]; intros n acc H; [lia|].
  pose proof (Z.mod_pos_bound n radix ltac:(lia)).
  simpl. destruct (n <? radix); [by eauto|].
  destruct fuel; [by eauto|]. apply IH. lia.
Qed.

Lemma digit_char_not_sign d : 0 <= d < 16 -> digit_char d <> "+"%char /\ digit_char d <> "-"%char.
Proof.
  intros Hd. unfold digit_char.
  split; intros H%(f_equal byte); rewrite byte_chr in H by (case_match; bool_prop; lia);
    change (byte "+") with 43 in H; change (byte "-") with 45 in H; case_match; bool_prop; lia.
Qed.

Lemma from_str_radix_digit t radix c s :
  c <> "+"%char -> c <> "-"%char ->
  from_str_radix t radix (String c s) = parse_digits t radix 1 0 (String c s).
Proof.
  intros H1 H2. unfold from_str_radix.
  destruct c as [[] [] [] [] [] [] [] []]; try done; by destruct s.
Qed.

(** Printing then parsing gives the number back. *)
Lemma from_str_radix_fmt t radix n :
  2 <= radix <= 16 -> 0 <= n -> fits t n -> from_str_radix t radix (fmt_radix radix n) = Some n.
Proof.
  intros Hr H0 Hn.
  assert (imin t <= 0) by (destruct t; vm_compute; congruence).
  destruct (digits_go_head (S (Z.to_nat (Z.log2 n))) radix n "" Hr) as (d & s & E & Hd); [lia|].
  pose proof (digit_char_not_sign d) as [H1 H2]; [lia|].
  change (digits_go _ radix n "") with (fmt_radix radix n) in E.
  rewrite E, from_str_radix_digit by done. rewrite <- E.
  apply parse_digits_fmt; [done|done|]. unfold fits in Hn. lia.
Qed.

Lemma parse_int_fmt t n : 0 <= n -> fits t n -> parse_int t (fmt_int n) = Some n.
Proof.
  intros H0 Hn. unfold parse_int, fmt_int. destruct (Z.ltb_spec n 0); [lia|].
  by apply from_str_radix_fmt.
Qed.

Lemma parse_digits_fits t radix sign acc s n :
  fits t acc -> parse_digits t radix sign acc s = Some n -> fits t n.
Proof.
  revert acc; induction s as [|c s IH]; intros acc Ha H; simpl in H; [by simplify_eq|].
  case_match; [|done]. case_match eqn:E; [|done]. eapply IH; [|done]. by apply fitsb_spec.
Qed.

(** A parsed number fits its type. *)
Lemma parse_int_fits t s n : parse_int t s = Some n -> fits t n.
Proof.
  assert (fits t 0) as H0 by (destruct t; vm_compute; split; congruence).
  unfold parse_int, from_str_radix. intros H.
  repeat (case_match; simplify_eq); by eapply parse_digits_fits.
Qed.

#[export] Hint Resolve parse_int_fits starts_with_app : mc.

Example split_ws_ex : split_whitespace "  [machine.1]   10	x " = ["[machine.1]"; "10"; "x"].
Proof. reflexivity. Qed.
Example parse_ex : (parse_int U8 "255", parse_int U8 "256", parse_int I8 "-128", parse_int U8 "+7",
                    parse_int U8 "-0", parse_int U32 "") = (Some 255, None, Some (-128), Some 7, None, None).
Proof. reflexivity. Qed.
Example hex_ex : (fmt_hex_alt 6 0x7a0, fmt_hex 16 255, fmt_int (-12)) = ("0x07a0", "00000000000000ff", "-12").
Proof. reflexivity. Qed.

(** ** Sorted sets of strings ([BTreeSet<String>]) *)

Definition str_ltb (s t : string) : bool :=
  match String.compare s t with Lt => true | _ => false end.

(** A [BTreeSet] is the list of its elements in order, each once. *)
Fixpoint bset_insert (x : string) (l : list string) : list string :=
  match l with
  | [] => [x]
  | y :: l' => if String.eqb x y then l else if str_ltb x y then x :: l else y :: bset_insert x l'
  end.
Definition bset_of (l : list string) : list string := fold_left (fun acc x => bset_insert x acc) l [].
Definition bset_mem (x : string) (l : list string) : bool := existsb (String.eqb x) l.

Lemma bset_insert_elem x y l : y ∈ bset_insert x l <-> y = x \/ y ∈ l.
Proof.
  induction l as [|z l IH]; simpl.
  - rewrite list_elem_of_singleton, elem_of_nil. naive_solver.
  - destruct (String.eqb_spec x z) as [->|Hne].
    + rewrite elem_of_cons. naive_solver.
    + destruct (str_ltb x z); rewrite !elem_of_cons, ?IH; naive_solver.
Qed.

Lemma bset_of_elem l y : y ∈ bset_of l <-> y ∈ l.
Proof.
  unfold bset_of. assert (forall acc, y ∈ fold_left (fun acc x => bset_insert x acc) l acc <->
                                      y ∈ l \/ y ∈ acc) as H.
  { induction l as [|x l IH]; intros acc; simpl.
    - rewrite elem_of_nil. naive_solver.
    - rewrite IH, bset_insert_elem, elem_of_cons. naive_solver. }
  rewrite H, elem_of_nil. naive_solver.
Qed.

Lemma bset_mem_elem x l : bset_mem x l = true <-> x ∈ l.
Proof.
  unfold bset_mem. rewrite existsb_elem. split.
  - intros (y & Hy & Heq%String.eqb_eq). by subst.
  - intros Hx. exists x. split; [done|]. apply String.eqb_refl.
Qed.

(** ** Words

    A word is a string of printable ASCII characters; [split_whitespace] gives back the
    words a line is made of. *)

Definition ascii_ws (c : ascii) : bool := ((9 <=? byte c) && (byte c <=? 13)) || (byte c =? 32).

Lemma ws_len_ascii c s :
  is_ascii_byte c = true -> ws_len (String c s) = (if ascii_ws c then 1%nat else 0%nat).
Proof.
  intros Hc. apply Z.ltb_lt in Hc. cbn [ws_len]. unfold ascii_ws. destruct (_ || _); [done|].
  destruct s as [|d [|e s]]; try done; rewrite !(proj2 (Z.eqb_neq (byte c) _)) by lia; done.
Qed.

Fixpoint str_all (p : ascii -> bool) (s : string) : bool :=
  match s with "" => true | String c s => p c && str_all p s end.

Lemma str_all_app p s t : str_all p (s +:+ t) = str_all p s && str_all p t.
Proof. induction s as [|c s IH]; [done|]. rewrite str_cons_app. cbn [str_all]. by rewrite IH, andb_assoc. Qed.

Lemma str_all_impl (p q : ascii -> bool) s :
  (forall c, p c = true -> q c = true) -> str_all p s = true -> str_all q s = true.
Proof. intros H. induction s as [|c s IH]; [done|]. cbn [str_all]. intros [Hc Hs]%andb_true_iff. by rewrite H, IH. Qed.

Definition word_char (c : ascii) : bool := is_ascii_byte c && negb (ascii_ws c).
Notation is_word := (str_all word_char).

Lemma ws_len_word c s : word_char c = true -> ws_len (String c s) = 0%nat.
Proof. intros [H1 H2]%andb_true_iff. rewrite ws_len_ascii by done. by apply negb_true_iff in H2 as ->. Qed.

Lemma split_ws_word w s :
  is_word w = true -> split_ws 0 (w +:+ " " +:+ s) = (w, split_whitespace s).
Proof.
  induction w as [|c w IH]; cbn [str_all]; intros H.
  - rewrite str_nil_app, str_cons_app, str_nil_app. cbn [split_ws].
    rewrite ws_len_ascii by done. change (ascii_ws " ") with true. cbn iota.
    unfold split_whitespace. by destruct (split_ws 0 s) as [[|d w] ws].
  - apply andb_true_iff in H as [Hc Hw]. rewrite str_cons_app. cbn [split_ws].
    by rewrite ws_len_word, IH.
Qed.

Lemma split_whitespace_cons w s :
  is_word w = true -> w <> "" -> split_whitespace (w +:+ " " +:+ s) = w :: split_whitespace s.
Proof. intros Hw Hne. unfold split_whitespace at 1. rewrite split_ws_word by done. by destruct w. Qed.

Lemma split_whitespace_word w : is_word w = true -> w <> "" -> split_whitespace w = [w].
Proof.
  intros Hw Hne. assert (split_ws 0 w = (w, [])) as E.
  { clear Hne. induction w as [|c w IH]; [done|]. cbn [str_all] in Hw.
    apply andb_true_iff in Hw as [Hc Hw]. cbn [split_ws]. by rewrite ws_len_word, IH. }
  unfold split_whitespace. rewrite E. by destruct w.
Qed.

Lemma split_whitespace_spaces k s : split_whitespace (str_repeat k " " +:+ s) = split_whitespace s.
Proof.
  induction k as [|k IH]; [done|]. rewrite <- IH. cbn [str_repeat]. rewrite str_cons_app.
  unfold split_whitespace. cbn [split_ws]. rewrite ws_len_ascii by done. change (ascii_ws " ") with true.
  cbn iota. by destruct (split_ws 0 _) as [[|c w] ws].
Qed.

Lemma trim_start_word c s : word_char c = true -> trim_start (String c s) = String c s.
Proof. intros H. unfold trim_start. cbn [trim_start_go]. by rewrite ws_len_word. Qed.

Lemma trim_start_spaces k s : trim_start (str_repeat k " " +:+ s) = trim_start s.
Proof.
  induction k as [|k IH]; [done|]. rewrite <- IH. cbn [str_repeat]. rewrite str_cons_app. unfold trim_start at 1.
  cbn [trim_start_go]. rewrite ws_len_ascii by done. reflexivity.
Qed.

(** A separator that does not occur before its first occurrence. *)
Lemma split_once_char c a b :
  str_all (fun d => negb (Ascii.eqb d c)) a = true ->
  split_once (String c "") (a +:+ String c b) = Some (a, b).
Proof.
  induction a as [|d a IH]; cbn [str_all]; intros H.
  - rewrite str_nil_app. cbn [split_once strip_prefix]. by rewrite Ascii.eqb_refl.
  - apply andb_true_iff in H as [Hd Ha]. apply negb_true_iff in Hd. rewrite str_cons_app.
    cbn [split_once strip_prefix]. rewrite (Ascii.eqb_sym c d), Hd, IH by done. done.
Qed.

Lemma str_rev_app_spec s t : str_rev_app s t = str_rev s +:+ t.
Proof.
  unfold str_rev. revert t; induction s as [|c s IH]; intros t; [done|]. cbn [str_rev_app].
  rewrite (IH (String c t)), (IH (String c "")), str_app_assoc. done.
Qed.

Lemma str_rev_cons c s : str_rev (String c s) = str_rev s +:+ String c "".
Proof. unfold str_rev at 1. cbn [str_rev_app]. apply str_rev_app_spec. Qed.

Lemma str_rev_concat s t : str_rev (s +:+ t) = str_rev t +:+ str_rev s.
Proof.
  induction s as [|c s IH]; [by rewrite str_nil_app, str_app_nil|].
  by rewrite str_cons_app, !str_rev_cons, IH, str_app_assoc.
Qed.

Lemma str_rev_involutive s : str_rev (str_rev s) = s.
Proof. induction s as [|c s IH]; [done|]. by rewrite str_rev_cons, str_rev_concat, IH. Qed.

Lemma strip_suffix_app p s : strip_suffix p (s +:+ p) = Some s.
Proof.
  unfold strip_suffix. rewrite str_rev_concat, (proj2 (strip_prefix_Some _ _ _) eq_refl).
  cbn. by rewrite str_rev_involutive.
Qed.

(** Printed numbers are made of digits. *)
Lemma digits_go_digits p fuel radix n acc :
  1 < radix -> 0 <= n -> (forall d, 0 <= d < radix -> p (digit_char d) = true) ->
  str_all p acc = true -> str_all p (digits_go fuel radix n acc) = true.
Proof.
  intros Hr Hn Hp. revert n acc Hn; induction fuel as [|fuel IH]; intros n acc Hn Ha; [done|].
  cbn [digits_go]. assert (str_all p (String (digit_char (n mod radix)) acc) = true) as Ha'.
  { cbn [str_all]. rewrite Ha, Hp; [done|]. apply Z.mod_pos_bound. lia. }
  case_match; [done|]. apply IH; [|done]. apply Z.div_pos; lia.
Qed.

Lemma fmt_int_all p n :
  0 <= n -> forallb (fun d => p (digit_char d)) (seqZ 0 10) = true -> str_all p (fmt_int n) = true.
Proof.
  intros Hn Hp. unfold fmt_int, fmt_radix. rewrite (proj2 (Z.ltb_ge n 0)) by done.
  apply digits_go_digits; [done|done| |done]. intros d Hd. rewrite forallb_elem in Hp.
  apply (Hp d), elem_of_seqZ. lia.
Qed.

Lemma fmt_int_not_empty n : 0 <= n -> fmt_int n <> "".
Proof.
  intros Hn. unfold fmt_int. rewrite (proj2 (Z.ltb_ge n 0)) by done. unfold fmt_radix.
  destruct (digits_go_head (S (Z.to_nat (Z.log2 n))) 10 n "") as (c & s & -> & _); [done|lia|done].
Qed.

(** Trimming. *)
Lemma is_ascii_app s t : is_ascii (s +:+ t) = is_ascii s && is_ascii t.
Proof. induction s as [|c s IH]; [done|]. rewrite str_cons_app. cbn [is_ascii]. by rewrite IH, andb_assoc. Qed.

Lemma word_is_ascii s : is_word s = true -> is_ascii s = true.
Proof. induction s as [|c s IH]; [done|]. cbn [str_all is_ascii]. unfold word_char. intros [[Hc _]%andb_true_iff Hs]%andb_true_iff. by rewrite Hc, IH. Qed.

(** A white-space character is not longer than what stands before a word. *)
Lemma ws_len_before_word d a c :
  word_char c = true -> (ws_len (String d (a +:+ String c "")) <= S (String.length a))%nat.
Proof.
  unfold word_char. intros [Hc _]%andb_true_iff. apply Z.ltb_lt in Hc.
  destruct a as [|e [|f a]]; rewrite ?str_cons_app, ?str_nil_app; cbn [ws_len String.length];
    repeat case_match; try lia; bool_prop; lia.
Qed.

Lemma trim_start_not_empty a c :
  word_char c = true -> trim_start (a +:+ String c "") <> "".
Proof.
  intros Hc. unfold trim_start.
  assert (forall k, (k <= String.length a)%nat -> trim_start_go k (a +:+ String c "") <> "") as H;
    [|apply H; lia].
  induction a as [|d a IH]; intros k Hk; cbn [String.length] in Hk.
  { assert (k = 0)%nat as -> by lia. rewrite str_nil_app.
    by rewrite (trim_start_word c "" Hc : trim_start_go 0 (String c "") = _). }
  rewrite str_cons_app. cbn [trim_start_go]. destruct k as [|k]; [|apply IH; lia].
  pose proof (ws_len_before_word d a c Hc) as Hlen. destruct (ws_len _) as [|k]; [done|apply IH; lia].
Qed.

Lemma trim_end_word a c :
  word_char c = true -> trim_end (a +:+ String c "") = a +:+ String c "".
Proof.
  intros Hc. induction a as [|d a IH].
  - rewrite str_nil_app. cbn [trim_end]. by rewrite trim_start_word.
  - pose proof (trim_start_not_empty (String d a) c Hc) as Hne.
    rewrite str_cons_app in *. cbn [trim_end].
    destruct (trim_start _); [done|]. by rewrite IH.
Qed.

Lemma str_last s : s <> "" -> exists a c, s = a +:+ String c "".
Proof.
  induction s as [|c s IH]; [done|]. intros _. destruct s as [|d s]; [by exists "", c|].
  destruct IH as (a & e & ->); [done|]. by exists (String c a), e.
Qed.

Definition starts_with_word (s : string) : Prop :=
  match s with "" => True | String c _ => word_char c = true end.

Lemma trim_start_id s : starts_with_word s -> trim_start s = s.
Proof. destruct s as [|c s]; [done|]. apply trim_start_word. Qed.

(** A text between words is not trimmed. *)
Lemma trim_words a w :
  is_word w = true -> w <> "" -> starts_with_word (a +:+ w) -> trim (a +:+ w) = a +:+ w.
Proof.
  intros Hw Hne Hs. unfold trim. rewrite trim_start_id by done.
  destruct (str_last w Hne) as (b & c & ->). rewrite str_all_app in Hw. apply andb_true_iff in Hw as [Hb Hc].
  cbn [str_all] in Hc. rewrite andb_true_r in Hc.
  rewrite <- str_app_assoc. by apply trim_end_word.
Qed.

Lemma trim_word w : is_word w = true -> trim w = w.
Proof.
  intros Hw. destruct w as [|c w]; [done|]. apply (trim_words "" (String c w)); try done.
  cbn [str_all] in Hw. by apply andb_true_iff in Hw as [Hc _].
Qed.

Lemma trim_space w : trim (" " +:+ w) = trim w.
Proof. unfold trim. by rewrite (trim_start_spaces 1 w : trim_start (" " +:+ w) = trim_start w). Qed.

Lemma trim_word_space w : is_word w = true -> w <> "" -> trim (w +:+ " ") = w.
Proof.
  intros Hw Hne. unfold trim. rewrite trim_start_id.
  2: { destruct w as [|c w]; [done|]. cbn [str_all] in Hw. by apply andb_true_iff in Hw as [Hc _]. }
  destruct (str_last w Hne) as (b & c & ->). rewrite str_all_app in Hw. apply andb_true_iff in Hw as [Hb Hc].
  cbn [str_all] in Hc. rewrite andb_true_r in Hc. apply word_is_ascii in Hb. clear Hne.
  rewrite str_app_assoc. induction b as [|d b IH].
  - rewrite !str_nil_app, str_cons_app, str_nil_app. cbn [trim_end]. by rewrite trim_start_word.
  - cbn [is_ascii] in Hb. apply andb_true_iff in Hb as [Hd Hb]. specialize (IH Hb).
    rewrite !(str_cons_app d). cbn [trim_end]. destruct (trim_start (String d _)) eqn:E; [|by rewrite IH].
    exfalso. revert E. unfold trim_start. cbn [trim_start_go]. rewrite ws_len_ascii by done.
    destruct (ascii_ws d); [|done]. intros E.
    destruct b as [|d' b]; rewrite ?str_nil_app, ?str_cons_app in *; cbn [trim_end] in IH; unfold trim_start in IH;
      by rewrite E in IH.
Qed.


Lemma word_app_starts w s : is_word w = true -> w <> "" -> starts_with_word (w +:+ s).
Proof. destruct w as [|c w]; [done|]. cbn [str_all]. intros [Hc _]%andb_true_iff _. done. Qed.
