(* ===== verification/Protocol.v ===== *)
(** * Wire protocol ([state_tests/src/protocol.rs])

    Node and message identifiers, the enumerations with their [repr(u8)]
    discriminants, the payload structures with their encoders and decoders, the
    BMS temperature classification and the safety torque clamp. *)

From S2P Require Import Prelude MachineInt RustStr.

(** ** Node and message identifiers *)

Definition MC_NODE_GATEWAY : Z := 1.
Definition MC_NODE_POWERTRAIN : Z := 2.
Definition MC_NODE_BMS : Z := 3.
Definition MC_NODE_DASHBOARD : Z := 4.
Definition MC_NODE_PLANT : Z := 100.
Definition MC_NODE_TEST_HARNESS : Z := 200.
Definition MC_NODE_EVSE : Z := 6.
Definition MC_NODE_OTA_TOOL : Z := 7.
Definition MC_NODE_TELEMATICS : Z := 8.

Definition node_ids : list Z :=
  [MC_NODE_GATEWAY; MC_NODE_POWERTRAIN; MC_NODE_BMS; MC_NODE_DASHBOARD; MC_NODE_PLANT;
   MC_NODE_TEST_HARNESS; MC_NODE_EVSE; MC_NODE_OTA_TOOL; MC_NODE_TELEMATICS].

Definition MC_MSG_HEARTBEAT : Z := 0x001.
Definition MC_MSG_VEHICLE_MODE : Z := 0x010.
Definition MC_MSG_DRIVER_INPUT : Z := 0x020.
Definition MC_MSG_POWERTRAIN_STATUS : Z := 0x100.
Definition MC_MSG_MOTOR_COMMAND : Z := 0x101.
Definition MC_MSG_WHEEL_SPEED : Z := 0x102.
Definition MC_MSG_BMS_STATUS : Z := 0x200.
Definition MC_MSG_BMS_LIMITS : Z := 0x201.
Definition MC_MSG_BMS_FAULT : Z := 0x202.
Definition MC_MSG_DASHBOARD_STATUS : Z := 0x300.
Definition MC_MSG_WARNING : Z := 0x400.
Definition MC_MSG_BMS_CHARGE_LIMIT : Z := 0x203.
Definition MC_MSG_EVSE_EVENT : Z := 0x610.
Definition MC_MSG_CHARGE_COMMAND : Z := 0x611.
Definition MC_MSG_OTA_REQUEST : Z := 0x630.
Definition MC_MSG_OTA_CHUNK : Z := 0x631.
Definition MC_MSG_OTA_FINISH : Z := 0x632.
Definition MC_MSG_OTA_STATUS : Z := 0x633.

Definition message_ids : list Z :=
  [MC_MSG_HEARTBEAT; MC_MSG_VEHICLE_MODE; MC_MSG_DRIVER_INPUT; MC_MSG_POWERTRAIN_STATUS;
   MC_MSG_MOTOR_COMMAND; MC_MSG_WHEEL_SPEED; MC_MSG_BMS_STATUS; MC_MSG_BMS_LIMITS;
   MC_MSG_BMS_FAULT; MC_MSG_DASHBOARD_STATUS; MC_MSG_WARNING; MC_MSG_BMS_CHARGE_LIMIT;
   MC_MSG_EVSE_EVENT; MC_MSG_CHARGE_COMMAND; MC_MSG_OTA_REQUEST; MC_MSG_OTA_CHUNK;
   MC_MSG_OTA_FINISH; MC_MSG_OTA_STATUS].

(** ** Enumerations *)

Inductive VehicleMode : Set := Off | Ready | Drive | Limp | Fault | Charging.
#[export] Instance VehicleMode_eq_dec : EqDecision VehicleMode.
Proof. solve_decision. Defined.

(** [mode as u8] *)
Definition VehicleMode_as_u8 (m : VehicleMode) : Z :=
  match m with Off => 0 | Ready => 1 | Drive => 2 | Limp => 3 | Fault => 4 | Charging => 5 end.

Definition VehicleMode_from_u8 (v : Z) : VehicleMode :=
  match v with
  | 0 => Off | 1 => Ready | 2 => Drive | 3 => Limp | 4 => Fault | 5 => Charging
  | _ => Off
  end.

Definition mode_name (m : VehicleMode) : string :=
  match m with
  | Off => "OFF" | Ready => "READY" | Drive => "DRIVE"
  | Limp => "LIMP" | Fault => "FAULT" | Charging => "CHARGING"
  end.

Inductive BmsState : Set := Ok | WarnHot | LimpRequest | CriticalFault.
#[export] Instance BmsState_eq_dec : EqDecision BmsState.
Proof. solve_decision. Defined.

Definition BmsState_as_u8 (s : BmsState) : Z :=
  match s with Ok => 0 | WarnHot => 1 | LimpRequest => 2 | CriticalFault => 3 end.

(** [NoFault] is the source's [BmsFaultCode::None]. *)
Inductive BmsFaultCode : Set :=
  NoFault | Overtemp | Overvoltage | Undervoltage | OverCurrent | CommError.
#[export] Instance BmsFaultCode_eq_dec : EqDecision BmsFaultCode.
Proof. solve_decision. Defined.

Definition BmsFaultCode_as_u8 (c : BmsFaultCode) : Z :=
  match c with
  | NoFault => 0 | Overtemp => 1 | Overvoltage => 2
  | Undervoltage => 3 | OverCurrent => 4 | CommError => 5
  end.

(** [NoWarning] is the source's [WarningCode::None]. *)
Inductive WarningCode : Set :=
  | NoWarning | BmsOvertemp | BmsOffline | PowertrainOffline | GatewayRestarted
  | DashboardOffline | InvalidThrottle | CriticalBmsFault | ChargerPlugged.

Definition WarningCode_as_u8 (c : WarningCode) : Z :=
  match c with
  | NoWarning => 0 | BmsOvertemp => 1 | BmsOffline => 2 | PowertrainOffline => 3
  | GatewayRestarted => 4 | DashboardOffline => 5 | InvalidThrottle => 6
  | CriticalBmsFault => 7 | ChargerPlugged => 8
  end.

(** ** Safety constants *)

Definition MC_SAFETY_LIMP_RESPONSE_MS : Z := 300.
Definition MC_SAFETY_GATEWAY_TIMEOUT_MS : Z := 250.
Definition MC_SAFETY_BMS_HEARTBEAT_TIMEOUT_MS : Z := 300.
Definition MC_SAFETY_HEARTBEAT_INTERVAL_MS : Z := 100.
Definition MC_BMS_TEMP_OK : Z := 60.
Definition MC_BMS_TEMP_WARN : Z := 60.
Definition MC_BMS_TEMP_LIMP : Z := 75.
Definition MC_BMS_TEMP_CRITICAL : Z := 90.
Definition MC_TORQUE_LIMP_MAX_PERCENT : Z := 25.
Definition MC_TORQUE_FAULT_MAX_PERCENT : Z := 0.

(** ** Payload structures, encoders and decoders *)

Record HeartbeatMsg := { hb_node_id : Z; hb_uptime_ms : Z }.
Definition encode_heartbeat (node_id uptime_ms : Z) : HeartbeatMsg :=
  {| hb_node_id := node_id; hb_uptime_ms := uptime_ms |}.
Definition decode_heartbeat (msg : HeartbeatMsg) : Z * Z := (hb_node_id msg, hb_uptime_ms msg).

Record VehicleModeMsg := { vm_mode : Z; vm_fault_code : Z }.
Definition encode_vehicle_mode (mode fault_code : Z) : VehicleModeMsg :=
  {| vm_mode := mode; vm_fault_code := fault_code |}.
Definition decode_vehicle_mode (msg : VehicleModeMsg) : Z * Z := (vm_mode msg, vm_fault_code msg).

Record DriverInputMsg := { di_throttle_percent : Z; di_brake_pressed : Z; di_gear : Z }.
Definition encode_driver_input (throttle brake gear : Z) : DriverInputMsg :=
  {| di_throttle_percent := throttle; di_brake_pressed := brake; di_gear := gear |}.
Definition decode_driver_input (msg : DriverInputMsg) : Z * Z * Z :=
  (di_throttle_percent msg, di_brake_pressed msg, di_gear msg).

Record BmsStatusMsg :=
  { bs_pack_voltage_mv : Z; bs_pack_current_ma : Z; bs_pack_temp_c_x10 : Z; bs_soc_percent : Z }.
Definition encode_bms_status (voltage_mv current_ma temp_c_x10 soc_percent : Z) : BmsStatusMsg :=
  {| bs_pack_voltage_mv := voltage_mv; bs_pack_current_ma := current_ma;
     bs_pack_temp_c_x10 := temp_c_x10; bs_soc_percent := soc_percent |}.
Definition decode_bms_status (msg : BmsStatusMsg) : Z * Z * Z * Z :=
  (bs_pack_voltage_mv msg, bs_pack_current_ma msg, bs_pack_temp_c_x10 msg, bs_soc_percent msg).

Record BmsLimitsMsg := { bl_max_torque_percent : Z; bl_reason : Z }.
Definition encode_bms_limits (max_torque reason : Z) : BmsLimitsMsg :=
  {| bl_max_torque_percent := max_torque; bl_reason := reason |}.
Definition decode_bms_limits (msg : BmsLimitsMsg) : Z * Z :=
  (bl_max_torque_percent msg, bl_reason msg).

Record MotorCommandMsg := { mc_torque_percent : Z; mc_enable : Z }.
Definition encode_motor_command (torque enable : Z) : MotorCommandMsg :=
  {| mc_torque_percent := torque; mc_enable := enable |}.
Definition decode_motor_command (msg : MotorCommandMsg) : Z * Z :=
  (mc_torque_percent msg, mc_enable msg).

Record WheelSpeedMsg := { ws_speed_kph_x10 : Z }.
Definition encode_wheel_speed (speed_kph_x10 : Z) : WheelSpeedMsg :=
  {| ws_speed_kph_x10 := speed_kph_x10 |}.
Definition decode_wheel_speed (msg : WheelSpeedMsg) : Z := ws_speed_kph_x10 msg.

Record WarningMsg := { wm_source_node : Z; wm_warning_code : Z }.
Definition encode_warning (source code : Z) : WarningMsg :=
  {| wm_source_node := source; wm_warning_code := code |}.
Definition decode_warning (msg : WarningMsg) : Z * Z := (wm_source_node msg, wm_warning_code msg).

(** ** BMS state determination *)

(** The temperature is in 0.1 degree units; [/] on [i16] truncates toward zero. *)
Definition bms_determine_state (temp_c_x10 : Z) : BmsState :=
  let temp_c := Z.quot temp_c_x10 10 in
  if MC_BMS_TEMP_CRITICAL <? temp_c then CriticalFault
  else if MC_BMS_TEMP_LIMP <? temp_c then LimpRequest
  else if MC_BMS_TEMP_WARN <? temp_c then WarnHot
  else Ok.

(** ** Safety torque clamp *)

Definition safety_clamp_torque (requested : Z) (mode : VehicleMode) (brake_pressed : bool)
    (bms_max_torque : Z) : Z :=
  if brake_pressed then 0
  else if bool_decide (mode = Fault) then 0
  else
    let effective_max :=
      match mode with
      | Limp => Z.min MC_TORQUE_LIMP_MAX_PERCENT bms_max_torque
      | _ => Z.min bms_max_torque 100
      end in
    Z.min (Z.max requested 0) (cast I8 effective_max).

(** The ceiling the safety rules S1-S3 put on the motor torque. *)
Definition torque_ceiling (mode : VehicleMode) (brake_pressed : bool) (bms_max_torque : Z) : Z :=
  if brake_pressed || bool_decide (mode = Fault) then 0
  else Z.min bms_max_torque (if bool_decide (mode = Limp) then 25 else 100).

(** ** Theorems *)

(** Identifiers do not collide: a frame's id and a payload's source node are
    unambiguous. *)
Lemma protocol_ids_distinct : NoDup message_ids /\ NoDup node_ids.
Proof. split; apply (bool_decide_unpack _); by vm_compute. Qed.

Lemma mode_u8_roundtrip m : VehicleMode_from_u8 (VehicleMode_as_u8 m) = m.
Proof. by destruct m. Qed.

Lemma clamp_effective_max_cast mode bms :
  0 <= bms <= 255 ->
  cast I8 (match mode with Limp => Z.min MC_TORQUE_LIMP_MAX_PERCENT bms | _ => Z.min bms 100 end)
  = match mode with Limp => Z.min 25 bms | _ => Z.min bms 100 end.
Proof.
  intros Hb. apply cast_id. unfold MC_TORQUE_LIMP_MAX_PERCENT.
  destruct mode; int_unfold; lia.
Qed.

(** The clamp in closed form. *)
Lemma clamp_closed_form requested mode brake bms :
  0 <= bms <= 255 ->
  safety_clamp_torque requested mode brake bms =
  Z.min (Z.max requested 0) (torque_ceiling mode brake bms).
Proof.
  intros Hb. unfold safety_clamp_torque, torque_ceiling.
  rewrite clamp_effective_max_cast by done.
  destruct brake; simpl; [lia|].
  destruct mode; simpl; lia.
Qed.

Lemma bms_state_thresholds t :
  bms_determine_state t =
  if 910 <=? t then CriticalFault
  else if 760 <=? t then LimpRequest
  else if 610 <=? t then WarnHot
  else Ok.
Proof.
  unfold bms_determine_state, MC_BMS_TEMP_CRITICAL, MC_BMS_TEMP_LIMP, MC_BMS_TEMP_WARN.
  assert (forall k, 0 <= k -> (k <? t ÷ 10) = (10 * (k + 1) <=? t)) as Hq.
  { intros k Hk. destruct (Z.leb_spec (10 * (k + 1)) t), (Z.ltb_spec k (t ÷ 10)); try done; exfalso.
    - pose proof (Z.quot_rem' t 10). pose proof (Z.rem_bound_pos t 10 ltac:(lia) ltac:(lia)). lia.
    - destruct (Z.le_gt_cases 0 t).
      + pose proof (Z.quot_rem' t 10). pose proof (Z.rem_bound_pos t 10 ltac:(lia) ltac:(lia)). lia.
      + pose proof (Z.quot_opp_l (- t) 10 ltac:(lia)) as E. rewrite Z.opp_involutive in E.
        pose proof (Z.quot_pos (- t) 10 ltac:(lia) ltac:(lia)). lia. }
  by rewrite !Hq by lia.
Qed.

#[export] Hint Rewrite mode_u8_roundtrip : mc.
