(* ===== verification/Timeout.v ===== *)
(** * Heartbeat supervision: the interface

    A supervisor records beats and, when checked, declares its peer lost once the
    configured time has passed since the last beat.  [Supervisor] states what every
    implementation promises; the theorems about event sequences are proved from the
    promise alone, for any implementation. *)

From S2P Require Import Prelude MachineInt.

(** ** The contract *)

Inductive event : Set := Beat (at_ms : Z) | Check (at_ms : Z).

Definition event_time (e : event) : Z := match e with Beat t | Check t => t end.

(** The abstract supervisor: the time of the beat it still trusts, if any. *)
Definition spec_step (timeout : Z) (trusted : option Z) (e : event) : option Z :=
  match e with
  | Beat t => Some t
  | Check t =>
      match trusted with
      | Some t0 => if t - t0 <? timeout then Some t0 else None
      | None => None
      end
  end.

Definition spec_run (timeout : Z) (trusted : option Z) (es : list event) : option Z :=
  fold_left (spec_step timeout) es trusted.

(** Millisecond clocks are [u32]; within a run time does not go back. *)
Fixpoint ordered_from (now : Z) (es : list event) : Prop :=
  match es with
  | [] => True
  | e :: es => now <= event_time e /\ fits U32 (event_time e) /\ ordered_from (event_time e) es
  end.

Class Supervisor (S : Type) := {
  sv_timeout : S -> Z;
  sv_trusted : S -> option Z;
  sv_step : profile -> S -> event -> outcome S;
}.

(** The trusted beat is a past [u32] instant. *)
Definition sv_past {S : Type} `{Supervisor S} (now : Z) (s : S) : Prop :=
  match sv_trusted s with Some t0 => 0 <= t0 <= now | None => True end.

Class SupervisorLaws (S : Type) `{Supervisor S} := {
  sv_step_spec : forall p s e now,
    sv_past now s -> now <= event_time e -> fits U32 (event_time e) ->
    exists s', sv_step p s e = Ret s' /\
               sv_trusted s' = spec_step (sv_timeout s) (sv_trusted s) e /\
               sv_timeout s' = sv_timeout s;
}.

(** ** Consequences *)

Lemma ordered_from_app now es1 es2 :
  ordered_from now (es1 ++ es2) ->
  ordered_from now es1.
Proof.
  revert now; induction es1 as [|e es1 IH]; intros now; simpl; [done|].
  intros (? & ? & ?). split_and!; auto.
Qed.

Lemma spec_run_app timeout o es1 es2 :
  spec_run timeout o (es1 ++ es2) = spec_run timeout (spec_run timeout o es1) es2.
Proof. apply fold_left_app. Qed.

Lemma spec_run_snoc timeout o es e :
  spec_run timeout o (es ++ [e]) = spec_step timeout (spec_run timeout o es) e.
Proof. by rewrite spec_run_app. Qed.

(** Every check of [es] found the beat at [t0] fresh enough. *)
Definition fresh (timeout t0 : Z) (es : list event) : Prop :=
  forall e, e ∈ es -> exists t, e = Check t /\ t - t0 < timeout.

Lemma spec_run_fresh timeout t0 es :
  fresh timeout t0 es -> spec_run timeout (Some t0) es = Some t0.
Proof.
  intros Hf. induction es as [|e es IH]; [done|].
  destruct (Hf e ltac:(by left)) as (t & -> & Ht).
  unfold spec_run in *; simpl. apply Z.ltb_lt in Ht. rewrite Ht.
  apply IH. intros e He. apply Hf. by right.
Qed.

(** A peer is trusted after a run exactly when some beat of the run was followed
    by no other beat and only by checks inside the time limit. *)
Lemma spec_run_Some timeout es t0 :
  spec_run timeout None es = Some t0 <->
  exists es1 es2, es = es1 ++ Beat t0 :: es2 /\ fresh timeout t0 es2.
Proof.
  split.
  - revert t0; induction es as [|e es IH] using rev_ind; intros t0 H; [done|].
    rewrite spec_run_snoc in H. destruct e as [t|t]; simpl in H.
    + simplify_eq. exists es, []. split; [done|]. intros e He. by apply not_elem_of_nil in He.
    + destruct (spec_run timeout None es) as [t1|] eqn:E; [|done].
      case_match eqn:Ht; simplify_eq. bool_prop.
      destruct (IH t0 eq_refl) as (es1 & es2 & -> & Hf).
      exists es1, (es2 ++ [Check t]). split; [by rewrite <- app_assoc|].
      intros e [He|He%list_elem_of_singleton]%elem_of_app; [by apply Hf|].
      exists t. auto.
  - intros (es1 & es2 & -> & Hf).
    rewrite spec_run_app. simpl. by apply spec_run_fresh.
Qed.

Section Runs.
Context {S : Type} `{SupervisorLaws S}.

Definition sv_run (p : profile) (s : S) (es : list event) : outcome S := ofold (sv_step p) s es.

Lemma spec_step_past timeout o e now :
  match o with Some t0 => 0 <= t0 <= now | None => True end ->
  now <= event_time e -> fits U32 (event_time e) ->
  match spec_step timeout o e with Some t0 => 0 <= t0 <= event_time e | None => True end.
Proof.
  intros Ho Hn Hf. assert (0 <= event_time e) as Hge by int_lia. clear Hf.
  destruct e as [t|t]; cbn [event_time spec_step] in *; [lia|].
  destruct o as [t0|]; [|done]. destruct (t - t0 <? timeout); [lia|done].
Qed.

(** Any implementation follows the abstract supervisor, and never panics while
    its clock does not run backwards. *)
Lemma sv_run_refines p s now es :
  sv_past now s -> ordered_from now es ->
  exists s', sv_run p s es = Ret s' /\
             sv_trusted s' = spec_run (sv_timeout s) (sv_trusted s) es /\
             sv_timeout s' = sv_timeout s.
Proof.
  unfold sv_run. revert s now; induction es as [|e es IH]; intros s now Hp Ho; simpl.
  - by exists s.
  - destruct Ho as (Hn & Hf & Ho).
    destruct (sv_step_spec p s e now Hp Hn Hf) as (s1 & -> & Ht & Hto). simpl.
    destruct (IH s1 (event_time e)) as (s2 & -> & Ht2 & Hto2); [|done|].
    + unfold sv_past. rewrite Ht. by apply (spec_step_past _ _ _ now).
    + exists s2. rewrite Ht2, Ht, Hto in *. split_and!; [done|done|congruence].
Qed.
End Runs.
