(* ===== verification/Bms.v ===== *)
(** * Battery management ([state_tests/src/bms.rs]) *)

From S2P Require Import Prelude MachineInt Protocol.

Module BmsStateMachine.

Record t := {
  state : BmsState;
  temp_c_x10 : Z;
  voltage_mv : Z;
  current_ma : Z;
  soc_percent : Z;
  fault_code : BmsFaultCode;
  charger_plugged : bool;
}.

Definition default : t := {|
  state := Ok;
  temp_c_x10 := 250;
  voltage_mv := 48000;
  current_ma := 0;
  soc_percent := 80;
  fault_code := NoFault;
  charger_plugged := false;
|}.

Definition determine_fault_code (s : BmsState) : BmsFaultCode :=
  match s with
  | CriticalFault => Overtemp
  | _ => NoFault
  end.

(** The new state and the returned classification. *)
Definition update (self : t) (temp volt cur soc : Z) : t * BmsState :=
  let st := bms_determine_state temp in
  ({| state := st;
      temp_c_x10 := temp;
      voltage_mv := volt;
      current_ma := cur;
      soc_percent := soc;
      fault_code := determine_fault_code st;
      charger_plugged := charger_plugged self |}, st).

Definition is_fault (self : t) : bool := bool_decide (state self = CriticalFault).
Definition is_limp (self : t) : bool := bool_decide (state self = LimpRequest).

End BmsStateMachine.

Module BmsLimits.

Record t := {
  max_torque_percent : Z;
  reason : Z;
}.

Definition default : t := {| max_torque_percent := 255; reason := 0 |}.

Definition compute (self : t) (s : BmsState) : t * Z :=
  let self' :=
    match s with
    | Ok => {| max_torque_percent := 255; reason := 0 |}
    | WarnHot => {| max_torque_percent := 255; reason := 1 |}
    | LimpRequest => {| max_torque_percent := MC_TORQUE_LIMP_MAX_PERCENT; reason := 2 |}
    | CriticalFault => {| max_torque_percent := MC_TORQUE_FAULT_MAX_PERCENT; reason := 3 |}
    end in
  (self', max_torque_percent self').

End BmsLimits.

(** The limit published for a temperature. *)
Definition limit_at (temp : Z) : Z :=
  snd (BmsLimits.compute BmsLimits.default (bms_determine_state temp)).

Lemma limits_compute_limit self temp :
  snd (BmsLimits.compute self (bms_determine_state temp)) = limit_at temp.
Proof. done. Qed.

Lemma limit_at_closed_form temp :
  limit_at temp = if 910 <=? temp then 0 else if 760 <=? temp then 25 else 255.
Proof.
  unfold limit_at. rewrite bms_state_thresholds.
  by destruct (910 <=? temp), (760 <=? temp), (610 <=? temp).
Qed.

(** For every pack temperature (in 0.1 degree units) [update] classifies it with
    thresholds at 61.0, 76.0 and 91.0 degrees, records the four readings, raises the
    overtemperature code exactly in the critical state, leaves the charger flag alone
    and returns the state it stored, whatever state the machine was in before: no
    state is latched. *)
Theorem bms_update_functional self temp volt cur soc :
  let '(s, ret) := BmsStateMachine.update self temp volt cur soc in
  ret = BmsStateMachine.state s /\
  ret = (if 910 <=? temp then CriticalFault
         else if 760 <=? temp then LimpRequest
         else if 610 <=? temp then WarnHot else Ok) /\
  (BmsStateMachine.fault_code s = Overtemp <-> 910 <= temp) /\
  (BmsStateMachine.fault_code s = NoFault <-> temp < 910) /\
  BmsStateMachine.is_fault s = (910 <=? temp) /\
  BmsStateMachine.is_limp s = ((760 <=? temp) && (temp <? 910)) /\
  BmsStateMachine.temp_c_x10 s = temp /\ BmsStateMachine.voltage_mv s = volt /\
  BmsStateMachine.current_ma s = cur /\ BmsStateMachine.soc_percent s = soc /\
  BmsStateMachine.charger_plugged s = BmsStateMachine.charger_plugged self.
Proof.
  unfold BmsStateMachine.update, BmsStateMachine.is_fault, BmsStateMachine.is_limp; simpl.
  rewrite bms_state_thresholds.
  destruct (Z.leb_spec 910 temp), (Z.leb_spec 760 temp), (Z.leb_spec 610 temp),
    (Z.ltb_spec temp 910); try lia; simpl; split_and!; done || (split; intros; done || lia).
Qed.

(** A hotter pack never gets a higher torque limit, and the limit is always the
    value [compute] stores. *)
Theorem bms_limit_antitone self1 self2 temp1 temp2 :
  temp1 <= temp2 ->
  snd (BmsLimits.compute self2 (bms_determine_state temp2)) <=
  snd (BmsLimits.compute self1 (bms_determine_state temp1)) /\
  0 <= snd (BmsLimits.compute self2 (bms_determine_state temp2)) <= 255.
Proof.
  rewrite !limits_compute_limit, !limit_at_closed_form. intros H.
  repeat case_match; bool_prop; lia.
Qed.

Lemma bms_limit_antitone_witness :
  (700 <= 950) /\ (0 <= 255 /\ 0 <= 0 <= 255).
Proof.
  split; [lia|].
  exact (bms_limit_antitone BmsLimits.default BmsLimits.default 700 950 ltac:(lia)).
Defined.
