(* ===== verification/Powertrain.v ===== *)
(** * Powertrain ([state_tests/src/powertrain.rs])

    The torque controller with safety rules S1, S2, S3 and S6 and the gateway
    watchdog of rule S4. *)

From S2P Require Import Prelude MachineInt Protocol Timeout Bms.

Module TorqueController.

Record t := {
  throttle_percent : Z;
  brake_pressed : bool;
  gear : Z;
  vehicle_mode : VehicleMode;
  bms_torque_limit : Z;
  output_torque : Z;
  motor_enable : bool;
}.

Definition default : t := {|
  throttle_percent := 0;
  brake_pressed := false;
  gear := 0;
  vehicle_mode := Off;
  bms_torque_limit := 255;
  output_torque := 0;
  motor_enable := true;
|}.

Definition set_input (self : t) (throttle : Z) (brake : bool) (g : Z) : t := {|
  throttle_percent := throttle;
  brake_pressed := brake;
  gear := g;
  vehicle_mode := vehicle_mode self;
  bms_torque_limit := bms_torque_limit self;
  output_torque := output_torque self;
  motor_enable := motor_enable self;
|}.

Definition set_mode (self : t) (mode : VehicleMode) : t := {|
  throttle_percent := throttle_percent self;
  brake_pressed := brake_pressed self;
  gear := gear self;
  vehicle_mode := mode;
  bms_torque_limit := bms_torque_limit self;
  output_torque := output_torque self;
  motor_enable := motor_enable self;
|}.

Definition set_bms_limit (self : t) (max_torque : Z) : t := {|
  throttle_percent := throttle_percent self;
  brake_pressed := brake_pressed self;
  gear := gear self;
  vehicle_mode := vehicle_mode self;
  bms_torque_limit := max_torque;
  output_torque := output_torque self;
  motor_enable := motor_enable self;
|}.

(** The two fields [compute] writes. *)
Definition set_output (self : t) (torque : Z) (enable : bool) : t := {|
  throttle_percent := throttle_percent self;
  brake_pressed := brake_pressed self;
  gear := gear self;
  vehicle_mode := vehicle_mode self;
  bms_torque_limit := bms_torque_limit self;
  output_torque := torque;
  motor_enable := enable;
|}.

Definition compute (self : t) : t * Z :=
  if 100 <? throttle_percent self then (set_output self 0 false, 0)
  else
    let requested := cast I8 (throttle_percent self) in
    let torque :=
      safety_clamp_torque requested (vehicle_mode self) (brake_pressed self)
        (bms_torque_limit self) in
    (set_output self torque (negb (bool_decide (vehicle_mode self = Fault))), torque).

Definition is_throttle_invalid (self : t) : bool := 100 <? throttle_percent self.

(** The [u8] fields hold [u8] values. *)
Definition wf (self : t) : Prop :=
  fits U8 (throttle_percent self) /\ fits U8 (bms_torque_limit self).

End TorqueController.

Module WatchdogTask.

Record t := {
  last_gateway_beat_ms : Z;
  gateway_online : bool;
  torque_disabled : bool;
}.

Definition default : t := {|
  last_gateway_beat_ms := 0;
  gateway_online := false;
  torque_disabled := true;
|}.

Definition gateway_beat (self : t) (now_ms : Z) : t := {|
  last_gateway_beat_ms := now_ms;
  gateway_online := true;
  torque_disabled := false;
|}.

(** [true] when torque should be disabled. *)
Definition check (p : profile) (self : t) (now_ms : Z) : outcome (t * bool) :=
  if negb (gateway_online self) then
    Ret ({| last_gateway_beat_ms := last_gateway_beat_ms self;
            gateway_online := gateway_online self;
            torque_disabled := true |}, true)
  else
    let! elapsed := arith p U32 (now_ms - last_gateway_beat_ms self) in
    if MC_SAFETY_GATEWAY_TIMEOUT_MS <=? elapsed then
      Ret ({| last_gateway_beat_ms := last_gateway_beat_ms self;
              gateway_online := false;
              torque_disabled := true |}, true)
    else
      Ret ({| last_gateway_beat_ms := last_gateway_beat_ms self;
              gateway_online := gateway_online self;
              torque_disabled := false |}, false).

Definition reset (self : t) : t := default.

(** One event of the powertrain's loop. *)
Definition step (p : profile) (self : t) (e : event) : outcome t :=
  match e with
  | Beat now => Ret (gateway_beat self now)
  | Check now => omap_ret fst (check p self now)
  end.

Definition trusted (self : t) : option Z :=
  if gateway_online self then Some (last_gateway_beat_ms self) else None.

End WatchdogTask.

#[export] Instance watchdog_supervisor : Supervisor WatchdogTask.t := {
  sv_timeout := fun _ => MC_SAFETY_GATEWAY_TIMEOUT_MS;
  sv_trusted := WatchdogTask.trusted;
  sv_step := WatchdogTask.step;
}.

#[export] Instance watchdog_laws : SupervisorLaws WatchdogTask.t.
Proof.
  constructor. intros p s e now Hp Hn Hf.
  unfold sv_past, sv_trusted, sv_step, sv_timeout in *; simpl in *.
  unfold WatchdogTask.trusted, WatchdogTask.step, WatchdogTask.check in *.
  destruct e as [t|t]; simpl in *; [by eexists|].
  destruct (WatchdogTask.gateway_online s) eqn:Hon; simpl.
  - rewrite arith_Ret by int_lia. simpl.
    destruct (Z.leb_spec MC_SAFETY_GATEWAY_TIMEOUT_MS (t - WatchdogTask.last_gateway_beat_ms s)),
      (Z.ltb_spec (t - WatchdogTask.last_gateway_beat_ms s) MC_SAFETY_GATEWAY_TIMEOUT_MS);
      try lia; simpl; eexists; split_and!; try done; by rewrite ?Hon.
  - eexists. split_and!; try done; by rewrite ?Hon.
Qed.

(** Torque is disabled exactly while the gateway is not trusted. *)
Lemma watchdog_disabled_invariant p s e s' :
  WatchdogTask.torque_disabled s = negb (WatchdogTask.gateway_online s) ->
  WatchdogTask.step p s e = Ret s' ->
  WatchdogTask.torque_disabled s' = negb (WatchdogTask.gateway_online s').
Proof.
  unfold WatchdogTask.step, WatchdogTask.check. intros Hi H.
  destruct e as [t|t]; [by simplify_eq/=|].
  inv_bind. simplify_eq/=. destruct (WatchdogTask.gateway_online s) eqn:Hon; simpl in *.
  - inv_bind. case_match; by simplify_eq/=.
  - by simplify_eq/=.
Qed.

Lemma watchdog_run_invariant p s es s' :
  WatchdogTask.torque_disabled s = negb (WatchdogTask.gateway_online s) ->
  sv_run p s es = Ret s' ->
  WatchdogTask.torque_disabled s' = negb (WatchdogTask.gateway_online s').
Proof.
  unfold sv_run. revert s; induction es as [|e es IH]; intros s Hi H; simpl in H; [congruence|].
  apply obind_Ret in H as (s1 & H1 & H2). eapply IH; [|exact H2].
  by eapply watchdog_disabled_invariant.
Qed.

(** ** Torque safety *)

Lemma compute_closed_form s :
  TorqueController.wf s ->
  snd (TorqueController.compute s) =
  if 100 <? TorqueController.throttle_percent s then 0
  else Z.min (TorqueController.throttle_percent s)
         (torque_ceiling (TorqueController.vehicle_mode s) (TorqueController.brake_pressed s)
            (TorqueController.bms_torque_limit s)).
Proof.
  intros [Ht Hb]. unfold TorqueController.compute. case_match; bool_prop; [done|]. simpl.
  rewrite clamp_closed_form by int_lia. rewrite cast_id by int_lia.
  int_unfold. lia.
Qed.

(** The safety clamp is [min (max requested 0) ceiling], where the ceiling is 0 under
    the brake or in FAULT mode and otherwise the smaller of the BMS limit and of 25 (LIMP)
    or 100: for every [i8] request and [u8] limit the result is between 0 and 100, never
    above the request when that is positive, and the cast of the limit to [i8] loses
    nothing. *)
Theorem clamp_torque_ceiling requested mode brake bms :
  fits I8 requested -> fits U8 bms ->
  safety_clamp_torque requested mode brake bms =
    Z.min (Z.max requested 0) (torque_ceiling mode brake bms) /\
  0 <= safety_clamp_torque requested mode brake bms <= 100 /\
  safety_clamp_torque requested mode brake bms <= Z.max requested 0 /\
  (mode = Limp -> safety_clamp_torque requested mode brake bms <= 25) /\
  (brake = true \/ mode = Fault \/ bms = 0 -> safety_clamp_torque requested mode brake bms = 0).
Proof.
  intros Hr Hb. rewrite clamp_closed_form by int_lia. unfold torque_ceiling.
  int_unfold. destruct brake; simpl; [lia|].
  destruct mode; simpl; split_and!; try lia; intros; repeat match goal with H : _ \/ _ |- _ => destruct H end;
    (done || lia).
Qed.

Lemma clamp_torque_ceiling_witness :
  (-128 <= 80 <= 127) /\ safety_clamp_torque 80 Limp false 255 = 25.
Proof.
  split; [lia|].
  assert (Hr : fits I8 80) by (vm_compute; split; congruence).
  assert (Hb : fits U8 255) by (vm_compute; split; congruence).
  destruct (clamp_torque_ceiling 80 Limp false 255 Hr Hb) as [E _].
  rewrite E. reflexivity.
Defined.

(** Whatever sequence of setters led to the controller's state, [compute] writes and
    returns one torque: 0 for a throttle above 100, otherwise the throttle cut at the
    ceiling of the mode, brake and BMS limit; the motor is enabled exactly when the
    throttle is valid and the mode is not FAULT; the inputs are left alone; and computing
    again changes nothing. *)
Theorem torque_controller_compute s :
  TorqueController.wf s ->
  let '(s', torque) := TorqueController.compute s in
  TorqueController.output_torque s' = torque /\
  torque = (if TorqueController.is_throttle_invalid s then 0
            else Z.min (TorqueController.throttle_percent s)
                   (torque_ceiling (TorqueController.vehicle_mode s)
                      (TorqueController.brake_pressed s) (TorqueController.bms_torque_limit s))) /\
  TorqueController.motor_enable s' =
    negb (TorqueController.is_throttle_invalid s) &&
    negb (bool_decide (TorqueController.vehicle_mode s = Fault)) /\
  (TorqueController.motor_enable s' = false -> torque = 0) /\
  TorqueController.throttle_percent s' = TorqueController.throttle_percent s /\
  TorqueController.brake_pressed s' = TorqueController.brake_pressed s /\
  TorqueController.gear s' = TorqueController.gear s /\
  TorqueController.vehicle_mode s' = TorqueController.vehicle_mode s /\
  TorqueController.bms_torque_limit s' = TorqueController.bms_torque_limit s /\
  TorqueController.compute s' = (s', torque).
Proof.
  intros Hwf. pose proof (compute_closed_form s Hwf) as Hc. destruct Hwf as [Ht Hb].
  unfold TorqueController.compute, TorqueController.is_throttle_invalid in *.
  destruct (100 <? TorqueController.throttle_percent s) eqn:E; simpl in *.
  { rewrite E. split_and!; auto. }
  rewrite E. split_and!; auto.
  destruct (decide (TorqueController.vehicle_mode s = Fault)) as [Hf|Hf];
    [|by rewrite bool_decide_false by done].
  intros _. rewrite Hc, Hf. unfold torque_ceiling. simpl. rewrite orb_true_r. int_lia.
Qed.

Lemma torque_controller_compute_witness :
  let s := TorqueController.set_bms_limit
             (TorqueController.set_mode
                (TorqueController.set_input TorqueController.default 80 false 1) Drive) 50 in
  TorqueController.wf s /\ snd (TorqueController.compute s) = 50.
Proof.
  intros s. assert (TorqueController.wf s) as Hwf by (vm_compute; repeat split; congruence).
  split; [done|]. pose proof (torque_controller_compute s Hwf) as H.
  vm_compute in H. vm_compute. apply H.
Defined.

(** C1: Over-temperature reaches the motor: for a pack at 91.0 degrees or more, the limit
    the BMS publishes makes the controller command zero torque, and from 76.0 degrees at
    most 25 percent, whatever throttle, brake, gear and mode it is given. *)
Theorem overtemp_limits_torque bms s temp volt cur soc :
  TorqueController.wf s ->
  let '(_, st) := BmsStateMachine.update bms temp volt cur soc in
  let '(_, limit) := BmsLimits.compute BmsLimits.default st in
  let torque := snd (TorqueController.compute (TorqueController.set_bms_limit s limit)) in
  0 <= torque <= 100 /\
  (760 <= temp -> torque <= 25) /\
  (910 <= temp -> torque = 0).
Proof.
  intros [Ht Hb]. unfold BmsStateMachine.update.
  destruct (BmsLimits.compute BmsLimits.default (bms_determine_state temp)) as [l limit] eqn:E.
  assert (limit = limit_at temp) as -> by (unfold limit_at; by rewrite E).
  rewrite limit_at_closed_form.
  cbv zeta. rewrite compute_closed_form.
  - simpl. unfold torque_ceiling. int_unfold.
    repeat case_match; bool_prop; lia.
  - split; [done|]. simpl. repeat case_match; int_lia.
Qed.

Lemma overtemp_limits_torque_witness :
  TorqueController.wf (TorqueController.set_input TorqueController.default 100 false 1) /\
  snd (TorqueController.compute
         (TorqueController.set_bms_limit
            (TorqueController.set_input TorqueController.default 100 false 1) 0)) = 0.
Proof.
  assert (Hwf : TorqueController.wf (TorqueController.set_input TorqueController.default 100 false 1))
    by (vm_compute; repeat split; congruence).
  split; [exact Hwf|].
  exact (proj2 (proj2 (overtemp_limits_torque BmsStateMachine.default _ 950 48000 0 80 Hwf))
           ltac:(lia)).
Defined.

(** Who is trusted after a run, in terms of its events. *)
Lemma watchdog_enabled_iff p es s :
  ordered_from 0 es -> sv_run p WatchdogTask.default es = Ret s ->
  (WatchdogTask.torque_disabled s = false <->
   exists es1 t0 es2, es = es1 ++ Beat t0 :: es2 /\ fresh 250 t0 es2).
Proof.
  intros Ho Hr. destruct (sv_run_refines p WatchdogTask.default 0 es) as (s' & Hs & Ht & _); [done..|].
  rewrite Hr in Hs. injection Hs as <-.
  rewrite (watchdog_run_invariant p WatchdogTask.default es s) by done.
  unfold sv_trusted, sv_timeout in Ht. simpl in Ht. unfold WatchdogTask.trusted in Ht. simpl in Ht.
  change MC_SAFETY_GATEWAY_TIMEOUT_MS with 250 in Ht.
  destruct (WatchdogTask.gateway_online s); simpl.
  - split; [|done]. intros _.
    symmetry in Ht. apply spec_run_Some in Ht as (es1 & es2 & ? & ?). by exists es1, (WatchdogTask.last_gateway_beat_ms s), es2.
  - split; [done|]. intros (es1 & t0 & es2 & H).
    assert (spec_run 250 None es = Some t0) by (apply spec_run_Some; naive_solver). congruence.
Qed.

(** C2: Safety rule S4.  From power-on, over any sequence of gateway beats and watchdog
    checks whose [u32] clock does not go back, the watchdog never panics, and torque is
    enabled at the end exactly when some beat was followed by no other event than
    checks made less than 250 ms after it. *)
Theorem watchdog_torque_enabled p es :
  ordered_from 0 es ->
  exists s, sv_run p WatchdogTask.default es = Ret s /\
    (WatchdogTask.torque_disabled s = false <->
     exists es1 t0 es2, es = es1 ++ Beat t0 :: es2 /\ fresh 250 t0 es2).
Proof.
  intros Ho. destruct (sv_run_refines p WatchdogTask.default 0 es) as (s & Hs & _); [done..|].
  exists s. split; [done|]. by apply (watchdog_enabled_iff p).
Qed.

Lemma watchdog_torque_enabled_witness :
  ordered_from 0 [Beat 100; Check 300; Check 350] /\
  exists s, sv_run Debug WatchdogTask.default [Beat 100; Check 300; Check 350] = Ret s.
Proof.
  assert (H : ordered_from 0 [Beat 100; Check 300; Check 350])
    by (simpl; unfold fits; vm_compute; repeat split; congruence).
  split; [exact H|].
  destruct (watchdog_torque_enabled Debug _ H) as (s & Hs & _). by exists s.
Defined.
