(* ===== verification/Gateway.v ===== *)
(** * Gateway ([state_tests/src/gateway.rs])

    The vehicle-mode state machine, the heartbeat monitor and the fault manager. *)

From S2P Require Import Prelude MachineInt Protocol Timeout.

Module GatewayState.

Record t := {
  mode : VehicleMode;
  all_nodes_online : bool;
  bms_fault_active : bool;
  bms_limp_requested : bool;
  active_fault_count : Z;
}.

Definition default : t := {|
  mode := Off;
  all_nodes_online := false;
  bms_fault_active := false;
  bms_limp_requested := false;
  active_fault_count := 0;
|}.

Definition determine_mode (current : VehicleMode) (all_online fault limp : bool) : VehicleMode :=
  if bool_decide (current = Fault) then Fault
  else if fault then Fault
  else if bool_decide (current = Charging) then Charging
  else if limp then Limp
  else match current with
       | Off => if all_online then Ready else Off
       | Ready => if negb all_online then Off else Ready
       | Drive => if negb all_online then Ready else Drive
       | Limp => if all_online then Ready else Off
       | _ => Off
       end.

Definition update (self : t) (all_online fault limp : bool) (fault_count : Z) : t * VehicleMode :=
  let m := determine_mode (mode self) all_online fault limp in
  ({| mode := m;
      all_nodes_online := all_online;
      bms_fault_active := fault;
      bms_limp_requested := limp;
      active_fault_count := fault_count |}, m).

Definition enter_drive (self : t) : t :=
  if bool_decide (mode self = Ready) then
    {| mode := Drive;
       all_nodes_online := all_nodes_online self;
       bms_fault_active := bms_fault_active self;
       bms_limp_requested := bms_limp_requested self;
       active_fault_count := active_fault_count self |}
  else self.

Definition reboot (self : t) : t := default.

(** The public operations as one step function. *)
Inductive op : Set :=
  | Update (all_online fault limp : bool) (fault_count : Z)
  | EnterDrive
  | Reboot.

Definition step (self : t) (o : op) : t :=
  match o with
  | Update a f l n => fst (update self a f l n)
  | EnterDrive => enter_drive self
  | Reboot => reboot self
  end.

Definition run (self : t) (ops : list op) : t := fold_left step ops self.

(** Operations that keep the current power cycle and those that report a critical fault. *)
Definition is_reboot (o : op) : bool := match o with Reboot => true | _ => false end.
Definition reports_fault (o : op) : bool := match o with Update _ true _ _ => true | _ => false end.

(** Operations that ask for LIMP, that report a healthy vehicle, and the driver's request. *)
Definition reports_limp (o : op) : bool := match o with Update _ _ true _ => true | _ => false end.
Definition reports_healthy (o : op) : bool := match o with Update true false false _ => true | _ => false end.
Definition is_enter (o : op) : bool := match o with EnterDrive => true | _ => false end.

(** Some operation of the history satisfies [P], all after it satisfy [Q]. *)
Definition since (P Q : op -> bool) (ops : list op) : Prop :=
  exists before o after, ops = before ++ o :: after /\ P o = true /\ forall o', o' ∈ after -> Q o' = true.

End GatewayState.

Module HeartbeatMonitor.

Record HeartbeatNode := {
  node_id : Z;
  online : bool;
  last_beat_ms : Z;
  timeout_ms : Z;
}.

Record t := { nodes : list HeartbeatNode }.

Definition new : t := {| nodes := [] |}.

(** [Default] *)
Definition default : t := new.

Definition register (self : t) (id timeout : Z) : t :=
  {| nodes := nodes self ++
       [{| node_id := id; online := false; last_beat_ms := 0; timeout_ms := timeout |}] |}.

Definition mark_beat (now_ms : Z) (node : HeartbeatNode) : HeartbeatNode :=
  {| node_id := node_id node; online := true; last_beat_ms := now_ms;
     timeout_ms := timeout_ms node |}.

Definition mark_offline (node : HeartbeatNode) : HeartbeatNode :=
  {| node_id := node_id node; online := false; last_beat_ms := last_beat_ms node;
     timeout_ms := timeout_ms node |}.

(** The first node with the id; nothing when there is none. *)
Definition beat (self : t) (id now_ms : Z) : t :=
  match update_first (fun n => node_id n =? id) (mark_beat now_ms) (nodes self) with
  | Some ns => {| nodes := ns |}
  | None => self
  end.

(** The body of [check]'s loop; the flag tells whether the node went offline. *)
Definition check_node (p : profile) (now_ms : Z) (node : HeartbeatNode)
    : outcome (HeartbeatNode * bool) :=
  if online node then
    let! elapsed := arith p U32 (now_ms - last_beat_ms node) in
    if timeout_ms node <=? elapsed then Ret (mark_offline node, true) else Ret (node, false)
  else Ret (node, false).

Fixpoint check_nodes (p : profile) (now_ms : Z) (ns : list HeartbeatNode)
    : outcome (list HeartbeatNode * Z) :=
  match ns with
  | [] => Ret ([], 0)
  | n :: ns =>
      let! (n', gone) := check_node p now_ms n in
      let! (ns', transitions) := check_nodes p now_ms ns in
      Ret (n' :: ns', (if gone : bool then 1 else 0) + transitions)
  end.

Definition check (p : profile) (self : t) (now_ms : Z) : outcome (t * Z) :=
  let! (ns, transitions) := check_nodes p now_ms (nodes self) in
  Ret ({| nodes := ns |}, transitions).

Definition all_online (self : t) : bool :=
  match nodes self with
  | [] => false
  | ns => forallb online ns
  end.

Definition is_online (self : t) (id : Z) : bool :=
  existsb (fun n => (node_id n =? id) && online n) (nodes self).

(** Events of the monitor: a beat carries the node it came from. *)
Inductive op : Set := NodeBeat (id now_ms : Z) | CheckAll (now_ms : Z).

Definition step (p : profile) (self : t) (o : op) : outcome t :=
  match o with
  | NodeBeat id now => Ret (beat self id now)
  | CheckAll now => omap_ret fst (check p self now)
  end.

Definition run (p : profile) (self : t) (ops : list op) : outcome t := ofold (step p) self ops.

(** What a node sees of the monitor's events. *)
Definition project (id : Z) (ops : list op) : list event :=
  flat_map (fun o => match o with
                     | NodeBeat i now => if i =? id then [Beat now] else []
                     | CheckAll now => [Check now]
                     end) ops.

Definition op_time (o : op) : Z := match o with NodeBeat _ t | CheckAll t => t end.

Fixpoint ops_ordered (now : Z) (ops : list op) : Prop :=
  match ops with
  | [] => True
  | o :: ops => now <= op_time o /\ fits U32 (op_time o) /\ ops_ordered (op_time o) ops
  end.

(** The monitor with the given nodes and limits registered. *)
Definition with_nodes (regs : list (Z * Z)) : t :=
  fold_left (fun m '(id, timeout) => register m id timeout) regs new.

(** One node as a supervisor: the loop bodies of [beat] and [check]. *)
Definition node_step (p : profile) (n : HeartbeatNode) (e : event) : outcome HeartbeatNode :=
  match e with
  | Beat now => Ret (mark_beat now n)
  | Check now => omap_ret fst (check_node p now n)
  end.

Definition node_trusted (n : HeartbeatNode) : option Z :=
  if online n then Some (last_beat_ms n) else None.

End HeartbeatMonitor.

Module FaultManager.

Record FaultEntry := {
  source_node : Z;
  fault_code : Z;
  active : bool;
  severity : Z;
}.

Record t := {
  faults : list FaultEntry;
  critical_count : Z;
  warning_count : Z;
}.

Definition new : t := {| faults := []; critical_count := 0; warning_count := 0 |}.

(** [Default] *)
Definition default : t := new.

Definition with_faults (self : t) (fs : list FaultEntry) : t :=
  {| faults := fs; critical_count := critical_count self; warning_count := warning_count self |}.

(** [match severity { 2 => critical_count += d, 1 => warning_count += d, _ => {} }] *)
Definition count_severity (p : profile) (self : t) (sev d : Z) : outcome t :=
  match sev with
  | 2 => let! c := arith p U8 (critical_count self + d) in
         Ret {| faults := faults self; critical_count := c; warning_count := warning_count self |}
  | 1 => let! c := arith p U8 (warning_count self + d) in
         Ret {| faults := faults self; critical_count := critical_count self; warning_count := c |}
  | _ => Ret self
  end.

Definition same_fault (source code : Z) (f : FaultEntry) : bool :=
  (source_node f =? source) && (fault_code f =? code).

Definition refresh (sev : Z) (f : FaultEntry) : FaultEntry :=
  {| source_node := source_node f; fault_code := fault_code f; active := true; severity := sev |}.

Definition deactivate (f : FaultEntry) : FaultEntry :=
  {| source_node := source_node f; fault_code := fault_code f; active := false;
     severity := severity f |}.

Definition report (p : profile) (self : t) (source code sev : Z) : outcome t :=
  match List.find (same_fault source code) (faults self),
        update_first (same_fault source code) (refresh sev) (faults self) with
  | Some f, Some fs =>
      let! self' := (if negb (active f) then count_severity p self sev 1 else Ret self) in
      Ret (with_faults self' fs)
  | _, _ =>
      count_severity p
        (with_faults self
           (faults self ++ [{| source_node := source; fault_code := code; active := true;
                               severity := sev |}])) sev 1
  end.

Definition clear (p : profile) (self : t) (source code : Z) : outcome t :=
  let hit f := same_fault source code f && active f in
  match List.find hit (faults self), update_first hit deactivate (faults self) with
  | Some f, Some fs =>
      let! self' := count_severity p self (severity f) (-1) in
      Ret (with_faults self' fs)
  | _, _ => Ret self
  end.

Definition has_critical (self : t) : bool := 0 <? critical_count self.
Definition active_count (self : t) : Z := cast U8 (countb active (faults self)).

Inductive op : Set := Report (source code sev : Z) | Clear (source code : Z).

Definition step (p : profile) (self : t) (o : op) : outcome t :=
  match o with
  | Report s c v => report p self s c v
  | Clear s c => clear p self s c
  end.

Definition run (p : profile) (self : t) (ops : list op) : outcome t := ofold (step p) self ops.

Definition key (f : FaultEntry) : Z * Z := (source_node f, fault_code f).
Definition op_key (o : op) : Z * Z := match o with Report s c _ | Clear s c => (s, c) end.

(** The abstract manager: the set of active faults. *)
Definition spec_step (A : gset (Z * Z)) (o : op) : gset (Z * Z) :=
  match o with
  | Report s c _ => {[ (s, c) ]} ∪ A
  | Clear s c => A ∖ {[ (s, c) ]}
  end.

Definition spec_run (ops : list op) : gset (Z * Z) := fold_left spec_step ops ∅.

(** Every report of one fault carries the same severity. *)
Definition consistent (sev : Z * Z -> Z) (ops : list op) : Prop :=
  forall s c v, Report s c v ∈ ops -> v = sev (s, c).

End FaultManager.

(** ** The vehicle mode *)

Lemma run_snoc s ops o :
  GatewayState.run s (ops ++ [o]) = GatewayState.step (GatewayState.run s ops) o.
Proof. unfold GatewayState.run. by rewrite fold_left_app. Qed.

(** A property of the form [since], an operation later. *)
Lemma since_snoc P Q ops o :
  GatewayState.since P Q (ops ++ [o]) <-> P o = true \/ Q o = true /\ GatewayState.since P Q ops.
Proof.
  split.
  - intros (before & x & after & E & Hx & Ha). induction after as [|y after _] using rev_ind.
    { apply app_inj_tail in E as [-> ->]. by left. }
    rewrite app_comm_cons, app_assoc in E. apply app_inj_tail in E as [-> ->]. right.
    split; [apply Ha, elem_of_app; right; by left|]. exists before, x, after. split_and!; [done..|].
    intros o' Ho'. apply Ha, elem_of_app. by left.
  - intros [H|[H (before & x & after & -> & Hx & Ha)]].
    + exists ops, o, []. split_and!; [done..|]. intros o' Ho'. by apply not_elem_of_nil in Ho'.
    + exists before, x, (after ++ [o]). split_and!; [by rewrite <- app_assoc|done|].
      intros o' [Ho'| ->%list_elem_of_singleton]%elem_of_app; auto.
Qed.

Lemma since_nil P Q : ~ GatewayState.since P Q [].
Proof. intros (before & x & after & E & _). by destruct before. Qed.

(** DRIVE was entered from READY and every operation since leaves the vehicle healthy. *)
Definition drive_held (ops : list GatewayState.op) : Prop :=
  exists before after, ops = before ++ GatewayState.EnterDrive :: after /\
    GatewayState.mode (GatewayState.run GatewayState.default before) = Ready /\
    forall o, o ∈ after -> GatewayState.reports_healthy o || GatewayState.is_enter o = true.

Lemma drive_held_snoc ops o :
  drive_held (ops ++ [o]) <->
  o = GatewayState.EnterDrive /\ GatewayState.mode (GatewayState.run GatewayState.default ops) = Ready \/
  GatewayState.reports_healthy o || GatewayState.is_enter o = true /\ drive_held ops.
Proof.
  split.
  - intros (before & after & E & Hr & Ha). induction after as [|y after _] using rev_ind.
    { apply app_inj_tail in E as [-> ->]. by left. }
    rewrite app_comm_cons, app_assoc in E. apply app_inj_tail in E as [-> ->]. right.
    split; [apply Ha, elem_of_app; right; by left|]. exists before, after. split_and!; [done..|].
    intros o' Ho'. apply Ha, elem_of_app. by left.
  - intros [[-> H]|[H (before & after & -> & Hr & Ha)]].
    + exists ops, []. split_and!; [done..|]. intros o' Ho'. by apply not_elem_of_nil in Ho'.
    + exists before, (after ++ [o]). split_and!; [by rewrite <- app_assoc|done|].
      intros o' [Ho'| ->%list_elem_of_singleton]%elem_of_app; auto.
Qed.

(** What the mode says of the history. *)
Record mode_says (ops : list GatewayState.op) (m : VehicleMode) : Prop := {
  says_fault : m = Fault <-> GatewayState.since GatewayState.reports_fault (fun o => negb (GatewayState.is_reboot o)) ops;
  says_limp : m = Limp <-> m <> Fault /\ GatewayState.since GatewayState.reports_limp GatewayState.is_enter ops;
  says_drive : m = Drive <-> drive_held ops;
  says_charging : m <> Charging
}.

Lemma mode_history ops : mode_says ops (GatewayState.mode (GatewayState.run GatewayState.default ops)).
Proof.
  induction ops as [|o ops [IHf IHl IHd IHc]] using rev_ind.
  { split; cbn; [split; [done|by intros ?%since_nil]|split; [done|by intros [_ ?%since_nil]]| |done].
    split; [done|]. intros (before & after & E & _). by destruct before. }
  pose proof (drive_held_snoc ops o) as Hd. split; rewrite ?since_snoc, ?Hd; rewrite run_snoc;
    destruct (GatewayState.run GatewayState.default ops) as [m an bf bl fc], o as [a f l n| |]; cbn in *;
    unfold GatewayState.enter_drive; destruct m; try destruct f; try destruct l; try destruct a; cbn in *;
    naive_solver.
Qed.

(** C15: The mode of the vehicle, read from the history.  From power-on, after any sequence of
    updates, requests to drive and reboots: it is FAULT exactly when some update reported a
    critical BMS fault and no reboot came after it; LIMP exactly when it is not FAULT and the
    last operation that was no request to drive was an update that asked for LIMP; DRIVE
    exactly when a request to drive found READY and everything since was a further request or
    an update with all nodes online, no fault and no LIMP request; never CHARGING; and READY
    exactly when the last operation was an update without fault and LIMP request, the mode
    before it not FAULT, that found all nodes online outside of DRIVE or a node lost in
    DRIVE.  In every other case it is OFF.  (The safety rules differ: a lost BMS or
    powertrain should lead to FAULT and a lost dashboard to a warning only, while here any
    lost node ends DRIVE in READY.) *)
Theorem gateway_mode_history ops :
  let mode ops := GatewayState.mode (GatewayState.run GatewayState.default ops) in
  (mode ops = Fault <->
     GatewayState.since GatewayState.reports_fault (fun o => negb (GatewayState.is_reboot o)) ops) /\
  (mode ops = Limp <-> mode ops <> Fault /\ GatewayState.since GatewayState.reports_limp GatewayState.is_enter ops) /\
  (mode ops = Drive <-> drive_held ops) /\
  mode ops <> Charging /\
  (mode ops = Ready <-> exists before online n, ops = before ++ [GatewayState.Update online false false n] /\
     mode before <> Fault /\ (online = true <-> ~ drive_held before)).
Proof.
  cbv beta zeta. destruct (mode_history ops) as [Hf Hl Hd Hc]. split_and!; [done..|].
  destruct ops as [|o ops _] using rev_ind.
  { split; [done|]. intros (before & a & n & E & _). by destruct before. }
  assert ((exists before a n, ops ++ [o] = before ++ [GatewayState.Update a false false n] /\
             GatewayState.mode (GatewayState.run GatewayState.default before) <> Fault /\ (a = true <-> ~ drive_held before)) <->
          exists a n, o = GatewayState.Update a false false n /\
             GatewayState.mode (GatewayState.run GatewayState.default ops) <> Fault /\ (a = true <-> ~ drive_held ops)) as ->.
  { split; [|by intros (a & n & -> & H); exists ops, a, n].
    intros (before & a & n & E & H). apply app_inj_tail in E as [-> ->]. by exists a, n. }
  clear Hf Hl Hd Hc. destruct (mode_history ops) as [_ _ Hd Hc]. rewrite run_snoc. setoid_rewrite <- Hd.
  destruct (GatewayState.run GatewayState.default ops) as [m an bf bl fc], o as [a f l n| |]; cbn in *;
    unfold GatewayState.enter_drive; destruct m; try destruct f; try destruct l; try destruct a; cbn in *; naive_solver.
Qed.

(** ** The heartbeat monitor *)

Definition expired (now_ms : Z) (n : HeartbeatMonitor.HeartbeatNode) : bool :=
  HeartbeatMonitor.online n &&
  (HeartbeatMonitor.timeout_ms n <=? now_ms - HeartbeatMonitor.last_beat_ms n).

(** The clock has not gone back since the node's last beat. *)
Definition clock_ok (now_ms : Z) (n : HeartbeatMonitor.HeartbeatNode) : bool :=
  negb (HeartbeatMonitor.online n) || fitsb U32 (now_ms - HeartbeatMonitor.last_beat_ms n).

Lemma check_node_ok p now n :
  clock_ok now n = true ->
  HeartbeatMonitor.check_node p now n =
  Ret (if expired now n then HeartbeatMonitor.mark_offline n else n, expired now n).
Proof.
  unfold clock_ok, HeartbeatMonitor.check_node, expired.
  destruct (HeartbeatMonitor.online n); simpl; [|done].
  intros Hf%fitsb_spec. rewrite arith_Ret by done. simpl. by case_match.
Qed.

Lemma check_nodes_ok p now ns :
  forallb (clock_ok now) ns = true ->
  HeartbeatMonitor.check_nodes p now ns =
  Ret (map (fun n => if expired now n then HeartbeatMonitor.mark_offline n else n) ns,
       countb (expired now) ns).
Proof.
  induction ns as [|n ns IH]; intros H; simpl in *; [done|].
  apply andb_true_iff in H as [Hn H]. rewrite check_node_ok by done. simpl.
  rewrite IH by done. simpl. by rewrite countb_cons.
Qed.

Lemma check_nodes_panic now ns :
  forallb (clock_ok now) ns = false -> HeartbeatMonitor.check_nodes Debug now ns = Panic.
Proof.
  induction ns as [|n ns IH]; intros H; simpl in *; [done|].
  destruct (clock_ok now n) eqn:Hn; simpl in H.
  - rewrite check_node_ok by done. simpl. by rewrite IH.
  - unfold clock_ok in Hn. apply orb_false_iff in Hn as [Hon Hf].
    apply negb_false_iff in Hon. unfold HeartbeatMonitor.check_node, arith.
    by rewrite Hon, Hf.
Qed.

(** [HeartbeatMonitor::check] marks offline exactly the online nodes whose last beat is
    at least their own limit ago, leaves every other node and every id, beat and limit
    alone, and returns how many it marked; with overflow checks it panics exactly when
    the clock is behind the last beat of an online node. *)
Theorem heartbeat_check_functional p m now :
  (forallb (clock_ok now) (HeartbeatMonitor.nodes m) = true ->
   HeartbeatMonitor.check p m now =
     Ret ({| HeartbeatMonitor.nodes :=
               map (fun n => if expired now n then HeartbeatMonitor.mark_offline n else n)
                   (HeartbeatMonitor.nodes m) |},
          countb (expired now) (HeartbeatMonitor.nodes m))) /\
  (HeartbeatMonitor.check Debug m now = Panic <->
   forallb (clock_ok now) (HeartbeatMonitor.nodes m) = false).
Proof.
  unfold HeartbeatMonitor.check. split.
  - intros H. by rewrite check_nodes_ok.
  - destruct (forallb (clock_ok now) (HeartbeatMonitor.nodes m)) eqn:E.
    + by rewrite check_nodes_ok.
    + by rewrite check_nodes_panic.
Qed.

Lemma heartbeat_check_functional_witness :
  let m := HeartbeatMonitor.beat (HeartbeatMonitor.with_nodes [(2, 300); (3, 500)]) 2 100 in
  exists m', HeartbeatMonitor.check Debug m 400 = Ret (m', 1).
Proof.
  intros m. eexists.
  exact (proj1 (heartbeat_check_functional Debug m 400) ltac:(reflexivity)).
Defined.

#[export] Instance node_supervisor : Supervisor HeartbeatMonitor.HeartbeatNode := {
  sv_timeout := HeartbeatMonitor.timeout_ms;
  sv_trusted := HeartbeatMonitor.node_trusted;
  sv_step := HeartbeatMonitor.node_step;
}.

Lemma node_past_clock_ok now t n :
  sv_past now n -> now <= t -> fits U32 t -> clock_ok t n = true.
Proof.
  unfold sv_past, clock_ok; simpl; unfold HeartbeatMonitor.node_trusted.
  destruct (HeartbeatMonitor.online n); [|done]. simpl. intros H1 H2 H3.
  apply fitsb_spec. int_lia.
Qed.

#[export] Instance node_laws : SupervisorLaws HeartbeatMonitor.HeartbeatNode.
Proof.
  constructor. intros p s e now Hp Hn Hf. destruct e as [t|t]; simpl in Hn, Hf.
  - by eexists.
  - simpl. rewrite check_node_ok by (by eapply node_past_clock_ok). simpl.
    eexists; split; [done|]. unfold expired, HeartbeatMonitor.node_trusted.
    destruct (HeartbeatMonitor.online s) eqn:Hon; simpl; [|by rewrite Hon].
    destruct (Z.leb_spec (HeartbeatMonitor.timeout_ms s) (t - HeartbeatMonitor.last_beat_ms s)),
      (Z.ltb_spec (t - HeartbeatMonitor.last_beat_ms s) (HeartbeatMonitor.timeout_ms s));
      try lia; simpl; by rewrite ?Hon.
Qed.

(** [n'] is [n] after the events [es] of its own supervisor. *)
Definition node_after (ops : list HeartbeatMonitor.op) (n n' : HeartbeatMonitor.HeartbeatNode) : Prop :=
  HeartbeatMonitor.node_id n' = HeartbeatMonitor.node_id n /\
  HeartbeatMonitor.timeout_ms n' = HeartbeatMonitor.timeout_ms n /\
  HeartbeatMonitor.node_trusted n' =
    spec_run (HeartbeatMonitor.timeout_ms n) (HeartbeatMonitor.node_trusted n)
      (HeartbeatMonitor.project (HeartbeatMonitor.node_id n) ops).

Definition ids (ns : list HeartbeatMonitor.HeartbeatNode) : list Z := map HeartbeatMonitor.node_id ns.

Lemma node_after_refl n : node_after [] n n.
Proof. done. Qed.

Lemma node_after_trans o ops n1 n2 n3 :
  node_after [o] n1 n2 -> node_after ops n2 n3 -> node_after (o :: ops) n1 n3.
Proof.
  unfold node_after, HeartbeatMonitor.project. intros (Hi & Ht & Hr) (Hi' & Ht' & Hr').
  split_and!; [congruence|congruence|].
  simpl in *. rewrite app_nil_r in Hr.
  rewrite Hr', spec_run_app, <- Hr, Hi, Ht. done.
Qed.

Lemma step_beat_nodes m id now :
  NoDup (ids (HeartbeatMonitor.nodes m)) ->
  Forall2 (node_after [HeartbeatMonitor.NodeBeat id now]) (HeartbeatMonitor.nodes m)
    (HeartbeatMonitor.nodes (HeartbeatMonitor.beat m id now)).
Proof.
  assert (forall n, HeartbeatMonitor.node_id n <> id ->
            node_after [HeartbeatMonitor.NodeBeat id now] n n) as Hother.
  { intros n Hn. unfold node_after; simpl. rewrite (proj2 (Z.eqb_neq _ _)); [done|congruence]. }
  intros Hnd. unfold HeartbeatMonitor.beat. case_match eqn:E; simpl.
  - apply update_first_Some in E as (l1 & n & l2 & E1 & -> & Hid & Hl1).
    rewrite E1 in *. unfold ids in Hnd. rewrite map_app in Hnd. simpl in Hnd.
    apply NoDup_app in Hnd as (_ & _ & Hnd). apply NoDup_cons in Hnd as [Hnd _].
    apply Z.eqb_eq in Hid. apply Forall2_app; [|constructor].
    + apply Forall_Forall2_diag, Forall_forall. intros n' Hn'. apply Hother.
      apply Z.eqb_neq. by apply Hl1.
    + unfold node_after; simpl. by rewrite Hid, Z.eqb_refl.
    + apply Forall_Forall2_diag, Forall_forall. intros n' Hn'. apply Hother.
      intros Heq. apply Hnd. rewrite Hid, <- Heq.
      apply list_elem_of_In, in_map. by apply list_elem_of_In.
  - apply Forall_Forall2_diag, Forall_forall. intros n Hn. apply Hother.
    apply Z.eqb_neq. by apply (proj1 (update_first_None _ _ _) E).
Qed.

Lemma step_check_nodes p m now0 now :
  Forall (sv_past now0) (HeartbeatMonitor.nodes m) -> now0 <= now -> fits U32 now ->
  exists m', HeartbeatMonitor.step p m (HeartbeatMonitor.CheckAll now) = Ret m' /\
    Forall2 (node_after [HeartbeatMonitor.CheckAll now]) (HeartbeatMonitor.nodes m)
      (HeartbeatMonitor.nodes m').
Proof.
  intros Hp Hn Hf. simpl. unfold HeartbeatMonitor.check.
  rewrite check_nodes_ok; simpl.
  - eexists; split; [done|]. simpl. apply Forall2_fmap_r, Forall_Forall2_diag.
    eapply Forall_impl; [exact Hp|]. intros n Hn'. simpl.
    destruct (sv_step_spec p n (Check now) now0 Hn' Hn Hf) as (n' & Hs & Ht & Hto).
    simpl in Hs. rewrite check_node_ok in Hs by (by eapply node_past_clock_ok).
    simpl in Hs. injection Hs as Hs. rewrite Hs.
    unfold node_after. split_and!; [|done|].
    + rewrite <- Hs. by case_match.
    + simpl in Ht. simpl. rewrite Ht. done.
  - apply forallb_elem. intros n Hin. eapply node_past_clock_ok; [|done..].
    by eapply Forall_forall in Hp.
Qed.

Lemma node_after_past o n n' now :
  sv_past now n -> now <= HeartbeatMonitor.op_time o -> fits U32 (HeartbeatMonitor.op_time o) ->
  node_after [o] n n' -> sv_past (HeartbeatMonitor.op_time o) n'.
Proof.
  unfold sv_past. intros Hp Hn Hf (_ & _ & Ht). simpl in *. rewrite Ht.
  destruct o as [id t|t]; simpl in *; [case_match|]; simpl.
  - int_unfold. lia.
  - case_match; int_unfold; lia.
  - apply (spec_step_past (HeartbeatMonitor.timeout_ms n) _ (Check t) now Hp Hn Hf).
Qed.

Lemma monitor_run_nodes p now m ops :
  NoDup (ids (HeartbeatMonitor.nodes m)) ->
  Forall (sv_past now) (HeartbeatMonitor.nodes m) -> HeartbeatMonitor.ops_ordered now ops ->
  exists m', HeartbeatMonitor.run p m ops = Ret m' /\
    Forall2 (node_after ops) (HeartbeatMonitor.nodes m) (HeartbeatMonitor.nodes m').
Proof.
  unfold HeartbeatMonitor.run. revert m now; induction ops as [|o ops IH]; intros m now Hnd Hp Ho.
  - exists m. split; [done|]. by apply Forall_Forall2_diag, Forall_forall.
  - destruct Ho as (Hn & Hf & Ho).
    assert (exists m1, HeartbeatMonitor.step p m o = Ret m1 /\
              Forall2 (node_after [o]) (HeartbeatMonitor.nodes m) (HeartbeatMonitor.nodes m1))
      as (m1 & Hs & H1).
    { destruct o as [id t|t]; [|by eapply step_check_nodes].
      eexists; split; [done|]. by apply step_beat_nodes. }
    destruct (IH m1 (HeartbeatMonitor.op_time o)) as (m2 & Hr & H2); [| |done|].
    + replace (ids (HeartbeatMonitor.nodes m1)) with (ids (HeartbeatMonitor.nodes m)); [done|].
      clear -H1. unfold ids. induction H1 as [|n n' l l' (Hi & _) _ IH]; simpl; congruence.
    + clear -H1 Hp Hn Hf. induction H1 as [|n n' l l' Ha _ IH]; [constructor|].
      inversion Hp; subst. constructor; [by eapply node_after_past|by apply IH].
    + exists m2. simpl. rewrite Hs. split; [done|].
      clear -H1 H2. revert H2. generalize (HeartbeatMonitor.nodes m2).
      induction H1 as [|n n' l l' Ha _ IH]; intros l2 H2; inversion H2; subst; constructor; [|by apply IH].
      by eapply node_after_trans.
Qed.

Definition fresh_node (id timeout : Z) : HeartbeatMonitor.HeartbeatNode :=
  {| HeartbeatMonitor.node_id := id; HeartbeatMonitor.online := false;
     HeartbeatMonitor.last_beat_ms := 0; HeartbeatMonitor.timeout_ms := timeout |}.

Lemma with_nodes_nodes regs :
  HeartbeatMonitor.nodes (HeartbeatMonitor.with_nodes regs) =
  map (fun '(id, timeout) => fresh_node id timeout) regs.
Proof.
  unfold HeartbeatMonitor.with_nodes. induction regs as [|[id t] regs IH] using rev_ind; [done|].
  rewrite fold_left_app, map_app; simpl. by rewrite IH.
Qed.

(** Registered nodes and the monitor's nodes correspond by position. *)
Definition registered (ops : list HeartbeatMonitor.op) (reg : Z * Z)
    (n : HeartbeatMonitor.HeartbeatNode) : Prop :=
  let '(id, timeout) := reg in
  HeartbeatMonitor.node_id n = id /\
  HeartbeatMonitor.node_trusted n = spec_run timeout None (HeartbeatMonitor.project id ops).

Lemma monitor_from_start p regs ops :
  NoDup (map fst regs) -> HeartbeatMonitor.ops_ordered 0 ops ->
  exists m, HeartbeatMonitor.run p (HeartbeatMonitor.with_nodes regs) ops = Ret m /\
    Forall2 (registered ops) regs (HeartbeatMonitor.nodes m).
Proof.
  intros Hnd Ho.
  destruct (monitor_run_nodes p 0 (HeartbeatMonitor.with_nodes regs) ops) as (m & Hm & H2); [| |done|].
  - rewrite with_nodes_nodes. unfold ids. rewrite map_map.
    replace (map _ regs) with (map fst regs); [done|]. apply map_ext. by intros [].
  - rewrite with_nodes_nodes. apply Forall_forall.
    intros n ([id t] & <- & _)%list_elem_of_In%in_map_iff. done.
  - exists m. split; [done|]. rewrite with_nodes_nodes in H2. clear -H2.
    revert H2. generalize (HeartbeatMonitor.nodes m).
    induction regs as [|[id t] regs IH]; intros l H2; inversion H2; subst; constructor; [|by apply IH].
    match goal with H : node_after _ _ _ |- _ => destruct H as (? & ? & ?) end. done.
Qed.

Lemma node_trusted_online n :
  HeartbeatMonitor.online n = true <-> exists t0, HeartbeatMonitor.node_trusted n = Some t0.
Proof. unfold HeartbeatMonitor.node_trusted. destruct (HeartbeatMonitor.online n); naive_solver. Qed.

Lemma registered_reg ops regs ns id timeout :
  Forall2 (registered ops) regs ns -> (id, timeout) ∈ regs ->
  exists n, n ∈ ns /\ registered ops (id, timeout) n.
Proof.
  intros H2 [i Hi]%list_elem_of_lookup.
  destruct (Forall2_lookup_l _ _ _ _ _ H2 Hi) as (n & Hn & Hr).
  exists n. split; [apply list_elem_of_lookup; by exists i|done].
Qed.

Lemma registered_node ops regs ns n :
  Forall2 (registered ops) regs ns -> n ∈ ns ->
  exists timeout, (HeartbeatMonitor.node_id n, timeout) ∈ regs /\
    registered ops (HeartbeatMonitor.node_id n, timeout) n.
Proof.
  intros H2 [i Hi]%list_elem_of_lookup.
  destruct (Forall2_lookup_r _ _ _ _ _ H2 Hi) as ([id to] & Hr & <- & Hsp).
  exists to. split; [apply list_elem_of_lookup; by exists i|done].
Qed.

Lemma reg_unique (regs : list (Z * Z)) id t1 t2 :
  NoDup (map fst regs) -> (id, t1) ∈ regs -> (id, t2) ∈ regs -> t1 = t2.
Proof.
  intros Hnd [i Hi]%list_elem_of_lookup [j Hj]%list_elem_of_lookup.
  assert (i = j) as ->; [|congruence].
  apply (NoDup_lookup (map fst regs) i j id Hnd); by rewrite list_lookup_fmap, ?Hi, ?Hj.
Qed.

Lemma is_online_iff ops regs m id :
  Forall2 (registered ops) regs (HeartbeatMonitor.nodes m) ->
  HeartbeatMonitor.is_online m id = true <->
  exists timeout t0, (id, timeout) ∈ regs /\
  spec_run timeout None (HeartbeatMonitor.project id ops) = Some t0.
Proof.
  intros H2. unfold HeartbeatMonitor.is_online. rewrite existsb_elem. split.
  - intros (n & Hn & [Hid%Z.eqb_eq [t0 Ht]%node_trusted_online]%andb_true_iff).
    destruct (registered_node _ _ _ _ H2 Hn) as (to & Hr & _ & Hsp).
    rewrite Hid in Hr, Hsp. exists to, t0. split; congruence.
  - intros (to & t0 & Hr & Ht). destruct (registered_reg _ _ _ _ _ H2 Hr) as (n & Hn & Hid & Hsp).
    exists n. split; [done|]. apply andb_true_iff. split; [by apply Z.eqb_eq|].
    apply node_trusted_online. exists t0. congruence.
Qed.

Lemma all_online_iff ops regs m :
  NoDup (map fst regs) -> Forall2 (registered ops) regs (HeartbeatMonitor.nodes m) ->
  HeartbeatMonitor.all_online m = true <->
  regs <> [] /\ forall id timeout, (id, timeout) ∈ regs -> HeartbeatMonitor.is_online m id = true.
Proof.
  intros Hnd H2.
  transitivity (regs <> [] /\ forallb HeartbeatMonitor.online (HeartbeatMonitor.nodes m) = true).
  { unfold HeartbeatMonitor.all_online. inversion H2; subst; simpl; naive_solver. }
  apply and_iff_compat_l. rewrite forallb_elem. split.
  - intros Ha id to Hr. destruct (registered_reg _ _ _ _ _ H2 Hr) as (n & Hn & Hid & Hsp).
    specialize (Ha n Hn). apply node_trusted_online in Ha as [t0 Ht0].
    apply (is_online_iff _ _ _ _ H2). exists to, t0. split; congruence.
  - intros Ha n Hn. destruct (registered_node _ _ _ _ H2 Hn) as (to & Hr & _ & Hsp).
    pose proof (Ha _ _ Hr) as Hon. apply (is_online_iff _ _ _ _ H2) in Hon as (to' & t0 & Hr' & Ht).
    rewrite (reg_unique _ _ _ _ Hnd Hr' Hr) in Ht. apply node_trusted_online. exists t0. congruence.
Qed.

(** C16: The heartbeat monitor watches its nodes independently.  With distinct ids registered
    and after any sequence of beats (known or unknown senders) and checks with a [u32]
    clock that does not go back: nothing panics; a node is online exactly when it is
    registered and one of its beats was followed by no other beat of its own and only by
    checks inside its own limit; and all nodes are online exactly when some node is
    registered and each registered one is. *)
Theorem heartbeat_monitor_per_node p regs ops :
  NoDup (map fst regs) -> HeartbeatMonitor.ops_ordered 0 ops ->
  exists m, HeartbeatMonitor.run p (HeartbeatMonitor.with_nodes regs) ops = Ret m /\
    (forall id, HeartbeatMonitor.is_online m id = true <->
       exists timeout es1 t0 es2, (id, timeout) ∈ regs /\
         HeartbeatMonitor.project id ops = es1 ++ Beat t0 :: es2 /\ fresh timeout t0 es2) /\
    (HeartbeatMonitor.all_online m = true <->
       regs <> [] /\ forall id timeout, (id, timeout) ∈ regs -> HeartbeatMonitor.is_online m id = true).
Proof.
  intros Hnd Ho. destruct (monitor_from_start p regs ops Hnd Ho) as (m & Hm & H2).
  exists m. split_and!; [done| |by eapply all_online_iff].
  intros id. rewrite (is_online_iff ops regs) by done. setoid_rewrite spec_run_Some. naive_solver.
Qed.

Lemma heartbeat_monitor_per_node_witness :
  let ops := [HeartbeatMonitor.NodeBeat 2 100; HeartbeatMonitor.NodeBeat 9 120;
              HeartbeatMonitor.NodeBeat 3 200; HeartbeatMonitor.CheckAll 450] in
  NoDup (map fst [(2, 300); (3, 300)]) /\ HeartbeatMonitor.ops_ordered 0 ops /\
  exists m, HeartbeatMonitor.run Debug (HeartbeatMonitor.with_nodes [(2, 300); (3, 300)]) ops = Ret m.
Proof.
  intros ops.
  assert (Hnd : NoDup (map fst [(2, 300); (3, 300)])) by (apply (bool_decide_unpack _); reflexivity).
  assert (Ho : HeartbeatMonitor.ops_ordered 0 ops)
    by (subst ops; simpl; unfold fits; vm_compute; repeat split; congruence).
  split; [exact Hnd|]. split; [exact Ho|].
  destruct (heartbeat_monitor_per_node Debug _ ops Hnd Ho) as (m & Hm & _). by exists m.
Defined.

(** ** The fault manager *)

Definition active_with (sev : Z) (f : FaultManager.FaultEntry) : bool :=
  FaultManager.active f && (FaultManager.severity f =? sev).

(** The counters agree with the entries, entries have distinct keys, carry the severity
    of their key, and are active exactly when the abstract set holds their key. *)
Record fault_inv (sev : Z * Z -> Z) (K A : gset (Z * Z)) (s : FaultManager.t) : Prop := {
  fi_keys : NoDup (map FaultManager.key (FaultManager.faults s));
  fi_bound : forall f, f ∈ FaultManager.faults s -> FaultManager.key f ∈ K;
  fi_sev : forall f, f ∈ FaultManager.faults s -> FaultManager.severity f = sev (FaultManager.key f);
  fi_active : forall k, k ∈ A <-> exists f, f ∈ FaultManager.faults s /\ FaultManager.key f = k /\
                                            FaultManager.active f = true;
  fi_critical : FaultManager.critical_count s = countb (active_with 2) (FaultManager.faults s);
  fi_warning : FaultManager.warning_count s = countb (active_with 1) (FaultManager.faults s);
}.

Lemma same_fault_key s c f : FaultManager.same_fault s c f = true <-> FaultManager.key f = (s, c).
Proof.
  unfold FaultManager.same_fault, FaultManager.key. rewrite andb_true_iff, !Z.eqb_eq.
  split; [by intros [-> ->]|by intros [= -> ->]].
Qed.

(** [find] and [update_first] with one predicate agree. *)
Lemma find_update_first {A : Type} (q : A -> bool) f l :
  match List.find q l, update_first q f l with
  | Some a, Some l' => exists l1 l2, l = l1 ++ a :: l2 /\ l' = l1 ++ f a :: l2 /\ q a = true
  | None, None => forall a, a ∈ l -> q a = false
  | _, _ => False
  end.
Proof.
  induction l as [|a l IH]; simpl.
  - intros a Ha. by apply not_elem_of_nil in Ha.
  - destruct (q a) eqn:Hq; [by exists [], l|].
    destruct (List.find q l), (update_first q f l); simpl; try done.
    + destruct IH as (l1 & l2 & -> & -> & ?). by exists (a :: l1), l2.
    + intros b [->|Hb]%elem_of_cons; auto.
Qed.

(** What [count_severity] does to the counters, under any profile, when they stay in range. *)
Lemma count_severity_ok p s sev d :
  (sev = 2 -> fits U8 (FaultManager.critical_count s + d)) ->
  (sev = 1 -> fits U8 (FaultManager.warning_count s + d)) ->
  FaultManager.count_severity p s sev d =
  Ret {| FaultManager.faults := FaultManager.faults s;
         FaultManager.critical_count :=
           FaultManager.critical_count s + (if sev =? 2 then d else 0);
         FaultManager.warning_count :=
           FaultManager.warning_count s + (if sev =? 1 then d else 0) |}.
Proof.
  intros H2 H1. unfold FaultManager.count_severity.
  destruct (Z.eqb_spec sev 2) as [->|N2]; [|destruct (Z.eqb_spec sev 1) as [->|N1]].
  - rewrite arith_Ret by auto. simpl. by rewrite Z.add_0_r.
  - rewrite arith_Ret by auto. simpl. by rewrite Z.add_0_r.
  - rewrite !Z.add_0_r. destruct sev as [|[[]|[]|]|]; try done; destruct s; done.
Qed.

Lemma fault_count_bound sev K A s b :
  fault_inv sev K A s -> (size K <= 255)%nat ->
  countb b (FaultManager.faults s) <= 255.
Proof.
  intros Hi HK. pose proof (countb_le_length b (FaultManager.faults s)).
  assert (length (map FaultManager.key (FaultManager.faults s)) <= size K)%nat as Hlen.
  { change (size K) with (length (elements K)). apply submseteq_length, NoDup_submseteq.
    - apply (fi_keys _ _ _ _ Hi).
    - intros k (f & <- & Hf)%list_elem_of_In%in_map_iff. apply elem_of_elements.
      apply (fi_bound _ _ _ _ Hi). by apply list_elem_of_In. }
  rewrite length_map in Hlen. lia.
Qed.

(** Replacing one entry by an entry with its key. *)
Section Replace.
Context (sev : Z * Z -> Z) (K A : gset (Z * Z)) (s : FaultManager.t).
Context (l1 l2 : list FaultManager.FaultEntry) (f f' : FaultManager.FaultEntry).
Context (Hinv : fault_inv sev K A s) (Hsplit : FaultManager.faults s = l1 ++ f :: l2).
Context (Hkey : FaultManager.key f' = FaultManager.key f)
        (Hsev : FaultManager.severity f' = sev (FaultManager.key f)).

Definition flag_z (b : bool) : Z := if b then 1 else 0.

Lemma replace_count b :
  countb b (l1 ++ f' :: l2) = countb b (FaultManager.faults s) + flag_z (b f') - flag_z (b f).
Proof. rewrite Hsplit, !countb_app, !countb_cons. unfold flag_z. repeat case_match; lia. Qed.

Lemma replace_inv A' cc wc :
  (forall k, k ∈ A' <->
     if decide (k = FaultManager.key f) then FaultManager.active f' = true else k ∈ A) ->
  cc = FaultManager.critical_count s + flag_z (active_with 2 f') - flag_z (active_with 2 f) ->
  wc = FaultManager.warning_count s + flag_z (active_with 1 f') - flag_z (active_with 1 f) ->
  fault_inv sev K A' {| FaultManager.faults := l1 ++ f' :: l2;
                        FaultManager.critical_count := cc; FaultManager.warning_count := wc |}.
Proof using All.
  intros HA -> ->. destruct Hinv as [Hk Hb Hs Ha Hc Hw].
  rewrite Hsplit in *. rewrite map_app in Hk. simpl in Hk.
  assert (forall g, g ∈ l1 ++ l2 -> FaultManager.key g <> FaultManager.key f) as Hother.
  { intros g Hg E. apply NoDup_app in Hk as (_ & Hd & [Hn _]%NoDup_cons).
    apply elem_of_app in Hg as [Hg|Hg].
    - apply (Hd (FaultManager.key f)); [|by left]. rewrite <- E.
      apply list_elem_of_In, in_map. by apply list_elem_of_In.
    - apply Hn. rewrite <- E. apply list_elem_of_In, in_map. by apply list_elem_of_In. }
  split; simpl.
  - rewrite map_app. simpl. by rewrite Hkey.
  - intros g. rewrite elem_of_app, elem_of_cons. specialize (Hb g).
    rewrite elem_of_app, elem_of_cons in Hb. intros [H|[->|H]]; [auto| |auto].
    rewrite Hkey. destruct Hinv as [_ Hb' _ _ _ _]. apply Hb'. rewrite Hsplit.
    apply elem_of_app. right. by left.
  - intros g. rewrite elem_of_app, elem_of_cons. specialize (Hs g).
    rewrite elem_of_app, elem_of_cons in Hs. intros [H|[->|H]]; [auto| |auto].
    by rewrite Hkey.
  - intros k. rewrite HA. destruct (decide (k = FaultManager.key f)) as [->|Hne].
    + split.
      * intros Hf'. exists f'. rewrite elem_of_app. split_and!; [right; by left|done|done].
      * intros (g & Hg & Ek & Hact). rewrite elem_of_app, elem_of_cons in Hg.
        destruct Hg as [Hg|[->|Hg]]; [| done |];
          destruct (Hother g); rewrite ?elem_of_app; auto.
    + rewrite Ha. setoid_rewrite elem_of_app. setoid_rewrite elem_of_cons. split.
      * intros (g & [Hg|[->|Hg]] & Ek & Hact); [exists g; auto|congruence|exists g; auto].
      * intros (g & [Hg|[->|Hg]] & Ek & Hact); [exists g; auto|congruence|exists g; auto].
  - by rewrite replace_count, Hsplit, Hc.
  - by rewrite replace_count, Hsplit, Hw.
Qed.
End Replace.

(** The counters of a state that satisfies the invariant are [u8] values. *)
Lemma fault_inv_fits sev K A s :
  fault_inv sev K A s -> (size K <= 255)%nat ->
  fits U8 (FaultManager.critical_count s) /\ fits U8 (FaultManager.warning_count s).
Proof.
  intros Hi HK. rewrite (fi_critical _ _ _ _ Hi), (fi_warning _ _ _ _ Hi).
  pose proof (fault_count_bound _ _ _ _ (active_with 2) Hi HK).
  pose proof (fault_count_bound _ _ _ _ (active_with 1) Hi HK).
  pose proof (countb_nonneg (active_with 2) (FaultManager.faults s)).
  pose proof (countb_nonneg (active_with 1) (FaultManager.faults s)).
  split; int_lia.
Qed.

(** [count_severity] on a state whose adjusted counters satisfy the invariant. *)
Lemma count_severity_inv p sev K A s fs v d :
  (size K <= 255)%nat ->
  fault_inv sev K A
    {| FaultManager.faults := fs;
       FaultManager.critical_count := FaultManager.critical_count s + (if v =? 2 then d else 0);
       FaultManager.warning_count := FaultManager.warning_count s + (if v =? 1 then d else 0) |} ->
  exists s', FaultManager.count_severity p s v d = Ret s' /\
             fault_inv sev K A (FaultManager.with_faults s' fs) /\
             FaultManager.faults s' = FaultManager.faults s.
Proof.
  intros HK Hi. destruct (fault_inv_fits _ _ _ _ Hi HK) as [Hc Hw]. simpl in Hc, Hw.
  rewrite count_severity_ok.
  - by eexists.
  - by intros ->.
  - by intros ->.
Qed.

Definition new_fault (src code sev : Z) : FaultManager.FaultEntry :=
  {| FaultManager.source_node := src; FaultManager.fault_code := code;
     FaultManager.active := true; FaultManager.severity := sev |}.

Lemma push_inv sev K A s src code :
  fault_inv sev K A s -> (src, code) ∈ K ->
  (forall f, f ∈ FaultManager.faults s -> FaultManager.same_fault src code f = false) ->
  fault_inv sev K ({[ (src, code) ]} ∪ A)
    {| FaultManager.faults := FaultManager.faults s ++ [new_fault src code (sev (src, code))];
       FaultManager.critical_count :=
         FaultManager.critical_count s + (if sev (src, code) =? 2 then 1 else 0);
       FaultManager.warning_count :=
         FaultManager.warning_count s + (if sev (src, code) =? 1 then 1 else 0) |}.
Proof.
  intros [Hk Hb Hse Ha Hc Hw] Hin Hfu. split; simpl.
  - rewrite map_app. apply NoDup_app. split_and!; [done| |apply NoDup_singleton].
    intros k (g & <- & Hg)%list_elem_of_In%in_map_iff ?%list_elem_of_singleton.
    apply list_elem_of_In in Hg. specialize (Hfu g Hg).
    apply not_true_iff_false in Hfu. by apply Hfu, same_fault_key.
  - intros g [Hg| ->%list_elem_of_singleton]%elem_of_app; auto.
  - intros g [Hg| ->%list_elem_of_singleton]%elem_of_app; auto.
  - intros k. rewrite elem_of_union, elem_of_singleton, Ha.
    setoid_rewrite elem_of_app. setoid_rewrite list_elem_of_singleton. naive_solver.
  - rewrite countb_app, countb_cons, countb_nil, Hc. unfold active_with; simpl. case_match; lia.
  - rewrite countb_app, countb_cons, countb_nil, Hw. unfold active_with; simpl. case_match; lia.
Qed.

Lemma report_inv p sev K A s src code :
  fault_inv sev K A s -> (size K <= 255)%nat -> (src, code) ∈ K ->
  exists s', FaultManager.report p s src code (sev (src, code)) = Ret s' /\
             fault_inv sev K ({[ (src, code) ]} ∪ A) s'.
Proof.
  intros Hi HK Hin. unfold FaultManager.report.
  pose proof (find_update_first (FaultManager.same_fault src code)
                (FaultManager.refresh (sev (src, code))) (FaultManager.faults s)) as Hfu.
  destruct (List.find _ _) as [f|], (update_first _ _ _) as [fs|]; try done.
  - destruct Hfu as (l1 & l2 & Hs & -> & Hkey%same_fault_key).
    assert (FaultManager.severity f = sev (src, code)) as Hsf.
    { rewrite <- Hkey. apply (fi_sev _ _ _ _ Hi). rewrite Hs. apply elem_of_app. right. by left. }
    assert (forall cc wc,
      cc = FaultManager.critical_count s +
             flag_z (active_with 2 (FaultManager.refresh (sev (src, code)) f)) - flag_z (active_with 2 f) ->
      wc = FaultManager.warning_count s +
             flag_z (active_with 1 (FaultManager.refresh (sev (src, code)) f)) - flag_z (active_with 1 f) ->
      fault_inv sev K ({[ (src, code) ]} ∪ A)
        {| FaultManager.faults := l1 ++ FaultManager.refresh (sev (src, code)) f :: l2;
           FaultManager.critical_count := cc; FaultManager.warning_count := wc |}) as Hnew.
    { intros cc wc Hc Hw. eapply replace_inv; [exact Hi|exact Hs|done| | |done|done].
      - simpl. by rewrite Hkey.
      - intros k. rewrite Hkey. rewrite elem_of_union, elem_of_singleton.
        simpl. case_decide; naive_solver. }
    unfold active_with in Hnew. simpl in Hnew. rewrite Hsf in Hnew.
    destruct (FaultManager.active f) eqn:Hact; simpl in *.
    + eexists; split; [done|]. apply Hnew; lia.
    + edestruct count_severity_inv as (s' & -> & Hs' & _); [exact HK| |simpl; eauto].
      apply Hnew; unfold flag_z; repeat case_match; lia.
  - edestruct (count_severity_inv p sev K ({[ (src, code) ]} ∪ A)
      (FaultManager.with_faults s
         (FaultManager.faults s ++ [new_fault src code (sev (src, code))])))
      as (s' & Hcs & Hs' & Hfs); [exact HK|exact (push_inv _ _ _ _ _ _ Hi Hin Hfu)|].
    eexists; split; [exact Hcs|]. destruct s'; simpl in *. by subst.
Qed.

Lemma clear_inv p sev K A s src code :
  fault_inv sev K A s -> (size K <= 255)%nat ->
  exists s', FaultManager.clear p s src code = Ret s' /\
             fault_inv sev K (A ∖ {[ (src, code) ]}) s'.
Proof.
  intros Hi HK. unfold FaultManager.clear.
  pose proof (find_update_first
                (fun f => FaultManager.same_fault src code f && FaultManager.active f)
                FaultManager.deactivate (FaultManager.faults s)) as Hfu.
  destruct (List.find _ _) as [f|], (update_first _ _ _) as [fs|]; try done.
  - destruct Hfu as (l1 & l2 & Hs & -> & [Hkey%same_fault_key Hact]%andb_true_iff).
    assert (FaultManager.severity f = sev (src, code)) as Hsf.
    { rewrite <- Hkey. apply (fi_sev _ _ _ _ Hi). rewrite Hs. apply elem_of_app. right. by left. }
    edestruct count_severity_inv as (s' & -> & Hs' & _); [exact HK| |simpl; eauto].
    eapply replace_inv; [exact Hi|exact Hs|done| | | |].
    + simpl. by rewrite Hkey.
    + intros k. rewrite Hkey, elem_of_difference, elem_of_singleton.
      simpl. case_decide; naive_solver.
    + unfold active_with, flag_z; simpl. rewrite Hact. simpl. case_match; lia.
    + unfold active_with, flag_z; simpl. rewrite Hact. simpl. case_match; lia.
  - exists s. split; [done|]. destruct Hi as [Hk Hb Hse Ha Hc Hw]. split; try done.
    intros k. rewrite elem_of_difference, elem_of_singleton, Ha. split; [naive_solver|].
    intros (g & Hg & <- & Hact). split; [eauto|]. intros Ek.
    specialize (Hfu g Hg). rewrite Hact, andb_true_r in Hfu.
    apply not_true_iff_false in Hfu. by apply Hfu, same_fault_key.
Qed.

Lemma fault_run_inv p sev K A s ops :
  fault_inv sev K A s -> (size K <= 255)%nat -> FaultManager.consistent sev ops ->
  (forall o, o ∈ ops -> FaultManager.op_key o ∈ K) ->
  exists s', FaultManager.run p s ops = Ret s' /\
             fault_inv sev K (fold_left FaultManager.spec_step ops A) s'.
Proof.
  unfold FaultManager.run. revert s A. induction ops as [|o ops IH]; intros s A Hi HK Hc Hk.
  - by exists s.
  - pose proof (Hk o ltac:(by left)) as Hok.
    assert (exists s1, FaultManager.step p s o = Ret s1 /\
              fault_inv sev K (FaultManager.spec_step A o) s1) as (s1 & H1 & Hi1).
    { destruct o as [src code v|src code]; simpl in *; [|by apply clear_inv].
      rewrite (Hc src code v) by (by left). by apply report_inv. }
    simpl. rewrite H1. apply IH; [done|done| |].
    + intros src code v Hin. apply Hc. by right.
    + intros o' Hin. apply Hk. by right.
Qed.

Lemma fault_inv_new sev K : fault_inv sev K ∅ FaultManager.new.
Proof.
  split; simpl; try done; try (intros f Hf; by apply not_elem_of_nil in Hf); [apply NoDup_nil_2|].
  intros k. split; [set_solver|]. intros (f & Hf & _). by apply not_elem_of_nil in Hf.
Qed.

Lemma fault_inv_count sev K A s b :
  fault_inv sev K A s -> (forall f, f ∈ FaultManager.faults s -> b f = true -> FaultManager.active f = true) ->
  forall q : Z * Z -> bool,
  (forall f, f ∈ FaultManager.faults s -> FaultManager.active f = true -> b f = q (FaultManager.key f)) ->
  countb b (FaultManager.faults s) = Z.of_nat (size (filter (fun k => q k = true) A)).
Proof.
  intros Hi Hb q Hq. unfold countb. f_equal.
  set (L := map FaultManager.key (List.filter b (FaultManager.faults s))).
  assert (NoDup L) as HL.
  { subst L. pose proof (fi_keys _ _ _ _ Hi) as Hk. clear -Hk.
    induction (FaultManager.faults s) as [|f l IH]; simpl in *; [apply NoDup_nil_2|].
    apply NoDup_cons in Hk as [Hn Hk]. destruct (b f); simpl; [|auto].
    apply NoDup_cons. split; [|auto]. intros Hin. apply Hn.
    apply list_elem_of_In in Hin. apply in_map_iff in Hin as (g & <- & [Hg _]%filter_In).
    apply list_elem_of_In, in_map. done. }
  assert (filter (fun k => q k = true) A = list_to_set L) as ->.
  { apply set_eq. intros k. rewrite elem_of_filter, (fi_active _ _ _ _ Hi), elem_of_list_to_set.
    subst L. rewrite list_elem_of_In, in_map_iff. setoid_rewrite filter_In.
    setoid_rewrite <- list_elem_of_In. split.
    - intros (Hqk & f & Hf & <- & Ha). exists f. rewrite Hq by done. done.
    - intros (f & <- & Hf & Hbf). pose proof (Hb f Hf Hbf) as Ha.
      rewrite <- Hq by done. eauto. }
  rewrite size_list_to_set by done. subst L. by rewrite length_map.
Qed.

(** C17: With at most 255 distinct faults and one severity per fault, any sequence of
    reports and clears runs without a counter leaving [u8] and implements a set of
    active faults: [report] inserts, [clear] removes (the most recent call wins, however
    often it was repeated), both counters equal the number of active faults of their
    severity, [has_critical] holds exactly when a fault of severity 2 is active and
    [active_count] is the size of the set. *)
Theorem fault_manager_refines p sev ops :
  FaultManager.consistent sev ops ->
  (size (list_to_set (map FaultManager.op_key ops) : gset (Z * Z)) <= 255)%nat ->
  exists s, FaultManager.run p FaultManager.new ops = Ret s /\
    FaultManager.critical_count s =
      Z.of_nat (size (filter (fun k => (sev k =? 2) = true) (FaultManager.spec_run ops))) /\
    FaultManager.warning_count s =
      Z.of_nat (size (filter (fun k => (sev k =? 1) = true) (FaultManager.spec_run ops))) /\
    (FaultManager.has_critical s = true <-> exists k, k ∈ FaultManager.spec_run ops /\ sev k = 2) /\
    FaultManager.active_count s = Z.of_nat (size (FaultManager.spec_run ops)).
Proof.
  intros Hc HK.
  destruct (fault_run_inv p sev _ ∅ _ ops (fault_inv_new sev _) HK Hc) as (s & Hs & Hi).
  { intros o Ho. apply elem_of_list_to_set, list_elem_of_In, in_map. by apply list_elem_of_In. }
  exists s. split; [done|]. fold (FaultManager.spec_run ops) in Hi.
  assert (forall v, countb (active_with v) (FaultManager.faults s) =
            Z.of_nat (size (filter (fun k => (sev k =? v) = true) (FaultManager.spec_run ops)))) as Hcnt.
  { intros v. apply (fault_inv_count _ _ _ _ _ Hi).
    - unfold active_with. by intros f _ [? _]%andb_true_iff.
    - intros f Hf Ha. unfold active_with. by rewrite Ha, (fi_sev _ _ _ _ Hi) by done. }
  split_and!.
  - rewrite (fi_critical _ _ _ _ Hi). apply Hcnt.
  - rewrite (fi_warning _ _ _ _ Hi). apply Hcnt.
  - unfold FaultManager.has_critical. rewrite Z.ltb_lt, (fi_critical _ _ _ _ Hi), countb_pos.
    setoid_rewrite (fi_active _ _ _ _ Hi). unfold active_with. setoid_rewrite andb_true_iff.
    setoid_rewrite Z.eqb_eq. split.
    + intros (f & Hf & Ha & Hv). exists (FaultManager.key f).
      rewrite <- (fi_sev _ _ _ _ Hi) by done. eauto 10.
    + intros (k & (f & Hf & <- & Ha) & Hv). exists f.
      rewrite (fi_sev _ _ _ _ Hi) by done. eauto.
  - assert (countb FaultManager.active (FaultManager.faults s) =
            Z.of_nat (size (FaultManager.spec_run ops))) as Hall.
    { rewrite (fault_inv_count _ _ _ _ _ Hi (fun _ _ H => H) (fun _ => true)) by (by intros).
      do 2 f_equal. set_solver. }
    pose proof (fault_count_bound _ _ _ _ FaultManager.active Hi HK) as Hb.
    unfold FaultManager.active_count. rewrite Hall in *. apply cast_id. int_lia.
Qed.

Lemma fault_manager_refines_witness :
  let ops := [FaultManager.Report 3 1 2; FaultManager.Report 2 4 1; FaultManager.Report 3 1 2;
              FaultManager.Clear 3 1] in
  let sev := fun k : Z * Z => if bool_decide (k = (3, 1)) then 2 else 1 in
  FaultManager.consistent sev ops /\
  exists s, FaultManager.run Debug FaultManager.new ops = Ret s.
Proof.
  intros ops sev.
  assert (Hc : FaultManager.consistent sev ops).
  { intros s c v H. subst ops sev.
    repeat (apply elem_of_cons in H as [H|H]; [simplify_eq; reflexivity|]).
    by apply not_elem_of_nil in H. }
  split; [exact Hc|].
  destruct (fault_manager_refines Debug sev ops Hc ltac:(vm_compute; lia)) as (s & Hs & _).
  by exists s.
Defined.

(** Without that condition the counters go wrong: after an active warning is reported
    again as critical, the manager holds an active critical fault while [has_critical]
    says no, and clearing it panics with overflow checks and leaves 255 critical faults
    without them. *)
Theorem fault_severity_change_breaks_counts :
  exists s, FaultManager.run Debug FaultManager.new
              [FaultManager.Report 3 1 1; FaultManager.Report 3 1 2] = Ret s /\
    existsb (active_with 2) (FaultManager.faults s) = true /\
    FaultManager.has_critical s = false /\
    FaultManager.clear Debug s 3 1 = Panic /\
    (exists s', FaultManager.clear Release s 3 1 = Ret s' /\
       FaultManager.critical_count s' = 255 /\ FaultManager.has_critical s' = true /\
       FaultManager.active_count s' = 0).
Proof. eexists. split_and!; try reflexivity. eexists. split_and!; reflexivity. Qed.
