(* ===== verification/Dashboard.v ===== *)
(** * Dashboard ([state_tests/src/dashboard.rs])

    The displayed vehicle state, the warning list and the choice of the warning to
    show. *)

From S2P Require Import Prelude MachineInt Protocol.

(** Severity scores; the codes are those of [WarningCode]. *)
Definition warning_severity (code : Z) : Z :=
  if code =? WarningCode_as_u8 CriticalBmsFault then 3
  else if code =? WarningCode_as_u8 BmsOvertemp then 2
  else if code =? WarningCode_as_u8 PowertrainOffline then 2
  else if code =? WarningCode_as_u8 GatewayRestarted then 2
  else if code =? WarningCode_as_u8 BmsOffline then 1
  else if code =? WarningCode_as_u8 DashboardOffline then 1
  else if code =? WarningCode_as_u8 InvalidThrottle then 1
  else if code =? WarningCode_as_u8 ChargerPlugged then 1
  else 0.

Module DashboardState.

Record DashboardWarning := {
  warning_code : Z;
  active : bool;
  source_node : Z;
}.

Record t := {
  vehicle_mode : VehicleMode;
  speed_kph_x10 : Z;
  soc_percent : Z;
  battery_temp_c_x10 : Z;
  battery_voltage_mv : Z;
  warnings : list DashboardWarning;
  initialized : bool;
  booted : bool;
}.

Definition default : t := {|
  vehicle_mode := Off;
  speed_kph_x10 := 0;
  soc_percent := 0;
  battery_temp_c_x10 := 0;
  battery_voltage_mv := 0;
  warnings := [];
  initialized := false;
  booted := true;
|}.

Definition set_mode (self : t) (mode : VehicleMode) : t := {|
  vehicle_mode := mode;
  speed_kph_x10 := speed_kph_x10 self;
  soc_percent := soc_percent self;
  battery_temp_c_x10 := battery_temp_c_x10 self;
  battery_voltage_mv := battery_voltage_mv self;
  warnings := warnings self;
  initialized := true;
  booted := booted self;
|}.

Definition set_speed (self : t) (speed : Z) : t := {|
  vehicle_mode := vehicle_mode self;
  speed_kph_x10 := speed;
  soc_percent := soc_percent self;
  battery_temp_c_x10 := battery_temp_c_x10 self;
  battery_voltage_mv := battery_voltage_mv self;
  warnings := warnings self;
  initialized := true;
  booted := booted self;
|}.

Definition set_battery (self : t) (soc temp voltage : Z) : t := {|
  vehicle_mode := vehicle_mode self;
  speed_kph_x10 := speed_kph_x10 self;
  soc_percent := soc;
  battery_temp_c_x10 := temp;
  battery_voltage_mv := voltage;
  warnings := warnings self;
  initialized := true;
  booted := booted self;
|}.

Definition with_warnings (self : t) (ws : list DashboardWarning) : t := {|
  vehicle_mode := vehicle_mode self;
  speed_kph_x10 := speed_kph_x10 self;
  soc_percent := soc_percent self;
  battery_temp_c_x10 := battery_temp_c_x10 self;
  battery_voltage_mv := battery_voltage_mv self;
  warnings := ws;
  initialized := initialized self;
  booted := booted self;
|}.

Definition set_active (b : bool) (w : DashboardWarning) : DashboardWarning :=
  {| warning_code := warning_code w; active := b; source_node := source_node w |}.

Definition add_warning (self : t) (code source : Z) : t :=
  match update_first (fun w => (warning_code w =? code) && (source_node w =? source))
          (set_active true) (warnings self) with
  | Some ws => with_warnings self ws
  | None =>
      with_warnings self
        (warnings self ++ [{| warning_code := code; active := true; source_node := source |}])
  end.

Definition clear_warning (self : t) (code : Z) : t :=
  with_warnings self
    (map (fun w => if warning_code w =? code then set_active false w else w) (warnings self)).

Definition clear_node_warnings (self : t) (source : Z) : t :=
  with_warnings self
    (map (fun w => if source_node w =? source then set_active false w else w) (warnings self)).

(** The loop of [top_warning]: the best code and its severity so far. *)
Definition top_step (top : Z * Z) (w : DashboardWarning) : Z * Z :=
  if negb (active w) then top
  else
    let sev := warning_severity (warning_code w) in
    if snd top <? sev then (warning_code w, sev) else top.

Definition top_warning (self : t) : Z :=
  fst (fold_left top_step (warnings self) (WarningCode_as_u8 NoWarning, 0)).

Definition reboot (self : t) : t := {|
  vehicle_mode := vehicle_mode default;
  speed_kph_x10 := speed_kph_x10 default;
  soc_percent := soc_percent default;
  battery_temp_c_x10 := battery_temp_c_x10 default;
  battery_voltage_mv := battery_voltage_mv default;
  warnings := warnings default;
  initialized := initialized default;
  booted := false;
|}.

Inductive op : Set :=
  | SetMode (mode : VehicleMode) | SetSpeed (speed : Z) | SetBattery (soc temp voltage : Z)
  | AddWarning (code source : Z) | ClearWarning (code : Z) | ClearNode (source : Z) | Reboot.

Definition step (self : t) (o : op) : t :=
  match o with
  | SetMode m => set_mode self m
  | SetSpeed v => set_speed self v
  | SetBattery a b c => set_battery self a b c
  | AddWarning c s => add_warning self c s
  | ClearWarning c => clear_warning self c
  | ClearNode s => clear_node_warnings self s
  | Reboot => reboot self
  end.

Definition run (self : t) (ops : list op) : t := fold_left step ops self.

(** The abstract warning list: the set of active [(code, source)] pairs. *)
Definition spec_step (A : gset (Z * Z)) (o : op) : gset (Z * Z) :=
  match o with
  | AddWarning c s => {[ (c, s) ]} ∪ A
  | ClearWarning c => filter (fun k => fst k <> c) A
  | ClearNode s => filter (fun k => snd k <> s) A
  | Reboot => ∅
  | _ => A
  end.

Definition spec_run (ops : list op) : gset (Z * Z) := fold_left spec_step ops ∅.

Definition key (w : DashboardWarning) : Z * Z := (warning_code w, source_node w).

End DashboardState.

Module WarningDisplay.

Record t := { displayed_warning : Z; severity : Z }.

Definition default : t :=
  {| displayed_warning := WarningCode_as_u8 NoWarning; severity := 0 |}.

Definition update (self : t) (code sev : Z) : t * Z :=
  let self' := if severity self <? sev then {| displayed_warning := code; severity := sev |}
               else self in
  (self', displayed_warning self').

Definition clear (self : t) : t :=
  {| displayed_warning := WarningCode_as_u8 NoWarning; severity := 0 |}.

End WarningDisplay.

(** ** The most severe warning *)

Definition sev_of (w : DashboardState.DashboardWarning) : Z :=
  if DashboardState.active w then warning_severity (DashboardState.warning_code w) else 0.

Lemma warning_severity_nonneg code : 0 <= warning_severity code <= 3.
Proof. unfold warning_severity. repeat case_match; lia. Qed.

Lemma sev_of_nonneg w : 0 <= sev_of w <= 3.
Proof. unfold sev_of. pose proof (warning_severity_nonneg (DashboardState.warning_code w)). case_match; lia. Qed.

Lemma top_step_sev top w :
  0 <= snd top ->
  DashboardState.top_step top w =
  if snd top <? sev_of w then (DashboardState.warning_code w, sev_of w) else top.
Proof.
  intros H. unfold DashboardState.top_step, sev_of.
  destruct (DashboardState.active w); simpl; [done|].
  by rewrite (proj2 (Z.ltb_ge _ _)) by lia.
Qed.

(** What the loop has found after the warnings [ws]. *)
Lemma top_fold_spec ws :
  let '(code, sev) := fold_left DashboardState.top_step ws (0, 0) in
  0 <= sev /\ (forall w, w ∈ ws -> sev_of w <= sev) /\
  ((sev = 0 /\ code = 0) \/
   (0 < sev /\ exists ws1 w ws2, ws = ws1 ++ w :: ws2 /\ code = DashboardState.warning_code w /\
      sev = sev_of w /\ forall w', w' ∈ ws1 -> sev_of w' < sev)).
Proof.
  induction ws as [|w ws IH] using rev_ind; simpl.
  - split_and!; [lia| |auto]. intros w Hw. by apply not_elem_of_nil in Hw.
  - rewrite fold_left_app. simpl.
    destruct (fold_left DashboardState.top_step ws (0, 0)) as [code sev].
    destruct IH as (H0 & Hmax & Hbest). rewrite top_step_sev by done. simpl.
    destruct (Z.ltb_spec sev (sev_of w)) as [Hlt|Hge].
    + split_and!; [lia| |right; split; [lia|]].
      * intros w' [Hw'| ->%list_elem_of_singleton]%elem_of_app; [|lia].
        specialize (Hmax w' Hw'). lia.
      * exists ws, w, []. split_and!; try done. intros w' Hw'. specialize (Hmax w' Hw'). lia.
    + split_and!; [lia| |].
      * intros w' [Hw'| ->%list_elem_of_singleton]%elem_of_app; auto.
      * destruct Hbest as [?|(Hp & ws1 & w0 & ws2 & -> & Hc & Hs & Hf)]; [auto|].
        right. split; [done|]. exists ws1, w0, (ws2 ++ [w]). split_and!; auto.
        by rewrite <- app_assoc.
Qed.

(** [top_warning] returns 0 exactly when no active warning has a positive severity, and
    otherwise the code of the first of the active warnings of the highest severity:
    inactive warnings never show and a later warning replaces an earlier one only when it
    is strictly more severe. *)
Theorem top_warning_most_severe s :
  (DashboardState.top_warning s = 0 /\
   forall w, w ∈ DashboardState.warnings s -> sev_of w = 0) \/
  (exists ws1 w ws2, DashboardState.warnings s = ws1 ++ w :: ws2 /\
     DashboardState.top_warning s = DashboardState.warning_code w /\
     DashboardState.active w = true /\ 0 < sev_of w /\
     (forall w', w' ∈ DashboardState.warnings s -> sev_of w' <= sev_of w) /\
     (forall w', w' ∈ ws1 -> sev_of w' < sev_of w)).
Proof.
  unfold DashboardState.top_warning. pose proof (top_fold_spec (DashboardState.warnings s)) as H.
  change (WarningCode_as_u8 NoWarning) with 0.
  destruct (fold_left _ _ _) as [code sev].
  destruct H as (H0 & Hmax & [[-> ->]|(Hp & ws1 & w & ws2 & Hs & Hc & Hsev & Hf)]).
  - left. split; [done|]. intros w Hw. pose proof (sev_of_nonneg w). specialize (Hmax w Hw). lia.
  - right. exists ws1, w, ws2. subst sev. split_and!; auto.
    unfold sev_of in Hp. by destruct (DashboardState.active w).
Qed.

(** ** The warning list as a set *)

Definition warn_inv (A : gset (Z * Z)) (ws : list DashboardState.DashboardWarning) : Prop :=
  NoDup (map DashboardState.key ws) /\
  forall k, k ∈ A <-> exists w, w ∈ ws /\ DashboardState.key w = k /\ DashboardState.active w = true.

Lemma key_match c s w :
  (DashboardState.warning_code w =? c) && (DashboardState.source_node w =? s) = true <->
  DashboardState.key w = (c, s).
Proof.
  unfold DashboardState.key. rewrite andb_true_iff, !Z.eqb_eq.
  split; [by intros [-> ->]|by intros [= -> ->]].
Qed.

(** Deactivating the warnings a test on the key selects. *)
Lemma warn_inv_clear A ws (q : Z * Z -> bool) :
  warn_inv A ws ->
  warn_inv (filter (fun k => q k = false) A)
    (map (fun w => if q (DashboardState.key w) then DashboardState.set_active false w else w) ws).
Proof.
  intros [Hnd HA]. split.
  - rewrite map_map. erewrite map_ext; [exact Hnd|]. intros w. by case_match.
  - intros k. rewrite elem_of_filter, HA. setoid_rewrite list_elem_of_In. setoid_rewrite in_map_iff.
    split.
    + intros (Hq & w & Hw & <- & Ha). exists w.
      split_and!; [exists w; by rewrite Hq|done|done].
    + intros (w' & (w & <- & Hw) & Hk & Ha). destruct (q (DashboardState.key w)) eqn:Hq; [done|].
      subst k. split; [done|]. by exists w.
Qed.

Lemma warn_inv_add A s c src :
  warn_inv A (DashboardState.warnings s) ->
  warn_inv ({[ (c, src) ]} ∪ A) (DashboardState.warnings (DashboardState.add_warning s c src)).
Proof.
  intros [Hnd HA]. unfold DashboardState.add_warning. case_match eqn:E; simpl.
  - assert (map DashboardState.key l = map DashboardState.key (DashboardState.warnings s)) as Hm
      by (by eapply update_first_map; [|exact E]).
    apply update_first_Some in E as (l1 & w & l2 & E & -> & Hk%key_match & _).
    rewrite E in HA. split; [by rewrite Hm|].
    intros k. rewrite elem_of_union, elem_of_singleton, HA.
    setoid_rewrite elem_of_app. setoid_rewrite elem_of_cons. split.
    + intros [->|(w' & [Hw|[->|Hw]] & <- & Ha)].
      * exists (DashboardState.set_active true w). naive_solver.
      * by exists w'; auto.
      * exists (DashboardState.set_active true w). naive_solver.
      * by exists w'; auto.
    + intros (w' & [Hw|[->|Hw]] & <- & Ha); [right; by exists w'; auto|left|right; by exists w'; auto].
      done.
  - pose proof (proj1 (update_first_None _ _ _) E) as Hno. clear E.
    split.
    + rewrite map_app. apply NoDup_app. split_and!; [done| |apply NoDup_singleton].
      intros k (w & <- & Hw)%list_elem_of_In%in_map_iff Hk%list_elem_of_singleton.
      apply list_elem_of_In in Hw. specialize (Hno w Hw). cbv beta in Hno.
      by rewrite (proj2 (key_match c src w) Hk) in Hno.
    + intros k. rewrite elem_of_union, elem_of_singleton, HA.
      setoid_rewrite elem_of_app. setoid_rewrite list_elem_of_singleton. naive_solver.
Qed.

Lemma warn_inv_step A s o :
  warn_inv A (DashboardState.warnings s) ->
  warn_inv (DashboardState.spec_step A o) (DashboardState.warnings (DashboardState.step s o)).
Proof.
  intros Hi. destruct o as [m|v|a b c|c src|c|src|]; simpl; try done.
  - by apply warn_inv_add.
  - pose proof (warn_inv_clear A _ (fun k => fst k =? c) Hi) as H.
    replace (filter (fun k => fst k <> c) A) with (filter (fun k : Z * Z => (fst k =? c) = false) A);
      [exact H|]. apply set_eq. intros k. rewrite !elem_of_filter, Z.eqb_neq. done.
  - pose proof (warn_inv_clear A _ (fun k => snd k =? src) Hi) as H.
    replace (filter (fun k => snd k <> src) A) with (filter (fun k : Z * Z => (snd k =? src) = false) A);
      [exact H|]. apply set_eq. intros k. rewrite !elem_of_filter, Z.eqb_neq. done.
  - split; [apply NoDup_nil_2|]. intros k. split; [set_solver|].
    intros (w & Hw & _). by apply not_elem_of_nil in Hw.
Qed.

Lemma warn_inv_run ops :
  warn_inv (DashboardState.spec_run ops)
    (DashboardState.warnings (DashboardState.run DashboardState.default ops)).
Proof.
  unfold DashboardState.spec_run, DashboardState.run.
  induction ops as [|o ops IH] using rev_ind; simpl.
  - split; [apply NoDup_nil_2|]. intros k. split; [set_solver|].
    intros (w & Hw & _). by apply not_elem_of_nil in Hw.
  - rewrite !fold_left_app. simpl. by apply warn_inv_step.
Qed.

(** After any sequence of dashboard operations the warning list never holds two entries
    for one code and source, and its active entries are the set the operations describe:
    [add_warning] inserts a pair, [clear_warning] removes every pair of a code,
    [clear_node_warnings] every pair of a node, a reboot all of them, and no other
    operation changes it.  [top_warning] shows something exactly when some pair of the
    set has a positive severity. *)
Theorem dashboard_warnings_refine ops :
  let s := DashboardState.run DashboardState.default ops in
  NoDup (map DashboardState.key (DashboardState.warnings s)) /\
  (forall code source, (code, source) ∈ DashboardState.spec_run ops <->
     exists w, w ∈ DashboardState.warnings s /\ DashboardState.key w = (code, source) /\
               DashboardState.active w = true) /\
  (DashboardState.top_warning s <> 0 <->
     exists k, k ∈ DashboardState.spec_run ops /\ 0 < warning_severity (fst k)).
Proof.
  intros s. destruct (warn_inv_run ops) as [Hnd HA]. fold s in Hnd, HA.
  split_and!; [done|by intros; apply HA|].
  pose proof (top_fold_spec (DashboardState.warnings s)) as H.
  unfold DashboardState.top_warning. change (WarningCode_as_u8 NoWarning) with 0.
  destruct (fold_left _ _ _) as [code sev]. simpl.
  destruct H as (H0 & Hmax & [[-> ->]|(Hp & ws1 & w & ws2 & Hs & -> & Hsev & _)]).
  - split; [done|]. intros (k & (w & Hw & <- & Ha)%HA & Hk).
    specialize (Hmax w Hw). unfold sev_of in Hmax. rewrite Ha in Hmax. simpl in Hk. lia.
  - rewrite Hsev in Hp. unfold sev_of in Hp.
    destruct (DashboardState.active w) eqn:Ha; [|lia]. split.
    + intros _. exists (DashboardState.key w). split; [|done]. apply HA. exists w.
      split_and!; auto. rewrite Hs. apply elem_of_app. right. by left.
    + intros _ E. rewrite E in Hp. by vm_compute in Hp.
Qed.
