(* ===== verification/OtaSlot.v ===== *)
(** * OTA slots ([state_tests/src/ota_slot.rs])

    The A/B update state machine, the CRC-32 of the metadata record, its on-flash
    layout and the choice between the two copies. *)

From S2P Require Import Prelude MachineInt RustStr.

Inductive OtaState : Set :=
  Idle | Downloading | Verifying | CommitPending | Rebooting | Healthy | RolledBack.
#[export] Instance OtaState_eq_dec : EqDecision OtaState.
Proof. solve_decision. Defined.

Definition OtaState_as_u8 (s : OtaState) : Z :=
  match s with
  | Idle => 0 | Downloading => 1 | Verifying => 2 | CommitPending => 3
  | Rebooting => 4 | Healthy => 5 | RolledBack => 6
  end.

Definition from_u8 (v : Z) : OtaState :=
  match v with
  | 0 => Idle | 1 => Downloading | 2 => Verifying | 3 => CommitPending
  | 4 => Rebooting | 5 => Healthy
  | _ => RolledBack
  end.

Definition SLOT_A : Z := 0.
Definition SLOT_B : Z := 1.

Definition other_slot (slot : Z) : Z := if slot =? SLOT_A then SLOT_B else SLOT_A.

(** ** The CRC *)

(** One turn of the inner loop: [mask] is all ones when the low bit is set. *)
Definition crc_bit (crc : Z) : Z :=
  let mask := cast U32 (- Z.land crc 1) in
  Z.lxor (Z.shiftr crc 1) (Z.land 0xEDB88320 mask).

(** [for _ in 0..n] around it. *)
Definition crc_bits (n : nat) (crc : Z) : Z := Nat.iter n crc_bit crc.

Definition crc_byte (crc byte : Z) : Z := crc_bits 8 (Z.lxor crc byte).

Definition crc32 (data : list Z) : Z :=
  Z.lxor (fold_left crc_byte data 0xFFFFFFFF) 0xFFFFFFFF.

(** ** The metadata record *)

Definition OTA_META_MAGIC : Z := 0x4D434F54.
Definition OTA_META_FORMAT_VERSION : Z := 1.
Definition OTA_META_RECORD_SIZE : Z := 32.

(** [v.to_le_bytes()] of a [u32]. *)
Definition to_le_bytes (v : Z) : list Z :=
  [cast U8 v; cast U8 (Z.shiftr v 8); cast U8 (Z.shiftr v 16); cast U8 (Z.shiftr v 24)].

Module MetaRecord.

Record t := {
  magic : Z;
  format_version : Z;
  active_slot : Z;
  target_slot : Z;
  state : Z;
  committed : Z;
  boot_attempt_count : Z;
  healthy : Z;
  abort_reason : Z;
  generation : Z;
  image_length : Z;
  image_crc32 : Z;
  reserved : Z;
  record_crc32 : Z;
}.

Definition to_bytes (self : t) : list Z :=
  to_le_bytes (magic self) ++
  [format_version self; active_slot self; target_slot self; state self; committed self;
   boot_attempt_count self; healthy self; abort_reason self] ++
  to_le_bytes (generation self) ++
  to_le_bytes (image_length self) ++
  to_le_bytes (image_crc32 self) ++
  to_le_bytes (reserved self) ++
  to_le_bytes (record_crc32 self).

Definition compute_record_crc32 (self : t) : Z := crc32 (take 28 (to_bytes self)).

(** The first two assignments of [finalize], then the last. *)
Definition stamp (self : t) : t := {|
  magic := OTA_META_MAGIC;
  format_version := OTA_META_FORMAT_VERSION;
  active_slot := active_slot self;
  target_slot := target_slot self;
  state := state self;
  committed := committed self;
  boot_attempt_count := boot_attempt_count self;
  healthy := healthy self;
  abort_reason := abort_reason self;
  generation := generation self;
  image_length := image_length self;
  image_crc32 := image_crc32 self;
  reserved := reserved self;
  record_crc32 := record_crc32 self;
|}.

Definition with_record_crc32 (self : t) (crc : Z) : t := {|
  magic := magic self;
  format_version := format_version self;
  active_slot := active_slot self;
  target_slot := target_slot self;
  state := state self;
  committed := committed self;
  boot_attempt_count := boot_attempt_count self;
  healthy := healthy self;
  abort_reason := abort_reason self;
  generation := generation self;
  image_length := image_length self;
  image_crc32 := image_crc32 self;
  reserved := reserved self;
  record_crc32 := crc;
|}.

Definition finalize (self : t) : t :=
  let self := stamp self in with_record_crc32 self (compute_record_crc32 self).

Definition is_valid (self : t) : bool :=
  (magic self =? OTA_META_MAGIC)
  && (format_version self =? OTA_META_FORMAT_VERSION)
  && (record_crc32 self =? compute_record_crc32 self).

(** The fields are values of their Rust types. *)
Definition wf (self : t) : Prop :=
  fits U32 (magic self) /\ fits U32 (generation self) /\ fits U32 (image_length self) /\
  fits U32 (image_crc32 self) /\ fits U32 (reserved self) /\ fits U32 (record_crc32 self) /\
  fits U8 (format_version self) /\ fits U8 (active_slot self) /\ fits U8 (target_slot self) /\
  fits U8 (state self) /\ fits U8 (committed self) /\ fits U8 (boot_attempt_count self) /\
  fits U8 (healthy self) /\ fits U8 (abort_reason self).

End MetaRecord.

Definition select_record (a b : MetaRecord.t) : option MetaRecord.t :=
  match MetaRecord.is_valid a, MetaRecord.is_valid b with
  | true, true =>
      Some (if MetaRecord.generation b <=? MetaRecord.generation a then a else b)
  | true, false => Some a
  | false, true => Some b
  | false, false => None
  end.

(** ** The slot model *)

Module OtaSlotModel.

Record t := {
  active_slot : Z;
  target_slot : Z;
  state : OtaState;
  image_written : bool;
  crc_ok : bool;
  committed : bool;
  boot_healthy : bool;
  rolled_back : bool;
  abort_reason : Z;
}.

Definition new : t := {|
  active_slot := SLOT_A; target_slot := SLOT_A; state := Idle;
  image_written := false; crc_ok := false; committed := false;
  boot_healthy := false; rolled_back := false; abort_reason := 0;
|}.

Definition begin_download (self : t) : t :=
  if negb (bool_decide (state self = Idle)) then self
  else {| active_slot := active_slot self;
          target_slot := other_slot (active_slot self);
          state := Downloading;
          image_written := false;
          crc_ok := false;
          committed := false;
          boot_healthy := boot_healthy self;
          rolled_back := rolled_back self;
          abort_reason := abort_reason self |}.

Definition rollback (self : t) : t :=
  if bool_decide (state self = Healthy) then self
  else {| active_slot := active_slot self;
          target_slot := active_slot self;
          state := RolledBack;
          image_written := false;
          crc_ok := crc_ok self;
          committed := false;
          boot_healthy := false;
          rolled_back := true;
          abort_reason := abort_reason self |}.

Definition finish_download (self : t) (complete : bool) : t * bool :=
  if negb (bool_decide (state self = Downloading)) then (self, false)
  else if negb complete then (rollback self, false)
  else ({| active_slot := active_slot self;
           target_slot := target_slot self;
           state := state self;
           image_written := true;
           crc_ok := crc_ok self;
           committed := committed self;
           boot_healthy := boot_healthy self;
           rolled_back := rolled_back self;
           abort_reason := abort_reason self |}, true).

Definition verify (self : t) (ok : bool) : t * bool :=
  if negb (bool_decide (state self = Downloading)) then (self, false)
  else
    let self' := {| active_slot := active_slot self;
                    target_slot := target_slot self;
                    state := Verifying;
                    image_written := image_written self;
                    crc_ok := ok;
                    committed := committed self;
                    boot_healthy := boot_healthy self;
                    rolled_back := rolled_back self;
                    abort_reason := abort_reason self |} in
    if negb ok then (rollback self', false) else (self', true).

Definition commit (self : t) : t * bool :=
  if negb (bool_decide (state self = Verifying)) then (self, false)
  else if negb (image_written self) || negb (crc_ok self) then (rollback self, false)
  else ({| active_slot := active_slot self;
           target_slot := target_slot self;
           state := CommitPending;
           image_written := image_written self;
           crc_ok := crc_ok self;
           committed := true;
           boot_healthy := boot_healthy self;
           rolled_back := rolled_back self;
           abort_reason := abort_reason self |}, true).

Definition reboot (self : t) : t :=
  if negb (bool_decide (state self = CommitPending)) then self
  else {| active_slot := active_slot self;
          target_slot := target_slot self;
          state := Rebooting;
          image_written := image_written self;
          crc_ok := crc_ok self;
          committed := committed self;
          boot_healthy := boot_healthy self;
          rolled_back := rolled_back self;
          abort_reason := abort_reason self |}.

(** [boot_healthy := false] comes before [rollback], which sets it too. *)
Definition health_check (self : t) (healthy : bool) : t * bool :=
  if negb (bool_decide (state self = Rebooting)) then (self, false)
  else if healthy && committed self then
    ({| active_slot := target_slot self;
        target_slot := target_slot self;
        state := Healthy;
        image_written := image_written self;
        crc_ok := crc_ok self;
        committed := committed self;
        boot_healthy := true;
        rolled_back := rolled_back self;
        abort_reason := abort_reason self |}, true)
  else (rollback self, false).

Definition boot_slot (self : t) : Z :=
  if bool_decide (state self = Healthy) && committed self then target_slot self
  else active_slot self.

Definition abort (self : t) (reason : Z) : t :=
  if bool_decide (state self = Healthy) then self
  else
    let self' := rollback self in
    {| active_slot := active_slot self';
       target_slot := target_slot self';
       state := state self';
       image_written := image_written self';
       crc_ok := crc_ok self';
       committed := committed self';
       boot_healthy := boot_healthy self';
       rolled_back := rolled_back self';
       abort_reason := reason |}.

Definition recover_after_reset (self : t) (r : MetaRecord.t) : t :=
  let committed_or_later := OtaState_as_u8 CommitPending <=? MetaRecord.state r in
  {| active_slot := MetaRecord.active_slot r;
     target_slot := MetaRecord.target_slot r;
     state := from_u8 (MetaRecord.state r);
     image_written := committed_or_later;
     crc_ok := committed_or_later;
     committed := negb (MetaRecord.committed r =? 0);
     boot_healthy := negb (MetaRecord.healthy r =? 0);
     rolled_back := MetaRecord.state r =? OtaState_as_u8 RolledBack;
     abort_reason := MetaRecord.abort_reason r |}.

Inductive op : Set :=
  | BeginDownload | FinishDownload (complete : bool) | Verify (ok : bool) | Commit
  | Reboot | HealthCheck (healthy : bool) | Rollback | AbortUpdate (reason : Z).
#[global] Instance op_eq_dec : EqDecision op.
Proof. solve_decision. Defined.

Definition step (self : t) (o : op) : t :=
  match o with
  | BeginDownload => begin_download self
  | FinishDownload c => fst (finish_download self c)
  | Verify ok => fst (verify self ok)
  | Commit => fst (commit self)
  | Reboot => reboot self
  | HealthCheck h => fst (health_check self h)
  | Rollback => rollback self
  | AbortUpdate r => abort self r
  end.

Definition run (self : t) (ops : list op) : t := fold_left step ops self.

(** What holds of every state an update passes through. *)
Definition inv (s : t) : Prop :=
  (active_slot s = SLOT_A \/ active_slot s = SLOT_B) /\
  target_slot s =
    (match state s with
     | Idle | Healthy | RolledBack => active_slot s
     | _ => other_slot (active_slot s)
     end) /\
  (committed s = match state s with CommitPending | Rebooting | Healthy => true | _ => false end) /\
  (committed s = true -> image_written s = true /\ crc_ok s = true) /\
  (state s = Verifying -> crc_ok s = true) /\
  (image_written s = true -> state s <> Idle /\ state s <> RolledBack) /\
  boot_healthy s = bool_decide (state s = Healthy) /\
  rolled_back s = bool_decide (state s = RolledBack) /\
  (abort_reason s <> 0 -> state s = RolledBack).

(** The part of it that survives a reset. *)
Definition consistent (s : t) : Prop :=
  (active_slot s = SLOT_A \/ active_slot s = SLOT_B) /\
  target_slot s =
    (match state s with
     | Idle | Healthy | RolledBack => active_slot s
     | _ => other_slot (active_slot s)
     end) /\
  (committed s = match state s with CommitPending | Rebooting | Healthy => true | _ => false end) /\
  (committed s = true -> image_written s = true /\ crc_ok s = true) /\
  boot_healthy s = bool_decide (state s = Healthy) /\
  rolled_back s = bool_decide (state s = RolledBack) /\
  (abort_reason s <> 0 -> state s = RolledBack).

(** A record that holds a state: the fields the two have in common. *)
Definition saved (s : t) (r : MetaRecord.t) : Prop :=
  MetaRecord.active_slot r = active_slot s /\ MetaRecord.target_slot r = target_slot s /\
  MetaRecord.state r = OtaState_as_u8 (state s) /\
  MetaRecord.committed r = (if committed s then 1 else 0) /\
  MetaRecord.healthy r = (if boot_healthy s then 1 else 0) /\
  MetaRecord.abort_reason r = abort_reason s.

(** A life of the model: calls, and resets after which it is recovered from a record. *)
Inductive event : Set := Call (o : op) | Reset (r : MetaRecord.t).

Definition handle (self : t) (e : event) : t :=
  match e with
  | Call o => step self o
  | Reset r => recover_after_reset self r
  end.

Definition live (self : t) (es : list event) : t := fold_left handle es self.

(** The record of a reset holds some consistent state. *)
Definition event_ok (e : event) : Prop :=
  match e with
  | Call _ => True
  | Reset r => exists s, consistent s /\ saved s r
  end.

(** The operations a successful update performs, in order. *)
Definition happy_path : list op :=
  [BeginDownload; FinishDownload true; Verify true; Commit; Reboot; HealthCheck true].

(** The part of the happy path a state has behind it. *)
Definition progress (s : t) : list op :=
  match state s with
  | Idle | RolledBack => []
  | Downloading => if image_written s then take 2 happy_path else take 1 happy_path
  | Verifying => if image_written s then take 3 happy_path else take 1 happy_path
  | CommitPending => take 4 happy_path
  | Rebooting => take 5 happy_path
  | Healthy => happy_path
  end.

End OtaSlotModel.

(** ** The update contract *)

(** The checksum is unfolded last in conversions. *)
#[global] Strategy 1000 [crc_bit crc_bits crc_byte crc32].
#[global] Strategy expand [MetaRecord.compute_record_crc32].
#[global] Arguments crc_bits : simpl never.
#[global] Arguments crc_byte : simpl never.
#[global] Arguments crc32 : simpl never.

(** Split a model state on the fields the guards of the operations read. *)
Ltac ota_cases s o :=
  destruct s as [act tgt st iw cok com bh rb ar]; destruct st, o as [|[]|[]| | |[]| |r];
  unfold OtaSlotModel.inv, OtaSlotModel.step, OtaSlotModel.begin_download,
    OtaSlotModel.finish_download, OtaSlotModel.verify, OtaSlotModel.commit, OtaSlotModel.reboot,
    OtaSlotModel.health_check, OtaSlotModel.abort, OtaSlotModel.rollback in *;
  cbn in *; eval_decide; cbn in *; eval_decide; cbn in *.

Lemma other_slot_valid s : s = SLOT_A \/ s = SLOT_B -> other_slot s = SLOT_A \/ other_slot s = SLOT_B.
Proof. unfold other_slot. intros [->| ->]; auto. Qed.

Lemma other_slot_neq s : s = SLOT_A \/ s = SLOT_B -> other_slot s <> s.
Proof. by intros [->| ->]. Qed.

Lemma ota_inv_new : OtaSlotModel.inv OtaSlotModel.new.
Proof. unfold OtaSlotModel.inv; cbn. naive_solver. Qed.

(** Decide one conjunct of the invariant in a concrete control state. *)
Ltac ota_fact :=
  intros;
  repeat match goal with
         | H : ?x = ?x -> _ |- _ => specialize (H eq_refl)
         | H : ?x <> ?y -> _, H' : ?x <> ?y |- _ => specialize (H H')
         | H : _ /\ _ |- _ => destruct H
         | H : _ = _ \/ _ = _ |- _ => destruct H
         end;
  first [assumption | reflexivity | discriminate | congruence
        | by left | by right | split; (discriminate || assumption || reflexivity)
        | auto; congruence].

Lemma ota_inv_step s o : OtaSlotModel.inv s -> OtaSlotModel.inv (OtaSlotModel.step s o).
Proof.
  intros Hi. pose proof (other_slot_valid (OtaSlotModel.active_slot s)) as Ho.
  ota_cases s o; destruct Hi as (Ha & Ht & Hc & Hci & Hv & Hw & Hb & Hr & Hab); subst; cbn;
    (try destruct iw); (try destruct cok); cbn; split_and!; try ota_fact.
Qed.

Lemma ota_inv_run s ops : OtaSlotModel.inv s -> OtaSlotModel.inv (OtaSlotModel.run s ops).
Proof.
  unfold OtaSlotModel.run. revert s; induction ops as [|o ops IH]; intros s Hi; simpl; [done|].
  by apply IH, ota_inv_step.
Qed.

Lemma inv_consistent s : OtaSlotModel.inv s -> OtaSlotModel.consistent s.
Proof. intros (Ha & Ht & Hc & Hci & _ & _ & Hb & Hr & Hab). by split_and!. Qed.

Lemma consistent_boot_slot s : OtaSlotModel.consistent s -> OtaSlotModel.boot_slot s = OtaSlotModel.active_slot s.
Proof.
  intros (_ & Ht & _). unfold OtaSlotModel.boot_slot.
  destruct (OtaSlotModel.state s); simpl in *; by destruct (OtaSlotModel.committed s).
Qed.

Lemma inv_boot_slot s : OtaSlotModel.inv s -> OtaSlotModel.boot_slot s = OtaSlotModel.active_slot s.
Proof. intros ?%inv_consistent. by apply consistent_boot_slot. Qed.

Lemma consistent_step s o : OtaSlotModel.consistent s -> OtaSlotModel.consistent (OtaSlotModel.step s o).
Proof.
  unfold OtaSlotModel.consistent. intros Hi. pose proof (other_slot_valid (OtaSlotModel.active_slot s)) as Ho.
  ota_cases s o; destruct Hi as (Ha & Ht & Hc & Hci & Hb & Hr & Hab); subst; cbn;
    (try destruct iw); (try destruct cok); cbn; split_and!; try ota_fact.
Qed.

(** Recovery gives back the state the record holds but for two flags. *)
Lemma recovered s0 s r :
  OtaSlotModel.consistent s0 -> OtaSlotModel.saved s0 r ->
  let late := bool_decide (OtaSlotModel.state s0 ∈ [CommitPending; Rebooting; Healthy; RolledBack]) in
  OtaSlotModel.recover_after_reset s r =
    {| OtaSlotModel.active_slot := OtaSlotModel.active_slot s0; OtaSlotModel.target_slot := OtaSlotModel.target_slot s0;
       OtaSlotModel.state := OtaSlotModel.state s0; OtaSlotModel.image_written := late; OtaSlotModel.crc_ok := late;
       OtaSlotModel.committed := OtaSlotModel.committed s0; OtaSlotModel.boot_healthy := OtaSlotModel.boot_healthy s0;
       OtaSlotModel.rolled_back := OtaSlotModel.rolled_back s0; OtaSlotModel.abort_reason := OtaSlotModel.abort_reason s0 |} /\
  OtaSlotModel.consistent (OtaSlotModel.recover_after_reset s r).
Proof.
  intros Hc (Ea & Et & Es & Ec & Eh & Er) late. subst late. unfold OtaSlotModel.recover_after_reset.
  rewrite Ea, Et, Es, Ec, Eh, Er. destruct Hc as (Ha & Ht & Hc & Hci & Hb & Hr & Hab).
  destruct s0 as [act tgt st iw cok com bh rb ar]. cbn in *. subst.
  unfold OtaSlotModel.consistent. destruct st; cbn in *; split; try reflexivity; split_and!; try ota_fact.
Qed.

Lemma consistent_live es s :
  OtaSlotModel.consistent s -> Forall OtaSlotModel.event_ok es -> OtaSlotModel.consistent (OtaSlotModel.live s es).
Proof.
  unfold OtaSlotModel.live. intros Hs Hes. revert s Hs. induction Hes as [|[o|r] es He _ IH]; intros s Hs; [done|..];
    apply IH; cbn [OtaSlotModel.handle]; [by apply consistent_step|].
  destruct He as (s0 & H0 & Hr). exact (proj2 (recovered s0 s r H0 Hr)).
Qed.

(** C21: Whatever order the update operations are called in, from a new model, with resets
    after which the model is recovered from a record that holds any consistent state (an old
    one as well): the bootloader's slot is the active slot; the slot under update is the
    other one while an update is in progress and never otherwise; the commit flag is set
    exactly from COMMIT_PENDING on, and then the image counts as written and verified; the
    health and rollback flags mirror the state; and an abort reason implies a rollback.
    Recovery gives back the state of the record but for two flags: the image counts as
    written and verified exactly from COMMIT_PENDING on and after a rollback.  Without a
    reset a verifying update has passed its checksum and a written image belongs to an update
    that is neither idle nor rolled back; a reset can break both. *)
Theorem ota_state_invariant es :
  Forall OtaSlotModel.event_ok es ->
  let s := OtaSlotModel.live OtaSlotModel.new es in
  OtaSlotModel.consistent s /\ OtaSlotModel.boot_slot s = OtaSlotModel.active_slot s /\
  (forall s0 r, OtaSlotModel.consistent s0 -> OtaSlotModel.saved s0 r ->
     let s' := OtaSlotModel.recover_after_reset s r in
     let late := bool_decide (OtaSlotModel.state s0 ∈ [CommitPending; Rebooting; Healthy; RolledBack]) in
     OtaSlotModel.state s' = OtaSlotModel.state s0 /\ OtaSlotModel.boot_slot s' = OtaSlotModel.boot_slot s0 /\
     OtaSlotModel.image_written s' = late /\ OtaSlotModel.crc_ok s' = late) /\
  (forall ops, es = map OtaSlotModel.Call ops ->
     (OtaSlotModel.state s = Verifying -> OtaSlotModel.crc_ok s = true) /\
     (OtaSlotModel.image_written s = true -> OtaSlotModel.state s <> Idle /\ OtaSlotModel.state s <> RolledBack)).
Proof.
  intros Hes s. assert (OtaSlotModel.consistent s) as Hs by (apply consistent_live; [apply inv_consistent, ota_inv_new|done]).
  split; [done|]. split; [by apply consistent_boot_slot|]. split.
  - intros s0 r H0 Hr s' late. destruct (recovered s0 s r H0 Hr) as [E Hc].
    rewrite (consistent_boot_slot s0 H0), (consistent_boot_slot s' Hc). subst s'. by rewrite E.
  - intros ops ->. assert (s = OtaSlotModel.run OtaSlotModel.new ops) as ->.
    { subst s. unfold OtaSlotModel.live, OtaSlotModel.run. generalize OtaSlotModel.new as s0. clear.
      induction ops as [|o ops IH]; intros s0; [done|]. apply IH. }
    destruct (ota_inv_run _ ops ota_inv_new) as (_ & _ & _ & _ & Hv & Hw & _). done.
Qed.

(** A rollback, a reset, and a new download that the recovered model refuses. *)
Lemma ota_state_invariant_witness :
  let calls := map OtaSlotModel.Call [OtaSlotModel.BeginDownload; OtaSlotModel.FinishDownload false] in
  let s0 := OtaSlotModel.live OtaSlotModel.new calls in
  let r := MetaRecord.Build_t 0 1 0 0 6 0 0 0 0 4 0 0 0 0 in
  let es := calls ++ [OtaSlotModel.Reset r; OtaSlotModel.Call OtaSlotModel.BeginDownload] in
  OtaSlotModel.consistent (OtaSlotModel.live OtaSlotModel.new es) /\
  OtaSlotModel.state (OtaSlotModel.live OtaSlotModel.new es) = RolledBack /\
  OtaSlotModel.image_written (OtaSlotModel.live OtaSlotModel.new es) = true.
Proof.
  intros calls s0 r es.
  assert (OtaSlotModel.consistent s0) as H0 by (unfold OtaSlotModel.consistent; vm_compute; intuition discriminate).
  assert (Forall OtaSlotModel.event_ok es) as Hes.
  { repeat apply Forall_cons_2; try exact I; [|apply Forall_nil_2]. exists s0. split; [exact H0|]. by vm_compute. }
  split; [exact (proj1 (ota_state_invariant es Hes))|]. split; reflexivity.
Defined.

(** The active slot never moves but to the verified image of a healthy boot. *)
Lemma ota_active_step s o :
  OtaSlotModel.inv s ->
  OtaSlotModel.active_slot (OtaSlotModel.step s o) =
  if bool_decide (OtaSlotModel.state s = Rebooting) && bool_decide (o = OtaSlotModel.HealthCheck true)
  then other_slot (OtaSlotModel.active_slot s) else OtaSlotModel.active_slot s.
Proof.
  intros Hi. ota_cases s o; destruct Hi as (Ha & Ht & Hc & Hci & Hv & Hw & Hb & Hr & Hab); subst; cbn;
    try reflexivity.
  all: destruct iw, cok; cbn; try reflexivity.
Qed.

Lemma progress_step s o ops :
  OtaSlotModel.inv s -> sublist (OtaSlotModel.progress s) ops ->
  sublist (OtaSlotModel.progress (OtaSlotModel.step s o)) (ops ++ [o]).
Proof.
  intros Hi Hs.
  assert (forall l, OtaSlotModel.progress (OtaSlotModel.step s o) = l ->
            sublist l (OtaSlotModel.progress s) \/
            (exists l', l = l' ++ [o] /\ sublist l' (OtaSlotModel.progress s)) ->
            sublist (OtaSlotModel.progress (OtaSlotModel.step s o)) (ops ++ [o])) as Hl.
  { intros l -> [Hp|(l' & -> & Hp)].
    - transitivity ops; [by transitivity (OtaSlotModel.progress s)|]. by apply sublist_inserts_r.
    - apply sublist_app; [by transitivity (OtaSlotModel.progress s)|done]. }
  eapply Hl; [reflexivity|]. clear Hl Hs ops. unfold OtaSlotModel.progress.
  ota_cases s o; destruct Hi as (Ha & Ht & Hc & Hci & Hv & Hw & Hb & Hr & Hab); subst; cbn;
    (try destruct iw); (try destruct cok); cbn;
    first [ left; reflexivity | left; apply sublist_nil_l
          | specialize (Hv eq_refl); discriminate
          | by destruct (Hci eq_refl)
          | solve [left; repeat constructor]
          | right; match goal with |- exists l', ?l = _ /\ _ => exists (removelast l) end;
            split; [reflexivity|cbn; apply sublist_nil_l || reflexivity] ].
Qed.

Lemma progress_run ops :
  let s := OtaSlotModel.run OtaSlotModel.new ops in
  sublist (OtaSlotModel.progress s) ops /\
  OtaSlotModel.active_slot s =
    (if bool_decide (OtaSlotModel.state s = Healthy) then SLOT_B else SLOT_A).
Proof.
  unfold OtaSlotModel.run. induction ops as [|o ops [IHp IHa]] using rev_ind; simpl; [by split|].
  rewrite fold_left_app. simpl. set (s := fold_left _ ops _) in *.
  assert (OtaSlotModel.inv s) as Hi by (apply (ota_inv_run _ ops), ota_inv_new).
  split; [by apply progress_step|]. clear IHp.
  rewrite ota_active_step, IHa by done. clearbody s. clear IHa.
  ota_cases s o; destruct Hi as (Ha & Ht & Hc & Hci & Hv & Hw & Hb & Hr & Hab); subst; cbn; try done.
  all: destruct iw; cbn; try done; destruct cok; done.
Qed.

(** C20: No unverified image ever becomes active.  From a new model, slot B is active
    exactly in the HEALTHY state, and HEALTHY is reached only by calls that contain, in
    this order, a download start, a completed download, a passed verification, a commit,
    a reboot and a healthy boot report; in every other state the bootloader stays on
    slot A. *)
Theorem ota_activation_needs_full_sequence ops :
  let s := OtaSlotModel.run OtaSlotModel.new ops in
  (OtaSlotModel.boot_slot s = SLOT_B <-> OtaSlotModel.state s = Healthy) /\
  (OtaSlotModel.boot_slot s <> SLOT_B -> OtaSlotModel.boot_slot s = SLOT_A) /\
  (OtaSlotModel.state s = Healthy -> sublist OtaSlotModel.happy_path ops).
Proof.
  intros s. destruct (progress_run ops) as [Hp Ha]. fold s in Hp, Ha.
  rewrite inv_boot_slot by (apply ota_inv_run, ota_inv_new). rewrite Ha.
  case_bool_decide as Hs; split_and!; try done.
  intros _. unfold OtaSlotModel.progress in Hp. by rewrite Hs in Hp.
Qed.

Lemma ota_activation_needs_full_sequence_witness :
  OtaSlotModel.state (OtaSlotModel.run OtaSlotModel.new OtaSlotModel.happy_path) = Healthy /\
  sublist OtaSlotModel.happy_path OtaSlotModel.happy_path.
Proof.
  split; [reflexivity|].
  exact (proj2 (proj2 (ota_activation_needs_full_sequence OtaSlotModel.happy_path)) ltac:(reflexivity)).
Defined.

Lemma healthy_step s o : OtaSlotModel.state s = Healthy -> OtaSlotModel.step s o = s.
Proof. intros H. ota_cases s o; simplify_eq; reflexivity. Qed.

Lemma rolled_back_step s o :
  OtaSlotModel.inv s -> OtaSlotModel.state s = RolledBack ->
  OtaSlotModel.state (OtaSlotModel.step s o) = RolledBack /\
  OtaSlotModel.active_slot (OtaSlotModel.step s o) = OtaSlotModel.active_slot s.
Proof. intros Hi H. ota_cases s o; simplify_eq; done. Qed.

(** An update runs to its end once: a model that is HEALTHY is changed by no operation,
    one that rolled back stays rolled back on the same slot.  From IDLE the full sequence
    makes the other slot active and reports success at each step, while an interrupted
    download, a failed verification, a commit without a complete download and an unhealthy
    boot each end rolled back with the old slot active. *)
Theorem ota_update_outcomes s ops :
  OtaSlotModel.inv s ->
  let run := OtaSlotModel.run s in
  (OtaSlotModel.state s = Healthy -> run ops = s) /\
  (OtaSlotModel.state s = RolledBack ->
     OtaSlotModel.state (run ops) = RolledBack /\
     OtaSlotModel.boot_slot (run ops) = OtaSlotModel.active_slot s) /\
  (OtaSlotModel.state s = Idle ->
     (let s' := run OtaSlotModel.happy_path in
      OtaSlotModel.state s' = Healthy /\
      OtaSlotModel.boot_slot s' = other_slot (OtaSlotModel.active_slot s)) /\
     forall failure,
       failure ∈ [ [OtaSlotModel.BeginDownload; OtaSlotModel.FinishDownload false];
                   [OtaSlotModel.BeginDownload; OtaSlotModel.FinishDownload true;
                    OtaSlotModel.Verify false];
                   [OtaSlotModel.BeginDownload; OtaSlotModel.Verify true; OtaSlotModel.Commit];
                   [OtaSlotModel.BeginDownload; OtaSlotModel.FinishDownload true;
                    OtaSlotModel.Verify true; OtaSlotModel.Commit; OtaSlotModel.Reboot;
                    OtaSlotModel.HealthCheck false] ] ->
       OtaSlotModel.state (run failure) = RolledBack /\
       OtaSlotModel.rolled_back (run failure) = true /\
       OtaSlotModel.boot_slot (run failure) = OtaSlotModel.active_slot s).
Proof.
  intros Hi run. split_and!.
  - intros Hs. unfold run, OtaSlotModel.run. induction ops as [|o ops IH]; [done|].
    simpl. by rewrite healthy_step.
  - intros Hs. rewrite inv_boot_slot by (by apply ota_inv_run).
    unfold run, OtaSlotModel.run. induction ops as [|o ops IH] using rev_ind; [done|].
    rewrite fold_left_app. simpl. destruct IH as [IHs IHa].
    destruct (rolled_back_step (fold_left OtaSlotModel.step ops s) o) as [-> ->]; auto.
    by apply ota_inv_run.
  - intros Hs. destruct s as [act tgt st iw cok com bh rb ar]. simpl in Hs. subst st. simpl. split.
    + done.
    + intros failure H. repeat (apply elem_of_cons in H as [->|H]; [done|]). by apply not_elem_of_nil in H.
Qed.

Lemma ota_update_outcomes_witness :
  OtaSlotModel.inv OtaSlotModel.new /\
  OtaSlotModel.boot_slot (OtaSlotModel.run OtaSlotModel.new OtaSlotModel.happy_path) = SLOT_B.
Proof.
  assert (Hi : OtaSlotModel.inv OtaSlotModel.new) by exact ota_inv_new.
  split; [exact Hi|].
  destruct (ota_update_outcomes OtaSlotModel.new [] Hi) as (_ & _ & H).
  destruct (H eq_refl) as [[_ H'] _]. exact H'.
Defined.

(** Recovery after a reset depends on the stored record alone, not on what was in RAM,
    and the bootloader then runs the record's target slot exactly when the record says
    HEALTHY and committed; the record's state byte 6 marks the model rolled back, larger
    bytes put it in the same state without the mark, and from COMMIT_PENDING on the image
    counts as written and verified, rolled-back updates included. *)
Theorem ota_recover_after_reset s1 s2 r :
  let s := OtaSlotModel.recover_after_reset s1 r in
  s = OtaSlotModel.recover_after_reset s2 r /\
  OtaSlotModel.recover_after_reset s r = s /\
  OtaSlotModel.boot_slot s =
    (if (MetaRecord.state r =? 5) && negb (MetaRecord.committed r =? 0)
     then MetaRecord.target_slot r else MetaRecord.active_slot r) /\
  (0 <= MetaRecord.state r <= 6 -> OtaState_as_u8 (OtaSlotModel.state s) = MetaRecord.state r) /\
  (6 <= MetaRecord.state r -> OtaSlotModel.state s = RolledBack /\
     OtaSlotModel.rolled_back s = (MetaRecord.state r =? 6) /\
     OtaSlotModel.image_written s = true /\ OtaSlotModel.crc_ok s = true).
Proof.
  assert (forall v, bool_decide (from_u8 v = Healthy) = (v =? 5)) as Hh.
  { intros v. unfold from_u8. destruct v as [|v|v]; try done.
    do 3 (destruct v as [v|v|]; try done). }
  intros s. split_and!; try done.
  - unfold OtaSlotModel.boot_slot. subst s. simpl. by rewrite Hh.
  - intros Hr. subst s. simpl.
    assert (MetaRecord.state r ∈ [0; 1; 2; 3; 4; 5; 6]) as Hin.
    { rewrite !elem_of_cons. lia. }
    repeat (apply elem_of_cons in Hin as [->|Hin]; [done|]). by apply not_elem_of_nil in Hin.
  - intros Hr. subst s. simpl. change (OtaState_as_u8 RolledBack) with 6.
    change (OtaState_as_u8 CommitPending) with 3.
    rewrite (proj2 (Z.leb_le 3 _)) by lia. split_and!; try done.
    unfold from_u8. destruct (MetaRecord.state r) as [|v|v]; try lia.
    do 3 (destruct v as [v|v|]; try done; try lia).
Qed.

Lemma ota_recover_after_reset_witness :
  let r := MetaRecord.Build_t 0 1 0 1 6 0 1 0 9 4 0 0 0 0 in
  6 <= MetaRecord.state r /\
  OtaSlotModel.image_written (OtaSlotModel.recover_after_reset OtaSlotModel.new r) = true.
Proof.
  intros r. assert (H : 6 <= MetaRecord.state r) by (vm_compute; congruence). split; [exact H|].
  destruct (ota_recover_after_reset OtaSlotModel.new OtaSlotModel.new r) as (_ & _ & _ & _ & H').
  exact (proj1 (proj2 (proj2 (H' H)))).
Defined.

(** ** CRC-32: bursts of up to four bytes are detected *)

Definition u32 (x : Z) : Prop := 0 <= x < 2 ^ 32.
Definition is_byte (b : Z) : Prop := 0 <= b < 256.

Lemma crc_bit_alt s : crc_bit s = Z.lxor (Z.shiftr s 1) (if Z.odd s then 0xEDB88320 else 0).
Proof.
  unfold crc_bit. f_equal. change 1 with (Z.ones 1) at 1. rewrite Z.land_ones by lia.
  change (2 ^ 1) with 2. rewrite Zmod_odd. by destruct (Z.odd s).
Qed.

Lemma crc_bit_lxor a b : crc_bit (Z.lxor a b) = Z.lxor (crc_bit a) (crc_bit b).
Proof.
  rewrite !crc_bit_alt, Z.shiftr_lxor.
  replace (Z.odd (Z.lxor a b)) with (xorb (Z.odd a) (Z.odd b))
    by (by rewrite <- !Z.bit0_odd, Z.lxor_spec).
  apply Z.bits_inj'. intros i Hi. rewrite !Z.lxor_spec.
  destruct (Z.odd a), (Z.odd b), (Z.testbit (Z.shiftr a 1) i), (Z.testbit (Z.shiftr b 1) i);
    cbn [xorb]; by destruct (Z.testbit 0xEDB88320 i); rewrite ?Z.bits_0.
Qed.

Lemma crc_bit_u32 s : u32 s -> u32 (crc_bit s).
Proof.
  unfold u32. intros Hs. rewrite crc_bit_alt. apply lxor_bound; [lia| |case_match; lia].
  rewrite Z.shiftr_div_pow2 by lia. change (2 ^ 1) with 2.
  pose proof (Z.div_lt_upper_bound s 2 (2 ^ 32)). pose proof (Z.div_pos s 2). lia.
Qed.

Lemma crc_bit_zero s : u32 s -> crc_bit s = 0 -> s = 0.
Proof.
  unfold u32. intros Hs. rewrite crc_bit_alt. intros H%Z.lxor_eq.
  rewrite Z.shiftr_div_pow2 in H by lia. change (2 ^ 1) with 2 in H.
  pose proof (Zdiv2_odd_eqn s) as E. rewrite Zdiv2_div in E.
  destruct (Z.odd s); lia.
Qed.

Lemma crc_bit_double w : 0 <= w -> crc_bit (2 * w) = w.
Proof.
  intros Hw. rewrite crc_bit_alt. rewrite Z.odd_mul. simpl. rewrite Z.lxor_0_r.
  rewrite Z.shiftr_div_pow2 by lia. change (2 ^ 1) with 2. rewrite Z.mul_comm. by apply Z.div_mul.
Qed.

Lemma crc_bits_S n s : crc_bits (S n) s = crc_bit (crc_bits n s).
Proof. reflexivity. Qed.

Lemma crc_byte_bits s b : crc_byte s b = crc_bits 8 (Z.lxor s b).
Proof. reflexivity. Qed.

Lemma crc_bits_add n m s : crc_bits (n + m) s = crc_bits n (crc_bits m s).
Proof. apply Nat.iter_add. Qed.

Lemma crc_bits_lxor n a b : crc_bits n (Z.lxor a b) = Z.lxor (crc_bits n a) (crc_bits n b).
Proof. induction n as [|n IH]; [done|]. by rewrite !crc_bits_S, IH, crc_bit_lxor. Qed.

Lemma crc_bits_u32 n s : u32 s -> u32 (crc_bits n s).
Proof. induction n as [|n IH]; [done|]. intros Hs. rewrite crc_bits_S. by apply crc_bit_u32, IH. Qed.

Lemma crc_bits_zero n s : u32 s -> crc_bits n s = 0 -> s = 0.
Proof.
  induction n as [|n IH]; [done|]. rewrite crc_bits_S. intros Hs H.
  apply IH; [done|]. apply crc_bit_zero; [by apply crc_bits_u32|done].
Qed.

Lemma crc_bits_inj n a b : u32 a -> u32 b -> crc_bits n a = crc_bits n b -> a = b.
Proof.
  intros Ha Hb H. apply Z.lxor_eq. apply (crc_bits_zero n).
  - unfold u32 in *. apply lxor_bound; [lia|done|done].
  - by rewrite crc_bits_lxor, H, Z.lxor_nilpotent.
Qed.

Lemma crc_bits_shift n w : 0 <= w -> crc_bits n (2 ^ Z.of_nat n * w) = w.
Proof.
  intros Hw. induction n as [|n IH]; [unfold crc_bits; simpl; lia|].
  unfold crc_bits in *. rewrite Nat.iter_succ_r. rewrite <- IH at 2. f_equal.
  replace (2 ^ Z.of_nat (S n) * w) with (2 * (2 ^ Z.of_nat n * w))
    by (rewrite Nat2Z.inj_succ, Z.pow_succ_r by lia; lia).
  apply crc_bit_double. pose proof (Z.pow_nonneg 2 (Z.of_nat n)). nia.
Qed.

(** The bytes as one little-endian word. *)
Fixpoint word (bs : list Z) : Z :=
  match bs with
  | [] => 0
  | b :: bs => b + 256 * word bs
  end.

Lemma word_bound bs : Forall is_byte bs -> 0 <= word bs < 2 ^ (8 * Z.of_nat (length bs)).
Proof.
  induction 1 as [|b bs Hb _ IH]; [simpl; lia|]. unfold is_byte in Hb. cbn [word length].
  rewrite Nat2Z.inj_succ. replace (8 * Z.succ (Z.of_nat (length bs)))
    with (8 + 8 * Z.of_nat (length bs)) by lia.
  rewrite Z.pow_add_r by lia. change (2 ^ 8) with 256. lia.
Qed.

Lemma word_inj us vs :
  length us = length vs -> Forall is_byte us -> Forall is_byte vs -> word us = word vs -> us = vs.
Proof.
  intros Hl Hu. revert vs Hl. induction Hu as [|u us Hb _ IH]; intros [|v vs] Hl Hv H; try done.
  inversion Hv; subst. simpl in *. unfold is_byte in *.
  assert (word us = word vs) by lia. f_equal; [lia|]. apply IH; auto.
Qed.

Lemma lxor_byte_word b w : is_byte b -> 0 <= w -> Z.lxor b (256 * w) = b + 256 * w.
Proof.
  intros Hb Hw. symmetry. apply Z.add_nocarry_lxor.
  apply Z.bits_inj'. intros i Hi. rewrite Z.land_spec, Z.bits_0.
  replace (256 * w) with (Z.shiftl w 8) by (rewrite Z.shiftl_mul_pow2 by lia; lia).
  destruct (Z.ltb_spec i 8).
  - rewrite Z.shiftl_spec_low by lia. apply andb_false_r.
  - rewrite (Z.bits_above_log2 b); [done|unfold is_byte in Hb; lia|].
    unfold is_byte in Hb. destruct (decide (b = 0)) as [->|]; [simpl; lia|].
    apply Z.log2_lt_pow2; [lia|]. pose proof (Z.pow_le_mono_r 2 8 i). lia.
Qed.

(** Feeding bytes one by one is feeding their word at once. *)
Lemma crc_fold_word bs s :
  Forall is_byte bs ->
  fold_left crc_byte bs s = crc_bits (8 * length bs) (Z.lxor s (word bs)).
Proof.
  intros Hb. revert s. induction Hb as [|b bs Hb Hbs IH]; intros s.
  - simpl. by rewrite Z.lxor_0_r.
  - rewrite fold_left_cons, IH. cbn [length word].
    pose proof (word_bound bs Hbs) as Hw.
    replace (8 * S (length bs))%nat with (8 * length bs + 8)%nat by lia.
    rewrite crc_bits_add, crc_byte_bits. f_equal. rewrite <- lxor_byte_word by (done || lia).
    pose proof (crc_bits_shift 8 (word bs) ltac:(lia)) as E.
    change (2 ^ Z.of_nat 8) with 256 in E.
    rewrite <- Z.lxor_assoc, (crc_bits_lxor 8 (Z.lxor s b)), E. reflexivity.
Qed.

Lemma crc_byte_u32 s b : u32 s -> is_byte b -> u32 (crc_byte s b).
Proof.
  intros Hs Hb. rewrite crc_byte_bits. apply crc_bits_u32. unfold u32, is_byte in *.
  apply lxor_bound; lia.
Qed.

Lemma crc_fold_u32 bs s : Forall is_byte bs -> u32 s -> u32 (fold_left crc_byte bs s).
Proof.
  intros Hb. revert s; induction Hb as [|b bs Hb _ IH]; intros s Hs; [done|].
  rewrite fold_left_cons. by apply IH, crc_byte_u32.
Qed.

Lemma lxor_cancel_r a b c : Z.lxor a c = Z.lxor b c -> a = b.
Proof.
  intros H. apply (f_equal (fun x => Z.lxor x c)) in H.
  by rewrite !Z.lxor_assoc, Z.lxor_nilpotent, !Z.lxor_0_r in H.
Qed.

Lemma crc_fold_inj bs s1 s2 :
  Forall is_byte bs -> u32 s1 -> u32 s2 ->
  fold_left crc_byte bs s1 = fold_left crc_byte bs s2 -> s1 = s2.
Proof.
  intros Hb. revert s1 s2; induction Hb as [|b bs Hb _ IH]; intros s1 s2 H1 H2 H; [done|].
  rewrite !fold_left_cons in H. apply IH in H; [|by apply crc_byte_u32..]. rewrite !crc_byte_bits in H.
  apply crc_bits_inj in H; [by apply lxor_cancel_r in H|..];
    unfold u32, is_byte in *; apply lxor_bound; lia.
Qed.

Lemma crc32_u32 bs : Forall is_byte bs -> u32 (crc32 bs).
Proof.
  intros Hb. unfold crc32, u32. apply lxor_bound; [lia| |lia]. apply crc_fold_u32; [done|].
  unfold u32. lia.
Qed.

(** Two messages that agree outside a window of at most four bytes and have one CRC are
    equal. *)
Lemma crc32_burst l1 us vs l2 :
  Forall is_byte l1 -> Forall is_byte l2 -> Forall is_byte us -> Forall is_byte vs ->
  length us = length vs -> (length us <= 4)%nat ->
  crc32 (l1 ++ us ++ l2) = crc32 (l1 ++ vs ++ l2) -> us = vs.
Proof.
  intros H1 H2 Hu Hv Hl Hle H. unfold crc32 in H. apply lxor_cancel_r in H.
  rewrite !fold_left_app in H.
  assert (u32 (fold_left crc_byte l1 0xFFFFFFFF)) as Hs
    by (apply crc_fold_u32; [done|unfold u32; lia]).
  revert H Hs. generalize (fold_left crc_byte l1 0xFFFFFFFF). intros st H Hs.
  apply crc_fold_inj in H; [|done|by apply crc_fold_u32..].
  rewrite !crc_fold_word, Hl in H by done.
  assert (forall bs, Forall is_byte bs -> (length bs <= 4)%nat -> u32 (word bs)) as Hw.
  { intros bs Hb Hlen. pose proof (word_bound bs Hb). unfold u32.
    pose proof (Z.pow_le_mono_r 2 (8 * Z.of_nat (length bs)) 32). lia. }
  apply crc_bits_inj in H.
  - rewrite !(Z.lxor_comm st) in H. apply lxor_cancel_r in H. by apply word_inj.
  - pose proof (Hw us Hu Hle). unfold u32 in *. apply lxor_bound; lia.
  - pose proof (Hw vs Hv ltac:(lia)). unfold u32 in *. apply lxor_bound; lia.
Qed.

(** ** The metadata record *)

Lemma to_le_bytes_bytes v : Forall is_byte (to_le_bytes v).
Proof.
  assert (forall z, is_byte (cast U8 z)) as H.
  { intros z. pose proof (cast_fits U8 z). unfold is_byte. int_lia. }
  unfold to_le_bytes. repeat constructor; apply H.
Qed.

Lemma to_le_bytes_inj v w : fits U32 v -> fits U32 w -> to_le_bytes v = to_le_bytes w -> v = w.
Proof.
  unfold to_le_bytes. rewrite !cast_unsigned by done. change (modulus U8) with 256.
  rewrite !Z.shiftr_div_pow2 by lia.
  change (2 ^ 8) with 256. change (2 ^ 16) with (256 * 256). change (2 ^ 24) with (256 * 256 * 256).
  rewrite <- !Z.div_div by lia. intros Hv Hw [= H0 H1 H2 H3]. int_unfold.
  pose proof (Z.div_mod v 256 ltac:(lia)). pose proof (Z.div_mod w 256 ltac:(lia)).
  pose proof (Z.div_mod (v / 256) 256 ltac:(lia)). pose proof (Z.div_mod (w / 256) 256 ltac:(lia)).
  pose proof (Z.div_mod (v / 256 / 256) 256 ltac:(lia)).
  pose proof (Z.div_mod (w / 256 / 256) 256 ltac:(lia)).
  assert (forall z, 0 <= z <= 4294967295 -> z / 256 / 256 / 256 mod 256 = z / 256 / 256 / 256) as Hm.
  { intros z Hz. rewrite !Z.div_div by lia. apply Z.mod_small.
    split; [apply Z.div_pos; lia|apply Z.div_lt_upper_bound; lia]. }
  rewrite !Hm in H3 by lia. lia.
Qed.

Lemma to_bytes_bytes r : MetaRecord.wf r -> Forall is_byte (MetaRecord.to_bytes r).
Proof.
  intros Hw. unfold MetaRecord.to_bytes.
  repeat apply Forall_app_2; try apply to_le_bytes_bytes.
  unfold MetaRecord.wf in Hw. unfold is_byte. int_unfold. repeat constructor; lia.
Qed.

Lemma compute_crc_u32 r : MetaRecord.wf r -> u32 (MetaRecord.compute_record_crc32 r).
Proof.
  intros Hw. unfold MetaRecord.compute_record_crc32. apply crc32_u32.
  apply Forall_take. by apply to_bytes_bytes.
Qed.

(** The stored CRC is not part of what is summed. *)
Lemma compute_crc_ignores_crc r c :
  MetaRecord.compute_record_crc32 (MetaRecord.with_record_crc32 r c) =
  MetaRecord.compute_record_crc32 r.
Proof. unfold MetaRecord.compute_record_crc32. f_equal. Qed.

Lemma finalize_is_valid r : MetaRecord.is_valid (MetaRecord.finalize r) = true.
Proof.
  unfold MetaRecord.is_valid, MetaRecord.finalize. rewrite compute_crc_ignores_crc.
  generalize (MetaRecord.compute_record_crc32 (MetaRecord.stamp r)). intros c. simpl.
  by rewrite Z.eqb_refl.
Qed.

Lemma to_bytes_inj r1 r2 :
  MetaRecord.wf r1 -> MetaRecord.wf r2 ->
  MetaRecord.to_bytes r1 = MetaRecord.to_bytes r2 -> r1 = r2.
Proof.
  unfold MetaRecord.to_bytes. intros (?&?&?&?&?&?&_) (?&?&?&?&?&?&_) Heq.
  repeat (apply app_inj_1 in Heq; [destruct Heq as [? Heq]|reflexivity]).
  repeat match goal with
    Hb : to_le_bytes _ = to_le_bytes _ |- _ => apply to_le_bytes_inj in Hb; [|assumption..] end.
  destruct r1, r2; simpl in *; simplify_eq. reflexivity.
Qed.

Lemma finalize_wf r : MetaRecord.wf r -> MetaRecord.wf (MetaRecord.finalize r).
Proof.
  intros H1. assert (MetaRecord.wf (MetaRecord.stamp r)) as Hs.
  { unfold MetaRecord.wf in *; simpl. unfold OTA_META_MAGIC, OTA_META_FORMAT_VERSION. int_lia. }
  pose proof (compute_crc_u32 _ Hs) as Hc. unfold u32 in Hc. unfold MetaRecord.finalize. revert Hc.
  generalize (MetaRecord.compute_record_crc32 (MetaRecord.stamp r)). intros c Hc.
  unfold MetaRecord.wf in *; simpl in *. int_lia.
Qed.

(** The on-flash layout loses nothing: for fields within their types the image is
    exactly 32 bytes, two records with the same image are equal, and [finalize] makes a
    valid record of the right types that keeps the payload fields. *)
Theorem meta_record_layout r1 r2 :
  MetaRecord.wf r1 -> MetaRecord.wf r2 ->
  Z.of_nat (length (MetaRecord.to_bytes r1)) = OTA_META_RECORD_SIZE /\
  Forall is_byte (MetaRecord.to_bytes r1) /\
  (MetaRecord.to_bytes r1 = MetaRecord.to_bytes r2 -> r1 = r2) /\
  MetaRecord.is_valid (MetaRecord.finalize r1) = true /\
  MetaRecord.wf (MetaRecord.finalize r1) /\
  MetaRecord.generation (MetaRecord.finalize r1) = MetaRecord.generation r1 /\
  MetaRecord.active_slot (MetaRecord.finalize r1) = MetaRecord.active_slot r1 /\
  MetaRecord.state (MetaRecord.finalize r1) = MetaRecord.state r1.
Proof.
  intros H1 H2. split_and!.
  - reflexivity.
  - by apply to_bytes_bytes.
  - by apply to_bytes_inj.
  - apply finalize_is_valid.
  - by apply finalize_wf.
  - reflexivity.
  - reflexivity.
  - reflexivity.
Qed.

Definition sample_record : MetaRecord.t :=
  MetaRecord.Build_t 0 0 SLOT_A SLOT_B 3 1 0 0 0 7 1024 0xDEADBEEF 0 0.

Lemma sample_record_wf : MetaRecord.wf sample_record.
Proof. unfold MetaRecord.wf, fits; vm_compute. repeat split; congruence. Qed.

Lemma meta_record_layout_witness :
  MetaRecord.wf sample_record /\
  MetaRecord.is_valid (MetaRecord.finalize sample_record) = true.
Proof.
  split; [exact sample_record_wf|].
  exact (proj1 (proj2 (proj2 (proj2
    (meta_record_layout sample_record sample_record sample_record_wf sample_record_wf))))).
Defined.

Lemma is_valid_crc r :
  MetaRecord.is_valid r = true -> MetaRecord.record_crc32 r = crc32 (take 28 (MetaRecord.to_bytes r)).
Proof.
  unfold MetaRecord.is_valid. intros [_ H]%andb_true_iff. apply Z.eqb_eq in H. exact H.
Qed.

(** C22: A valid record detects corruption: changing any run of up to four of its first 28
    bytes, or the stored CRC, makes [is_valid] reject it. *)
Theorem record_detects_burst r r' l1 us vs l2 :
  MetaRecord.wf r -> MetaRecord.wf r' -> MetaRecord.is_valid r = true ->
  take 28 (MetaRecord.to_bytes r) = l1 ++ us ++ l2 ->
  take 28 (MetaRecord.to_bytes r') = l1 ++ vs ++ l2 ->
  length us = length vs -> (length us <= 4)%nat ->
  (us <> vs /\ MetaRecord.record_crc32 r' = MetaRecord.record_crc32 r) \/
  (us = vs /\ MetaRecord.record_crc32 r' <> MetaRecord.record_crc32 r) ->
  MetaRecord.is_valid r' = false.
Proof.
  intros Hw Hw' Hv E E' Hl Hle Hd.
  assert (Forall is_byte (l1 ++ us ++ l2)) as Hb by (rewrite <- E; by apply Forall_take, to_bytes_bytes).
  assert (Forall is_byte (l1 ++ vs ++ l2)) as Hb' by (rewrite <- E'; by apply Forall_take, to_bytes_bytes).
  rewrite !Forall_app in Hb, Hb'. destruct Hb as (? & ? & ?), Hb' as (? & ? & ?).
  apply is_valid_crc in Hv. apply not_true_iff_false. intros Hc%is_valid_crc.
  rewrite E' in Hc. rewrite E in Hv. destruct Hd as [[Hne Heq]|[Heq Hne]].
  - apply Hne. apply (crc32_burst l1 us vs l2); try assumption.
    rewrite <- Hv, <- Hc, Heq. reflexivity.
  - apply Hne. rewrite Hv, Hc, Heq. reflexivity.
Qed.

Lemma record_detects_burst_witness :
  let r := MetaRecord.finalize sample_record in
  let r' := MetaRecord.Build_t (MetaRecord.magic r) (MetaRecord.format_version r) SLOT_B SLOT_B 3 1 0 0 0
              7 1024 0xDEADBEEF 0 (MetaRecord.record_crc32 r) in
  MetaRecord.is_valid r = true /\ MetaRecord.is_valid r' = false.
Proof.
  intros r r'.
  assert (Hw : MetaRecord.wf r) by (unfold MetaRecord.wf, fits; vm_compute; repeat split; congruence).
  assert (Hw' : MetaRecord.wf r') by (unfold MetaRecord.wf, fits; vm_compute; repeat split; congruence).
  assert (Hv : MetaRecord.is_valid r = true) by reflexivity.
  split; [exact Hv|].
  apply (record_detects_burst r r' (take 5 (MetaRecord.to_bytes r)) [0] [1]
           (take 22 (drop 6 (MetaRecord.to_bytes r))) Hw Hw' Hv);
    [reflexivity|reflexivity|reflexivity|simpl; lia|left; split; [discriminate|reflexivity]].
Defined.

(** [crc32] is the standard CRC-32 on the check string [123456789], and of two records
    [select_record] returns a valid one of the highest generation, the first on a tie, and
    nothing exactly when neither is valid: a newer finalized copy is taken, a corrupt one
    is never. *)
Theorem select_record_newest_valid a b :
  crc32 [49; 50; 51; 52; 53; 54; 55; 56; 57] = 0xCBF43926 /\
  (forall r, select_record a b = Some r ->
     (r = a \/ r = b) /\ MetaRecord.is_valid r = true /\
     (forall x, x = a \/ x = b -> MetaRecord.is_valid x = true ->
        MetaRecord.generation x <= MetaRecord.generation r) /\
     (MetaRecord.is_valid a = true -> MetaRecord.generation r = MetaRecord.generation a -> r = a)) /\
  (select_record a b = None <-> MetaRecord.is_valid a = false /\ MetaRecord.is_valid b = false) /\
  (MetaRecord.is_valid a = true -> MetaRecord.generation a < MetaRecord.generation b ->
     select_record a (MetaRecord.finalize b) = Some (MetaRecord.finalize b)).
Proof.
  split_and!.
  - reflexivity.
  - unfold select_record. intros r Hr.
    destruct (MetaRecord.is_valid a) eqn:Ha, (MetaRecord.is_valid b) eqn:Hb; simplify_eq;
      [destruct (Z.leb_spec (MetaRecord.generation b) (MetaRecord.generation a))|..];
      split_and!; auto; try (intros x [->| ->]; (lia || congruence)); try (intros; lia); intros; congruence.
  - unfold select_record. destruct (MetaRecord.is_valid a), (MetaRecord.is_valid b); naive_solver.
  - intros Ha Hg. unfold select_record. rewrite Ha, finalize_is_valid.
    change (MetaRecord.generation (MetaRecord.finalize b)) with (MetaRecord.generation b).
    by rewrite (proj2 (Z.leb_gt _ _)) by lia.
Qed.

Lemma select_record_newest_valid_witness :
  MetaRecord.is_valid (MetaRecord.finalize (MetaRecord.Build_t 0 0 0 0 0 0 0 0 0 6 0 0 0 0)) = true /\
  select_record (MetaRecord.finalize (MetaRecord.Build_t 0 0 0 0 0 0 0 0 0 6 0 0 0 0))
    (MetaRecord.finalize sample_record) = Some (MetaRecord.finalize sample_record).
Proof.
  split; [reflexivity|].
  destruct (select_record_newest_valid
              (MetaRecord.finalize (MetaRecord.Build_t 0 0 0 0 0 0 0 0 0 6 0 0 0 0)) sample_record)
    as (_ & _ & _ & H).
  apply H; [reflexivity|vm_compute; reflexivity].
Defined.
