(* ===== verification/Plant.v ===== *)
(** * The vehicle plant ([plant/src])

    Vehicle dynamics, the battery, the sensor readings and the environment model that
    applies the driver's inputs and publishes CAN frames.  The simulator's [World] is a
    parameter. *)

From S2P Require Import Prelude MachineInt RustStr StableSort.

Module VehiclePlant.

Record t := {
  speed_kph_x10 : Z;
  throttle_percent : Z;
  brake_pressed : bool;
  motor_torque_percent : Z;
  charger_plugged : bool;
}.

Definition new : t := {|
  speed_kph_x10 := 0;
  throttle_percent := 0;
  brake_pressed := false;
  motor_torque_percent := 0;
  charger_plugged := false;
|}.

Definition with_speed (self : t) (speed : Z) : t := {|
  speed_kph_x10 := speed;
  throttle_percent := throttle_percent self;
  brake_pressed := brake_pressed self;
  motor_torque_percent := motor_torque_percent self;
  charger_plugged := charger_plugged self;
|}.

Definition step (p : profile) (self : t) (dt_ms : Z) : outcome t :=
  let effective_torque := if brake_pressed self then 0 else motor_torque_percent self in
  let! scaled := arith p I32 (effective_torque * cast I32 dt_ms) in
  let delta := Z.quot scaled 100 in
  let! dragged := arith p I32 (speed_kph_x10 self * cast I32 dt_ms) in
  let drag := Z.quot dragged 10000 in
  let new_speed := Z.max (saturate I32 (saturate I32 (speed_kph_x10 self + delta) - drag)) 0 in
  Ret (with_speed self (cast U16 new_speed)).

Definition set_driver_input (self : t) (throttle : Z) (brake : bool) : t := {|
  speed_kph_x10 := speed_kph_x10 self;
  throttle_percent := throttle;
  brake_pressed := brake;
  motor_torque_percent := motor_torque_percent self;
  charger_plugged := charger_plugged self;
|}.

Definition set_motor_torque (self : t) (torque : Z) : t := {|
  speed_kph_x10 := speed_kph_x10 self;
  throttle_percent := throttle_percent self;
  brake_pressed := brake_pressed self;
  motor_torque_percent := torque;
  charger_plugged := charger_plugged self;
|}.

Definition wf (self : t) : Prop :=
  fits U16 (speed_kph_x10 self) /\ fits I8 (motor_torque_percent self).

End VehiclePlant.

Module BatteryModel.

Record t := {
  soc_percent : Z;
  soc_milli : Z;
  temp_c_x10 : Z;
  voltage_mv : Z;
  current_ma : Z;
  nominal_voltage_mv : Z;
}.

Definition default : t := {|
  soc_percent := 80;
  soc_milli := 80000;
  temp_c_x10 := 250;
  voltage_mv := 48000;
  current_ma := 0;
  nominal_voltage_mv := 48000;
|}.

Definition new : t := default.

Definition calc_voltage (p : profile) (self : t) : outcome Z :=
  let soc_factor := soc_percent self in
  let sag := Z.abs (current_ma self) / 10 in
  let! scaled := arith p U32 (nominal_voltage_mv self * soc_factor) in
  Ret (cast U16 (saturate U32 (scaled / 100 - sag))).

Definition with_voltage (self : t) (v : Z) : t := {|
  soc_percent := soc_percent self;
  soc_milli := soc_milli self;
  temp_c_x10 := temp_c_x10 self;
  voltage_mv := v;
  current_ma := current_ma self;
  nominal_voltage_mv := nominal_voltage_mv self;
|}.

Definition with_state (p : profile) (soc temp : Z) : outcome t :=
  let! soc_milli := arith p I64 (soc * 1000) in
  let b := {| soc_percent := soc;
              soc_milli := soc_milli;
              temp_c_x10 := temp;
              voltage_mv := voltage_mv default;
              current_ma := current_ma default;
              nominal_voltage_mv := nominal_voltage_mv default |} in
  let! v := calc_voltage p b in
  Ret (with_voltage b v).

(** The part both step functions share: the charge [soc_milli] they computed and the
    squared current in amperes, then the temperature and the voltage. *)
Definition settle (p : profile) (self : t) (milli current i_amps dt : Z) : outcome t :=
  let! rounded := arith p I64 (milli + 500) in
  let soc := cast U8 (Z.min (Z.quot rounded 1000) 100) in
  let! amps2 := arith p I64 (i_amps * i_amps) in
  let! heat := arith p I64 (amps2 * dt) in
  let heat_rise := Z.quot heat 25000 in
  let above_ambient := Z.max (temp_c_x10 self - 250) 0 in
  let! cool := arith p I64 (above_ambient * dt) in
  let cooling := Z.quot cool 100000 in
  let new_temp :=
    Z.max (saturate I64 (saturate I64 (temp_c_x10 self + heat_rise) - cooling)) 200 in
  let self' := {| soc_percent := soc;
                  soc_milli := milli;
                  temp_c_x10 := cast I16 new_temp;
                  voltage_mv := voltage_mv self;
                  current_ma := current;
                  nominal_voltage_mv := nominal_voltage_mv self |} in
  let! v := calc_voltage p self' in
  Ret (with_voltage self' v).

Definition step (p : profile) (self : t) (torque_percent dt_ms : Z) : outcome t :=
  let dt := dt_ms in
  let abs_torque := Z.abs torque_percent in
  let! current := arith p I64 (abs_torque * 500) in
  let! charge := arith p I64 (current * dt) in
  let! charge := arith p I64 (charge * 1000) in
  let soc_drop_milli := Z.quot charge (3600 * 50000) in
  let milli := Z.max (saturate I64 (soc_milli self - soc_drop_milli)) 0 in
  settle p self milli (cast I32 current) (Z.quot current 1000) dt.

Definition step_with_current (p : profile) (self : t) (current dt_ms : Z) : outcome t :=
  let dt := dt_ms in
  let! charge := arith p I64 (current * dt) in
  let! charge := arith p I64 (charge * 1000) in
  let soc_delta_milli := Z.quot charge (3600 * 50000) in
  let! milli := arith p I64 (soc_milli self - soc_delta_milli) in
  let milli := Z.min (Z.max milli 0) 100000 in
  settle p self milli current (Z.quot (Z.abs current) 1000) dt.

Definition current_ma_i16 (self : t) : Z :=
  cast I16 (Z.min (Z.max (current_ma self) (imin I16)) (imax I16)).

(** [(temp_c * 10.0) as i16] for a whole number of degrees, the only kind the fault
    injection passes: below 2^20 the product is exact in [f32], and every value from 3277
    on saturates the cast. *)
Definition force_temperature (self : t) (temp_c : Z) : t := {|
  soc_percent := soc_percent self;
  soc_milli := soc_milli self;
  temp_c_x10 := saturate I16 (temp_c * 10);
  voltage_mv := voltage_mv self;
  current_ma := current_ma self;
  nominal_voltage_mv := nominal_voltage_mv self;
|}.

(** What every battery the plant builds satisfies. *)
Definition wf (self : t) : Prop :=
  0 <= soc_milli self <= 255000 /\ 0 <= soc_percent self <= 255 /\
  fits I16 (temp_c_x10 self) /\ nominal_voltage_mv self = 48000.

End BatteryModel.

Module SensorReadings.

Record t := {
  wheel_speed_kph_x10 : Z;
  pack_voltage_mv : Z;
  pack_current_ma : Z;
  pack_temp_c_x10 : Z;
  soc_percent : Z;
}.

Definition from_plant (vehicle : VehiclePlant.t) (battery : BatteryModel.t) : t := {|
  wheel_speed_kph_x10 := VehiclePlant.speed_kph_x10 vehicle;
  pack_voltage_mv := BatteryModel.voltage_mv battery;
  pack_current_ma := BatteryModel.current_ma_i16 battery;
  pack_temp_c_x10 := BatteryModel.temp_c_x10 battery;
  soc_percent := BatteryModel.soc_percent battery;
|}.

End SensorReadings.

(** [v.to_be_bytes()] of a [u16] or [i16]. *)
Definition to_be_bytes16 (v : Z) : list Z := [cast U8 (Z.shiftr v 8); cast U8 v].

Definition CAN_ID_WHEEL_SPEED : Z := 0x102.
Definition CAN_ID_PLANT_SENSORS : Z := 0x500.
Definition CAN_ID_MOTOR_COMMAND : Z := 0x100.

Module MicrocarPlant.

Record PendingInput := {
  at_time : Z;
  throttle_percent : Z;
  brake_pressed : bool;
}.

Record t := {
  vehicle : VehiclePlant.t;
  battery : BatteryModel.t;
  pending_inputs : list PendingInput;
  input_cursor : nat;
  tick_ms : Z;
  plant_machine_id : Z;
  bus_name : string;
}.

Definition new (tick : Z) : t := {|
  vehicle := VehiclePlant.new;
  battery := BatteryModel.new;
  pending_inputs := [];
  input_cursor := 0;
  tick_ms := tick;
  plant_machine_id := 0;
  bus_name := "vcan0";
|}.

Definition with_machine_id (self : t) (id : Z) : t := {|
  vehicle := vehicle self;
  battery := battery self;
  pending_inputs := pending_inputs self;
  input_cursor := input_cursor self;
  tick_ms := tick_ms self;
  plant_machine_id := id;
  bus_name := bus_name self;
|}.

Definition with_bus (self : t) (name : string) : t := {|
  vehicle := vehicle self;
  battery := battery self;
  pending_inputs := pending_inputs self;
  input_cursor := input_cursor self;
  tick_ms := tick_ms self;
  plant_machine_id := plant_machine_id self;
  bus_name := name;
|}.

(** The [while] loop on the inputs from the cursor on: the vehicle it leaves and how many
    inputs it consumed. *)
Fixpoint apply_due (now : Z) (inputs : list PendingInput) (v : VehiclePlant.t)
    : VehiclePlant.t * nat :=
  match inputs with
  | [] => (v, O)
  | i :: inputs =>
      if at_time i <=? now then
        let v := VehiclePlant.set_driver_input v (throttle_percent i) (brake_pressed i) in
        let v := VehiclePlant.set_motor_torque v (cast I8 (throttle_percent i)) in
        let '(v, n) := apply_due now inputs v in (v, S n)
      else (v, O)
  end.

Definition queue_driver_input (self : t) (at_ throttle : Z) (brake : bool) : t := {|
  vehicle := vehicle self;
  battery := battery self;
  pending_inputs :=
    sort_by_key at_time (pending_inputs self ++
      [{| at_time := at_; throttle_percent := throttle; brake_pressed := brake |}]);
  input_cursor := input_cursor self;
  tick_ms := tick_ms self;
  plant_machine_id := plant_machine_id self;
  bus_name := bus_name self;
|}.

Definition with_battery (self : t) (b : BatteryModel.t) : t := {|
  vehicle := vehicle self;
  battery := b;
  pending_inputs := pending_inputs self;
  input_cursor := input_cursor self;
  tick_ms := tick_ms self;
  plant_machine_id := plant_machine_id self;
  bus_name := bus_name self;
|}.

Definition apply_fault (self : t) (target fault_type : string) (value : option Z) : t * bool :=
  if String.eqb target "battery" && String.eqb fault_type "force_temperature" then
    match value with
    | Some temp_c => (with_battery self (BatteryModel.force_temperature (battery self) temp_c), true)
    | None => (self, false)
    end
  else (self, false).

Section World.
Context {World : Type}.
Context (inject_can_frame : World -> string -> Z -> Z -> list Z -> Z -> World).

Definition sensor_payload (r : SensorReadings.t) : list Z :=
  [SensorReadings.soc_percent r] ++ to_be_bytes16 (SensorReadings.pack_voltage_mv r) ++
  to_be_bytes16 (SensorReadings.pack_temp_c_x10 r) ++ to_be_bytes16 (SensorReadings.pack_current_ma r).

Definition do_step (p : profile) (self : t) (now : Z) (world : World) : outcome (t * World) :=
  let '(v, consumed) := apply_due now (drop (input_cursor self) (pending_inputs self)) (vehicle self) in
  let! v := VehiclePlant.step p v (tick_ms self) in
  let! b := BatteryModel.step p (battery self) (VehiclePlant.motor_torque_percent v) (tick_ms self) in
  let readings := SensorReadings.from_plant v b in
  let speed_data := to_be_bytes16 (SensorReadings.wheel_speed_kph_x10 readings) in
  let world :=
    inject_can_frame world (bus_name self) (plant_machine_id self) CAN_ID_WHEEL_SPEED speed_data now in
  let world :=
    inject_can_frame world (bus_name self) (plant_machine_id self) CAN_ID_PLANT_SENSORS
      (sensor_payload readings) now in
  Ret ({| vehicle := v;
          battery := b;
          pending_inputs := pending_inputs self;
          input_cursor := input_cursor self + consumed;
          tick_ms := tick_ms self;
          plant_machine_id := plant_machine_id self;
          bus_name := bus_name self |}, world).

(** [EnvironmentModel::step] *)
Definition step (p : profile) (self : t) (now : Z) (world : World) : outcome (t * World) :=
  do_step p self now world.

(** The simulator's calls at the times [nows]. *)
Definition run (p : profile) (self : t) (world : World) (nows : list Z) : outcome (t * World) :=
  ofold (fun '(self, world) now => step p self now world) (self, world) nows.

End World.

End MicrocarPlant.

(** ** Vehicle dynamics *)

(** A product of bounded factors stays in a range that lia can close. *)
Lemma mul_bounds a b la ua ub :
  la <= a <= ua -> 0 <= b <= ub -> la <= 0 -> 0 <= ua -> la * ub <= a * b <= ua * ub.
Proof. nia. Qed.

Definition drag_at (speed dt : Z) : Z := speed * dt / 10000.

Definition effective_torque (v : VehiclePlant.t) : Z :=
  if VehiclePlant.brake_pressed v then 0 else VehiclePlant.motor_torque_percent v.

Lemma quot_bounds a n lo hi :
  0 < n -> lo <= 0 <= hi -> lo * n <= a <= hi * n -> lo <= Z.quot a n <= hi.
Proof.
  intros Hn H0 Ha. destruct (Z.le_ge_cases 0 a) as [Hp|Hp].
  - rewrite Z.quot_div_nonneg by lia. split; [pose proof (Z.div_pos a n); lia|].
    apply Z.div_le_upper_bound; lia.
  - rewrite <- (Z.opp_involutive a), Z.quot_opp_l by lia. rewrite Z.quot_div_nonneg by lia.
    pose proof (Z.div_pos (- a) n ltac:(lia) ltac:(lia)).
    pose proof (Z.div_le_upper_bound (- a) n (- lo) Hn ltac:(lia)). lia.
Qed.

(** The speed after a tick of at most ten seconds. *)
Definition next_speed (v : VehiclePlant.t) (dt : Z) : Z :=
  Z.max 0 (VehiclePlant.speed_kph_x10 v + Z.quot (effective_torque v * dt) 100
           - drag_at (VehiclePlant.speed_kph_x10 v) dt).

Lemma drag_bounds speed dt :
  0 <= speed -> 0 <= dt <= 10000 -> 0 <= drag_at speed dt <= speed.
Proof.
  intros Hs Hd. unfold drag_at. split; [apply Z.div_pos; nia|].
  apply Z.div_le_upper_bound; nia.
Qed.

Lemma vehicle_step_speed p v dt :
  VehiclePlant.wf v -> 0 <= dt <= 10000 ->
  VehiclePlant.step p v dt = Ret (VehiclePlant.with_speed v (cast U16 (next_speed v dt))).
Proof.
  intros [Hs Ht] Hd.
  assert (-128 <= effective_torque v <= 127) as He.
  { unfold effective_torque. case_match; int_lia. }
  pose proof (mul_bounds _ _ _ _ _ He Hd ltac:(lia) ltac:(lia)) as Hm.
  assert (0 <= VehiclePlant.speed_kph_x10 v <= 65535) as Hs' by int_lia.
  pose proof (mul_bounds _ _ 0 65535 10000 Hs' Hd ltac:(lia) ltac:(lia)) as Hm'.
  pose proof (quot_bounds (effective_torque v * dt) 100 (-12800) 12700 ltac:(lia) ltac:(lia) ltac:(lia)).
  pose proof (drag_bounds (VehiclePlant.speed_kph_x10 v) dt ltac:(lia) Hd) as Hdr.
  unfold VehiclePlant.step. rewrite cast_id by int_lia. fold (effective_torque v).
  rewrite arith_Ret by int_lia. simpl. rewrite arith_Ret by int_lia. simpl.
  rewrite (Z.quot_div_nonneg (VehiclePlant.speed_kph_x10 v * dt)) by lia.
  fold (drag_at (VehiclePlant.speed_kph_x10 v) dt).
  do 3 f_equal. unfold next_speed. int_unfold. lia.
Qed.

(** The top speed 1280.0 km/h (torque 127 against the drag) is never exceeded. *)
Lemma next_speed_bounded v dt :
  0 <= VehiclePlant.speed_kph_x10 v <= 12800 -> fits I8 (VehiclePlant.motor_torque_percent v) ->
  0 <= dt <= 10000 -> 0 <= next_speed v dt <= 12800.
Proof.
  intros Hs Ht Hd. unfold next_speed. split; [lia|]. apply Z.max_lub; [lia|].
  assert (Z.quot (effective_torque v * dt) 100 <= 12800 * dt / 10000) as H1.
  { unfold effective_torque. destruct (VehiclePlant.brake_pressed v).
    - simpl. rewrite Z.quot_0_l by lia. apply Z.div_pos; lia.
    - transitivity (Z.quot (128 * dt) 100).
      + apply Z.quot_le_mono; [lia|]. int_unfold. nia.
      + rewrite Z.quot_div_nonneg by lia. replace (12800 * dt) with (128 * dt * 100) by lia.
        change 10000 with (100 * 100). by rewrite Z.div_mul_cancel_r by lia. }
  set (s := VehiclePlant.speed_kph_x10 v) in *.
  assert (12800 * dt / 10000 <= drag_at s dt + (12800 - s)) as H2; [|lia].
  unfold drag_at. rewrite <- Z.div_add by lia. apply Z.div_le_mono; nia.
Qed.

(** C35: One plant tick, for any tick of at most ten seconds and under both profiles: no
    overflow; the new speed is the old one plus the torque's share (zero under the brake)
    minus the drag, floored at standstill and never wrapped while the speed is at most
    1280.0 km/h, a bound the tick keeps; under the brake the speed never rises, but only a
    speed with [speed * dt >= 10000] falls. *)
Theorem vehicle_step_dynamics p v dt :
  VehiclePlant.wf v -> VehiclePlant.speed_kph_x10 v <= 12800 -> 0 <= dt <= 10000 ->
  exists v', VehiclePlant.step p v dt = Ret v' /\
    VehiclePlant.speed_kph_x10 v' =
      Z.max 0 (VehiclePlant.speed_kph_x10 v
               + Z.quot ((if VehiclePlant.brake_pressed v then 0
                          else VehiclePlant.motor_torque_percent v) * dt) 100
               - VehiclePlant.speed_kph_x10 v * dt / 10000) /\
    VehiclePlant.wf v' /\ VehiclePlant.speed_kph_x10 v' <= 12800 /\
    VehiclePlant.motor_torque_percent v' = VehiclePlant.motor_torque_percent v /\
    VehiclePlant.brake_pressed v' = VehiclePlant.brake_pressed v /\
    (VehiclePlant.brake_pressed v = true ->
       VehiclePlant.speed_kph_x10 v' <= VehiclePlant.speed_kph_x10 v /\
       (VehiclePlant.speed_kph_x10 v' < VehiclePlant.speed_kph_x10 v <->
        10000 <= VehiclePlant.speed_kph_x10 v * dt)).
Proof.
  intros Hwf Hle Hd. pose proof Hwf as [Hs Ht].
  assert (0 <= VehiclePlant.speed_kph_x10 v <= 12800) as Hs' by int_lia.
  pose proof (next_speed_bounded v dt Hs' Ht Hd) as Hb.
  rewrite vehicle_step_speed by done. rewrite cast_id by int_lia.
  eexists; split; [done|]. simpl. split_and!; try done; try lia.
  - split; simpl; [int_lia|done].
  - intros Hbr. unfold next_speed, effective_torque in *. rewrite Hbr in *. clear Hb.
    pose proof (drag_bounds _ _ (proj1 Hs') Hd) as Hdr.
    rewrite Z.mul_0_l, Z.quot_0_l by lia. split; [lia|]. unfold drag_at in *.
    pose proof (Z.div_str_pos (VehiclePlant.speed_kph_x10 v * dt) 10000).
    pose proof (Z.div_small (VehiclePlant.speed_kph_x10 v * dt) 10000). lia.
Qed.

Lemma vehicle_step_dynamics_witness :
  let v := VehiclePlant.set_motor_torque
             (VehiclePlant.set_driver_input (VehiclePlant.with_speed VehiclePlant.new 5000) 50 false) 50 in
  VehiclePlant.wf v /\ exists v', VehiclePlant.step Debug v 10 = Ret v' /\
                                  VehiclePlant.speed_kph_x10 v' = 5000.
Proof.
  intros v. assert (H : VehiclePlant.wf v) by (unfold VehiclePlant.wf, fits; vm_compute; repeat split; congruence).
  split; [exact H|].
  destruct (vehicle_step_dynamics Debug v 10 H ltac:(vm_compute; congruence) ltac:(lia))
    as (v' & Hv & Hs & _).
  exists v'. split; [exact Hv|]. rewrite Hs. reflexivity.
Defined.

(** ** The battery *)

Definition soc_of (milli : Z) : Z := Z.min ((milli + 500) / 1000) 100.

Definition next_temp (temp amps dt : Z) : Z :=
  Z.max 200 (temp + amps * amps * dt / 25000 - Z.max 0 (temp - 250) * dt / 100000).

Definition pack_voltage (soc current : Z) : Z := Z.max 0 (480 * soc - Z.abs current / 10).

(** The battery a step leaves, in closed form. *)
Definition settled (b : BatteryModel.t) (milli current amps dt : Z) : BatteryModel.t := {|
  BatteryModel.soc_percent := soc_of milli;
  BatteryModel.soc_milli := milli;
  BatteryModel.temp_c_x10 := cast I16 (next_temp (BatteryModel.temp_c_x10 b) amps dt);
  BatteryModel.voltage_mv := pack_voltage (soc_of milli) current;
  BatteryModel.current_ma := current;
  BatteryModel.nominal_voltage_mv := 48000;
|}.

Lemma soc_of_bounds milli : 0 <= milli -> 0 <= soc_of milli <= 100.
Proof. intros H. unfold soc_of. pose proof (Z.div_pos (milli + 500) 1000). lia. Qed.

Lemma soc_of_mono m1 m2 : m1 <= m2 -> soc_of m1 <= soc_of m2.
Proof. intros H. unfold soc_of. pose proof (Z.div_le_mono (m1 + 500) (m2 + 500) 1000). lia. Qed.

Lemma settle_eq p b milli current amps dt :
  BatteryModel.wf b -> 0 <= milli <= 255000 -> fits I32 current -> 0 <= dt < 2 ^ 32 ->
  0 <= amps -> amps * amps <= 2 ^ 60 -> amps * amps * dt <= 2 ^ 60 ->
  BatteryModel.settle p b milli current amps dt = Ret (settled b milli current amps dt).
Proof.
  intros (_ & _ & Ht & Hn) Hm Hc Hd Ha Ha2 Ha3.
  assert (0 <= amps * amps * dt) as Hh by (apply Z.mul_nonneg_nonneg; nia).
  pose proof (soc_of_bounds milli ltac:(lia)) as Hsoc.
  assert (-32768 <= BatteryModel.temp_c_x10 b <= 32767) as Ht' by int_lia.
  assert (0 <= Z.max 0 (BatteryModel.temp_c_x10 b - 250) * dt <= 32767 * 2 ^ 32) as Hcool
    by (split; [apply Z.mul_nonneg_nonneg; lia|apply Z.mul_le_mono_nonneg; lia]).
  pose proof (quot_bounds (amps * amps * dt) 25000 0 (2 ^ 60) ltac:(lia) ltac:(lia) ltac:(lia)).
  pose proof (quot_bounds (Z.max 0 (BatteryModel.temp_c_x10 b - 250) * dt) 100000 0 (2 ^ 50)
                ltac:(lia) ltac:(lia) ltac:(lia)).
  unfold BatteryModel.settle.
  rewrite arith_Ret by int_lia. simpl. rewrite arith_Ret by (int_unfold; nia). simpl.
  rewrite arith_Ret by int_lia. simpl.
  rewrite (Z.max_comm (BatteryModel.temp_c_x10 b - 250) 0).
  rewrite arith_Ret by int_lia. simpl.
  unfold BatteryModel.calc_voltage; simpl.
  rewrite (Z.quot_div_nonneg (milli + 500)) by lia. fold (soc_of milli).
  rewrite (cast_id U8) by int_lia. rewrite Hn. rewrite arith_Ret by int_lia. simpl.
  unfold BatteryModel.with_voltage, settled; simpl. do 2 f_equal.
  - f_equal. unfold next_temp. rewrite <- !Z.quot_div_nonneg by lia. int_unfold. lia.
  - unfold pack_voltage. replace (48000 * soc_of milli) with (480 * soc_of milli * 100) by lia.
    rewrite Z.div_mul by lia.
    pose proof (Z.div_pos (Z.abs current) 10 ltac:(lia) ltac:(lia)).
    assert (Z.abs current / 10 <= 2 ^ 31) by (apply Z.div_le_upper_bound; int_lia).
    replace (saturate U32 _) with (Z.max 0 (480 * soc_of milli - Z.abs current / 10)) by int_lia.
    apply cast_id. int_lia.
Qed.

(** The milli-percent a torque draws in [dt] milliseconds. *)
Definition soc_drop (torque dt : Z) : Z := Z.abs torque * 500 * dt * 1000 / 180000000.

Lemma soc_drop_bounds torque dt :
  fits I8 torque -> 0 <= dt < 2 ^ 32 -> 0 <= soc_drop torque dt <= 2 ^ 60.
Proof.
  intros Ht Hd. unfold soc_drop.
  assert (0 <= Z.abs torque * 500 * dt <= 64000 * 2 ^ 32).
  { split; [apply Z.mul_nonneg_nonneg; lia|apply Z.mul_le_mono_nonneg; int_lia]. }
  split; [apply Z.div_pos; lia|]. apply Z.div_le_upper_bound; lia.
Qed.

Lemma battery_step_eq p b torque dt :
  BatteryModel.wf b -> fits I8 torque -> 0 <= dt < 2 ^ 32 ->
  BatteryModel.step p b torque dt =
  Ret (settled b (Z.max (BatteryModel.soc_milli b - soc_drop torque dt) 0)
         (Z.abs torque * 500) (Z.abs torque * 500 / 1000) dt).
Proof.
  intros Hwf Ht Hd. pose proof Hwf as (Hm & _).
  assert (0 <= Z.abs torque <= 128) as Habs by int_lia.
  assert (0 <= Z.abs torque * 500 * dt <= 64000 * 2 ^ 32) as Hcharge.
  { split; [apply Z.mul_nonneg_nonneg; lia|apply Z.mul_le_mono_nonneg; lia]. }
  pose proof (soc_drop_bounds torque dt Ht Hd).
  unfold BatteryModel.step. rewrite !arith_Ret by int_lia. simpl.
  rewrite !arith_Ret by int_lia. simpl. rewrite !arith_Ret by int_lia. simpl.
  change (3600 * 50000) with 180000000.
  rewrite (Z.quot_div_nonneg _ 180000000) by lia. fold (soc_drop torque dt).
  rewrite saturate_id by int_lia. rewrite cast_id by int_lia.
  rewrite Z.quot_div_nonneg by lia.
  assert (0 <= Z.abs torque * 500 / 1000 <= 64) as Hamps
    by (split; [apply Z.div_pos; lia|apply Z.div_le_upper_bound; lia]).
  apply settle_eq; try done; try lia; try int_lia; nia.
Qed.

Definition current_delta (current dt : Z) : Z := Z.quot (current * dt * 1000) 180000000.

Lemma battery_step_with_current_eq p b current dt :
  BatteryModel.wf b -> fits I32 current -> 0 <= dt < 2 ^ 32 ->
  Z.abs current * dt <= 2 ^ 50 -> (Z.abs current / 1000) * (Z.abs current / 1000) * dt <= 2 ^ 60 ->
  BatteryModel.step_with_current p b current dt =
  Ret (settled b (Z.min (Z.max (BatteryModel.soc_milli b - current_delta current dt) 0) 100000)
         current (Z.abs current / 1000) dt).
Proof.
  intros Hwf Hc Hd Hcd Hh. pose proof Hwf as (Hm & _).
  assert (- 2 ^ 50 <= current * dt <= 2 ^ 50) as Hcharge.
  { pose proof (Z.abs_mul current dt). rewrite (Z.abs_eq dt) in * by lia. lia. }
  pose proof (quot_bounds (current * dt * 1000) 180000000 (- 2 ^ 50) (2 ^ 50)
                ltac:(lia) ltac:(lia) ltac:(lia)) as Hdel.
  unfold BatteryModel.step_with_current. rewrite arith_Ret by int_lia. simpl.
  rewrite arith_Ret by int_lia. simpl. change (3600 * 50000) with 180000000.
  fold (current_delta current dt). unfold current_delta in Hdel.
  rewrite arith_Ret by (unfold current_delta; int_lia). simpl.
  rewrite Z.quot_div_nonneg by lia.
  assert (0 <= Z.abs current / 1000 <= 2147484) as Hamps
    by (split; [apply Z.div_pos; lia|apply Z.div_le_upper_bound; int_lia]).
  apply settle_eq; try done; try lia; nia.
Qed.

Lemma next_temp_no_wrap temp torque dt :
  fits I16 temp -> fits I8 torque -> 0 <= dt <= 10000 ->
  200 <= next_temp temp (Z.abs torque * 500 / 1000) dt <= 32767.
Proof.
  intros Ht Htq Hd. unfold next_temp. split; [lia|]. apply Z.max_lub; [lia|].
  set (a := Z.abs torque * 500 / 1000).
  assert (0 <= a <= 64) as Ha.
  { subst a. split; [apply Z.div_pos; lia|apply Z.div_le_upper_bound; int_lia]. }
  assert (a * a * dt / 25000 <= 4096 * dt / 25000) as Hheat.
  { apply Z.div_le_mono; [lia|]. apply Z.mul_le_mono_nonneg_r; [lia|]. nia. }
  assert (4096 * dt / 25000 < 1639) as H1 by (apply Z.div_lt_upper_bound; lia).
  assert (0 <= Z.max 0 (temp - 250) * dt / 100000) as H2 by (apply Z.div_pos; nia).
  destruct (Z.le_gt_cases temp 30000) as [Hl|Hg]; [lia|].
  assert (4096 * dt / 25000 <= Z.max 0 (temp - 250) * dt / 100000) as H3.
  { replace (4096 * dt / 25000) with (16384 * dt / 100000)
      by (replace (16384 * dt) with (4096 * dt * 4) by lia; change 100000 with (25000 * 4);
          by rewrite Z.div_mul_cancel_r by lia).
    apply Z.div_le_mono; [lia|]. apply Z.mul_le_mono_nonneg_r; lia. }
  int_lia.
Qed.

Lemma settled_wf b milli current amps dt :
  0 <= milli <= 255000 -> BatteryModel.wf (settled b milli current amps dt).
Proof.
  intros Hm. pose proof (soc_of_bounds milli ltac:(lia)).
  unfold BatteryModel.wf, settled; simpl. split_and!; try lia; try done; apply cast_fits.
Qed.

Lemma pack_voltage_fits milli current :
  0 <= milli -> fits U16 (pack_voltage (soc_of milli) current).
Proof.
  intros Hm. unfold pack_voltage. pose proof (soc_of_bounds milli Hm).
  pose proof (Z.div_pos (Z.abs current) 10). int_lia.
Qed.

Lemma soc_drop_simpl torque dt : soc_drop torque dt = Z.abs torque * dt / 360.
Proof.
  unfold soc_drop. replace (Z.abs torque * 500 * dt * 1000) with (Z.abs torque * dt * 500000) by lia.
  change 180000000 with (360 * 500000). by rewrite Z.div_mul_cancel_r by lia.
Qed.

Lemma battery_step_settled p b torque dt :
  BatteryModel.wf b -> fits I8 torque -> 0 <= dt <= 10000 ->
  BatteryModel.step p b torque dt =
  Ret (settled b (Z.max (BatteryModel.soc_milli b - Z.abs torque * dt / 360) 0)
         (Z.abs torque * 500) (Z.abs torque * 500 / 1000) dt) /\
  0 <= Z.abs torque * dt / 360.
Proof.
  intros Hwf Ht Hd. rewrite <- soc_drop_simpl. split; [apply battery_step_eq; done || lia|].
  pose proof (soc_drop_bounds torque dt Ht). lia.
Qed.

(** A battery tick of at most ten seconds never overflows: the charge falls by
    [|torque| * dt / 360] milli-percent and stops at zero, the displayed percentage is the
    charge rounded to the nearest percent and capped at 100, the temperature follows the
    squared current against the passive cooling without leaving its [i16] and never falls
    under 20.0 degrees, the voltage is that of the percentage less the sag, and the battery
    stays well formed.  For a charge of at most 100 percent the tick is
    [step_with_current] at 500 mA per torque percent. *)
Theorem battery_step_discharge p b torque dt :
  BatteryModel.wf b -> fits I8 torque -> 0 <= dt <= 10000 ->
  exists b', BatteryModel.step p b torque dt = Ret b' /\ BatteryModel.wf b' /\
    BatteryModel.soc_milli b' = Z.max 0 (BatteryModel.soc_milli b - Z.abs torque * dt / 360) /\
    BatteryModel.soc_milli b' <= BatteryModel.soc_milli b /\
    BatteryModel.soc_percent b' = Z.min ((BatteryModel.soc_milli b' + 500) / 1000) 100 /\
    BatteryModel.temp_c_x10 b' =
      Z.max 200 (BatteryModel.temp_c_x10 b
                 + (Z.abs torque / 2) * (Z.abs torque / 2) * dt / 25000
                 - Z.max 0 (BatteryModel.temp_c_x10 b - 250) * dt / 100000) /\
    BatteryModel.voltage_mv b' =
      Z.max 0 (480 * BatteryModel.soc_percent b' - Z.abs torque * 50) /\
    (BatteryModel.soc_milli b <= 100000 ->
     BatteryModel.step_with_current p b (Z.abs torque * 500) dt = Ret b').
Proof.
  intros Hwf Ht Hd. destruct (battery_step_settled p b torque dt Hwf Ht Hd) as [-> Hdrop].
  pose proof Hwf as (Hm & _ & Htemp & _).
  assert (0 <= Z.abs torque <= 128) as Ha by int_lia.
  assert (Z.abs torque * 500 / 1000 = Z.abs torque / 2) as Hamps.
  { change 1000 with (2 * 500). by rewrite Z.div_mul_cancel_r by lia. }
  pose proof (next_temp_no_wrap _ torque dt Htemp Ht Hd) as Hnt. rewrite Hamps in *.
  eexists; split; [done|]. split_and!.
  - apply settled_wf. lia.
  - simpl. lia.
  - simpl. lia.
  - done.
  - simpl. rewrite cast_id by int_lia. done.
  - simpl. unfold pack_voltage. rewrite (Z.abs_eq (Z.abs torque * 500)) by lia.
    replace (Z.abs torque * 500) with (Z.abs torque * 50 * 10) by lia. by rewrite Z.div_mul by lia.
  - intros Hle. rewrite battery_step_with_current_eq; try done; try int_lia.
    + rewrite (Z.abs_eq (Z.abs torque * 500)) by lia. rewrite Hamps. do 2 f_equal.
      assert (current_delta (Z.abs torque * 500) dt = Z.abs torque * dt / 360) as ->; [|lia].
      rewrite <- soc_drop_simpl. unfold current_delta, soc_drop. apply Z.quot_div_nonneg; nia.
    + rewrite (Z.abs_eq (Z.abs torque * 500)) by lia. nia.
    + rewrite (Z.abs_eq (Z.abs torque * 500)) by lia. rewrite Hamps.
      assert (0 <= Z.abs torque / 2 <= 64) by (split; [apply Z.div_pos; lia|apply Z.div_le_upper_bound; lia]).
      assert (Z.abs torque / 2 * (Z.abs torque / 2) <= 4096) by nia. nia.
Qed.

Lemma battery_default_wf : BatteryModel.wf BatteryModel.default.
Proof. unfold BatteryModel.wf, fits; vm_compute. repeat split; congruence. Qed.

Lemma battery_step_discharge_witness :
  BatteryModel.wf BatteryModel.default /\
  exists b, BatteryModel.step Debug BatteryModel.default 80 1000 = Ret b /\
            BatteryModel.soc_milli b = 79778.
Proof.
  split; [exact battery_default_wf|].
  destruct (battery_step_discharge Debug BatteryModel.default 80 1000 battery_default_wf)
    as (b & Hb & _ & Hs & _); [vm_compute; split; congruence|lia|].
  exists b. split; [exact Hb|]. rewrite Hs. reflexivity.
Defined.

(** Ticks of ten milliseconds at the given torques. *)
Definition battery_run (p : profile) (b : BatteryModel.t) (torques : list Z) : outcome BatteryModel.t :=
  ofold (fun b torque => BatteryModel.step p b torque 10) b torques.

Fixpoint drained (torques : list Z) : Z :=
  match torques with
  | [] => 0
  | t :: ts => Z.abs t / 36 + drained ts
  end.

Lemma drained_nonneg torques : 0 <= drained torques.
Proof.
  induction torques as [|t ts IH]; [done|]. cbn [drained].
  pose proof (Z.div_pos (Z.abs t) 36 ltac:(lia) ltac:(lia)). lia.
Qed.

Lemma heat_10ms torque :
  fits I8 torque ->
  (Z.abs torque * 500 / 1000) * (Z.abs torque * 500 / 1000) * 10 / 25000 =
  (if 100 <=? Z.abs torque then 1 else 0).
Proof.
  intros Ht. change 1000 with (2 * 500). rewrite Z.div_mul_cancel_r by lia.
  set (h := Z.abs torque / 2).
  assert (2 * h <= Z.abs torque < 2 * h + 2) as Hh.
  { subst h. pose proof (Z.div_mod (Z.abs torque) 2 ltac:(lia)).
    pose proof (Z.mod_pos_bound (Z.abs torque) 2 ltac:(lia)). lia. }
  assert (0 <= h <= 64) by int_lia.
  destruct (Z.leb_spec 100 (Z.abs torque)).
  - assert (50 <= h) by lia. symmetry. apply (Z.div_unique _ _ _ (h * h * 10 - 25000)); nia.
  - assert (h <= 49) by lia. apply Z.div_small. nia.
Qed.

Lemma battery_run_closed p torques b :
  BatteryModel.wf b -> Forall (fits I8) torques ->
  250 <= BatteryModel.temp_c_x10 b ->
  BatteryModel.temp_c_x10 b + Z.of_nat (length torques) <= 10250 ->
  exists b', battery_run p b torques = Ret b' /\ BatteryModel.wf b' /\
    BatteryModel.soc_milli b' = Z.max 0 (BatteryModel.soc_milli b - drained torques) /\
    BatteryModel.temp_c_x10 b' =
      BatteryModel.temp_c_x10 b + countb (fun t => 100 <=? Z.abs t) torques.
Proof.
  unfold battery_run. intros Hwf Hts. revert b Hwf.
  induction Hts as [|t ts Ht Hts IH]; intros b Hwf Hlo Hhi.
  - exists b. pose proof Hwf as (Hm & _). rewrite countb_nil. simpl. split_and!; auto; lia.
  - pose proof Hwf as (Hm & _). cbn [length] in Hhi. pose proof (drained_nonneg ts).
    destruct (battery_step_settled p b t 10 Hwf Ht ltac:(lia)) as [Hs Hdrop].
    cbn [ofold]. rewrite Hs. cbn [obind].
    assert (Z.abs t * 10 / 360 = Z.abs t / 36) as E
      by (change 360 with (36 * 10); by rewrite Z.div_mul_cancel_r by lia).
    rewrite E in *. set (b1 := settled _ _ _ _ _).
    assert (BatteryModel.temp_c_x10 b1 =
            BatteryModel.temp_c_x10 b + (if 100 <=? Z.abs t then 1 else 0)) as Htemp.
    { subst b1. simpl. unfold next_temp. rewrite heat_10ms by done.
      rewrite (Z.div_small (_ * 10)) by lia.
      rewrite cast_id by (int_unfold; case_match; lia). case_match; lia. }
    destruct (IH b1) as (b' & Hb' & Hwf' & Hm' & Ht'); rewrite ?Htemp;
      [apply settled_wf; lia|case_match; lia|case_match; lia|].
    exists b'. rewrite countb_cons. cbn [drained]. split_and!; [done|done| |].
    + rewrite Hm'. subst b1. simpl. lia.
    + rewrite Ht', Htemp. lia.
Qed.

(** At the scenarios' 10 ms tick, over up to 10000 ticks from a new battery, everything
    is linear: each tick at [torque] drains [|torque| / 36] milli-percent, so torques
    under 36 percent never discharge the pack, only torques of at least 100 percent heat
    it, by a tenth of a degree each, and it never cools. *)
Theorem battery_10ms_linear p torques :
  Forall (fits I8) torques -> Z.of_nat (length torques) <= 10000 ->
  exists b, battery_run p BatteryModel.new torques = Ret b /\
    BatteryModel.soc_milli b = Z.max 0 (80000 - drained torques) /\
    BatteryModel.temp_c_x10 b = 250 + countb (fun t => 100 <=? Z.abs t) torques /\
    (Forall (fun t => Z.abs t < 36) torques -> BatteryModel.soc_milli b = 80000).
Proof.
  intros Ht Hl.
  destruct (battery_run_closed p torques BatteryModel.new battery_default_wf Ht)
    as (b & Hb & _ & Hm & Htemp); [simpl; lia|simpl; lia|].
  exists b. split_and!; [done|done|done|]. intros Hlow. rewrite Hm.
  assert (drained torques = 0) as ->; [|done]. clear -Hlow.
  induction Hlow as [|t ts H _ IH]; [done|]. cbn [drained]. rewrite IH, Z.div_small by lia. done.
Qed.

Lemma battery_10ms_linear_witness :
  Forall (fits I8) [100; 35; 80] /\
  exists b, battery_run Debug BatteryModel.new [100; 35; 80] = Ret b /\ BatteryModel.soc_milli b = 79996.
Proof.
  assert (H : Forall (fits I8) [100; 35; 80])
    by (repeat constructor; vm_compute; congruence).
  split; [exact H|].
  destruct (battery_10ms_linear Debug [100; 35; 80] H ltac:(simpl; lia)) as (b & Hb & Hs & _).
  exists b. split; [exact Hb|]. rewrite Hs. reflexivity.
Defined.

(** With an explicit pack current, of any [i32] value and for ticks of at most ten
    seconds, nothing overflows: the charge moves by the signed charge of the tick and is
    clamped to 0..100 percent, so charging never lowers it, discharging never raises it,
    and opposite currents undo each other when no clamp acted.  The temperature is not so
    lucky: ten kiloamperes for one 10 ms tick wrap it to a negative value. *)
Theorem battery_current_roundtrip p b current dt :
  BatteryModel.wf b -> BatteryModel.soc_milli b <= 100000 ->
  fits I32 current -> fits I32 (- current) -> 0 <= dt <= 10000 ->
  (exists b', BatteryModel.step_with_current p b current dt = Ret b' /\ BatteryModel.wf b' /\
    BatteryModel.soc_milli b' =
      Z.min (Z.max (BatteryModel.soc_milli b - Z.quot (current * dt * 1000) 180000000) 0) 100000 /\
    BatteryModel.soc_percent b' <= 100 /\
    (0 <= current -> BatteryModel.soc_milli b' <= BatteryModel.soc_milli b) /\
    (current <= 0 -> BatteryModel.soc_milli b <= BatteryModel.soc_milli b') /\
    exists b'', BatteryModel.step_with_current p b' (- current) dt = Ret b'' /\
      (0 < BatteryModel.soc_milli b' < 100000 ->
       BatteryModel.soc_milli b'' = BatteryModel.soc_milli b)) /\
  (exists b', BatteryModel.step_with_current p BatteryModel.new 10000000 10 = Ret b' /\
     BatteryModel.temp_c_x10 b' = -25286).
Proof.
  intros Hwf Hle Hc Hc' Hd. split; [|eexists; split; [by destruct p|done]].
  pose proof Hwf as (Hm & _).
  assert (forall c, fits I32 c -> Z.abs c * dt <= 2 ^ 50 /\
            Z.abs c / 1000 * (Z.abs c / 1000) * dt <= 2 ^ 60) as Hbound.
  { intros c Hcf. assert (0 <= Z.abs c / 1000 <= 2147484)
      by (split; [apply Z.div_pos; lia|apply Z.div_le_upper_bound; int_lia]).
    assert (Z.abs c / 1000 * (Z.abs c / 1000) <= 2147484 * 2147484) by nia.
    int_unfold. nia. }
  destruct (Hbound _ Hc), (Hbound _ Hc').
  assert (current_delta (- current) dt = - current_delta current dt) as Hopp.
  { unfold current_delta. replace (- current * dt * 1000) with (- (current * dt * 1000)) by lia.
    by rewrite Z.quot_opp_l by lia. }
  assert (0 <= current -> 0 <= current_delta current dt) as Hpos.
  { intros Hsign. unfold current_delta. apply Z.quot_pos; nia. }
  assert (current <= 0 -> current_delta current dt <= 0) as Hneg.
  { intros Hsign. assert (0 <= current_delta (- current) dt); [|lia].
    unfold current_delta. apply Z.quot_pos; nia. }
  rewrite battery_step_with_current_eq by (done || lia).
  eexists; split; [done|].
  assert (BatteryModel.wf (settled b (Z.min (Z.max (BatteryModel.soc_milli b -
            current_delta current dt) 0) 100000) current (Z.abs current / 1000) dt)) as Hwf'
    by (apply settled_wf; lia).
  split_and!; [done|done|apply soc_of_bounds; lia|simpl; lia|simpl; lia|].
  rewrite battery_step_with_current_eq by (done || lia).
  eexists; split; [done|]. simpl. rewrite Hopp. lia.
Qed.

Lemma battery_current_roundtrip_witness :
  BatteryModel.wf BatteryModel.new /\
  exists b, BatteryModel.step_with_current Debug BatteryModel.new (-32000) 1000 = Ret b /\
            BatteryModel.soc_milli b = 80177.
Proof.
  split; [exact battery_default_wf|].
  destruct (battery_current_roundtrip Debug BatteryModel.new (-32000) 1000 battery_default_wf)
    as [(b & Hb & _ & Hs & _) _];
    [vm_compute; congruence|vm_compute; split; congruence|vm_compute; split; congruence|lia|].
  exists b. split; [exact Hb|]. rewrite Hs. reflexivity.
Defined.

(** ** The driver's inputs *)

Notation input := MicrocarPlant.PendingInput.

Definition due (now : Z) (i : input) : bool := MicrocarPlant.at_time i <=? now.
Definition due_inputs (now : Z) (l : list input) : list input := List.filter (due now) l.

Notation by_time := (by_key MicrocarPlant.at_time).

(** The vehicle with the driver's last input applied. *)
Definition apply_input (o : option input) (v : VehiclePlant.t) : VehiclePlant.t :=
  match o with
  | Some i => VehiclePlant.set_motor_torque
                (VehiclePlant.set_driver_input v (MicrocarPlant.throttle_percent i)
                   (MicrocarPlant.brake_pressed i))
                (cast I8 (MicrocarPlant.throttle_percent i))
  | None => v
  end.

Lemma due_none now l :
  Forall (fun i => now < MicrocarPlant.at_time i) l -> due_inputs now l = [].
Proof.
  induction 1 as [|i l Hi _ IH]; [done|]. unfold due_inputs, due in *. simpl.
  by rewrite (proj2 (Z.leb_gt _ _)) by lia.
Qed.

Lemma apply_input_twice o i v :
  apply_input o (apply_input (Some i) v) = apply_input (Some (default i o)) v.
Proof. by destruct o. Qed.

Lemma last_default {A : Type} (x : A) l : last (x :: l) = Some (default x (last l)).
Proof. rewrite last_cons. by destruct (last l). Qed.

Lemma apply_due_spec now l v :
  StronglySorted by_time l ->
  MicrocarPlant.apply_due now l v =
  (apply_input (last (due_inputs now l)) v, length (due_inputs now l)).
Proof.
  intros Hl. revert v. induction Hl as [|i l Hl IH Hi]; intros v; [done|].
  cbn [MicrocarPlant.apply_due]. destruct (MicrocarPlant.at_time i <=? now) eqn:E.
  - assert (due_inputs now (i :: l) = i :: due_inputs now l) as ->
      by (unfold due_inputs, due; simpl; by rewrite E).
    rewrite IH. rewrite last_default. cbn [length]. f_equal.
    by rewrite <- (apply_input_twice (last (due_inputs now l)) i v).
  - bool_prop. rewrite due_none; [done|]. constructor; [lia|].
    eapply Forall_impl; [exact Hi|]. unfold by_key. intros; lia.
Qed.

Lemma due_prefix now l :
  StronglySorted by_time l ->
  drop (length (due_inputs now l)) l = List.filter (fun i => negb (due now i)) l /\
  l = due_inputs now l ++ List.filter (fun i => negb (due now i)) l.
Proof.
  induction 1 as [|i l Hl [IH1 IH2] Hi]; [done|].
  unfold due_inputs, due in *. simpl. destruct (MicrocarPlant.at_time i <=? now) eqn:E; simpl.
  - split; [done|]. by f_equal.
  - bool_prop.
    assert (Forall (fun j => now < MicrocarPlant.at_time j) l) as Hg.
    { eapply Forall_impl; [exact Hi|]. unfold by_key. intros; lia. }
    pose proof (due_none now l Hg) as Hn. unfold due_inputs, due in Hn. rewrite Hn in *.
    simpl in *. rewrite <- IH2. done.
Qed.

Lemma due_later now now' l :
  StronglySorted by_time l -> now <= now' ->
  due_inputs now' l =
  due_inputs now l ++ due_inputs now' (List.filter (fun i => negb (due now i)) l).
Proof.
  intros Hl Hn. rewrite (proj2 (due_prefix now l Hl)) at 1.
  unfold due_inputs at 1. rewrite List.filter_app. f_equal.
  unfold due_inputs, due. induction l as [|i l IH]; [done|].
  inversion Hl; subst. simpl. case_match eqn:E; [|by auto]. simpl.
  bool_prop. rewrite (proj2 (Z.leb_le _ _)) by lia. f_equal. by auto.
Qed.

Lemma sorted_filter {A : Type} (R : A -> A -> Prop) f l :
  StronglySorted R l -> StronglySorted R (List.filter f l).
Proof.
  induction 1 as [|x l Hl IH Hx]; simpl; [constructor|]. case_match; [|done].
  constructor; [done|]. apply Forall_forall. intros y Hy. apply list_elem_of_In, filter_In in Hy as [Hy _].
  eapply Forall_forall; [exact Hx|]. by apply list_elem_of_In.
Qed.

Lemma sorted_drop {A : Type} (R : A -> A -> Prop) n l :
  StronglySorted R l -> StronglySorted R (drop n l).
Proof.
  intros Hl. revert n. induction Hl as [|x l Hl IH Hx]; intros [|n]; simpl; try constructor; auto.
Qed.

(** ** The plant as a whole *)

Definition vehicle_ok (v : VehiclePlant.t) : Prop :=
  VehiclePlant.wf v /\ VehiclePlant.speed_kph_x10 v <= 12800.

Record plant_inv (s : MicrocarPlant.t) : Prop := {
  pi_vehicle : vehicle_ok (MicrocarPlant.vehicle s);
  pi_battery : BatteryModel.wf (MicrocarPlant.battery s);
  pi_tick : 0 <= MicrocarPlant.tick_ms s <= 10000;
  pi_sorted : StronglySorted by_time (MicrocarPlant.pending_inputs s);
}.

(** What a receiver reads from two big-endian bytes. *)
Definition be_u16 (hi lo : Z) : Z := 256 * hi + lo.
Definition be_i16 (hi lo : Z) : Z := cast I16 (be_u16 hi lo).

Lemma be_u16_to_be_bytes v :
  match to_be_bytes16 v with [hi; lo] => be_u16 hi lo = v mod 65536 | _ => False end.
Proof.
  unfold to_be_bytes16, be_u16. rewrite !cast_unsigned by done. change (modulus U8) with 256.
  rewrite Z.shiftr_div_pow2 by lia. change (2 ^ 8) with 256. change 65536 with (256 * 256).
  rewrite (Z.rem_mul_r v 256 256) by lia. lia.
Qed.

Lemma be_i16_to_be_bytes v :
  fits I16 v -> match to_be_bytes16 v with [hi; lo] => be_i16 hi lo = v | _ => False end.
Proof.
  intros Hv. pose proof (be_u16_to_be_bytes v) as H. unfold to_be_bytes16 in *.
  unfold be_i16. rewrite H. rewrite <- (cast_id I16 v) at 2 by done.
  unfold cast. change (modulus I16) with 65536. by rewrite Z.mod_mod by lia.
Qed.

Lemma apply_input_ok o v : vehicle_ok v -> vehicle_ok (apply_input o v).
Proof.
  intros [[Hs Ht] Hl]. destruct o as [i|]; [|done].
  split; [split; [done|apply cast_fits]|done].
Qed.

Section Frames.
Context {World : Type}.
Context (inject : World -> string -> Z -> Z -> list Z -> Z -> World).

(** The two frames a step publishes. *)
Definition publish (s s' : MicrocarPlant.t) (now : Z) (w : World) : World :=
  let r := SensorReadings.from_plant (MicrocarPlant.vehicle s') (MicrocarPlant.battery s') in
  inject
    (inject w (MicrocarPlant.bus_name s) (MicrocarPlant.plant_machine_id s) CAN_ID_WHEEL_SPEED
       (to_be_bytes16 (SensorReadings.wheel_speed_kph_x10 r)) now)
    (MicrocarPlant.bus_name s) (MicrocarPlant.plant_machine_id s) CAN_ID_PLANT_SENSORS
    (MicrocarPlant.sensor_payload r) now.

Lemma plant_step_eq p s now w :
  plant_inv s ->
  let inputs := due_inputs now (drop (MicrocarPlant.input_cursor s) (MicrocarPlant.pending_inputs s)) in
  exists s',
    MicrocarPlant.step inject p s now w = Ret (s', publish s s' now w) /\
    plant_inv s' /\
    MicrocarPlant.pending_inputs s' = MicrocarPlant.pending_inputs s /\
    MicrocarPlant.input_cursor s' = (MicrocarPlant.input_cursor s + length inputs)%nat /\
    MicrocarPlant.tick_ms s' = MicrocarPlant.tick_ms s /\
    VehiclePlant.with_speed (MicrocarPlant.vehicle s') 0 =
      VehiclePlant.with_speed (apply_input (last inputs) (MicrocarPlant.vehicle s)) 0 /\
    fits U16 (BatteryModel.voltage_mv (MicrocarPlant.battery s')).
Proof.
  intros [Hv Hb Ht Hs] inputs. subst inputs.
  unfold MicrocarPlant.step, MicrocarPlant.do_step.
  rewrite apply_due_spec by (by apply sorted_drop).
  set (inputs := due_inputs _ _). set (v := apply_input (last inputs) (MicrocarPlant.vehicle s)).
  assert (vehicle_ok v) as [Hwf Hle] by (by apply apply_input_ok).
  rewrite vehicle_step_speed by done. cbn [obind].
  pose proof Hwf as [Hsp Htq].
  pose proof (next_speed_bounded v (MicrocarPlant.tick_ms s) ltac:(int_lia) Htq Ht) as Hnext.
  cbn [VehiclePlant.motor_torque_percent VehiclePlant.with_speed].
  destruct (battery_step_settled p _ _ _ Hb Htq Ht) as [-> Hdrop]. cbn [obind].
  pose proof Hb as (Hm & _).
  match goal with |- exists s', Ret (?x, _) = _ /\ _ => exists x end.
  split; [reflexivity|]. split_and!; try reflexivity; [|apply pack_voltage_fits; lia].
  split; [|apply settled_wf; lia|exact Ht|exact Hs].
  split; [split; [apply cast_fits|exact Htq]|].
  cbn [VehiclePlant.speed_kph_x10 VehiclePlant.with_speed MicrocarPlant.vehicle].
  rewrite cast_id by int_lia. lia.
Qed.

(** C34: One plant tick from a well-formed plant never panics under either profile, keeps the
    plant well formed and publishes exactly two frames, the wheel speed and then the
    sensors, on the plant's bus under its machine id and at the current time; a receiver
    that decodes the big-endian payloads gets back the speed, the state of charge, the
    voltage, the temperature and the current clamped to [i16] of the new state. *)
Theorem plant_step_publishes p s now w :
  plant_inv s ->
  exists s' hi lo vh vl th tl ch cl,
    MicrocarPlant.step inject p s now w =
      Ret (s', inject
                 (inject w (MicrocarPlant.bus_name s) (MicrocarPlant.plant_machine_id s)
                    CAN_ID_WHEEL_SPEED [hi; lo] now)
                 (MicrocarPlant.bus_name s) (MicrocarPlant.plant_machine_id s)
                 CAN_ID_PLANT_SENSORS
                 [BatteryModel.soc_percent (MicrocarPlant.battery s'); vh; vl; th; tl; ch; cl] now) /\
    plant_inv s' /\
    be_u16 hi lo = VehiclePlant.speed_kph_x10 (MicrocarPlant.vehicle s') /\
    be_u16 vh vl = BatteryModel.voltage_mv (MicrocarPlant.battery s') /\
    be_i16 th tl = BatteryModel.temp_c_x10 (MicrocarPlant.battery s') /\
    be_i16 ch cl = Z.max (-32768) (Z.min (BatteryModel.current_ma (MicrocarPlant.battery s')) 32767).
Proof.
  intros Hi. destruct (plant_step_eq p s now w Hi) as (s' & Hs & Hi' & _ & _ & _ & _ & Hvolt).
  pose proof Hi' as [[[Hsp _] Hle] (_ & _ & Htemp & _) _ _].
  pose proof (be_u16_to_be_bytes (VehiclePlant.speed_kph_x10 (MicrocarPlant.vehicle s'))) as H1.
  pose proof (be_u16_to_be_bytes (BatteryModel.voltage_mv (MicrocarPlant.battery s'))) as H2.
  pose proof (be_i16_to_be_bytes _ Htemp) as H3.
  pose proof (be_i16_to_be_bytes (BatteryModel.current_ma_i16 (MicrocarPlant.battery s'))
                (cast_fits _ _)) as H4.
  set (sp := VehiclePlant.speed_kph_x10 _) in *. set (vo := BatteryModel.voltage_mv _) in *.
  set (te := BatteryModel.temp_c_x10 _) in *. set (cu := BatteryModel.current_ma_i16 _) in *.
  unfold to_be_bytes16 in *.
  exists s', (cast U8 (Z.shiftr sp 8)), (cast U8 sp), (cast U8 (Z.shiftr vo 8)), (cast U8 vo),
    (cast U8 (Z.shiftr te 8)), (cast U8 te), (cast U8 (Z.shiftr cu 8)), (cast U8 cu).
  split; [exact Hs|]. rewrite H1, H2, H3, H4. split_and!; try reflexivity; try exact Hi'.
  - apply Z.mod_small. int_lia.
  - apply Z.mod_small. int_lia.
  - subst cu. unfold BatteryModel.current_ma_i16. rewrite cast_id by int_lia. int_lia.
Qed.

(** The driver input in force: that of the last due input. *)
Definition driver_of (o : option input) : Z * bool * Z :=
  match o with
  | Some i => (MicrocarPlant.throttle_percent i, MicrocarPlant.brake_pressed i,
               cast I8 (MicrocarPlant.throttle_percent i))
  | None => (0, false, 0)
  end.

Definition driver (v : VehiclePlant.t) : Z * bool * Z :=
  (VehiclePlant.throttle_percent v, VehiclePlant.brake_pressed v, VehiclePlant.motor_torque_percent v).

(** The state between two ticks, [L] being the whole queue and [now] the last tick. *)
Definition caught_up (L : list input) (now : Z) (s : MicrocarPlant.t) : Prop :=
  plant_inv s /\ MicrocarPlant.pending_inputs s = L /\
  MicrocarPlant.input_cursor s = length (due_inputs now L) /\
  driver (MicrocarPlant.vehicle s) = driver_of (last (due_inputs now L)).

Lemma driver_with_speed v v' :
  VehiclePlant.with_speed v 0 = VehiclePlant.with_speed v' 0 -> driver v = driver v'.
Proof. destruct v, v'. unfold driver. simpl. intros [= -> -> -> ->]. done. Qed.

Lemma plant_step_caught_up p L s prev now w :
  StronglySorted by_time L -> caught_up L prev s -> prev <= now ->
  exists s', MicrocarPlant.step inject p s now w = Ret (s', publish s s' now w) /\ caught_up L now s'.
Proof.
  intros HL (Hi & Hp & Hc & Hd) Hn.
  destruct (plant_step_eq p s now w Hi) as (s' & Hs & Hi' & Hp' & Hc' & _ & Hv & _).
  exists s'. split; [done|].
  rewrite Hp, Hc in Hv, Hc'. rewrite (proj1 (due_prefix prev L HL)) in Hv, Hc'.
  split_and!; [done|congruence| |].
  - rewrite Hc', (due_later prev now L HL Hn), length_app. done.
  - rewrite (driver_with_speed _ _ Hv). rewrite (due_later prev now L HL Hn), last_app.
    destruct (last (due_inputs now _)); [done|]. exact Hd.
Qed.

(** An input queued for later than the last tick changes nothing that was due. *)
Lemma due_insert now x l :
  now < MicrocarPlant.at_time x -> due_inputs now (insert_by MicrocarPlant.at_time x l) = due_inputs now l.
Proof.
  intros Hx. induction l as [|y l IH]; unfold due_inputs, due in *; cbn [insert_by List.filter];
    [|destruct (_ <? _); cbn [List.filter]]; rewrite ?(proj2 (Z.leb_gt (MicrocarPlant.at_time x) now)) by lia;
    [done|done|].
  by rewrite IH.
Qed.

Lemma plant_queue_caught_up l0 s prev x :
  caught_up (sort_by_key MicrocarPlant.at_time l0) prev s -> prev < MicrocarPlant.at_time x ->
  caught_up (sort_by_key MicrocarPlant.at_time (l0 ++ [x])) prev
    (MicrocarPlant.queue_driver_input s (MicrocarPlant.at_time x) (MicrocarPlant.throttle_percent x)
       (MicrocarPlant.brake_pressed x)).
Proof.
  intros ([Hv Hb Ht _] & Hp & Hc & Hd) Hx.
  assert (due_inputs prev (sort_by_key MicrocarPlant.at_time (l0 ++ [x])) =
          due_inputs prev (sort_by_key MicrocarPlant.at_time l0)) as Hdue.
  { unfold sort_by_key at 1. rewrite fold_left_app. cbn [fold_left]. by apply due_insert. }
  assert (MicrocarPlant.pending_inputs
            (MicrocarPlant.queue_driver_input s (MicrocarPlant.at_time x) (MicrocarPlant.throttle_percent x)
               (MicrocarPlant.brake_pressed x)) = sort_by_key MicrocarPlant.at_time (l0 ++ [x])) as Hpend.
  { unfold MicrocarPlant.queue_driver_input. cbn [MicrocarPlant.pending_inputs]. rewrite Hp.
    destruct x. apply sort_snoc. }
  split_and!; [|done|by rewrite Hdue|by rewrite Hdue].
  split; [done..|]. rewrite Hpend. apply (sort_by_key_spec MicrocarPlant.at_time).
Qed.

(** What happens to a plant: the scenario queues an input, or the simulator ticks. *)
Inductive plant_event : Type :=
  | Queue (x : input)
  | Tick (now : Z).

Fixpoint plant_run (p : profile) (s : MicrocarPlant.t) (w : World) (es : list plant_event)
    : outcome (MicrocarPlant.t * World) :=
  match es with
  | [] => Ret (s, w)
  | Queue x :: es =>
      plant_run p (MicrocarPlant.queue_driver_input s (MicrocarPlant.at_time x)
                     (MicrocarPlant.throttle_percent x) (MicrocarPlant.brake_pressed x)) w es
  | Tick now :: es => let! (s, w) := MicrocarPlant.step inject p s now w in plant_run p s w es
  end.

(** Ticks do not step back, and an input is for a time after the last tick. *)
Fixpoint in_time (prev : Z) (es : list plant_event) : Prop :=
  match es with
  | [] => True
  | Queue x :: es => prev < MicrocarPlant.at_time x /\ in_time prev es
  | Tick now :: es => prev <= now /\ in_time now es
  end.

(** The inputs queued, in the order of the calls, and the last tick. *)
Definition queued (es : list plant_event) : list input :=
  omap (fun e => match e with Queue x => Some x | Tick _ => None end) es.

Fixpoint last_tick (prev : Z) (es : list plant_event) : Z :=
  match es with
  | [] => prev
  | Queue _ :: es => last_tick prev es
  | Tick now :: es => last_tick now es
  end.

Lemma plant_run_caught_up p es l0 s prev w :
  caught_up (sort_by_key MicrocarPlant.at_time l0) prev s -> in_time prev es ->
  exists s' w', plant_run p s w es = Ret (s', w') /\
    caught_up (sort_by_key MicrocarPlant.at_time (l0 ++ queued es)) (last_tick prev es) s'.
Proof.
  revert l0 s prev w. induction es as [|[x|now] es IH]; intros l0 s prev w Hc He.
  - rewrite app_nil_r. by exists s, w.
  - destruct He as [Hx He]. cbn [plant_run last_tick].
    change (queued (Queue x :: es)) with ([x] ++ queued es). rewrite app_assoc.
    apply IH; [by apply plant_queue_caught_up|done].
  - destruct He as [Hn He]. cbn [plant_run last_tick].
    destruct (sort_by_key_spec MicrocarPlant.at_time l0) as (HL & _).
    destruct (plant_step_caught_up p _ s prev now w HL Hc Hn) as (s1 & -> & Hc1). cbn [obind].
    by apply (IH l0 s1 now).
Qed.
End Frames.

Lemma new_plant_inv tick : 0 <= tick <= 10000 -> plant_inv (MicrocarPlant.new tick).
Proof.
  intros Ht. split; [|exact battery_default_wf|done|constructor].
  unfold vehicle_ok, VehiclePlant.wf, fits. vm_compute. repeat split; congruence.
Qed.

(** C33: Driver inputs take effect in order of their times, in whatever order they were
    queued, and inputs of equal times in the order they were queued.  Inputs are queued
    before the first tick or between two ticks, each for a time after the last tick, and
    ticks do not step back.  Then nothing panics, and after every such run the cursor stands
    behind exactly the inputs that are due at the last tick, so that each is consumed at one
    tick, the first at or after its time; the vehicle has the throttle, the brake and the
    torque (the throttle read as [i8]) of the last due one, or its initial ones if none is. *)
Theorem plant_inputs_in_order {World : Type}
    (inject : World -> string -> Z -> Z -> list Z -> Z -> World) p tick es w :
  0 <= tick <= 10000 -> in_time (-1) es ->
  let queue := sort_by_key MicrocarPlant.at_time (queued es) in
  let now := last_tick (-1) es in
  (StronglySorted by_time queue /\ Permutation queue (queued es) /\
   forall t, with_key MicrocarPlant.at_time t queue = with_key MicrocarPlant.at_time t (queued es)) /\
  exists s' w',
    plant_run inject p (MicrocarPlant.new tick) w es = Ret (s', w') /\
    MicrocarPlant.pending_inputs s' = queue /\
    MicrocarPlant.input_cursor s' = length (due_inputs now queue) /\
    driver (MicrocarPlant.vehicle s') = driver_of (last (due_inputs now queue)).
Proof.
  intros Ht He queue now. split; [apply (sort_by_key_spec MicrocarPlant.at_time)|].
  destruct (plant_run_caught_up inject p es [] (MicrocarPlant.new tick) (-1) w)
    as (s' & w' & Hr & _ & Hp & Hc & Hd); [|done|by exists s', w'].
  split; [by apply new_plant_inv|done].
Qed.

(** An input queued after the first tick and one queued out of order. *)
Lemma plant_inputs_in_order_witness :
  let input a th br := Queue {| MicrocarPlant.at_time := a; MicrocarPlant.throttle_percent := th;
                                MicrocarPlant.brake_pressed := br |} in
  exists s' w',
    plant_run (fun w _ _ id _ _ => id :: w) Debug (MicrocarPlant.new 10) []
      [input 500 100 false; input 0 50 false; Tick 0; Tick 10; input 400 20 true; Tick 450] = Ret (s', w') /\
    MicrocarPlant.input_cursor s' = 2%nat /\ driver (MicrocarPlant.vehicle s') = (20, true, 20).
Proof.
  intros input.
  destruct (plant_inputs_in_order (fun (w : list Z) _ _ id _ _ => id :: w) Debug 10
              [input 500 100 false; input 0 50 false; Tick 0; Tick 10; input 400 20 true; Tick 450] [])
    as (_ & s' & w' & H1 & _ & H2 & H3).
  - lia.
  - simpl. lia.
  - exists s', w'. split; [exact H1|]. rewrite H2, H3. split; reflexivity.
Defined.

(** An input queued for a time that has passed is never applied once a later input has
    been, and the later one is applied again instead. *)
Theorem plant_late_input_skipped :
  let run := MicrocarPlant.run (fun (w : unit) _ _ _ _ _ => w) Debug in
  match run (MicrocarPlant.queue_driver_input (MicrocarPlant.new 10) 100 80 false) tt [100] with
  | Ret (s1, _) =>
      driver (MicrocarPlant.vehicle s1) = (80, false, 80) /\
      match run (MicrocarPlant.queue_driver_input s1 50 0 true) tt [110; 120] with
      | Ret (s2, _) =>
          MicrocarPlant.input_cursor s2 = length (MicrocarPlant.pending_inputs s2) /\
          driver (MicrocarPlant.vehicle s2) = (80, false, 80)
      | Panic => False
      end
  | Panic => False
  end.
Proof. vm_compute. repeat split. Qed.

Lemma plant_step_publishes_witness :
  plant_inv (MicrocarPlant.new 10) /\
  exists s' w', MicrocarPlant.step (fun (w : list Z) _ _ id _ _ => w ++ [id]) Debug
                  (MicrocarPlant.new 10) 0 [] = Ret (s', w').
Proof.
  assert (H : plant_inv (MicrocarPlant.new 10)) by (apply new_plant_inv; lia).
  split; [exact H|].
  destruct (plant_step_publishes (fun (w : list Z) _ _ id _ _ => w ++ [id]) Debug _ 0 [] H)
    as (s' & hi & lo & vh & vl & th & tl & ch & cl & Hs & _).
  eexists s', _. exact Hs.
Defined.
