(* ===== verification/Ecu.v ===== *)
(** * Firmware selection ([src/lib.rs])

    The shared table from firmware paths to ECU categories, the boot variant of a machine
    and the C entry point its [init] calls.  The C functions and the simulator's calls are
    represented by their names, in the order they are made. *)

From S2P Require Import Prelude RustStr.

(** Path substring and canonical category, most specific first. *)
Definition ECU_CATEGORY_PATTERNS : list (string * string) :=
  [("priority_inversion", "priority_inversion");
   ("lifecycle_stress", "lifecycle_stress");
   ("net_demo", "net_demo");
   ("storage_demo", "storage_demo");
   ("bt_demo", "bt_demo");
   ("ota_tool", "ota_tool");
   ("telematics", "telematics");
   ("gateway_diag_clearbug", "gateway");
   ("gateway_diag_clear", "gateway");
   ("gateway_diag_startdrivebug", "gateway");
   ("gateway_diag_startdrive", "gateway");
   ("gateway_diag_fault", "gateway");
   ("gateway_diag", "gateway");
   ("powertrain_diag_service_bug", "powertrain");
   ("powertrain_diag_service", "powertrain");
   ("gateway_ota_badcrc", "gateway");
   ("gateway_ota_intwrite", "gateway");
   ("gateway_ota_badhealth", "gateway");
   ("gateway_ota_powercut", "gateway");
   ("gateway_ota_crcbug", "gateway");
   ("gateway_ota", "gateway");
   ("gateway_charging", "gateway");
   ("powertrain_charging", "powertrain");
   ("diagnostics", "diagnostics");
   ("gateway", "gateway");
   ("powertrain", "powertrain");
   ("bms", "bms");
   ("dashboard", "dashboard")].

(** The category of the first pattern a test accepts: the loops over the table. *)
Definition first_category (test : string -> bool) : option string :=
  snd <$> List.find (fun '(pattern, _) => test pattern) ECU_CATEGORY_PATTERNS.

Definition resolve_ecu_category (firmware : option string) (name : string) : option string :=
  match firmware with
  | Some path =>
      match first_category (fun pattern => contains pattern path) with
      | Some category => Some category
      | None => first_category (fun pattern => starts_with pattern name)
      end
  | None => None
  end.

(** The C functions [init] can call. *)
Inductive boot_fn : Set :=
  | microcar_boot_priority_inversion
  | microcar_boot_lifecycle_stress
  | microcar_boot_net_demo
  | microcar_boot_storage_demo
  | microcar_boot_bt_demo
  | microcar_boot_gateway_diag_clearbug
  | microcar_boot_gateway_diag_clear
  | microcar_boot_gateway_diag_startdrivebug
  | microcar_boot_gateway_diag_startdrive
  | microcar_boot_gateway_diag_fault
  | microcar_boot_gateway_diag
  | microcar_boot_powertrain_diag_service_bug
  | microcar_boot_powertrain_diag_service
  | microcar_boot_gateway_ota_badcrc
  | microcar_boot_gateway_ota_intwrite
  | microcar_boot_gateway_ota_badhealth
  | microcar_boot_gateway_ota_powercut
  | microcar_boot_gateway_ota_crcbug
  | microcar_boot_gateway_ota
  | microcar_boot_gateway_charging
  | microcar_boot_powertrain_charging
  | microcar_boot_diagnostics_tool
  | microcar_boot_ota_tool
  | microcar_boot_telematics
  | microcar_boot_gateway
  | microcar_boot_powertrain
  | microcar_boot_bms
  | microcar_boot_dashboard
  | microcar_boot.
#[export] Instance boot_fn_eq_dec : EqDecision boot_fn.
Proof. solve_decision. Defined.

(** What [init] and [step] do outside the Rust code, in order. *)
Inductive ffi_call : Set :=
  | machine_activate
  | boot (f : boot_fn)
  | sim_scheduler_tick
  | flush_trace
  | microcar_boot_dashboard_zephyr
  | sim_zephyr_scheduler_tick.

Module MicrocarFirmware.

Record t := {
  name : string;
  firmware_path : option string;
  booted : bool;
}.

Definition new (n : string) : t :=
  {| name := n; firmware_path := None; booted := false |}.

Definition with_firmware_path (n path : string) : t :=
  {| name := n; firmware_path := Some path; booted := false |}.

Definition VARIANTS : list string :=
  ["priority_inversion";
   "lifecycle_stress";
   "net_demo";
   "storage_demo";
   "bt_demo";
   "ota_tool";
   "telematics";
   "gateway_diag_clearbug";
   "gateway_diag_clear";
   "gateway_diag_startdrivebug";
   "gateway_diag_startdrive";
   "gateway_diag_fault";
   "gateway_diag";
   "powertrain_diag_service_bug";
   "powertrain_diag_service";
   "gateway_ota_badcrc";
   "gateway_ota_intwrite";
   "gateway_ota_badhealth";
   "gateway_ota_powercut";
   "gateway_ota_crcbug";
   "gateway_ota";
   "gateway_charging";
   "powertrain_charging";
   "diagnostics";
   "gateway";
   "powertrain";
   "bms";
   "dashboard"].

Definition ecu_type (self : t) : string :=
  let category :=
    match resolve_ecu_category (firmware_path self) (name self) with
    | Some category => category
    | None => name self
    end in
  match firmware_path self with
  | Some path =>
      match List.find (fun variant => contains variant path) VARIANTS with
      | Some variant => variant
      | None => category
      end
  | None => category
  end.

(** The [if]/[else if] chain of [init]. *)
Definition boot_entry (ecu : string) : boot_fn :=
  if starts_with "priority_inversion" ecu then microcar_boot_priority_inversion
  else if starts_with "lifecycle_stress" ecu then microcar_boot_lifecycle_stress
  else if starts_with "net_demo" ecu then microcar_boot_net_demo
  else if starts_with "storage_demo" ecu then microcar_boot_storage_demo
  else if starts_with "bt_demo" ecu then microcar_boot_bt_demo
  else if starts_with "gateway_diag_clearbug" ecu then microcar_boot_gateway_diag_clearbug
  else if starts_with "gateway_diag_clear" ecu then microcar_boot_gateway_diag_clear
  else if starts_with "gateway_diag_startdrivebug" ecu then microcar_boot_gateway_diag_startdrivebug
  else if starts_with "gateway_diag_startdrive" ecu then microcar_boot_gateway_diag_startdrive
  else if starts_with "gateway_diag_fault" ecu then microcar_boot_gateway_diag_fault
  else if starts_with "gateway_diag" ecu then microcar_boot_gateway_diag
  else if starts_with "powertrain_diag_service_bug" ecu then microcar_boot_powertrain_diag_service_bug
  else if starts_with "powertrain_diag_service" ecu then microcar_boot_powertrain_diag_service
  else if starts_with "gateway_ota_badcrc" ecu then microcar_boot_gateway_ota_badcrc
  else if starts_with "gateway_ota_intwrite" ecu then microcar_boot_gateway_ota_intwrite
  else if starts_with "gateway_ota_badhealth" ecu then microcar_boot_gateway_ota_badhealth
  else if starts_with "gateway_ota_powercut" ecu then microcar_boot_gateway_ota_powercut
  else if starts_with "gateway_ota_crcbug" ecu then microcar_boot_gateway_ota_crcbug
  else if starts_with "gateway_ota" ecu then microcar_boot_gateway_ota
  else if starts_with "gateway_charging" ecu then microcar_boot_gateway_charging
  else if starts_with "powertrain_charging" ecu then microcar_boot_powertrain_charging
  else if starts_with "diagnostics" ecu then microcar_boot_diagnostics_tool
  else if starts_with "ota_tool" ecu then microcar_boot_ota_tool
  else if starts_with "telematics" ecu then microcar_boot_telematics
  else if starts_with "gateway" ecu then microcar_boot_gateway
  else if starts_with "powertrain" ecu then microcar_boot_powertrain
  else if starts_with "bms" ecu then microcar_boot_bms
  else if starts_with "dashboard" ecu then microcar_boot_dashboard
  else microcar_boot.

Definition init (self : t) : t * list ffi_call :=
  ({| name := name self; firmware_path := firmware_path self; booted := true |},
   [machine_activate; boot (boot_entry (ecu_type self)); flush_trace]).

Definition step (self : t) : t * list ffi_call :=
  if negb (booted self) then (self, [])
  else (self, [machine_activate; sim_scheduler_tick; flush_trace]).

End MicrocarFirmware.

(** ** Theorems *)

(** The category a boot function belongs to. *)
Definition boot_category (f : boot_fn) : option string :=
  match f with
  | microcar_boot_priority_inversion => Some "priority_inversion"
  | microcar_boot_lifecycle_stress => Some "lifecycle_stress"
  | microcar_boot_net_demo => Some "net_demo"
  | microcar_boot_storage_demo => Some "storage_demo"
  | microcar_boot_bt_demo => Some "bt_demo"
  | microcar_boot_gateway_diag_clearbug => Some "gateway"
  | microcar_boot_gateway_diag_clear => Some "gateway"
  | microcar_boot_gateway_diag_startdrivebug => Some "gateway"
  | microcar_boot_gateway_diag_startdrive => Some "gateway"
  | microcar_boot_gateway_diag_fault => Some "gateway"
  | microcar_boot_gateway_diag => Some "gateway"
  | microcar_boot_powertrain_diag_service_bug => Some "powertrain"
  | microcar_boot_powertrain_diag_service => Some "powertrain"
  | microcar_boot_gateway_ota_badcrc => Some "gateway"
  | microcar_boot_gateway_ota_intwrite => Some "gateway"
  | microcar_boot_gateway_ota_badhealth => Some "gateway"
  | microcar_boot_gateway_ota_powercut => Some "gateway"
  | microcar_boot_gateway_ota_crcbug => Some "gateway"
  | microcar_boot_gateway_ota => Some "gateway"
  | microcar_boot_gateway_charging => Some "gateway"
  | microcar_boot_powertrain_charging => Some "powertrain"
  | microcar_boot_diagnostics_tool => Some "diagnostics"
  | microcar_boot_ota_tool => Some "ota_tool"
  | microcar_boot_telematics => Some "telematics"
  | microcar_boot_gateway => Some "gateway"
  | microcar_boot_powertrain => Some "powertrain"
  | microcar_boot_bms => Some "bms"
  | microcar_boot_dashboard => Some "dashboard"
  | microcar_boot => None
  end.

(** The first table entry whose pattern a test accepts. *)
Lemma first_category_Some test c :
  first_category test = Some c ->
  exists v, (v, c) ∈ ECU_CATEGORY_PATTERNS /\ test v = true /\
            List.find test (map fst ECU_CATEGORY_PATTERNS) = Some v.
Proof.
  unfold first_category. generalize ECU_CATEGORY_PATTERNS as l.
  induction l as [|[v c'] l IH]; simpl; [done|]. intros H.
  destruct (test v) eqn:Hv; simpl in H.
  - simplify_eq. exists v. split_and!; [by left|done|done].
  - destruct (IH H) as (v' & Hin & Ht & Hf). exists v'. split_and!; [by right|done|done].
Qed.

Lemma first_category_None test :
  first_category test = None ->
  List.find test (map fst ECU_CATEGORY_PATTERNS) = None /\
  forall v c, (v, c) ∈ ECU_CATEGORY_PATTERNS -> test v = false.
Proof.
  unfold first_category. generalize ECU_CATEGORY_PATTERNS as l.
  induction l as [|[v c'] l IH]; simpl; intros H.
  - split; [done|]. intros v c Hin. by apply not_elem_of_nil in Hin.
  - destruct (test v) eqn:Hv; [done|]. destruct (IH H) as [Hf Hall]. split; [done|].
    intros v' c [[= -> ->]|Hin]%elem_of_cons; eauto.
Qed.

Lemma variants_are_patterns : MicrocarFirmware.VARIANTS = map fst ECU_CATEGORY_PATTERNS.
Proof. reflexivity. Qed.

(** A decidable property of every entry of the table. *)
Lemma patterns_forall (q : string * string -> bool) :
  forallb q ECU_CATEGORY_PATTERNS = true -> forall v c, (v, c) ∈ ECU_CATEGORY_PATTERNS -> q (v, c) = true.
Proof. intros H v c Hin. by apply (proj1 (forallb_elem q _) H). Qed.

Definition opt_is (o : option string) (s : string) : bool :=
  match o with Some t => String.eqb t s | None => false end.

Lemma opt_is_true o s : opt_is o s = true -> o = Some s.
Proof. destruct o as [t|]; [|done]. simpl. intros ->%String.eqb_eq. done. Qed.

Lemma boot_entry_category v c :
  (v, c) ∈ ECU_CATEGORY_PATTERNS ->
  boot_category (MicrocarFirmware.boot_entry v) = Some c /\
  boot_category (MicrocarFirmware.boot_entry c) = Some c.
Proof.
  intros Hin.
  assert (Hq : forallb (fun e => opt_is (boot_category (MicrocarFirmware.boot_entry (fst e))) (snd e) &&
                        opt_is (boot_category (MicrocarFirmware.boot_entry (snd e))) (snd e))
                 ECU_CATEGORY_PATTERNS = true) by (vm_compute; reflexivity).
  apply (patterns_forall _ Hq) in Hin. apply andb_true_iff in Hin as [H1 H2]. simpl in H1, H2.
  by rewrite (opt_is_true _ _ H1), (opt_is_true _ _ H2).
Qed.

(** A name none of the patterns starts is booted by the generic entry point: every
    test of [init] is on a pattern of the table. *)
Lemma boot_entry_generic n :
  (forall v c, (v, c) ∈ ECU_CATEGORY_PATTERNS -> starts_with v n = false) ->
  MicrocarFirmware.boot_entry n = microcar_boot.
Proof.
  intros H.
  assert (forall v, v ∈ map fst ECU_CATEGORY_PATTERNS -> starts_with v n = false) as H'.
  { intros v Hv. apply list_elem_of_In, in_map_iff in Hv as ([v' c] & <- & Hv).
    apply (H v' c). by apply list_elem_of_In. }
  unfold MicrocarFirmware.boot_entry.
  repeat (rewrite H' by (apply (bool_decide_unpack _); vm_compute; exact I)). done.
Qed.

(** C32: Validation and boot never drift.  For a machine with a firmware path, when
    validation finds a category the C function [init] boots belongs to that category; when
    it finds none, the path names no known variant and the generic [microcar_boot] runs.
    [init] makes its calls in the order activate, boot, flush and marks the firmware
    booted; [step] does nothing before that and one scheduler tick afterwards. *)
Theorem boot_matches_validation n path :
  let fw := MicrocarFirmware.with_firmware_path n path in
  let f := MicrocarFirmware.boot_entry (MicrocarFirmware.ecu_type fw) in
  match resolve_ecu_category (Some path) n with
  | Some category => boot_category f = Some category
  | None => f = microcar_boot /\ MicrocarFirmware.ecu_type fw = n
  end /\
  snd (MicrocarFirmware.init fw) = [machine_activate; boot f; flush_trace] /\
  MicrocarFirmware.step fw = (fw, []) /\
  snd (MicrocarFirmware.step (fst (MicrocarFirmware.init fw))) =
    [machine_activate; sim_scheduler_tick; flush_trace].
Proof.
  intros fw f. split; [|done]. subst f fw.
  unfold MicrocarFirmware.ecu_type. simpl MicrocarFirmware.firmware_path. simpl MicrocarFirmware.name.
  rewrite variants_are_patterns. unfold resolve_ecu_category.
  destruct (first_category (fun pattern => contains pattern path)) as [c|] eqn:E.
  - apply first_category_Some in E as (v & Hin & Hc & ->). by apply boot_entry_category.
  - apply first_category_None in E as [-> Hall].
    destruct (first_category (fun pattern => starts_with pattern n)) as [c|] eqn:E.
    + apply first_category_Some in E as (v & Hin & _). by apply (boot_entry_category v).
    + apply first_category_None in E as [_ Hnone]. split; [|done]. by apply boot_entry_generic.
Qed.

(** No pattern hides a later one: an earlier pattern is never part of a later one. *)
Fixpoint unshadowed (l : list string) : bool :=
  match l with
  | [] => true
  | v :: l => forallb (fun w => negb (contains v w)) l && unshadowed l
  end.

(** Every entry of the table is reachable: no pattern is contained in a later one, so a
    path [firmware/<variant>] selects that variant itself, and the 28 variants boot 28
    different C functions, none of them the generic one. *)
Theorem every_variant_boots :
  unshadowed (map fst ECU_CATEGORY_PATTERNS) = true /\
  NoDup (map (fun v => MicrocarFirmware.boot_entry v) MicrocarFirmware.VARIANTS) /\
  microcar_boot ∉ map (fun v => MicrocarFirmware.boot_entry v) MicrocarFirmware.VARIANTS /\
  (forall v n, v ∈ MicrocarFirmware.VARIANTS ->
     MicrocarFirmware.ecu_type (MicrocarFirmware.with_firmware_path n ("firmware/" +:+ v)) = v) /\
  length MicrocarFirmware.VARIANTS = 28%nat.
Proof.
  split_and!.
  - vm_compute. reflexivity.
  - apply (bool_decide_unpack _). vm_compute. exact I.
  - apply (bool_decide_unpack _). vm_compute. exact I.
  - intros v n Hv. unfold MicrocarFirmware.ecu_type, MicrocarFirmware.with_firmware_path.
    cbn [MicrocarFirmware.firmware_path].
    assert (forallb (fun v => opt_is
              (List.find (fun w => contains w ("firmware/" +:+ v)) MicrocarFirmware.VARIANTS) v)
              MicrocarFirmware.VARIANTS = true) as H by (vm_compute; reflexivity).
    apply (proj1 (forallb_elem _ _) H), opt_is_true in Hv. by rewrite Hv.
  - reflexivity.
Qed.

Lemma every_variant_boots_witness :
  "gateway_ota_badcrc" ∈ MicrocarFirmware.VARIANTS /\
  MicrocarFirmware.ecu_type
    (MicrocarFirmware.with_firmware_path "ecu1" ("firmware/" +:+ "gateway_ota_badcrc")) =
  "gateway_ota_badcrc".
Proof.
  assert (H : "gateway_ota_badcrc" ∈ MicrocarFirmware.VARIANTS)
    by (apply (bool_decide_unpack _); vm_compute; exact I).
  split; [exact H|].
  destruct every_variant_boots as (_ & _ & _ & H' & _). exact (H' _ "ecu1" H).
Defined.
