(* ===== verification/Firmware.v ===== *)
(** * Firmware objects ([src/lib.rs])

    The simulator drives a machine's firmware through the trait [Firmware], whose methods
    are [init] and [step].  The class states what both implementations of the crate promise:
    a firmware that has not booted stays silent, and every visit of the native code is one
    call between the activation of the machine and the flush of its trace.  The theorems
    about the simulator's calls are proved against the class.  [ZephyrDashboardFirmware] is
    compiled under the feature [zephyr] only. *)

From S2P Require Import Prelude RustStr Ecu.

Class Firmware (T : Type) : Type := {
  init : T -> T * list ffi_call;
  step : T -> T * list ffi_call;
  is_booted : T -> bool;
  boot_call : T -> ffi_call;
  tick_call : ffi_call;
  init_boots : forall s, is_booted (fst (init s)) = true;
  init_calls : forall s, snd (init s) = [machine_activate; boot_call s; flush_trace];
  step_keeps : forall s, fst (step s) = s;
  step_calls : forall s,
    snd (step s) = if is_booted s then [machine_activate; tick_call; flush_trace] else [];
}.

Module ZephyrDashboardFirmware.

Record t := { booted : bool }.

Definition new : t := {| booted := false |}.

Definition init (self : t) : t * list ffi_call :=
  ({| booted := true |}, [machine_activate; microcar_boot_dashboard_zephyr; flush_trace]).

Definition step (self : t) : t * list ffi_call :=
  if negb (booted self) then (self, [])
  else (self, [machine_activate; sim_zephyr_scheduler_tick; flush_trace]).

End ZephyrDashboardFirmware.

#[export] Instance microcar_firmware : Firmware MicrocarFirmware.t.
Proof.
  refine {| init := MicrocarFirmware.init; step := MicrocarFirmware.step;
            is_booted := MicrocarFirmware.booted;
            boot_call := fun s => boot (MicrocarFirmware.boot_entry (MicrocarFirmware.ecu_type s));
            tick_call := sim_scheduler_tick |};
    intros s; unfold MicrocarFirmware.step; by destruct (MicrocarFirmware.booted s).
Defined.

#[export] Instance zephyr_firmware : Firmware ZephyrDashboardFirmware.t.
Proof.
  refine {| init := ZephyrDashboardFirmware.init; step := ZephyrDashboardFirmware.step;
            is_booted := ZephyrDashboardFirmware.booted;
            boot_call := fun _ => microcar_boot_dashboard_zephyr;
            tick_call := sim_zephyr_scheduler_tick |};
    intros s; unfold ZephyrDashboardFirmware.step; by destruct (ZephyrDashboardFirmware.booted s).
Defined.

(** ** What the simulator sees *)

Section Client.
Context {T : Type} `{!Firmware T}.

Inductive event : Set := Init | Step.

(** The calls the simulator makes, in order, and everything they call. *)
Definition handle (s : T) (e : event) : T * list ffi_call :=
  match e with Init => init s | Step => step s end.

Fixpoint drive (s : T) (es : list event) : T * list ffi_call :=
  match es with
  | [] => (s, [])
  | e :: es =>
      let '(s, calls) := handle s e in
      let '(s, calls') := drive s es in (s, calls ++ calls')
  end.

(** One visit of the native code. *)
Definition visit (c : ffi_call) : list ffi_call := [machine_activate; c; flush_trace].

Lemma drive_app s es1 es2 :
  drive s (es1 ++ es2) =
  (fst (drive (fst (drive s es1)) es2), snd (drive s es1) ++ snd (drive (fst (drive s es1)) es2)).
Proof.
  revert s. induction es1 as [|e es1 IH]; intros s; cbn [drive app].
  - cbn [fst snd app]. by destruct (drive s es2).
  - destruct (handle s e) as [s1 calls]. rewrite IH.
    destruct (drive s1 es1) as [s2 calls1]. cbn [fst snd]. by rewrite app_assoc.
Qed.

(** Steps before the first [init] are silent and change nothing. *)
Lemma silent_before_boot s n :
  is_booted s = false -> drive s (replicate n Step) = (s, []).
Proof.
  intros Hb. induction n as [|n IH]; [done|]. cbn [replicate drive handle].
  pose proof (step_keeps s) as Hk. pose proof (step_calls s) as Hc. rewrite Hb in Hc.
  destruct (step s) as [s1 calls]. cbn [fst snd] in *. subst. by rewrite IH.
Qed.

(** Once booted, [n] steps are [n] ticks, each between an activation and a flush. *)
Lemma ticks_after_boot s n :
  is_booted s = true -> drive s (replicate n Step) = (s, concat (replicate n (visit tick_call))).
Proof.
  intros Hb. induction n as [|n IH]; [done|]. cbn [replicate drive handle concat].
  pose proof (step_keeps s) as Hk. pose proof (step_calls s) as Hc. rewrite Hb in Hc.
  destruct (step s) as [s1 calls]. cbn [fst snd] in *. subst. by rewrite IH.
Qed.

(** A machine's life: steps before it is loaded do nothing, [init] boots it, and each later
    step is one tick. *)
Theorem firmware_life s before after :
  is_booted s = false ->
  snd (drive s (replicate before Step ++ Init :: replicate after Step)) =
  visit (boot_call s) ++ concat (replicate after (visit tick_call)).
Proof.
  intros Hb. rewrite drive_app, (silent_before_boot s before Hb). cbn [fst snd app drive handle].
  pose proof (init_boots s) as Hi. pose proof (init_calls s) as Hc.
  destruct (init s) as [s1 calls]. cbn [fst snd] in *. by rewrite (ticks_after_boot s1 after Hi), Hc.
Qed.

(** Whatever the simulator does, the native code is entered one activation at a time: the
    calls are a sequence of visits, one for every [init] and at most one for every [step]. *)
Lemma drive_visits s es :
  exists cs, snd (drive s es) = concat (map visit cs) /\ (length cs <= length es)%nat /\
             Forall (fun c => c = tick_call \/ exists s', c = boot_call s') cs.
Proof.
  revert s. induction es as [|e es IH]; intros s; [by exists []|]. cbn [drive].
  destruct e; cbn [handle].
  - pose proof (init_calls s) as Hc. destruct (init s) as [s1 calls].
    destruct (IH s1) as (cs & Hcs & Hl & Hf). destruct (drive s1 es) as [s2 calls']. cbn [fst snd] in *.
    exists (boot_call s :: cs). split_and!; [by rewrite Hc, Hcs|cbn; lia|constructor; eauto].
  - pose proof (step_calls s) as Hc. destruct (step s) as [s1 calls].
    destruct (IH s1) as (cs & Hcs & Hl & Hf). destruct (drive s1 es) as [s2 calls']. cbn [fst snd] in *.
    destruct (is_booted s).
    + exists (tick_call :: cs). split_and!; [by rewrite Hc, Hcs|cbn; lia|constructor; eauto].
    + exists cs. split_and!; [by rewrite Hc, Hcs|cbn; lia|done].
Qed.
End Client.

(** The two implementations differ in the boot function and in the scheduler they tick. *)
Example zephyr_life :
  snd (drive ZephyrDashboardFirmware.new [Step; Init; Step]) =
  visit microcar_boot_dashboard_zephyr ++ visit sim_zephyr_scheduler_tick.
Proof. reflexivity. Qed.

Example gateway_life :
  snd (drive (MicrocarFirmware.with_firmware_path "gw" "firmware/gateway_ecu") [Step; Init; Step]) =
  visit (boot microcar_boot_gateway) ++ visit sim_scheduler_tick.
Proof. reflexivity. Qed.
