(* ===== verification/Validate.v ===== *)
(** * Scenario validation ([src/validate.rs])

    The automotive checks on a scenario the simulator has already parsed.  The scenario
    types belong to the simulator: the records below have the fields the checks read. *)

From S2P Require Import Prelude MachineInt StableSort RustStr Ecu.

Record MachineDef := { m_name : string; m_firmware : option string }.
Record BusNode := { n_bus : string; n_machine : string }.
Record InputDef := { input_type : string; at_ms : Z; throttle_percent : option Z }.
Record BusInjectDef := {
  bi_at_ms : Z; bi_id : Z; bi_sender : string; bi_bus : string; bi_data : list Z }.
Record Scenario := {
  machine : list MachineDef;
  bus : list (list BusNode);
  input : list InputDef;
  bus_inject : list BusInjectDef;
}.

Record ValidationError := { kind : string; message : string }.

Definition new_error {A : Type} (k m : string) : result A ValidationError :=
  RErr {| kind := k; message := m |}.

(** [Display] *)
Definition fmt_error (e : ValidationError) : string := kind e +:+ ": " +:+ message e.

Definition resolve_ecu (firmware : option string) (name : string) : option string :=
  resolve_ecu_category firmware name.

Definition is_category (c : string) (m : MachineDef) : bool :=
  match resolve_ecu (m_firmware m) (m_name m) with
  | Some d => String.eqb d c
  | None => false
  end.

(** ** Checks 1 to 4 *)

Definition known_categories : string :=
  join ", " (bset_of (map snd ECU_CATEGORY_PATTERNS)).

Definition check_firmware (_ : unit) (m : MachineDef) : result unit ValidationError :=
  match m_firmware m with
  | Some fw =>
      match resolve_ecu (Some fw) (m_name m) with
      | None =>
          new_error "unknown-firmware"
            ("machine '" +:+ m_name m +:+ "' firmware '" +:+ fw
             +:+ "' does not name a known ECU (expected one of: " +:+ known_categories +:+ ")")
      | Some _ => ROk tt
      end
  | None => ROk tt
  end.

Definition is_drivetrain (c : string) : bool :=
  String.eqb c "powertrain" || String.eqb c "bms" || String.eqb c "dashboard".

(** The loop of check 2: whether a gateway was seen, and the first drivetrain ECU. *)
Definition scan_machine (acc : bool * option string) (m : MachineDef) : bool * option string :=
  let '(has_gateway, drivetrain) := acc in
  match resolve_ecu (m_firmware m) (m_name m) with
  | Some c =>
      if String.eqb c "gateway" then (true, drivetrain)
      else if is_drivetrain c && is_none drivetrain then
        (has_gateway, Some (c +:+ " ('" +:+ m_name m +:+ "')"))
      else (has_gateway, drivetrain)
  | None => (has_gateway, drivetrain)
  end.

Definition check_gateway (s : Scenario) : result unit ValidationError :=
  let '(has_gateway, drivetrain) := fold_left scan_machine (machine s) (false, None) in
  if negb has_gateway then
    match drivetrain with
    | Some dt =>
        new_error "missing-gateway"
          ("scenario has a " +:+ dt +:+ " ECU but no gateway ECU "
           +:+ "(the gateway is the vehicle-mode authority and bus bridge)")
    | None => ROk tt
    end
  else ROk tt.

(** [seen.insert] inside the two loops over the buses and their nodes. *)
Definition check_node (seen : gset (string * string)) (n : BusNode)
    : result (gset (string * string)) ValidationError :=
  if bool_decide ((n_bus n, n_machine n) ∈ seen) then
    new_error "duplicate-bus-node"
      ("machine '" +:+ n_machine n +:+ "' is attached to bus '" +:+ n_bus n +:+ "' more than once")
  else ROk ({[ (n_bus n, n_machine n) ]} ∪ seen).

Definition check_bus (seen : gset (string * string)) (b : list BusNode)
    : result (gset (string * string)) ValidationError := rfold check_node seen b.

Definition throttle_of (i : InputDef) : Z := default 0 (throttle_percent i).

Definition check_input (_ : unit) (i : InputDef) : result unit ValidationError :=
  if String.eqb (input_type i) "driver_input" && (0 <? throttle_of i) then
    new_error "drive-without-powertrain"
      ("driver_input at " +:+ fmt_int (at_ms i) +:+ " ms requests throttle "
       +:+ fmt_int (throttle_of i) +:+ "% but the scenario "
       +:+ "has no powertrain ECU to command torque")
  else ROk tt.

(** ** Check 5: external actors *)

Definition MSG_EVSE_EVENT : Z := 0x610.
Definition MSG_OTA_REQUEST : Z := 0x630.
Definition MSG_OTA_CHUNK : Z := 0x631.
Definition MSG_OTA_FINISH : Z := 0x632.
Definition NODE_EVSE : Z := 6.
Definition NODE_OTA_TOOL : Z := 7.

(** [is_ecu]: the first machine of that name resolves to an ECU. *)
Definition is_ecu (s : Scenario) (name : string) : bool :=
  match List.find (fun m => String.eqb (m_name m) name) (machine s) with
  | Some m => match resolve_ecu (m_firmware m) (m_name m) with Some _ => true | None => false end
  | None => false
  end.

(** [bus_members.entry(bus).or_default().insert(machine)] *)
Definition add_member (members : gmap string (gset string)) (n : BusNode) : gmap string (gset string) :=
  <[ n_bus n := {[ n_machine n ]} ∪ default ∅ (members !! n_bus n) ]> members.

Definition bus_members (s : Scenario) : gmap string (gset string) :=
  fold_left (fun members b => fold_left add_member b members) (bus s) ∅.

Definition is_actor_frame (bi : BusInjectDef) : bool :=
  (bi_id bi =? MSG_EVSE_EVENT) || (bi_id bi =? MSG_OTA_REQUEST)
  || (bi_id bi =? MSG_OTA_CHUNK) || (bi_id bi =? MSG_OTA_FINISH).

(** Frames of interest, in stable time order. *)
Definition actor_frames (s : Scenario) : list BusInjectDef :=
  sort_by_key bi_at_ms (List.filter is_actor_frame (bus_inject s)).

Record ActorState := { plugged : bool; ota_totals : gmap Z Z; ota_seen : gmap Z Z }.

(** [bi.data[i]], which panics out of bounds. *)
Definition byte_at (bi : BusInjectDef) (i : nat) : outcome Z :=
  match bi_data bi !! i with Some b => Ret b | None => Panic end.

Definition want_len (id : Z) : nat :=
  if id =? MSG_EVSE_EVENT then 6
  else if id =? MSG_OTA_REQUEST then 4
  else if id =? MSG_OTA_CHUNK then 8
  else 7.

Definition check_evse (st : ActorState) (bi : BusInjectDef)
    : outcome (result ActorState ValidationError) :=
  let! event := byte_at bi 1 in
  if 3 <? event then
    Ret (new_error "bad-enum-value" ("EVSE_EVENT event " +:+ fmt_int event +:+ " out of range 0..3"))
  else
    let! request_id := byte_at bi 2 in
    if request_id =? 0 then
      Ret (new_error "zero-request-id" "EVSE_EVENT request_id must be nonzero")
    else if event =? 1 then
      Ret (ROk {| plugged := true; ota_totals := ota_totals st; ota_seen := ota_seen st |})
    else if (event =? 2) && negb (plugged st) then
      Ret (new_error "handshake-before-plug" "HANDSHAKE_OK before any PLUG event")
    else Ret (ROk st).

Definition check_request (st : ActorState) (bi : BusInjectDef)
    : outcome (result ActorState ValidationError) :=
  let! request_id := byte_at bi 1 in
  if request_id =? 0 then
    Ret (new_error "zero-request-id" "OTA_REQUEST request_id must be nonzero")
  else
    let! total := byte_at bi 3 in
    Ret (ROk {| plugged := plugged st;
                ota_totals := <[ request_id := total ]> (ota_totals st);
                ota_seen := <[ request_id := default 0 (ota_seen st !! request_id) ]> (ota_seen st) |}).

Definition check_chunk (p : profile) (st : ActorState) (bi : BusInjectDef)
    : outcome (result ActorState ValidationError) :=
  let! request_id := byte_at bi 1 in
  if request_id =? 0 then
    Ret (new_error "zero-request-id" "OTA_CHUNK request_id must be nonzero")
  else
    let! chunk_index := byte_at bi 2 in
    match ota_totals st !! request_id with
    | None =>
        Ret (new_error "chunk-before-request"
               ("OTA_CHUNK for request " +:+ fmt_int request_id +:+ " before its OTA_REQUEST"))
    | Some total =>
        let seen := default 0 (ota_seen st !! request_id) in
        if negb (chunk_index =? seen) then
          Ret (new_error "ota-chunk-order"
                 ("OTA_CHUNK index " +:+ fmt_int chunk_index +:+ " for request "
                  +:+ fmt_int request_id +:+ ", expected " +:+ fmt_int seen))
        else if total <=? chunk_index then
          Ret (new_error "ota-chunk-order"
                 ("OTA_CHUNK index " +:+ fmt_int chunk_index +:+ " >= total_chunks " +:+ fmt_int total))
        else
          let! seen' := arith p U8 (seen + 1) in
          Ret (ROk {| plugged := plugged st; ota_totals := ota_totals st;
                      ota_seen := <[ request_id := seen' ]> (ota_seen st) |})
    end.

Definition check_finish (st : ActorState) (bi : BusInjectDef)
    : outcome (result ActorState ValidationError) :=
  let! request_id := byte_at bi 1 in
  if request_id =? 0 then
    Ret (new_error "zero-request-id" "OTA_FINISH request_id must be nonzero")
  else
    let! finish_total := byte_at bi 2 in
    let declared := ota_totals st !! request_id in
    let observed := default 0 (ota_seen st !! request_id) in
    if negb (bool_decide (declared = Some finish_total)) || negb (observed =? finish_total) then
      Ret (new_error "ota-finish-mismatch"
             ("OTA_FINISH total " +:+ fmt_int finish_total +:+ " != declared "
              +:+ fmt_debug_option fmt_int declared +:+ " / observed " +:+ fmt_int observed))
    else Ret (ROk st).

(** The body of the loop over the frames. *)
Definition check_frame (p : profile) (s : Scenario) (st : ActorState) (bi : BusInjectDef)
    : outcome (result ActorState ValidationError) :=
  let reserved := if bi_id bi =? MSG_EVSE_EVENT then NODE_EVSE else NODE_OTA_TOOL in
  if is_ecu s (bi_sender bi) then
    Ret (new_error "actor-has-firmware"
           ("actor '" +:+ bi_sender bi +:+ "' sends " +:+ fmt_hex_alt 5 (bi_id bi)
            +:+ " but resolves to a firmware ECU"))
  else if negb (match bus_members s !! bi_bus bi with
                | Some members => bool_decide (bi_sender bi ∈ members)
                | None => false
                end) then
    Ret (new_error "actor-not-on-bus"
           ("actor '" +:+ bi_sender bi +:+ "' is not attached to bus '" +:+ bi_bus bi +:+ "'"))
  else if negb (Nat.eqb (length (bi_data bi)) (want_len (bi_id bi))) then
    Ret (new_error "bad-payload-length"
           (fmt_hex_alt 5 (bi_id bi) +:+ " payload is " +:+ fmt_int (Z.of_nat (length (bi_data bi)))
            +:+ " bytes, expected " +:+ fmt_int (Z.of_nat (want_len (bi_id bi)))))
  else
    let! b0 := byte_at bi 0 in
    if negb (b0 =? reserved) then
      Ret (new_error "bad-source-node"
             (fmt_hex_alt 5 (bi_id bi) +:+ " payload byte 0 is " +:+ fmt_int b0
              +:+ ", expected reserved node " +:+ fmt_int reserved))
    else if bi_id bi =? MSG_EVSE_EVENT then check_evse st bi
    else if bi_id bi =? MSG_OTA_REQUEST then check_request st bi
    else if bi_id bi =? MSG_OTA_CHUNK then check_chunk p st bi
    else if bi_id bi =? MSG_OTA_FINISH then check_finish st bi
    else Ret (ROk st).

Fixpoint check_frames (p : profile) (s : Scenario) (st : ActorState) (frames : list BusInjectDef)
    : outcome (result unit ValidationError) :=
  match frames with
  | [] => Ret (ROk tt)
  | bi :: frames =>
      let! r := check_frame p s st bi in
      match r with
      | ROk st => check_frames p s st frames
      | RErr e => Ret (RErr e)
      end
  end.

Definition validate_external_actor_frames (p : profile) (s : Scenario)
    : outcome (result unit ValidationError) :=
  check_frames p s {| plugged := false; ota_totals := ∅; ota_seen := ∅ |} (actor_frames s).

(** Checks 1 to 4, in order. *)
Definition validate_static (s : Scenario) : result unit ValidationError :=
  try! _ := rfold check_firmware tt (machine s) in
  try! _ := check_gateway s in
  try! _ := rfold check_bus ∅ (bus s) in
  if negb (existsb (is_category "powertrain") (machine s)) then rfold check_input tt (input s)
  else ROk tt.

Definition validate_scenario (p : profile) (s : Scenario) : outcome (result unit ValidationError) :=
  match validate_static s with
  | RErr e => Ret (RErr e)
  | ROk _ => validate_external_actor_frames p s
  end.

(** ** The specification *)

Definition nth_byte (f : BusInjectDef) (i : nat) : Z := default 0 (bi_data f !! i).

Definition known (m : MachineDef) : Prop := resolve_ecu (m_firmware m) (m_name m) <> None.

Definition on_bus (s : Scenario) (b m : string) : Prop :=
  exists n, n ∈ concat (bus s) /\ n_bus n = b /\ n_machine n = m.

(** What the frames [pre] established. *)
Definition is_plug (f : BusInjectDef) : bool :=
  (bi_id f =? MSG_EVSE_EVENT) && (nth_byte f 1 =? 1).

Definition is_request (request : Z) (f : BusInjectDef) : bool :=
  (bi_id f =? MSG_OTA_REQUEST) && (nth_byte f 1 =? request).

Definition is_chunk (request : Z) (f : BusInjectDef) : bool :=
  (bi_id f =? MSG_OTA_CHUNK) && (nth_byte f 1 =? request).

(** The total the last request of that id declared. *)
Definition declared_total (request : Z) (pre : list BusInjectDef) : option Z :=
  fold_left (fun o f => if is_request request f then Some (nth_byte f 3) else o) pre None.

Definition chunks_seen (request : Z) (pre : list BusInjectDef) : Z := countb (is_chunk request) pre.

(** The rules for a frame that follows the frames [pre]. *)
Definition payload_ok (pre : list BusInjectDef) (f : BusInjectDef) : Prop :=
  if bi_id f =? MSG_EVSE_EVENT then
    nth_byte f 1 <= 3 /\ nth_byte f 2 <> 0 /\
    (nth_byte f 1 = 2 -> exists g, g ∈ pre /\ is_plug g = true)
  else
    nth_byte f 1 <> 0 /\
    (if bi_id f =? MSG_OTA_REQUEST then True
     else if bi_id f =? MSG_OTA_CHUNK then
       nth_byte f 2 = chunks_seen (nth_byte f 1) pre /\
       exists total, declared_total (nth_byte f 1) pre = Some total /\ nth_byte f 2 < total
     else
       declared_total (nth_byte f 1) pre = Some (nth_byte f 2) /\
       chunks_seen (nth_byte f 1) pre = nth_byte f 2).

Definition frame_ok (s : Scenario) (pre : list BusInjectDef) (f : BusInjectDef) : Prop :=
  is_ecu s (bi_sender f) = false /\
  on_bus s (bi_bus f) (bi_sender f) /\
  length (bi_data f) = want_len (bi_id f) /\
  nth_byte f 0 = (if bi_id f =? MSG_EVSE_EVENT then NODE_EVSE else NODE_OTA_TOOL) /\
  payload_ok pre f.

Fixpoint frames_ok (s : Scenario) (pre frames : list BusInjectDef) : Prop :=
  match frames with
  | [] => True
  | f :: frames => frame_ok s pre f /\ frames_ok s (pre ++ [f]) frames
  end.

(** The rules by the kind of error that breaking them is, in the order of the checks. *)
Definition rule : Type := string * Prop.

Fixpoint obeyed (rules : list rule) : Prop :=
  match rules with
  | [] => True
  | r :: rules => snd r /\ obeyed rules
  end.

Fixpoint first_broken (k : string) (rules : list rule) : Prop :=
  match rules with
  | [] => False
  | r :: rules => ~ snd r /\ fst r = k \/ snd r /\ first_broken k rules
  end.

Definition payload_rules (pre : list BusInjectDef) (f : BusInjectDef) : list rule :=
  if bi_id f =? MSG_EVSE_EVENT then
    [("bad-enum-value", nth_byte f 1 <= 3);
     ("zero-request-id", nth_byte f 2 <> 0);
     ("handshake-before-plug", nth_byte f 1 = 2 -> exists g, g ∈ pre /\ is_plug g = true)]
  else
    ("zero-request-id", nth_byte f 1 <> 0) ::
    (if bi_id f =? MSG_OTA_REQUEST then []
     else if bi_id f =? MSG_OTA_CHUNK then
       [("chunk-before-request", exists g, g ∈ pre /\ is_request (nth_byte f 1) g = true);
        ("ota-chunk-order", nth_byte f 2 = chunks_seen (nth_byte f 1) pre /\
           forall total, declared_total (nth_byte f 1) pre = Some total -> nth_byte f 2 < total)]
     else
       [("ota-finish-mismatch", declared_total (nth_byte f 1) pre = Some (nth_byte f 2) /\
           chunks_seen (nth_byte f 1) pre = nth_byte f 2)]).

Definition frame_rules (s : Scenario) (pre : list BusInjectDef) (f : BusInjectDef) : list rule :=
  [("actor-has-firmware", is_ecu s (bi_sender f) = false);
   ("actor-not-on-bus", on_bus s (bi_bus f) (bi_sender f));
   ("bad-payload-length", length (bi_data f) = want_len (bi_id f));
   ("bad-source-node", nth_byte f 0 = (if bi_id f =? MSG_EVSE_EVENT then NODE_EVSE else NODE_OTA_TOOL))]
  ++ payload_rules pre f.

(** Frame after frame. *)
Fixpoint frames_rules (s : Scenario) (pre frames : list BusInjectDef) : list rule :=
  match frames with
  | [] => []
  | f :: frames => frame_rules s pre f ++ frames_rules s (pre ++ [f]) frames
  end.

(** The five rules. *)
Definition firmware_ok (s : Scenario) : Prop :=
  forall m, m ∈ machine s -> m_firmware m <> None -> known m.
Definition gateway_ok (s : Scenario) : Prop :=
  (exists m, m ∈ machine s /\ (is_category "powertrain" m || is_category "bms" m
                               || is_category "dashboard" m) = true) ->
  exists m, m ∈ machine s /\ is_category "gateway" m = true.
Definition nodes_ok (s : Scenario) : Prop :=
  NoDup (map (fun n => (n_bus n, n_machine n)) (concat (bus s))).
Definition drive_ok (s : Scenario) : Prop :=
  (exists m, m ∈ machine s /\ is_category "powertrain" m = true) \/
  forall i, i ∈ input s -> input_type i = "driver_input" -> throttle_of i <= 0.
Definition actors_ok (s : Scenario) : Prop := frames_ok s [] (actor_frames s).

(** All rules for a scenario: the four about the vehicle, then those of each actor frame. *)
Definition vehicle_rules (s : Scenario) : list rule :=
  [("unknown-firmware", firmware_ok s); ("missing-gateway", gateway_ok s);
   ("duplicate-bus-node", nodes_ok s); ("drive-without-powertrain", drive_ok s)].

Definition scenario_rules (s : Scenario) : list rule :=
  vehicle_rules s ++ frames_rules s [] (actor_frames s).

(** Payload bytes are [u8] values. *)
Definition bytes_wf (s : Scenario) : Prop :=
  forall f, f ∈ bus_inject s -> Forall (fits U8) (bi_data f).

(** ** Checks 1 to 4 *)

Lemma check_firmware_ok m :
  check_firmware tt m = ROk tt <-> (m_firmware m <> None -> known m).
Proof.
  unfold check_firmware, known. destruct (m_firmware m) as [fw|]; [|naive_solver].
  destruct (resolve_ecu (Some fw) (m_name m)); naive_solver.
Qed.

Lemma scan_machine_spec ms hg dt :
  let '(hg', dt') := fold_left scan_machine ms (hg, dt) in
  (hg' = true <-> hg = true \/ exists m, m ∈ ms /\ is_category "gateway" m = true) /\
  (dt' <> None <-> dt <> None \/ exists m, m ∈ ms /\
     (is_category "powertrain" m || is_category "bms" m || is_category "dashboard" m) = true).
Proof.
  revert hg dt; induction ms as [|m ms IH]; intros hg dt.
  - simpl. split; split; auto; intros [?|(m & Hm & _)]; auto; by apply not_elem_of_nil in Hm.
  - rewrite fold_left_cons.
    destruct (scan_machine (hg, dt) m) as [hg1 dt1] eqn:E. specialize (IH hg1 dt1).
    destruct (fold_left scan_machine ms (hg1, dt1)) as [hg' dt']. destruct IH as [IHg IHd].
    assert ((hg1 = true <-> hg = true \/ is_category "gateway" m = true) /\
            (dt1 <> None <-> dt <> None \/
               (is_category "powertrain" m || is_category "bms" m || is_category "dashboard" m) = true))
      as [Hg Hd].
    { clear -E. unfold scan_machine, is_category, is_drivetrain in *.
      destruct (resolve_ecu (m_firmware m) (m_name m)) as [c|]; [|simplify_eq/=; naive_solver].
      destruct (String.eqb c "gateway") eqn:Hgw.
      { apply String.eqb_eq in Hgw. subst c. simplify_eq/=. naive_solver. }
      destruct (_ || _) eqn:Hdr; simpl in E; [|simplify_eq; naive_solver].
      destruct dt; simpl in E; simplify_eq; naive_solver. }
    rewrite IHg, IHd, Hg, Hd. setoid_rewrite elem_of_cons. naive_solver.
Qed.

Lemma check_gateway_ok s : check_gateway s = ROk tt <-> gateway_ok s.
Proof.
  unfold check_gateway, gateway_ok. pose proof (scan_machine_spec (machine s) false None) as H.
  destruct (fold_left scan_machine (machine s) (false, None)) as [hg dt]. destruct H as [Hg Hd].
  destruct hg; simpl.
  - split; [|done]. intros _ _. by destruct (proj1 Hg eq_refl).
  - assert (~ exists m, m ∈ machine s /\ is_category "gateway" m = true) as Hno
      by (intros Hm; by discriminate (proj2 Hg (or_intror Hm))).
    destruct dt as [d|]; simpl.
    + split; [done|]. intros H. destruct Hno. apply H. by destruct (proj1 Hd ltac:(done)).
    + split; [|done]. intros _ Hm. by destruct (proj2 Hd (or_intror Hm)).
Qed.

Lemma check_nodes_ok_from seen ns :
  (exists seen', rfold check_node seen ns = ROk seen') <->
  NoDup (map (fun n => (n_bus n, n_machine n)) ns) /\
  forall n, n ∈ ns -> (n_bus n, n_machine n) ∉ seen.
Proof.
  revert seen; induction ns as [|n ns IH]; intros seen; simpl.
  - split; [|eauto]. intros _. split; [apply NoDup_nil_2|]. intros n Hn. by apply not_elem_of_nil in Hn.
  - unfold check_node at 1. rewrite NoDup_cons. case_bool_decide as Hin; simpl.
    + split; [by intros [? ?]|]. intros [_ H]. destruct (H n ltac:(by left)); done.
    + rewrite IH. setoid_rewrite elem_of_cons. setoid_rewrite not_elem_of_union.
      setoid_rewrite not_elem_of_singleton. rewrite list_elem_of_In, in_map_iff.
      setoid_rewrite <- list_elem_of_In. split.
      * intros [Hnd Hd]. split_and!; [|done|].
        -- intros (n' & E & Hn'). destruct (Hd n' Hn') as [Hne _]. by rewrite E in Hne.
        -- intros n' [->|Hn']; [done|]. by destruct (Hd n' Hn').
      * intros [[Hn Hnd] Hs]. split; [done|]. intros n' Hn'. split; [|by auto].
        intros E. apply Hn. eauto.
Qed.

Lemma check_buses_ok s : (exists seen, rfold check_bus ∅ (bus s) = ROk seen) <-> nodes_ok s.
Proof.
  change check_bus with (rfold check_node). rewrite rfold_concat, check_nodes_ok_from.
  unfold nodes_ok. split; [by intros [? _]|]. intros H. split; [done|]. intros n _. apply not_elem_of_empty.
Qed.

Lemma check_input_ok i :
  check_input tt i = ROk tt <-> (input_type i = "driver_input" -> throttle_of i <= 0).
Proof.
  unfold check_input. destruct (String.eqb_spec (input_type i) "driver_input") as [->|Hne]; simpl.
  - destruct (Z.ltb_spec 0 (throttle_of i)); simpl; split; intros; try done; try lia.
    specialize (H0 eq_refl). lia.
  - split; [|done]. intros _ Ht. done.
Qed.

Lemma check_drive_ok s :
  (if negb (existsb (is_category "powertrain") (machine s)) then rfold check_input tt (input s)
   else ROk tt) = ROk tt <-> drive_ok s.
Proof.
  unfold drive_ok. destruct (existsb (is_category "powertrain") (machine s)) eqn:E; simpl.
  - split; [|done]. intros _. left. by apply existsb_elem.
  - rewrite rfold_check. setoid_rewrite check_input_ok. split; [by right|].
    intros [H|H]; [|done]. apply existsb_elem in H. congruence.
Qed.

(** ** Check 5 *)

Lemma bus_members_fold ns members b m :
  (match fold_left add_member ns members !! b with Some ms => m ∈ ms | None => False end) <->
  (match members !! b with Some ms => m ∈ ms | None => False end) \/
  exists n, n ∈ ns /\ n_bus n = b /\ n_machine n = m.
Proof.
  revert members; induction ns as [|n ns IH]; intros members.
  - simpl. split; [by left|]. intros [?|(n & Hn & _)]; [done|]. by apply not_elem_of_nil in Hn.
  - rewrite fold_left_cons, IH. unfold add_member. setoid_rewrite elem_of_cons.
    destruct (decide (n_bus n = b)) as [<-|Hne].
    + rewrite lookup_insert_eq, elem_of_union, elem_of_singleton.
      destruct (members !! n_bus n); simpl; [|rewrite elem_of_empty]; split; intros H;
        [destruct H as [[->|?]|(n' & ? & ? & ?)]|destruct H as [?|(n' & [->|?] & ? & ?)]
        |destruct H as [[->|?]|(n' & ? & ? & ?)]|destruct H as [?|(n' & [->|?] & ? & ?)]]; eauto 10; done.
    + rewrite lookup_insert_ne by done. split.
      * intros [?|(n' & ? & ? & ?)]; eauto 10.
      * intros [?|(n' & [->|?] & ? & ?)]; eauto 10; done.
Qed.

Lemma on_bus_members s b m :
  (match bus_members s !! b with Some ms => bool_decide (m ∈ ms) | None => false end) = true <->
  on_bus s b m.
Proof.
  unfold bus_members, on_bus.
  assert (fold_left (fun members b => fold_left add_member b members) (bus s) ∅ =
          fold_left add_member (concat (bus s)) ∅) as ->.
  { generalize (∅ : gmap string (gset string)). induction (bus s) as [|l ls IH]; intros g; simpl; [done|].
    by rewrite fold_left_app, IH. }
  pose proof (bus_members_fold (concat (bus s)) ∅ b m) as H. rewrite lookup_empty in H.
  destruct (fold_left add_member (concat (bus s)) ∅ !! b); [rewrite bool_decide_eq_true|];
    rewrite <- (or_False (exists n, _)); naive_solver.
Qed.

(** The loop's state is what the accepted frames established. *)
Record abstracts (pre : list BusInjectDef) (st : ActorState) : Prop := {
  ab_plugged : plugged st = existsb is_plug pre;
  ab_totals : forall r, ota_totals st !! r = declared_total r pre;
  ab_seen : forall r, default 0 (ota_seen st !! r) = chunks_seen r pre;
}.

Lemma declared_total_snoc r pre f :
  declared_total r (pre ++ [f]) = if is_request r f then Some (nth_byte f 3) else declared_total r pre.
Proof. unfold declared_total. by rewrite fold_left_app. Qed.

Lemma chunks_seen_snoc r pre f :
  chunks_seen r (pre ++ [f]) = chunks_seen r pre + (if is_chunk r f then 1 else 0).
Proof. unfold chunks_seen. rewrite countb_app, countb_cons, countb_nil. lia. Qed.

Lemma byte_at_nth f i : (i < length (bi_data f))%nat -> byte_at f i = Ret (nth_byte f i).
Proof.
  intros H. unfold byte_at, nth_byte. apply lookup_lt_is_Some in H as [b Hb]. by rewrite Hb.
Qed.

Lemma obeyed_app rs1 rs2 : obeyed (rs1 ++ rs2) <-> obeyed rs1 /\ obeyed rs2.
Proof. induction rs1 as [|r rs1 IH]; cbn; [tauto|]. rewrite IH. tauto. Qed.

Lemma first_broken_app k rs1 rs2 :
  first_broken k (rs1 ++ rs2) <-> first_broken k rs1 \/ obeyed rs1 /\ first_broken k rs2.
Proof. induction rs1 as [|r rs1 IH]; cbn; [tauto|]. rewrite IH. tauto. Qed.

Lemma first_broken_not_obeyed k rs : first_broken k rs -> ~ obeyed rs.
Proof. induction rs as [|r rs IH]; cbn; tauto. Qed.

Lemma first_broken_unique k1 k2 rs : first_broken k1 rs -> first_broken k2 rs -> k1 = k2.
Proof.
  induction rs as [|r rs IH]; cbn; [done|]. intros [[H1 <-]|[H1 H1']] [[H2 <-]|[H2 H2']]; tauto || by apply IH.
Qed.

(** What one branch of the loop body returns: it accepts the frame exactly when the rules
    do, the new state then abstracting the longer history, and otherwise names the first
    rule that is broken. *)
Definition verdict (pre : list BusInjectDef) (f : BusInjectDef) (rules : list rule)
    (o : outcome (result ActorState ValidationError)) : Prop :=
  match o with
  | Ret (ROk st) => obeyed rules /\ abstracts (pre ++ [f]) st
  | Ret (RErr e) => first_broken (kind e) rules
  | Panic => False
  end.

Lemma declared_total_known r pre :
  is_Some (declared_total r pre) <-> exists g, g ∈ pre /\ is_request r g = true.
Proof.
  induction pre as [|f pre IH] using rev_ind.
  { split; [by intros []|]. intros (g & Hg & _). by apply not_elem_of_nil in Hg. }
  rewrite declared_total_snoc. setoid_rewrite elem_of_app. setoid_rewrite list_elem_of_singleton.
  destruct (is_request r f) eqn:E; [split; eauto|]. rewrite IH.
  split; [intros (g & ? & ?); eauto|]. intros (g & [?| ->] & Hg); [eauto|congruence].
Qed.

Lemma payload_rules_ok pre f : obeyed (payload_rules pre f) <-> payload_ok pre f.
Proof.
  unfold payload_rules, payload_ok. destruct (bi_id f =? MSG_EVSE_EVENT); cbn; [tauto|].
  destruct (bi_id f =? MSG_OTA_REQUEST); cbn; [tauto|]. destruct (bi_id f =? MSG_OTA_CHUNK); cbn; [|tauto].
  rewrite <- declared_total_known.
  destruct (declared_total (nth_byte f 1) pre) as [t|]; [|split; [by intros (_ & [? ?] & _)|by intros (_ & _ & ? & ? & _)]].
  split; [intros (H1 & _ & [H2 H3] & _); eauto 10|intros (H1 & H2 & t' & [= <-] & H3)].
  split_and!; [done|done|done|by intros ? [= <-]|done].
Qed.

Lemma frame_rules_ok s pre f : obeyed (frame_rules s pre f) <-> frame_ok s pre f.
Proof. unfold frame_rules, frame_ok. rewrite obeyed_app, payload_rules_ok. cbn. tauto. Qed.

Lemma abstracts_same pre st f :
  abstracts pre st -> (forall r, is_request r f = false) -> (forall r, is_chunk r f = false) ->
  is_plug f = false -> abstracts (pre ++ [f]) st.
Proof.
  intros [Hp Ht Hs] Hr Hc Hpl. split.
  - rewrite existsb_app. simpl. by rewrite Hpl, !orb_false_r.
  - intros r. by rewrite declared_total_snoc, Hr.
  - intros r. rewrite chunks_seen_snoc, Hc, Z.add_0_r. apply Hs.
Qed.

Lemma check_evse_verdict pre st f :
  abstracts pre st -> bi_id f = MSG_EVSE_EVENT -> length (bi_data f) = 6%nat ->
  verdict pre f (payload_rules pre f) (check_evse st f).
Proof.
  intros Ha Hid Hl. pose proof Ha as [Hp Ht Hs].
  assert (forall r, is_request r f = false) as Hr by (intros r; unfold is_request; by rewrite Hid).
  assert (forall r, is_chunk r f = false) as Hc by (intros r; unfold is_chunk; by rewrite Hid).
  unfold check_evse, payload_rules. rewrite Hid. simpl.
  rewrite !byte_at_nth by lia. simpl.
  destruct (Z.ltb_spec 3 (nth_byte f 1)); simpl; [by left; split; [lia|]|].
  destruct (Z.eqb_spec (nth_byte f 2) 0); simpl; [right; split; [lia|by left; split; [lia|]]|].
  destruct (Z.eqb_spec (nth_byte f 1) 1) as [E1|E1]; simpl.
  - split; [split_and!; lia|]. split; simpl.
    + rewrite existsb_app. simpl. unfold is_plug at 2. rewrite Hid, E1. by rewrite orb_true_r.
    + intros r. by rewrite declared_total_snoc, Hr.
    + intros r. rewrite chunks_seen_snoc, Hc, Z.add_0_r. apply Hs.
  - assert (is_plug f = false) as Hpl.
    { unfold is_plug. rewrite (proj2 (Z.eqb_neq _ _) E1). apply andb_false_r. }
    destruct (Z.eqb_spec (nth_byte f 1) 2) as [E2|E2]; simpl.
    + rewrite Hp. destruct (existsb is_plug pre) eqn:Eb; simpl.
      * apply existsb_elem in Eb. split; [by split_and!|]. by apply abstracts_same.
      * right. split; [lia|]. right. split; [done|]. left. split; [|done].
        intros H'. specialize (H' E2). apply existsb_elem in H'. congruence.
    + split; [by split_and!|]. by apply abstracts_same.
Qed.

Lemma check_request_verdict pre st f :
  abstracts pre st -> bi_id f = MSG_OTA_REQUEST -> length (bi_data f) = 4%nat ->
  verdict pre f (payload_rules pre f) (check_request st f).
Proof.
  intros [Hp Ht Hs] Hid Hl.
  unfold check_request, payload_rules. rewrite Hid. simpl. rewrite !byte_at_nth by lia. simpl.
  destruct (Z.eqb_spec (nth_byte f 1) 0); simpl; [naive_solver|].
  split; [done|]. split; simpl.
  - rewrite existsb_app. simpl. unfold is_plug at 2. rewrite Hid. simpl. by rewrite !orb_false_r.
  - intros r. rewrite declared_total_snoc. unfold is_request. rewrite Hid. simpl.
    destruct (Z.eqb_spec (nth_byte f 1) r) as [<-|Hne].
    + by rewrite lookup_insert_eq.
    + by rewrite lookup_insert_ne.
  - intros r. rewrite chunks_seen_snoc. unfold is_chunk. rewrite Hid. simpl. rewrite Z.add_0_r.
    destruct (decide (nth_byte f 1 = r)) as [<-|Hne].
    + rewrite lookup_insert_eq. simpl. apply Hs.
    + rewrite lookup_insert_ne by done. apply Hs.
Qed.

Lemma declared_total_u8 r pre t :
  Forall (fun f => Forall (fits U8) (bi_data f)) pre -> declared_total r pre = Some t -> t <= 255.
Proof.
  induction pre as [|f pre IH] using rev_ind; [done|]. rewrite declared_total_snoc.
  intros [Hpre Hf]%Forall_app. apply Forall_cons in Hf as [Hf _]. case_match; [|by auto]. intros [= <-].
  unfold nth_byte. destruct (bi_data f !! 3%nat) as [b|] eqn:E; [|simpl; lia].
  eapply Forall_lookup_1 in Hf; [|exact E]. simpl. int_lia.
Qed.

Lemma check_chunk_verdict p pre st f :
  abstracts pre st -> bi_id f = MSG_OTA_CHUNK -> length (bi_data f) = 8%nat ->
  Forall (fun f => Forall (fits U8) (bi_data f)) pre ->
  verdict pre f (payload_rules pre f) (check_chunk p st f).
Proof.
  intros [Hp Ht Hs] Hid Hl Hb.
  unfold check_chunk, payload_rules. rewrite Hid. simpl. rewrite !byte_at_nth by lia. simpl.
  destruct (Z.eqb_spec (nth_byte f 1) 0); simpl; [naive_solver|].
  rewrite Ht, Hs. destruct (declared_total (nth_byte f 1) pre) as [total|] eqn:Et; simpl; cycle 1.
  { right. split; [done|]. left. split; [|done]. rewrite <- declared_total_known, Et. by intros []. }
  assert (exists g, g ∈ pre /\ is_request (nth_byte f 1) g = true) as Hreq by (by rewrite <- declared_total_known, Et).
  destruct (Z.eqb_spec (nth_byte f 2) (chunks_seen (nth_byte f 1) pre)) as [E|E]; simpl.
  2: { right. split; [done|]. right. split; [done|]. left. split; [|done]. by intros [? _]. }
  destruct (Z.leb_spec total (nth_byte f 2)); simpl.
  { right. split; [done|]. right. split; [done|]. left. split; [|done]. intros [_ Ht']. specialize (Ht' _ eq_refl). lia. }
  pose proof (declared_total_u8 _ _ _ Hb Et).
  pose proof (countb_nonneg (is_chunk (nth_byte f 1)) pre) as Hnn. fold (chunks_seen (nth_byte f 1) pre) in Hnn.
  rewrite arith_Ret by int_lia. simpl. split; [split_and!; [done|done|done|by intros ? [= <-]|done]|]. split; simpl.
  - rewrite existsb_app. simpl. unfold is_plug at 2. rewrite Hid. simpl. by rewrite !orb_false_r.
  - intros r. rewrite declared_total_snoc. unfold is_request. rewrite Hid. apply Ht.
  - intros r. rewrite chunks_seen_snoc. unfold is_chunk. rewrite Hid. simpl.
    destruct (Z.eqb_spec (nth_byte f 1) r) as [<-|Hne].
    + by rewrite lookup_insert_eq.
    + rewrite lookup_insert_ne by done. rewrite Z.add_0_r. apply Hs.
Qed.

Lemma check_finish_verdict pre st f :
  abstracts pre st -> bi_id f = MSG_OTA_FINISH -> length (bi_data f) = 7%nat ->
  verdict pre f (payload_rules pre f) (check_finish st f).
Proof.
  intros Ha Hid Hl. pose proof Ha as [Hp Ht Hs].
  unfold check_finish, payload_rules. rewrite Hid. simpl. rewrite !byte_at_nth by lia. simpl.
  destruct (Z.eqb_spec (nth_byte f 1) 0); simpl; [naive_solver|]. rewrite Ht, Hs.
  case_bool_decide as Ed; simpl; [|naive_solver].
  destruct (Z.eqb_spec (chunks_seen (nth_byte f 1) pre) (nth_byte f 2)); simpl; [|naive_solver].
  split; [by split_and!|]. apply abstracts_same; [done|..].
  - intros r. unfold is_request. by rewrite Hid.
  - intros r. unfold is_chunk. by rewrite Hid.
  - unfold is_plug. by rewrite Hid.
Qed.

Lemma verdict_app pre f rs1 rs2 o : obeyed rs1 -> verdict pre f rs2 o -> verdict pre f (rs1 ++ rs2) o.
Proof.
  intros H1. destruct o as [[st|e]|]; cbn; [|rewrite first_broken_app; by right|done].
  rewrite obeyed_app. by intros [? ?].
Qed.

Lemma want_len_pos id : (0 < want_len id)%nat.
Proof. unfold want_len. repeat case_match; lia. Qed.

Lemma check_frame_verdict p s pre st f :
  abstracts pre st -> is_actor_frame f = true ->
  Forall (fun f => Forall (fits U8) (bi_data f)) pre ->
  verdict pre f (frame_rules s pre f) (check_frame p s st f).
Proof.
  intros Ha Hid Hb. unfold check_frame, frame_rules.
  destruct (is_ecu s (bi_sender f)) eqn:He; [by left|].
  pose proof (on_bus_members s (bi_bus f) (bi_sender f)) as Hbus.
  destruct (match bus_members s !! bi_bus f with Some ms => _ | None => _ end); cbn [negb];
    [|right; split; [done|]; left; split; [by intros ?%Hbus|done]].
  apply proj1 in Hbus. specialize (Hbus eq_refl).
  destruct (Nat.eqb_spec (length (bi_data f)) (want_len (bi_id f))) as [Hl|Hl]; cbn [negb];
    [|right; split; [done|]; right; split; [done|]; by left].
  pose proof (want_len_pos (bi_id f)). rewrite byte_at_nth by lia. cbn [obind].
  destruct (Z.eqb_spec (nth_byte f 0) (if bi_id f =? MSG_EVSE_EVENT then NODE_EVSE else NODE_OTA_TOOL))
    as [Hn|Hn]; cbn [negb]; [|do 3 (right; split; [done|]); by left].
  apply verdict_app; [by split_and!|]. clear H.
  unfold is_actor_frame in Hid. unfold want_len in Hl.
  destruct (Z.eqb_spec (bi_id f) MSG_EVSE_EVENT) as [E|_]; [by apply check_evse_verdict|].
  destruct (Z.eqb_spec (bi_id f) MSG_OTA_REQUEST) as [E|_]; [by apply check_request_verdict|].
  destruct (Z.eqb_spec (bi_id f) MSG_OTA_CHUNK) as [E|_]; [by apply check_chunk_verdict|].
  destruct (Z.eqb_spec (bi_id f) MSG_OTA_FINISH) as [E|_]; [by apply check_finish_verdict|done].
Qed.

(** A result that accepts what obeys the rules and names the first that is broken. *)
Definition judged (rules : list rule) (r : result unit ValidationError) : Prop :=
  match r with
  | ROk _ => obeyed rules
  | RErr e => first_broken (kind e) rules
  end.

Lemma judged_accepts rules r : judged rules r -> (r = ROk tt <-> obeyed rules).
Proof.
  destruct r as [[]|e]; cbn; [done|]. intros H. split; [done|]. by intros ?%(first_broken_not_obeyed _ _ H).
Qed.

Lemma judged_names rules r k : judged rules r -> ((exists e, r = RErr e /\ kind e = k) <-> first_broken k rules).
Proof.
  destruct r as [[]|e]; cbn; intros H.
  - split; [by intros (e & ? & _)|]. by intros ?%first_broken_not_obeyed.
  - split; [by intros (e' & [= <-] & <-)|]. intros Hk. exists e. split; [done|]. by eapply first_broken_unique.
Qed.

Lemma frames_rules_ok s pre frames : obeyed (frames_rules s pre frames) <-> frames_ok s pre frames.
Proof.
  revert pre; induction frames as [|f frames IH]; intros pre; cbn [frames_rules frames_ok]; [done|].
  by rewrite obeyed_app, frame_rules_ok, IH.
Qed.

Lemma check_frames_spec p s frames pre st :
  abstracts pre st -> Forall (fun f => is_actor_frame f = true) frames ->
  Forall (fun f => Forall (fits U8) (bi_data f)) (pre ++ frames) ->
  exists r, check_frames p s st frames = Ret r /\ judged (frames_rules s pre frames) r.
Proof.
  revert pre st; induction frames as [|f frames IH]; intros pre st Ha Hid Hb; cbn [check_frames frames_rules].
  - by exists (ROk tt).
  - apply Forall_cons in Hid as [Hf Hid].
    pose proof (check_frame_verdict p s pre st f Ha Hf (proj1 (proj1 (Forall_app _ _ _) Hb))) as Hv.
    destruct (check_frame p s st f) as [[st'|e]|]; cbn [verdict obind] in *; [|exists (RErr e)|done].
    2: { split; [done|]. cbn [judged]. rewrite first_broken_app. by left. }
    destruct Hv as [Hok Ha']. destruct (IH (pre ++ [f]) st' Ha' Hid) as (r & Hr & Hj).
    + by rewrite <- app_assoc.
    + exists r. split; [done|]. destruct r; cbn [judged] in *; [by rewrite obeyed_app|rewrite first_broken_app; by right].
Qed.

Lemma actor_frames_elem s f :
  f ∈ actor_frames s <-> f ∈ bus_inject s /\ is_actor_frame f = true.
Proof.
  unfold actor_frames.
  destruct (sort_by_key_spec bi_at_ms (List.filter is_actor_frame (bus_inject s))) as (_ & Hp & _).
  rewrite Hp. by rewrite !list_elem_of_In, filter_In.
Qed.

Lemma validate_actors_spec p s :
  bytes_wf s ->
  exists r, validate_external_actor_frames p s = Ret r /\ judged (frames_rules s [] (actor_frames s)) r.
Proof.
  intros Hb. apply check_frames_spec.
  - split; [done|intros r; apply lookup_empty|intros r; simpl; by rewrite lookup_empty].
  - apply Forall_forall. intros f Hf. by apply actor_frames_elem in Hf as [_ ?].
  - simpl. apply Forall_forall. intros f Hf. apply actor_frames_elem in Hf as [? _]. by apply Hb.
Qed.

(** The kind of an error of each check. *)
Definition actor_kinds : list string :=
  ["actor-has-firmware"; "actor-not-on-bus"; "bad-payload-length"; "bad-source-node";
   "bad-enum-value"; "zero-request-id"; "handshake-before-plug"; "chunk-before-request";
   "ota-chunk-order"; "ota-finish-mismatch"].

Definition kind_in (ks : list string) (r : result unit ValidationError) : Prop :=
  match r with ROk _ => True | RErr e => kind e ∈ ks end.

Lemma rfold_kind {A S : Type} (f : S -> A -> result S ValidationError)
    (ks : list string) s l e :
  (forall s a e, f s a = RErr e -> kind e ∈ ks) -> rfold f s l = RErr e -> kind e ∈ ks.
Proof.
  intros Hf. revert s; induction l as [|a l IH]; intros s; simpl; [done|].
  destruct (f s a) eqn:E; simpl; [apply IH|]. intros [= <-]. by eapply Hf.
Qed.

(** An error literally named by [new_error]. *)
Ltac kind_of H :=
  repeat case_match; unfold new_error in *; simplify_eq/=; rewrite ?elem_of_cons; auto 15.

Lemma check_frame_kind p s st f e : check_frame p s st f = Ret (RErr e) -> kind e ∈ actor_kinds.
Proof.
  unfold check_frame, check_evse, check_request, check_chunk, check_finish, actor_kinds. intros H.
  repeat first [ case_match | progress simplify_eq/= | apply obind_Ret in H as (? & ? & H) ];
    unfold new_error in *; simplify_eq/=; apply (bool_decide_unpack _); vm_compute; exact I.
Qed.

Lemma check_frames_kind p s st frames e :
  check_frames p s st frames = Ret (RErr e) -> kind e ∈ actor_kinds.
Proof.
  revert st; induction frames as [|f frames IH]; intros st H; simpl in H; [done|].
  apply obind_Ret in H as ([st'|e'] & Hf & H); [by apply IH in H|].
  simplify_eq. by eapply check_frame_kind.
Qed.

Lemma validate_static_spec s :
  match validate_static s with
  | ROk _ => firmware_ok s /\ gateway_ok s /\ nodes_ok s /\ drive_ok s
  | RErr e =>
      (kind e = "unknown-firmware" /\ ~ firmware_ok s) \/
      (kind e = "missing-gateway" /\ firmware_ok s /\ ~ gateway_ok s) \/
      (kind e = "duplicate-bus-node" /\ firmware_ok s /\ gateway_ok s /\ ~ nodes_ok s) \/
      (kind e = "drive-without-powertrain" /\ firmware_ok s /\ gateway_ok s /\ nodes_ok s /\ ~ drive_ok s)
  end.
Proof.
  unfold validate_static.
  pose proof (rfold_check check_firmware (machine s)) as H1. setoid_rewrite check_firmware_ok in H1.
  fold (firmware_ok s) in H1. pose proof (check_gateway_ok s) as H2. pose proof (check_buses_ok s) as H3.
  pose proof (check_drive_ok s) as H4.
  destruct (rfold check_firmware tt (machine s)) as [[]|e] eqn:E1; simpl.
  2: { left. split; [|naive_solver]. eapply (rfold_kind _ ["unknown-firmware"]) in E1.
       - by apply list_elem_of_singleton in E1.
       - intros [] m e'. unfold check_firmware. intros H. kind_of H. }
  destruct (check_gateway s) as [[]|e] eqn:E2; simpl.
  2: { right; left. split; [|naive_solver]. unfold check_gateway in E2. kind_of E2. }
  destruct (rfold check_bus ∅ (bus s)) as [seen|e] eqn:E3; simpl.
  2: { right; right; left. split; [|naive_solver].
       eapply (rfold_kind _ ["duplicate-bus-node"]) in E3.
       - by apply list_elem_of_singleton in E3.
       - intros g b e' Hb. eapply (rfold_kind _ ["duplicate-bus-node"]) in Hb; [done|].
         intros g' n e''. unfold check_node. intros H. kind_of H. }
  destruct (if negb _ then _ else _) as [[]|e] eqn:E4; [naive_solver|].
  right; right; right. split; [|naive_solver]. destruct (negb _); [|done].
  eapply (rfold_kind _ ["drive-without-powertrain"]) in E4.
  - by apply list_elem_of_singleton in E4.
  - intros [] i e'. unfold check_input. intros H. kind_of H.
Qed.

Lemma validate_static_judged s :
  match validate_static s with
  | ROk _ => obeyed (vehicle_rules s)
  | RErr e => first_broken (kind e) (vehicle_rules s)
  end.
Proof.
  pose proof (validate_static_spec s) as H. destruct (validate_static s) as [a|e]; cbn; [tauto|].
  destruct H as [[-> H]|[[-> H]|[[-> H]|[-> H]]]]; tauto.
Qed.

Lemma validate_scenario_judged p s :
  bytes_wf s -> exists r, validate_scenario p s = Ret r /\ judged (scenario_rules s) r.
Proof.
  intros Hb. unfold validate_scenario, scenario_rules. pose proof (validate_static_judged s) as Hs.
  destruct (validate_static s) as [a|e].
  - destruct (validate_actors_spec p s Hb) as (r & -> & Hr). exists r. split; [done|].
    destruct r as [b|e]; cbn [judged] in *; [by rewrite obeyed_app|rewrite first_broken_app; by right].
  - exists (RErr e). split; [done|]. cbn [judged]. rewrite first_broken_app. by left.
Qed.

(** C30: [validate_scenario] never panics on a scenario whose payloads are bytes, under
    either profile, and accepts it exactly when it obeys all five rules: firmware paths
    resolve, a drivetrain ECU comes with a gateway, no machine is attached to a bus twice,
    throttle needs a powertrain, and every external-actor frame obeys the protocol given
    the frames before it in time. *)
Theorem validate_scenario_sound_complete p s :
  bytes_wf s ->
  exists r, validate_scenario p s = Ret r /\
    (r = ROk tt <->
     firmware_ok s /\ gateway_ok s /\ nodes_ok s /\ drive_ok s /\ actors_ok s).
Proof.
  intros Hb. destruct (validate_scenario_judged p s Hb) as (r & Hr & Hj). exists r. split; [done|].
  rewrite (judged_accepts _ _ Hj). unfold scenario_rules. rewrite obeyed_app, frames_rules_ok.
  fold (actors_ok s). cbn. tauto.
Qed.

(** C31: Each of the fourteen error kinds is reported exactly when its rule is the first one
    broken: the four rules about the vehicle come first, in their order, then the frames of
    external actors by time, and for each frame its sender, its bus, its length, its source
    node and the rules of its payload, given the frames before it.  The two conditions on a
    chunk's index share a kind, and so do the two on a finish. *)
Theorem validate_error_kinds p s k :
  bytes_wf s ->
  (exists e, validate_scenario p s = Ret (RErr e) /\ kind e = k) <-> first_broken k (scenario_rules s).
Proof.
  intros Hb. destruct (validate_scenario_judged p s Hb) as (r & Hr & Hj).
  rewrite <- (judged_names _ _ k Hj), Hr. split; intros (e & [= ->] & He); by exists e.
Qed.

(** A vehicle of gateway, powertrain and an OTA tool that sends [frames]. *)
Definition sample_scenario (frames : list BusInjectDef) : Scenario := {|
  machine := [ {| m_name := "gw"; m_firmware := Some "firmware/gateway_ecu" |};
               {| m_name := "pt"; m_firmware := Some "firmware/powertrain_ecu" |};
               {| m_name := "tool"; m_firmware := None |} ];
  bus := [ [ {| n_bus := "vcan0"; n_machine := "gw" |};
             {| n_bus := "vcan0"; n_machine := "pt" |};
             {| n_bus := "vcan0"; n_machine := "tool" |} ] ];
  input := [ {| input_type := "driver_input"; at_ms := 100; throttle_percent := Some 40 |} ];
  bus_inject := frames;
|}.

Definition ota_frame (time id : Z) (data : list Z) : BusInjectDef :=
  {| bi_at_ms := time; bi_id := id; bi_sender := "tool"; bi_bus := "vcan0"; bi_data := data |}.

Definition good_ota : list BusInjectDef :=
  [ota_frame 30 0x632 [7; 1; 1; 0; 0; 0; 0]; ota_frame 10 0x630 [7; 1; 0; 1];
   ota_frame 20 0x631 [7; 1; 0; 0; 0; 0; 0; 0]].

Lemma sample_wf frames :
  forallb (fun f => forallb (fitsb U8) (bi_data f)) frames = true -> bytes_wf (sample_scenario frames).
Proof.
  intros H f Hf. apply (proj1 (forallb_elem _ _) H) in Hf. apply Forall_forall.
  intros b Hb. apply fitsb_spec. by apply (proj1 (forallb_elem _ _) Hf).
Qed.

Lemma validate_scenario_sound_complete_witness :
  bytes_wf (sample_scenario good_ota) /\ actors_ok (sample_scenario good_ota).
Proof.
  assert (H : bytes_wf (sample_scenario good_ota)) by (apply sample_wf; vm_compute; reflexivity).
  split; [exact H|].
  destruct (validate_scenario_sound_complete Debug _ H) as (r & Hr & Hiff).
  vm_compute in Hr. injection Hr as Hr. apply Hiff. symmetry. exact Hr.
Defined.

Lemma validate_error_kinds_witness :
  let s := sample_scenario (take 2 good_ota) in
  bytes_wf s /\ first_broken "ota-finish-mismatch" (scenario_rules s).
Proof.
  intros s.
  assert (H : bytes_wf s) by (apply sample_wf; vm_compute; reflexivity). split; [exact H|].
  apply (validate_error_kinds Debug s "ota-finish-mismatch" H).
  exists {| kind := "ota-finish-mismatch"; message := "OTA_FINISH total 1 != declared Some(1) / observed 0" |}.
  split; vm_compute; reflexivity.
Defined.

(** Every kind validation can report. *)
Definition validation_kinds : list string :=
  ["unknown-firmware"; "missing-gateway"; "duplicate-bus-node"; "drive-without-powertrain"] ++ actor_kinds.

Lemma validate_scenario_kind p s e : validate_scenario p s = Ret (RErr e) -> kind e ∈ validation_kinds.
Proof.
  unfold validate_scenario, validation_kinds. rewrite elem_of_app.
  pose proof (validate_static_spec s) as Hs. destruct (validate_static s) as [[]|e0].
  - intros H. right. by eapply check_frames_kind.
  - intros [= ->]. left. rewrite !elem_of_cons. naive_solver.
Qed.

Lemma validate_scenario_total p s : bytes_wf s -> validate_scenario p s <> Panic.
Proof.
  intros Hb. unfold validate_scenario. destruct (validate_static s); [|done].
  by destruct (validate_actors_spec p s Hb) as (r & -> & _).
Qed.
