(* ===== verification/Json.v ===== *)
(** * The JSON emitter ([dogfood/src/json.rs])

    The writer, and a parser of the JSON grammar it is read back with. *)

From S2P Require Import Prelude MachineInt RustStr.

Inductive Json : Type :=
  | Null
  | Bool (b : bool)
  | Int (n : Z)
  | UInt (n : Z)
  | Str (s : string)
  | Arr (items : list Json)
  | Obj (fields : list (string * Json)).

Definition str (s : string) : Json := Str s.

(** One character of a string literal. *)
Definition escape_char (c : ascii) : string :=
  if byte c =? 34 then String backslash (String dquote "")
  else if byte c =? 92 then String backslash (String backslash "")
  else if byte c =? 10 then String backslash "n"
  else if byte c =? 13 then String backslash "r"
  else if byte c =? 9 then String backslash "t"
  else if byte c =? 8 then String backslash "b"
  else if byte c =? 12 then String backslash "f"
  else if byte c <? 0x20 then String backslash ("u" +:+ fmt_hex 4 (byte c))
  else String c "".

Fixpoint escape_chars (s : string) : string :=
  match s with
  | "" => ""
  | String c s => escape_char c +:+ escape_chars s
  end.

Definition write_escaped (s : string) : string :=
  quote_str +:+ escape_chars s +:+ quote_str.

Fixpoint push_indent (level : nat) : string :=
  match level with O => "" | S level => "  " +:+ push_indent level end.

(** The loop over the items of an array or the fields of an object, whose bodies [w] are
    already written: each is followed by a comma except the last, and by a newline. *)
Fixpoint write_loop (indent : nat) (ws : list string) : string :=
  match ws with
  | [] => ""
  | [w] => push_indent (S indent) +:+ w +:+ newline_str
  | w :: ws => push_indent (S indent) +:+ w +:+ "," +:+ newline_str +:+ write_loop indent ws
  end.

Fixpoint write (j : Json) (indent : nat) : string :=
  match j with
  | Null => "null"
  | Bool b => if b then "true" else "false"
  | Int n => fmt_int n
  | UInt n => fmt_int n
  | Str s => write_escaped s
  | Arr [] => "[]"
  | Arr items =>
      "[" +:+ newline_str +:+ write_loop indent (map (fun item => write item (S indent)) items)
      +:+ push_indent indent +:+ "]"
  | Obj [] => "{}"
  | Obj fields =>
      "{" +:+ newline_str
      +:+ write_loop indent
            (map (fun '(k, v) => write_escaped k +:+ ": " +:+ write v (S indent)) fields)
      +:+ push_indent indent +:+ "}"
  end.

Definition to_pretty (j : Json) : string := write j 0 +:+ newline_str.

(** ** Reading it back

    A parser of RFC 8259 texts, without fractions and exponents. *)

Inductive jvalue : Type :=
  | JNull
  | JBool (b : bool)
  | JNum (n : Z)
  | JStr (s : string)
  | JArr (items : list jvalue)
  | JObj (fields : list (string * jvalue)).

Fixpoint value_of (j : Json) : jvalue :=
  match j with
  | Null => JNull
  | Bool b => JBool b
  | Int n | UInt n => JNum n
  | Str s => JStr s
  | Arr items => JArr (map value_of items)
  | Obj fields => JObj (map (fun '(k, v) => (k, value_of v)) fields)
  end.

Definition is_json_ws (c : ascii) : bool :=
  (byte c =? 32) || (byte c =? 10) || (byte c =? 13) || (byte c =? 9).

Fixpoint skip_ws (s : string) : string :=
  match s with
  | String c s' => if is_json_ws c then skip_ws s' else s
  | "" => ""
  end.

(** The next character of a string literal, [None] at the closing quote. *)
Definition parse_char (s : string) : option (option ascii * string) :=
  match s with
  | "" => None
  | String c r =>
      if byte c =? 34 then Some (None, r)
      else if byte c =? 92 then
        match r with
        | String e r' =>
            if byte e =? 34 then Some (Some dquote, r')
            else if byte e =? 92 then Some (Some backslash, r')
            else if byte e =? 110 then Some (Some (chr 10), r')
            else if byte e =? 114 then Some (Some (chr 13), r')
            else if byte e =? 116 then Some (Some (chr 9), r')
            else if byte e =? 98 then Some (Some (chr 8), r')
            else if byte e =? 102 then Some (Some (chr 12), r')
            else if byte e =? 117 then
              match r' with
              | String a (String b (String x (String y r''))) =>
                  match digit_val 16 a, digit_val 16 b, digit_val 16 x, digit_val 16 y with
                  | Some 0, Some 0, Some p, Some q => Some (Some (chr (16 * p + q)), r'')
                  | _, _, _, _ => None
                  end
              | _ => None
              end
            else None
        | "" => None
        end
      else if byte c <? 0x20 then None
      else Some (Some c, r)
  end.

Fixpoint parse_string (fuel : nat) (s : string) : option (string * string) :=
  match fuel with
  | O => None
  | S fuel =>
      match parse_char s with
      | Some (Some c, r) =>
          match parse_string fuel r with
          | Some (t, r') => Some (String c t, r')
          | None => None
          end
      | Some (None, r) => Some ("", r)
      | None => None
      end
  end.

Fixpoint span_digits (s : string) : string * string :=
  match s with
  | String c s' =>
      if is_ascii_digit c then let '(d, r) := span_digits s' in (String c d, r) else ("", s)
  | "" => ("", "")
  end.

Definition parse_number (s : string) : option (Z * string) :=
  let '(neg, s) := match s with String "-" s' => (true, s') | _ => (false, s) end in
  let '(d, r) := span_digits s in
  match d with
  | "" => None
  | _ => match from_str_radix U128 10 d with
         | Some n => Some (if neg : bool then - n else n, r)
         | None => None
         end
  end.

Definition literal (word : string) (v : jvalue) (s : string) : option (jvalue * string) :=
  match strip_prefix word s with Some r => Some (v, r) | None => None end.

Fixpoint parse_value (fuel : nat) (s0 : string) {struct fuel} : option (jvalue * string) :=
  match fuel with
  | O => None
  | S fuel =>
      let s := skip_ws s0 in
      match s with
      | "" => None
      | String c r =>
          if byte c =? 34 then
            match parse_string (S (String.length r)) r with
            | Some (t, r') => Some (JStr t, r')
            | None => None
            end
          else if byte c =? 91 then
            match skip_ws r with
            | String d r' => if byte d =? 93 then Some (JArr [], r') else
                match parse_items fuel r with
                | Some (vs, r'') => Some (JArr vs, r'')
                | None => None
                end
            | "" => None
            end
          else if byte c =? 123 then
            match skip_ws r with
            | String d r' => if byte d =? 125 then Some (JObj [], r') else
                match parse_fields fuel r with
                | Some (vs, r'') => Some (JObj vs, r'')
                | None => None
                end
            | "" => None
            end
          else if byte c =? 110 then literal "null" JNull s
          else if byte c =? 116 then literal "true" (JBool true) s
          else if byte c =? 102 then literal "false" (JBool false) s
          else match parse_number s with Some (n, r') => Some (JNum n, r') | None => None end
      end
  end
with parse_items (fuel : nat) (s : string) {struct fuel} : option (list jvalue * string) :=
  match fuel with
  | O => None
  | S fuel =>
      match parse_value fuel s with
      | None => None
      | Some (v, r) =>
          match skip_ws r with
          | String c r' =>
              if byte c =? 93 then Some ([v], r')
              else if byte c =? 44 then
                match parse_items fuel r' with
                | Some (vs, r'') => Some (v :: vs, r'')
                | None => None
                end
              else None
          | "" => None
          end
      end
  end
with parse_fields (fuel : nat) (s : string) {struct fuel} : option (list (string * jvalue) * string) :=
  match fuel with
  | O => None
  | S fuel =>
      match skip_ws s with
      | String q r0 =>
          if byte q =? 34 then
            match parse_string (S (String.length r0)) r0 with
            | Some (k, r1) =>
                match skip_ws r1 with
                | String d r2 =>
                    if byte d =? 58 then
                      match parse_value fuel r2 with
                      | Some (v, r) =>
                          match skip_ws r with
                          | String c r' =>
                              if byte c =? 125 then Some ([(k, v)], r')
                              else if byte c =? 44 then
                                match parse_fields fuel r' with
                                | Some (vs, r'') => Some ((k, v) :: vs, r'')
                                | None => None
                                end
                              else None
                          | "" => None
                          end
                      | None => None
                      end
                    else None
                | "" => None
                end
            | None => None
            end
          else None
      | "" => None
      end
  end.

(** A whole text: one value and white space. *)
Definition parse_json (fuel : nat) (s : string) : option jvalue :=
  match parse_value fuel s with
  | Some (v, r) => match skip_ws r with "" => Some v | _ => None end
  | None => None
  end.

(** The numbers are [i64] and [u128] values. *)
Fixpoint wf (j : Json) : Prop :=
  match j with
  | Null | Bool _ | Str _ => True
  | Int n => fits I64 n
  | UInt n => fits U128 n
  | Arr items => fold_right (fun j P => wf j /\ P) True items
  | Obj fields => fold_right (fun '(_, j) P => wf j /\ P) True fields
  end.

(** Nesting depth plus lengths: the parser's fuel. *)
Fixpoint json_size (j : Json) : nat :=
  match j with
  | Arr items => S (fold_right (fun j n => S (json_size j + n)) 1%nat items)
  | Obj fields => S (fold_right (fun '(_, j) n => S (json_size j + n)) 1%nat fields)
  | _ => 1%nat
  end.

(** ** Round trip *)

(** Induction over a value and its parts. *)
Section Induction.
Context (P : Json -> Prop).
Context (HNull : P Null) (HBool : forall b, P (Bool b)) (HInt : forall n, P (Int n))
        (HUInt : forall n, P (UInt n)) (HStr : forall s, P (Str s))
        (HArr : forall items, Forall P items -> P (Arr items))
        (HObj : forall fields, Forall (fun kv => P (snd kv)) fields -> P (Obj fields)).

Fixpoint json_nested_ind (j : Json) : P j :=
  match j with
  | Null => HNull
  | Bool b => HBool b
  | Int n => HInt n
  | UInt n => HUInt n
  | Str s => HStr s
  | Arr items =>
      HArr items ((fix go l : Forall P l :=
                     match l with
                     | [] => Forall_nil_2 P
                     | j :: l => Forall_cons_2 P j l (json_nested_ind j) (go l)
                     end) items)
  | Obj fields =>
      HObj fields ((fix go l : Forall (fun kv => P (snd kv)) l :=
                     match l with
                     | [] => Forall_nil_2 _
                     | kv :: l => Forall_cons_2 (fun kv => P (snd kv)) kv l (json_nested_ind (snd kv)) (go l)
                     end) fields)
  end.
End Induction.

Lemma parse_char_escape c rest : parse_char (escape_char c +:+ rest) = Some (Some c, rest).
Proof. destruct c as [[] [] [] [] [] [] [] []]; reflexivity. Qed.

Lemma parse_string_escape s rest fuel :
  (String.length s < fuel)%nat ->
  parse_string fuel (escape_chars s +:+ quote_str +:+ rest) = Some (s, rest).
Proof.
  revert fuel; induction s as [|c s IH]; intros [|fuel] H; simpl in H; try lia; [done|].
  cbn [escape_chars parse_string]. rewrite str_app_assoc, parse_char_escape.
  by rewrite IH by lia.
Qed.

Lemma escape_length s : (String.length s <= String.length (escape_chars s))%nat.
Proof.
  induction s as [|c s IH]; [done|]. cbn [escape_chars]. rewrite str_app_length. cbn [String.length].
  assert (1 <= String.length (escape_char c))%nat; [|lia].
  unfold escape_char. repeat case_match; simpl; lia.
Qed.

(** The literal after its opening quote. *)
Lemma parse_string_written s rest :
  let r := escape_chars s +:+ quote_str +:+ rest in
  parse_string (S (String.length r)) r = Some (s, rest).
Proof.
  intros r. apply parse_string_escape. subst r. rewrite str_app_length.
  pose proof (escape_length s). lia.
Qed.

Fixpoint all_digits (s : string) : bool :=
  match s with "" => true | String c s => is_ascii_digit c && all_digits s end.

Lemma digit_char_is_digit d : 0 <= d < 10 -> is_ascii_digit (digit_char d) = true.
Proof.
  intros Hd. unfold is_ascii_digit. by rewrite digit_val_char by lia.
Qed.

Lemma digits_go_all fuel n acc :
  all_digits acc = true -> all_digits (digits_go fuel 10 n acc) = true.
Proof.
  revert n acc; induction fuel as [|fuel IH]; intros n acc H; simpl; [done|].
  pose proof (Z.mod_pos_bound n 10 ltac:(lia)).
  assert (all_digits (String (digit_char (n mod 10)) acc) = true).
  { simpl. by rewrite digit_char_is_digit by lia. }
  destruct (n <? 10); [done|]. by apply IH.
Qed.

(** The text after a value: a digit there would be read as part of a number. *)
Definition stops (rest : string) : bool :=
  match rest with "" => true | String c _ => negb (is_ascii_digit c) end.

Lemma span_digits_all d rest :
  all_digits d = true -> stops rest = true -> span_digits (d +:+ rest) = (d, rest).
Proof.
  intros Hd Hr. induction d as [|c d IH].
  - rewrite str_nil_app. destruct rest as [|c r]; [done|]. simpl in *.
    by destruct (is_ascii_digit c).
  - rewrite str_cons_app. simpl in *. apply andb_true_iff in Hd as [-> Hd]. by rewrite IH.
Qed.

Lemma fmt_radix_head n :
  exists c s, fmt_radix 10 n = String c s /\ is_ascii_digit c = true /\ all_digits s = true.
Proof.
  assert (all_digits (fmt_radix 10 n) = true) as H by (by apply digits_go_all).
  destruct (digits_go_head (S (Z.to_nat (Z.log2 n))) 10 n "") as (d & s & E & Hd); [lia|lia|].
  change (digits_go _ 10 n "") with (fmt_radix 10 n) in E. rewrite E in *.
  exists (digit_char d), s. simpl in H. apply andb_true_iff in H as [? ?]. done.
Qed.

Lemma parse_number_nonneg n rest :
  fits U128 n -> stops rest = true -> parse_number (fmt_radix 10 n +:+ rest) = Some (n, rest).
Proof.
  intros Hn Hr. destruct (fmt_radix_head n) as (c & s & E & Hc & Hs).
  unfold parse_number.
  assert ((match fmt_radix 10 n +:+ rest with String "-" s' => (true, s') | _ => (false, fmt_radix 10 n +:+ rest) end)
          = (false, fmt_radix 10 n +:+ rest)) as ->.
  { rewrite E, str_cons_app. by destruct c as [[] [] [] [] [] [] [] []]. }
  rewrite span_digits_all; [|rewrite E; simpl; by rewrite Hc|done].
  rewrite from_str_radix_fmt by (done || int_lia). by rewrite E.
Qed.

Lemma parse_number_int n rest :
  - 2 ^ 63 <= n < 2 ^ 128 -> stops rest = true ->
  parse_number (fmt_int n +:+ rest) = Some (n, rest).
Proof.
  intros Hn Hr. unfold fmt_int. destruct (Z.ltb_spec n 0) as [Hneg|Hpos].
  - rewrite str_cons_app. unfold parse_number.
    pose proof (parse_number_nonneg (- n) rest ltac:(int_lia) Hr) as H. unfold parse_number in H.
    destruct (fmt_radix_head (- n)) as (c & s & E & Hc & Hs).
    rewrite span_digits_all; [|rewrite E; simpl; by rewrite Hc|done].
    rewrite from_str_radix_fmt by (done || int_lia). rewrite E. by rewrite Z.opp_involutive.
  - apply parse_number_nonneg; [int_lia|done].
Qed.

Lemma skip_ws_indent n s : skip_ws (push_indent n +:+ s) = skip_ws s.
Proof. induction n as [|n IH]; [done|]. cbn [push_indent]. by rewrite str_app_assoc. Qed.

Lemma skip_ws_newline s : skip_ws (newline_str +:+ s) = skip_ws s.
Proof. done. Qed.

Lemma parse_value_skip fuel s : parse_value fuel (skip_ws s) = parse_value fuel s.
Proof.
  destruct fuel as [|fuel]; [done|]. cbn [parse_value].
  assert (skip_ws (skip_ws s) = skip_ws s) as ->; [|done].
  induction s as [|c s IH]; [done|]. simpl. destruct (is_json_ws c) eqn:E; [done|]. simpl. by rewrite E.
Qed.

(** A value starts with a character that no white space and no closing bracket is. *)
Definition starts_value (s : string) : Prop :=
  match s with
  | String c _ => is_json_ws c = false /\ byte c <> 93 /\ byte c <> 125
  | "" => False
  end.

Lemma write_starts j indent rest : starts_value (write j indent +:+ rest).
Proof.
  assert (forall n, starts_value (fmt_int n +:+ rest)) as Hint.
  { intros n. unfold fmt_int. destruct (n <? 0); [done|].
    destruct (fmt_radix_head n) as (c & s & -> & Hc & _). rewrite str_cons_app. simpl.
    by destruct c as [[] [] [] [] [] [] [] []]. }
  destruct j as [|[]|n|n|s|[|]|[|]]; cbn [write]; try done; apply Hint.
Qed.

Lemma skip_ws_starts s : starts_value s -> skip_ws s = s.
Proof. destruct s as [|c s]; [done|]. intros [H _]. simpl. by rewrite H. Qed.

Definition items_size (l : list Json) : nat :=
  fold_right (fun j n => S (json_size j + n)) 1%nat l.
Definition fields_size (l : list (string * Json)) : nat :=
  fold_right (fun '(_, j) n => S (json_size j + n)) 1%nat l.

(** [j] is read back wherever it is written. *)
Definition reads (j : Json) : Prop :=
  forall indent fuel rest, wf j -> (json_size j <= fuel)%nat -> stops rest = true ->
  parse_value fuel (write j indent +:+ rest) = Some (value_of j, rest).

Lemma parse_value_indented fuel n j indent rest :
  parse_value fuel (push_indent n +:+ write j indent +:+ rest) =
  parse_value fuel (write j indent +:+ rest).
Proof. rewrite <- parse_value_skip, skip_ws_indent. apply parse_value_skip. Qed.

Lemma parse_items_skip fuel s : parse_items fuel (skip_ws s) = parse_items fuel s.
Proof. destruct fuel as [|fuel]; [done|]. cbn [parse_items]. by rewrite parse_value_skip. Qed.

Lemma skip_ws_idem s : skip_ws (skip_ws s) = skip_ws s.
Proof.
  induction s as [|c s IH]; [done|]. simpl. destruct (is_json_ws c) eqn:E; [done|]. simpl. by rewrite E.
Qed.

Lemma parse_fields_skip fuel s : parse_fields fuel (skip_ws s) = parse_fields fuel s.
Proof. destruct fuel as [|fuel]; [done|]. cbn [parse_fields]. by rewrite skip_ws_idem. Qed.

Lemma parse_items_written items indent fuel rest :
  items <> [] -> Forall reads items -> Forall wf items -> (items_size items <= fuel)%nat ->
  parse_items fuel
    (write_loop indent (map (fun item => write item (S indent)) items)
     +:+ push_indent indent +:+ "]" +:+ rest) =
  Some (map value_of items, rest).
Proof.
  intros Hne Hr Hw. revert fuel Hne. induction Hr as [|j items Hj Hr IH]; intros fuel Hne Hf; [done|].
  inversion Hw as [|? ? Hwj Hwi]; subst. destruct fuel as [|fuel]; [simpl in Hf; lia|].
  cbn [items_size fold_right] in Hf. fold (items_size items) in Hf.
  cbn [parse_items map write_loop]. destruct items as [|j' items].
  - cbn [map]. rewrite !str_app_assoc, parse_value_indented, Hj by (done || lia).
    rewrite skip_ws_newline, skip_ws_indent. reflexivity.
  - cbn [map]. rewrite !str_app_assoc, parse_value_indented.
    rewrite Hj by (done || lia). cbn [skip_ws].
    change (skip_ws ("," +:+ newline_str +:+ ?s)) with ("," +:+ newline_str +:+ s).
    rewrite str_cons_app, str_nil_app. cbn [skip_ws].
    change (byte "," =? 93) with false. change (byte "," =? 44) with true. cbn iota.
    rewrite <- parse_items_skip, skip_ws_newline, parse_items_skip.
    change (write (j') (S indent) :: map (fun item => write item (S indent)) items)
      with (map (fun item => write item (S indent)) (j' :: items)).
    rewrite IH; [done|done|done|]. lia.
Qed.

Lemma write_loop_cons indent w ws :
  ws <> [] ->
  write_loop indent (w :: ws) =
  push_indent (S indent) +:+ w +:+ "," +:+ newline_str +:+ write_loop indent ws.
Proof. by destruct ws. Qed.

Lemma parse_fields_written fields indent fuel rest :
  fields <> [] -> Forall (fun kv => reads (snd kv)) fields -> Forall (fun kv => wf (snd kv)) fields ->
  (fields_size fields <= fuel)%nat ->
  parse_fields fuel
    (write_loop indent (map (fun '(k, v) => write_escaped k +:+ ": " +:+ write v (S indent)) fields)
     +:+ push_indent indent +:+ "}" +:+ rest) =
  Some (map (fun '(k, v) => (k, value_of v)) fields, rest).
Proof.
  intros Hne Hr Hw. revert fuel Hne.
  induction Hr as [|[k j] fields Hj Hr IH]; intros fuel Hne Hf; [done|].
  inversion Hw as [|? ? Hwj Hwi]; subst. simpl in Hj, Hwj. destruct fuel as [|fuel]; [simpl in Hf; lia|].
  cbn [fields_size fold_right] in Hf. fold (fields_size fields) in Hf.
  assert (forall tail, stops tail = true ->
    match skip_ws (push_indent (S indent) +:+ write_escaped k +:+ ": " +:+ write j (S indent) +:+ tail) with
    | String q r0 => byte q = 34 /\
        parse_string (S (String.length r0)) r0 = Some (k, ": " +:+ write j (S indent) +:+ tail)
    | "" => False
    end /\ parse_value fuel (" " +:+ write j (S indent) +:+ tail) = Some (value_of j, tail)) as Hhead.
  { intros tail Ht. split.
    - rewrite skip_ws_indent. unfold write_escaped. rewrite !str_app_assoc. unfold quote_str at 1.
      rewrite str_cons_app, str_nil_app. cbn [skip_ws]. change (is_json_ws dquote) with false. cbn iota.
      split; [done|]. apply parse_string_written.
    - rewrite <- parse_value_skip. change (skip_ws (" " +:+ ?s)) with (skip_ws s).
      rewrite parse_value_skip. apply Hj; [done|lia|done]. }
  cbn [parse_fields map]. destruct fields as [|kv fields].
  - cbn [map write_loop]. rewrite !str_app_assoc.
    specialize (Hhead (newline_str +:+ push_indent indent +:+ "}" +:+ rest) ltac:(done)) as [Hh Hv].
    destruct (skip_ws _) as [|q r0]; [done|]. destruct Hh as [-> ->]. cbn [Z.eqb].
    change (skip_ws (": " +:+ ?s)) with (String ":" (" " +:+ s)). cbn iota.
    change (34 =? 34) with true. change (byte ":" =? 58) with true. cbn iota. rewrite Hv.
    rewrite skip_ws_newline, skip_ws_indent. reflexivity.
  - cbn [map]. rewrite write_loop_cons by (by destruct kv). rewrite !str_app_assoc.
    set (tail := write_loop indent _ +:+ _) in *.
    specialize (Hhead ("," +:+ newline_str +:+ tail) ltac:(done)) as [Hh Hv].
    destruct (skip_ws _) as [|q r0]; [done|]. destruct Hh as [-> ->].
    change (skip_ws (": " +:+ ?s)) with (String ":" (" " +:+ s)). cbn iota.
    change (34 =? 34) with true. change (byte ":" =? 58) with true. cbn iota. rewrite Hv.
    rewrite str_cons_app, str_nil_app. cbn [skip_ws].
    change (is_json_ws ",") with false. cbn iota.
    change (byte "," =? 125) with false. change (byte "," =? 44) with true. cbn iota.
    rewrite <- parse_fields_skip, skip_ws_newline, parse_fields_skip.
    specialize (IH Hwi fuel ltac:(done) ltac:(lia)).
    change (parse_fields fuel tail = Some (map (fun '(k, v) => (k, value_of v)) (kv :: fields), rest)) in IH.
    by rewrite IH.
Qed.

Lemma fold_wf_items items : wf (Arr items) -> Forall wf items.
Proof.
  cbn [wf]. induction items as [|j items IH]; [constructor|]. cbn [fold_right]. intros [H1 H2].
  constructor; auto.
Qed.

Lemma fold_wf_fields fields : wf (Obj fields) -> Forall (fun kv => wf (snd kv)) fields.
Proof.
  cbn [wf]. induction fields as [|[k j] fields IH]; [constructor|]. cbn [fold_right]. intros [H1 H2].
  constructor; auto.
Qed.

Lemma parse_value_number n fuel rest :
  - 2 ^ 63 <= n < 2 ^ 128 -> stops rest = true -> (1 <= fuel)%nat ->
  parse_value fuel (fmt_int n +:+ rest) = Some (JNum n, rest).
Proof.
  intros Hn Hr Hf. destruct fuel as [|fuel]; [lia|].
  pose proof (parse_number_int n rest Hn Hr) as Hp.
  assert (exists c s, fmt_int n = String c s /\ (is_ascii_digit c = true \/ c = "-"%char)) as (c & s & E & Hc).
  { unfold fmt_int. destruct (n <? 0); [eauto|]. destruct (fmt_radix_head n) as (c & s & -> & Hc & _). eauto. }
  rewrite E, str_cons_app in *. cbn [parse_value].
  assert (is_json_ws c = false /\ byte c <> 34 /\ byte c <> 91 /\ byte c <> 123 /\ byte c <> 110 /\
          byte c <> 116 /\ byte c <> 102) as (H1 & H2 & H3 & H4 & H5 & H6 & H7).
  { destruct Hc as [Hc| ->]; [|done]. by destruct c as [[] [] [] [] [] [] [] []]. }
  cbn [skip_ws]. rewrite H1.
  rewrite !(proj2 (Z.eqb_neq (byte c) _)) by done. by rewrite Hp.
Qed.

Lemma reads_all j : reads j.
Proof.
  induction j using json_nested_ind; intros indent fuel rest Hw Hf Hr.
  - destruct fuel; [simpl in Hf; lia|]. reflexivity.
  - destruct fuel; [simpl in Hf; lia|]. by destruct b.
  - apply parse_value_number; [simpl in Hw; int_lia|done|simpl in Hf; lia].
  - apply parse_value_number; [simpl in Hw; int_lia|done|simpl in Hf; lia].
  - destruct fuel; [simpl in Hf; lia|]. cbn [write]. unfold write_escaped, quote_str at 1.
    rewrite !str_app_assoc, str_cons_app, str_nil_app. cbn [parse_value skip_ws].
    change (is_json_ws dquote) with false. change (byte dquote =? 34) with true. cbn iota.
    by rewrite parse_string_written.
  - destruct fuel as [|fuel]; [simpl in Hf; lia|].
    destruct items as [|j items]; [done|]. cbn [write]. rewrite !str_app_assoc.
    rewrite str_cons_app, str_nil_app. cbn [parse_value skip_ws].
    change (is_json_ws "[") with false. cbn iota.
    change (byte "[" =? 34) with false. change (byte "[" =? 91) with true. cbn iota.
    pose proof (parse_items_written (j :: items) indent fuel rest ltac:(done) H
                  (fold_wf_items _ Hw) ltac:(cbn [json_size] in Hf; unfold items_size; lia)) as Hp.
    rewrite <- parse_items_skip, <- skip_ws_newline, parse_items_skip in Hp. rewrite Hp.
    rewrite skip_ws_newline.
    assert (starts_value (skip_ws (write_loop indent (map (fun item => write item (S indent)) (j :: items))
              +:+ push_indent indent +:+ "]" +:+ rest))) as Hs.
    { destruct items as [|j' items]; cbn [map write_loop]; rewrite !str_app_assoc, skip_ws_indent;
        rewrite skip_ws_starts by apply write_starts; apply write_starts. }
    destruct (skip_ws _) as [|d r']; [done|]. destruct Hs as (_ & Hd & _).
    rewrite (proj2 (Z.eqb_neq (byte d) 93) Hd). done.
  - destruct fuel as [|fuel]; [simpl in Hf; lia|].
    destruct fields as [|[k j] fields]; [done|]. cbn [write]. rewrite !str_app_assoc.
    rewrite str_cons_app, str_nil_app. cbn [parse_value skip_ws].
    change (is_json_ws "{") with false. cbn iota.
    change (byte "{" =? 34) with false. change (byte "{" =? 91) with false.
    change (byte "{" =? 123) with true. cbn iota.
    pose proof (parse_fields_written ((k, j) :: fields) indent fuel rest ltac:(done) H
                  (fold_wf_fields _ Hw) ltac:(cbn [json_size] in Hf; unfold fields_size; lia)) as Hp.
    rewrite <- parse_fields_skip, <- skip_ws_newline, parse_fields_skip in Hp. rewrite Hp.
    rewrite skip_ws_newline. cbn [map].
    destruct fields as [|[k' j'] fields]; cbn [map write_loop]; rewrite !str_app_assoc, skip_ws_indent;
      reflexivity.
Qed.

(** C40: Whatever value the harness reports, reading the text it writes gives the value back:
    a parser of the JSON grammar applied to [to_pretty j], with fuel for its nesting,
    returns [j] with its keys in order and every string character for character, control
    characters, quotes and non-ASCII bytes included, and nothing is left over. *)
Theorem json_roundtrip j fuel :
  wf j -> (json_size j <= fuel)%nat -> parse_json fuel (to_pretty j) = Some (value_of j).
Proof.
  intros Hw Hf. unfold parse_json, to_pretty. by rewrite (reads_all j 0%nat fuel newline_str Hw Hf).
Qed.

Lemma json_roundtrip_witness :
  let j := Obj [("name", Str (String dquote (String (chr 1) "x"))); ("n", Arr [Int (-5); UInt 7; Null])] in
  wf j /\ parse_json 20 (to_pretty j) = Some (value_of j).
Proof.
  intros j. assert (Hw : wf j) by (unfold j, wf, fits; simpl; vm_compute; repeat split; congruence).
  split; [exact Hw|]. apply (json_roundtrip j 20 Hw). vm_compute. repeat constructor.
Defined.
