(* ===== verification/TraceHash.v ===== *)
(** * Trace normalisation and hashing ([dogfood/src/trace_hash.rs])

    A trace line is the string of its bytes, a hash a 64-bit integer as [Z]. *)

From S2P Require Import Prelude MachineInt RustStr.

(** ** Normalisation *)

(** The loop over the characters of the line. [skip] bytes of a white-space character are
    still to be passed over. *)
Fixpoint collapse_go (skip : nat) (line collapsed : string) (prev_ws : bool) : string :=
  match line with
  | "" => collapsed
  | String ch rest =>
      match skip with
      | S skip => collapse_go skip rest collapsed prev_ws
      | O =>
          match ws_len line with
          | S skip => collapse_go skip rest collapsed
                        (if negb (String.eqb collapsed "") then true else prev_ws)
          | O =>
              if prev_ws then collapse_go 0 rest (collapsed +:+ " " +:+ String ch "") false
              else collapse_go 0 rest (collapsed +:+ String ch "") prev_ws
          end
      end
  end.

(** The inner [while]: how many hex digits follow. *)
Fixpoint hex_len (s : string) : nat :=
  match s with
  | "" => 0
  | String c s => if is_ascii_hexdigit c then S (hex_len s) else 0
  end.

(** At an [0x] with a pointer's digits behind it: how many bytes follow the [0]. *)
Definition pointer_at (s : string) : option nat :=
  match s with
  | String c (String d r) =>
      if (byte c =? 48) && ((byte d =? 120) || (byte d =? 88)) then
        if (8 <=? hex_len r)%nat then Some (S (hex_len r)) else None
      else None
  | _ => None
  end.

(** The outer [while]; [skip] bytes up to the index [j] are passed over. *)
Fixpoint scrub_go (skip : nat) (s : string) : string :=
  match s with
  | "" => ""
  | String c r =>
      match skip with
      | S skip => scrub_go skip r
      | O =>
          match pointer_at s with
          | Some skip => "0xPTR" +:+ scrub_go skip r
          | None => push_byte_as_char (byte c) +:+ scrub_go 0 r
          end
      end
  end.
Definition scrub_pointers (s : string) : string := scrub_go 0 s.

Definition normalize_line (line : string) : string :=
  scrub_pointers (collapse_go 0 line "" false).
Definition normalize_trace (lines : list string) : list string := map normalize_line lines.

(** ** Hashing *)

Definition FNV_OFFSET_BASIS : Z := 0xcbf29ce484222325.
Definition FNV_PRIME : Z := 0x00000100000001b3.

(** [hash ^= byte; hash = hash.wrapping_mul(FNV_PRIME)] *)
Definition fnv_step (hash b : Z) : Z := cast U64 (Z.lxor hash b * FNV_PRIME).

Fixpoint fnv_line (hash : Z) (line : string) : Z :=
  match line with
  | "" => hash
  | String c line => fnv_line (fnv_step hash (byte c)) line
  end.

Fixpoint fnv_lines (idx : nat) (hash : Z) (lines : list string) : Z :=
  match lines with
  | [] => hash
  | line :: lines =>
      let hash := match idx with O => hash | S _ => fnv_step hash 10 end in
      fnv_lines (S idx) (fnv_line hash line) lines
  end.

Definition trace_hash (lines : list string) : string :=
  fmt_hex 16 (fnv_lines 0 FNV_OFFSET_BASIS lines).
Definition normalized_hash (lines : list string) : string := trace_hash (normalize_trace lines).

Example trace_hash_golden :
  trace_hash ["[machine.1] 10 can-rx id=0x0102"; "[machine.1] 20 speed 5"] = "bd2d4a1ab669dc56".
Proof. by vm_compute. Qed.
Example normalize_line_example :
  normalize_line "  [machine.1]      10  ptr 0x7f8a3c001200 id=0x0102 " = "[machine.1] 10 ptr 0xPTR id=0x0102".
Proof. by vm_compute. Qed.

(** ** What the hash tells apart *)

Definition FNV_INVERSE : Z := 14886173955864302971.

Lemma fnv_step_fits h b : fits U64 (fnv_step h b).
Proof. apply cast_fits. Qed.

(** The prime is odd, so a step loses nothing. *)
Lemma fnv_step_undo h b :
  fits U64 h -> 0 <= b < 256 -> cast U64 (fnv_step h b * FNV_INVERSE) = Z.lxor h b.
Proof.
  intros Hh Hb. unfold fnv_step. rewrite !cast_unsigned by done.
  rewrite Z.mul_mod_idemp_l, <- Z.mul_assoc by done.
  rewrite <- Z.mul_mod_idemp_r by done.
  replace ((FNV_PRIME * FNV_INVERSE) mod modulus U64) with 1 by by vm_compute.
  rewrite Z.mul_1_r. apply Z.mod_small. apply (lxor_bound 64); [lia| |lia]. int_lia.
Qed.

Lemma fnv_step_inj h h' b b' :
  fits U64 h -> fits U64 h' -> 0 <= b < 256 -> 0 <= b' < 256 ->
  fnv_step h b = fnv_step h' b' -> Z.lxor h b = Z.lxor h' b'.
Proof.
  intros Hh Hh' Hb Hb' E.
  rewrite <- (fnv_step_undo h b Hh Hb), <- (fnv_step_undo h' b' Hh' Hb'). by rewrite E.
Qed.

Lemma fnv_line_app h s t : fnv_line h (s +:+ t) = fnv_line (fnv_line h s) t.
Proof. revert h; induction s as [|c s IH]; intros h; [done|]. rewrite str_cons_app. apply IH. Qed.

Lemma fnv_line_fits h s : fits U64 h -> fits U64 (fnv_line h s).
Proof. revert h; induction s as [|c s IH]; intros h Hh; simpl; [done|]. apply IH, fnv_step_fits. Qed.

Lemma fnv_line_inj h h' s :
  fits U64 h -> fits U64 h' -> fnv_line h s = fnv_line h' s -> h = h'.
Proof.
  revert h h'; induction s as [|c s IH]; intros h h' Hh Hh' E; simpl in E; [done|].
  apply IH in E; [|apply fnv_step_fits..].
  apply fnv_step_inj in E; auto using byte_range.
  rewrite <- (Z.lxor_0_r h), <- (Z.lxor_nilpotent (byte c)), <- Z.lxor_assoc, E.
  by rewrite Z.lxor_assoc, Z.lxor_nilpotent, Z.lxor_0_r.
Qed.

(** The hash input is the lines joined by line feeds. *)
Lemma fnv_lines_S n h lines :
  lines <> [] -> fnv_lines (S n) h lines = fnv_line h (newline_str +:+ join newline_str lines).
Proof.
  revert n h; induction lines as [|l lines IH]; intros n h Hne; [done|].
  cbn [fnv_lines]. destruct lines as [|l' lines]; [by cbn; rewrite ?fnv_line_app|].
  rewrite IH by done. cbn [join]. by rewrite !fnv_line_app.
Qed.

Lemma fnv_lines_join h lines : fnv_lines 0 h lines = fnv_line h (join newline_str lines).
Proof.
  destruct lines as [|l lines]; [done|]. cbn [fnv_lines]. destruct lines as [|l' lines]; [done|].
  rewrite fnv_lines_S by done. cbn [join]. by rewrite !fnv_line_app.
Qed.

Lemma fnv_basis_fits : fits U64 FNV_OFFSET_BASIS.
Proof. by vm_compute. Qed.

Lemma fnv_lines_fits lines : fits U64 (fnv_lines 0 FNV_OFFSET_BASIS lines).
Proof. rewrite fnv_lines_join. apply fnv_line_fits, fnv_basis_fits. Qed.

Lemma parse_digits_zeros k s : parse_digits U64 16 1 0 (str_repeat k "0" +:+ s) = parse_digits U64 16 1 0 s.
Proof. induction k as [|k IH]; [done|]. cbn [str_repeat]. rewrite str_cons_app. apply IH. Qed.

Lemma fmt_hex_inj w n n' : fits U64 n -> fits U64 n' -> fmt_hex w n = fmt_hex w n' -> n = n'.
Proof.
  intros Hn Hn' E. apply (f_equal (parse_digits U64 16 1 0)) in E.
  unfold fmt_hex, pad_left in E. rewrite !parse_digits_zeros in E.
  rewrite !parse_digits_fmt in E by int_lia. congruence.
Qed.

(** Two traces have equal hashes whenever they are the same text once their lines are
    joined by line feeds, and when their texts differ in one byte only, their hashes differ:
    the FNV step is a bijection of the 64-bit words, so a changed CAN id digit or time digit
    is always noticed. Only the text counts: the trace with no line and the trace with one
    empty line hash alike. *)
Theorem trace_hash_one_byte l l' a c d s :
  join newline_str l = a +:+ String c s -> join newline_str l' = a +:+ String d s ->
  (trace_hash l = trace_hash l' <-> c = d) /\ trace_hash [] = trace_hash [""].
Proof.
  intros Hl Hl'. split; [|done]. split; intros E.
  - apply fmt_hex_inj in E; [|apply fnv_lines_fits..].
    rewrite !fnv_lines_join, Hl, Hl', !fnv_line_app in E. cbn [fnv_line] in E.
    set (h := fnv_line FNV_OFFSET_BASIS a) in *.
    assert (fits U64 h) as Hh by apply fnv_line_fits, fnv_basis_fits.
    apply fnv_line_inj in E; [|apply fnv_step_fits..].
    apply fnv_step_inj in E; auto using byte_range.
    apply (f_equal (Z.lxor h)) in E. rewrite <- !Z.lxor_assoc, !Z.lxor_nilpotent, !Z.lxor_0_l in E.
    by apply byte_inj.
  - unfold trace_hash. by rewrite !fnv_lines_join, Hl, Hl', E.
Qed.

Lemma trace_hash_one_byte_witness :
  (trace_hash ["id=0x0102"; "x"] = trace_hash ["id=0x0103"; "x"] <-> "2"%char = "3"%char) /\
  trace_hash [] = trace_hash [""].
Proof.
  apply (trace_hash_one_byte _ _ "id=0x010" "2" "3" (newline_str +:+ "x")); reflexivity.
Defined.

(** ** What normalisation does *)

Fixpoint str_drop (n : nat) (s : string) : string :=
  match n, s with
  | S n, String _ s => str_drop n s
  | _, _ => s
  end.

Lemma str_drop_length n s : (String.length (str_drop n s) <= String.length s)%nat.
Proof. revert s; induction n as [|n IH]; intros [|c s]; simpl; try lia. specialize (IH s). lia. Qed.

Lemma scrub_go_drop k s : scrub_go k s = scrub_pointers (str_drop k s).
Proof. revert s; induction k as [|k IH]; intros [|c s]; try done. apply IH. Qed.

Lemma scrub_pointer s n :
  pointer_at s = Some n -> scrub_pointers s = "0xPTR" +:+ scrub_pointers (str_drop (S n) s).
Proof. destruct s as [|c s]; [done|]. intros H. unfold scrub_pointers at 1. cbn [scrub_go]. by rewrite H, scrub_go_drop. Qed.

Lemma scrub_other c s :
  pointer_at (String c s) = None ->
  scrub_pointers (String c s) = push_byte_as_char (byte c) +:+ scrub_pointers s.
Proof. intros H. unfold scrub_pointers at 1. cbn [scrub_go]. by rewrite H. Qed.

(** The two turns of the scrubbing loop as an induction principle. *)
Lemma scrub_ind (P : string -> Prop) :
  P "" ->
  (forall s n, pointer_at s = Some n -> P (str_drop (S n) s) -> P s) ->
  (forall c s, pointer_at (String c s) = None -> P s -> P (String c s)) ->
  forall s, P s.
Proof.
  intros H0 Hp Ho s. remember (String.length s) as n eqn:Hn. revert s Hn.
  induction (lt_wf n) as [n _ IH]. intros [|c s] ->; [done|].
  destruct (pointer_at (String c s)) as [k|] eqn:E; [apply (Hp _ _ E)|apply (Ho _ _ E)].
  - eapply IH; [|reflexivity]. simpl. pose proof (str_drop_length k s). lia.
  - eapply IH; [|reflexivity]. simpl. lia.
Qed.

Lemma pointer_at_inv s n :
  pointer_at s = Some n ->
  exists d r, s = String "0" (String d r) /\ (d = "x"%char \/ d = "X"%char) /\ n = S (hex_len r) /\
              (8 <= hex_len r)%nat.
Proof.
  destruct s as [|c [|d r]]; [done..|]. unfold pointer_at.
  destruct (byte c =? 48) eqn:Hc; [|done]. destruct (byte d =? 120) eqn:Hd; [|destruct (byte d =? 88) eqn:Hd2; [|done]];
    cbn [andb orb]; destruct (8 <=? hex_len r)%nat eqn:Hl; [|done| |done]; intros [= <-];
    apply Nat.leb_le in Hl; bool_prop; exists d, r;
    (replace c with "0"%char by (apply byte_inj; by rewrite Hc)); repeat split; auto.
  - left. apply byte_inj. by rewrite Hd.
  - right. by apply byte_inj.
Qed.

Lemma push_byte_ascii c : is_ascii_byte c = true -> push_byte_as_char (byte c) = String c "".
Proof.
  unfold is_ascii_byte, push_byte_as_char. intros ->. unfold chr, byte.
  by rewrite Nat2Z.id, ascii_nat_embedding.
Qed.

(** What a byte outside ASCII turns into: bytes that are neither digits nor letters. *)
Lemma push_byte_other c :
  is_ascii_byte c = false ->
  exists c1 c2, push_byte_as_char (byte c) = String c1 (String c2 "") /\
                is_ascii_byte c1 = false /\ is_ascii_byte c2 = false.
Proof.
  intros Hc. apply Z.ltb_ge in Hc. pose proof (byte_range c). unfold push_byte_as_char.
  rewrite (proj2 (Z.ltb_ge (byte c) 128)) by done. do 2 eexists. split; [reflexivity|].
  set (ok := fun b => negb (is_ascii_byte (chr (Z.lor 0xC0 (Z.shiftr b 6))))
                      && negb (is_ascii_byte (chr (Z.lor 0x80 (Z.land b 0x3F))))).
  assert (forallb ok (seqZ 128 128) = true) as Hok by by vm_compute.
  rewrite forallb_elem in Hok. specialize (Hok (byte c) ltac:(apply elem_of_seqZ; lia)).
  unfold ok in Hok. bool_prop. auto.
Qed.

Lemma hex_len_other c s : is_ascii_byte c = false -> hex_len (String c s) = 0%nat.
Proof.
  intros Hc. apply Z.ltb_ge in Hc. cbn [hex_len]. unfold is_ascii_hexdigit, digit_val.
  rewrite !(proj2 (Z.leb_gt (byte c) _)) by lia. by rewrite !andb_false_r.
Qed.

Lemma pointer_at_ne c s : byte c <> 48 -> pointer_at (String c s) = None.
Proof. intros Hc. destruct s as [|d s]; [done|]. cbn [pointer_at]. by rewrite (proj2 (Z.eqb_neq (byte c) 48)). Qed.

Lemma pointer_at_other c s : is_ascii_byte c = false -> pointer_at (String c s) = None.
Proof. intros Hc. apply Z.ltb_ge in Hc. apply pointer_at_ne. lia. Qed.

Lemma hex_len_scrub s : hex_len (scrub_pointers s) = hex_len s.
Proof.
  induction s as [|s n H _|c s H IH] using scrub_ind; [done|..].
  - rewrite (scrub_pointer _ _ H). apply pointer_at_inv in H as (d & r & -> & [-> | ->] & _); reflexivity.
  - rewrite (scrub_other _ _ H). destruct (is_ascii_byte c) eqn:Hc.
    + rewrite push_byte_ascii, str_cons_app, str_nil_app by done. simpl. by rewrite IH.
    + destruct (push_byte_other c Hc) as (c1 & c2 & -> & H1 & _).
      by rewrite str_cons_app, !hex_len_other.
Qed.

Fixpoint has_pointer (s : string) : bool :=
  match s with
  | "" => false
  | String _ r => is_some (pointer_at s) || has_pointer r
  end.

(** Scrubbing changes neither what a position starts with nor the digits after it. *)
Lemma pointer_at_scrub c s :
  pointer_at (String c s) = None -> is_ascii_byte c = true ->
  pointer_at (String c (scrub_pointers s)) = None.
Proof.
  intros H Hc. induction s as [|s n Hp _|d s Hp _] using scrub_ind; [done|..].
  - rewrite (scrub_pointer _ _ Hp), str_cons_app. cbn [pointer_at].
    change ((byte "0" =? 120) || (byte "0" =? 88)) with false. by rewrite andb_false_r.
  - rewrite (scrub_other _ _ Hp). destruct (is_ascii_byte d) eqn:Hd.
    + rewrite push_byte_ascii, str_cons_app, str_nil_app by done. revert H. cbn [pointer_at].
      by rewrite hex_len_scrub.
    + destruct (push_byte_other d Hd) as (c1 & c2 & -> & H1 & _). rewrite str_cons_app. cbn [pointer_at].
      replace ((byte c1 =? 120) || (byte c1 =? 88)) with false; [by rewrite andb_false_r|].
      apply Z.ltb_ge in H1. symmetry. apply orb_false_iff. rewrite !Z.eqb_neq. lia.
Qed.

Lemma scrub_no_pointer s : has_pointer (scrub_pointers s) = false.
Proof.
  induction s as [|s n H IH|c s H IH] using scrub_ind; [done|..].
  - rewrite (scrub_pointer _ _ H), !str_cons_app, str_nil_app. cbn [has_pointer].
    rewrite IH, (pointer_at_ne "x"), (pointer_at_ne "P"), (pointer_at_ne "T"), (pointer_at_ne "R") by done.
    reflexivity.
  - rewrite (scrub_other _ _ H). destruct (is_ascii_byte c) eqn:Hc.
    + rewrite push_byte_ascii, str_cons_app, str_nil_app by done. cbn [has_pointer].
      by rewrite IH, pointer_at_scrub.
    + destruct (push_byte_other c Hc) as (c1 & c2 & -> & H1 & H2).
      rewrite !str_cons_app, str_nil_app. cbn [has_pointer]. by rewrite !pointer_at_other, IH.
Qed.

Lemma scrub_id s : is_ascii s = true -> has_pointer s = false -> scrub_pointers s = s.
Proof.
  induction s as [|c s IH]; [done|]. cbn [is_ascii has_pointer]. intros [Hc Hs]%andb_true_iff.
  intros [Hp Hr]%orb_false_iff. rewrite scrub_other by (by destruct (pointer_at _)).
  by rewrite push_byte_ascii, IH.
Qed.

Lemma is_ascii_drop n s : is_ascii s = true -> is_ascii (str_drop n s) = true.
Proof. revert s; induction n as [|n IH]; intros [|c s]; try done. cbn [is_ascii str_drop]. intros [_ H]%andb_true_iff. auto. Qed.

Lemma is_ascii_scrub s : is_ascii s = true -> is_ascii (scrub_pointers s) = true.
Proof.
  induction s as [|s n H IH|c s H IH] using scrub_ind; [done|..]; intros Hs.
  - rewrite (scrub_pointer _ _ H), is_ascii_app. by rewrite IH by (by apply is_ascii_drop).
  - rewrite (scrub_other _ _ H). cbn [is_ascii] in Hs. apply andb_true_iff in Hs as [Hc Hs].
    rewrite push_byte_ascii, str_cons_app, str_nil_app by done. cbn [is_ascii]. by rewrite Hc, IH.
Qed.

(** *** Collapsing white space *)

Lemma join_app_head sep a b l : join sep ((a +:+ b) :: l) = a +:+ join sep (b :: l).
Proof. destruct l; cbn [join]; by rewrite ?str_app_assoc. Qed.

(** [collapsed] with the words of the rest of the line after it. *)
Lemma collapse_words skip s collapsed prev_ws :
  (collapsed = "" -> prev_ws = false) ->
  collapse_go skip s collapsed prev_ws =
  let '(w, ws) := split_ws skip s in
  match w with
  | "" => join " " (if String.eqb collapsed "" then ws else collapsed :: ws)
  | _ => join " " (if prev_ws then collapsed :: w :: ws else (collapsed +:+ w) :: ws)
  end.
Proof.
  revert skip collapsed prev_ws; induction s as [|c s IH]; intros skip collapsed prev_ws Hp.
  { destruct skip, collapsed; done. }
  cbn [collapse_go split_ws]. destruct skip as [|skip]; [|by apply IH].
  destruct (ws_len (String c s)) as [|k] eqn:Hw.
  - assert (forall t : string, t +:+ String c "" = "" -> False) as Hne by (by intros [|d t]).
    destruct prev_ws; rewrite IH by done; destruct (split_ws 0 s) as [w ws]; destruct w as [|d w];
      rewrite ?(proj2 (String.eqb_neq _ _)) by (rewrite <- ?str_app_assoc; intros H; by apply Hne in H);
      try done; destruct ws; cbn [join]; by autorewrite with str.
  - rewrite IH by (by intros ->; rewrite Hp). destruct (split_ws k s) as [w ws].
    destruct collapsed as [|d collapsed]; [rewrite Hp by done; by destruct w|].
    cbn [String.eqb negb]. by destruct w.
Qed.

Lemma collapse_split s : collapse_go 0 s "" false = join " " (split_whitespace s).
Proof. rewrite collapse_words by done. unfold split_whitespace. by destruct (split_ws 0 s) as [[|c w] ws]. Qed.

(** Words with single spaces between them; [b] when a word has to come next. *)
Fixpoint tidy (b : bool) (s : string) : bool :=
  match s with
  | "" => negb b
  | String c r =>
      if byte c =? 32 then negb b && tidy true r else negb (ascii_ws c) && tidy false r
  end.

Lemma tidy_app b s t : tidy b s = true -> tidy b (s +:+ t) = tidy false t.
Proof.
  revert b; induction s as [|c s IH]; intros b; [by destruct b|]. rewrite str_cons_app. cbn [tidy].
  case_match; intros [-> Ht]%andb_true_iff; cbn [andb]; by apply IH.
Qed.

Lemma tidy_weaken s : tidy true s = true -> tidy false s = true.
Proof. destruct s as [|c s]; [done|]. cbn [tidy]. by case_match. Qed.

Lemma ascii_ws_space c : byte c = 32 -> ascii_ws c = true.
Proof. unfold ascii_ws. intros ->. done. Qed.

Lemma collapse_tidy s collapsed prev_ws :
  is_ascii s = true ->
  tidy (prev_ws || String.eqb collapsed "") s = true -> (collapsed = "" -> prev_ws = false) ->
  collapse_go 0 s collapsed prev_ws = collapsed +:+ (if prev_ws then " " else "") +:+ s.
Proof.
  revert collapsed prev_ws; induction s as [|c s IH]; intros collapsed prev_ws; cbn [is_ascii tidy].
  { intros _ H _. destruct prev_ws; [done|]. simpl. by autorewrite with str. }
  intros [Hc Hs]%andb_true_iff Ht Hp. cbn [collapse_go]. rewrite ws_len_ascii by done.
  destruct (byte c =? 32) eqn:H32; apply andb_true_iff in Ht as [Hb Ht].
  - rewrite ascii_ws_space by by apply Z.eqb_eq. apply negb_true_iff, orb_false_iff in Hb as [-> Hb].
    rewrite Hb. cbn [negb]. apply String.eqb_neq in Hb.
    rewrite IH by done. replace c with " "%char by (apply byte_inj; by bool_prop). done.
  - apply negb_true_iff in Hb. rewrite Hb.
    assert (forall t : string, String.eqb (t +:+ String c "") "" = false) as Hne by (by intros [|d t]).
    destruct prev_ws; rewrite IH by (rewrite <- ?str_app_assoc, ?Hne; done); by autorewrite with str.
Qed.

(** A word loses no character to the scrubbing that is not replaced by [0xPTR]. *)
Lemma tidy_drop_hex n s b : (n <= hex_len s)%nat -> tidy b s = true -> (0 < n)%nat -> tidy false (str_drop n s) = true.
Proof.
  revert s b; induction n as [|n IH]; intros s b Hn Ht H0; [lia|]. destruct s as [|c s]; [simpl in Hn; lia|].
  cbn [hex_len] in Hn. destruct (is_ascii_hexdigit c) eqn:Hc; [|lia]. cbn [tidy] in Ht. cbn [str_drop].
  destruct (byte c =? 32) eqn:H32.
  - bool_prop. unfold is_ascii_hexdigit, digit_val in Hc. by rewrite H32 in Hc.
  - apply andb_true_iff in Ht as [_ Ht]. destruct n as [|n]; [by destruct s|].
    apply (IH s false); [lia|done|lia].
Qed.

Lemma tidy_scrub s b : is_ascii s = true -> tidy b s = true -> tidy b (scrub_pointers s) = true.
Proof.
  revert b; induction s as [|s n H IH|c s H IH] using scrub_ind; [done|..]; intros b Hs Ht.
  - rewrite (scrub_pointer _ _ H). rewrite (tidy_app b "0xPTR") by (by destruct b). apply IH; [by apply is_ascii_drop|].
    apply pointer_at_inv in H as (d & r & -> & Hd & -> & Hl). cbn [str_drop].
    apply (tidy_drop_hex _ _ false); [done| |lia].
    by destruct Hd as [-> | ->].
  - rewrite (scrub_other _ _ H). cbn [is_ascii] in Hs. apply andb_true_iff in Hs as [Hc Hs].
    rewrite push_byte_ascii, str_cons_app, str_nil_app by done. cbn [tidy] in *.
    case_match; apply andb_true_iff in Ht as [-> Ht]; cbn [andb]; by apply IH.
Qed.

Lemma collapse_out skip s collapsed prev_ws :
  is_ascii s = true -> is_ascii collapsed = true -> (collapsed = "" /\ prev_ws = false \/ tidy true collapsed = true) ->
  let t := collapse_go skip s collapsed prev_ws in is_ascii t = true /\ (t = "" \/ tidy true t = true).
Proof.
  revert skip collapsed prev_ws; induction s as [|c s IH]; intros skip collapsed prev_ws Hs Ha Ht; cbn zeta.
  { destruct skip; simpl; intuition. }
  cbn [is_ascii] in Hs. apply andb_true_iff in Hs as [Hc Hs]. cbn [collapse_go].
  destruct skip as [|skip]; [|by apply IH]. rewrite ws_len_ascii by done.
  destruct (ascii_ws c) eqn:Hw.
  - apply IH; [done..|]. destruct Ht as [[-> ->]|Ht]; [by left|by right].
  - assert (byte c =? 32 = false) as H32.
    { apply orb_false_iff in Hw as [_ Hw]. done. }
    assert (tidy false (String c "") = true /\ tidy true (String c "") = true) as [H1 H2].
    { cbn [tidy]. by rewrite H32, Hw. }
    destruct prev_ws; apply IH; rewrite ?is_ascii_app; cbn [is_ascii]; rewrite ?Ha, ?Hc; try done; right.
    + destruct Ht as [[_ ?]|Ht]; [done|]. rewrite tidy_app, str_cons_app, str_nil_app by done.
      cbn [tidy]. change (byte " " =? 32) with true. by rewrite H32, Hw.
    + destruct Ht as [[-> _]|Ht]; [done|]. by rewrite tidy_app.
Qed.

(** Normalising a line joins its words by single spaces and scrubs the pointers of the
    result, so it depends on the words alone and leaves no [0x] with eight digits behind it;
    a line without such a number keeps its words exactly. On ASCII lines, which is what the
    simulator prints, normalising twice is normalising once. On other lines it is not: a
    byte outside ASCII is pushed as a character of its own and grows at every round. *)
Theorem normalize_line_spec line :
  normalize_line line = scrub_pointers (join " " (split_whitespace line)) /\
  has_pointer (normalize_line line) = false /\
  (is_ascii line = true -> normalize_line (normalize_line line) = normalize_line line) /\
  (is_ascii line = true -> has_pointer (join " " (split_whitespace line)) = false ->
   normalize_line line = join " " (split_whitespace line)) /\
  exists line', normalize_line (normalize_line line') <> normalize_line line'.
Proof.
  split_and!.
  - unfold normalize_line. by rewrite collapse_split.
  - apply scrub_no_pointer.
  - intros Ha. unfold normalize_line. set (t := collapse_go 0 line "" false).
    destruct (collapse_out 0 line "" false Ha) as [Hta Htt]; [done|by left|]. fold t in Hta, Htt.
    assert (collapse_go 0 (scrub_pointers t) "" false = scrub_pointers t) as ->.
    { destruct Htt as [->|Htt]; [done|].
      rewrite collapse_tidy; [by rewrite !str_nil_app|by apply is_ascii_scrub|by apply tidy_scrub|done]. }
    apply scrub_id; [by apply is_ascii_scrub|apply scrub_no_pointer].
  - intros Ha Hp. unfold normalize_line. rewrite <- collapse_split in *. apply scrub_id; [|done].
    by apply collapse_out; [| |left].
  - exists (String (chr 0xC3) (String (chr 0xA9) "")). by vm_compute.
Qed.

Lemma normalize_line_spec_witness :
  normalize_line (normalize_line " a   0x12345678 ") = normalize_line " a   0x12345678 " /\
  normalize_line "[machine.1]    10  id=0x0102" = "[machine.1] 10 id=0x0102".
Proof.
  split; [apply (normalize_line_spec " a   0x12345678 "); reflexivity|].
  apply (normalize_line_spec "[machine.1]    10  id=0x0102"); reflexivity.
Defined.
