(* ===== verification/Runner.v ===== *)
(** * The scenario runner ([dogfood/src/runner.rs])

    A run of the simulator's process is a parameter: what spawning it returned, what each
    poll of it observed, and the lines of its two pipes. *)

From S2P Require Import Prelude MachineInt RustStr.

Definition TAIL_LINES : nat := 20.

Module RunStatus.
Inductive t : Set := Pass | Fail | Timeout | Panic.

Definition as_str (self : t) : string :=
  match self with
  | Pass => "PASS"
  | Fail => "FAIL"
  | Timeout => "TIMEOUT"
  | Panic => "PANIC"
  end.

#[global] Instance eq_dec : EqDecision t.
Proof. solve_decision. Defined.

Definition is_clean (self : t) : bool :=
  match self with Pass => true | _ => false end.
End RunStatus.

(** [wall] in nanoseconds. *)
Record ScenarioRun : Type := {
  scenario : string;
  status : RunStatus.t;
  exit_code : option Z;
  trace : list string;
  wall : Z;
  stdout_tail : list string;
  stderr_tail : list string
}.

Definition wall_ms (self : ScenarioRun) : Z := wall self / 1000000.

(** ** The process *)

(** What [try_wait] answers, with what the clock says when the process still runs. *)
Inductive poll : Type :=
  | Exited (code : option Z)      (** exit code, [None] when killed by a signal *)
  | Running (past_deadline : bool)
  | WaitError.

(** How the polling loop ends. *)
Inductive polled : Type :=
  | Status (code : option Z)
  | Killed
  | NoStatus.

(** The loop over the polls; [None] when they run out before it ends. *)
Fixpoint wait_for (polls : list poll) : option polled :=
  match polls with
  | [] => None
  | Exited code :: _ => Some (Status code)
  | Running true :: _ => Some Killed
  | Running false :: polls => wait_for polls
  | WaitError :: _ => Some NoStatus
  end.

Record child : Type := {
  polls : list poll;
  stdout : list (result string string);
  stderr : list (result string string);
  elapsed : Z
}.

(** [read_all_lines]: up to the first read error. *)
Fixpoint read_all_lines (r : list (result string string)) : list string :=
  match r with
  | ROk l :: r => l :: read_all_lines r
  | _ => []
  end.

Definition tail (v : list string) (n : nat) : list string := drop (length v - n) v.

(** ** Trace lines *)

Definition is_trace_event (line : string) : bool :=
  let t := trim line in
  if String.eqb t "" then false
  else if starts_with "=== " t && ends_with " ===" t then false
  else if String.eqb t "PASS" || starts_with "FAIL" t then false
  else true.

Definition success (code : option Z) : bool :=
  match code with Some c => c =? 0 | None => false end.

Definition classify (p : polled) (stderr_lines : list string) : RunStatus.t :=
  let timed_out := match p with Killed => true | _ => false end in
  let ok := match p with Status code => success code | _ => false end in
  let panicked := existsb (contains "panicked") stderr_lines in
  if timed_out then RunStatus.Timeout
  else if ok then RunStatus.Pass
  else if panicked then RunStatus.Panic
  else RunStatus.Fail.

(** [run_scenario_args] on a process that was spawned, or whose spawning failed with an
    error and the time it took. [name] is the stem of the scenario's file name. *)
Definition run_scenario_args (microcar_bin name : string) (spawn : result child (string * Z)) :
  option ScenarioRun :=
  match spawn with
  | RErr (e, elapsed) =>
      Some {| scenario := name; status := RunStatus.Fail; exit_code := None; trace := [];
              wall := elapsed; stdout_tail := [];
              stderr_tail := ["failed to spawn " +:+ microcar_bin +:+ ": " +:+ e] |}
  | ROk c =>
      match wait_for (polls c) with
      | None => None
      | Some p =>
          let stdout_lines := read_all_lines (stdout c) in
          let stderr_lines := read_all_lines (stderr c) in
          Some {| scenario := name;
                  status := classify p stderr_lines;
                  exit_code := match p with Status code => code | _ => None end;
                  trace := List.filter is_trace_event stdout_lines;
                  wall := elapsed c;
                  stdout_tail := tail stdout_lines TAIL_LINES;
                  stderr_tail := tail stderr_lines TAIL_LINES |}
      end
  end.

(** No extra arguments: they only reach the command line of the process. *)
Definition run_scenario (microcar_bin name : string) (spawn : result child (string * Z)) :
  option ScenarioRun := run_scenario_args microcar_bin name spawn.

(** ** Facts *)

Example trace_events :
  map is_trace_event ["=== normal_drive_cycle ==="; ""; "   "; "PASS"; "FAIL: trace mismatch";
                      "[machine.1] 10 can-rx id=0x0102 len=2"]
  = [false; false; false; false; false; true].
Proof. by vm_compute. Qed.

(** Polls that all find the process running before the deadline. *)
Definition waiting (l : list poll) : Prop := forall p, p ∈ l -> p = Running false.

(** [q] is the first poll that finds something else. *)
Definition ends_with_poll (q : poll) (l : list poll) : Prop :=
  q <> Running false /\ exists l1 l2, l = l1 ++ q :: l2 /\ waiting l1.

Definition poll_end (q : poll) : option polled :=
  match q with
  | Exited code => Some (Status code)
  | Running past => if past then Some Killed else None
  | WaitError => Some NoStatus
  end.

Lemma waiting_cons p l : waiting (p :: l) <-> p = Running false /\ waiting l.
Proof.
  split.
  - intros H. split; [apply H; by left|]. intros q Hq. apply H. by right.
  - intros [-> H] q [->|Hq]%elem_of_cons; auto.
Qed.

Lemma wait_for_None l : wait_for l = None <-> waiting l.
Proof.
  induction l as [|p l IH]; [split; [intros _ ? []%not_elem_of_nil|done]|].
  rewrite waiting_cons. destruct p as [code|[]|]; cbn [wait_for]; try (split; [done|by intros [? _]]).
  rewrite IH. naive_solver.
Qed.

Lemma wait_for_Some l r q : poll_end q = Some r -> wait_for l = Some r <-> ends_with_poll q l.
Proof.
  intros Hq. induction l as [|p l IH].
  { split; [done|]. by intros (_ & [|? ?] & ? & [=] & _). }
  assert (ends_with_poll q (p :: l) <-> p = q \/ p = Running false /\ ends_with_poll q l) as ->.
  { assert (q <> Running false) as Hne by (by intros ->). split.
    - intros (_ & [|p' l1] & l2 & [= -> ->] & Hw); [by left|]. right. apply waiting_cons in Hw as [-> Hw].
      split; [done|]. split; [done|]. by exists l1, l2.
    - intros [-> | [-> (_ & l1 & l2 & -> & Hw)]]; (split; [done|]).
      + exists [], l. split; [done|]. intros ? []%not_elem_of_nil.
      + exists (Running false :: l1), l2. by rewrite waiting_cons. }
  destruct p as [code|[]|]; cbn [wait_for]; try rewrite IH;
    destruct q as [code'|[]|]; simplify_eq/=; naive_solver.
Qed.

Lemma classify_spec p err :
  let panicked := exists line, line ∈ err /\ contains "panicked" line = true in
  (classify p err = RunStatus.Pass <-> p = Status (Some 0)) /\
  (classify p err = RunStatus.Timeout <-> p = Killed) /\
  (classify p err = RunStatus.Panic <-> p <> Status (Some 0) /\ p <> Killed /\ panicked).
Proof.
  cbn zeta. rewrite <- existsb_elem. unfold classify, success.
  destruct p as [[z|]| |]; try destruct (Z.eqb_spec z 0) as [->|]; destruct (existsb _ err); naive_solver.
Qed.

(** A run ends as soon as one poll finds the process gone, the deadline passed or an
    error, and the status says which came first: [Pass] exactly for an exit with code 0,
    [Timeout] exactly for a poll that found it running past the deadline, [Panic] exactly for
    another end with a panic in the standard error that was read, and [Fail] for the rest,
    failed spawns included. The trace holds the event lines read, in order, and none of a
    header, a verdict or a blank line. *)
Theorem run_scenario_status bin name c :
  (run_scenario_args bin name (ROk c) = None <-> waiting (polls c)) /\
  forall r, run_scenario_args bin name (ROk c) = Some r ->
  (status r = RunStatus.Pass <-> ends_with_poll (Exited (Some 0)) (polls c)) /\
  (status r = RunStatus.Timeout <-> ends_with_poll (Running true) (polls c)) /\
  (status r = RunStatus.Panic <->
   ~ ends_with_poll (Exited (Some 0)) (polls c) /\ ~ ends_with_poll (Running true) (polls c) /\
   exists line, line ∈ read_all_lines (stderr c) /\ contains "panicked" line = true) /\
  (forall code, exit_code r = Some code <-> ends_with_poll (Exited (Some code)) (polls c)) /\
  (forall line, line ∈ trace r -> trim line <> "" /\ trim line <> "PASS").
Proof.
  cbn [run_scenario_args]. rewrite <- wait_for_None. destruct (wait_for (polls c)) as [p|] eqn:Hw; [|done].
  split; [done|]. intros r [= <-]. cbn [status exit_code trace].
  destruct (classify_spec p (read_all_lines (stderr c))) as (Hp & Ht & Hn).
  assert (forall q e, poll_end q = Some e -> p = e <-> ends_with_poll q (polls c)) as Hq.
  { intros q e He. rewrite <- (wait_for_Some _ _ _ He), Hw. naive_solver. }
  rewrite Hp, Ht, Hn, (Hq (Exited (Some 0)) _ eq_refl), (Hq (Running true) _ eq_refl).
  split_and!; [done..| |].
  - intros code. rewrite <- (Hq (Exited (Some code)) _ eq_refl). destruct p; naive_solver.
  - intros line [_ H]%list_elem_of_In%List.filter_In. unfold is_trace_event in H.
    split; intros E; by rewrite E in H.
Qed.

Lemma run_scenario_status_witness :
  let c := {| polls := [Running false; Exited (Some 101)]; stdout := [ROk "[machine.1] 0 boot"];
              stderr := [ROk "thread 'main' panicked at src/main.rs"]; elapsed := 5000000 |} in
  exists r, run_scenario_args "microcar" "demo" (ROk c) = Some r /\ status r = RunStatus.Panic /\
            ~ ends_with_poll (Running true) (polls c).
Proof.
  intros c. destruct (run_scenario_status "microcar" "demo" c) as [_ H].
  eexists. split; [reflexivity|]. destruct (H _ eq_refl) as (_ & _ & Hp & _).
  split; [reflexivity|]. by apply (proj1 Hp eq_refl).
Defined.
