(* ===== verification/Invariants.v ===== *)
(** * The invariant framework ([dogfood/src/invariants.rs])

    An invariant is a named check of a run; the driver evaluates a list of them. *)

From S2P Require Import Prelude MachineInt RustStr Runner.

Module CheckStatus.
Inductive t : Set := Pass | Fail | Skipped.

Definition as_str (self : t) : string :=
  match self with Pass => "PASS" | Fail => "FAIL" | Skipped => "SKIP" end.

#[global] Instance eq_dec : EqDecision t.
Proof. solve_decision. Defined.
End CheckStatus.

Module InvariantResult.
Record t : Type := mk { name : string; status : CheckStatus.t; message : string }.

Definition pass (n m : string) : t := mk n CheckStatus.Pass m.
Definition fail (n m : string) : t := mk n CheckStatus.Fail m.
Definition skipped (n m : string) : t := mk n CheckStatus.Skipped m.
Definition is_fail (self : t) : bool := bool_decide (status self = CheckStatus.Fail).
End InvariantResult.

(** The trait. *)
Record Invariant : Type := { inv_name : string; check : ScenarioRun -> InvariantResult.t }.

(** [parse_machine_time] *)
Definition parse_machine_time (line : string) : option (string * Z) :=
  let trimmed := trim_start line in
  if negb (starts_with "[machine." trimmed) then None
  else match split_whitespace trimmed with
       | machine :: time :: _ => (machine,.) <$> parse_int U64 time
       | _ => None
       end.

Module VirtualTimeMonotonic.
Definition name : string := "VirtualTimeMonotonic".

(** [state] maps a machine to [(segment_start, last_seen)]. *)
Record loop : Type := {
  state : gmap string (Z * Z);
  checked : Z;
  segments : Z
}.

Definition start : loop := {| state := ∅; checked := 0; segments := 0 |}.

Definition backward (machine line : string) (seg_start last time : Z) : InvariantResult.t :=
  InvariantResult.fail name
    ("virtual time went backward for " +:+ machine +:+ " within a segment (seg_start="
     +:+ fmt_int seg_start +:+ "): " +:+ fmt_int last +:+ " -> " +:+ fmt_int time
     +:+ " in line: " +:+ line).

(** The body of the [for] loop; an error is an early return. *)
Definition body (s : loop) (line : string) : result loop InvariantResult.t :=
  match parse_machine_time line with
  | None => ROk s
  | Some (machine, time) =>
      match state s !! machine with
      | None =>
          ROk {| state := <[machine := (time, time)]> (state s);
                 checked := checked s + 1; segments := segments s + 1 |}
      | Some (seg_start, last) =>
          if last <=? time then
            ROk {| state := <[machine := (seg_start, time)]> (state s);
                   checked := checked s + 1; segments := segments s |}
          else if time <=? seg_start then
            ROk {| state := <[machine := (time, time)]> (state s);
                   checked := checked s + 1; segments := segments s + 1 |}
          else RErr (backward machine line seg_start last time)
      end
  end.

Definition check_run (run : ScenarioRun) : InvariantResult.t :=
  match rfold body start (trace run) with
  | RErr r => r
  | ROk s =>
      if checked s =? 0 then
        InvariantResult.skipped name "no parseable '[machine.N] <time> ...' lines in trace"
      else
        InvariantResult.pass name
          (fmt_int (checked s) +:+ " timed lines across " +:+ fmt_int (Z.of_nat (size (state s)))
           +:+ " machine(s) / " +:+ fmt_int (segments s)
           +:+ " segment(s), non-decreasing within every segment")
  end.

Definition inv : Invariant := {| inv_name := name; check := check_run |}.
End VirtualTimeMonotonic.

Module ProcessTerminatedCleanly.
Definition name : string := "ProcessTerminatedCleanly".

Definition check_run (run : ScenarioRun) : InvariantResult.t :=
  let rest := "exit " +:+ fmt_debug_option fmt_int (exit_code run) +:+ "); stderr tail: "
              +:+ join " | " (stderr_tail run) in
  match Runner.status run with
  | RunStatus.Pass => InvariantResult.pass name "exited 0, no timeout, no panic"
  | RunStatus.Timeout =>
      InvariantResult.fail name "process exceeded wall-clock timeout and was killed"
  | RunStatus.Panic => InvariantResult.fail name ("process panicked (" +:+ rest)
  | RunStatus.Fail => InvariantResult.fail name ("process exited non-zero (" +:+ rest)
  end.

Definition inv : Invariant := {| inv_name := name; check := check_run |}.
End ProcessTerminatedCleanly.

Module TraceNonEmpty.
Definition name : string := "TraceNonEmpty".

Definition check_run (run : ScenarioRun) : InvariantResult.t :=
  match trace run with
  | [] => InvariantResult.fail name "trace has no event lines"
  | _ :: _ =>
      InvariantResult.pass name (fmt_int (Z.of_nat (length (trace run))) +:+ " trace event lines")
  end.

Definition inv : Invariant := {| inv_name := name; check := check_run |}.
End TraceNonEmpty.

(** [stub_invariant!] *)
Definition stub_invariant (name todo : string) : Invariant :=
  {| inv_name := name; check := fun _ => InvariantResult.skipped name ("TODO: " +:+ todo) |}.

Definition RunUntilNeverOvershoots : Invariant :=
  stub_invariant "RunUntilNeverOvershoots"
    "needs the run_until deadline and the final virtual time exposed in the trace".
Definition SteppedEqualsContinuous : Invariant :=
  stub_invariant "SteppedEqualsContinuous"
    "needs a stepped-execution mode to compare against continuous run_until".
Definition KeyframeRestoreReproduces : Invariant :=
  stub_invariant "KeyframeRestoreReproduces"
    "needs keyframe snapshot/restore support and a post-restore trace".
Definition NoDroppedOrDuplicatedFrames : Invariant :=
  stub_invariant "NoDroppedOrDuplicatedFrames"
    "needs per-frame tx/rx identity + fault annotations in the trace".
Definition GatewayForwardingPreservesCorrelationId : Invariant :=
  stub_invariant "GatewayForwardingPreservesCorrelationId"
    "needs correlation IDs and source/dest identity on forwarded frames".
Definition InspectDevicesMatchesTrace : Invariant :=
  stub_invariant "InspectDevicesMatchesTrace"
    "needs an InspectDevices state dump to reconcile against trace-derived state".
Definition ConcurrentEqualsSolo : Invariant :=
  stub_invariant "ConcurrentEqualsSolo"
    "needs the simfarm lane (N concurrent sessions in one server process)".

Definition default_invariants : list Invariant :=
  [ VirtualTimeMonotonic.inv; ProcessTerminatedCleanly.inv; TraceNonEmpty.inv;
    RunUntilNeverOvershoots; SteppedEqualsContinuous; KeyframeRestoreReproduces;
    NoDroppedOrDuplicatedFrames; GatewayForwardingPreservesCorrelationId;
    InspectDevicesMatchesTrace; ConcurrentEqualsSolo ].

Definition check_all (run : ScenarioRun) (invariants : list Invariant) : list InvariantResult.t :=
  map (fun inv => check inv run) invariants.
Definition check_default (run : ScenarioRun) : list InvariantResult.t :=
  check_all run default_invariants.
Definition any_failed (results : list InvariantResult.t) : bool :=
  existsb InvariantResult.is_fail results.

(** ** What the time check accepts *)

(** The virtual times of [machine]'s lines, in order. *)
Definition times (machine : string) (lines : list string) : list Z :=
  omap (fun l => match parse_machine_time l with
                 | Some (m, t) => if String.eqb m machine then Some t else None
                 | None => None
                 end) lines.

(** A step backwards that stays above an earlier time. *)
Definition regresses (l : list Z) : Prop :=
  exists l1 a b l2, l = l1 ++ a :: b :: l2 /\ b < a /\ exists x, x ∈ l1 /\ x < b.

(** What the loop keeps of a machine's times: the least and the last. *)
Definition summary (l : list Z) (o : option (Z * Z)) : Prop :=
  match o with
  | None => l = []
  | Some (lo, last) => (exists l', l = l' ++ [last]) /\ lo ∈ l /\ forall x, x ∈ l -> lo <= x
  end.

Lemma regresses_mono l l' : regresses l -> regresses (l ++ l').
Proof.
  intros (l1 & a & b & l2 & -> & H). exists l1, a, b, (l2 ++ l'). split; [|done].
  by rewrite <- !app_assoc.
Qed.

Lemma regresses_snoc l last t :
  ~ regresses (l ++ [last]) ->
  regresses ((l ++ [last]) ++ [t]) <-> t < last /\ exists x, x ∈ l ++ [last] /\ x < t.
Proof.
  intros Hn. split.
  - intros (l1 & a & b & l2 & E & Hba & x & Hx & Hxb).
    destruct (exists_last (l := b :: l2) ltac:(done)) as (l3 & b' & E').
    destruct l3 as [|b0 l3]; simpl in E'.
    + injection E' as -> ->. rewrite <- app_assoc in E. simpl in E.
      change (l1 ++ [a; b']) with (l1 ++ [a] ++ [b']) in E. change [last; t] with ([last] ++ [t]) in E.
      rewrite !app_assoc in E. apply app_inj_tail in E as [E ->]. apply app_inj_tail in E as [-> ->].
      split; [done|]. exists x. rewrite elem_of_app. auto.
    + injection E' as -> ->. destruct Hn. exists l1, a, b0, l3. split; [|eauto].
      change (l1 ++ a :: b0 :: l3 ++ [b']) with (l1 ++ [a; b0] ++ l3 ++ [b']) in E.
      rewrite !app_assoc in E. apply app_inj_tail in E as [-> _]. by rewrite <- !app_assoc.
  - intros (Hlt & x & Hx & Hxt). exists l, last, t, []. split; [by rewrite <- app_assoc|].
    split; [done|]. exists x. split; [|done].
    apply elem_of_app in Hx as [Hx|Hx]; [done|]. apply list_elem_of_singleton in Hx. lia.
Qed.

Lemma times_cons m line lines :
  times m (line :: lines) =
  (match parse_machine_time line with Some (m', t) => if String.eqb m' m then [t] else [] | None => [] end)
  ++ times m lines.
Proof. unfold times. simpl. destruct (parse_machine_time line) as [[m' t]|]; [by destruct (String.eqb m' m)|done]. Qed.

(** One turn of the loop from the history [h] of each machine. *)
Lemma body_step (h : string -> list Z) s line :
  (forall m, summary (h m) (VirtualTimeMonotonic.state s !! m)) -> (forall m, ~ regresses (h m)) ->
  match VirtualTimeMonotonic.body s line with
  | ROk s' => forall m, summary (h m ++ times m [line]) (VirtualTimeMonotonic.state s' !! m) /\
                        ~ regresses (h m ++ times m [line])
  | RErr r => InvariantResult.status r = CheckStatus.Fail /\ exists m, regresses (h m ++ times m [line])
  end.
Proof.
  intros Hs Hr. unfold VirtualTimeMonotonic.body.
  assert (forall m, times m [line] = match parse_machine_time line with
            Some (m', t) => if String.eqb m' m then [t] else [] | None => [] end) as Ht.
  { intros m. by rewrite times_cons, app_nil_r. }
  destruct (parse_machine_time line) as [[m t]|].
  2: { intros m. rewrite Ht, app_nil_r. auto. }
  assert (forall s' v, VirtualTimeMonotonic.state s' = <[m := v]> (VirtualTimeMonotonic.state s) ->
            summary (h m ++ [t]) (Some v) -> ~ regresses (h m ++ [t]) ->
            forall m', summary (h m' ++ times m' [line]) (VirtualTimeMonotonic.state s' !! m') /\
                       ~ regresses (h m' ++ times m' [line])) as Hput.
  { intros s' v -> Hv Hn m'. rewrite Ht. destruct (String.eqb_spec m m') as [<-|Hne].
    - by rewrite lookup_insert_eq.
    - rewrite lookup_insert_ne, app_nil_r by done. auto. }
  pose proof (Hs m) as Hm. destruct (VirtualTimeMonotonic.state s !! m) as [[lo last]|]; simpl in Hm.
  - destruct Hm as ((l' & El) & Hlo & Hmin).
    assert (~ regresses (l' ++ [last])) as Hn by (rewrite <- El; auto).
    pose proof (regresses_snoc l' last t Hn) as Hsn. rewrite <- El in Hsn.
    destruct (last <=? t) eqn:H1; [|destruct (t <=? lo) eqn:H2]; bool_prop.
    + apply (Hput _ (lo, t)); [done| |rewrite Hsn; lia].
      simpl. split; [eauto|]. split; [apply elem_of_app; by left|].
      intros x [Hx|Hx%list_elem_of_singleton]%elem_of_app; [by apply Hmin|]. subst x.
      specialize (Hmin last). rewrite El in Hmin. specialize (Hmin ltac:(apply elem_of_app; right; by left)). lia.
    + apply (Hput _ (t, t)); [done| |].
      * simpl. split; [eauto|]. split; [apply elem_of_app; right; by left|].
        intros x [Hx|Hx%list_elem_of_singleton]%elem_of_app; [|lia]. specialize (Hmin x Hx). lia.
      * rewrite Hsn. intros (_ & x & Hx & Hxt). specialize (Hmin x Hx). lia.
    + split; [done|]. exists m. rewrite Ht, String.eqb_refl, Hsn. split; [lia|]. exists lo. by split; [|lia].
  - apply (Hput _ (t, t)); [done| |]; rewrite Hm.
    + simpl. split; [by exists []|]. split; [by left|]. intros x Hx%list_elem_of_singleton. lia.
    + intros (l1 & a & b & l2 & E & _). by destruct l1 as [|? [|? ?]].
Qed.

Lemma body_checked s line s' :
  VirtualTimeMonotonic.body s line = ROk s' ->
  VirtualTimeMonotonic.checked s' =
  VirtualTimeMonotonic.checked s + (if is_some (parse_machine_time line) then 1 else 0).
Proof.
  unfold VirtualTimeMonotonic.body. intros H. repeat case_match; simplify_eq/=; lia.
Qed.

Lemma loop_spec lines (h : string -> list Z) s :
  (forall m, summary (h m) (VirtualTimeMonotonic.state s !! m)) -> (forall m, ~ regresses (h m)) ->
  match rfold VirtualTimeMonotonic.body s lines with
  | ROk s' => (forall m, ~ regresses (h m ++ times m lines)) /\
              VirtualTimeMonotonic.checked s' =
              VirtualTimeMonotonic.checked s + countb (fun l => is_some (parse_machine_time l)) lines
  | RErr r => InvariantResult.status r = CheckStatus.Fail /\ exists m, regresses (h m ++ times m lines)
  end.
Proof.
  revert h s; induction lines as [|line lines IH]; intros h s Hs Hr; cbn [rfold].
  { split; [intros m; by rewrite app_nil_r|]. rewrite countb_nil. lia. }
  pose proof (body_step h s line Hs Hr) as Hb. pose proof (body_checked s line) as Hc.
  assert (forall m, h m ++ times m (line :: lines) = (h m ++ times m [line]) ++ times m lines) as Ha.
  { intros m. by rewrite (times_cons m line lines), (times_cons m line []), app_nil_r, app_assoc. }
  destruct (VirtualTimeMonotonic.body s line) as [s'|r]; cbn [rbind].
  - specialize (IH (fun m => h m ++ times m [line]) s' (fun m => proj1 (Hb m)) (fun m => proj2 (Hb m))).
    specialize (Hc s' eq_refl). destruct (rfold _ s' lines).
    + destruct IH as [IH1 IH2]. split; [intros m; rewrite Ha; apply IH1|].
      rewrite IH2, Hc, countb_cons. lia.
    + destruct IH as [IH1 [m IH2]]. split; [done|]. exists m. by rewrite Ha.
  - destruct Hb as [Hb1 [m Hb2]]. split; [done|]. exists m. rewrite Ha. by apply regresses_mono.
Qed.

Lemma loop_status run :
  let r := VirtualTimeMonotonic.check_run run in
  (InvariantResult.status r = CheckStatus.Fail <-> exists m, regresses (times m (trace run))) /\
  (InvariantResult.status r = CheckStatus.Skipped <->
   forall line, line ∈ trace run -> parse_machine_time line = None).
Proof.
  cbn zeta. pose proof (loop_spec (trace run) (fun _ => []) VirtualTimeMonotonic.start) as H.
  unfold VirtualTimeMonotonic.check_run.
  assert (~ regresses []) as H0 by (intros (l1 & a & b & l2 & E & _); by destruct l1).
  specialize (H (fun m => eq_refl) ltac:(done)).
  set (n := countb _ _) in H.
  assert (n = 0 <-> forall line, line ∈ trace run -> parse_machine_time line = None) as Hn.
  { pose proof (countb_nonneg (fun l => is_some (parse_machine_time l)) (trace run)) as Hge.
    pose proof (countb_pos (fun l => is_some (parse_machine_time l)) (trace run)) as Hpos. fold n in Hge, Hpos.
    split.
    - intros E line Hl. destruct (parse_machine_time line) eqn:Hp; [|done].
      assert (0 < n); [|lia]. apply Hpos. exists line. by rewrite Hp.
    - intros Hall. destruct (decide (0 < n)) as [Hlt|]; [|lia].
      apply Hpos in Hlt as (line & Hl & Hp). by rewrite Hall in Hp. }
  rewrite <- Hn. destruct (rfold _ _ _) as [s|r].
  - destruct H as [Hm Hc]. cbn [VirtualTimeMonotonic.checked VirtualTimeMonotonic.start] in Hc.
    rewrite Hc. destruct (Z.eqb_spec (0 + n) 0); simpl; split; split; try done; try lia.
    all: intros [m Hr]; by destruct (Hm m).
  - destruct H as [-> [m Hr]]. split; [by split; eauto|]. split; [done|]. intros E.
    assert (forall lines, (forall line, line ∈ lines -> parse_machine_time line = None) -> times m lines = []) as Ht.
    { intros lines Hl. induction lines as [|l lines IH]; [done|].
      rewrite times_cons, (Hl l) by (by left). apply IH. intros l' Hl'. apply Hl. by right. }
    rewrite Ht in Hr by by apply Hn. by destruct H0.
Qed.

(** C38: The time check fails exactly when the times of some machine step backwards to a
    value above one of that machine's earlier times: a step back to a new minimum is the
    start of another sink's segment, any other is a regression. It is skipped exactly when
    no line carries a machine and a time, and passes otherwise, whatever the other lines,
    and however the machines' lines are interleaved. *)
Theorem virtual_time_check run :
  let r := VirtualTimeMonotonic.check_run run in
  let timed line := parse_machine_time line <> None in
  (InvariantResult.status r = CheckStatus.Fail <-> exists m, regresses (times m (trace run))) /\
  (InvariantResult.status r = CheckStatus.Skipped <-> ~ exists line, line ∈ trace run /\ timed line) /\
  (InvariantResult.status r = CheckStatus.Pass <->
   (exists line, line ∈ trace run /\ timed line) /\ forall m, ~ regresses (times m (trace run))).
Proof.
  cbn zeta. destruct (loop_status run) as [Hf Hs]. set (r := VirtualTimeMonotonic.check_run run) in *.
  assert ((forall line, line ∈ trace run -> parse_machine_time line = None) <->
          ~ exists line, line ∈ trace run /\ parse_machine_time line <> None) as Ht.
  { split; [intros H (line & Hl & Hp); by apply Hp, H|]. intros H line Hl.
    destruct (parse_machine_time line) eqn:E; [|done]. destruct H. exists line. by rewrite E. }
  rewrite Ht in Hs. split; [done|]. split; [done|]. destruct (InvariantResult.status r) eqn:E.
  - split; [intros _|done]. split.
    + destruct (List.existsb (fun l => is_some (parse_machine_time l)) (trace run)) eqn:Hx.
      * apply existsb_elem in Hx as (line & Hl & Hp). exists line. by destruct (parse_machine_time line).
      * assert (CheckStatus.Pass = CheckStatus.Skipped); [|done]. apply Hs. intros (line & Hl & Hp).
        assert (existsb (fun l => is_some (parse_machine_time l)) (trace run) = true); [|congruence].
        apply existsb_elem. exists line. by destruct (parse_machine_time line).
    + intros m Hm. assert (CheckStatus.Pass = CheckStatus.Fail); [|done]. apply Hf. eauto.
  - split; [done|]. intros [_ H]. destruct (proj1 Hf eq_refl) as [m Hm]. by destruct (H m).
  - split; [done|]. intros [H _]. by destruct (proj1 Hs eq_refl).
Qed.
