(* ===== verification/Determinism.v ===== *)
(** * Repeated runs ([dogfood/src/determinism.rs])

    The runs themselves come from the runner; a list of them is the parameter. *)

From S2P Require Import Prelude MachineInt RustStr TraceHash Runner.

Record DeterminismReport : Type := {
  rep_scenario : string;
  repeats : Z;
  hashes : list string;
  deterministic : bool;
  runs : list ScenarioRun
}.

Definition report_hash (self : DeterminismReport) : option string := head (hashes self).
Definition first_run (self : DeterminismReport) : option ScenarioRun := head (runs self).
Definition any_run_unclean (self : DeterminismReport) : bool :=
  existsb (fun r => bool_decide (Runner.status r <> RunStatus.Pass)) (runs self).

(** [repeats.max(1)]: how many runs are made. *)
Definition effective_repeats (repeats : Z) : Z := Z.max repeats 1.

(** [hashes.first().map(|first| hashes.iter().all(|h| h == first)).unwrap_or(false)] *)
Definition all_equal_first (hashes : list string) : bool :=
  match head hashes with
  | Some first => forallb (fun h => String.eqb h first) hashes
  | None => false
  end.

(** The loop: [run k] is the [k]-th run of the scenario; the state is the name, the hashes
    and the runs so far. *)
Fixpoint repeat_loop (run : nat -> ScenarioRun) (k n : nat)
  (s : string * list string * list ScenarioRun) : string * list string * list ScenarioRun :=
  match n with
  | O => s
  | S n =>
      let '(_, hs, rs) := s in
      let r := run k in
      repeat_loop run (S k) n
        (Runner.scenario r, hs ++ [normalized_hash (trace r)], rs ++ [r])
  end.

(** [check_solo_vs_repeat]; [path] is the scenario's path as text.  The room the two vectors
    ask for in advance is not modelled: [Vec::with_capacity] panics, before any run, for so
    many repetitions that the vector would exceed [isize::MAX] bytes. *)
Definition check_solo_vs_repeat (run : nat -> ScenarioRun) (path : string) (repeats : Z) :
  DeterminismReport :=
  let repeats := effective_repeats repeats in
  let '(name, hs, rs) := repeat_loop run 0 (Z.to_nat repeats) (path, [], []) in
  {| rep_scenario := name; repeats := repeats; hashes := hs;
     deterministic := all_equal_first hs; runs := rs |}.

(** ** Facts *)

Lemma all_equal_first_spec hs :
  all_equal_first hs = true <-> exists h, hs <> [] /\ forall h', h' ∈ hs -> h' = h.
Proof.
  destruct hs as [|h hs]; [split; [done|by intros (? & ? & _)]|].
  unfold all_equal_first. cbn [head]. rewrite forallb_elem. setoid_rewrite String.eqb_eq. split.
  - intros H. by exists h.
  - intros (h' & _ & H) a Ha. by rewrite (H a Ha), (H h) by (by left).
Qed.

Lemma repeat_loop_spec run k n name hs rs :
  repeat_loop run k n (name, hs, rs) =
  (match n with O => name | S n => Runner.scenario (run (k + n)%nat) end,
   hs ++ map (fun r => normalized_hash (trace r)) (map run (seq k n)), rs ++ map run (seq k n)).
Proof.
  revert k name hs rs; induction n as [|n IH]; intros k name hs rs; cbn [repeat_loop].
  { by rewrite !app_nil_r. }
  rewrite IH, <- !app_assoc. cbn [seq map app]. f_equal. f_equal.
  destruct n as [|n]; [by rewrite Nat.add_0_r|]. by rewrite Nat.add_succ_comm.
Qed.

(** The report of a scenario run [n] times, [n >= 1]: every run in order, their hashes, and
    whether these agree. *)
Lemma check_solo_vs_repeat_spec run path n :
  let m := Z.to_nat (Z.max n 1) in
  let rs := map run (seq 0 m) in
  let r := check_solo_vs_repeat run path n in
  runs r = rs /\ hashes r = map (fun r => normalized_hash (trace r)) rs /\
  repeats r = Z.of_nat (length (runs r)) /\ rep_scenario r = Runner.scenario (run (m - 1)%nat) /\
  (deterministic r = true <->
   forall k, (k < m)%nat -> normalized_hash (trace (run k)) = normalized_hash (trace (run 0%nat))).
Proof.
  cbn zeta. unfold check_solo_vs_repeat, effective_repeats. set (m := Z.to_nat (Z.max n 1)).
  assert (exists m', m = S m') as [m' Em] by (exists (m - 1)%nat; lia).
  rewrite repeat_loop_spec. cbn [runs hashes repeats rep_scenario deterministic app].
  split_and!; [done..| | |].
  - rewrite length_map, length_seq. lia.
  - rewrite Em. f_equal. f_equal. lia.
  - rewrite all_equal_first_spec. split.
    + intros (h & _ & H) k Hk.
      assert (forall i, (i < m)%nat -> normalized_hash (trace (run i)) = h) as Hi.
      { intros i Hi. apply H. rewrite map_map. apply list_elem_of_In, in_map_iff. exists i.
        split; [done|]. apply in_seq. lia. }
      by rewrite !Hi by lia.
    + intros H. exists (normalized_hash (trace (run 0%nat))). split; [by rewrite Em|].
      intros h. rewrite map_map, list_elem_of_In, in_map_iff. intros (i & <- & Hi%in_seq). apply H. lia.
Qed.
