(* ===== verification/Summary.v ===== *)
(** * The run summary ([dogfood/src/summary.rs])

    What the harness concludes from the reports, and the JSON it writes. *)

From S2P Require Import Prelude MachineInt RustStr Json TraceHash Runner Invariants Determinism.

Record InvariantEntry : Type := {
  ie_name : string;
  ie_status : CheckStatus.t;
  ie_message : string
}.

(** [From<&InvariantResult>] *)
Definition entry_from (r : InvariantResult.t) : InvariantEntry :=
  {| ie_name := InvariantResult.name r; ie_status := InvariantResult.status r;
     ie_message := InvariantResult.message r |}.

Record ScenarioSummary : Type := {
  ss_name : string;
  ss_status : RunStatus.t;
  ss_wall_ms : Z;
  ss_trace_hash : string;
  ss_repeats : Z;
  ss_deterministic : bool;
  ss_repeat_hashes : list string;
  ss_invariants : list InvariantEntry
}.

Definition from_determinism (report : DeterminismReport) : ScenarioSummary :=
  let '(status, ms, invariants) :=
    match first_run report with
    | Some run => (Runner.status run, wall_ms run, map entry_from (check_default run))
    | None => (RunStatus.Fail, 0, [])
    end in
  {| ss_name := rep_scenario report; ss_status := status; ss_wall_ms := ms;
     ss_trace_hash := default "" (report_hash report); ss_repeats := repeats report;
     ss_deterministic := deterministic report; ss_repeat_hashes := hashes report;
     ss_invariants := invariants |}.

Definition passed (self : ScenarioSummary) : bool :=
  bool_decide (ss_status self = RunStatus.Pass) && ss_deterministic self
  && negb (existsb (fun i => bool_decide (ie_status i = CheckStatus.Fail)) (ss_invariants self)).

Definition scenario_to_json (self : ScenarioSummary) : Json :=
  Obj [ ("name", str (ss_name self));
        ("status", str (RunStatus.as_str (ss_status self)));
        ("passed", Bool (passed self));
        ("wall_ms", UInt (ss_wall_ms self));
        ("trace_hash", str (ss_trace_hash self));
        ("repeats", UInt (ss_repeats self));
        ("deterministic", Bool (ss_deterministic self));
        ("repeat_hashes", Arr (map str (ss_repeat_hashes self)));
        ("invariants",
         Arr (map (fun i => Obj [ ("name", str (ie_name i));
                                  ("status", str (CheckStatus.as_str (ie_status i)));
                                  ("message", str (ie_message i)) ]) (ss_invariants self))) ].

Record Totals : Type := {
  t_scenarios : Z;
  t_passed : Z;
  t_failed : Z;
  t_invariants_passed : Z;
  t_invariants_failed : Z;
  t_invariants_skipped : Z
}.

(** The inner loop's body. *)
Definition count_invariant (t : Totals) (inv : InvariantEntry) : Totals :=
  match ie_status inv with
  | CheckStatus.Pass =>
      {| t_scenarios := t_scenarios t; t_passed := t_passed t; t_failed := t_failed t;
         t_invariants_passed := t_invariants_passed t + 1;
         t_invariants_failed := t_invariants_failed t;
         t_invariants_skipped := t_invariants_skipped t |}
  | CheckStatus.Fail =>
      {| t_scenarios := t_scenarios t; t_passed := t_passed t; t_failed := t_failed t;
         t_invariants_passed := t_invariants_passed t;
         t_invariants_failed := t_invariants_failed t + 1;
         t_invariants_skipped := t_invariants_skipped t |}
  | CheckStatus.Skipped =>
      {| t_scenarios := t_scenarios t; t_passed := t_passed t; t_failed := t_failed t;
         t_invariants_passed := t_invariants_passed t;
         t_invariants_failed := t_invariants_failed t;
         t_invariants_skipped := t_invariants_skipped t + 1 |}
  end.

(** The outer loop's body. *)
Definition count_scenario (t : Totals) (s : ScenarioSummary) : Totals :=
  let t :=
    if passed s then
      {| t_scenarios := t_scenarios t; t_passed := t_passed t + 1; t_failed := t_failed t;
         t_invariants_passed := t_invariants_passed t; t_invariants_failed := t_invariants_failed t;
         t_invariants_skipped := t_invariants_skipped t |}
    else
      {| t_scenarios := t_scenarios t; t_passed := t_passed t; t_failed := t_failed t + 1;
         t_invariants_passed := t_invariants_passed t; t_invariants_failed := t_invariants_failed t;
         t_invariants_skipped := t_invariants_skipped t |} in
  fold_left count_invariant (ss_invariants s) t.

Record Summary : Type := {
  harness_version : string;
  scenarios : list ScenarioSummary;
  totals : Totals
}.

(** [Summary::new]; the version is the build's. *)
Definition new (version : string) (scenarios : list ScenarioSummary) : Summary :=
  let t := {| t_scenarios := Z.of_nat (length scenarios); t_passed := 0; t_failed := 0;
              t_invariants_passed := 0; t_invariants_failed := 0; t_invariants_skipped := 0 |} in
  {| harness_version := version; scenarios := scenarios;
     totals := fold_left count_scenario scenarios t |}.

Definition all_passed (self : Summary) : bool :=
  (t_failed (totals self) =? 0) && (0 <? t_scenarios (totals self)).

Definition to_json (self : Summary) : Json :=
  Obj [ ("harness_version", str (harness_version self));
        ("scenarios", Arr (map scenario_to_json (scenarios self)));
        ("totals",
         Obj [ ("scenarios", UInt (t_scenarios (totals self)));
               ("passed", UInt (t_passed (totals self)));
               ("failed", UInt (t_failed (totals self)));
               ("invariants_passed", UInt (t_invariants_passed (totals self)));
               ("invariants_failed", UInt (t_invariants_failed (totals self)));
               ("invariants_skipped", UInt (t_invariants_skipped (totals self))) ]) ].

Definition to_json_string (self : Summary) : string := to_pretty (to_json self).

Definition build_summary (version : string) (reports : list DeterminismReport) : Summary :=
  new version (map from_determinism reports).

(** ** Facts *)

Lemma count_invariants_spec invs t :
  let t' := fold_left count_invariant invs t in
  let n st := countb (fun i => bool_decide (ie_status i = st)) invs in
  t_scenarios t' = t_scenarios t /\ t_passed t' = t_passed t /\ t_failed t' = t_failed t /\
  t_invariants_passed t' = t_invariants_passed t + n CheckStatus.Pass /\
  t_invariants_failed t' = t_invariants_failed t + n CheckStatus.Fail /\
  t_invariants_skipped t' = t_invariants_skipped t + n CheckStatus.Skipped.
Proof.
  cbn zeta. revert t; induction invs as [|i invs IH]; intros t.
  { rewrite !countb_nil. cbn [fold_left]. lia. }
  rewrite fold_left_cons, !countb_cons. specialize (IH (count_invariant t i)).
  destruct IH as (-> & -> & -> & -> & -> & ->). unfold count_invariant.
  destruct (ie_status i); eval_decide; cbn [t_scenarios t_passed t_failed t_invariants_passed
    t_invariants_failed t_invariants_skipped]; lia.
Qed.

(** The counts of a summary. *)
Definition inv_count (st : CheckStatus.t) (l : list ScenarioSummary) : Z :=
  countb (fun i => bool_decide (ie_status i = st)) (concat (map ss_invariants l)).

Lemma count_scenarios_spec l t :
  let t' := fold_left count_scenario l t in
  t_scenarios t' = t_scenarios t /\ t_passed t' = t_passed t + countb passed l /\
  t_failed t' = t_failed t + countb (fun s => negb (passed s)) l /\
  t_invariants_passed t' = t_invariants_passed t + inv_count CheckStatus.Pass l /\
  t_invariants_failed t' = t_invariants_failed t + inv_count CheckStatus.Fail l /\
  t_invariants_skipped t' = t_invariants_skipped t + inv_count CheckStatus.Skipped l.
Proof.
  cbn zeta. unfold inv_count. revert t; induction l as [|s l IH]; intros t.
  { cbn [map concat fold_left]. rewrite !countb_nil. lia. }
  cbn [map concat]. rewrite fold_left_cons, !countb_cons, !countb_app.
  specialize (IH (count_scenario t s)). destruct IH as (-> & -> & -> & -> & -> & ->).
  unfold count_scenario.
  match goal with |- context [fold_left count_invariant ?l ?x] =>
    destruct (count_invariants_spec l x) as (-> & -> & -> & -> & -> & ->) end.
  destruct (passed s); cbn [t_scenarios t_passed t_failed t_invariants_passed t_invariants_failed
    t_invariants_skipped negb]; lia.
Qed.

Lemma passed_failed_length l :
  countb passed l + countb (fun s => negb (passed s)) l = Z.of_nat (length l).
Proof. induction l as [|s l IH]; [done|]. rewrite !countb_cons. cbn [length]. destruct (passed s); simpl; lia. Qed.

(** The default invariants fail a run that ended badly, left no trace, or whose time
    regressed; the others are placeholders. *)
Lemma check_default_failed run :
  any_failed (check_default run) = true <->
  Runner.status run <> RunStatus.Pass \/ trace run = [] \/
  exists m, regresses (times m (trace run)).
Proof.
  destruct (loop_status run) as [Hf _]. unfold any_failed, check_default, check_all, default_invariants.
  cbn [map existsb]. rewrite !orb_true_iff. unfold InvariantResult.is_fail at 1.
  cbn [VirtualTimeMonotonic.inv check]. rewrite bool_decide_eq_true, Hf.
  assert (InvariantResult.is_fail (check ProcessTerminatedCleanly.inv run) = true <->
          Runner.status run <> RunStatus.Pass) as ->.
  { cbn. unfold ProcessTerminatedCleanly.check_run. destruct (Runner.status run); cbn; naive_solver. }
  assert (InvariantResult.is_fail (check TraceNonEmpty.inv run) = true <-> trace run = []) as ->.
  { cbn. unfold TraceNonEmpty.check_run. destruct (trace run); cbn; naive_solver. }
  cbn. naive_solver.
Qed.

(** A scenario is reported as passed exactly when it was run, its first run exited with
    code 0, left a trace in which no machine's time regresses, and the hashes of its runs
    agree. The report of [n] runs therefore passes whatever the later runs' exit status:
    only their traces count. *)
Theorem scenario_passes_iff run path n :
  let rs := map run (seq 0 (Z.to_nat (Z.max n 1))) in
  passed (from_determinism (check_solo_vs_repeat run path n)) = true <->
  Runner.status (run 0%nat) = RunStatus.Pass /\ trace (run 0%nat) <> [] /\
  (forall m, ~ regresses (times m (trace (run 0%nat)))) /\
  forall r, r ∈ rs -> normalized_hash (trace r) = normalized_hash (trace (run 0%nat)).
Proof.
  cbn zeta. destruct (check_solo_vs_repeat_spec run path n) as (Hr & _ & _ & _ & Hd).
  set (r := check_solo_vs_repeat run path n) in *.
  assert (first_run r = Some (run 0%nat)) as Hf.
  { unfold first_run. rewrite Hr. destruct (Z.to_nat (Z.max n 1)) eqn:E; [lia|done]. }
  unfold passed, from_determinism. rewrite Hf. cbn [ss_status ss_deterministic ss_invariants].
  rewrite !andb_true_iff, negb_true_iff, bool_decide_eq_true, Hd, <- not_true_iff_false.
  assert (existsb (fun i => bool_decide (ie_status i = CheckStatus.Fail))
            (map entry_from (check_default (run 0%nat))) = any_failed (check_default (run 0%nat))) as ->.
  { unfold any_failed. induction (check_default (run 0%nat)) as [|x l IH]; [done|]. simpl. by rewrite IH. }
  rewrite check_default_failed. split.
  - intros [[Hs Hh] Hn]. split_and!; [done|tauto| |].
    + intros m Hm. apply Hn. eauto.
    + intros x (k & <- & Hk%in_seq)%list_elem_of_In%in_map_iff. apply Hh. lia.
  - intros (Hs & Ht & Hm & Hh). split; [split; [done|]|].
    + intros k Hk. apply Hh, list_elem_of_In, in_map_iff. exists k. split; [done|]. apply in_seq. lia.
    + intros [?|[?|[m ?]]]; [done|done|]. by apply (Hm m).
Qed.

(** The totals are exact counts: passed and failed scenarios add up to all of them, the
    three invariant counts to all the invariant entries, and the summary as a whole passes
    exactly when there is a scenario and every one passes. *)
Theorem summary_totals version l :
  let s := new version l in
  let t := totals s in
  t_passed t = countb passed l /\ t_passed t + t_failed t = t_scenarios t /\
  t_scenarios t = Z.of_nat (length (scenarios s)) /\
  t_invariants_passed t + t_invariants_failed t + t_invariants_skipped t =
    Z.of_nat (length (concat (map ss_invariants l))) /\
  t_invariants_failed t = inv_count CheckStatus.Fail l /\
  (all_passed s = true <-> l <> [] /\ forall x, x ∈ l -> passed x = true).
Proof.
  cbn zeta. unfold all_passed, new. cbn [totals scenarios].
  match goal with |- context [fold_left count_scenario l ?x] =>
    destruct (count_scenarios_spec l x) as (-> & -> & -> & -> & -> & ->) end.
  cbn [t_scenarios t_passed t_failed t_invariants_passed t_invariants_failed t_invariants_skipped].
  pose proof (passed_failed_length l) as Hl.
  assert (forall invs, countb (fun i => bool_decide (ie_status i = CheckStatus.Pass)) invs
            + countb (fun i => bool_decide (ie_status i = CheckStatus.Fail)) invs
            + countb (fun i => bool_decide (ie_status i = CheckStatus.Skipped)) invs
            = Z.of_nat (length invs)) as Hi.
  { induction invs as [|i invs IH]; [done|]. rewrite !countb_cons. cbn [length].
    destruct (ie_status i); eval_decide; lia. }
  split_and!; [lia|lia|done|rewrite <- Hi; unfold inv_count; lia|lia|].
  rewrite andb_true_iff, Z.eqb_eq, Z.ltb_lt, !Z.add_0_l.
  pose proof (countb_pos (fun s => negb (passed s)) l) as Hp.
  pose proof (countb_nonneg (fun s => negb (passed s)) l) as Hn. split.
  - intros [H0 Hlen]. split; [by intros ->|]. intros x Hx. destruct (passed x) eqn:E; [done|].
    assert (0 < countb (fun s => negb (passed s)) l); [|lia]. apply Hp. exists x. by rewrite E.
  - intros [Hne Hall]. split; [|destruct l; [done|simpl; lia]].
    destruct (decide (0 < countb (fun s => negb (passed s)) l)) as [H|H]; [|lia].
    apply Hp in H as (x & Hx & E). by rewrite (Hall x Hx) in E.
Qed.
