(* ===== verification/Lane.v ===== *)
(** * What the scenario lanes share

    [dogfood/src/{ota,charging,diagnostics,telematics}.rs] run every scenario file of a
    directory and check the trace events of each run.  The three lanes that read expectations
    from the scenario file are instances of the class [TraceLane]; their common driver and
    what it promises are here.  The directory, the files and the runs are parameters: a
    directory is the list of its entries' names, a scenario is known by its file name. *)

From S2P Require Import Prelude MachineInt RustStr Json Runner.

(** ** File names *)

(** The name before and after its last dot. *)
Definition rsplit_dot (name : string) : option (string * string) :=
  match split_once "." (str_rev name) with
  | Some (a, b) => Some (str_rev b, str_rev a)
  | None => None
  end.

(** [Path::extension] and [Path::file_stem]: a leading dot starts no extension. *)
Definition extension (name : string) : option string :=
  match rsplit_dot name with
  | Some ("", _) | None => None
  | Some (_, ext) => Some ext
  end.
Definition file_stem (name : string) : string :=
  match rsplit_dot name with
  | Some ("", _) | None => name
  | Some (stem, _) => stem
  end.

Fixpoint insert_by {A : Type} (key : A -> string) (x : A) (l : list A) : list A :=
  match l with
  | [] => [x]
  | y :: l' => if str_ltb (key y) (key x) then y :: insert_by key x l' else x :: l
  end.
(** [sort_by(|a, b| key(a).cmp(key(b)))], which is stable, and [sort] on strings. *)
Definition sort_by {A : Type} (key : A -> string) (l : list A) : list A :=
  fold_right (insert_by key) [] l.
Definition sort_str (l : list string) : list string := sort_by (fun s => s) l.

Definition is_toml (name : string) : bool :=
  match extension name with Some e => String.eqb e "toml" | None => false end.

(** [discover_scenarios]: an unreadable directory or entry is an error. *)
Definition discover_scenarios (dir : result (list (result string string)) string) :
  result (list string) string :=
  try! entries := dir in
  try! out := rfold (fun out entry =>
                       try! path := entry in
                       ROk (if is_toml path then out ++ [path] else out)) [] entries in
  ROk (sort_str out).

(** ** Checks and reports *)

Record Check : Type := { name : string; passed : bool; detail : string }.

(** A check with its two messages. *)
Definition mk (n : string) (ok : bool) (yes no : string) : Check :=
  {| name := n; passed := ok; detail := if ok then yes else no |}.


Record ScenarioResult : Type := {
  sr_name : string;
  sr_passed : bool;
  run_error : option string;
  checks : list Check
}.

Definition Report : Type := list ScenarioResult.

Definition totals (scenarios : Report) : Z * Z :=
  let passed := countb sr_passed scenarios in
  (passed, Z.of_nat (length scenarios) - passed).

Definition report_passed (scenarios : Report) : bool :=
  negb (match scenarios with [] => true | _ => false end) && forallb sr_passed scenarios.

Definition check_to_json (c : Check) : Json :=
  Obj [("name", str (name c)); ("passed", Bool (passed c)); ("detail", str (detail c))].

Definition result_to_json (s : ScenarioResult) : Json :=
  Obj ([("name", str (sr_name s)); ("passed", Bool (sr_passed s));
        ("checks", Arr (map check_to_json (checks s)))]
       ++ match run_error s with Some e => [("run_error", str e)] | None => [] end).

Definition report_to_json (lane : string) (scenarios : Report) : Json :=
  let '(ok, failed) := totals scenarios in
  Obj [ ("lane", str lane);
        ("passed", Bool (report_passed scenarios));
        ("scenarios_passed", UInt ok);
        ("scenarios_failed", UInt failed);
        ("scenarios", Arr (map result_to_json scenarios)) ].

(** ** User trace events *)

Record UserTrace : Type := { machine : Z; label : string; value : Z }.

(** A quoted string without its quotes. *)
Definition unquote (s : string) : option string :=
  strip_prefix quote_str s ≫= strip_suffix quote_str.

Definition parse_user_trace_line (line : string) : option UserTrace :=
  match strip_prefix "[machine." (trim_start line) with
  | None => None
  | Some rest =>
      match split_once "]" rest with
      | None => None
      | Some (machine_s, rest) =>
          match parse_int U64 machine_s, split_whitespace rest with
          | Some machine, at_s :: kind :: label_s :: eq :: value_s :: _ =>
              match parse_int U64 at_s with
              | None => None
              | Some _ =>
                  if negb (String.eqb kind "user-u32") then None
                  else match unquote label_s with
                       | None => None
                       | Some label =>
                           if negb (String.eqb eq "=") then None
                           else match parse_int U32 value_s with
                                | None => None
                                | Some value =>
                                    Some {| machine := machine; label := label; value := value |}
                                end
                       end
              end
          | _, _ => None
          end
      end
  end.

Definition event_is (m : Z) (l : string) (e : UserTrace) : bool :=
  (machine e =? m) && String.eqb (label e) l.

(** The values [m] traced for [l], in order. *)
Definition values_of (trace : list UserTrace) (m : Z) (l : string) : list Z :=
  map value (List.filter (event_is m l) trace).

Definition any_value (trace : list UserTrace) (m : Z) (l : string) (want : Z) : bool :=
  existsb (fun e => event_is m l e && (value e =? want)) trace.

(** The last one, if any. *)
Definition last_value (trace : list UserTrace) (m : Z) (l : string) : option Z :=
  last (values_of trace m l).

(** [s.split_whitespace().find_map(|part| part.strip_prefix(prefix))] *)
Definition parse_kv_str (s key : string) : option string :=
  head (omap (strip_prefix (key +:+ "=")) (split_whitespace s)).
Definition parse_kv (t : ity) (s key : string) : option Z := parse_kv_str s key ≫= parse_int t.

(** ** The driver *)

(** A lane reads expectations from a scenario's text, never none, and checks each against
    the events of the run. *)
Class TraceLane (E : Type) : Type := {
  lane_name : string;
  parse_expectations : string -> list E;
  evaluate : E -> list UserTrace -> Check;
  parse_expectations_nonempty : forall content, parse_expectations content <> []
}.

Section Driver.
Context {E : Type} `{TraceLane E}.
Variable run_scenario : string -> ScenarioRun.
Variable read_to_string : string -> result string string.

Definition all_checks_passed (cs : list Check) : bool :=
  negb (match cs with [] => true | _ => false end) && forallb passed cs.

Definition run_lane_scenario (scenario : string) : ScenarioResult :=
  let name := file_stem scenario in
  let run := run_scenario scenario in
  if negb (bool_decide (Runner.status run = RunStatus.Pass)) then
    let detail := default ("run exited " +:+ RunStatus.as_str (Runner.status run))
                    (last (stderr_tail run)) in
    {| sr_name := name; sr_passed := false; run_error := Some detail; checks := [] |}
  else
    let trace := omap parse_user_trace_line (Runner.trace run) in
    match read_to_string scenario with
    | RErr e =>
        {| sr_name := name; sr_passed := false;
           run_error := Some ("failed to parse " +:+ lane_name +:+ " expectations: " +:+ e);
           checks := [] |}
    | ROk content =>
        let checks := map (fun exp => evaluate exp trace) (parse_expectations content) in
        {| sr_name := name; sr_passed := all_checks_passed checks; run_error := None;
           checks := checks |}
    end.

Definition run_lane (dir : result (list (result string string)) string) : result Report string :=
  try! scenarios := discover_scenarios dir in
  ROk (map run_lane_scenario scenarios).

(** ** What the driver promises *)

(** A scenario passes exactly when its run does, its expectations can be read, and the
    events of the run meet every one of them. *)
Lemma run_lane_scenario_spec scenario :
  let events := omap parse_user_trace_line (Runner.trace (run_scenario scenario)) in
  sr_passed (run_lane_scenario scenario) = true <->
  Runner.status (run_scenario scenario) = RunStatus.Pass /\
  exists content, read_to_string scenario = ROk content /\
    forall exp, exp ∈ parse_expectations content -> passed (evaluate exp events) = true.
Proof.
  cbn zeta. unfold run_lane_scenario. case_bool_decide as Hs; cbn [negb].
  2: { split; [done|by intros [? _]]. }
  destruct (read_to_string scenario) as [content|e]; cbn [sr_passed].
  2: { split; [done|by intros (_ & ? & ? & _)]. }
  pose proof (parse_expectations_nonempty content) as Hne. unfold all_checks_passed.
  transitivity (forall exp, exp ∈ parse_expectations content ->
    passed (evaluate exp (omap parse_user_trace_line (Runner.trace (run_scenario scenario)))) = true).
  - rewrite andb_true_iff, forallb_elem, negb_true_iff.
    assert (forall f : E -> Check, match map f (parse_expectations content) with [] => true | _ => false end = false)
      as -> by (intros f; by destruct (parse_expectations content)).
    split.
    + intros [_ Hall] exp Hexp. apply Hall, list_elem_of_In, in_map_iff. exists exp. by rewrite <- list_elem_of_In.
    + intros Hall. split; [done|]. intros c (exp & <- & Hexp)%list_elem_of_In%in_map_iff. by apply Hall, list_elem_of_In.
  - split; [eauto|]. by intros (_ & ? & [= <-] & ?).
Qed.
End Driver.

(** ** Facts on events, reports and directories *)

Lemma any_value_spec trace m l want : any_value trace m l want = true <-> want ∈ values_of trace m l.
Proof.
  unfold any_value, values_of. rewrite existsb_elem. split.
  - intros (e & He & [Hi Hv]%andb_true_iff). apply list_elem_of_In, in_map_iff. exists e.
    split; [by apply Z.eqb_eq|]. apply filter_In. by rewrite <- list_elem_of_In.
  - intros (e & <- & [He Hi]%filter_In)%list_elem_of_In%in_map_iff. exists e.
    split; [by apply list_elem_of_In|]. by rewrite Hi, Z.eqb_refl.
Qed.

Lemma report_passed_spec r : report_passed r = true <-> r <> [] /\ forall s, s ∈ r -> sr_passed s = true.
Proof. unfold report_passed. rewrite andb_true_iff, forallb_elem. destruct r; naive_solver. Qed.

Lemma totals_spec r : 0 <= (totals r).1 /\ 0 <= (totals r).2 /\ (totals r).1 + (totals r).2 = Z.of_nat (length r).
Proof. unfold totals. cbn [fst snd]. pose proof (countb_nonneg sr_passed r). pose proof (countb_le_length sr_passed r). lia. Qed.

Lemma insert_by_elem {A : Type} (key : A -> string) x y l : y ∈ insert_by key x l <-> y = x \/ y ∈ l.
Proof.
  induction l as [|z l IH]; cbn [insert_by]; [by rewrite list_elem_of_singleton, elem_of_nil; tauto|].
  destruct (str_ltb (key z) (key x)); rewrite !elem_of_cons, ?IH; tauto.
Qed.

Lemma sort_by_elem {A : Type} (key : A -> string) l y : y ∈ sort_by key l <-> y ∈ l.
Proof.
  induction l as [|x l IH]; [done|]. cbn [sort_by fold_right]. rewrite insert_by_elem, elem_of_cons.
  by rewrite <- IH.
Qed.

(** The scenarios of a readable directory are its [.toml] entries. *)
Lemma discover_scenarios_elem entries out :
  discover_scenarios (ROk entries) = ROk out ->
  forall f, f ∈ out <-> ROk f ∈ entries /\ is_toml f = true.
Proof.
  cbn [discover_scenarios rbind]. intros H. inv_bind. simplify_eq/=. intros f. unfold sort_str. rewrite sort_by_elem.
  match goal with H : rfold _ _ _ = ROk ?x |- _ => rename x into fs; revert H end.
  intros H. assert (forall acc, rfold (fun out entry => try! path := entry in
     ROk (if is_toml path then out ++ [path] else out)) acc entries = ROk fs ->
     f ∈ fs <-> f ∈ acc \/ ROk f ∈ entries /\ is_toml f = true) as Hg.
  2: { rewrite (Hg [] H). rewrite elem_of_nil. tauto. }
  clear H. induction entries as [|e entries IH]; intros acc; cbn [rfold].
  { intros [= ->]. rewrite elem_of_nil. tauto. }
  destruct e as [p|]; cbn [rbind]; [|done]. intros H. rewrite (IH _ H). rewrite elem_of_cons.
  assert (ROk f = ROk p :> result string string <-> f = p) as -> by (split; [by intros [= ->]|by intros ->]).
  destruct (is_toml p) eqn:Hp; rewrite ?elem_of_app, ?list_elem_of_singleton; intuition (subst; auto; congruence).
Qed.

(** Only an unreadable entry makes a readable directory unreadable. *)
Lemma discover_scenarios_ok entries :
  (exists out, discover_scenarios (ROk entries) = ROk out) <->
  forall x, x ∈ entries -> exists f, x = ROk f.
Proof.
  cbn [discover_scenarios rbind].
  assert (forall acc, (exists fs, rfold (fun out entry => try! path := entry in
            ROk (if is_toml path then out ++ [path] else out)) acc entries = ROk fs) <->
          forall x, x ∈ entries -> exists f, x = ROk f) as Hg.
  { induction entries as [|[f|m] entries IH]; intros acc; cbn [rfold rbind].
    - split; [by intros _ ? ?%not_elem_of_nil|eauto].
    - rewrite IH. setoid_rewrite elem_of_cons. split; [intros H x [->|Hx]; eauto|eauto].
    - split; [by intros []|]. intros H. by destruct (H (RErr m) ltac:(by left)). }
  rewrite <- (Hg []). split.
  - intros (out & (fs & Hfs & _)%rbind_ROk). eauto.
  - intros (fs & ->). cbn [rbind]. eauto.
Qed.

(** A lane passes exactly when its directory has a scenario and every one passes. *)
Lemma run_lane_passed {E : Type} `{TraceLane E} run read entries report :
  run_lane run read (ROk entries) = ROk report ->
  report_passed report = true <->
  (exists f, ROk f ∈ entries /\ is_toml f = true) /\
  forall f, ROk f ∈ entries -> is_toml f = true -> sr_passed (run_lane_scenario run read f) = true.
Proof.
  intros (x & Hd & [= <-])%rbind_ROk. pose proof (discover_scenarios_elem _ _ Hd) as He.
  rewrite report_passed_spec. split.
  - intros [Hne Hall]. split.
    + destruct x as [|f fs]; [done|]. exists f. apply He. by left.
    + intros f Hf Ht. apply Hall, list_elem_of_In, in_map, list_elem_of_In, He. done.
  - intros [(f & Hf) Hall]. split.
    + apply He in Hf. destruct x as [|f' x]; [by apply not_elem_of_nil in Hf|discriminate].
    + intros s (f' & <- & [Hf' Ht]%list_elem_of_In%He)%list_elem_of_In%in_map_iff. by apply Hall.
Qed.

(** ** Trace lines

    The line the simulator prints for [sim_trace_u32(label, value)], the time right-aligned
    by [pad] spaces. *)
Definition user_line (pad : nat) (at_ : Z) (e : UserTrace) : string :=
  "[machine." +:+ fmt_int (machine e) +:+ "]" +:+ str_repeat pad " " +:+ fmt_int at_ +:+ " "
  +:+ "user-u32" +:+ " " +:+ (quote_str +:+ label e +:+ quote_str) +:+ " " +:+ "=" +:+ " "
  +:+ fmt_int (value e).

Definition printable (e : UserTrace) : Prop :=
  0 <= machine e /\ fits U64 (machine e) /\ 0 <= value e /\ fits U32 (value e) /\
  is_word (label e) = true.

Lemma unquote_quoted s : unquote (quote_str +:+ s +:+ quote_str) = Some s.
Proof. unfold unquote. rewrite (proj2 (strip_prefix_Some _ _ _) eq_refl). exact (strip_suffix_app quote_str s). Qed.

Lemma parse_user_line pad at_ e :
  printable e -> 0 <= at_ -> fits U64 at_ -> parse_user_trace_line (user_line pad at_ e) = Some e.
Proof.
  intros (Hm & Hm64 & Hv & Hv32 & Hl) Ha Ha64. unfold parse_user_trace_line, user_line.
  rewrite str_cons_app, trim_start_word, <- str_cons_app by done.
  rewrite (proj2 (strip_prefix_Some _ _ _) eq_refl).
  change ("]" +:+ ?s) with (String "]" "" +:+ s). rewrite (str_cons_app "]").
  rewrite split_once_char by (apply fmt_int_all; [done|by vm_compute]). rewrite str_nil_app.
  rewrite split_whitespace_spaces.
  assert (forall n, 0 <= n -> is_word (fmt_int n) = true) as Hw by (intros; apply fmt_int_all; [done|by vm_compute]).
  rewrite !split_whitespace_cons; auto using fmt_int_not_empty.
  2: { rewrite !str_all_app, Hl. done. }
  rewrite split_whitespace_word by auto using fmt_int_not_empty.
  rewrite !parse_int_fmt by done. cbn [negb String.eqb Ascii.eqb Bool.eqb].
  rewrite unquote_quoted. by destruct e.
Qed.
