(* ===== verification/OtaLane.v ===== *)
(** * The OTA lane ([dogfood/src/ota.rs])

    Expectations on the update events a gateway traces. *)

From S2P Require Import Prelude MachineInt RustStr Json Runner Lane.

Definition NODE_GATEWAY : Z := 1.

Inductive Expectation : Type :=
  | StateSequence (want : list Z)
  | CrcOk
  | CrcBad
  | Healthy
  | RolledBack
  | ActiveSlot (want : Z).

(** The values traced for [ota_state], in order. *)
Definition state_values (trace : list UserTrace) (m : Z) : list Z := values_of trace m "ota_state".

(** [it.any(|h| h == w)]: the iterator after the first match, [None] when there is none. *)
Fixpoint any_next (it : list Z) (w : Z) : option (list Z) :=
  match it with
  | [] => None
  | h :: it => if h =? w then Some it else any_next it w
  end.

Fixpoint is_subsequence (it want : list Z) : bool :=
  match want with
  | [] => true
  | w :: want => match any_next it w with Some it => is_subsequence it want | None => false end
  end.

Definition parse_line (line : string) : option Expectation :=
  match strip_prefix "# ota-expect:" (trim line) with
  | None => None
  | Some rest =>
      let rest := trim rest in
      match strip_prefix "state-sequence " rest with
      | Some args =>
          Some (StateSequence (omap (fun s => parse_int U32 (trim s)) (split_char "," (trim args))))
      | None =>
          if String.eqb rest "crc-ok" then Some CrcOk
          else if String.eqb rest "crc-bad" then Some CrcBad
          else if String.eqb rest "healthy" then Some Healthy
          else if String.eqb rest "rolled-back" then Some RolledBack
          else match strip_prefix "active-slot " rest with
               | Some v => ActiveSlot <$> parse_int U32 (trim v)
               | None => None
               end
      end
  end.

(** Without a directive, the update has to end healthy. *)
Definition parse_expectations (content : string) : list Expectation :=
  match omap parse_line (lines content) with
  | [] => [Healthy]
  | out => out
  end.

Definition evaluate (exp : Expectation) (trace : list UserTrace) : Check :=
  match exp with
  | StateSequence want =>
      let have := state_values trace NODE_GATEWAY in
      mk "state-sequence"
        (negb (match want with [] => true | _ => false end) && is_subsequence have want)
        ("OTA states stepped through the expected sequence " +:+ fmt_debug_list fmt_int want
         +:+ " (traced " +:+ fmt_debug_list fmt_int have +:+ ")")
        ("expected ota_state subsequence " +:+ fmt_debug_list fmt_int want +:+ "; traced "
         +:+ fmt_debug_list fmt_int have)
  | CrcOk =>
      mk "crc-ok" (any_value trace NODE_GATEWAY "ota_crc_ok" 1)
        "image CRC/signature verified (ota_crc_ok=1)"
        "expected an ota_crc_ok=1 trace event; saw none"
  | CrcBad =>
      let saw_bad := any_value trace NODE_GATEWAY "ota_crc_ok" 0 in
      let saw_ok := any_value trace NODE_GATEWAY "ota_crc_ok" 1 in
      mk "crc-bad" (saw_bad && negb saw_ok)
        "corrupt image failed verification (ota_crc_ok=0, never ota_crc_ok=1)"
        (if saw_ok then "expected a failed CRC but saw an ota_crc_ok=1 (image verified)"
         else "expected an ota_crc_ok=0 trace event; saw none")
  | Healthy =>
      mk "healthy" (any_value trace NODE_GATEWAY "ota_boot_result" 1)
        "new slot booted healthy and update committed (ota_boot_result=1)"
        "expected an ota_boot_result=1 trace event; saw none"
  | RolledBack =>
      mk "rolled-back" (any_value trace NODE_GATEWAY "ota_rollback" 1)
        "update aborted and reverted to the previous good slot (ota_rollback=1)"
        "expected an ota_rollback=1 trace event; saw none"
  | ActiveSlot want =>
      let have := last_value trace NODE_GATEWAY "ota_active_slot" in
      {| Lane.name := "active-slot";
         passed := bool_decide (have = Some want);
         detail :=
           match have with
           | Some v =>
               if v =? want then "bootloader active slot is " +:+ fmt_int v +:+ " (as expected)"
               else "expected active slot " +:+ fmt_int want +:+ "; traced " +:+ fmt_int v
           | None => "expected an ota_active_slot=" +:+ fmt_int want +:+ " trace event; saw none"
           end |}
  end.

Lemma parse_nonempty content : parse_expectations content <> [].
Proof. unfold parse_expectations. by destruct (omap _ _). Qed.

#[export] Instance ota_lane : TraceLane Expectation :=
  {| lane_name := "ota"; Lane.parse_expectations := parse_expectations;
     Lane.evaluate := evaluate; parse_expectations_nonempty := parse_nonempty |}.

Definition run_ota_scenario (run : string -> ScenarioRun) (read : string -> result string string)
  (scenario : string) : ScenarioResult := run_lane_scenario run read scenario.
Definition run_ota (run : string -> ScenarioRun) (read : string -> result string string)
  (dir : result (list (result string string)) string) : result Report string := run_lane run read dir.
Definition to_json (r : Report) : Json := report_to_json "ota" r.

(** ** Facts *)

Lemma any_next_Some it w it' :
  any_next it w = Some it' <-> exists l, it = l ++ w :: it' /\ w ∉ l.
Proof.
  induction it as [|h it IH]; cbn [any_next].
  { split; [done|]. by intros ([|? ?] & ? & _). }
  destruct (Z.eqb_spec h w) as [->|Hne].
  - split.
    + intros [= ->]. exists []. split; [done|]. apply not_elem_of_nil.
    + intros ([|x l] & E & Hn); [by injection E as ->|]. injection E as <- _. destruct Hn. by left.
  - rewrite IH. split.
    + intros (l & -> & Hn). exists (h :: l). split; [done|]. rewrite not_elem_of_cons. auto.
    + intros ([|x l] & E & Hn); [by injection E as ->|]. injection E as -> ->. exists l. split; [done|].
      intros Hw. apply Hn. by right.
Qed.

Lemma any_next_elem it w : is_Some (any_next it w) <-> w ∈ it.
Proof.
  induction it as [|h it IH]; cbn [any_next]; [rewrite elem_of_nil; split; [by intros [? ?]|done]|].
  rewrite elem_of_cons, <- IH. destruct (Z.eqb_spec h w) as [->|]; [|naive_solver].
  split; [by left|eauto].
Qed.

(** The greedy scan finds every subsequence. *)
Lemma is_subsequence_spec have want : is_subsequence have want = true <-> want `sublist_of` have.
Proof.
  revert have; induction want as [|w want IH]; intros have; cbn [is_subsequence].
  { split; [intros _; apply sublist_nil_l|done]. }
  destruct (any_next have w) as [it|] eqn:E.
  - apply any_next_Some in E as (l & -> & Hn). rewrite IH. split.
    + intros H. apply sublist_inserts_l. by apply sublist_skip.
    + intros H. induction l as [|x l IHl]; cbn [app] in H.
      * inversion H; subst; [done|]. etransitivity; [|eassumption]. by apply sublist_cons.
      * apply not_elem_of_cons in Hn as [Hx Hn]. inversion H; subst; [done|]. by apply IHl.
  - split; [done|]. intros H. assert (w ∈ have) as Hw%any_next_elem.
    { eapply elem_of_submseteq; [|by apply sublist_submseteq]. by left. }
    rewrite E in Hw. by destruct Hw.
Qed.

(** What each expectation asks of the values the gateway traced. *)
Definition meets (exp : Expectation) (trace : list UserTrace) : Prop :=
  let values l := values_of trace NODE_GATEWAY l in
  match exp with
  | StateSequence want => want <> [] /\ want `sublist_of` values "ota_state"
  | CrcOk => 1 ∈ values "ota_crc_ok"
  | CrcBad => 0 ∈ values "ota_crc_ok" /\ 1 ∉ values "ota_crc_ok"
  | Healthy => 1 ∈ values "ota_boot_result"
  | RolledBack => 1 ∈ values "ota_rollback"
  | ActiveSlot want => last (values "ota_active_slot") = Some want
  end.

Lemma evaluate_meets exp trace : passed (evaluate exp trace) = true <-> meets exp trace.
Proof.
  destruct exp; cbn [evaluate mk passed meets]; unfold state_values, last_value;
    rewrite ?andb_true_iff, ?negb_true_iff, ?is_subsequence_spec, ?bool_decide_eq_true,
      <- ?not_true_iff_false, ?any_value_spec; try done.
  destruct want; naive_solver.
Qed.

(** An OTA scenario passes exactly when its run passes, its file can be read, and the
    events the run traced meet every expectation of the file: the wanted states occur in
    that order, possibly with others between them; the CRC was reported good, or bad and
    never good; the new slot was healthy; a rollback happened; the last active slot traced
    is the wanted one. The lane passes exactly when the directory has a scenario and every
    one of its [.toml] files passes. *)
Theorem ota_lane_passes_iff run read entries report :
  run_ota run read (ROk entries) = ROk report ->
  (forall scenario,
     let events := omap parse_user_trace_line (Runner.trace (run scenario)) in
     sr_passed (run_ota_scenario run read scenario) = true <->
     Runner.status (run scenario) = RunStatus.Pass /\
     exists content, read scenario = ROk content /\
       forall exp, exp ∈ parse_expectations content -> meets exp events) /\
  (report_passed report = true <->
   (exists f, ROk f ∈ entries /\ is_toml f = true) /\
   forall f, ROk f ∈ entries -> is_toml f = true -> sr_passed (run_ota_scenario run read f) = true).
Proof.
  intros Hr. split.
  - intros scenario. cbn zeta. unfold run_ota_scenario. rewrite run_lane_scenario_spec.
    cbn [Lane.parse_expectations Lane.evaluate ota_lane]. by setoid_rewrite evaluate_meets.
  - by apply run_lane_passed.
Qed.

Lemma ota_lane_passes_iff_witness :
  let run := fun _ => {| Runner.scenario := "a"; Runner.status := RunStatus.Pass; exit_code := Some 0;
    trace := [user_line 8 10 {| machine := 1; label := "ota_boot_result"; value := 1 |}];
    wall := 0; stdout_tail := []; stderr_tail := [] |} in
  let read := fun _ => ROk "# ota-expect: healthy" in
  report_passed [run_ota_scenario run read "a.toml"] = true <->
  (exists f, ROk f ∈ [ROk "a.toml"; ROk "readme.md" : result string string] /\ is_toml f = true) /\
  forall f, ROk f ∈ [ROk "a.toml"; ROk "readme.md" : result string string] -> is_toml f = true ->
    sr_passed (run_ota_scenario run read f) = true.
Proof.
  intros run read.
  exact (proj2 (ota_lane_passes_iff run read [ROk "a.toml"; ROk "readme.md"] _ eq_refl)).
Defined.
