(* ===== verification/ChargingLane.v ===== *)
(** * The charging lane ([dogfood/src/charging.rs])

    Expectations on the plug-in events traced by the gateway and the powertrain. *)

From S2P Require Import Prelude MachineInt RustStr Json Runner Lane.

Definition NODE_GATEWAY : Z := 1.
Definition NODE_POWERTRAIN : Z := 2.
Definition VEHICLE_CHARGING : Z := 5.

(** The module's own copy of the driver and of the trace reader, in the names it gives them.
    The text is that of the OTA lane, which [Lane] translates; only [last_value] is written differently. *)
Module Driver.
Definition ChargingCheck : Type := Check.
Definition ChargingScenarioResult : Type := ScenarioResult.
Definition ChargingReport : Type := Report.
Definition totals (self : ChargingReport) : Z * Z := Lane.totals self.
Definition passed (self : ChargingReport) : bool := Lane.report_passed self.
Definition UserTrace : Type := Lane.UserTrace.
Definition parse_user_trace_line (line : string) : option UserTrace := Lane.parse_user_trace_line line.
Definition any_value (trace : list UserTrace) (m : Z) (l : string) (want : Z) : bool :=
  Lane.any_value trace m l want.
Definition discover_scenarios (dir : result (list (result string string)) string) :
  result (list string) string := Lane.discover_scenarios dir.

(** [trace.iter().rfind(..).map(|e| e.value)] *)
Definition last_value (trace : list UserTrace) (m : Z) (l : string) : option Z :=
  value <$> List.find (event_is m l) (rev trace).

(** Searching from the end finds the last of the values in order. *)
Lemma last_value_eq (trace : list UserTrace) (m : Z) (l : string) :
  last_value trace m l = Lane.last_value trace m l.
Proof.
  unfold last_value, Lane.last_value, values_of. induction trace as [|e trace IH] using rev_ind; [done|].
  rewrite rev_app_distr, List.filter_app, map_app. cbn [rev app List.find List.filter].
  destruct (event_is m l e); cbn [map].
  - by rewrite last_snoc.
  - by rewrite app_nil_r.
Qed.
End Driver.

Inductive Expectation : Type :=
  | ChargingMode
  | DriveBlocked
  | MotorTorque (max : Z).

Record MotorCommand : Type := { torque : Z; enable : Z }.

Definition decode_motor_command (v : Z) : MotorCommand :=
  {| torque := cast I8 (cast U8 (Z.shiftr v 8)); enable := cast U8 (Z.land v 0xff) |}.

Definition motor_commands (trace : list UserTrace) : list MotorCommand :=
  map (fun e => decode_motor_command (value e))
    (List.filter (event_is NODE_POWERTRAIN "charging_motor_command") trace).

Definition parse_line (line : string) : option Expectation :=
  match strip_prefix "# charging-expect:" (trim line) with
  | None => None
  | Some rest =>
      let rest := trim rest in
      if String.eqb rest "charging-mode" then Some ChargingMode
      else if String.eqb rest "drive-blocked" then Some DriveBlocked
      else match strip_prefix "motor-torque " rest with
           | Some args => Some (MotorTorque (default 0 (parse_kv I8 args "max")))
           | None => None
           end
  end.

(** Without a directive, the gateway has to reach CHARGING. *)
Definition parse_expectations (content : string) : list Expectation :=
  match omap parse_line (lines content) with
  | [] => [ChargingMode]
  | out => out
  end.

Definition evaluate (exp : Expectation) (trace : list UserTrace) : Check :=
  match exp with
  | ChargingMode =>
      mk "charging-mode" (any_value trace NODE_GATEWAY "gateway_charging_state" VEHICLE_CHARGING)
        "gateway entered CHARGING after plug-in"
        ("expected a gateway_charging_state == " +:+ fmt_int VEHICLE_CHARGING +:+ "; last was "
         +:+ fmt_debug_option fmt_int (last_value trace NODE_GATEWAY "gateway_charging_state"))
  | DriveBlocked =>
      let blocked := last_value trace NODE_GATEWAY "charging_drive_blocked" in
      let still_charging :=
        bool_decide (last_value trace NODE_GATEWAY "gateway_charging_state" = Some VEHICLE_CHARGING) in
      mk "drive-blocked" (bool_decide (blocked = Some 1) && still_charging)
        "drive request while plugged was refused; vehicle stayed in CHARGING"
        ("expected charging_drive_blocked=1 and mode still CHARGING; got blocked="
         +:+ fmt_debug_option fmt_int blocked +:+ " still_charging=" +:+ fmt_bool still_charging)
  | MotorTorque max =>
      let cmds := motor_commands trace in
      let none := match cmds with [] => true | _ => false end in
      mk "motor-torque"
        (negb none && forallb (fun c => (torque c <=? max) && (enable c =? 0)) cmds)
        ("all " +:+ fmt_int (Z.of_nat (length cmds)) +:+ " CHARGING motor command(s) clamped torque <= "
         +:+ fmt_int max +:+ " with motor disabled")
        (if none then "expected charging_motor_command trace events; saw none"
         else "expected CHARGING torque <= " +:+ fmt_int max +:+ " and motor disabled; saw "
              +:+ fmt_debug_list (fun c => "(" +:+ fmt_int (torque c) +:+ ", " +:+ fmt_int (enable c) +:+ ")")
                    cmds)
  end.

Lemma charging_parse_nonempty content : parse_expectations content <> [].
Proof. unfold parse_expectations. by destruct (omap _ _). Qed.

#[export] Instance charging_lane : TraceLane Expectation :=
  {| lane_name := "charging"; Lane.parse_expectations := parse_expectations;
     Lane.evaluate := evaluate; parse_expectations_nonempty := charging_parse_nonempty |}.

Definition run_charging_scenario (run : string -> ScenarioRun)
  (read : string -> result string string) (scenario : string) : ScenarioResult :=
  run_lane_scenario run read scenario.
Definition run_charging (run : string -> ScenarioRun) (read : string -> result string string)
  (dir : result (list (result string string)) string) : result Report string := run_lane run read dir.
Definition to_json (r : Report) : Json := report_to_json "charging" r.

(** ** Facts *)

(** A motor command as the powertrain packs it into one word. *)
Definition encode_motor_command (c : MotorCommand) : Z := cast U8 (torque c) * 256 + enable c.

Lemma decode_encode_motor_command c :
  fits I8 (torque c) -> fits U8 (enable c) -> decode_motor_command (encode_motor_command c) = c.
Proof.
  destruct c as [t e]. unfold decode_motor_command, encode_motor_command. cbn [torque enable]. intros Ht He.
  pose proof (cast_fits U8 t) as Hc.
  rewrite Z.shiftr_div_pow2 by done. change 0xff with (Z.ones 8). rewrite Z.land_ones by done.
  change (2 ^ 8) with 256. rewrite Z.div_add_l by done. rewrite (Z.div_small e) by int_lia.
  rewrite Z.add_0_r, Z.add_comm, Z_mod_plus_full, (Z.mod_small e) by int_lia.
  rewrite (cast_id U8 (cast U8 t)), (cast_id U8 e) by done. f_equal.
  unfold cast at 2. cbn [signed andb]. unfold cast. int_unfold.
  destruct (Z.leb_spec 0 t).
  - rewrite (Z.mod_small t), (Z.mod_small t) by lia. rewrite (proj2 (Z.ltb_ge 127 t)) by lia. done.
  - rewrite <- (Z_mod_plus_full t 1), (Z.mod_small (t + 1 * 256)), Z.mod_small by lia.
    rewrite (proj2 (Z.ltb_lt 127 (t + 1 * 256))) by lia. lia.
Qed.

(** What each expectation asks of the values traced. *)
Definition meets (exp : Expectation) (trace : list UserTrace) : Prop :=
  match exp with
  | ChargingMode => VEHICLE_CHARGING ∈ values_of trace NODE_GATEWAY "gateway_charging_state"
  | DriveBlocked =>
      last (values_of trace NODE_GATEWAY "charging_drive_blocked") = Some 1 /\
      last (values_of trace NODE_GATEWAY "gateway_charging_state") = Some VEHICLE_CHARGING
  | MotorTorque max =>
      let commands := values_of trace NODE_POWERTRAIN "charging_motor_command" in
      commands <> [] /\
      forall v, v ∈ commands -> torque (decode_motor_command v) <= max /\ enable (decode_motor_command v) = 0
  end.

Lemma charging_evaluate_meets exp trace : passed (evaluate exp trace) = true <-> meets exp trace.
Proof.
  destruct exp as [| |max]; cbn [evaluate mk passed meets]; unfold last_value.
  - apply any_value_spec.
  - by rewrite andb_true_iff, !bool_decide_eq_true.
  - unfold motor_commands, values_of. rewrite <- (map_map value decode_motor_command).
    rewrite andb_true_iff, forallb_elem. split.
    + intros [Hne Hall]. split; [by destruct (map value _)|]. intros v Hv.
      specialize (Hall (decode_motor_command v)). rewrite andb_true_iff, Z.leb_le, Z.eqb_eq in Hall.
      by apply Hall, list_elem_of_In, in_map, list_elem_of_In.
    + intros [Hne Hall]. split; [by destruct (map value _)|].
      intros c (v & <- & Hv%list_elem_of_In)%list_elem_of_In%in_map_iff.
      rewrite andb_true_iff, Z.leb_le, Z.eqb_eq. by apply Hall.
Qed.

(** A charging scenario passes exactly when its run passes, its file can be read and the
    events meet every expectation: the gateway traced CHARGING; its last word on a drive
    request is a refusal and its last state CHARGING; the powertrain traced a motor command
    and every one has a torque of at most the maximum and the motor disabled. The command's
    two bytes are read back as the powertrain packed them, negative torques included. *)
Theorem charging_scenario_passes_iff run read scenario :
  let events := omap parse_user_trace_line (Runner.trace (run scenario)) in
  (sr_passed (run_charging_scenario run read scenario) = true <->
   Runner.status (run scenario) = RunStatus.Pass /\
   exists content, read scenario = ROk content /\
     forall exp, exp ∈ parse_expectations content -> meets exp events) /\
  forall c, fits I8 (torque c) -> fits U8 (enable c) -> decode_motor_command (encode_motor_command c) = c.
Proof.
  cbn zeta. split; [|apply decode_encode_motor_command].
  unfold run_charging_scenario. rewrite run_lane_scenario_spec.
  cbn [Lane.parse_expectations Lane.evaluate charging_lane]. by setoid_rewrite charging_evaluate_meets.
Qed.

Lemma charging_scenario_passes_iff_witness :
  decode_motor_command (encode_motor_command {| torque := -20; enable := 1 |}) = {| torque := -20; enable := 1 |}.
Proof.
  set (run := fun _ : string => {| Runner.scenario := "a"; Runner.status := RunStatus.Pass; exit_code := Some 0;
    trace := []; wall := 0; stdout_tail := []; stderr_tail := [] |}).
  apply (charging_scenario_passes_iff run (fun _ => RErr "none") "a"); by vm_compute.
Defined.
