(* ===== verification/DiagnosticsLane.v ===== *)
(** * The diagnostics lane ([dogfood/src/diagnostics.rs])

    Expectations on the diagnostic responses the gateway traces, two words per response. *)

From S2P Require Import Prelude MachineInt OrdMap RustStr Json Runner Lane.

Definition NODE_GATEWAY : Z := 1.
Definition NODE_POWERTRAIN : Z := 2.
Definition DIAG_START_SESSION : Z := 1.
Definition DIAG_READ_MODE : Z := 2.
Definition DIAG_READ_DTCS : Z := 3.
Definition DIAG_ACTUATOR_TEST : Z := 6.
Definition DIAG_OK : Z := 0.
Definition VEHICLE_SERVICE : Z := 6.

Record DiagResponse : Type := { service : Z; req : Z; status : Z; value0 : Z; value1 : Z }.

(** The module's own copy of the driver and of the trace reader, in the names it gives them.
    The text is that of the OTA lane, which [Lane] translates. *)
Module Driver.
Definition DiagnosticsCheck : Type := Check.
Definition DiagnosticsScenarioResult : Type := ScenarioResult.
Definition DiagnosticsReport : Type := Report.
Definition totals (self : DiagnosticsReport) : Z * Z := Lane.totals self.
Definition passed (self : DiagnosticsReport) : bool := Lane.report_passed self.
Definition UserTrace : Type := Lane.UserTrace.
Definition parse_user_trace_line (line : string) : option UserTrace := Lane.parse_user_trace_line line.
Definition discover_scenarios (dir : result (list (result string string)) string) :
  result (list string) string := Lane.discover_scenarios dir.
Definition parse_kv_u8 (s key : string) : option Z := parse_kv U8 s key.
Definition parse_kv_i8 (s key : string) : option Z := parse_kv I8 s key.
Definition parse_kv_u64 (s key : string) : option Z := parse_kv U64 s key.
End Driver.

Inductive Expectation : Type :=
  | ServiceMode
  | Dtc (req count : Z) (code : option Z)
  | Actuator (status : Z)
  | MotorTorque (max after_ms : Z).

(** [((value >> shift) & 0xff) as u8] *)
Definition byte_at (value shift : Z) : Z := cast U8 (Z.land (Z.shiftr value shift) 0xff).

Definition decode_response_head (value : Z) : DiagResponse :=
  {| req := byte_at value 24; service := byte_at value 16; status := byte_at value 8;
     value0 := byte_at value 0; value1 := 0 |}.

Definition decode_response_v1 (value : Z) : Z * Z * Z :=
  let req := byte_at value 24 in
  let service := byte_at value 16 in
  (service, req, byte_at value 0).

(** ** The map of responses: [BTreeMap<(u8, u8), DiagResponse>] *)

Definition response_map : Type := list (Z * Z * DiagResponse).

Definition set_value1 (key : Z * Z) (v : Z) (old : option DiagResponse) : DiagResponse :=
  let r := default {| service := key.1; req := key.2; status := 0; value0 := 0; value1 := 0 |} old in
  {| service := service r; req := req r; status := status r; value0 := value0 r; value1 := v |}.

(** The body of the loop over the gateway's events. *)
Definition collect_step (m : response_map) (event : UserTrace) : response_map :=
  if String.eqb (label event) "gateway_diag_response" then
    let response := decode_response_head (value event) in
    entry (fun _ => response) (service response, req response) m
  else if String.eqb (label event) "gateway_diag_response_v1" then
    let '(key, v1) := decode_response_v1 (value event) in
    entry (set_value1 key v1) key m
  else m.

Definition collect_diag_responses (trace : list UserTrace) : list DiagResponse :=
  map snd (fold_left collect_step (List.filter (fun e => machine e =? NODE_GATEWAY) trace) []).

Definition response (responses : list DiagResponse) (s q : Z) : option DiagResponse :=
  List.find (fun r => (service r =? s) && (req r =? q)) responses.

Definition collect_service_motor_commands (trace : list UserTrace) : list Z :=
  map (fun v => cast I8 (cast U8 (Z.shiftr v 8))) (values_of trace NODE_POWERTRAIN "diag_motor_command").

Definition parse_line (line : string) : option Expectation :=
  match strip_prefix "# diagnostics-expect:" (trim line) with
  | None => None
  | Some rest =>
      let rest := trim rest in
      if String.eqb rest "service-mode" then Some ServiceMode
      else match strip_prefix "dtc " rest with
      | Some args =>
          Some (Dtc (default 3 (Driver.parse_kv_u8 args "req")) (default 0 (Driver.parse_kv_u8 args "count"))
                    (Driver.parse_kv_u8 args "code"))
      | None =>
      match strip_prefix "actuator " rest with
      | Some args =>
          let s := default "ok" (parse_kv_str args "status") in
          Some (Actuator (if String.eqb s "ok" then DIAG_OK
                          else if String.eqb s "rejected" then 1 else DIAG_OK))
      | None =>
      match strip_prefix "motor-torque " rest with
      | Some args =>
          Some (MotorTorque (default 0 (Driver.parse_kv_i8 args "max")) (default 0 (Driver.parse_kv_u64 args "after_ms")))
      | None => None
      end end end
  end.

(** Without a directive, the gateway has to enter SERVICE. *)
Definition parse_expectations (content : string) : list Expectation :=
  match omap parse_line (lines content) with
  | [] => [ServiceMode]
  | out => out
  end.

Definition response_payload (r : DiagResponse) : list Z :=
  [1; service r; req r; status r; value0 r; value1 r].
Definition fmt_payload (r : option DiagResponse) : string :=
  fmt_debug_option (fmt_debug_list fmt_int) (response_payload <$> r).

(** [Option::is_some_and] *)
Definition is_some_and {A : Type} (o : option A) (p : A -> bool) : bool :=
  match o with Some a => p a | None => false end.

Definition evaluate (exp : Expectation) (responses : list DiagResponse)
  (service_motor_commands : list Z) : Check :=
  match exp with
  | ServiceMode =>
      let start := response responses DIAG_START_SESSION 1 in
      let mode := response responses DIAG_READ_MODE 2 in
      let ok := fun r => (status r =? DIAG_OK) && (value0 r =? VEHICLE_SERVICE) in
      mk "service-mode" (is_some_and start ok && is_some_and mode ok)
        "gateway entered SERVICE and read-mode returned SERVICE"
        ("expected START_SESSION and READ_MODE status=0 mode=6; start=" +:+ fmt_payload start
         +:+ " mode=" +:+ fmt_payload mode)
  | Dtc q count code =>
      let resp := response responses DIAG_READ_DTCS q in
      mk ("dtc-req-" +:+ fmt_int q)
        (is_some_and resp (fun r =>
           (status r =? DIAG_OK) && (value0 r =? count)
           && match code with Some c => value1 r =? c | None => true end))
        ("request " +:+ fmt_int q +:+ " returned " +:+ fmt_int count +:+ " DTC(s)"
         +:+ match code with Some c => ", first code " +:+ fmt_int c | None => "" end)
        ("expected READ_DTCS req=" +:+ fmt_int q +:+ " count=" +:+ fmt_int count +:+ " code="
         +:+ fmt_debug_option fmt_int code +:+ "; got " +:+ fmt_payload resp)
  | Actuator want =>
      let resp := response responses DIAG_ACTUATOR_TEST 6 in
      mk "actuator-test" (is_some_and resp (fun r => status r =? want))
        ("actuator self-test returned status " +:+ fmt_int want)
        ("expected ACTUATOR_TEST status " +:+ fmt_int want +:+ "; got " +:+ fmt_payload resp)
  | MotorTorque max after_ms =>
      mk "motor-torque"
        (negb (match service_motor_commands with [] => true | _ => false end)
         && forallb (fun t => t <=? max) service_motor_commands)
        ("all " +:+ fmt_int (Z.of_nat (length service_motor_commands))
         +:+ " SERVICE motor command(s) were <= " +:+ fmt_int max +:+ " (expectation after "
         +:+ fmt_int after_ms +:+ "ms)")
        ("expected SERVICE motor torque <= " +:+ fmt_int max +:+ "; saw "
         +:+ fmt_debug_list fmt_int service_motor_commands)
  end.

(** The responses and the commands are collected from the trace once per run. *)
Definition evaluate_trace (exp : Expectation) (trace : list UserTrace) : Check :=
  evaluate exp (collect_diag_responses trace) (collect_service_motor_commands trace).

Lemma diagnostics_parse_nonempty content : parse_expectations content <> [].
Proof. unfold parse_expectations. by destruct (omap _ _). Qed.

#[export] Instance diagnostics_lane : TraceLane Expectation :=
  {| lane_name := "diagnostics"; Lane.parse_expectations := parse_expectations;
     Lane.evaluate := evaluate_trace; parse_expectations_nonempty := diagnostics_parse_nonempty |}.

Definition run_diagnostics_scenario (run : string -> ScenarioRun)
  (read : string -> result string string) (scenario : string) : ScenarioResult :=
  run_lane_scenario run read scenario.
Definition run_diagnostics (run : string -> ScenarioRun) (read : string -> result string string)
  (dir : result (list (result string string)) string) : result Report string := run_lane run read dir.
Definition to_json (r : Report) : Json := report_to_json "diagnostics" r.

(** ** Facts *)

(** Every entry is filed under its own service and request. *)
Definition keyed (m : response_map) : Prop :=
  forall k r, (k, r) ∈ m -> k = (service r, req r).

(** One response per service and request: what the last events on it say. *)
Definition slot_step (k : Z * Z) (o : option DiagResponse) (event : UserTrace) : option DiagResponse :=
  if String.eqb (label event) "gateway_diag_response" then
    let r := decode_response_head (value event) in
    if keqb k (service r, req r) then Some r else o
  else if String.eqb (label event) "gateway_diag_response_v1" then
    let '(key, v1) := decode_response_v1 (value event) in
    if keqb k key then Some (set_value1 key v1 o) else o
  else o.

Lemma keyed_cons k r m : keyed ((k, r) :: m) <-> k = (service r, req r) /\ keyed m.
Proof.
  unfold keyed. split.
  - intros Hk. split; [apply Hk; by left|]. intros k' r' H'. apply Hk. by right.
  - intros [-> Hk] k' r' [[= -> ->]|H']%elem_of_cons; auto.
Qed.

Lemma keyed_entry f k m :
  (forall o, (forall r, o = Some r -> k = (service r, req r)) -> k = (service (f o), req (f o))) ->
  keyed m -> keyed (entry f k m).
Proof.
  intros Hf. induction m as [|[k1 r] m IH]; cbn [entry]; intros Hk.
  - apply keyed_cons. split; [by apply Hf|]. intros ? ? []%not_elem_of_nil.
  - pose proof Hk as [Hk1 Hkm]%keyed_cons. destruct (keqb k k1) eqn:E1; [|destruct (ltb k k1)]; apply keyed_cons.
    + apply keqb_spec in E1 as ->. split; [|done]. apply Hf. by intros ? [= <-].
    + split; [by apply Hf|done].
    + auto.
Qed.

(** The search of [response] is the look-up. *)
Lemma response_get m s q : keyed m -> response (map snd m) s q = get (s, q) m.
Proof.
  induction m as [|[k r] m IH]; [done|]. intros [-> Hk]%keyed_cons. cbn [get]. rewrite <- IH by done.
  unfold response. cbn [map snd List.find].
  replace (keqb (s, q) (service r, req r)) with ((service r =? s) && (req r =? q)); [done|].
  apply eq_true_iff_eq. rewrite keqb_spec, andb_true_iff, !Z.eqb_eq. split; [by intros [-> ->]|by intros [= -> ->]].
Qed.

Lemma decode_v1_key v : decode_response_v1 v = (service (decode_response_head v), req (decode_response_head v), byte_at v 0).
Proof. done. Qed.

Lemma collect_step_spec m e :
  keyed m -> map_sorted m ->
  keyed (collect_step m e) /\ map_sorted (collect_step m e) /\
  forall k, get k (collect_step m e) = slot_step k (get k m) e.
Proof.
  intros Hk Ho. unfold collect_step, slot_step. destruct (String.eqb (label e) _); [|destruct (String.eqb _ _); [|done]].
  - split; [by apply keyed_entry|]. split; [by apply entry_sorted|]. intros k. by rewrite get_entry.
  - rewrite decode_v1_key. set (k := (service _, req _)).
    split; [|split; [by apply entry_sorted|]].
    + apply keyed_entry; [|done]. intros [r|] Hr; [|by destruct k]. cbn. by apply Hr.
    + intros k'. rewrite get_entry by done. destruct (keqb k' k) eqn:E; [|done].
      by apply keqb_spec in E as ->.
Qed.

(** The map refines one slot per service and request. *)
Lemma collect_spec trace s q :
  response (collect_diag_responses trace) s q =
  fold_left (slot_step (s, q)) (List.filter (fun e => machine e =? NODE_GATEWAY) trace) None.
Proof.
  unfold collect_diag_responses. set (es := List.filter _ trace). clearbody es.
  assert (forall m, keyed m -> map_sorted m ->
    response (map snd (fold_left collect_step es m)) s q = fold_left (slot_step (s, q)) es (get (s, q) m)) as Hg.
  { induction es as [|e es IH]; intros m Hk Ho; [by apply response_get|]. rewrite !fold_left_cons.
    destruct (collect_step_spec m e Hk Ho) as (H1 & H2 & H3). by rewrite IH, H3. }
  apply (Hg []); [intros ? ? []%not_elem_of_nil|constructor].
Qed.

(** What each expectation asks, with [slot s q] the response kept for a service and request. *)
Definition meets (exp : Expectation) (trace : list UserTrace) : Prop :=
  let slot s q := fold_left (slot_step (s, q)) (List.filter (fun e => machine e =? NODE_GATEWAY) trace) None in
  match exp with
  | ServiceMode =>
      (exists r, slot DIAG_START_SESSION 1 = Some r /\ status r = DIAG_OK /\ value0 r = VEHICLE_SERVICE) /\
      (exists r, slot DIAG_READ_MODE 2 = Some r /\ status r = DIAG_OK /\ value0 r = VEHICLE_SERVICE)
  | Dtc q count code =>
      exists r, slot DIAG_READ_DTCS q = Some r /\ status r = DIAG_OK /\ value0 r = count /\
                forall c, code = Some c -> value1 r = c
  | Actuator want => exists r, slot DIAG_ACTUATOR_TEST 6 = Some r /\ status r = want
  | MotorTorque max _ =>
      let commands := values_of trace NODE_POWERTRAIN "diag_motor_command" in
      commands <> [] /\ forall v, v ∈ commands -> cast I8 (cast U8 (Z.shiftr v 8)) <= max
  end.

Lemma is_some_and_spec {A : Type} (o : option A) p :
  is_some_and o p = true <-> exists a, o = Some a /\ p a = true.
Proof. destruct o as [a|]; cbn; [|naive_solver]. split; [eauto|by intros (? & [= <-] & ?)]. Qed.

Lemma diagnostics_evaluate_meets exp trace : passed (evaluate_trace exp trace) = true <-> meets exp trace.
Proof.
  unfold evaluate_trace, meets.
  destruct exp as [|q count code|want|max after_ms]; cbn [evaluate mk passed]; cbn zeta; rewrite ?collect_spec.
  - rewrite andb_true_iff, !is_some_and_spec. by setoid_rewrite andb_true_iff; setoid_rewrite Z.eqb_eq.
  - rewrite is_some_and_spec. setoid_rewrite andb_true_iff. setoid_rewrite andb_true_iff. setoid_rewrite Z.eqb_eq.
    assert (forall v, match code with Some c => v =? c | None => true end = true <-> forall c, code = Some c -> v = c) as Hc.
    { intros v. destruct code as [c|]; [rewrite Z.eqb_eq; naive_solver|done]. }
    setoid_rewrite Hc. split; intros (r & H); exists r; tauto.
  - rewrite is_some_and_spec. by setoid_rewrite Z.eqb_eq.
  - unfold collect_service_motor_commands. rewrite andb_true_iff, forallb_elem. split.
    + intros [Hne Hall]. split; [by destruct (values_of _ _ _)|]. intros v Hv. apply Z.leb_le, Hall.
      apply list_elem_of_In, in_map_iff. exists v. by rewrite <- list_elem_of_In.
    + intros [Hne Hall]. split; [by destruct (values_of _ _ _)|].
      intros t (v & <- & Hv%list_elem_of_In)%list_elem_of_In%in_map_iff. by apply Z.leb_le, Hall.
Qed.

(** A diagnostics scenario passes exactly when its run passes, its file can be read and
    the responses meet every expectation, where the response to a request is what the last
    words traced for that service and request say: a first word replaces it whole, a second
    word sets its last byte, and starts a response of its own with status 0, which reads as
    OK, when no first word came. The time of a motor-torque expectation plays no part: every
    command of the run has to respect the maximum. *)
Theorem diagnostics_scenario_passes_iff run read scenario :
  let events := omap parse_user_trace_line (Runner.trace (run scenario)) in
  (sr_passed (run_diagnostics_scenario run read scenario) = true <->
   Runner.status (run scenario) = RunStatus.Pass /\
   exists content, read scenario = ROk content /\
     forall exp, exp ∈ parse_expectations content -> meets exp events) /\
  (forall s q, response (collect_diag_responses events) s q =
     fold_left (slot_step (s, q)) (List.filter (fun e => machine e =? NODE_GATEWAY) events) None) /\
  (forall max t1 t2, meets (MotorTorque max t1) events <-> meets (MotorTorque max t2) events) /\
  forall v, status <$> slot_step (decode_response_v1 v).1 None
              {| machine := NODE_GATEWAY; label := "gateway_diag_response_v1"; value := v |} = Some DIAG_OK.
Proof.
  cbn zeta. split_and!; [|intros; apply collect_spec|done|].
  - unfold run_diagnostics_scenario. rewrite run_lane_scenario_spec.
    cbn [Lane.parse_expectations Lane.evaluate diagnostics_lane]. by setoid_rewrite diagnostics_evaluate_meets.
  - intros v. unfold slot_step. cbn [label value]. rewrite decode_v1_key. cbn [fst].
    change (String.eqb "gateway_diag_response_v1" "gateway_diag_response") with false.
    change (String.eqb "gateway_diag_response_v1" "gateway_diag_response_v1") with true. cbn iota.
    by rewrite (proj2 (keqb_spec _ _) eq_refl).
Qed.
