(* ===== verification/TelematicsLane.v ===== *)
(** * The telematics lane ([dogfood/src/telematics.rs])

    Five fixed checks on the events the telematics unit traces. *)

From S2P Require Import Prelude MachineInt RustStr Json Runner Lane.

Definition STATUS_RECORD_BYTES : Z := 11.
Definition MIN_EXPECTED_RECORDS : Z := 10.

(** The module's own copy of the report types, in the names it gives them.
    They are those of the OTA lane, which [Lane] translates. *)
Module Driver.
Definition TelematicsCheck : Type := Check.
Definition TelematicsScenarioResult : Type := ScenarioResult.
Definition TelematicsReport : Type := Report.
Definition totals (self : TelematicsReport) : Z * Z := Lane.totals self.
Definition passed (self : TelematicsReport) : bool := Lane.report_passed self.
End Driver.

Record TelemTrace : Type := { label : string; value : Z }.

(** The label without its quotes, and the value's text. *)
Definition split_label_eq (s : string) : option (string * string) :=
  match split_once "=" s with
  | None => None
  | Some (label_part, val_part) =>
      match unquote (trim label_part) with
      | Some label => Some (label, trim val_part)
      | None => None
      end
  end.

Definition parse_user_u32 (line : string) : option (Z * TelemTrace) :=
  match strip_prefix "[machine." (trim line) with
  | None => None
  | Some rest =>
      match split_once "]" rest with
      | None => None
      | Some (id_s, after) =>
          match parse_int U64 id_s, splitn 3 " " (trim_start after) with
          | Some machine_id, [_; kind; remainder] =>
              if negb (String.eqb kind "user-u32") then None
              else match split_label_eq remainder with
                   | None => None
                   | Some (l, val_str) =>
                       match parse_int U32 (trim val_str) with
                       | Some v => Some (machine_id, {| label := l; value := v |})
                       | None => None
                       end
                   end
          | _, _ => None
          end
      end
  end.

Definition collect_telem_traces (trace_lines : list string) (machine_id : Z) : list TelemTrace :=
  map snd (List.filter (fun e => e.1 =? machine_id) (omap parse_user_u32 trace_lines)).

Definition label_values (traces : list TelemTrace) (l : string) : list Z :=
  map value (List.filter (fun t => String.eqb (label t) l) traces).

(** [v.windows(2).all(|w| p(w[0], w[1]))] *)
Fixpoint windows_all (p : Z -> Z -> bool) (l : list Z) : bool :=
  match l with
  | a :: ((b :: _) as l') => p a b && windows_all p l'
  | _ => true
  end.

Definition fmt_len (l : list Z) : string := fmt_int (Z.of_nat (length l)).

Definition check_booted (traces : list TelemTrace) : Check :=
  match label_values traces "telematics_boot" with
  | [] => {| name := "telematics_booted"; passed := false; detail := "no telematics_boot event found" |}
  | b :: _ => {| name := "telematics_booted"; passed := b =? 1; detail := "telematics_boot = " +:+ fmt_int b |}
  end.

Definition check_heartbeat_monotonic (traces : list TelemTrace) : Check :=
  match label_values traces "telem_hb" with
  | [] => {| name := "heartbeat_monotonic"; passed := false; detail := "no telem_hb events found" |}
  | hb =>
      match List.filter (fun v => 0 <? v) hb with
      | [] =>
          {| name := "heartbeat_monotonic"; passed := false;
             detail := "only boot-time heartbeat (0); no periodic ticks found" |}
      | t :: ts =>
          {| name := "heartbeat_monotonic"; passed := windows_all Z.ltb (t :: ts);
             detail := fmt_len (t :: ts) +:+ " heartbeat ticks: " +:+ fmt_int t +:+ ".."
                       +:+ fmt_int (List.last (t :: ts) t) |}
      end
  end.

Definition check_send_record_size (traces : list TelemTrace) : Check :=
  match label_values traces "telem_net_sent" with
  | [] => {| name := "send_record_size"; passed := false; detail := "no telem_net_sent events found" |}
  | sent =>
      let good s := s =? STATUS_RECORD_BYTES in
      let all_11 := forallb good sent in
      {| name := "send_record_size"; passed := all_11;
         detail :=
           if all_11 then
             fmt_len sent +:+ " sends × " +:+ fmt_int STATUS_RECORD_BYTES +:+ " bytes each"
           else
             fmt_int (countb good sent) +:+ "/" +:+ fmt_len sent +:+ " sends at "
             +:+ fmt_int STATUS_RECORD_BYTES +:+ " bytes; unexpected: "
             +:+ fmt_debug_list fmt_int (List.filter (fun s => negb (good s)) sent) |}
  end.

Definition check_minimum_record_count (traces : list TelemTrace) : Check :=
  let count := cast U32 (Z.of_nat (length (label_values traces "telem_net_sent"))) in
  {| name := "minimum_records"; passed := MIN_EXPECTED_RECORDS <=? count;
     detail := fmt_int count +:+ " records sent (minimum " +:+ fmt_int MIN_EXPECTED_RECORDS +:+ ")" |}.

(** [iter().sum::<u32>()] *)
Definition sum_u32 (p : profile) (l : list Z) : outcome Z := ofold (fun s v => arith p U32 (s + v)) 0 l.

Definition check_recv_non_decreasing (p : profile) (traces : list TelemTrace) : outcome Check :=
  match label_values traces "telem_net_recv" with
  | [] => Ret {| name := "recv_non_decreasing"; passed := true; detail := "no received frames (skipped)" |}
  | recv =>
      let non_decreasing := windows_all (fun a b => a <=? b) recv in
      let! total := sum_u32 p recv in
      Ret {| name := "recv_non_decreasing"; passed := non_decreasing;
             detail := fmt_len recv +:+ " recv events, total " +:+ fmt_int total
                       +:+ " bytes (non-decreasing: " +:+ fmt_bool non_decreasing +:+ ")" |}
  end.

Definition check_all_telematics (p : profile) (traces : list TelemTrace) : outcome (list Check) :=
  let! recv := check_recv_non_decreasing p traces in
  Ret [ check_booted traces; check_heartbeat_monotonic traces; check_send_record_size traces;
        check_minimum_record_count traces; recv ].

(** [discover_scenarios]: here an unreadable entry is left out. *)
Definition discover_scenarios (dir : result (list (result string string)) string) :
  result (list string) string :=
  try! entries := dir in
  ROk (sort_str (List.filter is_toml
                   (omap (fun e => match e with ROk f => Some f | RErr _ => None end) entries))).

(** [{:?}] of a status. *)
Definition debug_status (s : RunStatus.t) : string :=
  match s with
  | RunStatus.Pass => "Pass" | RunStatus.Fail => "Fail"
  | RunStatus.Timeout => "Timeout" | RunStatus.Panic => "Panic"
  end.

Definition run_telematics_scenario (p : profile) (run_scenario : string -> ScenarioRun)
  (scenario : string) : outcome ScenarioResult :=
  let name := file_stem scenario in
  let run := run_scenario scenario in
  if negb (bool_decide (Runner.status run = RunStatus.Pass)) then
    let detail := default (debug_status (Runner.status run)) (last (stderr_tail run)) in
    Ret {| sr_name := name; sr_passed := false; run_error := Some detail; checks := [] |}
  else
    let! checks := check_all_telematics p (collect_telem_traces (Runner.trace run) 1) in
    Ret {| sr_name := name; sr_passed := forallb passed checks; run_error := None; checks := checks |}.

(** The loop over the scenarios; an unreadable directory ends it before it starts. *)
Definition run_telematics (p : profile) (run_scenario : string -> ScenarioRun)
  (dir : result (list (result string string)) string) : outcome (result Report string) :=
  match discover_scenarios dir with
  | RErr e => Ret (RErr e)
  | ROk scenarios =>
      let! rs := ofold (fun rs s => let! r := run_telematics_scenario p run_scenario s in
                                    Ret (rs ++ [r])) [] scenarios in
      Ret (ROk rs)
  end.

Definition to_json (r : Report) : Json := report_to_json "telematics" r.

(** ** Facts *)

Lemma windows_all_sorted (R : Z -> Z -> Prop) p l :
  (forall a b, p a b = true <-> R a b) -> Transitive R ->
  windows_all p l = true <-> StronglySorted R l.
Proof.
  intros Hp HR. induction l as [|a l IH]; [split; [constructor|done]|]. destruct l as [|b l].
  { split; [by repeat constructor|done]. }
  change (windows_all p (a :: b :: l)) with (p a b && windows_all p (b :: l)).
  rewrite andb_true_iff, Hp, IH. split.
  - intros [Hab Hs]. constructor; [done|]. constructor; [done|].
    inversion Hs as [|? ? _ Hall]; subst. eapply Forall_impl; [exact Hall|]. intros x Hx. by etransitivity.
  - intros H. inversion H as [|? ? Hs Hall]; subst. inversion Hall; subst. done.
Qed.

Lemma sum_nonneg l : (forall v, v ∈ l -> 0 <= v) -> 0 <= fold_right Z.add 0 l.
Proof.
  induction l as [|v l IH]; cbn [fold_right]; [lia|]. intros Hv.
  pose proof (Hv v ltac:(by left)). assert (0 <= fold_right Z.add 0 l); [|lia].
  apply IH. intros w Hw. apply Hv. by right.
Qed.

(** The sum panics with overflow checks exactly when it leaves 32 bits, and never without. *)
Lemma sum_u32_debug l s :
  (forall v, v ∈ l -> 0 <= v) -> 0 <= s <= imax U32 ->
  ofold (fun s v => arith Debug U32 (s + v)) s l =
  if s + fold_right Z.add 0 l <=? imax U32 then Ret (s + fold_right Z.add 0 l) else Panic.
Proof.
  revert s; induction l as [|v l IH]; intros s Hv Hs; cbn [ofold fold_right].
  { rewrite Z.add_0_r. by rewrite (proj2 (Z.leb_le s _)) by lia. }
  pose proof (Hv v ltac:(by left)) as Hv0.
  assert (forall w, w ∈ l -> 0 <= w) as Hl by (intros w Hw; apply Hv; by right).
  pose proof (sum_nonneg l Hl) as Hn. destruct (decide (s + v <= imax U32)) as [Hle|Hgt].
  - rewrite arith_Ret by int_lia. cbn [obind]. rewrite IH by (done || int_lia). by rewrite Z.add_assoc.
  - rewrite arith_overflow by int_lia. cbn [obind].
    rewrite (proj2 (Z.leb_gt _ (imax U32))); [done|]. int_lia.
Qed.

Lemma sum_u32_release l s : exists s', ofold (fun s v => arith Release U32 (s + v)) s l = Ret s'.
Proof.
  revert s; induction l as [|v l IH]; intros s; cbn [ofold]; [eauto|].
  rewrite arith_release. cbn [obind]. apply IH.
Qed.

Lemma trim_quoted l : is_word l = true -> trim ((quote_str +:+ l +:+ quote_str) +:+ " ") = quote_str +:+ l +:+ quote_str.
Proof. intros Hl. apply trim_word_space; [|done]. by rewrite !str_all_app, Hl. Qed.

(** The telematics parser and the parser of the other lanes read the same event from
    every line the simulator prints for a traced word, whatever the padding of the time, as
    long as the label has neither white space nor an equals sign: both give back the
    machine, the label and the value that were printed. *)
Theorem trace_parsers_agree pad at_ e :
  printable e -> str_all (fun c => negb (Ascii.eqb c "=")) (Lane.label e) = true ->
  0 <= at_ -> fits U64 at_ ->
  parse_user_trace_line (user_line pad at_ e) = Some e /\
  parse_user_u32 (user_line pad at_ e) =
    Some (machine e, {| label := Lane.label e; value := Lane.value e |}).
Proof.
  intros He Heq Ha Ha64. split; [by apply parse_user_line|].
  destruct He as (Hm & Hm64 & Hv & Hv32 & Hl).
  assert (forall n, 0 <= n -> is_word (fmt_int n) = true) as Hw by (intros; apply fmt_int_all; [done|by vm_compute]).
  unfold parse_user_u32.
  assert (trim (user_line pad at_ e) = user_line pad at_ e) as ->.
  { unfold user_line. rewrite <- !str_app_assoc. apply trim_words.
    - auto.
    - by apply fmt_int_not_empty.
    - by rewrite !str_app_assoc. }
  unfold user_line. rewrite (proj2 (strip_prefix_Some _ _ _) eq_refl).
  change ("]" +:+ ?s) with (String "]" "" +:+ s). rewrite (str_cons_app "]").
  rewrite split_once_char by (apply fmt_int_all; [done|by vm_compute]). rewrite str_nil_app.
  rewrite trim_start_spaces, trim_start_id.
  2: { apply word_app_starts; auto using fmt_int_not_empty. }
  cbn [splitn]. rewrite !(str_cons_app " " ""), !str_nil_app.
  rewrite split_once_char by (apply fmt_int_all; [done|by vm_compute]).
  rewrite (split_once_char " " "user-u32") by done.
  rewrite !parse_int_fmt by done. cbn [negb String.eqb Ascii.eqb Bool.eqb].
  unfold split_label_eq.
  rewrite (str_cons_app "="), str_nil_app.
  change (String " " (String "=" ?s)) with (" " +:+ String "=" s).
  change (String " " (fmt_int ?n)) with (" " +:+ fmt_int n).
  rewrite <- (str_app_assoc _ " "), split_once_char.
  2: { rewrite !str_all_app, Heq. done. }
  rewrite trim_quoted, unquote_quoted, trim_space, !(trim_word (fmt_int _)), parse_int_fmt by auto. done.
Qed.

Lemma trace_parsers_agree_witness :
  let e := {| machine := 1; Lane.label := "telem_hb"; Lane.value := 3 |} in
  parse_user_trace_line (user_line 8 10500 e) = Some e /\
  parse_user_u32 (user_line 8 10500 e) = Some (1, {| label := "telem_hb"; value := 3 |}).
Proof.
  intros e. apply (trace_parsers_agree 8 10500 e); [|reflexivity|lia|].
  - unfold printable, fits. vm_compute. repeat split; congruence.
  - vm_compute. split; congruence.
Defined.

(** The five checks, one by one. *)
Lemma booted_passed t : passed (check_booted t) = true <-> head (label_values t "telematics_boot") = Some 1.
Proof.
  unfold check_booted. destruct (label_values t "telematics_boot") as [|b bs]; cbn; [done|].
  rewrite Z.eqb_eq. split; [by intros ->|by intros [= ->]].
Qed.

Lemma heartbeat_passed t :
  let ticks := List.filter (fun v => 0 <? v) (label_values t "telem_hb") in
  passed (check_heartbeat_monotonic t) = true <-> ticks <> [] /\ StronglySorted Z.lt ticks.
Proof.
  cbn zeta. unfold check_heartbeat_monotonic. destruct (label_values t "telem_hb") as [|h hs]; [split; [done|by intros []]|].
  destruct (List.filter _ (h :: hs)) as [|v vs]; [split; [done|by intros []]|]. cbn [passed].
  rewrite (windows_all_sorted Z.lt) by (apply Z.ltb_lt || intros ???; lia).
  split; [by split|by intros []].
Qed.

Lemma record_size_passed t :
  passed (check_send_record_size t) = true <->
  label_values t "telem_net_sent" <> [] /\ forall s, s ∈ label_values t "telem_net_sent" -> s = 11.
Proof.
  unfold check_send_record_size. destruct (label_values t "telem_net_sent") as [|s l]; [split; [done|by intros []]|].
  cbn [passed]. rewrite forallb_elem. setoid_rewrite Z.eqb_eq. split; [by split|by intros []].
Qed.

Lemma record_count_passed t :
  Z.of_nat (length (label_values t "telem_net_sent")) <= imax U32 ->
  passed (check_minimum_record_count t) = true <-> 10 <= Z.of_nat (length (label_values t "telem_net_sent")).
Proof.
  intros Hl. unfold check_minimum_record_count. cbn [passed]. rewrite cast_id by int_lia. apply Z.leb_le.
Qed.

Lemma recv_passed p t r :
  check_recv_non_decreasing p t = Ret r ->
  passed r = true <-> StronglySorted Z.le (label_values t "telem_net_recv").
Proof.
  unfold check_recv_non_decreasing. destruct (label_values t "telem_net_recv") as [|v vs].
  - intros [= <-]. split; [constructor|done].
  - rewrite <- (windows_all_sorted Z.le (fun a b => a <=? b)) by (apply Z.leb_le || (intros ???; lia)).
    by intros (s & _ & [= <-])%obind_Ret.
Qed.

Lemma recv_panics t :
  (forall v, v ∈ label_values t "telem_net_recv" -> 0 <= v) ->
  check_recv_non_decreasing Debug t = Panic <->
  imax U32 < fold_right Z.add 0 (label_values t "telem_net_recv").
Proof.
  intros Hv. unfold check_recv_non_decreasing.
  destruct (label_values t "telem_net_recv") as [|v vs]; [split; [done|by vm_compute]|].
  unfold sum_u32. rewrite sum_u32_debug by (done || int_lia). rewrite Z.add_0_l.
  destruct (Z.leb_spec (fold_right Z.add 0 (v :: vs)) (imax U32)); cbn [obind]; split; (done || lia).
Qed.

Lemma recv_release t : exists c, check_recv_non_decreasing Release t = Ret c.
Proof.
  unfold check_recv_non_decreasing. destruct (label_values t "telem_net_recv") as [|v vs]; [eauto|].
  unfold sum_u32. destruct (sum_u32_release (v :: vs) 0) as [s ->]. cbn [obind]. eauto.
Qed.

(** The telematics lane on a run that passed. A first [telematics_boot] of 1, ticks after
    the boot heartbeat that strictly increase, records of exactly 11 bytes, at least ten of
    them, and receive counts that never decrease are what makes the scenario pass; without
    overflow checks it always has a result, and with them it panics exactly when the receive
    counts add up to more than 32 bits, although the total only goes into a message. *)
Theorem telematics_scenario run scenario :
  let t := collect_telem_traces (Runner.trace (run scenario)) 1 in
  let sent := label_values t "telem_net_sent" in
  let recv := label_values t "telem_net_recv" in
  Runner.status (run scenario) = RunStatus.Pass ->
  (forall v, v ∈ recv -> 0 <= v) -> Z.of_nat (length sent) <= imax U32 ->
  (run_telematics_scenario Debug run scenario = Panic <-> imax U32 < fold_right Z.add 0 recv) /\
  (exists r, run_telematics_scenario Release run scenario = Ret r) /\
  forall p r, run_telematics_scenario p run scenario = Ret r ->
  (sr_passed r = true <->
   head (label_values t "telematics_boot") = Some 1 /\
   (let ticks := List.filter (fun v => 0 <? v) (label_values t "telem_hb") in
    ticks <> [] /\ StronglySorted Z.lt ticks) /\
   (forall s, s ∈ sent -> s = 11) /\ 10 <= Z.of_nat (length sent) /\
   StronglySorted Z.le recv).
Proof.
  cbn zeta. intros Hs Hr Hl. unfold run_telematics_scenario. rewrite bool_decide_true by done. cbn [negb].
  set (t := collect_telem_traces (Runner.trace (run scenario)) 1) in *.
  unfold check_all_telematics. rewrite !obind_assoc.
  split_and!.
  - rewrite <- recv_panics by done. by destruct (check_recv_non_decreasing Debug t).
  - destruct (recv_release t) as [c ->]. eexists. reflexivity.
  - intros p r (cs & (c & Hc & [= <-])%obind_Ret & [= <-])%obind_Ret. cbn [sr_passed forallb]. rewrite !andb_true_iff.
    rewrite (recv_passed _ _ _ Hc), booted_passed, heartbeat_passed, record_size_passed by done.
    pose proof (record_count_passed t Hl) as Hn. unfold check_minimum_record_count in *. cbn [passed] in *.
    rewrite Hn. assert (10 <= Z.of_nat (length (label_values t "telem_net_sent")) ->
      label_values t "telem_net_sent" <> []) by (by intros H10 E; rewrite E in H10). tauto.
Qed.

Lemma telematics_scenario_witness :
  let line t l v := user_line 4 t {| machine := 1; Lane.label := l; Lane.value := v |} in
  let run := fun _ : string => {| Runner.scenario := "a"; Runner.status := RunStatus.Pass; exit_code := Some 0;
    trace := [line 0 "telematics_boot" 1; line 1 "telem_net_recv" 4294967295; line 2 "telem_net_recv" 4294967295];
    wall := 0; stdout_tail := []; stderr_tail := [] |} in
  run_telematics_scenario Debug run "a.toml" = Panic.
Proof.
  intros line run. apply (telematics_scenario run "a.toml"); [reflexivity| |by vm_compute|by vm_compute].
  assert (label_values (collect_telem_traces (Runner.trace (run "a.toml")) 1) "telem_net_recv"
          = [4294967295; 4294967295]) as -> by by vm_compute.
  intros v [-> | [-> | []%not_elem_of_nil]%elem_of_cons]%elem_of_cons; lia.
Defined.
