(* ===== verification/TopologyLane.v ===== *)
(** * The topology lane ([dogfood/src/topology.rs])

    Who receives each probe frame, from the text trace and from the version-2 trace. *)

From S2P Require Import Prelude MachineInt OrdMap RustStr Json Runner Lane.

Record Probe : Type := { id : Z; id_hex : string; expect : list Z }.

Record ProbeResult : Type := {
  pr_id_hex : string;
  expected : list Z;
  actual : list (Z * Z);
  pr_passed : bool;
  pr_detail : string
}.

Record V2Edge : Type := {
  correlation_id : Z;
  parent_id : Z;
  direction : string;
  message_id : Z;
  source : Z;
  destination : Z
}.

Record CorrelationResult : Type := { cr_id_hex : string; cr_passed : bool; cr_detail : string }.

Record TopologyScenarioResult : Type := {
  ts_name : string;
  probes : list ProbeResult;
  correlations : list CorrelationResult;
  ts_passed : bool;
  ts_run_error : option string
}.

Definition TopologyReport : Type := list TopologyScenarioResult.

Definition totals (scenarios : TopologyReport) : Z * Z :=
  let passed := countb ts_passed scenarios in
  (passed, Z.of_nat (length scenarios) - passed).

Definition report_passed (scenarios : TopologyReport) : bool :=
  negb (match scenarios with [] => true | _ => false end) && forallb ts_passed scenarios.

Definition probe_to_json (p : ProbeResult) : Json :=
  Obj [ ("id", str (pr_id_hex p));
        ("expected", Arr (map UInt (expected p)));
        ("actual", Arr (map (fun rc => Obj [("receiver", UInt rc.1); ("count", UInt rc.2)]) (actual p)));
        ("passed", Bool (pr_passed p));
        ("detail", str (pr_detail p)) ].

Definition correlation_to_json (c : CorrelationResult) : Json :=
  Obj [("id", str (cr_id_hex c)); ("passed", Bool (cr_passed c)); ("detail", str (cr_detail c))].

Definition to_json (scenarios : TopologyReport) : Json :=
  let '(ok, failed) := totals scenarios in
  Obj [ ("lane", str "topology");
        ("passed", Bool (report_passed scenarios));
        ("scenarios_passed", UInt ok);
        ("scenarios_failed", UInt failed);
        ("scenarios", Arr (map (fun s =>
           Obj ([ ("name", str (ts_name s)); ("passed", Bool (ts_passed s));
                  ("probes", Arr (map probe_to_json (probes s)));
                  ("correlations", Arr (map correlation_to_json (correlations s))) ]
                ++ match ts_run_error s with Some e => [("run_error", str e)] | None => [] end))
           scenarios)) ].

(** ** Reading the directives and the trace *)

Definition parse_hex_u32 (s : string) : option Z :=
  let s := trim s in
  match strip_prefix "0x" s with
  | Some hex => from_str_radix U32 16 hex
  | None =>
      match strip_prefix "0X" s with
      | Some hex => from_str_radix U32 16 hex
      | None => parse_int U32 s
      end
  end.

Definition normalize_hex (s : string) : string :=
  match parse_hex_u32 s with
  | Some n => fmt_hex_alt 6 n
  | None => s
  end.

(** The loop over the receivers after [expect=]. *)
Definition add_receiver (expect : list Z) (r : string) : list Z :=
  let r := trim r in
  if String.eqb r "" then expect
  else match parse_int U64 r with
       | Some n => set_insert n expect
       | None => expect
       end.

(** The loop over the tokens of a directive: id, its text and the receivers. *)
Definition probe_token (s : option Z * string * list Z) (tok : string) : option Z * string * list Z :=
  let '(id, id_hex, expect) := s in
  match strip_prefix "probe=" tok with
  | Some v => (parse_hex_u32 v, normalize_hex v, expect)
  | None =>
      match strip_prefix "expect=" tok with
      | Some v => (id, id_hex, fold_left add_receiver (split_char "," v) expect)
      | None => (id, id_hex, expect)
      end
  end.

Definition parse_probe_line (line : string) : option Probe :=
  match strip_prefix "# topology-probe:" (trim_start line) with
  | None => None
  | Some rest =>
      let '(id, id_hex, expect) := fold_left probe_token (split_whitespace rest) (None, "", []) in
      match id with
      | Some id => Some {| id := id; id_hex := id_hex; expect := expect |}
      | None => None
      end
  end.

(** [parse_probes] on the file's text. *)
Definition parse_probes (content : string) : list Probe := omap parse_probe_line (lines content).

Definition rx_token (s : option Z * option Z) (tok : string) : option Z * option Z :=
  match strip_prefix "receiver=" tok with
  | Some v => (parse_int U64 v, s.2)
  | None =>
      match strip_prefix "id=" tok with
      | Some v => (s.1, parse_hex_u32 v)
      | None => s
      end
  end.

Definition parse_can_rx (line : string) : option (Z * Z) :=
  if negb (contains "can-rx" line) then None
  else match fold_left rx_token (split_whitespace line) (None, None) with
       | (Some r, Some i) => Some (r, i)
       | _ => None
       end.

(** ** Routing and isolation *)

Definition fmt_set (s : list Z) : string := fmt_debug_set fmt_int s.

Definition evaluate_probe (probe : Probe) (actual : list (Z * Z)) : ProbeResult :=
  let actual_set := map fst actual in
  let set_matches := bool_decide (actual_set = expect probe) in
  let no_dupes := forallb (fun rc => rc.2 =? 1) actual in
  let passed := set_matches && no_dupes in
  let detail :=
    if passed then
      match expect probe with
      | [] => "no receivers (as expected)"
      | _ => "received once by exactly " +:+ fmt_set (expect probe)
      end
    else if negb set_matches then
      let unexpected := List.filter (fun r => negb (set_mem r (expect probe))) actual_set in
      let missing := List.filter (fun r => negb (set_mem r actual_set)) (expect probe) in
      "receiver mismatch: expected " +:+ fmt_set (expect probe) +:+ ", got " +:+ fmt_set actual_set
      +:+ " (unexpected=" +:+ fmt_set unexpected +:+ ", missing=" +:+ fmt_set missing +:+ ")"
    else
      "duplicate injection: "
      +:+ fmt_debug_list (fun rc => "(" +:+ fmt_int rc.1 +:+ ", " +:+ fmt_int rc.2 +:+ ")")
            (List.filter (fun rc => negb (rc.2 =? 1)) actual) in
  {| pr_id_hex := id_hex probe; expected := expect probe; actual := actual;
     pr_passed := passed; pr_detail := detail |}.

(** [*map.entry(k).or_default() += 1] *)
Definition bump (k : Z) (m : list (Z * Z)) : list (Z * Z) := entry (fun o => default 0 o + 1) k m.

(** The loop that counts the receptions per id and receiver. *)
Definition count_rx (by_id : list (Z * list (Z * Z))) (line : string) : list (Z * list (Z * Z)) :=
  match parse_can_rx line with
  | Some (receiver, i) => entry (fun o => bump receiver (default [] o)) i by_id
  | None => by_id
  end.

Definition receivers_of (trace : list string) (i : Z) : list (Z * Z) :=
  default [] (get i (fold_left count_rx trace [])).

(** ** Version-2 records *)

(** The digits a text starts with. *)
Fixpoint leading_digits (s : string) : string :=
  match s with
  | "" => ""
  | String c s => if is_ascii_digit c then String c (leading_digits s) else ""
  end.

Definition json_u64 (line key : string) : option Z :=
  match split_once (quote_str +:+ key +:+ quote_str +:+ ":") line with
  | Some (_, rest) => parse_int U64 (leading_digits rest)
  | None => None
  end.

Definition json_str (line key : string) : option string :=
  match split_once (quote_str +:+ key +:+ quote_str +:+ ":" +:+ quote_str) line with
  | Some (_, rest) => fst <$> split_once quote_str rest
  | None => None
  end.

Definition parse_v2_line (line : string) : option V2Edge :=
  match json_u64 line "correlation_id", json_str line "direction", json_u64 line "message_id",
        json_u64 line "source", json_u64 line "destination" with
  | Some c, Some d, Some m, Some s, Some t =>
      Some {| correlation_id := c; parent_id := default 0 (json_u64 line "parent_id");
              direction := d; message_id := cast U32 m; source := s; destination := t |}
  | _, _, _, _, _ => None
  end.

(** [run_scenario_v2]: no edge when the process or its output file is missing. *)
Definition run_scenario_v2 (spawned : bool) (tmp : result string string) : list V2Edge :=
  if negb spawned then []
  else match tmp with
       | ROk content => omap parse_v2_line (lines content)
       | RErr _ => []
       end.

Definition evaluate_correlation (probe : Probe) (edges : list V2Edge) : CorrelationResult :=
  let of_kind d := List.filter (fun e => (message_id e =? id probe) && String.eqb (direction e) d) edges in
  let rx := of_kind "rx" in
  let tx := of_kind "tx" in
  match expect probe with
  | [] =>
      let passed := match rx with [] => true | _ => false end in
      {| cr_id_hex := id_hex probe; cr_passed := passed;
         cr_detail := if passed then "no delivery edges (as expected)"
                      else "expected no delivery edges, saw " +:+ fmt_int (Z.of_nat (length rx)) |}
  | _ =>
      let roots := List.filter (fun e => parent_id e =? 0) rx in
      let all_corr := set_of (map correlation_id rx) in
      let root_corr := set_of (map correlation_id roots) in
      let root_sources := set_of (map source roots) in
      let dests := set_of (map destination rx) in
      let forwarded := countb (fun e => negb (parent_id e =? 0)) rx in
      let one_root := (length root_corr =? 1)%nat && (length root_sources =? 1)%nat in
      let causal_ok := forallb (fun e => (parent_id e =? 0) || set_mem (parent_id e) all_corr) rx in
      let dests_ok := bool_decide (dests = expect probe) in
      let no_dupes := forallb (fun dc => dc.2 =? 1) (fold_left (fun m e => bump (destination e) m) rx []) in
      let tx_root_ok := existsb (fun e => set_mem (correlation_id e) root_corr) tx in
      let passed := negb (match rx with [] => true | _ => false end)
                    && one_root && causal_ok && dests_ok && no_dupes && tx_root_ok in
      let root := default 0 (head root_corr) in
      {| cr_id_hex := id_hex probe; cr_passed := passed;
         cr_detail :=
           if passed && (forwarded =? 0) then
             "root correlation " +:+ fmt_int root +:+ ", source "
             +:+ fmt_int (default 0 (head root_sources)) +:+ ", delivered to " +:+ fmt_set dests
           else if passed then
             "root correlation " +:+ fmt_int root +:+ " + " +:+ fmt_int forwarded
             +:+ " forwarded edge(s) preserving parent, delivered to " +:+ fmt_set dests
           else match rx with
           | [] => "no trace v2 delivery edges (is --trace-v2 supported?)"
           | _ =>
               "mismatch: root_corr=" +:+ fmt_set root_corr +:+ " root_sources=" +:+ fmt_set root_sources
               +:+ " dests=" +:+ fmt_set dests +:+ " (expected " +:+ fmt_set (expect probe)
               +:+ ") one_root=" +:+ fmt_bool one_root +:+ " causal_ok=" +:+ fmt_bool causal_ok
               +:+ " no_dupes=" +:+ fmt_bool no_dupes +:+ " tx_root_ok=" +:+ fmt_bool tx_root_ok
           end |}
  end.

(** ** A scenario *)

(** [read] is the scenario file, [run] its run, [edges] the records of its second run. *)
Definition run_topology_scenario (read : result string string) (run : ScenarioRun)
  (v2 : list V2Edge) : TopologyScenarioResult :=
  let ps := match read with ROk content => parse_probes content | RErr _ => [] end in
  let run_error :=
    if negb (bool_decide (Runner.status run = RunStatus.Pass)) then
      Some ("scenario did not run cleanly: " +:+ RunStatus.as_str (Runner.status run)
            +:+ " (exit " +:+ fmt_debug_option fmt_int (exit_code run) +:+ ")")
    else None in
  let probe_results := map (fun p => evaluate_probe p (receivers_of (Runner.trace run) (id p))) ps in
  let edges := if is_none run_error then v2 else [] in
  let correlations := map (fun p => evaluate_correlation p edges) ps in
  let passed := is_none run_error
                && negb (match probe_results with [] => true | _ => false end)
                && forallb pr_passed probe_results && forallb cr_passed correlations in
  {| ts_name := Runner.scenario run; probes := probe_results; correlations := correlations;
     ts_passed := passed; ts_run_error := run_error |}.

(** The [.toml] entries whose text carries a probe; an unreadable one is an error. *)
Definition discover_scenarios (read : string -> result string string)
  (dir : result (list (result string string)) string) : result (list string) string :=
  try! entries := dir in
  try! out := rfold (fun out entry =>
                try! path := entry in
                if negb (is_toml path) then ROk out
                else
                  try! content := read path in
                  ROk (match parse_probes content with [] => out | _ => out ++ [path] end)) [] entries in
  ROk (sort_str out).

Definition run_topology (read : string -> result string string) (run : string -> ScenarioRun)
  (v2 : string -> list V2Edge) (dir : result (list (result string string)) string) :
  result TopologyReport string :=
  try! scenarios := discover_scenarios read dir in
  ROk (map (fun s => run_topology_scenario (read s) (run s) (v2 s)) scenarios).

Example probe_example :
  parse_probes ("# topology-probe: probe=0x07a0 expect=3,1" +:+ newline_str +:+ "[scenario]")
  = [{| id := 0x07a0; id_hex := "0x07a0"; expect := [1; 3] |}].
Proof. by vm_compute. Qed.
Example can_rx_example :
  parse_can_rx "[machine.1]   10 can-rx receiver=3 id=0x07a0 len=2" = Some (3, 0x07a0).
Proof. by vm_compute. Qed.

(** ** Facts: counting *)

Lemma map_sorted_default (o : option (list (Z * Z))) :
  (forall m, o = Some m -> map_sorted m) -> map_sorted (default [] o).
Proof. intros H. destruct o; [by apply H|constructor]. Qed.

Lemma get_bump k m k' :
  map_sorted m -> default 0 (get k' (bump k m)) = default 0 (get k' m) + (if k =? k' then 1 else 0).
Proof.
  intros Hm. unfold bump. rewrite get_entry by done. destruct (keqb k' k) eqn:E.
  - apply keqb_spec in E as ->. by rewrite Z.eqb_refl.
  - destruct (Z.eqb_spec k k') as [->|]; [by rewrite keqb_refl in E|]. lia.
Qed.

(** A counter never holds a zero. *)
Definition positive (m : list (Z * Z)) : Prop := forall k, get k m <> Some 0 /\ 0 <= default 0 (get k m).

Lemma positive_bump k m : map_sorted m -> positive m -> positive (bump k m).
Proof.
  intros Hm Hp k'. unfold bump. rewrite get_entry by done. destruct (keqb k' k); [|apply Hp].
  pose proof (proj2 (Hp k)). cbn [default]. split; [|simpl; lia]. intros [= E]. lia.
Qed.

(** What a counter has of [k], and when it holds [k] at all. *)
Lemma positive_key m k : map_sorted m -> positive m -> k ∈ map fst m <-> default 0 (get k m) <> 0.
Proof.
  intros Hm Hp. destruct (get k m) as [v|] eqn:E; cbn [default].
  - pose proof (proj1 (Hp k)) as H0. rewrite E in H0. apply get_elem in E; [|done].
    split; [intros _ E0; apply H0; f_equal; exact E0|]. intros _. apply list_elem_of_In, in_map_iff. exists (k, v). by rewrite <- list_elem_of_In.
  - split; [|done]. intros ([k' v] & <- & Hin)%list_elem_of_In%in_map_iff. apply list_elem_of_In, get_elem in Hin; [|done].
    cbn in E. by rewrite E in Hin.
Qed.

(** All counters are one and the keys are [s] exactly when the counts are those of [s]. *)
Lemma counts_of_set m s :
  map_sorted m -> positive m -> set_sorted s ->
  bool_decide (map fst m = s) && forallb (fun rc => rc.2 =? 1) m = true <->
  forall k, default 0 (get k m) = if set_mem k s then 1 else 0.
Proof.
  intros Hm Hp Hs. rewrite andb_true_iff, bool_decide_eq_true, forallb_elem. split.
  - intros [<- H1] k. destruct (set_mem k (map fst m)) eqn:E.
    + apply set_mem_spec, list_elem_of_In, in_map_iff in E as ([k' v] & <- & Hin).
      apply list_elem_of_In in Hin. pose proof (H1 _ Hin) as Hv%Z.eqb_eq. cbn in Hv. subst v.
      apply get_elem in Hin; [|done]. cbn. by rewrite Hin.
    + destruct (decide (default 0 (get k m) = 0)) as [|H0]; [done|].
      apply (positive_key m k Hm Hp) in H0. apply set_mem_spec in H0. congruence.
  - intros Hk. split.
    + apply set_sorted_ext; [by apply keys_sorted|done|]. intros k. rewrite (positive_key m k Hm Hp), Hk.
      rewrite <- set_mem_spec. by destruct (set_mem k s).
    + intros [k v] Hin. apply get_elem in Hin; [|done]. specialize (Hk k). pose proof (proj1 (Hp k)) as H0.
      rewrite Hin in Hk, H0. cbn in Hk |- *. apply Z.eqb_eq. destruct (set_mem k s); [done|]. by subst v.
Qed.

Lemma fold_bump {A : Type} (f : A -> Z) l m :
  map_sorted m -> positive m ->
  let m' := fold_left (fun m a => bump (f a) m) l m in
  map_sorted m' /\ positive m' /\
  forall k, default 0 (get k m') = default 0 (get k m) + countb (fun a => f a =? k) l.
Proof.
  cbn zeta. revert m; induction l as [|a l IH]; intros m Hm Hp; cbn [fold_left].
  { split; [done|]. split; [done|]. intros k. rewrite countb_nil. lia. }
  destruct (IH (bump (f a) m)) as (H1 & H2 & H3); [by apply entry_sorted|by apply positive_bump|].
  split; [done|]. split; [done|]. intros k. rewrite H3, get_bump, countb_cons by done. lia.
Qed.

Lemma positive_nil : positive [].
Proof. intros k. split; [done|]. simpl. lia. Qed.

(** The receptions of frame [i] by [r] that the trace shows. *)
Definition receptions (trace : list string) (i r : Z) : Z :=
  countb (fun line => match parse_can_rx line with Some (r', i') => (r' =? r) && (i' =? i) | None => false end) trace.

Lemma count_rx_spec trace by_id :
  map_sorted by_id -> (forall i m, get i by_id = Some m -> map_sorted m /\ positive m) ->
  let by_id' := fold_left count_rx trace by_id in
  map_sorted by_id' /\ (forall i m, get i by_id' = Some m -> map_sorted m /\ positive m) /\
  forall i r, default 0 (get r (default [] (get i by_id'))) =
              default 0 (get r (default [] (get i by_id))) + receptions trace i r.
Proof.
  cbn zeta. unfold receptions. revert by_id; induction trace as [|line trace IH]; intros by_id Hs Hm; cbn [fold_left].
  { split; [done|]. split; [done|]. intros i r. rewrite countb_nil. lia. }
  assert (forall i, map_sorted (default [] (get i by_id)) /\ positive (default [] (get i by_id))) as Hd.
  { intros i. destruct (get i by_id) eqn:E; [by apply (Hm i)|]. split; [constructor|apply positive_nil]. }
  unfold count_rx at 2. unfold count_rx at 3. unfold count_rx at 4.
  destruct (parse_can_rx line) as [[r0 i0]|] eqn:Ep.
  - edestruct (IH (entry (fun o => bump r0 (default [] o)) i0 by_id)) as (H1 & H2 & H3).
    + by apply entry_sorted.
    + intros i m. rewrite get_entry by done. destruct (keqb i i0) eqn:E; [|apply Hm].
      intros [= <-]. apply keqb_spec in E as ->. destruct (Hd i0). split; [by apply entry_sorted|by apply positive_bump].
    + split; [done|]. split; [done|]. intros i r. rewrite H3, get_entry, countb_cons, Ep by done.
      destruct (keqb i i0) eqn:E.
      * apply keqb_spec in E as ->. change (default [] (Some ?x)) with x.
        rewrite get_bump by apply Hd. rewrite Z.eqb_refl, andb_true_r. lia.
      * replace (i0 =? i) with false; [rewrite andb_false_r; lia|]. symmetry. apply Z.eqb_neq. intros ->.
        by rewrite keqb_refl in E.
  - destruct (IH by_id Hs Hm) as (H1 & H2 & H3). split; [done|]. split; [done|].
    intros i r. rewrite H3, countb_cons, Ep. lia.
Qed.

Lemma receivers_of_spec trace i :
  map_sorted (receivers_of trace i) /\ positive (receivers_of trace i) /\
  forall r, default 0 (get r (receivers_of trace i)) = receptions trace i r.
Proof.
  destruct (count_rx_spec trace []) as (H1 & H2 & H3); [constructor|done|].
  unfold receivers_of. split; [|split].
  - apply map_sorted_default. intros m Hm. by apply (H2 i).
  - destruct (get i _) eqn:E; [by apply (H2 i)|apply positive_nil].
  - intros r. rewrite H3. cbn. lia.
Qed.

(** ** The receivers of a directive are a set *)

Lemma add_receiver_sorted s r : set_sorted s -> set_sorted (add_receiver s r).
Proof.
  unfold add_receiver. intros Hs. destruct (String.eqb _ _); [done|].
  destruct (parse_int _ _); [by apply set_insert_sorted|done].
Qed.

Lemma parse_probes_sorted content p : p ∈ parse_probes content -> set_sorted (expect p).
Proof.
  unfold parse_probes. intros (line & _ & Hl)%list_elem_of_omap. unfold parse_probe_line in Hl.
  destruct (strip_prefix _ _) as [rest|]; [|done].
  assert (forall toks s, set_sorted s.2 -> set_sorted (fold_left probe_token toks s).2) as Hf.
  { induction toks as [|tok toks IH]; intros [[i h] s] Hs; [done|]. cbn [fold_left]. apply IH.
    unfold probe_token. destruct (strip_prefix "probe=" tok); [done|].
    destruct (strip_prefix "expect=" tok) as [v|]; [|done]. cbn [snd]. cbn [snd] in Hs. revert s Hs.
    induction (split_char "," v) as [|r rs IHr]; intros s Hs; [done|]. cbn [fold_left].
    by apply IHr, add_receiver_sorted. }
  specialize (Hf (split_whitespace rest) (None, "", []) ltac:(constructor)).
  destruct (fold_left _ _ _) as [[[i|] h] s]; [|done]. by injection Hl as <-.
Qed.

Lemma evaluate_probe_passed probe trace :
  set_sorted (expect probe) ->
  pr_passed (evaluate_probe probe (receivers_of trace (id probe))) = true <->
  forall r, receptions trace (id probe) r = if set_mem r (expect probe) then 1 else 0.
Proof.
  intros Hs. destruct (receivers_of_spec trace (id probe)) as (H1 & H2 & H3).
  unfold evaluate_probe. cbn [pr_passed]. rewrite counts_of_set by done. by setoid_rewrite H3.
Qed.

(** ** Correlation *)

Lemma set_of_singleton (l : list Z) :
  (length (set_of l) =? 1)%nat = true <-> exists c, l <> [] /\ (forall x, x ∈ l -> x = c) /\ set_of l = [c].
Proof.
  destruct (set_of_spec l) as [Hs He]. rewrite Nat.eqb_eq. split.
  - intros Hl. destruct (set_of l) as [|c [|? ?]] eqn:E; try done. exists c. split.
    + intros ->. pose proof (proj1 (He c) ltac:(by left)). by apply (not_elem_of_nil c).
    + split; [|done]. intros x Hx. by apply He, list_elem_of_singleton in Hx.
  - by intros (c & _ & _ & ->).
Qed.

Lemma set_of_unique (l : list Z) c : l <> [] -> (forall x, x ∈ l -> x = c) -> set_of l = [c].
Proof.
  intros Hne Hc. destruct (set_of_spec l) as [Hs He].
  apply set_sorted_ext; [done|by repeat constructor|]. intros x. rewrite He, list_elem_of_singleton.
  split; [apply Hc|]. intros ->. destruct l as [|y l]; [done|]. rewrite <- (Hc y) by (by left). by left.
Qed.

(** The version-2 records of a probe's frame that say it was sent or received. *)
Definition edges_of (probe : Probe) (d : string) (edges : list V2Edge) : list V2Edge :=
  List.filter (fun e => (message_id e =? id probe) && String.eqb (direction e) d) edges.

(** One original send [c] from one source, every forwarded delivery naming a delivery that
    happened, and each wanted receiver reached once. *)
Definition well_correlated (probe : Probe) (edges : list V2Edge) : Prop :=
  let rx := edges_of probe "rx" edges in
  if decide (expect probe = []) then rx = []
  else exists c s,
    (exists e, e ∈ rx /\ parent_id e = 0) /\
    (forall e, e ∈ rx -> parent_id e = 0 -> correlation_id e = c /\ source e = s) /\
    (forall e, e ∈ rx -> parent_id e <> 0 -> exists e', e' ∈ rx /\ correlation_id e' = parent_id e) /\
    (forall d, countb (fun e => destination e =? d) rx = if set_mem d (expect probe) then 1 else 0) /\
    exists e, e ∈ edges_of probe "tx" edges /\ correlation_id e = c.

Lemma elem_of_map {A B : Type} (f : A -> B) l y : y ∈ map f l <-> exists x, x ∈ l /\ f x = y.
Proof. rewrite list_elem_of_In, in_map_iff. setoid_rewrite <- list_elem_of_In. split; intros (x & H); exists x; tauto. Qed.

Lemma elem_of_filter_In {A : Type} (p : A -> bool) l x : x ∈ List.filter p l <-> x ∈ l /\ p x = true.
Proof. by rewrite !list_elem_of_In, filter_In. Qed.

Lemma dests_once rx (s : list Z) :
  set_sorted s ->
  bool_decide (set_of (map destination rx) = s)
  && forallb (fun dc => dc.2 =? 1) (fold_left (fun m e => bump (destination e) m) rx []) = true <->
  forall d, countb (fun e => destination e =? d) rx = if set_mem d s then 1 else 0.
Proof.
  intros Hs. destruct (fold_bump destination rx []) as (H1 & H2 & H3); [constructor|apply positive_nil|].
  set (m := fold_left _ rx []) in *.
  assert (map fst m = set_of (map destination rx)) as Hk.
  { destruct (set_of_spec (map destination rx)) as [Hss Hse].
    apply set_sorted_ext; [by apply keys_sorted|done|]. intros k.
    rewrite (positive_key m k H1 H2), H3, Hse, elem_of_map.
    change (default 0 (get k [])) with 0. rewrite Z.add_0_l.
    pose proof (countb_nonneg (fun e => destination e =? k) rx).
    pose proof (countb_pos (fun e => destination e =? k) rx) as Hp. setoid_rewrite Z.eqb_eq in Hp.
    rewrite <- Hp. lia. }
  rewrite <- Hk, (counts_of_set m s H1 H2 Hs). setoid_rewrite H3. done.
Qed.

Lemma evaluate_correlation_passed probe edges :
  set_sorted (expect probe) ->
  cr_passed (evaluate_correlation probe edges) = true <-> well_correlated probe edges.
Proof.
  intros Hs. unfold evaluate_correlation, well_correlated. cbn zeta.
  change (List.filter (fun e => (message_id e =? id probe) && String.eqb (direction e) "rx") edges)
    with (edges_of probe "rx" edges).
  change (List.filter (fun e => (message_id e =? id probe) && String.eqb (direction e) "tx") edges)
    with (edges_of probe "tx" edges).
  generalize (edges_of probe "rx" edges) (edges_of probe "tx" edges). intros rx tx.
  destruct (expect probe) as [|x0 s0] eqn:Ex.
  { rewrite decide_True by done. cbn [cr_passed]. by destruct rx. }
  rewrite decide_False by done. rewrite <- Ex in *. cbn [cr_passed].
  pose proof (dests_once rx (expect probe) Hs) as Hd. rewrite andb_true_iff in Hd.
  rewrite !andb_true_iff, forallb_elem, existsb_elem.
  setoid_rewrite orb_true_iff. setoid_rewrite Z.eqb_eq. setoid_rewrite set_mem_spec.
  setoid_rewrite (proj2 (set_of_spec (map correlation_id rx))). setoid_rewrite elem_of_map.
  set (roots := List.filter _ rx). split.
  - intros (((((Hne & (Hc & Hsrc)) & Hcausal) & Hdest) & Hdup) & (e & He & Htx)).
    apply set_of_singleton in Hc as (c & Hcn & Hc & Ec). apply set_of_singleton in Hsrc as (s & _ & Hsrc & _).
    exists c, s. split; [|split; [|split; [|split]]].
    + destruct roots as [|r rs] eqn:Er; [done|]. exists r.
      assert (r ∈ roots) as Hr by (rewrite Er; by left). unfold roots in Hr.
      apply elem_of_filter_In in Hr as [Hr Hz%Z.eqb_eq]. done.
    + intros e' He' Hz. assert (e' ∈ roots) as Hr by (apply elem_of_filter_In; by rewrite Hz).
      split; [apply Hc|apply Hsrc]; apply elem_of_map; eauto.
    + intros e' He' Hz. destruct (Hcausal e' He') as [?|?]; [done|done].
    + by apply Hd.
    + exists e. split; [done|]. rewrite Ec in Htx. by apply list_elem_of_singleton in Htx.
  - intros (c & s & (r & Hr & Hrz) & Hroot & Hcausal & Hdest & (e & He & Hec)).
    assert (r ∈ roots) as Hrr by (apply elem_of_filter_In; by rewrite Hrz).
    assert (forall e', e' ∈ roots -> correlation_id e' = c /\ source e' = s) as Hall.
    { intros e' [He' Hz%Z.eqb_eq]%elem_of_filter_In. by apply Hroot. }
    assert (set_of (map correlation_id roots) = [c]) as Ec.
    { apply set_of_unique; [by destruct roots; [apply not_elem_of_nil in Hrr|]|].
      intros x (e' & He' & <-)%elem_of_map. by apply Hall. }
    assert (set_of (map source roots) = [s]) as Es.
    { apply set_of_unique; [by destruct roots; [apply not_elem_of_nil in Hrr|]|].
      intros x (e' & He' & <-)%elem_of_map. by apply Hall. }
    apply Hd in Hdest as [Hdest Hdup]. rewrite Ec, Es. split_and!; try done.
    + by destruct rx; [apply not_elem_of_nil in Hr|].
    + intros e' He'. destruct (decide (parent_id e' = 0)); [by left|right]. by apply Hcausal.
    + exists e. split; [done|]. rewrite Hec. by left.
Qed.

(** A topology scenario passes exactly when its run passes, its file declares a probe,
    and for every probe: each wanted receiver shows exactly one reception of the frame in
    the text trace and every other machine none; and in the version-2 trace the deliveries
    form one correlated send: a single original correlation id and source, each forwarded
    delivery naming a delivery of the frame, each wanted receiver reached exactly once,
    and a transmission with the original id. A probe for nobody wants no delivery at all. *)
Theorem topology_scenario_passes_iff content run v2 :
  ts_passed (run_topology_scenario (ROk content) run v2) = true <->
  Runner.status run = RunStatus.Pass /\ parse_probes content <> [] /\
  forall p, p ∈ parse_probes content ->
    (forall r, receptions (Runner.trace run) (id p) r = if set_mem r (expect p) then 1 else 0) /\
    well_correlated p v2.
Proof.
  unfold run_topology_scenario. case_bool_decide as Hst; cbn [negb is_none ts_passed andb].
  2: { split; [done|by intros []]. }
  rewrite !andb_true_iff, !forallb_elem, negb_true_iff. setoid_rewrite elem_of_map. split.
  - intros [[Hne Hp] Hc]. split; [done|]. split; [by intros E; rewrite E in Hne|]. intros p Hin.
    pose proof (parse_probes_sorted _ _ Hin) as Hs. split.
    + apply evaluate_probe_passed; [done|]. apply Hp. eauto.
    + apply evaluate_correlation_passed; [done|]. apply Hc. eauto.
  - intros (_ & Hne & Hall). split; [split|].
    + by destruct (parse_probes content).
    + intros x (p & Hin & <-). apply evaluate_probe_passed; [by eapply parse_probes_sorted|by apply Hall].
    + intros x (p & Hin & <-). apply evaluate_correlation_passed; [by eapply parse_probes_sorted|by apply Hall].
Qed.

(** A forwarded delivery may name itself, or a later one, as the frame it came from. *)
Example self_parent_accepted :
  let edge c p d t := {| correlation_id := c; parent_id := p; direction := d; message_id := 0x07a0;
                         source := 1; destination := t |} in
  cr_passed (evaluate_correlation {| id := 0x07a0; id_hex := "0x07a0"; expect := [2; 3] |}
    [edge 5 0 "tx" 0; edge 5 0 "rx" 2; edge 9 9 "rx" 3]) = true.
Proof. by vm_compute. Qed.
