(* ===== verification/TomlZooLane.v ===== *)
(** * The malformed-scenario lane ([dogfood/src/toml_zoo.rs])

    Hostile inputs have to be refused with a structured error. *)

From S2P Require Import Prelude MachineInt RustStr Json Runner Lane.

Definition EXIT_SCENARIO_ERROR : Z := 2.

(** A case, with its file's name as its path. *)
Record TomlZooCase : Type := { tz_name : string; path : string; tz_expected_kind : string }.

Record CaseResult : Type := {
  c_name : string;
  c_expected_kind : string;
  c_actual_kind : option string;
  c_status : RunStatus.t;
  c_exit_code : option Z;
  c_passed : bool;
  c_detail : string
}.

Record SiblingIsolation : Type := {
  healthy_scenario : string;
  healthy_status : RunStatus.t;
  bad_scenario : string;
  bad_status : RunStatus.t;
  bad_exit_code : option Z;
  isolated : bool
}.

Record TomlZooReport : Type := { cases : list CaseResult; sibling : option SiblingIsolation }.

Definition totals (self : TomlZooReport) : Z * Z :=
  let passed := countb c_passed (cases self) in
  (passed, Z.of_nat (length (cases self)) - passed).

Definition report_passed (self : TomlZooReport) : bool :=
  negb (match cases self with [] => true | _ => false end) && forallb c_passed (cases self)
  && match sibling self with Some s => isolated s | None => true end.

Definition exit_code_json (code : option Z) : Json :=
  match code with
  | Some code => if 0 <=? code then UInt code else str "none"
  | None => str "none"
  end.

Definition case_to_json (c : CaseResult) : Json :=
  Obj [ ("name", str (c_name c)); ("expected_kind", str (c_expected_kind c));
        ("actual_kind", str (default "" (c_actual_kind c)));
        ("status", str (RunStatus.as_str (c_status c)));
        ("exit_code", exit_code_json (c_exit_code c));
        ("passed", Bool (c_passed c)); ("detail", str (c_detail c)) ].

Definition to_json (self : TomlZooReport) : Json :=
  let '(ok, failed) := totals self in
  Obj ([ ("lane", str "toml_zoo"); ("passed", Bool (report_passed self));
         ("cases_passed", UInt ok); ("cases_failed", UInt failed);
         ("cases", Arr (map case_to_json (cases self))) ]
       ++ match sibling self with
          | Some s =>
              [ ("sibling_isolation",
                 Obj [ ("healthy_scenario", str (healthy_scenario s));
                       ("healthy_status", str (RunStatus.as_str (healthy_status s)));
                       ("bad_scenario", str (bad_scenario s));
                       ("bad_status", str (RunStatus.as_str (bad_status s)));
                       ("isolated", Bool (isolated s)) ]) ]
          | None => []
          end).

(** The first line that names a kind. *)
Definition kind_of_line (line : string) : option string :=
  match strip_prefix "# expect-kind:" (trim_start line) with
  | Some rest => let kind := trim rest in if String.eqb kind "" then None else Some kind
  | None => None
  end.

Definition parse_expected_kind (read : result string string) : option string :=
  match read with
  | RErr _ => None
  | ROk content => head (omap kind_of_line (lines content))
  end.

Definition error_of_line (line : string) : option string :=
  match split_once "microcar: error [" line with
  | Some (_, after) => fst <$> split_once "]" after
  | None => None
  end.

Definition parse_error_kind (run : ScenarioRun) : option string :=
  head (omap error_of_line (stderr_tail run)).

Definition case_of (read : string -> result string string) (p : string) : option TomlZooCase :=
  if negb (is_toml p) then None
  else match parse_expected_kind (read p) with
       | Some k => Some {| tz_name := file_stem p; path := p; tz_expected_kind := k |}
       | None => None
       end.

(** The body of the loop over the entries. *)
Definition add_case (read : string -> result string string) (cs : list TomlZooCase)
  (entry : result string string) : result (list TomlZooCase) string :=
  try! p := entry in
  ROk (match case_of read p with Some c => cs ++ [c] | None => cs end).

Definition discover_cases (read : string -> result string string)
  (dir : result (list (result string string)) string) : result (list TomlZooCase) string :=
  try! entries := dir in
  try! cs := rfold (add_case read) [] entries in
  ROk (sort_by path cs).

Definition evaluate_case (case : TomlZooCase) (run : ScenarioRun) : CaseResult :=
  let actual_kind := parse_error_kind run in
  let no_panic := negb (bool_decide (Runner.status run = RunStatus.Panic)) in
  let exit_ok := bool_decide (exit_code run = Some EXIT_SCENARIO_ERROR) in
  let kind_ok := bool_decide (actual_kind = Some (tz_expected_kind case)) in
  let passed := no_panic && exit_ok && kind_ok in
  let detail :=
    if passed then
      "structured error [" +:+ tz_expected_kind case +:+ "], exit " +:+ fmt_int EXIT_SCENARIO_ERROR
    else if negb no_panic then
      "PANICKED (status=" +:+ RunStatus.as_str (Runner.status run) +:+ ", exit="
      +:+ fmt_debug_option fmt_int (exit_code run) +:+ "); stderr: "
      +:+ default "" (last (stderr_tail run))
    else
      "status=" +:+ RunStatus.as_str (Runner.status run) +:+ " exit="
      +:+ fmt_debug_option fmt_int (exit_code run) +:+ " kind="
      +:+ fmt_debug_option fmt_debug_str actual_kind +:+ "; expected [" +:+ tz_expected_kind case
      +:+ "] with exit " +:+ fmt_int EXIT_SCENARIO_ERROR in
  {| c_name := tz_name case; c_expected_kind := tz_expected_kind case; c_actual_kind := actual_kind;
     c_status := Runner.status run; c_exit_code := exit_code run; c_passed := passed;
     c_detail := detail |}.

(** [h] and [b] are the two concurrent runs. *)
Definition run_sibling_isolation (h b : ScenarioRun) : SiblingIsolation :=
  {| healthy_scenario := Runner.scenario h; healthy_status := Runner.status h;
     bad_scenario := Runner.scenario b; bad_status := Runner.status b; bad_exit_code := exit_code b;
     isolated := bool_decide (Runner.status h = RunStatus.Pass)
                 && negb (bool_decide (Runner.status b = RunStatus.Panic))
                 && bool_decide (exit_code b = Some EXIT_SCENARIO_ERROR) |}.

(** [run] runs a case alone; [concurrent] runs the healthy scenario beside a case. *)
Definition run_toml_zoo (read : string -> result string string) (run : string -> ScenarioRun)
  (concurrent : string -> string -> ScenarioRun * ScenarioRun)
  (dir : result (list (result string string)) string) (healthy : option string) :
  result TomlZooReport string :=
  try! cs := discover_cases read dir in
  let results := map (fun c => evaluate_case c (run (path c))) cs in
  let sibling :=
    match healthy, head cs with
    | Some h, Some bad =>
        let '(hr, br) := concurrent h (path bad) in Some (run_sibling_isolation hr br)
    | _, _ => None
    end in
  ROk {| cases := results; sibling := sibling |}.

(** ** Facts *)

(** The run refused its input the documented way. *)
Definition refused (kind : string) (run : ScenarioRun) : Prop :=
  Runner.status run <> RunStatus.Panic /\ exit_code run = Some EXIT_SCENARIO_ERROR /\
  exists before line after, stderr_tail run = before ++ line :: after /\
    (forall l, l ∈ before -> error_of_line l = None) /\ error_of_line line = Some kind.

Lemma head_omap {A B : Type} (f : A -> option B) l b :
  head (omap f l) = Some b <->
  exists l1 a l2, l = l1 ++ a :: l2 /\ (forall x, x ∈ l1 -> f x = None) /\ f a = Some b.
Proof.
  induction l as [|a l IH]; simpl.
  { split; [done|]. by intros ([|? ?] & ? & ? & ? & _). }
  destruct (f a) as [b'|] eqn:E; simpl.
  - split.
    + intros [= <-]. exists [], a, l. split; [done|]. split; [|done]. intros x []%not_elem_of_nil.
    + intros ([|x l1] & y & l2 & [= -> ->] & H1 & H2); [congruence|]. rewrite H1 in E; [done|by left].
  - rewrite IH. split.
    + intros (l1 & y & l2 & -> & H1 & H2). exists (a :: l1), y, l2. split; [done|]. split; [|done].
      intros x [->|Hx]%elem_of_cons; auto.
    + intros ([|x l1] & y & l2 & [= -> ->] & H1 & H2); [congruence|]. exists l1, y, l2.
      split; [done|]. split; [|done]. intros z Hz. apply H1. by right.
Qed.

Lemma evaluate_case_passed case run :
  c_passed (evaluate_case case run) = true <-> refused (tz_expected_kind case) run.
Proof.
  unfold evaluate_case, refused, parse_error_kind. cbn [c_passed].
  rewrite !andb_true_iff, negb_true_iff, bool_decide_eq_false, !bool_decide_eq_true, head_omap. tauto.
Qed.

(** The line the simulator's front end prints for an error. *)
Lemma error_of_printed kind msg :
  str_all (fun c => negb (Ascii.eqb c "]")) kind = true ->
  error_of_line ("microcar: error [" +:+ kind +:+ "]" +:+ msg) = Some kind.
Proof.
  intros Hk. unfold error_of_line.
  assert (forall s, split_once "microcar: error [" ("microcar: error [" +:+ s) = Some ("", s)) as ->.
  { intros s. done. }
  change ("]" +:+ msg) with (String "]" msg). by rewrite split_once_char.
Qed.

Lemma case_of_Some read p c :
  case_of read p = Some c <->
  path c = p /\ tz_name c = file_stem p /\ is_toml p = true /\ parse_expected_kind (read p) = Some (tz_expected_kind c).
Proof.
  unfold case_of. destruct (is_toml p); cbn [negb]; [|split; [done|by intros (_ & _ & ? & _)]].
  destruct (parse_expected_kind (read p)) as [k|]; [|split; [done|by intros (_ & _ & _ & ?)]].
  split; [by intros [= <-]|]. destruct c. cbn. by intros (-> & -> & _ & [= ->]).
Qed.

Lemma discover_cases_elem read entries cs :
  discover_cases read (ROk entries) = ROk cs ->
  forall c, c ∈ cs <-> ROk (path c) ∈ entries /\ is_toml (path c) = true /\
                       parse_expected_kind (read (path c)) = Some (tz_expected_kind c) /\
                       tz_name c = file_stem (path c).
Proof.
  cbn [discover_cases rbind]. intros (l & Hl & [= <-])%rbind_ROk c. rewrite sort_by_elem.
  assert (c ∈ l <-> c ∈ @nil TomlZooCase \/ exists p, ROk p ∈ entries /\ case_of read p = Some c) as ->.
  2: { rewrite elem_of_nil. setoid_rewrite case_of_Some. split; [intros [[]|(p & Hin & <- & ?)]; tauto|].
       intros. right. exists (path c). tauto. }
  revert Hl. generalize (@nil TomlZooCase). induction entries as [|e entries IH]; intros acc; cbn [rfold].
  { intros [= ->]. split; [by left|]. intros [|(p & []%not_elem_of_nil & _)]. done. }
  destruct e as [p|]; cbn [add_case rbind]; [|done]. intros Hr. rewrite (IH _ Hr). setoid_rewrite elem_of_cons. split.
  - intros [Hacc|(q & Hq & Hc)]; [|eauto]. destruct (case_of read p) eqn:E; [|by left].
    apply elem_of_app in Hacc as [|Hacc]; [by left|]. apply list_elem_of_singleton in Hacc as ->. eauto.
  - intros [Hacc|(q & [[= ->]|Hq] & Hc)].
    + left. destruct (case_of read p); [apply elem_of_app; by left|done].
    + left. rewrite Hc. apply elem_of_app. right. by left.
    + right. eauto.
Qed.

(** The lane passes exactly when its directory has a case, every case was refused as it
    asks, without a panic, with exit code 2 and the expected kind in the first structured
    error line of the kept standard error, and, when a healthy scenario was run beside the
    first case, the healthy run passed while the bad one was refused with code 2. *)
Theorem toml_zoo_passes_iff read run concurrent entries healthy report :
  run_toml_zoo read run concurrent (ROk entries) healthy = ROk report ->
  report_passed report = true <->
  (exists p k, ROk p ∈ entries /\ is_toml p = true /\ parse_expected_kind (read p) = Some k) /\
  (forall p k, ROk p ∈ entries -> is_toml p = true -> parse_expected_kind (read p) = Some k ->
     refused k (run p)) /\
  forall h c cs, healthy = Some h -> discover_cases read (ROk entries) = ROk (c :: cs) ->
    let '(hr, br) := concurrent h (path c) in
    Runner.status hr = RunStatus.Pass /\ Runner.status br <> RunStatus.Panic /\
    exit_code br = Some EXIT_SCENARIO_ERROR.
Proof.
  intros Hr. apply rbind_ROk in Hr as (cs & Hcs & [= <-]). rewrite Hcs.
  pose proof (discover_cases_elem _ _ _ Hcs) as Hel. unfold report_passed. cbn [cases sibling].
  rewrite !andb_true_iff, forallb_elem.
  assert (forall c, c ∈ cs -> c_passed (evaluate_case c (run (path c))) = true <->
            refused (tz_expected_kind c) (run (path c))) as Hc by (intros; apply evaluate_case_passed).
  split.
  - intros [[Hne Hall] Hsib]. split; [|split].
    + destruct cs as [|c cs]; [done|]. destruct (proj1 (Hel c) ltac:(by left)) as (Hin & Ht & Hk & _). eauto.
    + intros p k Hin Ht Hk. set (c := {| tz_name := file_stem p; path := p; tz_expected_kind := k |}).
      assert (c ∈ cs) as Hcin by by apply Hel. apply (Hc c Hcin), Hall.
      apply list_elem_of_In, in_map_iff. exists c. by rewrite <- list_elem_of_In.
    + intros h c cs' -> [= ->]. cbn [head] in Hsib. destruct (concurrent h (path c)) as [hr br].
      unfold run_sibling_isolation in Hsib. cbn [isolated] in Hsib.
      by rewrite !andb_true_iff, negb_true_iff, bool_decide_eq_false, !bool_decide_eq_true in Hsib; tauto.
  - intros ((p & k & Hin & Ht & Hk) & Hall & Hsib). split; [split|].
    + set (c := {| tz_name := file_stem p; path := p; tz_expected_kind := k |}).
      assert (c ∈ cs) as Hcin by by apply Hel. by destruct cs; [apply not_elem_of_nil in Hcin|].
    + intros x (c & <- & Hcin%list_elem_of_In)%list_elem_of_In%in_map_iff. apply (Hc c Hcin).
      apply Hel in Hcin as (Hin' & Ht' & Hk' & _). by eapply Hall.
    + destruct healthy as [h|]; [|done]. destruct cs as [|c cs]; [done|]. cbn [head].
      specialize (Hsib h c cs eq_refl eq_refl). destruct (concurrent h (path c)) as [hr br].
      unfold run_sibling_isolation. cbn [isolated].
      by rewrite !andb_true_iff, negb_true_iff, bool_decide_eq_false, !bool_decide_eq_true; tauto.
Qed.

Lemma toml_zoo_passes_iff_witness :
  let read := fun _ : string => ROk "# expect-kind: missing-gateway" in
  let bad := {| Runner.scenario := "x"; Runner.status := RunStatus.Fail; exit_code := Some 2; trace := [];
                wall := 0; stdout_tail := []; stderr_tail := ["microcar: error [missing-gateway]: no gateway"] |} in
  exists report,
    run_toml_zoo read (fun _ => bad) (fun _ _ => (bad, bad)) (ROk [ROk "x.toml"]) None = ROk report /\
    report_passed report = true /\ refused "missing-gateway" bad.
Proof.
  intros read bad. eexists. split; [reflexivity|]. split; [by vm_compute|].
  eapply (proj1 (toml_zoo_passes_iff read (fun _ => bad) (fun _ _ => (bad, bad)) [ROk "x.toml"] None _ eq_refl));
    [by vm_compute|by left|by vm_compute|by vm_compute].
Defined.
