(* ===== verification/SimfarmLane.v ===== *)
(** * The simfarm lane ([dogfood/src/simfarm.rs])

    Concurrent determinism, churn and panic isolation.  The runs are parameters, in the
    order in which their threads are joined. *)

From S2P Require Import Prelude MachineInt RustStr Json TraceHash Runner.

Record RunHash : Type := { hash : string; rh_status : RunStatus.t; rh_wall_ms : Z }.

Definition from_run (run : ScenarioRun) : RunHash :=
  {| hash := normalized_hash (Runner.trace run); rh_status := Runner.status run; rh_wall_ms := wall_ms run |}.

Definition run_hash_to_json (self : RunHash) : Json :=
  Obj [ ("hash", str (hash self)); ("status", str (RunStatus.as_str (rh_status self)));
        ("wall_ms", UInt (rh_wall_ms self)) ].

Definition is_pass (s : RunStatus.t) : bool := bool_decide (s = RunStatus.Pass).

(** ** Concurrent determinism *)

Record SimfarmReport : Type := {
  sf_scenario : string;
  sf_n : Z;
  solo_hash : string;
  concurrent : list RunHash;
  all_match : bool;
  all_clean : bool
}.

Definition simfarm_passed (self : SimfarmReport) : bool := all_match self && all_clean self.

Definition simfarm_to_json (self : SimfarmReport) : Json :=
  Obj [ ("lane", str "simfarm"); ("scenario", str (sf_scenario self)); ("n", UInt (sf_n self));
        ("solo_hash", str (solo_hash self));
        ("concurrent", Arr (map run_hash_to_json (concurrent self)));
        ("all_match", Bool (all_match self)); ("all_clean", Bool (all_clean self));
        ("passed", Bool (simfarm_passed self)) ].

(** [run_concurrent]: the runs of the [n] threads. *)
Definition run_concurrent (thread : nat -> ScenarioRun) (n : Z) : list ScenarioRun :=
  map thread (seq 0 (Z.to_nat n)).

Definition run_simfarm (solo : ScenarioRun) (thread : nat -> ScenarioRun) (n : Z) : SimfarmReport :=
  let n := Z.max n 1 in
  let solo_hash := normalized_hash (Runner.trace solo) in
  let concurrent := map from_run (run_concurrent thread n) in
  {| sf_scenario := Runner.scenario solo; sf_n := n; solo_hash := solo_hash; concurrent := concurrent;
     all_match := forallb (fun r => String.eqb (hash r) solo_hash) concurrent;
     all_clean := is_pass (Runner.status solo) && forallb (fun r => is_pass (rh_status r)) concurrent |}.

(** ** Churn *)

Record ChurnReport : Type := {
  ch_scenario : string;
  iterations : Z;
  first_hash : string;
  distinct_hashes : Z;
  clean : Z;
  stable : bool
}.

Definition churn_passed (self : ChurnReport) : bool := stable self.

Definition churn_to_json (self : ChurnReport) : Json :=
  Obj [ ("lane", str "churn"); ("scenario", str (ch_scenario self)); ("iterations", UInt (iterations self));
        ("first_hash", str (first_hash self)); ("distinct_hashes", UInt (distinct_hashes self));
        ("clean", UInt (clean self)); ("stable", Bool (stable self)); ("passed", Bool (churn_passed self)) ].

(** The loop: the strings seen so far, in order. *)
Fixpoint distinct_go (seen hashes : list string) : list string :=
  match hashes with
  | [] => seen
  | h :: hashes =>
      distinct_go (if negb (existsb (String.eqb h) seen) then seen ++ [h] else seen) hashes
  end.
Definition count_distinct (hashes : list string) : Z := Z.of_nat (length (distinct_go [] hashes)).

(** The body of the loop over the iterations: name, hashes and clean runs so far. *)
Definition churn_step (s : string * list string * Z) (run : ScenarioRun) : string * list string * Z :=
  let '(_, hashes, clean) := s in
  (Runner.scenario run, hashes ++ [normalized_hash (Runner.trace run)],
   if is_pass (Runner.status run) then clean + 1 else clean).

Definition run_churn (path : string) (run : nat -> ScenarioRun) (n : Z) : ChurnReport :=
  let n := Z.max n 1 in
  let '(name, hashes, clean) := fold_left churn_step (map run (seq 0 (Z.to_nat n))) (path, [], 0) in
  let distinct_hashes := count_distinct hashes in
  {| ch_scenario := name; iterations := n; first_hash := default "" (head hashes);
     distinct_hashes := distinct_hashes; clean := clean;
     stable := (clean =? n) && (distinct_hashes =? 1) |}.

(** ** Panic isolation *)

Record PanicIsolationReport : Type := {
  healthy_scenario : string;
  bad_scenario : string;
  healthy_status : RunStatus.t;
  healthy_hash : string;
  healthy_solo_hash : string;
  bad_status : RunStatus.t;
  bad_exit_code : option Z;
  isolated : bool
}.

Definition isolation_passed (self : PanicIsolationReport) : bool := isolated self.

Definition exit_code_json (code : option Z) : Json :=
  match code with
  | Some c => if 0 <=? c then UInt c else str (fmt_int c)
  | None => str "none"
  end.

Definition isolation_to_json (self : PanicIsolationReport) : Json :=
  Obj [ ("lane", str "panic_isolation"); ("healthy_scenario", str (healthy_scenario self));
        ("bad_scenario", str (bad_scenario self));
        ("healthy_status", str (RunStatus.as_str (healthy_status self)));
        ("healthy_hash", str (healthy_hash self)); ("healthy_solo_hash", str (healthy_solo_hash self));
        ("bad_status", str (RunStatus.as_str (bad_status self)));
        ("bad_exit_code", exit_code_json (bad_exit_code self));
        ("isolated", Bool (isolated self)); ("passed", Bool (isolation_passed self)) ].

Definition run_panic_isolation (healthy_solo healthy_run bad_run : ScenarioRun) : PanicIsolationReport :=
  let healthy_solo_hash := normalized_hash (Runner.trace healthy_solo) in
  let healthy_hash := normalized_hash (Runner.trace healthy_run) in
  {| healthy_scenario := Runner.scenario healthy_solo; bad_scenario := Runner.scenario bad_run;
     healthy_status := Runner.status healthy_run; healthy_hash := healthy_hash;
     healthy_solo_hash := healthy_solo_hash; bad_status := Runner.status bad_run;
     bad_exit_code := exit_code bad_run;
     isolated := is_pass (Runner.status healthy_run) && String.eqb healthy_hash healthy_solo_hash
                 && negb (bool_decide (Runner.status bad_run = RunStatus.Panic)) |}.

(** ** Facts *)

Lemma is_pass_spec s : is_pass s = true <-> s = RunStatus.Pass.
Proof. apply bool_decide_eq_true. Qed.

Lemma distinct_go_spec seen l :
  NoDup seen -> NoDup (distinct_go seen l) /\ forall h, h ∈ distinct_go seen l <-> h ∈ seen \/ h ∈ l.
Proof.
  revert seen; induction l as [|h l IH]; intros seen Hs; cbn [distinct_go].
  { split; [done|]. intros x. rewrite elem_of_nil. tauto. }
  destruct (existsb (String.eqb h) seen) eqn:E; cbn [negb].
  - destruct (IH seen Hs) as [H1 H2]. split; [done|]. intros x. rewrite H2, elem_of_cons.
    apply existsb_elem in E as (y & Hy & ->%String.eqb_eq). split; [tauto|]. intros [|[->|]]; auto.
  - assert (NoDup (seen ++ [h])) as Hs'.
    { apply NoDup_app. split; [done|]. split; [|apply NoDup_singleton].
      intros x Hx ->%list_elem_of_singleton. apply not_true_iff_false in E. apply E, existsb_elem.
      exists h. by rewrite String.eqb_refl. }
    destruct (IH _ Hs') as [H1 H2]. split; [done|]. intros x.
    rewrite H2, elem_of_app, list_elem_of_singleton, elem_of_cons. tauto.
Qed.

(** One distinct string: there is one and all are it. *)
Lemma count_distinct_one l : count_distinct l = 1 <-> exists h, l <> [] /\ forall x, x ∈ l -> x = h.
Proof.
  unfold count_distinct. destruct (distinct_go_spec [] l (NoDup_nil_2)) as [Hd He].
  setoid_rewrite elem_of_nil in He. split.
  - intros H1. destruct (distinct_go [] l) as [|h [|? ?]] eqn:E; try (cbn in H1; lia).
    exists h. split.
    + intros ->. cbn in E. done.
    + intros x Hx. apply list_elem_of_singleton, He. by right.
  - intros (h & Hne & Hall). destruct (distinct_go [] l) as [|a [|b r]] eqn:E; [|done|].
    + destruct l as [|x l]; [done|]. exfalso. apply (not_elem_of_nil x), He. right. by left.
    + assert (forall x, x ∈ a :: b :: r -> x = h) as Hh.
      { intros x Hx. apply Hall. by destruct (proj1 (He x) Hx). }
      apply NoDup_cons in Hd as [Hnin _]. destruct Hnin.
      rewrite (Hh a ltac:(by left)), <- (Hh b ltac:(by right; left)). by left.
Qed.

Lemma churn_loop runs s :
  fold_left churn_step runs s =
  (match last runs with Some r => Runner.scenario r | None => s.1.1 end,
   s.1.2 ++ map (fun r => normalized_hash (Runner.trace r)) runs,
   s.2 + countb (fun r => is_pass (Runner.status r)) runs).
Proof.
  revert s; induction runs as [|r runs IH]; intros [[name hs] c]; cbn [fold_left].
  { rewrite countb_nil, app_nil_r, Z.add_0_r. done. }
  rewrite IH. cbn [churn_step fst snd]. rewrite countb_cons, <- app_assoc. cbn [map app]. f_equal; [f_equal|].
  - rewrite last_cons. by destruct (last runs).
  - destruct (is_pass _); lia.
Qed.

Lemma countb_all {A : Type} (p : A -> bool) l :
  countb p l = Z.of_nat (length l) <-> forall a, a ∈ l -> p a = true.
Proof.
  induction l as [|a l IH]; [split; [by intros _ ? ?%elem_of_nil|done]|].
  rewrite countb_cons. pose proof (countb_le_length p l). cbn [length]. setoid_rewrite elem_of_cons.
  destruct (p a) eqn:E.
  - transitivity (countb p l = Z.of_nat (length l)); [lia|]. rewrite IH. split; [|auto].
    intros Hall b [->|Hb]; auto.
  - split; [lia|]. intros Hall. specialize (Hall a ltac:(by left)). congruence.
Qed.

Lemma elem_of_runs (run : nat -> ScenarioRun) m r : r ∈ map run (seq 0 m) <-> exists k, (k < m)%nat /\ r = run k.
Proof.
  rewrite list_elem_of_In, in_map_iff. setoid_rewrite in_seq.
  split; [intros (k & <- & Hk)|intros (k & Hk & ->)]; exists k; (split; [|lia || done]); [lia|done].
Qed.

(** What the three checks accept. Concurrent determinism: the solo run and every
    concurrent run exit cleanly and all concurrent traces hash like the solo one. Churn:
    every iteration exits cleanly and all hash like the first. Panic isolation: the healthy
    run exits cleanly with its solo hash and the bad one does not panic; nothing asks that
    it fails, so a bad scenario that passes or hangs until it is killed isolates as well. *)
Theorem simfarm_checks :
  (forall solo thread n,
     simfarm_passed (run_simfarm solo thread n) = true <->
     Runner.status solo = RunStatus.Pass /\
     forall k, (k < Z.to_nat (Z.max n 1))%nat ->
       Runner.status (thread k) = RunStatus.Pass /\
       normalized_hash (Runner.trace (thread k)) = normalized_hash (Runner.trace solo)) /\
  (forall path run n,
     churn_passed (run_churn path run n) = true <->
     forall k, (k < Z.to_nat (Z.max n 1))%nat ->
       Runner.status (run k) = RunStatus.Pass /\
       normalized_hash (Runner.trace (run k)) = normalized_hash (Runner.trace (run 0%nat))) /\
  (forall solo healthy bad,
     isolation_passed (run_panic_isolation solo healthy bad) = true <->
     Runner.status healthy = RunStatus.Pass /\
     normalized_hash (Runner.trace healthy) = normalized_hash (Runner.trace solo) /\
     (Runner.status bad = RunStatus.Fail \/ Runner.status bad = RunStatus.Pass \/
      Runner.status bad = RunStatus.Timeout)).
Proof.
  split_and!.
  - intros solo thread n. unfold simfarm_passed, run_simfarm, run_concurrent. cbn [all_match all_clean].
    rewrite map_map, !andb_true_iff, is_pass_spec, !forallb_elem.
    assert (forall P : RunHash -> Prop, (forall r, r ∈ map (fun x => from_run (thread x)) (seq 0 (Z.to_nat (Z.max n 1))) -> P r)
      <-> forall k, (k < Z.to_nat (Z.max n 1))%nat -> P (from_run (thread k))) as Hm.
    { intros P. setoid_rewrite list_elem_of_In. setoid_rewrite in_map_iff. setoid_rewrite in_seq. split.
      - intros H k Hk. apply H. exists k. split; [done|lia].
      - intros H r (k & <- & Hk). apply H. lia. }
    rewrite !Hm. cbn [hash from_run rh_status]. setoid_rewrite is_pass_spec. setoid_rewrite String.eqb_eq.
    split.
    + intros (H1 & H2 & H3). split; [done|]. intros k Hk. split; [by apply H3|by apply H1].
    + intros [H1 H2]. split; [intros k Hk; by apply H2|]. split; [done|]. intros k Hk. by apply H2.
  - intros path run n. unfold churn_passed, run_churn. rewrite churn_loop. cbn [fst snd stable app].
    rewrite andb_true_iff, !Z.eqb_eq, Z.add_0_l, count_distinct_one.
    set (m := Z.to_nat (Z.max n 1)).
    assert (Z.max n 1 = Z.of_nat (length (map run (seq 0 m)))) as -> by (rewrite length_map, length_seq; lia).
    rewrite countb_all. setoid_rewrite elem_of_runs. setoid_rewrite is_pass_spec.
    assert (0 < m)%nat as Hm by lia. rewrite map_map. split.
    + intros [Hp (h & _ & Hh)] k Hk. split; [apply Hp; eauto|].
      assert (forall i, (i < m)%nat -> normalized_hash (Runner.trace (run i)) = h) as Hi; [|by rewrite !Hi].
      intros i Hi. apply Hh, list_elem_of_In, in_map_iff. exists i. split; [done|]. apply in_seq. lia.
    + intros H. split; [intros r (k & Hk & ->); by apply H|].
      exists (normalized_hash (Runner.trace (run 0%nat))). split; [destruct m; [lia|done]|].
      intros x (k & <- & Hk%in_seq)%list_elem_of_In%in_map_iff. apply H. lia.
  - intros solo healthy bad. unfold isolation_passed, run_panic_isolation. cbn [isolated].
    rewrite !andb_true_iff, is_pass_spec, String.eqb_eq, negb_true_iff, bool_decide_eq_false.
    destruct (Runner.status bad); intuition congruence.
Qed.
