(* ===== verification/DebugGym.v ===== *)
(** * The debug_gym lane ([dogfood/src/debug_gym.rs])

    A stepped run against a continuous one, and the deadline and clock of the trace. *)

From S2P Require Import Prelude MachineInt RustStr Json TraceHash Runner Invariants.

Definition DEFAULT_SCENARIOS : list string :=
  [ "scenarios/boot_and_heartbeat.toml"; "scenarios/normal_drive_cycle.toml";
    "scenarios/bms_overtemp_limp_mode.toml"; "scenarios/brake_overrides_throttle.toml" ].

Record DebugGymScenarioResult : Type := {
  name : string;
  stepped_equals_continuous : bool;
  continuous_hash : string;
  stepped_hash : string;
  deadline : option Z;
  max_time : Z;
  no_overshoot : bool;
  clock_monotonic : bool;
  passed : bool;
  detail : string
}.

Definition DebugGymReport : Type := list DebugGymScenarioResult.

Definition totals (r : DebugGymReport) : Z * Z :=
  let ok := countb passed r in (ok, Z.of_nat (length r) - ok).
Definition report_passed (r : DebugGymReport) : bool :=
  negb (match r with [] => true | _ => false end) && forallb passed r.

Definition result_to_json (s : DebugGymScenarioResult) : Json :=
  Obj [ ("name", str (name s));
        ("stepped_equals_continuous", Bool (stepped_equals_continuous s));
        ("continuous_hash", str (continuous_hash s)); ("stepped_hash", str (stepped_hash s));
        ("deadline", match deadline s with Some d => UInt d | None => str "none" end);
        ("max_trace_time", UInt (max_time s)); ("no_overshoot", Bool (no_overshoot s));
        ("clock_monotonic", Bool (clock_monotonic s)); ("passed", Bool (passed s));
        ("detail", str (detail s)) ].

Definition to_json (r : DebugGymReport) : Json :=
  let '(ok, failed) := totals r in
  Obj [ ("lane", str "debug_gym"); ("passed", Bool (report_passed r)); ("scenarios_passed", UInt ok);
        ("scenarios_failed", UInt failed); ("scenarios", Arr (map result_to_json r)) ].

(** The duration a line gives, if it does. *)
Definition duration_of_line (line : string) : option Z :=
  match strip_prefix "duration_ms" (trim_start line) with
  | None => None
  | Some rest =>
      match split_once "=" rest with
      | Some (_, val) => parse_int U64 (trim val)
      | None => None
      end
  end.

(** [parse_duration_ms] on the scenario file. *)
Definition parse_duration_ms (read : result string string) : option Z :=
  match read with
  | ROk content => head (omap duration_of_line (lines content))
  | RErr _ => None
  end.

(** The body of the loop over the lines. *)
Definition max_step (max : Z) (line : string) : Z :=
  let t := trim_start line in
  if negb (starts_with "[machine." t) then max
  else match split_whitespace t with
       | _ :: tok :: _ =>
           match parse_int U64 tok with
           | Some v => if max <? v then v else max
           | None => max
           end
       | _ => max
       end.
Definition max_trace_time (trace : list string) : Z := fold_left max_step trace 0.

(** The first [n] bytes. *)
Fixpoint str_take (n : nat) (s : string) : string :=
  match n, s with
  | S n, String c s => String c (str_take n s)
  | _, _ => ""
  end.

(** [run_one]: the scenario file, the continuous run and the stepped one. *)
Definition run_one (p : profile) (read : result string string) (continuous stepped : ScenarioRun) :
  outcome DebugGymScenarioResult :=
  let continuous_hash := normalized_hash (Runner.trace continuous) in
  let stepped_hash := normalized_hash (Runner.trace stepped) in
  let clean := bool_decide (Runner.status continuous = RunStatus.Pass)
               && bool_decide (Runner.status stepped = RunStatus.Pass) in
  let equal := clean && String.eqb continuous_hash stepped_hash in
  let! deadline :=
    match parse_duration_ms read with
    | Some ms => omap_ret Some (arith p U64 (ms * 1000))
    | None => Ret None
    end in
  let max_t := max_trace_time (Runner.trace continuous) in
  let no_overshoot := match deadline with Some d => max_t <=? d | None => true end in
  let mono := VirtualTimeMonotonic.check_run continuous in
  let clock_monotonic := negb (bool_decide (InvariantResult.status mono = CheckStatus.Fail)) in
  let passed := clean && equal && no_overshoot && clock_monotonic in
  let detail :=
    if passed then
      "stepped==continuous (hash " +:+ str_take 12 continuous_hash +:+ "), max_time " +:+ fmt_int max_t
      +:+ match deadline with Some d => " <= deadline " +:+ fmt_int d | None => "" end
      +:+ ", clock monotonic"
    else if negb clean then
      "run not clean: continuous=" +:+ RunStatus.as_str (Runner.status continuous)
      +:+ " stepped=" +:+ RunStatus.as_str (Runner.status stepped)
    else if negb equal then
      "stepped != continuous (" +:+ stepped_hash +:+ " vs " +:+ continuous_hash +:+ ")"
    else if negb no_overshoot then
      "run_until overshoot: max_time " +:+ fmt_int max_t +:+ " > deadline "
      +:+ fmt_debug_option fmt_int deadline
    else "clock moved backward: " +:+ InvariantResult.message mono in
  Ret {| name := Runner.scenario continuous; stepped_equals_continuous := equal;
         continuous_hash := continuous_hash; stepped_hash := stepped_hash; deadline := deadline;
         max_time := max_t; no_overshoot := no_overshoot; clock_monotonic := clock_monotonic;
         passed := passed; detail := detail |}.

Definition run_debug_gym (p : profile) (read : string -> result string string)
  (continuous stepped : string -> ScenarioRun) (scenarios : list string) : outcome DebugGymReport :=
  ofold (fun rs s => let! r := run_one p (read s) (continuous s) (stepped s) in Ret (rs ++ [r])) [] scenarios.

(** ** Facts *)

Lemma parse_machine_time_word line m t :
  parse_machine_time line = Some (m, t) <->
  starts_with "[machine." (trim_start line) = true /\
  exists tok rest, split_whitespace (trim_start line) = m :: tok :: rest /\ parse_int U64 tok = Some t.
Proof.
  unfold parse_machine_time. destruct (starts_with _ _); cbn [negb]; [|split; [done|by intros []]].
  destruct (split_whitespace (trim_start line)) as [|m' [|tok rest]].
  1, 2: (split; [done|by intros (_ & ? & ? & ? & _)]).
  split.
  - intros (t' & Ht & [= <- <-])%fmap_Some. split; [done|]. eauto.
  - intros (_ & tok' & rest' & [= <- <- <-] & Ht). by rewrite Ht.
Qed.

(** The time of a line, when it has one. *)
Definition line_time (line : string) : option Z := snd <$> parse_machine_time line.

Lemma max_step_time max line :
  max_step max line = match line_time line with Some t => Z.max max t | None => max end.
Proof.
  unfold max_step, line_time, parse_machine_time. destruct (starts_with _ _); cbn [negb]; [|done].
  destruct (split_whitespace (trim_start line)) as [|m [|tok rest]]; [done..|].
  destruct (parse_int U64 tok) as [v|]; cbn; [|done]. destruct (Z.ltb_spec max v); lia.
Qed.

(** The maximum is an upper bound of the times, and one of them when there is any. *)
Lemma max_trace_time_le trace d :
  0 <= d -> max_trace_time trace <= d <-> forall line t, line ∈ trace -> line_time line = Some t -> t <= d.
Proof.
  intros Hd. unfold max_trace_time.
  assert (forall m, fold_left max_step trace m <= d <->
    m <= d /\ forall line t, line ∈ trace -> line_time line = Some t -> t <= d) as ->.
  2: { split; [by intros []|]. by split. }
  induction trace as [|line trace IH]; intros m; cbn [fold_left].
  { split; [|by intros []]. intros H. split; [done|]. by intros ? ? ?%not_elem_of_nil. }
  rewrite IH, max_step_time. split.
  - intros [H1 H2]. split; [destruct (line_time line); lia|].
    intros l t [->|Hl]%elem_of_cons Ht; [rewrite Ht in H1; lia|by eapply H2].
  - intros [H1 H2]. split.
    + destruct (line_time line) as [t|] eqn:E; [|done]. specialize (H2 line t ltac:(by left) E). lia.
    + intros l t Hl. apply H2. by right.
Qed.

(** The scenario's result, when its duration in microseconds fits 64 bits: it passes
    exactly when both runs exit cleanly, their traces hash alike, no timed line of the
    continuous run is later than the duration, and no machine's time regresses. A duration
    that cannot be read drops the deadline check. A larger duration panics with overflow
    checks, and without them the deadline wraps around, always to an earlier time. *)
Theorem debug_gym_scenario p read continuous stepped :
  let ms := parse_duration_ms read in
  (forall n, ms = Some n -> 0 <= n) ->
  (run_one Debug read continuous stepped = Panic <-> exists n, ms = Some n /\ imax U64 < n * 1000) /\
  (forall r, run_one p read continuous stepped = Ret r ->
   (forall n, ms = Some n -> n * 1000 <= imax U64) ->
   passed r = true <->
   Runner.status continuous = RunStatus.Pass /\ Runner.status stepped = RunStatus.Pass /\
   normalized_hash (Runner.trace continuous) = normalized_hash (Runner.trace stepped) /\
   (forall n, ms = Some n ->
      forall line t, line ∈ Runner.trace continuous -> line_time line = Some t -> t <= n * 1000) /\
   forall m, ~ regresses (times m (Runner.trace continuous))) /\
  (forall r n, run_one Release read continuous stepped = Ret r -> ms = Some n -> imax U64 < n * 1000 ->
   exists d, deadline r = Some d /\ d < n * 1000).
Proof.
  cbn zeta. intros Hnn. unfold run_one. split; [|split].
  - destruct (parse_duration_ms read) as [n|]; cbn [obind]; [|split; [done|by intros (? & ? & _)]].
    specialize (Hnn n eq_refl). destruct (decide (n * 1000 <= imax U64)) as [Hle|Hgt].
    + rewrite arith_Ret by int_lia. cbn [omap_ret obind]. split; [done|]. intros (? & [= <-] & ?). lia.
    + rewrite arith_overflow by int_lia. cbn [omap_ret obind]. split; [|done]. intros _. exists n. split; [done|lia].
  - intros r Hr Hfit. set (dl := match parse_duration_ms read with Some n => Some (n * 1000) | None => None end).
    assert (match parse_duration_ms read with
            | Some ms => omap_ret Some (arith p U64 (ms * 1000)) | None => Ret None end = Ret dl) as Hdl.
    { subst dl. destruct (parse_duration_ms read) as [n|]; [|done]. specialize (Hfit n eq_refl).
      specialize (Hnn n eq_refl). by rewrite arith_Ret by int_lia. }
    rewrite Hdl in Hr. cbn [obind] in Hr. injection Hr as <-. cbn [passed].
    rewrite !andb_true_iff, !bool_decide_eq_true, String.eqb_eq, negb_true_iff, bool_decide_eq_false.
    rewrite (proj1 (loop_status continuous)).
    assert (match dl with Some d => max_trace_time (Runner.trace continuous) <=? d | None => true end = true <->
      forall n, parse_duration_ms read = Some n ->
      forall line t, line ∈ Runner.trace continuous -> line_time line = Some t -> t <= n * 1000) as ->.
    { subst dl. destruct (parse_duration_ms read) as [n|]; [|split; [done|done]].
      specialize (Hnn n eq_refl). rewrite Z.leb_le, max_trace_time_le by lia.
      split; [by intros H ? [= <-]|intros H; by apply H]. }
    split.
    + intros [[[[H1 H2] [_ H3]] H4] H5]. split_and!; try done. intros m Hm. apply H5. eauto.
    + intros (H1 & H2 & H3 & H4 & H5). split_and!; try done. intros [m Hm]. by apply (H5 m).
  - intros r n Hr Hn Hgt. rewrite Hn in Hr. specialize (Hnn n Hn).
    rewrite arith_overflow in Hr by int_lia. cbn [omap_ret obind] in Hr. injection Hr as <-. cbn [deadline].
    eexists. split; [reflexivity|]. pose proof (cast_fits U64 (n * 1000)). int_lia.
Qed.

Lemma debug_gym_scenario_witness :
  let run := {| Runner.scenario := "a"; Runner.status := RunStatus.Pass; exit_code := Some 0;
    trace := ["[machine.1] 10 boot"; "[machine.1] 3000001 late"]; wall := 0; stdout_tail := []; stderr_tail := [] |} in
  exists r, run_one Debug (ROk "duration_ms = 3000") run run = Ret r /\ passed r <> true.
Proof.
  intros run.
  assert (parse_duration_ms (ROk "duration_ms = 3000") = Some 3000) as Hp by by vm_compute.
  destruct (debug_gym_scenario Debug (ROk "duration_ms = 3000") run run) as (_ & H & _).
  { rewrite Hp. by intros ? [= <-]. }
  eexists. split; [vm_compute; reflexivity|]. intros Hpass. apply H in Hpass.
  - destruct Hpass as (_ & _ & _ & Ht & _).
    specialize (Ht 3000 Hp "[machine.1] 3000001 late" 3000001 ltac:(right; by left) ltac:(by vm_compute)). lia.
  - by vm_compute.
  - rewrite Hp. by intros ? [= <-].
Defined.
