(* ===== verification/Corpus.v ===== *)
(** * The seeded-bug corpus ([dogfood/src/debug_gym_corpus.rs])

    Each seed runs a buggy firmware and its fix, and checks the bug in the one, its absence
    in the other, and where the two traces part. *)

From S2P Require Import Prelude MachineInt RustStr Json Runner Lane.

Definition NODE_GATEWAY : Z := 1.
Definition NODE_POWERTRAIN : Z := 2.
Definition DIAG_READ_DTCS : Z := 3.
Definition REQ_READ_DTCS_PRE : Z := 3.
Definition REQ_READ_DTCS_POST : Z := 5.
Definition DIAG_START_SESSION : Z := 1.
Definition DIAG_OK : Z := 0.
Definition DIAG_REJECTED : Z := 1.
Definition VEHICLE_DRIVE : Z := 2.
Definition VEHICLE_SERVICE : Z := 6.

(** The module's own copy of the trace reader: the text is that of the OTA lane, which [Lane]
    translates. *)
Module Driver.
Definition CorpusCheck : Type := Check.
Definition UserTrace : Type := Lane.UserTrace.
Definition parse_user_trace_line (line : string) : option UserTrace := Lane.parse_user_trace_line line.
Definition any_value (trace : list UserTrace) (m : Z) (l : string) (want : Z) : bool :=
  Lane.any_value trace m l want.
Definition last_value (trace : list UserTrace) (m : Z) (l : string) : option Z :=
  Lane.last_value trace m l.
End Driver.

Definition parse_traces (trace : list string) : list UserTrace := omap parse_user_trace_line trace.

Definition state_values (trace : list UserTrace) (m : Z) : list Z := values_of trace m "ota_state".

Record MotorCommand : Type := { torque : Z; motor_enable : bool }.

Definition decode_command (v : Z) : MotorCommand :=
  {| torque := cast I8 (cast U8 (Z.land (Z.shiftr v 8) 0xff)); motor_enable := Z.land v 1 =? 1 |}.

Definition service_motor_commands (trace : list UserTrace) : list MotorCommand :=
  map decode_command (values_of trace NODE_POWERTRAIN "diag_motor_command").

Definition byte_of (v shift : Z) : Z := cast U8 (Z.land (Z.shiftr v shift) 0xff).

(** The first response word of a service and request. *)
Definition find_response (trace : list UserTrace) (service req : Z) : option Z :=
  List.find (fun v => (byte_of v 24 =? req) && (byte_of v 16 =? service))
    (values_of trace NODE_GATEWAY "gateway_diag_response").

Definition diag_response_value0 (trace : list UserTrace) (service req : Z) : option Z :=
  (fun v => byte_of v 0) <$> find_response trace service req.

Definition dtc_count (trace : list UserTrace) (req : Z) : option Z :=
  diag_response_value0 trace DIAG_READ_DTCS req.

Definition diag_response_status_value0 (trace : list UserTrace) (service req : Z) : option (Z * Z) :=
  (fun v => (byte_of v 8, byte_of v 0)) <$> find_response trace service req.

Inductive SeedKind : Set := OtaRollback | ServiceTorqueClamp | ClearAllDtcs | StartSessionInDrive.

Record Seed : Type := {
  seed_name : string;
  kind : SeedKind;
  description : string;
  symptom : string;
  primitive : string;
  failing_scenario : string;
  fixed_scenario : string
}.

Definition builtin_seeds : list Seed :=
  [ {| seed_name := "ota_rollback"; kind := OtaRollback;
       description := "A broken OTA CRC check accepts a corrupt image as valid, "
         +:+ "so the slot model commits and boots the bad slot instead "
         +:+ "of rolling back to the known-good slot.";
       symptom := "A corrupt OTA image reaches HEALTHY (ota_boot_result=1) with "
         +:+ "no ota_rollback — the vehicle boots unverified firmware.";
       primitive := "state trace / continue_until(ota_state): step to VERIFYING "
         +:+ "and inspect ota_crc_ok — the buggy firmware reports "
         +:+ "ota_crc_ok=1 on a corrupt image where the fix reports 0, so "
         +:+ "the runs diverge into HEALTHY vs ROLLED_BACK.";
       failing_scenario := "ota_rollback_bug/failing.toml";
       fixed_scenario := "ota_rollback_bug/fixed.toml" |};
    {| seed_name := "service_torque"; kind := ServiceTorqueClamp;
       description := "The powertrain skips the SERVICE-mode safety clamp, so a "
         +:+ "diagnostic service session still commands drive torque "
         +:+ "with the motor enabled.";
       symptom := "During a SERVICE session an 80% throttle demand produces a "
         +:+ "diag_motor_command with torque>0 and motor_enable=1 — the "
         +:+ "drivetrain is live while the vehicle is being serviced.";
       primitive := "message breakpoint / continue_until on the "
         +:+ "diag_motor_command trace: stop at the SERVICE-mode motor "
         +:+ "command and inspect the torque + motor_enable — the buggy "
         +:+ "firmware commands torque>0/enabled where the fix commands "
         +:+ "0/disabled.";
       failing_scenario := "service_torque_bug/failing.toml";
       fixed_scenario := "service_torque_bug/fixed.toml" |};
    {| seed_name := "clear_all_dtcs"; kind := ClearAllDtcs;
       description := "A diagnostic CLEAR_DTCS scoped to the BMS wrongly clears "
         +:+ "EVERY node's DTCs (fault_manager_clear_all instead of "
         +:+ "fault_manager_clear_node), silently dropping an unrelated "
         +:+ "powertrain fault that was never serviced.";
       symptom := "After a BMS-scoped clear, a follow-up READ_DTCS reports 0 "
         +:+ "DTCs — the powertrain fault has vanished (the fix leaves 1 "
         +:+ "behind).";
       primitive := "message breakpoint / continue_until on the "
         +:+ "gateway_diag_response trace: stop at the post-clear READ_DTCS "
         +:+ "response and inspect its count — the buggy firmware reports 0 "
         +:+ "where the fix reports 1, so the runs diverge at the clear.";
       failing_scenario := "clear_dtcs_bug/failing.toml";
       fixed_scenario := "clear_dtcs_bug/fixed.toml" |};
    {| seed_name := "start_session_in_drive"; kind := StartSessionInDrive;
       description := "The gateway skips the safety guard that refuses a "
         +:+ "diagnostic START_SESSION while the vehicle is in DRIVE, so "
         +:+ "a service session opens mid-drive and the vehicle is "
         +:+ "commanded out of DRIVE into SERVICE while moving.";
       symptom := "A START_SESSION request sent while in DRIVE is accepted "
         +:+ "(gateway_diag_response status=OK, mode=SERVICE) instead of "
         +:+ "rejected — the drivetrain state machine leaves DRIVE mid-drive.";
       primitive := "message breakpoint / continue_until on the "
         +:+ "gateway_diag_response trace: stop at the START_SESSION "
         +:+ "response and inspect its status + mode — the buggy firmware "
         +:+ "reports OK/SERVICE where the fix reports REJECTED/DRIVE.";
       failing_scenario := "start_session_drive_bug/failing.toml";
       fixed_scenario := "start_session_drive_bug/fixed.toml" |} ].

Record SeedResult : Type := {
  sd_name : string;
  sd_description : string;
  sd_symptom : string;
  sd_primitive : string;
  sd_passed : bool;
  sd_run_error : option string;
  sd_checks : list Check
}.

Definition CorpusReport : Type := list SeedResult.

Definition totals (r : CorpusReport) : Z * Z :=
  let ok := countb sd_passed r in (ok, Z.of_nat (length r) - ok).
Definition report_passed (r : CorpusReport) : bool :=
  negb (match r with [] => true | _ => false end) && forallb sd_passed r.

Definition seed_to_json (s : SeedResult) : Json :=
  Obj ([ ("name", str (sd_name s)); ("description", str (sd_description s));
         ("symptom", str (sd_symptom s)); ("primitive", str (sd_primitive s));
         ("passed", Bool (sd_passed s)); ("checks", Arr (map check_to_json (sd_checks s))) ]
       ++ match sd_run_error s with Some e => [("run_error", str e)] | None => [] end).

Definition to_json (r : CorpusReport) : Json :=
  let '(ok, failed) := totals r in
  Obj [ ("lane", str "debug_gym_corpus"); ("passed", Bool (report_passed r));
        ("seeds_passed", UInt ok); ("seeds_failed", UInt failed); ("seeds", Arr (map seed_to_json r)) ].

Record SeedTraces : Type := { failing : list UserTrace; fixed : list UserTrace }.

(** ** The four evaluations *)

Definition fmt_opt (o : option Z) : string := fmt_debug_option fmt_int o.
Definition fmt_pair (o : option (Z * Z)) : string :=
  fmt_debug_option (fun '(a, b) => "(" +:+ fmt_int a +:+ ", " +:+ fmt_int b +:+ ")") o.

Definition evaluate_start_session_in_drive (traces : SeedTraces) : list Check :=
  let f := diag_response_status_value0 (failing traces) DIAG_START_SESSION 1 in
  let x := diag_response_status_value0 (fixed traces) DIAG_START_SESSION 1 in
  let f_status := fst <$> f in
  let x_status := fst <$> x in
  [ mk "bug-reproduced" (bool_decide (f = Some (DIAG_OK, VEHICLE_SERVICE)))
      "buggy firmware accepted START_SESSION mid-drive (status=OK, mode=SERVICE) — the DRIVE guard was skipped"
      ("expected the buggy firmware to accept START_SESSION mid-drive (status=OK, mode=SERVICE); got "
       +:+ fmt_pair f);
    mk "bug-fixed" (bool_decide (x = Some (DIAG_REJECTED, VEHICLE_DRIVE)))
      "fixed firmware rejected START_SESSION mid-drive (status=REJECTED, mode=DRIVE) — the vehicle stayed in DRIVE"
      ("expected the fixed firmware to reject START_SESSION mid-drive (status=REJECTED, mode=DRIVE); got "
       +:+ fmt_pair x);
    mk "traces-diverge"
      (bool_decide (f_status = Some DIAG_OK) && bool_decide (x_status = Some DIAG_REJECTED))
      "START_SESSION status diverges: OK/accepted (buggy) vs REJECTED (fixed)"
      ("expected START_SESSION status OK (buggy) vs REJECTED (fixed); got " +:+ fmt_opt f_status
       +:+ " vs " +:+ fmt_opt x_status) ].

Definition evaluate_clear_all_dtcs (traces : SeedTraces) : list Check :=
  let f_pre := dtc_count (failing traces) REQ_READ_DTCS_PRE in
  let f_post := dtc_count (failing traces) REQ_READ_DTCS_POST in
  let x_pre := dtc_count (fixed traces) REQ_READ_DTCS_PRE in
  let x_post := dtc_count (fixed traces) REQ_READ_DTCS_POST in
  [ mk "bug-reproduced" (bool_decide (f_pre = Some 2) && bool_decide (f_post = Some 0))
      ("buggy firmware cleared ALL DTCs on a BMS-scoped clear: 2 before, 0 after "
       +:+ "(the powertrain fault was silently dropped)")
      ("expected the buggy firmware to go 2 → 0 DTCs on a BMS-scoped clear; got pre="
       +:+ fmt_opt f_pre +:+ " post=" +:+ fmt_opt f_post);
    mk "bug-fixed" (bool_decide (x_pre = Some 2) && bool_decide (x_post = Some 1))
      ("fixed firmware cleared only BMS DTCs: 2 before, 1 after (the powertrain "
       +:+ "fault survived the BMS-scoped clear)")
      ("expected the fixed firmware to go 2 → 1 DTCs on a BMS-scoped clear; got pre="
       +:+ fmt_opt x_pre +:+ " post=" +:+ fmt_opt x_post);
    mk "traces-diverge" (bool_decide (f_post = Some 0) && bool_decide (x_post = Some 1))
      "post-clear READ_DTCS count diverges: 0 (buggy) vs 1 (fixed)"
      ("expected post-clear count 0 (buggy) vs 1 (fixed); got " +:+ fmt_opt f_post +:+ " vs "
       +:+ fmt_opt x_post) ].

(** [iter().map(|c| c.torque).max().unwrap_or(0)] *)
Definition max_torque (l : list MotorCommand) : Z :=
  match map torque l with
  | [] => 0
  | t :: ts => fold_left Z.max ts t
  end.

Definition evaluate_service_torque_clamp (traces : SeedTraces) : list Check :=
  let f := service_motor_commands (failing traces) in
  let x := service_motor_commands (fixed traces) in
  let none := fun l : list MotorCommand => match l with [] => true | _ => false end in
  let f_max := max_torque f in
  let x_max := max_torque x in
  [ mk "bug-reproduced" (negb (none f) && existsb (fun c => (0 <? torque c) && motor_enable c) f)
      ("buggy firmware commanded drive torque in SERVICE (max torque " +:+ fmt_int f_max
       +:+ ", motor enabled) — the SERVICE clamp was skipped")
      (if none f then
         "expected SERVICE-mode diag_motor_command events from the buggy firmware; saw none"
       else "expected the buggy firmware to command torque>0 in SERVICE; max torque was " +:+ fmt_int f_max);
    mk "bug-fixed" (negb (none x) && forallb (fun c => (torque c =? 0) && negb (motor_enable c)) x)
      "fixed firmware clamped every SERVICE motor command to torque 0 with the motor disabled"
      (if none x then
         "expected SERVICE-mode diag_motor_command events from the fixed firmware; saw none"
       else "expected the fixed firmware to clamp SERVICE torque to 0; max torque was " +:+ fmt_int x_max);
    mk "traces-diverge" ((0 <? f_max) && (x_max =? 0))
      ("SERVICE motor commands diverge: buggy max torque " +:+ fmt_int f_max
       +:+ " (motor enabled) vs fixed 0 (motor disabled)")
      ("expected divergence (buggy torque>0 vs fixed 0); got buggy " +:+ fmt_int f_max +:+ " vs fixed "
       +:+ fmt_int x_max) ].

Definition evaluate_ota_rollback (traces : SeedTraces) : list Check :=
  let f := failing traces in
  let x := fixed traces in
  let booted := any_value f NODE_GATEWAY "ota_boot_result" 1 in
  let no_rollback := negb (any_value f NODE_GATEWAY "ota_rollback" 1) in
  let rolled_back := any_value x NODE_GATEWAY "ota_rollback" 1 in
  let slot_a := bool_decide (last_value x NODE_GATEWAY "ota_active_slot" = Some 0) in
  let never_booted := negb (any_value x NODE_GATEWAY "ota_boot_result" 1) in
  let f_crc := last_value f NODE_GATEWAY "ota_crc_ok" in
  let x_crc := last_value x NODE_GATEWAY "ota_crc_ok" in
  let f_end := last (state_values f NODE_GATEWAY) in
  let x_end := last (state_values x NODE_GATEWAY) in
  [ mk "bug-reproduced" (booted && no_rollback)
      "buggy firmware booted the corrupt image (ota_boot_result=1, no ota_rollback)"
      (if negb booted then
         "expected the buggy firmware to reach a healthy boot (ota_boot_result=1); it did not"
       else "expected the buggy firmware NOT to roll back, but it emitted ota_rollback=1");
    mk "bug-fixed" (rolled_back && slot_a && never_booted)
      "fixed firmware rolled back to slot A (ota_rollback=1, ota_active_slot=0, never booted)"
      (if negb rolled_back then "expected the fixed firmware to roll back (ota_rollback=1); it did not"
       else if negb slot_a then "expected the fixed firmware to stay on slot A (ota_active_slot=0)"
       else "expected the fixed firmware to never boot the corrupt image, but ota_boot_result=1");
    mk "traces-diverge"
      ((bool_decide (f_crc = Some 1) && bool_decide (x_crc = Some 0))
       && (bool_decide (f_end = Some 5) && bool_decide (x_end = Some 6)))
      ("traces diverge at VERIFYING: ota_crc_ok 1 (buggy) vs 0 (fixed), ending HEALTHY(5) vs "
       +:+ "ROLLED_BACK(6)")
      ("expected divergence crc_ok 1 vs 0 and end-state 5 vs 6; got crc " +:+ fmt_opt f_crc +:+ " vs "
       +:+ fmt_opt x_crc +:+ ", end " +:+ fmt_opt f_end +:+ " vs " +:+ fmt_opt x_end) ].

Definition evaluate (k : SeedKind) (traces : SeedTraces) : list Check :=
  match k with
  | OtaRollback => evaluate_ota_rollback traces
  | ServiceTorqueClamp => evaluate_service_torque_clamp traces
  | ClearAllDtcs => evaluate_clear_all_dtcs traces
  | StartSessionInDrive => evaluate_start_session_in_drive traces
  end.

Definition run_error (run : ScenarioRun) (which : string) : string :=
  which +:+ " scenario run failed: "
  +:+ default ("exited " +:+ RunStatus.as_str (Runner.status run)) (last (stderr_tail run)).

(** [run_seed]: [run] runs a scenario of the corpus directory. *)
Definition run_seed (run : string -> ScenarioRun) (seed : Seed) : SeedResult :=
  let base e cs ok :=
    {| sd_name := seed_name seed; sd_description := description seed; sd_symptom := symptom seed;
       sd_primitive := primitive seed; sd_passed := ok; sd_run_error := e; sd_checks := cs |} in
  let failing_run := run (failing_scenario seed) in
  if negb (bool_decide (Runner.status failing_run = RunStatus.Pass)) then
    base (Some (run_error failing_run "failing")) [] false
  else
    let fixed_run := run (fixed_scenario seed) in
    if negb (bool_decide (Runner.status fixed_run = RunStatus.Pass)) then
      base (Some (run_error fixed_run "fixed")) [] false
    else
      let traces := {| failing := parse_traces (Runner.trace failing_run);
                       fixed := parse_traces (Runner.trace fixed_run) |} in
      let checks := evaluate (kind seed) traces in
      base None checks (all_checks_passed checks).

Definition run_corpus (run : string -> ScenarioRun) : CorpusReport := map (run_seed run) builtin_seeds.

(** ** Facts *)

Lemma fold_max_le l t d : fold_left Z.max l t <= d <-> t <= d /\ forall x, x ∈ l -> x <= d.
Proof.
  revert t; induction l as [|y l IH]; intros t; cbn [fold_left].
  { split; [|by intros []]. intros H. split; [done|]. by intros ? ?%not_elem_of_nil. }
  rewrite IH. setoid_rewrite elem_of_cons. split.
  - intros [H1 H2]. split; [lia|]. intros x [->|Hx]; [lia|auto].
  - intros [H1 H2]. split; [specialize (H2 y ltac:(by left)); lia|]. intros x Hx. apply H2. by right.
Qed.

Lemma max_torque_pos l : 0 < max_torque l <-> exists c, c ∈ l /\ 0 < torque c.
Proof.
  assert (max_torque l <= 0 <-> forall c, c ∈ l -> torque c <= 0) as Hle.
  { unfold max_torque. destruct l as [|c l]; cbn [map].
    - split; [by intros _ ? ?%not_elem_of_nil|lia].
    - rewrite fold_max_le. setoid_rewrite elem_of_cons. split.
      + intros [H1 H2] c' [->|Hc]; [done|]. apply H2, list_elem_of_In, in_map, list_elem_of_In. done.
      + intros H. split; [apply H; by left|]. intros x (c' & <- & Hc)%list_elem_of_In%in_map_iff.
        apply H. right. by apply list_elem_of_In. }
  split.
  - intros Hpos. destruct (existsb (fun c => 0 <? torque c) l) eqn:E.
    + apply existsb_elem in E as (c & Hc & Ht%Z.ltb_lt). eauto.
    + assert (max_torque l <= 0); [|lia]. apply Hle. intros c Hc. apply not_true_iff_false in E.
      destruct (Z.ltb_spec 0 (torque c)) as [Hlt|]; [|done]. destruct E. apply existsb_elem. exists c.
      split; [done|]. by apply Z.ltb_lt.
  - intros (c & Hc & Ht). destruct (decide (max_torque l <= 0)) as [H|]; [|lia].
    rewrite Hle in H. specialize (H c Hc). lia.
Qed.

(** What a seed's pair of traces has to show. *)
Definition seed_shows (k : SeedKind) (f x : list UserTrace) : Prop :=
  match k with
  | OtaRollback =>
      1 ∈ values_of f NODE_GATEWAY "ota_boot_result" /\ 1 ∉ values_of f NODE_GATEWAY "ota_rollback" /\
      1 ∈ values_of x NODE_GATEWAY "ota_rollback" /\ 1 ∉ values_of x NODE_GATEWAY "ota_boot_result" /\
      last (values_of x NODE_GATEWAY "ota_active_slot") = Some 0 /\
      last (values_of f NODE_GATEWAY "ota_crc_ok") = Some 1 /\
      last (values_of x NODE_GATEWAY "ota_crc_ok") = Some 0 /\
      last (values_of f NODE_GATEWAY "ota_state") = Some 5 /\
      last (values_of x NODE_GATEWAY "ota_state") = Some 6
  | ServiceTorqueClamp =>
      (exists c, c ∈ service_motor_commands f /\ 0 < torque c /\ motor_enable c = true) /\
      service_motor_commands x <> [] /\
      forall c, c ∈ service_motor_commands x -> torque c = 0 /\ motor_enable c = false
  | ClearAllDtcs =>
      dtc_count f REQ_READ_DTCS_PRE = Some 2 /\ dtc_count f REQ_READ_DTCS_POST = Some 0 /\
      dtc_count x REQ_READ_DTCS_PRE = Some 2 /\ dtc_count x REQ_READ_DTCS_POST = Some 1
  | StartSessionInDrive =>
      diag_response_status_value0 f DIAG_START_SESSION 1 = Some (DIAG_OK, VEHICLE_SERVICE) /\
      diag_response_status_value0 x DIAG_START_SESSION 1 = Some (DIAG_REJECTED, VEHICLE_DRIVE)
  end.

Lemma any_value_false trace m l want : any_value trace m l want = false <-> want ∉ values_of trace m l.
Proof. by rewrite <- not_true_iff_false, any_value_spec. Qed.

Lemma service_torque_shows f x :
  all_checks_passed (evaluate_service_torque_clamp {| failing := f; fixed := x |}) = true <->
  seed_shows ServiceTorqueClamp f x.
Proof.
  unfold all_checks_passed, evaluate_service_torque_clamp, seed_shows, mk. cbn [failing fixed negb andb forallb passed].
  generalize (service_motor_commands f) (service_motor_commands x). intros fs xs.
  rewrite !andb_true_iff, existsb_elem, forallb_elem, Z.ltb_lt, Z.eqb_eq, max_torque_pos.
  setoid_rewrite andb_true_iff. setoid_rewrite Z.ltb_lt. setoid_rewrite Z.eqb_eq. setoid_rewrite negb_true_iff.
  split.
  - intros ([_ Hf] & [Hx Hall] & _). split; [done|]. split; [by destruct xs|done].
  - intros ((c & Hc & Ht & He) & Hx & Hall). split_and!; try done; eauto.
    + by destruct fs; [apply not_elem_of_nil in Hc|].
    + by destruct xs.
    + destruct xs as [|y ys]; [done|].
      assert (max_torque (y :: ys) <= 0 /\ 0 <= max_torque (y :: ys)); [|lia]. split.
      * destruct (decide (max_torque (y :: ys) <= 0)) as [|H]; [done|].
        assert (0 < max_torque (y :: ys)) as (d & Hd & Hp)%max_torque_pos by lia.
        destruct (Hall d Hd). lia.
      * unfold max_torque. cbn [map]. destruct (Hall y ltac:(by left)) as [-> _].
        destruct (decide (fold_left Z.max (map torque ys) 0 <= -1)) as [Hm|]; [|lia].
        apply fold_max_le in Hm. lia.
Qed.

Lemma ota_rollback_shows f x :
  all_checks_passed (evaluate_ota_rollback {| failing := f; fixed := x |}) = true <->
  seed_shows OtaRollback f x.
Proof.
  unfold all_checks_passed, evaluate_ota_rollback, seed_shows, mk, state_values, last_value.
  cbn [failing fixed negb andb forallb passed].
  rewrite !andb_true_iff, !negb_true_iff, !bool_decide_eq_true, !any_value_false, !any_value_spec. tauto.
Qed.

Lemma clear_all_dtcs_shows f x :
  all_checks_passed (evaluate_clear_all_dtcs {| failing := f; fixed := x |}) = true <->
  seed_shows ClearAllDtcs f x.
Proof.
  unfold all_checks_passed, evaluate_clear_all_dtcs, seed_shows, mk.
  cbn [failing fixed negb andb forallb passed]. rewrite !andb_true_iff, !bool_decide_eq_true. tauto.
Qed.

Lemma start_session_shows f x :
  all_checks_passed (evaluate_start_session_in_drive {| failing := f; fixed := x |}) = true <->
  seed_shows StartSessionInDrive f x.
Proof.
  unfold all_checks_passed, evaluate_start_session_in_drive, seed_shows, mk.
  cbn [failing fixed negb andb forallb passed]. rewrite !andb_true_iff, !bool_decide_eq_true. split; [tauto|].
  intros [-> ->]. done.
Qed.

(** A seed passes exactly when both its runs exit cleanly and their traces show its bug
    and its fix: the corrupt image booted against rolled back to slot A, with the CRC verdict
    and the last state that tell them apart; live torque against none in SERVICE; two trouble
    codes cleared to none against to one; a session opened in DRIVE against refused. For the
    last three the check that the traces diverge follows from the two others. *)
Theorem seed_passes_iff run seed :
  sd_passed (run_seed run seed) = true <->
  let f := run (failing_scenario seed) in
  let x := run (fixed_scenario seed) in
  Runner.status f = RunStatus.Pass /\ Runner.status x = RunStatus.Pass /\
  seed_shows (kind seed) (parse_traces (Runner.trace f)) (parse_traces (Runner.trace x)).
Proof.
  cbn zeta. unfold run_seed. case_bool_decide as Hf; cbn [negb]; [|split; [done|by intros []]].
  case_bool_decide as Hx; cbn [negb]; [|split; [done|by intros (_ & ? & _)]]. cbn [sd_passed].
  transitivity (seed_shows (kind seed) (parse_traces (Runner.trace (run (failing_scenario seed))))
                  (parse_traces (Runner.trace (run (fixed_scenario seed))))); [|tauto].
  destruct (kind seed); cbn [evaluate];
    [apply ota_rollback_shows|apply service_torque_shows|apply clear_all_dtcs_shows|apply start_session_shows].
Qed.
