(* ===== verification/HarnessArgs.v ===== *)
(** * The harness's command lines ([dogfood/src/bin/harness.rs])

    Every subcommand walks its arguments with the same loop; what it does with one argument
    is an [arm]. The grammar of [parse_opts] and the flags of the other subcommands. *)

From S2P Require Import Prelude MachineInt RustStr.

Definition DEFAULT_TIMEOUT_SECS : Z := 60.
Definition DEFAULT_REPEATS : Z := 2.
Definition DEFAULT_SCENARIO_DIR : string := "scenarios".
Definition DEFAULT_CORPUS_DIR : string := "dogfood/toml_zoo".

(** ** The loop

    [Takes missing f] moves on to the next argument and hands it to [f], or fails with
    [missing] when there is none; [Plain r] needs no further argument. *)
Inductive arm (S : Type) : Type :=
  | Takes (missing : string) (f : string -> result S string)
  | Plain (r : result S string).
Arguments Takes {S} missing f.
Arguments Plain {S} r.

Fixpoint arg_loop {S : Type} (body : S -> string -> arm S) (s : S) (args : list string) :
  result S string :=
  match args with
  | [] => ROk s
  | a :: args =>
      match body s a with
      | Plain r => try! s := r in arg_loop body s args
      | Takes missing f =>
          match args with
          | [] => RErr missing
          | v :: args => try! s := f v in arg_loop body s args
          end
      end
  end.

(** [v.parse()], with the message for a failure. *)
Definition number {S : Type} (t : ity) (msg : string) (set : Z -> S) (v : string) : result S string :=
  match parse_int t v with Some n => ROk (set n) | None => RErr msg end.

(** ** [run], [run-all] and [telematics] *)

(** The timeout in seconds. *)
Record Opts : Type := {
  timeout : Z;
  repeats : Z;
  json : option string;
  scenario_dir : string;
  positionals : list string
}.

Definition default_opts : Opts :=
  {| timeout := DEFAULT_TIMEOUT_SECS; repeats := DEFAULT_REPEATS; json := None;
     scenario_dir := DEFAULT_SCENARIO_DIR; positionals := [] |}.

Definition set_timeout (o : Opts) (n : Z) : Opts :=
  {| timeout := n; repeats := repeats o; json := json o; scenario_dir := scenario_dir o;
     positionals := positionals o |}.
Definition set_repeats (o : Opts) (n : Z) : Opts :=
  {| timeout := timeout o; repeats := n; json := json o; scenario_dir := scenario_dir o;
     positionals := positionals o |}.
Definition set_json (o : Opts) (p : string) : Opts :=
  {| timeout := timeout o; repeats := repeats o; json := Some p; scenario_dir := scenario_dir o;
     positionals := positionals o |}.
Definition set_scenario_dir (o : Opts) (p : string) : Opts :=
  {| timeout := timeout o; repeats := repeats o; json := json o; scenario_dir := p;
     positionals := positionals o |}.
Definition push_positional (o : Opts) (a : string) : Opts :=
  {| timeout := timeout o; repeats := repeats o; json := json o; scenario_dir := scenario_dir o;
     positionals := positionals o ++ [a] |}.

(** The match on one argument. *)
Definition opts_arm (o : Opts) (a : string) : arm Opts :=
  if String.eqb a "--timeout-secs" then
    Takes "--timeout-secs needs a value"
      (fun v => number U64 ("bad --timeout-secs: " +:+ v) (set_timeout o) v)
  else if String.eqb a "--repeats" then
    Takes "--repeats needs a value" (fun v => number USize ("bad --repeats: " +:+ v) (set_repeats o) v)
  else if String.eqb a "--json" then
    Takes "--json needs a path" (fun v => ROk (set_json o v))
  else if String.eqb a "--scenario-dir" then
    Takes "--scenario-dir needs a path" (fun v => ROk (set_scenario_dir o v))
  else if starts_with "--" a then Plain (RErr ("unknown flag: " +:+ a))
  else Plain (ROk (push_positional o a)).

Definition parse_opts (args : list string) : result Opts string := arg_loop opts_arm default_opts args.

(** ** The lanes that take [--dir], [--timeout-secs] and [--json] *)

Record LaneOpts : Type := { dir : string; timeout_secs : Z; json_out : option string }.

Definition lane_arm (o : LaneOpts) (a : string) : arm LaneOpts :=
  if String.eqb a "--dir" then
    Takes "--dir needs a path"
      (fun v => ROk {| dir := v; timeout_secs := timeout_secs o; json_out := json_out o |})
  else if String.eqb a "--timeout-secs" then
    Takes "--timeout-secs needs a number"
      (number U64 "--timeout-secs needs a number"
         (fun n => {| dir := dir o; timeout_secs := n; json_out := json_out o |}))
  else if String.eqb a "--json" then
    Takes "--json needs a path"
      (fun v => ROk {| dir := dir o; timeout_secs := timeout_secs o; json_out := Some v |})
  else if starts_with "-" a then Plain (RErr ("unknown flag: " +:+ a))
  else Plain (ROk {| dir := a; timeout_secs := timeout_secs o; json_out := json_out o |}).

Definition parse_lane_opts (default_dir : string) (args : list string) : result LaneOpts string :=
  arg_loop lane_arm {| dir := default_dir; timeout_secs := DEFAULT_TIMEOUT_SECS; json_out := None |} args.

(** ** [simfarm] *)

Record SimfarmOpts : Type := {
  so_n : Z;
  so_churn : Z;
  so_timeout : Z;
  so_json : option string;
  so_bad : option string;
  so_scenario : option string
}.

Definition default_simfarm_opts : SimfarmOpts :=
  {| so_n := 4; so_churn := 5; so_timeout := DEFAULT_TIMEOUT_SECS; so_json := None; so_bad := None;
     so_scenario := None |}.

Definition simfarm_arm (o : SimfarmOpts) (a : string) : arm SimfarmOpts :=
  let '(Build_SimfarmOpts n churn timeout json bad scenario) := o in
  if String.eqb a "-n" || String.eqb a "--sessions" then
    Takes "-n/--sessions needs a number"
      (number USize "-n/--sessions needs a number"
         (fun n => Build_SimfarmOpts n churn timeout json bad scenario))
  else if String.eqb a "--churn" then
    Takes "--churn needs a number"
      (number USize "--churn needs a number"
         (fun churn => Build_SimfarmOpts n churn timeout json bad scenario))
  else if String.eqb a "--timeout-secs" then
    Takes "--timeout-secs needs a number"
      (number U64 "--timeout-secs needs a number"
         (fun timeout => Build_SimfarmOpts n churn timeout json bad scenario))
  else if String.eqb a "--json" then
    Takes "--json needs a path" (fun v => ROk (Build_SimfarmOpts n churn timeout (Some v) bad scenario))
  else if String.eqb a "--bad" then
    Takes "--bad needs a path" (fun v => ROk (Build_SimfarmOpts n churn timeout json (Some v) scenario))
  else if starts_with "-" a then Plain (RErr ("unknown flag: " +:+ a))
  else Plain (ROk (Build_SimfarmOpts n churn timeout json bad (Some a))).

(** The scenario is mandatory. *)
Definition parse_simfarm_opts (args : list string) : result (SimfarmOpts * string) string :=
  try! o := arg_loop simfarm_arm default_simfarm_opts args in
  match so_scenario o with
  | Some s => ROk (o, s)
  | None => RErr "expected <scenario.toml>"
  end.

(** ** [toml-zoo] *)

Record ZooOpts : Type := {
  zo_dir : string;
  zo_healthy : option string;
  zo_timeout : Z;
  zo_json : option string
}.

Definition default_zoo_opts : ZooOpts :=
  {| zo_dir := DEFAULT_CORPUS_DIR; zo_healthy := Some "scenarios/boot_and_heartbeat.toml";
     zo_timeout := DEFAULT_TIMEOUT_SECS; zo_json := None |}.

Definition zoo_arm (o : ZooOpts) (a : string) : arm ZooOpts :=
  let '(Build_ZooOpts dir healthy timeout json) := o in
  if String.eqb a "--dir" then
    Takes "--dir needs a path" (fun v => ROk (Build_ZooOpts v healthy timeout json))
  else if String.eqb a "--healthy" then
    Takes "--healthy needs a path" (fun v => ROk (Build_ZooOpts dir (Some v) timeout json))
  else if String.eqb a "--no-sibling" then Plain (ROk (Build_ZooOpts dir None timeout json))
  else if String.eqb a "--timeout-secs" then
    Takes "--timeout-secs needs a number"
      (number U64 "--timeout-secs needs a number" (fun n => Build_ZooOpts dir healthy n json))
  else if String.eqb a "--json" then
    Takes "--json needs a path" (fun v => ROk (Build_ZooOpts dir healthy timeout (Some v)))
  else if starts_with "-" a then Plain (RErr ("unknown flag: " +:+ a))
  else Plain (ROk (Build_ZooOpts a healthy timeout json)).

Definition parse_zoo_opts (args : list string) : result ZooOpts string :=
  arg_loop zoo_arm default_zoo_opts args.

(** ** [debug-gym]: other arguments are ignored *)

Record GymOpts : Type := { go_dir : option string; go_timeout : Z; go_json : option string }.

Definition default_gym_opts : GymOpts :=
  {| go_dir := None; go_timeout := DEFAULT_TIMEOUT_SECS; go_json := None |}.

Definition gym_arm (o : GymOpts) (a : string) : arm GymOpts :=
  let '(Build_GymOpts dir timeout json) := o in
  if String.eqb a "--scenario-dir" then
    Takes "--scenario-dir needs a path" (fun v => ROk (Build_GymOpts (Some v) timeout json))
  else if String.eqb a "--timeout-secs" then
    Takes "--timeout-secs needs a number"
      (number U64 "--timeout-secs needs a number" (fun n => Build_GymOpts dir n json))
  else if String.eqb a "--json" then
    Takes "--json needs a path" (fun v => ROk (Build_GymOpts dir timeout (Some v)))
  else if starts_with "-" a then Plain (RErr ("unknown flag: " +:+ a))
  else Plain (ROk o).

Definition parse_gym_opts (args : list string) : result GymOpts string :=
  arg_loop gym_arm default_gym_opts args.

(** ** Facts *)

(** One or two arguments of [parse_opts]. *)
Inductive opt_tok : Type :=
  | TimeoutSecs (v : string)
  | Repeats (v : string)
  | JsonTo (path : string)
  | ScenarioDir (path : string)
  | Positional (a : string).

Definition render (t : opt_tok) : list string :=
  match t with
  | TimeoutSecs v => ["--timeout-secs"; v]
  | Repeats v => ["--repeats"; v]
  | JsonTo p => ["--json"; p]
  | ScenarioDir p => ["--scenario-dir"; p]
  | Positional a => [a]
  end.

Definition tok_timeout (t : opt_tok) : option Z :=
  match t with TimeoutSecs v => parse_int U64 v | _ => None end.
Definition tok_repeats (t : opt_tok) : option Z :=
  match t with Repeats v => parse_int USize v | _ => None end.
Definition tok_json (t : opt_tok) : option string := match t with JsonTo p => Some p | _ => None end.
Definition tok_dir (t : opt_tok) : option string := match t with ScenarioDir p => Some p | _ => None end.
Definition tok_positional (t : opt_tok) : option string :=
  match t with Positional a => Some a | _ => None end.

(** The numbers are numbers of their type, and a positional does not look like a flag. *)
Definition tok_ok (t : opt_tok) : Prop :=
  match t with
  | TimeoutSecs v => is_Some (parse_int U64 v)
  | Repeats v => is_Some (parse_int USize v)
  | JsonTo _ | ScenarioDir _ => True
  | Positional a => starts_with "--" a = false
  end.

(** The last of the options wins, the positionals accumulate. *)
Definition opts_of (o : Opts) (toks : list opt_tok) : Opts :=
  {| timeout := default (timeout o) (last (omap tok_timeout toks));
     repeats := default (repeats o) (last (omap tok_repeats toks));
     json := match last (omap tok_json toks) with Some p => Some p | None => json o end;
     scenario_dir := default (scenario_dir o) (last (omap tok_dir toks));
     positionals := positionals o ++ omap tok_positional toks |}.

Lemma default_last_cons {A : Type} (d x : A) l : default d (last (x :: l)) = default x (last l).
Proof. rewrite last_cons. by destruct (last l). Qed.

(** A token acts as its arm does. *)
Lemma arg_loop_tok o t args :
  tok_ok t -> arg_loop opts_arm o (render t ++ args) = arg_loop opts_arm (opts_of o [t]) args.
Proof.
  unfold opts_of. destruct t as [v|v|p|p|a]; cbn [tok_ok render app].
  - intros [n Hn]. cbn. unfold number. rewrite Hn. cbn. by rewrite app_nil_r.
  - intros [n Hn]. cbn. unfold number. rewrite Hn. cbn. by rewrite app_nil_r.
  - intros _. cbn. by rewrite app_nil_r.
  - intros _. cbn. by rewrite app_nil_r.
  - intros Ha. cbn [arg_loop].
    assert (opts_arm o a = Plain (ROk (push_positional o a))) as ->.
    { unfold opts_arm. repeat match goal with |- context [String.eqb a ?s] =>
        destruct (String.eqb_spec a s) as [->|_]; [exfalso; revert Ha; by vm_compute|] end. by rewrite Ha. }
    done.
Qed.

Lemma opts_of_cons o t toks : opts_of (opts_of o [t]) toks = opts_of o (t :: toks).
Proof.
  unfold opts_of. destruct o as [tm rp js sd ps].
  destruct t as [v|v|p|p|a]; cbn [omap list_omap tok_timeout tok_repeats tok_json tok_dir tok_positional
    timeout repeats json scenario_dir positionals last default]; rewrite ?app_nil_r, <- ?app_assoc; try done.
  - destruct (parse_int U64 v) as [n|]; [by rewrite !default_last_cons|reflexivity].
  - destruct (parse_int USize v) as [n|]; [by rewrite !default_last_cons|reflexivity].
  - f_equal. rewrite last_cons. by destruct (last _).
  - by rewrite !default_last_cons.
Qed.

(** Accepted arguments start with a token. *)
Lemma arg_loop_first o a args o' :
  arg_loop opts_arm o (a :: args) = ROk o' ->
  exists t rest, a :: args = render t ++ rest /\ tok_ok t.
Proof.
  cbn [arg_loop]. unfold opts_arm.
  destruct (String.eqb_spec a "--timeout-secs") as [->|_].
  { destruct args as [|v args]; [done|]. intros (s & Hs & _)%rbind_ROk. exists (TimeoutSecs v), args.
    split; [done|]. cbn. unfold number in Hs. destruct (parse_int U64 v); [eauto|done]. }
  destruct (String.eqb_spec a "--repeats") as [->|_].
  { destruct args as [|v args]; [done|]. intros (s & Hs & _)%rbind_ROk. exists (Repeats v), args.
    split; [done|]. cbn. unfold number in Hs. destruct (parse_int USize v); [eauto|done]. }
  destruct (String.eqb_spec a "--json") as [->|_].
  { destruct args as [|v args]; [done|]. intros _. by exists (JsonTo v), args. }
  destruct (String.eqb_spec a "--scenario-dir") as [->|_].
  { destruct args as [|v args]; [done|]. intros _. by exists (ScenarioDir v), args. }
  destruct (starts_with "--" a) eqn:E; [done|]. intros _. by exists (Positional a), args.
Qed.

Lemma arg_loop_toks toks o args :
  Forall tok_ok toks -> arg_loop opts_arm o (concat (map render toks) ++ args) = arg_loop opts_arm (opts_of o toks) args.
Proof.
  intros H. revert o; induction H as [|t toks Ht H IH]; intros o.
  { cbn [map concat app]. unfold opts_of. cbn. rewrite app_nil_r. by destruct o. }
  cbn [map concat]. by rewrite <- app_assoc, arg_loop_tok, IH, opts_of_cons.
Qed.

(** The command line of [run], [run-all] and [telematics] is accepted exactly when it is
    a sequence of the four flags, each with its argument, and of positionals not starting
    with two dashes; numbers must fit 64 bits. The last of several values of a flag wins, a
    flag left out has its default, and the positionals are kept in order. *)
Theorem parse_opts_grammar args o :
  parse_opts args = ROk o <->
  exists toks, args = concat (map render toks) /\ Forall tok_ok toks /\ o = opts_of default_opts toks.
Proof.
  unfold parse_opts. generalize default_opts. split.
  - revert o0. induction args as [args IH] using (induction_ltof1 _ (@length string)). intros o0.
    destruct args as [|a args]; [|intros H].
    { intros [= <-]. exists []. split_and!; [done|constructor|]. unfold opts_of. cbn. rewrite app_nil_r. by destruct o0. }
    destruct (arg_loop_first _ _ _ _ H) as (t & rest & Ha & Ht). rewrite Ha in IH, H |- *.
    rewrite arg_loop_tok in H by done. apply IH in H as (toks & -> & Hok & ->).
    + exists (t :: toks). split_and!; [done|by constructor|]. apply opts_of_cons.
    + unfold ltof. rewrite length_app. destruct t; cbn; lia.
  - intros (toks & -> & Hok & ->). rewrite <- (app_nil_r (concat _)). by apply arg_loop_toks.
Qed.

Example parse_opts_example :
  parse_opts ["--repeats"; "3"; "a.toml"; "--repeats"; "5"; "-n"]
  = ROk {| timeout := 60; repeats := 5; json := None; scenario_dir := "scenarios";
           positionals := ["a.toml"; "-n"] |} /\
  parse_opts ["a.toml"; "--repeats"; "-1"] = RErr "bad --repeats: -1" /\
  parse_opts ["--json"] = RErr "--json needs a path" /\
  parse_opts ["--verbose"] = RErr "unknown flag: --verbose".
Proof. by vm_compute. Qed.
