(* ===== verification/Harness.v ===== *)
(** * The harness ([dogfood/src/bin/harness.rs])

    Every subcommand as a function from what the harness finds around it to the lines it
    prints, the summary file it writes and its exit code. The files, the directory listings
    and the runs of the simulator are fields of [env]. *)

From S2P Require Import Prelude MachineInt RustStr Json TraceHash Runner Invariants Determinism Summary.
From S2P Require Import Lane OtaLane ChargingLane DiagnosticsLane TopologyLane TomlZooLane SimfarmLane.
From S2P Require Import DebugGym Corpus HarnessArgs.

(** ** Surroundings *)

(** A run is known by the binary, the timeout, the further arguments, the scenario's path and
    a number that tells the runs of one scenario by one command apart; [v2_run] is whether the second, [--trace-v2],
    run of a scenario was spawned and what its file then held. [cargo_test] is the exit code
    of the cockpit test. *)
Record env : Type := {
  version : string;
  microcar_bin : option string;
  is_file : string -> bool;
  read_dir : string -> result (list (result string string)) string;
  read_to_string : string -> result string string;
  microcar : string -> Z -> list string -> string -> nat -> ScenarioRun;
  v2_run : string -> Z -> string -> bool * result string string;
  cargo_test : result (option Z) string;
  fs_write : string -> result unit string
}.

(** A command that stops with a message. *)
Definition refuse (lines : list string) : effects :=
  {| out := []; err := lines; wrote := None; code := 2 |}.

Definition argerr (sub msg : string) : effects := refuse ["harness " +:+ sub +:+ ": " +:+ msg].

(** ** Paths and formatting *)

(** [dir.join(name)] for the name of an entry. *)
Definition path_join (dir name : string) : string :=
  if String.eqb dir "" then name
  else if ends_with "/" dir then dir +:+ name
  else dir +:+ "/" +:+ name.

(** The number of characters: the bytes that do not continue one. *)
Fixpoint char_count (s : string) : nat :=
  match s with
  | "" => 0%nat
  | String c s => if Z.land (byte c) 0xC0 =? 0x80 then char_count s else S (char_count s)
  end.

(** [{:<w}] *)
Definition pad_right (w : nat) (s : string) : string := s +:+ str_repeat (w - char_count s) " ".

(** [{:?}] of a duration of whole seconds. *)
Definition fmt_secs (n : Z) : string := if n =? 0 then "0ns" else fmt_int n +:+ "s".

Definition okmark (ok : bool) : string := if ok then "ok  " else "FAIL".

Definition short_hash (h : string) : string :=
  if (16 <? String.length h)%nat then str_take 16 h +:+ "…" else h.

Definition format_indent (s : string) : string := " " +:+ join " " (split_whitespace s).

Definition rule : string := "──────────────────────────────────────────".

(** ** Locating the simulator *)

Definition candidates : list string :=
  ["target/debug/microcar"; "target/release/microcar"; "./microcar"; "../target/debug/microcar"].

Definition locate_microcar (e : env) : result string string :=
  match microcar_bin e with
  | Some p =>
      if is_file e p then ROk p else RErr ("MICROCAR_BIN=" +:+ p +:+ " does not point to a file")
  | None =>
      match List.find (is_file e) candidates with
      | Some c => ROk c
      | None =>
          RErr ("could not find the microcar binary. Build it with `cargo build` and run "
                +:+ "the harness from the microcar repo root, or set MICROCAR_BIN. Looked in: "
                +:+ join ", " candidates)
      end
  end.

(** Continue with the binary, or stop. *)
Definition with_bin (e : env) (k : string -> effects) : effects :=
  match locate_microcar e with
  | ROk bin => k bin
  | RErr msg => refuse ["harness: " +:+ msg]
  end.

(** [collect_scenarios]: the [.toml] paths of a directory, sorted. *)
Definition collect_scenarios (e : env) (dir : string) : result (list string) string :=
  match read_dir e dir with
  | RErr msg => RErr ("read_dir " +:+ dir +:+ ": " +:+ msg)
  | ROk entries => try! names := Lane.discover_scenarios (ROk entries) in
                   ROk (map (path_join dir) names)
  end.

(** [write_json] and the end of [finish]: what is printed about the summary file. *)
Definition write_lines (e : env) (path : string) : list string * list string :=
  match fs_write e path with
  | ROk _ => (["wrote JSON summary: " +:+ path], [])
  | RErr msg => ([], ["harness: failed to write " +:+ path +:+ ": " +:+ msg])
  end.

(** Print, write the summary if asked to, exit. *)
Definition conclude (e : env) (printed : list string) (json : option string) (text : string)
  (after : list string) (ok : bool) : effects :=
  match json with
  | Some path =>
      let '(o, r) := write_lines e path in
      {| out := printed ++ o ++ after; err := r;
         wrote := match fs_write e path with ROk _ => Some (path, text) | RErr _ => None end;
         code := exit_of ok |}
  | None => {| out := printed ++ after; err := []; wrote := None; code := exit_of ok |}
  end.

(** ** [run], [run-all], [telematics] *)

Definition print_scenario (s : ScenarioSummary) : list string :=
  let det := if ss_deterministic s then "deterministic" else "NON-DETERMINISTIC" in
  [ "[" +:+ okmark (Summary.passed s) +:+ "] " +:+ pad_right 32 (ss_name s) +:+ " "
    +:+ pad_right 7 (RunStatus.as_str (ss_status s)) +:+ " " +:+ pad_left 6 " " (fmt_int (ss_wall_ms s))
    +:+ "ms  hash=" +:+ short_hash (ss_trace_hash s) +:+ "  " +:+ det +:+ " (x"
    +:+ fmt_int (ss_repeats s) +:+ ")" ]
  ++ map (fun i => "        - " +:+ CheckStatus.as_str (ie_status i) +:+ " " +:+ ie_name i +:+ ": "
                   +:+ ie_message i)
       (List.filter (fun i => bool_decide (ie_status i = CheckStatus.Fail)) (ss_invariants s))
  ++ if ss_deterministic s then []
     else ["        - repeat hashes: " +:+ join ", " (ss_repeat_hashes s)].

Definition finish (e : env) (bin : string) (printed : list string) (reports : list DeterminismReport)
  (json : option string) : effects :=
  let summary := build_summary (version e) reports in
  let t := Summary.totals summary in
  conclude e
    (printed ++
     ["microcar dogfood harness v" +:+ harness_version summary; "microcar binary: " +:+ bin; ""]
     ++ concat (map print_scenario (scenarios summary))
     ++ [rule;
         "scenarios: " +:+ fmt_int (t_passed t) +:+ " passed, " +:+ fmt_int (t_failed t)
         +:+ " failed (of " +:+ fmt_int (t_scenarios t) +:+ ")";
         "invariants: " +:+ fmt_int (t_invariants_passed t) +:+ " pass, "
         +:+ fmt_int (t_invariants_failed t) +:+ " fail, " +:+ fmt_int (t_invariants_skipped t)
         +:+ " skip"])
    json (to_json_string summary) [] (all_passed summary).

(** The repeated runs of one scenario. *)
Definition repeat_runs (e : env) (bin : string) (o : Opts) (scenario : string) : DeterminismReport :=
  check_solo_vs_repeat (microcar e bin (timeout o) [] scenario) scenario (repeats o).

Definition with_opts (sub : string) (args : list string) (k : Opts -> effects) : effects :=
  match parse_opts args with
  | ROk o => k o
  | RErr msg => refuse ["harness " +:+ sub +:+ ": " +:+ msg]
  end.

Definition cmd_run (e : env) (args : list string) : effects :=
  with_opts "run" args (fun o =>
    match positionals o with
    | [scenario] =>
        with_bin e (fun bin => finish e bin [] [repeat_runs e bin o scenario] (json o))
    | _ => refuse ["harness run: expected exactly one <scenario.toml>"]
    end).

Definition cmd_run_all (e : env) (args : list string) : effects :=
  with_opts "run-all" args (fun o => with_bin e (fun bin =>
    match collect_scenarios e (scenario_dir o) with
    | ROk [] => refuse ["harness run-all: no .toml scenarios in " +:+ scenario_dir o]
    | ROk scenarios =>
        finish e bin
          ["Running " +:+ fmt_int (Z.of_nat (length scenarios)) +:+ " scenario(s) from "
           +:+ scenario_dir o +:+ " (" +:+ fmt_int (repeats o) +:+ " repeat(s) each, "
           +:+ fmt_secs (timeout o) +:+ " timeout)" +:+ newline_str]
          (map (repeat_runs e bin o) scenarios) (json o)
    | RErr msg => refuse ["harness run-all: " +:+ msg]
    end)).

Definition TELEMATICS_SCENARIO : string := "dogfood/debug_gym/telematics_partial_write_bug/fixed.toml".

Definition cmd_telematics (e : env) (args : list string) : effects :=
  with_opts "telematics" args (fun o => with_bin e (fun bin =>
    let scenario := TELEMATICS_SCENARIO in
    if negb (is_file e scenario) then
      refuse ["harness telematics: scenario not found at " +:+ scenario;
              "Run this from the microcar repo root."]
    else
      finish e bin ["Running telematics integration test: " +:+ scenario]
        [repeat_runs e bin o scenario] (json o))).

(** ** The lanes over a directory

    The five commands that take [--dir] differ in the names they print, the runner of their
    lane and what they show of its report. *)
Record lane_cmd (R : Type) : Type := {
  lc_sub : string;
  lc_corpus : string;
  lc_default_dir : string;
  lc_run : env -> string -> LaneOpts -> result R string;
  lc_show : R -> list string;
  lc_totals : R -> Z * Z;
  lc_count : R -> Z;
  lc_what : string * string;
  lc_to_json : R -> Json;
  lc_passed : R -> bool
}.
Arguments lc_sub {R}. Arguments lc_corpus {R}. Arguments lc_default_dir {R}. Arguments lc_run {R}.
Arguments lc_show {R}. Arguments lc_totals {R}. Arguments lc_count {R}. Arguments lc_what {R}.
Arguments lc_to_json {R}. Arguments lc_passed {R}.

(** The two lines under the report. *)
Definition totals_lines (what : string * string) (totals : Z * Z) (count : Z) : list string :=
  [rule; what.1 +:+ ": " +:+ fmt_int totals.1 +:+ " passed, " +:+ fmt_int totals.2 +:+ " failed (of "
         +:+ fmt_int count +:+ " " +:+ what.2 +:+ ")"].

Definition banner (e : env) (bin last : string) : list string :=
  ["microcar dogfood harness v" +:+ version e; "microcar binary: " +:+ bin; last +:+ newline_str].

Definition cmd_lane {R : Type} (l : lane_cmd R) (e : env) (args : list string) : effects :=
  match parse_lane_opts (lc_default_dir l) args with
  | RErr msg => argerr (lc_sub l) msg
  | ROk o => with_bin e (fun bin =>
      let printed := banner e bin (lc_corpus l +:+ ": " +:+ dir o) in
      match lc_run l e bin o with
      | RErr msg =>
          {| out := printed;
             err := ["harness " +:+ lc_sub l +:+ ": reading corpus " +:+ dir o +:+ ": " +:+ msg];
             wrote := None; code := 2 |}
      | ROk report =>
          conclude e (printed ++ lc_show l report
                      ++ totals_lines (lc_what l) (lc_totals l report) (lc_count l report))
            (json_out o) (to_pretty (lc_to_json l report)) [] (lc_passed l report)
      end)
  end.

(** The run of entry [f] of the corpus, alone and without further arguments, and its text. *)
Definition entry_run (e : env) (bin : string) (o : LaneOpts) (f : string) : ScenarioRun :=
  microcar e bin (timeout_secs o) [] (path_join (dir o) f) 0.
Definition entry_text (e : env) (o : LaneOpts) (f : string) : result string string :=
  read_to_string e (path_join (dir o) f).

Definition show_check (c : Check) : string :=
  "        [" +:+ okmark (Lane.passed c) +:+ "] " +:+ Lane.name c +:+ " -> " +:+ Lane.detail c.
Definition show_run_error (o : option string) : list string :=
  match o with Some err => ["        - run error: " +:+ err] | None => [] end.

Definition show_scenario (s : ScenarioResult) : list string :=
  ["[" +:+ okmark (sr_passed s) +:+ "] " +:+ sr_name s] ++ show_run_error (Lane.run_error s)
  ++ map show_check (Lane.checks s).

Definition count {A : Type} (l : list A) : Z := Z.of_nat (length l).

Definition diagnostics : lane_cmd Lane.Report :=
  {| lc_sub := "diagnostics"; lc_corpus := "diagnostics corpus"; lc_default_dir := "dogfood/diagnostics";
     lc_run := fun e bin o =>
       run_diagnostics (entry_run e bin o) (entry_text e o) (read_dir e (dir o));
     lc_show := fun r => concat (map show_scenario r);
     lc_totals := Lane.totals; lc_count := count; lc_what := ("diagnostics", "scenarios");
     lc_to_json := DiagnosticsLane.to_json; lc_passed := Lane.report_passed |}.

Definition charging : lane_cmd Lane.Report :=
  {| lc_sub := "charging"; lc_corpus := "charging corpus"; lc_default_dir := "dogfood/charging";
     lc_run := fun e bin o =>
       run_charging (entry_run e bin o) (entry_text e o) (read_dir e (dir o));
     lc_show := fun r => concat (map show_scenario r);
     lc_totals := Lane.totals; lc_count := count; lc_what := ("charging", "scenarios");
     lc_to_json := ChargingLane.to_json; lc_passed := Lane.report_passed |}.

Definition ota : lane_cmd Lane.Report :=
  {| lc_sub := "ota"; lc_corpus := "ota corpus"; lc_default_dir := "dogfood/ota";
     lc_run := fun e bin o => run_ota (entry_run e bin o) (entry_text e o) (read_dir e (dir o));
     lc_show := fun r => concat (map show_scenario r);
     lc_totals := Lane.totals; lc_count := count; lc_what := ("ota", "scenarios");
     lc_to_json := OtaLane.to_json; lc_passed := Lane.report_passed |}.

Definition show_topology (s : TopologyScenarioResult) : list string :=
  ["[" +:+ okmark (ts_passed s) +:+ "] " +:+ ts_name s] ++ show_run_error (ts_run_error s)
  ++ map (fun p => "        [" +:+ okmark (pr_passed p) +:+ "] probe " +:+ pr_id_hex p +:+ " -> "
                   +:+ pr_detail p) (probes s)
  ++ map (fun c => "        [" +:+ okmark (cr_passed c) +:+ "] correlate " +:+ cr_id_hex c +:+ " -> "
                   +:+ cr_detail c) (correlations s).

Definition topology : lane_cmd TopologyReport :=
  {| lc_sub := "topology"; lc_corpus := "topology corpus"; lc_default_dir := "dogfood/topology";
     lc_run := fun e bin o =>
       run_topology (entry_text e o) (entry_run e bin o)
         (fun f => let '(spawned, tmp) := v2_run e bin (timeout_secs o) (path_join (dir o) f) in
                   run_scenario_v2 spawned tmp)
         (read_dir e (dir o));
     lc_show := fun r => concat (map show_topology r);
     lc_totals := TopologyLane.totals; lc_count := count; lc_what := ("topology", "scenarios");
     lc_to_json := TopologyLane.to_json; lc_passed := TopologyLane.report_passed |}.

Definition show_seed (s : SeedResult) : list string :=
  [ "[" +:+ okmark (sd_passed s) +:+ "] " +:+ sd_name s;
    "        bug:      " +:+ sd_description s;
    "        symptom:  " +:+ sd_symptom s;
    "        primitive:" +:+ format_indent (sd_primitive s) ]
  ++ show_run_error (sd_run_error s) ++ map show_check (sd_checks s).

(** The seeds' scenarios are looked up below the corpus directory, which is not listed. *)
Definition debug_gym_corpus : lane_cmd CorpusReport :=
  {| lc_sub := "debug-gym-corpus"; lc_corpus := "debug_gym seeded-bug corpus";
     lc_default_dir := "dogfood/debug_gym";
     lc_run := fun e bin o => ROk (run_corpus (entry_run e bin o));
     lc_show := fun r => concat (map show_seed r);
     lc_totals := Corpus.totals; lc_count := count; lc_what := ("debug_gym_corpus", "seeds");
     lc_to_json := Corpus.to_json; lc_passed := Corpus.report_passed |}.

(** ** [toml-zoo] *)

Definition show_case (c : CaseResult) : string :=
  "[" +:+ okmark (c_passed c) +:+ "] " +:+ pad_right 30 (c_name c) +:+ " " +:+ c_detail c.

Definition show_sibling (s : SiblingIsolation) : string :=
  "[" +:+ okmark (TomlZooLane.isolated s) +:+ "] sibling-isolation  healthy="
  +:+ RunStatus.as_str (TomlZooLane.healthy_status s) +:+ " bad="
  +:+ RunStatus.as_str (TomlZooLane.bad_status s) +:+ " isolated=" +:+ fmt_bool (TomlZooLane.isolated s).

Definition cmd_toml_zoo (e : env) (args : list string) : effects :=
  match parse_zoo_opts args with
  | RErr msg => argerr "toml-zoo" msg
  | ROk o => with_bin e (fun bin =>
      let healthy := match zo_healthy o with
                     | Some h => if is_file e h then Some h else None
                     | None => None
                     end in
      let printed := banner e bin ("toml_zoo corpus: " +:+ zo_dir o) in
      let path f := path_join (zo_dir o) f in
      let run f := microcar e bin (zo_timeout o) [] (path f) in
      match run_toml_zoo (fun f => read_to_string e (path f)) (fun f => run f 0%nat)
              (fun h f => (microcar e bin (zo_timeout o) [] h 1%nat, run f 2%nat))
              (read_dir e (zo_dir o)) healthy with
      | RErr msg =>
          {| out := printed;
             err := ["harness toml-zoo: reading corpus " +:+ zo_dir o +:+ ": " +:+ msg];
             wrote := None; code := 2 |}
      | ROk report =>
          conclude e
            (printed ++ map show_case (cases report)
             ++ match sibling report with Some s => [show_sibling s] | None => [] end
             ++ totals_lines ("toml_zoo", "cases") (TomlZooLane.totals report) (count (cases report)))
            (zo_json o) (to_pretty (TomlZooLane.to_json report)) [] (TomlZooLane.report_passed report)
      end)
  end.

(** ** [debug-gym] *)

Definition show_gym (s : DebugGymScenarioResult) : string :=
  "[" +:+ okmark (DebugGym.passed s) +:+ "] " +:+ pad_right 28 (DebugGym.name s) +:+ " "
  +:+ DebugGym.detail s.

(** The run with [--step] is a second one of its scenario. The deadline's arithmetic can panic. *)
Definition gym_scenarios (e : env) (bin : string) (o : GymOpts) (p : profile) (scenarios : list string) :
  outcome effects :=
  let run := microcar e bin (go_timeout o) in
  let! report := run_debug_gym p (read_to_string e) (fun s => run [] s 0%nat)
                   (fun s => run ["--step"] s 0%nat) scenarios in
  Ret (conclude e
         (banner e bin ("debug_gym: " +:+ fmt_int (count scenarios) +:+ " scenario(s)")
          ++ map show_gym report
          ++ totals_lines ("debug_gym", "scenarios") (DebugGym.totals report) (count report))
         (go_json o) (to_pretty (DebugGym.to_json report)) [] (DebugGym.report_passed report)).

Definition cmd_debug_gym (p : profile) (e : env) (args : list string) : outcome effects :=
  match parse_gym_opts args with
  | RErr msg => Ret (argerr "debug-gym" msg)
  | ROk o =>
      match locate_microcar e with
      | RErr msg => Ret (refuse ["harness: " +:+ msg])
      | ROk bin =>
          match go_dir o with
          | None => gym_scenarios e bin o p DEFAULT_SCENARIOS
          | Some d =>
              match collect_scenarios e d with
              | ROk [] => Ret (refuse ["harness debug-gym: no .toml scenarios in " +:+ d])
              | ROk scenarios => gym_scenarios e bin o p scenarios
              | RErr msg => Ret (refuse ["harness debug-gym: " +:+ msg])
              end
          end
      end
  end.

(** ** [simfarm] *)

Definition show_run_hash (solo_hash : string) (idx : nat) (rh : RunHash) : list string :=
  if negb (String.eqb (hash rh) solo_hash) || negb (RunStatus.is_clean (rh_status rh)) then
    [ "        - run #" +:+ fmt_int (Z.of_nat idx) +:+ ": status=" +:+ RunStatus.as_str (rh_status rh)
      +:+ " hash=" +:+ short_hash (hash rh) ]
  else [].

Definition show_simfarm (sim : SimfarmReport) : list string :=
  [ "[" +:+ okmark (simfarm_passed sim) +:+ "] concurrent x" +:+ pad_right 3 (fmt_int (sf_n sim))
    +:+ "  solo=" +:+ short_hash (solo_hash sim) +:+ "  all_match=" +:+ fmt_bool (all_match sim)
    +:+ "  all_clean=" +:+ fmt_bool (all_clean sim) ]
  ++ concat (imap (show_run_hash (solo_hash sim)) (concurrent sim)).

Definition show_churn (c : ChurnReport) : list string :=
  [ "[" +:+ okmark (churn_passed c) +:+ "] churn x" +:+ pad_right 7 (fmt_int (iterations c))
    +:+ "  distinct_hashes=" +:+ fmt_int (distinct_hashes c) +:+ "  clean=" +:+ fmt_int (clean c)
    +:+ "/" +:+ fmt_int (iterations c) ].

Definition show_isolation (bad : string) (p : PanicIsolationReport) : list string :=
  [ "[" +:+ okmark (isolation_passed p) +:+ "] panic-isolation  bad=" +:+ bad
    +:+ "  healthy=" +:+ RunStatus.as_str (healthy_status p)
    +:+ "  bad_status=" +:+ RunStatus.as_str (bad_status p)
    +:+ "(exit=" +:+ fmt_debug_option fmt_int (bad_exit_code p) +:+ ")  isolated="
    +:+ fmt_bool (isolated p) ].

(** The three checks. Run 0 of the scenario is the solo one, 1 the baseline of the isolation
    check, 2 its run beside the bad one and 3 the bad one's; the threads and the iterations
    follow by turns. *)
Definition simfarm_reports (e : env) (bin : string) (o : SimfarmOpts) (scenario bad : string) :
  SimfarmReport * option ChurnReport * option PanicIsolationReport :=
  let run := microcar e bin (so_timeout o) [] in
  ( run_simfarm (run scenario 0%nat) (fun k => run scenario (5 + 2 * k)%nat) (so_n o),
    if 0 <? so_churn o then
      Some (run_churn scenario (fun k => run scenario (4 + 2 * k)%nat) (so_churn o))
    else None,
    if is_file e bad then
      Some (run_panic_isolation (run scenario 1%nat) (run scenario 2%nat) (run bad 3%nat))
    else None ).

Definition option_all {A : Type} (p : A -> bool) (o : option A) : bool :=
  match o with Some a => p a | None => true end.

Definition simfarm_ok (r : SimfarmReport * option ChurnReport * option PanicIsolationReport) : bool :=
  let '(sim, churn, panic) := r in
  simfarm_passed sim && option_all churn_passed churn && option_all isolation_passed panic.

Definition simfarm_json (r : SimfarmReport * option ChurnReport * option PanicIsolationReport) : Json :=
  let '(sim, churn, panic) := r in
  Obj ([("simfarm", simfarm_to_json sim)]
       ++ match churn with Some c => [("churn", churn_to_json c)] | None => [] end
       ++ match panic with Some p => [("panic_isolation", isolation_to_json p)] | None => [] end).

Definition cmd_simfarm (e : env) (args : list string) : effects :=
  match parse_simfarm_opts args with
  | RErr msg => argerr "simfarm" msg
  | ROk (o, scenario) => with_bin e (fun bin =>
      let bad := default (DEFAULT_CORPUS_DIR +:+ "/missing_gateway.toml") (so_bad o) in
      let r := simfarm_reports e bin o scenario bad in
      let '(sim, churn, panic) := r in
      conclude e
        (banner e bin ("simfarm: " +:+ scenario) ++ show_simfarm sim
         ++ match churn with Some c => show_churn c | None => [] end
         ++ match panic with
            | Some p => show_isolation bad p
            | None => ["[skip] panic-isolation: no bad scenario at " +:+ bad +:+ " (pass --bad PATH)"]
            end)
        (so_json o) (to_pretty (simfarm_json r))
        [rule; "simfarm lane: " +:+ if simfarm_ok r then "PASS" else "FAIL"]
        (simfarm_ok r))
  end.

(** ** [cockpit] *)

Definition cmd_cockpit (e : env) (args : list string) : effects :=
  if negb (is_file e "../costar/Cargo.toml") then
    refuse ["harness cockpit: costar repo not found at ../costar";
            "Run this from the microcar repo root with costar at ../costar"]
  else
    let printed := "Running gRPC cockpit integration test (sim-grpc)..." in
    match cargo_test e with
    | ROk c =>
        if Runner.success c then
          {| out := [printed; "cockpit: PASS"]; err := []; wrote := None; code := SUCCESS |}
        else
          {| out := [printed]; err := ["cockpit: FAIL (exit code: " +:+ fmt_int (default (-1) c) +:+ ")"];
             wrote := None; code := FAILURE |}
    | RErr msg =>
        {| out := [printed]; err := ["harness cockpit: failed to run cargo test: " +:+ msg];
           wrote := None; code := 2 |}
    end.

(** ** The command line *)

(** The usage text, one line each. *)
Definition usage : list string :=
  [ "microcar dogfood harness"; "";
    "USAGE:";
    "  harness run      <scenario.toml> [--timeout-secs N] [--repeats N] [--json OUT]";
    "  harness run-all  [--scenario-dir DIR] [--timeout-secs N] [--repeats N] [--json OUT]";
    "  harness cockpit  Run gRPC cockpit integration test";
    "  harness telematics  Run telematics integration tests";
    "  harness simfarm  <scenario.toml> [-n N] [--churn M] [--bad PATH] [--timeout-secs N] [--json OUT]";
    "  harness toml-zoo [--dir DIR] [--healthy SCENARIO] [--no-sibling] [--timeout-secs N] [--json OUT]";
    "  harness topology [--dir DIR] [--timeout-secs N] [--json OUT]";
    "  harness diagnostics [--dir DIR] [--timeout-secs N] [--json OUT]";
    "  harness charging [--dir DIR] [--timeout-secs N] [--json OUT]";
    "  harness ota [--dir DIR] [--timeout-secs N] [--json OUT]";
    "  harness debug-gym [--scenario-dir DIR] [--timeout-secs N] [--json OUT]";
    "  harness debug-gym-corpus [--dir DIR] [--timeout-secs N] [--json OUT]";
    "";
    "FLAGS:";
    "  --timeout-secs N   Wall-clock timeout per run (default " +:+ fmt_int DEFAULT_TIMEOUT_SECS +:+ ")";
    "  --repeats N        Runs per scenario for determinism check (default " +:+ fmt_int DEFAULT_REPEATS +:+ ")";
    "  --json OUT         Write a JSON summary to OUT";
    "  --scenario-dir DIR Directory of .toml scenarios for run-all (default " +:+ DEFAULT_SCENARIO_DIR +:+ ")";
    "";
    "The microcar binary is found via $MICROCAR_BIN or target/debug/microcar.";
    "Exit code is non-zero if any scenario failed." ].

Definition is_any (s : string) (l : list string) : bool := existsb (String.eqb s) l.

(** [main]: [args] without the program's name. *)
Definition main (p : profile) (e : env) (args : list string) : outcome effects :=
  match args with
  | [] => Ret (refuse usage)
  | cmd :: rest =>
      if String.eqb cmd "run" then Ret (cmd_run e rest)
      else if String.eqb cmd "run-all" then Ret (cmd_run_all e rest)
      else if String.eqb cmd "cockpit" then Ret (cmd_cockpit e rest)
      else if String.eqb cmd "telematics" then Ret (cmd_telematics e rest)
      else if String.eqb cmd "simfarm" then Ret (cmd_simfarm e rest)
      else if is_any cmd ["toml-zoo"; "toml_zoo"] then Ret (cmd_toml_zoo e rest)
      else if String.eqb cmd "topology" then Ret (cmd_lane topology e rest)
      else if String.eqb cmd "diagnostics" then Ret (cmd_lane diagnostics e rest)
      else if String.eqb cmd "charging" then Ret (cmd_lane charging e rest)
      else if String.eqb cmd "ota" then Ret (cmd_lane ota e rest)
      else if is_any cmd ["debug-gym"; "debug_gym"] then cmd_debug_gym p e rest
      else if is_any cmd ["debug-gym-corpus"; "debug_gym_corpus"] then Ret (cmd_lane debug_gym_corpus e rest)
      else if is_any cmd ["-h"; "--help"; "help"] then
        Ret {| out := []; err := usage; wrote := None; code := SUCCESS |}
      else
        Ret (refuse (("harness: unknown subcommand '" +:+ cmd +:+ "'" +:+ newline_str) :: usage))
  end.

(** ** Facts *)

Lemma locate_microcar_spec e bin :
  locate_microcar e = ROk bin <->
  is_file e bin = true /\
  (microcar_bin e = Some bin \/
   microcar_bin e = None /\
   exists l1 l2, candidates = l1 ++ bin :: l2 /\ forall c, c ∈ l1 -> is_file e c = false).
Proof.
  unfold locate_microcar. destruct (microcar_bin e) as [p|].
  { destruct (is_file e p) eqn:E; split; try done.
    - intros [= <-]. auto.
    - by intros [_ [[= ->]|[? _]]].
    - intros [Hf [[= ->]|[? _]]]; congruence. }
  assert (forall l, (exists c, List.find (is_file e) l = Some c /\ c = bin) <->
            is_file e bin = true /\ exists l1 l2, l = l1 ++ bin :: l2 /\ forall c, c ∈ l1 -> is_file e c = false) as H.
  { induction l as [|c l IH]; cbn [List.find].
    { split; [by intros (? & ? & _)|]. by intros (_ & [|? ?] & ? & ? & _). }
    destruct (is_file e c) eqn:E.
    - split.
      + intros (? & [= <-] & <-). split; [done|]. exists [], l. split; [done|]. by intros ? ?%not_elem_of_nil.
      + intros (Hf & [|a l1] & l2 & [= -> ->] & Hn); [eauto|]. by rewrite (Hn a ltac:(by left)) in E.
    - rewrite IH. split.
      + intros (Hf & l1 & l2 & -> & Hn). split; [done|]. exists (c :: l1), l2. split; [done|].
        intros x [->|Hx]%elem_of_cons; auto.
      + intros (Hf & [|a l1] & l2 & [= -> ->] & Hn); [congruence|]. split; [done|]. exists l1, l2.
        split; [done|]. intros x Hx. apply Hn. by right. }
  specialize (H candidates). destruct (List.find (is_file e) candidates) as [c|]; split.
  - intros [= ->]. destruct (proj1 H) as [? ?]; eauto.
  - intros (Hf & [?|(_ & Hl)]); [done|]. destruct (proj2 H (conj Hf Hl)) as (? & [= ->] & ->). done.
  - done.
  - intros (Hf & [?|(_ & Hl)]); [done|]. by destruct (proj2 H (conj Hf Hl)) as (? & ? & _).
Qed.

(** An exit the documentation of the harness allows. *)
Definition orderly (o : effects) : Prop :=
  code o = SUCCESS \/ code o = FAILURE \/ code o = 2 /\ err o <> [] /\ wrote o = None.

Lemma refuse_orderly m ms : orderly (refuse (m :: ms)).
Proof. right; right. by split_and!. Qed.

Lemma conclude_code e printed json text after ok : code (conclude e printed json text after ok) = exit_of ok.
Proof. unfold conclude. destruct json as [path|]; [|done]. by destruct (write_lines e path). Qed.

Lemma exit_of_orderly o ok : code o = exit_of ok -> orderly o.
Proof. intros H. unfold orderly. rewrite H. destruct ok; auto. Qed.

Lemma conclude_orderly e printed json text after ok : orderly (conclude e printed json text after ok).
Proof. eapply exit_of_orderly, conclude_code. Qed.

Lemma with_bin_orderly e k : (forall bin, orderly (k bin)) -> orderly (with_bin e k).
Proof. intros H. unfold with_bin. destruct (locate_microcar e); auto using refuse_orderly. Qed.

Lemma with_opts_orderly sub args k : (forall o, orderly (k o)) -> orderly (with_opts sub args k).
Proof. intros H. unfold with_opts. destruct (parse_opts args); auto using refuse_orderly. Qed.

Create HintDb exits discriminated.
#[export] Hint Resolve refuse_orderly conclude_orderly with_bin_orderly with_opts_orderly : exits.
#[export] Hint Unfold argerr finish : exits.

(** Commands are nests of refusals, matches and [conclude]. *)
Ltac exits_orderly :=
  intros; repeat first
    [ solve [eauto with exits] | apply with_bin_orderly; intros | apply with_opts_orderly; intros
    | solve [right; right; split_and!; done] | case_match ].

Lemma cmd_lane_orderly {R : Type} (l : lane_cmd R) e args : orderly (cmd_lane l e args).
Proof. unfold cmd_lane. exits_orderly. Qed.

Lemma cmd_simfarm_orderly e args : orderly (cmd_simfarm e args).
Proof.
  unfold cmd_simfarm. destruct (parse_simfarm_opts args) as [[o scenario]|]; [|exits_orderly].
  apply with_bin_orderly. intros bin. destruct (simfarm_reports _ _ _ _ _) as [[sim churn] panic]. exits_orderly.
Qed.

Lemma cmd_cockpit_orderly e args : orderly (cmd_cockpit e args).
Proof.
  unfold cmd_cockpit. destruct (negb _); [exits_orderly|]. destruct (cargo_test e) as [c|]; [|exits_orderly].
  destruct (Runner.success c); [by left|by right; left].
Qed.

Lemma cmd_debug_gym_orderly p e args o : cmd_debug_gym p e args = Ret o -> orderly o.
Proof.
  assert (forall bin o' scenarios, gym_scenarios e bin o' p scenarios = Ret o -> orderly o) as Hg.
  { intros bin o' scenarios (r & _ & [= <-])%obind_Ret. exits_orderly. }
  unfold cmd_debug_gym. repeat case_match; intros H';
    first [exact (Hg _ _ _ H') | injection H' as <-; exits_orderly].
Qed.

Lemma run_debug_gym_release read c s l : run_debug_gym Release read c s l <> Panic.
Proof.
  unfold run_debug_gym. match goal with |- ofold ?f ?acc l <> Panic =>
    destruct (ofold_total f l) with (s := acc) as [r ->]; [|done] end.
  intros rs f. unfold run_one.
  destruct (parse_duration_ms (read f)); [rewrite arith_release|]; eexists; reflexivity.
Qed.

Lemma cmd_debug_gym_panic p e args : cmd_debug_gym p e args = Panic -> p = Debug.
Proof.
  destruct p; [done|]. unfold cmd_debug_gym.
  assert (forall bin o scenarios, gym_scenarios e bin o Release scenarios <> Panic) as Hg.
  { intros bin o scenarios. unfold gym_scenarios. pose proof (run_debug_gym_release (read_to_string e)
      (fun s => microcar e bin (go_timeout o) [] s 0%nat) (fun s => microcar e bin (go_timeout o) ["--step"] s 0%nat)
      scenarios). by destruct (run_debug_gym _ _ _ _ _). }
  repeat case_match; intros H'; first [by destruct (Hg _ _ _ H') | discriminate H'].
Qed.

(** Its commands but [debug-gym] always return. *)
Lemma main_cases p e args :
  (exists o, main p e args = Ret o /\ orderly o) \/
  exists cmd rest, args = cmd :: rest /\ is_any cmd ["debug-gym"; "debug_gym"] = true /\
    main p e args = cmd_debug_gym p e rest.
Proof.
  destruct args as [|cmd rest]; [left; eexists; split; [done|]; exits_orderly|].
  destruct (is_any cmd ["debug-gym"; "debug_gym"]) eqn:Hg.
  { right. exists cmd, rest. split_and!; [done..|]. cbn [main]. unfold is_any in Hg |- *. cbn [existsb] in Hg.
    rewrite !orb_true_iff in Hg. destruct Hg as [->%String.eqb_eq|[->%String.eqb_eq|[=]]]; done. }
  left. cbn [main]. rewrite Hg.
  repeat (match goal with |- context [if ?b then _ else _] => destruct b end;
          [eexists; split; [reflexivity|];
           first [by left | apply cmd_lane_orderly | apply cmd_simfarm_orderly | apply cmd_cockpit_orderly
                 | unfold cmd_run, cmd_run_all, cmd_telematics, cmd_toml_zoo; exits_orderly]|]).
  eexists. split; [reflexivity|]. exits_orderly.
Qed.

(** Whatever the arguments and the surroundings, [main] exits with 0, 1 or 2, and with 2
    only after saying why and without having written a summary. Nothing it does panics but the
    deadline arithmetic of [debug-gym], under overflow checks. *)
Theorem main_exit p e args :
  match main p e args with
  | Ret o => orderly o
  | Panic => p = Debug /\ exists cmd rest, args = cmd :: rest /\ is_any cmd ["debug-gym"; "debug_gym"] = true
  end.
Proof.
  destruct (main_cases p e args) as [(o & -> & Ho)|(cmd & rest & -> & Hg & ->)]; [done|].
  destruct (cmd_debug_gym p e rest) as [o|] eqn:E.
  - by apply cmd_debug_gym_orderly in E.
  - apply cmd_debug_gym_panic in E. eauto.
Qed.

(** What a scenario has to do to be reported as passed: [run k] is its [k]-th run of [n]. *)
Definition scenario_ok (run : nat -> ScenarioRun) (n : Z) : Prop :=
  Runner.status (run 0%nat) = RunStatus.Pass /\ trace (run 0%nat) <> [] /\
  (forall m, ~ regresses (times m (trace (run 0%nat)))) /\
  forall k, (k < Z.to_nat n)%nat -> normalized_hash (trace (run k)) = normalized_hash (trace (run 0%nat)).

Lemma finish_code e bin printed reports json :
  code (finish e bin printed reports json) = SUCCESS <->
  reports <> [] /\ forall r, r ∈ reports -> Summary.passed (from_determinism r) = true.
Proof.
  unfold finish. rewrite conclude_code.
  destruct (summary_totals (version e) (map from_determinism reports)) as (_ & _ & _ & _ & _ & H).
  assert (forall b, exit_of b = SUCCESS <-> b = true) as -> by (by intros []).
  unfold build_summary. rewrite H. split; intros [Hne Hall]; split.
  - by intros ->.
  - intros r Hr. apply Hall, list_elem_of_In, in_map, list_elem_of_In, Hr.
  - by destruct reports.
  - intros x (r & <- & Hr)%list_elem_of_In%in_map_iff. by apply Hall, list_elem_of_In.
Qed.

Lemma repeat_runs_passed e bin o path :
  Summary.passed (from_determinism (repeat_runs e bin o path)) = true <->
  scenario_ok (microcar e bin (timeout o) [] path) (repeats o).
Proof.
  unfold repeat_runs. rewrite scenario_passes_iff. unfold scenario_ok.
  split; intros (Hs & Ht & Hm & Hh); split_and!; try done.
  - intros k Hk. apply Hh, list_elem_of_In, in_map_iff. exists k. split; [done|]. apply in_seq. lia.
  - intros r (k & <- & Hk%in_seq)%list_elem_of_In%in_map_iff.
    destruct k as [|k]; [done|]. apply Hh. lia.
Qed.

Lemma with_bin_code e k c : c <> 2 -> code (with_bin e k) = c <-> exists bin, locate_microcar e = ROk bin /\ code (k bin) = c.
Proof.
  intros Hc. unfold with_bin. destruct (locate_microcar e) as [bin|m].
  - split; [eauto|]. by intros (? & [= <-] & ?).
  - split; [|by intros (? & ? & _)]. cbn. congruence.
Qed.

Lemma with_opts_code sub args k c :
  c <> 2 -> code (with_opts sub args k) = c <-> exists o, parse_opts args = ROk o /\ code (k o) = c.
Proof.
  intros Hc. unfold with_opts. destruct (parse_opts args) as [o|m].
  - split; [eauto|]. by intros (? & [= <-] & ?).
  - split; [|by intros (? & ? & _)]. cbn. congruence.
Qed.

Lemma elem_of_map_ROk {A E : Type} (l : list A) a : (ROk a : result A E) ∈ map ROk l <-> a ∈ l.
Proof.
  rewrite !list_elem_of_In, in_map_iff. split; [by intros (? & [= ->] & ?)|eauto].
Qed.

Lemma all_ROk {A E : Type} (l : list (result A E)) :
  (forall x, x ∈ l -> exists a, x = ROk a) -> exists l', l = map ROk l'.
Proof.
  induction l as [|x l IH]; intros H; [by exists []|].
  destruct (H x ltac:(by left)) as [a ->]. destruct IH as [l' ->]; [intros y Hy; apply H; by right|].
  by exists (a :: l').
Qed.

#[export] Instance ROk_inj {A E : Type} : Inj (=) (=) (@ROk A E).
Proof. by intros a b [= ->]. Qed.

(** A directory is collected when it and all its entries can be read. *)
Lemma collect_scenarios_spec e dir paths :
  collect_scenarios e dir = ROk paths ->
  exists fs, read_dir e dir = ROk (map ROk fs) /\
    forall p, p ∈ paths <-> exists f, f ∈ fs /\ is_toml f = true /\ p = path_join dir f.
Proof.
  unfold collect_scenarios. destruct (read_dir e dir) as [entries|m]; [|done].
  intros (names & Hn & [= <-])%rbind_ROk. pose proof (discover_scenarios_elem _ _ Hn) as He.
  destruct (all_ROk entries) as [fs ->]; [apply discover_scenarios_ok; eauto|].
  exists fs. split; [done|]. intros p. split.
  - intros (f & <- & [Hin Ht]%list_elem_of_In%He)%list_elem_of_In%in_map_iff. exists f. split; [exact (proj1 (elem_of_map_ROk fs f) Hin)|done].
  - intros (f & Hf & Ht & ->). apply list_elem_of_In, in_map, list_elem_of_In, He.
    split; [by apply elem_of_map_ROk|done].
Qed.

Lemma collect_scenarios_total e dir fs :
  read_dir e dir = ROk (map ROk fs) -> exists paths, collect_scenarios e dir = ROk paths.
Proof.
  intros Hd. unfold collect_scenarios. rewrite Hd.
  destruct (proj2 (discover_scenarios_ok (map ROk fs))) as [out ->]; [|cbn; eauto].
  intros x (f & <- & _)%list_elem_of_In%in_map_iff. eauto.
Qed.

(** C39: [run-all] exits with 0 exactly when its arguments are accepted, the simulator's binary
    is found, the scenario directory and its entries can be read and hold a [.toml] file, and
    every such scenario exits cleanly at first, with a trace in which no machine's time
    regresses, and leaves the same trace, up to normalization and hash, in each of the
    repetitions asked for. [run] does the same for the one scenario it is given. *)
Theorem run_all_exit e args :
  (code (cmd_run_all e args) = SUCCESS <->
   exists o bin fs, parse_opts args = ROk o /\ locate_microcar e = ROk bin /\
     read_dir e (scenario_dir o) = ROk (map ROk fs) /\ (exists f, f ∈ fs /\ is_toml f = true) /\
     forall f, f ∈ fs -> is_toml f = true ->
       scenario_ok (microcar e bin (timeout o) [] (path_join (scenario_dir o) f)) (repeats o)) /\
  (code (cmd_run e args) = SUCCESS <->
   exists o bin path, parse_opts args = ROk o /\ locate_microcar e = ROk bin /\ positionals o = [path] /\
     scenario_ok (microcar e bin (timeout o) [] path) (repeats o)).
Proof.
  unfold cmd_run_all, cmd_run. rewrite !with_opts_code by done. split; split.
  - intros (o & Ho & (bin & Hb & H)%with_bin_code); [|done].
    destruct (collect_scenarios e (scenario_dir o)) as [[|p ps]|] eqn:E; [done| |done].
    apply finish_code in H as [_ H]. destruct (collect_scenarios_spec _ _ _ E) as (fs & Hfs & Hp).
    exists o, bin, fs. split_and!; try done.
    + destruct (proj1 (Hp p)) as (f & ? & ? & _); [by left|eauto].
    + intros f Hf Ht. apply repeat_runs_passed, H, list_elem_of_In, in_map, list_elem_of_In, Hp. eauto.
  - intros (o & bin & fs & Ho & Hb & Hd & (f & Hf & Ht) & Hall). exists o. split; [done|].
    apply with_bin_code; [done|]. exists bin. split; [done|].
    destruct (collect_scenarios_total _ _ _ Hd) as [paths E]. rewrite E.
    destruct (collect_scenarios_spec _ _ _ E) as (fs' & Hfs & Hp).
    rewrite Hd in Hfs. apply (inj ROk), (inj (map ROk)) in Hfs as <-.
    destruct paths as [|p ps]; [by destruct (not_elem_of_nil (path_join (scenario_dir o) f)); apply Hp; eauto|].
    apply finish_code. split; [done|].
    intros r (x & <- & (g & Hg & Hgt & ->)%list_elem_of_In%Hp)%list_elem_of_In%in_map_iff.
    by apply repeat_runs_passed, Hall.
  - intros (o & Ho & H). destruct (positionals o) as [|path [|? ?]] eqn:Ep; [done| |done].
    apply with_bin_code in H as (bin & Hb & [_ H]%finish_code); [|done].
    exists o, bin, path. split_and!; try done. apply repeat_runs_passed, H. by left.
  - intros (o & bin & path & Ho & Hb & Ep & Hok). exists o. split; [done|]. rewrite Ep.
    apply with_bin_code; [done|]. exists bin. split; [done|]. apply finish_code. split; [done|].
    intros r ->%list_elem_of_singleton. by apply repeat_runs_passed.
Qed.

(** What a scenario of a trace lane has to do. *)
Definition meets_expectations {E : Type} `{TraceLane E} (run : ScenarioRun) (text : result string string) : Prop :=
  Runner.status run = RunStatus.Pass /\
  exists content, text = ROk content /\
    forall exp, exp ∈ Lane.parse_expectations content ->
      Lane.passed (Lane.evaluate exp (omap parse_user_trace_line (trace run))) = true.

Definition corpus_passes {E : Type} `{TraceLane E} (e : env) (bin : string) (o : LaneOpts) : Prop :=
  exists fs, read_dir e (dir o) = ROk (map ROk fs) /\ (exists f, f ∈ fs /\ is_toml f = true) /\
    forall f, f ∈ fs -> is_toml f = true -> meets_expectations (entry_run e bin o f) (entry_text e o f).

Lemma run_lane_ok {E : Type} `{TraceLane E} e bin o :
  (exists r, run_lane (entry_run e bin o) (entry_text e o) (read_dir e (dir o)) = ROk r /\
             Lane.report_passed r = true) <-> corpus_passes e bin o.
Proof.
  unfold corpus_passes. split.
  - intros (r & Hr & Hp). pose proof Hr as (names & Hd & _)%rbind_ROk.
    destruct (read_dir e (dir o)) as [entries|m] eqn:Er; [|done].
    destruct (all_ROk entries) as [fs ->]; [apply discover_scenarios_ok; eauto|].
    apply (run_lane_passed _ _ _ _ Hr) in Hp as [(f & Hf & Ht) Hall].
    exists fs. split; [done|]. split; [exists f; split; [exact (proj1 (elem_of_map_ROk _ _) Hf)|done]|].
    intros g Hg Hgt. apply run_lane_scenario_spec, Hall; [by apply elem_of_map_ROk|done].
  - intros (fs & Hd & (f & Hf & Ht) & Hall). rewrite Hd.
    destruct (proj2 (discover_scenarios_ok (map ROk fs))) as [names Hn].
    { intros x (g & <- & _)%list_elem_of_In%in_map_iff. eauto. }
    assert (exists r, run_lane (entry_run e bin o) (entry_text e o) (ROk (map ROk fs)) = ROk r) as [r Hr].
    { unfold run_lane. rewrite Hn. cbn [rbind]. eauto. }
    exists r. split; [done|]. apply (run_lane_passed _ _ _ _ Hr). split.
    + exists f. split; [by apply elem_of_map_ROk|done].
    + intros g Hg Hgt. apply run_lane_scenario_spec, Hall; [exact (proj1 (elem_of_map_ROk _ _) Hg)|done].
Qed.

Lemma cmd_lane_code {R : Type} (l : lane_cmd R) e args :
  code (cmd_lane l e args) = SUCCESS <->
  exists o bin, parse_lane_opts (lc_default_dir l) args = ROk o /\ locate_microcar e = ROk bin /\
    exists r, lc_run l e bin o = ROk r /\ lc_passed l r = true.
Proof.
  unfold cmd_lane. destruct (parse_lane_opts _ _) as [o|m]; [|split; [done|by intros (? & ? & ? & _)]].
  rewrite with_bin_code by done. split.
  - intros (bin & Hb & H). exists o, bin. split_and!; [done..|].
    destruct (lc_run l e bin o) as [r|]; [|done]. rewrite conclude_code in H. exists r. split; [done|].
    by destruct (lc_passed l r).
  - intros (o' & bin & [= <-] & Hb & r & Hr & Hp). exists bin. split; [done|].
    rewrite Hr, conclude_code, Hp. done.
Qed.

(** The three lanes that read expectations exit with 0 exactly when their arguments are
    accepted, the simulator's binary is found, the corpus directory and its entries can be
    read and hold a [.toml] file, and every such scenario runs cleanly and leaves events that
    meet each expectation of its text. *)
Theorem trace_lanes_exit e args :
  let passes_with E (_ : TraceLane E) default_dir := exists o bin,
    parse_lane_opts default_dir args = ROk o /\ locate_microcar e = ROk bin /\ corpus_passes e bin o in
  (code (cmd_lane ota e args) = SUCCESS <-> passes_with OtaLane.Expectation _ "dogfood/ota") /\
  (code (cmd_lane charging e args) = SUCCESS <-> passes_with ChargingLane.Expectation _ "dogfood/charging") /\
  (code (cmd_lane diagnostics e args) = SUCCESS <->
   passes_with DiagnosticsLane.Expectation _ "dogfood/diagnostics").
Proof.
  cbn zeta. rewrite !cmd_lane_code.
  split_and!; apply exist_proper; intros o; apply exist_proper; intros bin;
    (apply and_iff_compat_l, and_iff_compat_l); apply (run_lane_ok e bin o).
Qed.
