(* ===== verification/Main.v ===== *)
(** * The simulator's front end ([src/main.rs])

    The command line, the stages from a scenario file to a running world, the run by single
    steps, and the exit codes. The simulator ([sim_world]) is a record of the operations that
    [main] calls on it. *)

From S2P Require Import Prelude MachineInt StableSort RustStr Ecu Validate Plant Json Runner Lane TomlZooLane.

Definition EXIT_PASS : Z := 0.
Definition EXIT_RUNTIME_FAIL : Z := 1.
Definition EXIT_SCENARIO_ERROR : Z := 2.

(** ** The simulator *)

(** [sim_world::scenario::ScenarioError], with the text it displays. *)
Inductive ScenarioError : Type :=
  | Io (shown : string)
  | Parse (shown : string)
  | Invalid (shown : string)
  | Sim (shown : string)
  | TraceMismatch (shown : string).

Definition shown (e : ScenarioError) : string :=
  match e with Io m | Parse m | Invalid m | Sim m | TraceMismatch m => m end.

Definition scenario_error_kind (e : ScenarioError) : string :=
  match e with
  | Io _ => "io"
  | Parse _ => "parse"
  | Invalid _ => "invalid"
  | Sim _ => "sim"
  | TraceMismatch _ => "trace-mismatch"
  end.

(** The fields of a parsed scenario that [main] and the validation read; [plant] has the
    optional tick of a declared plant. *)
Record LoadedMachine : Type := { lm_id : Z; lm_def : MachineDef; lm_zephyr : bool }.
Record LoadedScenario : Type := {
  sc_name : string;
  sc_duration_ms : option Z;
  sc_plant : option (option Z);
  sc_machine : list LoadedMachine;
  sc_bus : list (list BusNode);
  sc_input : list InputDef;
  sc_bus_inject : list BusInjectDef
}.

Definition checked (s : LoadedScenario) : Validate.Scenario :=
  {| Validate.machine := map lm_def (sc_machine s); Validate.bus := sc_bus s;
     Validate.input := sc_input s; Validate.bus_inject := sc_bus_inject s |}.

Inductive StepOutcome : Set := Advanced | Done.

(** The world may be changed by a call that fails; nothing reads it afterwards. A run that
    does not return is [None]. *)
Record simulator (W : Type) : Type := {
  from_file : string -> result LoadedScenario ScenarioError;
  build_world : LoadedScenario -> result W ScenarioError;
  enable_owned_device_banks : W -> W;
  enable_trace_v2 : W -> W;
  attach_plant_to : LoadedScenario -> W -> MicrocarPlant.t -> result W ScenarioError;
  has_machine : W -> Z -> bool;
  load_firmware_from_factory : W -> Z -> MicrocarFirmware.t -> W;
  schedule_faults_to : LoadedScenario -> W -> W;
  now : W -> Z;
  next_global_event_time : W -> option Z;
  step : W -> result (StepOutcome * W) string;
  run_until : W -> Z -> option (result W string);
  run : W -> option (result W string);
  trace_v2_jsonl : W -> string;
  fs_write : string -> result unit string;
  drain_all_traces : W -> list string;
  check_trace : LoadedScenario -> list string -> result (list string * bool) ScenarioError
}.
Arguments from_file {W}. Arguments build_world {W}. Arguments enable_owned_device_banks {W}.
Arguments enable_trace_v2 {W}. Arguments attach_plant_to {W}. Arguments has_machine {W}.
Arguments load_firmware_from_factory {W}. Arguments schedule_faults_to {W}. Arguments now {W}.
Arguments next_global_event_time {W}. Arguments step {W}. Arguments run_until {W}. Arguments run {W}.
Arguments trace_v2_jsonl {W}. Arguments fs_write {W}. Arguments drain_all_traces {W}.
Arguments check_trace {W}.

(** ** Arguments *)

Record Args : Type := { scenario_path : option string; trace_v2_path : option string; step_mode : bool }.

(** The loop over the arguments; the message of a usage error. *)
Fixpoint parse_args (a : Args) (args : list string) : result Args string :=
  match args with
  | [] => ROk a
  | x :: args =>
      if String.eqb x "--trace-v2" then
        match args with
        | [] => RErr "--trace-v2 needs a path"
        | p :: args =>
            parse_args {| scenario_path := scenario_path a; trace_v2_path := Some p;
                          step_mode := step_mode a |} args
        end
      else if String.eqb x "--step" then
        parse_args {| scenario_path := scenario_path a; trace_v2_path := trace_v2_path a;
                      step_mode := true |} args
      else if starts_with "--" x then RErr ("unknown flag '" +:+ x +:+ "'")
      else match scenario_path a with
           | None => parse_args {| scenario_path := Some x; trace_v2_path := trace_v2_path a;
                                   step_mode := step_mode a |} args
           | Some _ => parse_args a args
           end
  end.

Definition no_args : Args := {| scenario_path := None; trace_v2_path := None; step_mode := false |}.

Section Main.
Context {W : Type} (sim : simulator W).

(** ** [step_run]

    The two loops, with fuel; [None] when it runs out. *)

Fixpoint step_until (fuel : nat) (d : Z) (w : W) : option (result W string) :=
  match fuel with
  | O => None
  | S fuel =>
      if now sim w <? d then
        match next_global_event_time sim w with
        | Some t =>
            if t <=? d then
              match step sim w with
              | ROk (Advanced, w) => step_until fuel d w
              | ROk (Done, w) => Some (ROk w)
              | RErr e => Some (RErr e)
              end
            else Some (ROk w)
        | None => Some (ROk w)
        end
      else Some (ROk w)
  end.

Fixpoint step_to_idle (fuel : nat) (w : W) : option (result W string) :=
  match fuel with
  | O => None
  | S fuel =>
      match step sim w with
      | ROk (Advanced, w) => step_to_idle fuel w
      | ROk (Done, w) => Some (ROk w)
      | RErr e => Some (RErr e)
      end
  end.

Definition step_run (fuel : nat) (w : W) (deadline : option Z) : option (result W string) :=
  match deadline with
  | Some d => step_until fuel d w
  | None => step_to_idle fuel w
  end.

(** ** From the arguments to a running world *)

(** A failure of a stage: the kind and the message of its line on the error stream. *)
Definition failure : Type := string * string.

Definition of_error {A : Type} (r : result A ScenarioError) : result A failure :=
  match r with ROk a => ROk a | RErr e => RErr (scenario_error_kind e, shown e) end.

(** The firmware of one machine: a machine with a firmware path that the world knows. The
    default build has no Zephyr firmware and warns. *)
Definition attach_firmware (s : W * list string) (m : LoadedMachine) : W * list string :=
  let '(w, warnings) := s in
  match m_firmware (lm_def m) with
  | None => (w, warnings)
  | Some fw =>
      if has_machine sim w (lm_id m) then
        ( load_firmware_from_factory sim w (lm_id m)
            (MicrocarFirmware.with_firmware_path (m_name (lm_def m)) fw),
          if lm_zephyr m then
            warnings ++ ["warning: machine '" +:+ m_name (lm_def m) +:+ "' uses rtos=zephyr but "
                         +:+ "the 'zephyr' feature is not enabled — falling back to FreeRTOS firmware"]
          else warnings )
      else (w, warnings)
  end.

Definition attach_plant (s : LoadedScenario) (w : W) : result W ScenarioError :=
  match sc_plant s with
  | None => ROk w
  | Some tick =>
      let tick_ms := default 10 tick in
      attach_plant_to sim s w (MicrocarPlant.new (cast U32 tick_ms))
  end.

(** The world that is run, what was printed on the way, and the scenario. *)
Definition launched : Type := W * list string * LoadedScenario.

(** The scenario's file, checked. *)
Definition load (p : profile) (path : string) : outcome (result LoadedScenario failure) :=
  match of_error (from_file sim path) with
  | RErr f => Ret (RErr f)
  | ROk s =>
      let! v := validate_scenario p (checked s) in
      Ret (match v with ROk _ => ROk s | RErr e => RErr (Validate.kind e, Validate.message e) end)
  end.

Definition setup (a : Args) (s : LoadedScenario) : result launched failure :=
  try! w := of_error (build_world sim s) in
  let w := enable_owned_device_banks sim w in
  let w := if is_some (trace_v2_path a) then enable_trace_v2 sim w else w in
  try! w := of_error (attach_plant s w) in
  let '(w, warnings) := fold_left attach_firmware (sc_machine s) (w, []) in
  ROk (schedule_faults_to sim s w, warnings, s).

(** ** The run and the verdict *)

(** The first step of [main]: the two paths and the mode. *)
Definition usage : string := "usage: microcar <scenario.toml> [--trace-v2 <path>] [--step]".

Definition get_args (args : list string) : result (string * Args) failure :=
  match parse_args no_args args with
  | RErr m => RErr ("usage", m)
  | ROk a => match scenario_path a with Some p => ROk (p, a) | None => RErr ("usage", usage) end
  end.

Definition error_line (f : failure) : string := "microcar: error [" +:+ f.1 +:+ "]: " +:+ f.2.

Definition fail_scenario (out : list string) (f : failure) : effects :=
  {| out := out; err := [error_line f]; wrote := None; code := EXIT_SCENARIO_ERROR |}.

Definition run_world (fuel : nat) (a : Args) (deadline : option Z) (w : W) : option (result W string) :=
  if step_mode a then step_run fuel w deadline
  else match deadline with Some d => run_until sim w d | None => run sim w end.

(** The Trace v2 file, when asked for: what is written, and a warning when it cannot be. *)
Definition write_trace_v2 (a : Args) (w : W) : option (string * string) * list string :=
  match trace_v2_path a with
  | None => (None, [])
  | Some path =>
      match fs_write sim path with
      | ROk _ => (Some (path, trace_v2_jsonl sim w), [])
      | RErr e => (None, ["microcar: warning: failed to write trace v2 to " +:+ path +:+ ": " +:+ e])
      end
  end.

Definition header (s : LoadedScenario) : string := "=== " +:+ sc_name s +:+ " ===" +:+ newline_str.

(** After the run: [w] is the world it left. *)
Definition conclude (a : Args) (s : LoadedScenario) (warnings : list string) (w : W) : effects :=
  let '(file, warned) := write_trace_v2 a w in
  match check_trace sim s (drain_all_traces sim w) with
  | RErr e =>
      {| out := [header s]; err := warnings ++ warned ++ [error_line (scenario_error_kind e, shown e)];
         wrote := file; code := EXIT_RUNTIME_FAIL |}
  | ROk (trace, true) =>
      {| out := header s :: trace ++ ["PASS"]; err := warnings ++ warned; wrote := file; code := EXIT_PASS |}
  | ROk (trace, false) =>
      {| out := header s :: trace; err := warnings ++ warned ++ ["FAIL: trace mismatch"];
         wrote := file; code := EXIT_RUNTIME_FAIL |}
  end.

(** [main]; [None] when the run does not return, within [fuel] steps in step mode. *)
Definition main (fuel : nat) (p : profile) (args : list string) : option (outcome effects) :=
  match get_args args with
  | RErr f => Some (Ret (fail_scenario [] f))
  | ROk (path, a) =>
      match load p path with
      | Panic => Some Panic
      | Ret (RErr f) => Some (Ret (fail_scenario [] f))
      | Ret (ROk s) =>
          match setup a s with
          | RErr f => Some (Ret (fail_scenario [header s] f))
          | ROk (w, warnings, s) =>
              match match sc_duration_ms s with
                    | Some ms => omap_ret Some (arith p U64 (ms * 1000))
                    | None => Ret None
                    end with
              | Panic => Some Panic
              | Ret deadline =>
                  match run_world fuel a deadline w with
                  | None => None
                  | Some (RErr e) =>
                      Some (Ret {| out := [header s];
                                   err := warnings ++ [error_line ("runtime", "simulation error: " +:+ e)];
                                   wrote := None; code := EXIT_RUNTIME_FAIL |})
                  | Some (ROk w) => Some (Ret (conclude a s warnings w))
                  end
              end
          end
      end
  end.

(** ** Facts: stepping *)

(** The loop's condition, and a turn of it. *)
Definition can_step (d : Z) (w : W) : Prop :=
  now sim w < d /\ exists t, next_global_event_time sim w = Some t /\ t <= d.
Definition due (d : Z) (w w' : W) : Prop := can_step d w /\ step sim w = ROk (Advanced, w').

(** How the loop ends in [w]. *)
Definition ended (d : Z) (w : W) (r : result W string) : Prop :=
  (~ can_step d w /\ r = ROk w) \/
  (can_step d w /\ exists w', step sim w = ROk (Done, w') /\ r = ROk w') \/
  (can_step d w /\ exists e, step sim w = RErr e /\ r = RErr e).

Lemma can_step_cases d w :
  (can_step d w /\ forall fuel, step_until (S fuel) d w =
     match step sim w with
     | ROk (Advanced, w) => step_until fuel d w
     | ROk (Done, w) => Some (ROk w)
     | RErr e => Some (RErr e)
     end) \/
  (~ can_step d w /\ forall fuel, step_until (S fuel) d w = Some (ROk w)).
Proof.
  unfold can_step. cbn [step_until].
  destruct (Z.ltb_spec (now sim w) d); [|right; split; [lia|done]].
  destruct (next_global_event_time sim w) as [t|]; [|right; split; [by intros (_ & ? & ? & _)|done]].
  destruct (Z.leb_spec t d); [left; eauto|right]. split; [|done]. intros (_ & ? & [= <-] & ?). lia.
Qed.

Lemma step_until_ends d fuel w r :
  step_until fuel d w = Some r -> exists w1, rtc (due d) w w1 /\ ended d w1 r.
Proof.
  revert w; induction fuel as [|fuel IH]; intros w; [done|].
  destruct (can_step_cases d w) as [[Hc ->]|[Hc ->]].
  - destruct (step sim w) as [[[] w']|e] eqn:E.
    + intros (w1 & Hw & He)%IH. exists w1. split; [|done]. by eapply rtc_l.
    + intros [= <-]. exists w. split; [done|]. right; left. eauto.
    + intros [= <-]. exists w. split; [done|]. right; right. eauto.
  - intros [= <-]. exists w. split; [done|]. by left.
Qed.

Lemma step_until_reaches d w w1 r :
  rtc (due d) w w1 -> ended d w1 r -> exists fuel, step_until fuel d w = Some r.
Proof.
  intros Hw He. induction Hw as [w|w w' w1 [Hc Hs] _ IH].
  - exists 1%nat. destruct (can_step_cases d w) as [[Hc ->]|[Hc ->]];
      destruct He as [[? ->]|[(? & ? & Hs & ->)|(? & ? & Hs & ->)]]; try done; by rewrite Hs.
  - destruct (IH He) as [fuel Hf]. exists (S fuel).
    destruct (can_step_cases d w) as [[_ ->]|[Hn _]]; [by rewrite Hs|done].
Qed.

(** [step_run] with a deadline returns [r], given enough fuel, exactly when stepping from
    the world while its clock is before the deadline and its next event at or before it leads
    to a world in which that no longer holds, or the simulator reports that it is done or an
    error, which is then the result. For a simulator whose steps have a variant it returns,
    with one more unit of fuel than the variant; and when a step moves the clock to the event
    it executes, no event after the deadline is executed. *)
Theorem step_run_terminates d :
  (forall w r, (exists fuel, step_run fuel w (Some d) = Some r) <->
               exists w1, rtc (due d) w w1 /\ ended d w1 r) /\
  (forall measure : W -> nat,
     (forall w w', due d w w' -> (measure w' < measure w)%nat) ->
     forall w, is_Some (step_run (S (measure w)) w (Some d))) /\
  ((forall w w' t, next_global_event_time sim w = Some t -> step sim w = ROk (Advanced, w') -> now sim w' = t) ->
   forall w w1, rtc (due d) w w1 -> now sim w1 <= Z.max (now sim w) d).
Proof.
  split; [|split].
  - intros w r. cbn [step_run]. split; [intros (fuel & H)|intros (w1 & Hw & He)].
    + by eapply step_until_ends.
    + by eapply step_until_reaches.
  - intros measure Hm. cbn [step_run].
    assert (forall fuel w, (measure w < fuel)%nat -> is_Some (step_until fuel d w)) as H; [|intros w; apply H; lia].
    induction fuel as [|fuel IH]; intros w Hlt; [lia|].
    destruct (can_step_cases d w) as [[Hc ->]|[_ ->]]; [|eauto].
    destruct (step sim w) as [[[] w']|e] eqn:E; [|eauto..].
    apply IH. specialize (Hm w w' (conj Hc E)). lia.
  - intros Hnow w w1 Hw. induction Hw as [w|w w' w1 [(_ & t & Ht & Hd) Hs] _ IH]; [lia|].
    rewrite (Hnow _ _ _ Ht Hs) in IH. lia.
Qed.

(** ** Facts: exit codes *)

(** A failure of one of the stages before the run. *)
Definition failed_launch (p : profile) (args : list string) (f : failure) : Prop :=
  get_args args = RErr f \/
  exists path a, get_args args = ROk (path, a) /\
    (load p path = Ret (RErr f) \/ exists s, load p path = Ret (ROk s) /\ setup a s = RErr f).

Definition error_kinds : list string :=
  ["usage"; "io"; "parse"; "invalid"; "sim"; "trace-mismatch"] ++ validation_kinds.

Lemma scenario_error_kind_known e : scenario_error_kind e ∈ error_kinds.
Proof. apply elem_of_app. left. destruct e; apply (bool_decide_unpack _); vm_compute; exact I. Qed.

Lemma of_error_RErr {A : Type} (r : result A ScenarioError) f :
  of_error r = RErr f -> f.1 ∈ error_kinds.
Proof. destruct r as [a|e]; [done|]. intros [= <-]. apply scenario_error_kind_known. Qed.

Lemma failed_launch_kind p args f : failed_launch p args f -> f.1 ∈ error_kinds.
Proof.
  intros [H|(path & a & _ & [H|(s & _ & H)])].
  - apply elem_of_app. left. unfold get_args in H.
    repeat (case_match; simplify_eq/=); by left.
  - unfold load in H. destruct (of_error (from_file sim path)) as [s|f'] eqn:E.
    + apply obind_Ret in H as ([[]|e] & Hv & [= <-]). apply elem_of_app. right.
      by eapply validate_scenario_kind.
    + injection H as <-. by eapply of_error_RErr.
  - unfold setup in H. destruct (of_error (build_world sim s)) as [w|f'] eqn:E; cbn [rbind] in H.
    + destruct (of_error (attach_plant _ _)) as [w'|f'] eqn:E2; cbn [rbind] in H.
      * by destruct (fold_left attach_firmware _ _).
      * injection H as <-. by eapply of_error_RErr.
    + injection H as <-. by eapply of_error_RErr.
Qed.

(** No kind has a closing bracket, so the lane for malformed scenarios reads it back. *)
Lemma kind_no_bracket k : k ∈ error_kinds -> str_all (fun c => negb (Ascii.eqb c "]")) k = true.
Proof.
  assert (forallb (str_all (fun c => negb (Ascii.eqb c "]"))) error_kinds = true) as Hall by by vm_compute.
  apply (proj1 (forallb_elem _ _) Hall).
Qed.

Lemma error_line_readable f : f.1 ∈ error_kinds -> error_of_line (error_line f) = Some f.1.
Proof. intros H. unfold error_line. by apply error_of_printed, kind_no_bracket. Qed.

(** A launch that succeeds. *)
Definition launch (p : profile) (args : list string) (a : Args) (l : launched) : Prop :=
  exists path s, get_args args = ROk (path, a) /\ load p path = Ret (ROk s) /\ setup a s = ROk l.

(** The world after a run that returned. *)
Definition ran (fuel : nat) (p : profile) (a : Args) (l : launched) (r : result W string) : Prop :=
  let '(w, _, s) := l in
  exists deadline, match sc_duration_ms s with
                   | Some ms => omap_ret Some (arith p U64 (ms * 1000))
                   | None => Ret None
                   end = Ret deadline /\ run_world fuel a deadline w = Some r.

(** The three ways [main] returns. *)
Lemma main_returns fuel p args o :
  main fuel p args = Some (Ret o) ->
  (exists f, failed_launch p args f /\ exists printed, o = fail_scenario printed f) \/
  exists a l, launch p args a l /\ exists r, ran fuel p a l r /\
    match r with
    | RErr _ => code o = EXIT_RUNTIME_FAIL
    | ROk w => o = conclude a l.2 l.1.2 w
    end.
Proof.
  unfold main, failed_launch, launch, ran.
  destruct (get_args args) as [[path a]|f] eqn:Ea; [|intros [= <-]; left; eauto 10].
  destruct (load p path) as [[s|f]|] eqn:El; [|intros [= <-]; left; eauto 10|done].
  destruct (setup a s) as [[[w warnings] s']|f] eqn:Es; [|intros [= <-]; left; eauto 12].
  destruct (match sc_duration_ms s' with Some ms => _ | None => _ end) as [deadline|] eqn:Ed; [|done].
  destruct (run_world fuel a deadline w) as [[w'|e]|] eqn:Er; [| |done]; intros [= <-]; right;
    exists a, (w, warnings, s'); (split; [eauto 10|]).
  - exists (ROk w'). split; [eauto|done].
  - exists (RErr e). split; [eauto|done].
Qed.

Lemma verdict_code a s warnings w :
  code (conclude a s warnings w) =
  match check_trace sim s (drain_all_traces sim w) with ROk (_, true) => EXIT_PASS | _ => EXIT_RUNTIME_FAIL end.
Proof.
  unfold conclude. destruct (write_trace_v2 a w).
  by destruct (check_trace sim s (drain_all_traces sim w)) as [[? []]|].
Qed.

Lemma failed_launch_not_launch p args f a l : failed_launch p args f -> launch p args a l -> False.
Proof.
  intros [H|(path & b & Hg & Hl)] (path' & s & Hg' & Hs & Hu); [congruence|].
  rewrite Hg in Hg'. injection Hg' as -> ->. destruct Hl as [Hl|(s' & Hl & Hu')]; congruence.
Qed.

Lemma launch_unique p args a l a' l' : launch p args a l -> launch p args a' l' -> a = a' /\ l = l'.
Proof.
  intros (path & s & Hg & Hs & Hu) (path' & s' & Hg' & Hs' & Hu').
  rewrite Hg in Hg'. injection Hg' as -> ->. rewrite Hs in Hs'. injection Hs' as ->.
  rewrite Hu in Hu'. by injection Hu' as ->.
Qed.

Lemma ran_unique fuel p a l r r' : ran fuel p a l r -> ran fuel p a l r' -> r = r'.
Proof.
  destruct l as [[w ws] s]. intros (d & Hd & Hr) (d' & Hd' & Hr'). rewrite Hd in Hd'.
  injection Hd' as ->. congruence.
Qed.

Lemma failed_launch_unique p args f f' : failed_launch p args f -> failed_launch p args f' -> f = f'.
Proof.
  intros [Hf|(path & b & Hg & Hb)] [Hf'|(path' & b' & Hg' & Hb')]; try congruence.
  rewrite Hg in Hg'. injection Hg' as <- <-.
  destruct Hb as [Hb|(s & Hb & Hu)], Hb' as [Hb'|(s' & Hb' & Hu')]; congruence.
Qed.

(** What [main] leaves behind when a stage before the run fails. *)
Lemma main_refuses fuel p args o f :
  main fuel p args = Some (Ret o) -> failed_launch p args f -> exists printed, o = fail_scenario printed f.
Proof.
  intros H Hf. destruct (main_returns _ _ _ _ H) as [(f' & Hf' & printed & ->)|(a & l & Hl & _)].
  - rewrite (failed_launch_unique _ _ _ _ Hf Hf'). eauto.
  - by destruct (failed_launch_not_launch _ _ _ _ _ Hf Hl).
Qed.

(** A launch, a run that returned, and a trace that matches. *)
Definition passes (fuel : nat) (p : profile) (args : list string) (a : Args) (l : launched) (w : W)
  (trace : list string) : Prop :=
  launch p args a l /\ ran fuel p a l (ROk w) /\
  check_trace sim l.2 (drain_all_traces sim w) = ROk (trace, true).

(** [main] exits with 0 exactly then, and what it then leaves behind. *)
Lemma main_passes fuel p args o :
  main fuel p args = Some (Ret o) ->
  (code o = EXIT_PASS <-> exists a l w trace, passes fuel p args a l w trace) /\
  (forall a l w trace, passes fuel p args a l w trace -> o = conclude a l.2 l.1.2 w).
Proof.
  intros H. destruct (main_returns _ _ _ _ H) as [(f & Hf & printed & ->)|(a & l & Hl & r & Hr & Hc)].
  - split.
    + split; [done|]. intros (a & l & w & tr & Hl & _). by destruct (failed_launch_not_launch _ _ _ _ _ Hf Hl).
    + intros a l w tr (Hl & _). by destruct (failed_launch_not_launch _ _ _ _ _ Hf Hl).
  - assert (forall a' l' w tr, passes fuel p args a' l' w tr -> a' = a /\ l' = l /\ r = ROk w) as Hu.
    { intros a' l' w tr (Hl' & Hr' & _). destruct (launch_unique _ _ _ _ _ _ Hl Hl') as [<- <-].
      by rewrite (ran_unique _ _ _ _ _ _ Hr Hr'). }
    split.
    + split.
      * destruct r as [w|e]; [|by rewrite Hc]. rewrite Hc, verdict_code.
        destruct (check_trace sim l.2 (drain_all_traces sim w)) as [[tr []]|e] eqn:E; try done.
        intros _. by exists a, l, w, tr.
      * intros (a' & l' & w & tr & Hp). destruct (Hu _ _ _ _ Hp) as (-> & -> & ->).
        destruct Hp as (_ & _ & Ht). by rewrite Hc, verdict_code, Ht.
    + intros a' l' w tr Hp. by destruct (Hu _ _ _ _ Hp) as (-> & -> & ->).
Qed.

(** C36: When [main] returns, it exits with 2 exactly when a stage before the run fails, that is
    on a usage error, a scenario that cannot be loaded, one that validation refuses, and a
    world or plant that cannot be built; it has then printed one error line, whose kind is one
    of a fixed list and is what the malformed-scenario lane reads back, and written nothing.
    It exits with 0 exactly when the launch and the run succeed and the trace check reports a
    match, and with 1 otherwise. *)
Theorem main_exit_codes fuel p args o :
  main fuel p args = Some (Ret o) ->
  (code o = EXIT_SCENARIO_ERROR <-> exists f, failed_launch p args f) /\
  (forall f, failed_launch p args f ->
     err o = [error_line f] /\ wrote o = None /\ f.1 ∈ error_kinds /\
     error_of_line (error_line f) = Some f.1) /\
  (code o = EXIT_PASS <-> exists a l w trace, passes fuel p args a l w trace) /\
  (code o = EXIT_PASS \/ code o = EXIT_RUNTIME_FAIL \/ code o = EXIT_SCENARIO_ERROR).
Proof.
  intros H. destruct (main_passes _ _ _ _ H) as [Hp _].
  assert (code o = EXIT_SCENARIO_ERROR \/ code o <> EXIT_SCENARIO_ERROR /\ (code o = EXIT_PASS \/ code o = EXIT_RUNTIME_FAIL)
          /\ forall f, ~ failed_launch p args f) as Hc.
  { destruct (main_returns _ _ _ _ H) as [(f & Hf & printed & ->)|(a & l & Hl & r & Hr & Hc)]; [by left|right].
    split_and!; [..|intros f Hf; by eapply failed_launch_not_launch];
      destruct r as [w|e]; rewrite ?Hc, ?verdict_code; auto;
      destruct (check_trace sim l.2 (drain_all_traces sim w)) as [[tr []]|e]; auto; done. }
  split; [|split; [|split; [done|]]].
  - split; [|intros (f & Hf); by destruct (main_refuses _ _ _ _ _ H Hf) as [printed ->]].
    intros E. destruct (main_returns _ _ _ _ H) as [(f & Hf & _)|(a & l & Hl & r & Hr & Hc')]; [eauto|].
    destruct Hc as [_|[? _]]; [|done]. exfalso.
    destruct r as [w|e]; [|by rewrite Hc' in E]. rewrite Hc', verdict_code in E.
    by destruct (check_trace sim l.2 (drain_all_traces sim w)) as [[tr []]|e].
  - intros f Hf. pose proof (failed_launch_kind _ _ _ Hf) as Hk.
    destruct (main_refuses _ _ _ _ _ H Hf) as [printed ->]. split_and!; [done..|by apply error_line_readable].
  - destruct Hc as [?|(_ & [?|?] & _)]; auto.
Qed.

(** The binary does panic on a scenario that passes validation: a duration whose microseconds
    leave 64 bits ends an overflow-checked build before the run. It is the only panic. *)
Lemma main_panic fuel p args :
  (forall path s, from_file sim path = ROk s -> bytes_wf (checked s)) ->
  (main fuel p args = Some Panic <->
   exists a l ms, launch p args a l /\ sc_duration_ms l.2 = Some ms /\ arith p U64 (ms * 1000) = Panic).
Proof.
  intros Hb. unfold main, launch. split.
  - destruct (get_args args) as [[path a]|f] eqn:Ea; [|done].
    destruct (load p path) as [[s|f]|] eqn:El; [|done|].
    + destruct (setup a s) as [[[w warnings] s']|f] eqn:Es; [|done]. intros H.
      destruct (sc_duration_ms s') as [ms|] eqn:Em.
      * destruct (arith p U64 (ms * 1000)) eqn:E; cbn [omap_ret obind] in H.
        -- by destruct (run_world _ _ _ _) as [[]|].
        -- exists a, (w, warnings, s'), ms. eauto 10.
      * by destruct (run_world _ _ _ _) as [[]|].
    + unfold load in El. destruct (from_file sim path) as [s|e] eqn:Ef; [|done]. cbn [of_error] in El.
      pose proof (validate_scenario_total p _ (Hb _ _ Ef)). by destruct (validate_scenario p (checked s)).
  - intros (a & [[w warnings] s'] & ms & (path & s & -> & -> & ->) & Hm & Hp). cbn [snd] in Hm.
    by rewrite Hm, Hp.
Qed.
End Main.

(** A world of pending event times that only tells the time. *)
Definition queue_sim : simulator (Z * list Z) :=
  {| from_file := fun _ => RErr (Io "no file"); build_world := fun _ => RErr (Invalid "");
     enable_owned_device_banks := fun w => w; enable_trace_v2 := fun w => w;
     attach_plant_to := fun _ w _ => ROk w; has_machine := fun _ _ => false;
     load_firmware_from_factory := fun w _ _ => w; schedule_faults_to := fun _ w => w;
     now := fst; next_global_event_time := fun w => head w.2;
     step := fun w => match w.2 with t :: q => ROk (Advanced, (t, q)) | [] => ROk (Done, w) end;
     run_until := fun w _ => Some (ROk w); run := fun w => Some (ROk w);
     trace_v2_jsonl := fun _ => ""; fs_write := fun _ => ROk tt; drain_all_traces := fun _ => [];
     check_trace := fun _ trace => ROk (trace, true) |}.

Lemma step_run_terminates_witness :
  (exists r, step_run queue_sim 4 (0, [5; 10; 20]) (Some 10) = Some r) /\
  step_run queue_sim 4 (0, [5; 10; 20]) (Some 10) = Some (ROk (10, [20])) /\
  forall w1, rtc (due queue_sim 10) (0, [5; 10; 20]) w1 -> now queue_sim w1 <= 10.
Proof.
  destruct (step_run_terminates queue_sim 10) as (_ & Ht & Hn). split; [|split].
  - apply (Ht (fun w => length w.2)).
    intros [n q] w' [_ Hs]. destruct q; cbn in Hs; [done|]. injection Hs as <-. simpl. lia.
  - reflexivity.
  - intros w1 Hw. apply Hn in Hw; [done|].
    intros [n q] w' t Hq Hs. destruct q; cbn in Hq, Hs; [done|]. injection Hs as <-. simpl. congruence.
Defined.

(** A simulator whose one scenario has a BMS but no gateway. *)
Definition bms_only : LoadedScenario :=
  {| sc_name := "bms"; sc_duration_ms := Some 100; sc_plant := None;
     sc_machine := [{| lm_id := 3; lm_def := {| m_name := "bms"; m_firmware := Some "bms_ecu" |};
                       lm_zephyr := false |}];
     sc_bus := []; sc_input := []; sc_bus_inject := [] |}.
Definition bms_sim : simulator (Z * list Z) :=
  {| from_file := fun _ => ROk bms_only; build_world := fun _ => ROk (0, []);
     enable_owned_device_banks := fun w => w; enable_trace_v2 := fun w => w;
     attach_plant_to := fun _ w _ => ROk w; has_machine := fun _ _ => true;
     load_firmware_from_factory := fun w _ _ => w; schedule_faults_to := fun _ w => w;
     now := fst; next_global_event_time := fun w => head w.2;
     step := fun w => ROk (Done, w); run_until := fun w _ => Some (ROk w); run := fun w => Some (ROk w);
     trace_v2_jsonl := fun _ => ""; fs_write := fun _ => ROk tt; drain_all_traces := fun _ => [];
     check_trace := fun _ trace => ROk (trace, true) |}.

Lemma main_exit_codes_witness :
  let args := ["bms.toml"; "--trace-v2"; "out.jsonl"] in
  let f := ("missing-gateway", "scenario has a bms ('bms') ECU but no gateway ECU (the gateway is the vehicle-mode authority and bus bridge)") in
  exists o, main bms_sim 0 Debug args = Some (Ret o) /\ err o = [error_line f] /\
            error_of_line (error_line f) = Some "missing-gateway".
Proof.
  intros args f. eexists. split; [vm_compute; reflexivity|].
  destruct (main_exit_codes bms_sim 0 Debug args (fail_scenario [] f)) as (_ & H & _); [by vm_compute|].
  destruct (H f) as (He & _ & _ & Hk).
  - right. exists "bms.toml", {| scenario_path := Some "bms.toml"; trace_v2_path := Some "out.jsonl"; step_mode := false |}.
    split; [by vm_compute|]. left. by vm_compute.
  - split; [|exact Hk]. etransitivity; [|exact He]. by vm_compute.
Defined.
