(* ===== verification/FrontEnd.v ===== *)
(** * The front end under the harness ([src/main.rs] with [dogfood/src/runner.rs])

    The harness runs the front end as a child process and sees of it only an exit code and the
    lines of its two streams. What it concludes from them is what the front end did. *)

From S2P Require Import Prelude MachineInt RustStr Runner Lane TomlZooLane Main.

(** The lines a reader of a stream gets of what was printed on it. *)
Definition printed (pieces : list string) : list string :=
  concat (map (fun piece => lines (piece +:+ newline_str)) pieces).

(** The child that exits as [o] says, after [n] polls that found it running in time. *)
Definition process (o : effects) (n : nat) (elapsed : Z) : child :=
  {| polls := repeat (Running false) n ++ [Exited (Some (code o))];
     stdout := map ROk (printed (out o)); stderr := map ROk (printed (err o)); elapsed := elapsed |}.

(** ** Facts *)

(** Text without a line feed or carriage return. *)
Definition one_line (s : string) : Prop :=
  str_all (fun c => negb (Ascii.eqb newline c) && negb (Ascii.eqb (chr 13) c)) s = true.

Lemma one_line_no_cr s : one_line s -> strip_suffix (String (chr 13) "") s = None.
Proof.
  intros H. unfold strip_suffix. destruct (strip_prefix _ _) as [r|] eqn:E; [|done]. exfalso.
  apply strip_prefix_Some in E. apply (f_equal str_rev) in E.
  rewrite str_rev_involutive, str_rev_concat in E. unfold one_line in H. rewrite E, str_all_app in H.
  apply andb_true_iff in H as [_ H]. by vm_compute in H.
Qed.

Lemma split_char_line s t :
  one_line s -> split_char newline (s +:+ String newline t) = s :: split_char newline t.
Proof.
  unfold one_line. induction s as [|c s IH]; cbn [str_all]; intros H.
  - rewrite str_nil_app. cbn [split_char]. by rewrite Ascii.eqb_refl.
  - apply andb_true_iff in H as [[Hc _]%andb_true_iff Hs]. apply negb_true_iff in Hc.
    rewrite str_cons_app. cbn [split_char]. by rewrite Hc, IH.
Qed.

Lemma lines_of_cons l p ps : lines_of (l :: p :: ps) = default l (strip_suffix (String (chr 13) "") l) :: lines_of (p :: ps).
Proof. by destruct l. Qed.

(** One [println!] of one line. *)
Lemma lines_println s : one_line s -> lines (s +:+ newline_str) = [s].
Proof.
  intros H. unfold lines, newline_str. rewrite split_char_line by done. cbn [split_char].
  rewrite lines_of_cons, one_line_no_cr by done. done.
Qed.

(** One [println!] of a line and a line feed. *)
Lemma lines_println_blank s : one_line s -> lines ((s +:+ newline_str) +:+ newline_str) = [s; ""].
Proof.
  intros H. unfold lines, newline_str. rewrite str_app_assoc.
  change (String newline "" +:+ String newline "") with (String newline (String newline "")).
  rewrite split_char_line by done. cbn [split_char]. rewrite Ascii.eqb_refl.
  rewrite !lines_of_cons, one_line_no_cr by done. done.
Qed.

Lemma printed_lines ls : Forall one_line ls -> printed ls = ls.
Proof. induction 1 as [|l ls Hl _ IH]; [done|]. unfold printed in *. cbn [map concat]. by rewrite lines_println, IH. Qed.

Lemma printed_app l1 l2 : printed (l1 ++ l2) = printed l1 ++ printed l2.
Proof. unfold printed. by rewrite map_app, concat_app. Qed.

Lemma read_all_ROk l : read_all_lines (map ROk l) = l.
Proof. induction l as [|a l IH]; [done|]. cbn [map read_all_lines]. by rewrite IH. Qed.

Lemma wait_for_process n c : wait_for (repeat (Running false) n ++ [Exited c]) = Some (Status c).
Proof. induction n as [|n IH]; [done|]. exact IH. Qed.

(** What the runner records of a process. *)
Lemma run_process bin name o n elapsed :
  exists r, run_scenario_args bin name (ROk (process o n elapsed)) = Some r /\
    Runner.status r = classify (Status (Some (code o))) (printed (err o)) /\
    exit_code r = Some (code o) /\
    Runner.trace r = List.filter is_trace_event (printed (out o)) /\
    stderr_tail r = tail (printed (err o)) TAIL_LINES.
Proof.
  unfold run_scenario_args, process. cbn [polls stdout stderr]. rewrite wait_for_process, !read_all_ROk.
  eexists. split; [reflexivity|]. done.
Qed.

(** The header the front end prints is not taken for an event. *)
Lemma header_not_event name : is_trace_event ("=== " +:+ name +:+ " ===") = false.
Proof.
  unfold is_trace_event.
  assert (trim ("=== " +:+ name +:+ " ===") = "=== " +:+ name +:+ " ===") as ->.
  { change (" ===") with (" " +:+ "==="). rewrite <- !str_app_assoc. by apply trim_words. }
  rewrite starts_with_app. unfold ends_with. rewrite <- str_app_assoc, strip_suffix_app. done.
Qed.

Lemma one_line_app s t : one_line (s +:+ t) <-> one_line s /\ one_line t.
Proof. unfold one_line. by rewrite str_all_app, andb_true_iff. Qed.

(** An event as the simulator reports it: one line that is no header, verdict or blank. *)
Definition event_line (l : string) : Prop := one_line l /\ is_trace_event l = true.

Lemma events_read_back s trace :
  one_line (sc_name s) -> Forall event_line trace ->
  List.filter is_trace_event (printed (header s :: trace ++ ["PASS"])) = trace.
Proof.
  intros Hn Ht.
  assert (printed (header s :: trace ++ ["PASS"]) = ["=== " +:+ sc_name s +:+ " ==="; ""] ++ trace ++ ["PASS"]) as ->.
  { change (header s :: trace ++ ["PASS"]) with ([header s] ++ trace ++ ["PASS"]).
    rewrite !printed_app, (printed_lines trace) by (eapply Forall_impl; [exact Ht|by intros ? []]).
    f_equal. unfold printed, header. cbn [map concat]. rewrite app_nil_r, <- !str_app_assoc.
    rewrite lines_println_blank; [by rewrite !str_app_assoc|]. by rewrite !one_line_app. }
  rewrite !List.filter_app. cbn [List.filter]. rewrite header_not_event.
  assert (List.filter is_trace_event trace = trace) as ->.
  { clear Hn. induction Ht as [|l trace [_ Hl] _ IH]; [done|]. cbn [List.filter]. by rewrite Hl, IH. }
  apply app_nil_r.
Qed.

(** The first line of a text that starts with [h], a line feed or its end being further on. *)
Lemma split_char_prefix h t :
  one_line h -> exists w ws, split_char newline (h +:+ t) = (h +:+ w) :: ws.
Proof.
  unfold one_line. induction h as [|c h IH]; cbn [str_all]; intros H.
  - rewrite str_nil_app. destruct (split_char newline t) as [|w ws] eqn:E; [|by exists w, ws].
    exfalso. destruct t as [|d t]; cbn [split_char] in E; [done|]. destruct (Ascii.eqb _ _); [done|].
    by destruct (split_char newline t).
  - apply andb_true_iff in H as [[Hc _]%andb_true_iff Hs]. apply negb_true_iff in Hc.
    destruct (IH Hs) as (w & ws & E). exists w, ws. rewrite !str_cons_app. cbn [split_char]. by rewrite Hc, E.
Qed.

(** A carriage return at the end of the line is behind the text it starts with. *)
Lemma strip_cr_prefix h w r :
  one_line h -> strip_suffix (String (chr 13) "") (h +:+ w) = Some r -> exists w', r = h +:+ w'.
Proof.
  intros Hh E. destruct w as [|d w].
  { assert (h +:+ "" = h) as Eh by (clear; induction h as [|c h IH]; [done|rewrite str_cons_app; by rewrite IH]).
    by rewrite Eh, one_line_no_cr in E. }
  destruct (str_last (String d w)) as (a & c & Ea); [done|]. rewrite Ea, <- str_app_assoc in E.
  unfold strip_suffix in E. rewrite str_rev_concat in E. cbn [str_rev] in E.
  destruct (strip_prefix _ _) as [x|] eqn:Ex; [|done]. injection E as <-.
  change (str_rev (String c "")) with (String c "") in Ex. rewrite str_cons_app, str_nil_app in Ex.
  apply strip_prefix_Some in Ex. change (str_rev (String (chr 13) "")) with (String (chr 13) "") in Ex.
  rewrite str_cons_app, str_nil_app in Ex. injection Ex as _ <-. exists a. apply str_rev_involutive.
Qed.

(** What an error message of any number of lines is printed as: its kind is in the first. *)
Lemma printed_error f :
  f.1 ∈ error_kinds ->
  exists first rest, printed [error_line f] = first :: rest /\ error_of_line first = Some f.1.
Proof.
  intros Hk. set (h := "microcar: error [" +:+ f.1 +:+ "]").
  assert (one_line h) as Hh.
  { subst h. rewrite !one_line_app. split_and!; [done| |done].
    assert (forallb (str_all (fun c => negb (Ascii.eqb newline c) && negb (Ascii.eqb (chr 13) c))) error_kinds = true)
      as Hall by by vm_compute.
    exact (proj1 (forallb_elem _ _) Hall _ Hk). }
  assert (error_line f +:+ newline_str = h +:+ (": " +:+ f.2 +:+ newline_str)) as E
    by (subst h; unfold error_line; change "]: " with ("]" +:+ ": "); by rewrite !str_app_assoc).
  assert (forall w, error_of_line (h +:+ w) = Some f.1) as Hread.
  { intros w. subst h. rewrite !str_app_assoc. apply error_of_printed. by apply kind_no_bracket. }
  unfold printed. cbn [map concat]. rewrite app_nil_r, E. unfold lines.
  destruct (split_char_prefix h (": " +:+ f.2 +:+ newline_str) Hh) as (w & [|p ps] & ->).
  - exists (h +:+ w), []. split; [by subst h|apply Hread].
  - rewrite lines_of_cons. destruct (strip_suffix _ _) as [r|] eqn:Er; cbn [default].
    + destruct (strip_cr_prefix h w r Hh Er) as [w' ->]. eexists _, _. split; [reflexivity|apply Hread].
    + eexists _, _. split; [reflexivity|apply Hread].
Qed.

Lemma process_refused {W : Type} (sim : simulator W) f out n elapsed bin name case :
  (length (printed [error_line f]) <= TAIL_LINES)%nat -> f.1 ∈ error_kinds ->
  forall r, run_scenario_args bin name (ROk (process (fail_scenario out f) n elapsed)) = Some r ->
  c_passed (evaluate_case case r) = true <->
  tz_expected_kind case = f.1 /\ forall line, line ∈ printed [error_line f] -> contains "panicked" line = false.
Proof.
  intros Hl Hk r Hr. destruct (run_process bin name (fail_scenario out f) n elapsed) as (r' & Hr' & Hs & Hc & _ & Ht).
  rewrite Hr in Hr'. injection Hr' as <-. cbn [fail_scenario err code] in *.
  unfold evaluate_case, parse_error_kind. cbn [c_passed].
  assert (tail (printed [error_line f]) TAIL_LINES = printed [error_line f]) as Hall
    by (unfold tail; by replace (_ - _)%nat with 0%nat by lia).
  rewrite Ht, Hall. destruct (printed_error f Hk) as (first & rest & Ep & Eread).
  rewrite Ep in *. cbn [omap list_omap]. rewrite Eread. cbn [head].
  rewrite !andb_true_iff, negb_true_iff, bool_decide_eq_false, !bool_decide_eq_true.
  rewrite Hs, Hc. destruct (classify_spec (Status (Some EXIT_SCENARIO_ERROR)) (first :: rest)) as (_ & _ & ->).
  split.
  - intros ((Hp & _) & [= ->]). split; [done|]. intros line Hin. apply not_true_iff_false. intros Hin'. apply Hp.
    split_and!; [done..|]. by exists line.
  - intros (-> & Hp). split; [split; [|done]|done]. intros (_ & _ & line & Hin & Hc'). by rewrite Hp in Hc'.
Qed.

(** C37: What the harness concludes from a run of the front end is what the front end did. The
    recorded status is [Pass] exactly when the scenario was launched, the run succeeded and the
    trace matched. The recorded trace is then the events the simulator reported, provided that
    the name of the scenario, which the header shows, is one line and that each event is one
    line that does not look like a header, a verdict or a blank. When a stage before the run
    failed with a message that prints as at most twenty lines, as many as the runner keeps, the
    malformed-scenario case passes exactly when it expects the kind of that failure and no line
    of the message speaks of a panic. *)
Theorem harness_reads_front_end {W : Type} (sim : simulator W) fuel p args o bin name n elapsed r :
  main sim fuel p args = Some (Ret o) ->
  run_scenario_args bin name (ROk (process o n elapsed)) = Some r ->
  (Runner.status r = RunStatus.Pass <-> exists a l w trace, passes sim fuel p args a l w trace) /\
  (forall a l w trace, passes sim fuel p args a l w trace ->
     one_line (sc_name l.2) -> Forall event_line trace -> Runner.trace r = trace) /\
  (forall f case, failed_launch sim p args f -> (length (printed [error_line f]) <= TAIL_LINES)%nat ->
     c_passed (evaluate_case case r) = true <->
     tz_expected_kind case = f.1 /\
     forall line, line ∈ printed [error_line f] -> contains "panicked" line = false).
Proof.
  intros Hm Hr. destruct (main_passes _ _ _ _ _ Hm) as [Hp Hcon].
  destruct (run_process bin name o n elapsed) as (r' & Hr' & Hs & Hc & Htr & _).
  rewrite Hr in Hr'. injection Hr' as <-. split; [|split].
  - rewrite Hs, (proj1 (classify_spec _ _)), <- Hp. unfold EXIT_PASS. split; [by intros [= ->]|by intros ->].
  - intros a l w trace Hpass Hn Ht. rewrite Htr, (Hcon _ _ _ _ Hpass). destruct Hpass as (_ & _ & Hcheck).
    unfold conclude. destruct (write_trace_v2 sim a w). rewrite Hcheck. cbn [out]. by apply events_read_back.
  - intros f case Hf Hl. destruct (main_refuses _ _ _ _ _ _ Hm Hf) as [pr ->].
    apply (process_refused sim f pr n elapsed bin name case); [done| |done]. by eapply failed_launch_kind.
Qed.

(** A scenario that does not parse, with a message of three lines. *)
Definition unparsable : string :=
  "TOML parse error at line 1, column 5" +:+ newline_str +:+ "1 | name" +:+ newline_str +:+ "expected `=`".

Definition toml_sim : simulator (Z * list Z) :=
  {| from_file := fun _ => RErr (Parse unparsable); build_world := build_world bms_sim;
     enable_owned_device_banks := fun w => w; enable_trace_v2 := fun w => w;
     attach_plant_to := attach_plant_to bms_sim; has_machine := has_machine bms_sim;
     load_firmware_from_factory := fun w _ _ => w; schedule_faults_to := fun _ w => w;
     now := fst; next_global_event_time := fun w => head w.2;
     step := Main.step bms_sim; run_until := run_until bms_sim; run := Main.run bms_sim;
     trace_v2_jsonl := fun _ => ""; fs_write := fun _ => ROk tt; drain_all_traces := fun _ => [];
     check_trace := fun _ trace => ROk (trace, true) |}.

Lemma harness_reads_front_end_witness :
  let f := ("parse", unparsable) in
  let case := {| tz_name := "bad"; TomlZooLane.path := "bad.toml"; tz_expected_kind := "parse" |} in
  exists r, run_scenario_args "microcar" "bad" (ROk (process (fail_scenario [] f) 3 2000000)) = Some r /\
            length (printed [error_line f]) = 3%nat /\ c_passed (evaluate_case case r) = true.
Proof.
  intros f case. eexists. split; [reflexivity|]. split; [by vm_compute|].
  refine (proj2 (proj2 (proj2 (harness_reads_front_end toml_sim 0 Debug ["bad.toml"] (fail_scenario [] f)
            "microcar" "bad" 3 2000000 _ _ eq_refl)) f case _ _) _).
  - by vm_compute.
  - right. exists "bad.toml", {| scenario_path := Some "bad.toml"; trace_v2_path := None; step_mode := false |}.
    split; [by vm_compute|]. left. by vm_compute.
  - vm_compute. lia.
  - split; [done|]. intros line Hin.
    assert (forallb (fun line => negb (contains "panicked" line)) (printed [error_line f]) = true) as Hall
      by by vm_compute.
    apply negb_true_iff. exact (proj1 (forallb_elem _ _) Hall line Hin).
Defined.
