(* ===== verification/Build.v ===== *)
(** * The build script ([build.rs])

    Which paths cargo watches and what it is told to compile, with or without the [zephyr]
    feature.  The [cc] crate is not part of the repository: the script is modelled up to the
    configuration it hands over and the name it compiles to. *)

From S2P Require Import Prelude RustStr Ecu.

(** [Path::join]: an absolute path replaces what is before it. *)
Definition join (a b : string) : string :=
  if starts_with "/" b then b
  else if String.eqb a "" then b
  else match strip_suffix "/" a with Some _ => a +:+ b | None => a +:+ "/" +:+ b end.

(** What the script tells [cc::Build]. *)
Record build_t := {
  file : list string;
  include : list string;
  define : list (string * option string);
  flag_if_supported : list string
}.

Definition new : build_t := {| file := []; include := []; define := []; flag_if_supported := [] |}.
Definition add_files (l : list string) (b : build_t) : build_t :=
  {| file := file b ++ l; include := include b; define := define b; flag_if_supported := flag_if_supported b |}.
Definition add_includes (l : list string) (b : build_t) : build_t :=
  {| file := file b; include := include b ++ l; define := define b; flag_if_supported := flag_if_supported b |}.
Definition add_defines (l : list (string * option string)) (b : build_t) : build_t :=
  {| file := file b; include := include b; define := define b ++ l; flag_if_supported := flag_if_supported b |}.
Definition add_flags (l : list string) (b : build_t) : build_t :=
  {| file := file b; include := include b; define := define b; flag_if_supported := flag_if_supported b ++ l |}.

(** The paths relative to the crate's root. *)
Definition costar_root (manifest_dir : string) : string := join manifest_dir "../costar".
Definition freertos_port (manifest_dir : string) : string := join (costar_root manifest_dir) "crates/sim-freertos-port".
Definition sim_ffi_include (manifest_dir : string) : string := join (costar_root manifest_dir) "crates/sim-ffi/include".
Definition zephyr_port (manifest_dir : string) : string := join (costar_root manifest_dir) "crates/sim-zephyr-port".

(** ** What is watched *)

Definition watched_sources : list string :=
  ["common/include/";
   "common/src/";
   "firmware/bms_ecu/src/";
   "firmware/dashboard_ecu/src/";
   "firmware/dashboard_ecu_zephyr/src/";
   "firmware/diagnostics_tool_ecu/src/";
   "firmware/gateway_ecu/src/";
   "firmware/powertrain_ecu/src/";
   "firmware/priority_inversion_demo/src/";
   "firmware/lifecycle_stress_ecu/src/";
   "firmware/net_demo_ecu/src/";
   "firmware/storage_demo_ecu/src/";
   "firmware/bt_demo_ecu/src/";
   "firmware/test_fiber_ecu/src/";
   "firmware/microcar_coordinator.c";
   "firmware/microcar_zephyr_boot.c";
   "firmware/zephyr_mock/"].

Definition watched_ports (manifest_dir : string) : list string :=
  [join (freertos_port manifest_dir) "c/FreeRTOSConfig.h";
   join (freertos_port manifest_dir) "c/portmacro.h";
   join (sim_ffi_include manifest_dir) "sim_abi.h";
   join (zephyr_port manifest_dir) "c/sim_zephyr_abi.h";
   join (zephyr_port manifest_dir) "c/zephyr_arch.c";
   join (zephyr_port manifest_dir) "c/zephyr_glue.c"].

Definition watched (manifest_dir : string) : list string := watched_sources ++ watched_ports manifest_dir.

(** ** What is compiled *)

Definition sources : list string :=
  ["common/src/microcar_protocol.c";
   "common/src/microcar_ota_slot.c";
   "common/src/microcar_charging.c";
   "common/src/microcar_dashboard.c";
   "common/src/microcar_telematics.c";
   "firmware/bms_ecu/src/main.c";
   "firmware/bms_ecu/src/bms_state.c";
   "firmware/bms_ecu/src/bms_limits.c";
   "firmware/dashboard_ecu/src/main.c";
   "firmware/dashboard_ecu/src/dashboard_state.c";
   "firmware/dashboard_ecu/src/warning_display.c";
   "firmware/gateway_ecu/src/main.c";
   "firmware/gateway_ecu/src/gateway_state.c";
   "firmware/gateway_ecu/src/heartbeat_monitor.c";
   "firmware/gateway_ecu/src/fault_manager.c";
   "firmware/diagnostics_tool_ecu/src/main.c";
   "firmware/ota_tool_ecu/src/main.c";
   "firmware/telematics_ecu/src/main.c";
   "firmware/powertrain_ecu/src/main.c";
   "firmware/powertrain_ecu/src/torque_controller.c";
   "firmware/powertrain_ecu/src/safety_rules.c";
   "firmware/powertrain_ecu/src/watchdog_task.c";
   "firmware/priority_inversion_demo/src/main.c";
   "firmware/lifecycle_stress_ecu/src/main.c";
   "firmware/net_demo_ecu/src/main.c";
   "firmware/storage_demo_ecu/src/main.c";
   "firmware/bt_demo_ecu/src/main.c";
   "firmware/microcar_coordinator.c"].

(** The relative sources of the block under [#[cfg(feature = `zephyr`)]], and the block. *)
Definition zephyr_sources : list string :=
  ["firmware/zephyr_mock/kernel_impl.c";
   "firmware/dashboard_ecu_zephyr/src/main.c";
   "firmware/dashboard_ecu_zephyr/src/dashboard_state.c";
   "firmware/dashboard_ecu_zephyr/src/warning_display.c";
   "firmware/microcar_zephyr_boot.c"].

Definition zephyr_block (manifest_dir : string) (b : build_t) : build_t :=
  let b := add_files zephyr_sources b in
  let b := add_files [join (zephyr_port manifest_dir) "c/zephyr_arch.c"; join (zephyr_port manifest_dir) "c/zephyr_glue.c"] b in
  let b := add_includes ["firmware/zephyr_mock"; join (zephyr_port manifest_dir) "config"; join (zephyr_port manifest_dir) "c";
                         sim_ffi_include manifest_dir] b in
  add_defines [("SIMULATION_HOST_MODE", Some "1")] b.

Definition includes (manifest_dir : string) : list string :=
  [join (freertos_port manifest_dir) "FreeRTOS-Kernel/include";
   join (freertos_port manifest_dir) "c";
   sim_ffi_include manifest_dir;
   "common/include";
   "firmware/bms_ecu/src";
   "firmware/dashboard_ecu/src";
   "firmware/dashboard_ecu_zephyr/src";
   "firmware/diagnostics_tool_ecu/src";
   "firmware/gateway_ecu/src";
   "firmware/powertrain_ecu/src";
   "firmware/priority_inversion_demo/src";
   "firmware/lifecycle_stress_ecu/src";
   "firmware/net_demo_ecu/src";
   "firmware/storage_demo_ecu/src";
   "firmware/bt_demo_ecu/src"].

Definition warning_flags : list string :=
  ["-Wall";
   "-Wextra";
   "-Wno-unused-parameter";
   "-Wno-sign-compare";
   "-Wno-missing-field-initializers"].

(** The lines printed, the configuration and the name of the archive; [unix]: the script
    was compiled for Linux or macOS. *)
Record built := { printed : list string; config : build_t; archive : string }.

Definition main (manifest_dir : option string) (zephyr unix : bool) : outcome built :=
  match manifest_dir with
  | None => Panic
  | Some manifest_dir =>
      let b := add_files sources new in
      let b := if zephyr then zephyr_block manifest_dir b else b in
      let b := add_includes (includes manifest_dir) b in
      let b := add_defines [("SIMULATION_HOST_MODE", Some "1"); ("FREERTOS_PORT_SIM", Some "1")] b in
      let b := if unix then add_flags warning_flags b else b in
      Ret {| printed := map (fun p => "cargo:rerun-if-changed=" +:+ p) (watched manifest_dir);
             config := b; archive := "embedded_microcar_payload" |}
  end.

(** ** What a change triggers *)

(** A path is watched itself or lies under a watched directory. *)
Definition covered (w : list string) (path : string) : bool := existsb (fun p => starts_with p path) w.

Lemma covered_app w w' path : covered (w ++ w') path = covered w path || covered w' path.
Proof. apply existsb_app. Qed.

Lemma covered_self w path : path ∈ w -> covered w path = true.
Proof.
  intros H. apply existsb_exists. exists path. split; [by apply list_elem_of_In|].
  apply starts_with_spec. exists "". by rewrite str_app_nil.
Qed.

(** A changed source runs the script again, except the two programs whose directories the
    script does not watch; the Zephyr program is compiled under its feature only. *)
Lemma sources_watched manifest_dir zephyr unix b :
  main (Some manifest_dir) zephyr unix = Ret b ->
  (forall f, f ∈ file (config b) ->
     f ∈ ["firmware/ota_tool_ecu/src/main.c"; "firmware/telematics_ecu/src/main.c"] \/
     covered (watched manifest_dir) f = true) /\
  List.filter (fun f => negb (covered watched_sources f)) sources =
    ["firmware/ota_tool_ecu/src/main.c"; "firmware/telematics_ecu/src/main.c"] /\
  (zephyr = true <-> "firmware/microcar_zephyr_boot.c" ∈ file (config b)).
Proof.
  intros Hb. assert (file (config b) = sources ++ (if zephyr then zephyr_sources ++ drop 4 (watched_ports manifest_dir) else [])) as ->
    by (injection Hb as <-; by destruct unix, zephyr).
  assert (forall f, f ∈ sources ++ zephyr_sources -> f ∈ ["firmware/ota_tool_ecu/src/main.c"; "firmware/telematics_ecu/src/main.c"] \/
            covered watched_sources f = true) as H.
  { apply (proj1 (Forall_forall _ _)), (bool_decide_unpack _). vm_compute. exact I. }
  unfold watched. split; [|split; [reflexivity|]].
  - intros f Hf. rewrite covered_app.
    assert (f ∈ sources ++ zephyr_sources \/ f ∈ drop 4 (watched_ports manifest_dir)) as [Hs|Hp].
    { rewrite !elem_of_app in *. destruct zephyr; [rewrite elem_of_app in Hf; tauto|]. rewrite elem_of_nil in Hf. tauto. }
    + destruct (H f Hs) as [?| ->]; [by left|by right].
    + right. assert (f ∈ watched_ports manifest_dir) as Hp' by (rewrite <- (take_drop 4 (watched_ports manifest_dir)); apply elem_of_app; by right). rewrite (covered_self (watched_ports _) f Hp'). by rewrite orb_true_r.
  - assert ("firmware/microcar_zephyr_boot.c" ∉ sources /\ "firmware/microcar_zephyr_boot.c" ∈ zephyr_sources) as [Hn Hz]
      by (split; apply (bool_decide_unpack _); vm_compute; exact I).
    destruct zephyr; rewrite !elem_of_app; [tauto|]. rewrite elem_of_nil. intuition discriminate.
Qed.

(** Without the variable cargo sets the script panics. *)
Lemma main_needs_manifest_dir zephyr unix : main None zephyr unix = Panic.
Proof. done. Qed.
