(* ===== verification/CBase.v ===== *)
(** * C as the common library and the firmware modules use it

    Objects are values threaded through the functions that receive a pointer to them;
    an array access outside the array is undefined behaviour, which [Panic] stands for
    in the C files; [for] loops carry a state and may return early.  [table] relates the
    fixed arrays with a fill count of the C code to the growable lists of the Rust code,
    and the lemmas on loops say what a scan of such an array computes. *)

From S2P Require Import Prelude MachineInt.

(** ** Scalars *)

(** A C condition. *)
Definition truthy (z : Z) : bool := negb (z =? 0).

Lemma truthy_b2z b : truthy (Z.b2z b) = b.
Proof. by destruct b. Qed.

Lemma b2z_fits b : fits U8 (Z.b2z b).
Proof. destruct b; cbn [Z.b2z]; int_lia. Qed.

#[export] Hint Rewrite truthy_b2z : mc.
#[export] Hint Resolve b2z_fits : mc.

(** ** Arrays *)

Definition load {A : Type} (a : list A) (i : Z) : outcome A :=
  if 0 <=? i then match a !! Z.to_nat i with Some x => Ret x | None => Panic end else Panic.

Definition store {A : Type} (a : list A) (i : Z) (x : A) : outcome (list A) :=
  if (0 <=? i) && (i <? Z.of_nat (length a)) then Ret (<[Z.to_nat i := x]> a) else Panic.

Lemma load_middle {A : Type} (l1 : list A) x l2 :
  load (l1 ++ x :: l2) (Z.of_nat (length l1)) = Ret x.
Proof.
  unfold load. rewrite (proj2 (Z.leb_le _ _)) by lia.
  by rewrite Nat2Z.id, list_lookup_middle.
Qed.

Lemma store_middle {A : Type} (l1 : list A) x y l2 :
  store (l1 ++ x :: l2) (Z.of_nat (length l1)) y = Ret (l1 ++ y :: l2).
Proof.
  unfold store. rewrite (proj2 (Z.leb_le _ _)) by lia.
  rewrite (proj2 (Z.ltb_lt _ _)) by (rewrite length_app; simpl; lia). simpl.
  rewrite Nat2Z.id. replace (length l1) with (length l1 + 0)%nat by lia.
  by rewrite insert_app_r.
Qed.

Lemma store_length {A : Type} (a : list A) i x a' :
  store a i x = Ret a' -> length a' = length a.
Proof. unfold store. case_match; intros [= <-]. by rewrite length_insert. Qed.

(** What a write keeps of the entries. *)
Lemma store_Forall {A : Type} (P : A -> Prop) (a : list A) i x a' :
  Forall P a -> P x -> store a i x = Ret a' -> Forall P a'.
Proof. intros Ha Hx. unfold store. case_match; intros [= <-]. by apply Forall_insert. Qed.

(** ** Loops *)

(** The end of a loop body: go on with a state, or [return]. *)
Inductive ctl (S R : Type) : Type := Next (s : S) | Done (r : R).
Arguments Next {S R} s.
Arguments Done {S R} r.

(** [n] turns of [for (i = ...; ...; i++)] from index [i]. *)
Fixpoint for_ {S R : Type} (body : Z -> S -> outcome (ctl S R)) (i : Z) (n : nat) (s : S)
    : outcome (ctl S R) :=
  match n with
  | O => Ret (Next s)
  | S n =>
      let! c := body i s in
      match c with
      | Next s' => for_ body (i + 1) n s'
      | Done r => Ret (Done r)
      end
  end.

(** The first element a predicate selects, with what precedes and follows it. *)
Fixpoint split_first {A : Type} (p : A -> bool) (l : list A) : option (list A * A * list A) :=
  match l with
  | [] => None
  | a :: l =>
      if p a then Some ([], a, l)
      else match split_first p l with
           | Some (l1, x, l2) => Some (a :: l1, x, l2)
           | None => None
           end
  end.

Lemma split_first_Some {A : Type} (p : A -> bool) l l1 x l2 :
  split_first p l = Some (l1, x, l2) -> l = l1 ++ x :: l2 /\ p x = true.
Proof.
  revert l1; induction l as [|a l IH]; intros l1 H; simpl in H; [done|].
  destruct (p a) eqn:Hp; [by simplify_eq|].
  destruct (split_first p l) as [[[m1 y] m2]|]; simplify_eq.
  destruct (IH m1 eq_refl) as [-> ?]. done.
Qed.

Lemma split_first_before {A : Type} (p : A -> bool) l l1 x l2 :
  split_first p l = Some (l1, x, l2) -> forall a, a ∈ l1 -> p a = false.
Proof.
  revert l1; induction l as [|b l IH]; intros l1 H a Ha; simpl in H; [done|].
  destruct (p b) eqn:Hp; [simplify_eq; by apply not_elem_of_nil in Ha|].
  destruct (split_first p l) as [[[m1 y] m2]|]; simplify_eq.
  apply elem_of_cons in Ha as [->|Ha]; [done|by apply (IH m1)].
Qed.

Lemma split_first_skip {A : Type} (p : A -> bool) pre l :
  (forall a, a ∈ pre -> p a = false) ->
  split_first p (pre ++ l) =
  match split_first p l with Some (l1, x, l2) => Some (pre ++ l1, x, l2) | None => None end.
Proof.
  intros Hp. induction pre as [|a pre IH]; simpl.
  - by destruct (split_first p l) as [[[? ?] ?]|].
  - rewrite (Hp a) by (by left). rewrite IH by (intros b Hb; apply Hp; by right).
    by destruct (split_first p l) as [[[? ?] ?]|].
Qed.

Lemma split_first_None {A : Type} (p : A -> bool) l :
  split_first p l = None <-> forall a, a ∈ l -> p a = false.
Proof.
  split.
  - intros H a Ha. induction l as [|b l IH]; [by apply not_elem_of_nil in Ha|].
    simpl in H. destruct (p b) eqn:Hp; [done|].
    destruct (split_first p l) as [[[? ?] ?]|]; [done|].
    apply elem_of_cons in Ha as [->|Ha]; [done|by apply IH].
  - intros H. pose proof (split_first_skip p l [] H) as E. by rewrite app_nil_r in E.
Qed.

Lemma split_first_find {A : Type} (p : A -> bool) l :
  List.find p l = match split_first p l with Some (_, x, _) => Some x | None => None end.
Proof.
  induction l as [|a l IH]; simpl; [done|]. destruct (p a); [done|].
  rewrite IH. by destruct (split_first p l) as [[[? ?] ?]|].
Qed.

Lemma split_first_update {A : Type} (p : A -> bool) f l :
  update_first p f l =
  match split_first p l with Some (l1, x, l2) => Some (l1 ++ f x :: l2) | None => None end.
Proof.
  induction l as [|a l IH]; simpl; [done|]. destruct (p a); [done|].
  rewrite IH. by destruct (split_first p l) as [[[? ?] ?]|].
Qed.

Lemma split_first_map {A B : Type} (p : A -> bool) (q : B -> bool) (g : B -> A) l :
  (forall b, p (g b) = q b) ->
  split_first p (map g l) =
  match split_first q l with Some (l1, x, l2) => Some (map g l1, g x, map g l2) | None => None end.
Proof.
  intros Hg. induction l as [|b l IH]; simpl; [done|]. rewrite Hg. destruct (q b); [done|].
  rewrite IH. by destruct (split_first q l) as [[[? ?] ?]|].
Qed.

(** What every turn keeps, the loop keeps. *)
Lemma for_inv {S R : Type} (I : S -> Prop) (J : R -> Prop) (body : Z -> S -> outcome (ctl S R)) n i s c :
  (forall i s c, I s -> body i s = Ret c -> match c with Next s' => I s' | Done r => J r end) ->
  I s -> for_ body i n s = Ret c -> match c with Next s' => I s' | Done r => J r end.
Proof.
  intros Hbody. revert i s. induction n as [|n IH]; intros i s Hs; cbn [for_]; [by intros [= <-]|].
  destruct (body i s) as [[s'|r]|] eqn:E; cbn [obind]; [| |done]; specialize (Hbody i s _ Hs E); cbn in Hbody.
  - by apply IH.
  - by intros [= <-].
Qed.

Section Loops.
Context {A S R : Type}.
Variable arr : S -> list A.

(** A loop that looks for the first element with [p] and returns there: the array it scans
    is not changed on the way. *)
Lemma for_find (p : A -> bool) (body : Z -> S -> outcome (ctl S R)) l pre free s :
  arr s = pre ++ l ++ free ->
  (forall i e, load (arr s) i = Ret e -> p e = false -> body i s = Ret (Next s)) ->
  for_ body (Z.of_nat (length pre)) (length l) s =
  match split_first p l with
  | Some (l1, x, l2) =>
      let! c := body (Z.of_nat (length (pre ++ l1))) s in
      match c with
      | Next s' => for_ body (Z.of_nat (length (pre ++ l1)) + 1) (length l2) s'
      | Done r => Ret (Done r)
      end
  | None => Ret (Next s)
  end.
Proof.
  revert pre; induction l as [|a l IH]; intros pre Harr Hbody; simpl; [done|].
  destruct (p a) eqn:Hp.
  - by rewrite app_nil_r.
  - rewrite (Hbody _ a) by (rewrite ?Harr; try apply load_middle; done). simpl.
    specialize (IH (pre ++ [a])). rewrite <- app_assoc in IH. specialize (IH Harr Hbody).
    rewrite length_app in IH. simpl in IH.
    replace (Z.of_nat (length pre) + 1) with (Z.of_nat (length pre + 1)) by lia.
    rewrite IH. destruct (split_first p l) as [[[l1 x] l2]|]; [|done].
    by rewrite <- app_assoc.
Qed.

(** A loop that only reads: a fold over the scanned part of the array. *)
Lemma for_fold (g : S -> A -> S) (body : Z -> S -> outcome (ctl S R)) l pre free s :
  arr s = pre ++ l ++ free ->
  (forall s e, arr (g s e) = arr s) ->
  (forall i s e, load (arr s) i = Ret e -> body i s = Ret (Next (g s e))) ->
  for_ body (Z.of_nat (length pre)) (length l) s = Ret (Next (fold_left g l s)).
Proof.
  revert pre s; induction l as [|a l IH]; intros pre s Harr Hg Hbody; simpl; [done|].
  rewrite (Hbody _ _ a) by (rewrite Harr; apply load_middle). simpl.
  replace (Z.of_nat (length pre) + 1) with (Z.of_nat (length (pre ++ [a])))
    by (rewrite length_app; simpl; lia).
  apply IH; [|done|done]. by rewrite Hg, Harr, <- app_assoc.
Qed.
End Loops.

(** A loop that rewrites every element it passes, with an accumulator. *)
Lemma for_map {A T R : Type} (g : A -> A) (h : T -> A -> T)
    (body : Z -> list A * T -> outcome (ctl (list A * T) R)) l pre free acc :
  (forall pre' e rest acc',
     body (Z.of_nat (length pre')) (pre' ++ e :: rest, acc') =
     Ret (Next (pre' ++ g e :: rest, h acc' e))) ->
  for_ body (Z.of_nat (length pre)) (length l) (pre ++ l ++ free, acc) =
  Ret (Next (pre ++ map g l ++ free, fold_left h l acc)).
Proof.
  intros Hbody. revert pre acc; induction l as [|a l IH]; intros pre acc; simpl; [done|].
  rewrite Hbody. simpl.
  replace (Z.of_nat (length pre) + 1) with (Z.of_nat (length (pre ++ [g a])))
    by (rewrite length_app; simpl; lia).
  specialize (IH (pre ++ [g a]) (h acc a)). rewrite <- !app_assoc in IH. exact IH.
Qed.

(** ** Fixed tables *)

(** The first [count] elements of an array of [cap] elements hold the list [l]. *)
Definition table {A B : Type} (inj : B -> A) (cap : nat) (arr : list A) (count : Z) (l : list B) : Prop :=
  length arr = cap /\ count = Z.of_nat (length l) /\ exists free, arr = map inj l ++ free.

Section Tables.
Context {A B : Type} (inj : B -> A) (cap : nat).

Lemma table_empty x : table inj cap (replicate cap x) 0 [].
Proof. split_and!; [by rewrite length_replicate|done|by eexists]. Qed.

Lemma table_le arr count l : table inj cap arr count l -> 0 <= count <= Z.of_nat cap.
Proof.
  intros (Hl & -> & free & ->). rewrite length_app, length_map in Hl. lia.
Qed.

Lemma table_count arr count l : table inj cap arr count l -> Z.to_nat count = length l.
Proof. intros (_ & -> & _). lia. Qed.

(** A store at a used index. *)
Lemma table_store arr count l1 x l2 y :
  table inj cap arr count (l1 ++ x :: l2) ->
  exists arr', store arr (Z.of_nat (length l1)) (inj y) = Ret arr' /\
               table inj cap arr' count (l1 ++ y :: l2).
Proof.
  intros (Hl & -> & free & ->). rewrite map_app, <- app_assoc. simpl.
  exists (map inj l1 ++ inj y :: map inj l2 ++ free). split.
  - rewrite <- (length_map inj l1). apply store_middle.
  - split_and!.
    + rewrite <- Hl, map_app, <- app_assoc. simpl. by rewrite !length_app.
    + by rewrite !length_app.
    + exists free. by rewrite map_app, <- app_assoc.
Qed.

Lemma table_load arr count l1 x l2 :
  table inj cap arr count (l1 ++ x :: l2) -> load arr (Z.of_nat (length l1)) = Ret (inj x).
Proof.
  intros (Hl & -> & free & ->). rewrite map_app, <- app_assoc. simpl.
  rewrite <- (length_map inj l1). apply load_middle.
Qed.

(** A new last element, in a table that is not full. *)
Lemma table_push arr count l y :
  table inj cap arr count l -> count < Z.of_nat cap ->
  exists arr', store arr count (inj y) = Ret arr' /\ table inj cap arr' (count + 1) (l ++ [y]).
Proof.
  intros (Hl & -> & free & ->) Hc. rewrite length_app, length_map in Hl.
  destruct free as [|f free]; simpl in *; [lia|].
  exists (map inj l ++ inj y :: free). split.
  - rewrite <- (length_map inj l). apply store_middle.
  - split_and!.
    + rewrite length_app, length_map. simpl. lia.
    + rewrite length_app. simpl. lia.
    + exists free. by rewrite map_app, <- app_assoc.
Qed.

(** The scan of a table for its first element with [p]. *)
Lemma table_find {S R : Type} (arr : S -> list A) (p : A -> bool) (q : B -> bool)
    (body : Z -> S -> outcome (ctl S R)) s count l :
  table inj cap (arr s) count l ->
  (forall b, p (inj b) = q b) ->
  (forall i e, load (arr s) i = Ret e -> p e = false -> body i s = Ret (Next s)) ->
  for_ body 0 (Z.to_nat count) s =
  match split_first q l with
  | Some (l1, x, l2) =>
      let! c := body (Z.of_nat (length l1)) s in
      match c with
      | Next s' => for_ body (Z.of_nat (length l1) + 1) (length l2) s'
      | Done r => Ret (Done r)
      end
  | None => Ret (Next s)
  end.
Proof.
  intros Ht Hp Hbody. rewrite (table_count _ _ _ Ht).
  destruct Ht as (_ & _ & free & Harr). rewrite <- (length_map inj l).
  change 0 with (Z.of_nat (@length A [])).
  rewrite (for_find arr p body (map inj l) [] free s Harr Hbody).
  rewrite (split_first_map p q inj) by done.
  destruct (split_first q l) as [[[l1 x] l2]|]; simpl; [|done].
  by rewrite !length_map.
Qed.

(** The scan of a table that rewrites its elements. *)
Lemma table_map {T R : Type} (g : A -> A) (g' : B -> B) (h : T -> A -> T)
    (body : Z -> list A * T -> outcome (ctl (list A * T) R)) arr count l acc :
  table inj cap arr count l ->
  (forall b, g (inj b) = inj (g' b)) ->
  (forall pre e rest acc',
     body (Z.of_nat (length pre)) (pre ++ e :: rest, acc') =
     Ret (Next (pre ++ g e :: rest, h acc' e))) ->
  exists arr', for_ body 0 (Z.to_nat count) (arr, acc) =
                 Ret (Next (arr', fold_left h (map inj l) acc)) /\
               table inj cap arr' count (map g' l).
Proof.
  intros Ht Hg Hbody. rewrite (table_count _ _ _ Ht).
  destruct Ht as (Hl & -> & free & ->).
  exists (map inj (map g' l) ++ free). split.
  - rewrite <- (length_map inj l).
    pose proof (for_map g h body (map inj l) [] free acc Hbody) as E. simpl in E. change (Z.of_nat 0) with 0 in E. rewrite E.
    do 4 f_equal. rewrite !map_map. by apply map_ext.
  - split_and!; [|by rewrite length_map|by eexists].
    rewrite <- Hl, !length_app. by rewrite !length_map.
Qed.

(** The scan of a table that only reads. *)
Lemma table_fold {S R : Type} (arr : S -> list A) (g : S -> A -> S)
    (body : Z -> S -> outcome (ctl S R)) s count l :
  table inj cap (arr s) count l ->
  (forall s e, arr (g s e) = arr s) ->
  (forall i s e, load (arr s) i = Ret e -> body i s = Ret (Next (g s e))) ->
  for_ body 0 (Z.to_nat count) s = Ret (Next (fold_left g (map inj l) s)).
Proof.
  intros Ht Hg Hbody. rewrite (table_count _ _ _ Ht).
  destruct Ht as (_ & _ & free & Harr). rewrite <- (length_map inj l).
  change 0 with (Z.of_nat (@length A [])).
  by apply (for_fold arr g body (map inj l) [] free s Harr).
Qed.
End Tables.

(** ** Packed structures

    A packed little-endian structure is its fields in order; [memcpy] between a
    structure and a buffer needs a buffer of [sizeof] bytes. *)

Definition sizeof_field (t : ity) : nat := Z.to_nat (bits t / 8).

Fixpoint le_bytes (n : nat) (z : Z) : list Z :=
  match n with
  | O => []
  | S n => z mod 256 :: le_bytes n (z / 256)
  end.

Fixpoint le_value (bs : list Z) : Z :=
  match bs with
  | [] => 0
  | b :: bs => b + 256 * le_value bs
  end.

Definition sizeof (ts : list ity) : nat := sum_list (map sizeof_field ts).

Definition pack (fs : list (ity * Z)) : list Z :=
  flat_map (fun '(t, z) => le_bytes (sizeof_field t) (z mod modulus t)) fs.

Fixpoint unpack (ts : list ity) (bs : list Z) : list Z :=
  match ts with
  | [] => []
  | t :: ts =>
      cast t (le_value (take (sizeof_field t) bs)) :: unpack ts (drop (sizeof_field t) bs)
  end.

(** [memcpy(buf, &m, sizeof(m))] and [memcpy(&m, buf, sizeof(m))]. *)
Definition memcpy_to (buf : list Z) (fs : list (ity * Z)) : outcome (list Z) :=
  if (sizeof (map fst fs) <=? length buf)%nat
  then Ret (pack fs ++ drop (sizeof (map fst fs)) buf) else Panic.

Definition memcpy_from (ts : list ity) (buf : list Z) : outcome (list Z) :=
  if (sizeof ts <=? length buf)%nat then Ret (unpack ts buf) else Panic.

Lemma le_bytes_length n z : length (le_bytes n z) = n.
Proof. revert z; induction n as [|n IH]; intros z; simpl; [done|]. by rewrite IH. Qed.

Lemma le_value_bytes n z : 0 <= z < 256 ^ Z.of_nat n -> le_value (le_bytes n z) = z.
Proof.
  revert z; induction n as [|n IH]; intros z Hz; simpl le_bytes; simpl le_value.
  - change (256 ^ Z.of_nat 0) with 1 in Hz. lia.
  - rewrite Nat2Z.inj_succ, Z.pow_succ_r in Hz by lia.
    pose proof (Z.div_mod z 256). rewrite IH; [lia|].
    split; [apply Z.div_pos; lia|]. apply Z.div_lt_upper_bound; lia.
Qed.

Lemma modulus_sizeof t : modulus t = 256 ^ Z.of_nat (sizeof_field t).
Proof. by destruct t. Qed.

Lemma field_roundtrip t z : fits t z -> cast t (le_value (le_bytes (sizeof_field t) (z mod modulus t))) = z.
Proof.
  intros Hz. rewrite le_value_bytes.
  - rewrite <- (cast_id t z) at 2 by done. unfold cast.
    rewrite Z.mod_mod by (pose proof (modulus_pos t); lia). done.
  - rewrite <- modulus_sizeof. apply Z.mod_pos_bound, modulus_pos.
Qed.

Lemma pack_length fs : length (pack fs) = sizeof (map fst fs).
Proof.
  induction fs as [|[t z] fs IH]; [done|].
  unfold pack, sizeof in *. simpl. by rewrite length_app, le_bytes_length, IH.
Qed.

Lemma unpack_pack fs rest :
  Forall (fun '(t, z) => fits t z) fs -> unpack (map fst fs) (pack fs ++ rest) = map snd fs.
Proof.
  induction fs as [|[t z] fs IH]; intros H; [done|].
  apply Forall_cons in H as [Hz H]. unfold pack in *. simpl.
  rewrite <- app_assoc, take_app_length', drop_app_length' by (by rewrite le_bytes_length).
  by rewrite field_roundtrip, IH.
Qed.

Lemma memcpy_roundtrip buf fs :
  (sizeof (map fst fs) <= length buf)%nat -> Forall (fun '(t, z) => fits t z) fs ->
  exists buf', memcpy_to buf fs = Ret buf' /\ length buf' = length buf /\
               memcpy_from (map fst fs) buf' = Ret (map snd fs) /\
               take (sizeof (map fst fs)) buf' = pack fs /\
               drop (sizeof (map fst fs)) buf' = drop (sizeof (map fst fs)) buf.
Proof.
  intros Hlen Hf. exists (pack fs ++ drop (sizeof (map fst fs)) buf).
  assert (length (pack fs ++ drop (sizeof (map fst fs)) buf) = length buf) as Hl.
  { rewrite length_app, pack_length, length_drop. lia. }
  unfold memcpy_to, memcpy_from. rewrite Hl.
  rewrite (proj2 (Nat.leb_le _ _)) by done.
  split_and!; [done|done| | |].
  - by rewrite unpack_pack.
  - by rewrite take_app_length' by (by rewrite pack_length).
  - by rewrite drop_app_length' by (by rewrite pack_length).
Qed.
