(* ===== verification/CProtocol.v ===== *)
(** * The C protocol library ([common/src/microcar_protocol.c] and the headers it includes)

    The message codecs over byte buffers, the CAN frame helpers and the three shared
    decision functions, with the comparison of each with its Rust mirror. *)

From S2P Require Import Prelude MachineInt Protocol Gateway CBase.

(** ** Enumerations and constants of the headers *)

Definition VEHICLE_OFF : Z := 0.
Definition VEHICLE_READY : Z := 1.
Definition VEHICLE_DRIVE : Z := 2.
Definition VEHICLE_LIMP : Z := 3.
Definition VEHICLE_FAULT : Z := 4.
Definition VEHICLE_CHARGING : Z := 5.
Definition VEHICLE_SERVICE : Z := 6.
Definition VEHICLE_OTA_UPDATE : Z := 7.
Definition VEHICLE_TRANSPORT_MODE : Z := 8.

Definition BMS_OK : Z := 0.
Definition BMS_WARN_HOT : Z := 1.
Definition BMS_LIMP_REQUEST : Z := 2.
Definition BMS_CRITICAL_FAULT : Z := 3.

Definition MC_BMS_FAULT_NONE : Z := 0.
Definition MC_BMS_FAULT_OVERTEMP : Z := 1.
Definition MC_BMS_FAULT_OVERVOLTAGE : Z := 2.
Definition MC_BMS_FAULT_UNDERVOLTAGE : Z := 3.
Definition MC_BMS_FAULT_OVER_CURRENT : Z := 4.
Definition MC_BMS_FAULT_COMM_ERROR : Z := 5.

Definition MC_CAN_MAX_DATA : Z := 8.

(** ** Packed payload structures: the fields with their types, in order *)

Definition mc_heartbeat_msg_t (node_id uptime_ms : Z) : list (ity * Z) :=
  [(U8, node_id); (U32, uptime_ms)].
Definition mc_vehicle_mode_msg_t (mode fault_code : Z) : list (ity * Z) :=
  [(U8, mode); (U8, fault_code)].
Definition mc_driver_input_msg_t (throttle_percent brake_pressed gear : Z) : list (ity * Z) :=
  [(U8, throttle_percent); (U8, brake_pressed); (U8, gear)].
Definition mc_bms_status_msg_t (pack_voltage_mv pack_current_ma pack_temp_c_x10 soc_percent seq : Z)
    : list (ity * Z) :=
  [(U16, pack_voltage_mv); (I16, pack_current_ma); (I16, pack_temp_c_x10); (U8, soc_percent);
   (U8, seq)].
Definition mc_bms_limits_msg_t (max_torque_percent reason : Z) : list (ity * Z) :=
  [(U8, max_torque_percent); (U8, reason)].
Definition mc_motor_command_msg_t (torque_percent enable : Z) : list (ity * Z) :=
  [(I8, torque_percent); (U8, enable)].
Definition mc_wheel_speed_msg_t (speed_kph_x10 : Z) : list (ity * Z) := [(U16, speed_kph_x10)].
Definition mc_warning_msg_t (source_node warning_code : Z) : list (ity * Z) :=
  [(U8, source_node); (U8, warning_code)].

(** ** Encoders and decoders

    An encoder returns the buffer it wrote to; a decoder the values behind its out
    parameters.  A member without an initialiser is zero. *)

Definition mc_encode_heartbeat (buf : list Z) (node_id uptime_ms : Z) : outcome (list Z) :=
  memcpy_to buf (mc_heartbeat_msg_t node_id uptime_ms).

Definition mc_decode_heartbeat (buf : list Z) : outcome (Z * Z) :=
  let! m := memcpy_from (map fst (mc_heartbeat_msg_t 0 0)) buf in
  match m with
  | [node_id; uptime_ms] => Ret (node_id, uptime_ms)
  | _ => Panic
  end.

Definition mc_encode_vehicle_mode (buf : list Z) (mode fault_code : Z) : outcome (list Z) :=
  memcpy_to buf (mc_vehicle_mode_msg_t mode fault_code).

Definition mc_decode_vehicle_mode (buf : list Z) : outcome (Z * Z) :=
  let! m := memcpy_from (map fst (mc_vehicle_mode_msg_t 0 0)) buf in
  match m with
  | [mode; fault_code] => Ret (mode, fault_code)
  | _ => Panic
  end.

Definition mc_encode_driver_input (buf : list Z) (throttle brake gear : Z) : outcome (list Z) :=
  memcpy_to buf (mc_driver_input_msg_t throttle brake gear).

Definition mc_decode_driver_input (buf : list Z) : outcome (Z * Z * Z) :=
  let! m := memcpy_from (map fst (mc_driver_input_msg_t 0 0 0)) buf in
  match m with
  | [throttle; brake; gear] => Ret (throttle, brake, gear)
  | _ => Panic
  end.

Definition mc_encode_bms_status (buf : list Z) (voltage_mv current_ma temp_c_x10 soc_percent : Z)
    : outcome (list Z) :=
  memcpy_to buf (mc_bms_status_msg_t voltage_mv current_ma temp_c_x10 soc_percent 0).

Definition mc_decode_bms_status (buf : list Z) : outcome (Z * Z * Z * Z) :=
  let! m := memcpy_from (map fst (mc_bms_status_msg_t 0 0 0 0 0)) buf in
  match m with
  | [voltage_mv; current_ma; temp_c_x10; soc_percent; _] =>
      Ret (voltage_mv, current_ma, temp_c_x10, soc_percent)
  | _ => Panic
  end.

Definition mc_encode_bms_limits (buf : list Z) (max_torque reason : Z) : outcome (list Z) :=
  memcpy_to buf (mc_bms_limits_msg_t max_torque reason).

Definition mc_decode_bms_limits (buf : list Z) : outcome (Z * Z) :=
  let! m := memcpy_from (map fst (mc_bms_limits_msg_t 0 0)) buf in
  match m with
  | [max_torque; reason] => Ret (max_torque, reason)
  | _ => Panic
  end.

Definition mc_encode_motor_command (buf : list Z) (torque enable : Z) : outcome (list Z) :=
  memcpy_to buf (mc_motor_command_msg_t torque enable).

Definition mc_decode_motor_command (buf : list Z) : outcome (Z * Z) :=
  let! m := memcpy_from (map fst (mc_motor_command_msg_t 0 0)) buf in
  match m with
  | [torque; enable] => Ret (torque, enable)
  | _ => Panic
  end.

Definition mc_encode_wheel_speed (buf : list Z) (speed_kph_x10 : Z) : outcome (list Z) :=
  memcpy_to buf (mc_wheel_speed_msg_t speed_kph_x10).

Definition mc_decode_wheel_speed (buf : list Z) : outcome Z :=
  let! m := memcpy_from (map fst (mc_wheel_speed_msg_t 0)) buf in
  match m with
  | [speed_kph_x10] => Ret speed_kph_x10
  | _ => Panic
  end.

Definition mc_encode_warning (buf : list Z) (source code : Z) : outcome (list Z) :=
  memcpy_to buf (mc_warning_msg_t source code).

Definition mc_decode_warning (buf : list Z) : outcome (Z * Z) :=
  let! m := memcpy_from (map fst (mc_warning_msg_t 0 0)) buf in
  match m with
  | [source; code] => Ret (source, code)
  | _ => Panic
  end.

(** ** CAN frames *)

Record mc_can_frame_t := { id : Z; sender : Z; data : list Z; len : Z }.

(** The frame's previous content is overwritten entirely. *)
Definition mc_frame_init (msg_id sender_ len_ : Z) : mc_can_frame_t :=
  {| id := msg_id; sender := sender_; len := len_;
     data := replicate (Z.to_nat MC_CAN_MAX_DATA) 0 |}.

Definition mc_frame_is_valid (frame : mc_can_frame_t) : bool := len frame <=? MC_CAN_MAX_DATA.

(** ** Shared decisions *)

Definition mc_bms_determine_state (temp_c_x10 : Z) : Z :=
  let t_warn := cast I16 (MC_BMS_TEMP_WARN * 10) in
  let t_limp := cast I16 (MC_BMS_TEMP_LIMP * 10) in
  let t_critical := cast I16 (MC_BMS_TEMP_CRITICAL * 10) in
  if t_critical <=? temp_c_x10 then BMS_CRITICAL_FAULT
  else if t_limp <=? temp_c_x10 then BMS_LIMP_REQUEST
  else if t_warn <=? temp_c_x10 then BMS_WARN_HOT
  else BMS_OK.

Definition mc_safety_clamp_torque (requested_torque vehicle_mode brake_pressed bms_max_torque : Z) : Z :=
  if truthy brake_pressed then 0
  else if negb (vehicle_mode =? VEHICLE_DRIVE) && negb (vehicle_mode =? VEHICLE_LIMP) then 0
  else
    let mode_max :=
      if vehicle_mode =? VEHICLE_LIMP then cast I8 MC_TORQUE_LIMP_MAX_PERCENT else 100 in
    let effective_max := if bms_max_torque <? mode_max then cast I8 bms_max_torque else mode_max in
    let requested_torque := if requested_torque <? 0 then 0 else requested_torque in
    if effective_max <? requested_torque then effective_max else requested_torque.

Definition mc_gateway_determine_mode (current_mode all_nodes_online bms_fault_active
    bms_limp_requested powertrain_online : Z) : Z :=
  if current_mode =? VEHICLE_FAULT then VEHICLE_FAULT
  else if truthy bms_fault_active then VEHICLE_FAULT
  else if current_mode =? VEHICLE_CHARGING then VEHICLE_CHARGING
  else if current_mode =? VEHICLE_OTA_UPDATE then VEHICLE_OTA_UPDATE
  else if truthy bms_limp_requested then VEHICLE_LIMP
  else if current_mode =? VEHICLE_OFF then
    if truthy all_nodes_online then VEHICLE_READY else VEHICLE_OFF
  else if current_mode =? VEHICLE_READY then
    if negb (truthy all_nodes_online) then VEHICLE_OFF else VEHICLE_READY
  else if current_mode =? VEHICLE_DRIVE then
    if negb (truthy all_nodes_online) then VEHICLE_READY else VEHICLE_DRIVE
  else if current_mode =? VEHICLE_LIMP then
    if truthy all_nodes_online then VEHICLE_READY else VEHICLE_OFF
  else VEHICLE_OFF.

(** ** The codecs as one function

    A message with its values, and which message a decoder expects. *)
Inductive message : Set :=
  | Heartbeat (node_id uptime_ms : Z)
  | VehicleModeChange (mode fault_code : Z)
  | DriverInput (throttle brake gear : Z)
  | BmsStatus (voltage_mv current_ma temp_c_x10 soc_percent : Z)
  | BmsLimit (max_torque reason : Z)
  | MotorCommand (torque enable : Z)
  | WheelSpeed (speed_kph_x10 : Z)
  | Warning (source code : Z).

Definition encode (m : message) (buf : list Z) : outcome (list Z) :=
  match m with
  | Heartbeat n u => mc_encode_heartbeat buf n u
  | VehicleModeChange m f => mc_encode_vehicle_mode buf m f
  | DriverInput t b g => mc_encode_driver_input buf t b g
  | BmsStatus v c t s => mc_encode_bms_status buf v c t s
  | BmsLimit m r => mc_encode_bms_limits buf m r
  | MotorCommand t e => mc_encode_motor_command buf t e
  | WheelSpeed s => mc_encode_wheel_speed buf s
  | Warning s c => mc_encode_warning buf s c
  end.

(** The decoder of the message's kind. *)
Definition decode_as (m : message) (buf : list Z) : outcome message :=
  match m with
  | Heartbeat _ _ => let! (n, u) := mc_decode_heartbeat buf in Ret (Heartbeat n u)
  | VehicleModeChange _ _ => let! (m, f) := mc_decode_vehicle_mode buf in Ret (VehicleModeChange m f)
  | DriverInput _ _ _ => let! (t, b, g) := mc_decode_driver_input buf in Ret (DriverInput t b g)
  | BmsStatus _ _ _ _ => let! (v, c, t, s) := mc_decode_bms_status buf in Ret (BmsStatus v c t s)
  | BmsLimit _ _ => let! (m, r) := mc_decode_bms_limits buf in Ret (BmsLimit m r)
  | MotorCommand _ _ => let! (t, e) := mc_decode_motor_command buf in Ret (MotorCommand t e)
  | WheelSpeed _ => omap_ret WheelSpeed (mc_decode_wheel_speed buf)
  | Warning _ _ => let! (s, c) := mc_decode_warning buf in Ret (Warning s c)
  end.

(** The structure behind a message. *)
Definition fields (m : message) : list (ity * Z) :=
  match m with
  | Heartbeat n u => mc_heartbeat_msg_t n u
  | VehicleModeChange m f => mc_vehicle_mode_msg_t m f
  | DriverInput t b g => mc_driver_input_msg_t t b g
  | BmsStatus v c t s => mc_bms_status_msg_t v c t s 0
  | BmsLimit m r => mc_bms_limits_msg_t m r
  | MotorCommand t e => mc_motor_command_msg_t t e
  | WheelSpeed s => mc_wheel_speed_msg_t s
  | Warning s c => mc_warning_msg_t s c
  end.

(** The values are values of the parameters' types. *)
Definition message_fits (m : message) : Prop := Forall (fun '(t, z) => fits t z) (fields m).

Lemma encode_fields m buf : encode m buf = memcpy_to buf (fields m).
Proof. by destruct m. Qed.

Lemma decode_fields m buf :
  memcpy_from (map fst (fields m)) buf = Ret (map snd (fields m)) -> decode_as m buf = Ret m.
Proof.
  destruct m; cbn [decode_as fields]; intros H;
    (unfold mc_decode_heartbeat || unfold mc_decode_vehicle_mode || unfold mc_decode_driver_input
     || unfold mc_decode_bms_status || unfold mc_decode_bms_limits
     || unfold mc_decode_motor_command || unfold mc_decode_wheel_speed
     || unfold mc_decode_warning); cbn [map fst snd] in *;
    match type of H with
    | context [memcpy_from ?ts buf] => change (memcpy_from ts buf) with (memcpy_from ts buf) in H
    end; simpl in H; simpl; by rewrite H.
Qed.

(** C25: Every message of the wire protocol fits the eight data bytes of a CAN frame, and
    encoding it into a buffer of at least that size and decoding the buffer with the
    decoder of its kind gives its values back; the encoder writes exactly the packed
    little-endian image of the structure, changes no byte behind it, and no buffer that
    holds the structure is accessed out of bounds.  A buffer that is too short is
    undefined behaviour. *)
Theorem codec_roundtrip m buf :
  message_fits m ->
  (sizeof (map fst (fields m)) <= Z.to_nat MC_CAN_MAX_DATA)%nat /\
  ((sizeof (map fst (fields m)) <= length buf)%nat ->
     exists buf', encode m buf = Ret buf' /\ length buf' = length buf /\
       decode_as m buf' = Ret m /\
       buf' = pack (fields m) ++ drop (sizeof (map fst (fields m))) buf) /\
  ((length buf < sizeof (map fst (fields m)))%nat -> encode m buf = Panic).
Proof.
  intros Hf. split_and!.
  - destruct m; vm_compute; lia.
  - intros Hlen. destruct (memcpy_roundtrip buf (fields m) Hlen Hf) as (buf' & Hto & Hl & Hfrom & Ht & Hd).
    exists buf'. rewrite encode_fields. split_and!; [done|done|by apply decode_fields|].
    by rewrite <- Ht, <- Hd, take_drop.
  - intros Hlen. rewrite encode_fields. unfold memcpy_to.
    by rewrite (proj2 (Nat.leb_gt _ _)) by done.
Qed.

Lemma codec_roundtrip_witness :
  encode (BmsStatus 48000 (-1200) 905 80) (replicate 8 170) = Ret [128; 187; 80; 251; 137; 3; 80; 0] /\
  exists buf', encode (BmsStatus 48000 (-1200) 905 80) (replicate 8 170) = Ret buf' /\
    length buf' = 8%nat /\ decode_as (BmsStatus 48000 (-1200) 905 80) buf' = Ret (BmsStatus 48000 (-1200) 905 80).
Proof.
  split; [reflexivity|].
  assert (message_fits (BmsStatus 48000 (-1200) 905 80)) as Hf
    by (repeat constructor; unfold fits; vm_compute; congruence).
  destruct (proj1 (proj2 (codec_roundtrip (BmsStatus 48000 (-1200) 905 80) (replicate 8 170) Hf)))
    as (buf' & H1 & H2 & H3 & _); [vm_compute; lia|].
  exists buf'. split_and!; assumption.
Defined.

(** ** Agreement with the Rust mirror *)

(** The C classification in closed form; the Rust one is [bms_state_thresholds]. *)
Lemma c_bms_thresholds t :
  mc_bms_determine_state t =
  if 900 <=? t then BMS_CRITICAL_FAULT
  else if 750 <=? t then BMS_LIMP_REQUEST
  else if 600 <=? t then BMS_WARN_HOT
  else BMS_OK.
Proof. reflexivity. Qed.

(** The last 0.9 degrees before each threshold of the Rust classification. *)
Definition disagreement_band (t : Z) : bool :=
  ((600 <=? t) && (t <? 610)) || ((750 <=? t) && (t <? 760)) || ((900 <=? t) && (t <? 910)).

(** The firmware and its Rust mirror classify a pack temperature alike except in the
    three bands 60.0-60.9, 75.0-75.9 and 90.0-90.9 degrees, where the firmware is one level
    more severe; it is never less severe. *)
Lemma bms_state_agreement t :
  mc_bms_determine_state t =
  BmsState_as_u8 (bms_determine_state t) + Z.b2z (disagreement_band t).
Proof.
  rewrite c_bms_thresholds, bms_state_thresholds. unfold disagreement_band.
  repeat case_match; bool_prop; try lia; unfold BMS_CRITICAL_FAULT, BMS_LIMP_REQUEST, BMS_WARN_HOT, BMS_OK; simpl;
    repeat match goal with
    | |- context [?a <=? ?b] => destruct (Z.leb_spec a b)
    | |- context [?a <? ?b] => destruct (Z.ltb_spec a b)
    end; simpl; lia.
Qed.

(** The classification the documents give ([bms_state.h], the comments of [microcar_safety.h],
    [docs/safety_rules.md]): a state begins strictly above its threshold. *)
Definition documented_state (t : Z) : Z :=
  if 900 <? t then BMS_CRITICAL_FAULT
  else if 750 <? t then BMS_LIMP_REQUEST
  else if 600 <? t then BMS_WARN_HOT
  else BMS_OK.

(** The torque the documents allow the motor at a temperature. *)
Definition documented_ceiling (t : Z) : Z := if 900 <? t then 0 else if 750 <? t then 25 else 100.

Definition at_threshold (t : Z) : bool := (t =? 600) || (t =? 750) || (t =? 900).

(** The firmware is one level more severe than the documents at a threshold itself, and
    agrees with them everywhere else. *)
Lemma bms_state_documented t :
  mc_bms_determine_state t = documented_state t + Z.b2z (at_threshold t).
Proof.
  rewrite c_bms_thresholds. unfold documented_state, at_threshold.
  repeat case_match; bool_prop; try lia; unfold BMS_CRITICAL_FAULT, BMS_LIMP_REQUEST, BMS_WARN_HOT, BMS_OK;
    repeat match goal with |- context [?a =? ?b] => destruct (Z.eqb_spec a b) end; simpl; lia.
Qed.

(** The six modes the Rust enumeration has. *)
Lemma c_gateway_mode_agreement m a f l p :
  mc_gateway_determine_mode (VehicleMode_as_u8 m) a f l p =
  VehicleMode_as_u8 (GatewayState.determine_mode m (truthy a) (truthy f) (truthy l)).
Proof.
  unfold mc_gateway_determine_mode.
  destruct m, (truthy a), (truthy f), (truthy l); reflexivity.
Qed.

(** The modes the Rust enumeration lacks: an update is sticky, the others fall to OFF. *)
Lemma c_gateway_other_modes current a f l p :
  VEHICLE_CHARGING < current ->
  mc_gateway_determine_mode current a f l p =
  if truthy f then VEHICLE_FAULT
  else if current =? VEHICLE_OTA_UPDATE then VEHICLE_OTA_UPDATE
  else if truthy l then VEHICLE_LIMP else VEHICLE_OFF.
Proof.
  unfold mc_gateway_determine_mode. intros H.
  unfold VEHICLE_CHARGING, VEHICLE_FAULT, VEHICLE_OFF, VEHICLE_READY, VEHICLE_DRIVE, VEHICLE_LIMP in *.
  rewrite (proj2 (Z.eqb_neq current 4)), (proj2 (Z.eqb_neq current 5)), (proj2 (Z.eqb_neq current 0)),
    (proj2 (Z.eqb_neq current 1)), (proj2 (Z.eqb_neq current 2)), (proj2 (Z.eqb_neq current 3)) by lia.
  done.
Qed.

(** The C clamp in closed form. *)
Definition c_torque_ceiling (mode brake bms : Z) : Z :=
  if truthy brake then 0
  else if mode =? VEHICLE_DRIVE then Z.min bms 100
  else if mode =? VEHICLE_LIMP then Z.min bms MC_TORQUE_LIMP_MAX_PERCENT
  else 0.

Lemma c_min_cast bms k :
  fits U8 bms -> 0 <= k <= 127 -> (if bms <? k then cast I8 bms else k) = Z.min bms k.
Proof. intros Hb Hk. destruct (Z.ltb_spec bms k); [rewrite cast_id by int_lia|]; lia. Qed.

Lemma c_clamp_closed_form requested mode brake bms :
  fits U8 bms ->
  mc_safety_clamp_torque requested mode brake bms =
  Z.min (Z.max requested 0) (c_torque_ceiling mode brake bms).
Proof.
  intros Hb. assert (0 <= bms) as H0 by int_lia. unfold mc_safety_clamp_torque, c_torque_ceiling.
  destruct (truthy brake); [lia|].
  change (cast I8 MC_TORQUE_LIMP_MAX_PERCENT) with 25. unfold MC_TORQUE_LIMP_MAX_PERCENT.
  rewrite c_min_cast by (done || case_match; lia).
  destruct (Z.eqb_spec mode VEHICLE_DRIVE) as [->|Hd]; [|destruct (Z.eqb_spec mode VEHICLE_LIMP) as [->|Hl]];
    cbn [negb andb]; [change (VEHICLE_DRIVE =? VEHICLE_LIMP) with false; cbn [andb]| |lia];
    repeat case_match; bool_prop; lia.
Qed.

(** The drive modes and FAULT: where the two clamps are the same function. *)
Definition drive_or_fault (m : VehicleMode) : bool :=
  match m with Drive | Limp | Fault => true | _ => false end.

(** The firmware's torque clamp never allows more than the Rust mirror's; the two agree
    in DRIVE, LIMP and FAULT and whenever the brake is pressed, and in OFF, READY and CHARGING
    the firmware returns zero where the mirror passes the driver's request on. *)
Theorem clamp_agreement requested m brake bms :
  fits U8 bms ->
  let c := mc_safety_clamp_torque requested (VehicleMode_as_u8 m) brake bms in
  let r := safety_clamp_torque requested m (truthy brake) bms in
  0 <= c <= r /\
  (drive_or_fault m = true \/ truthy brake = true -> c = r) /\
  (drive_or_fault m = false -> truthy brake = false ->
     c = 0 /\ r = Z.min (Z.max requested 0) (Z.min bms 100)).
Proof.
  intros Hb c r. subst c r. rewrite c_clamp_closed_form, clamp_closed_form by int_lia.
  unfold c_torque_ceiling, torque_ceiling, drive_or_fault, MC_TORQUE_LIMP_MAX_PERCENT.
  assert (0 <= bms) by int_lia.
  destruct (truthy brake), m; simpl; split_and!; try lia; intros; try done; lia.
Qed.

Lemma clamp_agreement_witness :
  fits U8 255 /\ mc_safety_clamp_torque 60 (VehicleMode_as_u8 Ready) 0 255 = 0 /\
  safety_clamp_torque 60 Ready (truthy 0) 255 = 60.
Proof.
  assert (fits U8 255) as Hf by (unfold fits; vm_compute; split; congruence).
  split; [exact Hf|].
  exact (proj2 (proj2 (clamp_agreement 60 Ready 0 255 Hf)) eq_refl eq_refl).
Defined.
