(* ===== verification/CFirmware.v ===== *)
(** * C firmware modules: battery, powertrain and gateway state
    ([firmware/bms_ecu/src], [firmware/powertrain_ecu/src], [firmware/gateway_ecu/src])

    One Module per C file, then the comparison with the Rust mirror: the chain from the
    pack temperature to the motor torque, the watchdog and the vehicle mode. *)

From S2P Require Import Prelude MachineInt Protocol Timeout Bms Powertrain Gateway CBase CProtocol.

Module bms_state.

Record bms_state_t := {
  state : Z;
  temp_c_x10 : Z;
  voltage_mv : Z;
  current_ma : Z;
  soc_percent : Z;
  fault_code : Z;
  charger_plugged : Z;
}.

Definition bms_state_init : bms_state_t := {|
  state := BMS_OK; temp_c_x10 := 0; voltage_mv := 0; current_ma := 0; soc_percent := 0;
  fault_code := MC_BMS_FAULT_NONE; charger_plugged := 0;
|}.

Definition bms_state_from_temp (temp : Z) : Z := mc_bms_determine_state temp.

Definition bms_state_fault_code (bs : bms_state_t) : Z :=
  if state bs =? BMS_CRITICAL_FAULT then MC_BMS_FAULT_OVERTEMP
  else if state bs =? BMS_LIMP_REQUEST then MC_BMS_FAULT_NONE
  else if state bs =? BMS_WARN_HOT then MC_BMS_FAULT_NONE
  else MC_BMS_FAULT_NONE.

Definition with_fault_code (bs : bms_state_t) (code : Z) : bms_state_t := {|
  state := state bs; temp_c_x10 := temp_c_x10 bs; voltage_mv := voltage_mv bs;
  current_ma := current_ma bs; soc_percent := soc_percent bs;
  fault_code := code; charger_plugged := charger_plugged bs;
|}.

Definition bms_state_update (bs : bms_state_t) (temp volt cur soc : Z) : bms_state_t * Z :=
  let bs := {| state := bms_state_from_temp temp;
               temp_c_x10 := temp; voltage_mv := volt; current_ma := cur; soc_percent := soc;
               fault_code := fault_code bs; charger_plugged := charger_plugged bs |} in
  let bs := with_fault_code bs (bms_state_fault_code bs) in
  (bs, state bs).

Definition bms_state_is_fault (bs : bms_state_t) : Z :=
  if state bs =? BMS_CRITICAL_FAULT then 1 else 0.
Definition bms_state_is_limp (bs : bms_state_t) : Z :=
  if state bs =? BMS_LIMP_REQUEST then 1 else 0.

End bms_state.

Module bms_limits.

Record bms_limits_t := { max_torque_percent : Z; reason : Z }.

Definition bms_limits_init : bms_limits_t := {| max_torque_percent := 255; reason := 0 |}.

(** Every case writes both members. *)
Definition bms_limits_compute (bl : bms_limits_t) (bms_state : Z) : bms_limits_t * Z :=
  let bl :=
    if bms_state =? BMS_OK then {| max_torque_percent := 255; reason := 0 |}
    else if bms_state =? BMS_WARN_HOT then {| max_torque_percent := 255; reason := 1 |}
    else if bms_state =? BMS_LIMP_REQUEST then
      {| max_torque_percent := MC_TORQUE_LIMP_MAX_PERCENT; reason := 2 |}
    else if bms_state =? BMS_CRITICAL_FAULT then
      {| max_torque_percent := MC_TORQUE_FAULT_MAX_PERCENT; reason := 3 |}
    else {| max_torque_percent := 255; reason := 0 |} in
  (bl, max_torque_percent bl).

Definition bms_limits_limp_max : Z := MC_TORQUE_LIMP_MAX_PERCENT.

End bms_limits.

Module safety_rules.

Definition safety_brake_overrides_throttle (brake_pressed : Z) : Z :=
  if truthy brake_pressed then 1 else 0.
Definition safety_fault_disables_motor (mode : Z) : Z := if mode =? VEHICLE_FAULT then 1 else 0.
Definition safety_mode_blocks_torque (mode : Z) : Z :=
  if negb (mode =? VEHICLE_DRIVE) && negb (mode =? VEHICLE_LIMP) then 1 else 0.
Definition safety_limp_torque_cap (mode : Z) : Z :=
  if mode =? VEHICLE_LIMP then MC_TORQUE_LIMP_MAX_PERCENT else 255.
Definition safety_throttle_invalid (throttle_percent : Z) : Z :=
  if 100 <? throttle_percent then 1 else 0.

Definition safety_clamp_torque (requested_torque mode brake_pressed bms_max_torque : Z) : Z :=
  if truthy (safety_brake_overrides_throttle brake_pressed) then 0
  else if truthy (safety_mode_blocks_torque mode) then 0
  else
    let effective_max := 100 in
    let limp_cap := safety_limp_torque_cap mode in
    let effective_max := if limp_cap <? effective_max then limp_cap else effective_max in
    let effective_max := if bms_max_torque <? effective_max then bms_max_torque else effective_max in
    let requested_torque := if requested_torque <? 0 then 0 else requested_torque in
    if cast I8 effective_max <? requested_torque then cast I8 effective_max else requested_torque.

End safety_rules.

Module torque_controller.
Import safety_rules.

Record torque_controller_t := {
  throttle_percent : Z;
  brake_pressed : Z;
  gear : Z;
  vehicle_mode : Z;
  bms_torque_limit : Z;
  output_torque : Z;
  motor_enable : Z;
}.

Definition torque_controller_init : torque_controller_t := {|
  throttle_percent := 0; brake_pressed := 0; gear := 0; vehicle_mode := VEHICLE_OFF;
  bms_torque_limit := 255; output_torque := 0; motor_enable := 1;
|}.

Definition torque_controller_set_input (tc : torque_controller_t) (throttle brake g : Z) := {|
  throttle_percent := throttle; brake_pressed := brake; gear := g;
  vehicle_mode := vehicle_mode tc; bms_torque_limit := bms_torque_limit tc;
  output_torque := output_torque tc; motor_enable := motor_enable tc;
|}.

Definition torque_controller_set_mode (tc : torque_controller_t) (mode : Z) := {|
  throttle_percent := throttle_percent tc; brake_pressed := brake_pressed tc; gear := gear tc;
  vehicle_mode := mode; bms_torque_limit := bms_torque_limit tc;
  output_torque := output_torque tc; motor_enable := motor_enable tc;
|}.

Definition torque_controller_set_bms_limit (tc : torque_controller_t) (max_torque : Z) := {|
  throttle_percent := throttle_percent tc; brake_pressed := brake_pressed tc; gear := gear tc;
  vehicle_mode := vehicle_mode tc; bms_torque_limit := max_torque;
  output_torque := output_torque tc; motor_enable := motor_enable tc;
|}.

(** The two members [torque_controller_compute] writes. *)
Definition with_output (tc : torque_controller_t) (torque enable : Z) := {|
  throttle_percent := throttle_percent tc; brake_pressed := brake_pressed tc; gear := gear tc;
  vehicle_mode := vehicle_mode tc; bms_torque_limit := bms_torque_limit tc;
  output_torque := torque; motor_enable := enable;
|}.

Definition torque_controller_compute (tc : torque_controller_t) : torque_controller_t * Z :=
  if truthy (safety_throttle_invalid (throttle_percent tc)) then (with_output tc 0 0, 0)
  else
    let requested := cast I8 (throttle_percent tc) in
    let torque :=
      safety_clamp_torque requested (vehicle_mode tc) (brake_pressed tc) (bms_torque_limit tc) in
    (with_output tc torque (if truthy (safety_mode_blocks_torque (vehicle_mode tc)) then 0 else 1),
     torque).

Definition torque_controller_throttle_invalid (tc : torque_controller_t) : Z :=
  safety_throttle_invalid (throttle_percent tc).

(** The calls of the powertrain's loop. *)
Inductive op : Set :=
  | SetInput (throttle brake gear : Z) | SetMode (mode : Z) | SetBmsLimit (max_torque : Z) | Compute.

Definition step (tc : torque_controller_t) (o : op) : torque_controller_t :=
  match o with
  | SetInput t b g => torque_controller_set_input tc t b g
  | SetMode m => torque_controller_set_mode tc m
  | SetBmsLimit m => torque_controller_set_bms_limit tc m
  | Compute => fst (torque_controller_compute tc)
  end.

Definition run (tc : torque_controller_t) (ops : list op) : torque_controller_t := fold_left step ops tc.

End torque_controller.

Module watchdog_task.

Record watchdog_task_t := {
  last_gateway_beat_ms : Z;
  gateway_online : Z;
  torque_disabled : Z;
}.

Definition watchdog_init : watchdog_task_t :=
  {| last_gateway_beat_ms := 0; gateway_online := 0; torque_disabled := 0 |}.

Definition watchdog_gateway_beat (wd : watchdog_task_t) (now_ms : Z) : watchdog_task_t :=
  {| last_gateway_beat_ms := now_ms; gateway_online := 1; torque_disabled := 0 |}.

(** [uint32_t] subtraction wraps. *)
Definition watchdog_check (wd : watchdog_task_t) (now_ms : Z) : watchdog_task_t * Z :=
  if negb (truthy (gateway_online wd)) then
    ({| last_gateway_beat_ms := last_gateway_beat_ms wd;
        gateway_online := gateway_online wd;
        torque_disabled := 1 |}, 1)
  else
    let elapsed := cast U32 (now_ms - last_gateway_beat_ms wd) in
    if MC_SAFETY_GATEWAY_TIMEOUT_MS <=? elapsed then
      ({| last_gateway_beat_ms := last_gateway_beat_ms wd;
          gateway_online := 0;
          torque_disabled := 1 |}, 1)
    else
      ({| last_gateway_beat_ms := last_gateway_beat_ms wd;
          gateway_online := gateway_online wd;
          torque_disabled := 0 |}, 0).

Definition watchdog_gateway_online (wd : watchdog_task_t) : Z := gateway_online wd.
Definition watchdog_reset (wd : watchdog_task_t) : watchdog_task_t := watchdog_init.

Definition step (wd : watchdog_task_t) (e : event) : watchdog_task_t :=
  match e with
  | Beat now => watchdog_gateway_beat wd now
  | Check now => fst (watchdog_check wd now)
  end.

Definition run (wd : watchdog_task_t) (es : list event) : watchdog_task_t := fold_left step es wd.

End watchdog_task.

Module gateway_state.

Record gateway_state_t := {
  mode : Z;
  all_nodes_online : Z;
  bms_fault_active : Z;
  bms_limp_requested : Z;
  active_fault_count : Z;
  booted : Z;
}.

Definition gateway_state_init : gateway_state_t := {|
  mode := VEHICLE_OFF; all_nodes_online := 0; bms_fault_active := 0; bms_limp_requested := 0;
  active_fault_count := 0; booted := 1;
|}.

Definition gateway_state_update (gs : gateway_state_t) (all_online fault limp fault_count : Z)
    : gateway_state_t * Z :=
  let m := mc_gateway_determine_mode (mode gs) all_online fault limp 1 in
  ({| mode := m; all_nodes_online := all_online; bms_fault_active := fault;
      bms_limp_requested := limp; active_fault_count := fault_count; booted := booted gs |}, m).

Definition gateway_state_enter_drive (gs : gateway_state_t) : gateway_state_t :=
  if mode gs =? VEHICLE_READY then
    {| mode := VEHICLE_DRIVE; all_nodes_online := all_nodes_online gs;
       bms_fault_active := bms_fault_active gs; bms_limp_requested := bms_limp_requested gs;
       active_fault_count := active_fault_count gs; booted := booted gs |}
  else gs.

Definition gateway_state_reboot (gs : gateway_state_t) : gateway_state_t := {|
  mode := VEHICLE_OFF; all_nodes_online := 0; bms_fault_active := 0; bms_limp_requested := 0;
  active_fault_count := 0; booted := 0;
|}.

Definition gateway_mode_string (m : Z) : string :=
  if m =? VEHICLE_OFF then "OFF"
  else if m =? VEHICLE_READY then "READY"
  else if m =? VEHICLE_DRIVE then "DRIVE"
  else if m =? VEHICLE_LIMP then "LIMP"
  else if m =? VEHICLE_FAULT then "FAULT"
  else if m =? VEHICLE_CHARGING then "CHARGING"
  else if m =? VEHICLE_SERVICE then "SERVICE"
  else if m =? VEHICLE_OTA_UPDATE then "OTA_UPDATE"
  else if m =? VEHICLE_TRANSPORT_MODE then "TRANSPORT_MODE"
  else "UNKNOWN".

Inductive op : Set :=
  | Update (all_online fault limp fault_count : Z) | EnterDrive | Reboot.

Definition step (gs : gateway_state_t) (o : op) : gateway_state_t :=
  match o with
  | Update a f l n => fst (gateway_state_update gs a f l n)
  | EnterDrive => gateway_state_enter_drive gs
  | Reboot => gateway_state_reboot gs
  end.

Definition run (gs : gateway_state_t) (ops : list op) : gateway_state_t := fold_left step ops gs.

(** The same call on the Rust mirror. *)
Definition mirror_op (o : op) : GatewayState.op :=
  match o with
  | Update a f l n => GatewayState.Update (truthy a) (truthy f) (truthy l) n
  | EnterDrive => GatewayState.EnterDrive
  | Reboot => GatewayState.Reboot
  end.

(** Same mode, same flags; the mirror has no boot flag. *)
Definition mirrors (gs : gateway_state_t) (s : GatewayState.t) : Prop :=
  mode gs = VehicleMode_as_u8 (GatewayState.mode s) /\
  truthy (all_nodes_online gs) = GatewayState.all_nodes_online s /\
  truthy (bms_fault_active gs) = GatewayState.bms_fault_active s /\
  truthy (bms_limp_requested gs) = GatewayState.bms_limp_requested s /\
  active_fault_count gs = GatewayState.active_fault_count s.

End gateway_state.

(** ** The torque path *)

Import torque_controller.

(** The powertrain's clamp and the one of the protocol library are one function. *)
Lemma powertrain_clamp_is_common requested mode brake bms :
  fits U8 bms ->
  safety_rules.safety_clamp_torque requested mode brake bms =
  mc_safety_clamp_torque requested mode brake bms.
Proof.
  intros Hb. unfold safety_rules.safety_clamp_torque, mc_safety_clamp_torque.
  unfold safety_rules.safety_brake_overrides_throttle, safety_rules.safety_mode_blocks_torque,
    safety_rules.safety_limp_torque_cap.
  destruct (truthy brake); [done|].
  destruct (Z.eqb_spec mode VEHICLE_DRIVE) as [->|Hd]; [|destruct (Z.eqb_spec mode VEHICLE_LIMP) as [->|Hl]; [|done]];
    cbn [negb andb truthy]; simpl; change (cast I8 MC_TORQUE_LIMP_MAX_PERCENT) with 25;
    unfold MC_TORQUE_LIMP_MAX_PERCENT in *.
  - change (255 <? 100) with false. cbv iota. destruct (Z.ltb_spec bms 100); by rewrite ?cast_id by int_lia.
  - change (25 <? 100) with true. cbv iota. destruct (Z.ltb_spec bms 25); by rewrite ?cast_id by int_lia.
Qed.

Lemma compute_torque tc :
  fits U8 (bms_torque_limit tc) -> fits U8 (throttle_percent tc) ->
  snd (torque_controller_compute tc) =
  if 100 <? throttle_percent tc then 0
  else Z.min (throttle_percent tc)
         (c_torque_ceiling (vehicle_mode tc) (brake_pressed tc) (bms_torque_limit tc)).
Proof.
  intros Hb Ht. unfold torque_controller_compute, safety_rules.safety_throttle_invalid.
  destruct (Z.ltb_spec 100 (throttle_percent tc)); [done|]. simpl.
  rewrite powertrain_clamp_is_common, c_clamp_closed_form, cast_id by (done || int_lia).
  f_equal. int_lia.
Qed.

(** The calls pass values of the parameters' types. *)
Definition op_ok (o : op) : Prop :=
  match o with
  | SetInput t _ _ => fits U8 t
  | SetBmsLimit m => fits U8 m
  | _ => True
  end.

(** The same call on the Rust mirror, a mode it does not have read by its [from_u8]. *)
Definition mirror_step (r : TorqueController.t) (o : op) : TorqueController.t :=
  match o with
  | SetInput t b g => TorqueController.set_input r t (truthy b) g
  | SetMode m => TorqueController.set_mode r (VehicleMode_from_u8 m)
  | SetBmsLimit m => TorqueController.set_bms_limit r m
  | Compute => fst (TorqueController.compute r)
  end.

(** The controllers hold the same inputs, and the firmware's output is at most the
    mirror's. *)
Definition bounded_by (c : torque_controller_t) (r : TorqueController.t) : Prop :=
  (throttle_percent c = TorqueController.throttle_percent r /\ fits U8 (throttle_percent c)) /\
  truthy (brake_pressed c) = TorqueController.brake_pressed r /\
  VehicleMode_from_u8 (vehicle_mode c) = TorqueController.vehicle_mode r /\
  (bms_torque_limit c = TorqueController.bms_torque_limit r /\ fits U8 (bms_torque_limit c)) /\
  0 <= output_torque c <= TorqueController.output_torque r /\
  (motor_enable c = 0 -> output_torque c = 0) /\
  (motor_enable c = 0 \/ TorqueController.motor_enable r = true).

Lemma ceiling_le mode brake bms :
  fits U8 bms ->
  0 <= c_torque_ceiling mode brake bms <= torque_ceiling (VehicleMode_from_u8 mode) (truthy brake) bms.
Proof.
  intros Hb. assert (0 <= bms) by int_lia.
  unfold c_torque_ceiling, torque_ceiling, MC_TORQUE_LIMP_MAX_PERCENT.
  destruct (truthy brake); simpl; [lia|].
  destruct (Z.eqb_spec mode VEHICLE_DRIVE) as [->|Hd]; [simpl; lia|].
  destruct (Z.eqb_spec mode VEHICLE_LIMP) as [->|Hl]; [simpl; lia|].
  repeat case_match; lia.
Qed.

Lemma ceiling_eq mode brake bms :
  drive_or_fault (VehicleMode_from_u8 mode) = true \/ truthy brake = true ->
  c_torque_ceiling mode brake bms = torque_ceiling (VehicleMode_from_u8 mode) (truthy brake) bms.
Proof.
  unfold c_torque_ceiling, torque_ceiling. destruct (truthy brake); simpl; [done|].
  intros [H|H]; [|done]. unfold MC_TORQUE_LIMP_MAX_PERCENT.
  unfold VehicleMode_from_u8 in *. repeat case_match; simplify_eq/=; try done;
    unfold VEHICLE_DRIVE, VEHICLE_LIMP in *; bool_prop; lia || done.
Qed.

Lemma mirror_wf c r : bounded_by c r -> TorqueController.wf r.
Proof. intros ((Ht & Hft) & _ & _ & (Hb & Hfb) & _). split; congruence. Qed.

Lemma compute_bounded c r :
  bounded_by c r ->
  0 <= snd (torque_controller_compute c) <= snd (TorqueController.compute r) /\
  (drive_or_fault (VehicleMode_from_u8 (vehicle_mode c)) = true \/ truthy (brake_pressed c) = true ->
   snd (torque_controller_compute c) = snd (TorqueController.compute r)).
Proof.
  intros H. pose proof (mirror_wf c r H) as Hwf.
  destruct H as ((Ht & Hft) & Hbr & Hm & (Hb & Hfb) & _).
  rewrite compute_torque, compute_closed_form by done. rewrite <- Ht, <- Hbr, <- Hm, <- Hb.
  pose proof (ceiling_le (vehicle_mode c) (brake_pressed c) (bms_torque_limit c) Hfb).
  destruct (100 <? throttle_percent c); [done|]. split.
  - assert (0 <= throttle_percent c) by int_lia. lia.
  - intros He. by rewrite ceiling_eq.
Qed.

Lemma compute_enable c :
  fits U8 (bms_torque_limit c) -> fits U8 (throttle_percent c) ->
  motor_enable (fst (torque_controller_compute c)) = 0 -> snd (torque_controller_compute c) = 0.
Proof.
  intros Hb Ht H. rewrite compute_torque by done.
  unfold torque_controller_compute, safety_rules.safety_throttle_invalid, safety_rules.safety_mode_blocks_torque,
    c_torque_ceiling in *.
  destruct (100 <? throttle_percent c); simpl in *; [done|].
  destruct (vehicle_mode c =? VEHICLE_DRIVE), (vehicle_mode c =? VEHICLE_LIMP); simpl in *; try done.
  destruct (truthy (brake_pressed c)); int_lia.
Qed.

Lemma output_computed tc :
  output_torque (fst (torque_controller_compute tc)) = snd (torque_controller_compute tc).
Proof. unfold torque_controller_compute. by case_match. Qed.

Lemma mirror_output_computed r :
  TorqueController.output_torque (fst (TorqueController.compute r)) = snd (TorqueController.compute r).
Proof. unfold TorqueController.compute. by case_match. Qed.

Lemma bounded_step c r o : op_ok o -> bounded_by c r -> bounded_by (step c o) (mirror_step r o).
Proof.
  intros Ho H. pose proof (compute_bounded c r H) as [Hc _].
  pose proof H as ((Ht & Hft) & Hbr & Hm & (Hb & Hfb) & Hout & Hen & Hmot).
  destruct o as [t b g|m|m|]; simpl in *.
  1-3: unfold bounded_by in *; simpl; split_and!; try done; apply Hout.
  pose proof (compute_enable c Hfb Hft) as He.
  rewrite <- output_computed in Hc, He. rewrite <- mirror_output_computed in Hc.
  assert (motor_enable (fst (torque_controller_compute c)) = 0 \/
          TorqueController.motor_enable (fst (TorqueController.compute r)) = true) as Hor.
  { unfold torque_controller_compute, TorqueController.compute, safety_rules.safety_throttle_invalid,
      safety_rules.safety_mode_blocks_torque. rewrite <- Ht, <- Hm.
    destruct (100 <? throttle_percent c); simpl; [by left|].
    destruct (Z.eqb_spec (vehicle_mode c) VEHICLE_DRIVE) as [->|Hd]; [by right|].
    destruct (Z.eqb_spec (vehicle_mode c) VEHICLE_LIMP) as [->|Hl]; [by right|by left]. }
  unfold bounded_by. split_and!; try done; try apply Hc; clear Hor He;
    unfold torque_controller_compute, TorqueController.compute in *; rewrite <- ?Ht in *;
    repeat case_match; simpl in *; done.
Qed.

Lemma bounded_run ops c r :
  Forall op_ok ops -> bounded_by c r -> bounded_by (run c ops) (fold_left mirror_step ops r).
Proof.
  revert c r; induction ops as [|o ops IH]; intros c r Ho H; [done|].
  apply Forall_cons in Ho as [Ho1 Ho]. simpl. apply IH; [done|]. by apply bounded_step.
Qed.

Lemma bounded_init : bounded_by torque_controller_init TorqueController.default.
Proof. unfold bounded_by; simpl. split_and!; by first [done | int_lia | right]. Qed.

(** C13: The powertrain firmware refines its Rust mirror towards safety.  After any sequence of
    calls from initialisation, with any brake byte and any vehicle mode, also the ones the
    mirror lacks, the firmware commands a torque between zero and the mirror's, never
    commands torque with the motor disabled, and enables the motor only if the mirror
    does.  In DRIVE, LIMP and FAULT and under the brake the next computed torque is exactly
    the mirror's, so every bound proved of the mirror holds of the firmware. *)
Theorem torque_controller_refines ops :
  Forall op_ok ops ->
  let c := run torque_controller_init ops in
  let r := fold_left mirror_step ops TorqueController.default in
  0 <= output_torque c <= TorqueController.output_torque r /\
  (motor_enable c = 0 -> output_torque c = 0) /\
  (motor_enable c = 0 \/ TorqueController.motor_enable r = true) /\
  (drive_or_fault (TorqueController.vehicle_mode r) = true \/ truthy (brake_pressed c) = true ->
   output_torque (step c Compute) = TorqueController.output_torque (mirror_step r Compute)).
Proof.
  intros Ho c r. pose proof (bounded_run ops _ _ Ho bounded_init) as H. fold c r in H.
  pose proof (compute_bounded c r H) as [_ Heq].
  destruct H as (_ & _ & Hm & _ & Hout & Hen & Hmot).
  split_and!; try done; try apply Hout. rewrite <- Hm. intros Hd. simpl.
  rewrite output_computed, mirror_output_computed. by apply Heq.
Qed.

Lemma torque_controller_refines_witness :
  Forall op_ok [SetInput 80 0 1; SetMode VEHICLE_DRIVE; SetBmsLimit 50; Compute] /\
  output_torque (run torque_controller_init [SetInput 80 0 1; SetMode VEHICLE_DRIVE; SetBmsLimit 50; Compute]) = 50 /\
  50 <= TorqueController.output_torque
          (fold_left mirror_step [SetInput 80 0 1; SetMode VEHICLE_DRIVE; SetBmsLimit 50; Compute]
             TorqueController.default).
Proof.
  assert (Forall op_ok [SetInput 80 0 1; SetMode VEHICLE_DRIVE; SetBmsLimit 50; Compute]) as Ho
    by (repeat constructor; vm_compute; congruence).
  split; [exact Ho|]. split; [reflexivity|].
  exact (proj2 (proj1 (torque_controller_refines _ Ho))).
Defined.

(** The limit the BMS firmware publishes. *)
Lemma c_limit_closed_form bs bl temp volt cur soc :
  snd (bms_limits.bms_limits_compute bl (snd (bms_state.bms_state_update bs temp volt cur soc))) =
  if 900 <=? temp then 0 else if 750 <=? temp then 25 else 255.
Proof.
  unfold bms_state.bms_state_update, bms_state.bms_state_from_temp. simpl. rewrite c_bms_thresholds.
  by destruct (900 <=? temp), (750 <=? temp), (600 <=? temp).
Qed.

(** C14: Over-temperature in the firmware, from the sensor to the motor.  Whatever happened
    before, once the limit the BMS firmware derives from a pack temperature reaches the
    controller, the computed torque is at most 25 percent from 75.0 degrees and zero from
    90.0 degrees, so never above what the documents allow, which ask for the limits strictly
    above 75.0 and 90.0: at exactly 60.0, 75.0 and 90.0 degrees, and nowhere else, the
    firmware's state is one level more severe than the documents'.  The torque is at most
    that of the Rust mirror, whose limits set in at 76.0 and 91.0 degrees: the two classify a
    temperature alike except in the bands 60.0-60.9, 75.0-75.9 and 90.0-90.9 degrees, where
    the firmware is one level more severe. *)
Theorem firmware_overtemp bs bl bms ops temp volt cur soc :
  Forall op_ok ops ->
  let '(_, st) := bms_state.bms_state_update bs temp volt cur soc in
  let '(_, limit) := bms_limits.bms_limits_compute bl st in
  let '(_, st') := BmsStateMachine.update bms temp volt cur soc in
  let '(_, limit') := BmsLimits.compute BmsLimits.default st' in
  let torque := output_torque (run torque_controller_init (ops ++ [SetBmsLimit limit; Compute])) in
  let mirror := TorqueController.output_torque
                  (fold_left mirror_step (ops ++ [SetBmsLimit limit'; Compute]) TorqueController.default) in
  st = BmsState_as_u8 st' + Z.b2z (disagreement_band temp) /\
  st = documented_state temp + Z.b2z (at_threshold temp) /\
  0 <= torque <= mirror /\ torque <= documented_ceiling temp /\
  (750 <= temp -> torque <= 25) /\ (900 <= temp -> torque = 0).
Proof.
  intros Ho. pose proof (c_limit_closed_form bs bl temp volt cur soc) as Hl.
  pose proof (bms_state_agreement temp : snd (bms_state.bms_state_update bs temp volt cur soc) = _) as Hst.
  pose proof (bms_state_documented temp : snd (bms_state.bms_state_update bs temp volt cur soc) = _) as Hdoc.
  destruct (bms_state.bms_state_update bs temp volt cur soc) as [bs1 st]. cbn [snd] in Hl, Hst, Hdoc.
  destruct (bms_limits.bms_limits_compute bl st) as [bl1 limit]. cbn [snd] in Hl.
  pose proof (limit_at_closed_form temp) as Hl'. unfold limit_at in Hl'.
  unfold BmsStateMachine.update. cbv zeta.
  destruct (BmsLimits.compute BmsLimits.default (bms_determine_state temp)) as [r1 limit']. cbn [snd] in Hl'. split; [exact Hst|]. split; [exact Hdoc|].
  pose proof (bounded_run ops _ _ Ho bounded_init) as H. unfold run in *. rewrite !fold_left_app. simpl.
  set (c := fold_left step ops torque_controller_init) in *.
  set (r := fold_left mirror_step ops TorqueController.default) in *.
  destruct H as ((Ht & Hft) & Hbr & Hm & _).
  assert (fits U8 limit /\ fits U8 limit' /\ limit <= limit') as (Hf & Hf' & Hle).
  { subst limit limit'. int_unfold. repeat case_match; bool_prop; lia. }
  rewrite output_computed, mirror_output_computed.
  rewrite compute_torque, compute_closed_form by (done || split; simpl; congruence). simpl.
  rewrite <- Ht, <- Hbr, <- Hm.
  pose proof (ceiling_le (vehicle_mode c) (brake_pressed c) limit Hf).
  assert (torque_ceiling (VehicleMode_from_u8 (vehicle_mode c)) (truthy (brake_pressed c)) limit <=
          torque_ceiling (VehicleMode_from_u8 (vehicle_mode c)) (truthy (brake_pressed c)) limit')
    by (unfold torque_ceiling; repeat case_match; lia).
  assert (c_torque_ceiling (vehicle_mode c) (brake_pressed c) limit <= Z.max 0 limit)
    by (unfold c_torque_ceiling; repeat case_match; lia).
  assert (0 <= documented_ceiling temp <= 100) as Hdc by (unfold documented_ceiling; repeat case_match; lia).
  destruct (Z.ltb_spec 100 (throttle_percent c)); [lia|]. assert (0 <= throttle_percent c) by int_lia.
  unfold documented_ceiling. split; [lia|]. subst limit. repeat case_match; bool_prop; lia.
Qed.

Lemma firmware_overtemp_witness :
  Forall op_ok [SetInput 100 0 1; SetMode VEHICLE_DRIVE] /\
  output_torque (run torque_controller_init
    ([SetInput 100 0 1; SetMode VEHICLE_DRIVE] ++ [SetBmsLimit 25; Compute])) <= 25.
Proof.
  assert (Forall op_ok [SetInput 100 0 1; SetMode VEHICLE_DRIVE]) as Ho
    by (repeat constructor; vm_compute; congruence).
  split; [exact Ho|].
  exact (proj1 (proj2 (proj2 (proj2 (proj2 (firmware_overtemp bms_state.bms_state_init bms_limits.bms_limits_init
           BmsStateMachine.default _ 755 48000 0 80 Ho))))) ltac:(lia)).
Defined.

(** ** The watchdog *)

Import watchdog_task.

#[export] Instance c_watchdog_supervisor : Supervisor watchdog_task_t := {
  sv_timeout := fun _ => MC_SAFETY_GATEWAY_TIMEOUT_MS;
  sv_trusted := fun wd =>
    if truthy (watchdog_gateway_online wd) then Some (last_gateway_beat_ms wd) else None;
  sv_step := fun _ wd e => Ret (watchdog_task.step wd e);
}.

#[export] Instance c_watchdog_laws : SupervisorLaws watchdog_task_t.
Proof.
  constructor. intros p wd e now Hp Hn Hf. unfold sv_past, sv_trusted, sv_step, sv_timeout in *; simpl in *.
  eexists. split_and!; [done| |done]. destruct e as [t|t]; simpl in *; [done|].
  unfold watchdog_check, watchdog_gateway_online in *.
  destruct (truthy (gateway_online wd)) eqn:Hon; simpl; [|by rewrite Hon].
  rewrite cast_id by int_lia.
  destruct (Z.leb_spec MC_SAFETY_GATEWAY_TIMEOUT_MS (t - last_gateway_beat_ms wd)),
    (Z.ltb_spec (t - last_gateway_beat_ms wd) MC_SAFETY_GATEWAY_TIMEOUT_MS); try lia; simpl; by rewrite ?Hon.
Qed.

Definition same_watch (wd : watchdog_task_t) (w : WatchdogTask.t) : Prop :=
  last_gateway_beat_ms wd = WatchdogTask.last_gateway_beat_ms w /\
  truthy (gateway_online wd) = WatchdogTask.gateway_online w.

(** One event, whatever the two disagreed on about [torque_disabled] before. *)
Lemma watchdog_step_mirror wd w e :
  same_watch wd w ->
  exists w', WatchdogTask.step Release w e = Ret w' /\
             same_watch (watchdog_task.step wd e) w' /\
             truthy (torque_disabled (watchdog_task.step wd e)) = WatchdogTask.torque_disabled w'.
Proof.
  intros [Hl Hon]. destruct e as [t|t]; simpl; [by eexists|].
  unfold watchdog_check, WatchdogTask.check. rewrite <- Hl, <- Hon.
  destruct (truthy (gateway_online wd)) eqn:Ho; simpl.
  - rewrite arith_release. simpl. case_match; eexists; (split_and!; [done| |done]); by split; rewrite ?Ho.
  - eexists. split_and!; [done| |done]. split; simpl; congruence.
Qed.

Lemma watchdog_run_mirror es wd w :
  same_watch wd w ->
  exists w', sv_run Release w es = Ret w' /\ same_watch (watchdog_task.run wd es) w' /\
    (es <> [] -> truthy (torque_disabled (watchdog_task.run wd es)) = WatchdogTask.torque_disabled w').
Proof.
  revert wd w; induction es as [|e es IH]; intros wd w H; [by exists w|].
  destruct (watchdog_step_mirror wd w e H) as (w1 & H1 & Hs & Ht).
  unfold sv_run in *. simpl. rewrite H1. simpl.
  destruct (IH _ _ Hs) as (w2 & H2 & Hs2 & Ht2). exists w2. split_and!; [done|done|].
  intros _. destruct es as [|e2 es]; [|by apply Ht2].
  simpl in *. by injection H2 as <-.
Qed.

(** The C watchdog and the Rust one decide alike for every sequence of beats and checks,
    also with a clock that runs backwards (the [uint32_t] difference wraps as in an unchecked
    build): after the first event they trust the same beat and agree on whether torque is
    disabled.  Before it they differ: the C one starts with torque not disabled.  While the
    clock does not run back the torque is enabled exactly when some beat was followed only by
    checks less than 250 ms after it. *)
Theorem watchdog_firmware_mirrors es :
  torque_disabled watchdog_init = 0 /\ WatchdogTask.torque_disabled WatchdogTask.default = true /\
  (es <> [] ->
   let wd := watchdog_task.run watchdog_init es in
   exists w, sv_run Release WatchdogTask.default es = Ret w /\
     last_gateway_beat_ms wd = WatchdogTask.last_gateway_beat_ms w /\
     truthy (gateway_online wd) = WatchdogTask.gateway_online w /\
     truthy (torque_disabled wd) = WatchdogTask.torque_disabled w /\
     (ordered_from 0 es ->
      (torque_disabled wd = 0 <-> exists es1 t0 es2, es = es1 ++ Beat t0 :: es2 /\ fresh 250 t0 es2))).
Proof.
  split; [done|]. split; [done|]. intros Hes wd.
  destruct (watchdog_run_mirror es watchdog_init WatchdogTask.default) as (w & Hr & [Hl Hon] & Ht); [done|].
  specialize (Ht Hes). fold wd in Hl, Hon, Ht. exists w. split_and!; try done. intros Ho.
  rewrite <- (watchdog_enabled_iff Release es w Ho Hr), <- Ht.
  unfold truthy. destruct (Z.eqb_spec (torque_disabled wd) 0); simpl; split; congruence.
Qed.

Lemma watchdog_firmware_mirrors_witness :
  torque_disabled (watchdog_task.run watchdog_init [Beat 100; Check 349]) = 0 /\
  exists w, sv_run Release WatchdogTask.default [Beat 100; Check 349] = Ret w.
Proof.
  split; [reflexivity|].
  destruct (proj2 (proj2 (watchdog_firmware_mirrors [Beat 100; Check 349])) ltac:(discriminate)) as (w & Hw & _).
  by exists w.
Defined.

(** ** The vehicle mode *)

Import gateway_state.

Lemma gateway_step_mirror gs s o :
  mirrors gs s -> mirrors (gateway_state.step gs o) (GatewayState.step s (mirror_op o)).
Proof.
  intros (Hm & Ha & Hf & Hl & Hn). destruct o as [a f l n| |]; simpl.
  - split_and!; try done. simpl. by rewrite Hm, c_gateway_mode_agreement.
  - unfold gateway_state_enter_drive, GatewayState.enter_drive. rewrite Hm.
    destruct (GatewayState.mode s) eqn:E; cbn [VehicleMode_as_u8]; eval_decide;
      unfold mirrors; cbn; rewrite ?E; split_and!; done.
  - by split_and!.
Qed.

Lemma gateway_run_mirror ops gs s :
  mirrors gs s -> mirrors (gateway_state.run gs ops) (GatewayState.run s (map mirror_op ops)).
Proof.
  revert gs s; induction ops as [|o ops IH]; intros gs s H; [done|].
  simpl. by apply IH, gateway_step_mirror.
Qed.

(** The gateway firmware and its Rust mirror are bisimilar: after any sequence of updates
    (with arbitrary flag bytes), drive requests and reboots from power-on they are in the
    same mode with the same flags and fault count, the next update returns the same mode, and
    the mode prints the same: what is proved of the mirror's mode, that FAULT is left
    by a reboot only among it, holds of the firmware. *)
Theorem gateway_firmware_mirrors ops :
  let gs := gateway_state.run gateway_state_init ops in
  let s := GatewayState.run GatewayState.default (map mirror_op ops) in
  mirrors gs s /\ gateway_mode_string (mode gs) = mode_name (GatewayState.mode s) /\
  (forall a f l n, snd (gateway_state_update gs a f l n) =
     VehicleMode_as_u8 (snd (GatewayState.update s (truthy a) (truthy f) (truthy l) n))).
Proof.
  intros gs s. assert (mirrors gs s) as H by (by apply gateway_run_mirror).
  pose proof H as (Hm & _). split; [done|]. split.
  - rewrite Hm. by destruct (GatewayState.mode s).
  - intros a f l n. simpl. by rewrite Hm, c_gateway_mode_agreement.
Qed.
