(* ===== verification/CTables.v ===== *)
(** * C firmware modules with fixed tables: the gateway's faults
    ([firmware/gateway_ecu/src/fault_manager.c])

    The Rust mirror keeps a growable list where the firmware has an array with a fill count.
    The theorem says that the firmware never leaves its array, that it agrees with the
    mirror as long as the table has room, and what it does when it is full. *)

From S2P Require Import Prelude MachineInt Protocol Timeout Gateway Dashboard CBase CProtocol.

Module fault_manager.

Definition FM_MAX_FAULTS : Z := 16.

Record fm_fault_t := { source_node : Z; fault_code : Z; active : Z; severity : Z }.

Record fault_manager_t := {
  faults : list fm_fault_t;
  fault_count : Z;
  critical_count : Z;
  warning_count : Z;
}.

Definition zero_fault : fm_fault_t :=
  {| source_node := 0; fault_code := 0; active := 0; severity := 0 |}.

Definition fault_manager_init : fault_manager_t := {|
  faults := replicate (Z.to_nat FM_MAX_FAULTS) zero_fault;
  fault_count := 0; critical_count := 0; warning_count := 0;
|}.

Definition with_faults (fm : fault_manager_t) (fs : list fm_fault_t) : fault_manager_t := {|
  faults := fs; fault_count := fault_count fm;
  critical_count := critical_count fm; warning_count := warning_count fm;
|}.

(** [if (severity == 2) fm->critical_count += d; else if (severity == 1) ...] on [uint8_t]
    counters; [d] is 1 or -1. *)
Definition bump (fm : fault_manager_t) (sev d : Z) : fault_manager_t :=
  if sev =? 2 then
    {| faults := faults fm; fault_count := fault_count fm;
       critical_count := cast U8 (critical_count fm + d); warning_count := warning_count fm |}
  else if sev =? 1 then
    {| faults := faults fm; fault_count := fault_count fm;
       critical_count := critical_count fm; warning_count := cast U8 (warning_count fm + d) |}
  else fm.

Definition set_active (a : Z) (f : fm_fault_t) : fm_fault_t :=
  {| source_node := source_node f; fault_code := fault_code f; active := a; severity := severity f |}.
Definition set_severity (s : Z) (f : fm_fault_t) : fm_fault_t :=
  {| source_node := source_node f; fault_code := fault_code f; active := active f; severity := s |}.

Definition matches (source code : Z) (f : fm_fault_t) : bool :=
  (source_node f =? source) && (fault_code f =? code).

(** The body of the first loop of [fault_manager_report]. *)
Definition report_existing (source code sev i : Z) (fm : fault_manager_t)
    : outcome (ctl fault_manager_t (fault_manager_t * Z)) :=
  let! f := load (faults fm) i in
  if matches source code f then
    let fm' := if negb (truthy (active f)) then bump fm sev 1 else fm in
    let f' := if negb (truthy (active f)) then set_active 1 f else f in
    let! fs := store (faults fm') i (set_severity sev f') in
    Ret (Done (with_faults fm' fs, 0))
  else Ret (Next fm).

Definition fault_manager_report (fm : fault_manager_t) (source code sev : Z)
    : outcome (fault_manager_t * Z) :=
  let! c := for_ (report_existing source code sev) 0 (Z.to_nat (fault_count fm)) fm in
  match c with
  | Done r => Ret r
  | Next fm =>
      if FM_MAX_FAULTS <=? fault_count fm then Ret (fm, -1)
      else
        let! fs := store (faults fm) (fault_count fm)
          {| source_node := source; fault_code := code; active := 1; severity := sev |} in
        let fm := {| faults := fs; fault_count := cast U8 (fault_count fm + 1);
                     critical_count := critical_count fm; warning_count := warning_count fm |} in
        Ret (bump fm sev 1, 0)
  end.

(** What the three clearing loops do with a fault they select. *)
Definition retire (i : Z) (f : fm_fault_t) (fm : fault_manager_t) : outcome fault_manager_t :=
  let fm := bump fm (severity f) (-1) in
  let! fs := store (faults fm) i (set_active 0 f) in
  Ret (with_faults fm fs).

Definition clear_body (source code i : Z) (fm : fault_manager_t)
    : outcome (ctl fault_manager_t fault_manager_t) :=
  let! f := load (faults fm) i in
  if matches source code f && truthy (active f) then omap_ret Done (retire i f fm)
  else Ret (Next fm).

Definition fault_manager_clear (fm : fault_manager_t) (source code : Z) : outcome fault_manager_t :=
  let! c := for_ (clear_body source code) 0 (Z.to_nat (fault_count fm)) fm in
  match c with Next fm => Ret fm | Done fm => Ret fm end.

Definition clear_where_body (sel : fm_fault_t -> bool) (i : Z) (fm : fault_manager_t)
    : outcome (ctl fault_manager_t fault_manager_t) :=
  let! f := load (faults fm) i in
  if sel f && truthy (active f) then omap_ret Next (retire i f fm) else Ret (Next fm).

Definition clear_where (sel : fm_fault_t -> bool) (fm : fault_manager_t) : outcome fault_manager_t :=
  let! c := for_ (clear_where_body sel) 0 (Z.to_nat (fault_count fm)) fm in
  match c with Next fm => Ret fm | Done fm => Ret fm end.

Definition fault_manager_clear_node (fm : fault_manager_t) (source : Z) : outcome fault_manager_t :=
  clear_where (fun f => source_node f =? source) fm.

Definition fault_manager_clear_all (fm : fault_manager_t) : outcome fault_manager_t :=
  clear_where (fun _ => true) fm.

Definition fault_manager_has_critical (fm : fault_manager_t) : Z :=
  if 0 <? critical_count fm then 1 else 0.

Definition count_body (fm : fault_manager_t) (i : Z) (count : Z) : outcome (ctl Z Z) :=
  let! f := load (faults fm) i in
  Ret (Next (if truthy (active f) then cast U8 (count + 1) else count)).

Definition fault_manager_active_count (fm : fault_manager_t) : outcome Z :=
  let! c := for_ (count_body fm) 0 (Z.to_nat (fault_count fm)) 0 in
  match c with Next n => Ret n | Done n => Ret n end.

Definition fault_manager_bms_severity (bms_fault_code : Z) : Z :=
  if bms_fault_code =? MC_BMS_FAULT_OVERTEMP then 2
  else if bms_fault_code =? MC_BMS_FAULT_OVERVOLTAGE then 2
  else if bms_fault_code =? MC_BMS_FAULT_UNDERVOLTAGE then 1
  else if bms_fault_code =? MC_BMS_FAULT_OVER_CURRENT then 1
  else if bms_fault_code =? MC_BMS_FAULT_COMM_ERROR then 2
  else 0.

Definition fault_manager_bms_warning_code (bms_fault_code : Z) : Z :=
  if bms_fault_code =? MC_BMS_FAULT_OVERTEMP then WarningCode_as_u8 BmsOvertemp
  else if bms_fault_code =? MC_BMS_FAULT_OVERVOLTAGE then WarningCode_as_u8 BmsOffline
  else if bms_fault_code =? MC_BMS_FAULT_UNDERVOLTAGE then WarningCode_as_u8 BmsOffline
  else if bms_fault_code =? MC_BMS_FAULT_OVER_CURRENT then WarningCode_as_u8 CriticalBmsFault
  else if bms_fault_code =? MC_BMS_FAULT_COMM_ERROR then WarningCode_as_u8 CriticalBmsFault
  else WarningCode_as_u8 NoWarning.

(** The calls the gateway makes. *)
Inductive op : Set :=
  | Report (source code sev : Z) | Clear (source code : Z) | ClearNode (source : Z) | ClearAll.

Definition step (fm : fault_manager_t) (o : op) : outcome fault_manager_t :=
  match o with
  | Report s c v => omap_ret fst (fault_manager_report fm s c v)
  | Clear s c => fault_manager_clear fm s c
  | ClearNode s => fault_manager_clear_node fm s
  | ClearAll => fault_manager_clear_all fm
  end.

Definition run (fm : fault_manager_t) (ops : list op) : outcome fault_manager_t := ofold step fm ops.

(** A fault of the mirror in the firmware's table. *)
Definition entry (f : FaultManager.FaultEntry) : fm_fault_t := {|
  source_node := FaultManager.source_node f;
  fault_code := FaultManager.fault_code f;
  active := Z.b2z (FaultManager.active f);
  severity := FaultManager.severity f;
|}.

Definition mirrors (fm : fault_manager_t) (m : FaultManager.t) : Prop :=
  table entry (Z.to_nat FM_MAX_FAULTS) (faults fm) (fault_count fm) (FaultManager.faults m) /\
  critical_count fm = FaultManager.critical_count m /\
  warning_count fm = FaultManager.warning_count m.

End fault_manager.

(** ** The fault table *)

Section Faults.
Import fault_manager.

(** [count_severity] without overflow checks. *)
Definition mbump (m : FaultManager.t) (sev d : Z) : FaultManager.t :=
  if sev =? 2 then
    {| FaultManager.faults := FaultManager.faults m;
       FaultManager.critical_count := cast U8 (FaultManager.critical_count m + d);
       FaultManager.warning_count := FaultManager.warning_count m |}
  else if sev =? 1 then
    {| FaultManager.faults := FaultManager.faults m;
       FaultManager.critical_count := FaultManager.critical_count m;
       FaultManager.warning_count := cast U8 (FaultManager.warning_count m + d) |}
  else m.

Lemma count_severity_release m sev d : FaultManager.count_severity Release m sev d = Ret (mbump m sev d).
Proof.
  unfold FaultManager.count_severity, mbump.
  destruct (Z.eqb_spec sev 2) as [->|H2]; [by rewrite arith_release|].
  destruct (Z.eqb_spec sev 1) as [->|H1]; [by rewrite arith_release|].
  destruct sev as [|[[|[]|]|[|[]|]|]|]; try done; lia.
Qed.

Lemma mbump_faults m sev d : FaultManager.faults (mbump m sev d) = FaultManager.faults m.
Proof. unfold mbump. by repeat case_match. Qed.

Lemma bump_faults fm sev d : faults (bump fm sev d) = faults fm /\ fault_count (bump fm sev d) = fault_count fm.
Proof. unfold bump. by repeat case_match. Qed.

(** The two managers count alike. *)
Definition same_counts (fm : fault_manager_t) (m : FaultManager.t) : Prop :=
  critical_count fm = FaultManager.critical_count m /\ warning_count fm = FaultManager.warning_count m.

Lemma bump_counts fm m sev d : same_counts fm m -> same_counts (bump fm sev d) (mbump m sev d).
Proof. intros [Hc Hw]. unfold same_counts, bump, mbump. repeat case_match; simpl; split; congruence. Qed.

(** The mirror's [report] and [clear] without overflow checks, by the first match. *)
Lemma mirror_report m s c v :
  FaultManager.report Release m s c v =
  Ret (match split_first (FaultManager.same_fault s c) (FaultManager.faults m) with
       | Some (l1, f, l2) =>
           FaultManager.with_faults (if FaultManager.active f then m else mbump m v 1)
             (l1 ++ FaultManager.refresh v f :: l2)
       | None =>
           mbump (FaultManager.with_faults m
                    (FaultManager.faults m ++
                       [{| FaultManager.source_node := s; FaultManager.fault_code := c;
                           FaultManager.active := true; FaultManager.severity := v |}])) v 1
       end).
Proof.
  unfold FaultManager.report. rewrite split_first_find, split_first_update.
  destruct (split_first _ _) as [[[l1 f] l2]|]; [|by rewrite count_severity_release].
  destruct (FaultManager.active f); simpl; [done|]. by rewrite count_severity_release.
Qed.

Lemma mirror_clear m s c :
  FaultManager.clear Release m s c =
  Ret (match split_first (fun f => FaultManager.same_fault s c f && FaultManager.active f)
               (FaultManager.faults m) with
       | Some (l1, f, l2) =>
           FaultManager.with_faults (mbump m (FaultManager.severity f) (-1))
             (l1 ++ FaultManager.deactivate f :: l2)
       | None => m
       end).
Proof.
  unfold FaultManager.clear. rewrite split_first_find, split_first_update.
  destruct (split_first _ _) as [[[l1 f] l2]|]; [|done]. by rewrite count_severity_release.
Qed.

Lemma matches_entry s c f : matches s c (entry f) = FaultManager.same_fault s c f.
Proof. done. Qed.

(** [report] of a fault the table has. *)
Lemma report_present fm m s c v l1 f l2 :
  mirrors fm m ->
  split_first (FaultManager.same_fault s c) (FaultManager.faults m) = Some (l1, f, l2) ->
  exists fm' m', fault_manager_report fm s c v = Ret (fm', 0) /\
    FaultManager.report Release m s c v = Ret m' /\ mirrors fm' m' /\
    FaultManager.faults m' = l1 ++ FaultManager.refresh v f :: l2.
Proof.
  intros [Ht Hcnt] Hs. pose proof (split_first_Some _ _ _ _ _ Hs) as [Hl Hp].
  unfold fault_manager_report.
  rewrite (table_find entry _ faults (matches s c) (FaultManager.same_fault s c) (report_existing s c v) fm
             (fault_count fm) (FaultManager.faults m)) by
    (done || (intros i e Hi He; unfold report_existing; by rewrite Hi; simpl; rewrite He)).
  rewrite Hs. rewrite Hl in Ht. unfold report_existing. rewrite (table_load _ _ _ _ _ _ _ Ht). simpl.
  rewrite matches_entry, Hp. rewrite truthy_b2z.
  set (fm1 := if negb (FaultManager.active f) then bump fm v 1 else fm).
  assert (faults fm1 = faults fm /\ fault_count fm1 = fault_count fm) as [Hf1 Hc1]
    by (subst fm1; case_match; [apply bump_faults|done]).
  assert (set_severity v (if negb (FaultManager.active f) then set_active 1 (entry f) else entry f)
          = entry (FaultManager.refresh v f)) as ->
    by (unfold set_severity, set_active, entry, FaultManager.refresh; by destruct (FaultManager.active f)).
  rewrite Hf1.
  destruct (table_store _ _ _ _ _ _ _ (FaultManager.refresh v f) Ht) as (arr' & -> & Ht').
  simpl. rewrite mirror_report, Hs. do 2 eexists. split_and!; [done|done| |done].
  split; [simpl; by rewrite Hc1|]. subst fm1.
  destruct (FaultManager.active f); simpl; [done|]. by apply bump_counts.
Qed.

(** [report] of a new fault, with room and without. *)
Lemma report_absent fm m s c v :
  mirrors fm m ->
  split_first (FaultManager.same_fault s c) (FaultManager.faults m) = None ->
  if FM_MAX_FAULTS <=? fault_count fm then fault_manager_report fm s c v = Ret (fm, -1)
  else exists fm' m', fault_manager_report fm s c v = Ret (fm', 0) /\
         FaultManager.report Release m s c v = Ret m' /\ mirrors fm' m' /\
         FaultManager.faults m' = FaultManager.faults m ++
           [{| FaultManager.source_node := s; FaultManager.fault_code := c;
               FaultManager.active := true; FaultManager.severity := v |}].
Proof.
  intros [Ht Hcnt] Hs. unfold fault_manager_report.
  rewrite (table_find entry _ faults (matches s c) (FaultManager.same_fault s c) (report_existing s c v) fm
             (fault_count fm) (FaultManager.faults m)) by
    (done || (intros i e Hi He; unfold report_existing; by rewrite Hi; simpl; rewrite He)).
  rewrite Hs. cbn [obind]. destruct (Z.leb_spec FM_MAX_FAULTS (fault_count fm)) as [Hfull|Hroom]; [done|].
  set (new := {| FaultManager.source_node := s; FaultManager.fault_code := c;
                 FaultManager.active := true; FaultManager.severity := v |}).
  destruct (table_push entry _ _ _ _ new Ht) as (arr' & Hst & Ht'); [unfold FM_MAX_FAULTS in *; lia|].
  change {| source_node := s; fault_code := c; active := 1; severity := v |} with (entry new).
  rewrite Hst. simpl. pose proof (table_le _ _ _ _ _ Ht) as Hle. unfold FM_MAX_FAULTS in *.
  rewrite cast_id by int_lia. rewrite mirror_report, Hs. do 2 eexists. split_and!; [done|done| |].
  - split.
    + rewrite mbump_faults. destruct (bump_faults
        {| faults := arr'; fault_count := fault_count fm + 1; critical_count := critical_count fm;
           warning_count := warning_count fm |} v 1) as [-> ->]. exact Ht'.
    + apply bump_counts. exact Hcnt.
  - by rewrite mbump_faults.
Qed.

Lemma retire_mirrors fm m l1 f l2 :
  mirrors fm m -> FaultManager.faults m = l1 ++ f :: l2 ->
  exists fm', retire (Z.of_nat (length l1)) (entry f) fm = Ret fm' /\
    mirrors fm' (FaultManager.with_faults (mbump m (FaultManager.severity f) (-1))
                   (l1 ++ FaultManager.deactivate f :: l2)) /\
    fault_count fm' = fault_count fm.
Proof.
  intros [Ht Hcnt] Hl. rewrite Hl in Ht. unfold retire.
  destruct (bump_faults fm (severity (entry f)) (-1)) as [-> Hc].
  change (set_active 0 (entry f)) with (entry (FaultManager.deactivate f)).
  destruct (table_store _ _ _ _ _ _ _ (FaultManager.deactivate f) Ht) as (arr' & -> & Ht').
  cbn [obind]. eexists. split; [done|]. split; [|exact Hc]. split; [|by apply bump_counts].
  cbn [with_faults faults fault_count]. by rewrite Hc.
Qed.

Lemma clear_mirrors fm m s c :
  mirrors fm m ->
  exists fm' m', fault_manager_clear fm s c = Ret fm' /\ FaultManager.clear Release m s c = Ret m' /\
                 mirrors fm' m' /\ fault_count fm' = fault_count fm.
Proof.
  intros H. pose proof H as [Ht Hcnt]. unfold fault_manager_clear. rewrite mirror_clear.
  rewrite (table_find entry (Z.to_nat FM_MAX_FAULTS) faults (fun f => matches s c f && truthy (active f))
             (fun f => FaultManager.same_fault s c f && FaultManager.active f) (clear_body s c) fm
             (fault_count fm) (FaultManager.faults m)).
  2: done.
  2: intros b; by rewrite matches_entry; simpl; rewrite truthy_b2z.
  2: { intros i e Hi He. unfold clear_body. rewrite Hi. simpl. by rewrite He. }
  destruct (split_first _ _) as [[[l1 f] l2]|] eqn:Hs; [|by do 2 eexists].
  apply split_first_Some in Hs as [Hl Hp]. unfold clear_body.
  rewrite Hl in Ht. rewrite (table_load _ _ _ _ _ _ _ Ht). cbn [obind].
  rewrite matches_entry. cbn [entry active]. rewrite truthy_b2z, Hp.
  destruct (retire_mirrors fm m l1 f l2 H Hl) as (fm' & Hr & Hm & Hc). cbn [entry] in Hr.
  rewrite Hr. simpl. by do 2 eexists.
Qed.

(** The faults are told apart by source and code. *)
Definition keys (m : FaultManager.t) : list (Z * Z) := map FaultManager.key (FaultManager.faults m).

Lemma same_key f g :
  FaultManager.same_fault (FaultManager.source_node f) (FaultManager.fault_code f) g = true ->
  FaultManager.key g = FaultManager.key f.
Proof. intros H. by apply same_fault_key in H. Qed.

Lemma other_keys pre f l g :
  NoDup (map FaultManager.key (pre ++ f :: l)) -> g ∈ pre \/ g ∈ l ->
  FaultManager.same_fault (FaultManager.source_node f) (FaultManager.fault_code f) g = false.
Proof.
  intros Hnd Hg. destruct (FaultManager.same_fault _ _ g) eqn:E; [|done]. apply same_key in E.
  rewrite map_app in Hnd. simpl in Hnd.
  apply NoDup_app in Hnd as (_ & Hd & Hnd). apply NoDup_cons in Hnd as [Hn _].
  destruct Hg as [Hg|Hg]; apply (list_elem_of_fmap_2 FaultManager.key) in Hg; rewrite E in Hg.
  - exfalso. apply (Hd _ Hg). by left.
  - done.
Qed.

(** Clearing one fault by its key, in a table without duplicates. *)
Lemma mirror_clear_at m pre f l :
  FaultManager.faults m = pre ++ f :: l -> NoDup (keys m) ->
  FaultManager.clear Release m (FaultManager.source_node f) (FaultManager.fault_code f) =
  Ret (if FaultManager.active f then
         FaultManager.with_faults (mbump m (FaultManager.severity f) (-1))
           (pre ++ FaultManager.deactivate f :: l)
       else m).
Proof.
  unfold keys. intros Hf Hnd. rewrite Hf in Hnd. rewrite mirror_clear, Hf.
  rewrite split_first_skip.
  2: { intros g Hg. by rewrite (other_keys pre f l g) by auto. }
  simpl. unfold FaultManager.same_fault at 1. rewrite !Z.eqb_refl. simpl.
  destruct (FaultManager.active f); simpl; [by rewrite app_nil_r|].
  rewrite (proj2 (split_first_None _ l)); [done|].
  intros g Hg. by rewrite (other_keys pre f l g) by auto.
Qed.

Definition clear_op (f : FaultManager.FaultEntry) : FaultManager.op :=
  FaultManager.Clear (FaultManager.source_node f) (FaultManager.fault_code f).

(** A clearing loop is a [clear] of each selected fault, in table order. *)
Lemma clear_where_loop sel sel' l pre fm m :
  (forall f, sel (entry f) = sel' f) ->
  mirrors fm m -> FaultManager.faults m = pre ++ l -> NoDup (keys m) ->
  exists fm' m', for_ (clear_where_body sel) (Z.of_nat (length pre)) (length l) fm = Ret (Next fm') /\
    ofold (FaultManager.step Release) m (map clear_op (List.filter sel' l)) = Ret m' /\
    mirrors fm' m' /\ keys m' = keys m.
Proof.
  intros Hsel. revert pre fm m; induction l as [|f l IH]; intros pre fm m H Hl Hnd.
  { exists fm, m. by split_and!. }
  pose proof H as [Ht _]. rewrite Hl in Ht. simpl for_. unfold clear_where_body at 1.
  rewrite (table_load _ _ _ _ _ _ _ Ht). cbn [obind]. rewrite Hsel. cbn [entry active]. rewrite truthy_b2z.
  replace (Z.of_nat (length pre) + 1) with (Z.of_nat (length (pre ++ [f]))) by (rewrite length_app; simpl; lia).
  pose proof (mirror_clear_at m pre f l Hl Hnd) as Hcl. cbn [List.filter].
  destruct (sel' f); cbn [andb map ofold FaultManager.step clear_op].
  2: { apply IH; [done|by rewrite <- app_assoc|done]. }
  fold (clear_op f). rewrite Hcl. destruct (FaultManager.active f); cbn [obind].
  2: { apply IH; [done|by rewrite <- app_assoc|done]. }
  destruct (retire_mirrors fm m pre f l H Hl) as (fm1 & Hr & Hm & _).
  cbn [entry] in Hr. rewrite Hr. cbn [omap_ret obind].
  set (m1 := FaultManager.with_faults (mbump m (FaultManager.severity f) (-1))
               (pre ++ FaultManager.deactivate f :: l)) in *.
  assert (keys m1 = keys m) as Hk by (unfold keys; rewrite Hl; simpl; by rewrite !map_app).
  destruct (IH (pre ++ [FaultManager.deactivate f]) fm1 m1) as (fm2 & m2 & H1 & H2 & H3 & H4).
  - done.
  - simpl. by rewrite <- app_assoc.
  - by rewrite Hk.
  - exists fm2, m2. rewrite !length_app in *. simpl in *. split_and!; congruence.
Qed.

Lemma clear_where_mirrors sel sel' fm m :
  (forall f, sel (entry f) = sel' f) -> mirrors fm m -> NoDup (keys m) ->
  exists fm' m', clear_where sel fm = Ret fm' /\
    ofold (FaultManager.step Release) m (map clear_op (List.filter sel' (FaultManager.faults m))) = Ret m' /\
    mirrors fm' m' /\ keys m' = keys m.
Proof.
  intros Hsel H Hnd. unfold clear_where. pose proof H as [Ht _].
  rewrite (table_count _ _ _ _ _ Ht).
  destruct (clear_where_loop sel sel' (FaultManager.faults m) [] fm m Hsel H eq_refl Hnd)
    as (fm' & m' & H1 & H2 & H3 & H4). change (Z.of_nat (length [])) with 0 in H1.
  rewrite H1. by exists fm', m'.
Qed.

(** What the mirror does for a call: a report that finds the table full is dropped, a
    clearing loop is a [clear] per fault. *)
Definition mirror_ops (m : FaultManager.t) (o : op) : list FaultManager.op :=
  match o with
  | Report s c v =>
      if existsb (FaultManager.same_fault s c) (FaultManager.faults m)
         || (Z.of_nat (length (FaultManager.faults m)) <? FM_MAX_FAULTS)
      then [FaultManager.Report s c v] else []
  | Clear s c => [FaultManager.Clear s c]
  | ClearNode s =>
      map clear_op (List.filter (fun f => FaultManager.source_node f =? s) (FaultManager.faults m))
  | ClearAll => map clear_op (List.filter (fun _ => true) (FaultManager.faults m))
  end.

Definition mirror_step (m : FaultManager.t) (o : op) : outcome FaultManager.t :=
  ofold (FaultManager.step Release) m (mirror_ops m o).

Lemma existsb_split {A : Type} (p : A -> bool) l :
  existsb p l = match split_first p l with Some _ => true | None => false end.
Proof.
  induction l as [|a l IH]; simpl; [done|]. destruct (p a); simpl; [done|].
  rewrite IH. by destruct (split_first p l) as [[[? ?] ?]|].
Qed.

(** The invariant of the joint run. *)
Definition joint (fm : fault_manager_t) (m : FaultManager.t) : Prop := mirrors fm m /\ NoDup (keys m).

Lemma joint_report fm m s c v :
  joint fm m ->
  exists fm' m', omap_ret fst (fault_manager_report fm s c v) = Ret fm' /\
    mirror_step m (Report s c v) = Ret m' /\ joint fm' m'.
Proof.
  intros [H Hnd]. unfold mirror_step. cbn [mirror_ops]. rewrite existsb_split.
  destruct (split_first (FaultManager.same_fault s c) (FaultManager.faults m)) as [[[l1 f] l2]|] eqn:Hs.
  - destruct (report_present fm m s c v l1 f l2 H Hs) as (fm' & m' & Hr & Hm & Hj & Hf).
    exists fm', m'. rewrite Hr. cbn [orb ofold FaultManager.step]. rewrite Hm. split_and!; [done|done|].
    split; [done|]. apply split_first_Some in Hs as [Hl _].
    unfold keys in *. rewrite Hl in Hnd. rewrite Hf. rewrite !map_app in *. exact Hnd.
  - pose proof (report_absent fm m s c v H Hs) as Hr.
    destruct H as [Ht Hcnt]. pose proof Ht as (_ & Hc & _). rewrite <- Hc.
    rewrite Z.ltb_antisym. destruct (FM_MAX_FAULTS <=? fault_count fm); cbn [negb orb ofold].
    + exists fm, m. rewrite Hr. by split_and!.
    + destruct Hr as (fm' & m' & Hr & Hm & Hj & Hf). exists fm', m'. rewrite Hr. cbn [FaultManager.step].
      rewrite Hm. split_and!; [done|done|]. split; [done|].
      unfold keys in *. rewrite Hf, map_app. apply NoDup_app. split_and!; [done| |apply NoDup_singleton].
      intros k Hk ->%list_elem_of_singleton. apply list_elem_of_fmap_1 in Hk as (f & Hk & Hin).
      apply (proj1 (split_first_None _ _) Hs) in Hin.
      by rewrite (proj2 (same_fault_key s c f)) in Hin.
Qed.

Lemma fault_joint_step fm m o :
  joint fm m ->
  exists fm' m', fault_manager.step fm o = Ret fm' /\ mirror_step m o = Ret m' /\ joint fm' m'.
Proof.
  intros [H Hnd]. destruct o as [s c v|s c|s|]; [by apply joint_report| | |]; cbn [fault_manager.step].
  - destruct (clear_mirrors fm m s c H) as (fm' & m' & H1 & H2 & H3 & _). exists fm', m'.
    unfold mirror_step. cbn [mirror_ops ofold FaultManager.step]. rewrite H2. split_and!; [done|done|].
    split; [done|]. rewrite mirror_clear in H2. injection H2 as <-. unfold keys in *.
    destruct (split_first _ _) as [[[l1 f] l2]|] eqn:Hs; [|done].
    apply split_first_Some in Hs as [Hl _]. simpl. rewrite Hl in Hnd. rewrite !map_app in *. exact Hnd.
  - destruct (clear_where_mirrors (fun f => source_node f =? s) (fun f => FaultManager.source_node f =? s)
                fm m (fun _ => eq_refl) H Hnd) as (fm' & m' & H1 & H2 & H3 & H4).
    exists fm', m'. split_and!; [exact H1|exact H2|]. split; [done|]. by rewrite H4.
  - destruct (clear_where_mirrors (fun _ => true) (fun _ => true) fm m (fun _ => eq_refl) H Hnd)
      as (fm' & m' & H1 & H2 & H3 & H4).
    exists fm', m'. split_and!; [exact H1|exact H2|]. split; [done|]. by rewrite H4.
Qed.

Lemma fault_joint_run ops fm m :
  joint fm m ->
  exists fm' m', fault_manager.run fm ops = Ret fm' /\ ofold mirror_step m ops = Ret m' /\ joint fm' m'.
Proof.
  unfold fault_manager.run. revert fm m; induction ops as [|o ops IH]; intros fm m H; [by exists fm, m|].
  destruct (fault_joint_step fm m o H) as (fm1 & m1 & H1 & H2 & H3). simpl. rewrite H1, H2. simpl. by apply IH.
Qed.

Lemma active_count_mirror fm m :
  mirrors fm m -> fault_manager_active_count fm = Ret (FaultManager.active_count m).
Proof.
  intros [Ht _]. unfold fault_manager_active_count.
  rewrite (table_fold entry (Z.to_nat FM_MAX_FAULTS) (fun _ => faults fm)
             (fun n f => if truthy (active f) then cast U8 (n + 1) else n) (count_body fm) 0
             (fault_count fm) (FaultManager.faults m) Ht).
  2: done.
  2: { intros i n f Hl. unfold count_body. by rewrite Hl. }
  simpl. f_equal. unfold FaultManager.active_count.
  assert (forall l n, fold_left (fun n f => if truthy (active f) then cast U8 (n + 1) else n) (map entry l) (cast U8 n)
                      = cast U8 (n + countb FaultManager.active l)) as Hg.
  { induction l as [|f l IH]; intros n; simpl; [by rewrite countb_nil, Z.add_0_r|].
    rewrite truthy_b2z, countb_cons. destruct (FaultManager.active f).
    - replace (cast U8 (cast U8 n + 1)) with (cast U8 (n + 1))
        by (rewrite !cast_unsigned by done; by rewrite Zplus_mod_idemp_l).
      rewrite IH. f_equal. lia.
    - rewrite IH. done. }
  specialize (Hg (FaultManager.faults m) 0). exact Hg.
Qed.

(** C18: The gateway's fault table and its Rust mirror.  For every sequence of reports and
    clears, of one fault, of a node or of all, the firmware stays inside its sixteen slots
    and holds exactly the faults and counters of the mirror run on the same calls, where
    clearing a node is clearing its faults one by one and a report that finds the table full
    is dropped; such a report returns -1 and changes nothing, every other one returns 0.  So
    the firmware answers as the mirror until a seventeenth distinct fault is reported, and
    loses that one, critical or not. *)
Theorem fault_table_simulates ops :
  exists fm m, fault_manager.run fault_manager_init ops = Ret fm /\
    ofold mirror_step FaultManager.new ops = Ret m /\ mirrors fm m /\
    (length (FaultManager.faults m) <= 16)%nat /\ NoDup (keys m) /\
    fault_manager_has_critical fm = Z.b2z (FaultManager.has_critical m) /\
    fault_manager_active_count fm = Ret (FaultManager.active_count m) /\
    (forall s c v,
       if existsb (FaultManager.same_fault s c) (FaultManager.faults m)
          || (length (FaultManager.faults m) <? 16)%nat
       then exists fm' m', fault_manager_report fm s c v = Ret (fm', 0) /\
              FaultManager.report Release m s c v = Ret m' /\ mirrors fm' m'
       else fault_manager_report fm s c v = Ret (fm, -1)).
Proof.
  destruct (fault_joint_run ops fault_manager_init FaultManager.new) as (fm & m & H1 & H2 & [H3 H4]).
  { split; [|constructor]. split; [apply table_empty|done]. }
  exists fm, m. pose proof H3 as [Ht [Hc Hw]]. pose proof (table_le _ _ _ _ _ Ht) as Hle.
  pose proof Ht as (_ & Hcount & _). unfold FM_MAX_FAULTS in Hle.
  split_and!; [done|done|done|lia|done| |by apply active_count_mirror|].
  - unfold fault_manager_has_critical, FaultManager.has_critical. rewrite Hc. by case_match.
  - intros s c v. rewrite existsb_split.
    destruct (split_first (FaultManager.same_fault s c) (FaultManager.faults m)) as [[[l1 f] l2]|] eqn:Hs; simpl.
    + destruct (report_present fm m s c v l1 f l2 H3 Hs) as (fm' & m' & ? & ? & ? & _). by exists fm', m'.
    + pose proof (report_absent fm m s c v H3 Hs) as Hr. unfold FM_MAX_FAULTS in Hr.
      destruct (Z.leb_spec 16 (fault_count fm)), (Nat.ltb_spec (length (FaultManager.faults m)) 16); try lia; [done|].
      destruct Hr as (fm' & m' & ? & ? & ? & _). by exists fm', m'.
Qed.

(** A critical BMS fault reported after sixteen others: lost by the firmware, seen by the
    mirror. *)
Example full_table_loses_critical :
  let ops := map (fun i => Report 9 i 1) (seqZ 0 16) ++ [Report MC_NODE_BMS MC_BMS_FAULT_OVERTEMP 2] in
  omap_ret fault_manager_has_critical (fault_manager.run fault_manager_init ops) = Ret 0 /\
  omap_ret FaultManager.has_critical
    (FaultManager.run Debug FaultManager.new
       (map (fun i => FaultManager.Report 9 i 1) (seqZ 0 16) ++
        [FaultManager.Report MC_NODE_BMS MC_BMS_FAULT_OVERTEMP 2])) = Ret true.
Proof. split; reflexivity. Qed.
End Faults.
