(* ===== verification/CMonitors.v ===== *)
(** * C firmware modules with fixed tables, continued
    ([firmware/gateway_ecu/src/heartbeat_monitor.c],
    [firmware/dashboard_ecu/src/dashboard_state.c] and [warning_display.c]) *)

From S2P Require Import Prelude MachineInt Protocol Gateway Dashboard CBase CProtocol.

Module heartbeat_monitor.

Definition HM_MAX_NODES : Z := 8.

Record hm_node_t := { node_id : Z; online : Z; last_beat_ms : Z; timeout_ms : Z }.
Record heartbeat_monitor_t := { nodes : list hm_node_t; node_count : Z }.

(** The loop after [memset] writes the default limit into every slot. *)
Definition heartbeat_monitor_init (timeout_default_ms : Z) : heartbeat_monitor_t := {|
  nodes := replicate (Z.to_nat HM_MAX_NODES)
             {| node_id := 0; online := 0; last_beat_ms := 0; timeout_ms := timeout_default_ms |};
  node_count := 0;
|}.

Definition with_nodes (hm : heartbeat_monitor_t) (ns : list hm_node_t) : heartbeat_monitor_t :=
  {| nodes := ns; node_count := node_count hm |}.

Definition heartbeat_monitor_register (hm : heartbeat_monitor_t) (id timeout : Z)
    : outcome (heartbeat_monitor_t * Z) :=
  if HM_MAX_NODES <=? node_count hm then Ret (hm, -1)
  else
    let! ns := store (nodes hm) (node_count hm)
      {| node_id := id; online := 0; last_beat_ms := 0; timeout_ms := timeout |} in
    Ret ({| nodes := ns; node_count := cast U8 (node_count hm + 1) |}, 0).

Definition beat_body (id now_ms i : Z) (hm : heartbeat_monitor_t)
    : outcome (ctl heartbeat_monitor_t heartbeat_monitor_t) :=
  let! n := load (nodes hm) i in
  if node_id n =? id then
    let n' := {| node_id := node_id n;
                 online := if negb (truthy (online n)) then 1 else online n;
                 last_beat_ms := now_ms; timeout_ms := timeout_ms n |} in
    let! ns := store (nodes hm) i n' in
    Ret (Done (with_nodes hm ns))
  else Ret (Next hm).

Definition heartbeat_monitor_beat (hm : heartbeat_monitor_t) (id now_ms : Z) : outcome heartbeat_monitor_t :=
  let! c := for_ (beat_body id now_ms) 0 (Z.to_nat (node_count hm)) hm in
  match c with Next hm => Ret hm | Done hm => Ret hm end.

Definition expired (now_ms : Z) (n : hm_node_t) : bool :=
  truthy (online n) && (timeout_ms n <=? cast U32 (now_ms - last_beat_ms n)).

Definition set_offline (n : hm_node_t) : hm_node_t :=
  {| node_id := node_id n; online := 0; last_beat_ms := last_beat_ms n; timeout_ms := timeout_ms n |}.

Definition check_body (now_ms i : Z) (s : list hm_node_t * Z)
    : outcome (ctl (list hm_node_t * Z) (list hm_node_t * Z)) :=
  let (ns, transitions) := s in
  let! n := load ns i in
  if expired now_ms n then
    let! ns := store ns i (set_offline n) in Ret (Next (ns, transitions + 1))
  else Ret (Next (ns, transitions)).

Definition heartbeat_monitor_check (hm : heartbeat_monitor_t) (now_ms : Z)
    : outcome (heartbeat_monitor_t * Z) :=
  let! c := for_ (check_body now_ms) 0 (Z.to_nat (node_count hm)) (nodes hm, 0) in
  match c with Next (ns, t) => Ret (with_nodes hm ns, t) | Done (ns, t) => Ret (with_nodes hm ns, t) end.

(** Scans that return at the first node of a kind and have no other effect. *)
Definition first_body (p : hm_node_t -> bool) (r : hm_node_t -> Z) (i : Z) (hm : heartbeat_monitor_t)
    : outcome (ctl heartbeat_monitor_t Z) :=
  let! n := load (nodes hm) i in
  if p n then Ret (Done (r n)) else Ret (Next hm).

Definition first_or (p : hm_node_t -> bool) (r : hm_node_t -> Z) (default : Z)
    (hm : heartbeat_monitor_t) : outcome Z :=
  let! c := for_ (first_body p r) 0 (Z.to_nat (node_count hm)) hm in
  match c with Next _ => Ret default | Done z => Ret z end.

Definition heartbeat_monitor_all_online (hm : heartbeat_monitor_t) : outcome Z :=
  if node_count hm =? 0 then Ret 0
  else first_or (fun n => negb (truthy (online n))) (fun _ => 0) 1 hm.

Definition heartbeat_monitor_is_online (hm : heartbeat_monitor_t) (id : Z) : outcome Z :=
  first_or (fun n => node_id n =? id) online 0 hm.

Definition heartbeat_monitor_last_transition_node (hm : heartbeat_monitor_t) : outcome Z :=
  first_or (fun n => negb (truthy (online n))) node_id 0 hm.

Inductive op : Set := Register (id timeout : Z) | NodeBeat (id now_ms : Z) | CheckAll (now_ms : Z).

Definition step (hm : heartbeat_monitor_t) (o : op) : outcome heartbeat_monitor_t :=
  match o with
  | Register id t => omap_ret fst (heartbeat_monitor_register hm id t)
  | NodeBeat id now => heartbeat_monitor_beat hm id now
  | CheckAll now => omap_ret fst (heartbeat_monitor_check hm now)
  end.

Definition run (hm : heartbeat_monitor_t) (ops : list op) : outcome heartbeat_monitor_t := ofold step hm ops.

(** The Rust monitor on the same calls; it has no limit. *)
Definition rust_step (m : HeartbeatMonitor.t) (o : op) : outcome HeartbeatMonitor.t :=
  match o with
  | Register id t => Ret (HeartbeatMonitor.register m id t)
  | NodeBeat id now => HeartbeatMonitor.step Release m (HeartbeatMonitor.NodeBeat id now)
  | CheckAll now => HeartbeatMonitor.step Release m (HeartbeatMonitor.CheckAll now)
  end.

Definition is_register (o : op) : bool := match o with Register _ _ => true | _ => false end.

(** The Rust monitor with the firmware's capacity: a registration that finds eight nodes is
    dropped. *)
Definition capped_step (m : HeartbeatMonitor.t) (o : op) : outcome HeartbeatMonitor.t :=
  match o with
  | Register id t =>
      Ret (if Z.of_nat (length (HeartbeatMonitor.nodes m)) <? HM_MAX_NODES
           then HeartbeatMonitor.register m id t else m)
  | NodeBeat id now => HeartbeatMonitor.step Release m (HeartbeatMonitor.NodeBeat id now)
  | CheckAll now => HeartbeatMonitor.step Release m (HeartbeatMonitor.CheckAll now)
  end.

Definition entry (n : HeartbeatMonitor.HeartbeatNode) : hm_node_t := {|
  node_id := HeartbeatMonitor.node_id n;
  online := Z.b2z (HeartbeatMonitor.online n);
  last_beat_ms := HeartbeatMonitor.last_beat_ms n;
  timeout_ms := HeartbeatMonitor.timeout_ms n;
|}.

Definition mirrors (hm : heartbeat_monitor_t) (m : HeartbeatMonitor.t) : Prop :=
  table entry (Z.to_nat HM_MAX_NODES) (nodes hm) (node_count hm) (HeartbeatMonitor.nodes m).

End heartbeat_monitor.

Module dashboard_state.

Definition DASHBOARD_MAX_WARNINGS : Z := 16.

Record dashboard_warning_t := { warning_code : Z; active : Z; source_node : Z }.

Record dashboard_state_t := {
  vehicle_mode : Z;
  speed_kph_x10 : Z;
  soc_percent : Z;
  battery_temp_c_x10 : Z;
  battery_voltage_mv : Z;
  warnings : list dashboard_warning_t;
  warning_count : Z;
  initialized : Z;
  booted : Z;
}.

(** The [memset] of the whole structure, then the boot flag. *)
Definition zeroed (boot : Z) : dashboard_state_t := {|
  vehicle_mode := 0; speed_kph_x10 := 0; soc_percent := 0; battery_temp_c_x10 := 0;
  battery_voltage_mv := 0;
  warnings := replicate (Z.to_nat DASHBOARD_MAX_WARNINGS)
                {| warning_code := 0; active := 0; source_node := 0 |};
  warning_count := 0; initialized := 0; booted := boot;
|}.

Definition dashboard_state_init : dashboard_state_t := zeroed 1.
Definition dashboard_state_reboot (ds : dashboard_state_t) : dashboard_state_t := zeroed 0.

Definition dashboard_state_set_mode (ds : dashboard_state_t) (mode : Z) : dashboard_state_t := {|
  vehicle_mode := mode; speed_kph_x10 := speed_kph_x10 ds; soc_percent := soc_percent ds;
  battery_temp_c_x10 := battery_temp_c_x10 ds; battery_voltage_mv := battery_voltage_mv ds;
  warnings := warnings ds; warning_count := warning_count ds; initialized := 1; booted := booted ds;
|}.

Definition dashboard_state_set_speed (ds : dashboard_state_t) (speed : Z) : dashboard_state_t := {|
  vehicle_mode := vehicle_mode ds; speed_kph_x10 := speed; soc_percent := soc_percent ds;
  battery_temp_c_x10 := battery_temp_c_x10 ds; battery_voltage_mv := battery_voltage_mv ds;
  warnings := warnings ds; warning_count := warning_count ds; initialized := 1; booted := booted ds;
|}.

Definition dashboard_state_set_battery (ds : dashboard_state_t) (soc temp voltage : Z) : dashboard_state_t := {|
  vehicle_mode := vehicle_mode ds; speed_kph_x10 := speed_kph_x10 ds; soc_percent := soc;
  battery_temp_c_x10 := temp; battery_voltage_mv := voltage;
  warnings := warnings ds; warning_count := warning_count ds; initialized := 1; booted := booted ds;
|}.

Definition with_warnings (ds : dashboard_state_t) (ws : list dashboard_warning_t) (count : Z) : dashboard_state_t := {|
  vehicle_mode := vehicle_mode ds; speed_kph_x10 := speed_kph_x10 ds; soc_percent := soc_percent ds;
  battery_temp_c_x10 := battery_temp_c_x10 ds; battery_voltage_mv := battery_voltage_mv ds;
  warnings := ws; warning_count := count; initialized := initialized ds; booted := booted ds;
|}.

Definition set_active (a : Z) (w : dashboard_warning_t) : dashboard_warning_t :=
  {| warning_code := warning_code w; active := a; source_node := source_node w |}.

Definition add_body (code source i : Z) (ds : dashboard_state_t)
    : outcome (ctl dashboard_state_t dashboard_state_t) :=
  let! w := load (warnings ds) i in
  if (warning_code w =? code) && (source_node w =? source) then
    let! ws := store (warnings ds) i (set_active 1 w) in
    Ret (Done (with_warnings ds ws (warning_count ds)))
  else Ret (Next ds).

Definition dashboard_state_add_warning (ds : dashboard_state_t) (code source : Z) : outcome dashboard_state_t :=
  let! c := for_ (add_body code source) 0 (Z.to_nat (warning_count ds)) ds in
  match c with
  | Done ds => Ret ds
  | Next ds =>
      if DASHBOARD_MAX_WARNINGS <=? warning_count ds then Ret ds
      else
        let! ws := store (warnings ds) (warning_count ds)
          {| warning_code := code; source_node := source; active := 1 |} in
        Ret (with_warnings ds ws (cast U8 (warning_count ds + 1)))
  end.

(** The two clearing loops. *)
Definition clear_body (sel : dashboard_warning_t -> bool) (i : Z) (s : list dashboard_warning_t * unit)
    : outcome (ctl (list dashboard_warning_t * unit) unit) :=
  let! w := load (fst s) i in
  if sel w then let! ws := store (fst s) i (set_active 0 w) in Ret (Next (ws, tt))
  else Ret (Next s).

Definition clear_where (sel : dashboard_warning_t -> bool) (ds : dashboard_state_t) : outcome dashboard_state_t :=
  let! c := for_ (clear_body sel) 0 (Z.to_nat (warning_count ds)) (warnings ds, tt) in
  match c with Next (ws, _) => Ret (with_warnings ds ws (warning_count ds)) | Done _ => Ret ds end.

Definition dashboard_state_clear_warning (ds : dashboard_state_t) (code : Z) : outcome dashboard_state_t :=
  clear_where (fun w => warning_code w =? code) ds.

Definition dashboard_state_clear_node_warnings (ds : dashboard_state_t) (source : Z) : outcome dashboard_state_t :=
  clear_where (fun w => source_node w =? source) ds.

(** The [switch] of [dashboard_state_top_warning]. *)
Definition severity (code : Z) : Z :=
  if code =? WarningCode_as_u8 CriticalBmsFault then 3
  else if code =? WarningCode_as_u8 BmsOvertemp then 2
  else if code =? WarningCode_as_u8 PowertrainOffline then 2
  else if code =? WarningCode_as_u8 GatewayRestarted then 2
  else if code =? WarningCode_as_u8 BmsOffline then 1
  else if code =? WarningCode_as_u8 DashboardOffline then 1
  else if code =? WarningCode_as_u8 InvalidThrottle then 1
  else if code =? WarningCode_as_u8 ChargerPlugged then 1
  else 0.

Definition top_step (top : Z * Z) (w : dashboard_warning_t) : Z * Z :=
  if negb (truthy (active w)) then top
  else let sev := severity (warning_code w) in
       if snd top <? sev then (warning_code w, sev) else top.

Definition top_body (ds : dashboard_state_t) (i : Z) (top : Z * Z) : outcome (ctl (Z * Z) Z) :=
  let! w := load (warnings ds) i in Ret (Next (top_step top w)).

Definition dashboard_state_top_warning (ds : dashboard_state_t) : outcome Z :=
  let! c := for_ (top_body ds) 0 (Z.to_nat (warning_count ds)) (WarningCode_as_u8 NoWarning, 0) in
  match c with Next top => Ret (fst top) | Done z => Ret z end.

Inductive op : Set :=
  | SetMode (mode : Z) | SetSpeed (speed : Z) | SetBattery (soc temp voltage : Z)
  | AddWarning (code source : Z) | ClearWarning (code : Z) | ClearNode (source : Z) | Reboot.

Definition step (ds : dashboard_state_t) (o : op) : outcome dashboard_state_t :=
  match o with
  | SetMode m => Ret (dashboard_state_set_mode ds m)
  | SetSpeed v => Ret (dashboard_state_set_speed ds v)
  | SetBattery a b c => Ret (dashboard_state_set_battery ds a b c)
  | AddWarning c s => dashboard_state_add_warning ds c s
  | ClearWarning c => dashboard_state_clear_warning ds c
  | ClearNode s => dashboard_state_clear_node_warnings ds s
  | Reboot => Ret (dashboard_state_reboot ds)
  end.

Definition run (ds : dashboard_state_t) (ops : list op) : outcome dashboard_state_t := ofold step ds ops.

(** The Rust dashboard on the same updates; it has no limit. *)
Definition rust_step (m : DashboardState.t) (o : op) : DashboardState.t :=
  match o with
  | SetMode mode => DashboardState.set_mode m (VehicleMode_from_u8 mode)
  | SetSpeed v => DashboardState.set_speed m v
  | SetBattery a b c => DashboardState.set_battery m a b c
  | AddWarning c s => DashboardState.add_warning m c s
  | ClearWarning c => DashboardState.clear_warning m c
  | ClearNode s => DashboardState.clear_node_warnings m s
  | Reboot => DashboardState.reboot m
  end.

(** The warnings a run names. *)
Definition warned (ops : list op) : gset (Z * Z) :=
  list_to_set (omap (fun o => match o with AddWarning c s => Some (c, s) | _ => None end) ops).

(** The Rust dashboard with the firmware's capacity: a new warning that finds sixteen is
    dropped. *)
Definition capped_step (m : DashboardState.t) (o : op) : DashboardState.t :=
  match o with
  | SetMode mode => DashboardState.set_mode m (VehicleMode_from_u8 mode)
  | SetSpeed v => DashboardState.set_speed m v
  | SetBattery a b c => DashboardState.set_battery m a b c
  | AddWarning c s =>
      if existsb (fun w => (DashboardState.warning_code w =? c) && (DashboardState.source_node w =? s))
           (DashboardState.warnings m)
         || (Z.of_nat (length (DashboardState.warnings m)) <? DASHBOARD_MAX_WARNINGS)
      then DashboardState.add_warning m c s else m
  | ClearWarning c => DashboardState.clear_warning m c
  | ClearNode s => DashboardState.clear_node_warnings m s
  | Reboot => DashboardState.reboot m
  end.

Definition entry (w : DashboardState.DashboardWarning) : dashboard_warning_t := {|
  warning_code := DashboardState.warning_code w;
  active := Z.b2z (DashboardState.active w);
  source_node := DashboardState.source_node w;
|}.

Definition mirrors (ds : dashboard_state_t) (m : DashboardState.t) : Prop :=
  table entry (Z.to_nat DASHBOARD_MAX_WARNINGS) (warnings ds) (warning_count ds) (DashboardState.warnings m) /\
  VehicleMode_from_u8 (vehicle_mode ds) = DashboardState.vehicle_mode m /\
  speed_kph_x10 ds = DashboardState.speed_kph_x10 m /\
  soc_percent ds = DashboardState.soc_percent m /\
  battery_temp_c_x10 ds = DashboardState.battery_temp_c_x10 m /\
  battery_voltage_mv ds = DashboardState.battery_voltage_mv m /\
  truthy (initialized ds) = DashboardState.initialized m /\
  truthy (booted ds) = DashboardState.booted m.

(** The ranges of the C types, the flags being 0 or 1, and the table of warnings in bounds. *)
Definition warning_typed (w : dashboard_warning_t) : Prop :=
  fits U8 (warning_code w) /\ 0 <= active w <= 1 /\ fits U8 (source_node w).

Record typed (ds : dashboard_state_t) : Prop := {
  mode_typed : fits U8 (vehicle_mode ds);
  speed_typed : fits U16 (speed_kph_x10 ds);
  soc_typed : fits U8 (soc_percent ds);
  temp_typed : fits I16 (battery_temp_c_x10 ds);
  voltage_typed : fits U16 (battery_voltage_mv ds);
  warnings_typed : Forall warning_typed (warnings ds);
  count_typed : 0 <= warning_count ds <= DASHBOARD_MAX_WARNINGS;
  initialized_typed : 0 <= initialized ds <= 1;
  booted_typed : 0 <= booted ds <= 1;
}.

Definition op_typed (o : op) : Prop :=
  match o with
  | SetMode m => fits U8 m
  | SetSpeed v => fits U16 v
  | SetBattery a b c => fits U8 a /\ fits I16 b /\ fits U16 c
  | AddWarning c s => fits U8 c /\ fits U8 s
  | ClearWarning c => fits U8 c
  | ClearNode s => fits U8 s
  | Reboot => True
  end.

End dashboard_state.

Module warning_display.

Record warning_display_t := { displayed_warning : Z; severity : Z }.

Definition warning_display_init : warning_display_t :=
  {| displayed_warning := WarningCode_as_u8 NoWarning; severity := 0 |}.

Definition warning_display_update (wd : warning_display_t) (code sev : Z) : warning_display_t * Z :=
  let wd := if severity wd <? sev then {| displayed_warning := code; severity := sev |} else wd in
  (wd, displayed_warning wd).

Definition warning_display_clear (wd : warning_display_t) : warning_display_t :=
  {| displayed_warning := WarningCode_as_u8 NoWarning; severity := 0 |}.

Definition warning_display_severity_for (code : Z) : Z :=
  if code =? WarningCode_as_u8 CriticalBmsFault then 3
  else if code =? WarningCode_as_u8 BmsOvertemp then 2
  else if code =? WarningCode_as_u8 PowertrainOffline then 2
  else if code =? WarningCode_as_u8 GatewayRestarted then 2
  else if code =? WarningCode_as_u8 BmsOffline then 1
  else if code =? WarningCode_as_u8 DashboardOffline then 1
  else if code =? WarningCode_as_u8 InvalidThrottle then 1
  else if code =? WarningCode_as_u8 ChargerPlugged then 1
  else 0.

End warning_display.

(** ** The heartbeat monitor *)

Section Heartbeats.
Import heartbeat_monitor.

(** The mirror's [check] without overflow checks. *)
Definition mexpired (now : Z) (n : HeartbeatMonitor.HeartbeatNode) : bool := expired now (entry n).

Definition mcheck (now : Z) (n : HeartbeatMonitor.HeartbeatNode) : HeartbeatMonitor.HeartbeatNode :=
  if mexpired now n then HeartbeatMonitor.mark_offline n else n.

Lemma mirror_check now m :
  HeartbeatMonitor.check Release m now =
  Ret ({| HeartbeatMonitor.nodes := map (mcheck now) (HeartbeatMonitor.nodes m) |},
       countb (mexpired now) (HeartbeatMonitor.nodes m)).
Proof.
  unfold HeartbeatMonitor.check.
  assert (forall ns, HeartbeatMonitor.check_nodes Release now ns =
                     Ret (map (mcheck now) ns, countb (mexpired now) ns)) as ->; [|done].
  induction ns as [|n ns IH]; [done|]. cbn [HeartbeatMonitor.check_nodes map]. rewrite IH, countb_cons.
  unfold HeartbeatMonitor.check_node, mcheck, mexpired, expired. cbn [entry online timeout_ms last_beat_ms].
  rewrite truthy_b2z. destruct (HeartbeatMonitor.online n); cbn [andb obind]; [|done].
  rewrite arith_release. cbn [obind]. by destruct (HeartbeatMonitor.timeout_ms n <=? _).
Qed.

Lemma check_mirrors hm m now :
  mirrors hm m ->
  exists hm', heartbeat_monitor_check hm now = Ret (hm', countb (mexpired now) (HeartbeatMonitor.nodes m)) /\
    mirrors hm' {| HeartbeatMonitor.nodes := map (mcheck now) (HeartbeatMonitor.nodes m) |}.
Proof.
  intros H. unfold heartbeat_monitor_check.
  destruct (table_map entry (Z.to_nat HM_MAX_NODES)
              (fun n => if expired now n then set_offline n else n) (mcheck now)
              (fun t n => t + Z.b2z (expired now n)) (check_body now) _ _ _ 0 H) as (arr' & Hfor & Ht).
  - intros n. unfold mcheck, mexpired. by case_match.
  - intros pre e rest t. unfold check_body. rewrite load_middle. cbn [obind].
    destruct (expired now e); cbn [Z.b2z]; [by rewrite store_middle|by rewrite Z.add_0_r].
  - rewrite Hfor. cbn [obind]. exists (with_nodes hm arr'). split; [|exact Ht]. do 2 f_equal.
    assert (forall l t, fold_left (fun t n => t + Z.b2z (expired now n)) (map entry l) t
                        = t + countb (mexpired now) l) as Hc.
    { induction l as [|n l IH]; intros t; cbn [map fold_left]; [by rewrite countb_nil, Z.add_0_r|].
      rewrite IH, countb_cons. unfold mexpired. destruct (expired now (entry n)); simpl; lia. }
    by rewrite Hc.
Qed.

Lemma beat_mirrors hm m id now :
  mirrors hm m ->
  exists hm', heartbeat_monitor_beat hm id now = Ret hm' /\ mirrors hm' (HeartbeatMonitor.beat m id now).
Proof.
  intros H. unfold heartbeat_monitor_beat, HeartbeatMonitor.beat. rewrite split_first_update.
  rewrite (table_find entry (Z.to_nat HM_MAX_NODES) nodes (fun n => node_id n =? id)
             (fun n => HeartbeatMonitor.node_id n =? id) (beat_body id now) hm _ _ H) by
    (done || (intros i e Hi He; unfold beat_body; by rewrite Hi; simpl; rewrite He)).
  destruct (split_first _ _) as [[[l1 n] l2]|] eqn:Hs; [|by exists hm].
  apply split_first_Some in Hs as [Hl Hp]. unfold beat_body. unfold mirrors in H. rewrite Hl in H.
  rewrite (table_load _ _ _ _ _ _ _ H). cbn [obind]. cbn [entry node_id]. rewrite Hp.
  destruct (table_store _ _ _ _ _ _ _ (HeartbeatMonitor.mark_beat now n) H) as (arr' & Hst & Ht).
  replace (if negb (truthy (online (entry n))) then 1 else online (entry n)) with 1
    by (simpl; by destruct (HeartbeatMonitor.online n)).
  change (timeout_ms (entry n)) with (HeartbeatMonitor.timeout_ms n).
  change {| node_id := HeartbeatMonitor.node_id n; online := 1; last_beat_ms := now;
            timeout_ms := HeartbeatMonitor.timeout_ms n |} with (entry (HeartbeatMonitor.mark_beat now n)).
  rewrite Hst. simpl. by eexists.
Qed.

Lemma register_mirrors hm m id timeout :
  mirrors hm m ->
  if Z.of_nat (length (HeartbeatMonitor.nodes m)) <? HM_MAX_NODES
  then exists hm', heartbeat_monitor_register hm id timeout = Ret (hm', 0) /\
                   mirrors hm' (HeartbeatMonitor.register m id timeout)
  else heartbeat_monitor_register hm id timeout = Ret (hm, -1).
Proof.
  intros H. pose proof H as (_ & Hc & _). unfold heartbeat_monitor_register. rewrite <- Hc, Z.ltb_antisym.
  destruct (Z.leb_spec HM_MAX_NODES (node_count hm)); [done|]. cbn [negb].
  set (new := {| HeartbeatMonitor.node_id := id; HeartbeatMonitor.online := false;
                 HeartbeatMonitor.last_beat_ms := 0; HeartbeatMonitor.timeout_ms := timeout |}).
  destruct (table_push _ _ _ _ _ new H) as (arr' & Hst & Ht); [unfold HM_MAX_NODES in *; lia|].
  change {| node_id := id; online := 0; last_beat_ms := 0; timeout_ms := timeout |} with (entry new).
  rewrite Hst. simpl. eexists. split; [done|]. unfold mirrors. cbn [nodes node_count].
  pose proof (table_le _ _ _ _ _ H). unfold HM_MAX_NODES in *. by rewrite cast_id by int_lia.
Qed.

(** A node behind another of the same id never comes online: beats go to the first. *)
Fixpoint shadowed (seen : list Z) (ns : list HeartbeatMonitor.HeartbeatNode) : Prop :=
  match ns with
  | [] => True
  | n :: ns =>
      (HeartbeatMonitor.node_id n ∈ seen -> HeartbeatMonitor.online n = false) /\
      shadowed (HeartbeatMonitor.node_id n :: seen) ns
  end.

Lemma shadowed_map g seen ns :
  (forall n, HeartbeatMonitor.node_id (g n) = HeartbeatMonitor.node_id n) ->
  (forall n, HeartbeatMonitor.online n = false -> HeartbeatMonitor.online (g n) = false) ->
  shadowed seen ns -> shadowed seen (map g ns).
Proof.
  intros Hid Hoff. revert seen; induction ns as [|n ns IH]; intros seen H; [done|].
  destruct H as [Hn H]. simpl. rewrite Hid. split; auto.
Qed.

(** Changing a node that nothing before it has the id of. *)
Lemma shadowed_first seen l1 n n' l2 :
  shadowed seen (l1 ++ n :: l2) -> HeartbeatMonitor.node_id n' = HeartbeatMonitor.node_id n ->
  HeartbeatMonitor.node_id n ∉ seen ->
  (forall x, x ∈ l1 -> HeartbeatMonitor.node_id x <> HeartbeatMonitor.node_id n) ->
  shadowed seen (l1 ++ n' :: l2).
Proof.
  intros H Hid. revert seen H; induction l1 as [|a l1 IH]; intros seen H Hs Hl; simpl in *.
  - rewrite Hid. split; [done|apply H].
  - split; [apply H|]. apply IH; [apply H| |intros; apply Hl; by right].
    rewrite not_elem_of_cons. split; [|done]. intros E. apply (Hl a); [by left|done].
Qed.

Lemma shadowed_snoc seen ns n :
  shadowed seen ns -> HeartbeatMonitor.online n = false -> shadowed seen (ns ++ [n]).
Proof.
  intros H Hn. revert seen H; induction ns as [|a ns IH]; intros seen H; simpl in *; [by split|].
  split; [apply H|]. apply IH, H.
Qed.

Lemma shadowed_online seen ns id :
  shadowed seen ns -> id ∈ seen ->
  existsb (fun n => (HeartbeatMonitor.node_id n =? id) && HeartbeatMonitor.online n) ns = false.
Proof.
  revert seen; induction ns as [|n ns IH]; intros seen H Hin; [done|]. destruct H as [Hn H]. simpl.
  rewrite (IH _ H) by (by right). rewrite orb_false_r.
  destruct (Z.eqb_spec (HeartbeatMonitor.node_id n) id) as [<-|]; [simpl; by apply Hn|done].
Qed.

Lemma heartbeat_joint_step hm m o :
  mirrors hm m -> shadowed [] (HeartbeatMonitor.nodes m) ->
  exists hm' m', heartbeat_monitor.step hm o = Ret hm' /\ capped_step m o = Ret m' /\
    mirrors hm' m' /\ shadowed [] (HeartbeatMonitor.nodes m').
Proof.
  intros H Hsh. destruct o as [id t|id now|now]; cbn [heartbeat_monitor.step capped_step HeartbeatMonitor.step].
  - pose proof (register_mirrors hm m id t H) as Hr. destruct (_ <? HM_MAX_NODES).
    + destruct Hr as (hm' & -> & Hm). do 2 eexists. split_and!; [done|done|done|]. by apply shadowed_snoc.
    + rewrite Hr. by do 2 eexists.
  - destruct (beat_mirrors hm m id now H) as (hm' & -> & Hm). do 2 eexists. split_and!; [done|done|done|].
    unfold HeartbeatMonitor.beat. rewrite split_first_update.
    destruct (split_first _ _) as [[[l1 n] l2]|] eqn:Hs; [|done]. simpl.
    pose proof (split_first_before _ _ _ _ _ Hs) as Hb. apply split_first_Some in Hs as [Hl Hp]. rewrite Hl in Hsh.
    apply (shadowed_first _ _ n); [done|done|by apply not_elem_of_nil|].
    intros x Hx E. specialize (Hb x Hx). simpl in Hb. bool_prop. congruence.
  - destruct (check_mirrors hm m now H) as (hm' & -> & Hm). rewrite mirror_check. do 2 eexists.
    split_and!; [done|done|done|]. simpl. apply shadowed_map; [| |done].
    + intros n. unfold mcheck. by case_match.
    + intros n Hn. unfold mcheck. by case_match.
Qed.

Lemma heartbeat_joint_run ops hm m :
  mirrors hm m -> shadowed [] (HeartbeatMonitor.nodes m) ->
  exists hm' m', heartbeat_monitor.run hm ops = Ret hm' /\ ofold capped_step m ops = Ret m' /\
    mirrors hm' m' /\ shadowed [] (HeartbeatMonitor.nodes m').
Proof.
  unfold heartbeat_monitor.run. revert hm m; induction ops as [|o ops IH]; intros hm m H Hs; [by exists hm, m|].
  destruct (heartbeat_joint_step hm m o H Hs) as (hm1 & m1 & H1 & H2 & H3 & H4). simpl. rewrite H1, H2. simpl. by apply IH.
Qed.

Lemma first_or_mirror p q r d hm m :
  mirrors hm m -> (forall n, p (entry n) = q n) ->
  first_or p r d hm =
  Ret (match List.find q (HeartbeatMonitor.nodes m) with Some n => r (entry n) | None => d end).
Proof.
  intros H Hp. unfold first_or.
  rewrite (table_find entry (Z.to_nat HM_MAX_NODES) nodes p q (first_body p r) hm _ _ H Hp) by
    (intros i e Hi He; unfold first_body; by rewrite Hi; simpl; rewrite He).
  rewrite split_first_find. destruct (split_first _ _) as [[[l1 n] l2]|] eqn:Hs; [|done].
  apply split_first_Some in Hs as [Hl Hq]. unfold mirrors in H. rewrite Hl in H. unfold first_body.
  rewrite (table_load _ _ _ _ _ _ _ H). cbn [obind]. by rewrite Hp, Hq.
Qed.

Lemma all_online_mirror hm m :
  mirrors hm m -> heartbeat_monitor_all_online hm = Ret (Z.b2z (HeartbeatMonitor.all_online m)).
Proof.
  intros H. pose proof H as (_ & Hc & _). unfold heartbeat_monitor_all_online, HeartbeatMonitor.all_online.
  rewrite (first_or_mirror _ (fun n => negb (HeartbeatMonitor.online n)) _ _ hm m H)
    by (intros n; cbn [entry online]; by rewrite truthy_b2z).
  rewrite Hc. destruct (HeartbeatMonitor.nodes m) as [|n ns]; [done|]. simpl length.
  rewrite (proj2 (Z.eqb_neq _ 0)) by lia. f_equal. clear Hc H.
  induction (n :: ns) as [|a l IH]; [done|]. simpl. destruct (HeartbeatMonitor.online a); simpl; [exact IH|done].
Qed.

Lemma is_online_mirror hm m id :
  mirrors hm m -> shadowed [] (HeartbeatMonitor.nodes m) ->
  heartbeat_monitor_is_online hm id = Ret (Z.b2z (HeartbeatMonitor.is_online m id)).
Proof.
  intros H Hs. unfold heartbeat_monitor_is_online, HeartbeatMonitor.is_online.
  rewrite (first_or_mirror _ (fun n => HeartbeatMonitor.node_id n =? id) _ _ hm m H) by done. f_equal.
  revert Hs. generalize (@nil Z). generalize (HeartbeatMonitor.nodes m) as ns.
  induction ns as [|n ns IH]; intros seen Hs; [done|]. destruct Hs as [Hn Hs]. simpl.
  destruct (Z.eqb_spec (HeartbeatMonitor.node_id n) id) as [<-|]; simpl; [|by apply (IH _ Hs)].
  rewrite (shadowed_online _ ns _ Hs) by (by left). by rewrite orb_false_r.
Qed.

(** With at most eight registrations the capacity is not felt. *)
Lemma registrations_fit ops m :
  (length (HeartbeatMonitor.nodes m) + length (List.filter is_register ops) <= 8)%nat ->
  ofold capped_step m ops = ofold rust_step m ops.
Proof.
  revert m; induction ops as [|o ops IH]; intros m Hl; [done|]. cbn [ofold List.filter] in *.
  destruct o as [id t|id now|now]; cbn [is_register length capped_step rust_step] in *.
  - unfold HM_MAX_NODES. rewrite (proj2 (Z.ltb_lt _ 8)) by lia. cbn [obind]. apply IH.
    unfold HeartbeatMonitor.register. cbn [HeartbeatMonitor.nodes]. rewrite length_app. cbn [length]. lia.
  - cbn [HeartbeatMonitor.step obind]. apply IH. unfold HeartbeatMonitor.beat. rewrite split_first_update.
    destruct (split_first _ _) as [[[l1 n] l2]|] eqn:Hs; [|done]. apply split_first_Some in Hs as [E _].
    cbn [HeartbeatMonitor.nodes]. rewrite E in Hl. rewrite length_app in *. cbn [length] in *. lia.
  - cbn [HeartbeatMonitor.step]. rewrite mirror_check. cbn [omap_ret obind fst]. apply IH.
    cbn [HeartbeatMonitor.nodes]. by rewrite length_map.
Qed.

(** C19: The gateway's heartbeat table and its Rust mirror.  For every sequence of
    registrations, beats and checks, with any clock, the firmware stays inside its eight
    slots and holds the nodes of the Rust monitor run on the same calls but the registrations
    that find eight nodes, which the firmware refuses with -1; with at most eight
    registrations that is the Rust monitor as it is.  A check reports the same number of lost
    nodes, and the questions whether one node or all are online are answered alike, also when
    an id was registered twice. *)
Theorem heartbeat_table_mirrors timeout ops :
  exists hm m, heartbeat_monitor.run (heartbeat_monitor_init timeout) ops = Ret hm /\
    ofold capped_step HeartbeatMonitor.new ops = Ret m /\ mirrors hm m /\
    ((length (List.filter is_register ops) <= 8)%nat -> ofold rust_step HeartbeatMonitor.new ops = Ret m) /\
    (length (HeartbeatMonitor.nodes m) <= 8)%nat /\
    (forall now, exists hm' m' n, heartbeat_monitor_check hm now = Ret (hm', n) /\
                                  HeartbeatMonitor.check Release m now = Ret (m', n)) /\
    heartbeat_monitor_all_online hm = Ret (Z.b2z (HeartbeatMonitor.all_online m)) /\
    (forall id, heartbeat_monitor_is_online hm id = Ret (Z.b2z (HeartbeatMonitor.is_online m id))) /\
    (forall id t, omap_ret snd (heartbeat_monitor_register hm id t) =
       Ret (if (length (HeartbeatMonitor.nodes m) <? 8)%nat then 0 else -1)).
Proof.
  destruct (heartbeat_joint_run ops (heartbeat_monitor_init timeout) HeartbeatMonitor.new) as (hm & m & H1 & H2 & H3 & H4);
    [apply table_empty|done|].
  exists hm, m. pose proof (table_le _ _ _ _ _ H3) as Hle. pose proof H3 as (_ & Hc & _).
  unfold HM_MAX_NODES in Hle.
  split_and!; [done|done|done|intros Hr; by rewrite <- registrations_fit|lia| |by apply all_online_mirror|intros; by apply is_online_mirror|].
  - intros now. destruct (check_mirrors hm m now H3) as (hm' & Hch & _). rewrite mirror_check. by do 3 eexists.
  - intros id t. pose proof (register_mirrors hm m id t H3) as Hr. unfold HM_MAX_NODES in Hr.
    destruct (Z.ltb_spec (Z.of_nat (length (HeartbeatMonitor.nodes m))) 8),
      (Nat.ltb_spec (length (HeartbeatMonitor.nodes m)) 8); try lia.
    + by destruct Hr as (hm' & -> & _).
    + by rewrite Hr.
Qed.
End Heartbeats.

(** ** The dashboard's warnings *)

Section Warnings.
Import dashboard_state.

Lemma severity_mirror code : severity code = warning_severity code.
Proof. done. Qed.

Definition same_warning (code source : Z) (w : DashboardState.DashboardWarning) : bool :=
  (DashboardState.warning_code w =? code) && (DashboardState.source_node w =? source).

Lemma with_warnings_mirrors ds m ws count mws :
  mirrors ds m -> table entry (Z.to_nat DASHBOARD_MAX_WARNINGS) ws count mws ->
  mirrors (with_warnings ds ws count) (DashboardState.with_warnings m mws).
Proof. intros (_ & H) Ht. by split. Qed.

Lemma add_warning_mirrors ds m code source :
  mirrors ds m ->
  exists ds', dashboard_state_add_warning ds code source = Ret ds' /\
              mirrors ds' (capped_step m (AddWarning code source)).
Proof.
  intros H. pose proof H as [Ht _]. unfold dashboard_state_add_warning. cbn [capped_step].
  unfold DashboardState.add_warning. rewrite split_first_update. fold (same_warning code source).
  rewrite (table_find entry (Z.to_nat DASHBOARD_MAX_WARNINGS) warnings
             (fun w => (warning_code w =? code) && (source_node w =? source)) (same_warning code source)
             (add_body code source) ds _ _ Ht) by
    (done || (intros i e Hi He; unfold add_body; by rewrite Hi; simpl; rewrite He)).
  assert (existsb (same_warning code source) (DashboardState.warnings m) =
          bool_decide (split_first (same_warning code source) (DashboardState.warnings m) <> None)) as ->.
  { destruct (split_first _ _) as [[[l1 w] l2]|] eqn:Hs.
    - apply split_first_Some in Hs as [-> Hp]. rewrite existsb_app. simpl. by rewrite Hp, orb_true_r.
    - pose proof (proj1 (split_first_None _ _) Hs) as Hn. simpl.
      destruct (existsb _ _) eqn:E; [|done]. apply existsb_elem in E as (w & Hw & E).
      rewrite Hn in E by done. done. }
  destruct (split_first _ _) as [[[l1 w] l2]|] eqn:Hs; cbn [orb obind].
  - apply split_first_Some in Hs as [Hl Hp]. rewrite Hl in Ht. unfold add_body.
    rewrite (table_load _ _ _ _ _ _ _ Ht). cbn [obind].
    change ((warning_code (entry w) =? code) && (source_node (entry w) =? source)) with (same_warning code source w).
    rewrite Hp. change (set_active 1 (entry w)) with (entry (DashboardState.set_active true w)).
    destruct (table_store _ _ _ _ _ _ _ (DashboardState.set_active true w) Ht) as (arr' & -> & Ht').
    cbn [obind]. rewrite bool_decide_true by done. eexists. split; [done|]. by apply with_warnings_mirrors.
  - rewrite bool_decide_false by (intros E; by apply E). cbn [orb].
    pose proof Ht as (_ & Hc & _). rewrite <- Hc, Z.ltb_antisym.
    destruct (Z.leb_spec DASHBOARD_MAX_WARNINGS (warning_count ds)); cbn [negb]; [by exists ds|].
    set (new := {| DashboardState.warning_code := code; DashboardState.active := true;
                   DashboardState.source_node := source |}).
    destruct (table_push _ _ _ _ _ new Ht) as (arr' & Hst & Ht'); [unfold DASHBOARD_MAX_WARNINGS in *; lia|].
    change {| warning_code := code; active := 1; source_node := source |} with (entry new).
    rewrite Hst. cbn [obind]. eexists. split; [done|]. apply with_warnings_mirrors; [done|].
    pose proof (table_le _ _ _ _ _ Ht). unfold DASHBOARD_MAX_WARNINGS in *. by rewrite cast_id by int_lia.
Qed.

Lemma clear_warnings_mirrors sel sel' ds m :
  mirrors ds m -> (forall w, sel (entry w) = sel' w) ->
  exists ds', clear_where sel ds = Ret ds' /\
    mirrors ds' (DashboardState.with_warnings m
      (map (fun w => if sel' w then DashboardState.set_active false w else w) (DashboardState.warnings m))).
Proof.
  intros H Hsel. pose proof H as [Ht _]. unfold clear_where.
  destruct (table_map entry (Z.to_nat DASHBOARD_MAX_WARNINGS)
              (fun w => if sel w then set_active 0 w else w)
              (fun w => if sel' w then DashboardState.set_active false w else w)
              (fun u _ => u) (clear_body sel) _ _ _ tt Ht) as (arr' & -> & Ht').
  - intros w. rewrite Hsel. by case_match.
  - intros pre e rest []. unfold clear_body. cbn [fst]. rewrite load_middle. cbn [obind].
    destruct (sel e); [by rewrite store_middle|done].
  - cbn [obind]. eexists. split; [done|]. by apply with_warnings_mirrors.
Qed.

Lemma dashboard_step_mirrors ds m o :
  mirrors ds m -> exists ds', dashboard_state.step ds o = Ret ds' /\ mirrors ds' (capped_step m o).
Proof.
  intros H. destruct o as [mode|v|a b c|c s|c|s|]; cbn [dashboard_state.step].
  - eexists. split; [done|]. by destruct H as (? & ? & ? & ? & ? & ? & ? & ?).
  - eexists. split; [done|]. by destruct H as (? & ? & ? & ? & ? & ? & ? & ?).
  - eexists. split; [done|]. by destruct H as (? & ? & ? & ? & ? & ? & ? & ?).
  - by apply add_warning_mirrors.
  - by apply clear_warnings_mirrors.
  - by apply clear_warnings_mirrors.
  - eexists. split; [done|]. split; [apply table_empty|done].
Qed.

Lemma dashboard_run_mirrors ops ds m :
  mirrors ds m ->
  exists ds', dashboard_state.run ds ops = Ret ds' /\ mirrors ds' (fold_left capped_step ops m).
Proof.
  unfold dashboard_state.run. revert ds m; induction ops as [|o ops IH]; intros ds m H; [by exists ds|].
  destruct (dashboard_step_mirrors ds m o H) as (ds1 & H1 & H2). simpl. rewrite H1. simpl. by apply IH.
Qed.

Lemma top_warning_mirror ds m :
  mirrors ds m -> dashboard_state_top_warning ds = Ret (DashboardState.top_warning m).
Proof.
  intros [Ht _]. unfold dashboard_state_top_warning, DashboardState.top_warning.
  rewrite (table_fold entry (Z.to_nat DASHBOARD_MAX_WARNINGS) (fun _ => warnings ds) top_step (top_body ds) _ _ _ Ht).
  2: done.
  2: { intros i s w Hl. unfold top_body. by rewrite Hl. }
  cbn [obind]. do 2 f_equal. clear Ht. generalize (WarningCode_as_u8 NoWarning, 0) as top.
  induction (DashboardState.warnings m) as [|w ws IH]; intros top; [done|]. cbn [map fold_left].
  rewrite IH. f_equal. unfold top_step, DashboardState.top_step. cbn [entry active warning_code].
  by rewrite truthy_b2z.
Qed.

(** *** The types of the fields *)

Lemma zeroed_typed b : 0 <= b <= 1 -> typed (zeroed b).
Proof.
  intros Hb. split; try done; try (by vm_compute). apply Forall_replicate. split_and!; by vm_compute.
Qed.

Lemma with_warnings_typed ds ws n :
  typed ds -> Forall warning_typed ws -> 0 <= n <= DASHBOARD_MAX_WARNINGS -> typed (with_warnings ds ws n).
Proof. intros [] Hw Hn. by split. Qed.

Lemma load_typed ds i w : typed ds -> load (warnings ds) i = Ret w -> warning_typed w.
Proof.
  intros [] Hl. unfold load in Hl. destruct (0 <=? i); [|done].
  destruct (warnings ds !! Z.to_nat i) as [w'|] eqn:E; [|done]. injection Hl as <-.
  by apply (proj1 (Forall_lookup _ _) warnings_typed0 (Z.to_nat i)).
Qed.

Lemma add_warning_typed ds code source ds' :
  typed ds -> fits U8 code -> fits U8 source ->
  dashboard_state_add_warning ds code source = Ret ds' -> typed ds'.
Proof.
  intros Ht Hc Hs. unfold dashboard_state_add_warning.
  destruct (for_ _ _ _ _) as [c|] eqn:Hf; cbn [obind]; [|done].
  apply (for_inv (fun d => typed d) (fun d => typed d)) in Hf; [|clear - Hc Hs|exact Ht].
  - destruct c as [d|d]; [|by intros [= <-]]. destruct (Z.leb_spec DASHBOARD_MAX_WARNINGS (warning_count d)).
    { by intros [= <-]. }
    destruct (store _ _ _) as [ws|] eqn:E; cbn [obind]; [|done]. intros [= <-].
    pose proof (count_typed _ Hf). unfold DASHBOARD_MAX_WARNINGS in *.
    apply with_warnings_typed; [done| |unfold DASHBOARD_MAX_WARNINGS; rewrite cast_id by int_lia; lia].
    eapply store_Forall; [by apply warnings_typed| |exact E]. by split.
  - intros i d c Hd. unfold add_body. destruct (load _ _) as [w|] eqn:El; cbn [obind]; [|done].
    destruct (_ && _); [|by intros [= <-]]. destruct (store _ _ _) as [ws|] eqn:E; cbn [obind]; [|done].
    intros [= <-]. apply with_warnings_typed; [done| |by apply count_typed].
    eapply store_Forall; [by apply warnings_typed| |exact E].
    destruct (load_typed _ _ _ Hd El) as (? & _ & ?). by split.
Qed.

Lemma clear_where_typed sel ds ds' : typed ds -> clear_where sel ds = Ret ds' -> typed ds'.
Proof.
  intros Ht. unfold clear_where. destruct (for_ _ _ _ _) as [c|] eqn:Hf; cbn [obind]; [|done].
  apply (for_inv (fun s => Forall warning_typed (fst s)) (fun _ => True)) in Hf;
    [|clear; intros i [ws []] c Hw|by apply warnings_typed].
  - destruct c as [[ws []]|]; intros [= <-]; [|done]. apply with_warnings_typed; [done|done|by apply count_typed].
  - unfold clear_body. cbn [fst] in *. unfold load. destruct (0 <=? i); [|done].
    destruct (ws !! Z.to_nat i) as [w|] eqn:El; cbn [obind]; [|done].
    destruct (sel w); [|by intros [= <-]]. destruct (store _ _ _) as [ws'|] eqn:E; cbn [obind]; [|done].
    intros [= <-]. cbn [fst]. eapply store_Forall; [exact Hw| |exact E].
    destruct (proj1 (Forall_lookup _ _) Hw _ _ El) as (? & _ & ?). by split.
Qed.

Lemma dashboard_step_typed ds o ds' :
  typed ds -> op_typed o -> dashboard_state.step ds o = Ret ds' -> typed ds'.
Proof.
  intros Ht Ho. destruct o as [m|v|a b c|c s|c|s|]; cbn [dashboard_state.step op_typed] in *.
  - intros [= <-]. destruct Ht. by split.
  - intros [= <-]. destruct Ht. by split.
  - intros [= <-]. destruct Ht, Ho as (? & ? & ?). by split.
  - apply add_warning_typed; by try apply Ho.
  - by apply clear_where_typed.
  - by apply clear_where_typed.
  - intros [= <-]. by apply zeroed_typed.
Qed.

(** What a warning is known by. *)
Definition warning_key (w : DashboardState.DashboardWarning) : Z * Z :=
  (DashboardState.warning_code w, DashboardState.source_node w).

Lemma same_warning_key c s w : same_warning c s w = true <-> warning_key w = (c, s).
Proof. unfold same_warning, warning_key. rewrite andb_true_iff, !Z.eqb_eq. split; [by intros [-> ->]|by intros [= -> ->]]. Qed.

(** The keys of a warning list after an update: those of before, and a new one. *)
Lemma add_warning_keys m c s :
  map warning_key (DashboardState.warnings (DashboardState.add_warning m c s)) =
  map warning_key (DashboardState.warnings m) ++
  (if existsb (same_warning c s) (DashboardState.warnings m) then [] else [(c, s)]).
Proof.
  unfold DashboardState.add_warning. rewrite split_first_update. fold (same_warning c s).
  destruct (split_first _ _) as [[[l1 w] l2]|] eqn:Hs.
  - apply split_first_Some in Hs as [-> Hp]. rewrite existsb_app. cbn [existsb]. rewrite Hp, orb_true_r, app_nil_r.
    cbn [DashboardState.with_warnings DashboardState.warnings]. by rewrite !map_app.
  - assert (existsb (same_warning c s) (DashboardState.warnings m) = false) as ->.
    { apply not_true_is_false. intros (w & Hw & E)%existsb_elem. by rewrite (proj1 (split_first_None _ _) Hs) in E. }
    cbn [DashboardState.with_warnings DashboardState.warnings]. by rewrite map_app.
Qed.

(** With at most sixteen distinct warnings the capacity is not felt. *)
Lemma warnings_fit K ops m :
  (size K <= 16)%nat -> warned ops ⊆ K ->
  NoDup (map warning_key (DashboardState.warnings m)) ->
  (forall k, k ∈ map warning_key (DashboardState.warnings m) -> k ∈ K) ->
  fold_left capped_step ops m = fold_left rust_step ops m.
Proof.
  intros HK. revert m; induction ops as [|o ops IH]; intros m Ho Hn Hs; [done|]. cbn [fold_left].
  assert (warned ops ⊆ K) as Ho'.
  { intros k Hk. apply Ho. unfold warned in *. rewrite elem_of_list_to_set in *. cbn.
    destruct o; cbn; [done..|by right|done|done|done]. }
  assert (forall f, (forall w, warning_key (f w) = warning_key w) ->
            map warning_key (map f (DashboardState.warnings m)) = map warning_key (DashboardState.warnings m)) as Hmap.
  { intros f Hf. rewrite map_map. apply map_ext, Hf. }
  destruct o as [mode|v|a b c|c s|c|s|]; cbn [capped_step rust_step]; try (by apply IH);
    try (apply IH; [done|cbn [DashboardState.clear_warning DashboardState.clear_node_warnings DashboardState.with_warnings DashboardState.warnings];
                    rewrite Hmap; [done|intros w; by case_match]..]).
  2: { apply IH; [done|by apply NoDup_nil_2|]. intros k Hk. by apply not_elem_of_nil in Hk. }
  assert ((c, s) ∈ K) as Hin by (apply Ho; unfold warned; rewrite elem_of_list_to_set; by left).
  fold (same_warning c s). pose proof (add_warning_keys m c s) as Hkeys.
  destruct (existsb (same_warning c s) (DashboardState.warnings m)) eqn:He; cbn [orb].
  { rewrite app_nil_r in Hkeys. apply IH; [done|by rewrite Hkeys..]. }
  assert ((c, s) ∉ map warning_key (DashboardState.warnings m)) as Hnew.
  { intros (w & E & Hw)%list_elem_of_In%in_map_iff. apply list_elem_of_In in Hw.
    assert (existsb (same_warning c s) (DashboardState.warnings m) = true); [|congruence].
    apply existsb_elem. exists w. split; [done|]. by apply same_warning_key. }
  assert (length (DashboardState.warnings m) < 16)%nat as Hlen.
  { rewrite <- (length_map warning_key). assert (NoDup ((c, s) :: map warning_key (DashboardState.warnings m))) as Hn' by by constructor.
    assert ((list_to_set ((c, s) :: map warning_key (DashboardState.warnings m)) : gset (Z * Z)) ⊆ K) as Hsub.
    { intros k. rewrite elem_of_list_to_set. intros [->|?]%elem_of_cons; auto. }
    apply subseteq_size in Hsub. rewrite size_list_to_set in Hsub by done. cbn [length] in Hsub. lia. }
  unfold DASHBOARD_MAX_WARNINGS. rewrite (proj2 (Z.ltb_lt _ 16)) by lia. apply IH; [done|..]; rewrite Hkeys.
  - apply NoDup_app. split; [done|]. split; [|apply NoDup_singleton]. intros k Hk ->%list_elem_of_singleton. done.
  - intros k [Hk| ->%list_elem_of_singleton]%elem_of_app; auto.
Qed.

(** The dashboard firmware and its Rust mirror.  For every sequence of updates,
    warnings, clears and reboots the firmware stays inside its sixteen warning slots, holds
    the state of the mirror run on the same calls, where a new warning that finds the table
    full is dropped, and shows the same top warning.  Both severity tables of the C code
    are the mirror's. *)
Theorem dashboard_table_mirrors ops :
  exists ds, dashboard_state.run dashboard_state_init ops = Ret ds /\
    mirrors ds (fold_left capped_step ops DashboardState.default) /\
    dashboard_state_top_warning ds =
      Ret (DashboardState.top_warning (fold_left capped_step ops DashboardState.default)) /\
    (length (DashboardState.warnings (fold_left capped_step ops DashboardState.default)) <= 16)%nat /\
    (forall code, warning_display.warning_display_severity_for code = warning_severity code).
Proof.
  destruct (dashboard_run_mirrors ops dashboard_state_init DashboardState.default) as (ds & H1 & H2).
  { split; [apply table_empty|done]. }
  exists ds. pose proof H2 as [Ht _]. pose proof (table_le _ _ _ _ _ Ht). pose proof Ht as (_ & Hc & _).
  unfold DASHBOARD_MAX_WARNINGS in *.
  split_and!; [done|done|by apply top_warning_mirror|lia|done].
Qed.
End Warnings.
