(* ===== verification/COtaSlot.v ===== *)
(** * The C OTA slot model ([common/src/microcar_ota_slot.c])

    The state machine of the firmware, its CRC over memory, the packed metadata record
    and the choice between the two copies, with null pointers; then the bisimulation with
    the Rust mirror of [OtaSlot]. *)

From S2P Require Import Prelude MachineInt OtaSlot CBase.

(** ** The slot state machine *)

Definition MC_OTA_IDLE : Z := 0.
Definition MC_OTA_DOWNLOADING : Z := 1.
Definition MC_OTA_VERIFYING : Z := 2.
Definition MC_OTA_COMMIT_PENDING : Z := 3.
Definition MC_OTA_REBOOTING : Z := 4.
Definition MC_OTA_HEALTHY : Z := 5.
Definition MC_OTA_ROLLED_BACK : Z := 6.

Definition MC_OTA_SLOT_A : Z := 0.
Definition MC_OTA_SLOT_B : Z := 1.

Module mc_ota.

Record mc_ota_slot_state_t := {
  active_slot : Z;
  target_slot : Z;
  state : Z;
  image_written : Z;
  crc_ok : Z;
  committed : Z;
  boot_healthy : Z;
  rolled_back : Z;
  abort_reason : Z;
}.

Definition other_slot (slot : Z) : Z := if slot =? MC_OTA_SLOT_A then MC_OTA_SLOT_B else MC_OTA_SLOT_A.

Definition init : mc_ota_slot_state_t := {|
  active_slot := MC_OTA_SLOT_A; target_slot := MC_OTA_SLOT_A; state := MC_OTA_IDLE;
  image_written := 0; crc_ok := 0; committed := 0; boot_healthy := 0; rolled_back := 0;
  abort_reason := 0;
|}.

(** The operations on an object that is there; [None] below is the null pointer. *)
Definition begin_download (s : mc_ota_slot_state_t) : mc_ota_slot_state_t :=
  if negb (state s =? MC_OTA_IDLE) then s
  else {| active_slot := active_slot s; target_slot := other_slot (active_slot s);
          state := MC_OTA_DOWNLOADING; image_written := 0; crc_ok := 0; committed := 0;
          boot_healthy := boot_healthy s; rolled_back := rolled_back s;
          abort_reason := abort_reason s |}.

Definition rollback (s : mc_ota_slot_state_t) : mc_ota_slot_state_t :=
  if state s =? MC_OTA_HEALTHY then s
  else {| active_slot := active_slot s; target_slot := active_slot s;
          state := MC_OTA_ROLLED_BACK; image_written := 0; crc_ok := crc_ok s; committed := 0;
          boot_healthy := 0; rolled_back := 1; abort_reason := abort_reason s |}.

Definition finish_download (s : mc_ota_slot_state_t) (complete : Z) : mc_ota_slot_state_t * Z :=
  if negb (state s =? MC_OTA_DOWNLOADING) then (s, 0)
  else if negb (truthy complete) then (rollback s, 0)
  else ({| active_slot := active_slot s; target_slot := target_slot s; state := state s;
           image_written := 1; crc_ok := crc_ok s; committed := committed s;
           boot_healthy := boot_healthy s; rolled_back := rolled_back s;
           abort_reason := abort_reason s |}, 1).

Definition verify (s : mc_ota_slot_state_t) (ok : Z) : mc_ota_slot_state_t * Z :=
  if negb (state s =? MC_OTA_DOWNLOADING) then (s, 0)
  else
    let s := {| active_slot := active_slot s; target_slot := target_slot s;
                state := MC_OTA_VERIFYING; image_written := image_written s;
                crc_ok := if truthy ok then 1 else 0; committed := committed s;
                boot_healthy := boot_healthy s; rolled_back := rolled_back s;
                abort_reason := abort_reason s |} in
    if negb (truthy (crc_ok s)) then (rollback s, 0) else (s, 1).

Definition commit (s : mc_ota_slot_state_t) : mc_ota_slot_state_t * Z :=
  if negb (state s =? MC_OTA_VERIFYING) then (s, 0)
  else if negb (truthy (image_written s)) || negb (truthy (crc_ok s)) then (rollback s, 0)
  else ({| active_slot := active_slot s; target_slot := target_slot s;
           state := MC_OTA_COMMIT_PENDING; image_written := image_written s; crc_ok := crc_ok s;
           committed := 1; boot_healthy := boot_healthy s; rolled_back := rolled_back s;
           abort_reason := abort_reason s |}, 1).

Definition reboot (s : mc_ota_slot_state_t) : mc_ota_slot_state_t :=
  if negb (state s =? MC_OTA_COMMIT_PENDING) then s
  else {| active_slot := active_slot s; target_slot := target_slot s;
          state := MC_OTA_REBOOTING; image_written := image_written s; crc_ok := crc_ok s;
          committed := committed s; boot_healthy := boot_healthy s; rolled_back := rolled_back s;
          abort_reason := abort_reason s |}.

Definition with_boot_healthy (s : mc_ota_slot_state_t) (b : Z) : mc_ota_slot_state_t := {|
  active_slot := active_slot s; target_slot := target_slot s; state := state s;
  image_written := image_written s; crc_ok := crc_ok s; committed := committed s;
  boot_healthy := b; rolled_back := rolled_back s; abort_reason := abort_reason s;
|}.

Definition health_check (s : mc_ota_slot_state_t) (healthy : Z) : mc_ota_slot_state_t * Z :=
  if negb (state s =? MC_OTA_REBOOTING) then (s, 0)
  else if truthy healthy && truthy (committed s) then
    ({| active_slot := target_slot s; target_slot := target_slot s; state := MC_OTA_HEALTHY;
        image_written := image_written s; crc_ok := crc_ok s; committed := committed s;
        boot_healthy := 1; rolled_back := rolled_back s; abort_reason := abort_reason s |}, 1)
  else (rollback (with_boot_healthy s 0), 0).

Definition boot_slot (s : mc_ota_slot_state_t) : Z :=
  if (state s =? MC_OTA_HEALTHY) && truthy (committed s) then target_slot s else active_slot s.

Definition with_abort_reason (s : mc_ota_slot_state_t) (r : Z) : mc_ota_slot_state_t := {|
  active_slot := active_slot s; target_slot := target_slot s; state := state s;
  image_written := image_written s; crc_ok := crc_ok s; committed := committed s;
  boot_healthy := boot_healthy s; rolled_back := rolled_back s; abort_reason := r;
|}.

Definition abort (s : mc_ota_slot_state_t) (reason : Z) : mc_ota_slot_state_t :=
  if state s =? MC_OTA_HEALTHY then s else with_abort_reason (rollback s) reason.

Definition recover_after_reset (s : mc_ota_slot_state_t) (r : MetaRecord.t) : mc_ota_slot_state_t := {|
  active_slot := MetaRecord.active_slot r;
  target_slot := MetaRecord.target_slot r;
  state := MetaRecord.state r;
  image_written := if MC_OTA_COMMIT_PENDING <=? MetaRecord.state r then 1 else 0;
  crc_ok := if MC_OTA_COMMIT_PENDING <=? MetaRecord.state r then 1 else 0;
  committed := if truthy (MetaRecord.committed r) then 1 else 0;
  boot_healthy := if truthy (MetaRecord.healthy r) then 1 else 0;
  rolled_back := if MetaRecord.state r =? MC_OTA_ROLLED_BACK then 1 else 0;
  abort_reason := MetaRecord.abort_reason r;
|}.

End mc_ota.

(** ** The functions on pointers

    A state pointer is null or points to the one state object; a call returns the object
    after it and the value of the function. *)

Definition ptr : Type := option mc_ota.mc_ota_slot_state_t.

Definition mc_ota_init (s : ptr) : ptr := (fun _ => mc_ota.init) <$> s.
Definition mc_ota_begin_download (s : ptr) : ptr := mc_ota.begin_download <$> s.

Definition on_ptr (f : mc_ota.mc_ota_slot_state_t -> mc_ota.mc_ota_slot_state_t * Z) (s : ptr) : ptr * Z :=
  match s with
  | Some s => let (s', r) := f s in (Some s', r)
  | None => (None, 0)
  end.

Definition mc_ota_finish_download (s : ptr) (complete : Z) : ptr * Z :=
  on_ptr (fun s => mc_ota.finish_download s complete) s.
Definition mc_ota_verify (s : ptr) (crc_ok : Z) : ptr * Z := on_ptr (fun s => mc_ota.verify s crc_ok) s.
Definition mc_ota_commit (s : ptr) : ptr * Z := on_ptr mc_ota.commit s.
Definition mc_ota_reboot (s : ptr) : ptr := mc_ota.reboot <$> s.
Definition mc_ota_health_check (s : ptr) (healthy : Z) : ptr * Z :=
  on_ptr (fun s => mc_ota.health_check s healthy) s.
Definition mc_ota_rollback (s : ptr) : ptr := mc_ota.rollback <$> s.
Definition mc_ota_boot_slot (s : ptr) : Z :=
  match s with Some s => mc_ota.boot_slot s | None => MC_OTA_SLOT_A end.
Definition mc_ota_abort (s : ptr) (reason : Z) : ptr := (fun s => mc_ota.abort s reason) <$> s.
Definition mc_ota_recover_after_reset (s : ptr) (r : option MetaRecord.t) : ptr :=
  match s, r with
  | Some s, Some r => Some (mc_ota.recover_after_reset s r)
  | _, _ => s
  end.

(** ** The CRC over memory *)

(** The inner loop's body: [-(int32_t)(crc & 1u)] is 0 or -1. *)
Definition mc_crc_bit (crc : Z) : Z :=
  let mask := cast U32 (- cast I32 (Z.land crc 1)) in
  Z.lxor (Z.shiftr crc 1) (Z.land 0xEDB88320 mask).

Definition crc_body (data : list Z) (i : Z) (crc : Z) : outcome (ctl Z Z) :=
  let! byte := load data i in
  Ret (Next (Nat.iter 8 mc_crc_bit (Z.lxor crc byte))).

Definition mc_ota_crc32 (data : list Z) (len : Z) : outcome Z :=
  let! c := for_ (crc_body data) 0 (Z.to_nat len) 0xFFFFFFFF in
  match c with Next crc => Ret (Z.lxor crc 0xFFFFFFFF) | Done r => Ret r end.

(** ** The metadata record *)

(** The packed structure's memory. *)
Definition mc_ota_meta_record_t (r : MetaRecord.t) : list (ity * Z) := [
  (U32, MetaRecord.magic r); (U8, MetaRecord.format_version r); (U8, MetaRecord.active_slot r);
  (U8, MetaRecord.target_slot r); (U8, MetaRecord.state r); (U8, MetaRecord.committed r);
  (U8, MetaRecord.boot_attempt_count r); (U8, MetaRecord.healthy r); (U8, MetaRecord.abort_reason r);
  (U32, MetaRecord.generation r); (U32, MetaRecord.image_length r); (U32, MetaRecord.image_crc32 r);
  (U32, MetaRecord.reserved r); (U32, MetaRecord.record_crc32 r)
].

Definition MC_OTA_META_MAGIC : Z := 0x4D434F54.
Definition MC_OTA_META_FORMAT_VERSION : Z := 1.

Definition mc_ota_record_crc32 (r : option MetaRecord.t) : outcome Z :=
  match r with
  | Some r => mc_ota_crc32 (pack (mc_ota_meta_record_t r)) 28
  | None => Ret 0
  end.

Definition mc_ota_record_valid (r : option MetaRecord.t) : outcome Z :=
  match r with
  | Some rec =>
      if negb (MetaRecord.magic rec =? MC_OTA_META_MAGIC) then Ret 0
      else if negb (MetaRecord.format_version rec =? MC_OTA_META_FORMAT_VERSION) then Ret 0
      else
        let! crc := mc_ota_record_crc32 r in
        Ret (if MetaRecord.record_crc32 rec =? crc then 1 else 0)
  | None => Ret 0
  end.

(** Dereferencing a null pointer would be undefined. *)
Definition deref {A : Type} (p : option A) : outcome A :=
  match p with Some a => Ret a | None => Panic end.

Definition mc_ota_select_record (a b : option MetaRecord.t) : outcome (option MetaRecord.t) :=
  let! va := mc_ota_record_valid a in
  let! vb := mc_ota_record_valid b in
  if truthy va && truthy vb then
    let! ra := deref a in
    let! rb := deref b in
    Ret (if MetaRecord.generation rb <=? MetaRecord.generation ra then a else b)
  else if truthy va then Ret a
  else if truthy vb then Ret b
  else Ret None.

(** ** Bisimulation with the Rust model *)

Module Bisim.
Import mc_ota.

Inductive op : Set :=
  | Init | BeginDownload | FinishDownload (complete : Z) | Verify (ok : Z) | Commit | RebootNow
  | HealthCheck (healthy : Z) | Rollback | AbortUpdate (reason : Z) | Recover (r : MetaRecord.t).

Definition step (p : ptr) (o : op) : ptr :=
  match o with
  | Init => mc_ota_init p
  | BeginDownload => mc_ota_begin_download p
  | FinishDownload c => fst (mc_ota_finish_download p c)
  | Verify ok => fst (mc_ota_verify p ok)
  | Commit => fst (mc_ota_commit p)
  | RebootNow => mc_ota_reboot p
  | HealthCheck h => fst (mc_ota_health_check p h)
  | Rollback => mc_ota_rollback p
  | AbortUpdate r => mc_ota_abort p r
  | Recover r => mc_ota_recover_after_reset p (Some r)
  end.

Definition run (p : ptr) (ops : list op) : ptr := fold_left step ops p.

(** The same calls on the Rust model. *)
Definition mirror_step (m : OtaSlotModel.t) (o : op) : OtaSlotModel.t :=
  match o with
  | Init => OtaSlotModel.new
  | BeginDownload => OtaSlotModel.begin_download m
  | FinishDownload c => fst (OtaSlotModel.finish_download m (truthy c))
  | Verify ok => fst (OtaSlotModel.verify m (truthy ok))
  | Commit => fst (OtaSlotModel.commit m)
  | RebootNow => OtaSlotModel.reboot m
  | HealthCheck h => fst (OtaSlotModel.health_check m (truthy h))
  | Rollback => OtaSlotModel.rollback m
  | AbortUpdate r => OtaSlotModel.abort m r
  | Recover r => OtaSlotModel.recover_after_reset m r
  end.

(** The state byte is compared through [from_u8]: after a reset the firmware keeps a byte
    above 6 as it is. *)
Record similar (s : mc_ota_slot_state_t) (m : OtaSlotModel.t) : Prop := {
  sim_active : active_slot s = OtaSlotModel.active_slot m;
  sim_target : target_slot s = OtaSlotModel.target_slot m;
  sim_state : from_u8 (state s) = OtaSlotModel.state m;
  sim_image : truthy (image_written s) = OtaSlotModel.image_written m;
  sim_crc : truthy (crc_ok s) = OtaSlotModel.crc_ok m;
  sim_committed : truthy (committed s) = OtaSlotModel.committed m;
  sim_healthy : truthy (boot_healthy s) = OtaSlotModel.boot_healthy m;
  sim_rolled : truthy (rolled_back s) = OtaSlotModel.rolled_back m;
  sim_reason : abort_reason s = OtaSlotModel.abort_reason m;
}.

Lemma from_u8_eqb v s :
  s <> RolledBack -> (v =? OtaState_as_u8 s) = bool_decide (from_u8 v = s).
Proof.
  intros Hs.
  assert (from_u8 v = if v =? 0 then Idle else if v =? 1 then Downloading else if v =? 2 then Verifying
          else if v =? 3 then CommitPending else if v =? 4 then Rebooting else if v =? 5 then Healthy
          else RolledBack) as ->.
  { destruct v as [|p|p]; [done| |done]. by repeat (destruct p as [p|p|]; try done). }
  destruct (Z.eqb_spec v 0) as [->|]; [by destruct s|]. destruct (Z.eqb_spec v 1) as [->|]; [by destruct s|].
  destruct (Z.eqb_spec v 2) as [->|]; [by destruct s|]. destruct (Z.eqb_spec v 3) as [->|]; [by destruct s|].
  destruct (Z.eqb_spec v 4) as [->|]; [by destruct s|]. destruct (Z.eqb_spec v 5) as [->|]; [by destruct s|].
  destruct s; try done; cbn [OtaState_as_u8]; by apply Z.eqb_neq.
Qed.

Lemma truthy_if b : truthy (if b : bool then 1 else 0) = b.
Proof. by destruct b. Qed.

(** The guards of the two implementations decide alike. *)
Ltac ota_guard Hst s k :=
  let E := fresh in
  pose proof (from_u8_eqb (state s) k ltac:(discriminate)) as E; rewrite Hst in E;
  cbn [OtaState_as_u8] in E.

Lemma similar_rollback s m : similar s m -> similar (rollback s) (OtaSlotModel.rollback m).
Proof.
  intros H. unfold rollback, OtaSlotModel.rollback. pose proof (sim_state _ _ H) as Hst.
  ota_guard Hst s Healthy. unfold MC_OTA_HEALTHY. rewrite H0.
  case_match; [done|]. destruct H; by constructor.
Qed.

Lemma similar_abort s m r : similar s m -> similar (abort s r) (OtaSlotModel.abort m r).
Proof.
  intros H. unfold abort, OtaSlotModel.abort. pose proof (sim_state _ _ H) as Hst.
  ota_guard Hst s Healthy. unfold MC_OTA_HEALTHY. rewrite H0.
  case_match; [done|]. destruct (similar_rollback s m H); by constructor.
Qed.

Lemma similar_begin s m : similar s m -> similar (begin_download s) (OtaSlotModel.begin_download m).
Proof.
  intros H. unfold begin_download, OtaSlotModel.begin_download. pose proof (sim_state _ _ H) as Hst.
  ota_guard Hst s Idle. unfold MC_OTA_IDLE. rewrite H0.
  case_match; [done|]. destruct H; constructor; try done. simpl. by rewrite sim_active0.
Qed.

Lemma similar_finish s m c :
  similar s m ->
  similar (fst (finish_download s c)) (fst (OtaSlotModel.finish_download m (truthy c))) /\
  snd (finish_download s c) = Z.b2z (snd (OtaSlotModel.finish_download m (truthy c))).
Proof.
  intros H. unfold finish_download, OtaSlotModel.finish_download. pose proof (sim_state _ _ H) as Hst.
  ota_guard Hst s Downloading. unfold MC_OTA_DOWNLOADING. rewrite H0.
  case_match; [done|]. destruct (truthy c); simpl; (split; [|done]); [|by apply similar_rollback].
  destruct H; by constructor.
Qed.

Lemma similar_verify s m ok :
  similar s m ->
  similar (fst (verify s ok)) (fst (OtaSlotModel.verify m (truthy ok))) /\
  snd (verify s ok) = Z.b2z (snd (OtaSlotModel.verify m (truthy ok))).
Proof.
  intros H. unfold verify, OtaSlotModel.verify. pose proof (sim_state _ _ H) as Hst.
  ota_guard Hst s Downloading. unfold MC_OTA_DOWNLOADING. rewrite H0.
  case_match; [done|]. cbn [crc_ok]. rewrite truthy_if.
  destruct (truthy ok); simpl; (split; [|done]); [|apply similar_rollback]; destruct H; by constructor.
Qed.

Lemma similar_commit s m :
  similar s m ->
  similar (fst (commit s)) (fst (OtaSlotModel.commit m)) /\
  snd (commit s) = Z.b2z (snd (OtaSlotModel.commit m)).
Proof.
  intros H. unfold commit, OtaSlotModel.commit. pose proof (sim_state _ _ H) as Hst.
  ota_guard Hst s Verifying. unfold MC_OTA_VERIFYING. rewrite H0, (sim_image _ _ H), (sim_crc _ _ H).
  case_match; [done|]. case_match; (split; [|done]); [by apply similar_rollback|]. destruct H; by constructor.
Qed.

Lemma similar_reboot s m : similar s m -> similar (reboot s) (OtaSlotModel.reboot m).
Proof.
  intros H. unfold reboot, OtaSlotModel.reboot. pose proof (sim_state _ _ H) as Hst.
  ota_guard Hst s CommitPending. unfold MC_OTA_COMMIT_PENDING. rewrite H0.
  case_match; [done|]. destruct H; by constructor.
Qed.

(** Clearing [boot_healthy] before a rollback is no more than the rollback itself. *)
Lemma rollback_unhealthy s :
  state s = MC_OTA_REBOOTING -> rollback (with_boot_healthy s 0) = rollback s.
Proof. intros H. unfold rollback. cbn [with_boot_healthy state]. by rewrite H. Qed.

Lemma similar_health s m h :
  similar s m ->
  similar (fst (health_check s h)) (fst (OtaSlotModel.health_check m (truthy h))) /\
  snd (health_check s h) = Z.b2z (snd (OtaSlotModel.health_check m (truthy h))).
Proof.
  intros H. unfold health_check, OtaSlotModel.health_check. pose proof (sim_state _ _ H) as Hst.
  ota_guard Hst s Rebooting. destruct (Z.eqb_spec (state s) MC_OTA_REBOOTING) as [Hr|Hr].
  - rewrite rollback_unhealthy by done. unfold MC_OTA_REBOOTING in Hr. rewrite Hr in H0. rewrite <- H0. simpl.
    rewrite (sim_committed _ _ H). case_match; (split; [|done]); [|by apply similar_rollback].
    destruct H; by constructor.
  - unfold MC_OTA_REBOOTING in Hr. apply Z.eqb_neq in Hr. rewrite Hr in H0. rewrite <- H0. by simpl.
Qed.

Lemma similar_recover s m r : similar (recover_after_reset s r) (OtaSlotModel.recover_after_reset m r).
Proof. constructor; simpl; try done; by rewrite truthy_if. Qed.

Lemma similar_step s m o :
  similar s m -> exists s', step (Some s) o = Some s' /\ similar s' (mirror_step m o).
Proof.
  intros H. destruct o as [| |c|ok| | |h| |r|r]; cbn [step mirror_step].
  - by exists init.
  - exists (begin_download s). split; [done|]. by apply similar_begin.
  - exists (fst (finish_download s c)). unfold mc_ota_finish_download, on_ptr. split; [by case_match|].
    by apply similar_finish.
  - exists (fst (verify s ok)). unfold mc_ota_verify, on_ptr. split; [by case_match|]. by apply similar_verify.
  - exists (fst (commit s)). unfold mc_ota_commit, on_ptr. split; [by case_match|]. by apply similar_commit.
  - exists (reboot s). split; [done|]. by apply similar_reboot.
  - exists (fst (health_check s h)). unfold mc_ota_health_check, on_ptr. split; [by case_match|].
    by apply similar_health.
  - exists (rollback s). split; [done|]. by apply similar_rollback.
  - exists (abort s r). split; [done|]. by apply similar_abort.
  - exists (recover_after_reset s r). split; [done|]. apply similar_recover.
Qed.

Lemma similar_run ops s m :
  similar s m -> exists s', run (Some s) ops = Some s' /\ similar s' (fold_left mirror_step ops m).
Proof.
  unfold run. revert s m; induction ops as [|o ops IH]; intros s m H; [by exists s|].
  destruct (similar_step s m o H) as (s1 & H1 & H2). cbn [fold_left]. rewrite H1. by apply IH.
Qed.

(** A null pointer stays null. *)
Lemma run_null ops : run None ops = None.
Proof. unfold run. by induction ops as [|[] ops IH]. Qed.

Lemma similar_boot s m : similar s m -> boot_slot s = OtaSlotModel.boot_slot m.
Proof.
  intros H. unfold boot_slot, OtaSlotModel.boot_slot. pose proof (sim_state _ _ H) as Hst.
  ota_guard Hst s Healthy. unfold MC_OTA_HEALTHY.
  by rewrite H0, (sim_committed _ _ H), (sim_active _ _ H), (sim_target _ _ H).
Qed.

(** C23: The firmware's OTA state machine and the Rust model are bisimilar.  Over every
    sequence of calls and recoveries from any metadata record, also one with an unknown
    state byte or with flag bytes other than 0 and 1, they agree on the slots, the state, the
    flags and the abort reason, the four calls with a result return the same one, and the
    bootloader is given the same slot.  With a null pointer every call does nothing and
    the boot slot is A. *)
Theorem ota_bisimilar ops :
  (exists s, run (Some init) ops = Some s /\
     let m := fold_left mirror_step ops OtaSlotModel.new in
     similar s m /\ mc_ota_boot_slot (Some s) = OtaSlotModel.boot_slot m /\
     (forall z,
        snd (mc_ota_finish_download (Some s) z) = Z.b2z (snd (OtaSlotModel.finish_download m (truthy z))) /\
        snd (mc_ota_verify (Some s) z) = Z.b2z (snd (OtaSlotModel.verify m (truthy z))) /\
        snd (mc_ota_commit (Some s)) = Z.b2z (snd (OtaSlotModel.commit m)) /\
        snd (mc_ota_health_check (Some s) z) = Z.b2z (snd (OtaSlotModel.health_check m (truthy z))))) /\
  run None ops = None /\ mc_ota_boot_slot None = MC_OTA_SLOT_A.
Proof.
  split; [|split; [apply run_null|done]].
  destruct (similar_run ops init OtaSlotModel.new) as (s & H1 & H2); [by constructor|].
  exists s. split; [done|]. intros m. split; [done|]. split; [by apply similar_boot|].
  intros z. unfold mc_ota_finish_download, mc_ota_verify, mc_ota_commit, mc_ota_health_check, on_ptr.
  split_and!.
  - rewrite <- (proj2 (similar_finish s m z H2)). by case_match.
  - rewrite <- (proj2 (similar_verify s m z H2)). by case_match.
  - rewrite <- (proj2 (similar_commit s m H2)). by case_match.
  - rewrite <- (proj2 (similar_health s m z H2)). by case_match.
Qed.

End Bisim.

(** ** CRC and records *)

Lemma mc_crc_bit_eq crc : mc_crc_bit crc = crc_bit crc.
Proof.
  unfold mc_crc_bit, crc_bit. rewrite (cast_id I32); [done|].
  change 1 with (Z.ones 1) at 1. rewrite Z.land_ones by lia. change (2 ^ 1) with 2.
  pose proof (Z.mod_pos_bound crc 2). int_lia.
Qed.

Lemma mc_crc_byte_eq crc byte : Nat.iter 8 mc_crc_bit (Z.lxor crc byte) = crc_byte crc byte.
Proof.
  unfold crc_byte, crc_bits. generalize (Z.lxor crc byte) as s, 8%nat as n.
  intros s n. induction n as [|n IH]; [done|].
  rewrite !Nat.iter_succ. by rewrite IH, mc_crc_bit_eq.
Qed.

(** The loop over the first [len] bytes of a buffer. *)
Lemma mc_crc32_eq data len :
  0 <= len <= Z.of_nat (length data) ->
  mc_ota_crc32 data len = Ret (crc32 (take (Z.to_nat len) data)).
Proof.
  intros Hlen. unfold mc_ota_crc32, crc32.
  pose proof (for_fold (R := Z) (fun _ => data) crc_byte (crc_body data) (take (Z.to_nat len) data) []
                (drop (Z.to_nat len) data) 0xFFFFFFFF) as H.
  rewrite length_take_le in H by lia. cbn [length app] in H.
  change (Z.of_nat 0) with 0 in H. rewrite H; [done|by rewrite take_drop|done|].
  intros i s e Hl. unfold crc_body. rewrite Hl. cbn [obind]. by rewrite mc_crc_byte_eq.
Qed.

(** Reading past the buffer is undefined. *)
Lemma mc_crc32_overrun data len : Z.of_nat (length data) < len -> mc_ota_crc32 data len = Panic.
Proof.
  intros Hlen. unfold mc_ota_crc32.
  assert (forall l pre s n, data = pre ++ l -> (length l < n)%nat ->
          for_ (R := Z) (crc_body data) (Z.of_nat (length pre)) n s = Panic) as H.
  { induction l as [|b l IH]; intros pre s n Hd Hn; (destruct n as [|n]; simpl in Hn; [lia|]); cbn [for_].
    - unfold crc_body at 1. unfold load. rewrite (proj2 (Z.leb_le _ _)) by lia.
      rewrite Nat2Z.id, lookup_ge_None_2 by (rewrite Hd, app_nil_r; lia). done.
    - unfold crc_body at 1. rewrite Hd at 1. rewrite load_middle. cbn [obind].
      replace (Z.of_nat (length pre) + 1) with (Z.of_nat (length (pre ++ [b]))) by (rewrite length_app; simpl; lia).
      apply IH; [by rewrite <- app_assoc|simpl in Hn; lia]. }
  pose proof (fun s => H data [] s (Z.to_nat len) eq_refl ltac:(lia)) as E.
  cbn [length] in E. change (Z.of_nat 0) with 0 in E. by rewrite E.
Qed.

Lemma le_bytes_u32 v : le_bytes 4 (v mod 2 ^ 32) = to_le_bytes v.
Proof.
  unfold to_le_bytes. rewrite !cast_unsigned by done. change (modulus U8) with 256.
  rewrite !Z.shiftr_div_pow2 by lia. cbn [le_bytes].
  change (2 ^ 8) with 256. change (2 ^ 16) with (256 * 256). change (2 ^ 24) with (256 * 256 * 256).
  change (2 ^ 32) with (256 * (256 * 256 * 256)).
  assert (forall a k, 0 < k -> (a mod (256 * k)) / 256 = (a / 256) mod k) as Hd.
  { intros a k Hk. rewrite Z.rem_mul_r by lia. rewrite Z.mul_comm, Z.div_add by lia.
    rewrite Z.div_small by (apply Z.mod_pos_bound; lia). lia. }
  assert (forall a k, 0 < k -> (a mod (256 * k)) mod 256 = a mod 256) as Hm.
  { intros a k Hk. rewrite Z.rem_mul_r by lia. rewrite Z.mul_comm, Z.mod_add by lia. by rewrite Z.mod_mod. }
  rewrite Hm by lia. repeat rewrite Hd by lia.
  change (256 * 256 * 256) with (256 * (256 * 256)).
  rewrite Hm by lia. repeat rewrite Hd by lia. rewrite Hm by lia. repeat rewrite Hd by lia.
  rewrite Z.mod_mod by lia. by rewrite !Z.div_div by lia.
Qed.

Lemma pack_record r : MetaRecord.wf r -> pack (mc_ota_meta_record_t r) = MetaRecord.to_bytes r.
Proof.
  intros (H1 & H2 & H3 & H4 & H5 & H6 & H7 & H8 & H9 & H10 & H11 & H12 & H13 & H14).
  unfold pack, mc_ota_meta_record_t, MetaRecord.to_bytes. cbn [flat_map].
  change (sizeof_field U32) with 4%nat. change (sizeof_field U8) with 1%nat. change (modulus U32) with (2 ^ 32).
  change (modulus U8) with 256. rewrite !le_bytes_u32. cbn [le_bytes].
  rewrite !Z.mod_mod by lia. rewrite !(Z.mod_small _ 256) by int_lia. by rewrite app_nil_r.
Qed.

Lemma to_bytes_length r : length (MetaRecord.to_bytes r) = 32%nat.
Proof. reflexivity. Qed.

Lemma record_crc32_eq r :
  MetaRecord.wf r -> mc_ota_record_crc32 (Some r) = Ret (MetaRecord.compute_record_crc32 r).
Proof.
  intros Hr. cbn [mc_ota_record_crc32]. rewrite pack_record by done.
  by rewrite mc_crc32_eq by (rewrite to_bytes_length; lia).
Qed.

Lemma record_valid_eq r :
  MetaRecord.wf r -> mc_ota_record_valid (Some r) = Ret (Z.b2z (MetaRecord.is_valid r)).
Proof.
  intros Hr. unfold mc_ota_record_valid, MetaRecord.is_valid.
  change MC_OTA_META_MAGIC with OTA_META_MAGIC.
  change MC_OTA_META_FORMAT_VERSION with OTA_META_FORMAT_VERSION.
  destruct (MetaRecord.magic r =? OTA_META_MAGIC); [|done].
  destruct (MetaRecord.format_version r =? OTA_META_FORMAT_VERSION); [|done].
  cbn [negb]. rewrite record_crc32_eq by done. cbn [obind andb]. by case_match.
Qed.

(** What a null or valid pointer points to. *)
Definition valid_at (p : option MetaRecord.t) : bool :=
  match p with Some r => MetaRecord.is_valid r | None => false end.

Lemma record_valid_at p :
  match p with Some r => MetaRecord.wf r | None => True end ->
  mc_ota_record_valid p = Ret (Z.b2z (valid_at p)).
Proof. destruct p as [r|]; [apply record_valid_eq|done]. Qed.

(** C24: The firmware reads the same metadata as the Rust model.  The packed C structure is
    byte for byte the on-flash image the Rust code writes, the C CRC of a buffer is the
    Rust CRC of the bytes it is asked for (asking for more than the buffer has is
    undefined), a record is valid in C exactly when it is in Rust, and the choice between two
    copies is the same record; a null copy counts as invalid and is never dereferenced. *)
Theorem ota_records_agree a b :
  MetaRecord.wf a -> MetaRecord.wf b ->
  pack (mc_ota_meta_record_t a) = MetaRecord.to_bytes a /\
  mc_ota_record_crc32 (Some a) = Ret (MetaRecord.compute_record_crc32 a) /\
  mc_ota_record_valid (Some a) = Ret (Z.b2z (MetaRecord.is_valid a)) /\
  mc_ota_select_record (Some a) (Some b) = Ret (select_record a b) /\
  mc_ota_select_record (Some a) None = Ret (if MetaRecord.is_valid a then Some a else None) /\
  mc_ota_select_record None (Some b) = Ret (if MetaRecord.is_valid b then Some b else None) /\
  mc_ota_select_record None None = Ret None /\
  (forall data len, mc_ota_crc32 data len =
     if len <=? Z.of_nat (length data) then Ret (crc32 (take (Z.to_nat len) data)) else Panic).
Proof.
  intros Ha Hb. unfold mc_ota_select_record, select_record.
  rewrite !(record_valid_at (Some a)), !(record_valid_at (Some b)) by done. cbn [valid_at mc_ota_record_valid].
  split_and!; [by apply pack_record|by apply record_crc32_eq|done| | | |done|].
  1-3: destruct (MetaRecord.is_valid a), (MetaRecord.is_valid b); cbn; try done; by case_match.
  intros data len. destruct (Z.leb_spec len (Z.of_nat (length data))); [|by apply mc_crc32_overrun].
  destruct (Z.le_gt_cases 0 len); [by apply mc_crc32_eq|].
  unfold mc_ota_crc32. by rewrite (Z2Nat.nonpos len) by lia.
Qed.

Lemma ota_records_agree_witness :
  MetaRecord.wf sample_record /\
  mc_ota_select_record (Some sample_record) (Some (MetaRecord.finalize sample_record)) =
    Ret (select_record sample_record (MetaRecord.finalize sample_record)).
Proof.
  split; [apply sample_record_wf|].
  exact (proj1 (proj2 (proj2 (proj2
           (ota_records_agree sample_record (MetaRecord.finalize sample_record)
              sample_record_wf (finalize_wf _ sample_record_wf)))))).
Defined.
