(* ===== verification/CCharging.v ===== *)
(** * The C charging state machine ([common/src/microcar_charging.c])

    The pure transition function with its output structure, the limit helpers, and what a
    sequence of events can do to it.  [state_tests/src/charging.rs] announces a Rust mirror
    and has none. *)

From S2P Require Import Prelude MachineInt CBase CProtocol.

Definition MC_EVSE_UNPLUG : Z := 0.
Definition MC_EVSE_PLUG : Z := 1.
Definition MC_EVSE_HANDSHAKE_OK : Z := 2.
Definition MC_EVSE_STOP : Z := 3.

Definition MC_CHARGE_DISCONNECTED : Z := 0.
Definition MC_CHARGE_PLUG_DETECTED : Z := 1.
Definition MC_CHARGE_HANDSHAKE : Z := 2.
Definition MC_CHARGE_ACTIVE : Z := 3.
Definition MC_CHARGE_LIMITED : Z := 4.
Definition MC_CHARGE_COMPLETE : Z := 5.
Definition MC_CHARGE_FAULT : Z := 6.

Record mc_charging_event_t := {
  kind : Z;
  fresh_bms_limit : Z;
  soc_percent : Z;
  critical_fault : Z;
  target_soc : Z;
  offered_current : Z;
}.

Record mc_charging_output_t := {
  next_state : Z;
  command_current_a_x2 : Z;
  reject_reason : Z;
}.

Definition min_u8 (a b : Z) : Z := if a <? b then a else b.

Definition mc_charging_init : Z := MC_CHARGE_DISCONNECTED.

(** [output] with its three members assigned, and [return 0]. *)
Definition accept (next current : Z) : option (mc_charging_output_t * Z) :=
  Some ({| next_state := next; command_current_a_x2 := current; reject_reason := 0 |}, 0).

(** The [switch]: [None] is a [break] to the code after it. *)
Definition step_state (cs : Z) (event : mc_charging_event_t) : option (mc_charging_output_t * Z) :=
  if cs =? MC_CHARGE_DISCONNECTED then
    if kind event =? MC_EVSE_PLUG then accept MC_CHARGE_PLUG_DETECTED 0 else None
  else if cs =? MC_CHARGE_PLUG_DETECTED then
    if kind event =? MC_EVSE_HANDSHAKE_OK then accept MC_CHARGE_HANDSHAKE 0 else None
  else if cs =? MC_CHARGE_HANDSHAKE then
    if 0 <? fresh_bms_limit event then
      accept MC_CHARGE_ACTIVE (min_u8 (offered_current event) (fresh_bms_limit event))
    else None
  else if cs =? MC_CHARGE_ACTIVE then
    if (0 <? fresh_bms_limit event) && (fresh_bms_limit event <? offered_current event) then
      accept MC_CHARGE_LIMITED (fresh_bms_limit event)
    else if target_soc event <=? soc_percent event then accept MC_CHARGE_COMPLETE 0
    else None
  else if cs =? MC_CHARGE_LIMITED then
    if target_soc event <=? soc_percent event then accept MC_CHARGE_COMPLETE 0 else None
  else None.

(** The transitions any plugged-in state has. *)
Definition step_plugged (cs : Z) (event : mc_charging_event_t) : option (mc_charging_output_t * Z) :=
  if negb (cs =? MC_CHARGE_DISCONNECTED) then
    if truthy (critical_fault event) then accept MC_CHARGE_FAULT 0
    else if kind event =? MC_EVSE_UNPLUG then accept MC_CHARGE_DISCONNECTED 0
    else None
  else None.

Definition mc_charging_step (cs : Z) (event : mc_charging_event_t) : mc_charging_output_t * Z :=
  match step_state cs event with
  | Some r => r
  | None =>
      match step_plugged cs event with
      | Some r => r
      | None => ({| next_state := cs; command_current_a_x2 := 0; reject_reason := 1 |}, 1)
      end
  end.

Definition mc_charging_bms_limit_for_temp (temp_c_x10 : Z) : Z :=
  if 600 <=? temp_c_x10 then 0 else if 450 <=? temp_c_x10 then 32 else 64.

Definition mc_charging_clamp_target_soc (target : Z) : Z :=
  if target <? 50 then 50 else if 100 <? target then 100 else target.

Definition mc_charging_vehicle_mode (cs : Z) : Z :=
  if cs =? MC_CHARGE_DISCONNECTED then VEHICLE_OFF
  else if cs =? MC_CHARGE_FAULT then VEHICLE_FAULT
  else VEHICLE_CHARGING.

(** A caller that stores the next state. *)
Definition next (cs : Z) (event : mc_charging_event_t) : Z := next_state (fst (mc_charging_step cs event)).
Definition run (cs : Z) (events : list mc_charging_event_t) : Z := fold_left next events cs.

(** ** Theorems *)

Definition is_state (cs : Z) : Prop := MC_CHARGE_DISCONNECTED <= cs <= MC_CHARGE_FAULT.

(** What [fresh_bms_limit], the state of charge and a fault can preempt: the states and
    events in which the code takes a charging transition although a critical fault is
    reported. *)
Definition fault_deferred (cs : Z) (event : mc_charging_event_t) : bool :=
  match step_state cs event with Some _ => negb (cs =? MC_CHARGE_DISCONNECTED) | None => false end.

Ltac charge_unfold :=
  unfold next, mc_charging_step, fault_deferred, step_plugged, step_state, accept, min_u8, truthy, is_state in *;
  unfold MC_CHARGE_DISCONNECTED, MC_CHARGE_PLUG_DETECTED, MC_CHARGE_HANDSHAKE, MC_CHARGE_ACTIVE,
    MC_CHARGE_LIMITED, MC_CHARGE_COMPLETE, MC_CHARGE_FAULT, MC_EVSE_UNPLUG, MC_EVSE_PLUG,
    MC_EVSE_HANDSHAKE_OK in *.

(** Decide the comparisons left in a step from a known state. *)
Ltac charge_cases :=
  simpl;
  repeat match goal with
  | |- context [?a =? ?b] => destruct (Z.eqb_spec a b)
  | |- context [?a <? ?b] => destruct (Z.ltb_spec a b)
  | |- context [?a <=? ?b] => destruct (Z.leb_spec a b)
  end; simpl.

Lemma state_cases cs :
  is_state cs -> cs = 0 \/ cs = 1 \/ cs = 2 \/ cs = 3 \/ cs = 4 \/ cs = 5 \/ cs = 6.
Proof. charge_unfold. lia. Qed.

(** One charging step.  The state stays one of the seven; the function returns its
    reject reason, 0 or 1, and a rejected event leaves the state and commands no current.  The
    commanded current never exceeds what the charger offers nor the fresh BMS limit, and is
    positive only on entering ACTIVE or LIMITED with a limit above zero.  A critical fault takes
    a plugged state to FAULT, and an unplug without fault to DISCONNECTED, unless the state's
    own transition is enabled, which the code tries first. *)
Theorem charging_step_spec cs event :
  is_state cs -> fits U8 (fresh_bms_limit event) -> fits U8 (offered_current event) ->
  let '(out, r) := mc_charging_step cs event in
  is_state (next_state out) /\ r = reject_reason out /\ (r = 0 \/ r = 1) /\
  (r = 1 -> next_state out = cs /\ command_current_a_x2 out = 0) /\
  0 <= command_current_a_x2 out <= Z.min (offered_current event) (fresh_bms_limit event) /\
  (0 < command_current_a_x2 out ->
     0 < fresh_bms_limit event /\
     ((cs = MC_CHARGE_HANDSHAKE /\ next_state out = MC_CHARGE_ACTIVE) \/
      (cs = MC_CHARGE_ACTIVE /\ next_state out = MC_CHARGE_LIMITED))) /\
  (cs <> MC_CHARGE_DISCONNECTED -> critical_fault event <> 0 -> fault_deferred cs event = false ->
     next_state out = MC_CHARGE_FAULT) /\
  (cs <> MC_CHARGE_DISCONNECTED -> critical_fault event = 0 -> kind event = MC_EVSE_UNPLUG ->
     fault_deferred cs event = false -> next_state out = MC_CHARGE_DISCONNECTED).
Proof.
  intros Hs Hl Ho. assert (0 <= fresh_bms_limit event /\ 0 <= offered_current event) as [Hl0 Ho0] by int_lia.
  pose proof (state_cases cs Hs) as Hc. clear Hs Hl Ho.
  destruct Hc as [->|[->|[->|[->|[->|[->| ->]]]]]]; charge_unfold; charge_cases; split_and!; intros; lia.
Qed.

Lemma charging_step_spec_witness :
  let event := {| kind := MC_EVSE_HANDSHAKE_OK; fresh_bms_limit := 32; soc_percent := 40; critical_fault := 0;
                  target_soc := 80; offered_current := 60 |} in
  is_state MC_CHARGE_HANDSHAKE /\
  next_state (fst (mc_charging_step MC_CHARGE_HANDSHAKE event)) = MC_CHARGE_ACTIVE /\
  command_current_a_x2 (fst (mc_charging_step MC_CHARGE_HANDSHAKE event)) <= Z.min 60 32.
Proof.
  intros event.
  assert (is_state MC_CHARGE_HANDSHAKE) as Hs by (vm_compute; split; congruence).
  split; [exact Hs|]. split; [reflexivity|].
  pose proof (charging_step_spec MC_CHARGE_HANDSHAKE event Hs
                ltac:(vm_compute; split; congruence) ltac:(vm_compute; split; congruence)) as H.
  exact (proj2 (proj1 (proj2 (proj2 (proj2 (proj2 H)))))).
Defined.

Lemma is_state_run events : forall cs, is_state cs -> is_state (run cs events).
Proof.
  induction events as [|e es IH]; intros cs H; [done|]. cbn [run fold_left]. apply IH.
  pose proof (state_cases cs H) as Hc. clear H.
  destruct Hc as [->|[->|[->|[->|[->|[->| ->]]]]]]; charge_unfold; charge_cases; lia.
Qed.

(** ** What charging takes *)

(** The predicates hold of events in this order, possibly with others between. *)
Fixpoint in_order (ps : list (mc_charging_event_t -> bool)) (es : list mc_charging_event_t) : bool :=
  match ps, es with
  | [], _ => true
  | _, [] => false
  | p :: ps', e :: es' => if p e then in_order ps' es' else in_order ps es'
  end.

Lemma in_order_nil es : in_order [] es = true.
Proof. by destruct es. Qed.

Lemma in_order_snoc ps es e : in_order ps es = true -> in_order ps (es ++ [e]) = true.
Proof.
  revert ps; induction es as [|a es IH]; intros [|p ps] H; simpl in *; try done.
  destruct (p a); by apply IH.
Qed.

Lemma in_order_next ps es p e :
  in_order ps es = true -> p e = true -> in_order (ps ++ [p]) (es ++ [e]) = true.
Proof.
  intros H Hp. revert ps H; induction es as [|a es IH]; intros [|q ps] H; simpl in *; try done.
  - by rewrite Hp.
  - destruct (p a); [apply in_order_nil|]. apply (IH []), in_order_nil.
  - destruct (q a); [by apply IH|]. by apply (IH (q :: ps)).
Qed.

Definition plugs (e : mc_charging_event_t) : bool := kind e =? MC_EVSE_PLUG.
Definition shakes (e : mc_charging_event_t) : bool := kind e =? MC_EVSE_HANDSHAKE_OK.
Definition limits (e : mc_charging_event_t) : bool := 0 <? fresh_bms_limit e.

(** What must have happened for a state to be reached. *)
Definition required (cs : Z) : list (mc_charging_event_t -> bool) :=
  if cs =? MC_CHARGE_PLUG_DETECTED then [plugs]
  else if cs =? MC_CHARGE_HANDSHAKE then [plugs; shakes]
  else if (cs =? MC_CHARGE_ACTIVE) || (cs =? MC_CHARGE_LIMITED) || (cs =? MC_CHARGE_COMPLETE) then
    [plugs; shakes; limits]
  else [].

Lemma required_step cs e :
  is_state cs ->
  required (next cs e) = required cs \/ required (next cs e) = [] \/
  (exists p, required (next cs e) = required cs ++ [p] /\ p e = true).
Proof.
  intros Hs. pose proof (state_cases cs Hs) as Hc. clear Hs.
  destruct Hc as [->|[->|[->|[->|[->|[->| ->]]]]]]; unfold required, plugs, shakes, limits; charge_unfold;
    simpl;
    repeat match goal with
    | |- context [kind ?e =? ?b] => destruct (kind e =? b) eqn:?
    | |- context [critical_fault ?e =? ?b] => destruct (critical_fault e =? b)
    | |- context [?a <? fresh_bms_limit ?e] => destruct (a <? fresh_bms_limit e) eqn:?
    | |- context [fresh_bms_limit ?e <? ?b] => destruct (fresh_bms_limit e <? b)
    | |- context [target_soc ?e <=? ?b] => destruct (target_soc e <=? b)
    end;
    simpl; first [by left | by right; left | right; right; eexists; split; [reflexivity|done]].
Qed.

Lemma run_required events : in_order (required (run MC_CHARGE_DISCONNECTED events)) events = true.
Proof.
  induction events as [|e es IH] using rev_ind; [done|].
  unfold run in *. rewrite fold_left_app. cbn [fold_left].
  assert (is_state (fold_left next es MC_CHARGE_DISCONNECTED)) as Hs
    by (apply (is_state_run es); vm_compute; split; congruence).
  destruct (required_step _ e Hs) as [->|[->|(p & -> & Hp)]].
  - by apply in_order_snoc.
  - apply in_order_nil.
  - by apply in_order_next.
Qed.

(** Under a fault a plugged state moves towards FAULT: how many events it can still take. *)
Definition fault_distance (cs : Z) : nat :=
  if cs =? MC_CHARGE_FAULT then 0 else if cs =? MC_CHARGE_COMPLETE then 1
  else if cs =? MC_CHARGE_LIMITED then 2 else if cs =? MC_CHARGE_ACTIVE then 3
  else if cs =? MC_CHARGE_HANDSHAKE then 4 else 5.

Lemma fault_step cs e :
  is_state cs -> cs <> MC_CHARGE_DISCONNECTED -> critical_fault e <> 0 ->
  is_state (next cs e) /\ next cs e <> MC_CHARGE_DISCONNECTED /\
  (fault_distance (next cs e) <= fault_distance cs - 1)%nat.
Proof.
  intros Hs Hn Hf. apply Z.eqb_neq in Hf. pose proof (state_cases cs Hs) as Hc. clear Hs.
  destruct Hc as [->|[->|[->|[->|[->|[->| ->]]]]]]; [done|..]; unfold fault_distance; charge_unfold;
    rewrite Hf;
    destruct (kind e =? 1), (kind e =? 2), (0 <? fresh_bms_limit e), (fresh_bms_limit e <? offered_current e),
      (target_soc e <=? soc_percent e); simpl; (split; [lia|]); (split; [done|lia]).
Qed.

Lemma fault_run events : forall cs,
  is_state cs -> cs <> MC_CHARGE_DISCONNECTED -> Forall (fun e => critical_fault e <> 0) events ->
  is_state (run cs events) /\ run cs events <> MC_CHARGE_DISCONNECTED /\
  (fault_distance (run cs events) <= fault_distance cs - length events)%nat.
Proof.
  induction events as [|e es IH]; intros cs Hs Hn Hf; [split_and!; [done|done|simpl; lia]|].
  apply Forall_cons in Hf as [He Hf]. destruct (fault_step cs e Hs Hn He) as (H1 & H2 & H3).
  cbn [run fold_left length]. destruct (IH _ H1 H2 Hf) as (H4 & H5 & H6). unfold run in *.
  split_and!; [done|done|lia].
Qed.

(** C26: Charging sessions.  Whatever events arrive from initialisation on, the charger is in
    ACTIVE, LIMITED or COMPLETE only after a plug, a later successful handshake and a later
    event with a BMS limit above zero, and the vehicle mode it implies is then CHARGING.  A
    lasting critical fault always wins: although the code tries a state's own transition
    first, five events in a row that report the fault take any plugged state to FAULT, and
    further ones keep it there. *)
Theorem charging_sessions events faults :
  let cs := run mc_charging_init events in
  is_state cs /\
  (cs = MC_CHARGE_ACTIVE \/ cs = MC_CHARGE_LIMITED \/ cs = MC_CHARGE_COMPLETE ->
     in_order [plugs; shakes; limits] events = true /\ mc_charging_vehicle_mode cs = VEHICLE_CHARGING) /\
  (cs <> MC_CHARGE_DISCONNECTED -> Forall (fun e => critical_fault e <> 0) faults ->
     (5 <= length faults)%nat ->
     run cs faults = MC_CHARGE_FAULT /\ mc_charging_vehicle_mode (run cs faults) = VEHICLE_FAULT).
Proof.
  intros cs. assert (is_state cs) as Hs by (apply is_state_run; vm_compute; split; congruence).
  split; [done|]. split.
  - intros Hc. pose proof (run_required events) as Hr. change MC_CHARGE_DISCONNECTED with mc_charging_init in Hr.
    fold cs in Hr. destruct Hc as [Hc|[Hc|Hc]]; rewrite Hc in *; by split.
  - intros Hn Hf Hlen. destruct (fault_run faults cs Hs Hn Hf) as (H1 & H2 & H3).
    assert (run cs faults = MC_CHARGE_FAULT) as ->; [|done].
    assert (fault_distance cs <= 5)%nat as H5 by (unfold fault_distance; repeat case_match; lia).
    assert (fault_distance (run cs faults) = 0%nat) as H0 by lia. revert H0.
    unfold fault_distance. destruct (Z.eqb_spec (run cs faults) MC_CHARGE_FAULT); [done|].
    repeat case_match; done.
Qed.

(** The five events are needed: a fault is reported throughout, and only the fifth event
    is answered by FAULT. *)
Definition faulty (k limit soc offered : Z) : mc_charging_event_t :=
  {| kind := k; fresh_bms_limit := limit; soc_percent := soc; critical_fault := 1;
     target_soc := 80; offered_current := offered |}.

Definition slow_fault : list mc_charging_event_t :=
  [faulty MC_EVSE_HANDSHAKE_OK 0 40 64; faulty MC_EVSE_STOP 64 40 64; faulty MC_EVSE_STOP 32 40 64;
   faulty MC_EVSE_STOP 32 80 64; faulty MC_EVSE_STOP 32 80 64].

Lemma charging_sessions_witness :
  map (run MC_CHARGE_PLUG_DETECTED) (map (fun n => take n slow_fault) (seq 1 5)) =
    [MC_CHARGE_HANDSHAKE; MC_CHARGE_ACTIVE; MC_CHARGE_LIMITED; MC_CHARGE_COMPLETE; MC_CHARGE_FAULT] /\
  run (run mc_charging_init [faulty MC_EVSE_PLUG 0 40 64]) slow_fault = MC_CHARGE_FAULT.
Proof.
  split; [reflexivity|].
  exact (proj1 (proj2 (proj2 (charging_sessions [faulty MC_EVSE_PLUG 0 40 64] slow_fault))
           ltac:(vm_compute; congruence)
           ltac:(repeat constructor; vm_compute; congruence) ltac:(vm_compute; lia))).
Defined.

(** The current falls with the temperature, and a requested target is brought into range. *)
Lemma charging_helpers t1 t2 target :
  t1 <= t2 -> mc_charging_bms_limit_for_temp t2 <= mc_charging_bms_limit_for_temp t1 /\
  50 <= mc_charging_clamp_target_soc target <= 100 /\
  (50 <= target <= 100 -> mc_charging_clamp_target_soc target = target).
Proof.
  intros H. unfold mc_charging_bms_limit_for_temp, mc_charging_clamp_target_soc.
  repeat case_match; bool_prop; lia.
Qed.

(** Steady charging is a rejected event: the charger is ACTIVE at the full limit, nothing
    changed, and the output commands no current. *)
Example steady_charging_commands_zero :
  fst (mc_charging_step MC_CHARGE_ACTIVE
         {| kind := MC_EVSE_HANDSHAKE_OK; fresh_bms_limit := 64; soc_percent := 40; critical_fault := 0;
            target_soc := 80; offered_current := 64 |}) =
  {| next_state := MC_CHARGE_ACTIVE; command_current_a_x2 := 0; reject_reason := 1 |}.
Proof. reflexivity. Qed.
