(* ===== verification/CFrames.v ===== *)
(** * Frames as the ECU tasks read and build them ([firmware/*/src/main.c])

    What the five FreeRTOS programs repeat: words assembled from payload bytes, the receive
    loop that fills a frame, the heartbeat frame.  The lemmas say what a handler finds in a
    payload that was laid down with the high byte first. *)

From S2P Require Import Prelude MachineInt Protocol CBase CProtocol Plant.

Definition MC_MSG_PLANT_SENSORS : Z := 0x500.

(** [((uint16_t)data[i] << 8) | data[j]] *)
Definition be16 (data : list Z) (i j : Z) : outcome Z :=
  let! hi := load data i in
  let! lo := load data j in
  Ret (Z.lor (cast U16 (Z.shiftl hi 8)) lo).

Definition MC_HEARTBEAT_MSG_SIZE : Z := Z.of_nat (sizeof (map fst (mc_heartbeat_msg_t 0 0))).

(** [send_heartbeat] of each program, but for its node id. *)
Definition heartbeat_frame (node now_ms : Z) : outcome mc_can_frame_t :=
  let tx := mc_frame_init MC_MSG_HEARTBEAT node MC_HEARTBEAT_MSG_SIZE in
  let! d := store (data tx) 0 node in
  let! d := store d 1 (cast U8 (Z.shiftr now_ms 24)) in
  let! d := store d 2 (cast U8 (Z.shiftr now_ms 16)) in
  let! d := store d 3 (cast U8 (Z.shiftr now_ms 8)) in
  let! d := store d 4 (cast U8 now_ms) in
  Ret {| id := id tx; sender := sender tx; len := len tx; data := d |}.

(** The receive loop of every ECU: the payload over whatever the buffer held, the
    length from the bus, the sender from the first byte. *)
Definition receive (held : list Z) (can_id : Z) (payload : list Z) : mc_can_frame_t :=
  let bytes := payload ++ drop (length payload) held in
  {| id := can_id; sender := bytes !!! 0%nat; len := cast U8 (Z.of_nat (length payload));
     data := bytes |}.

(** ** What a handler finds *)

(** A frame as the bus delivers it. *)
Definition frame_ok (f : mc_can_frame_t) : Prop :=
  length (data f) = Z.to_nat MC_CAN_MAX_DATA /\ Forall (fits U8) (data f).

(** Payload bytes, and the big-endian words the handlers assemble. *)
Definition byte (f : mc_can_frame_t) (i : nat) : Z := data f !!! i.
Definition word (f : mc_can_frame_t) (i : nat) : Z := Z.lor (cast U16 (Z.shiftl (byte f i) 8)) (byte f (S i)).

Lemma load_byte f i : frame_ok f -> (i < 8)%nat ->
  load (data f) (Z.of_nat i) = Ret (byte f i) /\ fits U8 (byte f i).
Proof.
  intros [Hl Hf] Hi. unfold load, byte. rewrite (proj2 (Z.leb_le 0 _)), Nat2Z.id by lia.
  destruct (lookup_lt_is_Some_2 (data f) i) as [x Hx]; [rewrite Hl; exact Hi|].
  rewrite (list_lookup_total_correct _ _ _ Hx), Hx. split; [done|].
  exact (proj1 (Forall_lookup _ _) Hf _ _ Hx).
Qed.

Lemma load_word f i : frame_ok f -> (i < 7)%nat ->
  be16 (data f) (Z.of_nat i) (Z.of_nat (S i)) = Ret (word f i).
Proof.
  intros Hf Hi. unfold be16, word.
  rewrite (proj1 (load_byte f i Hf ltac:(lia))), (proj1 (load_byte f (S i) Hf ltac:(lia))). done.
Qed.

Lemma high_byte_disjoint hi lo : 0 <= lo < 256 -> Z.land (Z.shiftl hi 8) lo = 0.
Proof.
  intros Hl. apply Z.bits_inj'. intros k Hk. rewrite Z.land_spec, Z.bits_0, Z.shiftl_spec by done.
  destruct (Z.ltb_spec k 8); [by rewrite (Z.testbit_neg_r hi) by lia|].
  rewrite (Z.testbit_odd lo k), Z.shiftr_div_pow2, Z.div_small, andb_false_r; [done| |done].
  pose proof (Z.pow_le_mono_r 2 8 k). lia.
Qed.

Lemma be16_word hi lo :
  fits U8 hi -> fits U8 lo -> Z.lor (cast U16 (Z.shiftl hi 8)) lo = be_u16 hi lo.
Proof.
  intros Hh Hl. unfold be_u16.
  rewrite cast_id by (rewrite Z.shiftl_mul_pow2 by lia; int_lia).
  pose proof (high_byte_disjoint hi lo ltac:(int_lia)) as Hd.
  rewrite <- Z.lxor_lor, <- Z.add_nocarry_lxor by exact Hd.
  rewrite Z.shiftl_mul_pow2 by lia. lia.
Qed.

Lemma word_fits f i : frame_ok f -> (i < 7)%nat -> fits U16 (word f i).
Proof.
  intros Hf Hi. destruct (load_byte f i Hf ltac:(lia)) as [_ H1].
  destruct (load_byte f (S i) Hf ltac:(lia)) as [_ H2].
  unfold word. rewrite be16_word by done. unfold be_u16. int_lia.
Qed.

(** A handler finds the word a sender laid down behind [pre]. *)
Lemma be16_bytes pre v rest i j :
  i = Z.of_nat (length pre) -> j = i + 1 ->
  be16 (pre ++ to_be_bytes16 v ++ rest) i j = Ret (v mod 65536).
Proof.
  intros -> ->. pose proof (be_u16_to_be_bytes v) as H. unfold to_be_bytes16 in *. rewrite <- H.
  rewrite <- be16_word by apply cast_fits. unfold be16. cbn [app].
  rewrite load_middle. cbn [obind].
  replace (Z.of_nat (length pre) + 1) with (Z.of_nat (length (pre ++ [cast U8 (Z.shiftr v 8)])))
    by (rewrite length_app; cbn [length]; lia).
  replace (pre ++ cast U8 (Z.shiftr v 8) :: cast U8 v :: rest)
    with ((pre ++ [cast U8 (Z.shiftr v 8)]) ++ cast U8 v :: rest) by (by rewrite <- app_assoc).
  by rewrite load_middle.
Qed.

Lemma cast_i16_word t : fits I16 t -> cast I16 (t mod 65536) = t.
Proof.
  intros Ht. rewrite <- (cast_id I16 t Ht) at 2. unfold cast. change (modulus I16) with 65536.
  by rewrite Z.mod_mod by lia.
Qed.

(** The fields of the plant's sensor frame, whatever follows the payload. *)
Lemma sensor_fields r rest :
  let payload := MicrocarPlant.sensor_payload r ++ rest in
  load payload 0 = Ret (SensorReadings.soc_percent r) /\
  be16 payload 1 2 = Ret (SensorReadings.pack_voltage_mv r mod 65536) /\
  be16 payload 3 4 = Ret (SensorReadings.pack_temp_c_x10 r mod 65536) /\
  be16 payload 5 6 = Ret (SensorReadings.pack_current_ma r mod 65536).
Proof.
  unfold MicrocarPlant.sensor_payload. rewrite <- !app_assoc.
  set (soc := SensorReadings.soc_percent r). set (vo := SensorReadings.pack_voltage_mv r).
  set (te := SensorReadings.pack_temp_c_x10 r). set (cu := SensorReadings.pack_current_ma r).
  split_and!; [done|..].
  - exact (be16_bytes [soc] vo (to_be_bytes16 te ++ to_be_bytes16 cu ++ rest) 1 2 eq_refl eq_refl).
  - exact (be16_bytes ([soc] ++ to_be_bytes16 vo) te (to_be_bytes16 cu ++ rest) 3 4 eq_refl eq_refl).
  - exact (be16_bytes ([soc] ++ to_be_bytes16 vo ++ to_be_bytes16 te) cu rest 5 6 eq_refl eq_refl).
Qed.

Lemma current_clamped b :
  BatteryModel.current_ma_i16 b = Z.max (-32768) (Z.min (BatteryModel.current_ma b) 32767).
Proof. unfold BatteryModel.current_ma_i16. rewrite cast_id by int_lia. int_lia. Qed.

(** The bus between the plant and an ECU: the frames in the order of their injection. *)
Definition deliver (held : list Z) (frames : list mc_can_frame_t) (_ : string) (_ can_id : Z)
    (payload : list Z) (_ : Z) : list mc_can_frame_t := frames ++ [receive held can_id payload].

(** The heartbeat carries the time with its high byte first; the codec of the protocol
    library, and docs/message_protocol.md, have the low byte first.  A receiver that decodes
    the frame with the library reads the time with its bytes reversed. *)
Lemma heartbeat_byte_order node now :
  fits U8 node ->
  exists f, heartbeat_frame node now = Ret f /\ data f = [node] ++ rev (le_bytes 4 now) ++ [0; 0; 0] /\
    mc_decode_heartbeat (data f) = Ret (node, le_value (rev (le_bytes 4 now))).
Proof.
  intros Hn. assert (forall k, cast U8 (Z.shiftr now k) = Z.shiftr now k mod 256) as Hc by done.
  assert (rev (le_bytes 4 now) = [cast U8 (Z.shiftr now 24); cast U8 (Z.shiftr now 16);
            cast U8 (Z.shiftr now 8); cast U8 now]) as He.
  { cbn [le_bytes rev app]. rewrite !Hc, !Z.shiftr_div_pow2, !Z.div_div by lia. reflexivity. }
  rewrite He. eexists. split; [reflexivity|]. split; [reflexivity|].
  assert (forall v, 0 <= cast U8 v < 256) as Hb by (intros v; apply Z.mod_pos_bound; lia).
  pose proof (Hb (Z.shiftr now 24)). pose proof (Hb (Z.shiftr now 16)).
  pose proof (Hb (Z.shiftr now 8)). pose proof (Hb now).
  set (b3 := cast U8 (Z.shiftr now 24)) in *. set (b2 := cast U8 (Z.shiftr now 16)) in *.
  set (b1 := cast U8 (Z.shiftr now 8)) in *. set (b0 := cast U8 now) in *.
  change (mc_decode_heartbeat [node; b3; b2; b1; b0; 0; 0; 0] =
    Ret (node, le_value [b3; b2; b1; b0])).
  change (Ret (cast U8 (node + 256 * 0), cast U32 (le_value [b3; b2; b1; b0])) =
    Ret (node, le_value [b3; b2; b1; b0])).
  replace (node + 256 * 0) with node by lia. rewrite (cast_id U8 node Hn).
  rewrite (cast_id U32); [done|]. unfold fits. cbn [le_value]. change (imin U32) with 0.
  change (imax U32) with (2 ^ 32 - 1). lia.
Qed.

(** ** The frames the ECUs build *)

(** An initialised frame with its first bytes filled in. *)
Definition frame_of (msg_id node : Z) (bytes : list Z) : mc_can_frame_t :=
  {| id := msg_id; sender := node; len := Z.of_nat (length bytes);
     data := bytes ++ replicate (Z.to_nat MC_CAN_MAX_DATA - length bytes) 0 |}.

(** A frame on its way over the bus: its payload of [len] bytes is received. *)
Definition over_the_bus (held : list Z) (f : mc_can_frame_t) : mc_can_frame_t :=
  receive held (id f) (take (Z.to_nat (len f)) (data f)).

Lemma frame_of_received held msg_id node bytes :
  over_the_bus held (frame_of msg_id node bytes) = receive held msg_id bytes.
Proof.
  unfold over_the_bus, frame_of. cbn [id len data].
  by rewrite Nat2Z.id, take_app_length.
Qed.

Definition heartbeat_payload (node now_ms : Z) : list Z :=
  [node; cast U8 (Z.shiftr now_ms 24); cast U8 (Z.shiftr now_ms 16); cast U8 (Z.shiftr now_ms 8);
   cast U8 now_ms].

Lemma heartbeat_frame_eq node now_ms :
  heartbeat_frame node now_ms = Ret (frame_of MC_MSG_HEARTBEAT node (heartbeat_payload node now_ms)).
Proof. reflexivity. Qed.
