(* ===== verification/CTask.v ===== *)
(** * Firmware tasks

    A task works on the context of its machine, may leave an array, and has effects on the
    simulator: it traces values and sends frames.  [task] is the monad of such computations
    over a context type; an effect list is in the order of the calls. *)

From S2P Require Import Prelude MachineInt CBase CProtocol.

(** [sim_trace_u32(label, value)] and [sim_can_send(0, tx.id, tx.data, tx.len, 0, 0)]. *)
Inductive effect : Type :=
  | Trace (label : string) (value : Z)
  | Send (frame : mc_can_frame_t).

Section Task.
Context {C : Type}.

Definition task (A : Type) : Type := C -> outcome (A * C * list effect).

Definition tret {A : Type} (a : A) : task A := fun ctx => Ret (a, ctx, []).

Definition tbind {A B : Type} (m : task A) (k : A -> task B) : task B := fun ctx =>
  let! (a, ctx, es) := m ctx in
  let! (b, ctx, es') := k a ctx in
  Ret (b, ctx, es ++ es').

Definition tget : task C := fun ctx => Ret (ctx, ctx, []).
Definition tput (ctx : C) : task unit := fun _ => Ret (tt, ctx, []).
Definition tlift {A : Type} (m : outcome A) : task A := fun ctx => let! a := m in Ret (a, ctx, []).
Definition temit (e : effect) : task unit := fun ctx => Ret (tt, ctx, [e]).

Definition sim_trace_u32 (label : string) (value : Z) : task unit := temit (Trace label value).
Definition sim_can_send (tx : mc_can_frame_t) : task unit := temit (Send tx).

(** [if (c) m;] *)
Definition twhen (c : bool) (m : task unit) : task unit := if c then m else tret tt.

(** The body of a loop for each element of a sequence. *)
Fixpoint tfor {A : Type} (f : A -> task unit) (l : list A) : task unit :=
  match l with
  | [] => tret tt
  | a :: l => tbind (f a) (fun _ => tfor f l)
  end.
End Task.
Arguments task C A : clear implicits.

Notation "'do!' x ':=' m 'in' k" := (tbind m (fun x => k))
  (at level 10, x pattern, m at level 100, k at level 200) : mc_scope.

Definition traces (es : list effect) : list (string * Z) :=
  omap (fun e => match e with Trace l v => Some (l, v) | Send _ => None end) es.

Definition frames (es : list effect) : list mc_can_frame_t :=
  omap (fun e => match e with Send f => Some f | Trace _ _ => None end) es.

Lemma frames_app es es' : frames (es ++ es') = frames es ++ frames es'.
Proof. unfold frames. by rewrite omap_app. Qed.

Lemma traces_app es es' : traces (es ++ es') = traces es ++ traces es'.
Proof. unfold traces. by rewrite omap_app. Qed.

(** A value that is there is read without effect. *)
Lemma bind_lift {C A B : Type} (a : A) (k : A -> task C B) ctx : tbind (tlift (Ret a)) k ctx = k a ctx.
Proof. unfold tbind, tlift. cbn [obind]. by destruct (k a ctx) as [[[b c] es]|]. Qed.

Lemma tfor_app {C A : Type} (f : A -> task C unit) l l' ctx :
  tfor f (l ++ l') ctx = tbind (tfor f l) (fun _ => tfor f l') ctx.
Proof.
  revert ctx. induction l as [|a l IH]; intros ctx; cbn [app tfor]; unfold tbind at 1.
  { unfold tret. cbn [obind]. by destruct (tfor f l' ctx) as [[[[] c] es]|]. }
  unfold tbind. destruct (f a ctx) as [[[[] c] es]|]; [|done]. cbn [obind]. rewrite IH. unfold tbind.
  destruct (tfor f l c) as [[[[] c'] es']|]; [|done]. cbn [obind].
  destruct (tfor f l' c') as [[[[] c''] es'']|]; [|done]. cbn [obind]. by rewrite app_assoc.
Qed.

(** ** What a task can do

    [spec P m Q]: from a context with [P] the task returns, to a context and with effects
    that [Q] relates to the one before. *)
Section Spec.
Context {C : Type}.

Definition spec {A : Type} (P : C -> Prop) (m : task C A) (Q : C -> A -> C -> list effect -> Prop) : Prop :=
  forall ctx, P ctx -> exists a ctx' es, m ctx = Ret (a, ctx', es) /\ Q ctx a ctx' es.

(** Every effect of the task is in [E] and the context stays in [I]. *)
Definition keeps {A : Type} (I : C -> Prop) (E : effect -> Prop) (m : task C A) : Prop :=
  spec I m (fun _ _ ctx' es => I ctx' /\ Forall E es).

Lemma keeps_ret {A : Type} I E (a : A) : keeps I E (tret a).
Proof. intros ctx H. exists a, ctx, []. by repeat split. Qed.

Lemma keeps_get I E : keeps I E tget.
Proof. intros ctx H. exists ctx, ctx, []. by repeat split. Qed.

Lemma keeps_bind {A B : Type} I E (m : task C A) (k : A -> task C B) :
  keeps I E m -> (forall a, keeps I E (k a)) -> keeps I E (tbind m k).
Proof.
  intros Hm Hk ctx H. destruct (Hm ctx H) as (a & ctx1 & es1 & E1 & H1 & F1).
  destruct (Hk a ctx1 H1) as (b & ctx2 & es2 & E2 & H2 & F2).
  exists b, ctx2, (es1 ++ es2). unfold tbind. rewrite E1. cbn [obind]. rewrite E2. cbn [obind].
  split; [done|]. split; [done|]. by apply Forall_app.
Qed.

(** What the continuation may use of the context is that the invariant holds of it. *)
Lemma keeps_get_bind {B : Type} I E (k : C -> task C B) :
  (forall ctx, I ctx -> exists b ctx' es, k ctx ctx = Ret (b, ctx', es) /\ I ctx' /\ Forall E es) ->
  keeps I E (tbind tget k).
Proof.
  intros Hk ctx H. destruct (Hk ctx H) as (b & ctx' & es & E1 & HI & HF).
  exists b, ctx', es. unfold tbind, tget. cbn [obind]. by rewrite E1.
Qed.

(** What the continuation may use of the context it read is the invariant. *)
Lemma keeps_read {B : Type} I E (k : C -> task C B) :
  (forall ctx, I ctx -> keeps I E (k ctx)) -> keeps I E (tbind tget k).
Proof. intros Hk. apply keeps_get_bind. intros ctx H. exact (Hk ctx H ctx H). Qed.

Lemma keeps_put (I : C -> Prop) E ctx : I ctx -> keeps I E (tput ctx).
Proof. intros H ctx0 _. by exists tt, ctx, []. Qed.

Lemma keeps_lift {A B : Type} I E (m : outcome A) a (k : A -> task C B) :
  m = Ret a -> keeps I E (k a) -> keeps I E (tbind (tlift m) k).
Proof.
  intros -> Hk ctx H. destruct (Hk ctx H) as (b & ctx' & es & E1 & H1 & H2).
  exists b, ctx', es. unfold tbind, tlift. cbn [obind]. by rewrite E1.
Qed.

Lemma keeps_emit I (E : effect -> Prop) e : E e -> keeps I E (temit e).
Proof. intros He ctx H. exists tt, ctx, [e]. split; [done|]. split; [done|]. by constructor. Qed.

Lemma keeps_when I E (c : bool) m : (c = true -> keeps I E m) -> keeps I E (twhen c m).
Proof. destruct c; cbn [twhen]; [by intros H; apply H|intros _; apply keeps_ret]. Qed.

Lemma keeps_for {A : Type} I E (f : A -> task C unit) l : (forall a, a ∈ l -> keeps I E (f a)) -> keeps I E (tfor f l).
Proof.
  induction l as [|a l IH]; intros H; cbn [tfor]; [apply keeps_ret|].
  apply keeps_bind; [apply H; by left|]. intros _. apply IH. intros b Hb. apply H. by right.
Qed.

(** As [keeps], and the effect [e] happens. *)
Definition emits {A : Type} (I : C -> Prop) (E : effect -> Prop) (e : effect) (m : task C A) : Prop :=
  spec I m (fun _ _ ctx' es => I ctx' /\ Forall E es /\ e ∈ es).

Lemma emits_emit I (E : effect -> Prop) e : E e -> emits I E e (temit e).
Proof.
  intros He ctx H. exists tt, ctx, [e]. split; [done|]. split; [done|]. split; [by constructor|by left].
Qed.

Lemma emits_bind {A B : Type} I E e (m : task C A) (k : A -> task C B) :
  keeps I E m -> (forall a, emits I E e (k a)) -> emits I E e (tbind m k).
Proof.
  intros Hm Hk ctx H. destruct (Hm ctx H) as (a & ctx1 & es1 & E1 & H1 & F1).
  destruct (Hk a ctx1 H1) as (b & ctx2 & es2 & E2 & H2 & F2 & He).
  exists b, ctx2, (es1 ++ es2). unfold tbind. rewrite E1. cbn [obind]. rewrite E2. cbn [obind].
  split; [done|]. split; [done|]. split; [by apply Forall_app|]. apply elem_of_app. by right.
Qed.

Lemma emits_read {B : Type} I E e (k : C -> task C B) :
  (forall ctx, I ctx -> emits I E e (k ctx)) -> emits I E e (tbind tget k).
Proof.
  intros Hk ctx H. destruct (Hk ctx H ctx H) as (b & ctx' & es & E1 & H2).
  exists b, ctx', es. unfold tbind, tget. cbn [obind]. by rewrite E1.
Qed.

(** A postcondition that effects put before do not disturb. *)
Lemma spec_after {A B : Type} (I : C -> Prop) (E : effect -> Prop) (P : C -> list effect -> Prop)
    (m : task C A) (k : A -> task C B) :
  (forall ctx es0 es, Forall E es0 -> P ctx es -> P ctx (es0 ++ es)) -> keeps I E m ->
  (forall a, spec I (k a) (fun _ _ ctx es => P ctx es)) -> spec I (tbind m k) (fun _ _ ctx es => P ctx es).
Proof.
  intros HP Hm Hk ctx H. destruct (Hm ctx H) as (a & ctx1 & es1 & E1 & H1 & F1).
  destruct (Hk a ctx1 H1) as (b & ctx2 & es2 & E2 & H2).
  exists b, ctx2, (es1 ++ es2). unfold tbind. rewrite E1. cbn [obind]. rewrite E2. cbn [obind]. auto.
Qed.

Lemma keeps_mono {A : Type} I (E E' : effect -> Prop) (m : task C A) :
  (forall e, E e -> E' e) -> keeps I E m -> keeps I E' m.
Proof.
  intros He Hm ctx H. destruct (Hm ctx H) as (a & ctx' & es & H1 & H2 & H3).
  exists a, ctx', es. split; [done|]. split; [done|]. by eapply Forall_impl.
Qed.
End Spec.
