(* ===== verification/CDashboard.v ===== *)
(** * The dashboard renderer ([common/src/microcar_dashboard.c])

    The framebuffer is the array of [uint16_t] the renderer receives; a write outside it is
    undefined behaviour.  The abstract specification of a frame is a list of painted
    rectangles, the later over the earlier: [render_refines] says that the renderer writes
    the picture [screen] describes and nothing else. *)

From S2P Require Import Prelude MachineInt Protocol CBase CProtocol.

Definition MC_DASH_MODE_UNSET : Z := 0xFF.

Definition MC_DASH_BLACK : Z := 0x0000.
Definition MC_DASH_WHITE : Z := 0xFFFF.
Definition MC_DASH_GREEN : Z := 0x07E0.
Definition MC_DASH_RED : Z := 0xF800.
Definition MC_DASH_AMBER : Z := 0xFD20.

Definition MC_DASH_WIDTH : Z := 320.
Definition MC_DASH_HEIGHT : Z := 240.

(** ** Drawing *)

(** [for (int i = lo; i < hi; i++)] around a body that writes the framebuffer. *)
Definition for_range (lo hi : Z) (body : list Z -> Z -> outcome (list Z)) (fb : list Z)
    : outcome (list Z) := ofold body fb (seqZ lo (hi - lo)).

Definition fill_rect (fb : list Z) (x y w h color : Z) : outcome (list Z) :=
  if (x <? 0) || (y <? 0) || (MC_DASH_WIDTH <? x + w) || (MC_DASH_HEIGHT <? y + h) then Ret fb
  else
    for_range 0 h (fun fb row =>
      let line := (y + row) * MC_DASH_WIDTH + x in
      for_range 0 w (fun fb col => store fb (line + col) color) fb) fb.

(** [if (i < MC_DASH_WIDTH * MC_DASH_HEIGHT) fb[i] = color;] *)
Definition put (fb : list Z) (i color : Z) : outcome (list Z) :=
  if i <? MC_DASH_WIDTH * MC_DASH_HEIGHT then store fb i color else Ret fb.

Definition draw_border (fb : list Z) (x y w h color : Z) : outcome (list Z) :=
  if (w <=? 0) || (h <=? 0) then Ret fb
  else
    let! fb := for_range 0 w (fun fb col =>
      let i_top := y * MC_DASH_WIDTH + (x + col) in
      let i_bot := (y + h - 1) * MC_DASH_WIDTH + (x + col) in
      let! fb := put fb i_top color in
      put fb i_bot color) fb in
    for_range 1 (h - 1) (fun fb row =>
      let i_left := (y + row) * MC_DASH_WIDTH + x in
      let i_right := (y + row) * MC_DASH_WIDTH + (x + w - 1) in
      let! fb := put fb i_left color in
      put fb i_right color) fb.

Definition draw_bar (fb : list Z) (x y w h value max_val bg : Z) : outcome (list Z) :=
  let! fb := draw_border fb x y w h MC_DASH_WHITE in
  if max_val =? 0 then Ret fb
  else
    let inner_w := w - 2 in
    let inner_h := h - 2 in
    if (inner_w <=? 0) || (inner_h <=? 0) then Ret fb
    else
      let fill_w := Z.quot (inner_w * value) max_val in
      let fill_w := if inner_w <? fill_w then inner_w else fill_w in
      let! fb := fill_rect fb (x + 1) (y + 1) inner_w inner_h bg in
      fill_rect fb (x + 1) (y + 1) fill_w inner_h MC_DASH_GREEN.

(** ** Seven segments *)

Definition DIGIT_W : Z := 30.
Definition DIGIT_H : Z := 46.
Definition STROKE : Z := 8.

Record seg_t := { seg_x : Z; seg_y : Z; seg_w : Z; seg_h : Z }.

Definition SEG_A : seg_t := {| seg_x := 1; seg_y := 0; seg_w := 28; seg_h := 8 |}.
Definition SEG_B : seg_t := {| seg_x := 22; seg_y := 1; seg_w := 8; seg_h := 18 |}.
Definition SEG_C : seg_t := {| seg_x := 22; seg_y := 20; seg_w := 8; seg_h := 18 |}.
Definition SEG_D : seg_t := {| seg_x := 1; seg_y := 38; seg_w := 28; seg_h := 8 |}.
Definition SEG_E : seg_t := {| seg_x := 0; seg_y := 20; seg_w := 8; seg_h := 18 |}.
Definition SEG_F : seg_t := {| seg_x := 0; seg_y := 1; seg_w := 8; seg_h := 18 |}.
Definition SEG_G : seg_t := {| seg_x := 1; seg_y := 19; seg_w := 28; seg_h := 8 |}.

Definition DIGIT_SEGS : list Z :=
  [0x7E; 0x30; 0x6D; 0x79; 0x33; 0x5B; 0x5F; 0x70; 0x7F; 0x7B].

Definition draw_seg (fb : list Z) (base_x base_y : Z) (s : seg_t) (color : Z) : outcome (list Z) :=
  fill_rect fb (base_x + seg_x s) (base_y + seg_y s) (seg_w s) (seg_h s) color.

(** [if (mask & bit) draw_seg(...)] *)
Definition draw_if (mask bit : Z) (fb : list Z) (x y : Z) (s : seg_t) (color : Z) : outcome (list Z) :=
  if truthy (Z.land mask bit) then draw_seg fb x y s color else Ret fb.

Definition draw_digit (fb : list Z) (x y d color : Z) : outcome (list Z) :=
  if 9 <? d then Ret fb
  else
    let! mask := load DIGIT_SEGS d in
    let! fb := draw_if mask 0x40 fb x y SEG_A color in
    let! fb := draw_if mask 0x20 fb x y SEG_B color in
    let! fb := draw_if mask 0x10 fb x y SEG_C color in
    let! fb := draw_if mask 0x08 fb x y SEG_D color in
    let! fb := draw_if mask 0x04 fb x y SEG_E color in
    let! fb := draw_if mask 0x02 fb x y SEG_F color in
    draw_if mask 0x01 fb x y SEG_G color.

(** [while (v > 0 && nd < 7)]: the digits of [v] into [buf], the least significant first.
    The bound on [nd] is the measure. *)
Fixpoint digit_loop (room : nat) (v nd : Z) (buf : list Z) : outcome (list Z * Z) :=
  match room with
  | O => Ret (buf, nd)
  | S room =>
      if 0 <? v then
        let! buf := store buf nd (48 + Z.rem v 10) in
        digit_loop room (Z.quot v 10) (nd + 1) buf
      else Ret (buf, nd)
  end.

(** One turn of the loop that reverses the digits in place. *)
Definition swap_body (nd : Z) (buf : list Z) (i : Z) : outcome (list Z) :=
  let! t := load buf i in
  let! u := load buf (nd - 1 - i) in
  let! buf := store buf i u in
  store buf (nd - 1 - i) t.

(** The digit string: the array and how much of it is filled. *)
Definition digit_string (value : Z) : outcome (list Z * Z) :=
  let buf := replicate 8 0 in
  if value =? 0 then
    let! buf := store buf 0 48 in
    Ret (buf, 1)
  else
    let! (buf, nd) := digit_loop 7 value 0 buf in
    let! buf := for_range 0 (Z.quot nd 2) (swap_body nd) buf in
    Ret (buf, nd).

Definition draw_number (fb : list Z) (rx ry rw rh value color bg : Z) : outcome (list Z) :=
  let! (buf, nd) := digit_string value in
  let total_w := nd * DIGIT_W in
  let start_x := rx + rw - total_w in
  let start_y := ry + Z.quot (rh - DIGIT_H) 2 in
  let! fb := fill_rect fb rx ry rw rh bg in
  for_range 0 nd (fun fb i =>
    let! c := load buf i in
    draw_digit fb (start_x + i * DIGIT_W) start_y (cast U8 (c - 48)) color) fb.

Definition draw_minus (fb : list Z) (rx ry rw rh color bg : Z) : outcome (list Z) :=
  let bar_w := 18 in
  let bar_h := STROKE in
  let bar_x := rx + 2 in
  let bar_y := ry + Z.quot (rh - bar_h) 2 in
  let! fb := fill_rect fb bar_x bar_y bar_w bar_h color in
  if bar_x + bar_w <? rx + rw then
    fill_rect fb (bar_x + bar_w) ry (rx + rw - bar_x - bar_w) rh bg
  else Ret fb.

(** ** The state and the screen *)

Module mc_dash.

Record mc_dash_state_t := {
  mode : Z;
  prev_mode : Z;
  page : Z;
  bg_color : Z;
  speed_kmh : Z;
  torque_percent : Z;
  soc_percent : Z;
  current_a_x2 : Z;
  ota_progress : Z;
}.

Definition mc_dash_init : mc_dash_state_t := {|
  mode := MC_DASH_MODE_UNSET; prev_mode := MC_DASH_MODE_UNSET; page := 0; bg_color := 0;
  speed_kmh := 0; torque_percent := 0; soc_percent := 0; current_a_x2 := 0; ota_progress := 0 |}.

(** The [switch] of [mc_dash_set_mode]. *)
Definition background (m : Z) : Z :=
  if m =? VEHICLE_OFF then 0x0000
  else if m =? VEHICLE_READY then 0x0010
  else if m =? VEHICLE_DRIVE then 0x0200
  else if m =? VEHICLE_LIMP then 0xFD20
  else if m =? VEHICLE_FAULT then 0x7800
  else if m =? VEHICLE_CHARGING then 0x4010
  else if m =? VEHICLE_SERVICE then 0x0000
  else if m =? VEHICLE_OTA_UPDATE then 0x0008
  else if m =? VEHICLE_TRANSPORT_MODE then 0x0000
  else 0x0000.

Definition mc_dash_set_mode (ds : mc_dash_state_t) (m : Z) : mc_dash_state_t := {|
  mode := m; prev_mode := prev_mode ds; page := page ds; bg_color := background m;
  speed_kmh := speed_kmh ds; torque_percent := torque_percent ds; soc_percent := soc_percent ds;
  current_a_x2 := current_a_x2 ds; ota_progress := ota_progress ds |}.

(** [ds->prev_mode = ds->mode], an assignment to a [uint8_t]. *)
Definition shown (ds : mc_dash_state_t) : mc_dash_state_t := {|
  mode := mode ds; prev_mode := cast U8 (mode ds); page := page ds; bg_color := bg_color ds;
  speed_kmh := speed_kmh ds; torque_percent := torque_percent ds; soc_percent := soc_percent ds;
  current_a_x2 := current_a_x2 ds; ota_progress := ota_progress ds |}.

(** The status bar and the two number regions of DRIVE and LIMP. *)
Definition draw_drive (ds : mc_dash_state_t) (fb : list Z) (status bg : Z) : outcome (list Z) :=
  let! fb := draw_border fb 0 0 320 40 MC_DASH_WHITE in
  let! fb := fill_rect fb 1 1 318 38 status in
  if page ds =? 0 then
    let! fb := draw_number fb 20 70 120 80 (speed_kmh ds) MC_DASH_WHITE bg in
    if torque_percent ds <? 0 then
      let! fb := draw_minus fb 180 70 120 80 MC_DASH_WHITE bg in
      draw_number fb 200 70 100 80 (- torque_percent ds) MC_DASH_WHITE bg
    else
      let! fb := fill_rect fb 180 70 120 80 bg in
      draw_number fb 180 70 120 80 (torque_percent ds) MC_DASH_WHITE bg
  else Ret fb.

Definition mc_dash_render (ds : mc_dash_state_t) (framebuffer : list Z)
    : outcome (mc_dash_state_t * list Z) :=
  let bg := bg_color ds in
  let! (ds, fb) :=
    if negb (mode ds =? prev_mode ds) then
      let! fb := fill_rect framebuffer 0 0 MC_DASH_WIDTH MC_DASH_HEIGHT bg in Ret (shown ds, fb)
    else Ret (ds, framebuffer) in
  if mode ds =? MC_DASH_MODE_UNSET then
    let! fb := fill_rect fb 0 0 MC_DASH_WIDTH MC_DASH_HEIGHT MC_DASH_BLACK in
    let! fb := fill_rect fb 40 108 240 24 MC_DASH_WHITE in
    Ret (ds, fb)
  else
    let! fb :=
      if (mode ds =? VEHICLE_OFF) || (mode ds =? VEHICLE_READY) then
        let! fb := draw_border fb 0 0 320 40 MC_DASH_WHITE in
        let! fb := fill_rect fb 1 1 318 38 MC_DASH_GREEN in
        if page ds =? 0 then draw_number fb 20 70 120 80 (speed_kmh ds) MC_DASH_WHITE bg else Ret fb
      else if mode ds =? VEHICLE_DRIVE then draw_drive ds fb MC_DASH_GREEN bg
      else if mode ds =? VEHICLE_LIMP then draw_drive ds fb MC_DASH_AMBER bg
      else if mode ds =? VEHICLE_FAULT then
        let! fb := draw_border fb 0 170 320 70 MC_DASH_WHITE in
        fill_rect fb 1 171 318 68 MC_DASH_RED
      else if mode ds =? VEHICLE_CHARGING then
        if page ds =? 0 then
          let! fb := draw_bar fb 20 90 280 24 (soc_percent ds) 100 bg in
          draw_bar fb 20 140 280 24 (current_a_x2 ds) 100 bg
        else Ret fb
      else if mode ds =? VEHICLE_OTA_UPDATE then
        draw_bar fb 20 110 280 24 (ota_progress ds) 100 bg
      else Ret fb in
    Ret (ds, fb).

End mc_dash.

(** ** Pictures *)

(** A rectangle of one colour. *)
Record op : Set := { op_x : Z; op_y : Z; op_w : Z; op_h : Z; op_color : Z }.

(** Whether the pixel of an index lies in the rectangle. *)
Definition inside (o : op) (i : Z) : bool :=
  let px := i mod MC_DASH_WIDTH in
  let py := i / MC_DASH_WIDTH in
  (op_x o <=? px) && (px <? op_x o + op_w o) && (op_y o <=? py) && (py <? op_y o + op_h o).

(** The colour a picture leaves at an index: that of the last rectangle over it. *)
Definition shade (ops : list op) (i c : Z) : Z :=
  fold_left (fun c o => if inside o i then op_color o else c) ops c.

Definition paints (ops : list op) (fb fb' : list Z) : Prop :=
  length fb' = length fb /\
  forall k c, fb !! k = Some c -> fb' !! k = Some (shade ops (Z.of_nat k) c).

(** The framebuffer the renderer asks for. *)
Definition big_enough (fb : list Z) : Prop := MC_DASH_WIDTH * MC_DASH_HEIGHT <= Z.of_nat (length fb).

(** What a drawing routine promises. *)
Definition draws (m : list Z -> outcome (list Z)) (ops : list op) : Prop :=
  forall fb, big_enough fb -> exists fb', m fb = Ret fb' /\ paints ops fb fb'.

Lemma paints_nil fb : paints [] fb fb.
Proof. by split. Qed.

Lemma shade_app ops1 ops2 i c : shade (ops1 ++ ops2) i c = shade ops2 i (shade ops1 i c).
Proof. apply fold_left_app. Qed.

Lemma paints_app ops1 ops2 fb fb1 fb2 :
  paints ops1 fb fb1 -> paints ops2 fb1 fb2 -> paints (ops1 ++ ops2) fb fb2.
Proof.
  intros [Hl1 H1] [Hl2 H2]. split; [congruence|]. intros k c Hk.
  rewrite shade_app. by apply H2, H1.
Qed.

Lemma paints_big ops fb fb' : paints ops fb fb' -> big_enough fb -> big_enough fb'.
Proof. unfold big_enough. by intros [-> _]. Qed.

Lemma draws_ret : draws Ret [].
Proof. intros fb _. exists fb. split; [done|apply paints_nil]. Qed.

Lemma draws_bind (m : list Z -> outcome (list Z)) k ops1 ops2 :
  draws m ops1 -> draws k ops2 -> draws (fun fb => let! fb := m fb in k fb) (ops1 ++ ops2).
Proof.
  intros Hm Hk fb Hb. destruct (Hm fb Hb) as (fb1 & -> & H1). cbn [obind].
  destruct (Hk fb1 (paints_big _ _ _ H1 Hb)) as (fb2 & -> & H2).
  exists fb2. split; [done|]. by eapply paints_app.
Qed.

Lemma draws_if (b : bool) m1 m2 ops1 ops2 :
  draws m1 ops1 -> draws m2 ops2 ->
  draws (fun fb => if b then m1 fb else m2 fb) (if b then ops1 else ops2).
Proof. by destruct b. Qed.

(** *** Loops of writes of one colour *)

Definition writes (c : Z) (sel : Z -> bool) (fb fb' : list Z) : Prop :=
  length fb' = length fb /\
  forall k x, fb !! k = Some x -> fb' !! k = Some (if sel (Z.of_nat k) then c else x).

Lemma store_writes c i fb :
  0 <= i < Z.of_nat (length fb) -> exists fb', store fb i c = Ret fb' /\ writes c (Z.eqb i) fb fb'.
Proof.
  intros Hi. unfold store. rewrite (proj2 (Z.leb_le _ _)), (proj2 (Z.ltb_lt _ _)) by lia.
  eexists. split; [done|]. split; [apply length_insert|]. intros k x Hk.
  destruct (Z.eqb_spec i (Z.of_nat k)) as [->|Hne].
  - rewrite Nat2Z.id, list_lookup_insert, decide_True; [done|]. split; [done|].
    by eapply lookup_lt_Some.
  - rewrite list_lookup_insert_ne by lia. done.
Qed.

Lemma writes_trans c s1 s2 fb fb1 fb2 :
  writes c s1 fb fb1 -> writes c s2 fb1 fb2 -> writes c (fun k => s1 k || s2 k) fb fb2.
Proof.
  intros [Hl1 H1] [Hl2 H2]. split; [congruence|]. intros k x Hk.
  rewrite (H2 _ _ (H1 _ _ Hk)). by destruct (s1 (Z.of_nat k)), (s2 (Z.of_nat k)).
Qed.

Lemma writes_ext c s1 s2 fb fb' :
  (forall k, 0 <= k -> s1 k = s2 k) -> writes c s1 fb fb' -> writes c s2 fb fb'.
Proof. intros Hs [Hl H]. split; [done|]. intros k x Hk. rewrite (H k x Hk), Hs by lia. done. Qed.

Lemma for_range_writes c lo hi body (sel : Z -> Z -> bool) :
  (forall fb i, big_enough fb -> lo <= i < hi ->
     exists fb', body fb i = Ret fb' /\ writes c (sel i) fb fb') ->
  forall fb, big_enough fb -> exists fb', for_range lo hi body fb = Ret fb' /\
    writes c (fun k => existsb (fun i => sel i k) (seqZ lo (hi - lo))) fb fb'.
Proof.
  intros Hbody. unfold for_range.
  assert (forall i, i ∈ seqZ lo (hi - lo) -> lo <= i < hi) as Hin
    by (intros i Hi; apply elem_of_seqZ in Hi; lia).
  induction (seqZ lo (hi - lo)) as [|i l IH]; intros fb Hb; cbn [ofold existsb].
  - exists fb. split; [done|]. by split.
  - destruct (Hbody fb i Hb (Hin i ltac:(by left))) as (fb1 & -> & H1). cbn [obind].
    assert (big_enough fb1) as Hb1 by (unfold big_enough; destruct H1 as [-> _]; done).
    destruct (IH ltac:(intros j Hj; apply Hin; by right) fb1 Hb1) as (fb2 & -> & H2).
    exists fb2. split; [done|]. by apply (writes_trans c (sel i) _ fb fb1 fb2).
Qed.

Lemma existsb_seqZ (p : Z -> bool) lo n :
  existsb p (seqZ lo n) = true <-> exists i, lo <= i < lo + n /\ p i = true.
Proof.
  rewrite existsb_exists. split; intros (i & Hi & Hp); exists i; (split; [|done]).
  - apply list_elem_of_In, elem_of_seqZ in Hi. lia.
  - apply list_elem_of_In, elem_of_seqZ. lia.
Qed.

Lemma writes_paints o fb fb' : writes (op_color o) (inside o) fb fb' -> paints [o] fb fb'.
Proof. intros [Hl H]. split; [done|]. intros k x Hk. by rewrite (H k x Hk). Qed.

(** *** Rectangles and borders *)

(** The guard of [fill_rect]. *)
Definition on_screen (x y w h : Z) : bool :=
  negb ((x <? 0) || (y <? 0) || (MC_DASH_WIDTH <? x + w) || (MC_DASH_HEIGHT <? y + h)).

Definition rect (x y w h color : Z) : op :=
  {| op_x := x; op_y := y; op_w := w; op_h := h; op_color := color |}.

Definition fill_ops (x y w h color : Z) : list op :=
  if on_screen x y w h then [rect x y w h color] else [].

Lemma on_screen_spec x y w h :
  on_screen x y w h = true <->
  0 <= x /\ 0 <= y /\ x + w <= MC_DASH_WIDTH /\ y + h <= MC_DASH_HEIGHT.
Proof.
  unfold on_screen. rewrite negb_true_iff, !orb_false_iff, !Z.ltb_ge. tauto.
Qed.

(** The index of a pixel determines its row and column. *)
Lemma pixel_index px py : 0 <= px < MC_DASH_WIDTH ->
  (py * MC_DASH_WIDTH + px) mod MC_DASH_WIDTH = px /\ (py * MC_DASH_WIDTH + px) / MC_DASH_WIDTH = py.
Proof. unfold MC_DASH_WIDTH. intros. split; [Z.div_mod_to_equations|Z.div_mod_to_equations]; lia. Qed.

Lemma inside_pixel o px py : 0 <= px < MC_DASH_WIDTH ->
  inside o (py * MC_DASH_WIDTH + px) =
  (op_x o <=? px) && (px <? op_x o + op_w o) && (op_y o <=? py) && (py <? op_y o + op_h o).
Proof. intros H. unfold inside. by destruct (pixel_index px py H) as [-> ->]. Qed.

Lemma inside_rect x y w h color k :
  inside (rect x y w h color) k = true <->
  x <= k mod MC_DASH_WIDTH < x + w /\ y <= k / MC_DASH_WIDTH < y + h.
Proof.
  unfold inside. cbn [op_x op_y op_w op_h rect].
  rewrite !andb_true_iff, !Z.leb_le, !Z.ltb_lt. tauto.
Qed.

(** Every index is the pixel of its row and column. *)
Lemma index_split k : k = (k / MC_DASH_WIDTH) * MC_DASH_WIDTH + k mod MC_DASH_WIDTH /\
  0 <= k mod MC_DASH_WIDTH < MC_DASH_WIDTH.
Proof. unfold MC_DASH_WIDTH. pose proof (Z.div_mod k 320). pose proof (Z.mod_pos_bound k 320). lia. Qed.

Lemma rect_inside_screen x y w h px py fb :
  on_screen x y w h = true -> x <= px < x + w -> y <= py < y + h -> big_enough fb ->
  0 <= py * MC_DASH_WIDTH + px < Z.of_nat (length fb) /\
  py * MC_DASH_WIDTH + px < MC_DASH_WIDTH * MC_DASH_HEIGHT.
Proof. intros Ho%on_screen_spec Hx Hy Hb. unfold big_enough, MC_DASH_WIDTH, MC_DASH_HEIGHT in *. lia. Qed.

Lemma fill_rect_draws x y w h color :
  draws (fun fb => fill_rect fb x y w h color) (fill_ops x y w h color).
Proof.
  intros fb Hb. unfold fill_rect, fill_ops.
  destruct (on_screen x y w h) eqn:Ho; unfold on_screen in Ho;
    [apply negb_true_iff in Ho|apply negb_false_iff in Ho]; rewrite Ho;
    [|by apply (draws_ret fb Hb)].
  assert (on_screen x y w h = true) as Hon by (unfold on_screen; by rewrite Ho).
  clear Ho. revert fb Hb.
  assert (forall fb, big_enough fb -> exists fb',
    for_range 0 h (fun fb row =>
      for_range 0 w (fun fb col => store fb ((y + row) * MC_DASH_WIDTH + x + col) color) fb) fb = Ret fb' /\
    writes color (fun k => existsb (fun row => existsb (fun col =>
      Z.eqb ((y + row) * MC_DASH_WIDTH + x + col) k) (seqZ 0 (w - 0))) (seqZ 0 (h - 0))) fb fb') as Hloops.
  { apply for_range_writes. intros fb row Hb Hrow. revert fb Hb. apply for_range_writes.
    intros fb col Hb Hcol. apply store_writes.
    pose proof (rect_inside_screen x y w h (x + col) (y + row) fb Hon ltac:(lia) ltac:(lia) Hb). lia. }
  intros fb Hb. destruct (Hloops fb Hb) as (fb' & Hrun & Hw). exists fb'. split; [exact Hrun|].
  apply (writes_paints (rect x y w h color)). eapply writes_ext; [|exact Hw]. intros k Hk.
  apply on_screen_spec in Hon. apply eq_true_iff_eq. rewrite inside_rect, existsb_seqZ. split.
  - intros (row & Hrow & (col & Hcol & Hk'%Z.eqb_eq)%existsb_seqZ). subst k.
    destruct (pixel_index (x + col) (y + row) ltac:(lia)) as [E1 E2].
    rewrite <- Z.add_assoc, E1, E2. lia.
  - intros [Hx Hy]. destruct (index_split k) as [Ek _].
    exists (k / MC_DASH_WIDTH - y). split; [lia|]. apply existsb_seqZ.
    exists (k mod MC_DASH_WIDTH - x). split; [lia|]. apply Z.eqb_eq. lia.
Qed.

Definition border_ops (x y w h color : Z) : list op :=
  [rect x y w 1 color; rect x (y + h - 1) w 1 color;
   rect x (y + 1) 1 (h - 2) color; rect (x + w - 1) (y + 1) 1 (h - 2) color].

Lemma writes_paints2 o1 o2 fb fb' : op_color o1 = op_color o2 ->
  writes (op_color o1) (fun k => inside o1 k || inside o2 k) fb fb' -> paints [o1; o2] fb fb'.
Proof.
  intros Hc [Hl H]. split; [done|]. intros k x Hk. rewrite (H k x Hk). cbn [shade fold_left].
  rewrite <- Hc. by destruct (inside o1 (Z.of_nat k)), (inside o2 (Z.of_nat k)).
Qed.

(** The two pixels one turn of a border loop writes. *)
Lemma put_two fb px1 py1 px2 py2 color :
  big_enough fb ->
  0 <= px1 < MC_DASH_WIDTH -> 0 <= py1 < MC_DASH_HEIGHT ->
  0 <= px2 < MC_DASH_WIDTH -> 0 <= py2 < MC_DASH_HEIGHT ->
  exists fb', (let! fb := put fb (py1 * MC_DASH_WIDTH + px1) color in
               put fb (py2 * MC_DASH_WIDTH + px2) color) = Ret fb' /\
    writes color (fun k => Z.eqb (py1 * MC_DASH_WIDTH + px1) k || Z.eqb (py2 * MC_DASH_WIDTH + px2) k)
      fb fb'.
Proof.
  intros Hb Hx1 Hy1 Hx2 Hy2. unfold put.
  assert (forall px py, 0 <= px < MC_DASH_WIDTH -> 0 <= py < MC_DASH_HEIGHT ->
            0 <= py * MC_DASH_WIDTH + px < MC_DASH_WIDTH * MC_DASH_HEIGHT) as Hrange
    by (unfold MC_DASH_WIDTH, MC_DASH_HEIGHT; lia).
  pose proof (Hrange px1 py1 Hx1 Hy1). pose proof (Hrange px2 py2 Hx2 Hy2).
  rewrite (proj2 (Z.ltb_lt (py1 * MC_DASH_WIDTH + px1) _)) by lia.
  rewrite (proj2 (Z.ltb_lt (py2 * MC_DASH_WIDTH + px2) _)) by lia.
  unfold big_enough in Hb.
  destruct (store_writes color (py1 * MC_DASH_WIDTH + px1) fb) as (fb1 & -> & H1); [lia|]. cbn [obind].
  destruct (store_writes color (py2 * MC_DASH_WIDTH + px2) fb1) as (fb2 & -> & H2);
    [destruct H1 as [-> _]; lia|].
  exists fb2. split; [done|]. by apply (writes_trans color _ _ fb fb1 fb2).
Qed.

(** A pixel of a loop over the columns or over the rows of a rectangle. *)
Lemma exists_col x y w color k : 0 <= x -> x + w <= MC_DASH_WIDTH ->
  (exists col, 0 <= col < w /\ y * MC_DASH_WIDTH + (x + col) = k) <->
  inside (rect x y w 1 color) k = true.
Proof.
  intros Hx Hw. rewrite inside_rect. split.
  - intros (col & Hcol & <-). destruct (pixel_index (x + col) y ltac:(lia)) as [-> ->]. lia.
  - intros [H1 H2]. exists (k mod MC_DASH_WIDTH - x). split; [lia|].
    destruct (index_split k) as [Ek _]. replace y with (k / MC_DASH_WIDTH) by lia. lia.
Qed.

Lemma exists_row x y h color k : 0 <= x < MC_DASH_WIDTH ->
  (exists row, 1 <= row < h - 1 /\ (y + row) * MC_DASH_WIDTH + x = k) <->
  inside (rect x (y + 1) 1 (h - 2) color) k = true.
Proof.
  intros Hx. rewrite inside_rect. split.
  - intros (row & Hrow & <-). destruct (pixel_index x (y + row) Hx) as [-> ->]. lia.
  - intros [H1 H2]. exists (k / MC_DASH_WIDTH - y). split; [lia|].
    destruct (index_split k) as [Ek _]. lia.
Qed.

Lemma existsb_orb_iff (p q : Z -> bool) lo n (P Q : Prop) :
  ((exists i, lo <= i < lo + n /\ p i = true) <-> P) ->
  ((exists i, lo <= i < lo + n /\ q i = true) <-> Q) ->
  existsb (fun i => p i || q i) (seqZ lo n) = true <-> P \/ Q.
Proof.
  intros <- <-. rewrite existsb_seqZ. setoid_rewrite orb_true_iff. firstorder.
Qed.

Lemma draw_border_draws x y w h color :
  on_screen x y w h = true -> 0 < w -> 0 < h ->
  draws (fun fb => draw_border fb x y w h color) (border_ops x y w h color).
Proof.
  intros Hon%on_screen_spec Hw Hh fb Hb. unfold draw_border.
  rewrite (proj2 (Z.leb_gt w 0)), (proj2 (Z.leb_gt h 0)) by lia. cbn [orb]. revert fb Hb.
  apply (draws_bind _ _ [_; _] [_; _]); intros fb Hb.
  - eapply for_range_writes in Hb as (fb' & -> & Hws).
    2: { intros fb1 col Hb1 Hcol. apply put_two; [done|lia..]. }
    exists fb'. split; [done|]. apply writes_paints2; [done|]. eapply writes_ext; [|exact Hws].
    intros k _. apply eq_true_iff_eq. rewrite orb_true_iff. apply existsb_orb_iff;
      setoid_rewrite Z.eqb_eq; rewrite <- exists_col by lia; (split; intros (col & ? & ?); exists col; lia).
  - eapply for_range_writes in Hb as (fb' & -> & Hws).
    2: { intros fb1 row Hb1 Hrow. apply put_two; [done|lia..]. }
    exists fb'. split; [done|]. apply writes_paints2; [done|]. eapply writes_ext; [|exact Hws].
    intros k _. apply eq_true_iff_eq. rewrite orb_true_iff. apply existsb_orb_iff;
      setoid_rewrite Z.eqb_eq; rewrite <- exists_row by lia; (split; intros (row & ? & ?); exists row; lia).
Qed.

(** *** Bars *)

(** The width of the green part: the value's share of the interior, at most all of it. *)
Definition fill_width (inner value max_val : Z) : Z := Z.min inner (inner * value / max_val).

Definition bar_ops (x y w h value max_val bg : Z) : list op :=
  border_ops x y w h MC_DASH_WHITE ++ fill_ops (x + 1) (y + 1) (w - 2) (h - 2) bg ++
  fill_ops (x + 1) (y + 1) (fill_width (w - 2) value max_val) (h - 2) MC_DASH_GREEN.

Lemma draw_bar_draws x y w h value max_val bg :
  on_screen x y w h = true -> 2 < w -> 2 < h -> 0 <= value -> 0 < max_val ->
  draws (fun fb => draw_bar fb x y w h value max_val bg) (bar_ops x y w h value max_val bg).
Proof.
  intros Hon Hw Hh Hv Hm. unfold draw_bar, bar_ops.
  apply draws_bind; [apply draw_border_draws; done || lia|].
  rewrite (proj2 (Z.eqb_neq max_val 0)) by lia.
  rewrite (proj2 (Z.leb_gt (w - 2) 0)), (proj2 (Z.leb_gt (h - 2) 0)) by lia. cbn [orb].
  rewrite Z.quot_div_nonneg by nia.
  replace (if w - 2 <? (w - 2) * value / max_val then w - 2 else (w - 2) * value / max_val)
    with (fill_width (w - 2) value max_val)
    by (unfold fill_width; destruct (Z.ltb_spec (w - 2) ((w - 2) * value / max_val)); lia).
  apply draws_bind; apply fill_rect_draws.
Qed.

(** *** Digits *)

(** The segments of a digit on a seven-segment display. *)
Definition digit_segments (d : Z) : list seg_t :=
  if d =? 0 then [SEG_A; SEG_B; SEG_C; SEG_D; SEG_E; SEG_F]
  else if d =? 1 then [SEG_B; SEG_C]
  else if d =? 2 then [SEG_A; SEG_B; SEG_D; SEG_E; SEG_G]
  else if d =? 3 then [SEG_A; SEG_B; SEG_C; SEG_D; SEG_G]
  else if d =? 4 then [SEG_B; SEG_C; SEG_F; SEG_G]
  else if d =? 5 then [SEG_A; SEG_C; SEG_D; SEG_F; SEG_G]
  else if d =? 6 then [SEG_A; SEG_C; SEG_D; SEG_E; SEG_F; SEG_G]
  else if d =? 7 then [SEG_A; SEG_B; SEG_C]
  else if d =? 8 then [SEG_A; SEG_B; SEG_C; SEG_D; SEG_E; SEG_F; SEG_G]
  else [SEG_A; SEG_B; SEG_C; SEG_D; SEG_F; SEG_G].

Definition seg_ops (x y color : Z) (s : seg_t) : list op :=
  fill_ops (x + seg_x s) (y + seg_y s) (seg_w s) (seg_h s) color.

Definition digit_ops (x y d color : Z) : list op := flat_map (seg_ops x y color) (digit_segments d).

Lemma draw_if_draws mask bit x y s color :
  draws (fun fb => draw_if mask bit fb x y s color)
    (flat_map (seg_ops x y color) (if truthy (Z.land mask bit) then [s] else [])).
Proof.
  unfold draw_if. destruct (truthy (Z.land mask bit)); [|apply draws_ret].
  cbn [flat_map]. rewrite app_nil_r. apply fill_rect_draws.
Qed.

(** The segments a mask selects, in the order they are drawn. *)
Definition mask_segments (mask : Z) : list seg_t :=
  flat_map (fun '(bit, s) => if truthy (Z.land mask bit) then [s] else [])
    [(0x40, SEG_A); (0x20, SEG_B); (0x10, SEG_C); (0x08, SEG_D); (0x04, SEG_E); (0x02, SEG_F);
     (0x01, SEG_G)].

Lemma draw_digit_draws x y d color :
  0 <= d <= 9 -> draws (fun fb => draw_digit fb x y d color) (digit_ops x y d color).
Proof.
  intros Hd. unfold draw_digit, digit_ops. rewrite (proj2 (Z.ltb_ge 9 d)) by lia.
  assert (exists mask, load DIGIT_SEGS d = Ret mask /\ digit_segments d = mask_segments mask)
    as (mask & -> & ->).
  { assert (d ∈ seqZ 0 10) as Hin by (apply elem_of_seqZ; lia).
    apply list_elem_of_In in Hin. cbn in Hin.
    repeat (destruct Hin as [<-|Hin]; [eexists; split; reflexivity|]). done. }
  cbn [obind]. unfold mask_segments. cbn [flat_map]. rewrite !flat_map_app, app_nil_r.
  repeat (apply draws_bind; [apply draw_if_draws|]). apply draw_if_draws.
Qed.

(** *** Numbers *)

(** The decimal digits of a number, the least significant first, and as they are read. *)
Fixpoint low_digits (room : nat) (v : Z) : list Z :=
  match room with
  | O => []
  | S room => if 0 <? v then v mod 10 :: low_digits room (v / 10) else []
  end.

Definition decimal (v : Z) : list Z := if v =? 0 then [0] else rev (low_digits 7 v).

Definition value_of_digits (ds : list Z) : Z := fold_left (fun v d => 10 * v + d) ds 0.

Lemma low_digits_value room v :
  0 <= v < 10 ^ Z.of_nat room ->
  fold_right (fun d v => 10 * v + d) 0 (low_digits room v) = v /\
  Forall (fun d => 0 <= d <= 9) (low_digits room v) /\ (length (low_digits room v) <= room)%nat /\
  (0 < v -> low_digits room v <> []).
Proof.
  revert v. induction room as [|room IH]; intros v Hv; cbn [low_digits].
  { cbn in *. split_and!; [lia|by constructor|lia|lia]. }
  destruct (Z.ltb_spec 0 v) as [Hp|Hz]; [|cbn; split_and!; [lia|by constructor|lia|lia]].
  destruct (IH (v / 10)) as (Hval & Hf & Hl & _).
  { rewrite Nat2Z.inj_succ, Z.pow_succ_r in Hv by lia. split; [apply Z.div_pos; lia|].
    apply Z.div_lt_upper_bound; lia. }
  cbn [fold_right length]. rewrite Hval. pose proof (Z.mod_pos_bound v 10 ltac:(lia)).
  split_and!; [pose proof (Z.div_mod v 10); lia|by constructor; [lia|]|lia|done].
Qed.

(** [decimal] writes the number it is given. *)
Lemma decimal_correct v : 0 <= v < 10 ^ 7 ->
  value_of_digits (decimal v) = v /\ Forall (fun d => 0 <= d <= 9) (decimal v) /\
  (1 <= length (decimal v) <= 7)%nat.
Proof.
  intros Hv. unfold decimal, value_of_digits. destruct (Z.eqb_spec v 0) as [->|Hne].
  - cbn. split_and!; [done|by repeat constructor|lia|lia].
  - destruct (low_digits_value 7 v Hv) as (Hval & Hf & Hl & Hn).
    split_and!.
    + rewrite <- fold_left_rev_right, rev_involutive. exact Hval.
    + by apply Forall_rev.
    + rewrite length_rev. specialize (Hn ltac:(lia)). destruct (low_digits 7 v); [done|cbn; lia].
    + rewrite length_rev. lia.
Qed.

(** The array after the conversion loop: the characters of the digits, then what was there. *)
Lemma digit_loop_eq room v pre free :
  0 <= v -> (room <= length free)%nat ->
  digit_loop room v (Z.of_nat (length pre)) (pre ++ free) =
  Ret (pre ++ map (Z.add 48) (low_digits room v) ++ drop (length (low_digits room v)) free,
       Z.of_nat (length pre) + Z.of_nat (length (low_digits room v))).
Proof.
  revert v pre free. induction room as [|room IH]; intros v pre free Hv Hl;
    cbn [digit_loop low_digits map length app drop]; [by rewrite Z.add_0_r|].
  destruct (Z.ltb_spec 0 v) as [Hp|Hz]; cbn [map length app drop]; [|by rewrite Z.add_0_r].
  destruct free as [|x free]; cbn [length] in Hl; [lia|]. rewrite store_middle. cbn [obind].
  rewrite Z.rem_mod_nonneg, Z.quot_div_nonneg by lia.
  replace (Z.of_nat (length pre) + 1) with (Z.of_nat (length (pre ++ [48 + v mod 10])))
    by (rewrite length_app; cbn; lia).
  pose proof (IH (v / 10) (pre ++ [48 + v mod 10]) free ltac:(apply Z.div_pos; lia) ltac:(lia)) as E.
  rewrite <- !app_assoc in E. cbn [app] in E. rewrite E, length_app. cbn [length drop].
  do 2 f_equal. lia.
Qed.

(** The loop that swaps the ends reverses the filled part. *)
Lemma reverse_loop (l : list Z) :
  (length l <= 7)%nat ->
  for_range 0 (Z.quot (Z.of_nat (length l)) 2) (swap_body (Z.of_nat (length l)))
    (l ++ drop (length l) (replicate 8 0)) = Ret (rev l ++ drop (length l) (replicate 8 0)).
Proof.
  intros Hl.
  destruct l as [|a [|b [|c [|d [|e [|f [|g [|h l]]]]]]]]; [reflexivity..|cbn in Hl; lia].
Qed.

Lemma digit_string_eq v :
  0 <= v < 10 ^ 7 ->
  digit_string v =
  Ret (map (Z.add 48) (decimal v) ++ drop (length (decimal v)) (replicate 8 0),
       Z.of_nat (length (decimal v))).
Proof.
  intros Hv. unfold digit_string, decimal. destruct (Z.eqb_spec v 0) as [->|Hne]; [reflexivity|].
  pose proof (digit_loop_eq 7 v [] (replicate 8 0) ltac:(lia) ltac:(cbn; lia)) as E.
  cbn [app] in E. change (Z.of_nat (length [])) with 0 in E. rewrite E. cbn [obind].
  destruct (low_digits_value 7 v Hv) as (_ & _ & Hl & _).
  pose proof (reverse_loop (map (Z.add 48) (low_digits 7 v)) ltac:(by rewrite length_map)) as R.
  rewrite length_map in R. rewrite Z.add_0_l, R. cbn [obind].
  by rewrite map_rev, length_rev.
Qed.

Definition number_ops (rx ry rw rh value color bg : Z) : list op :=
  let ds := decimal value in
  let start_x := rx + rw - Z.of_nat (length ds) * DIGIT_W in
  let start_y := ry + Z.quot (rh - DIGIT_H) 2 in
  fill_ops rx ry rw rh bg ++
  flat_map (fun i => digit_ops (start_x + i * DIGIT_W) start_y (ds !!! Z.to_nat i) color)
    (seqZ 0 (Z.of_nat (length ds))).

Lemma for_range_draws lo hi body (ops : Z -> list op) :
  (forall i, lo <= i < hi -> draws (fun fb => body fb i) (ops i)) ->
  draws (fun fb => for_range lo hi body fb) (flat_map ops (seqZ lo (hi - lo))).
Proof.
  intros Hbody. unfold for_range.
  assert (forall i, i ∈ seqZ lo (hi - lo) -> lo <= i < hi) as Hin
    by (intros i Hi; apply elem_of_seqZ in Hi; lia).
  induction (seqZ lo (hi - lo)) as [|i l IH]; cbn [ofold flat_map]; [apply draws_ret|].
  apply (draws_bind (fun fb => body fb i)); [apply Hbody, Hin; by left|].
  apply IH. intros j Hj. apply Hin. by right.
Qed.

Lemma draw_number_draws rx ry rw rh value color bg :
  0 <= value < 10 ^ 7 ->
  draws (fun fb => draw_number fb rx ry rw rh value color bg)
    (number_ops rx ry rw rh value color bg).
Proof.
  intros Hv. unfold draw_number, number_ops. rewrite (digit_string_eq value Hv). cbn [obind].
  destruct (decimal_correct value Hv) as (_ & Hd & _).
  apply draws_bind; [apply fill_rect_draws|].
  rewrite <- (Z.sub_0_r (Z.of_nat (length (decimal value)))) at 2. apply for_range_draws.
  intros i Hi. assert (Z.to_nat i < length (decimal value))%nat as Hlt by lia.
  destruct (lookup_lt_is_Some_2 _ _ Hlt) as [d Hd']. rewrite (list_lookup_total_correct _ _ _ Hd').
  pose proof (proj1 (Forall_lookup _ _) Hd _ _ Hd') as Hrange. cbn beta in Hrange.
  unfold load. rewrite (proj2 (Z.leb_le 0 i)) by lia.
  rewrite lookup_app_l by (by rewrite length_map). rewrite list_lookup_fmap, Hd'. cbn [fmap option_fmap option_map obind].
  replace (48 + d - 48) with d by lia. rewrite cast_id by int_lia. by apply draw_digit_draws.
Qed.

Definition minus_ops (rx ry rw rh color bg : Z) : list op :=
  fill_ops (rx + 2) (ry + Z.quot (rh - STROKE) 2) 18 STROKE color ++
  (if rx + 2 + 18 <? rx + rw then fill_ops (rx + 2 + 18) ry (rx + rw - (rx + 2) - 18) rh bg else []).

Lemma draw_minus_draws rx ry rw rh color bg :
  draws (fun fb => draw_minus fb rx ry rw rh color bg) (minus_ops rx ry rw rh color bg).
Proof.
  unfold draw_minus, minus_ops. apply draws_bind; [apply fill_rect_draws|].
  destruct (rx + 2 + 18 <? rx + rw); [apply fill_rect_draws|apply draws_ret].
Qed.

(** ** The picture of a state *)

Section Render.
Import mc_dash.

(** The ranges of the C types. *)
Record state_ok (ds : mc_dash_state_t) : Prop := {
  mode_u8 : fits U8 (mode ds);
  speed_u8 : fits U8 (speed_kmh ds);
  torque_i8 : fits I8 (torque_percent ds);
  soc_u8 : fits U8 (soc_percent ds);
  current_u8 : fits U8 (current_a_x2 ds);
  ota_u8 : fits U8 (ota_progress ds);
}.

Definition status_ops (color : Z) : list op :=
  border_ops 0 0 320 40 MC_DASH_WHITE ++ fill_ops 1 1 318 38 color.

Definition speed_ops (ds : mc_dash_state_t) : list op :=
  number_ops 20 70 120 80 (speed_kmh ds) MC_DASH_WHITE (bg_color ds).

Definition torque_ops (ds : mc_dash_state_t) : list op :=
  let bg := bg_color ds in
  if torque_percent ds <? 0 then
    minus_ops 180 70 120 80 MC_DASH_WHITE bg ++
    number_ops 200 70 100 80 (- torque_percent ds) MC_DASH_WHITE bg
  else fill_ops 180 70 120 80 bg ++ number_ops 180 70 120 80 (torque_percent ds) MC_DASH_WHITE bg.

(** The screen of each mode; the second page shows what the modes leave in common. *)
Definition screen (ds : mc_dash_state_t) : list op :=
  let bg := bg_color ds in
  let first_page ops := if page ds =? 0 then ops else [] in
  if mode ds =? MC_DASH_MODE_UNSET then
    fill_ops 0 0 320 240 MC_DASH_BLACK ++ fill_ops 40 108 240 24 MC_DASH_WHITE
  else if (mode ds =? VEHICLE_OFF) || (mode ds =? VEHICLE_READY) then
    status_ops MC_DASH_GREEN ++ first_page (speed_ops ds)
  else if mode ds =? VEHICLE_DRIVE then
    status_ops MC_DASH_GREEN ++ first_page (speed_ops ds ++ torque_ops ds)
  else if mode ds =? VEHICLE_LIMP then
    status_ops MC_DASH_AMBER ++ first_page (speed_ops ds ++ torque_ops ds)
  else if mode ds =? VEHICLE_FAULT then
    border_ops 0 170 320 70 MC_DASH_WHITE ++ fill_ops 1 171 318 68 MC_DASH_RED
  else if mode ds =? VEHICLE_CHARGING then
    first_page (bar_ops 20 90 280 24 (soc_percent ds) 100 bg ++
                bar_ops 20 140 280 24 (current_a_x2 ds) 100 bg)
  else if mode ds =? VEHICLE_OTA_UPDATE then bar_ops 20 110 280 24 (ota_progress ds) 100 bg
  else [].

(** A change of mode repaints the background first. *)
Definition clear_ops (ds : mc_dash_state_t) : list op :=
  if negb (mode ds =? prev_mode ds) then fill_ops 0 0 320 240 (bg_color ds) else [].

Lemma status_draws color :
  draws (fun fb => let! fb := draw_border fb 0 0 320 40 MC_DASH_WHITE in fill_rect fb 1 1 318 38 color)
    (status_ops color).
Proof. apply draws_bind; [apply draw_border_draws; reflexivity || lia|apply fill_rect_draws]. Qed.

Lemma speed_draws ds bg : state_ok ds -> bg = bg_color ds ->
  draws (fun fb => draw_number fb 20 70 120 80 (speed_kmh ds) MC_DASH_WHITE bg) (speed_ops ds).
Proof. intros [] ->. apply draw_number_draws. int_lia. Qed.

Lemma torque_draws ds : state_ok ds ->
  draws (fun fb =>
    if torque_percent ds <? 0 then
      let! fb := draw_minus fb 180 70 120 80 MC_DASH_WHITE (bg_color ds) in
      draw_number fb 200 70 100 80 (- torque_percent ds) MC_DASH_WHITE (bg_color ds)
    else
      let! fb := fill_rect fb 180 70 120 80 (bg_color ds) in
      draw_number fb 180 70 120 80 (torque_percent ds) MC_DASH_WHITE (bg_color ds)) (torque_ops ds).
Proof.
  intros []. unfold torque_ops. destruct (Z.ltb_spec (torque_percent ds) 0); apply draws_bind.
  - apply draw_minus_draws.
  - apply draw_number_draws. int_lia.
  - apply fill_rect_draws.
  - apply draw_number_draws. int_lia.
Qed.

Lemma draws_assoc (m k h : list Z -> outcome (list Z)) ops :
  draws (fun fb => let! fb := (let! fb := m fb in k fb) in h fb) ops ->
  draws (fun fb => let! fb := m fb in let! fb := k fb in h fb) ops.
Proof. intros H fb Hb. destruct (H fb Hb) as (fb' & E & P). rewrite obind_assoc in E. eauto. Qed.

Lemma draw_drive_draws ds color : state_ok ds ->
  draws (fun fb => draw_drive ds fb color (bg_color ds))
    (status_ops color ++ if page ds =? 0 then speed_ops ds ++ torque_ops ds else []).
Proof.
  intros Hok. unfold draw_drive. apply draws_assoc.
  apply draws_bind; [apply status_draws|]. destruct (page ds =? 0); [|apply draws_ret].
  apply draws_bind; [by apply speed_draws|by apply torque_draws].
Qed.

(** The part of the renderer after the clearing. *)
Definition draw_screen (ds : mc_dash_state_t) (fb : list Z) (bg : Z) : outcome (list Z) :=
  if mode ds =? MC_DASH_MODE_UNSET then
    let! fb := fill_rect fb 0 0 MC_DASH_WIDTH MC_DASH_HEIGHT MC_DASH_BLACK in
    fill_rect fb 40 108 240 24 MC_DASH_WHITE
  else if (mode ds =? VEHICLE_OFF) || (mode ds =? VEHICLE_READY) then
    let! fb := draw_border fb 0 0 320 40 MC_DASH_WHITE in
    let! fb := fill_rect fb 1 1 318 38 MC_DASH_GREEN in
    if page ds =? 0 then draw_number fb 20 70 120 80 (speed_kmh ds) MC_DASH_WHITE bg else Ret fb
  else if mode ds =? VEHICLE_DRIVE then draw_drive ds fb MC_DASH_GREEN bg
  else if mode ds =? VEHICLE_LIMP then draw_drive ds fb MC_DASH_AMBER bg
  else if mode ds =? VEHICLE_FAULT then
    let! fb := draw_border fb 0 170 320 70 MC_DASH_WHITE in
    fill_rect fb 1 171 318 68 MC_DASH_RED
  else if mode ds =? VEHICLE_CHARGING then
    if page ds =? 0 then
      let! fb := draw_bar fb 20 90 280 24 (soc_percent ds) 100 bg in
      draw_bar fb 20 140 280 24 (current_a_x2 ds) 100 bg
    else Ret fb
  else if mode ds =? VEHICLE_OTA_UPDATE then draw_bar fb 20 110 280 24 (ota_progress ds) 100 bg
  else Ret fb.

Lemma draw_screen_draws ds : state_ok ds -> draws (fun fb => draw_screen ds fb (bg_color ds)) (screen ds).
Proof.
  intros Hok. pose proof Hok as []. unfold draw_screen, screen.
  destruct (mode ds =? MC_DASH_MODE_UNSET); [apply draws_bind; apply fill_rect_draws|].
  destruct ((mode ds =? VEHICLE_OFF) || (mode ds =? VEHICLE_READY)).
  { apply draws_assoc, draws_bind; [apply status_draws|].
    destruct (page ds =? 0); [by apply speed_draws|apply draws_ret]. }
  destruct (mode ds =? VEHICLE_DRIVE); [by apply draw_drive_draws|].
  destruct (mode ds =? VEHICLE_LIMP); [by apply draw_drive_draws|].
  destruct (mode ds =? VEHICLE_FAULT).
  { apply draws_bind; [apply draw_border_draws; reflexivity || lia|apply fill_rect_draws]. }
  destruct (mode ds =? VEHICLE_CHARGING).
  { destruct (page ds =? 0); [|apply draws_ret].
    apply draws_bind; apply draw_bar_draws; reflexivity || int_lia. }
  destruct (mode ds =? VEHICLE_OTA_UPDATE); [|apply draws_ret].
  apply draw_bar_draws; reflexivity || int_lia.
Qed.

Lemma render_eq ds fb :
  mc_dash_render ds fb =
  let! fb := (if negb (mode ds =? prev_mode ds)
              then fill_rect fb 0 0 MC_DASH_WIDTH MC_DASH_HEIGHT (bg_color ds) else Ret fb) in
  let! fb := draw_screen ds fb (bg_color ds) in
  Ret (if negb (mode ds =? prev_mode ds) then shown ds else ds, fb).
Proof.
  unfold mc_dash_render, draw_screen, shown. destruct (negb (mode ds =? prev_mode ds)).
  - destruct (fill_rect _ _ _ _ _ _) as [fb1|]; [|done]. cbn [obind mode].
    destruct (mode ds =? MC_DASH_MODE_UNSET); [by rewrite obind_assoc|done].
  - cbn [obind]. destruct (mode ds =? MC_DASH_MODE_UNSET); [by rewrite obind_assoc|done].
Qed.

(** A picture either covers an index, whatever was there, or leaves it. *)
Lemma shade_covers ops i :
  (forall c, shade ops i c = c) \/ exists k, forall c, shade ops i c = k.
Proof.
  induction ops as [|o ops IH] using rev_ind; [by left|].
  destruct (inside o i) eqn:Hin.
  - right. exists (op_color o). intros c. rewrite shade_app. cbn [shade fold_left]. by rewrite Hin.
  - destruct IH as [IH|[k IH]]; [left|right; exists k]; intros c; rewrite shade_app;
      cbn [shade fold_left]; by rewrite Hin, IH.
Qed.

Lemma shade_idem ops i c : shade ops i (shade ops i c) = shade ops i c.
Proof. destruct (shade_covers ops i) as [H|[k H]]; by rewrite !H. Qed.

(** Painting again what was painted last changes nothing. *)
Lemma paints_again ops0 ops fb fb1 fb2 :
  paints (ops0 ++ ops) fb fb1 -> paints ops fb1 fb2 -> fb2 = fb1.
Proof.
  intros [Hl1 H1] [Hl2 H2]. apply list_eq_same_length with (length fb1); [done|done|].
  intros k x y Hk Hx Hy. destruct (lookup_lt_is_Some_2 fb k) as [c Hc]; [lia|].
  pose proof (H1 _ _ Hc) as E1. rewrite E1 in Hy. injection Hy as <-.
  pose proof (H2 _ _ E1) as E2. rewrite E2 in Hx. injection Hx as <-.
  by rewrite shade_app, shade_idem.
Qed.

(** Rectangles on the screen do not reach beyond it. *)
Definition visible (o : op) : Prop := op_y o + op_h o <= MC_DASH_HEIGHT.

Lemma fill_visible x y w h c : Forall visible (fill_ops x y w h c).
Proof.
  unfold fill_ops. destruct (on_screen x y w h) eqn:Ho; [|by constructor].
  apply on_screen_spec in Ho. constructor; [|by constructor]. unfold visible. cbn. lia.
Qed.

Lemma border_visible x y w h c :
  y + h <= MC_DASH_HEIGHT -> 0 < h -> Forall visible (border_ops x y w h c).
Proof. intros Hy Hh. unfold border_ops. repeat constructor; unfold visible; cbn; lia. Qed.

Lemma bar_visible x y w h v m bg :
  y + h <= MC_DASH_HEIGHT -> 0 < h -> Forall visible (bar_ops x y w h v m bg).
Proof. intros. unfold bar_ops. rewrite !Forall_app. auto using fill_visible, border_visible. Qed.

Lemma flat_map_visible {A : Type} (f : A -> list op) l :
  (forall a, Forall visible (f a)) -> Forall visible (flat_map f l).
Proof. intros Hf. induction l as [|a l IH]; [by constructor|]. cbn. by rewrite Forall_app. Qed.

Lemma number_visible rx ry rw rh v c bg : Forall visible (number_ops rx ry rw rh v c bg).
Proof.
  unfold number_ops. rewrite Forall_app. split; [apply fill_visible|].
  apply flat_map_visible. intros i. apply flat_map_visible. intros s. apply fill_visible.
Qed.

Lemma minus_visible rx ry rw rh c bg : Forall visible (minus_ops rx ry rw rh c bg).
Proof.
  unfold minus_ops. rewrite Forall_app. split; [apply fill_visible|].
  destruct (_ <? _); [apply fill_visible|by constructor].
Qed.

Lemma screen_visible ds : Forall visible (clear_ops ds ++ screen ds).
Proof.
  assert (forall c, Forall visible (status_ops c)) as Hstatus.
  { intros c. apply Forall_app. split; [by apply border_visible|apply fill_visible]. }
  assert (Forall visible (torque_ops ds)) as Htorque.
  { unfold torque_ops. destruct (_ <? _); apply Forall_app;
      auto using fill_visible, number_visible, minus_visible. }
  unfold clear_ops, screen, speed_ops. apply Forall_app. split.
  { destruct (negb _); [apply fill_visible|by constructor]. }
  repeat (destruct (_ =? _) || destruct (_ || _)); rewrite ?Forall_app; split_and?;
    auto using fill_visible, number_visible, Forall_nil_2;
    by apply bar_visible || by apply border_visible.
Qed.

(** *** The colours of a picture *)

Definition is_pixel (o : op) : Prop := fits U16 (op_color o).

Lemma fill_pixels x y w h c : fits U16 c -> Forall is_pixel (fill_ops x y w h c).
Proof. intros Hc. unfold fill_ops. destruct (on_screen x y w h); [by apply Forall_singleton|by apply Forall_nil_2]. Qed.

Lemma border_pixels x y w h c : fits U16 c -> Forall is_pixel (border_ops x y w h c).
Proof. intros Hc. unfold border_ops. by repeat (apply Forall_cons_2; [done|]). Qed.

Lemma palette_fits :
  fits U16 MC_DASH_BLACK /\ fits U16 MC_DASH_WHITE /\ fits U16 MC_DASH_GREEN /\ fits U16 MC_DASH_RED /\
  fits U16 MC_DASH_AMBER.
Proof. split_and!; by vm_compute. Qed.

Lemma background_fits m : fits U16 (background m).
Proof. unfold background. repeat destruct (m =? _); by vm_compute. Qed.

Lemma bar_pixels x y w h v m bg : fits U16 bg -> Forall is_pixel (bar_ops x y w h v m bg).
Proof.
  destruct palette_fits as (_ & Hw & Hg & _). intros Hb. unfold bar_ops. rewrite !Forall_app.
  auto using fill_pixels, border_pixels.
Qed.

Lemma number_pixels rx ry rw rh v c bg :
  fits U16 c -> fits U16 bg -> Forall is_pixel (number_ops rx ry rw rh v c bg).
Proof.
  intros Hc Hb. unfold number_ops. rewrite Forall_app. split; [by apply fill_pixels|].
  generalize (seqZ 0 (Z.of_nat (length (decimal v)))) as l. induction l as [|i l IH]; [by constructor|].
  cbn [flat_map]. rewrite Forall_app. split; [|exact IH]. unfold digit_ops. clear IH.
  induction (digit_segments _) as [|sg sgs IH]; [by constructor|]. cbn [flat_map].
  rewrite Forall_app. split; [by apply fill_pixels|exact IH].
Qed.

Lemma minus_pixels rx ry rw rh c bg :
  fits U16 c -> fits U16 bg -> Forall is_pixel (minus_ops rx ry rw rh c bg).
Proof.
  intros Hc Hb. unfold minus_ops. rewrite Forall_app. split; [by apply fill_pixels|].
  destruct (_ <? _); [by apply fill_pixels|by constructor].
Qed.

Lemma screen_pixels ds : fits U16 (bg_color ds) -> Forall is_pixel (clear_ops ds ++ screen ds).
Proof.
  destruct palette_fits as (Hk & Hw & Hg & Hr & Ha). intros Hb.
  assert (forall c, fits U16 c -> Forall is_pixel (status_ops c)) as Hstatus
    by (intros c Hc; apply Forall_app; auto using fill_pixels, border_pixels).
  assert (Forall is_pixel (torque_ops ds)) as Htorque.
  { unfold torque_ops. destruct (_ <? _); apply Forall_app;
      auto using fill_pixels, number_pixels, minus_pixels. }
  unfold clear_ops, screen, speed_ops. apply Forall_app. split.
  { destruct (negb _); [by apply fill_pixels|by constructor]. }
  repeat (destruct (_ =? _) || destruct (_ || _)); rewrite ?Forall_app; split_and?;
    auto using fill_pixels, border_pixels, bar_pixels, number_pixels, Forall_nil_2.
Qed.

Lemma shade_fits ops i c : Forall is_pixel ops -> fits U16 c -> fits U16 (shade ops i c).
Proof.
  intros Ho. revert c. induction Ho as [|o ops Ho Hops IH]; intros c Hc; [done|].
  change (fits U16 (shade ops i (if inside o i then op_color o else c))).
  apply IH. by destruct (inside o i).
Qed.

(** The framebuffer stays an array of [uint16_t]. *)
Lemma paints_fits ops fb fb' :
  Forall is_pixel ops -> paints ops fb fb' -> Forall (fits U16) fb -> Forall (fits U16) fb'.
Proof.
  intros Ho [Hl Hp] Hf. apply Forall_lookup. intros k c' Hk.
  destruct (lookup_lt_is_Some_2 fb k) as [c Hc]; [rewrite <- Hl; by eapply lookup_lt_Some|].
  rewrite (Hp k c Hc) in Hk. injection Hk as <-. apply shade_fits; [done|].
  by apply (proj1 (Forall_lookup _ _) Hf k).
Qed.

Lemma shade_beyond ops i c :
  Forall visible ops -> MC_DASH_WIDTH * MC_DASH_HEIGHT <= i -> shade ops i c = c.
Proof.
  intros Hv Hi. revert c. induction Hv as [|o ops Ho Hv IH]; intros c; [done|].
  change (shade ops i (if inside o i then op_color o else c) = c). rewrite IH.
  destruct (inside o i) eqn:Hin; [|done]. unfold inside in Hin.
  rewrite !andb_true_iff, !Z.ltb_lt in Hin. unfold visible in Ho.
  assert (MC_DASH_HEIGHT <= i / MC_DASH_WIDTH); [|lia].
  unfold MC_DASH_WIDTH, MC_DASH_HEIGHT in *. apply Z.div_le_lower_bound; lia.
Qed.

Lemma render_draws ds fb : state_ok ds -> big_enough fb ->
  exists fb', mc_dash_render ds fb = Ret (shown ds, fb') /\ paints (clear_ops ds ++ screen ds) fb fb'.
Proof.
  intros Hok Hb. rewrite render_eq.
  assert ((if negb (mode ds =? prev_mode ds) then shown ds else ds) = shown ds) as ->.
  { destruct (Z.eqb_spec (mode ds) (prev_mode ds)) as [E|]; [|done]. unfold shown.
    rewrite cast_id by apply Hok. destruct ds. cbn in E. by subst. }
  assert (draws (fun fb => if negb (mode ds =? prev_mode ds)
                           then fill_rect fb 0 0 MC_DASH_WIDTH MC_DASH_HEIGHT (bg_color ds) else Ret fb)
            (clear_ops ds)) as Hc
    by (apply draws_if; [apply fill_rect_draws|apply draws_ret]).
  destruct (draws_bind _ _ _ _ Hc (draw_screen_draws ds Hok) fb Hb) as (fb' & E & Hp).
  exists fb'. split; [|done]. rewrite <- obind_assoc. by rewrite E.
Qed.

Lemma screen_shown ds : screen (shown ds) = screen ds.
Proof. done. Qed.

Lemma shown_ok ds : state_ok ds -> state_ok (shown ds).
Proof. intros []. by split. Qed.

Lemma clear_shown ds : state_ok ds -> clear_ops (shown ds) = [].
Proof. intros []. unfold clear_ops, shown. cbn [mode prev_mode]. by rewrite cast_id, Z.eqb_refl. Qed.

Lemma inside_whole i c : 0 <= i < MC_DASH_WIDTH * MC_DASH_HEIGHT -> inside (rect 0 0 320 240 c) i = true.
Proof.
  intros Hi. rewrite inside_rect. destruct (index_split i) as [_ Hm].
  assert (0 <= i / MC_DASH_WIDTH < MC_DASH_HEIGHT); [|unfold MC_DASH_WIDTH, MC_DASH_HEIGHT in *; lia].
  unfold MC_DASH_WIDTH, MC_DASH_HEIGHT in *. split; [apply Z.div_pos; lia|].
  apply Z.div_lt_upper_bound; lia.
Qed.

(** C29: The renderer against the picture of its state.  For a state within the C types and a
    framebuffer of at least 320 by 240 pixels the renderer never writes outside the
    framebuffer, and every pixel ends in the colour of the last rectangle of the picture
    over it or keeps its own; pixels beyond the screen are untouched.  After a change of
    mode the screen is a function of the state alone, and rendering the same state again
    changes nothing. *)
Theorem render_refines ds fb :
  state_ok ds -> big_enough fb ->
  exists fb', mc_dash_render ds fb = Ret (shown ds, fb') /\
    paints (clear_ops ds ++ screen ds) fb fb' /\
    (forall k c, MC_DASH_WIDTH * MC_DASH_HEIGHT <= Z.of_nat k -> fb !! k = Some c -> fb' !! k = Some c) /\
    (mode ds <> prev_mode ds -> forall k, Z.of_nat k < MC_DASH_WIDTH * MC_DASH_HEIGHT ->
       fb' !! k = Some (shade (screen ds) (Z.of_nat k) (bg_color ds))) /\
    mc_dash_render (shown ds) fb' = Ret (shown ds, fb').
Proof.
  intros Hok Hb. destruct (render_draws ds fb Hok Hb) as (fb' & Hr & Hp).
  exists fb'. split_and!; [done|done| | |].
  - intros k c Hk Hc. destruct Hp as [_ Hp]. rewrite (Hp k c Hc).
    by rewrite shade_beyond by (done || apply screen_visible).
  - intros Hne k Hk. destruct (lookup_lt_is_Some_2 fb k) as [c Hc]; [unfold big_enough in Hb; lia|].
    destruct Hp as [_ Hp]. rewrite (Hp k c Hc), shade_app. do 2 f_equal. unfold clear_ops.
    rewrite (proj2 (Z.eqb_neq _ _) Hne). cbn [negb fill_ops].
    change (fill_ops 0 0 320 240 (bg_color ds)) with [rect 0 0 320 240 (bg_color ds)].
    cbn [shade fold_left]. by rewrite inside_whole by lia.
  - destruct (render_draws (shown ds) fb' (shown_ok _ Hok) (paints_big _ _ _ Hp Hb)) as (fb2 & -> & Hp2).
    rewrite clear_shown, screen_shown in Hp2 by done. cbn [app] in Hp2. do 2 f_equal.
    by eapply paints_again.
Qed.

(** Charging at 50 percent: the bar is green at column 30 of line 100 and not at column 200. *)
Lemma render_refines_witness :
  let ds := {| mode := VEHICLE_CHARGING; prev_mode := VEHICLE_READY; page := 0; bg_color := 0x4010;
               speed_kmh := 0; torque_percent := 0; soc_percent := 50; current_a_x2 := 20;
               ota_progress := 0 |} in
  state_ok ds /\
  exists fb', mc_dash_render ds (replicate (Z.to_nat (320 * 240)) 0) = Ret (shown ds, fb') /\
    fb' !! Z.to_nat (100 * 320 + 30) = Some MC_DASH_GREEN /\
    fb' !! Z.to_nat (100 * 320 + 200) = Some 0x4010.
Proof.
  intros ds. assert (state_ok ds) as Hok by (split; split; vm_compute; discriminate).
  split; [exact Hok|].
  destruct (render_refines ds (replicate (Z.to_nat (320 * 240)) 0) Hok) as (fb' & Hr & _ & _ & Hk & _).
  - unfold big_enough. rewrite length_replicate. vm_compute. discriminate.
  - exists fb'. split; [exact Hr|].
    split; (rewrite Hk; [rewrite Z2Nat.id by (vm_compute; discriminate); vm_compute; reflexivity
                        |vm_compute; discriminate|rewrite Z2Nat.id by (vm_compute; discriminate); vm_compute; reflexivity]).
Defined.

(** *** What a bar shows *)

Lemma shade_cons o ops i c : shade (o :: ops) i c = shade ops i (if inside o i then op_color o else c).
Proof. done. Qed.

Lemma inside_rect_pixel x y w h color px py : 0 <= px < MC_DASH_WIDTH ->
  inside (rect x y w h color) (py * MC_DASH_WIDTH + px) =
  bool_decide (x <= px < x + w /\ y <= py < y + h).
Proof.
  intros Hpx. apply eq_true_iff_eq. rewrite inside_rect, bool_decide_eq_true.
  by destruct (pixel_index px py Hpx) as [-> ->].
Qed.

(** Inside the border a bar shows the value, outside the bar nothing changes. *)
Lemma shade_bar x y w h value max_val bg px py c :
  on_screen x y w h = true -> 2 < w -> 2 < h -> 0 <= value -> 0 < max_val ->
  x + 1 <= px < x + w - 1 -> y + 1 <= py < y + h - 1 ->
  shade (bar_ops x y w h value max_val bg) (py * MC_DASH_WIDTH + px) c =
  if px - (x + 1) <? (w - 2) * value / max_val then MC_DASH_GREEN else bg.
Proof.
  intros Hon%on_screen_spec Hw Hh Hv Hm Hx Hy. unfold bar_ops, border_ops.
  assert (0 <= fill_width (w - 2) value max_val <= w - 2) as Hfw.
  { unfold fill_width. assert (0 <= (w - 2) * value / max_val) by (apply Z.div_pos; nia). lia. }
  unfold fill_ops. rewrite !(proj2 (on_screen_spec _ _ _ _)) by lia.
  cbn [app]. rewrite !shade_cons, !inside_rect_pixel by lia. cbn [op_color rect].
  rewrite (bool_decide_true (x + 1 <= px < x + 1 + (w - 2) /\ _)) by lia. cbn [shade fold_left].
  unfold fill_width. destruct (Z.ltb_spec (px - (x + 1)) ((w - 2) * value / max_val)).
  - by rewrite bool_decide_true by lia.
  - by rewrite bool_decide_false by lia.
Qed.

Lemma shade_bar_outside x y w h value max_val bg px py c :
  on_screen x y w h = true -> 2 < w -> 2 < h -> 0 <= value -> 0 < max_val ->
  0 <= px < MC_DASH_WIDTH -> py < y \/ y + h <= py ->
  shade (bar_ops x y w h value max_val bg) (py * MC_DASH_WIDTH + px) c = c.
Proof.
  intros Hon%on_screen_spec Hw Hh Hv Hm Hx Hy. unfold bar_ops, border_ops.
  assert (0 <= fill_width (w - 2) value max_val <= w - 2) as Hfw.
  { unfold fill_width. assert (0 <= (w - 2) * value / max_val) by (apply Z.div_pos; nia). lia. }
  unfold fill_ops. rewrite !(proj2 (on_screen_spec _ _ _ _)) by lia.
  cbn [app]. rewrite !shade_cons, !inside_rect_pixel by lia.
  rewrite !bool_decide_false by lia. done.
Qed.

(** The colour of a pixel of the screen. *)
Definition pixel (fb : list Z) (px py : Z) : option Z := fb !! Z.to_nat (py * MC_DASH_WIDTH + px).

Lemma paints_pixel ops fb fb' px py :
  paints ops fb fb' -> big_enough fb -> 0 <= px < MC_DASH_WIDTH -> 0 <= py < MC_DASH_HEIGHT ->
  exists c, pixel fb px py = Some c /\ pixel fb' px py = Some (shade ops (py * MC_DASH_WIDTH + px) c).
Proof.
  intros [Hl Hp] Hb Hx Hy. unfold pixel, big_enough, MC_DASH_WIDTH, MC_DASH_HEIGHT in *.
  destruct (lookup_lt_is_Some_2 fb (Z.to_nat (py * 320 + px))) as [c Hc]; [lia|].
  exists c. split; [done|]. rewrite (Hp _ _ Hc). by rewrite Z2Nat.id by lia.
Qed.

(** The charging screen: each column of the upper bar is green when it lies below the state
    of charge's share of the 278 columns, each column of the lower bar when it lies below
    the current's; a value above 100 fills the bar. *)
Lemma charging_gauges ds fb fb' ds' px py :
  state_ok ds -> big_enough fb -> mode ds = VEHICLE_CHARGING -> page ds = 0 ->
  mc_dash_render ds fb = Ret (ds', fb') -> 21 <= px < 299 ->
  (91 <= py < 113 ->
   pixel fb' px py = Some (if px - 21 <? 278 * soc_percent ds / 100 then MC_DASH_GREEN else bg_color ds)) /\
  (141 <= py < 163 ->
   pixel fb' px py = Some (if px - 21 <? 278 * current_a_x2 ds / 100 then MC_DASH_GREEN else bg_color ds)).
Proof.
  intros Hok Hb Hm Hp Hr Hx. destruct (render_draws ds fb Hok Hb) as (fb1 & E & Hpaint).
  rewrite E in Hr. injection Hr as _ <-.
  assert (screen ds = bar_ops 20 90 280 24 (soc_percent ds) 100 (bg_color ds) ++
                      bar_ops 20 140 280 24 (current_a_x2 ds) 100 (bg_color ds)) as Es.
  { unfold screen. rewrite Hm, Hp. reflexivity. }
  pose proof Hok as []. rewrite Es, app_assoc in Hpaint.
  split; intros Hy; destruct (paints_pixel _ _ _ px py Hpaint Hb) as (c & _ & ->);
    try (unfold MC_DASH_WIDTH, MC_DASH_HEIGHT; lia); f_equal; rewrite !shade_app.
  - rewrite shade_bar_outside by (reflexivity || int_lia || (unfold MC_DASH_WIDTH; lia)).
    rewrite shade_bar by (reflexivity || int_lia). done.
  - rewrite shade_bar by (reflexivity || int_lia). done.
Qed.
End Render.
