(* ===== verification/CDashboardEcu.v ===== *)
(** * The dashboard ECU ([firmware/dashboard_ecu/src/main.c])

    The frame handlers, the page toggle and the render of the display task, over the context
    they share.  [ecu_runs] composes them with the renderer and the fixed table of warnings:
    whatever frames, touches and renders arrive, the ECU stays inside its arrays, its fields
    keep their types and its state is that of the Rust mirror on the same updates, as far as
    the table's sixteen warnings reach.  The tasks around the handlers
    are loops over the simulator's interface and are not modelled. *)

From S2P Require Import Prelude MachineInt Protocol Dashboard CBase CProtocol CMonitors COtaSlot.
From S2P Require Import CFrames CDashboard Plant.

(** ** The ECU's context and its frame handlers *)

Module dashboard_ctx.
Import mc_dash.

(** The fields the handlers and the display task work on; the task handle is reduced to
    whether it is null, and the notification it would receive is a result of the handler. *)
Record dashboard_ctx_t := {
  ds : dashboard_state.dashboard_state_t;
  wd : warning_display.warning_display_t;
  dash : mc_dash_state_t;
  framebuffer : list Z;
  has_display_task : bool;
}.

Definition dashboard_init (ctx : dashboard_ctx_t) : dashboard_ctx_t := {|
  ds := dashboard_state.dashboard_state_init; wd := warning_display.warning_display_init;
  dash := mc_dash_init; framebuffer := framebuffer ctx; has_display_task := has_display_task ctx |}.

Definition with_ds (ctx : dashboard_ctx_t) (d : dashboard_state.dashboard_state_t) : dashboard_ctx_t :=
  {| ds := d; wd := wd ctx; dash := dash ctx; framebuffer := framebuffer ctx;
     has_display_task := has_display_task ctx |}.
Definition with_dash (ctx : dashboard_ctx_t) (d : mc_dash_state_t) : dashboard_ctx_t :=
  {| ds := ds ctx; wd := wd ctx; dash := d; framebuffer := framebuffer ctx;
     has_display_task := has_display_task ctx |}.

(** Assignments to the fields of [ctx->dash]. *)
Definition set_values (d : mc_dash_state_t) (speed torque soc current ota : Z) : mc_dash_state_t := {|
  mode := mode d; prev_mode := prev_mode d; page := page d; bg_color := bg_color d;
  speed_kmh := speed; torque_percent := torque; soc_percent := soc; current_a_x2 := current;
  ota_progress := ota |}.

Definition handle_vehicle_mode (ctx : dashboard_ctx_t) (frame : mc_can_frame_t) : outcome dashboard_ctx_t :=
  let! m := load (data frame) 0 in
  let ctx := with_ds ctx (dashboard_state.dashboard_state_set_mode (ds ctx) m) in
  Ret (with_dash ctx (mc_dash_set_mode (dash ctx) m)).

Definition handle_wheel_speed (ctx : dashboard_ctx_t) (frame : mc_can_frame_t) : outcome dashboard_ctx_t :=
  let! speed := be16 (data frame) 0 1 in
  let d := dash ctx in
  let ctx := with_dash ctx (set_values d (cast U8 (speed / 10)) (torque_percent d) (soc_percent d)
                              (current_a_x2 d) (ota_progress d)) in
  Ret (with_ds ctx (dashboard_state.dashboard_state_set_speed (ds ctx) speed)).

Definition handle_plant_sensors (ctx : dashboard_ctx_t) (frame : mc_can_frame_t) : outcome dashboard_ctx_t :=
  if len frame <? 7 then Ret ctx
  else
    let! soc := load (data frame) 0 in
    let! voltage := be16 (data frame) 1 2 in
    let! temp := be16 (data frame) 3 4 in
    let! current := be16 (data frame) 5 6 in
    let ctx := with_ds ctx (dashboard_state.dashboard_state_set_battery (ds ctx) soc (cast I16 temp) voltage) in
    let d := dash ctx in
    Ret (with_dash ctx (set_values d (speed_kmh d) (torque_percent d) soc (cast U8 (current / 500))
                          (ota_progress d))).

(** The notification carries the severity and the code. *)
Definition handle_warning (ctx : dashboard_ctx_t) (frame : mc_can_frame_t)
    : outcome (dashboard_ctx_t * option Z) :=
  let! source_node := load (data frame) 0 in
  let! warning_code := load (data frame) 1 in
  let! d := dashboard_state.dashboard_state_add_warning (ds ctx) warning_code source_node in
  let ctx := with_ds ctx d in
  let severity := warning_display.warning_display_severity_for warning_code in
  let '(w, _) := warning_display.warning_display_update (wd ctx) warning_code severity in
  let ctx := {| ds := ds ctx; wd := w; dash := dash ctx; framebuffer := framebuffer ctx;
                has_display_task := has_display_task ctx |} in
  Ret (ctx, if has_display_task ctx then Some (Z.lor (cast U32 (Z.shiftl severity 8)) warning_code)
            else None).

(** The [switch] of [handle_ota_status]. *)
Definition progress_of (ota_state : Z) : Z :=
  if ota_state =? MC_OTA_IDLE then 0
  else if ota_state =? MC_OTA_DOWNLOADING then 25
  else if ota_state =? MC_OTA_VERIFYING then 50
  else if ota_state =? MC_OTA_COMMIT_PENDING then 75
  else if ota_state =? MC_OTA_REBOOTING then 90
  else if ota_state =? MC_OTA_HEALTHY then 100
  else if ota_state =? MC_OTA_ROLLED_BACK then 0
  else 0.

Definition handle_ota_status (ctx : dashboard_ctx_t) (frame : mc_can_frame_t) : outcome dashboard_ctx_t :=
  if len frame <? 8 then Ret ctx
  else
    let! ota_state := load (data frame) 2 in
    let d := dash ctx in
    Ret (with_dash ctx (set_values d (speed_kmh d) (torque_percent d) (soc_percent d) (current_a_x2 d)
                          (progress_of ota_state))).

Definition handle_motor_command (ctx : dashboard_ctx_t) (frame : mc_can_frame_t) : outcome dashboard_ctx_t :=
  let! b := load (data frame) 0 in
  let d := dash ctx in
  Ret (with_dash ctx (set_values d (speed_kmh d) (cast I8 b) (soc_percent d) (current_a_x2 d)
                        (ota_progress d))).

Definition silently (m : outcome dashboard_ctx_t) : outcome (dashboard_ctx_t * option Z) :=
  let! ctx := m in Ret (ctx, None).

Definition dispatch_frame (ctx : dashboard_ctx_t) (frame : mc_can_frame_t)
    : outcome (dashboard_ctx_t * option Z) :=
  if id frame =? MC_MSG_VEHICLE_MODE then silently (handle_vehicle_mode ctx frame)
  else if id frame =? MC_MSG_WHEEL_SPEED then silently (handle_wheel_speed ctx frame)
  else if id frame =? MC_MSG_PLANT_SENSORS then silently (handle_plant_sensors ctx frame)
  else if id frame =? MC_MSG_WARNING then handle_warning ctx frame
  else if id frame =? MC_MSG_OTA_STATUS then silently (handle_ota_status ctx frame)
  else if id frame =? MC_MSG_MOTOR_COMMAND then silently (handle_motor_command ctx frame)
  else Ret (ctx, None).

Definition send_heartbeat (now_ms : Z) : outcome mc_can_frame_t := heartbeat_frame MC_NODE_DASHBOARD now_ms.

(** The page toggle of the display task: a press in the top right corner. *)
Definition touch (ctx : dashboard_ctx_t) (tx ty ev_type : Z) : dashboard_ctx_t :=
  if (ev_type =? 1) && (280 <=? tx) && (tx <=? 319) && (ty <=? 39) then
    let d := dash ctx in
    with_dash ctx {| mode := mode d; prev_mode := prev_mode d;
                     page := (if truthy (page d) then 0 else 1); bg_color := bg_color d;
                     speed_kmh := speed_kmh d; torque_percent := torque_percent d;
                     soc_percent := soc_percent d; current_a_x2 := current_a_x2 d;
                     ota_progress := ota_progress d |}
  else ctx.

(** The render of the display task. *)
Definition refresh (ctx : dashboard_ctx_t) : outcome dashboard_ctx_t :=
  let! (d, fb) := mc_dash_render (dash ctx) (framebuffer ctx) in
  Ret {| ds := ds ctx; wd := wd ctx; dash := d; framebuffer := fb;
         has_display_task := has_display_task ctx |}.

End dashboard_ctx.

(** ** A run of the ECU *)

Section Runs.
Import mc_dash dashboard_ctx.

Inductive event : Type :=
  | Received (frame : mc_can_frame_t)
  | Touched (tx ty ev_type : Z)
  | Refreshed.

Definition handle (ctx : dashboard_ctx_t) (e : event) : outcome dashboard_ctx_t :=
  match e with
  | Received frame => let! (ctx, _) := dispatch_frame ctx frame in Ret ctx
  | Touched tx ty ev_type => Ret (touch ctx tx ty ev_type)
  | Refreshed => refresh ctx
  end.

Definition run (ctx : dashboard_ctx_t) (es : list event) : outcome dashboard_ctx_t := ofold handle ctx es.

Definition event_ok (e : event) : Prop :=
  match e with Received f => frame_ok f | _ => True end.

(** The updates of the dashboard state a frame carries. *)
Definition updates (e : event) : list dashboard_state.op :=
  match e with
  | Received f =>
      if id f =? MC_MSG_VEHICLE_MODE then [dashboard_state.SetMode (byte f 0)]
      else if id f =? MC_MSG_WHEEL_SPEED then [dashboard_state.SetSpeed (word f 0)]
      else if id f =? MC_MSG_PLANT_SENSORS then
        if len f <? 7 then []
        else [dashboard_state.SetBattery (byte f 0) (cast I16 (word f 3)) (word f 1)]
      else if id f =? MC_MSG_WARNING then [dashboard_state.AddWarning (byte f 1) (byte f 0)]
      else []
  | _ => []
  end.

(** The display: the ranges of the C types, two pages, and the background of the mode. *)
Record display_ok (d : mc_dash_state_t) : Prop := {
  shown_values : state_ok d;
  prev_u8 : fits U8 (prev_mode d);
  two_pages : page d = 0 \/ page d = 1;
  bg_of_mode : bg_color d = background (mode d);
}.

(** The warning shown, with the severity that goes with its code. *)
Definition banner_ok (w : warning_display.warning_display_t) : Prop :=
  fits U8 (warning_display.displayed_warning w) /\
  warning_display.severity w =
    warning_display.warning_display_severity_for (warning_display.displayed_warning w).

(** Every field within its type, a framebuffer of [n] pixels, and the dashboard state that of
    the Rust dashboard [m]. *)
Record ctx_ok (n : nat) (ctx : dashboard_ctx_t) (m : DashboardState.t) : Prop := {
  display_typed : display_ok (dash ctx);
  banner_typed : banner_ok (wd ctx);
  screen_size : length (framebuffer ctx) = n;
  pixels_typed : Forall (fits U16) (framebuffer ctx);
  state_typed : dashboard_state.typed (ds ctx);
  table_ok : dashboard_state.mirrors (ds ctx) m;
}.

Lemma mode_ok d m : display_ok d -> fits U8 m -> display_ok (mc_dash_set_mode d m).
Proof. intros [[] ? ? _] Hm. by split. Qed.

Lemma values_ok d speed torque soc current ota :
  display_ok d -> fits U8 speed -> fits I8 torque -> fits U8 soc -> fits U8 current -> fits U8 ota ->
  display_ok (set_values d speed torque soc current ota).
Proof. intros [[] ? ? ?] ? ? ? ? ?. by split. Qed.

Lemma progress_fits x : fits U8 (progress_of x).
Proof. unfold progress_of. repeat destruct (_ =? _); int_lia. Qed.

Lemma banner_update w code :
  banner_ok w -> fits U8 code ->
  banner_ok (fst (warning_display.warning_display_update w code
                    (warning_display.warning_display_severity_for code))).
Proof.
  intros Hw Hc. unfold warning_display.warning_display_update. cbn [fst]. by destruct (_ <? _).
Qed.

Section Handlers.
Context (n : nat).

(** One update of the dashboard state, the rest of the context being in order. *)
Lemma step_ok ctx m o d dsh w :
  ctx_ok n ctx m -> dashboard_state.op_typed o -> dashboard_state.step (ds ctx) o = Ret d ->
  display_ok dsh -> banner_ok w ->
  ctx_ok n {| ds := d; wd := w; dash := dsh; framebuffer := framebuffer ctx;
              has_display_task := has_display_task ctx |} (dashboard_state.capped_step m o).
Proof.
  intros [_ _ Hl Hp Hty Ht] Ho Hs Hd Hw. split; [done..| |].
  - by apply (dashboard_step_typed (ds ctx) o).
  - cbn [ds]. destruct (dashboard_step_mirrors (ds ctx) m o Ht) as (d' & E & Hm). congruence.
Qed.

Lemma keep_ok ctx m dsh : ctx_ok n ctx m -> display_ok dsh -> ctx_ok n (with_dash ctx dsh) m.
Proof. intros [] Hd. by split. Qed.

Lemma warning_ok ctx m f :
  ctx_ok n ctx m -> frame_ok f ->
  exists ctx' k, handle_warning ctx f = Ret (ctx', k) /\
    ctx_ok n ctx' (dashboard_state.capped_step m (dashboard_state.AddWarning (byte f 1) (byte f 0))).
Proof.
  intros Hc Hf. unfold handle_warning.
  change 0 with (Z.of_nat 0) at 1. change 1 with (Z.of_nat 1) at 1.
  destruct (load_byte f 0 Hf ltac:(lia)) as [-> H0]. destruct (load_byte f 1 Hf ltac:(lia)) as [-> H1].
  cbn [obind].
  destruct (add_warning_mirrors (ds ctx) m (byte f 1) (byte f 0)) as (d & E & _); [by destruct Hc|].
  rewrite E. cbn [obind].
  pose proof (banner_update _ _ (banner_typed _ _ _ Hc) H1) as Hb.
  destruct (warning_display.warning_display_update _ _ _) as [w u]. cbn [fst] in Hb.
  eexists _, _. split; [done|]. by apply (step_ok ctx m _ d); [done|done|exact E|destruct Hc|].
Qed.

Lemma dashboard_dispatch_ok ctx m f :
  ctx_ok n ctx m -> frame_ok f ->
  exists ctx' k, dispatch_frame ctx f = Ret (ctx', k) /\
    ctx_ok n ctx' (fold_left dashboard_state.capped_step (updates (Received f)) m).
Proof.
  intros Hc Hf. pose proof (display_typed _ _ _ Hc) as Hd. pose proof (banner_typed _ _ _ Hc) as Hw.
  pose proof (shown_values _ Hd) as Hv.
  unfold dispatch_frame, updates, silently.
  assert (forall i, (i < 8)%nat -> load (data f) (Z.of_nat i) = Ret (byte f i) /\ fits U8 (byte f i))
    as Hload by (intros; by apply load_byte).
  destruct (id f =? MC_MSG_VEHICLE_MODE).
  { unfold handle_vehicle_mode. change 0 with (Z.of_nat 0) at 1.
    destruct (Hload 0%nat) as [-> H0]; [lia|]. cbn [obind fold_left]. eexists _, _. split; [done|].
    apply (step_ok ctx m (dashboard_state.SetMode (byte f 0))); [done..|by apply mode_ok|done]. }
  destruct (id f =? MC_MSG_WHEEL_SPEED).
  { unfold handle_wheel_speed. change 1 with (Z.of_nat 1) at 1. change 0 with (Z.of_nat 0) at 1.
    rewrite load_word by (done || lia). cbn [obind fold_left]. eexists _, _. split; [done|].
    apply (step_ok ctx m (dashboard_state.SetSpeed (word f 0)));
      [done|by apply word_fits; [|lia]|done| |done].
    destruct Hv. by apply values_ok; auto using cast_fits. }
  destruct (id f =? MC_MSG_PLANT_SENSORS).
  { unfold handle_plant_sensors. destruct (len f <? 7); cbn [obind fold_left]; [by eexists _, _|].
    destruct (Hload 0%nat) as [H0 Hs]; [lia|]. change (Z.of_nat 0) with 0 in H0. rewrite H0.
    pose proof (load_word f 1 Hf ltac:(lia)) as W1. pose proof (load_word f 3 Hf ltac:(lia)) as W3.
    pose proof (load_word f 5 Hf ltac:(lia)) as W5. cbv [Z.of_nat Pos.of_succ_nat Pos.succ] in W1, W3, W5.
    rewrite W1, W3, W5. cbn [obind].
    eexists _, _. split; [done|].
    apply (step_ok ctx m (dashboard_state.SetBattery (byte f 0) (cast I16 (word f 3)) (word f 1)));
      [done|split_and!; [done|apply cast_fits|apply word_fits; [done|lia]]|done| |done].
    destruct Hv. by apply values_ok; auto using cast_fits. }
  destruct (id f =? MC_MSG_WARNING); [by apply warning_ok|].
  destruct (id f =? MC_MSG_OTA_STATUS).
  { unfold handle_ota_status. destruct (len f <? 8); cbn [obind fold_left]; [by eexists _, _|].
    destruct (Hload 2%nat) as [H2 _]; [lia|]. change (Z.of_nat 2) with 2 in H2. rewrite H2. cbn [obind].
    eexists _, _. split; [done|]. apply keep_ok; [done|].
    destruct Hv. by apply values_ok; auto using progress_fits. }
  destruct (id f =? MC_MSG_MOTOR_COMMAND); cbn [fold_left]; [|by eexists _, _].
  unfold handle_motor_command. destruct (Hload 0%nat) as [H0 _]; [lia|].
  change (Z.of_nat 0) with 0 in H0. rewrite H0. cbn [obind]. eexists _, _. split; [done|].
  apply keep_ok; [done|]. destruct Hv. by apply values_ok; auto using cast_fits.
Qed.

Lemma touch_ok ctx m tx ty k : ctx_ok n ctx m -> ctx_ok n (touch ctx tx ty k) m.
Proof.
  intros Hc. unfold touch. destruct (_ && _); [|done]. apply keep_ok; [done|].
  destruct (display_typed _ _ _ Hc) as [[] ? ? ?]. split; [by split|done| |done].
  cbn [page]. destruct (truthy _); auto.
Qed.

Lemma refresh_ok ctx m :
  MC_DASH_WIDTH * MC_DASH_HEIGHT <= Z.of_nat n -> ctx_ok n ctx m ->
  exists ctx', refresh ctx = Ret ctx' /\ ctx_ok n ctx' m.
Proof.
  intros Hn [Hd Hw Hl Hp Hty Ht]. unfold refresh.
  destruct (render_draws (dash ctx) (framebuffer ctx)) as (fb' & -> & Hdraw);
    [apply Hd|by unfold big_enough; rewrite Hl|]. cbn [obind].
  eexists. split; [done|]. split; [|done| | |done|done].
  - destruct Hd as [Hv ? ? ?]. split; [by apply shown_ok|apply cast_fits|done|done].
  - cbn [framebuffer]. destruct Hdraw as [-> _]. done.
  - cbn [framebuffer]. apply (paints_fits _ _ _ (screen_pixels (dash ctx) ltac:(rewrite (bg_of_mode _ Hd); apply background_fits)) Hdraw Hp).
Qed.

Hypothesis Hn : MC_DASH_WIDTH * MC_DASH_HEIGHT <= Z.of_nat n.

Lemma handle_ok ctx m e :
  ctx_ok n ctx m -> event_ok e ->
  exists ctx', handle ctx e = Ret ctx' /\
    ctx_ok n ctx' (fold_left dashboard_state.capped_step (updates e) m).
Proof.
  intros Hc He. destruct e as [f|tx ty k|]; cbn [handle].
  - destruct (dashboard_dispatch_ok ctx m f Hc He) as (ctx' & k & -> & Hc'). by exists ctx'.
  - eexists. split; [done|]. by apply touch_ok.
  - by apply refresh_ok.
Qed.

Lemma run_ok es ctx m :
  ctx_ok n ctx m -> Forall event_ok es ->
  exists ctx', run ctx es = Ret ctx' /\
    ctx_ok n ctx' (fold_left dashboard_state.capped_step (concat (map updates es)) m).
Proof.
  unfold run. intros Hc Hes. revert ctx m Hc.
  induction Hes as [|e es He Hes IH]; intros ctx m Hc; [by exists ctx|].
  cbn [map concat ofold]. destruct (handle_ok ctx m e Hc He) as (ctx1 & -> & Hc1). cbn [obind].
  rewrite fold_left_app. by apply IH.
Qed.
End Handlers.

(** C28: The dashboard ECU from its start on.  Whatever frames of eight bytes, touches and
    renders it handles, in any order, no access leaves an array; the framebuffer keeps its
    size and holds 16-bit pixels, every field of the display and of the dashboard state stays
    within its C type, the page is 0 or 1, the background is that of the mode and the warning
    shown goes with its severity.  As long as the frames name at most sixteen different
    warnings the dashboard state is the Rust dashboard's on the updates they carry; a
    seventeenth the firmware drops and the Rust dashboard keeps, and the state is then the
    Rust dashboard's with that capacity. *)
Theorem ecu_runs ctx es :
  big_enough (framebuffer ctx) -> Forall (fits U16) (framebuffer ctx) -> Forall event_ok es ->
  let ops := concat (map updates es) in
  exists ctx', run (dashboard_init ctx) es = Ret ctx' /\
    ctx_ok (length (framebuffer ctx)) ctx'
      (fold_left dashboard_state.capped_step ops DashboardState.default) /\
    ((size (dashboard_state.warned ops) <= 16)%nat ->
     dashboard_state.mirrors (ds ctx') (fold_left dashboard_state.rust_step ops DashboardState.default)).
Proof.
  intros Hb Hp Hes ops.
  destruct (run_ok (length (framebuffer ctx)) Hb es (dashboard_init ctx) DashboardState.default)
    as (ctx' & Hr & Hc); [|done|].
  - split; [split; [by vm_compute|by vm_compute|by left|done]|by vm_compute|done|done| |].
    + by apply zeroed_typed.
    + split; [apply table_empty|done].
  - exists ctx'. split_and!; [done|done|]. intros Hk. pose proof (table_ok _ _ _ Hc) as Hm.
    rewrite (warnings_fit (dashboard_state.warned ops)) in Hm; [done|done|done| |].
    + by apply NoDup_nil_2.
    + intros k Hin. by apply not_elem_of_nil in Hin.
Qed.

Lemma ecu_runs_witness :
  let start := {| ds := dashboard_state.dashboard_state_init; wd := warning_display.warning_display_init;
                  dash := mc_dash_init; framebuffer := replicate (Z.to_nat (320 * 240)) 0;
                  has_display_task := true |} in
  let frame i bytes := Received {| id := i; sender := 1; data := bytes; len := 8 |} in
  let es := [frame MC_MSG_VEHICLE_MODE [2; 0; 0; 0; 0; 0; 0; 0];
             frame MC_MSG_WHEEL_SPEED [0x01; 0xF4; 0; 0; 0; 0; 0; 0];
             frame MC_MSG_WARNING [3; 1; 0; 0; 0; 0; 0; 0]; Touched 300 10 1; Refreshed] in
  let ops := [dashboard_state.SetMode 2; dashboard_state.SetSpeed 500; dashboard_state.AddWarning 1 3] in
  exists ctx, run (dashboard_init start) es = Ret ctx /\
    ctx_ok (length (framebuffer start)) ctx
      (fold_left dashboard_state.capped_step (concat (map updates es)) DashboardState.default) /\
    concat (map updates es) = ops /\
    dashboard_state.mirrors (ds ctx) (fold_left dashboard_state.rust_step ops DashboardState.default).
Proof.
  intros start frame es ops.
  destruct (ecu_runs start es) as (ctx & Hr & Hc & Hm).
  - subst start. unfold big_enough. cbn [framebuffer]. rewrite length_replicate. vm_compute. discriminate.
  - subst start. cbn [framebuffer]. apply Forall_replicate. split; vm_compute; discriminate.
  - subst es frame. repeat apply Forall_cons_2; try exact I; [..|apply Forall_nil_2];
      (split; [reflexivity|]); repeat apply Forall_cons_2; try apply Forall_nil_2;
      (split; vm_compute; discriminate).
  - exists ctx. split; [exact Hr|]. split; [exact Hc|]. split; [reflexivity|].
    apply Hm. vm_compute. repeat constructor.
Defined.

(** ** From the plant to the display *)

Lemma wheel_speed_shown ctx v held :
  fits U16 v ->
  handle ctx (Received (receive held CAN_ID_WHEEL_SPEED (to_be_bytes16 v))) =
  Ret (with_ds (with_dash ctx (set_values (dash ctx) (cast U8 (v / 10)) (torque_percent (dash ctx))
                                 (soc_percent (dash ctx)) (current_a_x2 (dash ctx)) (ota_progress (dash ctx))))
         (dashboard_state.dashboard_state_set_speed (ds ctx) v)).
Proof.
  intros Hv. unfold handle, dispatch_frame, silently, handle_wheel_speed, receive. cbn [id data].
  change (CAN_ID_WHEEL_SPEED =? MC_MSG_VEHICLE_MODE) with false.
  change (CAN_ID_WHEEL_SPEED =? MC_MSG_WHEEL_SPEED) with true. cbn [obind].
  set (rest := drop _ held).
  rewrite (be16_bytes [] v rest 0 1 eq_refl eq_refl : be16 (to_be_bytes16 v ++ rest) 0 1 = _). cbn [obind].
  by rewrite Z.mod_small by int_lia.
Qed.

Lemma sensors_shown ctx r held :
  fits U8 (SensorReadings.soc_percent r) ->
  fits U16 (SensorReadings.pack_voltage_mv r) -> fits I16 (SensorReadings.pack_temp_c_x10 r) ->
  handle ctx (Received (receive held CAN_ID_PLANT_SENSORS (MicrocarPlant.sensor_payload r))) =
  Ret (with_dash (with_ds ctx (dashboard_state.dashboard_state_set_battery (ds ctx)
                                 (SensorReadings.soc_percent r) (SensorReadings.pack_temp_c_x10 r)
                                 (SensorReadings.pack_voltage_mv r)))
         (set_values (dash ctx) (speed_kmh (dash ctx)) (torque_percent (dash ctx))
            (SensorReadings.soc_percent r)
            (cast U8 (SensorReadings.pack_current_ma r mod 65536 / 500)) (ota_progress (dash ctx)))).
Proof.
  intros Hs Hv Ht. unfold handle, dispatch_frame, silently, handle_plant_sensors, receive.
  cbn [id data len]. change (CAN_ID_PLANT_SENSORS =? MC_MSG_VEHICLE_MODE) with false.
  change (CAN_ID_PLANT_SENSORS =? MC_MSG_WHEEL_SPEED) with false.
  change (CAN_ID_PLANT_SENSORS =? MC_MSG_PLANT_SENSORS) with true. cbv iota.
  destruct (sensor_fields r (drop (length (MicrocarPlant.sensor_payload r)) held)) as (E0 & E1 & E2 & E3).
  match goal with |- context [if ?c then _ else _] => change c with false end. cbv iota.
  rewrite E0, E1, E2, E3. cbn [obind].
  by rewrite (Z.mod_small (SensorReadings.pack_voltage_mv r)), cast_i16_word by (done || int_lia).
Qed.


(** C27: From the plant to the driver, across the two languages.  One plant tick and the
    dashboard's handling of the two frames it publishes leave the dashboard with exactly the
    plant's speed, state of charge, temperature and voltage.  The numbers drawn are the speed
    in whole kilometres per hour modulo 256, and the current clamped to [i16] and read as
    unsigned, in half-amperes modulo 256; nothing else on the display changes. *)
Theorem plant_reaches_dashboard p s now ctx held :
  plant_inv s ->
  exists s' frames ctx',
    MicrocarPlant.step (deliver held) p s now [] = Ret (s', frames) /\
    run ctx (map Received frames) = Ret ctx' /\
    let v := MicrocarPlant.vehicle s' in let b := MicrocarPlant.battery s' in
    ds ctx' = dashboard_state.dashboard_state_set_battery
                (dashboard_state.dashboard_state_set_speed (ds ctx) (VehiclePlant.speed_kph_x10 v))
                (BatteryModel.soc_percent b) (BatteryModel.temp_c_x10 b) (BatteryModel.voltage_mv b) /\
    dash ctx' = set_values (dash ctx) (VehiclePlant.speed_kph_x10 v / 10 mod 256)
                  (torque_percent (dash ctx)) (BatteryModel.soc_percent b)
                  (Z.max (-32768) (Z.min (BatteryModel.current_ma b) 32767) mod 65536 / 500 mod 256)
                  (ota_progress (dash ctx)).
Proof.
  intros Hi. destruct (plant_step_eq (deliver held) p s now [] Hi) as (s' & Hs & Hi' & _ & _ & _ & _ & Hvolt).
  destruct Hi' as [[[Hsp _] _] (_ & Hsoc & Htemp & _) _ _].
  eexists s', _, _. split; [exact Hs|]. unfold publish, deliver. cbn [app map run ofold].
  rewrite wheel_speed_shown by exact Hsp. cbn [obind].
  rewrite sensors_shown; [|unfold SensorReadings.from_plant; cbn; int_lia|exact Hvolt|exact Htemp].
  cbn [obind]. split; [reflexivity|]. split; [reflexivity|].
  rewrite <- current_clamped.
  reflexivity.
Qed.

Lemma plant_reaches_dashboard_witness :
  let ctx := {| ds := dashboard_state.dashboard_state_init; wd := warning_display.warning_display_init;
                dash := mc_dash_init; framebuffer := []; has_display_task := false |} in
  plant_inv (MicrocarPlant.new 10) /\
  exists s' frames ctx',
    MicrocarPlant.step (deliver (replicate 8 170)) Debug (MicrocarPlant.new 10) 0 [] = Ret (s', frames) /\
    run ctx (map Received frames) = Ret ctx' /\
    dashboard_state.soc_percent (ds ctx') = BatteryModel.soc_percent (MicrocarPlant.battery s').
Proof.
  intros ctx. assert (H : plant_inv (MicrocarPlant.new 10)) by (apply new_plant_inv; lia).
  split; [exact H|].
  destruct (plant_reaches_dashboard Debug (MicrocarPlant.new 10) 0 ctx (replicate 8 170) H)
    as (s' & frames & ctx' & Hs & Hr & Hd & _).
  exists s', frames, ctx'. split; [exact Hs|]. split; [exact Hr|]. rewrite Hd. reflexivity.
Defined.
(** ** What the display cannot show *)

(** The speed in whole kilometres per hour is an eight-bit field: at 256.0 km/h the display
    shows 0, and the plant reaches that speed in under three seconds of full torque. *)
Lemma speed_display_wraps ctx f :
  frame_ok f -> id f = MC_MSG_WHEEL_SPEED -> word f 0 = 2560 ->
  exists ctx' n, dispatch_frame ctx f = Ret (ctx', n) /\ speed_kmh (dash ctx') = 0 /\
    dashboard_state.speed_kph_x10 (ds ctx') = 2560.
Proof.
  intros Hf Hid Hw. unfold dispatch_frame, silently, handle_wheel_speed. rewrite Hid.
  pose proof (load_word f 0 Hf ltac:(lia)) as W. cbv [Z.of_nat Pos.of_succ_nat] in W. rewrite W, Hw.
  eexists _, _. split; [reflexivity|]. by split.
Qed.

Example plant_outruns_display :
  match ofold (fun v _ => VehiclePlant.step Debug v 10)
          (VehiclePlant.set_motor_torque VehiclePlant.new 100) (seq 0 299) with
  | Ret v => 2560 <=? VehiclePlant.speed_kph_x10 v
  | Panic => false
  end = true.
Proof. by vm_compute. Qed.

(** The pack current is signed on the bus and read as unsigned: one ampere of charging
    current, which is two half-amperes, fills the bar. *)
Example charging_current_reads_as_full :
  match handle_plant_sensors
          {| ds := dashboard_state.dashboard_state_init; wd := warning_display.warning_display_init;
             dash := mc_dash_init; framebuffer := []; has_display_task := false |}
          {| id := MC_MSG_PLANT_SENSORS; sender := 9; len := 7;
             data := [80] ++ to_be_bytes16 48000 ++ to_be_bytes16 250 ++ to_be_bytes16 (-1000) ++ [0] |} with
  | Ret ctx => (current_a_x2 (dash ctx), fill_width 278 (current_a_x2 (dash ctx)) 100)
  | Panic => (0, 0)
  end = (129, 278).
Proof. reflexivity. Qed.

(** With its bytes reversed ([heartbeat_byte_order]), ten milliseconds after its start the dashboard reports two days of uptime. *)
Example heartbeat_decoded :
  (let! f := send_heartbeat 10 in mc_decode_heartbeat (data f)) = Ret (4, 167772160).
Proof. reflexivity. Qed.

(** So it is with the wheel speed: a frame the library encodes for 12.0 km/h is read as
    3072.0 km/h. *)
Example wheel_speed_byte_order :
  (let! payload := mc_encode_wheel_speed (replicate 8 0) 120 in
   let! ctx := handle_wheel_speed
     {| ds := dashboard_state.dashboard_state_init; wd := warning_display.warning_display_init;
        dash := mc_dash_init; framebuffer := []; has_display_task := false |}
     {| id := MC_MSG_WHEEL_SPEED; sender := 9; len := 2; data := payload |} in
   Ret (dashboard_state.speed_kph_x10 (ds ctx))) = Ret 30720.
Proof. reflexivity. Qed.

(** On the second page the driving screens repaint the status bar only: the numbers drawn on
    the first page stay, whatever the speed and the torque are now. *)
Lemma second_page_keeps_numbers d k c :
  mode d ∈ [VEHICLE_OFF; VEHICLE_READY; VEHICLE_DRIVE; VEHICLE_LIMP] -> page d <> 0 ->
  mode d = prev_mode d -> 40 <= k / MC_DASH_WIDTH ->
  shade (clear_ops d ++ screen d) k c = c.
Proof.
  intros Hm Hp Hsame Hk. unfold clear_ops. rewrite Hsame, Z.eqb_refl. cbn [negb app].
  assert (exists color, screen d = status_ops color) as (color & ->).
  { unfold screen. rewrite (proj2 (Z.eqb_neq (page d) 0) Hp), !app_nil_r.
    rewrite !elem_of_cons in Hm.
    destruct Hm as [->|[->|[->|[->|Hm]]]]; [eexists; reflexivity..|by apply not_elem_of_nil in Hm]. }
  unfold status_ops, border_ops. change (fill_ops 1 1 318 38 color) with [rect 1 1 318 38 color].
  cbn [app]. rewrite !shade_cons.
  assert (forall x y w h c', y + h <= 40 -> inside (rect x y w h c') k = false) as Hout.
  { intros x y w h c' Hy. apply not_true_iff_false. rewrite inside_rect. lia. }
  by rewrite !Hout by lia.
Qed.
End Runs.
