(* ===== verification/CBmsEcu.v ===== *)
(** * The BMS ECU ([firmware/bms_ecu/src/main.c])

    The context, the sensor handler, the frames the ECU sends and the body of the main task's
    loop; the wait for the next period and the loop itself are the simulator's.  What the task
    creation of the kernel returns is an argument.  [bms_publishes_plant] says what the ECU
    puts on the bus for a plant tick. *)

From S2P Require Import Prelude MachineInt Protocol CBase CProtocol CFirmware CFrames Plant.

Module bms_ctx.

(** The task handle is reduced to whether it is null. *)
Record bms_ctx_t := {
  calib_running : bool;
  calib_requested : Z;
  calib_done : Z;
  bs : bms_state.bms_state_t;
  seq : Z;
  bl : bms_limits.bms_limits_t;
}.

Definition bms_init (ctx : bms_ctx_t) : bms_ctx_t := {|
  calib_running := calib_running ctx; calib_requested := calib_requested ctx; calib_done := calib_done ctx;
  bs := bms_state.bms_state_init; seq := seq ctx; bl := bms_limits.bms_limits_init |}.

(** ** Calibration *)

Definition with_calib (ctx : bms_ctx_t) (running : bool) (requested done : Z) : bms_ctx_t := {|
  calib_running := running; calib_requested := requested; calib_done := done;
  bs := bs ctx; seq := seq ctx; bl := bl ctx |}.

(** [created]: whether the kernel created the task. *)
Definition bms_request_calibration (created : bool) (ctx : bms_ctx_t) : bms_ctx_t * Z :=
  if calib_running ctx then (ctx, 0)
  else
    let ctx := with_calib ctx created 1 0 in
    if calib_running ctx then (ctx, 1)
    else (with_calib ctx (calib_running ctx) 0 (calib_done ctx), 0).

Definition bms_calibration_running (ctx : bms_ctx_t) : Z := Z.b2z (calib_running ctx).
Definition bms_calibration_done (ctx : bms_ctx_t) : Z := calib_done ctx.

(** The end of the calibration task. *)
Definition calibration_end (ctx : bms_ctx_t) : bms_ctx_t := with_calib ctx false (calib_requested ctx) 1.

(** ** Messages *)

Definition MC_BMS_STATUS_MSG_SIZE : Z := Z.of_nat (sizeof (map fst (mc_bms_status_msg_t 0 0 0 0 0))).
Definition MC_BMS_LIMITS_MSG_SIZE : Z := Z.of_nat (sizeof (map fst (mc_bms_limits_msg_t 0 0))).

Definition with_state (ctx : bms_ctx_t) (s : bms_state.bms_state_t) (n : Z) (l : bms_limits.bms_limits_t)
    : bms_ctx_t := {|
  calib_running := calib_running ctx; calib_requested := calib_requested ctx; calib_done := calib_done ctx;
  bs := s; seq := n; bl := l |}.

(** The new context and the status frame the handler sends, if any. *)
Definition handle_plant_sensors (ctx : bms_ctx_t) (frame : mc_can_frame_t)
    : outcome (bms_ctx_t * list mc_can_frame_t) :=
  if len frame <? 7 then Ret (ctx, [])
  else
    let! soc_percent := load (data frame) 0 in
    let! voltage_mv := be16 (data frame) 1 2 in
    let! temp := be16 (data frame) 3 4 in
    let! current := be16 (data frame) 5 6 in
    let temp_c_x10 := cast I16 temp in
    let current_ma := cast I16 current in
    let old_state := bms_state.state (bs ctx) in
    let '(s, new_state) := bms_state.bms_state_update (bs ctx) temp_c_x10 voltage_mv current_ma soc_percent in
    let '(l, _) := bms_limits.bms_limits_compute (bl ctx) new_state in
    let s := if (new_state =? BMS_CRITICAL_FAULT) && negb (old_state =? BMS_CRITICAL_FAULT)
             then bms_state.with_fault_code s MC_BMS_FAULT_OVERTEMP else s in
    let ctx := with_state ctx s (cast U8 (seq ctx + 1)) l in
    let tx := mc_frame_init MC_MSG_BMS_STATUS MC_NODE_BMS MC_BMS_STATUS_MSG_SIZE in
    let! d := memcpy_to (data tx) (mc_bms_status_msg_t voltage_mv current_ma temp_c_x10 soc_percent (seq ctx)) in
    Ret (ctx, [{| id := id tx; sender := sender tx; data := d; len := len tx |}]).

Definition dispatch_frame (ctx : bms_ctx_t) (frame : mc_can_frame_t)
    : outcome (bms_ctx_t * list mc_can_frame_t) :=
  if id frame =? MC_MSG_PLANT_SENSORS then handle_plant_sensors ctx frame else Ret (ctx, []).

Definition send_heartbeat (now_ms : Z) : outcome mc_can_frame_t := heartbeat_frame MC_NODE_BMS now_ms.

Definition send_bms_limits (ctx : bms_ctx_t) : outcome mc_can_frame_t :=
  let tx := mc_frame_init MC_MSG_BMS_LIMITS MC_NODE_BMS MC_BMS_LIMITS_MSG_SIZE in
  let! d := store (data tx) 0 (bms_limits.max_torque_percent (bl ctx)) in
  let! d := store d 1 (bms_limits.reason (bl ctx)) in
  Ret {| id := id tx; sender := sender tx; data := d; len := len tx |}.

Definition send_bms_fault (ctx : bms_ctx_t) : outcome mc_can_frame_t :=
  let tx := mc_frame_init MC_MSG_BMS_FAULT MC_NODE_BMS 1 in
  let! d := store (data tx) 0 (bms_state.fault_code (bs ctx)) in
  Ret {| id := id tx; sender := sender tx; data := d; len := len tx |}.

(** ** One turn of the main loop *)

(** The frames of the receive phase, in order, and what their handlers send. *)
Definition receive_phase (ctx : bms_ctx_t) (rxs : list mc_can_frame_t)
    : outcome (bms_ctx_t * list mc_can_frame_t) :=
  ofold (fun '(ctx, sent) rx =>
    let! (ctx, out) := dispatch_frame ctx rx in Ret (ctx, sent ++ out)) (ctx, []) rxs.

Definition recalibrate (created : bool) (ctx : bms_ctx_t) (now_ms : Z) : bms_ctx_t :=
  if truthy (bms_calibration_done ctx) && negb (truthy (bms_calibration_running ctx))
     && (2000 <=? now_ms) && (now_ms <? 2500)
  then fst (bms_request_calibration created ctx) else ctx.

(** [when c m]: the frame [m] if [c], none otherwise. *)
Definition when (c : bool) (m : outcome mc_can_frame_t) : outcome (list mc_can_frame_t) :=
  if c then omap_ret (fun f => [f]) m else Ret [].

(** The context, the fault code published last, and the frames sent in order. *)
Definition bms_cycle (created : bool) (now_ms : Z) (rxs : list mc_can_frame_t)
    (ctx : bms_ctx_t) (last_fault_published : Z)
    : outcome (bms_ctx_t * Z * list mc_can_frame_t) :=
  let ctx := recalibrate created ctx now_ms in
  let! (ctx, status) := receive_phase ctx rxs in
  let! limits := when (now_ms mod 50 =? 0) (send_bms_limits ctx) in
  let fault_code := bms_state.fault_code (bs ctx) in
  let! fault := when (negb (fault_code =? last_fault_published)) (send_bms_fault ctx) in
  let! heartbeat := when (now_ms mod 100 =? 0) (send_heartbeat now_ms) in
  Ret (ctx, fault_code, status ++ limits ++ fault ++ heartbeat).

End bms_ctx.

(** ** What the ECU makes of a plant tick *)

Section Bms.
Import bms_ctx.

(** The limit and its reason by temperature. *)
Definition limit_by_temp (t : Z) : Z * Z :=
  if 900 <=? t then (0, 3) else if 750 <=? t then (25, 2) else if 600 <=? t then (255, 1) else (255, 0).

Definition fault_by_temp (t : Z) : Z := if 900 <=? t then MC_BMS_FAULT_OVERTEMP else MC_BMS_FAULT_NONE.

Lemma limits_computed bl t :
  fst (bms_limits.bms_limits_compute bl (mc_bms_determine_state t)) =
  {| bms_limits.max_torque_percent := fst (limit_by_temp t); bms_limits.reason := snd (limit_by_temp t) |}.
Proof.
  rewrite c_bms_thresholds. unfold limit_by_temp.
  by destruct (900 <=? t), (750 <=? t), (600 <=? t).
Qed.

(** The state after a measurement; setting the fault code on the way into a critical state
    repeats what the update did. *)
Definition measured (ctx : bms_ctx_t) (r : SensorReadings.t) : bms_ctx_t :=
  let t := SensorReadings.pack_temp_c_x10 r in
  with_state ctx
    (fst (bms_state.bms_state_update (bs ctx) t (SensorReadings.pack_voltage_mv r)
            (SensorReadings.pack_current_ma r) (SensorReadings.soc_percent r)))
    (cast U8 (seq ctx + 1))
    {| bms_limits.max_torque_percent := fst (limit_by_temp t); bms_limits.reason := snd (limit_by_temp t) |}.

Definition status_fields (ctx : bms_ctx_t) (r : SensorReadings.t) : list (ity * Z) :=
  mc_bms_status_msg_t (SensorReadings.pack_voltage_mv r) (SensorReadings.pack_current_ma r)
    (SensorReadings.pack_temp_c_x10 r) (SensorReadings.soc_percent r) (cast U8 (seq ctx + 1)).

Lemma measured_fault ctx r :
  bms_state.fault_code (bs (measured ctx r)) = fault_by_temp (SensorReadings.pack_temp_c_x10 r).
Proof.
  unfold measured, bms_state.bms_state_update, bms_state.bms_state_from_temp, bms_state.bms_state_fault_code.
  cbn. rewrite c_bms_thresholds. unfold fault_by_temp. set (t := SensorReadings.pack_temp_c_x10 r).
  by destruct (900 <=? t), (750 <=? t), (600 <=? t).
Qed.

Definition readings_ok (r : SensorReadings.t) : Prop :=
  fits U16 (SensorReadings.pack_voltage_mv r) /\ fits I16 (SensorReadings.pack_temp_c_x10 r) /\
  fits I16 (SensorReadings.pack_current_ma r) /\ fits U8 (SensorReadings.soc_percent r).

Lemma fault_code_set_twice b t v c soc old :
  let '(s, new_state) := bms_state.bms_state_update b t v c soc in
  (if (new_state =? BMS_CRITICAL_FAULT) && old
   then bms_state.with_fault_code s MC_BMS_FAULT_OVERTEMP else s) = s.
Proof.
  unfold bms_state.bms_state_update, bms_state.bms_state_fault_code, bms_state.bms_state_from_temp. cbn.
  by destruct (mc_bms_determine_state t =? BMS_CRITICAL_FAULT), old.
Qed.

Lemma sensors_measured ctx r held :
  readings_ok r ->
  dispatch_frame ctx (receive held CAN_ID_PLANT_SENSORS (MicrocarPlant.sensor_payload r)) =
  Ret (measured ctx r, [frame_of MC_MSG_BMS_STATUS MC_NODE_BMS (pack (status_fields ctx r))]).
Proof.
  intros (Hv & Ht & Hc & Hs). unfold dispatch_frame, handle_plant_sensors, receive. cbn [id data len].
  change (CAN_ID_PLANT_SENSORS =? MC_MSG_PLANT_SENSORS) with true. cbv iota.
  destruct (sensor_fields r (drop (length (MicrocarPlant.sensor_payload r)) held)) as (E0 & E1 & E2 & E3).
  match goal with |- context [if ?c then _ else _] => change c with false end. cbv iota.
  rewrite E0, E1, E2, E3. cbn [obind].
  rewrite (Z.mod_small (SensorReadings.pack_voltage_mv r)), !cast_i16_word by (done || int_lia).
  unfold measured. set (t := SensorReadings.pack_temp_c_x10 r).
  pose proof (fault_code_set_twice (bs ctx) t (SensorReadings.pack_voltage_mv r) (SensorReadings.pack_current_ma r)
    (SensorReadings.soc_percent r) (negb (bms_state.state (bs ctx) =? BMS_CRITICAL_FAULT))) as Hf.
  pose proof (limits_computed (bl ctx) t) as Hl.
  assert (snd (bms_state.bms_state_update (bs ctx) t (SensorReadings.pack_voltage_mv r)
    (SensorReadings.pack_current_ma r) (SensorReadings.soc_percent r)) = mc_bms_determine_state t) as Hs' by done.
  destruct (bms_state.bms_state_update _ _ _ _ _) as [s n]. cbn [snd] in Hs'. subst n.
  destruct (bms_limits.bms_limits_compute (bl ctx) (mc_bms_determine_state t)) as [l m]. cbn [fst] in Hl |- *.
  subst l. rewrite Hf. reflexivity.
Qed.
Lemma wheel_speed_ignored ctx v held :
  dispatch_frame ctx (receive held CAN_ID_WHEEL_SPEED (to_be_bytes16 v)) = Ret (ctx, []).
Proof. reflexivity. Qed.

Lemma recalibrate_keeps created ctx now_ms :
  bs (recalibrate created ctx now_ms) = bs ctx /\ seq (recalibrate created ctx now_ms) = seq ctx.
Proof.
  unfold recalibrate, bms_request_calibration. case_match; [|done].
  destruct (calib_running ctx); [done|]. by destruct created.
Qed.

(** What a turn of the loop sends after its receive phase. *)
Definition periodic_frames (now_ms last_fault t : Z) : list mc_can_frame_t :=
  (if now_ms mod 50 =? 0
   then [frame_of MC_MSG_BMS_LIMITS MC_NODE_BMS [fst (limit_by_temp t); snd (limit_by_temp t)]] else []) ++
  (if negb (fault_by_temp t =? last_fault)
   then [frame_of MC_MSG_BMS_FAULT MC_NODE_BMS [fault_by_temp t]] else []) ++
  (if now_ms mod 100 =? 0
   then [frame_of MC_MSG_HEARTBEAT MC_NODE_BMS (heartbeat_payload MC_NODE_BMS now_ms)] else []).

Lemma cycle_after_measuring created now_ms rxs ctx last ctx1 r status :
  receive_phase (recalibrate created ctx now_ms) rxs = Ret (measured ctx1 r, status) ->
  bms_cycle created now_ms rxs ctx last =
  Ret (measured ctx1 r, fault_by_temp (SensorReadings.pack_temp_c_x10 r),
       status ++ periodic_frames now_ms last (SensorReadings.pack_temp_c_x10 r)).
Proof.
  intros H. unfold bms_cycle, periodic_frames. rewrite H. cbn [obind]. rewrite measured_fault.
  unfold when, send_heartbeat, send_bms_fault. rewrite measured_fault, heartbeat_frame_eq.
  by destruct (now_ms mod 50 =? 0), (negb _), (now_ms mod 100 =? 0).
Qed.

Lemma status_decoded ctx r rest :
  readings_ok r ->
  mc_decode_bms_status (pack (status_fields ctx r) ++ rest) =
  Ret (SensorReadings.pack_voltage_mv r, SensorReadings.pack_current_ma r,
       SensorReadings.pack_temp_c_x10 r, SensorReadings.soc_percent r).
Proof.
  intros (Hv & Ht & Hc & Hs). unfold mc_decode_bms_status, memcpy_from.
  change (map fst (mc_bms_status_msg_t 0 0 0 0 0)) with (map fst (status_fields ctx r)).
  rewrite (proj2 (Nat.leb_le _ _)) by (rewrite length_app, pack_length; lia).
  rewrite unpack_pack; [done|]. unfold status_fields, mc_bms_status_msg_t.
  repeat apply Forall_cons_2; try done. apply cast_fits.
Qed.

(** The frames a plant tick puts on the bus, handled in one turn of the loop.  The turn never
    leaves a buffer; it counts the measurement and publishes a status that the protocol
    library decodes to the plant's voltage, clamped current, temperature and charge; every
    50 ms it publishes the torque limit of that temperature: 25 percent from 75.0 degrees and
    none from 90.0.  A fault is published exactly when its code differs from the one
    published last. *)
Theorem bms_publishes_plant p s now held created now_ms ctx last :
  plant_inv s ->
  exists s' frames ctx' status,
    MicrocarPlant.step (deliver held) p s now [] = Ret (s', frames) /\
    let b := MicrocarPlant.battery s' in
    let t := BatteryModel.temp_c_x10 b in
    bms_cycle created now_ms frames ctx last =
      Ret (ctx', fault_by_temp t, status :: periodic_frames now_ms last t) /\
    seq ctx' = (seq ctx + 1) mod 256 /\ bms_state.temp_c_x10 (bs ctx') = t /\
    id status = MC_MSG_BMS_STATUS /\
    mc_decode_bms_status (data status) =
      Ret (BatteryModel.voltage_mv b, Z.max (-32768) (Z.min (BatteryModel.current_ma b) 32767), t,
           BatteryModel.soc_percent b).
Proof.
  intros Hi. destruct (plant_step_eq (deliver held) p s now [] Hi) as (s' & Hs & Hi' & _ & _ & _ & _ & Hvolt).
  destruct Hi' as [_ (_ & Hsoc & Htemp & _) _ _].
  set (r := SensorReadings.from_plant (MicrocarPlant.vehicle s') (MicrocarPlant.battery s')).
  assert (readings_ok r) as Hr.
  { split_and!; [exact Hvolt|exact Htemp|apply cast_fits|subst r; cbn; int_lia]. }
  destruct (recalibrate_keeps created ctx now_ms) as [_ Hseq].
  set (ctx1 := recalibrate created ctx now_ms) in *.
  eexists s', _, (measured ctx1 r), _. split; [exact Hs|]. cbv zeta. split.
  - apply (cycle_after_measuring created now_ms _ ctx last ctx1 r
             [frame_of MC_MSG_BMS_STATUS MC_NODE_BMS (pack (status_fields ctx1 r))]).
    unfold publish, deliver, receive_phase. cbn [app ofold]. fold r.
    rewrite wheel_speed_ignored. cbn [obind app]. rewrite sensors_measured by done. reflexivity.
  - split; [cbn; by rewrite Hseq|]. split; [reflexivity|]. split; [reflexivity|].
    unfold frame_of. cbn [data]. rewrite (status_decoded ctx1 r) by done.
    by rewrite <- current_clamped.
Qed.

Lemma bms_publishes_plant_witness :
  let ctx := {| calib_running := false; calib_requested := 0; calib_done := 0;
                bs := bms_state.bms_state_init; seq := 255; bl := bms_limits.bms_limits_init |} in
  plant_inv (MicrocarPlant.new 10) /\
  exists s' frames ctx' last' out,
    MicrocarPlant.step (deliver (replicate 8 170)) Debug (MicrocarPlant.new 10) 0 [] = Ret (s', frames) /\
    bms_cycle true 100 frames ctx 0 = Ret (ctx', last', out) /\ seq ctx' = 0.
Proof.
  intros ctx. assert (H : plant_inv (MicrocarPlant.new 10)) by (apply new_plant_inv; lia).
  split; [exact H|].
  destruct (bms_publishes_plant Debug (MicrocarPlant.new 10) 0 (replicate 8 170) true 100 ctx 0 H)
    as (s' & frames & ctx' & status & Hs & Hc & Hseq & _).
  eexists s', frames, ctx', _, _. split; [exact Hs|]. split; [exact Hc|]. rewrite Hseq. reflexivity.
Defined.
End Bms.
