(* ===== verification/CPowertrainEcu.v ===== *)
(** * The powertrain ECU ([firmware/powertrain_ecu/src/main.c])

    The context, the frame handlers, the watchdog's timer callback and the body of the main
    task's loop.  A turn builds its command without a blocking call, so the timer's callback
    runs before or after a turn.  What the counting semaphore answers is an argument.  The tasks that only
    trace (sensor poll, deadline monitor, logger) are not modelled. *)

From S2P Require Import Prelude MachineInt Protocol CBase CProtocol CFirmware CFrames Plant CBmsEcu.

Module powertrain_ctx.
Import torque_controller watchdog_task.

Record powertrain_ctx_t := {
  tc : torque_controller_t;
  wd : watchdog_task_t;
  diag_force_service_mode : Z;
  charging_force_mode : Z;
  diag_service_clamp_bug : Z;
}.

Definition with_tc (ctx : powertrain_ctx_t) (t : torque_controller_t) : powertrain_ctx_t := {|
  tc := t; wd := wd ctx; diag_force_service_mode := diag_force_service_mode ctx;
  charging_force_mode := charging_force_mode ctx; diag_service_clamp_bug := diag_service_clamp_bug ctx |}.

Definition with_wd (ctx : powertrain_ctx_t) (w : watchdog_task_t) : powertrain_ctx_t := {|
  tc := tc ctx; wd := w; diag_force_service_mode := diag_force_service_mode ctx;
  charging_force_mode := charging_force_mode ctx; diag_service_clamp_bug := diag_service_clamp_bug ctx |}.

Definition with_flags (ctx : powertrain_ctx_t) (service charging bug : Z) : powertrain_ctx_t := {|
  tc := tc ctx; wd := wd ctx; diag_force_service_mode := service; charging_force_mode := charging;
  diag_service_clamp_bug := bug |}.

(** The timer callback: the context and whether it traces a timeout. *)
Definition watchdog_timer_cb (ctx : powertrain_ctx_t) (now_ms : Z) : powertrain_ctx_t * Z :=
  let '(w, timeout) := watchdog_check (wd ctx) now_ms in
  let ctx := with_wd ctx w in
  if truthy timeout then (with_tc ctx (with_output (tc ctx) (output_torque (tc ctx)) 0), timeout)
  else (ctx, timeout).

Definition powertrain_init (ctx : powertrain_ctx_t) : powertrain_ctx_t :=
  with_wd (with_tc ctx torque_controller_init) watchdog_init.

Definition powertrain_enable_dogfood_service_mode (ctx : powertrain_ctx_t) : powertrain_ctx_t :=
  with_flags ctx 1 (charging_force_mode ctx) (diag_service_clamp_bug ctx).
Definition powertrain_enable_dogfood_charging (ctx : powertrain_ctx_t) : powertrain_ctx_t :=
  with_flags ctx (diag_force_service_mode ctx) 1 (diag_service_clamp_bug ctx).
Definition powertrain_enable_dogfood_service_clamp_bug (ctx : powertrain_ctx_t) : powertrain_ctx_t :=
  with_flags ctx 1 (charging_force_mode ctx) 1.

(** ** Handlers *)

Definition handle_driver_input (ctx : powertrain_ctx_t) (frame : mc_can_frame_t) : outcome powertrain_ctx_t :=
  let! throttle := load (data frame) 0 in
  let! brake := load (data frame) 1 in
  let! gear := if 3 <=? len frame then load (data frame) 2 else Ret 0 in
  Ret (with_tc ctx (torque_controller_set_input (tc ctx) throttle brake gear)).

Definition handle_vehicle_mode (ctx : powertrain_ctx_t) (frame : mc_can_frame_t) : outcome powertrain_ctx_t :=
  let! mode := load (data frame) 0 in
  Ret (with_tc ctx (torque_controller_set_mode (tc ctx) mode)).

Definition handle_bms_limits (ctx : powertrain_ctx_t) (frame : mc_can_frame_t) : outcome powertrain_ctx_t :=
  let! max_torque := load (data frame) 0 in
  Ret (with_tc ctx (torque_controller_set_bms_limit (tc ctx) max_torque)).

Definition handle_gateway_heartbeat (ctx : powertrain_ctx_t) (now_ms : Z) : powertrain_ctx_t :=
  with_wd ctx (watchdog_gateway_beat (wd ctx) now_ms).

(** [now_ms]: the time the kernel gives while the frame is handled. *)
Definition dispatch_frame (ctx : powertrain_ctx_t) (frame : mc_can_frame_t) (now_ms : Z)
    : outcome powertrain_ctx_t :=
  if id frame =? MC_MSG_DRIVER_INPUT then handle_driver_input ctx frame
  else if id frame =? MC_MSG_VEHICLE_MODE then handle_vehicle_mode ctx frame
  else if id frame =? MC_MSG_BMS_LIMITS then handle_bms_limits ctx frame
  else if id frame =? MC_MSG_HEARTBEAT then
    if sender frame =? MC_NODE_GATEWAY then Ret (handle_gateway_heartbeat ctx now_ms) else Ret ctx
  else Ret ctx.

(** ** Sending *)

Definition MC_MOTOR_COMMAND_MSG_SIZE : Z := Z.of_nat (sizeof (map fst (mc_motor_command_msg_t 0 0))).

(** [taken]: whether a mailbox slot was free in time. *)
Definition can_tx_with_semaphore (taken : bool) (frame : mc_can_frame_t) : list mc_can_frame_t :=
  if taken then [frame] else [].

Definition send_heartbeat (now_ms : Z) : outcome mc_can_frame_t := heartbeat_frame MC_NODE_POWERTRAIN now_ms.

Definition send_motor_command (ctx : powertrain_ctx_t) (torque : Z) : outcome mc_can_frame_t :=
  let tx := mc_frame_init MC_MSG_MOTOR_COMMAND MC_NODE_POWERTRAIN MC_MOTOR_COMMAND_MSG_SIZE in
  let! d := store (data tx) 0 (cast U8 torque) in
  let! d := store d 1 (motor_enable (tc ctx)) in
  Ret {| id := id tx; sender := sender tx; data := d; len := len tx |}.

(** ** One turn of the main loop *)

(** The modes the dogfood flags force. *)
Definition force_modes (ctx : powertrain_ctx_t) : powertrain_ctx_t :=
  let force m ctx :=
    let t := torque_controller_set_mode (tc ctx) m in
    with_tc ctx (torque_controller_set_input t 80 0 0) in
  let ctx := if truthy (diag_force_service_mode ctx) then force VEHICLE_SERVICE ctx else ctx in
  if truthy (charging_force_mode ctx) then force VEHICLE_CHARGING ctx else ctx.

(** The torque of this turn, the seeded defect included. *)
Definition cycle_torque (ctx : powertrain_ctx_t) : powertrain_ctx_t * Z :=
  let '(t, torque) := torque_controller_compute (tc ctx) in
  let ctx := with_tc ctx t in
  if truthy (diag_service_clamp_bug ctx) && (vehicle_mode (tc ctx) =? VEHICLE_SERVICE) then
    let torque := cast I8 (throttle_percent (tc ctx)) in
    (with_tc ctx (with_output (tc ctx) (output_torque (tc ctx)) 1), torque)
  else (ctx, torque).

(** The value both trace calls of the loop record. *)
Definition command_trace (ctx : powertrain_ctx_t) (torque : Z) : Z :=
  Z.lor (Z.shiftl (cast U8 torque) 8) (motor_enable (tc ctx)).

Definition traces (ctx : powertrain_ctx_t) (torque : Z) : list (string * Z) :=
  (if vehicle_mode (tc ctx) =? VEHICLE_SERVICE then [("diag_motor_command", command_trace ctx torque)] else []) ++
  (if vehicle_mode (tc ctx) =? VEHICLE_CHARGING then [("charging_motor_command", command_trace ctx torque)] else []).

(** [rxs]: the frames of the receive phase with the time of their handling; [slots]: what the
    semaphore answers for the command and for the heartbeat. *)
Definition powertrain_cycle (slots : bool * bool) (now_ms : Z) (rxs : list (mc_can_frame_t * Z))
    (ctx : powertrain_ctx_t) : outcome (powertrain_ctx_t * list mc_can_frame_t * list (string * Z)) :=
  let! ctx := ofold (fun ctx '(rx, now) => dispatch_frame ctx rx now) ctx rxs in
  let ctx := force_modes ctx in
  let '(ctx, torque) := cycle_torque ctx in
  let! command := send_motor_command ctx torque in
  let! heartbeat :=
    if now_ms mod 100 =? 0 then
      let! tx := send_heartbeat now_ms in Ret (can_tx_with_semaphore (snd slots) tx)
    else Ret [] in
  Ret (ctx, can_tx_with_semaphore (fst slots) command ++ heartbeat, traces ctx torque).

End powertrain_ctx.

(** ** One turn of the loop *)

Section Powertrain.
Import torque_controller powertrain_ctx.

(** The controller's inputs are bytes and the seeded defect is off. *)
Record ctx_ok (ctx : powertrain_ctx_t) : Prop := {
  throttle_u8 : fits U8 (throttle_percent (tc ctx));
  limit_u8 : fits U8 (bms_torque_limit (tc ctx));
  no_seeded_bug : diag_service_clamp_bug ctx = 0;
}.

(** The limit a frame leaves in force. *)
Definition limit_after (limit : Z) (f : mc_can_frame_t) : Z :=
  if id f =? MC_MSG_BMS_LIMITS then byte f 0 else limit.

Lemma powertrain_dispatch_ok ctx f now :
  ctx_ok ctx -> frame_ok f ->
  exists ctx', dispatch_frame ctx f now = Ret ctx' /\ ctx_ok ctx' /\
    bms_torque_limit (tc ctx') = limit_after (bms_torque_limit (tc ctx)) f.
Proof.
  intros [Ht Hl Hb] Hf. unfold dispatch_frame, limit_after.
  assert (forall i, (i < 8)%nat -> load (data f) (Z.of_nat i) = Ret (byte f i) /\ fits U8 (byte f i))
    as Hload by (intros; by apply load_byte).
  destruct (Hload 0%nat) as [H0 F0]; [lia|]. destruct (Hload 1%nat) as [H1 F1]; [lia|].
  destruct (Hload 2%nat) as [H2 F2]; [lia|]. cbv [Z.of_nat Pos.of_succ_nat Pos.succ] in H0, H1, H2.
  destruct (Z.eqb_spec (id f) MC_MSG_DRIVER_INPUT) as [->|_].
  { unfold handle_driver_input. rewrite H0, H1. cbn [obind].
    destruct (3 <=? len f); rewrite ?H2; cbn [obind]; eexists; (split; [done|]); (split; [by split|done]). }
  destruct (Z.eqb_spec (id f) MC_MSG_VEHICLE_MODE) as [->|_].
  { unfold handle_vehicle_mode. rewrite H0. cbn [obind]. eexists. split; [done|]. split; [by split|done]. }
  destruct (Z.eqb_spec (id f) MC_MSG_BMS_LIMITS) as [E|_].
  { unfold handle_bms_limits. rewrite H0. cbn [obind]. eexists. split; [done|]. split; [by split|done]. }
  destruct (id f =? MC_MSG_HEARTBEAT); [|by exists ctx].
  destruct (sender f =? MC_NODE_GATEWAY); eexists; (split; [done|]); (split; [by split|done]).
Qed.

Lemma received_ok rxs ctx :
  ctx_ok ctx -> Forall (fun '(f, _) => frame_ok f) rxs ->
  exists ctx', ofold (fun ctx '(rx, now) => dispatch_frame ctx rx now) ctx rxs = Ret ctx' /\ ctx_ok ctx' /\
    bms_torque_limit (tc ctx') = fold_left limit_after (map fst rxs) (bms_torque_limit (tc ctx)).
Proof.
  intros Hc Hrx. revert ctx Hc. induction Hrx as [|[f now] rxs Hf Hrx IH]; intros ctx Hc; [by exists ctx|].
  cbn [ofold map fst fold_left]. destruct (powertrain_dispatch_ok ctx f now Hc Hf) as (ctx1 & -> & Hc1 & <-).
  cbn [obind]. by apply IH.
Qed.

Lemma forced_ok ctx :
  ctx_ok ctx -> ctx_ok (force_modes ctx) /\
  bms_torque_limit (tc (force_modes ctx)) = bms_torque_limit (tc ctx).
Proof.
  intros []. unfold force_modes.
  destruct (truthy (diag_force_service_mode ctx)); cbn [charging_force_mode with_tc];
    destruct (truthy (charging_force_mode ctx)); (split; [by split|done]).
Qed.

(** Without the defect the turn commands what the controller computes. *)
Lemma cycle_torque_eq ctx :
  ctx_ok ctx ->
  cycle_torque ctx = (with_tc ctx (fst (torque_controller_compute (tc ctx))), snd (torque_controller_compute (tc ctx))).
Proof.
  intros [_ _ Hb]. unfold cycle_torque. destruct (torque_controller_compute (tc ctx)) as [t torque].
  cbn [diag_service_clamp_bug with_tc]. by rewrite Hb.
Qed.

Lemma command_eq ctx torque :
  send_motor_command ctx torque =
  Ret (frame_of MC_MSG_MOTOR_COMMAND MC_NODE_POWERTRAIN [cast U8 torque; motor_enable (tc ctx)]).
Proof. reflexivity. Qed.

Lemma command_decodes torque enable rest :
  fits I8 torque -> fits U8 enable ->
  mc_decode_motor_command (cast U8 torque :: enable :: rest) = Ret (torque, enable).
Proof.
  intros Ht He.
  change (Ret (cast I8 (cast U8 torque + 256 * 0), cast U8 (enable + 256 * 0)) = Ret (torque, enable)).
  replace (cast U8 torque + 256 * 0) with (cast U8 torque) by lia.
  replace (enable + 256 * 0) with enable by lia. rewrite (cast_id U8 enable He). do 2 f_equal.
  rewrite <- (cast_id I8 torque Ht) at 2. unfold cast. cbn [signed andb].
  change (modulus U8) with 256. change (modulus I8) with 256. by rewrite Z.mod_mod by lia.
Qed.

(** What the controller computes under a limit. *)
Lemma computed_bounds t :
  fits U8 (throttle_percent t) -> fits U8 (bms_torque_limit t) ->
  let '(t', torque) := torque_controller_compute t in
  0 <= torque <= Z.min 100 (bms_torque_limit t) /\ (motor_enable t' = 0 \/ motor_enable t' = 1) /\
  (motor_enable t' = 0 -> torque = 0) /\
  throttle_percent t' = throttle_percent t /\ bms_torque_limit t' = bms_torque_limit t.
Proof.
  intros Ht Hl. pose proof (compute_torque t Hl Ht) as Hc. pose proof (compute_enable t Hl Ht) as He.
  assert (0 <= throttle_percent t /\ 0 <= bms_torque_limit t) as [Ht0 Hl0] by int_lia.
  assert (motor_enable (fst (torque_controller_compute t)) = 0 \/
          motor_enable (fst (torque_controller_compute t)) = 1) as Hor.
  { unfold torque_controller_compute. destruct (truthy (safety_rules.safety_throttle_invalid _)); [by left|].
    cbn [fst motor_enable with_output]. destruct (truthy _); auto. }
  assert (throttle_percent (fst (torque_controller_compute t)) = throttle_percent t /\
          bms_torque_limit (fst (torque_controller_compute t)) = bms_torque_limit t) as [E1 E2]
    by (unfold torque_controller_compute; by destruct (truthy (safety_rules.safety_throttle_invalid _))).
  destruct (torque_controller_compute t) as [t' torque]. cbn [fst snd] in *.
  split_and!; try done; subst torque; unfold c_torque_ceiling, MC_TORQUE_LIMP_MAX_PERCENT;
    repeat case_match; lia.
Qed.

Lemma cycle_ok slots now_ms rxs ctx :
  ctx_ok ctx -> Forall (fun '(f, _) => frame_ok f) rxs ->
  exists ctx' sent tr torque enable,
    powertrain_cycle slots now_ms rxs ctx = Ret (ctx', sent, tr) /\ ctx_ok ctx' /\
    0 <= torque <= Z.min 100 (fold_left limit_after (map fst rxs) (bms_torque_limit (tc ctx))) /\
    (enable = 0 -> torque = 0) /\
    forall f, f ∈ sent -> id f = MC_MSG_MOTOR_COMMAND -> mc_decode_motor_command (data f) = Ret (torque, enable).
Proof.
  intros Hc Hrx. unfold powertrain_cycle.
  destruct (received_ok rxs ctx Hc Hrx) as (ctx1 & -> & Hc1 & <-). cbn [obind].
  destruct (forced_ok ctx1 Hc1) as [Hc2 <-]. set (ctx2 := force_modes ctx1) in *.
  rewrite cycle_torque_eq by done. pose proof (computed_bounds (tc ctx2) (throttle_u8 _ Hc2) (limit_u8 _ Hc2)) as Hb.
  destruct (torque_controller_compute (tc ctx2)) as [t torque]. cbn [fst snd].
  destruct Hb as (Hbd & Hen & Hz & E1 & E2). rewrite command_eq. cbn [obind].
  unfold send_heartbeat. rewrite heartbeat_frame_eq. cbn [obind tc with_tc].
  exists (with_tc ctx2 t),
    (can_tx_with_semaphore (fst slots) (frame_of MC_MSG_MOTOR_COMMAND MC_NODE_POWERTRAIN [cast U8 torque; motor_enable t]) ++
     if now_ms mod 100 =? 0 then
       can_tx_with_semaphore (snd slots)
         (frame_of MC_MSG_HEARTBEAT MC_NODE_POWERTRAIN (heartbeat_payload MC_NODE_POWERTRAIN now_ms))
     else []), (traces (with_tc ctx2 t) torque), torque, (motor_enable t).
  split; [by destruct (now_ms mod 100 =? 0)|]. split.
  { destruct Hc2. split; cbn [tc with_tc diag_service_clamp_bug]; rewrite ?E1, ?E2; done. }
  split_and!; [apply Hbd|apply Hbd|exact Hz|].
  assert (fits I8 torque) as Ht8 by (assert (bms_torque_limit (tc ctx2) <= 255) by (destruct Hc2; int_lia); int_lia).
  assert (fits U8 (motor_enable t)) as He8 by (destruct Hen as [->| ->]; int_lia).
  intros f Hf Hid. apply elem_of_app in Hf as [Hf|Hf].
  - destruct (fst slots); cbn in Hf; [|by apply not_elem_of_nil in Hf].
    apply list_elem_of_singleton in Hf as ->. by apply command_decodes.
  - destruct (now_ms mod 100 =? 0), (snd slots); cbn in Hf; try by apply not_elem_of_nil in Hf.
    apply list_elem_of_singleton in Hf as ->. done.
Qed.

(** ** From the plant to the motor *)

Lemma limit_survives rxs limit :
  Forall (fun '(f, _) => id f <> MC_MSG_BMS_LIMITS) rxs ->
  fold_left limit_after (map (fst : mc_can_frame_t * Z -> mc_can_frame_t) rxs) limit = limit.
Proof.
  intros H. revert limit. induction H as [|[f at_] rxs Hf _ IH]; intros limit; [done|].
  cbn [map fst fold_left]. unfold limit_after at 2. rewrite (proj2 (Z.eqb_neq _ _) Hf). apply IH.
Qed.

Lemma received_frame_ok held can_id payload :
  length held = 8%nat -> (length payload <= 8)%nat -> Forall (fits U8) held -> Forall (fits U8) payload ->
  frame_ok (receive held can_id payload).
Proof.
  intros Hl Hp Hh Hb. split; unfold receive; cbn [data].
  - rewrite length_app, length_drop. change (Z.to_nat MC_CAN_MAX_DATA) with 8%nat. lia.
  - apply Forall_app. split; [done|by apply Forall_drop].
Qed.

Lemma limit_fits t : fits U8 (fst (limit_by_temp t)) /\ fits U8 (snd (limit_by_temp t)).
Proof. unfold limit_by_temp. destruct (900 <=? t), (750 <=? t), (600 <=? t); cbn [fst snd]; split; int_lia. Qed.

(** C3: Over-temperature end to end, through three programs.  A plant tick, the turn of the BMS
    that handles its frames on a 50 ms boundary, and any later turn of the powertrain whose
    frames contain the limits the BMS sent and no later ones: whatever else the powertrain
    receives, in any order, and whatever its state was, no program leaves an array, and the
    motor command it sends carries at most 25 percent of torque from 75.0 degrees of the
    plant's battery and none from 90.0, and never torque with the motor disabled.  The torque
    is thus within what the documents allow at every temperature; at exactly 75.0 and 90.0
    degrees, where they still allow full torque and 25 percent, the limit already holds. *)
Theorem overheating_stops_motor p s now held created now_b last ctx_b held' before at_ after slots now_p ctx :
  plant_inv s -> now_b mod 50 = 0 -> ctx_ok ctx ->
  length held' = 8%nat -> Forall (fits U8) held' ->
  Forall (fun '(f, _) => frame_ok f) (before ++ after) ->
  Forall (fun '(f, _) => id f <> MC_MSG_BMS_LIMITS) after ->
  exists s' frames ctx_b' last' out limits ctx' sent tr torque enable,
    MicrocarPlant.step (deliver held) p s now [] = Ret (s', frames) /\
    bms_ctx.bms_cycle created now_b frames ctx_b last = Ret (ctx_b', last', out) /\ limits ∈ out /\
    powertrain_cycle slots now_p (before ++ (over_the_bus held' limits, at_) :: after) ctx =
      Ret (ctx', sent, tr) /\
    (forall f, f ∈ sent -> id f = MC_MSG_MOTOR_COMMAND ->
       mc_decode_motor_command (data f) = Ret (torque, enable)) /\
    (enable = 0 -> torque = 0) /\
    0 <= torque <= documented_ceiling (BatteryModel.temp_c_x10 (MicrocarPlant.battery s')) /\
    (750 <= BatteryModel.temp_c_x10 (MicrocarPlant.battery s') -> torque <= 25) /\
    (900 <= BatteryModel.temp_c_x10 (MicrocarPlant.battery s') -> torque = 0).
Proof.
  intros Hi Hnow Hc Hl Hh Hrx Hafter. apply Forall_app in Hrx as [Hb Ha].
  destruct (bms_publishes_plant p s now held created now_b ctx_b last Hi)
    as (s' & frames & ctx_b' & status & Hs & Hbms & _).
  set (t := BatteryModel.temp_c_x10 (MicrocarPlant.battery s')) in *.
  set (payload := [fst (limit_by_temp t); snd (limit_by_temp t)]).
  destruct (limit_fits t) as [Hf1 Hf2].
  assert (frame_ok (receive held' MC_MSG_BMS_LIMITS payload)) as Hok.
  { apply received_frame_ok; [done|cbn; lia|done|by repeat apply Forall_cons_2]. }
  destruct (cycle_ok slots now_p (before ++ (receive held' MC_MSG_BMS_LIMITS payload, at_) :: after) ctx Hc)
    as (ctx' & sent & tr & torque & enable & Hcycle & _ & Hbound & Hen & Hdec).
  { apply Forall_app. split; [done|]. by apply Forall_cons. }
  rewrite map_app, fold_left_app in Hbound. cbn [map fst fold_left] in Hbound.
  rewrite limit_survives in Hbound by done.
  change (limit_after _ (receive held' MC_MSG_BMS_LIMITS payload)) with (fst (limit_by_temp t)) in Hbound.
  exists s', frames, ctx_b', (fault_by_temp t), (status :: periodic_frames now_b last t), (frame_of MC_MSG_BMS_LIMITS MC_NODE_BMS payload), ctx', sent, tr, torque, enable.
  split; [exact Hs|]. split; [exact Hbms|]. split.
  { unfold periodic_frames. rewrite Hnow. apply list_elem_of_further. by left. }
  rewrite frame_of_received. split; [exact Hcycle|]. split; [exact Hdec|]. split; [exact Hen|].
  fold t. unfold documented_ceiling.
  unfold limit_by_temp in Hbound. repeat case_match; cbn [fst] in Hbound; bool_prop; lia.
Qed.

(** A plant whose battery is forced to 95 degrees, a car at full throttle. *)
Lemma overheating_stops_motor_witness :
  let plant := MicrocarPlant.with_battery (MicrocarPlant.new 10)
                 (BatteryModel.force_temperature (MicrocarPlant.battery (MicrocarPlant.new 10)) 95) in
  let ctx_b := {| bms_ctx.calib_running := false; bms_ctx.calib_requested := 0; bms_ctx.calib_done := 0;
                  bms_ctx.bs := bms_state.bms_state_init; bms_ctx.seq := 0;
                  bms_ctx.bl := bms_limits.bms_limits_init |} in
  let ctx := powertrain_init {| tc := torque_controller_init; wd := watchdog_task.watchdog_init;
               diag_force_service_mode := 0; charging_force_mode := 0; diag_service_clamp_bug := 0 |} in
  let held := replicate 8 0 in
  let rx i bytes := (receive held i bytes, 0) in
  let before := [rx MC_MSG_VEHICLE_MODE [VEHICLE_DRIVE; 0]; rx MC_MSG_DRIVER_INPUT [100; 0; 1]] in
  plant_inv plant /\
  exists s' frames ctx_b' last' out limits ctx' sent tr torque enable,
    MicrocarPlant.step (deliver held) Debug plant 0 [] = Ret (s', frames) /\
    bms_ctx.bms_cycle false 50 frames ctx_b 0 = Ret (ctx_b', last', out) /\ limits ∈ out /\
    powertrain_cycle (true, true) 60 (before ++ [(over_the_bus held limits, 55)]) ctx = Ret (ctx', sent, tr) /\
    (forall f, f ∈ sent -> id f = MC_MSG_MOTOR_COMMAND -> mc_decode_motor_command (data f) = Ret (torque, enable)) /\
    torque = 0.
Proof.
  intros plant ctx_b ctx held rx before.
  assert (plant_inv plant) as Hi.
  { destruct (new_plant_inv 10) as [Hv Hb Ht Hs]; [lia|]. split; [exact Hv| |exact Ht|exact Hs].
    repeat split; vm_compute; discriminate. }
  assert (ctx_ok ctx) as Hc by (split; [split; vm_compute; discriminate..|reflexivity]).
  assert (Forall (fits U8) held) as Hh by (repeat apply Forall_cons_2; try apply Forall_nil_2; split; vm_compute; discriminate).
  split; [exact Hi|].
  destruct (overheating_stops_motor Debug plant 0 held false 50 0 ctx_b held before 55 [] (true, true) 60 ctx
              Hi eq_refl Hc eq_refl Hh)
    as (s' & frames & ctx_b' & last' & out & limits & ctx' & sent & tr & torque & enable &
        Hs & Hb & Hl & Hp & Hd & _ & _ & _ & Hstop).
  - rewrite app_nil_r. repeat apply Forall_cons_2; try apply Forall_nil_2;
      (apply received_frame_ok; [reflexivity|vm_compute; lia|exact Hh|];
       repeat apply Forall_cons_2; try apply Forall_nil_2; split; vm_compute; discriminate).
  - apply Forall_nil_2.
  - exists s', frames, ctx_b', last', out, limits, ctx', sent, tr, torque, enable.
    split_and!; try assumption. apply Hstop. vm_compute in Hs. injection Hs as <- _. vm_compute. discriminate.
Defined.

(** ** What the watchdog changes *)

(** What happens to the task: the timer, or a turn of the loop. *)
Inductive event : Type :=
  | Timer (now_ms : Z)
  | Turn (slots : bool * bool) (now_ms : Z) (rxs : list (mc_can_frame_t * Z)).

Definition handle (ctx : powertrain_ctx_t) (e : event)
    : outcome (powertrain_ctx_t * list mc_can_frame_t * list (string * Z)) :=
  match e with
  | Timer now_ms => Ret (fst (watchdog_timer_cb ctx now_ms), [], [])
  | Turn slots now_ms rxs => powertrain_cycle slots now_ms rxs ctx
  end.

(** Everything the task sends and traces. *)
Fixpoint sent (ctx : powertrain_ctx_t) (es : list event)
    : outcome (list mc_can_frame_t * list (string * Z)) :=
  match es with
  | [] => Ret ([], [])
  | e :: es =>
      let! (ctx, frames, tr) := handle ctx e in
      let! (frames', tr') := sent ctx es in
      Ret (frames ++ frames', tr ++ tr')
  end.

(** The context without what the watchdog and the previous turn wrote. *)
Definition forget (ctx : powertrain_ctx_t) : powertrain_ctx_t :=
  with_wd (with_tc ctx (with_output (tc ctx) 0 0)) watchdog_task.watchdog_init.

Definition silent_frames (rxs : list (mc_can_frame_t * Z)) : list (mc_can_frame_t * Z) :=
  List.filter (fun '(f, _) => negb (id f =? MC_MSG_HEARTBEAT)) rxs.

(** The history without the timer and without heartbeats. *)
Definition strip (es : list event) : list event :=
  flat_map (fun e =>
    match e with
    | Timer _ => []
    | Turn slots now_ms rxs => [Turn slots now_ms (silent_frames rxs)]
    end) es.

Lemma dispatch_heartbeat ctx f now :
  id f = MC_MSG_HEARTBEAT -> exists w, dispatch_frame ctx f now = Ret (with_wd ctx w).
Proof.
  intros E. unfold dispatch_frame. rewrite E. simpl.
  destruct (sender f =? MC_NODE_GATEWAY); [by eexists|]. exists (wd ctx). by destruct ctx.
Qed.

Lemma dispatch_forget ctx f now :
  id f <> MC_MSG_HEARTBEAT ->
  dispatch_frame (forget ctx) f now = omap_ret forget (dispatch_frame ctx f now).
Proof.
  intros Hne. unfold dispatch_frame. rewrite (proj2 (Z.eqb_neq _ _) Hne).
  unfold handle_driver_input, handle_vehicle_mode, handle_bms_limits.
  destruct (id f =? MC_MSG_DRIVER_INPUT).
  { destruct (load (data f) 0); [|done]. cbn [obind]. destruct (load (data f) 1); [|done]. cbn [obind].
    destruct (3 <=? len f); [by destruct (load (data f) 2)|done]. }
  destruct (id f =? MC_MSG_VEHICLE_MODE); [by destruct (load (data f) 0)|].
  destruct (id f =? MC_MSG_BMS_LIMITS); [by destruct (load (data f) 0)|done].
Qed.

Lemma forget_received rxs ctx :
  ofold (fun ctx '(rx, now) => dispatch_frame ctx rx now) (forget ctx) (silent_frames rxs) =
  omap_ret forget (ofold (fun ctx '(rx, now) => dispatch_frame ctx rx now) ctx rxs).
Proof.
  revert ctx. induction rxs as [|[f now] rxs IH]; intros ctx; [done|].
  unfold silent_frames. cbn [List.filter]. fold (silent_frames rxs).
  destruct (Z.eqb_spec (id f) MC_MSG_HEARTBEAT) as [E|Hne]; cbn [negb ofold].
  - destruct (dispatch_heartbeat ctx f now E) as [w ->]. cbn [obind]. by rewrite <- IH.
  - rewrite dispatch_forget by done. destruct (dispatch_frame ctx f now); cbn [omap_ret obind]; [|done].
    apply IH.
Qed.

Lemma forget_forced ctx : force_modes (forget ctx) = forget (force_modes ctx).
Proof.
  unfold force_modes.
  change (diag_force_service_mode (forget ctx)) with (diag_force_service_mode ctx).
  destruct (truthy (diag_force_service_mode ctx)); cbn [charging_force_mode with_tc];
    change (charging_force_mode (forget ctx)) with (charging_force_mode ctx);
    by destruct (truthy (charging_force_mode ctx)).
Qed.

Lemma forget_torque ctx :
  cycle_torque (forget ctx) =
  (with_wd (fst (cycle_torque ctx)) watchdog_task.watchdog_init, snd (cycle_torque ctx)).
Proof.
  unfold cycle_torque.
  change (torque_controller_compute (tc (forget ctx))) with (torque_controller_compute (tc ctx)).
  destruct (torque_controller_compute (tc ctx)) as [t torque].
  cbn [diag_service_clamp_bug forget with_wd with_tc tc]. by destruct (_ && _).
Qed.

(** One turn: the same frames and traces, and contexts that agree but for the watchdog. *)
Lemma forget_turn slots now_ms rxs ctx :
  omap_ret (fun '(c, f, t) => (forget c, f, t)) (powertrain_cycle slots now_ms (silent_frames rxs) (forget ctx)) =
  omap_ret (fun '(c, f, t) => (forget c, f, t)) (powertrain_cycle slots now_ms rxs ctx).
Proof.
  unfold powertrain_cycle. rewrite forget_received.
  destruct (ofold _ ctx rxs) as [ctx1|]; cbn [omap_ret obind]; [|done].
  rewrite forget_forced, forget_torque. destruct (cycle_torque (force_modes ctx1)) as [ctx2 torque].
  cbn [fst snd]. rewrite !command_eq. unfold send_heartbeat. rewrite heartbeat_frame_eq. cbn [obind].
  by destruct (now_ms mod 100 =? 0).
Qed.

Lemma forget_timer ctx now_ms : forget (fst (watchdog_timer_cb ctx now_ms)) = forget ctx.
Proof.
  unfold watchdog_timer_cb. destruct (watchdog_task.watchdog_check (wd ctx) now_ms) as [w timeout].
  by destruct (truthy timeout).
Qed.

Lemma forget_idem ctx : forget (forget ctx) = forget ctx.
Proof. done. Qed.

Lemma silent_idem rxs : silent_frames (silent_frames rxs) = silent_frames rxs.
Proof.
  unfold silent_frames. induction rxs as [|[f now] rxs IH]; [done|]. cbn [List.filter].
  destruct (negb (id f =? MC_MSG_HEARTBEAT)) eqn:E; cbn [List.filter]; rewrite ?E; congruence.
Qed.

(** The contexts may differ in what [forget] forgets. *)
Lemma strip_sent es ctx ctx' : forget ctx = forget ctx' -> sent ctx es = sent ctx' (strip es).
Proof.
  revert ctx ctx'. induction es as [|e es IH]; intros ctx ctx' Hf; [done|].
  destruct e as [now_ms|slots now_ms rxs]; cbn [strip flat_map app sent handle obind].
  - rewrite (IH _ ctx') by (by rewrite forget_timer). fold (strip es).
    destruct (sent ctx' (strip es)) as [[fs tr]|]; done.
  - fold (strip es).
    pose proof (forget_turn slots now_ms rxs ctx) as H1.
    pose proof (forget_turn slots now_ms (silent_frames rxs) ctx') as H2.
    rewrite silent_idem, <- Hf, H1 in H2.
    destruct (powertrain_cycle slots now_ms rxs ctx) as [[[c f] t]|],
      (powertrain_cycle slots now_ms (silent_frames rxs) ctx') as [[[c' f'] t']|]; cbn in H2; try done.
    assert (forget c = forget c' /\ f = f' /\ t = t') as (Hc & -> & ->) by (split_and!; congruence).
    cbn [obind]. by rewrite (IH c c' Hc).
Qed.

(** C7: The watchdog never reaches the motor.  Whatever the powertrain does from its start on,
    the frames it sends, motor commands included, are those it would send if the watchdog
    timer never fired and no heartbeat ever arrived: each turn recomputes the command and
    the enable flag from mode, driver and limits, and so undoes the callback's disabling. *)
Theorem watchdog_never_reaches_motor ctx es :
  sent (powertrain_init ctx) es = sent (powertrain_init ctx) (strip es) /\
  (forall now_ms, forget (fst (watchdog_timer_cb ctx now_ms)) = forget ctx) /\
  Forall (fun e => match e with Timer _ => False | Turn _ _ rxs => silent_frames rxs = rxs end) (strip es).
Proof.
  split; [by apply strip_sent|]. split; [intros now_ms; apply forget_timer|].
  induction es as [|[now_ms|slots now_ms rxs] es IH]; cbn; [done|exact IH|].
  constructor; [apply silent_idem|exact IH].
Qed.

(** A car in DRIVE at 80 percent of throttle whose gateway has never been heard of: the timer
    reports the timeout every 50 ms, and the motor is still commanded 80 percent, enabled. *)
Example torque_without_gateway :
  let rx i bytes := (receive (replicate 8 0) i bytes, 0) in
  let drive := [rx MC_MSG_VEHICLE_MODE [VEHICLE_DRIVE; 0]; rx MC_MSG_DRIVER_INPUT [80; 0; 1]] in
  let start := powertrain_init {| tc := torque_controller_init; wd := watchdog_task.watchdog_init;
                 diag_force_service_mode := 0; charging_force_mode := 0; diag_service_clamp_bug := 0 |} in
  (let! (ctx, _, _) := powertrain_cycle (true, true) 10 drive start in
   let '(ctx, timeout) := watchdog_timer_cb ctx 1000 in
   let! (_, frames, _) := powertrain_cycle (true, true) 1010 [] ctx in
   Ret (timeout, map (fun f => mc_decode_motor_command (data f)) frames)) = Ret (1, [Ret (80, 1)]).
Proof. reflexivity. Qed.

End Powertrain.
