(* ===== verification/CGatewayEcu.v ===== *)
(** * The gateway ECU ([firmware/gateway_ecu/src/main.c])

    The context, the frame handlers, the diagnostics service, the four dogfood scripts, the
    aggregator and the body of the main task's loop, as tasks over [gateway_ctx_t].  Whether the
    mutex of the fault manager was obtained is an argument of what takes it.  The receive task
    is the sequence of its dispatches; the loops around the bodies and the counter task are the
    simulator's. *)

From S2P Require Import Prelude MachineInt Protocol CBase CProtocol CFirmware CTables CMonitors COtaSlot.
From S2P Require Import CFrames CTask.

Definition MC_NODE_DIAGNOSTICS : Z := 5.
Definition MC_MSG_DIAG_REQUEST : Z := 0x600.
Definition MC_MSG_DIAG_RESPONSE : Z := 0x601.

Definition MC_DIAG_START_SESSION : Z := 1.
Definition MC_DIAG_READ_MODE : Z := 2.
Definition MC_DIAG_READ_DTCS : Z := 3.
Definition MC_DIAG_CLEAR_DTCS : Z := 4.
Definition MC_DIAG_LIVE_BMS : Z := 5.
Definition MC_DIAG_ACTUATOR_TEST : Z := 6.
Definition MC_DIAG_END_SESSION : Z := 7.

Definition MC_DIAG_OK : Z := 0.
Definition MC_DIAG_REJECTED : Z := 1.
Definition MC_DIAG_UNSUPPORTED : Z := 2.

Definition mc_diag_request_msg_t (source_node service request_id param : Z) : list (ity * Z) :=
  [(U8, source_node); (U8, service); (U8, request_id); (U8, param)].
Definition mc_diag_response_msg_t (source_node service request_id status value0 value1 : Z) : list (ity * Z) :=
  [(U8, source_node); (U8, service); (U8, request_id); (U8, status); (U8, value0); (U8, value1)].

Definition MC_DIAG_REQUEST_MSG_SIZE : Z := Z.of_nat (sizeof (map fst (mc_diag_request_msg_t 0 0 0 0))).
Definition MC_DIAG_RESPONSE_MSG_SIZE : Z := Z.of_nat (sizeof (map fst (mc_diag_response_msg_t 0 0 0 0 0 0))).
Definition MC_VEHICLE_MODE_MSG_SIZE : Z := Z.of_nat (sizeof (map fst (mc_vehicle_mode_msg_t 0 0))).

Module gateway_ctx.

Record hb_event_t := { ev_sender : Z; uptime_ms : Z }.

Definition OTA_FAULT_NONE : Z := 0.
Definition OTA_FAULT_BAD_CRC : Z := 1.
Definition OTA_FAULT_INTERRUPTED_WRITE : Z := 2.
Definition OTA_FAULT_BAD_HEALTH : Z := 3.
Definition OTA_FAULT_POWERCUT_PRECOMMIT : Z := 4.

(** The flags the boot functions set; no task writes them. *)
Record flags_t := {
  diag_dogfood_script : Z;
  diag_dogfood_inject_fault : Z;
  charging_dogfood_script : Z;
  ota_dogfood_script : Z;
  ota_fault_mode : Z;
  ota_crc_check_bug : Z;
  diag_extra_pt_fault : Z;
  diag_clear_all_bug : Z;
  diag_startdrive_script : Z;
  diag_startsession_drive_bug : Z;
}.

(** A script's clock and the mask of what it has done. *)
Record cursor := { script_ms : Z; script_sent : Z }.

(** The kernel objects are what they hold: the bits of the event group, the queue of 16
    heartbeats, the pending notification of the main task. *)
Record gateway_ctx_t := {
  gs : gateway_state.gateway_state_t;
  hm : heartbeat_monitor.heartbeat_monitor_t;
  fm : fault_manager.fault_manager_t;
  diag_session_active : Z;
  flags : flags_t;
  mode_events : Z;
  hb_queue : list hb_event_t;
  notified : option Z;
  ota : mc_ota.mc_ota_slot_state_t;
  ota_inited : Z;
  diag_script : cursor;
  charging_script : cursor;
  ota_script : cursor;
  startdrive_script : cursor;
}.

Definition set_gs (x : gateway_state.gateway_state_t) (ctx : gateway_ctx_t) : gateway_ctx_t := {|
  gs := x; hm := hm ctx; fm := fm ctx; diag_session_active := diag_session_active ctx;
  flags := flags ctx; mode_events := mode_events ctx; hb_queue := hb_queue ctx;
  notified := notified ctx; ota := ota ctx; ota_inited := ota_inited ctx;
  diag_script := diag_script ctx; charging_script := charging_script ctx;
  ota_script := ota_script ctx; startdrive_script := startdrive_script ctx |}.

Definition set_hm (x : heartbeat_monitor.heartbeat_monitor_t) (ctx : gateway_ctx_t) : gateway_ctx_t := {|
  gs := gs ctx; hm := x; fm := fm ctx; diag_session_active := diag_session_active ctx;
  flags := flags ctx; mode_events := mode_events ctx; hb_queue := hb_queue ctx;
  notified := notified ctx; ota := ota ctx; ota_inited := ota_inited ctx;
  diag_script := diag_script ctx; charging_script := charging_script ctx;
  ota_script := ota_script ctx; startdrive_script := startdrive_script ctx |}.

Definition set_fm (x : fault_manager.fault_manager_t) (ctx : gateway_ctx_t) : gateway_ctx_t := {|
  gs := gs ctx; hm := hm ctx; fm := x; diag_session_active := diag_session_active ctx;
  flags := flags ctx; mode_events := mode_events ctx; hb_queue := hb_queue ctx;
  notified := notified ctx; ota := ota ctx; ota_inited := ota_inited ctx;
  diag_script := diag_script ctx; charging_script := charging_script ctx;
  ota_script := ota_script ctx; startdrive_script := startdrive_script ctx |}.

Definition set_diag_session_active (x : Z) (ctx : gateway_ctx_t) : gateway_ctx_t := {|
  gs := gs ctx; hm := hm ctx; fm := fm ctx; diag_session_active := x; flags := flags ctx;
  mode_events := mode_events ctx; hb_queue := hb_queue ctx; notified := notified ctx;
  ota := ota ctx; ota_inited := ota_inited ctx; diag_script := diag_script ctx;
  charging_script := charging_script ctx; ota_script := ota_script ctx;
  startdrive_script := startdrive_script ctx |}.

Definition set_flags (x : flags_t) (ctx : gateway_ctx_t) : gateway_ctx_t := {|
  gs := gs ctx; hm := hm ctx; fm := fm ctx; diag_session_active := diag_session_active ctx;
  flags := x; mode_events := mode_events ctx; hb_queue := hb_queue ctx; notified := notified ctx;
  ota := ota ctx; ota_inited := ota_inited ctx; diag_script := diag_script ctx;
  charging_script := charging_script ctx; ota_script := ota_script ctx;
  startdrive_script := startdrive_script ctx |}.

Definition set_mode_events (x : Z) (ctx : gateway_ctx_t) : gateway_ctx_t := {|
  gs := gs ctx; hm := hm ctx; fm := fm ctx; diag_session_active := diag_session_active ctx;
  flags := flags ctx; mode_events := x; hb_queue := hb_queue ctx; notified := notified ctx;
  ota := ota ctx; ota_inited := ota_inited ctx; diag_script := diag_script ctx;
  charging_script := charging_script ctx; ota_script := ota_script ctx;
  startdrive_script := startdrive_script ctx |}.

Definition set_hb_queue (x : list hb_event_t) (ctx : gateway_ctx_t) : gateway_ctx_t := {|
  gs := gs ctx; hm := hm ctx; fm := fm ctx; diag_session_active := diag_session_active ctx;
  flags := flags ctx; mode_events := mode_events ctx; hb_queue := x; notified := notified ctx;
  ota := ota ctx; ota_inited := ota_inited ctx; diag_script := diag_script ctx;
  charging_script := charging_script ctx; ota_script := ota_script ctx;
  startdrive_script := startdrive_script ctx |}.

Definition set_notified (x : option Z) (ctx : gateway_ctx_t) : gateway_ctx_t := {|
  gs := gs ctx; hm := hm ctx; fm := fm ctx; diag_session_active := diag_session_active ctx;
  flags := flags ctx; mode_events := mode_events ctx; hb_queue := hb_queue ctx; notified := x;
  ota := ota ctx; ota_inited := ota_inited ctx; diag_script := diag_script ctx;
  charging_script := charging_script ctx; ota_script := ota_script ctx;
  startdrive_script := startdrive_script ctx |}.

Definition set_ota (x : mc_ota.mc_ota_slot_state_t) (ctx : gateway_ctx_t) : gateway_ctx_t := {|
  gs := gs ctx; hm := hm ctx; fm := fm ctx; diag_session_active := diag_session_active ctx;
  flags := flags ctx; mode_events := mode_events ctx; hb_queue := hb_queue ctx;
  notified := notified ctx; ota := x; ota_inited := ota_inited ctx; diag_script := diag_script ctx;
  charging_script := charging_script ctx; ota_script := ota_script ctx;
  startdrive_script := startdrive_script ctx |}.

Definition set_ota_inited (x : Z) (ctx : gateway_ctx_t) : gateway_ctx_t := {|
  gs := gs ctx; hm := hm ctx; fm := fm ctx; diag_session_active := diag_session_active ctx;
  flags := flags ctx; mode_events := mode_events ctx; hb_queue := hb_queue ctx;
  notified := notified ctx; ota := ota ctx; ota_inited := x; diag_script := diag_script ctx;
  charging_script := charging_script ctx; ota_script := ota_script ctx;
  startdrive_script := startdrive_script ctx |}.

Definition set_diag_script (x : cursor) (ctx : gateway_ctx_t) : gateway_ctx_t := {|
  gs := gs ctx; hm := hm ctx; fm := fm ctx; diag_session_active := diag_session_active ctx;
  flags := flags ctx; mode_events := mode_events ctx; hb_queue := hb_queue ctx;
  notified := notified ctx; ota := ota ctx; ota_inited := ota_inited ctx; diag_script := x;
  charging_script := charging_script ctx; ota_script := ota_script ctx;
  startdrive_script := startdrive_script ctx |}.

Definition set_charging_script (x : cursor) (ctx : gateway_ctx_t) : gateway_ctx_t := {|
  gs := gs ctx; hm := hm ctx; fm := fm ctx; diag_session_active := diag_session_active ctx;
  flags := flags ctx; mode_events := mode_events ctx; hb_queue := hb_queue ctx;
  notified := notified ctx; ota := ota ctx; ota_inited := ota_inited ctx;
  diag_script := diag_script ctx; charging_script := x; ota_script := ota_script ctx;
  startdrive_script := startdrive_script ctx |}.

Definition set_ota_script (x : cursor) (ctx : gateway_ctx_t) : gateway_ctx_t := {|
  gs := gs ctx; hm := hm ctx; fm := fm ctx; diag_session_active := diag_session_active ctx;
  flags := flags ctx; mode_events := mode_events ctx; hb_queue := hb_queue ctx;
  notified := notified ctx; ota := ota ctx; ota_inited := ota_inited ctx;
  diag_script := diag_script ctx; charging_script := charging_script ctx; ota_script := x;
  startdrive_script := startdrive_script ctx |}.

Definition set_startdrive_script (x : cursor) (ctx : gateway_ctx_t) : gateway_ctx_t := {|
  gs := gs ctx; hm := hm ctx; fm := fm ctx; diag_session_active := diag_session_active ctx;
  flags := flags ctx; mode_events := mode_events ctx; hb_queue := hb_queue ctx;
  notified := notified ctx; ota := ota ctx; ota_inited := ota_inited ctx;
  diag_script := diag_script ctx; charging_script := charging_script ctx;
  ota_script := ota_script ctx; startdrive_script := x |}.

(** ** Boot *)

(** The instance state before its first use. *)
Definition no_flags : flags_t := {|
  diag_dogfood_script := 0; diag_dogfood_inject_fault := 0; charging_dogfood_script := 0;
  ota_dogfood_script := 0; ota_fault_mode := 0; ota_crc_check_bug := 0; diag_extra_pt_fault := 0;
  diag_clear_all_bug := 0; diag_startdrive_script := 0; diag_startsession_drive_bug := 0 |}.

Definition zeroed : gateway_ctx_t := {|
  gs := gateway_state.gateway_state_reboot gateway_state.gateway_state_init;
  hm := heartbeat_monitor.heartbeat_monitor_init 0; fm := fault_manager.fault_manager_init;
  diag_session_active := 0; flags := no_flags; mode_events := 0; hb_queue := []; notified := None;
  ota := mc_ota.init; ota_inited := 0;
  diag_script := {| script_ms := 0; script_sent := 0 |};
  charging_script := {| script_ms := 0; script_sent := 0 |};
  ota_script := {| script_ms := 0; script_sent := 0 |};
  startdrive_script := {| script_ms := 0; script_sent := 0 |} |}.

Definition gateway_init : task gateway_ctx_t unit :=
  do! ctx := tget in
  let ctx := set_gs gateway_state.gateway_state_init ctx in
  let ctx := set_fm fault_manager.fault_manager_init ctx in
  let hm := heartbeat_monitor.heartbeat_monitor_init MC_SAFETY_BMS_HEARTBEAT_TIMEOUT_MS in
  do! hm := tlift (ofold (fun hm node =>
    omap_ret fst (heartbeat_monitor.heartbeat_monitor_register hm node MC_SAFETY_BMS_HEARTBEAT_TIMEOUT_MS))
    hm [MC_NODE_POWERTRAIN; MC_NODE_BMS; MC_NODE_DASHBOARD]) in
  tput (set_hm hm ctx).

Definition gateway_enable_dogfood_diag_script (inject_fault : Z) (f : flags_t) : flags_t := {|
  diag_dogfood_script := 1; diag_dogfood_inject_fault := if truthy inject_fault then 1 else 0;
  charging_dogfood_script := charging_dogfood_script f; ota_dogfood_script := ota_dogfood_script f;
  ota_fault_mode := ota_fault_mode f; ota_crc_check_bug := ota_crc_check_bug f;
  diag_extra_pt_fault := diag_extra_pt_fault f; diag_clear_all_bug := diag_clear_all_bug f;
  diag_startdrive_script := diag_startdrive_script f;
  diag_startsession_drive_bug := diag_startsession_drive_bug f |}.

Definition gateway_enable_dogfood_diag_clear_dtcs (buggy : Z) (f : flags_t) : flags_t := {|
  diag_dogfood_script := 1; diag_dogfood_inject_fault := 1;
  charging_dogfood_script := charging_dogfood_script f; ota_dogfood_script := ota_dogfood_script f;
  ota_fault_mode := ota_fault_mode f; ota_crc_check_bug := ota_crc_check_bug f;
  diag_extra_pt_fault := 1; diag_clear_all_bug := if truthy buggy then 1 else 0;
  diag_startdrive_script := diag_startdrive_script f;
  diag_startsession_drive_bug := diag_startsession_drive_bug f |}.

Definition gateway_enable_dogfood_diag_startdrive (buggy : Z) (f : flags_t) : flags_t := {|
  diag_dogfood_script := diag_dogfood_script f; diag_dogfood_inject_fault := diag_dogfood_inject_fault f;
  charging_dogfood_script := charging_dogfood_script f; ota_dogfood_script := ota_dogfood_script f;
  ota_fault_mode := ota_fault_mode f; ota_crc_check_bug := ota_crc_check_bug f;
  diag_extra_pt_fault := diag_extra_pt_fault f; diag_clear_all_bug := diag_clear_all_bug f;
  diag_startdrive_script := 1; diag_startsession_drive_bug := if truthy buggy then 1 else 0 |}.

Definition gateway_enable_dogfood_charging_script (f : flags_t) : flags_t := {|
  diag_dogfood_script := diag_dogfood_script f; diag_dogfood_inject_fault := diag_dogfood_inject_fault f;
  charging_dogfood_script := 1; ota_dogfood_script := ota_dogfood_script f;
  ota_fault_mode := ota_fault_mode f; ota_crc_check_bug := ota_crc_check_bug f;
  diag_extra_pt_fault := diag_extra_pt_fault f; diag_clear_all_bug := diag_clear_all_bug f;
  diag_startdrive_script := diag_startdrive_script f;
  diag_startsession_drive_bug := diag_startsession_drive_bug f |}.

(** The six OTA variants set the script, the fault mode and possibly the seeded defect. *)
Definition enable_ota (fault_mode : Z) (bug : bool) (f : flags_t) : flags_t := {|
  diag_dogfood_script := diag_dogfood_script f; diag_dogfood_inject_fault := diag_dogfood_inject_fault f;
  charging_dogfood_script := charging_dogfood_script f; ota_dogfood_script := 1;
  ota_fault_mode := fault_mode; ota_crc_check_bug := if bug then 1 else ota_crc_check_bug f;
  diag_extra_pt_fault := diag_extra_pt_fault f; diag_clear_all_bug := diag_clear_all_bug f;
  diag_startdrive_script := diag_startdrive_script f;
  diag_startsession_drive_bug := diag_startsession_drive_bug f |}.

Definition gateway_enable_dogfood_ota_script := enable_ota OTA_FAULT_NONE false.
Definition gateway_enable_dogfood_ota_fault_bad_crc := enable_ota OTA_FAULT_BAD_CRC false.
Definition gateway_enable_dogfood_ota_fault_interrupted_write := enable_ota OTA_FAULT_INTERRUPTED_WRITE false.
Definition gateway_enable_dogfood_ota_fault_bad_health := enable_ota OTA_FAULT_BAD_HEALTH false.
Definition gateway_enable_dogfood_ota_fault_powercut_precommit := enable_ota OTA_FAULT_POWERCUT_PRECOMMIT false.
Definition gateway_enable_dogfood_ota_bug_bad_crc := enable_ota OTA_FAULT_BAD_CRC true.

(** ** Message handlers *)

Definition modify (f : gateway_ctx_t -> gateway_ctx_t) : task gateway_ctx_t unit :=
  do! ctx := tget in tput (f ctx).

Definition set_mode (m : Z) (ctx : gateway_ctx_t) : gateway_ctx_t :=
  let g := gs ctx in
  set_gs {| gateway_state.mode := m; gateway_state.all_nodes_online := gateway_state.all_nodes_online g;
            gateway_state.bms_fault_active := gateway_state.bms_fault_active g;
            gateway_state.bms_limp_requested := gateway_state.bms_limp_requested g;
            gateway_state.active_fault_count := gateway_state.active_fault_count g;
            gateway_state.booted := gateway_state.booted g |} ctx.

(** [xEventGroupSetBits] *)
Definition set_bits (bits : Z) : task gateway_ctx_t unit :=
  modify (fun ctx => set_mode_events (Z.lor (mode_events ctx) bits) ctx).

Definition handle_heartbeat (now_ms : Z) (ev : hb_event_t) : task gateway_ctx_t unit :=
  do! ctx := tget in
  do! hm := tlift (heartbeat_monitor.heartbeat_monitor_beat (hm ctx) (ev_sender ev) now_ms) in
  tput (set_hm hm ctx).

(** [fault_manager_report] under the mutex. *)
Definition report (node code severity : Z) : task gateway_ctx_t unit :=
  do! ctx := tget in
  do! (fm, _) := tlift (fault_manager.fault_manager_report (fm ctx) node code severity) in
  tput (set_fm fm ctx).

(** [xTaskNotify] with [eSetValueWithoutOverwrite] *)
Definition notify (v : Z) : task gateway_ctx_t unit :=
  modify (fun ctx => match notified ctx with None => set_notified (Some v) ctx | Some _ => ctx end).

(** The main task's handle is set before any handler runs. *)
Definition handle_bms_fault (mutex : bool) (frame : mc_can_frame_t) : task gateway_ctx_t unit :=
  do! fault_code := tlift (load (data frame) 0) in
  let severity := fault_manager.fault_manager_bms_severity fault_code in
  twhen mutex
    (do! _ := report MC_NODE_BMS fault_code severity in
     twhen (severity =? 2) (notify fault_code)).

(** The turn of the loop of [first_active_dtc] on the count and the two outputs. *)
Definition dtc_body (fm : fault_manager.fault_manager_t) (i : Z) (s : Z * Z * Z)
    : outcome (ctl (Z * Z * Z) (Z * Z * Z)) :=
  let! f := load (fault_manager.faults fm) i in
  let '(count, source_node, fault_code) := s in
  if truthy (fault_manager.active f) then
    let '(source_node, fault_code) :=
      if count =? 0 then (fault_manager.source_node f, fault_manager.fault_code f)
      else (source_node, fault_code) in
    Ret (Next (cast U8 (count + 1), source_node, fault_code))
  else Ret (Next s).

Definition first_active_dtc (mutex : bool) : task gateway_ctx_t (Z * Z * Z) :=
  if mutex then
    do! ctx := tget in
    do! c := tlift (for_ (dtc_body (fm ctx)) 0 (Z.to_nat (fault_manager.fault_count (fm ctx))) (0, 0, 0)) in
    tret (match c with Next s => s | Done s => s end)
  else tret (0, 0, 0).

Definition send_diag_response (service request_id status value0 value1 : Z) : task gateway_ctx_t unit :=
  let tx := mc_frame_init MC_MSG_DIAG_RESPONSE MC_NODE_GATEWAY MC_DIAG_RESPONSE_MSG_SIZE in
  do! d := tlift (
    let! d := store (data tx) 0 MC_NODE_GATEWAY in
    let! d := store d 1 service in
    let! d := store d 2 request_id in
    let! d := store d 3 status in
    let! d := store d 4 value0 in
    store d 5 value1) in
  do! _ := sim_trace_u32 "gateway_diag_response"
    (Z.lor (Z.lor (Z.lor (Z.shiftl request_id 24) (Z.shiftl service 16)) (Z.shiftl status 8)) value0) in
  do! _ := sim_trace_u32 "gateway_diag_response_v1"
    (Z.lor (Z.lor (Z.shiftl request_id 24) (Z.shiftl service 16)) value1) in
  sim_can_send {| id := id tx; sender := sender tx; data := d; len := len tx |}.

Definition mode_of (ctx : gateway_ctx_t) : Z := gateway_state.mode (gs ctx).

(** The services: the status and the two values of the response. *)
Definition start_session : task gateway_ctx_t (Z * Z * Z) :=
  do! ctx := tget in
  if (mode_of ctx =? VEHICLE_DRIVE) && negb (truthy (diag_startsession_drive_bug (flags ctx))) then
    tret (MC_DIAG_REJECTED, mode_of ctx, 0)
  else
    do! _ := modify (fun ctx => set_mode VEHICLE_SERVICE (set_diag_session_active 1 ctx)) in
    do! _ := sim_trace_u32 "diag_session" 1 in
    do! _ := sim_trace_u32 "vehicle_mode" VEHICLE_SERVICE in
    do! _ := set_bits 1 in
    tret (MC_DIAG_OK, VEHICLE_SERVICE, 0).

Definition clear_dtcs (mutex : bool) : task gateway_ctx_t (Z * Z * Z) :=
  do! ctx := tget in
  if negb (truthy (diag_session_active ctx)) then tret (MC_DIAG_REJECTED, 0, 0)
  else
    do! _ := twhen mutex
      (do! fm := tlift (if truthy (diag_clear_all_bug (flags ctx))
                        then fault_manager.fault_manager_clear_all (fm ctx)
                        else fault_manager.fault_manager_clear_node (fm ctx) MC_NODE_BMS) in
       modify (set_fm fm)) in
    tret (MC_DIAG_OK, 0, 0).

Definition service_reply (mutex : bool) (service : Z) : task gateway_ctx_t (Z * Z * Z) :=
  if service =? MC_DIAG_START_SESSION then start_session
  else if service =? MC_DIAG_END_SESSION then
    do! _ := modify (set_diag_session_active 0) in
    do! ctx := tget in
    do! _ := sim_trace_u32 "diag_session" 0 in
    tret (MC_DIAG_OK, mode_of ctx, 0)
  else if service =? MC_DIAG_READ_MODE then do! ctx := tget in tret (MC_DIAG_OK, mode_of ctx, 0)
  else if service =? MC_DIAG_READ_DTCS then
    do! (count, _, fault_code) := first_active_dtc mutex in tret (MC_DIAG_OK, count, fault_code)
  else if service =? MC_DIAG_CLEAR_DTCS then clear_dtcs mutex
  else if service =? MC_DIAG_ACTUATOR_TEST then
    do! ctx := tget in
    tret (if truthy (diag_session_active ctx) && negb (mode_of ctx =? VEHICLE_DRIVE)
          then MC_DIAG_OK else MC_DIAG_REJECTED, mode_of ctx, 0)
  else tret (MC_DIAG_UNSUPPORTED, 0, 0).

Definition handle_diag_request (mutex : bool) (frame : mc_can_frame_t) : task gateway_ctx_t unit :=
  if len frame <? MC_DIAG_REQUEST_MSG_SIZE then tret tt
  else
    do! service := tlift (load (data frame) 1) in
    do! request_id := tlift (load (data frame) 2) in
    do! (status, value0, value1) := service_reply mutex service in
    send_diag_response service request_id status value0 value1.

(** ** Dogfood scripts *)

(** The functions leave the other bytes of the frame uninitialised; the handlers do not read
    them. *)
Definition synth_diag_request (mutex : bool) (service request_id : Z) : task gateway_ctx_t unit :=
  handle_diag_request mutex
    {| id := MC_MSG_DIAG_REQUEST; sender := MC_NODE_DIAGNOSTICS; len := MC_DIAG_REQUEST_MSG_SIZE;
       data := [MC_NODE_DIAGNOSTICS; service; request_id; 0] |}.

Definition synth_bms_fault (mutex : bool) (fault_code : Z) : task gateway_ctx_t unit :=
  handle_bms_fault mutex {| id := MC_MSG_BMS_FAULT; sender := MC_NODE_BMS; len := 1; data := [fault_code] |}.

Definition synth_report_fault (mutex : bool) (node fault_code severity : Z) : task gateway_ctx_t unit :=
  twhen mutex (report node fault_code severity).

(** One step of a script: its condition on the clock, its bit, what it does. *)
Definition once (get : gateway_ctx_t -> cursor) (set : cursor -> gateway_ctx_t -> gateway_ctx_t)
    (at_ms bit : Z) (act : task gateway_ctx_t unit) : task gateway_ctx_t unit :=
  do! ctx := tget in
  twhen ((at_ms <=? script_ms (get ctx)) && negb (truthy (Z.land (script_sent (get ctx)) bit)))
    (do! _ := act in
     modify (fun ctx => set {| script_ms := script_ms (get ctx);
                               script_sent := Z.lor (script_sent (get ctx)) bit |} ctx)).

(** [*script_ms += 10] *)
Definition advance (get : gateway_ctx_t -> cursor) (set : cursor -> gateway_ctx_t -> gateway_ctx_t)
    : task gateway_ctx_t unit :=
  modify (fun ctx => set {| script_ms := cast U32 (script_ms (get ctx) + 10);
                            script_sent := script_sent (get ctx) |} ctx).

Definition run_dogfood_diag_script (mutex : bool) : task gateway_ctx_t unit :=
  do! ctx := tget in
  let step := once diag_script set_diag_script in
  twhen (truthy (diag_dogfood_script (flags ctx)))
    (do! _ := advance diag_script set_diag_script in
     do! _ := step 100 0x01 (synth_diag_request mutex MC_DIAG_START_SESSION 1) in
     do! _ := step 200 0x02 (synth_diag_request mutex MC_DIAG_READ_MODE 2) in
     do! _ := twhen (truthy (diag_dogfood_inject_fault (flags ctx)))
       (do! _ := step 300 0x04 (synth_bms_fault mutex MC_BMS_FAULT_OVERTEMP) in
        twhen (truthy (diag_extra_pt_fault (flags ctx)))
          (step 310 0x80 (synth_report_fault mutex MC_NODE_POWERTRAIN
                            (WarningCode_as_u8 PowertrainOffline) 1))) in
     do! _ := step 350 0x08 (synth_diag_request mutex MC_DIAG_ACTUATOR_TEST 6) in
     do! _ := step 450 0x10 (synth_diag_request mutex MC_DIAG_READ_DTCS 3) in
     do! _ := step 650 0x20 (synth_diag_request mutex MC_DIAG_CLEAR_DTCS 4) in
     step 750 0x40 (synth_diag_request mutex MC_DIAG_READ_DTCS 5)).

Definition run_dogfood_diag_startdrive_script (mutex : bool) : task gateway_ctx_t unit :=
  do! ctx := tget in
  let step := once startdrive_script set_startdrive_script in
  twhen (truthy (diag_startdrive_script (flags ctx)))
    (do! _ := advance startdrive_script set_startdrive_script in
     do! _ := step 100 0x01
       (do! _ := modify (set_mode VEHICLE_DRIVE) in
        do! _ := sim_trace_u32 "vehicle_mode" VEHICLE_DRIVE in
        do! _ := set_bits 1 in
        synth_diag_request mutex MC_DIAG_START_SESSION 1) in
     step 200 0x02 (synth_diag_request mutex MC_DIAG_READ_MODE 2)).

Definition run_dogfood_charging_script : task gateway_ctx_t unit :=
  do! ctx := tget in
  let step := once charging_script set_charging_script in
  twhen (truthy (charging_dogfood_script (flags ctx)))
    (do! _ := advance charging_script set_charging_script in
     do! _ := step 100 0x01
       (do! _ := modify (set_mode VEHICLE_CHARGING) in
        do! _ := sim_trace_u32 "charging_plug" 1 in
        do! _ := sim_trace_u32 "gateway_charging_state" VEHICLE_CHARGING in
        do! _ := sim_trace_u32 "vehicle_mode" VEHICLE_CHARGING in
        set_bits 1) in
     step 300 0x02
       (do! _ := modify (fun ctx => set_gs (gateway_state.gateway_state_enter_drive (gs ctx)) ctx) in
        do! ctx := tget in
        do! _ := sim_trace_u32 "charging_drive_blocked" (if mode_of ctx =? VEHICLE_CHARGING then 1 else 0) in
        sim_trace_u32 "gateway_charging_state" (mode_of ctx))).

Definition emit_ota_rollback (s : mc_ota.mc_ota_slot_state_t) : task gateway_ctx_t unit :=
  do! _ := sim_trace_u32 "ota_state" (mc_ota.state s) in
  do! _ := sim_trace_u32 "ota_rollback" (mc_ota.rolled_back s) in
  do! _ := sim_trace_u32 "ota_active_slot" (mc_ota.active_slot s) in
  sim_trace_u32 "ota_boot_result" 0.

(** Calls on the slot state of the context. *)
Definition ota_do (f : mc_ota.mc_ota_slot_state_t -> mc_ota.mc_ota_slot_state_t) : task gateway_ctx_t unit :=
  modify (fun ctx => set_ota (f (ota ctx)) ctx).

Definition ota_call (f : mc_ota.mc_ota_slot_state_t -> mc_ota.mc_ota_slot_state_t * Z) : task gateway_ctx_t Z :=
  do! ctx := tget in
  let '(s, r) := f (ota ctx) in
  do! _ := tput (set_ota s ctx) in
  tret r.

Definition trace_ota (label : string) (field : mc_ota.mc_ota_slot_state_t -> Z) : task gateway_ctx_t unit :=
  do! ctx := tget in sim_trace_u32 label (field (ota ctx)).

Definition rollback_traces : task gateway_ctx_t unit := do! ctx := tget in emit_ota_rollback (ota ctx).

Definition in_state (st : Z) (act : task gateway_ctx_t unit) : task gateway_ctx_t unit :=
  do! ctx := tget in twhen (mc_ota.state (ota ctx) =? st) act.

Definition run_dogfood_ota_script : task gateway_ctx_t unit :=
  do! ctx := tget in
  let step := once ota_script set_ota_script in
  let fault := ota_fault_mode (flags ctx) in
  twhen (truthy (ota_dogfood_script (flags ctx)))
    (do! _ := twhen (negb (truthy (ota_inited ctx)))
       (modify (fun ctx => set_ota_inited 1 (set_ota mc_ota.init ctx))) in
     let download_complete := Z.b2z (negb (fault =? OTA_FAULT_INTERRUPTED_WRITE)) in
     let crc_ok := Z.b2z (negb (fault =? OTA_FAULT_BAD_CRC)) in
     let boot_healthy := Z.b2z (negb (fault =? OTA_FAULT_BAD_HEALTH)) in
     let crc_ok := if truthy (ota_crc_check_bug (flags ctx)) then 1 else crc_ok in
     do! _ := advance ota_script set_ota_script in
     do! _ := step 100 0x01 (trace_ota "ota_state" mc_ota.state) in
     do! _ := step 200 0x02
       (do! _ := ota_do mc_ota.begin_download in
        do! _ := trace_ota "ota_state" mc_ota.state in
        do! r := ota_call (fun s => mc_ota.finish_download s download_complete) in
        twhen (negb (truthy r)) rollback_traces) in
     do! _ := step 300 0x04 (in_state MC_OTA_DOWNLOADING
       (do! _ := sim_trace_u32 "ota_state" MC_OTA_VERIFYING in
        do! verified := ota_call (fun s => mc_ota.verify s crc_ok) in
        do! _ := trace_ota "ota_crc_ok" mc_ota.crc_ok in
        twhen (negb (truthy verified)) rollback_traces)) in
     do! _ := step 400 0x08 (in_state MC_OTA_VERIFYING
       (if fault =? OTA_FAULT_POWERCUT_PRECOMMIT then
          do! _ := ota_do mc_ota.rollback in rollback_traces
        else
          do! _ := ota_call mc_ota.commit in
          do! _ := trace_ota "ota_state" mc_ota.state in
          trace_ota "ota_slot" mc_ota.target_slot)) in
     do! _ := step 500 0x10 (in_state MC_OTA_COMMIT_PENDING
       (do! _ := ota_do mc_ota.reboot in trace_ota "ota_state" mc_ota.state)) in
     step 600 0x20 (in_state MC_OTA_REBOOTING
       (do! ok := ota_call (fun s => mc_ota.health_check s boot_healthy) in
        if truthy ok then
          do! _ := trace_ota "ota_state" mc_ota.state in
          trace_ota "ota_boot_result" mc_ota.boot_healthy
        else rollback_traces))).

(** ** The receive task *)

(** The queue has room for 16 heartbeats; more are dropped. *)
Definition queue_send (ev : hb_event_t) : task gateway_ctx_t unit :=
  modify (fun ctx => if (length (hb_queue ctx) <? 16)%nat then set_hb_queue (hb_queue ctx ++ [ev]) ctx else ctx).

Definition dispatch_frame_in_rx (mutex : bool) (frame : mc_can_frame_t) : task gateway_ctx_t unit :=
  if id frame =? MC_MSG_HEARTBEAT then
    do! b1 := tlift (load (data frame) 1) in
    do! b2 := tlift (load (data frame) 2) in
    do! b3 := tlift (load (data frame) 3) in
    do! b4 := tlift (load (data frame) 4) in
    queue_send {| ev_sender := sender frame;
                  uptime_ms := Z.lor (Z.lor (Z.lor (cast U32 (Z.shiftl b1 24)) (Z.shiftl b2 16)) (Z.shiftl b3 8)) b4 |}
  else if id frame =? MC_MSG_BMS_FAULT then handle_bms_fault mutex frame
  else if id frame =? MC_MSG_DIAG_REQUEST then handle_diag_request mutex frame
  else tret tt.

(** ** The main loop *)

Definition update_vehicle_mode (mutex : bool) (now_ms : Z) : task gateway_ctx_t Z :=
  do! ctx := tget in
  do! (hm, _) := tlift (heartbeat_monitor.heartbeat_monitor_check (hm ctx) now_ms) in
  do! _ := modify (set_hm hm) in
  do! all_online := tlift (heartbeat_monitor.heartbeat_monitor_all_online hm) in
  do! (bms_fault, fault_count) :=
    (if mutex then
       do! n := tlift (fault_manager.fault_manager_active_count (fm ctx)) in
       tret (fault_manager.fault_manager_has_critical (fm ctx), n)
     else tret (0, 0)) in
  let bms_limp := 0 in
  if negb (truthy bms_fault) && truthy (diag_session_active ctx) then
    do! _ := modify (set_gs {| gateway_state.mode := VEHICLE_SERVICE; gateway_state.all_nodes_online := all_online;
                               gateway_state.bms_fault_active := bms_fault;
                               gateway_state.bms_limp_requested := bms_limp;
                               gateway_state.active_fault_count := fault_count;
                               gateway_state.booted := gateway_state.booted (gs ctx) |}) in
    tret VEHICLE_SERVICE
  else
    let '(g, m) := gateway_state.gateway_state_update (gs ctx) all_online bms_fault bms_limp fault_count in
    do! _ := modify (set_gs g) in
    tret m.

Definition send_heartbeat (now_ms : Z) : task gateway_ctx_t unit :=
  do! tx := tlift (heartbeat_frame MC_NODE_GATEWAY now_ms) in sim_can_send tx.

Definition send_vehicle_mode (mutex : bool) : task gateway_ctx_t unit :=
  do! ctx := tget in
  let fault_cd := if mutex then (if 0 <? fault_manager.critical_count (fm ctx) then 1 else 0) else 0 in
  let tx := mc_frame_init MC_MSG_VEHICLE_MODE MC_NODE_GATEWAY MC_VEHICLE_MODE_MSG_SIZE in
  do! d := tlift (let! d := store (data tx) 0 (cast U8 (mode_of ctx)) in store d 1 fault_cd) in
  sim_can_send {| id := id tx; sender := sender tx; data := d; len := len tx |}.

(** [while (xQueueReceive(...) == pdTRUE) handle_heartbeat(...)] *)
Definition drain_heartbeats (now_ms : Z) : task gateway_ctx_t unit :=
  do! ctx := tget in
  do! _ := modify (set_hb_queue []) in
  tfor (handle_heartbeat now_ms) (hb_queue ctx).

(** The process phase: a node that has just gone offline. *)
Definition check_nodes (mutex : bool) (now_ms : Z) : task gateway_ctx_t unit :=
  do! ctx := tget in
  do! (hm, transitions) := tlift (heartbeat_monitor.heartbeat_monitor_check (hm ctx) now_ms) in
  do! _ := modify (set_hm hm) in
  twhen (0 <? transitions)
    (do! lost_node := tlift (heartbeat_monitor.heartbeat_monitor_last_transition_node hm) in
     twhen ((lost_node =? MC_NODE_BMS) && mutex) (report MC_NODE_BMS MC_BMS_FAULT_COMM_ERROR 2)).

Definition take_notification : task gateway_ctx_t unit :=
  do! ctx := tget in
  match notified ctx with
  | Some v =>
      do! _ := modify (set_notified None) in sim_trace_u32 "urgent_fault_notify" v
  | None => tret tt
  end.

(** What follows a mode update: its event bits and the broadcasts. *)
Definition announce_mode (mutex : bool) (now_ms old_mode new_mode : Z) : task gateway_ctx_t unit :=
  do! _ := twhen (negb (new_mode =? old_mode))
    (do! _ := sim_trace_u32 "vehicle_mode" new_mode in set_bits 1) in
  do! ctx := tget in
  do! _ := twhen (truthy (Z.land (mode_events ctx) 1))
    (do! _ := sim_trace_u32 "mode_event_group" (mode_events ctx) in
     modify (fun ctx => set_mode_events (Z.ldiff (mode_events ctx) 1) ctx)) in
  do! _ := twhen (now_ms mod 100 =? 0) (send_heartbeat now_ms) in
  twhen (negb (new_mode =? old_mode) || (now_ms mod 50 =? 0)) (send_vehicle_mode mutex).

Definition mode_phase (mutex : bool) (now_ms : Z) : task gateway_ctx_t unit :=
  do! ctx := tget in
  do! new_mode := update_vehicle_mode mutex now_ms in
  announce_mode mutex now_ms (mode_of ctx) new_mode.

(** One turn of the main task's loop. *)
Definition gateway_turn (mutex : bool) (now_ms : Z) : task gateway_ctx_t unit :=
  do! _ := drain_heartbeats now_ms in
  do! _ := run_dogfood_diag_script mutex in
  do! _ := run_dogfood_diag_startdrive_script mutex in
  do! _ := run_dogfood_charging_script in
  do! _ := run_dogfood_ota_script in
  do! _ := take_notification in
  do! _ := check_nodes mutex now_ms in
  mode_phase mutex now_ms.

(** One turn of the aggregator task. *)
Definition fault_aggregator_turn (mutex : bool) : task gateway_ctx_t unit :=
  do! ctx := tget in
  do! (critical, warning, active) :=
    (if mutex then
       do! n := tlift (fault_manager.fault_manager_active_count (fm ctx)) in
       tret (fault_manager.critical_count (fm ctx), fault_manager.warning_count (fm ctx), n)
     else tret (0, 0, 0)) in
  do! _ := sim_trace_u32 "fault_aggregate" (Z.lor (Z.lor (Z.shiftl critical 16) (Z.shiftl warning 8)) active) in
  twhen (0 <? critical) (set_bits 2).

End gateway_ctx.
