(* ===== verification/CCoordinator.v ===== *)
(** * Booting a machine ([firmware/microcar_coordinator.c])

    With the boot functions of the two demo programs, [firmware/lifecycle_stress_ecu] and
    [firmware/priority_inversion_demo].  Each boot function traces its name, sets the flags of its dogfood variant, creates the
    task of its ECU and traces how many tasks there are.  The Rust adapter chooses one by
    prefix ([Ecu.MicrocarFirmware.boot_entry]). *)

From S2P Require Import Prelude MachineInt RustStr Ecu CBase CProtocol CTask CPowertrainEcu CGatewayEcu.

Import MicrocarFirmware.

Definition GATEWAY_STACK_WORDS : Z := 1024.
Definition POWERTRAIN_STACK_WORDS : Z := 1024.
Definition BMS_STACK_WORDS : Z := 1024.
Definition DASHBOARD_STACK_WORDS : Z := 1024.
Definition DEMO_STACK_WORDS : Z := 1024.

Definition GATEWAY_PRIORITY : Z := 3.
Definition POWERTRAIN_PRIORITY : Z := 2.
Definition BMS_PRIORITY : Z := 2.
Definition DASHBOARD_PRIORITY : Z := 1.
Definition DEMO_PRIORITY : Z := 2.
Definition DIAGNOSTICS_PRIORITY : Z := 2.

(** A task with its name, stack and priority. *)
Record task_t := { task_name : string; stack_words : Z; priority : Z }.

Definition gateway_task : task_t := {| task_name := "gateway"; stack_words := GATEWAY_STACK_WORDS; priority := GATEWAY_PRIORITY |}.
Definition powertrain_task : task_t :=
  {| task_name := "powertrain"; stack_words := POWERTRAIN_STACK_WORDS; priority := POWERTRAIN_PRIORITY |}.
Definition bms_task : task_t := {| task_name := "bms"; stack_words := BMS_STACK_WORDS; priority := BMS_PRIORITY |}.
Definition dashboard_task : task_t :=
  {| task_name := "dashboard"; stack_words := DASHBOARD_STACK_WORDS; priority := DASHBOARD_PRIORITY |}.
Definition demo_task (n : string) : task_t :=
  {| task_name := n; stack_words := DEMO_STACK_WORDS; priority := DEMO_PRIORITY |}.

(** The tasks a boot function creates. *)
Definition tasks (b : boot_fn) : list task_t :=
  match b with
  | microcar_boot => [gateway_task; powertrain_task; bms_task; dashboard_task]
  | microcar_boot_gateway | microcar_boot_gateway_diag | microcar_boot_gateway_diag_fault
  | microcar_boot_gateway_diag_clear | microcar_boot_gateway_diag_clearbug
  | microcar_boot_gateway_diag_startdrive | microcar_boot_gateway_diag_startdrivebug
  | microcar_boot_gateway_charging | microcar_boot_gateway_ota | microcar_boot_gateway_ota_badcrc
  | microcar_boot_gateway_ota_intwrite | microcar_boot_gateway_ota_badhealth
  | microcar_boot_gateway_ota_powercut | microcar_boot_gateway_ota_crcbug => [gateway_task]
  | microcar_boot_powertrain | microcar_boot_powertrain_diag_service
  | microcar_boot_powertrain_diag_service_bug | microcar_boot_powertrain_charging => [powertrain_task]
  | microcar_boot_bms => [bms_task]
  | microcar_boot_dashboard => [dashboard_task]
  | microcar_boot_diagnostics_tool =>
      [{| task_name := "diagnostics_tool"; stack_words := DEMO_STACK_WORDS; priority := DIAGNOSTICS_PRIORITY |}]
  | microcar_boot_net_demo => [demo_task "net_demo"]
  | microcar_boot_storage_demo => [demo_task "storage_demo"]
  | microcar_boot_bt_demo => [demo_task "bt_demo"]
  | microcar_boot_ota_tool => [demo_task "ota_tool"]
  | microcar_boot_telematics => [demo_task "telematics"]
  | microcar_boot_lifecycle_stress => [{| task_name := "stress_sup"; stack_words := 1024; priority := 2 |}]
  | microcar_boot_priority_inversion =>
      [{| task_name := "task_a"; stack_words := 256; priority := 1 |};
       {| task_name := "task_b"; stack_words := 256; priority := 2 |}]
  end.

(** What a boot function traces: that it runs, and how many tasks it has created. *)
Definition boot_label (b : boot_fn) : string :=
  match b with
  | microcar_boot_priority_inversion => "pi_boot"
  | microcar_boot_lifecycle_stress => "lifecycle_boot"
  | microcar_boot_net_demo => "microcar_boot_net_demo"
  | microcar_boot_storage_demo => "microcar_boot_storage_demo"
  | microcar_boot_bt_demo => "microcar_boot_bt_demo"
  | microcar_boot_gateway_diag_clearbug => "microcar_boot_gateway_diag_clearbug"
  | microcar_boot_gateway_diag_clear => "microcar_boot_gateway_diag_clear"
  | microcar_boot_gateway_diag_startdrivebug => "microcar_boot_gateway_diag_startdrivebug"
  | microcar_boot_gateway_diag_startdrive => "microcar_boot_gateway_diag_startdrive"
  | microcar_boot_gateway_diag_fault => "microcar_boot_gateway_diag_fault"
  | microcar_boot_gateway_diag => "microcar_boot_gateway_diag"
  | microcar_boot_powertrain_diag_service_bug => "microcar_boot_powertrain_diag_service_bug"
  | microcar_boot_powertrain_diag_service => "microcar_boot_powertrain_diag_service"
  | microcar_boot_gateway_ota_badcrc => "microcar_boot_gateway_ota_badcrc"
  | microcar_boot_gateway_ota_intwrite => "microcar_boot_gateway_ota_intwrite"
  | microcar_boot_gateway_ota_badhealth => "microcar_boot_gateway_ota_badhealth"
  | microcar_boot_gateway_ota_powercut => "microcar_boot_gateway_ota_powercut"
  | microcar_boot_gateway_ota_crcbug => "microcar_boot_gateway_ota_crcbug"
  | microcar_boot_gateway_ota => "microcar_boot_gateway_ota"
  | microcar_boot_gateway_charging => "microcar_boot_gateway_charging"
  | microcar_boot_powertrain_charging => "microcar_boot_powertrain_charging"
  | microcar_boot_diagnostics_tool => "microcar_boot_diagnostics_tool"
  | microcar_boot_ota_tool => "microcar_boot_ota_tool"
  | microcar_boot_telematics => "microcar_boot_telematics"
  | microcar_boot_gateway => "microcar_boot_gateway"
  | microcar_boot_powertrain => "microcar_boot_powertrain"
  | microcar_boot_bms => "microcar_boot_bms"
  | microcar_boot_dashboard => "microcar_boot_dashboard"
  | microcar_boot => "microcar_boot"
  end.

Definition tasks_created_label (b : boot_fn) : string :=
  match b with microcar_boot_priority_inversion => "pi_tasks_created" | _ => "microcar_tasks_created" end.

Definition boot_traces (b : boot_fn) : list (string * Z) :=
  [(boot_label b, 1); (tasks_created_label b, Z.of_nat (length (tasks b)))].

(** The flags a boot function leaves in the zeroed context of a gateway. *)
Definition gateway_flags (b : boot_fn) : gateway_ctx.flags_t :=
  match b with
  | microcar_boot_gateway_diag => gateway_ctx.gateway_enable_dogfood_diag_script 0 gateway_ctx.no_flags
  | microcar_boot_gateway_diag_fault => gateway_ctx.gateway_enable_dogfood_diag_script 1 gateway_ctx.no_flags
  | microcar_boot_gateway_diag_clear => gateway_ctx.gateway_enable_dogfood_diag_clear_dtcs 0 gateway_ctx.no_flags
  | microcar_boot_gateway_diag_clearbug => gateway_ctx.gateway_enable_dogfood_diag_clear_dtcs 1 gateway_ctx.no_flags
  | microcar_boot_gateway_diag_startdrive => gateway_ctx.gateway_enable_dogfood_diag_startdrive 0 gateway_ctx.no_flags
  | microcar_boot_gateway_diag_startdrivebug => gateway_ctx.gateway_enable_dogfood_diag_startdrive 1 gateway_ctx.no_flags
  | microcar_boot_gateway_charging => gateway_ctx.gateway_enable_dogfood_charging_script gateway_ctx.no_flags
  | microcar_boot_gateway_ota => gateway_ctx.gateway_enable_dogfood_ota_script gateway_ctx.no_flags
  | microcar_boot_gateway_ota_badcrc => gateway_ctx.gateway_enable_dogfood_ota_fault_bad_crc gateway_ctx.no_flags
  | microcar_boot_gateway_ota_intwrite => gateway_ctx.gateway_enable_dogfood_ota_fault_interrupted_write gateway_ctx.no_flags
  | microcar_boot_gateway_ota_badhealth => gateway_ctx.gateway_enable_dogfood_ota_fault_bad_health gateway_ctx.no_flags
  | microcar_boot_gateway_ota_powercut => gateway_ctx.gateway_enable_dogfood_ota_fault_powercut_precommit gateway_ctx.no_flags
  | microcar_boot_gateway_ota_crcbug => gateway_ctx.gateway_enable_dogfood_ota_bug_bad_crc gateway_ctx.no_flags
  | _ => gateway_ctx.no_flags
  end.

(** What a boot function sets in the context of a powertrain. *)
Definition powertrain_flags (b : boot_fn) (ctx : powertrain_ctx.powertrain_ctx_t) : powertrain_ctx.powertrain_ctx_t :=
  match b with
  | microcar_boot_powertrain_diag_service => powertrain_ctx.powertrain_enable_dogfood_service_mode ctx
  | microcar_boot_powertrain_diag_service_bug => powertrain_ctx.powertrain_enable_dogfood_service_clamp_bug ctx
  | microcar_boot_powertrain_charging => powertrain_ctx.powertrain_enable_dogfood_charging ctx
  | _ => ctx
  end.
