(* ===== verification/CDiagTool.v ===== *)
(** * The diagnostics tool ([firmware/diagnostics_tool_ecu/src/main.c])

    A service tool on the bus: it sends a fixed script of requests, each once, traces the
    gateway's responses and sends a heartbeat every 100 ms. *)

From S2P Require Import Prelude MachineInt Protocol CBase CProtocol CFrames CTask CGatewayEcu.

Module diag_tool_ctx.

Record diag_tool_ctx_t := { sent_mask : Z; script_ms : Z }.

(** The instance state before its first use. *)
Definition zeroed : diag_tool_ctx_t := {| sent_mask := 0; script_ms := 0 |}.

Definition send_heartbeat (now_ms : Z) : task diag_tool_ctx_t unit :=
  do! tx := tlift (heartbeat_frame MC_NODE_DIAGNOSTICS now_ms) in
  sim_can_send tx.

Definition send_diag_request (service request_id param : Z) : task diag_tool_ctx_t unit :=
  let tx := mc_frame_init MC_MSG_DIAG_REQUEST MC_NODE_DIAGNOSTICS MC_DIAG_REQUEST_MSG_SIZE in
  do! d := tlift (
    let! d := store (data tx) 0 MC_NODE_DIAGNOSTICS in
    let! d := store d 1 service in
    let! d := store d 2 request_id in
    store d 3 param) in
  sim_can_send {| id := id tx; sender := sender tx; data := d; len := len tx |}.

Definition handle_diag_response (frame : mc_can_frame_t) : task diag_tool_ctx_t unit :=
  if len frame <? MC_DIAG_RESPONSE_MSG_SIZE then tret tt
  else
    do! service := tlift (load (data frame) 1) in
    do! request_id := tlift (load (data frame) 2) in
    do! status := tlift (load (data frame) 3) in
    do! value0 := tlift (load (data frame) 4) in
    do! value1 := tlift (load (data frame) 5) in
    do! _ := sim_trace_u32 "diag_response"
      (Z.lor (Z.lor (Z.lor (Z.shiftl request_id 24) (Z.shiftl service 16)) (Z.shiftl status 8)) value0) in
    if service =? MC_DIAG_START_SESSION then sim_trace_u32 "service_mode" value0
    else if service =? MC_DIAG_READ_MODE then sim_trace_u32 "read_mode" value0
    else if service =? MC_DIAG_READ_DTCS then
      do! _ := sim_trace_u32 "dtc_count" value0 in
      twhen (0 <? value0) (sim_trace_u32 "dtc_code" value1)
    else if service =? MC_DIAG_CLEAR_DTCS then sim_trace_u32 "dtc_cleared" 1
    else tret tt.

(** [if (ctx->script_ms >= at_ms && !(ctx->sent_mask & bit)) { send_diag_request(…); ctx->sent_mask |= bit; }] *)
Definition request_once (at_ms bit service request_id : Z) : task diag_tool_ctx_t unit :=
  do! ctx := tget in
  twhen ((at_ms <=? script_ms ctx) && negb (truthy (Z.land (sent_mask ctx) bit)))
    (do! _ := send_diag_request service request_id 0 in
     tput {| sent_mask := Z.lor (sent_mask ctx) bit; script_ms := script_ms ctx |}).

Definition run_script : task diag_tool_ctx_t unit :=
  do! _ := request_once 100 0x01 MC_DIAG_START_SESSION 1 in
  do! _ := request_once 200 0x02 MC_DIAG_READ_MODE 2 in
  do! _ := request_once 350 0x04 MC_DIAG_ACTUATOR_TEST 6 in
  do! _ := request_once 450 0x08 MC_DIAG_READ_DTCS 3 in
  do! _ := request_once 650 0x10 MC_DIAG_CLEAR_DTCS 4 in
  request_once 750 0x20 MC_DIAG_READ_DTCS 5.

(** The body of the receive loop. *)
Definition dispatch_frame (rx : mc_can_frame_t) : task diag_tool_ctx_t unit :=
  twhen ((id rx =? MC_MSG_DIAG_RESPONSE) && (sender rx =? MC_NODE_GATEWAY)) (handle_diag_response rx).

(** The body of the main loop; [rxs] are the frames the bus has for it. *)
Definition diag_turn (rxs : list mc_can_frame_t) : task diag_tool_ctx_t unit :=
  do! ctx := tget in
  do! _ := tput {| sent_mask := sent_mask ctx; script_ms := cast U32 (script_ms ctx + 10) |} in
  do! _ := run_script in
  do! _ := tfor dispatch_frame rxs in
  do! ctx := tget in
  twhen (script_ms ctx mod 100 =? 0) (send_heartbeat (script_ms ctx)).

(** The heartbeat before the loop, and the turns of the loop. *)
Definition diagnostics_tool_main (turns : list (list mc_can_frame_t)) : task diag_tool_ctx_t unit :=
  do! _ := send_heartbeat 0 in
  tfor diag_turn turns.

End diag_tool_ctx.
