(* ===== verification/CTelematics.v ===== *)
(** * The telematics unit and the update tool

    [firmware/telematics_ecu/src/main.c], [firmware/ota_tool_ecu/src/main.c] and the record of
    [common/include/microcar_telematics.h].  The Ethernet device and the CAN bus are not under
    [src]: what they answer in a period is the record [period].  The theorem compares what the
    telematics unit traces with what the telematics lane of the harness asks. *)

From S2P Require Import Prelude MachineInt Protocol CBase CProtocol CFrames CTask.
From S2P Require Import Lane TelematicsLane.

(** The identities the two programs give themselves. *)
Definition MC_NODE_TELEMATICS : Z := 6.
Definition MC_NODE_OTA_TOOL : Z := 5.

Definition NET_MTU : Z := 1500.
Definition TELEM_HEARTBEAT_PERIOD_MS : Z := 100.
Definition OTA_HEARTBEAT_PERIOD_MS : Z := 100.

(** [buf[i] = b0; buf[i + 1] = b1; …] *)
Fixpoint store_all (buf : list Z) (i : Z) (bytes : list Z) : outcome (list Z) :=
  match bytes with
  | [] => Ret buf
  | b :: bytes => let! buf := store buf i b in store_all buf (i + 1) bytes
  end.

(** The four bytes of a word, high byte first. *)
Definition be32 (v : Z) : list Z :=
  [cast U8 (Z.shiftr v 24); cast U8 (Z.shiftr v 16); cast U8 (Z.shiftr v 8); cast U8 v].

(** ** The status record of the header *)

Definition TELEM_REC_STATUS : Z := 1.
Definition TELEM_RECORD_HEADER_SIZE : Z := 3.
Definition sizeof_telem_status_t : Z := 12.

Definition telem_encode_status (buf : list Z) (uptime_ms send_count recv_count : Z) : outcome (list Z * Z) :=
  let payload_len := 1 + sizeof_telem_status_t in
  let! buf := store_all buf 0 ([cast U8 (Z.shiftr payload_len 8); cast U8 payload_len; TELEM_REC_STATUS]
    ++ be32 uptime_ms ++ be32 send_count ++ be32 recv_count) in
  Ret (buf, TELEM_RECORD_HEADER_SIZE + sizeof_telem_status_t).

(** ** The telematics unit *)

Module telem_ctx.

Record telem_ctx_t := { tick_count : Z; uptime_ms : Z; seq_no : Z }.

(** The context after the [memset] of the task. *)
Definition zeroed : telem_ctx_t := {| tick_count := 0; uptime_ms := 0; seq_no := 0 |}.

(** The frame [send_heartbeat] builds, sent as its callers do; the update tool has its copy. *)
Definition send_heartbeat {C : Type} (node now_ms : Z) : task C unit :=
  do! tx := tlift (heartbeat_frame node now_ms) in
  sim_can_send tx.

Definition build_telemetry_record (buf : list Z) (seq_no uptime_ms : Z) : outcome (list Z * Z) :=
  let payload_len := 9 in
  let total_len := 2 + payload_len in
  let! buf := store_all buf 0 ([cast U8 (Z.shiftr payload_len 8); cast U8 payload_len]
    ++ be32 seq_no ++ be32 uptime_ms ++ [MC_NODE_TELEMATICS]) in
  Ret (buf, total_len).

(** What the devices answer during a period: the Ethernet device to the bytes it is given, the
    lengths of the frames it received, the identifiers and lengths of the CAN frames. *)
Record period := { eth_send : list Z -> Z; eth_recv : list Z; can_recv : list (Z * Z) }.

(** The loop ends at the first length that is 0. *)
Fixpoint trace_can {C : Type} (l : list (Z * Z)) : task C unit :=
  match l with
  | [] => tret tt
  | (can_id, dlc) :: l =>
      twhen (0 <? dlc)
        (do! _ := sim_trace_u32 "telem_can_id" can_id in
         do! _ := sim_trace_u32 "telem_can_dlc" dlc in
         trace_can l)
  end.

(** The body of the main loop on the context and the send buffer. *)
Definition telem_turn (p : period) : task (telem_ctx_t * list Z) unit :=
  do! (ctx, net_buf) := tget in
  let ctx := {| uptime_ms := cast U32 (uptime_ms ctx + TELEM_HEARTBEAT_PERIOD_MS);
                tick_count := cast U32 (tick_count ctx + 1); seq_no := cast U32 (seq_no ctx + 1) |} in
  do! (net_buf, rec_len) := tlift (build_telemetry_record net_buf (seq_no ctx) (uptime_ms ctx)) in
  do! _ := tput (ctx, net_buf) in
  do! _ := sim_trace_u32 "telem_net_sent" (eth_send p (take (Z.to_nat rec_len) net_buf)) in
  do! _ := tfor (sim_trace_u32 "telem_net_recv") (eth_recv p) in
  do! _ := trace_can (can_recv p) in
  do! _ := send_heartbeat MC_NODE_TELEMATICS (uptime_ms ctx) in
  sim_trace_u32 "telem_hb" (tick_count ctx).

(** [reg_result]: the answer of [sim_eth_register]. *)
Definition telematics_main (reg_result : Z) (ps : list period) : task (telem_ctx_t * list Z) unit :=
  do! (_, net_buf) := tget in
  do! _ := tput (zeroed, net_buf) in
  do! _ := sim_trace_u32 "telematics_boot" 1 in
  do! _ := sim_trace_u32 "eth_register" reg_result in
  do! _ := send_heartbeat MC_NODE_TELEMATICS 0 in
  do! _ := sim_trace_u32 "telem_hb" 0 in
  tfor telem_turn ps.

End telem_ctx.

(** ** The update tool *)

Module ota_ctx.

Record ota_ctx_t := { tick_count : Z; uptime_ms : Z }.
Definition zeroed : ota_ctx_t := {| tick_count := 0; uptime_ms := 0 |}.

(** The commands on the bus: identifier and payload. *)
Fixpoint trace_commands (l : list (Z * list Z)) : task ota_ctx_t unit :=
  match l with
  | [] | (_, []) :: _ => tret tt
  | (can_id, b :: payload) :: l =>
      do! _ := sim_trace_u32 "ota_cmd_id" can_id in
      do! _ := sim_trace_u32 "ota_cmd_dlc" (Z.of_nat (length (b :: payload))) in
      do! _ := sim_trace_u32 "ota_cmd_byte0" b in
      trace_commands l
  end.

Definition ota_turn (rxs : list (Z * list Z)) : task ota_ctx_t unit :=
  do! ctx := tget in
  let ctx := {| uptime_ms := cast U32 (uptime_ms ctx + OTA_HEARTBEAT_PERIOD_MS);
                tick_count := cast U32 (tick_count ctx + 1) |} in
  do! _ := tput ctx in
  do! _ := trace_commands rxs in
  do! _ := telem_ctx.send_heartbeat MC_NODE_OTA_TOOL (uptime_ms ctx) in
  sim_trace_u32 "ota_tool_hb" (tick_count ctx).

Definition ota_tool_main (turns : list (list (Z * list Z))) : task ota_ctx_t unit :=
  do! _ := tput zeroed in
  do! _ := sim_trace_u32 "ota_tool_boot" 1 in
  do! _ := telem_ctx.send_heartbeat MC_NODE_OTA_TOOL 0 in
  do! _ := sim_trace_u32 "ota_tool_hb" 0 in
  tfor ota_turn turns.

End ota_ctx.

(** ** What the telematics unit does *)

Section Telematics.
Import telem_ctx.

Lemma store_all_eq pre bytes rest :
  (length bytes <= length rest)%nat ->
  store_all (pre ++ rest) (Z.of_nat (length pre)) bytes = Ret (pre ++ bytes ++ drop (length bytes) rest).
Proof.
  revert pre rest; induction bytes as [|b bytes IH]; intros pre rest Hl; [by rewrite drop_0|].
  destruct rest as [|r rest]; cbn [length] in Hl; [lia|]. cbn [store_all].
  rewrite store_middle. cbn [obind].
  replace (pre ++ b :: rest) with ((pre ++ [b]) ++ rest) by (by rewrite <- app_assoc).
  replace (Z.of_nat (length pre) + 1) with (Z.of_nat (length (pre ++ [b]))) by (rewrite length_app; cbn [length]; lia).
  rewrite IH by lia. by rewrite <- app_assoc.
Qed.

(** The record of a period: its length, the sequence number, the uptime, the node. *)
Definition record (seq_no uptime_ms : Z) : list Z := [0; 9] ++ be32 seq_no ++ be32 uptime_ms ++ [MC_NODE_TELEMATICS].

Lemma build_record_eq buf seq up :
  (11 <= length buf)%nat -> build_telemetry_record buf seq up = Ret (record seq up ++ drop 11 buf, 11).
Proof.
  intros Hl. unfold build_telemetry_record. cbv zeta.
  pose proof (store_all_eq [] (record seq up) buf Hl) as E. cbn [app length] in E. change (Z.of_nat 0) with 0 in E.
  change ([cast U8 (Z.shiftr 9 8); cast U8 9] ++ be32 seq ++ be32 up ++ [MC_NODE_TELEMATICS]) with (record seq up).
  by rewrite E.
Qed.

(** What a receiver reads in it. *)
Definition be_value (l : list Z) : Z := fold_left (fun a b => a * 256 + b) l 0.

Lemma be32_value v : be_value (be32 v) = v mod 2 ^ 32.
Proof.
  unfold be_value, be32. cbn [fold_left]. rewrite !Z.shiftr_div_pow2 by lia.
  change (cast U8 ?x) with (x mod 256). change (2 ^ 24) with (256 * 256 * 256). change (2 ^ 16) with (256 * 256). change (2 ^ 8) with 256.
  change (2 ^ 32) with (256 * (256 * (256 * 256))).
  rewrite !Z.rem_mul_r, <- !Z.div_div by lia. lia.
Qed.

Lemma record_reads_back seq up :
  be_value (take 2 (record seq up)) = Z.of_nat (length (drop 2 (record seq up))) /\
  be_value (take 4 (drop 2 (record seq up))) = seq mod 2 ^ 32 /\
  be_value (take 4 (drop 6 (record seq up))) = up mod 2 ^ 32.
Proof. split; [done|]. split; apply be32_value. Qed.

(** The context after [k] periods. *)
Definition ctx_at (k : Z) : telem_ctx_t :=
  {| tick_count := cast U32 k; uptime_ms := cast U32 (100 * k); seq_no := cast U32 k |}.

Definition can_traces : list (Z * Z) -> list (string * Z) :=
  fix go l := match l with
  | [] => []
  | (can_id, dlc) :: l => if 0 <? dlc then ("telem_can_id", can_id) :: ("telem_can_dlc", dlc) :: go l else []
  end.

Definition turn_traces (k : Z) (p : period) : list (string * Z) :=
  ("telem_net_sent", eth_send p (record (cast U32 k) (cast U32 (100 * k)))) ::
  map (pair "telem_net_recv") (eth_recv p) ++ can_traces (can_recv p) ++ [("telem_hb", cast U32 k)].

Definition heartbeat_at (k : Z) : mc_can_frame_t :=
  frame_of MC_MSG_HEARTBEAT MC_NODE_TELEMATICS (heartbeat_payload MC_NODE_TELEMATICS (cast U32 (100 * k))).

Lemma trace_can_eq {C : Type} l (c : C) :
  exists es, trace_can l c = Ret (tt, c, es) /\ traces es = can_traces l /\ frames es = [].
Proof.
  induction l as [|[i d] l (es & E & Ht & Hf)]; [by exists []|]. cbn [trace_can can_traces].
  destruct (0 <? d); cbn [twhen]; [|by exists []]. eexists. split.
  { unfold tbind at 1 2. cbn [sim_trace_u32 temit obind]. rewrite E. reflexivity. }
  cbn [app]. unfold traces, frames in *. cbn [omap list_omap]. by rewrite Ht, Hf.
Qed.

Lemma trace_all_eq {C : Type} label l (c : C) :
  exists es, tfor (sim_trace_u32 label) l c = Ret (tt, c, es) /\ traces es = map (pair label) l /\ frames es = [].
Proof.
  induction l as [|v l (es & E & Ht & Hf)]; [by exists []|]. exists (Trace label v :: es). cbn [tfor map].
  unfold tbind. cbn [sim_trace_u32 temit obind]. rewrite E. cbn [obind app]. split; [done|].
  unfold traces, frames in *. cbn [omap list_omap]. by rewrite Ht, Hf.
Qed.

Lemma telem_heartbeat {C : Type} node now_ms (c : C) :
  send_heartbeat node now_ms c = Ret (tt, c, [Send (frame_of MC_MSG_HEARTBEAT node (heartbeat_payload node now_ms))]).
Proof. unfold send_heartbeat. rewrite heartbeat_frame_eq, bind_lift. done. Qed.

Lemma cast_add a b : cast U32 (cast U32 a + b) = cast U32 (a + b).
Proof. rewrite !cast_unsigned by done. by rewrite Z.add_mod_idemp_l. Qed.

Lemma turn_eq p k buf :
  (11 <= length buf)%nat ->
  exists buf' es, telem_turn p (ctx_at k, buf) = Ret (tt, (ctx_at (k + 1), buf'), es) /\
    length buf' = length buf /\ traces es = turn_traces (k + 1) p /\ frames es = [heartbeat_at (k + 1)].
Proof.
  intros Hl. unfold telem_turn, tbind at 1, tget. cbn [obind].
  destruct (trace_all_eq "telem_net_recv" (eth_recv p) (ctx_at (k + 1), record (cast U32 (k + 1)) (cast U32 (100 * (k + 1))) ++ drop 11 buf))
    as (es1 & E1 & T1 & F1).
  destruct (trace_can_eq (can_recv p) (ctx_at (k + 1), record (cast U32 (k + 1)) (cast U32 (100 * (k + 1))) ++ drop 11 buf))
    as (es2 & E2 & T2 & F2).
  cbn [ctx_at uptime_ms tick_count seq_no]. rewrite !cast_add.
  replace (100 * k + TELEM_HEARTBEAT_PERIOD_MS) with (100 * (k + 1)) by (unfold TELEM_HEARTBEAT_PERIOD_MS; lia).
  rewrite build_record_eq, bind_lift by done. change (Z.to_nat 11) with 11%nat.
  change {| tick_count := cast U32 (k + 1); uptime_ms := cast U32 (100 * (k + 1)); seq_no := cast U32 (k + 1) |} with (ctx_at (k + 1)).
  eexists _, _. split.
  { unfold tbind, tput, sim_trace_u32 at 1 3, temit. cbn [obind].
    change (take 11 (record (cast U32 (k + 1)) (cast U32 (100 * (k + 1))) ++ drop 11 buf)) with (record (cast U32 (k + 1)) (cast U32 (100 * (k + 1)))).
    rewrite E1. cbn [obind]. rewrite E2. cbn [obind]. rewrite telem_heartbeat. cbn [obind]. reflexivity. }
  split; [rewrite length_app, length_drop; change (length (record _ _)) with 11%nat; lia|].
  cbn [app]. split.
  - unfold turn_traces. rewrite <- T1, <- T2. unfold traces. cbn [omap list_omap]. by rewrite !omap_app.
  - unfold frames in *. cbn [omap list_omap]. by rewrite !omap_app, F1, F2.
Qed.

(** All periods from the [k]-th on. *)
Fixpoint run_traces (k : Z) (ps : list period) : list (string * Z) :=
  match ps with
  | [] => []
  | p :: ps => turn_traces (k + 1) p ++ run_traces (k + 1) ps
  end.

Fixpoint heartbeats (k : Z) (n : nat) : list mc_can_frame_t :=
  match n with O => [] | S n => heartbeat_at (k + 1) :: heartbeats (k + 1) n end.

Lemma run_eq ps k buf :
  (11 <= length buf)%nat ->
  exists st es, tfor telem_turn ps (ctx_at k, buf) = Ret (tt, st, es) /\
    traces es = run_traces k ps /\ frames es = heartbeats k (length ps).
Proof.
  revert k buf; induction ps as [|p ps IH]; intros k buf Hl; [by exists (ctx_at k, buf), []|].
  destruct (turn_eq p k buf Hl) as (buf' & es & E & Hl' & T & F), (IH (k + 1) buf' ltac:(lia)) as (st & es' & E' & T' & F').
  exists st, (es ++ es'). cbn [tfor run_traces heartbeats length]. unfold tbind. rewrite E. cbn [obind]. rewrite E'. cbn [obind].
  by rewrite traces_app, frames_app, T, T', F, F'.
Qed.

Lemma main_eq reg ps ctx buf :
  (11 <= length buf)%nat ->
  exists st es, telematics_main reg ps (ctx, buf) = Ret (tt, st, es) /\
    traces es = ("telematics_boot", 1) :: ("eth_register", reg) :: ("telem_hb", 0) :: run_traces 0 ps /\
    frames es = heartbeat_at 0 :: heartbeats 0 (length ps).
Proof.
  intros Hl. destruct (run_eq ps 0 buf Hl) as (st & es & E & T & F). exists st. eexists. split.
  { unfold telematics_main, tbind, tget, tput, sim_trace_u32, temit. cbn [obind]. rewrite telem_heartbeat. cbn [obind].
    change zeroed with (ctx_at 0). rewrite E. reflexivity. }
  cbn [app]. unfold traces, frames in *. cbn [omap list_omap]. by rewrite T, F.
Qed.

(** ** What the lane reads of it *)

Definition to_telem (t : string * Z) : TelemTrace := {| label := fst t; value := snd t |}.

Definition values (t : list (string * Z)) (l : string) : list Z := label_values (map to_telem t) l.

Lemma values_cons l' v t l : values ((l', v) :: t) l = if String.eqb l' l then v :: values t l else values t l.
Proof. unfold values, label_values. cbn [map List.filter to_telem label fst]. by destruct (String.eqb l' l). Qed.

Lemma values_app t t' l : values (t ++ t') l = values t l ++ values t' l.
Proof. unfold values, label_values. by rewrite map_app, List.filter_app, map_app. Qed.

Lemma values_pair l' vs l : values (map (pair l') vs) l = if String.eqb l' l then vs else [].
Proof.
  induction vs as [|v vs IH]; [by destruct (String.eqb l' l)|]. cbn [map]. rewrite values_cons, IH. by destruct (String.eqb l' l).
Qed.

Lemma values_can cs l : String.eqb "telem_can_id" l = false -> String.eqb "telem_can_dlc" l = false -> values (can_traces cs) l = [].
Proof.
  intros H1 H2. induction cs as [|[i d] cs IH]; [done|]. cbn [can_traces]. destruct (0 <? d); [|done].
  by rewrite !values_cons, H1, H2.
Qed.

(** What each period sent, received and ticked. *)
Fixpoint sent_from (k : Z) (ps : list period) : list Z :=
  match ps with
  | [] => []
  | p :: ps => eth_send p (record (cast U32 (k + 1)) (cast U32 (100 * (k + 1)))) :: sent_from (k + 1) ps
  end.

Fixpoint ticks_from (k : Z) (n : nat) : list Z :=
  match n with O => [] | S n => cast U32 (k + 1) :: ticks_from (k + 1) n end.

Lemma run_values k ps :
  values (run_traces k ps) "telematics_boot" = [] /\ values (run_traces k ps) "telem_hb" = ticks_from k (length ps) /\
  values (run_traces k ps) "telem_net_sent" = sent_from k ps /\
  values (run_traces k ps) "telem_net_recv" = concat (map eth_recv ps).
Proof.
  revert k; induction ps as [|p ps IH]; intros k; [done|]. destruct (IH (k + 1)) as (H1 & H2 & H3 & H4).
  cbn [run_traces length ticks_from sent_from map concat]. unfold turn_traces.
  rewrite !values_app, !values_cons, !values_app, !values_pair, !values_cons, H1, H2, H3, H4, !values_can by done.
  cbn. by rewrite !app_nil_r.
Qed.

Lemma ticks_sorted n k :
  0 <= k -> k + Z.of_nat n <= imax U32 ->
  StronglySorted Z.lt (ticks_from k n) /\ Forall (fun v => k < v) (ticks_from k n).
Proof.
  revert k; induction n as [|n IH]; intros k Hk Hn; [by split; constructor|]. cbn [ticks_from].
  rewrite cast_id by int_lia. destruct (IH (k + 1)) as [H1 H2]; [lia|lia|].
  split; constructor; try done; [lia|]. eapply Forall_impl; [exact H2|]. cbn. lia.
Qed.

Lemma filter_positive l : Forall (fun v => 0 < v) l -> List.filter (fun v => 0 <? v) l = l.
Proof. induction 1 as [|v l Hv _ IH]; [done|]. cbn [List.filter]. by rewrite (proj2 (Z.ltb_lt _ _) Hv), IH. Qed.

Lemma sent_length k ps : length (sent_from k ps) = length ps.
Proof. revert k; induction ps as [|p ps IH]; intros k; [done|]. cbn [sent_from length]. by rewrite IH. Qed.

(** The device accepted the whole record of every period. *)
Definition all_accepted (ps : list period) : Prop :=
  forall (n : nat) q, ps !! n = Some q ->
  eth_send q (record (Z.of_nat n + 1) (cast U32 (100 * (Z.of_nat n + 1)))) = 11.

Lemma sent_all ps k (b : Z) :
  0 <= k -> k + Z.of_nat (length ps) <= imax U32 ->
  (forall s, s ∈ sent_from k ps -> s = b) <->
  (forall (n : nat) q, ps !! n = Some q ->
   eth_send q (record (k + Z.of_nat n + 1) (cast U32 (100 * (k + Z.of_nat n + 1)))) = b).
Proof.
  revert k; induction ps as [|p ps IH]; intros k Hk Hl; cbn [sent_from length] in *.
  { split; [done|]. intros _ s Hs. by apply elem_of_nil in Hs. }
  setoid_rewrite elem_of_cons. rewrite cast_id by int_lia. specialize (IH (k + 1) ltac:(lia) ltac:(lia)). split.
  - intros H [|n] q Hq; cbn in Hq; [injection Hq as <-; rewrite Z.add_0_r; apply H; by left|].
    replace (k + Z.of_nat (S n) + 1) with (k + 1 + Z.of_nat n + 1) by lia. apply (proj1 IH); [|done]. intros s Hs. apply H. by right.
  - intros H s [->|Hs]; [by rewrite <- (H 0%nat p eq_refl), Z.add_0_r|]. revert s Hs. apply IH.
    intros n q Hq. specialize (H (S n) q Hq). by replace (k + Z.of_nat (S n) + 1) with (k + 1 + Z.of_nat n + 1) in H by lia.
Qed.

(** The lane's last check returns when the lengths received add up to 32 bits. *)
Lemma recv_returns p t :
  (forall v, v ∈ label_values t "telem_net_recv" -> 0 <= v) ->
  fold_right Z.add 0 (label_values t "telem_net_recv") <= imax U32 ->
  exists c, check_recv_non_decreasing p t = Ret c.
Proof.
  intros H0 Hs. destruct p; [|apply recv_release].
  destruct (check_recv_non_decreasing Debug t) eqn:E; [eauto|]. apply recv_panics in E; [lia|done].
Qed.

(** C12: The telematics lane on the telematics firmware.  Whatever the devices answer, the unit
    leaves no array, sends one heartbeat per period, and the lane's five checks pass on what
    it traces exactly when at least ten periods passed, the Ethernet device accepted all 11
    bytes of every record, and the lengths it received never decrease: the boot event and the
    strictly increasing heartbeats are there in every run of up to 2^32 periods, and the lane
    reaches its verdict under both profiles when the lengths received add up to 32 bits.  A
    record is 11 bytes from which a receiver reads the length of the rest, the sequence number
    and the uptime. *)
Theorem telematics_lane_on_firmware p reg ps ctx net_buf :
  length net_buf = Z.to_nat NET_MTU -> Z.of_nat (length ps) <= imax U32 ->
  exists st es, telematics_main reg ps (ctx, net_buf) = Ret (tt, st, es) /\
   frames es = heartbeat_at 0 :: heartbeats 0 (length ps) /\
   (forall lines,
       collect_telem_traces lines 1 = map (fun t => {| label := fst t; value := snd t |}) (traces es) ->
       (forall v, v ∈ concat (map eth_recv ps) -> 0 <= v) -> fold_right Z.add 0 (concat (map eth_recv ps)) <= imax U32 ->
       exists cs, check_all_telematics p (collect_telem_traces lines 1) = Ret cs /\
        (forallb passed cs = true <->
          (10 <= length ps)%nat /\ all_accepted ps /\ StronglySorted Z.le (concat (map eth_recv ps)))) /\
   forall buf n up, (11 <= length buf)%nat ->
      exists r rest, build_telemetry_record buf n up = Ret (r ++ rest, 11) /\ length r = 11%nat /\
       be_value (take 2 r) = Z.of_nat (length (drop 2 r)) /\
       be_value (take 4 (drop 2 r)) = n mod 2 ^ 32 /\ be_value (take 4 (drop 6 r)) = up mod 2 ^ 32.
Proof.
  intros Hb Hn. destruct (main_eq reg ps ctx net_buf) as (st & es & E & T & F); [rewrite Hb; change (Z.to_nat NET_MTU) with 1500%nat; lia|].
  exists st, es. split; [exact E|]. split; [exact F|].
  split; [|intros buf n up Hl; exists (record n up), (drop 11 buf); split; [by apply build_record_eq|split; [done|apply record_reads_back]]].
  intros lines Hlines Hr0 Hrs. rewrite Hlines. change (map _ (traces es)) with (map to_telem (traces es)). rewrite T.
  set (t := _ :: _ :: _ :: run_traces 0 ps). destruct (run_values 0 ps) as (V1 & V2 & V3 & V4).
  assert (values t "telematics_boot" = [1] /\ values t "telem_hb" = 0 :: ticks_from 0 (length ps) /\
          values t "telem_net_sent" = sent_from 0 ps /\ values t "telem_net_recv" = concat (map eth_recv ps)) as (W1 & W2 & W3 & W4).
  { subst t. rewrite !values_cons, V1, V2, V3, V4. done. }
  clear V1 V2 V3 V4. unfold values in *. clearbody t. revert W1 W2 W3 W4. generalize (map to_telem t). intros tr W1 W2 W3 W4.
  destruct (ticks_sorted (length ps) 0) as [Hs Hp]; [done|lia|].
  destruct (recv_returns p tr) as [c Hc]; [by rewrite W4..|]. unfold check_all_telematics. rewrite Hc. cbn [obind].
  eexists. split; [reflexivity|]. cbn [forallb]. rewrite !andb_true_iff.
  rewrite (recv_passed _ _ _ Hc), booted_passed, heartbeat_passed, record_size_passed.
  rewrite record_count_passed by (rewrite W3, sent_length; lia).
  rewrite W1, W2, W3, W4, sent_length. cbn [List.filter head]. rewrite filter_positive by done.
  rewrite (sent_all ps 0 11) by (done || lia). unfold all_accepted. cbn [Z.add].
  assert (10 <= Z.of_nat (length ps) <-> (10 <= length ps)%nat) as -> by lia.
  destruct ps as [|q ps]; [cbn [length]; intuition lia|]. cbn [length sent_from ticks_from]. naive_solver.
Qed.

Lemma telematics_lane_on_firmware_witness :
  let q := {| eth_send := fun bytes => Z.of_nat (length bytes); eth_recv := [4]; can_recv := [(1, 5)] |} in
  length (replicate (Z.to_nat NET_MTU) 0) = Z.to_nat NET_MTU /\
  exists st es, telematics_main 0 (replicate 10 q) (zeroed, replicate (Z.to_nat NET_MTU) 0) = Ret (tt, st, es) /\
    forall lines, collect_telem_traces lines 1 = map (fun t => {| label := fst t; value := snd t |}) (traces es) ->
      exists cs, check_all_telematics Debug (collect_telem_traces lines 1) = Ret cs /\ forallb passed cs = true.
Proof.
  intros q. split; [reflexivity|].
  destruct (telematics_lane_on_firmware Debug 0 (replicate 10 q) zeroed (replicate (Z.to_nat NET_MTU) 0))
    as (st & es & E & _ & H & _); [reflexivity|vm_compute; discriminate|].
  exists st, es. split; [exact E|]. intros lines H1.
  destruct (H lines H1) as (cs & Hc & Hcs); [|vm_compute; discriminate|].
  { apply (proj1 (Forall_forall _ _)). repeat (constructor; [lia|]). constructor. }
  exists cs. split; [exact Hc|]. apply Hcs. split; [cbn; lia|]. split.
  - intros n q' Hq. apply list_elem_of_lookup_2, elem_of_replicate in Hq as [-> _]. reflexivity.
  - vm_compute. repeat constructor; intros H0; discriminate H0.
Defined.
End Telematics.

(** ** What the update tool does *)

Definition beats_as (node : Z) (e : effect) : Prop :=
  match e with Send fr => id fr = MC_MSG_HEARTBEAT /\ sender fr = node | Trace _ _ => True end.

(** Whatever it hears, the update tool sends heartbeats only, under the identity the protocol
    gives the diagnostics tool, and never one of the update frames. *)
Lemma ota_tool_only_heartbeats turns ctx :
  exists st es, ota_ctx.ota_tool_main turns ctx = Ret (tt, st, es) /\ Forall (beats_as MC_NODE_OTA_TOOL) es.
Proof.
  set (E := beats_as MC_NODE_OTA_TOOL).
  assert (forall now, keeps (fun _ : ota_ctx.ota_ctx_t => True) E (telem_ctx.send_heartbeat MC_NODE_OTA_TOOL now)) as Hh.
  { intros now c _. rewrite telem_heartbeat. eexists tt, c, _. split; [reflexivity|]. split; [done|].
    constructor; [|constructor]. done. }
  assert (forall l v, keeps (fun _ : ota_ctx.ota_ctx_t => True) E (sim_trace_u32 l v)) as Ht by (intros; by apply keeps_emit).
  assert (keeps (fun _ => True) E (ota_ctx.ota_tool_main turns)) as H.
  { unfold ota_ctx.ota_tool_main. repeat (apply keeps_bind; [first [apply Ht|apply Hh|by apply keeps_put]|intros _]).
    apply keeps_for. intros rxs _. apply keeps_read. intros c _.
    apply keeps_bind; [by apply keeps_put|intros _]. apply keeps_bind; [|intros _; by repeat (apply keeps_bind; [apply Hh|intros _])].
    induction rxs as [|[i [|b l]] rxs IH]; [apply keeps_ret..|]. cbn [ota_ctx.trace_commands].
    by repeat (apply keeps_bind; [apply Ht|intros _]). }
  destruct (H ctx I) as ([] & st & es & E1 & _ & E2). by exists st, es.
Qed.
