(* ===== verification/CGatewayFaults.v ===== *)
(** * What the gateway's fault table holds

    The gateway reports a fault of the BMS with the severity of its code, and any other one
    as a warning.  Under that discipline the table of [fault_manager.c] is a set of known
    faults, at most sixteen, with a subset of active ones, and its counters are exact.  The
    lemmas give each call of the gateway on these sets. *)

From stdpp Require Import gmap.
From S2P Require Import Prelude MachineInt Protocol Gateway CBase CProtocol CTables.

Section GatewayFaults.
Import fault_manager.

(** The severity the gateway gives a fault. *)
Definition gateway_severity (k : Z * Z) : Z :=
  if fst k =? MC_NODE_BMS then fault_manager_bms_severity (snd k) else 1.

Definition critical (k : Z * Z) : bool := gateway_severity k =? 2.

(** The table knows the faults [K], of which [A] are active. *)
Definition holds (fm : fault_manager_t) (K A : gset (Z * Z)) : Prop :=
  exists m, mirrors fm m /\ fault_inv gateway_severity K A m /\ K = list_to_set (keys m).

(** What a report makes of a set: the sixteen places may be taken. *)
Definition room (k : Z * Z) (K : gset (Z * Z)) : Prop := k ∈ K \/ (size K < 16)%nat.
#[export] Instance room_dec k K : Decision (room k K) := ltac:(unfold room; apply _).

Definition noted (k : Z * Z) (K X : gset (Z * Z)) : gset (Z * Z) := if decide (room k K) then {[ k ]} ∪ X else X.

Lemma holds_init : holds fault_manager_init ∅ ∅.
Proof.
  exists FaultManager.new. split; [split; [apply table_empty|done]|]. split; [apply fault_inv_new|done].
Qed.

Lemma keys_size (m : FaultManager.t) : NoDup (keys m) ->
  size (list_to_set (keys m) : gset (Z * Z)) = length (FaultManager.faults m).
Proof. intros H. rewrite size_list_to_set by done. unfold keys. by rewrite length_map. Qed.

Lemma holds_size fm K A :
  holds fm K A -> fault_count fm = Z.of_nat (size K) /\ (size K <= 16)%nat /\ A ⊆ K.
Proof.
  intros (m & [Ht _] & Hi & ->). pose proof (fi_keys _ _ _ _ Hi) as Hnd. fold (keys m) in Hnd.
  rewrite keys_size by done. pose proof (table_le _ _ _ _ _ Ht) as Hle. destruct Ht as (_ & Hc & _).
  unfold FM_MAX_FAULTS in Hle. split; [done|]. split; [lia|].
  intros k (f & Hf & <- & _)%(fi_active _ _ _ _ Hi). apply (fi_bound _ _ _ _ Hi), Hf.
Qed.

(** The invariant bounds the keys by any larger set, and by the keys themselves. *)
Lemma fault_inv_grow sev K K' A m : fault_inv sev K A m -> K ⊆ K' -> fault_inv sev K' A m.
Proof. intros [] H. split; try done. intros f Hf. by apply H, fi_bound. Qed.

Lemma fault_inv_shrink sev K A m : fault_inv sev K A m -> fault_inv sev (list_to_set (keys m)) A m.
Proof.
  intros []. split; try done. intros f Hf. apply elem_of_list_to_set. unfold keys.
  by apply list_elem_of_In, in_map, list_elem_of_In.
Qed.

Lemma keys_known k m :
  k ∈ (list_to_set (keys m) : gset (Z * Z)) <->
  existsb (FaultManager.same_fault (fst k) (snd k)) (FaultManager.faults m) = true.
Proof.
  rewrite elem_of_list_to_set, existsb_exists. unfold keys. rewrite list_elem_of_In, in_map_iff.
  destruct k as [s c]. cbn [fst snd]. setoid_rewrite same_fault_key. naive_solver.
Qed.

(** ** The calls *)

Lemma holds_report fm K A s c :
  holds fm K A ->
  exists fm', omap_ret fst (fault_manager_report fm s c (gateway_severity (s, c))) = Ret fm' /\
    holds fm' (noted (s, c) K K) (noted (s, c) K A).
Proof.
  intros H. destruct (holds_size fm K A H) as (_ & Hsize & _). destruct H as (m & Hm & Hi & HK).
  pose proof (fi_keys _ _ _ _ Hi) as Hnd. fold (keys m) in Hnd.
  destruct (joint_report fm m s c (gateway_severity (s, c)) (conj Hm Hnd)) as (fm' & m' & -> & Hr & [Hj _]).
  exists fm'. split; [done|]. unfold mirror_step in Hr. cbn [mirror_ops] in Hr.
  assert (noted (s, c) K K = (list_to_set (keys m') : gset _) /\
          fault_inv gateway_severity ({[ (s, c) ]} ∪ K) (noted (s, c) K A) m') as [HK' Hi'].
  2: { exists m'. split; [done|]. rewrite HK'. split; [by eapply fault_inv_shrink|done]. }
  unfold noted. rewrite existsb_split in Hr. destruct (decide (room (s, c) K)) as [Hroom|Hroom].
  - assert (FaultManager.report Release m s c (gateway_severity (s, c)) = Ret m' /\
            (list_to_set (keys m') : gset (Z * Z)) = {[ (s, c) ]} ∪ K) as [Hrep Hkeys].
    { destruct (split_first (FaultManager.same_fault s c) (FaultManager.faults m)) as [[[l1 f] l2]|] eqn:Hs.
      - cbn in Hr. rewrite mirror_report, Hs in *. apply split_first_Some in Hs as [Hl Hp]. split; [done|].
        apply same_fault_key in Hp. injection Hr as <-. rewrite HK. unfold keys.
        cbn [FaultManager.faults FaultManager.with_faults]. rewrite Hl, !map_app. cbn [map]. change (FaultManager.key (FaultManager.refresh _ f)) with (FaultManager.key f).
        rewrite Hp. apply set_eq. intros k. rewrite elem_of_union, !elem_of_list_to_set. set_solver.
      - assert ((s, c) ∉ K) as Hnew.
        { rewrite HK, keys_known. cbn [fst snd]. by rewrite existsb_split, Hs. }
        destruct Hroom as [?|Hroom]; [done|]. rewrite HK, keys_size in Hroom by done.
        unfold FM_MAX_FAULTS in Hr. rewrite (proj2 (Z.ltb_lt _ 16)) in Hr by lia. cbn in Hr.
        rewrite mirror_report, Hs in *. split; [done|]. injection Hr as <-. rewrite HK. unfold keys.
        rewrite mbump_faults. cbn [FaultManager.faults FaultManager.with_faults]. rewrite map_app.
        cbn [map FaultManager.key FaultManager.source_node FaultManager.fault_code]. set_solver. }
    split; [done|].
    destruct (report_inv Release gateway_severity ({[ (s, c) ]} ∪ K) A m s c) as (m1 & Hm1 & Hi1).
    + apply (fault_inv_grow _ K); [done|set_solver].
    + pose proof (size_union_alt ({[ (s, c) ]} : gset (Z * Z)) K) as Hu. rewrite size_singleton in Hu.
      pose proof (subseteq_size (K ∖ {[ (s, c) ]}) K ltac:(set_solver)). lia.
    + set_solver.
    + congruence.
  - assert (m' = m) as ->.
    { assert ((s, c) ∉ K /\ ~ (size K < 16)%nat) as [Hn Hs] by (unfold room in Hroom; tauto).
      rewrite HK, keys_known in Hn. cbn [fst snd] in Hn. rewrite existsb_split in Hn.
      rewrite HK, keys_size in Hs by done. destruct (split_first _ _) as [[[? ?] ?]|]; [done|].
      unfold FM_MAX_FAULTS in Hr. rewrite (proj2 (Z.ltb_ge _ 16)) in Hr by lia. cbn in Hr. congruence. }
    split; [done|]. apply (fault_inv_grow _ K); [done|set_solver].
Qed.

Lemma spec_clears (l : list FaultManager.FaultEntry) (A : gset (Z * Z)) :
  fold_left FaultManager.spec_step (map clear_op l) A = A ∖ list_to_set (map FaultManager.key l).
Proof.
  revert A. induction l as [|f l IH]; intros A; cbn; [set_solver|]. rewrite IH.
  change (FaultManager.source_node f, FaultManager.fault_code f) with (FaultManager.key f). set_solver.
Qed.

Lemma holds_clear_where sel sel' (p : Z * Z -> Prop) `{forall k, Decision (p k)} fm K A :
  (forall f, sel (entry f) = sel' f) -> (forall f, sel' f = true <-> ~ p (FaultManager.key f)) ->
  holds fm K A ->
  exists fm', clear_where sel fm = Ret fm' /\ holds fm' K (filter p A).
Proof.
  intros Hsel Hp Hh. destruct (holds_size fm K A Hh) as (_ & Hsize & HA).
  destruct Hh as (m & Hm & Hi & HK). pose proof (fi_keys _ _ _ _ Hi) as Hnd. fold (keys m) in Hnd.
  destruct (clear_where_mirrors sel sel' fm m Hsel Hm Hnd) as (fm' & m' & H1 & H2 & H3 & H4).
  exists fm'. split; [done|]. exists m'. split; [done|]. rewrite H4. split; [|done].
  destruct (fault_run_inv Release gateway_severity K A m
              (map clear_op (List.filter sel' (FaultManager.faults m))) Hi) as (m1 & Hm1 & Hi1).
  - lia.
  - intros s c v (f & Hf & _)%list_elem_of_In%in_map_iff. discriminate.
  - intros o (f & <- & [Hf _]%filter_In)%list_elem_of_In%in_map_iff. apply (fi_bound _ _ _ _ Hi).
    by apply list_elem_of_In.
  - unfold FaultManager.run in Hm1. rewrite H2 in Hm1. injection Hm1 as <-.
    rewrite spec_clears in Hi1.
    replace (filter p A) with (A ∖ list_to_set (map FaultManager.key (List.filter sel' (FaultManager.faults m))));
      [done|].
    apply set_eq. intros k. rewrite elem_of_filter, elem_of_difference, elem_of_list_to_set.
    rewrite list_elem_of_In, in_map_iff. setoid_rewrite filter_In. split.
    + intros [Hk Hn]. split; [|done]. destruct (decide (p k)); [done|]. destruct Hn.
      apply HA in Hk. rewrite HK, elem_of_list_to_set in Hk. apply list_elem_of_In, in_map_iff in Hk as (f & <- & Hf).
      exists f. split_and!; [done|done|]. by apply Hp.
    + intros [Hpk Hk]. split; [done|]. intros (f & <- & Hf & Hs). by apply Hp in Hs.
Qed.

Lemma holds_clear_node fm K A s :
  holds fm K A ->
  exists fm', fault_manager_clear_node fm s = Ret fm' /\ holds fm' K (filter (fun k => fst k <> s) A).
Proof.
  apply (holds_clear_where _ (fun f => FaultManager.source_node f =? s)); [done|].
  intros f. rewrite Z.eqb_eq. cbn [FaultManager.key fst]. destruct (decide (FaultManager.source_node f = s)); tauto.
Qed.

Lemma holds_clear_all fm K A :
  holds fm K A -> exists fm', fault_manager_clear_all fm = Ret fm' /\ holds fm' K ∅.
Proof.
  intros H. destruct (holds_clear_where (fun _ => true) (fun _ => true) (fun _ => False) fm K A
                        (fun _ => eq_refl) ltac:(naive_solver) H) as (fm' & H1 & H2).
  exists fm'. split; [done|]. replace (∅ : gset (Z * Z)) with (filter (fun _ => False) A : gset (Z * Z)); [done|].
  set_solver.
Qed.

(** ** The counters *)

Lemma holds_counts fm K A :
  holds fm K A ->
  critical_count fm = Z.of_nat (size (filter (fun k => critical k = true) A)) /\
  fault_manager_active_count fm = Ret (Z.of_nat (size A)).
Proof.
  intros H. destruct (holds_size fm K A H) as (_ & Hsize & HA). destruct H as (m & Hm & Hi & HK).
  pose proof (subseteq_size _ _ HA) as Hs. split.
  - destruct Hm as (_ & -> & _). rewrite (fi_critical _ _ _ _ Hi).
    apply (fault_inv_count _ _ _ _ _ Hi).
    + intros f _. unfold active_with. by destruct (FaultManager.active f).
    + intros f Hf Ha. unfold active_with, critical. by rewrite Ha, (fi_sev _ _ _ _ Hi f Hf).
  - rewrite (active_count_mirror _ _ Hm). f_equal. unfold FaultManager.active_count.
    rewrite (fault_inv_count _ _ _ _ FaultManager.active Hi (fun f _ H => H) (fun _ => true)) by done.
    replace (filter (fun _ => true = true) A) with A by set_solver. apply cast_id. int_lia.
Qed.

Lemma holds_has_critical fm K A :
  holds fm K A ->
  fault_manager_has_critical fm = Z.b2z (bool_decide (exists k, k ∈ A /\ critical k = true)) /\
  (0 <? critical_count fm) = bool_decide (exists k, k ∈ A /\ critical k = true).
Proof.
  intros H. destruct (holds_counts fm K A H) as [Hc _].
  assert ((0 <? critical_count fm) = bool_decide (exists k, k ∈ A /\ critical k = true)) as Hb.
  { rewrite Hc. case_bool_decide as Hex.
    - destruct Hex as (k & Hk & Hcr). apply Z.ltb_lt.
      assert (filter (fun k => critical k = true) A ≢ ∅) as Hne%size_non_empty_iff by set_solver. lia.
    - apply Z.ltb_ge. replace (filter (fun k => critical k = true) A) with (∅ : gset (Z * Z)) by set_solver.
      by rewrite size_empty. }
  split; [|done]. unfold fault_manager_has_critical. rewrite Hb. by case_bool_decide.
Qed.

(** A critical fault is active in a set, and in the table itself. *)
Definition in_danger (A : gset (Z * Z)) : bool := bool_decide (exists k, k ∈ A /\ critical k = true).

Definition used (fm : fault_manager_t) : list fm_fault_t := take (Z.to_nat (fault_count fm)) (faults fm).

Lemma used_entries fm m : mirrors fm m -> used fm = map entry (FaultManager.faults m).
Proof.
  intros [Ht _]. unfold used. rewrite (table_count _ _ _ _ _ Ht). destruct Ht as (_ & _ & free & ->).
  by rewrite <- (length_map entry (FaultManager.faults m)), take_app_length.
Qed.

(** Both counters, of the critical faults and of the warnings, are exact. *)
Lemma holds_counters fm K A :
  holds fm K A ->
  critical_count fm = countb (fun f => truthy (active f) && (severity f =? 2)) (used fm) /\
  warning_count fm = countb (fun f => truthy (active f) && (severity f =? 1)) (used fm).
Proof.
  intros (m & Hm & Hi & _). rewrite (used_entries _ _ Hm). destruct Hm as (_ & -> & ->).
  rewrite (fi_critical _ _ _ _ Hi), (fi_warning _ _ _ _ Hi).
  assert (forall v, countb (active_with v) (FaultManager.faults m) =
            countb (fun f => truthy (active f) && (severity f =? v)) (map entry (FaultManager.faults m))) as H;
    [|by rewrite !H].
  intros v. induction (FaultManager.faults m) as [|f l IH]; [done|].
  cbn [map]. rewrite !countb_cons, IH. cbn [entry active severity]. unfold active_with. by rewrite truthy_b2z.
Qed.

Lemma holds_in_danger fm K A :
  holds fm K A -> in_danger A = existsb (fun f => truthy (active f) && (severity f =? 2)) (used fm).
Proof.
  intros (m & Hm & Hi & _). rewrite (used_entries _ _ Hm).
  apply eq_true_iff_eq. unfold in_danger. rewrite bool_decide_eq_true, existsb_exists. split.
  - intros (k & Hk & Hc). apply (fi_active _ _ _ _ Hi) in Hk as (f & Hf & <- & Ha). exists (entry f).
    split; [by apply in_map, list_elem_of_In|]. cbn [entry active severity].
    by rewrite truthy_b2z, Ha, (fi_sev _ _ _ _ Hi f Hf).
  - intros (e & He & Hc). apply in_map_iff in He as (f & <- & Hf). cbn [entry active severity] in Hc.
    rewrite truthy_b2z in Hc. apply andb_true_iff in Hc as [Ha Hs]. apply list_elem_of_In in Hf.
    exists (FaultManager.key f). split; [apply (fi_active _ _ _ _ Hi); by exists f|].
    unfold critical. by rewrite <- (fi_sev _ _ _ _ Hi f Hf).
Qed.

End GatewayFaults.
