(* ===== verification/CDiagnostics.v ===== *)
(** * A diagnostics conversation

    The diagnostics tool sends a request over the bus, the gateway serves it and sends a
    response, the tool traces it.  The service is specified on what it can see and change:
    the session, the vehicle mode and the set of active faults. *)

From stdpp Require Import gmap.
From S2P Require Import Prelude MachineInt Protocol Gateway CBase CProtocol CFirmware CTables.
From S2P Require Import DiagnosticsLane.
From S2P Require Import CFrames CTask CGatewayEcu CDiagTool CGatewayFaults.

Import gateway_ctx diag_tool_ctx.

Section Diagnostics.

(** ** The service, specified *)

Record diag_state := { session : bool; vmode : Z; active : gset (Z * Z) }.

(** The context of a gateway shows a state. *)
Definition shows (ctx : gateway_ctx_t) (v : diag_state) : Prop :=
  truthy (diag_session_active ctx) = session v /\ mode_of ctx = vmode v /\ exists K, holds (fm ctx) K (active v).

Definition driving (v : diag_state) : bool := vmode v =? VEHICLE_DRIVE.

(** A session is not opened while driving, unless the firmware has the seeded bug. *)
Definition may_start (f : flags_t) (v : diag_state) : bool :=
  negb (driving v) || truthy (diag_startsession_drive_bug f).

(** The status and the first value of the response. *)
Definition answer (f : flags_t) (mutex : bool) (v : diag_state) (service : Z) : Z * Z :=
  if service =? MC_DIAG_START_SESSION then
    if may_start f v then (MC_DIAG_OK, VEHICLE_SERVICE) else (MC_DIAG_REJECTED, vmode v)
  else if (service =? MC_DIAG_END_SESSION) || (service =? MC_DIAG_READ_MODE) then (MC_DIAG_OK, vmode v)
  else if service =? MC_DIAG_READ_DTCS then (MC_DIAG_OK, if mutex then Z.of_nat (size (active v)) else 0)
  else if service =? MC_DIAG_CLEAR_DTCS then (if session v then MC_DIAG_OK else MC_DIAG_REJECTED, 0)
  else if service =? MC_DIAG_ACTUATOR_TEST then
    (if session v && negb (driving v) then MC_DIAG_OK else MC_DIAG_REJECTED, vmode v)
  else (MC_DIAG_UNSUPPORTED, 0).

(** What is left of the active faults: those of the other nodes, unless the firmware has the
    seeded bug. *)
Definition cleared (f : flags_t) (A : gset (Z * Z)) : gset (Z * Z) :=
  if truthy (diag_clear_all_bug f) then ∅ else filter (fun k => fst k <> MC_NODE_BMS) A.

Definition served (f : flags_t) (mutex : bool) (v : diag_state) (service : Z) : diag_state :=
  if (service =? MC_DIAG_START_SESSION) && may_start f v then
    {| session := true; vmode := VEHICLE_SERVICE; active := active v |}
  else if service =? MC_DIAG_END_SESSION then {| session := false; vmode := vmode v; active := active v |}
  else if (service =? MC_DIAG_CLEAR_DTCS) && session v && mutex then
    {| session := session v; vmode := vmode v; active := cleared f (active v) |}
  else v.

(** The second value: the code of an active fault, of one reported first. *)
Definition names_fault (mutex : bool) (v : diag_state) (service value1 : Z) : Prop :=
  if (service =? MC_DIAG_READ_DTCS) && mutex && negb (bool_decide (active v = ∅))
  then exists node, (node, value1) ∈ active v
  else value1 = 0.

(** ** The fault table read *)

Definition dtc_step (s : Z * Z * Z) (f : fault_manager.fm_fault_t) : Z * Z * Z :=
  if truthy (fault_manager.active f) then
    let '(count, node, code) := s in
    let '(node, code) := if count =? 0 then (fault_manager.source_node f, fault_manager.fault_code f) else (node, code) in
    (cast U8 (count + 1), node, code)
  else s.

Lemma dtc_steps (l : list FaultManager.FaultEntry) n node code :
  0 <= n -> n + Z.of_nat (length l) <= imax U8 ->
  exists node' code',
    fold_left dtc_step (map fault_manager.entry l) (n, node, code) = (n + countb FaultManager.active l, node', code') /\
    if n =? 0 then
      (countb FaultManager.active l = 0 -> node' = node /\ code' = code) /\
      (0 < countb FaultManager.active l ->
       exists f, f ∈ l /\ FaultManager.active f = true /\ FaultManager.key f = (node', code'))
    else node' = node /\ code' = code.
Proof.
  revert n node code; induction l as [|f l IH]; intros n node code Hn Hl.
  { exists node, code. cbn. rewrite countb_nil, Z.add_0_r. split; [done|]. case_match; [|done]. split; [done|lia]. }
  cbn [map fold_left length] in *. rewrite countb_cons. unfold dtc_step at 2. cbn [fault_manager.entry fault_manager.active].
  rewrite truthy_b2z. pose proof (countb_nonneg FaultManager.active l) as Hc. destruct (FaultManager.active f) eqn:Ha.
  - cbn [fault_manager.entry fault_manager.source_node fault_manager.fault_code].
    rewrite (cast_id U8 (n + 1)) by int_lia. destruct (Z.eqb_spec n 0) as [->|Hne].
    + destruct (IH (0 + 1) (FaultManager.source_node f) (FaultManager.fault_code f)) as (x & y & E & Hxy); [lia|lia|].
      exists x, y. split; [rewrite E; f_equal; f_equal; lia|]. rewrite (proj2 (Z.eqb_neq _ _)) in Hxy by lia.
      split; [lia|]. intros _. exists f. destruct Hxy as [-> ->]. split; [by left|done].
    + destruct (IH (n + 1) node code) as (x & y & E & Hxy); [lia|lia|]. exists x, y.
      split; [rewrite E; f_equal; f_equal; lia|]. by rewrite (proj2 (Z.eqb_neq _ _)) in Hxy by lia.
  - destruct (IH n node code) as (x & y & E & Hxy); [lia|lia|]. exists x, y. rewrite Z.add_0_l. split; [done|].
    destruct (n =? 0); [|done]. destruct Hxy as [H0 H1]. split; [done|]. intros (g & Hg & ?)%H1. exists g. split; [by right|done].
Qed.

Lemma first_active_dtc_eq mutex ctx K A :
  holds (fm ctx) K A ->
  exists node code, first_active_dtc mutex ctx = Ret (if mutex then Z.of_nat (size A) else 0, node, code, ctx, []) /\
    if mutex && negb (bool_decide (A = ∅)) then (node, code) ∈ A else code = 0.
Proof.
  intros Hh. destruct mutex; [|by exists 0, 0]. destruct (holds_size _ _ _ Hh) as (Hcount & Hsize & _).
  destruct Hh as (m & [Ht Hcs] & Hi & HK). pose proof (table_le _ _ _ _ _ Ht) as Hle. pose proof (table_count _ _ _ _ _ Ht) as Hlen. unfold fault_manager.FM_MAX_FAULTS in Hle.
  destruct (dtc_steps (FaultManager.faults m) 0 0 0) as (node & code & E & Hn & Hp); [lia|change (imax U8) with 255; lia|].
  assert (countb FaultManager.active (FaultManager.faults m) = Z.of_nat (size A)) as Hc.
  { rewrite (fault_inv_count _ _ _ _ FaultManager.active Hi (fun f _ H => H) (fun _ => true)) by done.
    f_equal. f_equal. set_solver. }
  exists node, code. split.
  - unfold first_active_dtc, tbind, tget, tlift, tret. cbn [obind].
    rewrite (table_fold fault_manager.entry _ (fun _ => fault_manager.faults (fm ctx)) dtc_step (dtc_body (fm ctx)) (0, 0, 0) _ _ Ht).
    + cbn [obind]. rewrite E, Hc, Z.add_0_l. done.
    + done.
    + intros i [[count nd] cd] e Hl. unfold dtc_body, dtc_step. rewrite Hl. cbn [obind]. case_match; [|done]. by destruct (count =? 0).
  - cbn [andb]. rewrite Hc in Hn, Hp. case_bool_decide as He; cbn [negb].
    + apply Hn. by rewrite He, size_empty.
    + destruct Hp as (f & Hf & Ha & <-); [|apply (fi_active _ _ _ _ Hi); by exists f].
      assert (A ≢ ∅) as Hne%size_non_empty_iff by (by rewrite leibniz_equiv_iff). lia.
Qed.
(** ** The service implements its specification *)

(** The bytes of a request and of a response. *)
Definition request (service rid param : Z) : list Z := [MC_NODE_DIAGNOSTICS; service; rid; param].
Definition response (service rid status value0 value1 : Z) : list Z :=
  [MC_NODE_GATEWAY; service; rid; status; value0; value1].

Definition response_word (service rid status value0 : Z) : Z :=
  Z.lor (Z.lor (Z.lor (Z.shiftl rid 24) (Z.shiftl service 16)) (Z.shiftl status 8)) value0.

(** Traces only. *)
Definition tracing (es : list effect) : Prop := Forall (fun e => match e with Trace _ _ => True | Send _ => False end) es.

Definition serves (f : flags_t) (mutex : bool) (service : Z) (m : task gateway_ctx_t (Z * Z * Z)) : Prop :=
  forall ctx v, flags ctx = f -> shows ctx v ->
  exists status value0 value1 ctx' es, m ctx = Ret (status, value0, value1, ctx', es) /\
    (status, value0) = answer f mutex v service /\ names_fault mutex v service value1 /\
    shows ctx' (served f mutex v service) /\ tracing es.

Ltac replies :=
  eexists _, _, _, _, _; split; [reflexivity|]; split; [try done|]; split; [try done|];
  split; [split; [first [done|cbn; congruence]|split; [first [done|cbn; congruence]|eexists; eassumption]]|unfold tracing; cbn [app]; repeat constructor].

Lemma start_session_serves f mutex : serves f mutex MC_DIAG_START_SESSION start_session.
Proof.
  intros ctx v Hf (Hs & Hm & K & Hh). unfold start_session, tbind, tget. cbn [obind]. rewrite Hm, Hf.
  unfold serves, answer, served, may_start, driving.
  destruct (vmode v =? VEHICLE_DRIVE) eqn:Hd, (truthy (diag_startsession_drive_bug f)) eqn:Hb; cbn [negb andb orb Z.eqb];
    replies.
Qed.

Lemma clear_dtcs_serves f mutex : serves f mutex MC_DIAG_CLEAR_DTCS (clear_dtcs mutex).
Proof.
  intros ctx v Hf (Hs & Hm & K & Hh). unfold clear_dtcs, tbind, tget. cbn [obind]. rewrite Hs, Hf.
  unfold answer, served. destruct (session v) eqn:Hsess; [|replies].
  destruct mutex; [|replies].
  assert (exists fm', (if truthy (diag_clear_all_bug f) then fault_manager.fault_manager_clear_all (fm ctx)
                       else fault_manager.fault_manager_clear_node (fm ctx) MC_NODE_BMS) = Ret fm' /\
                      holds fm' K (cleared f (active v))) as (fm' & E & Hh').
  { unfold cleared. destruct (truthy (diag_clear_all_bug f)); [by eapply holds_clear_all|by apply holds_clear_node]. }
  cbn [negb twhen]. unfold tlift. rewrite E. cbn [obind]. replies.
Qed.

Lemma service_reply_serves f mutex service : serves f mutex service (service_reply mutex service).
Proof.
  unfold service_reply.
  destruct (Z.eqb_spec service MC_DIAG_START_SESSION) as [->|H1]; [apply start_session_serves|].
  destruct (Z.eqb_spec service MC_DIAG_END_SESSION) as [->|H7].
  { intros ctx v Hf (Hs & Hm & K & Hh). unfold modify, tbind, tget, tput, sim_trace_u32, temit, tret. cbn [obind].
    change (mode_of (set_diag_session_active 0 ctx)) with (mode_of ctx). rewrite Hm. replies. }
  destruct (Z.eqb_spec service MC_DIAG_READ_MODE) as [->|H2].
  { intros ctx v Hf (Hs & Hm & K & Hh). unfold tbind, tget. cbn [obind]. rewrite Hm. replies. }
  destruct (Z.eqb_spec service MC_DIAG_READ_DTCS) as [->|H3].
  { intros ctx v Hf (Hs & Hm & K & Hh). destruct (first_active_dtc_eq mutex ctx K (active v) Hh) as (node & code & E & Hc).
    assert (names_fault mutex v MC_DIAG_READ_DTCS code) as Hn.
    { unfold names_fault. cbn [Z.eqb andb]. change (MC_DIAG_READ_DTCS =? MC_DIAG_READ_DTCS) with true. cbn [andb].
      destruct (mutex && _); [by exists node|done]. }
    unfold tbind. rewrite E. cbn [obind]. replies. }
  destruct (Z.eqb_spec service MC_DIAG_CLEAR_DTCS) as [->|H4]; [apply clear_dtcs_serves|].
  assert (forall mutex v, served f mutex v service = v) as Hserved.
  { intros mx v. unfold served. by rewrite !(proj2 (Z.eqb_neq service _)) by done. }
  assert (forall mx v, names_fault mx v service 0) as Hnames.
  { intros mx v. unfold names_fault. by rewrite (proj2 (Z.eqb_neq service _)) by done. }
  assert (forall mx v, answer f mx v service =
    if service =? MC_DIAG_ACTUATOR_TEST then (if session v && negb (driving v) then MC_DIAG_OK else MC_DIAG_REJECTED, vmode v)
    else (MC_DIAG_UNSUPPORTED, 0)) as Hans.
  { intros mx v. unfold answer. by rewrite !(proj2 (Z.eqb_neq service _)) by done. }
  intros ctx v Hf Hv. pose proof Hv as (Hs & Hm & _). unfold tbind, tget. cbn [obind].
  destruct (service =? MC_DIAG_ACTUATOR_TEST);
    eexists _, _, _, ctx, _; (split; [reflexivity|]); rewrite Hans, Hserved; split_and!; try done; try by constructor.
  unfold driving. by rewrite Hs, Hm.
Qed.

(** ** The words the lanes decode *)

Lemma lor_byte hi lo : fits U8 lo -> Z.lor (Z.shiftl hi 8) lo = hi * 256 + lo.
Proof.
  intros Hl. pose proof (high_byte_disjoint hi lo ltac:(int_lia)) as Hd.
  rewrite <- Z.lxor_lor, <- Z.add_nocarry_lxor by exact Hd. rewrite Z.shiftl_mul_pow2 by lia. lia.
Qed.

Lemma response_word_eq service rid status value0 :
  fits U8 service -> fits U8 rid -> fits U8 status -> fits U8 value0 ->
  response_word service rid status value0 = ((rid * 256 + service) * 256 + status) * 256 + value0.
Proof.
  intros H1 H2 H3 H4. unfold response_word. rewrite <- !lor_byte by done.
  rewrite !Z.shiftl_lor, !Z.shiftl_shiftl by lia. done.
Qed.

Lemma decode_response_word service rid status value0 :
  fits U8 service -> fits U8 rid -> fits U8 status -> fits U8 value0 ->
  decode_response_head (response_word service rid status value0) =
  {| DiagnosticsLane.service := service; req := rid; DiagnosticsLane.status := status;
     DiagnosticsLane.value0 := value0; DiagnosticsLane.value1 := 0 |}.
Proof.
  intros H1 H2 H3 H4. rewrite response_word_eq by done. unfold decode_response_head, byte_at.
  assert (forall x k, 0 <= k -> cast U8 (Z.land (Z.shiftr x k) 0xff) = (x / 2 ^ k) mod 256) as Hb.
  { intros x k Hk. change 0xff with (Z.ones 8). rewrite Z.land_ones, Z.shiftr_div_pow2 by lia. change (2 ^ 8) with 256.
    apply cast_id. pose proof (Z.mod_pos_bound (x / 2 ^ k) 256). int_lia. }
  rewrite !Hb by lia. change (2 ^ 0) with 1. change (2 ^ 8) with 256. change (2 ^ 16) with (256 * 256). change (2 ^ 24) with (256 * 256 * 256).
  rewrite Z.div_1_r, <- !Z.div_div by lia.
  assert (forall a b, fits U8 b -> (a * 256 + b) / 256 = a /\ (a * 256 + b) mod 256 = b) as Hd.
  { intros a b Hb'. rewrite Z.div_add_l, (Z.add_comm (a * 256)), Z.mod_add by lia.
    unfold fits in Hb'. change (imin U8) with 0 in Hb'. change (imax U8) with 255 in Hb'.
    rewrite Z.div_small, Z.mod_small by lia. lia. }
  rewrite !(proj1 (Hd _ _ H4)), !(proj1 (Hd _ _ H3)), !(proj1 (Hd _ _ H1)), !(proj2 (Hd _ _ H4)), !(proj2 (Hd _ _ H3)), !(proj2 (Hd _ _ H1)).
  f_equal. exact (proj2 (Hd 0 rid H2)).
Qed.
(** ** The conversation *)

(** What the tool traces of a response, after the word. *)
Definition told (service value0 value1 : Z) : list (string * Z) :=
  if service =? MC_DIAG_START_SESSION then [("service_mode", value0)]
  else if service =? MC_DIAG_READ_MODE then [("read_mode", value0)]
  else if service =? MC_DIAG_READ_DTCS then
    ("dtc_count", value0) :: (if 0 <? value0 then [("dtc_code", value1)] else [])
  else if service =? MC_DIAG_CLEAR_DTCS then [("dtc_cleared", 1)]
  else [].

Lemma tool_request service rid param tctx :
  send_diag_request service rid param tctx =
  Ret (tt, tctx, [Send (frame_of MC_MSG_DIAG_REQUEST MC_NODE_DIAGNOSTICS (request service rid param))]).
Proof. reflexivity. Qed.

Lemma tool_response service rid status value0 value1 held tctx :
  exists es,
    dispatch_frame (receive held MC_MSG_DIAG_RESPONSE (response service rid status value0 value1)) tctx = Ret (tt, tctx, es) /\
    tracing es /\ traces es = ("diag_response", response_word service rid status value0) :: told service value0 value1.
Proof.
  assert (dispatch_frame (receive held MC_MSG_DIAG_RESPONSE (response service rid status value0 value1)) tctx =
    tbind (sim_trace_u32 "diag_response" (response_word service rid status value0)) (fun _ =>
      if service =? MC_DIAG_START_SESSION then sim_trace_u32 "service_mode" value0
      else if service =? MC_DIAG_READ_MODE then sim_trace_u32 "read_mode" value0
      else if service =? MC_DIAG_READ_DTCS then
        do! _ := sim_trace_u32 "dtc_count" value0 in
        twhen (0 <? value0) (sim_trace_u32 "dtc_code" value1)
      else if service =? MC_DIAG_CLEAR_DTCS then sim_trace_u32 "dtc_cleared" 1
      else tret tt) tctx) as ->.
  { unfold dispatch_frame, handle_diag_response.
    set (fr := receive held MC_MSG_DIAG_RESPONSE (response service rid status value0 value1)).
    change ((id fr =? MC_MSG_DIAG_RESPONSE) && (sender fr =? MC_NODE_GATEWAY)) with true.
    change (len fr <? MC_DIAG_RESPONSE_MSG_SIZE) with false. cbn [twhen].
    change (load (data fr) 1) with (Ret service). rewrite bind_lift.
    change (load (data fr) 2) with (Ret rid). rewrite bind_lift.
    change (load (data fr) 3) with (Ret status). rewrite bind_lift.
    change (load (data fr) 4) with (Ret value0). rewrite bind_lift.
    change (load (data fr) 5) with (Ret value1). by rewrite bind_lift. }
  unfold told. repeat case_match; eexists; (split; [reflexivity|]); (split; [by repeat constructor|done]).
Qed.

Lemma answer_fits f mutex v ctx service :
  shows ctx v -> fits U8 (vmode v) -> fits U8 (fst (answer f mutex v service)) /\ fits U8 (snd (answer f mutex v service)).
Proof.
  intros (_ & _ & K & Hh) Hv. destruct (holds_size _ _ _ Hh) as (_ & Hs & HA). pose proof (subseteq_size _ _ HA) as Hle.
  unfold answer. repeat case_match; cbn [fst snd]; (split; [by vm_compute|]); try done; try (by vm_compute); int_lia.
Qed.

(** The gateway serves what it received. *)
Lemma gateway_request mutex service rid param held ctx :
  dispatch_frame_in_rx mutex (receive held MC_MSG_DIAG_REQUEST (request service rid param)) ctx =
  tbind (service_reply mutex service) (fun '(status, value0, value1) => send_diag_response service rid status value0 value1) ctx.
Proof.
  set (fr := receive held MC_MSG_DIAG_REQUEST (request service rid param)). unfold dispatch_frame_in_rx.
  change (id fr =? MC_MSG_HEARTBEAT) with false. change (id fr =? MC_MSG_BMS_FAULT) with false.
  change (id fr =? MC_MSG_DIAG_REQUEST) with true. unfold handle_diag_request.
  change (len fr <? MC_DIAG_REQUEST_MSG_SIZE) with false. cbn iota.
  change (load (data fr) 1) with (Ret service). rewrite bind_lift.
  change (load (data fr) 2) with (Ret rid). by rewrite bind_lift.
Qed.

(** The gateway's response word for a request, and its frame. *)
Lemma gateway_response f mutex v ctx service rid param held :
  flags ctx = f -> shows ctx v ->
  exists status value0 value1 ctx' es,
    dispatch_frame_in_rx mutex (receive held MC_MSG_DIAG_REQUEST (request service rid param)) ctx = Ret (tt, ctx', es) /\
    (status, value0) = answer f mutex v service /\ names_fault mutex v service value1 /\
    shows ctx' (served f mutex v service) /\
    frames es = [frame_of MC_MSG_DIAG_RESPONSE MC_NODE_GATEWAY (response service rid status value0 value1)] /\
    ("gateway_diag_response", response_word service rid status value0) ∈ traces es.
Proof.
  intros Hf Hv. destruct (service_reply_serves f mutex service ctx v Hf Hv)
    as (status & value0 & value1 & ctx' & es & E & Ha & Hn & Hs & Ht).
  exists status, value0, value1, ctx'. eexists. split.
  { rewrite gateway_request. unfold tbind at 1.
    rewrite E. cbn [obind]. reflexivity. }
  split; [done|]. split; [done|]. split; [done|]. cbn [app]. unfold frames, traces. rewrite !omap_app. split.
  - assert (omap (fun e => match e with Send fr => Some fr | Trace _ _ => None end) es = []) as ->; [|reflexivity].
    clear -Ht. induction Ht as [|[l x|fr] es' He _ IH]; [done|exact IH|done].
  - apply elem_of_app. right. by left.
Qed.
(** C10: A diagnostics conversation, from the tool's request over the bus to what it traces of
    the answer.  Whatever the gateway's state and the request, its service answers and
    changes exactly what its specification says: a session opens unless the car drives, and
    ends; the mode and the number of active faults are read, with the code of one of them;
    clearing needs a session and removes the faults of the BMS only; an actuator test needs a
    session of a car that does not drive.  The word the gateway traces decodes to the
    request's service and number with that answer, as the diagnostics lane and the seeded-bug
    corpus read it, and the tool traces the same word and the values of the answer. *)
Theorem diagnostics_conversation f mutex v ctx tctx service rid param held held' :
  flags ctx = f -> shows ctx v -> fits U8 (vmode v) -> fits U8 service -> fits U8 rid ->
  exists asked status value0 value1 ctx' es given tes word,
    send_diag_request service rid param tctx = Ret (tt, tctx, [Send asked]) /\
    dispatch_frame_in_rx mutex (over_the_bus held asked) ctx = Ret (tt, ctx', es) /\
    (status, value0) = answer f mutex v service /\ names_fault mutex v service value1 /\
    shows ctx' (served f mutex v service) /\
    frames es = [given] /\ ("gateway_diag_response", word) ∈ traces es /\
    decode_response_head word = {| DiagnosticsLane.service := service; req := rid; DiagnosticsLane.status := status;
      DiagnosticsLane.value0 := value0; DiagnosticsLane.value1 := 0 |} /\
    dispatch_frame (over_the_bus held' given) tctx = Ret (tt, tctx, tes) /\ frames tes = [] /\
    traces tes = ("diag_response", word) :: told service value0 value1.
Proof.
  intros Hf Hv Hm Hs Hr.
  destruct (gateway_response f mutex v ctx service rid param held Hf Hv)
    as (status & value0 & value1 & ctx' & es & E & Ha & Hn & Hsh & Hfr & Ht).
  destruct (tool_response service rid status value0 value1 held' tctx) as (tes & E' & Htr & Htt).
  destruct (answer_fits f mutex v ctx service Hv Hm) as [H1 H2]. rewrite <- Ha in H1, H2.
  eexists _, status, value0, value1, ctx', es, _, tes, (response_word service rid status value0).
  split; [apply tool_request|]. rewrite frame_of_received. split; [exact E|]. split; [exact Ha|]. split; [exact Hn|].
  split; [exact Hsh|]. split; [exact Hfr|]. split; [exact Ht|]. split; [by apply decode_response_word|].
  rewrite frame_of_received. split; [exact E'|]. split; [|exact Htt].
  clear -Htr. induction Htr as [|[l x|fr] es' He _ IH]; [done|exact IH|done].
Qed.

Lemma diagnostics_conversation_witness :
  let v := {| session := false; vmode := VEHICLE_READY; active := ∅ |} in
  let ctx := set_mode VEHICLE_READY gateway_ctx.zeroed in
  flags ctx = no_flags /\ shows ctx v /\
  exists asked ctx' es given tes word,
    send_diag_request MC_DIAG_START_SESSION 1 0 diag_tool_ctx.zeroed = Ret (tt, diag_tool_ctx.zeroed, [Send asked]) /\
    dispatch_frame_in_rx true (over_the_bus (replicate 8 0) asked) ctx = Ret (tt, ctx', es) /\
    shows ctx' {| session := true; vmode := VEHICLE_SERVICE; active := ∅ |} /\ frames es = [given] /\
    dispatch_frame (over_the_bus (replicate 8 0) given) diag_tool_ctx.zeroed = Ret (tt, diag_tool_ctx.zeroed, tes) /\
    traces tes = [("diag_response", word); ("service_mode", VEHICLE_SERVICE)].
Proof.
  intros v ctx. assert (shows ctx v) as Hv.
  { split; [reflexivity|]. split; [reflexivity|]. exists ∅. exact holds_init. }
  split; [reflexivity|]. split; [exact Hv|].
  assert (fits U8 VEHICLE_READY /\ fits U8 MC_DIAG_START_SESSION /\ fits U8 1) as (F1 & F2 & F3).
  { unfold fits. vm_compute. repeat split; discriminate. }
  destruct (diagnostics_conversation no_flags true v ctx diag_tool_ctx.zeroed MC_DIAG_START_SESSION 1 0 (replicate 8 0) (replicate 8 0)
    eq_refl Hv F1 F2 F3) as (asked & status & value0 & value1 & ctx' & es & given & tes & word & H1 & H2 & H3 & _ & H5 & H6 & _ & _ & H9 & _ & H11).
  exists asked, ctx', es, given, tes, word. split; [exact H1|]. split; [exact H2|]. split; [exact H5|]. split; [exact H6|].
  split; [exact H9|]. rewrite H11. injection H3 as -> ->. reflexivity.
Defined.

(** The tool reports that the faults were cleared whatever the gateway answered. *)
Lemma refused_clear_reported ctx held tctx :
  truthy (diag_session_active ctx) = false ->
  exists es given tes,
    dispatch_frame_in_rx true (receive held MC_MSG_DIAG_REQUEST (request MC_DIAG_CLEAR_DTCS 4 0)) ctx = Ret (tt, ctx, es) /\
    frames es = [given] /\ dispatch_frame (over_the_bus held given) tctx = Ret (tt, tctx, tes) /\
    ("dtc_cleared", 1) ∈ traces tes.
Proof.
  intros Hs. eexists _, (frame_of MC_MSG_DIAG_RESPONSE MC_NODE_GATEWAY (response MC_DIAG_CLEAR_DTCS 4 MC_DIAG_REJECTED 0 0)).
  destruct (tool_response MC_DIAG_CLEAR_DTCS 4 MC_DIAG_REJECTED 0 0 held tctx) as (tes & E & _ & Ht). exists tes.
  split.
  { rewrite gateway_request. unfold service_reply, clear_dtcs, tbind, tget. cbn. rewrite Hs. reflexivity. }
  split; [reflexivity|]. rewrite frame_of_received. split; [exact E|]. rewrite Ht. by right; left.
Qed.
(** ** The script of the tool *)

(** What the tool receives leaves its context alone and makes it trace only. *)
Lemma dispatch_traces rx tctx : frame_ok rx -> exists es, dispatch_frame rx tctx = Ret (tt, tctx, es) /\ tracing es.
Proof.
  intros Hrx. unfold dispatch_frame, handle_diag_response.
  destruct ((id rx =? MC_MSG_DIAG_RESPONSE) && (sender rx =? MC_NODE_GATEWAY)); [|by exists []; split; [|constructor]].
  cbn [twhen]. case_match; [by exists []; split; [|constructor]|].
  assert (forall i, 0 <= i < 8 -> exists x, load (data rx) i = Ret x) as Hload.
  { intros i Hi. exists (byte rx (Z.to_nat i)). rewrite <- (Z2Nat.id i) at 1 by lia. apply load_byte; [done|lia]. }
  destruct (Hload 1 ltac:(lia)) as [s ->], (Hload 2 ltac:(lia)) as [r ->], (Hload 3 ltac:(lia)) as [st ->],
    (Hload 4 ltac:(lia)) as [v0 ->], (Hload 5 ltac:(lia)) as [v1 ->].
  rewrite !bind_lift. unfold tbind, twhen. destruct (0 <? v0); repeat case_match; try done;
    eexists; (split; [reflexivity|]); unfold tracing; cbn [app]; by repeat constructor.
Qed.

Lemma tracing_frames es : tracing es -> frames es = [].
Proof. intros H. induction H as [|[l x|fr] es' He _ IH]; [done|exact IH|done]. Qed.

Lemma dispatches_trace rxs tctx :
  Forall frame_ok rxs -> exists es, tfor dispatch_frame rxs tctx = Ret (tt, tctx, es) /\ frames es = [].
Proof.
  induction 1 as [|rx rxs Hrx _ IH]; [by exists []|]. destruct (dispatch_traces rx tctx Hrx) as (es & E & Ht), IH as (es' & E' & Ht').
  exists (es ++ es'). cbn [tfor]. unfold tbind. rewrite E. cbn [obind]. rewrite E'. cbn [obind]. split; [done|].
  by rewrite frames_app, Ht', (tracing_frames es Ht).
Qed.

Lemma once_keeps (I : diag_tool_ctx_t -> Prop) E at_ms bit service rid :
  (forall c, I c -> truthy (Z.land (sent_mask c) bit) = false ->
   I {| sent_mask := Z.lor (sent_mask c) bit; script_ms := script_ms c |} /\
   E (Send (frame_of MC_MSG_DIAG_REQUEST MC_NODE_DIAGNOSTICS (request service rid 0)))) ->
  keeps I E (request_once at_ms bit service rid).
Proof.
  intros H c Hc. unfold request_once, tbind, tget. cbn [obind].
  destruct (at_ms <=? script_ms c), (truthy (Z.land (sent_mask c) bit)) eqn:Hb; cbn [andb negb twhen];
    try by (exists tt, c, []; repeat split).
  destruct (H c Hc Hb) as [H1 H2]. rewrite tool_request. cbn [obind]. unfold tput. cbn [obind].
  eexists tt, _, _. split; [reflexivity|]. split; [done|by repeat constructor].
Qed.

Lemma script_returns c : exists c' es, run_script c = Ret (tt, c', es).
Proof.
  assert (keeps (fun _ => True) (fun _ => True) run_script) as H.
  { unfold run_script. repeat (apply keeps_bind; [by apply once_keeps|intros _]). by apply once_keeps. }
  destruct (H c I) as ([] & c' & es & E & _). by exists c', es.
Qed.

Lemma heartbeat_sends c now_ms :
  diag_tool_ctx.send_heartbeat now_ms c =
  Ret (tt, c, [Send (frame_of MC_MSG_HEARTBEAT MC_NODE_DIAGNOSTICS (heartbeat_payload MC_NODE_DIAGNOSTICS now_ms))]).
Proof. unfold diag_tool_ctx.send_heartbeat. rewrite heartbeat_frame_eq, bind_lift. done. Qed.

(** A turn does to the context, and sends, what it would without anything received. *)
Lemma turn_without_input rxs tctx :
  Forall frame_ok rxs -> exists tctx' es es', diag_turn rxs tctx = Ret (tt, tctx', es) /\
    diag_turn [] tctx = Ret (tt, tctx', es') /\ frames es = frames es'.
Proof.
  intros Hrx. unfold diag_turn, tbind, tget, tput. cbn [obind].
  destruct (script_returns {| sent_mask := sent_mask tctx; script_ms := cast U32 (script_ms tctx + 10) |}) as (c & es1 & ->).
  cbn [obind]. destruct (dispatches_trace rxs c Hrx) as (es2 & -> & Hf). cbn [tfor]. unfold tret. cbn [obind].
  destruct (script_ms c mod 100 =? 0); cbn [twhen]; rewrite ?heartbeat_sends; unfold tret; cbn [obind];
    (eexists c, _, _; split; [reflexivity|]; split; [reflexivity|]); by rewrite !frames_app, Hf.
Qed.

Lemma turns_without_input turns tctx :
  Forall (Forall frame_ok) turns -> exists tctx' es es', tfor diag_turn turns tctx = Ret (tt, tctx', es) /\
    tfor diag_turn (replicate (length turns) []) tctx = Ret (tt, tctx', es') /\ frames es = frames es'.
Proof.
  intros H. revert tctx. induction H as [|rxs turns Hrx _ IH]; intros tctx; [by exists tctx, [], []|].
  destruct (turn_without_input rxs tctx Hrx) as (c & es & es0 & E & E0 & Hf), (IH c) as (c' & es' & es0' & E' & E0' & Hf').
  exists c', (es ++ es'), (es0 ++ es0'). cbn [length replicate tfor]. unfold tbind. rewrite E, E0. cbn [obind]. rewrite E', E0'. cbn [obind].
  by rewrite !frames_app, Hf, Hf'.
Qed.
(** The requests among what a task sends. *)
Definition requests (es : list effect) : list mc_can_frame_t :=
  List.filter (fun fr => id fr =? MC_MSG_DIAG_REQUEST) (frames es).

Definition questions : list mc_can_frame_t :=
  map (fun '(service, rid) => frame_of MC_MSG_DIAG_REQUEST MC_NODE_DIAGNOSTICS (request service rid 0))
    [(MC_DIAG_START_SESSION, 1); (MC_DIAG_READ_MODE, 2); (MC_DIAG_ACTUATOR_TEST, 6); (MC_DIAG_READ_DTCS, 3);
     (MC_DIAG_CLEAR_DTCS, 4); (MC_DIAG_READ_DTCS, 5)].

(** With all its bits set the script is over. *)
Lemma script_over turns :
  Forall (Forall frame_ok) turns ->
  keeps (fun c => sent_mask c = 63) (fun e => match e with Send fr => id fr <> MC_MSG_DIAG_REQUEST | _ => True end)
    (tfor diag_turn turns).
Proof.
  intros H. apply keeps_for. intros rxs Hrxs. unfold diag_turn. apply keeps_read. intros c0 Hc0.
  apply keeps_bind; [by apply keeps_put|intros _]. apply keeps_bind.
  { unfold run_script. repeat (apply keeps_bind; [|intros _]); apply once_keeps; intros c1 Hc1 Hb; by rewrite Hc1 in Hb. }
  intros _. apply keeps_bind; [|intros _; apply keeps_read; intros c1 Hc1; apply keeps_when; intros _].
  - intros c1 Hc1. destruct (dispatches_trace rxs c1) as (es1 & E1 & Hf1); [by eapply Forall_forall in H|].
    exists tt, c1, es1. split; [done|]. split; [done|]. clear -Hf1.
    induction es1 as [|[l x|fr] es1 IH]; [constructor|constructor; auto|done].
  - intros c2 Hc2. rewrite heartbeat_sends. eexists tt, c2, _. split; [reflexivity|]. split; [done|].
    constructor; [|constructor]. by vm_compute.
Qed.

(** The tool asks each of its questions once, in order, whatever it receives and however long
    it runs, once the 750 ms of the script are over. *)
Lemma tool_asks_once turns :
  Forall (Forall frame_ok) turns -> (75 <= length turns)%nat ->
  exists tctx es, diagnostics_tool_main turns diag_tool_ctx.zeroed = Ret (tt, tctx, es) /\ requests es = questions.
Proof.
  intros Ht Hlen. rewrite <- (take_drop 75 turns) in Ht |- *. apply Forall_app in Ht as [H1 H2].
  assert (length (take 75 turns) = 75%nat) as Hl by (apply length_take_le; lia).
  destruct (turns_without_input _ diag_tool_ctx.zeroed H1) as (c & es & es0 & E & E0 & Hf). rewrite Hl in E0.
  assert (sent_mask c = 63 /\ requests es0 = questions) as [Hmask Hreq]
    by (vm_compute in E0; injection E0 as <- <-; by vm_compute).
  destruct (script_over _ H2 c Hmask) as ([] & c' & es' & E' & _ & Hq).
  exists c'. eexists. split.
  { unfold diagnostics_tool_main, tbind at 1. rewrite heartbeat_sends. cbn [obind]. rewrite tfor_app. unfold tbind.
    rewrite E. cbn [obind]. rewrite E'. reflexivity. }
  rewrite <- Hreq. unfold requests. rewrite !frames_app, Hf, !List.filter_app.
  assert (List.filter (fun fr => id fr =? MC_MSG_DIAG_REQUEST) (frames es') = []) as ->.
  { clear -Hq. induction Hq as [|[l x|fr] es' He _ IH]; [done|exact IH|]. cbn. by rewrite (proj2 (Z.eqb_neq _ _) He). }
  by rewrite app_nil_r.
Qed.
End Diagnostics.
