(* ===== verification/CGatewayRuns.v ===== *)
(** * The gateway ECU, run

    The invariant of the gateway's tasks: the fault table holds exact sets, the heartbeat
    table watches the three nodes, the mode is one the flags allow; what the tasks send; and
    the mode a turn of the main loop ends in.  Tasks run their bodies one after the other, as
    the simulator schedules them: [event] is a frame dispatched by the receive task, a turn
    of the main loop or a turn of the aggregator. *)

From stdpp Require Import gmap.
From S2P Require Import Prelude MachineInt Protocol Gateway CBase CProtocol CFirmware CTables CMonitors COtaSlot.
From S2P Require Import CFrames CTask CGatewayEcu CGatewayFaults.

Import gateway_ctx.

Section GatewayRuns.

(** ** The invariant *)

(** The table of the monitor and the nodes [gateway_init] registers. *)
Definition watches (hm : heartbeat_monitor.heartbeat_monitor_t) (m : HeartbeatMonitor.t) : Prop :=
  heartbeat_monitor.mirrors hm m /\
  map HeartbeatMonitor.node_id (HeartbeatMonitor.nodes m) = [MC_NODE_POWERTRAIN; MC_NODE_BMS; MC_NODE_DASHBOARD].

(** The modes the gateway can be in: DRIVE and CHARGING are entered by the scripts only. *)
Definition drives (f : flags_t) : bool := truthy (charging_dogfood_script f) || truthy (diag_startdrive_script f).

Definition allowed (f : flags_t) (m : Z) : Prop :=
  m ∈ [VEHICLE_OFF; VEHICLE_READY; VEHICLE_FAULT; VEHICLE_SERVICE] \/
  drives f = true /\ m ∈ [VEHICLE_DRIVE; VEHICLE_CHARGING].

(** The part of the context that belongs to the update script. *)
Definition ota_part (ctx : gateway_ctx_t) : mc_ota.mc_ota_slot_state_t * Z * cursor :=
  (ota ctx, ota_inited ctx, ota_script ctx).

(** [Q]: faults that stay active; [P]: what holds of the update. *)
Record invariant (f : flags_t) (Q : gset (Z * Z)) (P : mc_ota.mc_ota_slot_state_t * Z * cursor -> Prop)
    (ctx : gateway_ctx_t) : Prop := {
  inv_flags : flags ctx = f;
  inv_faults : exists K A, holds (fm ctx) K A /\ Q ⊆ A;
  inv_nodes : exists m, watches (hm ctx) m;
  inv_mode : allowed f (mode_of ctx);
  inv_ota : P (ota_part ctx);
}.

Definition inv (f : flags_t) (Q : gset (Z * Z)) : gateway_ctx_t -> Prop := invariant f Q (fun _ => True).

(** What the gateway sends. *)
Inductive sends (f : flags_t) : mc_can_frame_t -> Prop :=
  | sends_heartbeat now_ms : sends f (frame_of MC_MSG_HEARTBEAT MC_NODE_GATEWAY (heartbeat_payload MC_NODE_GATEWAY now_ms))
  | sends_mode m c : allowed f m -> c = 0 \/ c = 1 -> sends f (frame_of MC_MSG_VEHICLE_MODE MC_NODE_GATEWAY [m; c])
  | sends_response service request_id status value0 value1 :
      sends f (frame_of MC_MSG_DIAG_RESPONSE MC_NODE_GATEWAY
                 [MC_NODE_GATEWAY; service; request_id; status; value0; value1]).

(** The labels of the update script. *)
Definition is_ota (label : string) : bool := String.prefix "ota_" label.

(** [o]: whether the update script may trace. *)
Definition doing (f : flags_t) (o : bool) (e : effect) : Prop :=
  match e with Trace label _ => o || negb (is_ota label) = true | Send frame => sends f frame end.

Definition does (f : flags_t) : effect -> Prop := doing f true.

Lemma allowed_u8 f m : allowed f m -> cast U8 m = m.
Proof.
  intros [H|[_ H]]; repeat (apply elem_of_cons in H as [->|H]; [reflexivity|]);
    by apply not_elem_of_nil in H.
Qed.

(** ** Rules *)

Lemma keeps_modify I E (g : gateway_ctx_t -> gateway_ctx_t) :
  (forall ctx, I ctx -> I (g ctx)) -> keeps I E (modify g).
Proof. intros H. apply keeps_read. intros ctx Hc. apply keeps_put. auto. Qed.

Context (f : flags_t) (Q : gset (Z * Z)) (P : mc_ota.mc_ota_slot_state_t * Z * cursor -> Prop) (o : bool).
Notation keep m := (keeps (invariant f Q P) (doing f o) m).

Lemma inv_same (ctx ctx' : gateway_ctx_t) :
  invariant f Q P ctx -> flags ctx' = flags ctx -> fm ctx' = fm ctx -> hm ctx' = hm ctx -> mode_of ctx' = mode_of ctx ->
  ota_part ctx' = ota_part ctx -> invariant f Q P ctx'.
Proof. intros [H1 H2 H3 H4 H5] E1 E2 E3 E4 E5. split; rewrite ?E1, ?E2, ?E3, ?E4, ?E5; assumption. Qed.

Lemma inv_set_mode ctx m : invariant f Q P ctx -> allowed f m -> invariant f Q P (set_mode m ctx).
Proof. intros [H1 H2 H3 _ H5] H4. by split. Qed.

Lemma inv_set_gs ctx g : invariant f Q P ctx -> allowed f (gateway_state.mode g) -> invariant f Q P (set_gs g ctx).
Proof. intros [H1 H2 H3 _ H5] H4. by split. Qed.

Lemma inv_set_hm ctx hm m : invariant f Q P ctx -> watches hm m -> invariant f Q P (set_hm hm ctx).
Proof. intros [H1 H2 _ H4 H5] H3. split; try done. by exists m. Qed.

Lemma inv_set_fm ctx fm K A : invariant f Q P ctx -> holds fm K A -> Q ⊆ A -> invariant f Q P (set_fm fm ctx).
Proof. intros [H1 _ H3 H4 H5] H2 Hq. split; try done. by exists K, A. Qed.

Lemma keep_trace label v : o || negb (is_ota label) = true -> keep (sim_trace_u32 label v).
Proof. intros H. by apply keeps_emit. Qed.

Lemma keep_set_bits bits : keep (set_bits bits).
Proof. apply keeps_modify. intros ctx H. by apply (inv_same ctx). Qed.

Lemma keep_notify v : keep (notify v).
Proof. apply keeps_modify. intros ctx H. destruct (notified ctx); [done|]. by apply (inv_same ctx). Qed.
End GatewayRuns.

(** The structural steps of a task. *)
Ltac task_step :=
  match goal with
  | |- keeps _ _ (tbind (tbind _ _) _) => apply keeps_bind; [|intros ?]
  | |- keeps _ _ (tbind tget _) => apply keeps_read; intros ?ctx ?Hctx
  | |- keeps _ _ (tbind (tlift _) _) => fail 1
  | |- keeps _ _ (tbind _ _) => apply keeps_bind; [|intros ?]
  | |- keeps _ _ (tret _) => apply keeps_ret
  | |- keeps _ _ (twhen _ _) => apply keeps_when; intros ?Hcond
  | |- keeps _ _ (sim_trace_u32 _ _) => apply keep_trace; first [reflexivity|apply orb_true_r]
  | |- keeps _ _ (set_bits _) => apply keep_set_bits
  | |- keeps _ _ (if ?c then _ else _) => destruct c eqn:?
  | |- keeps _ _ (match ?a with (_, _) => _ end) => destruct a
  | |- keeps _ _ _ => progress cbv beta zeta
  end.

(** ** The tasks *)

Section Tasks.
Context (f : flags_t) (Q : gset (Z * Z)) (P : mc_ota.mc_ota_slot_state_t * Z * cursor -> Prop) (o : bool).
Notation keep m := (keeps (invariant f Q P) (doing f o) m).

Lemma keep_report s c : keep (report s c (gateway_severity (s, c))).
Proof.
  apply keeps_read. intros ctx Hctx. pose proof (inv_faults _ _ _ _ Hctx) as (K & A & Hh & HQ).
  destruct (holds_report (fm ctx) K A s c Hh) as (fm' & Hr & Hh').
  destruct (fault_manager.fault_manager_report _ _ _ _) as [[fm1 r]|] eqn:E; [|discriminate].
  injection Hr as ->. apply (keeps_lift _ _ _ _ _ eq_refl), keeps_put.
  apply (inv_set_fm f Q P ctx fm' _ _ Hctx Hh').
  unfold noted. case_decide; set_solver.
Qed.

Lemma keep_bms_fault mutex frame code :
  load (data frame) 0 = Ret code -> keep (handle_bms_fault mutex frame).
Proof.
  intros H. apply (keeps_lift _ _ _ _ _ H). repeat task_step; [|apply keep_notify].
  exact (keep_report MC_NODE_BMS code).
Qed.

Lemma keep_heartbeat now_ms ev : keep (handle_heartbeat now_ms ev).
Proof.
  apply keeps_read. intros ctx H. pose proof (inv_nodes _ _ _ _ H) as (m & Hm & Hids).
  destruct (beat_mirrors _ _ (ev_sender ev) now_ms Hm) as (hm' & E & Hm').
  apply (keeps_lift _ _ _ _ _ E), keeps_put. eapply inv_set_hm; [done|]. split; [exact Hm'|]. rewrite <- Hids.
  unfold HeartbeatMonitor.beat. rewrite split_first_update.
  destruct (split_first _ _) as [[[l1 n] l2]|] eqn:Hs; [|done]. apply split_first_Some in Hs as [-> _].
  cbn [HeartbeatMonitor.nodes]. by rewrite !map_app.
Qed.

(** A check of the nodes keeps the table. *)
Lemma check_watches hm m now_ms :
  watches hm m ->
  exists hm' n, heartbeat_monitor.heartbeat_monitor_check hm now_ms = Ret (hm', n) /\
    watches hm' {| HeartbeatMonitor.nodes := map (mcheck now_ms) (HeartbeatMonitor.nodes m) |}.
Proof.
  intros [Hm Hids]. destruct (check_mirrors hm m now_ms Hm) as (hm' & E & Hm'). do 2 eexists. split; [exact E|].
  split; [exact Hm'|]. rewrite <- Hids. cbn [HeartbeatMonitor.nodes]. rewrite map_map. apply map_ext.
  intros n. unfold mcheck. by case_match.
Qed.

Lemma keep_check_nodes mutex now_ms : keep (check_nodes mutex now_ms).
Proof.
  apply keeps_read. intros ctx H. pose proof (inv_nodes _ _ _ _ H) as (m & Hw).
  destruct (check_watches _ _ now_ms Hw) as (hm' & n & E & Hw'). apply (keeps_lift _ _ _ _ _ E).
  apply keeps_bind; [apply keeps_modify; intros ctx' H'; by eapply inv_set_hm|]. intros _. task_step.
  eapply keeps_lift.
  { unfold heartbeat_monitor.heartbeat_monitor_last_transition_node.
    apply (first_or_mirror _ (fun n => negb (truthy (heartbeat_monitor.online (heartbeat_monitor.entry n)))) _ _ _ _ (proj1 Hw')).
    done. }
  task_step. exact (keep_report MC_NODE_BMS MC_BMS_FAULT_COMM_ERROR).
Qed.

Lemma keep_dtcs mutex : keep (first_active_dtc mutex).
Proof.
  destruct mutex; [|apply keeps_ret]. apply keeps_read. intros ctx H.
  pose proof (inv_faults _ _ _ _ H) as (K & A & (m & [Ht _] & _) & _).
  eapply keeps_lift; [|apply keeps_ret].
  apply (table_fold fault_manager.entry _ (fun _ => fault_manager.faults (fm ctx))
    (fun s f => if truthy (fault_manager.active f) then
                  let '(count, node, code) := s in
                  let '(node, code) := if count =? 0 then (fault_manager.source_node f, fault_manager.fault_code f) else (node, code) in
                  (cast U8 (count + 1), node, code) else s) (dtc_body (fm ctx)) (0, 0, 0) _ _ Ht); [done|].
  intros i [[count node] code] e Hl. unfold dtc_body. rewrite Hl. cbn [obind]. case_match; [|done].
  by destruct (count =? 0).
Qed.

Lemma keep_response service rid status v0 v1 : keep (send_diag_response service rid status v0 v1).
Proof.
  eapply keeps_lift; [reflexivity|]. repeat task_step. apply keeps_emit. apply sends_response.
Qed.

Lemma keep_start_session : keep start_session.
Proof.
  unfold start_session. repeat task_step. apply keeps_modify. intros c Hc. apply inv_set_mode; [|left; set_solver]. by apply (inv_same f Q P c).
Qed.

Lemma keep_clear_dtcs mutex : Q = ∅ -> keep (clear_dtcs mutex).
Proof.
  intros HQ. unfold clear_dtcs. repeat task_step. pose proof (inv_faults _ _ _ _ Hctx) as (K & A & Hh & _).
  assert (exists fm' A', (if truthy (diag_clear_all_bug (flags ctx)) then fault_manager.fault_manager_clear_all (fm ctx)
            else fault_manager.fault_manager_clear_node (fm ctx) MC_NODE_BMS) = Ret fm' /\ holds fm' K A') as (fm' & A' & E & Hh').
  { destruct (truthy (diag_clear_all_bug _)).
    - destruct (holds_clear_all _ _ _ Hh) as (fm' & ? & ?). by exists fm', ∅.
    - destruct (holds_clear_node _ _ _ MC_NODE_BMS Hh) as (fm' & ? & ?). by eexists fm', _. }
  apply (keeps_lift _ _ _ _ _ E). apply keeps_modify. intros c Hc. by eapply inv_set_fm; [done|done|set_solver].
Qed.

Lemma keep_reply mutex service :
  Q = ∅ \/ service <> MC_DIAG_CLEAR_DTCS -> keep (service_reply mutex service).
Proof.
  intros HQ. unfold service_reply. repeat task_step; try apply keep_start_session; try apply keep_dtcs.
  - apply keeps_modify. intros c Hc. by apply (inv_same f Q P c).
  - apply keep_clear_dtcs. destruct HQ; [done|]. lia.
Qed.

Lemma keep_diag_request mutex frame :
  Q = ∅ \/ load (data frame) 1 <> Ret MC_DIAG_CLEAR_DTCS ->
  (exists v, load (data frame) 1 = Ret v) -> (exists v, load (data frame) 2 = Ret v) ->
  keep (handle_diag_request mutex frame).
Proof.
  intros HQ [service H1] [rid H2]. unfold handle_diag_request. task_step; [task_step|].
  apply (keeps_lift _ _ _ _ _ H1), (keeps_lift _ _ _ _ _ H2), keeps_bind.
  - apply keep_reply. destruct HQ as [|HQ]; [by left|right; congruence].
  - intros [[status v0] v1]. apply keep_response.
Qed.
End Tasks.

(** ** The scripts *)

Section Scripts.
Context (f : flags_t) (Q : gset (Z * Z)) (P : mc_ota.mc_ota_slot_state_t * Z * cursor -> Prop) (o : bool).
Notation keep m := (keeps (invariant f Q P) (doing f o) m).

Lemma keep_once get set at_ms bit act :
  (forall x ctx, invariant f Q P ctx -> invariant f Q P (set x ctx)) -> keep act -> keep (once get set at_ms bit act).
Proof. intros Hs Ha. unfold once. repeat task_step; [done|]. apply keeps_modify. auto. Qed.

Lemma keep_advance get set :
  (forall x ctx, invariant f Q P ctx -> invariant f Q P (set x ctx)) -> keep (advance get set).
Proof. intros Hs. apply keeps_modify. auto. Qed.

Lemma keep_synth_request mutex service rid :
  Q = ∅ \/ service <> MC_DIAG_CLEAR_DTCS -> keep (synth_diag_request mutex service rid).
Proof.
  intros H. apply keep_diag_request; [|by exists service|by exists rid].
  destruct H as [H|H]; [by left|right]. change (Ret service <> Ret MC_DIAG_CLEAR_DTCS). congruence.
Qed.

Lemma keep_diag_script mutex :
  Q = ∅ \/ truthy (diag_dogfood_script f) = false -> keep (run_dogfood_diag_script mutex).
Proof.
  intros HQ. unfold run_dogfood_diag_script. task_step. rewrite (inv_flags _ _ _ _ Hctx). repeat task_step;
    try (apply keep_advance || apply keep_once); try (intros x c Hc; by apply (inv_same f Q P c));
    try (apply keep_synth_request; destruct HQ; [by left|congruence]).
  - by apply (keep_bms_fault f Q P o mutex _ MC_BMS_FAULT_OVERTEMP).
  - unfold synth_report_fault. task_step. exact (keep_report f Q P o MC_NODE_POWERTRAIN _).
Qed.

Lemma keep_startdrive_script mutex : keep (run_dogfood_diag_startdrive_script mutex).
Proof.
  unfold run_dogfood_diag_startdrive_script. task_step. rewrite (inv_flags _ _ _ _ Hctx). repeat task_step;
    try (apply keep_advance || apply keep_once); try (intros x c Hc; by apply (inv_same f Q P c));
    repeat task_step; try (apply keep_synth_request; by right).
  apply keeps_modify. intros c Hc. apply inv_set_mode; [done|]. right. unfold drives. rewrite Hcond, orb_true_r.
  split; [done|set_solver].
Qed.

Lemma keep_charging_script : keep run_dogfood_charging_script.
Proof.
  unfold run_dogfood_charging_script. task_step. rewrite (inv_flags _ _ _ _ Hctx). repeat task_step;
    try (apply keep_advance || apply keep_once); try (intros x c Hc; by apply (inv_same f Q P c));
    repeat task_step.
  - apply keeps_modify. intros c Hc. apply inv_set_mode; [done|]. right. unfold drives. rewrite Hcond.
    split; [done|set_solver].
  - apply keeps_modify. intros c Hc. apply inv_set_gs; [done|].
    unfold gateway_state.gateway_state_enter_drive. case_match; [|apply (inv_mode _ _ _ _ Hc)].
    right. unfold drives. rewrite Hcond. split; [done|set_solver].
Qed.

End Scripts.

(** The update script changes its own part of the context. *)
Section OtaScript.
Context (f : flags_t) (Q : gset (Z * Z)).
Notation keep m := (keeps (inv f Q) (does f) m).

Lemma inv_any (ctx ctx' : gateway_ctx_t) :
  inv f Q ctx -> flags ctx' = flags ctx -> fm ctx' = fm ctx -> hm ctx' = hm ctx -> mode_of ctx' = mode_of ctx ->
  inv f Q ctx'.
Proof. intros [H1 H2 H3 H4 _] E1 E2 E3 E4. split; rewrite ?E1, ?E2, ?E3, ?E4; done. Qed.

(** Changes of the context that the invariant does not see. *)
Ltac unseen := apply keeps_modify; intros ?c ?Hc; by apply (inv_any c).

Lemma keep_ota_do g : keep (ota_do g).
Proof. unseen. Qed.

Lemma keep_ota_call g : keep (ota_call g).
Proof. unfold ota_call. repeat task_step. apply keeps_put. by apply (inv_any ctx). Qed.

Lemma keep_trace_ota label field : keep (trace_ota label field).
Proof. unfold trace_ota. repeat task_step. Qed.

Lemma keep_rollback_traces : keep rollback_traces.
Proof. unfold rollback_traces, emit_ota_rollback. repeat task_step. Qed.

Lemma keep_ota_script : keep run_dogfood_ota_script.
Proof.
  unfold run_dogfood_ota_script. repeat task_step; try unseen;
    try (apply keep_advance || apply keep_once); try (intros x c Hc; by apply (inv_any c));
    unfold in_state; repeat task_step;
    first [apply keep_ota_do|apply keep_ota_call|apply keep_trace_ota|apply keep_rollback_traces].
Qed.
End OtaScript.

(** ** The mode a turn ends in *)

Section Mode.
Context (f : flags_t) (Q : gset (Z * Z)) (P : mc_ota.mc_ota_slot_state_t * Z * cursor -> Prop) (o : bool).
Notation keep m := (keeps (invariant f Q P) (doing f o) m).

Definition next_mode (danger session : bool) (old online : Z) : Z :=
  if negb danger && session then VEHICLE_SERVICE else mc_gateway_determine_mode old online (Z.b2z danger) 0 1.

Lemma next_mode_allowed danger session old online : allowed f old -> allowed f (next_mode danger session old online).
Proof.
  intros H. unfold next_mode, mc_gateway_determine_mode. change (truthy 0) with false. rewrite truthy_b2z.
  destruct H as [H|[Hd H]];
    (repeat (apply elem_of_cons in H as [->|H];
       [destruct danger, session, (truthy online); cbn; first [left; set_solver|right; split; [done|set_solver]]|]);
     by apply not_elem_of_nil in H).
Qed.

Lemma next_mode_danger session old online : next_mode true session old online = VEHICLE_FAULT.
Proof. unfold next_mode, mc_gateway_determine_mode. cbn. by case_match. Qed.

(** The mode update: the danger is what the gateway sees of it under the mutex. *)
Lemma update_mode_eq mutex now_ms ctx K A :
  invariant f Q P ctx -> holds (fm ctx) K A ->
  exists hm' m' g online, watches hm' m' /\
    let new := next_mode (mutex && in_danger A) (truthy (diag_session_active ctx)) (mode_of ctx) online in
    update_vehicle_mode mutex now_ms ctx = Ret (new, set_gs g (set_hm hm' ctx), []) /\
    gateway_state.mode g = new.
Proof.
  intros H Hh. destruct (inv_nodes _ _ _ _ H) as (m & Hw). destruct (check_watches _ _ now_ms Hw) as (hm' & n & Hc & Hw').
  destruct (holds_counts _ _ _ Hh) as [_ Ha]. destruct (holds_has_critical _ _ _ Hh) as [Hcr _].
  pose proof (all_online_mirror _ _ (proj1 Hw')) as Ho.
  set (m' := {| HeartbeatMonitor.nodes := map (mcheck now_ms) (HeartbeatMonitor.nodes m) |}) in *.
  unfold update_vehicle_mode, next_mode, mode_of, modify, tbind, tget, tput, tlift, tret. cbn [obind]. rewrite Hc. cbn [obind].
  rewrite Ho. destruct mutex; cbn [obind andb fm set_hm].
  - rewrite Ha, Hcr. cbn [obind]. fold (in_danger A). rewrite truthy_b2z. cbv zeta.
    destruct (negb (in_danger A) && truthy (diag_session_active ctx));
      exists hm', m'; eexists; exists (Z.b2z (HeartbeatMonitor.all_online m')); (split; [exact Hw'|split; reflexivity]).
  - cbn [negb truthy Z.eqb andb]. destruct (truthy (diag_session_active ctx));
      exists hm', m'; eexists; exists (Z.b2z (HeartbeatMonitor.all_online m')); (split; [exact Hw'|split; reflexivity]).
Qed.

Lemma keep_update_mode mutex now_ms : keep (update_vehicle_mode mutex now_ms).
Proof.
  intros ctx H. pose proof (inv_faults _ _ _ _ H) as (K & A & Hh & _).
  destruct (update_mode_eq mutex now_ms ctx K A H Hh) as (hm' & m' & g & online & Hw & E & Hg).
  eexists _, _, _. split; [exact E|]. split; [|constructor].
  apply inv_set_gs; [by eapply inv_set_hm|]. rewrite Hg. apply next_mode_allowed, (inv_mode _ _ _ _ H).
Qed.

Lemma mode_frame ctx c :
  invariant f Q P ctx ->
  (let tx := mc_frame_init MC_MSG_VEHICLE_MODE MC_NODE_GATEWAY MC_VEHICLE_MODE_MSG_SIZE in
   let! d := store (data tx) 0 (cast U8 (mode_of ctx)) in
   let! d := store d 1 c in
   Ret {| id := id tx; sender := sender tx; data := d; len := len tx |}) =
  Ret (frame_of MC_MSG_VEHICLE_MODE MC_NODE_GATEWAY [mode_of ctx; c]).
Proof. intros H. rewrite (allowed_u8 f) by apply (inv_mode _ _ _ _ H). reflexivity. Qed.

(** The broadcast of the mode. *)
Lemma send_mode_eq mutex ctx K A :
  invariant f Q P ctx -> holds (fm ctx) K A ->
  send_vehicle_mode mutex ctx =
  Ret (tt, ctx, [Send (frame_of MC_MSG_VEHICLE_MODE MC_NODE_GATEWAY [mode_of ctx; Z.b2z (mutex && in_danger A)])]).
Proof.
  intros H Hh. destruct (holds_has_critical _ _ _ Hh) as [_ Hcr].
  pose proof (mode_frame ctx (Z.b2z (mutex && in_danger A)) H) as Hf. cbv zeta in Hf.
  unfold send_vehicle_mode, tbind, tget, tlift, sim_can_send, temit. cbn [obind].
  replace (if mutex then if 0 <? fault_manager.critical_count (fm ctx) then 1 else 0 else 0)
    with (Z.b2z (mutex && in_danger A)) by (rewrite Hcr; fold (in_danger A); by destruct mutex, (in_danger A)).
  destruct (store _ 0 _) as [d|]; [|discriminate]. cbn [obind] in Hf |- *.
  destruct (store d 1 _) as [d'|]; [|discriminate]. cbn [obind app] in Hf |- *. by injection Hf as ->.
Qed.

Lemma keep_send_mode mutex : keep (send_vehicle_mode mutex).
Proof.
  intros ctx H. pose proof (inv_faults _ _ _ _ H) as (K & A & Hh & _).
  eexists _, _, _. split; [by apply (send_mode_eq mutex ctx K A)|]. split; [done|]. constructor; [|constructor].
  apply sends_mode; [apply (inv_mode _ _ _ _ H)|]. destruct (mutex && in_danger A); auto.
Qed.

Lemma keep_send_heartbeat now_ms : keep (gateway_ctx.send_heartbeat now_ms).
Proof. eapply keeps_lift; [apply heartbeat_frame_eq|]. apply keeps_emit, sends_heartbeat. Qed.

(** What follows the update keeps the mode it found. *)
Definition ready (fm0 : fault_manager.fault_manager_t) (session m : Z) (ctx : gateway_ctx_t) : Prop :=
  invariant f Q P ctx /\ fm ctx = fm0 /\ diag_session_active ctx = session /\ mode_of ctx = m.

Lemma ready_events fm0 session m g :
  keeps (ready fm0 session m) (doing f o) (modify (fun ctx => set_mode_events (g ctx) ctx)).
Proof. apply keeps_modify. intros c (Hc & ?). split; [by apply (inv_same f Q P c)|done]. Qed.

Lemma ready_heartbeat fm0 session m now_ms :
  keeps (ready fm0 session m) (doing f o) (gateway_ctx.send_heartbeat now_ms).
Proof. eapply keeps_lift; [apply heartbeat_frame_eq|]. apply keeps_emit, sends_heartbeat. Qed.

Lemma ready_send mutex fm0 session m K A :
  holds fm0 K A ->
  emits (ready fm0 session m) (doing f o)
    (Send (frame_of MC_MSG_VEHICLE_MODE MC_NODE_GATEWAY [m; Z.b2z (mutex && in_danger A)])) (send_vehicle_mode mutex).
Proof.
  intros Hh ctx (H & E1 & E2 & E3). rewrite <- E1 in Hh.
  eexists _, _, _. split; [by apply (send_mode_eq mutex ctx K A)|]. rewrite E3. split; [done|]. split; [|by left].
  constructor; [|constructor]. apply sends_mode; [rewrite <- E3; apply (inv_mode _ _ _ _ H)|].
  destruct (mutex && in_danger A); auto.
Qed.

Lemma announce_emits mutex now_ms old fm0 session m K A :
  holds fm0 K A ->
  if negb (m =? old) || (now_ms mod 50 =? 0)
  then emits (ready fm0 session m) (doing f o)
         (Send (frame_of MC_MSG_VEHICLE_MODE MC_NODE_GATEWAY [m; Z.b2z (mutex && in_danger A)]))
         (announce_mode mutex now_ms old m)
  else keeps (ready fm0 session m) (doing f o) (announce_mode mutex now_ms old m).
Proof.
  intros Hh. unfold announce_mode.
  assert (keeps (ready fm0 session m) (doing f o)
    (twhen (negb (m =? old)) (do! _ := sim_trace_u32 "vehicle_mode" m in set_bits 1))) as H1.
  { repeat task_step; [apply keeps_emit; exact (orb_true_r o)|apply ready_events]. }
  assert (forall ctx, keeps (ready fm0 session m) (doing f o) (twhen (truthy (Z.land (mode_events ctx) 1))
        (do! _ := sim_trace_u32 "mode_event_group" (mode_events ctx) in
         modify (fun ctx => set_mode_events (Z.ldiff (mode_events ctx) 1) ctx)))) as H2.
  { intros ctx. repeat task_step; [apply keeps_emit; exact (orb_true_r o)|apply ready_events]. }
  destruct (negb (m =? old) || (now_ms mod 50 =? 0)).
  - apply emits_bind; [done|]. intros _. apply emits_read. intros ctx _. apply emits_bind; [done|]. intros _.
    apply emits_bind; [task_step; apply ready_heartbeat|]. intros _. by apply (ready_send mutex fm0 session m K A).
  - apply keeps_bind; [done|]. intros _. apply keeps_read. intros ctx _. apply keeps_bind; [done|]. intros _.
    apply keeps_bind; [task_step; apply ready_heartbeat|]. intros _. apply keeps_ret.
Qed.

(** The whole phase: the mode it ends in and the frame that tells it, which is sent when the
    mode changed and every 50 ms. *)
Lemma mode_phase_eq mutex now_ms ctx K A :
  invariant f Q P ctx -> holds (fm ctx) K A ->
  exists ctx' es online, mode_phase mutex now_ms ctx = Ret (tt, ctx', es) /\ invariant f Q P ctx' /\ Forall (doing f o) es /\
    fm ctx' = fm ctx /\ diag_session_active ctx' = diag_session_active ctx /\
    mode_of ctx' = next_mode (mutex && in_danger A) (truthy (diag_session_active ctx)) (mode_of ctx) online /\
    (mode_of ctx' <> mode_of ctx \/ now_ms mod 50 = 0 ->
     Send (frame_of MC_MSG_VEHICLE_MODE MC_NODE_GATEWAY [mode_of ctx'; Z.b2z (mutex && in_danger A)]) ∈ es).
Proof.
  intros H Hh. destruct (update_mode_eq mutex now_ms ctx K A H Hh) as (hm' & m' & g & online & Hw & Hu & Hg).
  set (new := next_mode _ _ _ online) in *. set (ctx1 := set_gs g (set_hm hm' ctx)) in *.
  assert (ready (fm ctx) (diag_session_active ctx) new ctx1) as H1.
  { split; [|done]. apply inv_set_gs; [by eapply inv_set_hm|]. rewrite Hg. apply next_mode_allowed, (inv_mode _ _ _ _ H). }
  pose proof (announce_emits mutex now_ms (mode_of ctx) (fm ctx) (diag_session_active ctx) new K A Hh) as Ha.
  assert (forall es ctx', announce_mode mutex now_ms (mode_of ctx) new ctx1 = Ret (tt, ctx', es) ->
            mode_phase mutex now_ms ctx = Ret (tt, ctx', es)) as Hrun.
  { intros es ctx' E. unfold mode_phase, tbind, tget. cbn [obind]. rewrite Hu. cbn [obind]. by rewrite E. }
  destruct (negb (new =? mode_of ctx) || (now_ms mod 50 =? 0)) eqn:Hc.
  - destruct (Ha ctx1 H1) as ([] & ctx' & es & E & (H2 & E1 & E2 & E3) & Hes & Hin).
    exists ctx', es, online. rewrite E3. split_and!; [by apply Hrun|done|done|done|done|done|by intros _].
  - destruct (Ha ctx1 H1) as ([] & ctx' & es & E & (H2 & E1 & E2 & E3) & Hes).
    exists ctx', es, online. rewrite E3. split_and!; [by apply Hrun|done|done|done|done|done|].
    apply orb_false_iff in Hc as [Hc1 Hc2]. bool_prop. intros [?|?]; lia.
Qed.
End Mode.

(** ** Turns and frames *)

Section Events.
Context (f : flags_t) (Q : gset (Z * Z)) (P : mc_ota.mc_ota_slot_state_t * Z * cursor -> Prop) (o : bool).
Notation keep m := (keeps (invariant f Q P) (doing f o) m).

Lemma keep_drain now_ms : keep (drain_heartbeats now_ms).
Proof.
  unfold drain_heartbeats. repeat task_step; [apply keeps_modify; intros c Hc; by apply (inv_same f Q P c)|].
  apply keeps_for. intros ev _. apply keep_heartbeat.
Qed.

Lemma keep_take_notification : keep take_notification.
Proof.
  unfold take_notification. task_step. destruct (notified ctx); repeat task_step.
  apply keeps_modify. intros c Hc. by apply (inv_same f Q P c).
Qed.

Lemma keep_dispatch mutex frame :
  frame_ok frame -> Q = ∅ \/ id frame <> MC_MSG_DIAG_REQUEST -> keep (dispatch_frame_in_rx mutex frame).
Proof.
  intros Hf Hid. unfold dispatch_frame_in_rx.
  assert (forall i, (i < 8)%nat -> load (data frame) (Z.of_nat i) = Ret (byte frame i)) as Hl
    by (intros i Hi; by apply load_byte).
  destruct (id frame =? MC_MSG_HEARTBEAT).
  { apply (keeps_lift _ _ _ _ _ (Hl 1%nat ltac:(lia))), (keeps_lift _ _ _ _ _ (Hl 2%nat ltac:(lia))),
      (keeps_lift _ _ _ _ _ (Hl 3%nat ltac:(lia))), (keeps_lift _ _ _ _ _ (Hl 4%nat ltac:(lia))).
    apply keeps_modify. intros c Hc. case_match; [by apply (inv_same f Q P c)|done]. }
  destruct (id frame =? MC_MSG_BMS_FAULT); [exact (keep_bms_fault f Q P o mutex _ _ (Hl 0%nat ltac:(lia)))|].
  destruct (Z.eqb_spec (id frame) MC_MSG_DIAG_REQUEST); [|apply keeps_ret].
  apply keep_diag_request; [|eexists; exact (Hl 1%nat ltac:(lia))|eexists; exact (Hl 2%nat ltac:(lia))].
  destruct Hid; [by left|done].
Qed.

Lemma keep_aggregator mutex : keep (fault_aggregator_turn mutex).
Proof.
  unfold fault_aggregator_turn. task_step. destruct mutex.
  - pose proof (inv_faults _ _ _ _ Hctx) as (K & A & Hh & _). destruct (holds_counts _ _ _ Hh) as [_ Ha].
    apply keeps_bind; [eapply keeps_lift; [exact Ha|apply keeps_ret]|]. intros [[c w] n]. repeat task_step.
  - repeat task_step.
Qed.
End Events.

Section Turns.
Context (f : flags_t) (Q : gset (Z * Z)).
Notation keep m := (keeps (inv f Q) (does f) m).

(** The faults in [Q] are safe from the diagnostics script. *)
Context (HQ : Q = ∅ \/ truthy (diag_dogfood_script f) = false).

(** What a turn of the main loop ends in. *)
Definition turn_ends (mutex : bool) (now_ms : Z) (ctx : gateway_ctx_t) (es : list effect) : Prop :=
  inv f Q ctx /\ Forall (does f) es /\
  exists K A, holds (fm ctx) K A /\ Q ⊆ A /\
    let danger := mutex && in_danger A in
    (exists old online, mode_of ctx = next_mode danger (truthy (diag_session_active ctx)) old online) /\
    (now_ms mod 50 = 0 -> Send (frame_of MC_MSG_VEHICLE_MODE MC_NODE_GATEWAY [mode_of ctx; Z.b2z danger]) ∈ es).

Lemma turn_spec mutex now_ms : spec (inv f Q) (gateway_turn mutex now_ms) (fun _ _ ctx es => turn_ends mutex now_ms ctx es).
Proof.
  unfold gateway_turn.
  assert (forall ctx es0 es, Forall (does f) es0 -> turn_ends mutex now_ms ctx es -> turn_ends mutex now_ms ctx (es0 ++ es)) as HP.
  { intros ctx es0 es H0 (Hi & Hes & K & A & Hh & HA & Hm & Hin). split; [done|]. split; [by apply Forall_app|].
    exists K, A. split; [done|]. split; [done|]. split; [done|]. intros H50. apply elem_of_app. right. auto. }
  apply (spec_after _ _ _ _ _ HP (keep_drain f Q _ _ now_ms)); intros _.
  apply (spec_after _ _ _ _ _ HP (keep_diag_script f Q _ _ mutex HQ)); intros _.
  apply (spec_after _ _ _ _ _ HP (keep_startdrive_script f Q _ _ mutex)); intros _.
  apply (spec_after _ _ _ _ _ HP (keep_charging_script f Q _ _)); intros _.
  apply (spec_after _ _ _ _ _ HP (keep_ota_script f Q)); intros _.
  apply (spec_after _ _ _ _ _ HP (keep_take_notification f Q _ _)); intros _.
  apply (spec_after _ _ _ _ _ HP (keep_check_nodes f Q _ _ mutex now_ms)); intros _.
  intros ctx H. pose proof (inv_faults _ _ _ _ H) as (K & A & Hh & HA).
  destruct (mode_phase_eq f Q _ true mutex now_ms ctx K A H Hh) as (ctx' & es & online & E & H' & Hes & Efm & Es & Em & Hin).
  exists tt, ctx', es. split; [done|]. split; [done|]. split; [done|]. exists K, A. rewrite Efm, Es.
  split; [done|]. split; [done|]. split; [by eexists _, _|]. intros H50. apply Hin. by right.
Qed.

Lemma keep_turn mutex now_ms : keep (gateway_turn mutex now_ms).
Proof.
  intros ctx H. destruct (turn_spec mutex now_ms ctx H) as ([] & ctx' & es & E & Hi & Hes & _). by exists tt, ctx', es.
Qed.

End Turns.

(** ** Runs *)

Inductive event :=
  | Rx (mutex : bool) (frame : mc_can_frame_t)
  | Turn (mutex : bool) (now_ms : Z)
  | Aggregate (mutex : bool).

Definition handle (e : event) : task gateway_ctx_t unit :=
  match e with
  | Rx mutex frame => dispatch_frame_in_rx mutex frame
  | Turn mutex now_ms => gateway_turn mutex now_ms
  | Aggregate mutex => fault_aggregator_turn mutex
  end.

Definition run_events (es : list event) : task gateway_ctx_t unit := tfor handle es.

(** Frames are as the bus delivers them. *)
Definition event_ok (e : event) : Prop := match e with Rx _ frame => frame_ok frame | _ => True end.

(** No diagnostics request, from the bus or from the script. *)
Definition undisturbed (e : event) : Prop := match e with Rx _ frame => id frame <> MC_MSG_DIAG_REQUEST | _ => True end.

Lemma keep_events f Q es :
  Q = ∅ \/ truthy (diag_dogfood_script f) = false /\ Forall undisturbed es -> Forall event_ok es ->
  keeps (inv f Q) (does f) (run_events es).
Proof.
  intros HQ Hok. apply keeps_for. intros e He. pose proof (proj1 (list.Forall_forall _ _) Hok e He) as Hoke.
  assert (Q = ∅ \/ truthy (diag_dogfood_script f) = false) as HQ' by tauto.
  destruct e as [mutex frame|mutex now_ms|mutex]; cbn [handle].
  - apply keep_dispatch; [done|]. destruct HQ as [|[_ H]]; [by left|right].
    exact (proj1 (list.Forall_forall _ _) H _ He).
  - by apply keep_turn.
  - by apply keep_aggregator.
Qed.

(** A fault the BMS reports is active from then on. *)
Lemma fault_noted f ctx frame code :
  inv f ∅ ctx -> fault_manager.fault_count (fm ctx) < 16 -> load (data frame) 0 = Ret code ->
  exists ctx' es, handle_bms_fault true frame ctx = Ret (tt, ctx', es) /\ inv f {[ (MC_NODE_BMS, code) ]} ctx'.
Proof.
  intros H Hroom Hl. pose proof H as [Hf (K & A & Hh & _) Hn Hm _].
  destruct (holds_report (fm ctx) K A MC_NODE_BMS code Hh) as (fm' & Hr & Hh').
  destruct (holds_size _ _ _ Hh) as (Hsize & _ & _).
  change (gateway_severity (MC_NODE_BMS, code)) with (fault_manager.fault_manager_bms_severity code) in Hr.
  assert (inv f {[ (MC_NODE_BMS, code) ]} (set_fm fm' ctx)) as Hi.
  { split; [done| |done|done|done]. eexists _, _. split; [exact Hh'|].
    unfold noted. rewrite decide_True by (right; lia). set_solver. }
  destruct (fault_manager.fault_manager_report _ _ _ _) as [[fm1 r]|] eqn:E; [|discriminate]. injection Hr as ->.
  assert (handle_bms_fault true frame ctx =
    twhen (fault_manager.fault_manager_bms_severity code =? 2) (notify code) (set_fm fm' ctx)) as ->.
  { unfold handle_bms_fault, report, tbind, tget, tput, tlift. rewrite Hl. cbn [obind twhen]. rewrite E. cbn [obind].
    by destruct (twhen _ _ _) as [[[[] ?] ?]|]. }
  edestruct (keeps_when (inv f {[ (MC_NODE_BMS, code) ]}) (does f) (fault_manager.fault_manager_bms_severity code =? 2)
    (notify code) (fun _ => keep_notify f _ _ true code) _ Hi) as ([] & ctx' & es & E' & H' & _). by exists ctx', es.
Qed.

(** The gateway after its start, with the flags its boot function set. *)
Lemma booted f : exists ctx, gateway_init (set_flags f zeroed) = Ret (tt, ctx, []) /\ inv f ∅ ctx.
Proof.
  eexists. split; [reflexivity|]. split; [done|exists ∅, ∅; split; [apply holds_init|done]| |left; set_solver|done].
  pose (node id := {| HeartbeatMonitor.node_id := id; HeartbeatMonitor.online := false;
                      HeartbeatMonitor.last_beat_ms := 0; HeartbeatMonitor.timeout_ms := MC_SAFETY_BMS_HEARTBEAT_TIMEOUT_MS |}).
  exists {| HeartbeatMonitor.nodes := map node [MC_NODE_POWERTRAIN; MC_NODE_BMS; MC_NODE_DASHBOARD] |}.
  split; [|done]. split; [done|]. split; [done|]. by eexists.
Qed.

(** C5: The gateway, whatever happens.  From its start with any flags, for every sequence of
    frames, turns of its main loop and turns of its aggregator, the firmware leaves no array
    and sends heartbeats, diagnostics responses and mode frames only, the mode being one its
    flags allow: OFF, READY, FAULT or SERVICE, and DRIVE or CHARGING for two of the scripts.
    Its fault table counts its active critical faults and its active warnings exactly,
    although [fault_manager_report] would not if a severity changed.  A turn that obtains the mutex ends in FAULT when the table holds an active
    critical fault, in SERVICE when it does not and a diagnostics session is open; and every
    50 ms it says so on the bus. *)
Theorem gateway_runs f es now_ms :
  Forall event_ok es ->
  exists ctx0 ctx out,
    gateway_init (set_flags f zeroed) = Ret (tt, ctx0, []) /\ run_events es ctx0 = Ret (tt, ctx, out) /\
    Forall (does f) out /\ allowed f (mode_of ctx) /\
    fault_manager.critical_count (fm ctx) =
      countb (fun x => truthy (fault_manager.active x) && (fault_manager.severity x =? 2)) (used (fm ctx)) /\
    fault_manager.warning_count (fm ctx) =
      countb (fun x => truthy (fault_manager.active x) && (fault_manager.severity x =? 1)) (used (fm ctx)) /\
    exists ctx' out', gateway_turn true now_ms ctx = Ret (tt, ctx', out') /\ Forall (does f) out' /\
      let danger := existsb (fun x => truthy (fault_manager.active x) && (fault_manager.severity x =? 2)) (used (fm ctx')) in
      let session := truthy (diag_session_active ctx') in
      (danger = true -> mode_of ctx' = VEHICLE_FAULT) /\
      (danger = false -> session = true -> mode_of ctx' = VEHICLE_SERVICE) /\
      (now_ms mod 50 = 0 ->
       Send (frame_of MC_MSG_VEHICLE_MODE MC_NODE_GATEWAY [mode_of ctx'; Z.b2z danger]) ∈ out').
Proof.
  intros Hes. destruct (booted f) as (ctx0 & H0 & Hi0).
  destruct (keep_events f ∅ es (or_introl eq_refl) Hes ctx0 Hi0) as ([] & ctx & out & Hr & Hi & Hout).
  exists ctx0, ctx, out. split; [done|]. split; [done|]. split; [done|]. split; [apply (inv_mode _ _ _ _ Hi)|].
  destruct (inv_faults _ _ _ _ Hi) as (K0 & A0 & Hh0 & _).
  destruct (holds_counters _ _ _ Hh0) as [Hcrit Hwarn]. split; [exact Hcrit|]. split; [exact Hwarn|].
  destruct (turn_spec f ∅ (or_introl eq_refl) true now_ms ctx Hi) as ([] & ctx' & out' & Ht & Hi' & Hout' & K & A & Hh & _ & Hm & Hsend).
  exists ctx', out'. split; [done|]. split; [done|]. cbv zeta. rewrite <- (holds_in_danger _ _ _ Hh).
  destruct Hm as (old & online & Hm). split; [|split]; [| |exact Hsend].
  - intros Hd. rewrite Hm, Hd. apply next_mode_danger.
  - intros Hd Hs. by rewrite Hm, Hd, Hs.
Qed.

Lemma gateway_runs_witness :
  let frame bytes i := receive (replicate 8 0) i bytes in
  let es := [Rx true (frame [MC_NODE_BMS; 0; 0; 0; 9] MC_MSG_HEARTBEAT); Turn true 10;
             Rx true (frame [MC_BMS_FAULT_OVERTEMP] MC_MSG_BMS_FAULT); Aggregate true] in
  Forall event_ok es /\
  exists ctx0 ctx out, gateway_init (set_flags no_flags zeroed) = Ret (tt, ctx0, []) /\
    run_events es ctx0 = Ret (tt, ctx, out) /\
    exists ctx' out', gateway_turn true 50 ctx = Ret (tt, ctx', out') /\
      Send (frame_of MC_MSG_VEHICLE_MODE MC_NODE_GATEWAY [VEHICLE_FAULT; 1]) ∈ out'.
Proof.
  intros frame es.
  assert (Hes : Forall event_ok es) by (repeat constructor; vm_compute; intuition discriminate).
  split; [exact Hes|].
  destruct (gateway_runs no_flags es 50 Hes) as (ctx0 & ctx & out & H0 & Hr & _ & _ & _ & _ & ctx' & out' & Ht & _ & _ & _ & Hs).
  exists ctx0, ctx, out. split; [exact H0|]. split; [exact Hr|]. exists ctx', out'. split; [exact Ht|].
  specialize (Hs eq_refl). vm_compute in H0. injection H0 as <-. vm_compute in Hr. injection Hr as <- _.
  vm_compute in Ht. injection Ht as <- _. vm_compute in Hs |- *. exact Hs.
Defined.
