(* ===== verification/CGatewayOta.v ===== *)
(** * The update script of the gateway and the OTA lane

    The script of [run_dogfood_ota_script] reads and writes its own part of the context only,
    so what it traces does not depend on the rest of the gateway: on frames, faults, sessions
    or the other scripts.  The events the OTA lane judges are therefore the same in every run
    of a scenario, and the theorem compares them with the expectations the scenarios state. *)

From stdpp Require Import gmap.
From S2P Require Import Prelude MachineInt Protocol Gateway CBase CProtocol CFirmware CTables CMonitors COtaSlot.
From S2P Require Import RustStr Json Runner Lane Ecu OtaLane Corpus.
From S2P Require Import CFrames CTask CGatewayEcu CGatewayFaults CGatewayRuns CCoordinator.

Import gateway_ctx.

Section GatewayOta.

(** What the script sees, and what it traces. *)
Definition view (ctx : gateway_ctx_t) : flags_t * (mc_ota.mc_ota_slot_state_t * Z * cursor) := (flags ctx, ota_part ctx).

Definition ota_traces (es : list effect) : list (string * Z) := List.filter (fun '(l, _) => is_ota l) (traces es).

Lemma ota_traces_app es es' : ota_traces (es ++ es') = ota_traces es ++ ota_traces es'.
Proof. unfold ota_traces, traces. by rewrite omap_app, List.filter_app. Qed.

Lemma ota_traces_other f es : Forall (doing f false) es -> ota_traces es = [].
Proof.
  induction 1 as [|e es He _ IH]; [done|]. unfold ota_traces, traces in *. cbn [omap list_omap].
  destruct e as [l v|fr]; [|exact IH]. cbn [List.filter]. cbn in He. apply negb_true_iff in He. by rewrite He.
Qed.

(** [m] does on a context what [m'] does on another with the same view, up to what the view
    and the update's labels do not show. *)
Definition tracks (f : flags_t) (m m' : task gateway_ctx_t unit) : Prop :=
  forall c c', inv f ∅ c -> view c = view c' ->
  exists d out d' out', m c = Ret (tt, d, out) /\ m' c' = Ret (tt, d', out') /\
    inv f ∅ d /\ view d = view d' /\ ota_traces out = ota_traces out'.

Lemma tracks_seq f m1 m1' m2 m2' :
  tracks f m1 m1' -> tracks f m2 m2' -> tracks f (tbind m1 (fun _ => m2)) (tbind m1' (fun _ => m2')).
Proof.
  intros H1 H2 c c' Hi Hv. destruct (H1 c c' Hi Hv) as (d & o & d' & o' & E & E' & Hi1 & Hv1 & Ho).
  destruct (H2 d d' Hi1 Hv1) as (e & p & e' & p' & F & F' & Hi2 & Hv2 & Hp).
  exists e, (o ++ p), e', (o' ++ p'). unfold tbind. rewrite E, E'. cbn [obind]. rewrite F, F'. cbn [obind].
  rewrite !ota_traces_app, Ho, Hp. done.
Qed.

(** Tasks that leave the update alone. *)
Definition silent (f : flags_t) (m : task gateway_ctx_t unit) : Prop :=
  forall P, keeps (invariant f ∅ P) (doing f false) m.

Lemma silent_tracks f m : silent f m -> tracks f m (tret tt).
Proof.
  intros H c c' Hi Hv.
  assert (invariant f ∅ (fun x => x = ota_part c) c) as Hc by (destruct Hi; by split).
  destruct (H _ c Hc) as ([] & d & out & E & Hd & Hout).
  exists d, out, c', []. split_and!; [done|done| | |by rewrite (ota_traces_other f)].
  - destruct Hd. by split.
  - rewrite <- Hv. unfold view. by rewrite (inv_flags _ _ _ _ Hd), (inv_flags _ _ _ _ Hi), (inv_ota _ _ _ _ Hd).
Qed.

(** Doing nothing first or last. *)
Lemma skip_first (m : task gateway_ctx_t unit) c : tbind (tret tt) (fun _ => m) c = m c.
Proof. unfold tbind, tret. cbn [obind]. by destruct (m c) as [[[[] d] out]|]. Qed.

Lemma skip_last (m : task gateway_ctx_t unit) c : tbind m (fun _ => tret tt) c = m c.
Proof. unfold tbind, tret. destruct (m c) as [[[[] d] out]|]; [|done]. cbn [obind]. by rewrite app_nil_r. Qed.

Lemma tracks_ext f m m1 m2 : (forall c, m1 c = m2 c) -> tracks f m m1 -> tracks f m m2.
Proof. intros H Ht c c' Hi Hv. destruct (Ht c c' Hi Hv) as (d & o & d' & o' & E & E' & ?). rewrite H in E'. by exists d, o, d', o'. Qed.

Lemma silent_first f m m1 m2 : silent f m -> tracks f m1 m2 -> tracks f (tbind m (fun _ => m1)) m2.
Proof.
  intros Hs Ht. apply (tracks_ext f _ (tbind (tret tt) (fun _ => m2))); [apply skip_first|].
  apply tracks_seq; [by apply silent_tracks|done].
Qed.

Lemma silent_last f m m1 m2 : tracks f m1 m2 -> silent f m -> tracks f (tbind m1 (fun _ => m)) m2.
Proof.
  intros Ht Hs. apply (tracks_ext f _ (tbind m2 (fun _ => tret tt))); [apply skip_last|].
  apply tracks_seq; [done|by apply silent_tracks].
Qed.

(** ** The script itself *)

(** The same answer and the same effects on contexts with the same view. *)
Definition same {A : Type} (m : task gateway_ctx_t A) : Prop :=
  forall c c', view c = view c' ->
  match m c, m c' with
  | Ret (a, d, es), Ret (a', d', es') => a = a' /\ es = es' /\ view d = view d'
  | Panic, Panic => True
  | _, _ => False
  end.

Lemma same_ret {A : Type} (a : A) : same (tret a).
Proof. by intros c c' H. Qed.

Lemma same_bind {A B : Type} (m : task gateway_ctx_t A) (k : A -> task gateway_ctx_t B) :
  same m -> (forall a, same (k a)) -> same (tbind m k).
Proof.
  intros Hm Hk c c' H. specialize (Hm c c' H). unfold tbind.
  destruct (m c) as [[[a d] es]|], (m c') as [[[a' d'] es']|]; try done. cbn [obind].
  destruct Hm as (<- & <- & Hd). specialize (Hk a d d' Hd).
  destruct (k a d) as [[[b e] fs]|], (k a d') as [[[b' e'] fs']|]; try done. cbn [obind].
  by destruct Hk as (<- & <- & ?).
Qed.

Lemma same_read {B : Type} (k : gateway_ctx_t -> task gateway_ctx_t B) :
  (forall c c', view c = view c' -> k c = k c') -> (forall c, same (k c)) -> same (tbind tget k).
Proof.
  intros He Hk c c' H. unfold tbind, tget. cbn [obind]. rewrite (He c c' H).
  specialize (Hk c' c c' H). destruct (k c' c) as [[[b e] fs]|], (k c' c') as [[[b' e'] fs']|]; done.
Qed.

Lemma same_modify g : (forall c c', view c = view c' -> view (g c) = view (g c')) -> same (modify g).
Proof. intros H c c' Hv. cbn. by rewrite (H c c' Hv). Qed.

Lemma same_trace l v : same (sim_trace_u32 l v).
Proof. by intros c c' H. Qed.

Lemma same_when b m : same m -> same (twhen b m).
Proof. destruct b; [done|]. intros _. apply same_ret. Qed.

(** The parts of a view. *)
Lemma view_parts c c' :
  view c = view c' -> flags c = flags c' /\ ota c = ota c' /\ ota_inited c = ota_inited c' /\ ota_script c = ota_script c'.
Proof. unfold view, ota_part. intros [=]. by split_and!. Qed.

Lemma same_trace_ota l field : same (trace_ota l field).
Proof.
  apply same_read; [|intros c; apply same_trace].
  intros c c' (_ & E & _)%view_parts. by rewrite E.
Qed.

Lemma same_rollback : same rollback_traces.
Proof.
  apply same_read; [intros c c' (_ & E & _)%view_parts; by rewrite E|].
  intros c. repeat (apply same_bind; [apply same_trace|intros _]). apply same_trace.
Qed.

Lemma same_ota_do g : same (ota_do g).
Proof. apply same_modify. intros c c' (E1 & E2 & E3 & E4)%view_parts. unfold view, ota_part. cbn. congruence. Qed.

Lemma same_ota_call g : same (ota_call g).
Proof.
  intros c c' (E1 & E2 & E3 & E4)%view_parts. unfold ota_call, tbind, tget, tput, tret. cbn [obind]. rewrite E2.
  destruct (g (ota c')) as [s r]. cbn. split_and!; [done|done|]. unfold view, ota_part. cbn. congruence.
Qed.

Lemma same_in_state st act : same act -> same (in_state st act).
Proof.
  intros H. apply same_read; [intros c c' (_ & E & _)%view_parts; by rewrite E|]. intros c. by apply same_when.
Qed.

Lemma same_once at_ms bit act : same act -> same (once ota_script set_ota_script at_ms bit act).
Proof.
  intros H. apply same_read; [intros c c' (_ & _ & _ & E)%view_parts; by rewrite E|]. intros c.
  apply same_when, same_bind; [done|]. intros _. apply same_modify. intros d d' (E1 & E2 & E3 & E4)%view_parts.
  unfold view, ota_part. cbn. congruence.
Qed.

Lemma same_advance : same (advance ota_script set_ota_script).
Proof. apply same_modify. intros c c' (E1 & E2 & E3 & E4)%view_parts. unfold view, ota_part. cbn. congruence. Qed.

Lemma same_script : same run_dogfood_ota_script.
Proof.
  unfold run_dogfood_ota_script. apply same_read; [intros c c' (-> & _ & E & _)%view_parts; by rewrite E|].
  intros c. apply same_when, same_bind.
  { apply same_when, same_modify. intros d d' (E1 & E2 & E3 & E4)%view_parts. unfold view, ota_part. cbn. congruence. }
  intros _. cbv zeta. apply same_bind; [apply same_advance|]. intros _.
  repeat (apply same_bind; [apply same_once|intros _]); try apply same_once;
    repeat first [ apply same_in_state | apply same_trace_ota | apply same_rollback | apply same_ota_do
                 | apply same_ota_call | apply same_trace | apply same_when
                 | (apply same_bind; [|intros ?]) | match goal with |- same (if ?b then _ else _) => destruct b end ].
Qed.

Lemma script_tracks f : tracks f run_dogfood_ota_script run_dogfood_ota_script.
Proof.
  intros c c' Hi Hv. pose proof (same_script c c' Hv) as H.
  destruct (keep_ota_script f ∅ c Hi) as ([] & d & out & E & Hd & _). rewrite E in H.
  destruct (run_dogfood_ota_script c') as [[[[] d'] out']|] eqn:E'; [|done]. destruct H as (_ & <- & H).
  by exists d, out, d', out.
Qed.

(** ** The rest of the gateway *)

Lemma silent_seq f m k : silent f m -> silent f k -> silent f (tbind m (fun _ => k)).
Proof. intros Hm Hk P. apply keeps_bind; [apply Hm|intros _; apply Hk]. Qed.

Lemma silent_mode_phase f mutex now_ms : silent f (mode_phase mutex now_ms).
Proof.
  intros P c H. pose proof (inv_faults _ _ _ _ H) as (K & A & Hh & _).
  destruct (mode_phase_eq f ∅ P false mutex now_ms c K A H Hh) as (d & es & _ & E & Hd & Hes & _). by exists tt, d, es.
Qed.

Lemma turn_tracks f mutex now_ms : tracks f (gateway_turn mutex now_ms) run_dogfood_ota_script.
Proof.
  unfold gateway_turn.
  apply silent_first; [intros P; apply keep_drain|].
  apply silent_first; [intros P; apply keep_diag_script; by left|].
  apply silent_first; [intros P; apply keep_startdrive_script|].
  apply silent_first; [intros P; apply keep_charging_script|].
  apply silent_last; [apply script_tracks|].
  apply silent_seq; [intros P; apply keep_take_notification|].
  apply silent_seq; [intros P; apply keep_check_nodes|apply silent_mode_phase].
Qed.

(** The turns of the main loop in a history, and the script alone as often. *)
Definition turns (es : list event) : nat := length (List.filter (fun e => match e with Turn _ _ => true | _ => false end) es).

Definition script_alone (n : nat) : task gateway_ctx_t unit := tfor (fun _ => run_dogfood_ota_script) (replicate n tt).

Lemma run_tracks f es : Forall event_ok es -> tracks f (run_events es) (script_alone (turns es)).
Proof.
  induction 1 as [|e es He _ IH].
  { intros c c' Hi Hv. by exists c, [], c', []. }
  unfold run_events. cbn [tfor]. fold (run_events es). destruct e as [mutex frame|mutex now_ms|mutex]; cbn [handle].
  - apply silent_first; [|exact IH]. intros P. apply keep_dispatch; [done|by left].
  - exact (tracks_seq f _ _ _ _ (turn_tracks f mutex now_ms) IH).
  - apply silent_first; [|exact IH]. intros P. apply keep_aggregator.
Qed.
(** ** After the last step *)

(** The script has nothing left to do: it is off, or has set the bits of its six steps. *)
Definition finished (ctx : gateway_ctx_t) : Prop :=
  truthy (ota_dogfood_script (flags ctx)) = false \/
  ota_inited ctx = 1 /\ script_sent (ota_script ctx) = 0x3f.

(** From [c] to [d], without effects. *)
Definition quiet (m : task gateway_ctx_t unit) (c d : gateway_ctx_t) : Prop := m c = Ret (tt, d, []).

Lemma quiet_bind m k c d e : quiet m c d -> quiet (k tt) d e -> quiet (tbind m k) c e.
Proof. unfold quiet, tbind. intros ->. cbn [obind]. by intros ->. Qed.

Lemma quiet_read (k : gateway_ctx_t -> task gateway_ctx_t unit) c d : quiet (k c) c d -> quiet (tbind tget k) c d.
Proof. unfold quiet, tbind, tget. cbn [obind]. by intros ->. Qed.

Lemma quiet_when_off b m c : b = false -> quiet (twhen b m) c c.
Proof. by intros ->. Qed.

Lemma quiet_once at_ms bit act c :
  truthy (Z.land (script_sent (ota_script c)) bit) = true ->
  quiet (once ota_script set_ota_script at_ms bit act) c c.
Proof. intros H. apply quiet_read, quiet_when_off. by rewrite H, andb_false_r. Qed.

Lemma finished_turn ctx : finished ctx -> exists ctx', run_dogfood_ota_script ctx = Ret (tt, ctx', []) /\ finished ctx'.
Proof.
  intros H. destruct (truthy (ota_dogfood_script (flags ctx))) eqn:Hf.
  2: { exists ctx. split; [apply quiet_read, quiet_when_off; exact Hf|by left]. }
  destruct H as [H|[Hi Hs]]; [by rewrite H in Hf|].
  set (ctx' := set_ota_script {| script_ms := cast U32 (script_ms (ota_script ctx) + 10);
                                 script_sent := script_sent (ota_script ctx) |} ctx).
  assert (script_sent (ota_script ctx') = 0x3f) as Hs' by exact Hs.
  exists ctx'. split; [|by right]. apply quiet_read. rewrite Hf. cbn [twhen].
  eapply quiet_bind; [apply quiet_when_off; by rewrite Hi|].
  eapply (quiet_bind _ _ _ ctx'); [reflexivity|].
  repeat (eapply quiet_bind; [apply quiet_once; by rewrite Hs'|]). apply quiet_once. by rewrite Hs'.
Qed.

Lemma script_alone_app m n c :
  script_alone (m + n) c = tbind (script_alone m) (fun _ => script_alone n) c.
Proof.
  unfold script_alone. rewrite replicate_add. apply tfor_app.
Qed.

Lemma finished_turns n ctx : finished ctx -> exists ctx', script_alone n ctx = Ret (tt, ctx', []) /\ finished ctx'.
Proof.
  revert ctx; induction n as [|n IH]; intros ctx H; [by exists ctx|].
  destruct (finished_turn ctx H) as (d & E & (d' & E' & Hd')%IH). exists d'.
  unfold script_alone in *. cbn [replicate tfor]. unfold tbind. rewrite E. cbn [obind]. by rewrite E'.
Qed.

(** What a run of at least [n] turns traces of the update, when the script has finished by
    then. *)
Lemma run_ota_traces f n d out es :
  script_alone n (set_flags f zeroed) = Ret (tt, d, out) -> finished d ->
  Forall event_ok es -> (n <= turns es)%nat ->
  exists ctx0 ctx out', gateway_init (set_flags f zeroed) = Ret (tt, ctx0, []) /\
    run_events es ctx0 = Ret (tt, ctx, out') /\ ota_traces out' = ota_traces out.
Proof.
  intros Hn Hd Hes Hle. destruct (booted f) as (ctx0 & H0 & Hi). pose proof H0 as Hv.
  vm_compute in Hv. injection Hv as Hv.
  assert (view ctx0 = view (set_flags f zeroed)) as Hview by (by rewrite <- Hv). clear Hv.
  destruct (run_tracks f es Hes ctx0 _ Hi Hview) as (ctx & out' & d' & p & E & E' & _ & _ & Ho).
  exists ctx0, ctx, out'. split; [done|]. split; [done|]. rewrite Ho.
  destruct (finished_turns (turns es - n) d Hd) as (e & Hk & _).
  replace (turns es) with (n + (turns es - n))%nat in E' by lia.
  rewrite script_alone_app in E'. unfold tbind in E'. rewrite Hn in E'. cbn [obind] in E'. rewrite Hk in E'.
  cbn [obind] in E'. injection E' as _ <-. by rewrite app_nil_r.
Qed.
(** ** The scenarios of the lane *)

Definition to_event (m : Z) (t : string * Z) : UserTrace := {| machine := m; label := t.1; Lane.value := t.2 |}.

Definition ota_event (e : UserTrace) : bool := (machine e =? NODE_GATEWAY) && is_ota (label e).

(** [trace] is of a run in which machine 1 had the effects [out], other machines whatever
    they had. *)
Definition trace_of_run (out : list effect) (trace : list UserTrace) : Prop :=
  List.filter ota_event trace = map (to_event NODE_GATEWAY) (ota_traces out).

Lemma values_of_ota trace l : is_ota l = true ->
  values_of (List.filter ota_event trace) NODE_GATEWAY l = values_of trace NODE_GATEWAY l.
Proof.
  intros Hl. unfold values_of. f_equal. induction trace as [|e trace IH]; [done|]. cbn [List.filter].
  destruct (ota_event e) eqn:Ho; cbn [List.filter].
  - destruct (event_is NODE_GATEWAY l e); [|done]. by rewrite IH.
  - destruct (event_is NODE_GATEWAY l e) eqn:He; [|done]. unfold event_is in He. unfold ota_event in Ho.
    apply andb_true_iff in He as [Hm Hl'%String.eqb_eq]. rewrite Hm, Hl', Hl in Ho. discriminate.
Qed.

Lemma evaluate_ota exp trace :
  passed (OtaLane.evaluate exp (List.filter ota_event trace)) = passed (OtaLane.evaluate exp trace).
Proof.
  apply eq_true_iff_eq. rewrite !evaluate_meets. destruct exp; cbn [meets]; by rewrite !values_of_ota by reflexivity.
Qed.

(** A file of [dogfood/ota] that runs an update script of the gateway: its name, the firmware
    of machine 1 and its directives.  The eight other files of the directory inject frames
    from a machine they do not declare, so they do not load and leave no trace. *)
Record ota_scenario := { file : string; firmware : string; directives : list string }.

Definition ota_scenarios : list ota_scenario := [
  {| file := "happy_path.toml"; firmware := "firmware/gateway_ota";
     directives := ["# ota-expect: state-sequence 0,1,2,3,4,5"; "# ota-expect: crc-ok"; "# ota-expect: healthy"] |};
  {| file := "rollback_bad_crc.toml"; firmware := "firmware/gateway_ota_badcrc";
     directives := ["# ota-expect: state-sequence 0,1,2,6"; "# ota-expect: crc-bad"; "# ota-expect: rolled-back";
                    "# ota-expect: active-slot 0"] |};
  {| file := "rollback_failed_health.toml"; firmware := "firmware/gateway_ota_badhealth";
     directives := ["# ota-expect: state-sequence 0,1,2,3,4,6"; "# ota-expect: crc-ok"; "# ota-expect: rolled-back";
                    "# ota-expect: active-slot 0"] |};
  {| file := "rollback_interrupted_write.toml"; firmware := "firmware/gateway_ota_intwrite";
     directives := ["# ota-expect: state-sequence 0,1,6"; "# ota-expect: rolled-back"; "# ota-expect: active-slot 0"] |};
  {| file := "rollback_powercut_precommit.toml"; firmware := "firmware/gateway_ota_powercut";
     directives := ["# ota-expect: state-sequence 0,1,2,6"; "# ota-expect: crc-ok"; "# ota-expect: rolled-back";
                    "# ota-expect: active-slot 0"] |} ].

(** The flags of the machine a firmware path boots. *)
Definition boot_flags (path : string) : flags_t :=
  gateway_flags (MicrocarFirmware.boot_entry
    (MicrocarFirmware.ecu_type (MicrocarFirmware.with_firmware_path "gateway" path))).

(** Sixty turns of the script, from the zeroed context. *)
Definition sixty (path : string) : outcome (unit * gateway_ctx_t * list effect) :=
  script_alone 60 (set_flags (boot_flags path) zeroed).

Definition finishedb (ctx : gateway_ctx_t) : bool :=
  negb (truthy (ota_dogfood_script (flags ctx))) || (ota_inited ctx =? 1) && (script_sent (ota_script ctx) =? 0x3f).

Lemma finishedb_ok ctx : finishedb ctx = true -> finished ctx.
Proof.
  unfold finishedb, finished. intros [H%negb_true_iff|[H1%Z.eqb_eq H2%Z.eqb_eq]%andb_true_iff]%orb_true_iff; auto.
Qed.

(** Any long enough run reports what the script reports in its first sixty turns. *)
Lemma long_run path es trace :
  Forall event_ok es -> (60 <= turns es)%nat ->
  match sixty path with
  | Ret (_, d, out) => finishedb d = true ->
      exists ctx0 ctx out', gateway_init (set_flags (boot_flags path) zeroed) = Ret (tt, ctx0, []) /\
        run_events es ctx0 = Ret (tt, ctx, out') /\
        (trace_of_run out' trace -> List.filter ota_event trace = map (to_event NODE_GATEWAY) (ota_traces out))
  | Panic => True
  end.
Proof.
  intros Hes Hn. destruct (sixty path) as [[[[] d] out]|] eqn:E; [|done]. intros Hd%finishedb_ok.
  destruct (run_ota_traces _ 60 d out es E Hd Hes Hn) as (ctx0 & ctx & out' & H0 & Hr & Ho).
  exists ctx0, ctx, out'. split; [done|]. split; [done|]. unfold trace_of_run. by rewrite Ho.
Qed.

Definition verdict (s : ota_scenario) (trace : list UserTrace) : bool :=
  forallb (fun exp => passed (OtaLane.evaluate exp trace)) (OtaLane.parse_expectations (String.concat newline_str (directives s))).

(** What the first sixty turns decide, for every scenario of the table. *)
Lemma sixty_verdict s : s ∈ ota_scenarios ->
  match sixty (firmware s) with
  | Ret (_, d, out) => finishedb d && verdict s (map (to_event NODE_GATEWAY) (ota_traces out))
  | Panic => false
  end = true.
Proof.
  assert (forallb (fun s => match sixty (firmware s) with
    | Ret (_, d, out) => finishedb d && verdict s (map (to_event NODE_GATEWAY) (ota_traces out))
    | Panic => false end) ota_scenarios = true) as H by (vm_compute; reflexivity).
  intros Hs. rewrite forallb_elem in H. exact (H s Hs).
Qed.

(** C9: The update scenarios of the OTA lane, end to end.  For each of the five scenarios of
    [dogfood/ota] that run an update script, the adapter boots the gateway its firmware path
    names, and after sixty turns of the main loop, whatever frames arrive and however the
    tasks are scheduled between them, every expectation of the scenario's directives holds of
    the trace, whatever the other machines trace: the update ends healthy, or in the rollback
    the injected fault calls for, with slot A active. *)
Theorem ota_scenarios_verdict s es trace :
  s ∈ ota_scenarios -> Forall event_ok es -> (60 <= turns es)%nat ->
  exists ctx0 ctx out, gateway_init (set_flags (boot_flags (firmware s)) zeroed) = Ret (tt, ctx0, []) /\
    run_events es ctx0 = Ret (tt, ctx, out) /\
    (trace_of_run out trace ->
     forallb (fun exp => passed (OtaLane.evaluate exp trace))
       (OtaLane.parse_expectations (String.concat newline_str (directives s))) = true).
Proof.
  intros Hs Hes Hn. pose proof (sixty_verdict s Hs) as Hv. pose proof (long_run (firmware s) es trace Hes Hn) as Hl.
  destruct (sixty (firmware s)) as [[[[] d] out]|]; [|discriminate]. apply andb_true_iff in Hv as [Hd Hv].
  destruct (Hl Hd) as (ctx0 & ctx & out' & H0 & Hr & Ht). exists ctx0, ctx, out'. split; [done|]. split; [done|].
  intros Htr. rewrite <- Hv. unfold verdict. rewrite <- (Ht Htr). induction (OtaLane.parse_expectations _) as [|exp l IH]; [done|].
  cbn [forallb]. by rewrite evaluate_ota, IH.
Qed.

Lemma ota_scenarios_verdict_witness :
  let s := {| file := "happy_path.toml"; firmware := "firmware/gateway_ota";
    directives := ["# ota-expect: state-sequence 0,1,2,3,4,5"; "# ota-expect: crc-ok"; "# ota-expect: healthy"] |} in
  let es := replicate 60 (Turn true 10) in
  let trace := map (to_event NODE_GATEWAY) [("ota_state", 0); ("ota_state", 1); ("ota_state", 2); ("ota_crc_ok", 1);
    ("ota_state", 3); ("ota_slot", 1); ("ota_state", 4); ("ota_state", 5); ("ota_boot_result", 1)] in
  exists ctx0 ctx out, gateway_init (set_flags (boot_flags (firmware s)) zeroed) = Ret (tt, ctx0, []) /\
    run_events es ctx0 = Ret (tt, ctx, out) /\ trace_of_run out trace /\
    forallb (fun exp => passed (OtaLane.evaluate exp trace))
      (OtaLane.parse_expectations (String.concat newline_str (directives s))) = true.
Proof.
  intros s es trace.
  destruct (ota_scenarios_verdict s es trace) as (ctx0 & ctx & out & H0 & Hr & Hv).
  { by left. }
  { apply Forall_replicate. exact I. }
  { apply Nat.leb_le. reflexivity. }
  exists ctx0, ctx, out. split; [exact H0|]. split; [exact Hr|].
  assert (trace_of_run out trace) as Ht.
  { vm_compute in H0. injection H0 as <-. vm_compute in Hr. injection Hr as _ <-. reflexivity. }
  split; [exact Ht|exact (Hv Ht)].
Defined.

(** The reports of the first sixty turns, written out. *)
Definition reports_in_sixty (path : string) (l : list (string * Z)) : bool :=
  match sixty path with
  | Ret (_, d, out) => finishedb d && bool_decide (ota_traces out = l)
  | Panic => false
  end.

Lemma long_run_reports path l es trace :
  reports_in_sixty path l = true -> Forall event_ok es -> (60 <= turns es)%nat ->
  exists ctx0 ctx out, gateway_init (set_flags (boot_flags path) zeroed) = Ret (tt, ctx0, []) /\
    run_events es ctx0 = Ret (tt, ctx, out) /\
    (trace_of_run out trace -> List.filter ota_event trace = map (to_event NODE_GATEWAY) l).
Proof.
  unfold reports_in_sixty. intros Hl Hes Hn. pose proof (long_run path es trace Hes Hn) as H.
  destruct (sixty path) as [[[[] d] out]|]; [|discriminate].
  apply andb_true_iff in Hl as [Hd <-%bool_decide_eq_true]. exact (H Hd).
Qed.

(** The corpus case [ota_rollback]: the gateway whose CRC check is broken boots the corrupt
    image, the gateway it is compared with rolls back, whatever else happens in the two
    runs. *)
Lemma ota_rollback_seed_reproduced es es' trace trace' :
  Forall event_ok es -> Forall event_ok es' -> (60 <= turns es)%nat -> (60 <= turns es')%nat ->
  exists bug0 bug out fix0 fix_ out',
    gateway_init (set_flags (boot_flags "firmware/gateway_ota_crcbug") zeroed) = Ret (tt, bug0, []) /\
    run_events es bug0 = Ret (tt, bug, out) /\
    gateway_init (set_flags (boot_flags "firmware/gateway_ota_badcrc") zeroed) = Ret (tt, fix0, []) /\
    run_events es' fix0 = Ret (tt, fix_, out') /\
    (trace_of_run out trace -> trace_of_run out' trace' ->
     all_checks_passed (Corpus.evaluate OtaRollback {| failing := trace; fixed := trace' |}) = true).
Proof.
  intros Hes Hes' Hn Hn'.
  assert (reports_in_sixty "firmware/gateway_ota_crcbug" [("ota_state", 0); ("ota_state", 1); ("ota_state", 2);
    ("ota_crc_ok", 1); ("ota_state", 3); ("ota_slot", 1); ("ota_state", 4); ("ota_state", 5); ("ota_boot_result", 1)] = true)
    as Hb by (vm_compute; reflexivity).
  assert (reports_in_sixty "firmware/gateway_ota_badcrc" [("ota_state", 0); ("ota_state", 1); ("ota_state", 2);
    ("ota_crc_ok", 0); ("ota_state", 6); ("ota_rollback", 1); ("ota_active_slot", 0); ("ota_boot_result", 0)] = true)
    as Hf by (vm_compute; reflexivity).
  destruct (long_run_reports _ _ es trace Hb Hes Hn) as (bug0 & bug & out & H0 & Hr & Ht).
  destruct (long_run_reports _ _ es' trace' Hf Hes' Hn') as (fix0 & fix_ & out' & H0' & Hr' & Ht').
  exists bug0, bug, out, fix0, fix_, out'.
  split; [exact H0|]. split; [exact Hr|]. split; [exact H0'|]. split; [exact Hr'|]. intros E%Ht E'%Ht'.
  apply ota_rollback_shows. cbn [seed_shows].
  rewrite <- !(values_of_ota trace), <- !(values_of_ota trace') by reflexivity. rewrite E, E'.
  match goal with |- context [values_of ?x _ "ota_crc_ok"] =>
    match goal with |- context [values_of ?f _ "ota_boot_result"] =>
      change (seed_shows OtaRollback f x) end end.
  apply ota_rollback_shows. vm_compute. reflexivity.
Qed.
End GatewayOta.
