(* ===== verification/CGatewayLoss.v ===== *)
(** * Losing the BMS ([firmware/gateway_ecu/src/main.c], the process phase)

    When some node times out, the main loop asks the heartbeat monitor which node it lost and
    gets the first node that is offline, in the order of registration: powertrain, BMS,
    dashboard.  So the loss of the BMS is reported only at a check at which a node times out
    and that leaves the powertrain online. *)

From stdpp Require Import gmap.
From S2P Require Import Prelude MachineInt Protocol Gateway CBase CProtocol CFirmware CTables CMonitors.
From S2P Require Import CFrames CTask CGatewayEcu CGatewayFaults CGatewayRuns.

Import gateway_ctx.

Section GatewayLoss.
Import heartbeat_monitor.

(** The table as the gateway fills it. *)
Lemma watched_nodes hm m :
  watches hm m -> exists pt bms dash free,
    HeartbeatMonitor.nodes m = [pt; bms; dash] /\ nodes hm = map entry [pt; bms; dash] ++ free /\
    HeartbeatMonitor.node_id pt = MC_NODE_POWERTRAIN /\ HeartbeatMonitor.node_id bms = MC_NODE_BMS /\
    HeartbeatMonitor.node_id dash = MC_NODE_DASHBOARD.
Proof.
  intros [(_ & _ & free & Hn) Hids].
  destruct (HeartbeatMonitor.nodes m) as [|pt [|bms [|dash [|]]]]; try discriminate.
  injection Hids as H1 H2 H3. by exists pt, bms, dash, free.
Qed.

(** A node that is online after a check, and what the check makes of a node. *)
Definition up (now_ms : Z) (n : hm_node_t) : bool := truthy (online n) && negb (expired now_ms n).
Definition checked (now_ms : Z) (n : hm_node_t) : hm_node_t := if expired now_ms n then set_offline n else n.

(** The three nodes in the order of their registration. *)
Definition table_of (hm : heartbeat_monitor_t) (pt bms dash : hm_node_t) : Prop :=
  nodes hm !! 0%nat = Some pt /\ nodes hm !! 1%nat = Some bms /\ nodes hm !! 2%nat = Some dash.

Lemma entry_checked now_ms n : entry (mcheck now_ms n) = checked now_ms (entry n).
Proof. unfold mcheck, checked, mexpired. by destruct (expired now_ms (entry n)). Qed.

Lemma online_checked now_ms n : HeartbeatMonitor.online (mcheck now_ms n) = up now_ms (entry n).
Proof.
  unfold mcheck, up, mexpired. cbn [entry online]. rewrite truthy_b2z.
  destruct (expired now_ms (entry n)); [by rewrite andb_false_r|by rewrite andb_true_r].
Qed.

(** What a check does to the nodes, and the node it names if one timed out. *)
Lemma check_names hm m now_ms pt bms dash :
  watches hm m -> table_of hm pt bms dash ->
  exists hm' n m', heartbeat_monitor_check hm now_ms = Ret (hm', n) /\ watches hm' m' /\
    (0 <? n) = expired now_ms pt || expired now_ms bms || expired now_ms dash /\
    table_of hm' (checked now_ms pt) (checked now_ms bms) (checked now_ms dash) /\
    (0 < n -> heartbeat_monitor_last_transition_node hm' =
       Ret (if up now_ms pt then if up now_ms bms then MC_NODE_DASHBOARD else MC_NODE_BMS else MC_NODE_POWERTRAIN)).
Proof.
  intros Hw (Hpt & Hbms & Hdash). destruct (watched_nodes hm m Hw) as (mpt & mbms & mdash & free & Hm & Hn & Hid1 & Hid2 & Hid3).
  rewrite Hn in Hpt, Hbms, Hdash. injection Hpt as <-. injection Hbms as <-. injection Hdash as <-.
  destruct (check_mirrors hm m now_ms (proj1 Hw)) as (hm' & E & Hm'). rewrite Hm in E, Hm'.
  set (m' := {| HeartbeatMonitor.nodes := map (mcheck now_ms) [mpt; mbms; mdash] |}) in *.
  assert (watches hm' m') as Hw'.
  { split; [exact Hm'|]. destruct Hw as [_ <-]. rewrite Hm. subst m'. cbn [HeartbeatMonitor.nodes map]. unfold mcheck.
    by destruct (mexpired now_ms mpt), (mexpired now_ms mbms), (mexpired now_ms mdash). }
  exists hm', (countb (mexpired now_ms) [mpt; mbms; mdash]), m'.
  split; [exact E|]. split; [done|].
  assert (0 <? countb (mexpired now_ms) [mpt; mbms; mdash] =
          expired now_ms (entry mpt) || expired now_ms (entry mbms) || expired now_ms (entry mdash)) as Hc.
  { rewrite !countb_cons, countb_nil. unfold mexpired.
    by destruct (expired now_ms (entry mpt)), (expired now_ms (entry mbms)), (expired now_ms (entry mdash)). }
  split; [exact Hc|]. split.
  { destruct Hm' as (_ & _ & free' & Hn'). unfold table_of. rewrite Hn'. subst m'.
    cbn [HeartbeatMonitor.nodes map app lookup list_lookup]. by rewrite !entry_checked. }
  rewrite <- Z.ltb_lt, Hc. intros Hex. unfold heartbeat_monitor_last_transition_node.
  rewrite (first_or_mirror _ (fun n => negb (HeartbeatMonitor.online n)) _ _ _ _ (proj1 Hw'))
    by (intros n; cbn [entry online]; by rewrite truthy_b2z).
  subst m'. cbn [HeartbeatMonitor.nodes map List.find]. rewrite !online_checked. f_equal.
  assert (forall n, node_id (entry (mcheck now_ms n)) = HeartbeatMonitor.node_id n) as Hid
    by (intros n; unfold mcheck; by destruct (mexpired now_ms n)).
  destruct (up now_ms (entry mpt)) eqn:H1; cbn [negb]; [|by etransitivity; [apply Hid|]].
  destruct (up now_ms (entry mbms)) eqn:H2; cbn [negb]; [|by etransitivity; [apply Hid|]].
  assert (up now_ms (entry mdash) = false) as ->; [|by etransitivity; [apply Hid|]].
  unfold up in *. apply andb_true_iff in H1 as [_ H1%negb_true_iff]. apply andb_true_iff in H2 as [_ H2%negb_true_iff].
  rewrite H1, H2 in Hex. cbn [orb] in Hex. by rewrite Hex, andb_false_r.
Qed.

(** The loss of the BMS enters the fault table, and the mode update of the same turn. *)
Lemma loss_reported f ctx now_ms :
  inv f ∅ ctx -> fault_manager.fault_count (fm ctx) < 16 ->
  exists fm', report MC_NODE_BMS MC_BMS_FAULT_COMM_ERROR 2 ctx = Ret (tt, set_fm fm' ctx, []) /\
    exists ctx'' out, mode_phase true now_ms (set_fm fm' ctx) = Ret (tt, ctx'', out) /\ mode_of ctx'' = VEHICLE_FAULT /\
      (mode_of ctx <> VEHICLE_FAULT \/ now_ms mod 50 = 0 ->
       Send (frame_of MC_MSG_VEHICLE_MODE MC_NODE_GATEWAY [VEHICLE_FAULT; 1]) ∈ out).
Proof.
  intros H1 Hroom. pose proof (inv_faults _ _ _ _ H1) as (K & A & Hh & _).
  destruct (holds_report _ K A MC_NODE_BMS MC_BMS_FAULT_COMM_ERROR Hh) as (fm' & Hr & Hh').
  destruct (holds_size _ _ _ Hh) as (Hsize & _ & _).
  change (gateway_severity (MC_NODE_BMS, MC_BMS_FAULT_COMM_ERROR)) with 2 in Hr.
  unfold noted in Hh'. rewrite !decide_True in Hh' by (right; lia).
  destruct (fault_manager.fault_manager_report _ _ _ _) as [[fm1 r]|] eqn:Er; [|discriminate]. injection Hr as ->.
  exists fm'. split; [unfold report, tbind, tget, tput, tlift; cbn [obind]; by rewrite Er|].
  assert (inv f ∅ (set_fm fm' ctx)) as H2 by (eapply inv_set_fm; [done|done|set_solver]).
  destruct (mode_phase_eq f ∅ _ true true now_ms _ _ _ H2 Hh') as (ctx'' & out & online' & Ep & _ & _ & _ & _ & Hm & Hs).
  assert (in_danger ({[(MC_NODE_BMS, MC_BMS_FAULT_COMM_ERROR)]} ∪ A) = true) as Hd.
  { apply bool_decide_eq_true. exists (MC_NODE_BMS, MC_BMS_FAULT_COMM_ERROR). split; [set_solver|done]. }
  rewrite Hd in Hm, Hs. cbn [andb] in Hm, Hs. rewrite next_mode_danger in Hm. rewrite Hm in Hs.
  exists ctx'', out. split; [done|]. split; [done|]. intros Hc. apply Hs. destruct Hc as [Hc|Hc]; [left|by right].
  intros Heq. apply Hc. by rewrite Heq.
Qed.

(** C8: When the loss of the BMS is noticed.  In any reachable gateway, a check of the nodes
    marks those offline that have been silent for their 300 ms, and reports the loss of the
    BMS exactly when three things hold: some node times out at this check, the powertrain is
    online after it and the BMS is not.  Then, if the table has room, the loss is an active
    critical fault, the mode update that follows in the same turn ends in FAULT, and the
    powertrain is told at once or within 50 ms.  Otherwise the fault table stays as it was.
    So a BMS that times out while the powertrain is offline, or at the same check, goes
    unreported, and later only the time-out of another node (after the powertrain came back)
    can reveal it. *)
Theorem bms_loss_faults f ctx mutex now_ms pt bms dash :
  inv f ∅ ctx -> table_of (hm ctx) pt bms dash ->
  exists ctx', check_nodes mutex now_ms ctx = Ret (tt, ctx', []) /\
    table_of (hm ctx') (checked now_ms pt) (checked now_ms bms) (checked now_ms dash) /\
    if mutex && (expired now_ms pt || expired now_ms bms || expired now_ms dash) && up now_ms pt && negb (up now_ms bms) then
      fault_manager.fault_count (fm ctx) < 16 ->
      exists ctx'' out, mode_phase true now_ms ctx' = Ret (tt, ctx'', out) /\ mode_of ctx'' = VEHICLE_FAULT /\
        (mode_of ctx <> VEHICLE_FAULT \/ now_ms mod 50 = 0 ->
         Send (frame_of MC_MSG_VEHICLE_MODE MC_NODE_GATEWAY [VEHICLE_FAULT; 1]) ∈ out)
    else fm ctx' = fm ctx.
Proof.
  intros H Ht. pose proof (inv_nodes _ _ _ _ H) as (m & Hw).
  destruct (check_names _ m now_ms pt bms dash Hw Ht) as (hm' & n & m' & E & Hw' & Hn & Ht' & Hlast).
  pose proof (inv_set_hm f ∅ _ ctx hm' m' H Hw') as H1.
  assert (check_nodes mutex now_ms ctx =
    (if mutex && (expired now_ms pt || expired now_ms bms || expired now_ms dash) && up now_ms pt && negb (up now_ms bms)
     then report MC_NODE_BMS MC_BMS_FAULT_COMM_ERROR 2 else tret tt) (set_hm hm' ctx)) as ->.
  { unfold check_nodes, modify, tbind, tget, tlift, tput. cbn [obind]. rewrite E. cbn [obind]. rewrite <- Hn.
    destruct (Z.ltb_spec 0 n) as [Hp|]; cbn [twhen]; [|by rewrite andb_false_r]. rewrite Hlast by done. cbn [obind].
    rewrite andb_true_r. destruct (up now_ms pt); cbn [andb]; [|by rewrite andb_false_r].
    destruct (up now_ms bms); cbn [negb]; [by rewrite andb_false_r|]. rewrite andb_true_r.
    change (MC_NODE_BMS =? MC_NODE_BMS) with true. cbn [andb]. destruct mutex; cbn [twhen andb]; [|done].
    by destruct (report MC_NODE_BMS MC_BMS_FAULT_COMM_ERROR 2 _) as [[[[] ?] ?]|]. }
  destruct (_ && _ && _ && _); [|by exists (set_hm hm' ctx)].
  destruct (decide (fault_manager.fault_count (fm ctx) < 16)) as [Hroom|Hfull].
  - destruct (loss_reported f (set_hm hm' ctx) now_ms H1 Hroom) as (fm' & -> & Hfault).
    exists (set_fm fm' (set_hm hm' ctx)). split; [done|]. split; [exact Ht'|done].
  - pose proof (inv_faults _ _ _ _ H1) as (K & A & Hh & _).
    destruct (holds_report _ K A MC_NODE_BMS MC_BMS_FAULT_COMM_ERROR Hh) as (fm' & Hr & _).
    change (gateway_severity (MC_NODE_BMS, MC_BMS_FAULT_COMM_ERROR)) with 2 in Hr.
    destruct (fault_manager.fault_manager_report _ _ _ _) as [[fm1 r]|] eqn:Er; [|discriminate].
    exists (set_fm fm1 (set_hm hm' ctx)). split; [|split; [exact Ht'|done]].
    unfold report, tbind, tget, tput, tlift. cbn [obind]. change (fm (set_hm hm' ctx)) with (fm ctx) in *. by rewrite Er.
Qed.

Lemma bms_loss_faults_witness :
  let beat n := Rx true (receive (replicate 8 0) MC_MSG_HEARTBEAT [n; 0; 0; 0; 9]) in
  let es := [beat MC_NODE_POWERTRAIN; beat MC_NODE_BMS; Turn true 10; beat MC_NODE_POWERTRAIN; Turn true 300] in
  exists ctx0 ctx out pt bms dash,
    gateway_init (set_flags no_flags zeroed) = Ret (tt, ctx0, []) /\ run_events es ctx0 = Ret (tt, ctx, out) /\
    inv no_flags ∅ ctx /\ table_of (hm ctx) pt bms dash /\ fault_manager.fault_count (fm ctx) < 16 /\
    exists ctx' ctx'' out', check_nodes true 310 ctx = Ret (tt, ctx', []) /\
      mode_phase true 310 ctx' = Ret (tt, ctx'', out') /\ mode_of ctx'' = VEHICLE_FAULT.
Proof.
  intros beat es.
  assert (Forall event_ok es) as Hes by (repeat constructor; vm_compute; intuition discriminate).
  destruct (booted no_flags) as (ctx0 & H0 & Hi0).
  destruct (keep_events _ ∅ es (or_introl eq_refl) Hes ctx0 Hi0) as ([] & ctx & out & Hr & Hi & _).
  pose (pt := {| node_id := MC_NODE_POWERTRAIN; online := 1; last_beat_ms := 300; timeout_ms := 300 |}).
  pose (bms := {| node_id := MC_NODE_BMS; online := 1; last_beat_ms := 10; timeout_ms := 300 |}).
  pose (dash := {| node_id := MC_NODE_DASHBOARD; online := 0; last_beat_ms := 0; timeout_ms := 300 |}).
  assert (table_of (hm ctx) pt bms dash /\ fault_manager.fault_count (fm ctx) = 0) as (Ht & Hc).
  { vm_compute in H0. injection H0 as <-. vm_compute in Hr. injection Hr as <- _. by vm_compute. }
  assert (fault_manager.fault_count (fm ctx) < 16) as Hroom by lia.
  destruct (bms_loss_faults no_flags ctx true 310 pt bms dash Hi Ht) as (ctx' & Hch & _ & Hf).
  destruct (Hf Hroom) as (ctx'' & out' & Hp & Hm & _).
  exists ctx0, ctx, out, pt, bms, dash. split_and!; try done. by exists ctx', ctx'', out'.
Defined.

(** A BMS that is lost while the powertrain is silent: a second of turns later no fault is
    active and the mode is OFF. *)
Example bms_loss_missed :
  let beat n := Rx true (receive (replicate 8 0) MC_MSG_HEARTBEAT [n; 0; 0; 0; 9]) in
  let es := beat MC_NODE_BMS :: map (fun i => Turn true (10 * i)) (seqZ 1 100) in
  (let! (_, ctx, _) := gateway_init (set_flags no_flags zeroed) in
   let! (_, ctx, _) := run_events es ctx in
   let! n := fault_manager.fault_manager_active_count (fm ctx) in Ret (n, mode_of ctx)) = Ret (0, VEHICLE_OFF).
Proof. vm_compute. reflexivity. Qed.

(** The same loss, revealed late: the powertrain comes back, the dashboard beats once and falls
    silent, and at its time-out the BMS is reported, 290 ms after it was lost. *)
Example bms_loss_reported_late :
  let beat n := Rx true (receive (replicate 8 0) MC_MSG_HEARTBEAT [n; 0; 0; 0; 9]) in
  let turns from n := map (fun i => Turn true (10 * i)) (seqZ from n) in
  let mode_after es :=
    let! (_, ctx, _) := gateway_init (set_flags no_flags zeroed) in
    let! (_, ctx, _) := run_events es ctx in
    let! n := fault_manager.fault_manager_active_count (fm ctx) in Ret (n, mode_of ctx) in
  let es := beat MC_NODE_BMS :: turns 1 29 ++ [beat MC_NODE_DASHBOARD] ++ turns 30 2 ++
            [beat MC_NODE_POWERTRAIN] ++ turns 32 27 in
  mode_after es = Ret (0, VEHICLE_OFF) /\ mode_after (es ++ turns 59 2) = Ret (1, VEHICLE_FAULT).
Proof. vm_compute. split; reflexivity. Qed.
End GatewayLoss.
