(* ===== verification/CVehicle.v ===== *)
(** * The firmware of a vehicle: plant, BMS, gateway and powertrain together

    Frames the gateway or the BMS puts on the bus are handed to the other programs.  Two
    statements about the whole: a battery that overheats puts the car in FAULT and stops the
    motor, and a gateway without dogfood scripts never lets the motor turn. *)

From stdpp Require Import gmap.
From S2P Require Import Prelude MachineInt Protocol Gateway CBase CProtocol CFirmware CTables Plant.
From S2P Require Import CFrames CTask CBmsEcu CPowertrainEcu CGatewayEcu CGatewayFaults CGatewayRuns.

Section Vehicle.
Import torque_controller powertrain_ctx.

(** ** A mode that blocks the motor *)

Definition mode_after (mode : Z) (f : mc_can_frame_t) : Z :=
  if id f =? MC_MSG_VEHICLE_MODE then byte f 0 else mode.

Definition blocked (mode : Z) : Prop := safety_rules.safety_mode_blocks_torque mode = 1.

Lemma load_first f v : load (data f) 0 = Ret v -> v = byte f 0.
Proof.
  unfold load, byte. change (0 <=? 0) with true. change (Z.to_nat 0) with 0%nat. cbv iota.
  destruct (data f !! 0%nat) eqn:E; [|discriminate]. intros [= <-].
  symmetry. by apply list_lookup_total_correct.
Qed.

Lemma dispatch_mode ctx f now ctx' :
  dispatch_frame ctx f now = Ret ctx' -> vehicle_mode (tc ctx') = mode_after (vehicle_mode (tc ctx)) f.
Proof.
  unfold dispatch_frame, mode_after. intros H.
  destruct (Z.eqb_spec (id f) MC_MSG_DRIVER_INPUT) as [E|_].
  { rewrite E. cbn [Z.eqb]. unfold handle_driver_input in H.
    destruct (load _ 0); [|discriminate]. destruct (load _ 1); [|discriminate]. cbn [obind] in H.
    destruct (if 3 <=? len f then load (data f) 2 else Ret 0); [|discriminate]. by injection H as <-. }
  destruct (Z.eqb_spec (id f) MC_MSG_VEHICLE_MODE) as [E|_].
  { unfold handle_vehicle_mode in H. destruct (load _ 0) as [v|] eqn:Hv; [|discriminate].
    injection H as <-. by apply load_first. }
  destruct (id f =? MC_MSG_BMS_LIMITS).
  { unfold handle_bms_limits in H. destruct (load _ 0); [|discriminate]. by injection H as <-. }
  destruct (id f =? MC_MSG_HEARTBEAT); [|by injection H as <-].
  destruct (sender f =? MC_NODE_GATEWAY); by injection H as <-.
Qed.

Lemma received_mode rxs ctx ctx' :
  ofold (fun ctx '(rx, now) => dispatch_frame ctx rx now) ctx rxs = Ret ctx' ->
  vehicle_mode (tc ctx') = fold_left mode_after (map fst rxs) (vehicle_mode (tc ctx)).
Proof.
  revert ctx. induction rxs as [|[f now] rxs IH]; intros ctx H; [by injection H as <-|].
  cbn [ofold] in H. destruct (dispatch_frame ctx f now) as [ctx1|] eqn:E; [|discriminate].
  cbn [map fst fold_left]. rewrite <- (dispatch_mode _ _ _ _ E). by apply IH.
Qed.

Lemma forced_blocked ctx : blocked (vehicle_mode (tc ctx)) -> blocked (vehicle_mode (tc (force_modes ctx))).
Proof.
  intros H. unfold force_modes.
  destruct (truthy (diag_force_service_mode ctx)); cbn [charging_force_mode with_tc];
    by destruct (truthy (charging_force_mode ctx)).
Qed.

(** The controller in such a mode. *)
Lemma blocked_compute t :
  blocked (vehicle_mode t) -> snd (torque_controller_compute t) = 0 /\
  motor_enable (fst (torque_controller_compute t)) = 0 /\
  vehicle_mode (fst (torque_controller_compute t)) = vehicle_mode t.
Proof.
  intros H. unfold torque_controller_compute. destruct (truthy (safety_rules.safety_throttle_invalid _)); [done|].
  cbn [fst snd motor_enable with_output vehicle_mode]. rewrite H. split; [|done].
  unfold safety_rules.safety_clamp_torque. rewrite H. by destruct (truthy _).
Qed.

(** The only motor command of a stopped motor. *)
Definition motor_stopped (fs : list mc_can_frame_t) : Prop :=
  forall f, f ∈ fs -> id f = MC_MSG_MOTOR_COMMAND -> mc_decode_motor_command (data f) = Ret (0, 0).

Lemma blocked_cycle slots now_ms rxs ctx :
  ctx_ok ctx -> Forall (fun '(f, _) => frame_ok f) rxs ->
  blocked (fold_left mode_after (map fst rxs) (vehicle_mode (tc ctx))) ->
  exists ctx' fs tr, powertrain_cycle slots now_ms rxs ctx = Ret (ctx', fs, tr) /\ ctx_ok ctx' /\
    blocked (vehicle_mode (tc ctx')) /\ motor_stopped fs.
Proof.
  intros Hc Hrx Hb. destruct (cycle_ok slots now_ms rxs ctx Hc Hrx) as (ctx' & fs & tr & _ & _ & Hcycle & Hc' & _).
  exists ctx', fs, tr. split; [done|]. split; [done|]. clear Hc'.
  destruct (received_ok rxs ctx Hc Hrx) as (ctx1 & Hr & Hc1 & _). pose proof (received_mode _ _ _ Hr) as Hm.
  unfold powertrain_cycle in Hcycle. rewrite Hr in Hcycle. cbn [obind] in Hcycle.
  destruct (forced_ok ctx1 Hc1) as [Hc2 _]. rewrite cycle_torque_eq in Hcycle by done.
  rewrite <- Hm in Hb. apply forced_blocked in Hb. destruct (blocked_compute _ Hb) as (Ht & He & Hv).
  destruct (torque_controller_compute (tc (force_modes ctx1))) as [t torque]. cbn [fst snd] in *.
  rewrite Ht, command_eq in Hcycle. cbn [obind tc with_tc] in Hcycle. rewrite He in Hcycle.
  unfold send_heartbeat in Hcycle. rewrite heartbeat_frame_eq in Hcycle. cbn [obind] in Hcycle.
  assert (forall hb, (forall f, f ∈ hb -> id f = MC_MSG_HEARTBEAT) ->
            motor_stopped (can_tx_with_semaphore (fst slots) (frame_of MC_MSG_MOTOR_COMMAND MC_NODE_POWERTRAIN [cast U8 0; 0]) ++ hb)) as Hs.
  { intros hb Hhb f Hf Hid. apply elem_of_app in Hf as [Hf|Hf]; [|rewrite (Hhb f Hf) in Hid; discriminate].
    destruct (fst slots); cbn in Hf; [|by apply not_elem_of_nil in Hf]. by apply list_elem_of_singleton in Hf as ->. }
  destruct (now_ms mod 100 =? 0); cbn [obind] in Hcycle; injection Hcycle as <- <- <-; cbn [tc with_tc]; rewrite Hv;
    (split; [done|]); apply Hs; intros f Hf.
  - destruct (snd slots); cbn in Hf; [by apply list_elem_of_singleton in Hf as ->|by apply not_elem_of_nil in Hf].
  - by apply not_elem_of_nil in Hf.
Qed.

(** ** A gateway without scripts *)

Lemma allowed_blocked f m : drives f = false -> allowed f m -> blocked m.
Proof.
  intros Hd [H|[H _]]; [|congruence].
  repeat (apply elem_of_cons in H as [->|H]; [done|]). by apply not_elem_of_nil in H.
Qed.

(** The mode a receiver finds in a frame of the gateway. *)
Lemma mode_heard f held g :
  sends f g -> id g = MC_MSG_VEHICLE_MODE -> allowed f (byte (over_the_bus held g) 0).
Proof. intros [now|m c Hm Hc|service rid st v0 v1] E; [discriminate| |discriminate]. by rewrite frame_of_received. Qed.

(** Every mode frame the powertrain receives is one of those sent. *)
Definition hears (out : list effect) (e : CPowertrainEcu.event) : Prop :=
  match e with
  | CPowertrainEcu.Timer _ => True
  | CPowertrainEcu.Turn _ _ rxs =>
      Forall (fun '(fr, _) => frame_ok fr /\
        (id fr = MC_MSG_VEHICLE_MODE -> exists held g, Send g ∈ out /\ fr = over_the_bus held g)) rxs
  end.

Lemma modes_blocked rxs mode :
  Forall (fun '(fr, _) => id fr = MC_MSG_VEHICLE_MODE -> blocked (byte fr 0)) rxs -> blocked mode ->
  blocked (fold_left mode_after (map (fst : mc_can_frame_t * Z -> mc_can_frame_t) rxs) mode).
Proof.
  intros H. revert mode. induction H as [|[fr at_] rxs Hf _ IH]; intros mode Hm; [done|].
  cbn [map fst fold_left]. apply IH. unfold mode_after.
  destruct (Z.eqb_spec (id fr) MC_MSG_VEHICLE_MODE); auto.
Qed.

Lemma timer_ok ctx now_ms :
  ctx_ok ctx -> blocked (vehicle_mode (tc ctx)) ->
  ctx_ok (fst (watchdog_timer_cb ctx now_ms)) /\ blocked (vehicle_mode (tc (fst (watchdog_timer_cb ctx now_ms)))).
Proof.
  intros [] Hb. unfold watchdog_timer_cb. destruct (watchdog_task.watchdog_check (wd ctx) now_ms) as [w t].
  by destruct (truthy t).
Qed.

Lemma stopped_run f out pes ctx :
  drives f = false -> Forall (does f) out -> Forall (hears out) pes ->
  ctx_ok ctx -> blocked (vehicle_mode (tc ctx)) ->
  exists fs tr, sent ctx pes = Ret (fs, tr) /\ motor_stopped fs.
Proof.
  intros Hd Hout Hpes. revert ctx. induction Hpes as [|e pes He _ IH]; intros ctx Hc Hb.
  { exists [], []. split; [done|]. intros fr Hf. by apply not_elem_of_nil in Hf. }
  cbn [sent]. destruct e as [now_ms|slots now_ms rxs]; cbn [CPowertrainEcu.handle obind].
  - destruct (timer_ok ctx now_ms Hc Hb) as [Hc' Hb']. destruct (IH _ Hc' Hb') as (fs & tr & -> & Hs). by exists fs, tr.
  - cbn [hears] in He. destruct (blocked_cycle slots now_ms rxs ctx Hc) as (ctx' & fs1 & tr1 & -> & Hc' & Hb' & Hs1).
    + eapply Forall_impl; [exact He|]. by intros [fr at_] [].
    + apply modes_blocked; [|done]. eapply Forall_impl; [exact He|]. intros [fr at_] [_ Hg] Hid.
      destruct (Hg Hid) as (held & g & Hin & ->). apply (allowed_blocked f); [done|]. apply mode_heard; [|done].
      exact (proj1 (list.Forall_forall _ _) Hout _ Hin).
    + destruct (IH _ Hc' Hb') as (fs & tr & Hsent & Hs). cbn [obind]. rewrite Hsent. cbn [obind].
      eexists _, _. split; [done|]. intros fr [Hf|Hf]%elem_of_app; auto.
Qed.

(** C6: A vehicle with a plain gateway does not move.  Whatever happens to a gateway that runs
    neither the charging nor the drive script, and whatever else the powertrain receives,
    requests of the driver included: as long as the powertrain takes its mode from that
    gateway, it never leaves an array and every motor command it ever sends is zero torque
    with the motor disabled.  No path of the gateway enters DRIVE, although
    docs/safety_rules.md has it do so when the driver presses the throttle. *)
Theorem plain_gateway_never_drives f es ctx pes :
  drives f = false -> Forall event_ok es -> diag_service_clamp_bug ctx = 0 ->
  exists ctx0 ctxg out,
    gateway_ctx.gateway_init (gateway_ctx.set_flags f gateway_ctx.zeroed) = Ret (tt, ctx0, []) /\
    run_events es ctx0 = Ret (tt, ctxg, out) /\
    (Forall (hears out) pes -> exists fs tr, sent (powertrain_init ctx) pes = Ret (fs, tr) /\ motor_stopped fs).
Proof.
  intros Hd Hes Hbug. destruct (booted f) as (ctx0 & H0 & Hi0).
  destruct (keep_events f ∅ es (or_introl eq_refl) Hes ctx0 Hi0) as ([] & ctxg & out & Hr & _ & Hout).
  exists ctx0, ctxg, out. split; [done|]. split; [done|]. intros Hp.
  apply (stopped_run f out); [done|done|done| |done]. split; [split; vm_compute; discriminate..|done].
Qed.

Lemma plain_gateway_never_drives_witness :
  let held := replicate 8 0 in
  let beat n := Rx true (receive held MC_MSG_HEARTBEAT [n; 0; 0; 0; 9]) in
  let es := [beat MC_NODE_POWERTRAIN; beat MC_NODE_BMS; beat MC_NODE_DASHBOARD; Turn true 50] in
  let ready := over_the_bus held (frame_of MC_MSG_VEHICLE_MODE MC_NODE_GATEWAY [VEHICLE_READY; 0]) in
  let pes := [CPowertrainEcu.Turn (true, true) 60 [(ready, 55); (receive held MC_MSG_DRIVER_INPUT [80; 0; 1], 56)]] in
  let ctx := {| tc := torque_controller_init; wd := watchdog_task.watchdog_init;
                diag_force_service_mode := 0; charging_force_mode := 0; diag_service_clamp_bug := 0 |} in
  Forall event_ok es /\
  exists ctx0 ctxg out, run_events es ctx0 = Ret (tt, ctxg, out) /\ Forall (hears out) pes /\
    exists fs tr, sent (powertrain_init ctx) pes = Ret (fs, tr) /\ motor_stopped fs.
Proof.
  intros held beat es ready pes ctx.
  assert (Hes : Forall event_ok es) by (repeat constructor; vm_compute; intuition discriminate).
  split; [exact Hes|].
  destruct (plain_gateway_never_drives gateway_ctx.no_flags es ctx pes eq_refl Hes eq_refl) as (ctx0 & ctxg & out & H0 & Hr & H).
  exists ctx0, ctxg, out. split; [exact Hr|].
  assert (Forall (hears out) pes) as Hp; [|split; [exact Hp|exact (H Hp)]].
  vm_compute in H0. injection H0 as <-. vm_compute in Hr. injection Hr as _ <-.
  apply Forall_cons_2; [|apply Forall_nil_2].
  apply Forall_cons_2; [|apply Forall_cons_2; [|apply Forall_nil_2]]; (split; [repeat constructor; vm_compute; intuition discriminate|]).
  - intros _. exists held, (frame_of MC_MSG_VEHICLE_MODE MC_NODE_GATEWAY [VEHICLE_READY; 0]). split; [|reflexivity].
    vm_compute. do 5 (try (by left); right).
  - intros E. vm_compute in E. discriminate E.
Defined.

(** ** Over-temperature *)

(** What the gateway makes of the fault and tells the powertrain. *)
Lemma fault_broadcast f ctx frame es now_ms :
  inv f ∅ ctx -> fault_manager.fault_count (gateway_ctx.fm ctx) < 16 -> truthy (gateway_ctx.diag_dogfood_script f) = false ->
  load (data frame) 0 = Ret MC_BMS_FAULT_OVERTEMP -> id frame = MC_MSG_BMS_FAULT ->
  Forall event_ok es -> Forall undisturbed es -> now_ms mod 50 = 0 ->
  exists ctx1 out1 ctx2 out2 ctx3 out3,
    handle (Rx true frame) ctx = Ret (tt, ctx1, out1) /\ run_events es ctx1 = Ret (tt, ctx2, out2) /\
    gateway_ctx.gateway_turn true now_ms ctx2 = Ret (tt, ctx3, out3) /\ gateway_ctx.mode_of ctx3 = VEHICLE_FAULT /\
    Send (frame_of MC_MSG_VEHICLE_MODE MC_NODE_GATEWAY [VEHICLE_FAULT; 1]) ∈ out3.
Proof.
  intros Hi Hroom Hscript Hl Hid Hes Hun Hnow.
  destruct (fault_noted f ctx frame _ Hi Hroom Hl) as (ctx1 & out1 & E1 & H1).
  destruct (keep_events f _ es (or_intror (conj Hscript Hun)) Hes ctx1 H1) as ([] & ctx2 & out2 & E2 & H2 & _).
  destruct (turn_spec f _ (or_intror Hscript) true now_ms ctx2 H2) as ([] & ctx3 & out3 & E3 & H3 & _ & K & A & Hh & HA & (old & online & Hm) & Hs).
  assert (in_danger A = true) as Hd by (apply bool_decide_eq_true; exists (MC_NODE_BMS, MC_BMS_FAULT_OVERTEMP); split; [set_solver|done]).
  rewrite Hd in Hm, Hs. cbn [andb] in Hm, Hs. rewrite next_mode_danger in Hm. rewrite Hm in Hs.
  exists ctx1, out1, ctx2, out2, ctx3, out3. split; [|split_and!; [done|done|done|by apply Hs]].
  unfold handle, gateway_ctx.dispatch_frame_in_rx. by rewrite Hid.
Qed.

(** C4: Over-temperature through four programs. A plant tick that leaves the battery at 90.0
    degrees or more, the BMS turn that handles it (having published another fault code
    before), the gateway as any history from its start left it, with room for a fault and
    without the diagnostics script, and the powertrain in any state: the BMS publishes the
    fault; once the gateway has received it, then after any frames and turns without a
    diagnostics request its next turn on a 50 ms boundary ends in FAULT and broadcasts it;
    and the turn of the powertrain that takes this as the last mode it hears commands zero
    torque and disables the motor, whatever the driver asks. The documents ask for FAULT
    strictly above 90.0 degrees; at exactly 90.0 they still have LIMP, and the firmware
    already faults. *)
Theorem overheating_faults_vehicle p s now held created now_b last ctx_b f es0 ctx0 ctxg out0 heldg es now_g :
  plant_inv s -> last <> MC_BMS_FAULT_OVERTEMP ->
  gateway_ctx.gateway_init (gateway_ctx.set_flags f gateway_ctx.zeroed) = Ret (tt, ctx0, []) ->
  Forall event_ok es0 -> run_events es0 ctx0 = Ret (tt, ctxg, out0) ->
  fault_manager.fault_count (gateway_ctx.fm ctxg) < 16 -> truthy (gateway_ctx.diag_dogfood_script f) = false ->
  Forall event_ok es -> Forall undisturbed es -> now_g mod 50 = 0 ->
  exists s' frames ctx_b' last' out,
    MicrocarPlant.step (deliver held) p s now [] = Ret (s', frames) /\
    bms_ctx.bms_cycle created now_b frames ctx_b last = Ret (ctx_b', last', out) /\
    (900 <= BatteryModel.temp_c_x10 (MicrocarPlant.battery s') ->
     exists fault ctx1 out1 ctx2 out2 ctx3 out3 mode_frame,
       fault ∈ out /\ handle (Rx true (over_the_bus heldg fault)) ctxg = Ret (tt, ctx1, out1) /\
       run_events es ctx1 = Ret (tt, ctx2, out2) /\
       gateway_ctx.gateway_turn true now_g ctx2 = Ret (tt, ctx3, out3) /\
       gateway_ctx.mode_of ctx3 = VEHICLE_FAULT /\ Send mode_frame ∈ out3 /\
       forall heldp before at_ after slots now_p ctx,
         length heldp = 8%nat -> Forall (fits U8) heldp -> ctx_ok ctx ->
         Forall (fun '(fr, _) => frame_ok fr) (before ++ after) ->
         Forall (fun '(fr, _) => id fr <> MC_MSG_VEHICLE_MODE) after ->
         exists ctx' fs tr,
           powertrain_cycle slots now_p (before ++ (over_the_bus heldp mode_frame, at_) :: after) ctx = Ret (ctx', fs, tr) /\
           motor_stopped fs).
Proof.
  intros Hi Hlast Hboot Hes0 Hrun Hroom Hscript Hes Hun Hnow.
  destruct (bms_publishes_plant p s now held created now_b ctx_b last Hi) as (s' & frames & ctx_b' & status & Hs & Hbms & _).
  set (t := BatteryModel.temp_c_x10 (MicrocarPlant.battery s')) in *.
  exists s', frames, ctx_b', (fault_by_temp t), (status :: periodic_frames now_b last t).
  split; [exact Hs|]. split; [exact Hbms|]. fold t. intros Ht.
  destruct (booted f) as (ctx0' & H0 & Hi0). assert (ctx0' = ctx0) as -> by congruence.
  destruct (keep_events f ∅ es0 (or_introl eq_refl) Hes0 ctx0 Hi0) as ([] & ctxg' & out0' & Hr & Hig & _).
  assert (ctxg' = ctxg) as -> by congruence.
  assert (fault_by_temp t = MC_BMS_FAULT_OVERTEMP) as Hfault by (unfold fault_by_temp; by rewrite (proj2 (Z.leb_le _ _) Ht)).
  destruct (fault_broadcast f ctxg (over_the_bus heldg (frame_of MC_MSG_BMS_FAULT MC_NODE_BMS [MC_BMS_FAULT_OVERTEMP])) es now_g
    Hig Hroom Hscript eq_refl eq_refl Hes Hun Hnow) as (ctx1 & out1 & ctx2 & out2 & ctx3 & out3 & E1 & E2 & E3 & Em & Hsend).
  exists (frame_of MC_MSG_BMS_FAULT MC_NODE_BMS [MC_BMS_FAULT_OVERTEMP]), ctx1, out1, ctx2, out2, ctx3, out3,
    (frame_of MC_MSG_VEHICLE_MODE MC_NODE_GATEWAY [VEHICLE_FAULT; 1]).
  split; [|split_and!; [done..|]].
  { apply list_elem_of_further. unfold periodic_frames. rewrite Hfault. apply elem_of_app. right. apply elem_of_app. left.
    rewrite (proj2 (Z.eqb_neq _ _)) by congruence. by left. }
  intros heldp before at_ after slots now_p ctx Hl Hb Hc Hrx Hafter. apply Forall_app in Hrx as [Hrb Hra].
  rewrite frame_of_received.
  destruct (blocked_cycle slots now_p (before ++ (receive heldp MC_MSG_VEHICLE_MODE [VEHICLE_FAULT; 1], at_) :: after) ctx Hc)
    as (ctx' & fs & tr & E & _ & _ & Hstop).
  - apply Forall_app. split; [done|]. apply Forall_cons. split; [|done].
    apply received_frame_ok; [done|cbn; lia|done|]. repeat apply Forall_cons_2; try apply Forall_nil_2; split; vm_compute; discriminate.
  - rewrite map_app, fold_left_app. cbn [map fst fold_left]. apply modes_blocked; [|done].
    eapply Forall_impl; [exact Hafter|]. intros [fr a] Hne Heq. by destruct Hne.
  - by exists ctx', fs, tr.
Qed.

(** A battery forced to 95 degrees, a gateway that has heard the three nodes, a driver at full
    throttle. *)
Lemma overheating_faults_vehicle_witness :
  let plant := MicrocarPlant.with_battery (MicrocarPlant.new 10)
                 (BatteryModel.force_temperature (MicrocarPlant.battery (MicrocarPlant.new 10)) 95) in
  let ctx_b := {| bms_ctx.calib_running := false; bms_ctx.calib_requested := 0; bms_ctx.calib_done := 0;
                  bms_ctx.bs := bms_state.bms_state_init; bms_ctx.seq := 0; bms_ctx.bl := bms_limits.bms_limits_init |} in
  let held := replicate 8 0 in
  let beat n := Rx true (receive held MC_MSG_HEARTBEAT [n; 0; 0; 0; 9]) in
  let es0 := [beat MC_NODE_POWERTRAIN; beat MC_NODE_BMS; beat MC_NODE_DASHBOARD; Turn true 50] in
  plant_inv plant /\
  exists ctx0 ctxg out0 s' frames ctx_b' last' out fault ctx1 out1 ctx3 out3,
    gateway_ctx.gateway_init (gateway_ctx.set_flags gateway_ctx.no_flags gateway_ctx.zeroed) = Ret (tt, ctx0, []) /\
    run_events es0 ctx0 = Ret (tt, ctxg, out0) /\ gateway_ctx.mode_of ctxg = VEHICLE_READY /\
    MicrocarPlant.step (deliver held) Debug plant 0 [] = Ret (s', frames) /\
    bms_ctx.bms_cycle false 60 frames ctx_b 0 = Ret (ctx_b', last', out) /\ fault ∈ out /\
    handle (Rx true (over_the_bus held fault)) ctxg = Ret (tt, ctx1, out1) /\
    gateway_ctx.gateway_turn true 100 ctx1 = Ret (tt, ctx3, out3) /\ gateway_ctx.mode_of ctx3 = VEHICLE_FAULT.
Proof.
  intros plant ctx_b held beat es0.
  assert (plant_inv plant) as Hi.
  { destruct (new_plant_inv 10) as [Hv Hb Ht Hs]; [lia|]. split; [exact Hv| |exact Ht|exact Hs].
    repeat split; vm_compute; discriminate. }
  assert (Forall event_ok es0) as Hes by (repeat constructor; vm_compute; intuition discriminate).
  split; [exact Hi|].
  destruct (booted gateway_ctx.no_flags) as (ctx0 & H0 & Hi0).
  destruct (keep_events _ ∅ es0 (or_introl eq_refl) Hes ctx0 Hi0) as ([] & ctxg & out0 & Hr & _ & _).
  assert (gateway_ctx.mode_of ctxg = VEHICLE_READY /\ fault_manager.fault_count (gateway_ctx.fm ctxg) = 0) as [Hm Hcount].
  { vm_compute in H0. injection H0 as <-. vm_compute in Hr. injection Hr as <- _. by split. }
  destruct (overheating_faults_vehicle Debug plant 0 held false 60 0 ctx_b gateway_ctx.no_flags es0 ctx0 ctxg out0 held [] 100
              Hi ltac:(discriminate) H0 Hes Hr ltac:(lia) eq_refl (Forall_nil_2 _) (Forall_nil_2 _) eq_refl)
    as (s' & frames & ctx_b' & last' & out & Hs & Hb & H).
  destruct H as (fault & ctx1 & out1 & ctx2 & out2 & ctx3 & out3 & mf & Hf & H1 & H2 & H3 & Hfault & _).
  { vm_compute in Hs. injection Hs as <- _. vm_compute. discriminate. }
  assert (ctx2 = ctx1) as -> by (unfold run_events, tfor, tret in H2; congruence).
  by exists ctx0, ctxg, out0, s', frames, ctx_b', last', out, fault, ctx1, out1, ctx3, out3.
Defined.
End Vehicle.
