(* ===== verification/CSeeds.v ===== *)
(** * The seeded bugs, reproduced

    The corpus of the harness pairs a firmware with a seeded bug and one without; its report
    says that the bug shows in the traces of the first and not of the second.  For two of the
    seeds that is a property of the firmware alone, whatever else happens in the runs. *)

From S2P Require Import Prelude MachineInt CBase CProtocol CFirmware.
From S2P Require Import RustStr Json Runner Lane Ecu Corpus.
From S2P Require Import CFrames CTask CPowertrainEcu CGatewayEcu CCoordinator CGatewayRuns CGatewayOta.

Section Seeds.
Import torque_controller powertrain_ctx.

(** The powertrain in forced service mode, with the defect or without. *)
Definition service_flags (bug : bool) (ctx : powertrain_ctx_t) : Prop :=
  diag_force_service_mode ctx = 1 /\ charging_force_mode ctx = 0 /\ diag_service_clamp_bug ctx = Z.b2z bug.

Lemma dispatch_flags bug ctx f now :
  service_flags bug ctx -> frame_ok f -> exists ctx', dispatch_frame ctx f now = Ret ctx' /\ service_flags bug ctx'.
Proof.
  intros Hs Hf. assert (forall i, 0 <= i < 8 -> exists x, load (data f) i = Ret x) as Hload.
  { intros i Hi. exists (byte f (Z.to_nat i)). rewrite <- (Z2Nat.id i) at 1 by lia. apply load_byte; [done|lia]. }
  destruct (Hload 0 ltac:(lia)) as [b0 E0], (Hload 1 ltac:(lia)) as [b1 E1], (Hload 2 ltac:(lia)) as [b2 E2].
  unfold dispatch_frame, handle_driver_input, handle_vehicle_mode, handle_bms_limits. rewrite E0, E1, E2. cbn [obind].
  repeat case_match; eexists; split; try reflexivity; exact Hs.
Qed.

(** Every turn traces the same command: 80 percent with the motor enabled, or nothing. *)
Lemma service_turn bug slots now_ms rxs ctx :
  service_flags bug ctx -> Forall (fun '(f, _) => frame_ok f) rxs ->
  exists ctx' fs, powertrain_cycle slots now_ms rxs ctx =
    Ret (ctx', fs, [("diag_motor_command", if bug then 80 * 256 + 1 else 0)]) /\ service_flags bug ctx'.
Proof.
  intros Hs Hrx. unfold powertrain_cycle.
  assert (exists ctx1, ofold (fun ctx '(rx, now) => dispatch_frame ctx rx now) ctx rxs = Ret ctx1 /\ service_flags bug ctx1)
    as (ctx1 & -> & Hf & Hc & Hb).
  { revert ctx Hs. induction Hrx as [|[f at_] rxs Hok _ IH]; intros ctx Hs; [by exists ctx|]. cbn [ofold].
    destruct (dispatch_flags bug ctx f at_ Hs Hok) as (ctx1 & -> & H1). cbn [obind]. by apply IH. }
  cbn [obind]. unfold force_modes. rewrite Hf. cbn [truthy Z.eqb negb]. cbn [charging_force_mode with_tc]. rewrite Hc.
  unfold cycle_torque. cbn -[Z.modulo heartbeat_frame]. rewrite Hb.
  destruct bug, (now_ms mod 100 =? 0); cbn [Z.b2z truthy Z.eqb negb andb]; rewrite command_eq; cbn [obind];
    unfold send_heartbeat; rewrite ?heartbeat_frame_eq; cbn [obind]; eexists _, _; (split; [reflexivity|by split]).
Qed.

(** What the task receives. *)
Definition powertrain_event_ok (e : CPowertrainEcu.event) : Prop :=
  match e with CPowertrainEcu.Turn _ _ rxs => Forall (fun '(f, _) => frame_ok f) rxs | Timer _ => True end.

Definition powertrain_turns (es : list CPowertrainEcu.event) : nat :=
  length (List.filter (fun e => match e with CPowertrainEcu.Turn _ _ _ => true | Timer _ => false end) es).

Lemma service_run bug es ctx :
  service_flags bug ctx -> Forall powertrain_event_ok es ->
  exists fs, sent ctx es = Ret (fs, replicate (powertrain_turns es) ("diag_motor_command", if bug then 80 * 256 + 1 else 0)).
Proof.
  intros Hs Hes. revert ctx Hs. induction Hes as [|[now_ms|slots now_ms rxs] es He _ IH]; intros ctx Hs; [by exists []| |].
  - cbn [sent CPowertrainEcu.handle obind]. unfold watchdog_timer_cb.
    destruct (watchdog_task.watchdog_check (wd ctx) now_ms) as [w timeout].
    destruct (IH (fst (if truthy timeout then (with_tc (with_wd ctx w) (with_output (tc (with_wd ctx w)) (output_torque (tc (with_wd ctx w))) 0), timeout)
                       else (with_wd ctx w, timeout)))) as (fs & E); [by destruct (truthy timeout)|].
    destruct (truthy timeout); cbn [fst] in *; rewrite E; cbn [obind]; by exists fs.
  - cbn [sent CPowertrainEcu.handle]. destruct (service_turn bug slots now_ms rxs ctx Hs He) as (ctx' & fs & -> & Hs').
    cbn [obind]. destruct (IH ctx' Hs') as (fs' & ->). cbn [obind]. by exists (fs ++ fs').
Qed.

(** [trace] is of a run in which machine 2 traced [tr] of its motor commands. *)
Definition motor_trace (tr : list (string * Z)) (trace : list UserTrace) : Prop :=
  values_of trace NODE_POWERTRAIN "diag_motor_command" =
  map snd (List.filter (fun t => String.eqb (fst t) "diag_motor_command") tr).

Lemma motor_trace_values n v trace :
  motor_trace (replicate n ("diag_motor_command", v)) trace ->
  service_motor_commands trace = replicate n (decode_command v).
Proof.
  unfold motor_trace, service_motor_commands. intros ->. induction n as [|n IH]; [done|]. cbn. by rewrite IH.
Qed.

(** The powertrain a firmware path boots. *)
Definition boot_powertrain (path : string) (ctx : powertrain_ctx_t) : powertrain_ctx_t :=
  powertrain_flags (MicrocarFirmware.boot_entry
    (MicrocarFirmware.ecu_type (MicrocarFirmware.with_firmware_path "powertrain" path))) ctx.

(** The instance state before its first use. *)
Definition powertrain_zeroed : powertrain_ctx_t := {|
  tc := torque_controller_init; wd := watchdog_task.watchdog_init;
  diag_force_service_mode := 0; charging_force_mode := 0; diag_service_clamp_bug := 0 |}.

(** C11: Two seeded bugs reproduced for every run.  The corpus pairs the gateway whose CRC
    check is broken with the one that has a correct check, and the powertrain that skips the
    SERVICE clamp with the one that has it.  Whatever frames arrive, whatever the watchdog
    does and however the tasks are scheduled, once the gateways have made sixty turns and the
    powertrains one, the corpus finds in every pair of traces of such runs that the bug
    shows, that the fix removes it and that the two diverge. *)
Theorem seeds_reproduced es es' trace trace' pes pes' ptrace ptrace' :
  Forall event_ok es -> Forall event_ok es' -> (60 <= turns es)%nat -> (60 <= turns es')%nat ->
  Forall powertrain_event_ok pes -> Forall powertrain_event_ok pes' ->
  (1 <= powertrain_turns pes)%nat -> (1 <= powertrain_turns pes')%nat ->
  (exists bug0 bug out fix0 fix_ out',
     gateway_ctx.gateway_init (gateway_ctx.set_flags (boot_flags "firmware/gateway_ota_crcbug") gateway_ctx.zeroed) = Ret (tt, bug0, []) /\
     run_events es bug0 = Ret (tt, bug, out) /\
     gateway_ctx.gateway_init (gateway_ctx.set_flags (boot_flags "firmware/gateway_ota_badcrc") gateway_ctx.zeroed) = Ret (tt, fix0, []) /\
     run_events es' fix0 = Ret (tt, fix_, out') /\
     (trace_of_run out trace -> trace_of_run out' trace' ->
      all_checks_passed (Corpus.evaluate OtaRollback {| failing := trace; fixed := trace' |}) = true)) /\
  (exists fs tr fs' tr',
     sent (powertrain_init (boot_powertrain "firmware/powertrain_diag_service_bug" powertrain_zeroed)) pes = Ret (fs, tr) /\
     sent (powertrain_init (boot_powertrain "firmware/powertrain_diag_service" powertrain_zeroed)) pes' = Ret (fs', tr') /\
     (motor_trace tr ptrace -> motor_trace tr' ptrace' ->
      all_checks_passed (Corpus.evaluate ServiceTorqueClamp {| failing := ptrace; fixed := ptrace' |}) = true)).
Proof.
  intros H1 H2 H3 H4 H5 H6 H7 H8. split; [by apply ota_rollback_seed_reproduced|].
  destruct (service_run true pes (powertrain_init (boot_powertrain "firmware/powertrain_diag_service_bug" powertrain_zeroed)))
    as (fs & E); [by vm_compute|done|].
  destruct (service_run false pes' (powertrain_init (boot_powertrain "firmware/powertrain_diag_service" powertrain_zeroed)))
    as (fs' & E'); [by vm_compute|done|].
  eexists fs, _, fs', _. split; [exact E|]. split; [exact E'|].
  intros T%motor_trace_values T'%motor_trace_values. apply service_torque_shows. cbn [seed_shows]. rewrite T, T'.
  destruct (powertrain_turns pes) as [|n]; [lia|]. destruct (powertrain_turns pes') as [|n']; [lia|].
  split; [exists (decode_command (80 * 256 + 1)); split; [by left|by vm_compute]|]. split; [done|].
  intros c [-> _]%elem_of_replicate. by vm_compute.
Qed.

Lemma seeds_reproduced_witness :
  let es := replicate 60 (CGatewayRuns.Turn true 10) in
  let pes := [CPowertrainEcu.Turn (true, true) 10 []] in
  let ptrace v := map (to_event NODE_POWERTRAIN) [("diag_motor_command", v)] in
  exists fs tr fs' tr',
    sent (powertrain_init (boot_powertrain "firmware/powertrain_diag_service_bug" powertrain_zeroed)) pes = Ret (fs, tr) /\
    sent (powertrain_init (boot_powertrain "firmware/powertrain_diag_service" powertrain_zeroed)) pes = Ret (fs', tr') /\
    all_checks_passed (Corpus.evaluate ServiceTorqueClamp {| failing := ptrace 20481; fixed := ptrace 0 |}) = true.
Proof.
  intros es pes ptrace.
  assert (Forall event_ok es /\ (60 <= turns es)%nat) as [Hes Hn]
    by (split; [apply Forall_replicate; exact I|apply Nat.leb_le; reflexivity]).
  assert (Forall powertrain_event_ok pes) as Hp by (repeat constructor).
  destruct (seeds_reproduced es es [] [] pes pes (ptrace 20481) (ptrace 0) Hes Hes Hn Hn Hp Hp (le_n 1) (le_n 1))
    as (_ & fs & tr & fs' & tr' & E & E' & H).
  exists fs, tr, fs', tr'. split; [exact E|]. split; [exact E'|]. apply H.
  - vm_compute in E. injection E as _ <-. reflexivity.
  - vm_compute in E'. injection E' as _ <-. reflexivity.
Defined.
End Seeds.
