(* ===== verification/Testing.v ===== *)
(** The vocabulary of the repository's unit tests: a `#[test]` function is a
    computation that returns or panics, `assert!` and `assert_eq!` panic when
    their condition is false, and `cargo test` runs each function on its own.
    The Test* files translate the test functions one by one, each under the
    name it has in the source, and evaluate the component definitions on the
    inputs and expectations the authors wrote down.  Test profile: the `dev`
    profile, whose overflow checks are on ([Debug]). *)
From S2P Require Import Prelude MachineInt RustStr.

Definition test : Type := outcome unit.

Definition assert (b : bool) : test := if b then Ret tt else Panic.
Definition assert_eq {A : Type} `{!EqDecision A} (x y : A) : test := assert (bool_decide (x = y)).

Notation "'assert!' b 'in' k" := (obind (assert b) (fun _ => k))
  (at level 10, b at level 69, k at level 200) : mc_scope.
Notation "'assert!' a == b 'in' k" := (obind (assert_eq a b) (fun _ => k))
  (at level 10, a at level 69, b at level 69, k at level 200) : mc_scope.

(** `Option::unwrap` / `expect` and the slice index: a panic where there is nothing. *)
Definition unwrap {A : Type} (o : option A) : outcome A :=
  match o with Some x => Ret x | None => Panic end.
Definition unwrap_ok {A E : Type} (r : result A E) : outcome A :=
  match r with ROk x => Ret x | RErr e => Panic end.
Definition unwrap_err {A E : Type} (r : result A E) : outcome E :=
  match r with ROk x => Panic | RErr e => Ret e end.
Definition nth_or_panic {A : Type} (l : list A) (i : Z) : outcome A :=
  if i <? 0 then Panic else unwrap (l !! Z.to_nat i).

(** `b"..."`, the bytes of an ASCII literal. *)
Definition bytes (s : string) : list Z := map byte (list_ascii_of_string s).

(** A test passes when it returns. *)
Definition passes (t : test) : bool := is_ret t.
Definition all_pass (ts : list test) : bool := forallb passes ts.

Lemma passes_assert (b : bool) (k : test) : passes (assert! b in k) = b && passes k.
Proof. by destruct b. Qed.

Lemma passes_assert_eq {A : Type} `{!EqDecision A} (a b : A) (k : test) :
  passes (assert! a == b in k) = bool_decide (a = b) && passes k.
Proof. apply passes_assert. Qed.

Lemma all_pass_each (ts : list test) (t : test) :
  all_pass ts = true -> t ∈ ts -> t = Ret tt.
Proof.
  unfold all_pass. rewrite forallb_forall. intros H Ht.
  specialize (H t ltac:(by apply list_elem_of_In)). by destruct t as [[]|].
Qed.

(** `for _ in 0..n { s = f(s) }` *)
Fixpoint times {S : Type} (n : nat) (f : S -> outcome S) (s : S) : outcome S :=
  match n with
  | O => Ret s
  | Datatypes.S n => let! s' := f s in times n f s'
  end.

Lemma times_add {S : Type} (m n : nat) (f : S -> outcome S) (s : S) :
  times (m + n) f s = let! s' := times m f s in times n f s'.
Proof.
  revert s. induction m as [|m IH]; intros s; cbn [times Nat.add]; [done|].
  rewrite obind_assoc. destruct (f s); [apply IH|done].
Qed.

(** `for x in xs { body }` where the body only asserts. *)
Fixpoint for_each {A : Type} (l : list A) (body : A -> test) : test :=
  match l with
  | [] => Ret tt
  | x :: l => let! _ := body x in for_each l body
  end.

Lemma for_each_passes {A : Type} (l : list A) (body : A -> test) :
  passes (for_each l body) = forallb (fun x => passes (body x)) l.
Proof. induction l as [|x l IH]; [done|]. cbn. by destruct (body x). Qed.

(** Text with double quotes, each written as a backquote; lines, each ended by a newline. *)
Fixpoint raw (s : string) : string :=
  match s with
  | "" => ""
  | String c s => String (if byte c =? 96 then dquote else c) (raw s)
  end.
Definition text (lines : list string) : string :=
  String.concat "" (map (fun l => raw l +:+ newline_str) lines).

(** `s.matches(c).count()` and `s.find(pat)` *)
Fixpoint count_char (c : ascii) (s : string) : nat :=
  match s with
  | "" => 0
  | String d s => (if Ascii.eqb c d then 1 else 0) + count_char c s
  end.
Definition find (pat s : string) : option nat :=
  match split_once pat s with Some (before, _) => Some (String.length before) | None => None end.

(** `assert_ne!` *)
Definition assert_ne {A : Type} `{!EqDecision A} (x y : A) : test := assert (bool_decide (x <> y)).
