(* ===== verification/TestState.v ===== *)
(** The unit tests of the `microcar-state-tests` crate, file by file: each
    definition is the `#[test]` function of the same name, and each `*_tests_pass`
    lemma runs the file's tests on the definitions of the components. *)
From S2P Require Import Prelude MachineInt RustStr Protocol Timeout Bms Powertrain Gateway.
From S2P Require Import Dashboard OtaSlot CBase Testing.

(** The fields of the packed `HeartbeatMsg`, whose size `mem::size_of` reports. *)
Definition HeartbeatMsg_fields : list ity := [U8; U32].

(** `src/state_tests/src/protocol.rs` *)
Module protocol_tests.

Definition test_encode_decode_heartbeat : test :=
  let msg := encode_heartbeat MC_NODE_GATEWAY 12345 in
  let '(nid, uptime) := decode_heartbeat msg in
  assert! nid == MC_NODE_GATEWAY in
  assert! uptime == 12345 in
  assert! Z.of_nat (sizeof HeartbeatMsg_fields) == 5 in
  Ret tt.

Definition test_encode_decode_vehicle_mode : test :=
  let msg := encode_vehicle_mode (VehicleMode_as_u8 Drive) 0 in
  let '(mode, fault) := decode_vehicle_mode msg in
  assert! mode == VehicleMode_as_u8 Drive in
  assert! fault == 0 in
  Ret tt.

Definition test_encode_decode_driver_input : test :=
  let msg := encode_driver_input 50 0 1 in
  let '(thr, brake, gear) := decode_driver_input msg in
  assert! thr == 50 in
  assert! brake == 0 in
  assert! gear == 1 in
  Ret tt.

Definition test_encode_decode_bms_status : test :=
  let msg := encode_bms_status 48000 10000 600 80 in
  let '(v, c, t, s) := decode_bms_status msg in
  assert! v == 48000 in
  assert! c == 10000 in
  assert! t == 600 in
  assert! s == 80 in
  Ret tt.

Definition test_encode_decode_bms_limits : test :=
  let msg := encode_bms_limits 25 2 in
  let '(mt, r) := decode_bms_limits msg in
  assert! mt == 25 in
  assert! r == 2 in
  Ret tt.

Definition test_encode_decode_motor_command : test :=
  let msg := encode_motor_command 30 1 in
  let '(torque, en) := decode_motor_command msg in
  assert! torque == 30 in
  assert! en == 1 in
  Ret tt.

Definition test_encode_decode_wheel_speed : test :=
  let msg := encode_wheel_speed 120 in
  let speed := decode_wheel_speed msg in
  assert! speed == 120 in
  Ret tt.

Definition test_encode_decode_warning : test :=
  let msg := encode_warning MC_NODE_BMS (WarningCode_as_u8 BmsOvertemp) in
  let '(src, code) := decode_warning msg in
  assert! src == MC_NODE_BMS in
  assert! code == WarningCode_as_u8 BmsOvertemp in
  Ret tt.

Definition test_bms_state_from_temp : test :=
  assert! bms_determine_state 250 == Ok in
  assert! bms_determine_state 600 == Ok in
  assert! bms_determine_state 610 == WarnHot in
  assert! bms_determine_state 700 == WarnHot in
  assert! bms_determine_state 750 == WarnHot in
  assert! bms_determine_state 760 == LimpRequest in
  assert! bms_determine_state 850 == LimpRequest in
  assert! bms_determine_state 900 == LimpRequest in
  assert! bms_determine_state 910 == CriticalFault in
  assert! bms_determine_state 1200 == CriticalFault in
  Ret tt.

Definition test_safety_clamp_torque_normal : test :=
  assert! safety_clamp_torque 50 Drive false 100 == 50 in
  assert! safety_clamp_torque 100 Drive false 100 == 100 in
  Ret tt.

Definition test_safety_clamp_torque_brake_overrides : test :=
  assert! safety_clamp_torque 80 Drive true 100 == 0 in
  assert! safety_clamp_torque 50 Ready true 100 == 0 in
  assert! safety_clamp_torque 30 Limp true 25 == 0 in
  Ret tt.

Definition test_safety_clamp_torque_fault_mode : test :=
  assert! safety_clamp_torque 80 Fault false 100 == 0 in
  assert! safety_clamp_torque 5 Fault false 100 == 0 in
  Ret tt.

Definition test_safety_clamp_torque_limp_mode : test :=
  assert! safety_clamp_torque 80 Limp false 100 == 25 in
  assert! safety_clamp_torque 50 Limp false 100 == 25 in
  assert! safety_clamp_torque 10 Limp false 100 == 10 in
  assert! safety_clamp_torque 0 Limp false 100 == 0 in
  Ret tt.

Definition test_safety_clamp_torque_bms_limit : test :=
  assert! safety_clamp_torque 80 Drive false 50 == 50 in
  assert! safety_clamp_torque 40 Drive false 50 == 40 in
  assert! safety_clamp_torque 80 Limp false 10 == 10 in
  Ret tt.

Definition test_safety_clamp_torque_negative_input : test :=
  assert! safety_clamp_torque (-10) Drive false 100 == 0 in
  assert! safety_clamp_torque (-50) Ready false 100 == 0 in
  Ret tt.

Definition test_safety_clamp_torque_off_ready_charging : test :=
  assert! safety_clamp_torque 30 Off false 100 == 30 in
  assert! safety_clamp_torque 30 Ready false 100 == 30 in
  assert! safety_clamp_torque 30 Charging false 100 == 30 in
  Ret tt.

Definition tests : list test :=
  [test_encode_decode_heartbeat;
   test_encode_decode_vehicle_mode;
   test_encode_decode_driver_input;
   test_encode_decode_bms_status;
   test_encode_decode_bms_limits;
   test_encode_decode_motor_command;
   test_encode_decode_wheel_speed;
   test_encode_decode_warning;
   test_bms_state_from_temp;
   test_safety_clamp_torque_normal;
   test_safety_clamp_torque_brake_overrides;
   test_safety_clamp_torque_fault_mode;
   test_safety_clamp_torque_limp_mode;
   test_safety_clamp_torque_bms_limit;
   test_safety_clamp_torque_negative_input;
   test_safety_clamp_torque_off_ready_charging].

Lemma protocol_tests_pass : all_pass tests = true.
Proof. by vm_compute. Qed.
End protocol_tests.

(** `src/state_tests/src/bms.rs` *)
Module bms_tests.

Definition test_bms_initial_state_ok : test :=
  let bms := BmsStateMachine.default in
  assert! BmsStateMachine.state bms == Ok in
  assert! BmsStateMachine.fault_code bms == NoFault in
  assert! negb (BmsStateMachine.is_fault bms) in
  assert! negb (BmsStateMachine.is_limp bms) in
  Ret tt.

Definition test_bms_temp_ok_range : test :=
  let bms := BmsStateMachine.default in
  let '(bms, state) := BmsStateMachine.update bms 250 48000 0 80 in
  assert! state == Ok in
  assert! negb (BmsStateMachine.is_fault bms) in
  let '(bms, state) := BmsStateMachine.update bms 600 48000 0 80 in
  assert! state == Ok in
  let '(bms, state) := BmsStateMachine.update bms 590 48000 0 80 in
  assert! state == Ok in
  Ret tt.

Definition test_bms_temp_warn_hot_range : test :=
  let bms := BmsStateMachine.default in
  let '(bms, state) := BmsStateMachine.update bms 610 48000 0 80 in
  assert! state == WarnHot in
  assert! negb (BmsStateMachine.is_fault bms) in
  assert! negb (BmsStateMachine.is_limp bms) in
  let '(bms, state) := BmsStateMachine.update bms 700 48000 0 80 in
  assert! state == WarnHot in
  let '(bms, state) := BmsStateMachine.update bms 750 48000 0 80 in
  assert! state == WarnHot in
  Ret tt.

Definition test_bms_temp_limp_range : test :=
  let bms := BmsStateMachine.default in
  let '(bms, state) := BmsStateMachine.update bms 760 48000 0 80 in
  assert! state == LimpRequest in
  assert! negb (BmsStateMachine.is_fault bms) in
  assert! BmsStateMachine.is_limp bms in
  let '(bms, state) := BmsStateMachine.update bms 850 48000 0 80 in
  assert! state == LimpRequest in
  let '(bms, state) := BmsStateMachine.update bms 900 48000 0 80 in
  assert! state == LimpRequest in
  Ret tt.

Definition test_bms_temp_critical_fault_range : test :=
  let bms := BmsStateMachine.default in
  let '(bms, state) := BmsStateMachine.update bms 910 48000 0 80 in
  assert! state == CriticalFault in
  assert! BmsStateMachine.is_fault bms in
  assert! negb (BmsStateMachine.is_limp bms) in
  let '(bms, state) := BmsStateMachine.update bms 1200 48000 0 80 in
  assert! state == CriticalFault in
  Ret tt.

Definition test_bms_fault_code_critical : test :=
  let bms := BmsStateMachine.default in
  let '(bms, _) := BmsStateMachine.update bms 910 48000 0 80 in
  assert! BmsStateMachine.fault_code bms == Overtemp in
  Ret tt.

Definition test_bms_fault_code_none_for_non_critical : test :=
  let bms := BmsStateMachine.default in
  let '(bms, _) := BmsStateMachine.update bms 750 48000 0 80 in
  assert! BmsStateMachine.fault_code bms == NoFault in
  let '(bms, _) := BmsStateMachine.update bms 850 48000 0 80 in
  assert! BmsStateMachine.fault_code bms == NoFault in
  Ret tt.

Definition test_bms_limits_ok_unlimited : test :=
  let bl := BmsLimits.default in
  let '(bl, limit) := BmsLimits.compute bl Ok in
  assert! limit == 255 in
  assert! BmsLimits.reason bl == 0 in
  Ret tt.

Definition test_bms_limits_warn_hot_unlimited : test :=
  let bl := BmsLimits.default in
  let '(bl, limit) := BmsLimits.compute bl WarnHot in
  assert! limit == 255 in
  assert! BmsLimits.reason bl == 1 in
  Ret tt.

Definition test_bms_limits_limp_request_25_percent : test :=
  let bl := BmsLimits.default in
  let '(bl, limit) := BmsLimits.compute bl LimpRequest in
  assert! limit == MC_TORQUE_LIMP_MAX_PERCENT in
  assert! BmsLimits.reason bl == 2 in
  Ret tt.

Definition test_bms_limits_critical_fault_zero : test :=
  let bl := BmsLimits.default in
  let '(bl, limit) := BmsLimits.compute bl CriticalFault in
  assert! limit == MC_TORQUE_FAULT_MAX_PERCENT in
  assert! BmsLimits.reason bl == 3 in
  Ret tt.

Definition test_bms_state_transitions_full_heat_cycle : test :=
  let bms := BmsStateMachine.default in
  let '(bms, r1) := BmsStateMachine.update bms 250 48000 0 80 in
  assert! r1 == Ok in
  let '(bms, r2) := BmsStateMachine.update bms 650 48000 0 80 in
  assert! r2 == WarnHot in
  let '(bms, r3) := BmsStateMachine.update bms 800 48000 0 80 in
  assert! r3 == LimpRequest in
  let '(bms, r4) := BmsStateMachine.update bms 950 48000 0 80 in
  assert! r4 == CriticalFault in
  let '(bms, r5) := BmsStateMachine.update bms 800 48000 0 80 in
  assert! r5 == LimpRequest in
  let '(bms, r6) := BmsStateMachine.update bms 650 48000 0 80 in
  assert! r6 == WarnHot in
  let '(bms, r7) := BmsStateMachine.update bms 300 48000 0 80 in
  assert! r7 == Ok in
  Ret tt.

Definition tests : list test :=
  [test_bms_initial_state_ok;
   test_bms_temp_ok_range;
   test_bms_temp_warn_hot_range;
   test_bms_temp_limp_range;
   test_bms_temp_critical_fault_range;
   test_bms_fault_code_critical;
   test_bms_fault_code_none_for_non_critical;
   test_bms_limits_ok_unlimited;
   test_bms_limits_warn_hot_unlimited;
   test_bms_limits_limp_request_25_percent;
   test_bms_limits_critical_fault_zero;
   test_bms_state_transitions_full_heat_cycle].

Lemma bms_tests_pass : all_pass tests = true.
Proof. by vm_compute. Qed.
End bms_tests.

(** `src/state_tests/src/powertrain.rs` *)
Module powertrain_tests.

Definition test_torque_controller_initial_state : test :=
  let tc := TorqueController.default in
  assert! TorqueController.throttle_percent tc == 0 in
  assert! negb (TorqueController.brake_pressed tc) in
  assert! TorqueController.vehicle_mode tc == Off in
  assert! TorqueController.motor_enable tc in
  Ret tt.

Definition test_torque_controller_normal_drive : test :=
  let tc := TorqueController.default in
  let tc := TorqueController.set_mode tc Drive in
  let tc := TorqueController.set_input tc 50 false 1 in
  let '(tc, torque) := TorqueController.compute tc in
  assert! torque == 50 in
  assert! TorqueController.motor_enable tc in
  Ret tt.

Definition test_torque_controller_brake_overrides_throttle : test :=
  let tc := TorqueController.default in
  let tc := TorqueController.set_mode tc Drive in
  let tc := TorqueController.set_input tc 80 true 1 in
  let '(tc, torque) := TorqueController.compute tc in
  assert! torque == 0 in
  assert! TorqueController.motor_enable tc in
  Ret tt.

Definition test_torque_controller_fault_mode_disables_motor : test :=
  let tc := TorqueController.default in
  let tc := TorqueController.set_mode tc Fault in
  let tc := TorqueController.set_input tc 50 false 1 in
  let '(tc, torque) := TorqueController.compute tc in
  assert! torque == 0 in
  assert! negb (TorqueController.motor_enable tc) in
  Ret tt.

Definition test_torque_controller_limp_mode_caps_torque : test :=
  let tc := TorqueController.default in
  let tc := TorqueController.set_mode tc Limp in
  let tc := TorqueController.set_input tc 80 false 1 in
  let '(tc, torque) := TorqueController.compute tc in
  assert! torque == 25 in
  assert! TorqueController.motor_enable tc in
  Ret tt.

Definition test_torque_controller_limp_below_cap_passes_through : test :=
  let tc := TorqueController.default in
  let tc := TorqueController.set_mode tc Limp in
  let tc := TorqueController.set_input tc 10 false 1 in
  let '(tc, torque) := TorqueController.compute tc in
  assert! torque == 10 in
  assert! TorqueController.motor_enable tc in
  Ret tt.

Definition test_torque_controller_bms_limit_caps_in_drive : test :=
  let tc := TorqueController.default in
  let tc := TorqueController.set_mode tc Drive in
  let tc := TorqueController.set_bms_limit tc 50 in
  let tc := TorqueController.set_input tc 80 false 1 in
  let '(tc, torque) := TorqueController.compute tc in
  assert! torque == 50 in
  Ret tt.

Definition test_torque_controller_bms_limit_below_input_passes : test :=
  let tc := TorqueController.default in
  let tc := TorqueController.set_mode tc Drive in
  let tc := TorqueController.set_bms_limit tc 80 in
  let tc := TorqueController.set_input tc 50 false 1 in
  let '(tc, torque) := TorqueController.compute tc in
  assert! torque == 50 in
  Ret tt.

Definition test_torque_controller_bms_limit_and_limp : test :=
  let tc := TorqueController.default in
  let tc := TorqueController.set_mode tc Limp in
  let tc := TorqueController.set_bms_limit tc 10 in
  let tc := TorqueController.set_input tc 80 false 1 in
  let '(tc, torque) := TorqueController.compute tc in
  assert! torque == 10 in
  Ret tt.

Definition test_torque_controller_invalid_throttle : test :=
  let tc := TorqueController.default in
  let tc := TorqueController.set_mode tc Drive in
  let tc := TorqueController.set_input tc 150 false 1 in
  let '(tc, torque) := TorqueController.compute tc in
  assert! torque == 0 in
  assert! negb (TorqueController.motor_enable tc) in
  assert! TorqueController.is_throttle_invalid tc in
  Ret tt.

Definition test_torque_controller_invalid_throttle_exactly_100 : test :=
  let tc := TorqueController.default in
  let tc := TorqueController.set_mode tc Drive in
  let tc := TorqueController.set_input tc 100 false 1 in
  assert! negb (TorqueController.is_throttle_invalid tc) in
  let '(tc, torque) := TorqueController.compute tc in
  assert! torque == 100 in
  Ret tt.

Definition test_torque_controller_invalid_throttle_101 : test :=
  let tc := TorqueController.default in
  let tc := TorqueController.set_input tc 101 false 1 in
  assert! TorqueController.is_throttle_invalid tc in
  Ret tt.

Definition test_torque_controller_zero_throttle : test :=
  let tc := TorqueController.default in
  let tc := TorqueController.set_mode tc Drive in
  let tc := TorqueController.set_input tc 0 false 1 in
  let '(tc, torque) := TorqueController.compute tc in
  assert! torque == 0 in
  assert! TorqueController.motor_enable tc in
  Ret tt.

Definition test_watchdog_initial_state_disabled : test :=
  let wd := WatchdogTask.default in
  assert! negb (WatchdogTask.gateway_online wd) in
  assert! WatchdogTask.torque_disabled wd in
  Ret tt.

Definition test_watchdog_gateway_beat_enables_torque : test :=
  let wd := WatchdogTask.default in
  let wd := WatchdogTask.gateway_beat wd 100 in
  assert! WatchdogTask.gateway_online wd in
  assert! negb (WatchdogTask.torque_disabled wd) in
  let! (wd, should_disable) := WatchdogTask.check Debug wd 200 in
  assert! negb should_disable in
  assert! negb (WatchdogTask.torque_disabled wd) in
  Ret tt.

Definition test_watchdog_timeout_disables_torque : test :=
  let wd := WatchdogTask.default in
  let wd := WatchdogTask.gateway_beat wd 100 in
  let! (wd, should_disable) := WatchdogTask.check Debug wd 350 in
  assert! should_disable in
  assert! negb (WatchdogTask.gateway_online wd) in
  assert! WatchdogTask.torque_disabled wd in
  Ret tt.

Definition test_watchdog_timeout_exact_boundary : test :=
  let wd := WatchdogTask.default in
  let wd := WatchdogTask.gateway_beat wd 100 in
  let! (wd, should_disable) := WatchdogTask.check Debug wd 349 in
  assert! negb should_disable in
  assert! WatchdogTask.gateway_online wd in
  let! (wd, should_disable) := WatchdogTask.check Debug wd 350 in
  assert! should_disable in
  Ret tt.

Definition test_watchdog_no_initial_beat_always_disabled : test :=
  let wd := WatchdogTask.default in
  let! (wd, should_disable) := WatchdogTask.check Debug wd 1000 in
  assert! should_disable in
  assert! WatchdogTask.torque_disabled wd in
  Ret tt.

Definition test_watchdog_reset : test :=
  let wd := WatchdogTask.default in
  let wd := WatchdogTask.gateway_beat wd 100 in
  assert! WatchdogTask.gateway_online wd in
  let wd := WatchdogTask.reset wd in
  assert! negb (WatchdogTask.gateway_online wd) in
  assert! WatchdogTask.torque_disabled wd in
  Ret tt.

Definition tests : list test :=
  [test_torque_controller_initial_state;
   test_torque_controller_normal_drive;
   test_torque_controller_brake_overrides_throttle;
   test_torque_controller_fault_mode_disables_motor;
   test_torque_controller_limp_mode_caps_torque;
   test_torque_controller_limp_below_cap_passes_through;
   test_torque_controller_bms_limit_caps_in_drive;
   test_torque_controller_bms_limit_below_input_passes;
   test_torque_controller_bms_limit_and_limp;
   test_torque_controller_invalid_throttle;
   test_torque_controller_invalid_throttle_exactly_100;
   test_torque_controller_invalid_throttle_101;
   test_torque_controller_zero_throttle;
   test_watchdog_initial_state_disabled;
   test_watchdog_gateway_beat_enables_torque;
   test_watchdog_timeout_disables_torque;
   test_watchdog_timeout_exact_boundary;
   test_watchdog_no_initial_beat_always_disabled;
   test_watchdog_reset].

Lemma powertrain_tests_pass : all_pass tests = true.
Proof. by vm_compute. Qed.
End powertrain_tests.

(** `src/state_tests/src/gateway.rs` *)
Module gateway_tests.

Definition test_gateway_initial_state_off : test :=
  let gw := GatewayState.default in
  assert! GatewayState.mode gw == Off in
  assert! negb (GatewayState.all_nodes_online gw) in
  Ret tt.

Definition test_gateway_off_to_ready_when_all_nodes_online : test :=
  let gw := GatewayState.default in
  let '(gw, mode) := GatewayState.update gw true false false 0 in
  assert! mode == Ready in
  Ret tt.

Definition test_gateway_stays_off_when_nodes_offline : test :=
  let gw := GatewayState.default in
  let '(gw, mode) := GatewayState.update gw false false false 0 in
  assert! mode == Off in
  Ret tt.

Definition test_gateway_ready_to_drive : test :=
  let gw := GatewayState.default in
  let '(gw, _) := GatewayState.update gw true false false 0 in
  assert! GatewayState.mode gw == Ready in
  let gw := GatewayState.enter_drive gw in
  assert! GatewayState.mode gw == Drive in
  Ret tt.

Definition test_gateway_drive_back_to_ready_on_node_loss : test :=
  let gw := GatewayState.default in
  let '(gw, _) := GatewayState.update gw true false false 0 in
  let gw := GatewayState.enter_drive gw in
  assert! GatewayState.mode gw == Drive in
  let '(gw, mode) := GatewayState.update gw false false false 0 in
  assert! mode == Ready in
  Ret tt.

Definition test_gateway_ready_back_to_off_on_node_loss : test :=
  let gw := GatewayState.default in
  let '(gw, _) := GatewayState.update gw true false false 0 in
  assert! GatewayState.mode gw == Ready in
  let '(gw, mode) := GatewayState.update gw false false false 0 in
  assert! mode == Off in
  Ret tt.

Definition test_gateway_off_to_limp_on_bms_limp_request : test :=
  let gw := GatewayState.default in
  let '(gw, mode) := GatewayState.update gw false false true 0 in
  assert! mode == Limp in
  Ret tt.

Definition test_gateway_ready_to_limp_on_bms_limp_request : test :=
  let gw := GatewayState.default in
  let '(gw, _) := GatewayState.update gw true false false 0 in
  assert! GatewayState.mode gw == Ready in
  let '(gw, mode) := GatewayState.update gw true false true 0 in
  assert! mode == Limp in
  Ret tt.

Definition test_gateway_drive_to_limp_on_bms_limp : test :=
  let gw := GatewayState.default in
  let '(gw, _) := GatewayState.update gw true false false 0 in
  let gw := GatewayState.enter_drive gw in
  assert! GatewayState.mode gw == Drive in
  let '(gw, mode) := GatewayState.update gw true false true 0 in
  assert! mode == Limp in
  Ret tt.

Definition test_gateway_limp_back_to_ready_when_limp_clears : test :=
  let gw := GatewayState.default in
  let '(gw, _) := GatewayState.update gw true false false 0 in
  let '(gw, _) := GatewayState.update gw true false true 0 in
  assert! GatewayState.mode gw == Limp in
  let '(gw, mode) := GatewayState.update gw true false false 0 in
  assert! mode == Ready in
  Ret tt.

Definition test_gateway_limp_persists_on_node_loss : test :=
  let gw := GatewayState.default in
  let '(gw, _) := GatewayState.update gw true false true 0 in
  assert! GatewayState.mode gw == Limp in
  let '(gw, mode) := GatewayState.update gw false false true 0 in
  assert! mode == Limp in
  Ret tt.

Definition test_gateway_fault_on_critical_bms_fault : test :=
  let gw := GatewayState.default in
  let '(gw, _) := GatewayState.update gw true false false 0 in
  assert! GatewayState.mode gw == Ready in
  let '(gw, mode) := GatewayState.update gw true true false 0 in
  assert! mode == Fault in
  Ret tt.

Definition test_gateway_fault_is_terminal : test :=
  let gw := GatewayState.default in
  let '(gw, _) := GatewayState.update gw true false false 0 in
  let '(gw, _) := GatewayState.update gw true true false 0 in
  assert! GatewayState.mode gw == Fault in
  let '(gw, mode) := GatewayState.update gw true false false 0 in
  assert! mode == Fault in
  Ret tt.

Definition test_gateway_reboot_resets_to_off : test :=
  let gw := GatewayState.default in
  let '(gw, _) := GatewayState.update gw true false false 0 in
  let gw := GatewayState.enter_drive gw in
  assert! GatewayState.mode gw == Drive in
  let gw := GatewayState.reboot gw in
  assert! GatewayState.mode gw == Off in
  assert! negb (GatewayState.all_nodes_online gw) in
  Ret tt.

Definition test_gateway_charging_mode : test :=
  let mode := GatewayState.determine_mode Charging true false false in
  assert! mode == Charging in
  let mode := GatewayState.determine_mode Charging true false true in
  assert! mode == Charging in
  let mode := GatewayState.determine_mode Charging true true false in
  assert! mode == Fault in
  Ret tt.

Definition test_heartbeat_monitor_new_empty : test :=
  let hm := HeartbeatMonitor.new in
  assert! negb (HeartbeatMonitor.all_online hm) in
  Ret tt.

Definition test_heartbeat_monitor_register_and_beat : test :=
  let hm := HeartbeatMonitor.new in
  let hm := HeartbeatMonitor.register hm MC_NODE_POWERTRAIN 250 in
  let hm := HeartbeatMonitor.register hm MC_NODE_BMS 300 in
  assert! negb (HeartbeatMonitor.all_online hm) in
  assert! negb (HeartbeatMonitor.is_online hm MC_NODE_POWERTRAIN) in
  let hm := HeartbeatMonitor.beat hm MC_NODE_POWERTRAIN 100 in
  assert! HeartbeatMonitor.is_online hm MC_NODE_POWERTRAIN in
  assert! negb (HeartbeatMonitor.is_online hm MC_NODE_BMS) in
  assert! negb (HeartbeatMonitor.all_online hm) in
  let hm := HeartbeatMonitor.beat hm MC_NODE_BMS 150 in
  assert! HeartbeatMonitor.is_online hm MC_NODE_BMS in
  assert! HeartbeatMonitor.all_online hm in
  Ret tt.

Definition test_heartbeat_monitor_timeout : test :=
  let hm := HeartbeatMonitor.new in
  let hm := HeartbeatMonitor.register hm MC_NODE_BMS 300 in
  let hm := HeartbeatMonitor.beat hm MC_NODE_BMS 100 in
  assert! HeartbeatMonitor.is_online hm MC_NODE_BMS in
  let! (hm, transitions) := HeartbeatMonitor.check Debug hm 200 in
  assert! transitions == 0 in
  assert! HeartbeatMonitor.is_online hm MC_NODE_BMS in
  let! (hm, transitions) := HeartbeatMonitor.check Debug hm 400 in
  assert! transitions == 1 in
  assert! negb (HeartbeatMonitor.is_online hm MC_NODE_BMS) in
  Ret tt.

Definition test_heartbeat_monitor_timeout_exact_boundary : test :=
  let hm := HeartbeatMonitor.new in
  let hm := HeartbeatMonitor.register hm MC_NODE_GATEWAY 250 in
  let hm := HeartbeatMonitor.beat hm MC_NODE_GATEWAY 100 in
  let! (hm, transitions) := HeartbeatMonitor.check Debug hm 349 in
  assert! transitions == 0 in
  let! (hm, transitions) := HeartbeatMonitor.check Debug hm 350 in
  assert! transitions == 1 in
  assert! negb (HeartbeatMonitor.is_online hm MC_NODE_GATEWAY) in
  Ret tt.

Definition test_heartbeat_monitor_multiple_nodes : test :=
  let hm := HeartbeatMonitor.new in
  let hm := HeartbeatMonitor.register hm MC_NODE_POWERTRAIN 250 in
  let hm := HeartbeatMonitor.register hm MC_NODE_BMS 300 in
  let hm := HeartbeatMonitor.register hm MC_NODE_DASHBOARD 500 in
  let hm := HeartbeatMonitor.beat hm MC_NODE_POWERTRAIN 100 in
  let hm := HeartbeatMonitor.beat hm MC_NODE_BMS 100 in
  let hm := HeartbeatMonitor.beat hm MC_NODE_DASHBOARD 100 in
  assert! HeartbeatMonitor.all_online hm in
  let! (hm, transitions) := HeartbeatMonitor.check Debug hm 350 in
  assert! transitions == 1 in
  assert! negb (HeartbeatMonitor.is_online hm MC_NODE_POWERTRAIN) in
  assert! HeartbeatMonitor.is_online hm MC_NODE_BMS in
  assert! HeartbeatMonitor.is_online hm MC_NODE_DASHBOARD in
  let! (hm, transitions) := HeartbeatMonitor.check Debug hm 410 in
  assert! transitions == 1 in
  assert! negb (HeartbeatMonitor.is_online hm MC_NODE_BMS) in
  Ret tt.

Definition test_fault_manager_new_has_no_critical : test :=
  let fm := FaultManager.new in
  assert! negb (FaultManager.has_critical fm) in
  assert! FaultManager.active_count fm == 0 in
  Ret tt.

Definition test_fault_manager_report_critical : test :=
  let fm := FaultManager.new in
  let! fm := FaultManager.report Debug fm MC_NODE_BMS (BmsFaultCode_as_u8 Overtemp) 2 in
  assert! FaultManager.has_critical fm in
  assert! FaultManager.active_count fm == 1 in
  Ret tt.

Definition test_fault_manager_report_warning : test :=
  let fm := FaultManager.new in
  let! fm := FaultManager.report Debug fm MC_NODE_BMS (BmsFaultCode_as_u8 Undervoltage) 1 in
  assert! negb (FaultManager.has_critical fm) in
  assert! FaultManager.active_count fm == 1 in
  Ret tt.

Definition test_fault_manager_clear_fault : test :=
  let fm := FaultManager.new in
  let! fm := FaultManager.report Debug fm MC_NODE_BMS (BmsFaultCode_as_u8 Overtemp) 2 in
  assert! FaultManager.has_critical fm in
  let! fm := FaultManager.clear Debug fm MC_NODE_BMS (BmsFaultCode_as_u8 Overtemp) in
  assert! negb (FaultManager.has_critical fm) in
  assert! FaultManager.active_count fm == 0 in
  Ret tt.

Definition test_fault_manager_duplicate_report_no_double_count : test :=
  let fm := FaultManager.new in
  let! fm := FaultManager.report Debug fm MC_NODE_BMS (BmsFaultCode_as_u8 Overtemp) 2 in
  let! fm := FaultManager.report Debug fm MC_NODE_BMS (BmsFaultCode_as_u8 Overtemp) 2 in
  assert! FaultManager.active_count fm == 1 in
  assert! FaultManager.has_critical fm in
  Ret tt.

Definition test_fault_manager_multiple_sources : test :=
  let fm := FaultManager.new in
  let! fm := FaultManager.report Debug fm MC_NODE_BMS (BmsFaultCode_as_u8 Overtemp) 2 in
  let! fm := FaultManager.report Debug fm MC_NODE_POWERTRAIN 1 1 in
  assert! FaultManager.has_critical fm in
  assert! FaultManager.active_count fm == 2 in
  Ret tt.

Definition tests : list test :=
  [test_gateway_initial_state_off;
   test_gateway_off_to_ready_when_all_nodes_online;
   test_gateway_stays_off_when_nodes_offline;
   test_gateway_ready_to_drive;
   test_gateway_drive_back_to_ready_on_node_loss;
   test_gateway_ready_back_to_off_on_node_loss;
   test_gateway_off_to_limp_on_bms_limp_request;
   test_gateway_ready_to_limp_on_bms_limp_request;
   test_gateway_drive_to_limp_on_bms_limp;
   test_gateway_limp_back_to_ready_when_limp_clears;
   test_gateway_limp_persists_on_node_loss;
   test_gateway_fault_on_critical_bms_fault;
   test_gateway_fault_is_terminal;
   test_gateway_reboot_resets_to_off;
   test_gateway_charging_mode;
   test_heartbeat_monitor_new_empty;
   test_heartbeat_monitor_register_and_beat;
   test_heartbeat_monitor_timeout;
   test_heartbeat_monitor_timeout_exact_boundary;
   test_heartbeat_monitor_multiple_nodes;
   test_fault_manager_new_has_no_critical;
   test_fault_manager_report_critical;
   test_fault_manager_report_warning;
   test_fault_manager_clear_fault;
   test_fault_manager_duplicate_report_no_double_count;
   test_fault_manager_multiple_sources].

Lemma gateway_tests_pass : all_pass tests = true.
Proof. by vm_compute. Qed.
End gateway_tests.

(** `src/state_tests/src/dashboard.rs` *)
Module dashboard_tests.

Definition test_dashboard_initial_state : test :=
  let ds := DashboardState.default in
  assert! DashboardState.vehicle_mode ds == Off in
  assert! DashboardState.speed_kph_x10 ds == 0 in
  assert! negb (DashboardState.initialized ds) in
  assert! DashboardState.booted ds in
  Ret tt.

Definition test_dashboard_set_mode : test :=
  let ds := DashboardState.default in
  let ds := DashboardState.set_mode ds Drive in
  assert! DashboardState.vehicle_mode ds == Drive in
  assert! DashboardState.initialized ds in
  Ret tt.

Definition test_dashboard_set_speed : test :=
  let ds := DashboardState.default in
  let ds := DashboardState.set_speed ds 120 in
  assert! DashboardState.speed_kph_x10 ds == 120 in
  assert! DashboardState.initialized ds in
  Ret tt.

Definition test_dashboard_set_battery : test :=
  let ds := DashboardState.default in
  let ds := DashboardState.set_battery ds 85 600 47000 in
  assert! DashboardState.soc_percent ds == 85 in
  assert! DashboardState.battery_temp_c_x10 ds == 600 in
  assert! DashboardState.battery_voltage_mv ds == 47000 in
  assert! DashboardState.initialized ds in
  Ret tt.

Definition test_dashboard_receives_all_updates : test :=
  let ds := DashboardState.default in
  let ds := DashboardState.set_mode ds Drive in
  let ds := DashboardState.set_speed ds 250 in
  let ds := DashboardState.set_battery ds 75 650 46500 in
  assert! DashboardState.vehicle_mode ds == Drive in
  assert! DashboardState.speed_kph_x10 ds == 250 in
  assert! DashboardState.soc_percent ds == 75 in
  assert! DashboardState.battery_temp_c_x10 ds == 650 in
  assert! DashboardState.battery_voltage_mv ds == 46500 in
  assert! DashboardState.initialized ds in
  Ret tt.

Definition test_dashboard_add_warning : test :=
  let ds := DashboardState.default in
  let ds := DashboardState.add_warning ds (WarningCode_as_u8 BmsOvertemp) MC_NODE_BMS in
  assert! Z.of_nat (length (DashboardState.warnings ds)) == 1 in
  let! w1 := nth_or_panic (DashboardState.warnings ds) 0 in
  assert! DashboardState.active w1 in
  let! w2 := nth_or_panic (DashboardState.warnings ds) 0 in
  assert! DashboardState.warning_code w2 == WarningCode_as_u8 BmsOvertemp in
  let! w3 := nth_or_panic (DashboardState.warnings ds) 0 in
  assert! DashboardState.source_node w3 == MC_NODE_BMS in
  Ret tt.

Definition test_dashboard_duplicate_warning_no_double_count : test :=
  let ds := DashboardState.default in
  let ds := DashboardState.add_warning ds (WarningCode_as_u8 BmsOvertemp) MC_NODE_BMS in
  let ds := DashboardState.add_warning ds (WarningCode_as_u8 BmsOvertemp) MC_NODE_BMS in
  assert! Z.of_nat (length (DashboardState.warnings ds)) == 1 in
  Ret tt.

Definition test_dashboard_clear_warning : test :=
  let ds := DashboardState.default in
  let ds := DashboardState.add_warning ds (WarningCode_as_u8 BmsOvertemp) MC_NODE_BMS in
  let ds := DashboardState.add_warning ds (WarningCode_as_u8 PowertrainOffline) MC_NODE_POWERTRAIN
    in
  let ds := DashboardState.clear_warning ds (WarningCode_as_u8 BmsOvertemp) in
  let! w1 := nth_or_panic (DashboardState.warnings ds) 0 in
  assert! negb (DashboardState.active w1) in
  let! w2 := nth_or_panic (DashboardState.warnings ds) 1 in
  assert! DashboardState.active w2 in
  Ret tt.

Definition test_dashboard_clear_node_warnings : test :=
  let ds := DashboardState.default in
  let ds := DashboardState.add_warning ds (WarningCode_as_u8 BmsOvertemp) MC_NODE_BMS in
  let ds := DashboardState.add_warning ds (WarningCode_as_u8 BmsOffline) MC_NODE_BMS in
  let ds := DashboardState.add_warning ds (WarningCode_as_u8 PowertrainOffline) MC_NODE_POWERTRAIN
    in
  let ds := DashboardState.clear_node_warnings ds MC_NODE_BMS in
  let! w1 := nth_or_panic (DashboardState.warnings ds) 0 in
  assert! negb (DashboardState.active w1) in
  let! w2 := nth_or_panic (DashboardState.warnings ds) 1 in
  assert! negb (DashboardState.active w2) in
  let! w3 := nth_or_panic (DashboardState.warnings ds) 2 in
  assert! DashboardState.active w3 in
  Ret tt.

Definition test_dashboard_top_warning_priority : test :=
  let ds := DashboardState.default in
  let ds := DashboardState.add_warning ds (WarningCode_as_u8 BmsOffline) MC_NODE_BMS in
  assert! DashboardState.top_warning ds == WarningCode_as_u8 BmsOffline in
  let ds := DashboardState.add_warning ds (WarningCode_as_u8 BmsOvertemp) MC_NODE_BMS in
  assert! DashboardState.top_warning ds == WarningCode_as_u8 BmsOvertemp in
  let ds := DashboardState.add_warning ds (WarningCode_as_u8 CriticalBmsFault) MC_NODE_BMS in
  assert! DashboardState.top_warning ds == WarningCode_as_u8 CriticalBmsFault in
  Ret tt.

Definition test_dashboard_top_warning_no_warnings : test :=
  let ds := DashboardState.default in
  assert! DashboardState.top_warning ds == WarningCode_as_u8 NoWarning in
  Ret tt.

Definition test_dashboard_top_warning_cleared : test :=
  let ds := DashboardState.default in
  let ds := DashboardState.add_warning ds (WarningCode_as_u8 CriticalBmsFault) MC_NODE_BMS in
  assert! DashboardState.top_warning ds == WarningCode_as_u8 CriticalBmsFault in
  let ds := DashboardState.clear_warning ds (WarningCode_as_u8 CriticalBmsFault) in
  assert! DashboardState.top_warning ds == WarningCode_as_u8 NoWarning in
  Ret tt.

Definition test_dashboard_reboot : test :=
  let ds := DashboardState.default in
  let ds := DashboardState.set_mode ds Drive in
  let ds := DashboardState.set_speed ds 300 in
  let ds := DashboardState.add_warning ds (WarningCode_as_u8 BmsOvertemp) MC_NODE_BMS in
  let ds := DashboardState.reboot ds in
  assert! DashboardState.vehicle_mode ds == Off in
  assert! DashboardState.speed_kph_x10 ds == 0 in
  assert! Z.of_nat (length (DashboardState.warnings ds)) == 0 in
  assert! negb (DashboardState.booted ds) in
  assert! negb (DashboardState.initialized ds) in
  Ret tt.

Definition test_warning_display_initial : test :=
  let wd := WarningDisplay.default in
  assert! WarningDisplay.displayed_warning wd == WarningCode_as_u8 NoWarning in
  assert! WarningDisplay.severity wd == 0 in
  Ret tt.

Definition test_warning_display_higher_severity_wins : test :=
  let wd := WarningDisplay.default in
  let '(wd, code) := WarningDisplay.update wd (WarningCode_as_u8 BmsOffline) 1 in
  assert! code == WarningCode_as_u8 BmsOffline in
  let '(wd, code) := WarningDisplay.update wd (WarningCode_as_u8 BmsOvertemp) 2 in
  assert! code == WarningCode_as_u8 BmsOvertemp in
  let '(wd, code) := WarningDisplay.update wd (WarningCode_as_u8 CriticalBmsFault) 3 in
  assert! code == WarningCode_as_u8 CriticalBmsFault in
  Ret tt.

Definition test_warning_display_lower_severity_loses : test :=
  let wd := WarningDisplay.default in
  let '(wd, _) := WarningDisplay.update wd (WarningCode_as_u8 CriticalBmsFault) 3 in
  let '(wd, code) := WarningDisplay.update wd (WarningCode_as_u8 BmsOvertemp) 2 in
  assert! code == WarningCode_as_u8 CriticalBmsFault in
  Ret tt.

Definition test_warning_display_equal_severity_keeps_current : test :=
  let wd := WarningDisplay.default in
  let '(wd, _) := WarningDisplay.update wd (WarningCode_as_u8 BmsOvertemp) 2 in
  let '(wd, code) := WarningDisplay.update wd (WarningCode_as_u8 PowertrainOffline) 2 in
  assert! code == WarningCode_as_u8 BmsOvertemp in
  Ret tt.

Definition test_warning_display_clear : test :=
  let wd := WarningDisplay.default in
  let '(wd, _) := WarningDisplay.update wd (WarningCode_as_u8 CriticalBmsFault) 3 in
  let wd := WarningDisplay.clear wd in
  assert! WarningDisplay.displayed_warning wd == WarningCode_as_u8 NoWarning in
  assert! WarningDisplay.severity wd == 0 in
  Ret tt.

Definition test_s7_dashboard_failure_does_not_disable_powertrain : test :=
  let ds := DashboardState.default in
  assert! DashboardState.booted ds in
  Ret tt.

Definition tests : list test :=
  [test_dashboard_initial_state;
   test_dashboard_set_mode;
   test_dashboard_set_speed;
   test_dashboard_set_battery;
   test_dashboard_receives_all_updates;
   test_dashboard_add_warning;
   test_dashboard_duplicate_warning_no_double_count;
   test_dashboard_clear_warning;
   test_dashboard_clear_node_warnings;
   test_dashboard_top_warning_priority;
   test_dashboard_top_warning_no_warnings;
   test_dashboard_top_warning_cleared;
   test_dashboard_reboot;
   test_warning_display_initial;
   test_warning_display_higher_severity_wins;
   test_warning_display_lower_severity_loses;
   test_warning_display_equal_severity_keeps_current;
   test_warning_display_clear;
   test_s7_dashboard_failure_does_not_disable_powertrain].

Lemma dashboard_tests_pass : all_pass tests = true.
Proof. by vm_compute. Qed.
End dashboard_tests.

(** `src/state_tests/src/ota_slot.rs` *)
Module ota_slot_tests.

(** Assignment to one field of a record. *)
Definition MetaRecord_set_magic (r : MetaRecord.t) (x : Z) : MetaRecord.t :=
  {| MetaRecord.magic := x;
     MetaRecord.format_version := MetaRecord.format_version r;
     MetaRecord.active_slot := MetaRecord.active_slot r;
     MetaRecord.target_slot := MetaRecord.target_slot r;
     MetaRecord.state := MetaRecord.state r;
     MetaRecord.committed := MetaRecord.committed r;
     MetaRecord.boot_attempt_count := MetaRecord.boot_attempt_count r;
     MetaRecord.healthy := MetaRecord.healthy r;
     MetaRecord.abort_reason := MetaRecord.abort_reason r;
     MetaRecord.generation := MetaRecord.generation r;
     MetaRecord.image_length := MetaRecord.image_length r;
     MetaRecord.image_crc32 := MetaRecord.image_crc32 r;
     MetaRecord.reserved := MetaRecord.reserved r;
     MetaRecord.record_crc32 := MetaRecord.record_crc32 r |}.

Definition MetaRecord_set_target_slot (r : MetaRecord.t) (x : Z) : MetaRecord.t :=
  {| MetaRecord.magic := MetaRecord.magic r;
     MetaRecord.format_version := MetaRecord.format_version r;
     MetaRecord.active_slot := MetaRecord.active_slot r;
     MetaRecord.target_slot := x;
     MetaRecord.state := MetaRecord.state r;
     MetaRecord.committed := MetaRecord.committed r;
     MetaRecord.boot_attempt_count := MetaRecord.boot_attempt_count r;
     MetaRecord.healthy := MetaRecord.healthy r;
     MetaRecord.abort_reason := MetaRecord.abort_reason r;
     MetaRecord.generation := MetaRecord.generation r;
     MetaRecord.image_length := MetaRecord.image_length r;
     MetaRecord.image_crc32 := MetaRecord.image_crc32 r;
     MetaRecord.reserved := MetaRecord.reserved r;
     MetaRecord.record_crc32 := MetaRecord.record_crc32 r |}.

Definition MetaRecord_set_record_crc32 (r : MetaRecord.t) (x : Z) : MetaRecord.t :=
  {| MetaRecord.magic := MetaRecord.magic r;
     MetaRecord.format_version := MetaRecord.format_version r;
     MetaRecord.active_slot := MetaRecord.active_slot r;
     MetaRecord.target_slot := MetaRecord.target_slot r;
     MetaRecord.state := MetaRecord.state r;
     MetaRecord.committed := MetaRecord.committed r;
     MetaRecord.boot_attempt_count := MetaRecord.boot_attempt_count r;
     MetaRecord.healthy := MetaRecord.healthy r;
     MetaRecord.abort_reason := MetaRecord.abort_reason r;
     MetaRecord.generation := MetaRecord.generation r;
     MetaRecord.image_length := MetaRecord.image_length r;
     MetaRecord.image_crc32 := MetaRecord.image_crc32 r;
     MetaRecord.reserved := MetaRecord.reserved r;
     MetaRecord.record_crc32 := x |}.

Definition happy_path_commits_to_slot_b : test :=
  let m := OtaSlotModel.new in
  assert! OtaSlotModel.active_slot m == SLOT_A in
  let m := OtaSlotModel.begin_download m in
  assert! OtaSlotModel.state m == Downloading in
  assert! OtaSlotModel.target_slot m == SLOT_B in
  let '(m, r1) := OtaSlotModel.finish_download m true in
  assert! r1 in
  let '(m, r2) := OtaSlotModel.verify m true in
  assert! r2 in
  assert! OtaSlotModel.state m == Verifying in
  let '(m, r3) := OtaSlotModel.commit m in
  assert! r3 in
  assert! OtaSlotModel.state m == CommitPending in
  let m := OtaSlotModel.reboot m in
  assert! OtaSlotModel.state m == Rebooting in
  let '(m, r4) := OtaSlotModel.health_check m true in
  assert! r4 in
  assert! OtaSlotModel.state m == Healthy in
  assert! OtaSlotModel.boot_healthy m in
  assert! negb (OtaSlotModel.rolled_back m) in
  assert! OtaSlotModel.active_slot m == SLOT_B in
  assert! OtaSlotModel.boot_slot m == SLOT_B in
  Ret tt.

Definition corrupt_image_rolls_back_and_keeps_slot_a : test :=
  let m := OtaSlotModel.new in
  let m := OtaSlotModel.begin_download m in
  let '(m, r1) := OtaSlotModel.finish_download m true in
  assert! r1 in
  let '(m, r2) := OtaSlotModel.verify m false in
  assert! negb r2 in
  assert! negb (OtaSlotModel.crc_ok m) in
  assert! OtaSlotModel.state m == RolledBack in
  assert! OtaSlotModel.rolled_back m in
  let '(m, r3) := OtaSlotModel.commit m in
  assert! negb r3 in
  assert! OtaSlotModel.state m == RolledBack in
  assert! OtaSlotModel.active_slot m == SLOT_A in
  assert! OtaSlotModel.boot_slot m == SLOT_A in
  Ret tt.

Definition failed_health_check_rolls_back_to_slot_a : test :=
  let m := OtaSlotModel.new in
  let m := OtaSlotModel.begin_download m in
  let '(m, r1) := OtaSlotModel.finish_download m true in
  assert! r1 in
  let '(m, r2) := OtaSlotModel.verify m true in
  assert! r2 in
  let '(m, r3) := OtaSlotModel.commit m in
  assert! r3 in
  let m := OtaSlotModel.reboot m in
  let '(m, r4) := OtaSlotModel.health_check m false in
  assert! negb r4 in
  assert! OtaSlotModel.state m == RolledBack in
  assert! OtaSlotModel.rolled_back m in
  assert! negb (OtaSlotModel.boot_healthy m) in
  assert! OtaSlotModel.active_slot m == SLOT_A in
  assert! OtaSlotModel.boot_slot m == SLOT_A in
  Ret tt.

Definition interrupted_write_rolls_back_to_slot_a : test :=
  let m := OtaSlotModel.new in
  let m := OtaSlotModel.begin_download m in
  assert! OtaSlotModel.target_slot m == SLOT_B in
  let '(m, r1) := OtaSlotModel.finish_download m false in
  assert! negb r1 in
  assert! OtaSlotModel.state m == RolledBack in
  assert! OtaSlotModel.rolled_back m in
  assert! negb (OtaSlotModel.image_written m) in
  let '(m, r2) := OtaSlotModel.verify m true in
  assert! negb r2 in
  let '(m, r3) := OtaSlotModel.commit m in
  assert! negb r3 in
  assert! OtaSlotModel.active_slot m == SLOT_A in
  assert! OtaSlotModel.boot_slot m == SLOT_A in
  Ret tt.

Definition healthy_update_is_not_undone_by_rollback : test :=
  let m := OtaSlotModel.new in
  let m := OtaSlotModel.begin_download m in
  let '(m, r1) := OtaSlotModel.finish_download m true in
  assert! r1 in
  let '(m, r2) := OtaSlotModel.verify m true in
  assert! r2 in
  let '(m, r3) := OtaSlotModel.commit m in
  assert! r3 in
  let m := OtaSlotModel.reboot m in
  let '(m, r4) := OtaSlotModel.health_check m true in
  assert! r4 in
  assert! OtaSlotModel.active_slot m == SLOT_B in
  let m := OtaSlotModel.rollback m in
  assert! OtaSlotModel.state m == Healthy in
  assert! OtaSlotModel.active_slot m == SLOT_B in
  assert! OtaSlotModel.boot_slot m == SLOT_B in
  Ret tt.

Definition commit_requires_written_image : test :=
  let m := OtaSlotModel.new in
  let m := OtaSlotModel.begin_download m in
  let '(m, r1) := OtaSlotModel.verify m true in
  assert! r1 in
  let '(m, r2) := OtaSlotModel.commit m in
  assert! negb r2 in
  assert! OtaSlotModel.state m == RolledBack in
  assert! OtaSlotModel.active_slot m == SLOT_A in
  Ret tt.

Definition transitions_are_guarded_by_state : test :=
  let m := OtaSlotModel.new in
  let '(m, r1) := OtaSlotModel.verify m true in
  assert! negb r1 in
  let '(m, r2) := OtaSlotModel.commit m in
  assert! negb r2 in
  let m := OtaSlotModel.reboot m in
  let '(m, r3) := OtaSlotModel.health_check m true in
  assert! negb r3 in
  assert! OtaSlotModel.state m == Idle in
  assert! OtaSlotModel.boot_slot m == SLOT_A in
  Ret tt.

Definition crc32_matches_standard_check_vector : test :=
  assert! crc32 (bytes "123456789") == 0xCBF43926 in
  Ret tt.

Definition metadata_record_crc_round_trip : test :=
  let r := {| MetaRecord.magic := 0; MetaRecord.format_version := 0; MetaRecord.active_slot :=
    SLOT_A; MetaRecord.target_slot := SLOT_B; MetaRecord.state := OtaState_as_u8 CommitPending;
    MetaRecord.committed := 1; MetaRecord.boot_attempt_count := 0; MetaRecord.healthy := 0;
    MetaRecord.abort_reason := 0; MetaRecord.generation := 7; MetaRecord.image_length := 4096;
    MetaRecord.image_crc32 := 0xDEADBEEF; MetaRecord.reserved := 0; MetaRecord.record_crc32 := 0 |}
    in
  let r := MetaRecord.finalize r in
  assert! MetaRecord.is_valid r in
  assert! MetaRecord.magic r == OTA_META_MAGIC in
  assert! Z.of_nat (length (MetaRecord.to_bytes r)) == OTA_META_RECORD_SIZE in
  let bad := r in
  let bad := MetaRecord_set_target_slot bad SLOT_A in
  assert! negb (MetaRecord.is_valid bad) in
  Ret tt.

Definition select_record_picks_highest_valid_generation : test :=
  let a := {| MetaRecord.magic := 0; MetaRecord.format_version := 0; MetaRecord.active_slot := 0;
    MetaRecord.target_slot := 0; MetaRecord.state := OtaState_as_u8 Healthy; MetaRecord.committed
    := 0; MetaRecord.boot_attempt_count := 0; MetaRecord.healthy := 0; MetaRecord.abort_reason :=
    0; MetaRecord.generation := 3; MetaRecord.image_length := 0; MetaRecord.image_crc32 := 0;
    MetaRecord.reserved := 0; MetaRecord.record_crc32 := 0 |} in
  let b := {| MetaRecord.magic := 0; MetaRecord.format_version := 0; MetaRecord.active_slot := 0;
    MetaRecord.target_slot := 0; MetaRecord.state := OtaState_as_u8 Healthy; MetaRecord.committed
    := 0; MetaRecord.boot_attempt_count := 0; MetaRecord.healthy := 0; MetaRecord.abort_reason :=
    0; MetaRecord.generation := 5; MetaRecord.image_length := 0; MetaRecord.image_crc32 := 0;
    MetaRecord.reserved := 0; MetaRecord.record_crc32 := 0 |} in
  let a := MetaRecord.finalize a in
  let b := MetaRecord.finalize b in
  let! u1 := unwrap (select_record a b) in
  assert! MetaRecord.generation u1 == 5 in
  let invalid := b in
  let invalid := MetaRecord_set_record_crc32 invalid (Z.lxor (MetaRecord.record_crc32 invalid)
    0xFFFF) in
  let! u2 := unwrap (select_record a invalid) in
  assert! MetaRecord.generation u2 == 3 in
  let also_bad := a in
  let also_bad := MetaRecord_set_magic also_bad 0 in
  assert! negb (is_some (select_record also_bad invalid)) in
  Ret tt.

Definition abort_records_reason_and_rolls_back : test :=
  let m := OtaSlotModel.new in
  let m := OtaSlotModel.begin_download m in
  let m := OtaSlotModel.abort m 0x2A in
  assert! OtaSlotModel.state m == RolledBack in
  assert! OtaSlotModel.rolled_back m in
  assert! OtaSlotModel.abort_reason m == 0x2A in
  assert! OtaSlotModel.active_slot m == SLOT_A in
  let h := OtaSlotModel.new in
  let h := OtaSlotModel.begin_download h in
  let '(h, _) := OtaSlotModel.finish_download h true in
  let '(h, _) := OtaSlotModel.verify h true in
  let '(h, _) := OtaSlotModel.commit h in
  let h := OtaSlotModel.reboot h in
  let '(h, _) := OtaSlotModel.health_check h true in
  let h := OtaSlotModel.abort h 0x99 in
  assert! OtaSlotModel.state h == Healthy in
  assert! OtaSlotModel.abort_reason h == 0 in
  Ret tt.

Definition recover_after_reset_reconstructs_committed_target : test :=
  let r := {| MetaRecord.magic := 0; MetaRecord.format_version := 0; MetaRecord.active_slot :=
    SLOT_A; MetaRecord.target_slot := SLOT_B; MetaRecord.state := OtaState_as_u8 CommitPending;
    MetaRecord.committed := 1; MetaRecord.boot_attempt_count := 0; MetaRecord.healthy := 0;
    MetaRecord.abort_reason := 0; MetaRecord.generation := 0; MetaRecord.image_length := 0;
    MetaRecord.image_crc32 := 0; MetaRecord.reserved := 0; MetaRecord.record_crc32 := 0 |} in
  let r := MetaRecord.finalize r in
  let m := OtaSlotModel.new in
  let m := OtaSlotModel.recover_after_reset m r in
  assert! OtaSlotModel.state m == CommitPending in
  assert! OtaSlotModel.target_slot m == SLOT_B in
  assert! OtaSlotModel.committed m in
  assert! (OtaSlotModel.image_written m) && (OtaSlotModel.crc_ok m) in
  let rb := {| MetaRecord.magic := 0; MetaRecord.format_version := 0; MetaRecord.active_slot :=
    SLOT_A; MetaRecord.target_slot := SLOT_A; MetaRecord.state := OtaState_as_u8 RolledBack;
    MetaRecord.committed := 0; MetaRecord.boot_attempt_count := 0; MetaRecord.healthy := 0;
    MetaRecord.abort_reason := 3; MetaRecord.generation := 0; MetaRecord.image_length := 0;
    MetaRecord.image_crc32 := 0; MetaRecord.reserved := 0; MetaRecord.record_crc32 := 0 |} in
  let rb := MetaRecord.finalize rb in
  let m2 := OtaSlotModel.new in
  let m2 := OtaSlotModel.recover_after_reset m2 rb in
  assert! OtaSlotModel.state m2 == RolledBack in
  assert! OtaSlotModel.rolled_back m2 in
  assert! OtaSlotModel.abort_reason m2 == 3 in
  Ret tt.

Definition tests : list test :=
  [happy_path_commits_to_slot_b;
   corrupt_image_rolls_back_and_keeps_slot_a;
   failed_health_check_rolls_back_to_slot_a;
   interrupted_write_rolls_back_to_slot_a;
   healthy_update_is_not_undone_by_rollback;
   commit_requires_written_image;
   transitions_are_guarded_by_state;
   crc32_matches_standard_check_vector;
   metadata_record_crc_round_trip;
   select_record_picks_highest_valid_generation;
   abort_records_reason_and_rolls_back;
   recover_after_reset_reconstructs_committed_target].

Lemma ota_slot_tests_pass : all_pass tests = true.
Proof. by vm_compute. Qed.
End ota_slot_tests.
