(* ===== verification/TestPlant.v ===== *)
(** The unit tests of the `microcar-plant` crate (`src/plant/src`), file by file.  The
    simulator's world and its bus are not under src: the tests of `model.rs` run on any
    world and any `inject_can_frame`.  The test that drains the frames from the
    simulator's bus (`test_plant_publishes_speed_and_bms`) checks that bus as well and is
    not translated; [plant_publishes_speed_and_bms] checks the frames the plant hands over,
    on the world that lists them. *)
From S2P Require Import Prelude MachineInt RustStr Plant Testing.

(** `src/plant/src/battery.rs` *)
Module battery_tests.
Import BatteryModel.

Definition test_soc_decreases_under_load : test :=
  let bat := new in
  let initial_soc := soc_percent bat in
  let! bat := times 1000 (fun bat => step Debug bat 80 10) bat in
  assert! soc_percent bat <? initial_soc in
  Ret tt.

Definition test_temperature_rises_under_load : test :=
  let bat := new in
  let initial_temp := temp_c_x10 bat in
  let! bat := times 1000 (fun bat => step Debug bat 100 10) bat in
  assert! initial_temp <? temp_c_x10 bat in
  Ret tt.

Definition test_force_temperature : test :=
  let bat := new in
  let bat := force_temperature bat 82 in
  assert! temp_c_x10 bat == 820 in
  Ret tt.

Definition test_no_load_no_temp_rise : test :=
  let! bat := with_state Debug 80 250 in
  let! bat := times 100 (fun bat => step Debug bat 0 10) bat in
  assert! temp_c_x10 bat == 250 in
  Ret tt.

Definition charge_current_raises_soc : test :=
  let! bat := with_state Debug 60 250 in
  let initial := soc_percent bat in
  let! bat := times 1000 (fun bat => step_with_current Debug bat (-32000) 10) bat in
  assert! initial <? soc_percent bat in
  assert! current_ma bat == -32000 in
  Ret tt.

Definition discharge_current_lowers_soc : test :=
  let! bat := with_state Debug 60 250 in
  let initial := soc_percent bat in
  let! bat := times 1000 (fun bat => step_with_current Debug bat 32000 10) bat in
  assert! soc_percent bat <? initial in
  Ret tt.

Definition soc_clamped_to_full_and_empty : test :=
  let! bat := with_state Debug 99 250 in
  let! bat := times (Z.to_nat 100000) (fun bat => step_with_current Debug bat (-64000) 10) bat in
  assert! soc_percent bat == 100 in
  let! bat := with_state Debug 1 250 in
  let! bat := times (Z.to_nat 100000) (fun bat => step_with_current Debug bat 64000 10) bat in
  assert! soc_percent bat == 0 in
  Ret tt.

Definition charge_current_heats_via_i2r : test :=
  let! bat := with_state Debug 50 250 in
  let initial := temp_c_x10 bat in
  let! bat := times 1000 (fun bat => step_with_current Debug bat (-50000) 10) bat in
  assert! initial <? temp_c_x10 bat in
  Ret tt.

Definition current_saturates_to_i16_for_can : test :=
  let bat := new in
  let! bat := step_with_current Debug bat 50000 10 in
  assert! current_ma bat == 50000 in
  assert! current_ma_i16 bat == imax I16 in
  let! bat := step_with_current Debug bat (-50000) 10 in
  assert! current_ma_i16 bat == imin I16 in
  Ret tt.

Definition tests : list test :=
  [test_soc_decreases_under_load; test_temperature_rises_under_load; test_force_temperature;
   test_no_load_no_temp_rise; charge_current_raises_soc; discharge_current_lowers_soc;
   charge_current_heats_via_i2r; current_saturates_to_i16_for_can].

Lemma battery_tests_pass : all_pass tests = true.
Proof. by vm_compute. Qed.

(** A constant current for [n] steps of ten milliseconds: the charge moves by [n] times what
    one step moves it and stops at either end, and the percentage follows. *)
Lemma constant_current_run (p : profile) (current : Z) (n : nat) (b : t) :
  wf b -> soc_milli b <= 100000 -> Z.abs current <= 1000000 ->
  exists b', times n (fun b => step_with_current p b current 10) b = Ret b' /\ wf b' /\
    soc_milli b' = Z.min (Z.max (soc_milli b - Z.of_nat n * current_delta current 10) 0) 100000 /\
    (soc_percent b = soc_of (soc_milli b) -> soc_percent b' = soc_of (soc_milli b')).
Proof.
  intros Hwf Hle Hc. revert b Hwf Hle. induction n as [|n IH]; intros b Hwf Hle.
  { exists b. pose proof Hwf as (Hm & _). split_and!; try done. lia. }
  cbn [times]. pose proof Hwf as (Hm & _).
  assert (Z.abs current / 1000 <= 1000) by (apply Z.div_le_upper_bound; lia).
  pose proof (Z.div_pos (Z.abs current) 1000 ltac:(lia) ltac:(lia)).
  rewrite battery_step_with_current_eq by (done || int_lia || nia).
  set (d := current_delta current 10) in *. cbn [obind].
  destruct (IH (settled b (Z.min (Z.max (soc_milli b - d) 0) 100000) current
                  (Z.abs current / 1000) 10)) as (b' & Hb & Hwf' & Hs & Hp).
  { apply settled_wf. lia. }
  { cbn [settled soc_milli]. lia. }
  exists b'. split_and!; [done|done| |intros _; by apply Hp].
  rewrite Hs. cbn [settled soc_milli].
  replace (Z.of_nat (S n) * d) with (Z.of_nat n * d + d) by lia.
  destruct (Z.le_ge_cases 0 d).
  - assert (0 <= Z.of_nat n * d) by nia. lia.
  - assert (Z.of_nat n * d <= 0) by nia. lia.
Qed.

(** The two loops of 100,000 steps, through the law of the run. *)
Lemma clamp_test_passes : passes soc_clamped_to_full_and_empty = true.
Proof.
  unfold soc_clamped_to_full_and_empty.
  assert (forall soc, In soc [1; 99] -> exists b, with_state Debug soc 250 = Ret b /\ wf b /\
            soc_milli b = soc * 1000 /\ soc_percent b = soc_of (soc_milli b)) as Hstart.
  { intros soc [<-|[<-|[]]]; (eexists; split; [by vm_compute|]); unfold wf, fits; by vm_compute. }
  destruct (Hstart 99 ltac:(cbn; tauto)) as (full & -> & Hfw & Hfs & Hfp).
  destruct (Hstart 1 ltac:(cbn; tauto)) as (low & -> & Hlw & Hls & Hlp).
  cbn [obind].
  destruct (constant_current_run Debug (-64000) (Z.to_nat 100000) full) as (b1 & -> & _ & Hs1 & Hp1);
    [done|lia|lia|].
  cbn [obind]. rewrite passes_assert_eq, Hp1, Hs1, Hfs by done. cbn [obind].
  destruct (constant_current_run Debug 64000 (Z.to_nat 100000) low) as (b2 & -> & _ & Hs2 & Hp2);
    [done|lia|lia|].
  cbn [obind]. rewrite passes_assert_eq, Hp2, Hs2, Hls by done.
  rewrite Z2Nat.id by lia. reflexivity.
Qed.
End battery_tests.

(** `src/plant/src/vehicle.rs` *)
Module vehicle_tests.
Import VehiclePlant.

Definition test_speed_increases_with_throttle : test :=
  let plant := new in
  let plant := set_driver_input plant 50 false in
  let plant := set_motor_torque plant 30 in
  let! plant := times 100 (fun plant => step Debug plant 10) plant in
  assert! 0 <? speed_kph_x10 plant in
  Ret tt.

Definition test_brake_overrides_throttle : test :=
  let plant := new in
  let plant := set_driver_input plant 80 true in
  let plant := set_motor_torque plant 50 in
  let! plant := step Debug plant 10 in
  assert! speed_kph_x10 plant == 0 in
  Ret tt.

Definition test_zero_torque_no_acceleration : test :=
  let plant := new in
  let plant := set_motor_torque plant 0 in
  let! plant := step Debug plant 100 in
  assert! speed_kph_x10 plant == 0 in
  Ret tt.

Definition test_drag_slows_vehicle : test :=
  let plant := new in
  let plant := set_motor_torque plant 50 in
  let! plant := times 200 (fun plant => step Debug plant 10) plant in
  let speed_under_torque := speed_kph_x10 plant in
  let plant := set_motor_torque plant 0 in
  let! plant := times 100 (fun plant => step Debug plant 10) plant in
  assert! speed_kph_x10 plant <? speed_under_torque in
  Ret tt.

Definition test_speed_cant_go_negative : test :=
  let plant := new in
  let! plant := step Debug plant 10 in
  assert! speed_kph_x10 plant == 0 in
  Ret tt.

Definition tests : list test :=
  [test_speed_increases_with_throttle; test_brake_overrides_throttle;
   test_zero_torque_no_acceleration; test_drag_slows_vehicle; test_speed_cant_go_negative].

Lemma vehicle_tests_pass : all_pass tests = true.
Proof. by vm_compute. Qed.
End vehicle_tests.

(** `src/plant/src/model.rs` *)
Module model_tests.
Import MicrocarPlant.

(** The arguments of one `inject_can_frame`: bus, sender, identifier, data and time. *)
Definition frame : Type := string * Z * Z * list Z * Z.
Definition record_frame (world : list frame) (bus : string) (sender id : Z) (data : list Z) (now : Z)
    : list frame := world ++ [(bus, sender, id, data, now)].
Definition frame_id (f : frame) : Z := let '(_, _, id, _, _) := f in id.
Definition frame_data (f : frame) : list Z := let '(_, _, _, data, _) := f in data.

(** `u16::from_be_bytes` of two bytes. *)
Definition from_be_bytes (hi lo : Z) : Z := 256 * hi + lo.

Definition plant_publishes_speed_and_bms : test :=
  let plant := with_machine_id (new 10) 99 in
  let! (plant, frames) := step record_frame Debug plant 0 [] in
  assert! length frames == 2%nat in
  let wheel_frames := List.filter (fun f => frame_id f =? CAN_ID_WHEEL_SPEED) frames in
  assert! length wheel_frames == 1%nat in
  let! f := nth_or_panic wheel_frames 0 in
  assert! length (frame_data f) == 2%nat in
  let! hi := nth_or_panic (frame_data f) 0 in
  let! lo := nth_or_panic (frame_data f) 1 in
  assert! from_be_bytes hi lo == 0 in
  let bms_frames := List.filter (fun f => frame_id f =? CAN_ID_PLANT_SENSORS) frames in
  assert! length bms_frames == 1%nat in
  let! f := nth_or_panic bms_frames 0 in
  assert! length (frame_data f) == 7%nat in
  let! soc := nth_or_panic (frame_data f) 0 in
  assert! soc == 80 in
  Ret tt.

Section World.
Context {World : Type}.
Context (inject_can_frame : World -> string -> Z -> Z -> list Z -> Z -> World) (world : World).

(** `for _ in 0..n { plant.step(now, &mut world); }` *)
Definition steps (n : nat) (plant : t) (now : Z) : outcome (t * World) :=
  times n (fun '(plant, world) => step inject_can_frame Debug plant now world) (plant, world).

Definition test_driver_input_increases_speed : test :=
  let plant := with_machine_id (new 10) 99 in
  let plant := queue_driver_input plant 0 30 false in
  let! (plant, _) := steps 100 plant 0 in
  assert! 0 <? VehiclePlant.speed_kph_x10 (vehicle plant) in
  assert! BatteryModel.soc_percent (battery plant) <=? 80 in
  Ret tt.

Definition test_brake_overrides_throttle : test :=
  let plant := with_machine_id (new 10) 99 in
  let plant := queue_driver_input plant 0 80 true in
  let! (plant, _) := steps 50 plant 0 in
  assert! VehiclePlant.speed_kph_x10 (vehicle plant) == 0 in
  Ret tt.

Definition test_multiple_inputs : test :=
  let plant := with_machine_id (new 10) 99 in
  let plant := queue_driver_input plant 0 50 false in
  let plant := queue_driver_input plant 500000 100 false in
  let! (plant, _) := steps 100 plant 500000 in
  let speed_after_50 := VehiclePlant.speed_kph_x10 (vehicle plant) in
  assert! 0 <? speed_after_50 in
  assert! VehiclePlant.motor_torque_percent (vehicle plant) == 100 in
  assert! VehiclePlant.throttle_percent (vehicle plant) == 100 in
  Ret tt.

Definition tests : list test :=
  [test_driver_input_increases_speed; test_brake_overrides_throttle; test_multiple_inputs].

(** The plant's own state does not depend on the world it publishes to. *)
Lemma model_tests_pass : all_pass tests = true.
Proof. by vm_compute. Qed.
End World.

Lemma publish_test_passes : passes plant_publishes_speed_and_bms = true.
Proof. by vm_compute. Qed.
End model_tests.
