(* ===== verification/TestFrontEnd.v ===== *)
(** The unit tests of the front end: the classification tests of `src/src/lib.rs` and the
    scenario tests of `src/src/validate.rs`.  The TOML parser belongs to the simulator: a
    scenario of a test is the record of the fields of its text that the checks read. *)
From S2P Require Import Prelude MachineInt RustStr Ecu Validate Testing.

(** `src/src/lib.rs` *)
Module lib_tests.
Import MicrocarFirmware.

Definition CLASSIFICATION_TESTS : list (string * string * string) := [
  ("firmware/priority_inversion_demo", "priority_inversion", "priority_inversion");
  ("firmware/lifecycle_stress_ecu", "lifecycle_stress", "lifecycle_stress");
  ("firmware/net_demo_ecu", "net_demo", "net_demo");
  ("firmware/storage_demo_ecu", "storage_demo", "storage_demo");
  ("firmware/bt_demo_ecu", "bt_demo", "bt_demo");
  ("firmware/ota_tool_ecu", "ota_tool", "ota_tool");
  ("firmware/telematics_ecu", "telematics", "telematics");
  ("firmware/diagnostics_tool_ecu", "diagnostics", "diagnostics");
  ("firmware/gateway_diag_clearbug_ecu", "gateway", "gateway_diag_clearbug");
  ("firmware/gateway_diag_clear_ecu", "gateway", "gateway_diag_clear");
  ("firmware/gateway_diag_startdrivebug_ecu", "gateway", "gateway_diag_startdrivebug");
  ("firmware/gateway_diag_startdrive_ecu", "gateway", "gateway_diag_startdrive");
  ("firmware/gateway_diag_fault_ecu", "gateway", "gateway_diag_fault");
  ("firmware/gateway_diag_ecu", "gateway", "gateway_diag");
  ("firmware/powertrain_diag_service_bug_ecu", "powertrain", "powertrain_diag_service_bug");
  ("firmware/powertrain_diag_service_ecu", "powertrain", "powertrain_diag_service");
  ("firmware/gateway_ota_badcrc_ecu", "gateway", "gateway_ota_badcrc");
  ("firmware/gateway_ota_intwrite_ecu", "gateway", "gateway_ota_intwrite");
  ("firmware/gateway_ota_badhealth_ecu", "gateway", "gateway_ota_badhealth");
  ("firmware/gateway_ota_powercut_ecu", "gateway", "gateway_ota_powercut");
  ("firmware/gateway_ota_crcbug_ecu", "gateway", "gateway_ota_crcbug");
  ("firmware/gateway_ota_ecu", "gateway", "gateway_ota");
  ("firmware/gateway_charging_ecu", "gateway", "gateway_charging");
  ("firmware/powertrain_charging_ecu", "powertrain", "powertrain_charging");
  ("firmware/gateway_ecu", "gateway", "gateway");
  ("firmware/powertrain_ecu", "powertrain", "powertrain");
  ("firmware/bms_ecu", "bms", "bms");
  ("firmware/dashboard_ecu", "dashboard", "dashboard")].

Definition ecu_category_table : test :=
  for_each CLASSIFICATION_TESTS (fun '(path, expected_category, _) =>
    let category := resolve_ecu_category (Some path) "test_machine" in
    assert! category == Some expected_category in
    Ret tt).

Definition ecu_boot_variant_table : test :=
  for_each CLASSIFICATION_TESTS (fun '(path, _, expected_boot) =>
    let fw := with_firmware_path "test_machine" path in
    let boot_variant := ecu_type fw in
    assert! boot_variant == expected_boot in
    Ret tt).

Definition gateway_diag_variants_are_category_gateway_not_diagnostics : test :=
  let diag_paths := [
    "firmware/gateway_diag_ecu";
    "firmware/gateway_diag_fault_ecu";
    "firmware/gateway_diag_clear_ecu";
    "firmware/gateway_diag_clearbug_ecu";
    "firmware/gateway_diag_startdrive_ecu";
    "firmware/gateway_diag_startdrivebug_ecu"] in
  for_each diag_paths (fun path =>
    let category := resolve_ecu_category (Some path) "test_machine" in
    assert! category == Some "gateway" in
    Ret tt).

Definition diagnostics_tool_is_still_diagnostics : test :=
  let category := resolve_ecu_category (Some "firmware/diagnostics_tool_ecu") "test_machine" in
  assert! category == Some "diagnostics" in
  Ret tt.

Definition unknown_firmware_returns_none : test :=
  assert! resolve_ecu_category (Some "firmware/mystery_ecu") "x" == None in
  Ret tt.

Definition no_firmware_returns_none : test :=
  assert! resolve_ecu_category None "some_machine" == None in
  Ret tt.

Definition tests : list test :=
  [ecu_category_table; ecu_boot_variant_table;
   gateway_diag_variants_are_category_gateway_not_diagnostics;
   diagnostics_tool_is_still_diagnostics; unknown_firmware_returns_none; no_firmware_returns_none].

Lemma lib_tests_pass : all_pass tests = true.
Proof. by vm_compute. Qed.
End lib_tests.

(** `src/src/validate.rs` *)
Module validate_tests.

Definition HEALTHY : Scenario := {|
    machine := [{| m_name := "gateway"; m_firmware := Some "firmware/gateway_ecu" |};
      {| m_name := "powertrain"; m_firmware := Some "firmware/powertrain_ecu" |};
      {| m_name := "bms"; m_firmware := Some "firmware/bms_ecu" |};
      {| m_name := "dashboard"; m_firmware := Some "firmware/dashboard_ecu" |}];
    bus := [[{| n_bus := "vcan0"; n_machine := "gateway" |}; {| n_bus := "vcan0";
      n_machine := "powertrain" |}]];
    input := [];
    bus_inject := [] |}.

(** `validate_scenario(..)`, then `is_ok`, `unwrap_err` and the kind of the error. *)
Definition is_ok (s : Scenario) : test :=
  let! r := validate_scenario Debug s in
  let! _ := unwrap_ok r in
  Ret tt.

Definition error_kind (s : Scenario) : outcome string :=
  let! r := validate_scenario Debug s in
  let! e := unwrap_err r in
  Ret (kind e).

Definition healthy_scenario_passes : test := is_ok HEALTHY.

Definition resolve_ecu_matches_known_firmware : test :=
  assert! resolve_ecu (Some "firmware/gateway_ecu") "m" == Some "gateway" in
  assert! resolve_ecu (Some "firmware/bms_ecu") "m" == Some "bms" in
  assert! resolve_ecu (Some "firmware/dashboard_ecu") "m" == Some "dashboard" in
  assert! resolve_ecu (Some "firmware/diagnostics_tool_ecu") "m" == Some "diagnostics" in
  assert! resolve_ecu (Some "firmware/custom") "gateway_telemetry" == Some "gateway" in
  assert! resolve_ecu (Some "firmware/mystery_ecu") "node_x" == None in
  assert! resolve_ecu None "node_a" == None in
  Ret tt.

Definition unknown_firmware_is_rejected : test :=
  let toml := {|
    machine := [{| m_name := "gateway"; m_firmware := Some "firmware/gateway_ecu" |};
      {| m_name := "widget"; m_firmware := Some "firmware/widget_ecu" |}];
    bus := [];
    input := [];
    bus_inject := [] |} in
  let! e := error_kind toml in
  assert! e == "unknown-firmware" in
  Ret tt.

Definition missing_gateway_is_rejected : test :=
  let toml := {|
    machine := [{| m_name := "powertrain"; m_firmware := Some "firmware/powertrain_ecu" |};
      {| m_name := "bms"; m_firmware := Some "firmware/bms_ecu" |}];
    bus := [];
    input := [];
    bus_inject := [] |} in
  let! e := error_kind toml in
  assert! e == "missing-gateway" in
  Ret tt.

Definition subsystem_demo_without_gateway_is_allowed : test :=
  let toml := {|
    machine := [{| m_name := "storage"; m_firmware := Some "firmware/storage_demo_ecu" |}];
    bus := [];
    input := [];
    bus_inject := [] |} in
  is_ok toml.

Definition duplicate_bus_node_is_rejected : test :=
  let toml := {|
    machine := [{| m_name := "gateway"; m_firmware := Some "firmware/gateway_ecu" |};
      {| m_name := "powertrain"; m_firmware := Some "firmware/powertrain_ecu" |}];
    bus := [[{| n_bus := "vcan0"; n_machine := "gateway" |}; {| n_bus := "vcan0";
      n_machine := "gateway" |}]];
    input := [];
    bus_inject := [] |} in
  let! e := error_kind toml in
  assert! e == "duplicate-bus-node" in
  Ret tt.

Definition drive_without_powertrain_is_rejected : test :=
  let toml := {|
    machine := [{| m_name := "gateway"; m_firmware := Some "firmware/gateway_ecu" |};
      {| m_name := "dashboard"; m_firmware := Some "firmware/dashboard_ecu" |}];
    bus := [];
    input := [{| input_type := "driver_input"; at_ms := 500; throttle_percent := Some 40 |}];
    bus_inject := [] |} in
  let! e := error_kind toml in
  assert! e == "drive-without-powertrain" in
  Ret tt.

Definition zero_throttle_without_powertrain_is_allowed : test :=
  let toml := {|
    machine := [{| m_name := "gateway"; m_firmware := Some "firmware/gateway_ecu" |};
      {| m_name := "dashboard"; m_firmware := Some "firmware/dashboard_ecu" |}];
    bus := [];
    input := [{| input_type := "driver_input"; at_ms := 500; throttle_percent := Some 0 |}];
    bus_inject := [] |} in
  is_ok toml.

Definition actors (injects : list BusInjectDef) : Scenario := {|
    machine := [{| m_name := "gateway"; m_firmware := Some "firmware/gateway_ecu" |};
      {| m_name := "evse"; m_firmware := None |};
      {| m_name := "ota_tool"; m_firmware := None |}];
    bus := [[{| n_bus := "vcan0"; n_machine := "gateway" |}; {| n_bus := "vcan0";
      n_machine := "evse" |}; {| n_bus := "vcan0"; n_machine := "ota_tool" |}]];
    input := [];
    bus_inject := injects |}.

Definition err_kind (s : Scenario) : outcome string := error_kind s.

Definition inject (at_ : Z) (sender : string) (id : Z) (data : list Z) : BusInjectDef :=
  {| bi_at_ms := at_; bi_id := id; bi_sender := sender; bi_bus := "vcan0"; bi_data := data |}.

Definition valid_evse_flow_passes : test :=
  let s := actors [
    inject 10 "evse" 0x610 [6; 1; 1; 64; 80; 0];
    inject 20 "evse" 0x610 [6; 2; 2; 64; 80; 0]] in
  is_ok s.

Definition handshake_before_plug_rejected : test :=
  let s := actors [
    inject 10 "evse" 0x610 [6; 2; 1; 64; 80; 0]] in
  let! k := err_kind s in
  assert! k == "handshake-before-plug" in
  Ret tt.

Definition actor_frame_from_ecu_rejected : test :=
  let s := actors [
    inject 10 "gateway" 0x610 [6; 1; 1; 64; 80; 0]] in
  let! k := err_kind s in
  assert! k == "actor-has-firmware" in
  Ret tt.

Definition bad_source_node_rejected : test :=
  let s := actors [
    inject 10 "evse" 0x610 [5; 1; 1; 64; 80; 0]] in
  let! k := err_kind s in
  assert! k == "bad-source-node" in
  Ret tt.

Definition bad_payload_length_rejected : test :=
  let s := actors [
    inject 10 "evse" 0x610 [6; 1; 1; 64; 80]] in
  let! k := err_kind s in
  assert! k == "bad-payload-length" in
  Ret tt.

Definition zero_request_id_rejected : test :=
  let s := actors [
    inject 10 "evse" 0x610 [6; 1; 0; 64; 80; 0]] in
  let! k := err_kind s in
  assert! k == "zero-request-id" in
  Ret tt.

Definition valid_ota_sequence_passes : test :=
  let s := actors [
    inject 10 "ota_tool" 0x630 [7; 1; 0; 2];
    inject 20 "ota_tool" 0x631 [7; 1; 0; 1; 2; 3; 4; 5];
    inject 30 "ota_tool" 0x631 [7; 1; 1; 6; 7; 8; 9; 10];
    inject 40 "ota_tool" 0x632 [7; 1; 2; 0; 0; 0; 0]] in
  is_ok s.

Definition ota_chunk_before_request_rejected : test :=
  let s := actors [
    inject 10 "ota_tool" 0x631 [7; 1; 0; 1; 2; 3; 4; 5]] in
  let! k := err_kind s in
  assert! k == "chunk-before-request" in
  Ret tt.

Definition ota_chunk_out_of_order_rejected : test :=
  let s := actors [
    inject 10 "ota_tool" 0x630 [7; 1; 0; 2];
    inject 20 "ota_tool" 0x631 [7; 1; 1; 6; 7; 8; 9; 10]] in
  let! k := err_kind s in
  assert! k == "ota-chunk-order" in
  Ret tt.

Definition ota_finish_mismatch_rejected : test :=
  let s := actors [
    inject 10 "ota_tool" 0x630 [7; 1; 0; 2];
    inject 20 "ota_tool" 0x631 [7; 1; 0; 1; 2; 3; 4; 5];
    inject 30 "ota_tool" 0x632 [7; 1; 2; 0; 0; 0; 0]] in
  let! k := err_kind s in
  assert! k == "ota-finish-mismatch" in
  Ret tt.

Definition tests : list test :=
  [healthy_scenario_passes;
   resolve_ecu_matches_known_firmware;
   unknown_firmware_is_rejected;
   missing_gateway_is_rejected;
   subsystem_demo_without_gateway_is_allowed;
   duplicate_bus_node_is_rejected;
   drive_without_powertrain_is_rejected;
   zero_throttle_without_powertrain_is_allowed;
   valid_evse_flow_passes;
   handshake_before_plug_rejected;
   actor_frame_from_ecu_rejected;
   bad_source_node_rejected;
   bad_payload_length_rejected;
   zero_request_id_rejected;
   valid_ota_sequence_passes;
   ota_chunk_before_request_rejected;
   ota_chunk_out_of_order_rejected;
   ota_finish_mismatch_rejected].

Lemma validate_tests_pass : all_pass tests = true.
Proof. by vm_compute. Qed.
End validate_tests.
