(* ===== verification/TestHarness.v ===== *)
(** The unit tests of the harness library (`src/dogfood/src`): the JSON writer, the trace
    normalization and hash, the runner, the invariants, the repeated runs and the
    summary, file by file. *)
From S2P Require Import Prelude MachineInt RustStr Json TraceHash Runner Invariants Determinism.
From S2P Require Import Summary Testing.

(** `src/dogfood/src/json.rs` *)
Module json_tests.

Definition escapes_special_chars : test :=
  let s := write_escaped (raw "a`b\c" +:+ newline_str +:+ "d" +:+ String (chr 9) "e" +:+ String (chr 1) "") in
  assert! s == raw "`a\`b\\c\nd\te\u0001`" in
  Ret tt.

Definition empty_containers : test :=
  assert! to_pretty (Arr []) == "[]" +:+ newline_str in
  assert! to_pretty (Obj []) == "{}" +:+ newline_str in
  Ret tt.

(** Well formed: as many opening as closing braces and brackets. *)
Definition balanced (out : string) : test :=
  assert! count_char "{" out == count_char "}" out in
  assert! count_char "[" out == count_char "]" out in
  Ret tt.

Definition nested_object_roundtrips_shape : test :=
  let j := Obj [ ("name", str "demo"); ("count", Int 2); ("ok", Bool true);
                 ("items", Arr [str "a"; str "b"]) ] in
  let out := to_pretty j in
  assert! contains (raw "`name`: `demo`") out in
  assert! contains (raw "`count`: 2") out in
  assert! contains (raw "`ok`: true") out in
  assert! contains (raw "`items`: [" +:+ newline_str) out in
  balanced out.

Definition preserves_key_order : test :=
  let j := Obj [("z", Int 1); ("a", Int 2)] in
  let out := to_pretty j in
  let! zpos := unwrap (find (raw "`z`") out) in
  let! apos := unwrap (find (raw "`a`") out) in
  assert! (zpos <? apos)%nat in
  Ret tt.

Definition tests : list test :=
  [escapes_special_chars; empty_containers; nested_object_roundtrips_shape; preserves_key_order].

Lemma json_tests_pass : all_pass tests = true.
Proof. by vm_compute. Qed.
End json_tests.

(** `src/dogfood/src/trace_hash.rs` *)
Module trace_hash_tests.

Definition hash_is_stable_for_known_input : test :=
  let lines := ["[machine.1] 10 can-rx id=0x0102"; "[machine.1] 20 speed 5"] in
  assert! trace_hash lines == "bd2d4a1ab669dc56" in
  Ret tt.

Definition hash_is_repeatable : test :=
  let lines := ["alpha"; "beta"; "gamma"] in
  assert! trace_hash lines == trace_hash lines in
  Ret tt.

Definition hash_is_order_sensitive : test :=
  assert_ne (trace_hash ["a"; "b"]) (trace_hash ["b"; "a"]).

Definition hash_distinguishes_line_boundaries : test :=
  assert_ne (trace_hash ["ab"; "c"]) (trace_hash ["a"; "bc"]).

Definition normalize_is_idempotent : test :=
  let raw := ["[machine.1]        10500 can-rx receiver=1 id=0x0102 len=2   ";
              "   [machine.4]            0 task-yield id=1 reason=RtosPortYield"] in
  let once := normalize_trace raw in
  let twice := normalize_trace once in
  assert! once == twice in
  Ret tt.

Definition normalize_collapses_padding_but_keeps_tokens : test :=
  let raw := ["[machine.1]        10500 can-rx"] in
  assert! normalize_trace raw == ["[machine.1] 10500 can-rx"] in
  Ret tt.

Definition normalize_preserves_can_ids : test :=
  let raw := ["[machine.1] 10 can-rx id=0x0102 id=0x0500"] in
  assert! normalize_trace raw == ["[machine.1] 10 can-rx id=0x0102 id=0x0500"] in
  Ret tt.

Definition normalize_scrubs_pointer_addresses : test :=
  let raw := ["ptr=0x7f8a3c001200 done"] in
  assert! normalize_trace raw == ["ptr=0xPTR done"] in
  Ret tt.

Definition padding_difference_hashes_equal_after_normalize : test :=
  let a := ["[machine.1]    10 x"] in
  let b := ["[machine.1]        10 x"] in
  assert! normalized_hash a == normalized_hash b in
  Ret tt.

Definition tests : list test :=
  [hash_is_stable_for_known_input; hash_is_repeatable; hash_is_order_sensitive;
   hash_distinguishes_line_boundaries; normalize_is_idempotent;
   normalize_collapses_padding_but_keeps_tokens; normalize_preserves_can_ids;
   normalize_scrubs_pointer_addresses; padding_difference_hashes_equal_after_normalize].

Lemma trace_hash_tests_pass : all_pass tests = true.
Proof. by vm_compute. Qed.
End trace_hash_tests.

(** `src/dogfood/src/runner.rs` *)
Module runner_tests.

Definition filters_header_blank_and_pass : test :=
  assert! negb (is_trace_event "=== normal_drive_cycle ===") in
  assert! negb (is_trace_event "") in
  assert! negb (is_trace_event "   ") in
  assert! negb (is_trace_event "PASS") in
  assert! negb (is_trace_event "FAIL: trace mismatch") in
  assert! is_trace_event "[machine.1] 10 can-rx id=0x0102 len=2" in
  Ret tt.

Definition tail_keeps_last_n : test :=
  let v := map (fun i => fmt_int (Z.of_nat i)) (seq 0 50) in
  let t := tail v 3 in
  assert! t == ["47"; "48"; "49"] in
  Ret tt.

Definition tail_handles_short_input : test :=
  let v := ["a"] in
  assert! tail v 10 == v in
  Ret tt.

Definition run_status_clean_only_for_pass : test :=
  assert! RunStatus.is_clean RunStatus.Pass in
  assert! negb (RunStatus.is_clean RunStatus.Fail) in
  assert! negb (RunStatus.is_clean RunStatus.Timeout) in
  assert! negb (RunStatus.is_clean RunStatus.Panic) in
  Ret tt.

(** The spawn fails with the error [e] of the operating system. *)
Definition missing_binary_is_reported_as_fail_not_panic (e : string) (elapsed : Z) : test :=
  let! run := unwrap (run_scenario_args "/nonexistent/definitely/not/microcar"
                        "scenarios/whatever.toml" (RErr (e, elapsed))) in
  assert! status run == RunStatus.Fail in
  assert! trace run == [] in
  assert! existsb (contains "failed to spawn") (stderr_tail run) in
  Ret tt.

Definition tests (e : string) (elapsed : Z) : list test :=
  [filters_header_blank_and_pass; tail_keeps_last_n; tail_handles_short_input;
   run_status_clean_only_for_pass; missing_binary_is_reported_as_fail_not_panic e elapsed].

Lemma runner_tests_pass (e : string) (elapsed : Z) : all_pass (tests e elapsed) = true.
Proof. by vm_compute. Qed.
End runner_tests.

(** `src/dogfood/src/invariants.rs` *)
Module invariants_tests.

Definition run_with (tr : list string) (st : RunStatus.t) : ScenarioRun := {|
  scenario := "synthetic"; status := st;
  exit_code := Some (if bool_decide (st = RunStatus.Pass) then 0 else 1);
  trace := tr; wall := 1000000; stdout_tail := []; stderr_tail := [] |}.

Definition monotonic_passes_on_increasing_per_machine : test :=
  let run := run_with [
    "[machine.1]        10 can-rx id=0x0102";
    "[machine.1]        20 can-rx id=0x0102";
    "[machine.2]         5 task-created";
    "[machine.2]        30 task-yield"] RunStatus.Pass in
  assert! InvariantResult.status (VirtualTimeMonotonic.check_run run) == CheckStatus.Pass in
  Ret tt.

Definition monotonic_fails_on_midsegment_regression : test :=
  let run := run_with [
    "[machine.1]        10 can-rx id=0x0102";
    "[machine.1]        30 can-rx id=0x0102";
    "[machine.1]        20 can-rx id=0x0102"] RunStatus.Pass in
  let r := VirtualTimeMonotonic.check_run run in
  assert! InvariantResult.status r == CheckStatus.Fail in
  assert! contains "backward" (InvariantResult.message r) in
  Ret tt.

Definition monotonic_treats_reset_to_low_as_new_segment : test :=
  let run := run_with [
    "[machine.1]     10500 can-rx id=0x0102";
    "[machine.1]   2990500 can-rx id=0x0102";
    raw "[machine.1]         0 task-created id=1 name=`gateway`";
    "[machine.1]       500 task-yield"] RunStatus.Pass in
  assert! InvariantResult.status (VirtualTimeMonotonic.check_run run) == CheckStatus.Pass in
  Ret tt.

Definition monotonic_skips_when_no_timed_lines : test :=
  let run := run_with ["some non-trace text"] RunStatus.Pass in
  assert! InvariantResult.status (VirtualTimeMonotonic.check_run run) == CheckStatus.Skipped in
  Ret tt.

Definition terminated_cleanly_maps_status : test :=
  let check st := InvariantResult.status (ProcessTerminatedCleanly.check_run (run_with ["x"] st)) in
  assert! check RunStatus.Pass == CheckStatus.Pass in
  assert! check RunStatus.Timeout == CheckStatus.Fail in
  assert! check RunStatus.Panic == CheckStatus.Fail in
  assert! check RunStatus.Fail == CheckStatus.Fail in
  Ret tt.

Definition nonempty_detects_empty : test :=
  assert! InvariantResult.status (TraceNonEmpty.check_run (run_with [] RunStatus.Pass))
    == CheckStatus.Fail in
  assert! InvariantResult.status (TraceNonEmpty.check_run (run_with ["x"] RunStatus.Pass))
    == CheckStatus.Pass in
  Ret tt.

Definition stubs_are_skipped : test :=
  let run := run_with ["[machine.1] 10 x"] RunStatus.Pass in
  for_each default_invariants (fun inv =>
    let r := check inv run in
    let implemented := existsb (String.eqb (inv_name inv))
      ["VirtualTimeMonotonic"; "ProcessTerminatedCleanly"; "TraceNonEmpty"] in
    if implemented then
      assert! InvariantResult.status r == CheckStatus.Pass in Ret tt
    else
      assert! InvariantResult.status r == CheckStatus.Skipped in Ret tt).

Definition any_failed_ignores_skips : test :=
  let results := [InvariantResult.pass "a" "ok"; InvariantResult.skipped "b" "later"] in
  assert! negb (any_failed results) in
  let results := [InvariantResult.fail "c" "boom"] in
  assert! any_failed results in
  Ret tt.

Definition parse_handles_padding : test :=
  assert! parse_machine_time "[machine.3]       120500 can-rx id=0x0500 len=7"
    == Some ("[machine.3]", 120500) in
  assert! parse_machine_time "PASS" == None in
  assert! parse_machine_time "=== x ===" == None in
  Ret tt.

Definition tests : list test :=
  [monotonic_passes_on_increasing_per_machine; monotonic_fails_on_midsegment_regression;
   monotonic_treats_reset_to_low_as_new_segment; monotonic_skips_when_no_timed_lines;
   terminated_cleanly_maps_status; nonempty_detects_empty; stubs_are_skipped;
   any_failed_ignores_skips; parse_handles_padding].

Lemma invariants_tests_pass : all_pass tests = true.
Proof. by vm_compute. Qed.
End invariants_tests.

(** `src/dogfood/src/determinism.rs` *)
Module determinism_tests.

Definition all_equal_hashes_is_deterministic : test :=
  let hashes := ["abc"; "abc"; "abc"] in
  let! first := nth_or_panic hashes 0 in
  let deterministic := forallb (fun h => String.eqb h first) hashes in
  assert! deterministic in
  Ret tt.

Definition differing_hashes_is_nondeterministic : test :=
  let hashes := ["abc"; "abc"; "xyz"] in
  let! first := nth_or_panic hashes 0 in
  let deterministic := forallb (fun h => String.eqb h first) hashes in
  assert! negb deterministic in
  Ret tt.

Definition report_accessors : test :=
  let report := {| rep_scenario := "s"; repeats := 2; hashes := ["h"; "h"];
                   deterministic := true; runs := [] |} in
  assert! report_hash report == Some "h" in
  assert! is_none (first_run report) in
  assert! negb (any_run_unclean report) in
  Ret tt.

Definition tests : list test :=
  [all_equal_hashes_is_deterministic; differing_hashes_is_nondeterministic; report_accessors].

Lemma determinism_tests_pass : all_pass tests = true.
Proof. by vm_compute. Qed.
End determinism_tests.

(** `src/dogfood/src/summary.rs` *)
Module summary_tests.

Definition fake_run (st : RunStatus.t) (tr : list string) : ScenarioRun := {|
  scenario := "demo"; status := st; exit_code := Some 0; trace := tr; wall := 42000000;
  stdout_tail := []; stderr_tail := [] |}.

Definition passing_report : DeterminismReport := {|
  rep_scenario := "demo"; repeats := 2; hashes := ["deadbeef"; "deadbeef"]; deterministic := true;
  runs := [fake_run RunStatus.Pass ["[machine.1] 10 x"; "[machine.1] 20 x"];
           fake_run RunStatus.Pass ["[machine.1] 10 x"; "[machine.1] 20 x"]] |}.

(** `invariants.iter().any(|i| i.name == .. && i.status == ..)` *)
Definition reports (s : ScenarioSummary) (name : string) (st : CheckStatus.t) : bool :=
  existsb (fun i => String.eqb (ie_name i) name && bool_decide (ie_status i = st)) (ss_invariants s).

Definition passing_scenario_summarizes_as_passed : test :=
  let s := from_determinism passing_report in
  assert! passed s in
  assert! ss_trace_hash s == "deadbeef" in
  assert! ss_wall_ms s == 42 in
  assert! reports s "VirtualTimeMonotonic" CheckStatus.Pass in
  Ret tt.

Definition nondeterministic_scenario_fails : test :=
  let report := passing_report in
  let report := {| rep_scenario := rep_scenario report; repeats := repeats report;
                   hashes := ["a"; "b"]; deterministic := false; runs := runs report |} in
  let s := from_determinism report in
  assert! negb (passed s) in
  Ret tt.

Definition timeout_scenario_fails_invariant : test :=
  let report := {| rep_scenario := "slow"; repeats := 1; hashes := ["h"]; deterministic := true;
                   runs := [fake_run RunStatus.Timeout ["[machine.1] 10 x"]] |} in
  let s := from_determinism report in
  assert! negb (passed s) in
  assert! reports s "ProcessTerminatedCleanly" CheckStatus.Fail in
  Ret tt.

(** The crate's version is a build constant. *)
Definition summary_json_is_wellformed_and_has_fields (version : string) : test :=
  let summary := build_summary version [passing_report] in
  assert! all_passed summary in
  let json := to_json_string summary in
  assert! contains (raw "`harness_version`") json in
  assert! contains (raw "`trace_hash`: `deadbeef`") json in
  assert! contains (raw "`deterministic`: true") json in
  assert! contains (raw "`totals`") json in
  json_tests.balanced json.

Definition totals_count_invariants (version : string) : test :=
  let summary := build_summary version [passing_report] in
  assert! t_invariants_passed (totals summary) == 3 in
  assert! t_invariants_skipped (totals summary) == 7 in
  assert! t_invariants_failed (totals summary) == 0 in
  Ret tt.

Definition tests (version : string) : list test :=
  [passing_scenario_summarizes_as_passed; nondeterministic_scenario_fails;
   timeout_scenario_fails_invariant; summary_json_is_wellformed_and_has_fields version;
   totals_count_invariants version].

Lemma summary_tests_pass : all_pass (tests "0.1.0") = true.
Proof. by vm_compute. Qed.
End summary_tests.
