(* ===== verification/TestLanes.v ===== *)
(** The unit tests of the trace lanes (`src/dogfood/src`): OTA, charging, diagnostics and
    telematics, and of the `debug_gym` lane.  A test that writes a temporary file and reads
    it back passes the text of the file. *)
From S2P Require Import Prelude MachineInt RustStr Json Runner Lane OtaLane ChargingLane.
From S2P Require Import DiagnosticsLane TelematicsLane DebugGym Testing.

#[export] Instance UserTrace_eq_dec : EqDecision UserTrace.
Proof. solve_decision. Defined.
#[export] Instance ota_Expectation_eq_dec : EqDecision OtaLane.Expectation.
Proof. solve_decision. Defined.
#[export] Instance charging_Expectation_eq_dec : EqDecision ChargingLane.Expectation.
Proof. solve_decision. Defined.

(** The tests' constructor of a trace event. *)
Definition t (m : Z) (l : string) (v : Z) : UserTrace :=
  {| Lane.machine := m; Lane.label := l; Lane.value := v |}.

(** `assert!(check.passed)` and `assert!(!check.passed)` *)
Definition holds (c : Check) : test := assert (Lane.passed c).
Definition fails (c : Check) : test := assert (negb (Lane.passed c)).

(** `src/dogfood/src/ota.rs` *)
Module ota_tests.
Import OtaLane.

Definition happy_trace : list UserTrace := [
  t NODE_GATEWAY "ota_state" 0;
  t NODE_GATEWAY "ota_state" 1;
  t NODE_GATEWAY "ota_state" 2;
  t NODE_GATEWAY "ota_crc_ok" 1;
  t NODE_GATEWAY "ota_state" 3;
  t NODE_GATEWAY "ota_slot" 1;
  t NODE_GATEWAY "ota_state" 4;
  t NODE_GATEWAY "ota_state" 5;
  t NODE_GATEWAY "ota_boot_result" 1].

Definition rollback_trace : list UserTrace := [
  t NODE_GATEWAY "ota_state" 0;
  t NODE_GATEWAY "ota_state" 1;
  t NODE_GATEWAY "ota_state" 2;
  t NODE_GATEWAY "ota_crc_ok" 0;
  t NODE_GATEWAY "ota_state" 6;
  t NODE_GATEWAY "ota_rollback" 1;
  t NODE_GATEWAY "ota_active_slot" 0;
  t NODE_GATEWAY "ota_boot_result" 0].

Definition interrupted_write_trace : list UserTrace := [
  t NODE_GATEWAY "ota_state" 0;
  t NODE_GATEWAY "ota_state" 1;
  t NODE_GATEWAY "ota_state" 6;
  t NODE_GATEWAY "ota_rollback" 1;
  t NODE_GATEWAY "ota_active_slot" 0;
  t NODE_GATEWAY "ota_boot_result" 0].

Definition failed_health_trace : list UserTrace := [
  t NODE_GATEWAY "ota_state" 0;
  t NODE_GATEWAY "ota_state" 1;
  t NODE_GATEWAY "ota_state" 2;
  t NODE_GATEWAY "ota_crc_ok" 1;
  t NODE_GATEWAY "ota_state" 3;
  t NODE_GATEWAY "ota_slot" 1;
  t NODE_GATEWAY "ota_state" 4;
  t NODE_GATEWAY "ota_state" 6;
  t NODE_GATEWAY "ota_rollback" 1;
  t NODE_GATEWAY "ota_active_slot" 0;
  t NODE_GATEWAY "ota_boot_result" 0].

Definition powercut_precommit_trace : list UserTrace := [
  t NODE_GATEWAY "ota_state" 0;
  t NODE_GATEWAY "ota_state" 1;
  t NODE_GATEWAY "ota_state" 2;
  t NODE_GATEWAY "ota_crc_ok" 1;
  t NODE_GATEWAY "ota_state" 6;
  t NODE_GATEWAY "ota_rollback" 1;
  t NODE_GATEWAY "ota_active_slot" 0;
  t NODE_GATEWAY "ota_boot_result" 0].

Definition parses_user_trace_line : test :=
  let line := raw "[machine.1]            0 user-u32 `ota_state` = 3" in
  let! event := unwrap (parse_user_trace_line line) in
  assert! Lane.machine event == NODE_GATEWAY in
  assert! Lane.label event == "ota_state" in
  assert! Lane.value event == 3 in
  Ret tt.

Definition state_sequence_check_passes_on_full_sequence : test :=
  let exp := StateSequence [0; 1; 2; 3; 4; 5] in
  let c := evaluate exp happy_trace in
  holds c.

Definition state_sequence_check_is_ordered_subsequence : test :=
  let trace := [
    t NODE_GATEWAY "ota_state" 0;
    t NODE_GATEWAY "ota_state" 9;
    t NODE_GATEWAY "ota_state" 1;
    t NODE_GATEWAY "ota_state" 2] in
  holds (evaluate (StateSequence [0; 1; 2]) trace).

Definition state_sequence_check_fails_when_out_of_order : test :=
  let trace := [
    t NODE_GATEWAY "ota_state" 2;
    t NODE_GATEWAY "ota_state" 1;
    t NODE_GATEWAY "ota_state" 0] in
  fails (evaluate (StateSequence [0; 1; 2]) trace).

Definition crc_ok_check_requires_flag : test :=
  let! _ := holds (evaluate CrcOk happy_trace) in
  let without := [t NODE_GATEWAY "ota_state" 2] in
  fails (evaluate CrcOk without).

Definition healthy_check_requires_boot_result : test :=
  let! _ := holds (evaluate Healthy happy_trace) in
  let failed := [t NODE_GATEWAY "ota_boot_result" 0] in
  fails (evaluate Healthy failed).

Definition parses_expectations_from_directives : test :=
  let exps := parse_expectations (text [
    "# ota-expect: state-sequence 0,1,2,3,4,5";
    "# ota-expect: crc-ok";
    "# ota-expect: healthy";
    "name = `x`"]) in
  assert! exps == [StateSequence [0; 1; 2; 3; 4; 5]; CrcOk; Healthy] in
  Ret tt.

Definition crc_bad_check_requires_failed_and_no_ok : test :=
  let! _ := holds (evaluate CrcBad rollback_trace) in
  let! _ := fails (evaluate CrcBad happy_trace) in
  let none := [t NODE_GATEWAY "ota_state" 2] in
  fails (evaluate CrcBad none).

Definition rolled_back_check_requires_flag : test :=
  let! _ := holds (evaluate RolledBack rollback_trace) in
  fails (evaluate RolledBack happy_trace).

Definition active_slot_check_matches_final_slot : test :=
  let! _ := holds (evaluate (ActiveSlot 0) rollback_trace) in
  let! _ := fails (evaluate (ActiveSlot 1) rollback_trace) in
  fails (evaluate (ActiveSlot 0) happy_trace).

Definition rollback_state_sequence_reaches_rolled_back : test :=
  let exp := StateSequence [0; 1; 2; 6] in
  holds (evaluate exp rollback_trace).

Definition parses_rollback_expectations_from_directives : test :=
  let exps := parse_expectations (text [
    "# ota-expect: state-sequence 0,1,2,6";
    "# ota-expect: crc-bad";
    "# ota-expect: rolled-back";
    "# ota-expect: active-slot 0";
    "name = `x`"]) in
  assert! exps == [StateSequence [0; 1; 2; 6]; CrcBad; RolledBack; ActiveSlot 0] in
  Ret tt.

Definition interrupted_write_aborts_before_verify_and_keeps_slot_a : test :=
  let! _ := holds (evaluate (StateSequence [0; 1; 6]) interrupted_write_trace) in
  let! _ := holds (evaluate RolledBack interrupted_write_trace) in
  let! _ := holds (evaluate (ActiveSlot 0) interrupted_write_trace) in
  let! _ := fails (evaluate Healthy interrupted_write_trace) in
  let! _ := fails (evaluate CrcOk interrupted_write_trace) in
  fails (evaluate CrcBad interrupted_write_trace).

Definition failed_health_commits_valid_image_then_rolls_back_to_slot_a : test :=
  let! _ := holds (evaluate (StateSequence [0; 1; 2; 3; 4; 6]) failed_health_trace) in
  let! _ := holds (evaluate CrcOk failed_health_trace) in
  let! _ := holds (evaluate RolledBack failed_health_trace) in
  let! _ := holds (evaluate (ActiveSlot 0) failed_health_trace) in
  fails (evaluate Healthy failed_health_trace).

Definition powercut_precommit_reverts_valid_image_to_slot_a : test :=
  let! _ := holds (evaluate (StateSequence [0; 1; 2; 6]) powercut_precommit_trace) in
  let! _ := holds (evaluate CrcOk powercut_precommit_trace) in
  let! _ := fails (evaluate CrcBad powercut_precommit_trace) in
  let! _ := holds (evaluate RolledBack powercut_precommit_trace) in
  let! _ := holds (evaluate (ActiveSlot 0) powercut_precommit_trace) in
  fails (evaluate Healthy powercut_precommit_trace).

Definition tests : list test :=
  [parses_user_trace_line; state_sequence_check_passes_on_full_sequence;
   state_sequence_check_is_ordered_subsequence; state_sequence_check_fails_when_out_of_order;
   crc_ok_check_requires_flag; healthy_check_requires_boot_result;
   parses_expectations_from_directives; crc_bad_check_requires_failed_and_no_ok;
   rolled_back_check_requires_flag; active_slot_check_matches_final_slot;
   rollback_state_sequence_reaches_rolled_back; parses_rollback_expectations_from_directives;
   interrupted_write_aborts_before_verify_and_keeps_slot_a;
   failed_health_commits_valid_image_then_rolls_back_to_slot_a;
   powercut_precommit_reverts_valid_image_to_slot_a].

Lemma ota_tests_pass : all_pass tests = true.
Proof. by vm_compute. Qed.
End ota_tests.

(** `src/dogfood/src/charging.rs` *)
Module charging_tests.
Import ChargingLane.

Definition parses_user_trace_line : test :=
  let line := raw "[machine.1]            0 user-u32 `gateway_charging_state` = 5" in
  let! event := unwrap (parse_user_trace_line line) in
  assert! Lane.machine event == NODE_GATEWAY in
  assert! Lane.label event == "gateway_charging_state" in
  assert! Lane.value event == 5 in
  Ret tt.

Definition charging_mode_check_passes_on_charging_state : test :=
  let trace := [t NODE_GATEWAY "gateway_charging_state" VEHICLE_CHARGING] in
  let c := evaluate ChargingMode trace in
  holds c.

Definition charging_mode_check_fails_without_charging_state : test :=
  let trace := [t NODE_GATEWAY "vehicle_mode" 1] in
  let c := evaluate ChargingMode trace in
  fails c.

Definition drive_blocked_check_requires_flag_and_charging : test :=
  let ok := [
    t NODE_GATEWAY "charging_drive_blocked" 1;
    t NODE_GATEWAY "gateway_charging_state" VEHICLE_CHARGING] in
  let! _ := holds (evaluate DriveBlocked ok) in
  let bad := [
    t NODE_GATEWAY "charging_drive_blocked" 0;
    t NODE_GATEWAY "gateway_charging_state" VEHICLE_CHARGING] in
  fails (evaluate DriveBlocked bad).

Definition motor_torque_check_requires_zero_and_disabled : test :=
  let ok := [t NODE_POWERTRAIN "charging_motor_command" 0] in
  let! _ := holds (evaluate (MotorTorque 0) ok) in
  let bad := [t NODE_POWERTRAIN "charging_motor_command" (Z.lor (Z.shiftl 40 8) 1)] in
  let! _ := fails (evaluate (MotorTorque 0) bad) in
  fails (evaluate (MotorTorque 0) []).

Definition parses_expectations_from_directives : test :=
  let exps := parse_expectations (text [
    "# charging-expect: charging-mode";
    "# charging-expect: drive-blocked";
    "# charging-expect: motor-torque max=0";
    "name = `x`"]) in
  assert! exps == [ChargingMode; DriveBlocked; MotorTorque 0] in
  Ret tt.

Definition tests : list test :=
  [parses_user_trace_line; charging_mode_check_passes_on_charging_state;
   charging_mode_check_fails_without_charging_state;
   drive_blocked_check_requires_flag_and_charging;
   motor_torque_check_requires_zero_and_disabled; parses_expectations_from_directives].

Lemma charging_tests_pass : all_pass tests = true.
Proof. by vm_compute. Qed.
End charging_tests.

(** `src/dogfood/src/diagnostics.rs` *)
Module diagnostics_tests.
Import DiagnosticsLane.

Definition parses_user_trace_line : test :=
  let line := raw "[machine.1]            0 user-u32 `gateway_diag_response` = 16842758" in
  let! event := unwrap (parse_user_trace_line line) in
  assert! Lane.machine event == NODE_GATEWAY in
  assert! Lane.label event == "gateway_diag_response" in
  assert! Lane.value event == 16842758 in
  Ret tt.

Definition collects_diag_response_pair : test :=
  let trace := [
    t NODE_GATEWAY "gateway_diag_response"
      (Z.lor (Z.lor (Z.shiftl 3 24) (Z.shiftl DIAG_READ_DTCS 16)) 1);
    t NODE_GATEWAY "gateway_diag_response_v1"
      (Z.lor (Z.lor (Z.shiftl 3 24) (Z.shiftl DIAG_READ_DTCS 16)) 7)] in
  let responses := collect_diag_responses trace in
  let! dtc := unwrap (response responses DIAG_READ_DTCS 3) in
  assert! status dtc == DIAG_OK in
  assert! value0 dtc == 1 in
  assert! value1 dtc == 7 in
  Ret tt.

Definition collects_service_motor_commands : test :=
  let trace := [t NODE_POWERTRAIN "diag_motor_command" 0] in
  assert! collect_service_motor_commands trace == [0] in
  Ret tt.

Definition tests : list test :=
  [parses_user_trace_line; collects_diag_response_pair; collects_service_motor_commands].

Lemma diagnostics_tests_pass : all_pass tests = true.
Proof. by vm_compute. Qed.
End diagnostics_tests.

(** `src/dogfood/src/telematics.rs` *)
Module telematics_tests.
Import TelematicsLane.

Definition telem (l : string) (v : Z) : TelemTrace := {| label := l; value := v |}.

Definition parse_user_u32_parses_valid_line : test :=
  let line := raw "[machine.1] 100000 user-u32 `telem_hb` = 3" in
  let! (mid, t) := unwrap (parse_user_u32 line) in
  assert! mid == 1 in
  assert! label t == "telem_hb" in
  assert! value t == 3 in
  Ret tt.

Definition parse_user_u32_rejects_non_user_u32 : test :=
  let line := "[machine.1] 100000 can-rx id=0x0200 len=8" in
  assert! is_none (parse_user_u32 line) in
  Ret tt.

Definition parse_user_u32_rejects_non_trace : test :=
  assert! is_none (parse_user_u32 "=== eth_status_test ===") in
  assert! is_none (parse_user_u32 "") in
  assert! is_none (parse_user_u32 "PASS") in
  Ret tt.

Definition split_label_eq_parses_label_and_value : test :=
  let! (label, val) := unwrap (split_label_eq (raw "`telem_net_sent` = 11")) in
  assert! label == "telem_net_sent" in
  assert! val == "11" in
  Ret tt.

Definition label_values_filters_by_label : test :=
  let traces := [telem "telem_hb" 0; telem "telem_hb" 1; telem "telem_net_sent" 11] in
  let hb := label_values traces "telem_hb" in
  assert! hb == [0; 1] in
  Ret tt.

Definition heartbeat_monotonic_passes_ordered : test :=
  let traces := [telem "telem_hb" 0; telem "telem_hb" 1; telem "telem_hb" 2; telem "telem_hb" 3] in
  let c := check_heartbeat_monotonic traces in
  holds c.

Definition heartbeat_monotonic_fails_regression : test :=
  let traces := [telem "telem_hb" 0; telem "telem_hb" 1; telem "telem_hb" 2; telem "telem_hb" 1] in
  let c := check_heartbeat_monotonic traces in
  fails c.

Definition send_record_size_passes_all_11 : test :=
  let traces := [telem "telem_net_sent" 11; telem "telem_net_sent" 11] in
  let c := check_send_record_size traces in
  holds c.

Definition send_record_size_fails_bad_size : test :=
  let traces := [telem "telem_net_sent" 11; telem "telem_net_sent" 7] in
  let c := check_send_record_size traces in
  fails c.

Definition check_booted_passes_with_boot_event : test :=
  let traces := [telem "telematics_boot" 1] in
  let c := check_booted traces in
  holds c.

Definition check_booted_fails_without_event : test :=
  let traces : list TelemTrace := [] in
  let c := check_booted traces in
  fails c.

Definition tests : list test :=
  [parse_user_u32_parses_valid_line; parse_user_u32_rejects_non_user_u32;
   parse_user_u32_rejects_non_trace; split_label_eq_parses_label_and_value;
   label_values_filters_by_label; heartbeat_monotonic_passes_ordered;
   heartbeat_monotonic_fails_regression; send_record_size_passes_all_11;
   send_record_size_fails_bad_size; check_booted_passes_with_boot_event;
   check_booted_fails_without_event].

Lemma telematics_tests_pass : all_pass tests = true.
Proof. by vm_compute. Qed.
End telematics_tests.

(** `src/dogfood/src/debug_gym.rs` *)
Module debug_gym_tests.
Import DebugGym.

Definition parse_duration_ms_reads_value : test :=
  let f := text ["name = `x`"; "duration_ms = 2000"; "[[machine]]"; "id=1"; "name=`a`"] in
  assert! parse_duration_ms (ROk f) == Some 2000 in
  let g := text ["name = `x`"] in
  assert! parse_duration_ms (ROk g) == None in
  Ret tt.

Definition max_trace_time_finds_max : test :=
  let trace := [
    "[machine.1]        10 can-rx id=0x0102";
    "[machine.2]   2990500 can-rx id=0x0102";
    "[machine.1]       500 task-yield";
    "PASS"] in
  assert! max_trace_time trace == 2990500 in
  assert! max_trace_time [] == 0 in
  Ret tt.

Definition tests : list test := [parse_duration_ms_reads_value; max_trace_time_finds_max].

Lemma debug_gym_tests_pass : all_pass tests = true.
Proof. by vm_compute. Qed.
End debug_gym_tests.
