(* ===== verification/TestReports.v ===== *)
(** The unit tests of the topology lane, the malformed-scenario lane, the simfarm checks and
    the seeded-bug corpus (`src/dogfood/src`).  A test that writes a temporary file and reads
    it back passes the text of the file. *)
From S2P Require Import Prelude MachineInt RustStr OrdMap Json Runner Lane TopologyLane.
From S2P Require Import TomlZooLane SimfarmLane Corpus Testing.

(** `src/dogfood/src/topology.rs`: an ordered set is the list of its elements, an ordered map
    the list of its entries. *)
Module topology_tests.
Import TopologyLane.

Definition parse_can_rx_extracts_receiver_and_id : test :=
  let line := "[machine.3]          500 can-rx receiver=3 id=0x07a0 len=1" in
  assert! parse_can_rx line == Some (3, 0x07a0) in
  assert! parse_can_rx "[machine.1] 10 can-tx sender=1 id=0x0001 len=5" == None in
  assert! parse_can_rx "PASS" == None in
  Ret tt.

(** `Probe { id: 0x07a0, id_hex: "0x07a0".into(), expect }` *)
Definition probe_of (expected : list Z) : Probe :=
  {| id := 0x07a0; id_hex := "0x07a0"; expect := set_of expected |}.

Definition probe_passes_on_exact_set_each_once : test :=
  let probe := probe_of [1; 3] in
  let actual := [(1, 1); (3, 1)] in
  assert! pr_passed (evaluate_probe probe actual) in
  Ret tt.

Definition probe_fails_on_unexpected_receiver : test :=
  let probe := probe_of [1] in
  let actual := [(1, 1); (4, 1)] in
  let r := evaluate_probe probe actual in
  assert! negb (pr_passed r) in
  assert! contains "unexpected" (pr_detail r) in
  Ret tt.

Definition probe_fails_on_missing_receiver : test :=
  let probe := probe_of [1; 3] in
  let actual := [(1, 1)] in
  assert! negb (pr_passed (evaluate_probe probe actual)) in
  Ret tt.

Definition probe_fails_on_duplicate_injection : test :=
  let probe := probe_of [1] in
  let actual := [(1, 2)] in
  let r := evaluate_probe probe actual in
  assert! negb (pr_passed r) in
  assert! contains "duplicate" (pr_detail r) in
  Ret tt.

Definition empty_expect_means_no_receivers : test :=
  let probe := probe_of [] in
  assert! pr_passed (evaluate_probe probe []) in
  assert! negb (pr_passed (evaluate_probe probe [(1, 1)])) in
  Ret tt.

Definition parse_hex_handles_hex_and_decimal : test :=
  assert! parse_hex_u32 "0x07a0" == Some 0x07a0 in
  assert! parse_hex_u32 "1952" == Some 1952 in
  assert! normalize_hex "0x7a0" == "0x07a0" in
  Ret tt.

Definition parse_v2_line_extracts_edge : test :=
  let line := raw ("{`trace_id`:1,`correlation_id`:7,`virtual_time`:50500,"
    +:+ "`event_type`:`can_frame`,`direction`:`rx`,`bus_or_link_id`:`vcan_drive`,"
    +:+ "`message_id`:1952,`source`:2,`destination`:3,`len`:3}") in
  let! e := unwrap (parse_v2_line line) in
  assert! correlation_id e == 7 in
  assert! direction e == "rx" in
  assert! message_id e == 1952 in
  assert! source e == 2 in
  assert! destination e == 3 in
  assert! is_none (parse_v2_line "not json") in
  Ret tt.

Definition edge (dir : string) (corr parent src dst : Z) : V2Edge := {|
  correlation_id := corr; parent_id := parent; direction := dir; message_id := 0x07a0;
  source := src; destination := dst |}.

Definition correlation_passes_on_shared_id_source_and_expected_dests : test :=
  let probe := probe_of [1; 3] in
  let edges := [edge "tx" 5 0 2 0; edge "rx" 5 0 2 1; edge "rx" 5 0 2 3] in
  assert! cr_passed (evaluate_correlation probe edges) in
  Ret tt.

Definition correlation_passes_with_forwarding : test :=
  let probe := probe_of [1; 3; 4] in
  let edges := [edge "tx" 5 0 2 0; edge "rx" 5 0 2 1; edge "rx" 5 0 2 3;
                edge "tx" 6 5 1 0; edge "rx" 6 5 1 4] in
  let r := evaluate_correlation probe edges in
  assert! cr_passed r in
  assert! contains "forwarded" (cr_detail r) in
  Ret tt.

Definition correlation_fails_on_split_correlation_id : test :=
  let probe := probe_of [1; 3] in
  let edges := [edge "tx" 5 0 2 0; edge "rx" 5 0 2 1; edge "rx" 6 0 2 3] in
  assert! negb (cr_passed (evaluate_correlation probe edges)) in
  Ret tt.

Definition correlation_fails_when_v2_absent : test :=
  let probe := probe_of [1] in
  let r := evaluate_correlation probe [] in
  assert! negb (cr_passed r) in
  assert! contains "no trace v2" (cr_detail r) in
  Ret tt.

Definition tests : list test :=
  [parse_can_rx_extracts_receiver_and_id; probe_passes_on_exact_set_each_once;
   probe_fails_on_unexpected_receiver; probe_fails_on_missing_receiver;
   probe_fails_on_duplicate_injection; empty_expect_means_no_receivers;
   parse_hex_handles_hex_and_decimal; parse_v2_line_extracts_edge;
   correlation_passes_on_shared_id_source_and_expected_dests; correlation_passes_with_forwarding;
   correlation_fails_on_split_correlation_id; correlation_fails_when_v2_absent].

Lemma topology_tests_pass : all_pass tests = true.
Proof. by vm_compute. Qed.
End topology_tests.

(** `src/dogfood/src/toml_zoo.rs` *)
Module toml_zoo_tests.
Import TomlZooLane.

Definition synthetic_run (st : RunStatus.t) (code : option Z) (err : list string) : ScenarioRun := {|
  Runner.scenario := "synthetic"; Runner.status := st; exit_code := code; trace := [];
  wall := 1000000; stdout_tail := []; stderr_tail := err |}.

Definition case (kind : string) : TomlZooCase :=
  {| tz_name := "c"; path := "c.toml"; tz_expected_kind := kind |}.

Definition parse_error_kind_extracts_tag : test :=
  let run := synthetic_run RunStatus.Fail (Some 2)
    ["microcar: error [missing-gateway]: scenario has a powertrain ECU but no gateway"] in
  assert! parse_error_kind run == Some "missing-gateway" in
  Ret tt.

Definition parse_error_kind_none_when_absent : test :=
  let run := synthetic_run RunStatus.Fail (Some 1) ["some other output"] in
  assert! parse_error_kind run == None in
  Ret tt.

Definition case_passes_on_expected_kind_and_exit_2 : test :=
  let run := synthetic_run RunStatus.Fail (Some 2) ["microcar: error [parse]: bad toml"] in
  let r := evaluate_case (case "parse") run in
  assert! c_passed r in
  Ret tt.

Definition case_fails_on_wrong_kind : test :=
  let run := synthetic_run RunStatus.Fail (Some 2) ["microcar: error [invalid]: x"] in
  let r := evaluate_case (case "parse") run in
  assert! negb (c_passed r) in
  Ret tt.

Definition case_fails_on_panic_even_if_kind_matches : test :=
  let run := synthetic_run RunStatus.Panic (Some 101)
    ["thread 'main' panicked"; "microcar: error [parse]: x"] in
  let r := evaluate_case (case "parse") run in
  assert! negb (c_passed r) in
  assert! contains "PANICKED" (c_detail r) in
  Ret tt.

Definition case_fails_on_wrong_exit_code : test :=
  let run := synthetic_run RunStatus.Fail (Some 1) ["microcar: error [parse]: x"] in
  let r := evaluate_case (case "parse") run in
  assert! negb (c_passed r) in
  Ret tt.

Definition parse_expected_kind_reads_header : test :=
  let f := text ["# expect-kind:  duplicate-bus-node"; "name = `x`"] in
  assert! parse_expected_kind (ROk f) == Some "duplicate-bus-node" in
  let g := text ["name = `y`"] in
  assert! parse_expected_kind (ROk g) == None in
  Ret tt.

Definition report_passed_requires_all_cases_and_sibling : test :=
  let ok := {| c_name := "a"; c_expected_kind := "parse"; c_actual_kind := Some "parse";
               c_status := RunStatus.Fail; c_exit_code := Some 2; c_passed := true;
               c_detail := "" |} in
  let report := {| cases := [ok]; sibling := None |} in
  assert! report_passed report in
  let report := {| cases := cases report; sibling := Some {|
    healthy_scenario := "h"; healthy_status := RunStatus.Pass; bad_scenario := "b";
    bad_status := RunStatus.Fail; bad_exit_code := Some 2; isolated := false |} |} in
  assert! negb (report_passed report) in
  Ret tt.

Definition tests : list test :=
  [parse_error_kind_extracts_tag; parse_error_kind_none_when_absent;
   case_passes_on_expected_kind_and_exit_2; case_fails_on_wrong_kind;
   case_fails_on_panic_even_if_kind_matches; case_fails_on_wrong_exit_code;
   parse_expected_kind_reads_header; report_passed_requires_all_cases_and_sibling].

Lemma toml_zoo_tests_pass : all_pass tests = true.
Proof. by vm_compute. Qed.
End toml_zoo_tests.

(** `src/dogfood/src/simfarm.rs` *)
Module simfarm_tests.
Import SimfarmLane.

Definition rh (h : string) (st : RunStatus.t) : RunHash :=
  {| hash := h; rh_status := st; rh_wall_ms := 5 |}.

Definition simfarm_report (solo : string) (solo_clean : bool) (runs : list RunHash) : SimfarmReport :=
  let all_match := forallb (fun r => String.eqb (hash r) solo) runs in
  let all_clean := solo_clean && forallb (fun r => is_pass (rh_status r)) runs in
  {| sf_scenario := "demo"; sf_n := Z.of_nat (length runs); solo_hash := solo; concurrent := runs;
     all_match := all_match; all_clean := all_clean |}.

Definition churn_report (hashes : list string) (statuses : list RunStatus.t) : ChurnReport :=
  let iterations := Z.of_nat (length hashes) in
  let clean := countb is_pass statuses in
  let distinct := count_distinct hashes in
  let first := default "" (head hashes) in
  let stable := (clean =? iterations) && (distinct =? 1) in
  {| ch_scenario := "demo"; iterations := iterations; first_hash := first;
     distinct_hashes := distinct; clean := clean; stable := stable |}.

Definition panic_report (healthy : RunStatus.t) (healthy_h solo : string) (bad : RunStatus.t)
    (bad_code : option Z) : PanicIsolationReport :=
  let isolated := is_pass healthy && String.eqb healthy_h solo
                  && negb (bool_decide (bad = RunStatus.Panic)) in
  {| healthy_scenario := "good"; bad_scenario := "bad"; healthy_status := healthy;
     healthy_hash := healthy_h; healthy_solo_hash := solo; bad_status := bad;
     bad_exit_code := bad_code; isolated := isolated |}.

Definition simfarm_passes_when_all_match_and_clean : test :=
  let r := simfarm_report "abc" true
    [rh "abc" RunStatus.Pass; rh "abc" RunStatus.Pass; rh "abc" RunStatus.Pass] in
  assert! all_match r in
  assert! all_clean r in
  assert! simfarm_passed r in
  Ret tt.

Definition simfarm_fails_on_hash_mismatch : test :=
  let r := simfarm_report "abc" true [rh "abc" RunStatus.Pass; rh "xyz" RunStatus.Pass] in
  assert! negb (all_match r) in
  assert! all_clean r in
  assert! negb (simfarm_passed r) in
  Ret tt.

Definition simfarm_fails_on_unclean_status : test :=
  let r := simfarm_report "abc" true [rh "abc" RunStatus.Pass; rh "abc" RunStatus.Timeout] in
  assert! all_match r in
  assert! negb (all_clean r) in
  assert! negb (simfarm_passed r) in
  Ret tt.

Definition simfarm_json_has_lane_and_passed : test :=
  let r := simfarm_report "abc" true [rh "abc" RunStatus.Pass] in
  let s := to_pretty (simfarm_to_json r) in
  assert! contains (raw "`lane`: `simfarm`") s in
  assert! contains (raw "`solo_hash`: `abc`") s in
  assert! contains (raw "`passed`: true") s in
  assert! contains (raw "`status`: `PASS`") s in
  assert! count_char "{" s == count_char "}" s in
  assert! count_char "[" s == count_char "]" s in
  Ret tt.

Definition churn_stable_vs_unstable : test :=
  let stable_ := churn_report ["h"; "h"; "h"] [RunStatus.Pass; RunStatus.Pass; RunStatus.Pass] in
  assert! distinct_hashes stable_ == 1 in
  assert! clean stable_ == 3 in
  assert! stable stable_ in
  assert! churn_passed stable_ in
  let drift := churn_report ["h"; "h"; "g"] [RunStatus.Pass; RunStatus.Pass; RunStatus.Pass] in
  assert! distinct_hashes drift == 2 in
  assert! negb (churn_passed drift) in
  let unclean := churn_report ["h"; "h"; "h"] [RunStatus.Pass; RunStatus.Pass; RunStatus.Fail] in
  assert! distinct_hashes unclean == 1 in
  assert! clean unclean == 2 in
  assert! negb (churn_passed unclean) in
  Ret tt.

Definition churn_json_has_lane_and_passed : test :=
  let r := churn_report ["h"; "h"] [RunStatus.Pass; RunStatus.Pass] in
  let s := to_pretty (churn_to_json r) in
  assert! contains (raw "`lane`: `churn`") s in
  assert! contains (raw "`first_hash`: `h`") s in
  assert! contains (raw "`distinct_hashes`: 1") s in
  assert! contains (raw "`passed`: true") s in
  assert! count_char "{" s == count_char "}" s in
  Ret tt.

Definition panic_isolation_logic : test :=
  let ok := panic_report RunStatus.Pass "h" "h" RunStatus.Fail (Some 2) in
  assert! isolated ok in
  assert! isolation_passed ok in
  let crashed := panic_report RunStatus.Pass "h" "h" RunStatus.Panic None in
  assert! negb (isolated crashed) in
  assert! negb (isolation_passed crashed) in
  let drift := panic_report RunStatus.Pass "h2" "h" RunStatus.Fail (Some 2) in
  assert! negb (isolated drift) in
  let unhealthy := panic_report RunStatus.Timeout "h" "h" RunStatus.Fail (Some 2) in
  assert! negb (isolated unhealthy) in
  Ret tt.

Definition panic_json_includes_exit_code_and_lane : test :=
  let r := panic_report RunStatus.Pass "h" "h" RunStatus.Fail (Some 2) in
  let s := to_pretty (isolation_to_json r) in
  assert! contains (raw "`lane`: `panic_isolation`") s in
  assert! contains (raw "`bad_status`: `FAIL`") s in
  assert! contains (raw "`bad_exit_code`: 2") s in
  assert! contains (raw "`isolated`: true") s in
  assert! contains (raw "`passed`: true") s in
  let signalled := panic_report RunStatus.Pass "h" "h" RunStatus.Fail None in
  assert! contains (raw "`bad_exit_code`: `none`") (to_pretty (isolation_to_json signalled)) in
  assert! count_char "{" s == count_char "}" s in
  Ret tt.

Definition tests : list test :=
  [simfarm_passes_when_all_match_and_clean; simfarm_fails_on_hash_mismatch;
   simfarm_fails_on_unclean_status; simfarm_json_has_lane_and_passed; churn_stable_vs_unstable;
   churn_json_has_lane_and_passed; panic_isolation_logic; panic_json_includes_exit_code_and_lane].

Lemma simfarm_tests_pass : all_pass tests = true.
Proof. by vm_compute. Qed.

(** The tests build their reports by hand; [run_simfarm] computes the same report from runs. *)
Lemma simfarm_report_mirrors (solo : ScenarioRun) (thread : nat -> ScenarioRun) (n : Z) :
  1 <= n ->
  run_simfarm solo thread n =
  {| sf_scenario := Runner.scenario solo; sf_n := n;
     solo_hash := TraceHash.normalized_hash (Runner.trace solo);
     concurrent := map from_run (run_concurrent thread n);
     all_match := all_match (simfarm_report (TraceHash.normalized_hash (Runner.trace solo))
                    (is_pass (Runner.status solo)) (map from_run (run_concurrent thread n)));
     all_clean := all_clean (simfarm_report (TraceHash.normalized_hash (Runner.trace solo))
                    (is_pass (Runner.status solo)) (map from_run (run_concurrent thread n))) |}.
Proof. intros Hn. unfold run_simfarm. by rewrite Z.max_l by lia. Qed.
End simfarm_tests.

(** `src/dogfood/src/debug_gym_corpus.rs` *)
Module debug_gym_corpus_tests.
Import Corpus.

Definition t (l : string) (v : Z) : UserTrace :=
  {| Lane.machine := NODE_GATEWAY; Lane.label := l; Lane.value := v |}.

Definition buggy_trace : list UserTrace := [
  t "ota_state" 0; t "ota_state" 1; t "ota_state" 2; t "ota_crc_ok" 1; t "ota_state" 3;
  t "ota_slot" 1; t "ota_state" 4; t "ota_state" 5; t "ota_boot_result" 1].

Definition fixed_trace : list UserTrace := [
  t "ota_state" 0; t "ota_state" 1; t "ota_state" 2; t "ota_crc_ok" 0; t "ota_state" 6;
  t "ota_rollback" 1; t "ota_active_slot" 0; t "ota_boot_result" 0].

Definition parses_user_trace_line : test :=
  let line := raw "[machine.1]            0 user-u32 `ota_state` = 3" in
  let! e := unwrap (parse_user_trace_line line) in
  assert! Lane.machine e == NODE_GATEWAY in
  assert! Lane.label e == "ota_state" in
  assert! Lane.value e == 3 in
  Ret tt.

(** `assert_eq!(checks.len(), 3)` and every check passes. *)
Definition three_pass (checks : list Check) : test :=
  assert! length checks == 3%nat in
  for_each checks (fun c => assert (Lane.passed c)).

(** `!checks.iter().find(|c| c.name == name).unwrap().passed` *)
Definition check_fails (checks : list Check) (name : string) : test :=
  let! c := unwrap (List.find (fun c => String.eqb (Lane.name c) name) checks) in
  assert (negb (Lane.passed c)).

Definition ota_rollback_seed_passes_on_real_trace_pair : test :=
  let traces := {| failing := buggy_trace; fixed := fixed_trace |} in
  let checks := evaluate OtaRollback traces in
  three_pass checks.

Definition mc (torque : Z) (motor_enable : bool) : UserTrace := {|
  Lane.machine := NODE_POWERTRAIN; Lane.label := "diag_motor_command";
  Lane.value := Z.lor (cast U32 (Z.shiftl (cast U8 torque) 8)) (if motor_enable then 1 else 0) |}.

Definition service_bug_trace : list UserTrace := [mc 80 true; mc 80 true; mc 80 true].
Definition service_fixed_trace : list UserTrace := [mc 0 false; mc 0 false; mc 0 false].

Definition decodes_packed_motor_command : test :=
  let cmds := service_motor_commands
    [{| Lane.machine := NODE_POWERTRAIN; Lane.label := "diag_motor_command"; Lane.value := 20481 |}] in
  assert! length cmds == 1%nat in
  let! c := nth_or_panic cmds 0 in
  assert! torque c == 80 in
  assert! motor_enable c in
  Ret tt.

Definition service_torque_seed_passes_on_real_trace_pair : test :=
  let traces := {| failing := service_bug_trace; fixed := service_fixed_trace |} in
  let checks := evaluate ServiceTorqueClamp traces in
  three_pass checks.

Definition service_torque_fails_when_buggy_firmware_actually_clamps : test :=
  let traces := {| failing := service_fixed_trace; fixed := service_fixed_trace |} in
  let checks := evaluate ServiceTorqueClamp traces in
  check_fails checks "bug-reproduced".

Definition service_torque_fails_when_fixed_firmware_still_drives : test :=
  let traces := {| failing := service_bug_trace; fixed := service_bug_trace |} in
  let checks := evaluate ServiceTorqueClamp traces in
  let! _ := check_fails checks "bug-fixed" in
  check_fails checks "traces-diverge".

Definition fails_when_buggy_firmware_actually_rolls_back : test :=
  let traces := {| failing := fixed_trace; fixed := fixed_trace |} in
  let checks := evaluate OtaRollback traces in
  check_fails checks "bug-reproduced".

Definition fails_when_fixed_firmware_still_boots_bad_image : test :=
  let traces := {| failing := buggy_trace; fixed := buggy_trace |} in
  let checks := evaluate OtaRollback traces in
  let! _ := check_fails checks "bug-fixed" in
  check_fails checks "traces-diverge".

Definition dtc_resp (req count : Z) : UserTrace := {|
  Lane.machine := NODE_GATEWAY; Lane.label := "gateway_diag_response";
  Lane.value := Z.lor (Z.lor (cast U32 (Z.shiftl req 24)) (cast U32 (Z.shiftl DIAG_READ_DTCS 16))) count |}.

Definition clear_bug_trace : list UserTrace :=
  [dtc_resp REQ_READ_DTCS_PRE 2; dtc_resp REQ_READ_DTCS_POST 0].
Definition clear_fixed_trace : list UserTrace :=
  [dtc_resp REQ_READ_DTCS_PRE 2; dtc_resp REQ_READ_DTCS_POST 1].

Definition clear_all_dtcs_decodes_response_count : test :=
  assert! dtc_count [dtc_resp 5 1] REQ_READ_DTCS_POST == Some 1 in
  assert! dtc_count [dtc_resp 3 2] REQ_READ_DTCS_PRE == Some 2 in
  Ret tt.

Definition clear_all_dtcs_seed_passes_on_real_trace_pair : test :=
  let traces := {| failing := clear_bug_trace; fixed := clear_fixed_trace |} in
  let checks := evaluate ClearAllDtcs traces in
  three_pass checks.

Definition clear_all_dtcs_fails_when_buggy_firmware_scopes_clear : test :=
  let traces := {| failing := clear_fixed_trace; fixed := clear_fixed_trace |} in
  let checks := evaluate ClearAllDtcs traces in
  check_fails checks "bug-reproduced".

Definition clear_all_dtcs_fails_when_fixed_firmware_still_clears_all : test :=
  let traces := {| failing := clear_bug_trace; fixed := clear_bug_trace |} in
  let checks := evaluate ClearAllDtcs traces in
  let! _ := check_fails checks "bug-fixed" in
  check_fails checks "traces-diverge".

Definition start_session_resp (status mode : Z) : UserTrace := {|
  Lane.machine := NODE_GATEWAY; Lane.label := "gateway_diag_response";
  Lane.value := Z.lor (Z.lor (Z.lor (cast U32 (Z.shiftl 1 24)) (cast U32 (Z.shiftl DIAG_START_SESSION 16)))
                         (cast U32 (Z.shiftl status 8))) mode |}.

Definition start_drive_bug_trace : list UserTrace := [start_session_resp DIAG_OK VEHICLE_SERVICE].
Definition start_drive_fixed_trace : list UserTrace := [start_session_resp DIAG_REJECTED VEHICLE_DRIVE].

Definition start_session_decodes_status_and_mode : test :=
  let! (status, mode) := unwrap
    (diag_response_status_value0 [start_session_resp DIAG_OK VEHICLE_SERVICE] 1 1) in
  assert! status == DIAG_OK in
  assert! mode == VEHICLE_SERVICE in
  Ret tt.

Definition start_session_in_drive_seed_passes_on_real_trace_pair : test :=
  let traces := {| failing := start_drive_bug_trace; fixed := start_drive_fixed_trace |} in
  let checks := evaluate StartSessionInDrive traces in
  three_pass checks.

Definition start_session_in_drive_fails_when_buggy_firmware_rejects : test :=
  let traces := {| failing := start_drive_fixed_trace; fixed := start_drive_fixed_trace |} in
  let checks := evaluate StartSessionInDrive traces in
  check_fails checks "bug-reproduced".

Definition start_session_in_drive_fails_when_fixed_firmware_still_accepts : test :=
  let traces := {| failing := start_drive_bug_trace; fixed := start_drive_bug_trace |} in
  let checks := evaluate StartSessionInDrive traces in
  let! _ := check_fails checks "bug-fixed" in
  check_fails checks "traces-diverge".

Definition report_totals_and_json : test :=
  let report := [{| sd_name := "ota_rollback"; sd_description := "d"; sd_symptom := "s";
                    sd_primitive := "p"; sd_passed := true; sd_run_error := None;
                    sd_checks := [{| Lane.name := "bug-reproduced"; Lane.passed := true;
                                     Lane.detail := "ok" |}] |}] in
  assert! totals report == (1, 0) in
  assert! report_passed report in
  let json := to_pretty (to_json report) in
  assert! contains "debug_gym_corpus" json in
  assert! contains "ota_rollback" json in
  Ret tt.

Definition tests : list test :=
  [parses_user_trace_line; ota_rollback_seed_passes_on_real_trace_pair;
   decodes_packed_motor_command; service_torque_seed_passes_on_real_trace_pair;
   service_torque_fails_when_buggy_firmware_actually_clamps;
   service_torque_fails_when_fixed_firmware_still_drives;
   fails_when_buggy_firmware_actually_rolls_back;
   fails_when_fixed_firmware_still_boots_bad_image; clear_all_dtcs_decodes_response_count;
   clear_all_dtcs_seed_passes_on_real_trace_pair;
   clear_all_dtcs_fails_when_buggy_firmware_scopes_clear;
   clear_all_dtcs_fails_when_fixed_firmware_still_clears_all;
   start_session_decodes_status_and_mode; start_session_in_drive_seed_passes_on_real_trace_pair;
   start_session_in_drive_fails_when_buggy_firmware_rejects;
   start_session_in_drive_fails_when_fixed_firmware_still_accepts; report_totals_and_json].

Lemma corpus_tests_pass : all_pass tests = true.
Proof. by vm_compute. Qed.
End debug_gym_corpus_tests.
